(* ===== verification/_CoqProject ===== *)
-Q . S2P
Prelude.v
Messages.v
Arbiters.v
ClockManager.v
CText.v
FrfcfsBuffer.v
CacheLine.v
DataHandler.v
DataHandlerView.v
FsmReader.v
FsmTables.v
Protocol.v
SnoopL1.v
SnoopLLC.v
SnoopTheory.v
DirL1.v
DirLLC.v
BusInterfaces.v
MainMemory.v
BusControllers.v
BusTheory.v
Topology.v
Mesh.v
MeshTheory.v
ControllerState.v
CacheController.v
ControllerTheory.v
ControllerLive.v
ControllerData.v
DirTheory.v
DirShared.v
ControllerDemo.v
Coherence.v
CoherenceStore.v
TaskFile.v
TaskTheory.v
Cpu.v
CpuTheory.v
Preload.v
PreloadTheory.v
External.v
ExternalLaws.v
ExternalTheory.v
Dram.v
Ddr.v
DramTheory.v
DdrTheory.v
McTypes.v
McDevice.v
McSchedulers.v
McController.v
McQueueTheory.v
McCommandTheory.v
McTheory.v
McConserve.v
McAnswers.v
McAddress.v
McTotal.v
McDemo.v
Config.v
ConfigText.v
ConfigTheory.v
ConfigFiles.v
Protocols.v
Ports.v
Assembly.v
System.v
Simulator.v
CoreTheory.v
SystemTheory.v
AssemblyTheory.v
SystemRuns.v
SystemDemo.v
Logger.v
LoggerTheory.v
LogTrace.v
LogTraceTheory.v
Gem5.v
Gem5Theory.v
Gem5Ports.v
