(* ===== verification/Prelude.v ===== *)
(** * The Octopus cache simulator: a verification library

    Octopus simulates the memory hierarchy of a multicore: cores, private
    caches, a shared cache, the buses between them and the memory, each a
    component called once per clock period ([header/], [src/]).  This library
    translates its core, the cache controllers with everything they call, the
    interconnects, the cores, the memories and the clock, the configuration and
    the assembly of a system from it, and proves what makes each part, and a
    whole run, correct.
    This file is the prelude: outcomes, machine integers, the hint database
    [octopus] and the tactic [split_ok].

    ** The parts and how they interact

    The clock calls every component once per period.  A core puts requests on
    the lower interface of its private cache.  A cache controller takes one
    message per interface and cycle into its request queue, then serves every
    message that is ready: it asks its coherence protocol what to do, and the
    protocol, which reads the line's state from the data handler and a table,
    answers with a list of actions the controller carries out (answer the core,
    store bytes, send a request to the bus, supply another cache, park).  A bus
    elects a request, waits its latency, and delivers it to every interface;
    answers go to the interfaces they name.  The shared cache is a controller
    with a protocol of its own, whose upper interface leads to the memory.

    ** The files

    - [Messages]: [class Message], [class CommunicationInterface]
      ([header/Interconnect/CommunicationInterface.h]); the interface is the
      class [CommInterface], its laws [CommInterfaceLaws].
    - [Arbiters]: [src/Arbiters/]; [ArbiterObj] is an arbiter with its class.
    - [FrfcfsBuffer]: [header/FRFCFS_Buffer.h], the request queue.
    - [CacheLine]: [src/GenericCacheLine.cpp], [src/ReplacementPolicies/].
    - [DataHandler]: [src/CacheDataHandler.cpp], the array, its way partition
      and port timing, and [src/CacheDataHandler_COTS.cpp], which adds miss
      registers and a write-back buffer.  [DataHandlerView]: its abstract
      specification, a finite map from blocks to lines, and the refinement.
    - [CText], [FsmReader]: the C++ text functions and [src/FSMReader.cpp].
      [FsmTables]: the twenty tables of [Protocols_FSM/] as text.
    - [Protocol], [SnoopL1], [SnoopLLC]: [src/Protocols/], the snooping
      handlers; the class [CoherenceProtocol] is what a controller knows of
      them.  [SnoopTheory]: their properties.
    - [DirL1], [DirLLC]: the directory handlers of [src/Protocols/]; the maps
      they share with their controller are [Protocol.DirCounters].
      [DirTheory], [DirShared]: acknowledgements, a write from the request to
      its completion, the owner.
    - [BusInterfaces], [BusControllers]: [src/Interconnect/], the interfaces
      and controllers of the split, triple, unified and point-to-point buses
      and of the direct connection; a bus works over any [BusPort].
      [BusTheory]: their properties.  [Topology]: the buses and the direct
      connection as clocked components.
    - [Mesh]: the mesh and the network-on-chip of [src/Interconnect/], their
      interfaces, links, switches and routing tables.  [MeshTheory]: their
      properties.
    - [MainMemory]: [src/MainMemoryController.cpp].
    - [ControllerState], [CacheController]: [src/CacheControllers/], the fields
      and operations of the base, cache, exclusive, end-to-end and
      directory controllers,
      over any protocol and any interfaces.  [ControllerTheory],
      [ControllerLive], [ControllerData]: invariants, termination, and what is
      sent and stored; [ControllerDemo]: a concrete private cache on the
      shipped table, to which every one of these properties is applied.
    - [ClockManager]: [src/ClockManager.cpp].
    - [Coherence]: private MSI caches and an MSI shared cache, each with its
      own handler and table, on a bus that orders requests; one writer, and the
      owner the shared cache records.  It composes the handlers of [SnoopL1]
      and [SnoopLLC] over the state they keep per line, without replacements
      and back-invalidations; [CoherenceStore] shows that the data handler
      keeps that state.
    - [TaskFile]: the parser of task programs in [src/CPU.cpp], with the
      conversions of the C library it calls; [TaskTheory]: printed tasks are
      read back.
    - [Cpu]: [src/CPU.cpp], the core that replays a trace or runs a periodic
      task.  [CpuTheory]: its properties.
    - [Preload]: the functional writes and reads of a cache
      ([header/Initializable.h], [CacheController::initialize] and [read]).
      [PreloadTheory]: their properties.
    - [External]: [src/ExternalCPU.cpp], the port of a core model that lives
      outside, and [src/MCsimInterface.cpp], the bridge to the DRAM simulator;
      the outside is the classes [Embedder] and [DramSim].  [ExternalLaws],
      [ExternalTheory]: their properties.
    - [Dram], [Ddr]: [src/MCsim/dram/], the device as a tree of nodes with
      states and timing, over a record [Standard], and the DDR3 and DDR4
      standards with their tables.  [DramTheory], [DdrTheory]: what the checks
      of the tree guarantee.
    - [McTypes], [McDevice], [McSchedulers], [McController]: [src/MCsim/src/]
      and the schedulers of [generalScheduler/], [system/FCFS] and
      [system/FRFCFS]: requests and commands, their mapping and queues, the
      command generators, the device wrapper, the schedulers and the refresh
      machine, the controller with its configuration file, memory systems,
      channels and the clock crosser.  [McQueueTheory], [McCommandTheory],
      [McTheory], [McConserve], [McAnswers], [McAddress], [McTotal]: their
      properties; [McAnswers.MCsim_laws] makes this simulator an instance of
      the interface [DramSim] the bridge was proved against.  [McDemo]: the
      properties on concrete requests.
    - [Config]: [src/Configurable.cpp] and [src/CLParser.cpp], the files, the
      overrides of the command line and the parameters of a component.
      [ConfigText] prints them, [ConfigTheory]: their properties.
      [ConfigFiles]: the files of [configuration/] as text.
    - [Protocols], [Ports]: [header/Protocols/Protocols.h], the protocol of a
      name, and the interconnects with the interfaces components are plugged
      into, as instances of [CoherenceProtocol] and [CommInterface].
    - [Assembly]: the constructors, from the configuration to the state of a
      clocked object and its registration with the clock.
    - [System]: [src/SystemConfigurations/], the two systems: what is plugged
      into what, a cycle of each object on its interfaces, the clock over them.
      [Simulator]: [src/CacheSim.cpp] and [Octopus_Simulator.cpp].
    - [CoreTheory], [SystemTheory], [AssemblyTheory], [SystemRuns]: what a
      cycle of any object does to the system, what the constructors make sure
      of, and what follows for every run.  [SystemDemo]: the shipped presets,
      assembled and run.
    - [Logger]: [src/Logger.cpp], the timeline of each request, the rows of the
      latency, job and summary reports it becomes, and who is the oldest
      request of a core; files are the lists of their lines.  [LoggerTheory]:
      its properties.  [LogTrace]: the binary event trace of the same file and
      its reader [tools/octoviz/tracefile.py], over the two array functions of
      numpy as parameters; files are bytes.  [LogTraceTheory]: what is written
      is read back.
    - [Gem5]: [gem5/octopus.cc], the bridge that puts a private cache behind the
      ports of a gem5 core; packets, gem5's memory, the cores and the simulator
      are the classes [Packet], [Memory], [CoreSide] and [Engine].
      [Gem5Theory]: its properties, against the laws of these classes.
      [Gem5Ports]: the ports of [External] as an instance of [Engine] that
      meets them, and the properties on concrete packets.

    A C++ object is a record with the names of its fields; a method is a
    function from the object to its result and the object afterwards.  [exit]
    after a diagnostic is [Exit], an uncaught exception, a trap or an access
    that C++ leaves undefined is [Crash]; both carry the site.  Unsigned and
    64-bit values are integers with their wrap-around written out ([w16], [w32],
    [w64]).  Virtual dispatch is a type class where the callee is abstract
    (interfaces, protocols, ports, handlers) and a match on the dynamic class
    where the classes are known (arbiters, protocol classes, controllers).  A
    message handed over by copy or pointer is its value:
    [Messages.Message_copy_wf_id] proves that copying loses nothing.

    ** What is shown

    - Data: under the invariant [cots_wf] the array, the miss registers and the
      write-back buffer together are one map from blocks to lines, and every
      operation is the map operation it stands for, whatever it evicts; fills
      respect the way partition; addresses and (tag, set) pairs correspond; the
      victim is the least recently used of the allowed ways.
    - Controllers: for every protocol and all interfaces, in every reachable
      state at most one message per line waits for the data array when the
      interlock is on; the service loop of a cycle ends, within a bound; a fill
      answers everyone who waits, a deferred supply reaches everyone parked;
      admission respects the miss bound for absent lines; what a store hit
      acknowledges and what it writes.
    - Queue: the scan never reorders demands to one line, the skipped rescans
      are unobservable, ordered insertion keeps arrival order per source.
    - Protocols: readiness agrees with processing, write-backs precede the
      state change, the shared cache tracks the owner, ready messages never end
      the simulator; the shipped tables parse, are closed and use the numbers
      of the code, with the exceptions proved.
    - Coherence: on a snooping bus a line has one writer, known to the shared
      cache; a reader next to it only finishes a write granted before.
    - Directory: a write to a shared line completes, once every sharer has
      given the line up and not before, in any order of arrival; writes to an
      owned line form a chain through their writers.
    - Buses and arbiters: broadcasts are all or nothing, nothing is lost or
      doubled, the latency is exact, delivery order is kept; oldest first,
      bounded waiting, temporal isolation.
    - Mesh: a cycle conserves messages, the latency of a link is exact, one
      copy goes out per destination that has a route.
    - Memory and clock: a FIFO delay line; one exact step of simulated time; an
      interconnect runs on every other edge.
    - Core: the window of outstanding requests, the schedule of periodic jobs
      under overrun, and no work lost when a job is expanded; a printed task is
      read back, its ratios to the last bit.
    - Outside: a cycle of the external core's port ends and serves in order; the
      MCsim bridge answers each read once; functional writes are read back.
      The gem5 bridge never panics against a simulator that commits, then
      completes, a request once: data operations overlapping an older write
      wait for it, each packet is operated on and answered at most once, and
      once all are committed and completed, all are answered.
    - MCsim: as the bridge configures it, it never aborts, and it answers or
      still holds every request; under every configuration no command breaks a
      timing of the device that the scope of its level reaches, the beats the
      held requests wait for are those in its queues and on its buses, the
      clock crosser keeps the ratio exactly and the address mapping loses
      nothing.
    - Configuration: printed files are read back, an override reaches the
      component it names and no other, reading ends.
    - Reports: a row adds up to its total but for one interval, which no column
      has; the latencies as the oldest request add up to the time a core waits;
      an event trace is read back, by windows too.
    - Whole runs: whatever the command line, the files and the workloads, the
      interlock of every cache and the window of every core hold between any
      two steps of simulated time, and a run that returns has every core at
      rest, its work done; the shipped presets assemble.

    ** Fuel and bounds

    The service loop, the flush loops of the array and the clock's step loop
    have no bound in the source; their definitions take a fuel and answer
    [Crash] when it runs out.  [ControllerLive.process_loop_terminates] and
    [ClockManager.clkStep_exact] give fuels that suffice.  The loop of a switch
    ([Mesh.switch_drain]) and that over overrun periods ([Cpu.skip_periods])
    carry as fuel the number of waiting messages and of remaining jobs, which
    bound them; the splitting of a table row ([CText.fields_fuel]) carries its
    length.  The loops of the external core's port take a fuel;
    [ExternalTheory.external_cycle_serves] shows that one suffices for every
    state, however many requests the embedder makes.  In MCsim the state update
    of a device carries the depth of its tree ([Standard.lv_row]), a scheduling
    pass the length of the queue, [log2] the 32 bits of its argument;
    [McAnswers.crosser_exact] gives the fuel of the clock crosser, one turn for
    the clocks of the bridge.  Reading a configuration carries the depth of the
    chain of files ([ConfigTheory.parseFile_ends]) and the length of each file.
    [Gem5.performData] recurses through what a write releases and carries the
    number of pending requests ([Gem5Theory.performData_performs]);
    [Gem5.advance] the 1024 steps the source allows.
    A run of the clock ([System.system_run]) carries the number of steps: whether
    a simulation ends depends on its workloads and configuration, so its
    properties hold for every number of steps, and [SystemDemo] shows runs that
    end.  Every other recursion is structural.

    ** What is not modelled

    Printing and hang reports, which nothing reads back, [printConfig]
    included.  The components of the simulation do not call the logger here: its
    properties are about every sequence of calls made to it.  gem5 itself, its
    events and address ranges, and the timing path of the bridge's memory port,
    which nothing calls; the properties of the bridge are about every sequence
    of calls from the simulator that keeps to the protocol, not about the
    simulator of [System] making them.  XML and [src/CommandLine.cpp], parsers
    of other projects that nothing calls; a plain [BaseController] as an object
    of a system.
    Of MCsim: the DSARP standard, the policies registered beside DIRECT, FCFS,
    FRFCFS, PUSH, OPEN and CLOSE (choosing one is [Crash unmodelled]), the
    statistics and traces, and its own trace-driven requestors.  The file
    system, the draws of [rand] and what uninitialised memory holds are
    parameters. *)

From stdpp Require Export base gmap list strings numbers fin_maps.
From stdpp Require Import sorting.
From Stdlib Require Export ZArith Lia.

Declare Scope octopus_scope.
Delimit Scope octopus_scope with oct.
Open Scope Z_scope.

(** ** Outcomes of simulator code

    [exit(0)] after a diagnostic ends the simulator: the message names the
    site.  [Crash] is an exception nobody catches ([map::at], [vector::at],
    [std::function] with no target) or a trapping operation (division by 0). *)

Inductive outcome (A : Type) : Type :=
| Ok (a : A)
| Exit (site : string)
| Crash (why : string).
Arguments Ok {A} a.
Arguments Exit {A} site.
Arguments Crash {A} why.

Definition obind {A B} (m : outcome A) (f : A -> outcome B) : outcome B :=
  match m with
  | Ok a => f a
  | Exit s => Exit s
  | Crash s => Crash s
  end.

Notation "'let!' x ':=' m 'in' k" := (obind m (fun x => k))
  (at level 10, x pattern, m at level 100, k at level 200) : octopus_scope.
Open Scope octopus_scope.

Definition is_ok {A} (m : outcome A) : bool :=
  match m with Ok _ => true | _ => false end.

Lemma obind_Ok {A B} (m : outcome A) (f : A -> outcome B) b :
  obind m f = Ok b <-> exists a, m = Ok a /\ f a = Ok b.
Proof.
  destruct m as [a|s|s]; cbn.
  - split; [by exists a|by intros (? & [= <-] & ?)].
  - by split; [|intros (? & ? & ?)].
  - by split; [|intros (? & ? & ?)].
Qed.

(** Folding a fallible step over a list, left to right (a C++ [for] loop whose
    body may end the program). *)
Fixpoint ofold {A S} (f : S -> A -> outcome S) (l : list A) (s : S) : outcome S :=
  match l with
  | [] => Ok s
  | a :: l' => let! s' := f s a in ofold f l' s'
  end.

Lemma ofold_app {A S} (f : S -> A -> outcome S) l1 l2 s :
  ofold f (l1 ++ l2) s = let! s' := ofold f l1 s in ofold f l2 s'.
Proof.
  revert s; induction l1 as [|a l1 IH]; intros s; cbn; [done|].
  destruct (f s a); cbn; auto.
Qed.

(** An invariant of the step is an invariant of the loop. *)
Lemma ofold_inv {A S} (P : S -> Prop) (f : S -> A -> outcome S) l s s' :
  (forall t a t', a ∈ l -> P t -> f t a = Ok t' -> P t') ->
  P s -> ofold f l s = Ok s' -> P s'.
Proof.
  revert s; induction l as [|a l IH]; intros s Hstep HP; cbn.
  - by intros [= <-].
  - intros (t & Ht & Hl)%obind_Ok.
    eapply (IH t); [|eapply Hstep; [left|exact HP|exact Ht]|exact Hl].
    intros t0 a0 t1 Ha. apply Hstep. by right.
Qed.

(** ** Machine integers *)

Definition wrap (w : Z) (z : Z) : Z := z mod 2 ^ w.
Definition w16 : Z -> Z := wrap 16.
Definition w32 : Z -> Z := wrap 32.
Definition w64 : Z -> Z := wrap 64.
(** Conversion of an unsigned value to the signed type of the same width. *)
Definition to_signed (w : Z) (z : Z) : Z :=
  let u := wrap w z in if u <? 2 ^ (w - 1) then u else u - 2 ^ w.
Definition i32 : Z -> Z := to_signed 32.
Definition i64 : Z -> Z := to_signed 64.

Definition uint_max (w : Z) : Z := 2 ^ w - 1.

Lemma wrap_range w z : 0 <= w -> 0 <= wrap w z < 2 ^ w.
Proof. intros. apply Z.mod_pos_bound, Z.pow_pos_nonneg; lia. Qed.

Lemma wrap_small w z : 0 <= z < 2 ^ w -> wrap w z = z.
Proof. apply Z.mod_small. Qed.

Lemma w64_small z : 0 <= z < 2 ^ 64 -> w64 z = z.
Proof. apply wrap_small. Qed.

Lemma w16_small z : 0 <= z < 2 ^ 16 -> w16 z = z.
Proof. apply wrap_small. Qed.

Lemma to_signed_wrap w z : 0 <= w -> to_signed w (wrap w z) = to_signed w z.
Proof. intros. unfold to_signed, wrap. by rewrite Z.mod_mod by lia. Qed.

Lemma to_signed_small w z :
  0 < w -> - 2 ^ (w - 1) <= z < 2 ^ (w - 1) -> to_signed w z = z.
Proof.
  intros Hw Hz. unfold to_signed, wrap.
  assert (E : 2 ^ w = 2 * 2 ^ (w - 1)) by (rewrite <- Z.pow_succ_r by lia; f_equal; lia).
  destruct (decide (0 <= z)).
  - rewrite Z.mod_small by lia. destruct (Z.ltb_spec z (2 ^ (w - 1))); lia.
  - replace (z mod 2 ^ w) with (z + 2 ^ w).
    + destruct (Z.ltb_spec (z + 2 ^ w) (2 ^ (w - 1))); lia.
    + apply Z.mod_unique with (-1); lia.
Qed.

(** [(int)(uint64_t)id] is [id] for every [int] value. *)
Lemma i64_small z : - 2 ^ 63 <= z < 2 ^ 63 -> i64 z = z.
Proof. intros. by apply to_signed_small. Qed.

Lemma i32_small z : - 2 ^ 31 <= z < 2 ^ 31 -> i32 z = z.
Proof. intros. by apply to_signed_small. Qed.

Lemma w64_eqb_0 z : - 2 ^ 64 < z < 2 ^ 64 -> (w64 z =? 0) = (z =? 0).
Proof.
  intros Hz. unfold w64, wrap. destruct (Z.eqb_spec z 0) as [->|Hne]; [done|]. apply Z.eqb_neq.
  Z.to_euclidean_division_equations. lia.
Qed.

Lemma i32_w64 z : - 2 ^ 31 <= z < 2 ^ 31 -> i32 (w64 z) = z.
Proof.
  intros Hz. unfold i32, w64, to_signed, wrap.
  replace ((z mod 2 ^ 64) mod 2 ^ 32) with (z mod 2 ^ 32).
  - change (to_signed 32 z = z). apply to_signed_small; lia.
  - symmetry. apply Z.mod_mod_divide. by exists (2 ^ 32).
Qed.

(** ** Bits *)

Lemma testbit_small x k n : 0 <= x < 2 ^ k -> 0 <= k <= n -> Z.testbit x n = false.
Proof.
  intros Hx Hn. destruct (decide (x = 0)) as [->|]; [apply Z.bits_0|].
  apply Z.bits_above_log2; [lia|].
  apply Z.lt_le_trans with k; [|lia]. apply Z.log2_lt_pow2; lia.
Qed.

Lemma lor_disjoint x y : Z.land x y = 0 -> Z.lor x y = x + y.
Proof. intros H. by rewrite <- Z.lxor_lor, Z.add_nocarry_lxor. Qed.

(** ** Lists *)

Lemma filter_nil_iff {A} (P : A -> Prop) `{!forall x, Decision (P x)} l :
  filter P l = [] <-> forall x, x ∈ l -> ~ P x.
Proof.
  split.
  - intros Hnil x Hx HP. by apply (filter_nil_not_elem_of P l x Hnil HP).
  - intros Hno. destruct (filter P l) as [|x l'] eqn:E; [done|].
    assert (x ∈ filter P l) as [HP Hx]%list_elem_of_filter by (rewrite E; by left).
    by destruct (Hno x Hx).
Qed.

(** ** Permutations *)

Lemma pull_here {A} (a T : list A) : a ++ T ≡ₚ a ++ T.
Proof. done. Qed.

Lemma pull_skip {A} (b a T T' : list A) : T ≡ₚ a ++ T' -> b ++ T ≡ₚ a ++ b ++ T'.
Proof. intros ->. rewrite !app_assoc. f_equiv. apply Permutation_app_comm. Qed.

Lemma perm_step {A} (a R T T' : list A) : T ≡ₚ a ++ T' -> R ≡ₚ T' -> a ++ R ≡ₚ T.
Proof. by intros -> ->. Qed.

(** Goals [l ≡ₚ k] between appends of the same pieces. *)
Ltac pull := first [apply pull_here | apply pull_skip; pull].
Ltac solve_perm :=
  lazymatch goal with |- ?l ≡ₚ ?k => rewrite <- (app_nil_r l), <- (app_nil_r k) end;
  repeat match goal with
  | |- context [?x :: ?l] => lazymatch l with [] => fail | _ => change (x :: l) with ([x] ++ l) end
  end;
  rewrite <- ?app_assoc; cbn [app];
  repeat match goal with
  | |- context [?x :: ?l] => lazymatch l with [] => fail | _ => change (x :: l) with ([x] ++ l) end
  end;
  repeat (eapply perm_step; [pull|]); reflexivity.

(** ** Automation *)

Create HintDb octopus.
#[export] Hint Resolve w64_small w16_small wrap_range : octopus.

(** Take apart a run that ended well: [H : ... = Ok _] becomes the equations of
    its steps and the conditions of its branches. *)
Ltac split_ok H :=
  repeat match type of H with
  | obind _ _ = Ok _ => let x := fresh "x" in let E := fresh "E" in apply obind_Ok in H as (x & E & H)
  | context [match ?x with _ => _ end] => destruct x eqn:?; try discriminate H
  | Ok _ = Ok _ => injection H; clear H; intros; subst
  end.
