(* ===== verification/Messages.v ===== *)
(** * Messages and the communication interface

    [class Message] and the abstract [class CommunicationInterface] of
    [header/Interconnect/CommunicationInterface.h].  A [Message*]/[Message&]
    is a value here: [Message_copy_wf_id] shows that the copy constructor is the
    identity on well-formed messages, so passing, storing and returning a
    message is passing the value.  The interface is a type class: its
    operations are the virtual functions, its laws are what the controllers
    and the buses rely on. *)

From S2P Require Export Prelude.

(** ** Enumerations *)

Inductive MessageType := REQUEST | DATA_RESPONSE | SERVICE_REQUEST.
#[export] Instance MessageType_eq_dec : EqDecision MessageType.
Proof. solve_decision. Defined.

Inductive Source := LOWER_INTERCONNECT | UPPER_INTERCONNECT | SELF.
#[export] Instance Source_eq_dec : EqDecision Source.
Proof. solve_decision. Defined.

Inductive Kind :=
| K_UNKNOWN | K_DEMAND | K_GETS | K_GETM | K_PUTM | K_INV | K_MEM_READ | K_EVICT
| K_WB_DATA | K_WB_INV | K_SUPPLY | K_SUPPLY_DEFERRED | K_RESP | K_FILL
| K_FILL_ROLLBACK | K_MEM_WRITE | K_PUTS | K_FWD | K_ACK.
#[export] Instance Kind_eq_dec : EqDecision Kind.
Proof. solve_decision. Defined.

(** ** The message *)

Abbreviation bytes := (list Z) (only parsing).

Record Message := mkMessage {
  msg_id : Z;                 (* uint64_t *)
  msg_addr : Z;               (* uint64_t *)
  msg_cycle : Z;              (* uint64_t *)
  complementary_value : Z;    (* uint64_t *)
  complementary_value2 : Z;   (* uint64_t *)
  msg_owner : Z;              (* uint16_t *)
  msg_from : Z;               (* uint16_t *)
  msg_to : list Z;            (* vector<uint16_t> *)
  msg_source : Source;
  msg_data : option bytes;    (* None is the NULL pointer *)
  msg_data_size : Z;          (* uint16_t *)
  msg_kind : Kind }.
#[export] Instance Message_eq_dec : EqDecision Message.
Proof. solve_decision. Defined.

(** [Message(msg_id, addr, cycle, complementary_value, owner)]: every other
    field keeps its default member initialiser. *)
Definition newMessage (id addr cycle cv owner : Z) : Message :=
  mkMessage id addr cycle cv 0 (w16 owner) 0 [] LOWER_INTERCONNECT None 0 K_UNKNOWN.

Definition set_msg_cycle (c : Z) (m : Message) : Message :=
  mkMessage (msg_id m) (msg_addr m) c (complementary_value m) (complementary_value2 m)
    (msg_owner m) (msg_from m) (msg_to m) (msg_source m) (msg_data m) (msg_data_size m) (msg_kind m).
Definition set_msg_id (i : Z) (m : Message) : Message :=
  mkMessage i (msg_addr m) (msg_cycle m) (complementary_value m) (complementary_value2 m)
    (msg_owner m) (msg_from m) (msg_to m) (msg_source m) (msg_data m) (msg_data_size m) (msg_kind m).
Definition set_msg_cv (v : Z) (m : Message) : Message :=
  mkMessage (msg_id m) (msg_addr m) (msg_cycle m) v (complementary_value2 m)
    (msg_owner m) (msg_from m) (msg_to m) (msg_source m) (msg_data m) (msg_data_size m) (msg_kind m).
Definition set_msg_cv2 (v : Z) (m : Message) : Message :=
  mkMessage (msg_id m) (msg_addr m) (msg_cycle m) (complementary_value m) v
    (msg_owner m) (msg_from m) (msg_to m) (msg_source m) (msg_data m) (msg_data_size m) (msg_kind m).
Definition set_msg_owner (o : Z) (m : Message) : Message :=
  mkMessage (msg_id m) (msg_addr m) (msg_cycle m) (complementary_value m) (complementary_value2 m)
    (w16 o) (msg_from m) (msg_to m) (msg_source m) (msg_data m) (msg_data_size m) (msg_kind m).
Definition set_msg_from (f : Z) (m : Message) : Message :=
  mkMessage (msg_id m) (msg_addr m) (msg_cycle m) (complementary_value m) (complementary_value2 m)
    (msg_owner m) (w16 f) (msg_to m) (msg_source m) (msg_data m) (msg_data_size m) (msg_kind m).
Definition set_msg_to (t : list Z) (m : Message) : Message :=
  mkMessage (msg_id m) (msg_addr m) (msg_cycle m) (complementary_value m) (complementary_value2 m)
    (msg_owner m) (msg_from m) t (msg_source m) (msg_data m) (msg_data_size m) (msg_kind m).
Definition set_msg_source (s : Source) (m : Message) : Message :=
  mkMessage (msg_id m) (msg_addr m) (msg_cycle m) (complementary_value m) (complementary_value2 m)
    (msg_owner m) (msg_from m) (msg_to m) s (msg_data m) (msg_data_size m) (msg_kind m).
Definition set_msg_kind (k : Kind) (m : Message) : Message :=
  mkMessage (msg_id m) (msg_addr m) (msg_cycle m) (complementary_value m) (complementary_value2 m)
    (msg_owner m) (msg_from m) (msg_to m) (msg_source m) (msg_data m) (msg_data_size m) k.
Definition set_msg_data (d : option bytes) (n : Z) (m : Message) : Message :=
  mkMessage (msg_id m) (msg_addr m) (msg_cycle m) (complementary_value m) (complementary_value2 m)
    (msg_owner m) (msg_from m) (msg_to m) (msg_source m) d n (msg_kind m).

(** [msg.to.push_back(id)] *)
Definition push_to (id : Z) (m : Message) : Message := set_msg_to (msg_to m ++ [w16 id]) m.

(** [memcpy(dst, src, n)] on the bytes that exist. *)
Definition memcpy (dst src : bytes) (n : Z) : bytes :=
  take (Z.to_nat n) src ++ drop (Z.to_nat n) dst.

(** [Message::copy(const uint8_t *data, uint16_t size = 64)]: a fresh buffer of
    [size] bytes replaces the old one. *)
Definition copy_bytes (data : bytes) (size : Z) (m : Message) : Message :=
  set_msg_data (Some (take (Z.to_nat (w16 size)) data)) (w16 size) m.

(** [Message::copy(const Message &M2)] *)
Definition Message_copy (M2 : Message) (self : Message) : Message :=
  let self' := mkMessage (msg_id M2) (msg_addr M2) (msg_cycle M2) (complementary_value M2)
                 (complementary_value2 M2) (msg_owner M2) (msg_from M2) (msg_to M2)
                 (msg_source M2) (msg_data self) (msg_data_size M2) (msg_kind M2) in
  match msg_data M2 with
  | Some d => copy_bytes d (msg_data_size M2) self'
  | None => set_msg_data None (msg_data_size M2) self'
  end.

(** A message that owns a buffer owns exactly [data_size] bytes. *)
Definition msg_wf (m : Message) : Prop :=
  0 <= msg_data_size m < 2 ^ 16 /\
  match msg_data m with Some d => Z.of_nat (length d) = msg_data_size m | None => True end.

Definition isDemandRequest (m : Message) : bool :=
  bool_decide (msg_source m = LOWER_INTERCONNECT) && bool_decide (msg_data m = None) &&
  ((complementary_value m =? 0) || (complementary_value m =? 1)).

Definition isInvalidation (m : Message) : bool :=
  (complementary_value m =? 10) && bool_decide (msg_data m = None).

Definition has_data (m : Message) : bool :=
  match msg_data m with Some _ => true | None => false end.

(** ** Lemmas *)

Lemma Message_copy_wf_id M2 self : msg_wf M2 -> Message_copy M2 self = M2.
Proof.
  destruct M2 as [? ? ? ? ? ? ? ? ? [d|] n k]; intros [Hn Hd]; cbn in *; [|done].
  unfold Message_copy, copy_bytes, set_msg_data; cbn.
  rewrite w16_small by lia. f_equal. f_equal.
  apply take_ge. lia.
Qed.

Lemma copy_bytes_wf d n m :
  0 <= n < 2 ^ 16 -> n <= Z.of_nat (length d) -> msg_wf (copy_bytes d n m).
Proof.
  intros Hn Hd. unfold msg_wf, copy_bytes; cbn. rewrite w16_small by lia.
  split; [lia|]. rewrite length_take. lia.
Qed.

Lemma demand_no_data m : isDemandRequest m = true -> msg_data m = None.
Proof.
  unfold isDemandRequest. intros H.
  apply andb_true_iff in H as [H _]. apply andb_true_iff in H as [_ H].
  by apply bool_decide_eq_true in H.
Qed.

Lemma demand_lower m : isDemandRequest m = true -> msg_source m = LOWER_INTERCONNECT.
Proof.
  unfold isDemandRequest. intros H.
  apply andb_true_iff in H as [H _]. apply andb_true_iff in H as [H _].
  by apply bool_decide_eq_true in H.
Qed.

Lemma demand_not_invalidation m : isDemandRequest m = true -> isInvalidation m = false.
Proof.
  unfold isDemandRequest, isInvalidation. intros H.
  apply andb_true_iff in H as [_ H]. apply orb_true_iff in H.
  destruct (Z.eqb_spec (complementary_value m) 10); [|done].
  destruct H as [H|H]; apply Z.eqb_eq in H; lia.
Qed.

(** ** The communication interface

    [pushMessage2RX] takes and returns the value of the static counter
    [BusInterface::s_rx_delivery_seq], which every bus interface shares. *)

Class CommInterface (I : Type) := {
  ci_id : I -> Z;
  peekMessage : I -> option Message * I;
  popFrontMessage : I -> I;
  pushMessage : I -> Message -> Z -> MessageType -> outcome (bool * I);
  pushMessage2RX : Z -> I -> Message -> MessageType -> bool * I * Z;
  canAcceptRX : I -> MessageType -> bool;
  txResponseFreeSlots : I -> Z;
  rollback : I -> Z -> Z -> option Message * I }.

(** What a client may rely on.  [ci_rx] and [ci_tx] are the messages waiting on
    either side of the interface, as multisets. *)
Class CommInterfaceLaws (I : Type) `{CommInterface I} := {
  ci_rx : I -> list Message;
  ci_tx : I -> list Message;
  ci_peek_some : forall i m i',
    peekMessage i = (Some m, i') ->
    ci_rx i' = ci_rx i /\ ci_tx i' = ci_tx i /\ ci_rx i ≡ₚ m :: ci_rx (popFrontMessage i');
  ci_peek_none : forall i i', peekMessage i = (None, i') ->
    ci_rx i = [] /\ ci_rx i' = [] /\ ci_tx i' = ci_tx i;
  ci_pop_tx : forall i, ci_tx (popFrontMessage i) = ci_tx i;
  ci_peek_id : forall i r i', peekMessage i = (r, i') -> ci_id i' = ci_id i;
  ci_pop_id : forall i, ci_id (popFrontMessage i) = ci_id i;
  ci_push_ok : forall i m c t i',
    pushMessage i m c t = Ok (true, i') ->
    ci_rx i' = ci_rx i /\ ci_id i' = ci_id i /\
    ci_tx i' ≡ₚ set_msg_from (ci_id i) (if c =? 0 then m else set_msg_cycle c m) :: ci_tx i;
  ci_push_full : forall i m c t i', pushMessage i m c t = Ok (false, i') -> i' = i;
  ci_rx_ok : forall q i m t i' q',
    pushMessage2RX q i m t = (true, i', q') -> ci_rx i' ≡ₚ m :: ci_rx i /\ ci_tx i' = ci_tx i;
  ci_rx_full : forall q i m t i' q', pushMessage2RX q i m t = (false, i', q') -> i' = i /\ q' = q;
  ci_can_accept : forall q i m t,
    canAcceptRX i t = true -> exists i' q', pushMessage2RX q i m t = (true, i', q');
  ci_service_accept : forall q i m t,
    isDemandRequest m = false -> t <> SERVICE_REQUEST -> exists i' q', pushMessage2RX q i m t = (true, i', q') }.
