(* ===== verification/Arbiters.v ===== *)
(** * Bus and array arbiters

    [src/Arbiters/]: [Arbiter] (the shared selection loop), [FCFSArbiter],
    [RRArbiter] and [TDMArbiter].  A [vector<vector<Message>*>] is the list of
    the buffers' contents; an election returns the elected message with the
    buffers after its removal.  [ElectionPolicy] is the contract a bus or a
    cache controller relies on. *)

From S2P Require Export Messages.

Definition UINT64_MAX : Z := 0xFFFFFFFFFFFFFFFF.

(** State of [class Arbiter]; [candidate_id] is [RRArbiter]'s field. *)
Record ArbiterState := mkArbiter {
  m_candidates_ids : list Z;
  m_arbiter_period : Z;
  candidate_index : Z;
  candidate_id : Z }.

Definition newArbiter (ids : list Z) (period : Z) : ArbiterState := mkArbiter ids period 0 0.

Definition set_candidate (idx id : Z) (a : ArbiterState) : ArbiterState :=
  mkArbiter (m_candidates_ids a) (m_arbiter_period a) idx id.

(** [buffers[i]->erase(begin() + idx)] *)
Definition erase_at (i idx : nat) (buffers : list (list Message)) : list (list Message) :=
  alter (delete idx) i buffers.

Module Arbiter.

(** The loop index of the first message owned by [id]; [None] is -1. *)
Definition findMessage (buffer : list Message) (id : Z) : option nat :=
  fst <$> list_find (fun m => msg_owner m = id) buffer.

(** The position [sel] picks in one buffer, with the message there. *)
Definition candidate (sel : list Message -> option nat) (b : list Message) : option (nat * Message) :=
  k ← sel b; m ← b !! k; Some (k, m).
#[global] Arguments candidate : simpl never.

(** The selection loop of [electOldestOwned] and [FCFSArbiter::elect]: keep the
    position [sel] picks in each buffer when its cycle is strictly smaller. *)
Fixpoint scan (sel : list Message -> option nat) (i : nat) (buffers : list (list Message))
    (best : option (nat * nat)) (best_cycle : Z) : option (nat * nat) :=
  match buffers with
  | [] => best
  | b :: bs =>
      match candidate sel b with
      | Some (k, m) =>
          if msg_cycle m <? best_cycle
          then scan sel (S i) bs (Some (i, k)) (msg_cycle m)
          else scan sel (S i) bs best best_cycle
      | None => scan sel (S i) bs best best_cycle
      end
  end.

(** [out_msg->copy(...)] and the erasure of the elected position. *)
Definition take_elected (buffers : list (list Message)) (p : option (nat * nat))
    : option (Message * list (list Message)) :=
  '(i, k) ← p; b ← buffers !! i; m ← b !! k; Some (m, erase_at i k buffers).

Definition electOldestOwned (buffers : list (list Message)) (owner : Z)
    : option (Message * list (list Message)) :=
  take_elected buffers (scan (fun b => findMessage b owner) 0 buffers None UINT64_MAX).

End Arbiter.

Module FCFSArbiter.
Definition head_index (b : list Message) : option nat :=
  match b with [] => None | _ :: _ => Some 0%nat end.

Definition elect (cycle_number : Z) (buffers : list (list Message))
    : option (Message * list (list Message)) :=
  Arbiter.take_elected buffers (Arbiter.scan head_index 0 buffers None UINT64_MAX).
End FCFSArbiter.

Module RRArbiter.
Definition selectCandidate (a : ArbiterState) : outcome ArbiterState :=
  let n := Z.of_nat (length (m_candidates_ids a)) in
  if n =? 0 then Crash "RRArbiter: modulo by zero" else
  let idx := (candidate_index a + 1) mod n in
  match m_candidates_ids a !! Z.to_nat idx with
  | Some id => Ok (set_candidate idx (w64 id) a)
  | None => Crash "vector::at"
  end.

Definition coreElect (a : ArbiterState) (buffers : list (list Message))
    : option (Message * list (list Message)) :=
  Arbiter.electOldestOwned buffers (i32 (candidate_id a)).

(** The [for] loop of [elect], [n] iterations left. *)
Fixpoint elect_loop (n : nat) (a : ArbiterState) (buffers : list (list Message))
    : outcome (option (Message * list (list Message)) * ArbiterState) :=
  match n with
  | O => Ok (None, a)
  | S n' =>
      let! a' := selectCandidate a in
      match coreElect a' buffers with
      | Some r => Ok (Some r, a')
      | None => elect_loop n' a' buffers
      end
  end.

Definition elect (a : ArbiterState) (cycle_number : Z) (buffers : list (list Message))
    : outcome (option (Message * list (list Message)) * ArbiterState) :=
  elect_loop (length (m_candidates_ids a)) a buffers.

Definition forceElect (a : ArbiterState) (cycle_number : Z) (buffers : list (list Message))
    : outcome (option (Message * list (list Message)) * ArbiterState) :=
  Ok (coreElect a buffers, a).
End RRArbiter.

Module TDMArbiter.
Definition selectCandidate (a : ArbiterState) (cycle_number : Z) : outcome (Z * ArbiterState) :=
  let n := Z.of_nat (length (m_candidates_ids a)) in
  if m_arbiter_period a =? 0 then Crash "TDMArbiter: modulo by zero" else
  let! idx := (if cycle_number mod m_arbiter_period a =? 0
               then if n =? 0 then Crash "TDMArbiter: modulo by zero"
                    else Ok ((candidate_index a + 1) mod n)
               else Ok (candidate_index a)) in
  match m_candidates_ids a !! Z.to_nat idx with
  | Some id => Ok (w64 id, set_candidate idx (candidate_id a) a)
  | None => Crash "vector::at"
  end.

Definition coreElect (a : ArbiterState) (cycle_number : Z) (buffers : list (list Message))
    : outcome (option (Message * list (list Message)) * ArbiterState) :=
  let! (id, a') := selectCandidate a cycle_number in
  Ok (Arbiter.electOldestOwned buffers (i32 id), a').

Definition elect (a : ArbiterState) (cycle_number : Z) (buffers : list (list Message))
    : outcome (option (Message * list (list Message)) * ArbiterState) :=
  if m_arbiter_period a =? 0 then Crash "TDMArbiter: modulo by zero" else
  if negb (cycle_number mod m_arbiter_period a =? 0) then Ok (None, a)
  else coreElect a cycle_number buffers.

Definition forceElect (a : ArbiterState) (cycle_number : Z) (buffers : list (list Message))
    : outcome (option (Message * list (list Message)) * ArbiterState) :=
  coreElect a cycle_number buffers.
End TDMArbiter.

(** ** Virtual dispatch and the contract of an election *)

Inductive ArbiterKind := FCFS | RR | TDM.
#[export] Instance ArbiterKind_eq_dec : EqDecision ArbiterKind.
Proof. solve_decision. Defined.

(** An [Arbiter*]: the dynamic class with the shared state. *)
Definition ArbiterObj : Type := ArbiterKind * ArbiterState.

Definition elect (o : ArbiterObj) (cycle_number : Z) (buffers : list (list Message))
    : outcome (option (Message * list (list Message)) * ArbiterObj) :=
  match o with
  | (FCFS, a) => Ok (FCFSArbiter.elect cycle_number buffers, (FCFS, a))
  | (RR, a) => let! (r, a') := RRArbiter.elect a cycle_number buffers in Ok (r, (RR, a'))
  | (TDM, a) => let! (r, a') := TDMArbiter.elect a cycle_number buffers in Ok (r, (TDM, a'))
  end.

(** [Arbiter::forceElect] is [elect] unless the class overrides it. *)
Definition forceElect (o : ArbiterObj) (cycle_number : Z) (buffers : list (list Message))
    : outcome (option (Message * list (list Message)) * ArbiterObj) :=
  match o with
  | (FCFS, a) => elect (FCFS, a) cycle_number buffers
  | (RR, a) => let! (r, a') := RRArbiter.forceElect a cycle_number buffers in Ok (r, (RR, a'))
  | (TDM, a) => let! (r, a') := TDMArbiter.forceElect a cycle_number buffers in Ok (r, (TDM, a'))
  end.

(** One message left the buffers, from one position of one buffer. *)
Definition elected_from (buffers : list (list Message)) (m : Message)
    (buffers' : list (list Message)) : Prop :=
  exists i k b, buffers !! i = Some b /\ b !! k = Some m /\ buffers' = erase_at i k buffers.

(** ** Lemmas on the selection loop *)

(** [sel] picks position [k], holding [m], in buffer [i]. *)
Definition selected (sel : list Message -> option nat) (buffers : list (list Message))
    (i k : nat) (m : Message) : Prop :=
  exists b, buffers !! i = Some b /\ Arbiter.candidate sel b = Some (k, m).

Lemma selected_cons sel b bs j k m :
  selected sel (b :: bs) j k m <->
  (j = 0%nat /\ Arbiter.candidate sel b = Some (k, m)) \/
  (exists j', j = S j' /\ selected sel bs j' k m).
Proof.
  unfold selected. split.
  - destruct j as [|j]; intros (b' & Hb & Hc); cbn in Hb; [left|right]; naive_solver.
  - intros [[-> Hc]|(j' & -> & b' & Hb & Hc)]; eauto.
Qed.

(** [m], at [(j, k)], is the first of the smallest cycles among the selected. *)
Definition first_min (sel : list Message -> option nat) (buffers : list (list Message))
    (j k : nat) (m : Message) : Prop :=
  selected sel buffers j k m /\
  forall j' k' m', selected sel buffers j' k' m' ->
    msg_cycle m <= msg_cycle m' /\ ((j' < j)%nat -> msg_cycle m < msg_cycle m').

Lemma first_min_here sel b bs k m :
  Arbiter.candidate sel b = Some (k, m) ->
  (forall j k' m', selected sel bs j k' m' -> msg_cycle m <= msg_cycle m') ->
  first_min sel (b :: bs) 0 k m.
Proof.
  intros Hc Hmin. split; [apply selected_cons; by left|].
  intros j' k' m' [[-> Hc']|(j'' & -> & Hs)]%selected_cons.
  - simplify_eq. split; lia.
  - split; [eauto|lia].
Qed.

Lemma first_min_later sel b bs j k m :
  first_min sel bs j k m ->
  (forall k' m', Arbiter.candidate sel b = Some (k', m') -> msg_cycle m < msg_cycle m') ->
  first_min sel (b :: bs) (S j) k m.
Proof.
  intros [Hs Hmin] Hb. split; [apply selected_cons; right; eauto|].
  intros j' k' m' [[-> Hc']|(j'' & -> & Hs')]%selected_cons.
  - specialize (Hb _ _ Hc'). split; [lia|done].
  - destruct (Hmin _ _ _ Hs') as [? Hlt]. split; [done|]. intros; apply Hlt; lia.
Qed.

Lemma scan_spec sel buffers : forall i best c,
  (Arbiter.scan sel i buffers best c = best /\
   forall j k m, selected sel buffers j k m -> c <= msg_cycle m) \/
  (exists j k m, Arbiter.scan sel i buffers best c = Some ((i + j)%nat, k) /\
     first_min sel buffers j k m /\ msg_cycle m < c).
Proof.
  induction buffers as [|b bs IH]; intros i best c; cbn.
  { left. split; [done|]. by intros j k m (? & ? & _). }
  destruct (Arbiter.candidate sel b) as [[k m]|] eqn:Hc.
  - destruct (Z.ltb_spec (msg_cycle m) c) as [Hlt|Hge].
    + right. destruct (IH (S i) (Some (i, k)) (msg_cycle m)) as [[-> Hmin]|(j & k1 & m1 & -> & Hf & ?)].
      * exists 0%nat, k, m. rewrite Nat.add_0_r. eauto using first_min_here.
      * exists (S j), k1, m1. rewrite Nat.add_succ_r. split; [done|]. split; [|lia].
        apply first_min_later; [done|]. intros k' m' Hc'. congruence.
    + destruct (IH (S i) best c) as [[-> Hmin]|(j & k1 & m1 & -> & Hf & ?)].
      * left. split; [done|]. intros j k1 m1 [[-> Hc']|(j' & -> & Hs)]%selected_cons; [|eauto].
        congruence.
      * right. exists (S j), k1, m1. rewrite Nat.add_succ_r. split; [done|]. split; [|lia].
        apply first_min_later; [done|]. intros k' m' Hc'. simplify_eq. lia.
  - destruct (IH (S i) best c) as [[-> Hmin]|(j & k1 & m1 & -> & Hf & ?)].
    + left. split; [done|]. intros j k1 m1 [[-> Hc']|(j' & -> & Hs)]%selected_cons; [congruence|eauto].
    + right. exists (S j), k1, m1. rewrite Nat.add_succ_r. split; [done|]. split; [|lia].
      apply first_min_later; [done|]. congruence.
Qed.

Lemma take_scan_spec sel buffers :
  match Arbiter.take_elected buffers (Arbiter.scan sel 0 buffers None UINT64_MAX) with
  | Some (m, buffers') =>
      exists i k, first_min sel buffers i k m /\ msg_cycle m < UINT64_MAX /\
        buffers' = erase_at i k buffers
  | None => forall i k m, selected sel buffers i k m -> UINT64_MAX <= msg_cycle m
  end.
Proof.
  destruct (scan_spec sel buffers 0 None UINT64_MAX) as [[-> Hmin]|(j & k & m & -> & Hf & Hc)]; [done|].
  pose proof Hf as [(b & Hb & Hcand) _].
  unfold Arbiter.candidate in Hcand.
  destruct (sel b) as [k0|]; cbn in Hcand; [|done].
  destruct (b !! k0) as [m0|] eqn:Hk; cbn in Hcand; [|done]. simplify_eq.
  cbn. rewrite Hb; cbn. rewrite Hk; cbn. eauto.
Qed.

Lemma selected_elem sel buffers i k m :
  selected sel buffers i k m -> exists b, buffers !! i = Some b /\ b !! k = Some m.
Proof.
  intros (b & Hb & Hc). exists b. split; [done|]. unfold Arbiter.candidate in Hc.
  destruct (sel b) as [k0|]; cbn in Hc; [|done].
  destruct (b !! k0) as [m0|] eqn:Hk; cbn in Hc; naive_solver.
Qed.

Lemma elected_from_perm buffers m buffers' :
  elected_from buffers m buffers' ->
  concat buffers ≡ₚ m :: concat buffers' /\ length buffers' = length buffers.
Proof.
  intros (i & k & b & Hb & Hk & ->). unfold erase_at. split; [|by rewrite length_alter].
  revert i Hb. induction buffers as [|b0 bs IH]; intros [|i] Hb; cbn in *; [done..| |].
  - simplify_eq. rewrite app_comm_cons. f_equiv. by apply delete_Permutation.
  - rewrite (IH i Hb). by rewrite Permutation_middle.
Qed.

Lemma take_elected_from sel buffers m buffers' :
  Arbiter.take_elected buffers (Arbiter.scan sel 0 buffers None UINT64_MAX) = Some (m, buffers') ->
  elected_from buffers m buffers'.
Proof.
  intros H. pose proof (take_scan_spec sel buffers) as Hs. rewrite H in Hs.
  destruct Hs as (i & k & [Hsel _] & _ & ->).
  destruct (selected_elem _ _ _ _ _ Hsel) as (b & Hb & Hk). by exists i, k, b.
Qed.

(** [findMessage] picks the first position of the owner. *)
Lemma findMessage_candidate b id k m :
  Arbiter.candidate (fun b => Arbiter.findMessage b id) b = Some (k, m) <->
  b !! k = Some m /\ msg_owner m = id /\
  forall j m', b !! j = Some m' -> (j < k)%nat -> msg_owner m' <> id.
Proof.
  unfold Arbiter.candidate, Arbiter.findMessage. split.
  - destruct (list_find _ b) as [[k0 m0]|] eqn:Hf; cbn; [|done].
    apply list_find_Some in Hf as (Hk & Ho & Hbefore). rewrite Hk; cbn. intros [= <- <-].
    split_and!; [done|done|]. eauto.
  - intros (Hk & Ho & Hbefore).
    assert (list_find (fun m => msg_owner m = id) b = Some (k, m)) as ->.
    { apply list_find_Some. split_and!; [done|done|]. eauto. }
    cbn. by rewrite Hk.
Qed.

Lemma findMessage_none b id :
  Arbiter.candidate (fun b => Arbiter.findMessage b id) b = None ->
  forall m, m ∈ b -> msg_owner m <> id.
Proof.
  unfold Arbiter.candidate, Arbiter.findMessage.
  destruct (list_find _ b) as [[k0 m0]|] eqn:Hf; cbn.
  - apply list_find_Some in Hf as (Hk & _). by rewrite Hk.
  - intros _ m Hm. apply list_find_None in Hf. by eapply Forall_forall in Hf.
Qed.

(** Every buffer holds the owner's messages in nondecreasing emission order. *)
Definition fifo_for (owner : Z) (buffers : list (list Message)) : Prop :=
  forall b i j m m', b ∈ buffers -> b !! i = Some m -> b !! j = Some m' -> (i < j)%nat ->
    msg_owner m = owner -> msg_owner m' = owner -> msg_cycle m <= msg_cycle m'.

(** In a FIFO buffer the selected message is the owner's oldest there. *)
Lemma selected_oldest owner buffers b m' :
  fifo_for owner buffers -> b ∈ buffers -> m' ∈ b -> msg_owner m' = owner ->
  exists i k m, selected (fun b => Arbiter.findMessage b owner) buffers i k m /\
    msg_cycle m <= msg_cycle m'.
Proof.
  intros Hfifo Hb Hm' Ho. apply list_elem_of_lookup in Hb as Hi; destruct Hi as [i Hi].
  destruct (Arbiter.candidate (fun b => Arbiter.findMessage b owner) b) as [[k m]|] eqn:Hc.
  - exists i, k, m. split; [by exists b|].
    apply findMessage_candidate in Hc as (Hk & Hom & Hbefore).
    apply list_elem_of_lookup in Hm' as [j Hj].
    destruct (decide (j = k)) as [->|Hne]; [simplify_eq; lia|].
    destruct (decide (j < k)%nat); [by destruct (Hbefore j m')|].
    eapply (Hfifo b k j); eauto; lia.
  - exfalso. by eapply findMessage_none.
Qed.

(** ** Properties *)

(** The owner-slot election of the round-robin and TDM arbiters serves the
    owner's oldest pending message over all buffers and removes exactly that
    message; it declines only when the owner has nothing pending (a cycle
    stamp of 2^64-1 counts as nothing). *)
Theorem electOldestOwned_serves_oldest buffers owner :
  fifo_for owner buffers ->
  match Arbiter.electOldestOwned buffers owner with
  | Some (m, buffers') =>
      msg_owner m = owner /\
      (forall b m', b ∈ buffers -> m' ∈ b -> msg_owner m' = owner -> msg_cycle m <= msg_cycle m') /\
      concat buffers ≡ₚ m :: concat buffers'
  | None => forall b m', b ∈ buffers -> m' ∈ b -> msg_owner m' = owner -> UINT64_MAX <= msg_cycle m'
  end.
Proof.
  intros Hfifo.
  pose proof (take_scan_spec (fun b => Arbiter.findMessage b owner) buffers) as Hs.
  unfold Arbiter.electOldestOwned.
  destruct (Arbiter.take_elected _ _) as [[m buffers']|] eqn:He.
  - destruct Hs as (i & k & [Hsel Hmin] & Hc & ->). split_and!.
    + destruct Hsel as (b & _ & Hcand). by apply findMessage_candidate in Hcand as (_ & ? & _).
    + intros b m' Hb Hm' Ho.
      destruct (selected_oldest owner buffers b m' Hfifo Hb Hm' Ho) as (i' & k' & m1 & Hsel' & Hle).
      destruct (Hmin _ _ _ Hsel'). lia.
    + apply elected_from_perm. destruct (selected_elem _ _ _ _ _ Hsel) as (b & ? & ?). by exists i, k, b.
  - intros b m' Hb Hm' Ho.
    destruct (selected_oldest owner buffers b m' Hfifo Hb Hm' Ho) as (i' & k' & m1 & Hsel' & Hle).
    specialize (Hs _ _ _ Hsel'). lia.
Qed.

(** Messages used by the witnesses: owner and cycle, nothing else set. *)
Definition sample_msg (id owner cycle : Z) : Message := newMessage id 0 cycle 0 owner.

Definition sample_buffers : list (list Message) :=
  [[sample_msg 10 0 5; sample_msg 11 1 7]; [sample_msg 12 1 6]].

Lemma sample_buffers_fifo : fifo_for 1 sample_buffers.
Proof.
  intros b i j m m' Hb Hi Hj Hij Ho Ho'. unfold sample_buffers in Hb.
  rewrite !elem_of_cons in Hb. destruct Hb as [->|[->|Hb]]; [..|by apply not_elem_of_nil in Hb].
  - destruct i as [|[|[|i]]], j as [|[|[|j]]]; cbn in *; simplify_eq; try lia; done.
  - destruct i as [|[|i]], j as [|[|j]]; cbn in *; simplify_eq; try lia; done.
Qed.

Lemma electOldestOwned_serves_oldest_witness :
  fifo_for 1 sample_buffers /\
  match Arbiter.electOldestOwned sample_buffers 1 with
  | Some (m, buffers') =>
      msg_owner m = 1 /\
      (forall b m', b ∈ sample_buffers -> m' ∈ b -> msg_owner m' = 1 -> msg_cycle m <= msg_cycle m') /\
      concat sample_buffers ≡ₚ m :: concat buffers'
  | None => forall b m', b ∈ sample_buffers -> m' ∈ b -> msg_owner m' = 1 -> UINT64_MAX <= msg_cycle m'
  end /\
  (fst <$> Arbiter.electOldestOwned sample_buffers 1) = Some (sample_msg 12 1 6).
Proof.
  split; [exact sample_buffers_fifo|].
  split; [exact (electOldestOwned_serves_oldest sample_buffers 1 sample_buffers_fifo)|reflexivity].
Defined.

(** *** First come, first served *)

Lemma head_candidate b k m :
  Arbiter.candidate FCFSArbiter.head_index b = Some (k, m) <-> k = 0%nat /\ head b = Some m.
Proof. unfold Arbiter.candidate. destruct b as [|m0 b]; cbn; split; intros; destruct_and?; simplify_eq; auto. Qed.

(** The FCFS election takes the head of the buffer whose head has the
    smallest cycle, the first such buffer on a tie, and declines only when
    every buffer is empty. *)
Theorem FCFS_elects_oldest_head cycle buffers :
  (forall b m, b ∈ buffers -> m ∈ b -> msg_cycle m < UINT64_MAX) ->
  match FCFSArbiter.elect cycle buffers with
  | Some (m, buffers') =>
      exists i b, buffers !! i = Some (m :: b) /\ buffers' = erase_at i 0 buffers /\
        forall j b' m', buffers !! j = Some b' -> head b' = Some m' ->
          msg_cycle m <= msg_cycle m' /\ ((j < i)%nat -> msg_cycle m < msg_cycle m')
  | None => forall b, b ∈ buffers -> b = []
  end.
Proof.
  intros Hmax. pose proof (take_scan_spec FCFSArbiter.head_index buffers) as Hs.
  unfold FCFSArbiter.elect. destruct (Arbiter.take_elected _ _) as [[m buffers']|].
  - destruct Hs as (i & k & [(b & Hb & Hc) Hmin] & _ & ->).
    apply head_candidate in Hc as [-> Hh]. destruct b as [|m0 b]; cbn in Hh; simplify_eq.
    exists i, b. split; [done|]. split; [done|].
    intros j b' m' Hj Hh'. apply (Hmin j 0%nat). exists b'. split; [done|]. by apply head_candidate.
  - intros [|m b] Hb; [done|]. exfalso. apply list_elem_of_lookup in Hb as Hi. destruct Hi as [i Hi].
    assert (UINT64_MAX <= msg_cycle m); [|specialize (Hmax _ m Hb); set_solver by lia].
    apply (Hs i 0%nat). exists (m :: b). split; [done|]. by apply head_candidate.
Qed.

Lemma FCFS_elects_oldest_head_witness :
  (forall b m, b ∈ sample_buffers -> m ∈ b -> msg_cycle m < UINT64_MAX) /\
  match FCFSArbiter.elect 9 sample_buffers with
  | Some (m, buffers') =>
      exists i b, sample_buffers !! i = Some (m :: b) /\ buffers' = erase_at i 0 sample_buffers /\
        forall j b' m', sample_buffers !! j = Some b' -> head b' = Some m' ->
          msg_cycle m <= msg_cycle m' /\ ((j < i)%nat -> msg_cycle m < msg_cycle m')
  | None => forall b, b ∈ sample_buffers -> b = []
  end.
Proof.
  assert (H : forall b m, b ∈ sample_buffers -> m ∈ b -> msg_cycle m < UINT64_MAX).
  { intros b m Hb Hm. unfold sample_buffers in Hb. rewrite !elem_of_cons in Hb.
    destruct Hb as [->|[->|Hb]]; [..|by apply not_elem_of_nil in Hb];
      rewrite !elem_of_cons in Hm; destruct_or!; subst; try reflexivity; by apply not_elem_of_nil in Hm. }
  split; [exact H|exact (FCFS_elects_oldest_head 9 sample_buffers H)].
Defined.

(** *** Round robin *)

(** A usable rotation: some candidates, their ids [int]s of [uint16_t] range,
    the index inside the list. *)
Record rr_wf (a : ArbiterState) : Prop := {
  rr_nonempty : 0 < Z.of_nat (length (m_candidates_ids a));
  rr_index : 0 <= candidate_index a < Z.of_nat (length (m_candidates_ids a));
  rr_ids : forall id, id ∈ m_candidates_ids a -> 0 <= id < 2 ^ 16 }.

(** The candidate [d] places after the one served last. *)
Definition rr_next (a : ArbiterState) (d : Z) : Z :=
  (candidate_index a + 1 + d) mod Z.of_nat (length (m_candidates_ids a)).
Definition rr_candidate (a : ArbiterState) (idx : Z) : Z :=
  default 0 (m_candidates_ids a !! Z.to_nat idx).

Lemma rr_select a :
  rr_wf a ->
  RRArbiter.selectCandidate a = Ok (set_candidate (rr_next a 0) (w64 (rr_candidate a (rr_next a 0))) a) /\
  i32 (w64 (rr_candidate a (rr_next a 0))) = rr_candidate a (rr_next a 0).
Proof.
  intros [Hn Hi Hids]. unfold RRArbiter.selectCandidate, rr_candidate, rr_next. rewrite Z.add_0_r.
  destruct (Z.eqb_spec (Z.of_nat (length (m_candidates_ids a))) 0); [lia|].
  set (idx := (_ + 1) mod _).
  assert (Hidx : 0 <= idx < Z.of_nat (length (m_candidates_ids a))) by (apply Z.mod_pos_bound; lia).
  destruct (lookup_lt_is_Some_2 (m_candidates_ids a) (Z.to_nat idx)) as [id Hid]; [lia|].
  rewrite Hid; cbn. split; [done|]. apply i32_w64.
  assert (0 <= id < 2 ^ 16) by (eapply Hids, list_elem_of_lookup_2; eauto). lia.
Qed.

Lemma rr_select_wf a idx id :
  rr_wf a -> 0 <= idx < Z.of_nat (length (m_candidates_ids a)) -> rr_wf (set_candidate idx id a).
Proof. intros [Hn Hi Hids] Hidx. by split. Qed.

Lemma rr_next_range a d : rr_wf a -> 0 <= rr_next a d < Z.of_nat (length (m_candidates_ids a)).
Proof. intros [Hn _ _]. apply Z.mod_pos_bound. lia. Qed.

Lemma rr_next_shift a id d :
  rr_next (set_candidate (rr_next a 0) id a) d = rr_next a (d + 1).
Proof.
  unfold rr_next; cbn. rewrite Z.add_0_r. rewrite <- Z.add_assoc, Zplus_mod_idemp_l. f_equal. lia.
Qed.

(** The loop serves the nearest candidate, in rotation order, that has
    something pending. *)
Lemma rr_loop_spec n : forall a buffers,
  rr_wf a ->
  exists r a', RRArbiter.elect_loop n a buffers = Ok (r, a') /\
    m_candidates_ids a' = m_candidates_ids a /\ rr_wf a' /\
    match r with
    | Some _ => exists d, 0 <= d < Z.of_nat n /\ candidate_index a' = rr_next a d /\
        Arbiter.electOldestOwned buffers (rr_candidate a (rr_next a d)) = r /\
        forall d', 0 <= d' < d -> Arbiter.electOldestOwned buffers (rr_candidate a (rr_next a d')) = None
    | None => forall d', 0 <= d' < Z.of_nat n ->
        Arbiter.electOldestOwned buffers (rr_candidate a (rr_next a d')) = None
    end.
Proof.
  induction n as [|n IH]; intros a buffers Hwf.
  { exists None, a. split_and!; [done..|lia]. }
  destruct (rr_select a Hwf) as [Hsel Hid].
  set (a1 := set_candidate (rr_next a 0) (w64 (rr_candidate a (rr_next a 0))) a) in *.
  assert (Hwf1 : rr_wf a1) by (apply rr_select_wf, rr_next_range; done).
  cbn. rewrite Hsel; cbn. unfold RRArbiter.coreElect. cbn [candidate_id a1 set_candidate].
  rewrite Hid. destruct (Arbiter.electOldestOwned _ _) as [r|] eqn:He.
  - exists (Some r), a1. split_and!; [done..|]. exists 0. split_and!; [lia|lia|done|done|lia].
  - destruct (IH a1 buffers Hwf1) as (r & a' & -> & Hids & Hwf' & Hr). exists r, a'.
    split_and!; [done..|].
    assert (Hshift : forall d, rr_candidate a1 (rr_next a1 d) = rr_candidate a (rr_next a (d + 1))).
    { intros d. by rewrite <- (rr_next_shift a (w64 (rr_candidate a (rr_next a 0)))). }
    destruct r as [r|].
    + destruct Hr as (d & Hd & Hci & Hel & Hmin). exists (d + 1). rewrite <- Hshift.
      split_and!; [lia|lia|by rewrite Hci; unfold a1; rewrite rr_next_shift|done|].
      intros d' Hd'. destruct (decide (d' = 0)) as [->|Hne]; [done|].
      replace d' with (d' - 1 + 1) by lia. rewrite <- Hshift. apply Hmin. lia.
    + intros d' Hd'. destruct (decide (d' = 0)) as [->|Hne]; [done|].
      replace d' with (d' - 1 + 1) by lia. rewrite <- Hshift. apply Hr. lia.
Qed.

(** The rotation distance from the index to candidate position [t]. *)
Definition rr_dist (a : ArbiterState) (t : Z) : Z :=
  (t - candidate_index a - 1) mod Z.of_nat (length (m_candidates_ids a)).

Lemma rr_next_dist a t :
  rr_wf a -> 0 <= t < Z.of_nat (length (m_candidates_ids a)) -> rr_next a (rr_dist a t) = t.
Proof.
  intros [Hn _ _] Ht. unfold rr_next, rr_dist. rewrite Zplus_mod_idemp_r.
  replace (_ + 1 + _) with t by lia. by apply Z.mod_small.
Qed.

Lemma rr_dist_after a a' t d :
  rr_wf a -> m_candidates_ids a' = m_candidates_ids a -> candidate_index a' = rr_next a d ->
  0 <= d < rr_dist a t -> rr_dist a' t = rr_dist a t - d - 1.
Proof.
  intros [Hn _ _] Hids Hci Hd. unfold rr_dist in *. rewrite Hids, Hci. unfold rr_next.
  set (n := Z.of_nat (length (m_candidates_ids a))) in *.
  replace (t - (candidate_index a + 1 + d) mod n - 1) with ((t - 1) - (candidate_index a + 1 + d) mod n) by lia.
  rewrite Zminus_mod_idemp_r.
  replace (t - 1 - (candidate_index a + 1 + d)) with ((t - candidate_index a - 1) - (d + 1)) by lia.
  rewrite <- Zminus_mod_idemp_l.
  pose proof (Z.mod_pos_bound (t - candidate_index a - 1) n ltac:(lia)).
  rewrite (Z.mod_small (_ - (d + 1))); lia.
Qed.

(** Owners served by successive elections, each over the buffers it finds
    (between two elections the senders may push what they like). *)
Fixpoint rr_owners (a : ArbiterState) (snapshots : list (list (list Message))) : outcome (list Z) :=
  match snapshots with
  | [] => Ok []
  | s :: rest =>
      let! (r, a') := RRArbiter.elect a 0 s in
      let! l := rr_owners a' rest in
      Ok (match r with Some (m, _) => msg_owner m :: l | None => l end)
  end.

Lemma electOldestOwned_owner buffers owner m buffers' :
  Arbiter.electOldestOwned buffers owner = Some (m, buffers') -> msg_owner m = owner.
Proof.
  intros H. pose proof (take_scan_spec (fun b => Arbiter.findMessage b owner) buffers) as Hs.
  unfold Arbiter.electOldestOwned in H. rewrite H in Hs.
  destruct Hs as (i & k & [(b & _ & Hc) _] & _).
  by apply findMessage_candidate in Hc as (_ & ? & _).
Qed.

Lemma rr_owners_total a snapshots : rr_wf a -> exists l, rr_owners a snapshots = Ok l.
Proof.
  revert a; induction snapshots as [|s rest IH]; intros a Hwf; cbn; [by eexists|].
  destruct (rr_loop_spec (length (m_candidates_ids a)) a s Hwf) as (r & a' & Hel & _ & Hwf' & _).
  unfold RRArbiter.elect. rewrite Hel; cbn. destruct (IH a' Hwf') as [l ->]; cbn. by eexists.
Qed.

Lemma rr_owners_serves snapshots : forall a t id,
  rr_wf a -> m_candidates_ids a !! Z.to_nat t = Some id -> 0 <= t ->
  rr_dist a t < Z.of_nat (length snapshots) ->
  (forall s, s ∈ snapshots -> Arbiter.electOldestOwned s id <> None) ->
  exists l, rr_owners a snapshots = Ok l /\ id ∈ l.
Proof.
  induction snapshots as [|s rest IH]; intros a t id Hwf Hid Ht Hlen Hel.
  { pose proof (Z.mod_pos_bound (t - candidate_index a - 1) _ (rr_nonempty a Hwf)).
    unfold rr_dist in Hlen; cbn in Hlen. lia. }
  assert (Htn : 0 <= t < Z.of_nat (length (m_candidates_ids a))).
  { apply lookup_lt_Some in Hid. lia. }
  pose proof (Z.mod_pos_bound (t - candidate_index a - 1) _ (rr_nonempty a Hwf)) as Hdist.
  fold (rr_dist a t) in Hdist.
  assert (Hcand : rr_candidate a (rr_next a (rr_dist a t)) = id).
  { rewrite rr_next_dist by done. unfold rr_candidate. by rewrite Hid. }
  destruct (rr_loop_spec (length (m_candidates_ids a)) a s Hwf) as (r & a' & He & Hids & Hwf' & Hr).
  cbn. unfold RRArbiter.elect. rewrite He; cbn.
  specialize (Hel s) as Hs. destruct r as [[m s']|].
  - destruct Hr as (d & Hd & Hci & Hserved & Hbefore).
    assert (Hle : d <= rr_dist a t).
    { destruct (decide (d <= rr_dist a t)); [done|]. exfalso. apply Hs; [by left|].
      rewrite <- Hcand. apply Hbefore. lia. }
    destruct (decide (d = rr_dist a t)) as [->|Hne].
    + destruct (rr_owners_total a' rest Hwf') as [l ->]; cbn. eexists; split; [done|].
      rewrite Hcand in Hserved. apply electOldestOwned_owner in Hserved as ->. by left.
    + destruct (IH a' t id Hwf') as (l & -> & Hin).
      * by rewrite Hids.
      * lia.
      * rewrite (rr_dist_after a a' t d); [|done..|lia]. cbn in Hlen. lia.
      * intros s0 Hs0. apply Hel. by right.
      * cbn. eexists; split; [done|]. by right.
  - exfalso. apply Hs; [by left|]. rewrite <- Hcand. apply Hr. lia.
Qed.

(** C38: bounded waiting of the round-robin arbiter.  If a candidate has a
    message pending at each of as many successive elections as there are
    candidates, one of them serves it, whatever the other senders do in
    between; and no election fails. *)
Theorem RR_bounded_waiting a snapshots t id :
  rr_wf a -> m_candidates_ids a !! t = Some id ->
  length snapshots = length (m_candidates_ids a) ->
  (forall s, s ∈ snapshots -> Arbiter.electOldestOwned s id <> None) ->
  exists l, rr_owners a snapshots = Ok l /\ id ∈ l.
Proof.
  intros Hwf Hid Hlen Hel. apply (rr_owners_serves snapshots a (Z.of_nat t)); [done|by rewrite Nat2Z.id|lia| |done].
  rewrite Hlen. unfold rr_dist. apply Z.mod_pos_bound, Hwf.
Qed.

Lemma RR_bounded_waiting_witness :
  exists l, rr_owners (newArbiter [0; 1; 2] 1)
    [[[sample_msg 1 1 5]; [sample_msg 2 0 1]]; [[sample_msg 3 2 5]; [sample_msg 2 0 1]]; [[sample_msg 2 0 1]]] = Ok l
    /\ 0 ∈ l.
Proof.
  apply (RR_bounded_waiting (newArbiter [0; 1; 2] 1) _ 0%nat 0).
  - split; cbn; [lia|lia|]. intros id Hid. rewrite !elem_of_cons in Hid.
    destruct Hid as [->|[->|[->|Hid]]]; [lia..|by apply not_elem_of_nil in Hid].
  - reflexivity.
  - reflexivity.
  - intros s Hs. rewrite !elem_of_cons in Hs.
    destruct Hs as [->|[->|[->|Hs]]]; [by vm_compute..|by apply not_elem_of_nil in Hs].
Defined.

(** *** Time-division multiplexing *)

(** What core [id] sees of the traffic: its own messages, buffer by buffer. *)
Definition own_traffic (id : Z) (buffers : list (list Message)) : list (list Message) :=
  map (filter (fun m => msg_owner m = id)) buffers.

Lemma candidate_own b id :
  snd <$> Arbiter.candidate (fun b => Arbiter.findMessage b id) b = head (filter (fun m => msg_owner m = id) b).
Proof.
  unfold Arbiter.candidate, Arbiter.findMessage.
  destruct (list_find _ b) as [[k m]|] eqn:Hf; cbn.
  - apply list_find_Some in Hf as (Hk & Ho & Hb). rewrite Hk; cbn.
    rewrite <- (take_drop_middle b k m Hk). rewrite filter_app, filter_cons_True by done.
    assert (filter (fun m => msg_owner m = id) (take k b) = []) as ->; [|done].
    apply filter_nil_iff. intros x Hx.
    apply list_elem_of_lookup in Hx as [j Hj].
    apply lookup_take_Some in Hj as [Hj ?]. eauto.
  - apply list_find_None in Hf. assert (filter (fun m => msg_owner m = id) b = []) as ->; [|done].
    apply filter_nil_iff. intros x Hx. by eapply Forall_forall in Hf.
Qed.

Lemma selected_own id b1 b2 i k m :
  own_traffic id b1 = own_traffic id b2 ->
  selected (fun b => Arbiter.findMessage b id) b1 i k m ->
  exists k', selected (fun b => Arbiter.findMessage b id) b2 i k' m.
Proof.
  intros Heq (b & Hb & Hc).
  assert (Hf : own_traffic id b1 !! i = Some (filter (fun m => msg_owner m = id) b)).
  { unfold own_traffic. rewrite list_lookup_fmap, Hb. done. }
  rewrite Heq in Hf. unfold own_traffic in Hf. rewrite list_lookup_fmap in Hf.
  destruct (b2 !! i) as [b'|] eqn:Hb'; cbn in Hf; [|done]. injection Hf as Hf.
  pose proof (candidate_own b id) as H1. rewrite Hc, <- Hf, <- candidate_own in H1. cbn in H1.
  destruct (Arbiter.candidate _ b') as [[k' m']|] eqn:Hc'; cbn in H1; [|done].
  injection H1 as ->. exists k'. by exists b'.
Qed.

Lemma first_min_unique sel buffers buffers' i k m i' k' m' :
  first_min sel buffers i k m -> first_min sel buffers' i' k' m' ->
  (forall i k m, selected sel buffers i k m -> exists k', selected sel buffers' i k' m) ->
  (forall i k m, selected sel buffers' i k m -> exists k', selected sel buffers i k' m) -> m = m'.
Proof.
  intros [Hs Hmin] [Hs' Hmin'] H1 H2.
  destruct (H1 _ _ _ Hs) as [k1 Hs1], (H2 _ _ _ Hs') as [k2 Hs2].
  destruct (Hmin' _ _ _ Hs1) as [Hle Hlt], (Hmin _ _ _ Hs2) as [Hle' Hlt'].
  assert (i = i') as ->.
  { destruct (lt_eq_lt_dec i i') as [[?|?]|?]; [|done|].
    - specialize (Hlt ltac:(lia)). lia.
    - specialize (Hlt' ltac:(lia)). lia. }
  destruct Hs as (b & Hb & Hc), Hs2 as (b' & Hb' & Hc'). congruence.
Qed.

Lemma electOldestOwned_own id b1 b2 :
  own_traffic id b1 = own_traffic id b2 ->
  fst <$> Arbiter.electOldestOwned b1 id = fst <$> Arbiter.electOldestOwned b2 id.
Proof.
  intros Heq. unfold Arbiter.electOldestOwned.
  pose proof (take_scan_spec (fun b => Arbiter.findMessage b id) b1) as H1.
  pose proof (take_scan_spec (fun b => Arbiter.findMessage b id) b2) as H2.
  destruct (Arbiter.take_elected b1 _) as [[m1 ?]|], (Arbiter.take_elected b2 _) as [[m2 ?]|]; cbn; [| | |done].
  - destruct H1 as (i1 & k1 & F1 & _), H2 as (i2 & k2 & F2 & _). f_equal.
    eapply first_min_unique; eauto using selected_own.
  - destruct H1 as (i1 & k1 & [F1 _] & Hc & _). destruct (selected_own _ _ _ _ _ _ Heq F1) as [k' Hs].
    specialize (H2 _ _ _ Hs). lia.
  - destruct H2 as (i2 & k2 & [F2 _] & Hc & _). destruct (selected_own _ _ _ _ _ _ (eq_sym Heq) F2) as [k' Hs].
    specialize (H1 _ _ _ Hs). lia.
Qed.

(** The grants of a TDM bus over consecutive cycles, each cycle over the
    traffic it finds. *)
Fixpoint tdm_grants (a : ArbiterState) (cycle : Z) (snapshots : list (list (list Message)))
    : outcome (list (option Message)) :=
  match snapshots with
  | [] => Ok []
  | s :: rest =>
      let! (r, a') := TDMArbiter.elect a cycle s in
      let! l := tdm_grants a' (cycle + 1) rest in
      Ok ((fst <$> r) :: l)
  end.

(** The grants that go to core [id]. *)
Definition grants_to (id : Z) (l : list (option Message)) : list (option Message) :=
  map (fun g => match g with Some m => if msg_owner m =? id then Some m else None | None => None end) l.

Lemma tdm_elect_state a cycle b1 b2 :
  match TDMArbiter.elect a cycle b1, TDMArbiter.elect a cycle b2 with
  | Ok (r1, a1), Ok (r2, a2) => a1 = a2 /\
      ((r1 = None /\ r2 = None) \/ exists id, r1 = Arbiter.electOldestOwned b1 id /\ r2 = Arbiter.electOldestOwned b2 id)
  | Exit s1, Exit s2 => s1 = s2
  | Crash s1, Crash s2 => s1 = s2
  | _, _ => False
  end.
Proof.
  unfold TDMArbiter.elect, TDMArbiter.coreElect. destruct (m_arbiter_period a =? 0); [done|].
  destruct (negb _); [by auto|]. destruct (TDMArbiter.selectCandidate a cycle) as [[id a']|s|s]; cbn; eauto 10.
Qed.

(** Temporal isolation of the TDM arbiter.  Over any number of cycles, the
    grants a core receives are a function of its own traffic: two runs in which
    core [id] has the same pending messages give it the same grants at the same
    cycles, whatever the other cores send. *)
Theorem TDM_isolation a cycle id s1 s2 :
  map (own_traffic id) s1 = map (own_traffic id) s2 ->
  match tdm_grants a cycle s1, tdm_grants a cycle s2 with
  | Ok l1, Ok l2 => grants_to id l1 = grants_to id l2
  | Exit e1, Exit e2 => e1 = e2
  | Crash e1, Crash e2 => e1 = e2
  | _, _ => False
  end.
Proof.
  revert a cycle s2; induction s1 as [|b1 s1 IH]; intros a cycle [|b2 s2] Heq; cbn in *; [done..|].
  injection Heq as Hb Heq. pose proof (tdm_elect_state a cycle b1 b2) as He.
  destruct (TDMArbiter.elect a cycle b1) as [[r1 a1]|e1|e1], (TDMArbiter.elect a cycle b2) as [[r2 a2]|e2|e2];
    cbn; try done.
  destruct He as [<- Hr]. specialize (IH a1 (cycle + 1) s2 Heq).
  destruct (tdm_grants a1 (cycle + 1) s1), (tdm_grants a1 (cycle + 1) s2); cbn; try done.
  f_equal; [|done]. destruct Hr as [[-> ->]|(o & -> & ->)]; [done|].
  destruct (decide (o = id)) as [->|Hne].
  - by rewrite (electOldestOwned_own id b1 b2 Hb).
  - destruct (Arbiter.electOldestOwned b1 o) as [[m1 ?]|] eqn:E1, (Arbiter.electOldestOwned b2 o) as [[m2 ?]|] eqn:E2;
      cbn; repeat match goal with H : Arbiter.electOldestOwned _ _ = Some _ |- _ => apply electOldestOwned_owner in H end;
      subst; repeat match goal with |- context [?x =? ?y] => destruct (Z.eqb_spec x y) end; congruence.
Qed.

Lemma TDM_isolation_witness :
  match tdm_grants (newArbiter [0; 1] 2) 2
          [[[sample_msg 1 1 5]]; [[sample_msg 1 1 5]]; [[]]] ,
        tdm_grants (newArbiter [0; 1] 2) 2
          [[[sample_msg 7 0 0; sample_msg 1 1 5]]; [[sample_msg 8 0 1; sample_msg 1 1 5]]; [[sample_msg 9 0 1]]] with
  | Ok l1, Ok l2 => grants_to 1 l1 = grants_to 1 l2
  | Exit e1, Exit e2 => e1 = e2
  | Crash e1, Crash e2 => e1 = e2
  | _, _ => False
  end.
Proof. apply (TDM_isolation (newArbiter [0; 1] 2) 2 1). reflexivity. Defined.

(** ** The contract every arbiter discharges *)

Lemma elect_elected_from o cycle buffers m buffers' o' :
  elect o cycle buffers = Ok (Some (m, buffers'), o') -> elected_from buffers m buffers'.
Proof.
  destruct o as [[] a]; cbn.
  - intros [= H _]. by eapply take_elected_from.
  - intros ([r a'] & H & [= -> _])%obind_Ok. unfold RRArbiter.elect in H.
    revert H. generalize (length (m_candidates_ids a)). intros n. revert a.
    induction n as [|n IH]; intros a0; cbn; [done|].
    intros (a1 & _ & H)%obind_Ok. destruct (RRArbiter.coreElect a1 buffers) as [r|] eqn:He; [|by eapply IH].
    simplify_eq. by eapply take_elected_from.
  - intros ([r a'] & H & [= -> _])%obind_Ok. unfold TDMArbiter.elect in H.
    destruct (_ =? 0); [done|]. destruct (negb _); [done|].
    apply obind_Ok in H as ([id a1] & _ & [= H _]). by eapply take_elected_from.
Qed.

Lemma forceElect_elected_from o cycle buffers m buffers' o' :
  forceElect o cycle buffers = Ok (Some (m, buffers'), o') -> elected_from buffers m buffers'.
Proof.
  destruct o as [[] a]; cbn.
  - intros [= H _]. by eapply take_elected_from.
  - intros [= H _]. by eapply take_elected_from.
  - intros ([r a'] & H & [= -> _])%obind_Ok.
    apply obind_Ok in H as ([id a1] & _ & [= H _]). by eapply take_elected_from.
Qed.

(** What a client of an arbiter relies on: an election removes exactly the
    message it returns. *)
Class ElectionPolicy (A : Type) := {
  policy_elect : A -> Z -> list (list Message) -> outcome (option (Message * list (list Message)) * A);
  policy_elected_from : forall a c bs m bs' a',
    policy_elect a c bs = Ok (Some (m, bs'), a') -> elected_from bs m bs' }.

#[export] Instance arbiter_policy : ElectionPolicy ArbiterObj :=
  {| policy_elect := elect; policy_elected_from := elect_elected_from |}.
