(* ===== verification/ClockManager.v ===== *)
(** * The clock manager

    [src/ClockManager.cpp]: the event queue that calls every clocked object
    once per period.  [events] is the ordered map, as the list of its entries in
    key order; a clocked object is a number.  What an object does in a cycle is
    a parameter: it acts on the rest of the system and may stop its clock. *)

From Stdlib Require Export Sorted.
From S2P Require Export Prelude.

Open Scope Z_scope.

(** [EventKey] with the mapped object. *)
Record Event := mkEvent { time_stamp : Z; obj_id : Z; clocked_obj : Z }.
#[export] Instance Event_eq_dec : EqDecision Event.
Proof. solve_decision. Defined.

(** [EventKey::operator <] *)
Definition key_lt (a b : Event) : bool :=
  (time_stamp a <? time_stamp b) || ((time_stamp a =? time_stamp b) && (obj_id a <? obj_id b)).

(** [map::insert]: an entry with the same key stays. *)
Fixpoint ev_insert (e : Event) (l : list Event) : list Event :=
  match l with
  | [] => [e]
  | x :: l' => if key_lt e x then e :: l else if key_lt x e then x :: ev_insert e l' else l
  end.

Record ClockManager := mkClock {
  clk_run : bool;
  current_time : Z;
  clock_triggers : list Z;
  events : list Event;
  next_obj_id : Z }.

Definition newClockManager : ClockManager := mkClock false 0 [] [] 0.

Definition set_events (l : list Event) (m : ClockManager) : ClockManager :=
  mkClock (clk_run m) (current_time m) (clock_triggers m) l (next_obj_id m).
Definition set_time (t : Z) (m : ClockManager) : ClockManager :=
  mkClock (clk_run m) t (clock_triggers m) (events m) (next_obj_id m).

Definition registerCLKObj (clk_period : Z) (obj : Z) (m : ClockManager) : ClockManager :=
  mkClock (clk_run m) (current_time m) (clock_triggers m)
    (ev_insert (mkEvent clk_period (next_obj_id m) obj) (events m)) (w64 (next_obj_id m + 1)).

Fixpoint remove_obj (obj : Z) (l : list Event) : list Event :=
  match l with
  | [] => []
  | e :: l' => if clocked_obj e =? obj then l' else e :: remove_obj obj l'
  end.
Definition deregisterCLKObj (obj : Z) (m : ClockManager) : ClockManager := set_events (remove_obj obj (events m)) m.

Definition registerCLKTrigger (obj : Z) (m : ClockManager) : ClockManager :=
  mkClock (clk_run m) (current_time m) (clock_triggers m ++ [obj]) (events m) (next_obj_id m).

Fixpoint erase_trigger (obj : Z) (l : list Z) : list Z :=
  match l with
  | [] => []
  | o :: l' => if o =? obj then l' else o :: erase_trigger obj l'
  end.

Definition stopClock (m : ClockManager) (obj : Z) : ClockManager :=
  let l := erase_trigger obj (clock_triggers m) in
  mkClock (match l with [] => false | _ => clk_run m end) (current_time m) l (events m) (next_obj_id m).

Section Clock.
Context {W : Type}.
(** [getClkPeriod()] of an object, and its [cycleProcess()]: the new state of
    the system and the objects that called [stopClock]. *)
Context (getClkPeriod : Z -> Z) (cycleProcess : Z -> W -> outcome (W * list Z)).

(** The check of [init()]. *)
Definition init_periods (m : ClockManager) : outcome ClockManager :=
  if existsb (fun e => getClkPeriod (clocked_obj e) =? 0) (events m)
  then Exit "ClockManager: a clocked object still has period 0 at init()" else Ok m.

Definition getMinPeriod (m : ClockManager) : Z :=
  foldl (fun min e => let p := getClkPeriod (clocked_obj e) in
    if negb (p =? 0) && ((min =? 0) || (p <? min)) then p else min) 0 (events m).

Definition getStepGranularity (m : ClockManager) : Z :=
  foldl (fun g e => Z.gcd g (getClkPeriod (clocked_obj e))) 0 (events m).

Definition reschedule (t : Z) (e : Event) : Event :=
  mkEvent (w64 (t + getClkPeriod (clocked_obj e))) (obj_id e) (clocked_obj e).

(** The first event's object runs and is put back one period later. *)
Definition fire (e : Event) (rest : list Event) (m : ClockManager) (w : W) : outcome (ClockManager * W) :=
  let! (w', stops) := cycleProcess (clocked_obj e) w in
  let m' := foldl stopClock m stops in
  Ok (set_events (ev_insert (reschedule (current_time m) e) rest) m', w').

Fixpoint clkStep (fuel : nat) (m : ClockManager) (w : W) : outcome (ClockManager * W) :=
  match events m with
  | [] => Crash "begin() of an empty map"
  | e :: rest =>
      if current_time m <? time_stamp e then Ok (set_time (time_stamp e) m, w)
      else if time_stamp e <? current_time m then Exit "ClockManager: CLK event is missed."
      else
        match fuel with
        | O => Crash "loop bound"
        | S n => let! (m', w') := fire e rest m w in clkStep n m' w'
        end
  end.

Fixpoint run_loop (fuel : nat) (m : ClockManager) (w : W) : outcome (ClockManager * W) :=
  if clk_run m then
    match fuel with
    | O => Crash "loop bound"
    | S n => let! (m', w') := clkStep (S (length (events m))) m w in run_loop n m' w'
    end
  else Ok (m, w).

Definition run (fuel : nat) (m : ClockManager) (w : W) : outcome (ClockManager * W) :=
  run_loop fuel (mkClock true (current_time m) (clock_triggers m) (events m) (next_obj_id m)) w.

(** ** One step of simulated time *)

Definition ev_lt (a b : Event) : Prop := key_lt a b = true.

(** The queue is in key order and nothing in it is overdue. *)
Record clk_wf (m : ClockManager) : Prop := mk_clk_wf {
  cw_sorted : StronglySorted ev_lt (events m);
  cw_ids : NoDup (obj_id <$> events m);
  cw_time : Forall (fun e => current_time m <= time_stamp e) (events m);
  cw_some : events m <> [] }.

Lemma key_lt_iff a b : key_lt a b = true <->
  time_stamp a < time_stamp b \/ (time_stamp a = time_stamp b /\ obj_id a < obj_id b).
Proof. unfold key_lt. rewrite orb_true_iff, andb_true_iff, !Z.ltb_lt, Z.eqb_eq. done. Qed.

Lemma ev_insert_perm e l : obj_id e ∉ (obj_id <$> l) -> ev_insert e l ≡ₚ e :: l.
Proof.
  induction l as [|x l IH]; [done|]. rewrite fmap_cons, not_elem_of_cons. intros [Hx Hl]. cbn.
  destruct (key_lt e x) eqn:E1; [done|]. destruct (key_lt x e) eqn:E2.
  - rewrite IH by done. apply Permutation_swap.
  - apply not_true_iff_false in E1, E2. rewrite key_lt_iff in E1, E2. lia.
Qed.

Lemma ev_insert_sorted e l : obj_id e ∉ (obj_id <$> l) -> StronglySorted ev_lt l -> StronglySorted ev_lt (ev_insert e l).
Proof.
  intros Hid H. induction H as [|x l Hs IH Hx]; cbn; [by repeat constructor|].
  rewrite fmap_cons, not_elem_of_cons in Hid. destruct Hid as [Hne Hl].
  destruct (key_lt e x) eqn:E1.
  - constructor; [by constructor|]. constructor; [done|]. eapply Forall_impl; [exact Hx|].
    unfold ev_lt. intros y. rewrite key_lt_iff in *. rewrite !key_lt_iff. lia.
  - destruct (key_lt x e) eqn:E2.
    + constructor; [by apply IH|]. rewrite ev_insert_perm by done. by constructor.
    + apply not_true_iff_false in E1, E2. rewrite key_lt_iff in E1, E2. lia.
Qed.

Lemma ev_insert_later e due rest : Forall (fun x => time_stamp x < time_stamp e) due ->
  ev_insert e (due ++ rest) = due ++ ev_insert e rest.
Proof.
  induction 1 as [|x due Hx _ IH]; [done|]. cbn.
  assert (key_lt e x = false) as -> by (apply not_true_iff_false; rewrite key_lt_iff; lia).
  assert (key_lt x e = true) as -> by (rewrite key_lt_iff; lia). by rewrite IH.
Qed.

(** What the due objects do, in order. *)
Definition fire_due (due : list Event) (s : ClockManager * W) : outcome (ClockManager * W) :=
  ofold (fun s e => let! (w', stops) := cycleProcess (clocked_obj e) s.2 in Ok (foldl stopClock s.1 stops, w')) due s.

Lemma stopClock_frame stops m :
  let m' := foldl stopClock m stops in
  current_time m' = current_time m /\ events m' = events m /\ next_obj_id m' = next_obj_id m.
Proof.
  revert m. induction stops as [|o stops IH]; intros m; [done|]. cbn.
  destruct (IH (stopClock m o)) as (-> & -> & ->). done.
Qed.

Lemma fire_due_frame due s s' : fire_due due s = Ok s' ->
  current_time s'.1 = current_time s.1 /\ events s'.1 = events s.1.
Proof.
  intros H. refine (ofold_inv (fun s0 => current_time s0.1 = current_time s.1 /\ events s0.1 = events s.1) _ _ _ _ _ _ H);
    [|done]. intros [m w] e [m' w'] _ [E1 E2] Hs. cbn in *. apply obind_Ok in Hs as ([w1 stops] & _ & [= <- _]).
  pose proof (stopClock_frame stops m) as (-> & -> & _). done.
Qed.

Lemma foldl_set_events l stops m : foldl stopClock (set_events l m) stops = set_events l (foldl stopClock m stops).
Proof. revert m. induction stops as [|o stops IH]; intros m; [done|]. cbn. by rewrite <- IH. Qed.

Definition insert_all (t : Z) (due rest : list Event) : list Event :=
  foldl (fun l e => ev_insert (reschedule t e) l) rest due.

Lemma clkStep_due fuel due rest m w : events m = due ++ rest ->
  Forall (fun e => time_stamp e = current_time m) due ->
  Forall (fun e => 0 < getClkPeriod (clocked_obj e) /\ 0 <= current_time m /\
                   current_time m + getClkPeriod (clocked_obj e) < 2 ^ 64) due ->
  (length due <= fuel)%nat ->
  clkStep fuel m w =
    let! (m1, w1) := fire_due due (m, w) in
    clkStep (fuel - length due) (set_events (insert_all (current_time m) due rest) m1) w1.
Proof.
  revert fuel m w rest. induction due as [|e due IH]; intros fuel m w rest Hev Ht Hp Hf.
  { cbn. replace (fuel - 0)%nat with fuel by lia. f_equal. destruct m; cbn in *. by subst. }
  apply Forall_cons in Ht as [He Ht], Hp as [Hpe Hp]. destruct fuel as [|fuel]; [cbn in Hf; lia|].
  cbn [clkStep]. rewrite Hev. cbn [app]. rewrite He, Z.ltb_irrefl. unfold fire, fire_due. cbn [ofold fst snd].
  destruct (cycleProcess (clocked_obj e) w) as [[w' stops]|s|s]; [|done..]. cbn [obind fst snd].
  pose proof (stopClock_frame stops m) as (Et & Ee & _).
  rewrite ev_insert_later.
  2:{ eapply Forall_impl; [exact Ht|]. intros x Hx. cbn in Hx |- *. rewrite w64_small by lia. lia. }
  rewrite (IH fuel _ w' (ev_insert (reschedule (current_time m) e) rest)); cbn;
    [|done|by rewrite Et|by rewrite Et|cbn in Hf; lia].
  rewrite Et. unfold fire_due.
  assert (G : forall s w0, ofold (fun s e => let! (w', stops) := cycleProcess (clocked_obj e) s.2 in Ok (foldl stopClock s.1 stops, w'))
      due (set_events (due ++ ev_insert (reschedule (current_time m) e) rest) s, w0) =
    let! (m1, w1) := fire_due due (s, w0) in Ok (set_events (due ++ ev_insert (reschedule (current_time m) e) rest) m1, w1)).
  { generalize (due ++ ev_insert (reschedule (current_time m) e) rest) as l. clear. intros l.
    unfold fire_due. induction due as [|x due IH]; intros s w0; [done|]. cbn.
    destruct (cycleProcess (clocked_obj x) w0) as [[w1 st]|?|?]; [|done..]. cbn. by rewrite foldl_set_events, IH. }
  rewrite G. unfold fire_due. destruct (ofold _ due (foldl stopClock m stops, w')) as [[m1 w1]|?|?]; done.
Qed.

(** A sorted queue starts with the events of the current time. *)
Lemma split_due m : clk_wf m ->
  let due := filter (fun e => time_stamp e = current_time m) (events m) in
  let rest := filter (fun e => time_stamp e <> current_time m) (events m) in
  events m = due ++ rest /\ Forall (fun e => current_time m < time_stamp e) rest.
Proof.
  intros [Hs _ Ht _]. cbn. split.
  - induction Hs as [|e l Hs IH He]; [done|]. apply Forall_cons in Ht as [Hte Ht]. rewrite !filter_cons.
    destruct (decide (time_stamp e = current_time m)) as [E|E].
    + rewrite decide_False by tauto. cbn. by rewrite <- IH.
    + rewrite decide_True by done.
      assert (filter (fun x => time_stamp x = current_time m) l = []) as Enil.
      { apply filter_nil_iff. intros x Hx Ex. rewrite Forall_forall in He. specialize (He x Hx).
        apply key_lt_iff in He. lia. }
      specialize (IH Ht). rewrite Enil in *. cbn in *. by rewrite <- IH.
  - apply Forall_forall. intros e [Hne He]%list_elem_of_filter. rewrite Forall_forall in Ht. specialize (Ht e He). lia.
Qed.

Lemma insert_all_wf t due rest :
  NoDup (obj_id <$> due ++ rest) -> StronglySorted ev_lt rest ->
  StronglySorted ev_lt (insert_all t due rest) /\ insert_all t due rest ≡ₚ (reschedule t <$> due) ++ rest.
Proof.
  revert rest. induction due as [|e due IH]; intros rest; [done|]. cbn. intros [Hall Hnd]%NoDup_cons Hs.
  pose proof Hall as Hid. rewrite fmap_app, not_elem_of_app in Hid. destruct Hid as [_ Hid].
  assert (Hp : ev_insert (reschedule t e) rest ≡ₚ reschedule t e :: rest) by by apply ev_insert_perm.
  destruct (IH (ev_insert (reschedule t e) rest)) as [H1 H2].
  - rewrite fmap_app, Hp. cbn. rewrite <- Permutation_middle, <- fmap_app. by apply NoDup_cons.
  - by apply ev_insert_sorted.
  - split; [done|]. rewrite H2, Hp. by rewrite Permutation_middle.
Qed.

(** C16: one step of simulated time.  Every object whose event is due runs
    exactly once, in the order the objects registered, and is put back exactly
    one period later; the others keep their events; then time moves to the
    earliest event.  The step ends, whatever the objects do, unless one of them
    ends the simulator, and the queue stays in order with nothing overdue. *)
Theorem clkStep_exact fuel m w : clk_wf m ->
  Forall (fun e => 0 < getClkPeriod (clocked_obj e) /\ current_time m + getClkPeriod (clocked_obj e) < 2 ^ 64) (events m) ->
  0 <= current_time m -> (length (events m) <= fuel)%nat ->
  let due := filter (fun e => time_stamp e = current_time m) (events m) in
  let rest := filter (fun e => time_stamp e <> current_time m) (events m) in
  match fire_due due (m, w) with
  | Ok (m1, w1) => exists m', clkStep fuel m w = Ok (m', w1) /\ clk_wf m' /\
      clock_triggers m' = clock_triggers m1 /\
      events m' ≡ₚ (reschedule (current_time m) <$> due) ++ rest /\
      current_time m < current_time m' /\ current_time m' ∈ (time_stamp <$> events m')
  | Exit s => clkStep fuel m w = Exit s
  | Crash s => clkStep fuel m w = Crash s
  end.
Proof.
  intros Hwf Hper Hnow Hfuel due rest. destruct (split_due m Hwf) as [Hev Hrest]. fold due rest in Hev, Hrest.
  assert (Hdue : Forall (fun e => time_stamp e = current_time m) due).
  { apply Forall_forall. by intros e [He _]%list_elem_of_filter. }
  assert (Hlen : (length due <= fuel)%nat) by (rewrite Hev, length_app in Hfuel; lia).
  rewrite (clkStep_due fuel due rest m w Hev Hdue) by
    (try done; apply Forall_forall; intros e [_ He]%list_elem_of_filter; rewrite Forall_forall in Hper;
     specialize (Hper e He); lia).
  destruct (fire_due due (m, w)) as [[m1 w1]|s|s] eqn:Ef; [|done..]. cbn [obind].
  apply fire_due_frame in Ef as [Et Ee]. cbn in Et, Ee.
  pose proof (cw_ids _ Hwf) as Hnd. pose proof (cw_sorted _ Hwf) as Hs. rewrite Hev in Hnd, Hs.
  destruct (insert_all_wf (current_time m) due rest Hnd) as [Hs' Hp'].
  { clear - Hs. induction due as [|e due IH]; [done|]. cbn in Hs. apply StronglySorted_inv in Hs as [Hs _]. by apply IH. }
  assert (Hlater : Forall (fun e => current_time m < time_stamp e) (insert_all (current_time m) due rest)).
  { rewrite Hp'. apply Forall_app. split; [|done]. apply Forall_fmap, Forall_forall.
    intros e [_ He]%list_elem_of_filter. rewrite Forall_forall in Hper. specialize (Hper e He). cbn.
    rewrite w64_small by lia. lia. }
  destruct (insert_all (current_time m) due rest) as [|e0 l0] eqn:El.
  { exfalso. apply (cw_some _ Hwf). rewrite Hev. apply Permutation_nil_l in Hp'. by destruct due, rest. }
  pose proof Hlater as Hl0. apply Forall_cons in Hl0 as [H0 _].
  assert (Hstep : forall k, clkStep k (set_events (e0 :: l0) m1) w1 =
    Ok (set_time (time_stamp e0) (set_events (e0 :: l0) m1), w1)).
  { intros k. destruct k; cbn; by rewrite Et, (proj2 (Z.ltb_lt _ _) H0). }
  rewrite Hstep. eexists. split; [done|]. cbn. split; [|split_and!; try done; by left].
  constructor; cbn; [done| |..|done].
  - change (NoDup (obj_id <$> e0 :: l0)). rewrite Hp'. rewrite fmap_app, <- list_fmap_compose. by rewrite fmap_app in Hnd.
  - apply StronglySorted_inv in Hs' as [_ Ha]. constructor; [done|].
    eapply Forall_impl; [exact Ha|]. intros e He. apply key_lt_iff in He. lia.
Qed.
End Clock.

(** Two objects of periods 2 and 4, one of 3; each logs its number. *)
Definition demo_period (o : Z) : Z := if o =? 0 then 2 else if o =? 1 then 4 else 3.
Definition demo_cycle (o : Z) (log : list Z) : outcome (list Z * list Z) := Ok (log ++ [o], []).
Definition demo_clock : ClockManager :=
  registerCLKObj 0 2 (registerCLKObj 0 1 (registerCLKObj 0 0 newClockManager)).

Lemma clkStep_exact_witness :
  exists m', clkStep demo_period demo_cycle 3 demo_clock [] = Ok (m', [0; 1; 2]) /\ clk_wf m' /\
    clock_triggers m' = [] /\
    events m' ≡ₚ [mkEvent 2 0 0; mkEvent 4 1 1; mkEvent 3 2 2] /\
    0 < current_time m' /\ current_time m' ∈ (time_stamp <$> events m').
Proof.
  apply (clkStep_exact demo_period demo_cycle 3 demo_clock []).
  - constructor.
    + repeat constructor.
    + apply (bool_decide_unpack _). vm_compute. exact I.
    + repeat constructor; discriminate.
    + discriminate.
  - repeat constructor.
  - discriminate.
  - vm_compute. lia.
Defined.
