(* ===== verification/CText.v ===== *)
(** * Text handling of the C++ standard library

    The calls the configuration code makes: [std::getline] on a string stream,
    [atoi], [find], [substr], [find_last_of], and [FSMReader.cpp]'s [_trim].
    A stream is [None] once its end-of-file bit is set. *)

From S2P Require Export Prelude.
From Stdlib Require Export Ascii String.
From stdpp Require Export strings.

Local Open Scope string_scope.
Open Scope Z_scope.

(** The text before the first [c] and the text after it. *)
Fixpoint break_at (c : ascii) (s : string) : option (string * string) :=
  match s with
  | "" => None
  | String a s' =>
      if Ascii.eqb a c then Some ("", s')
      else match break_at c s' with
           | Some (l, r) => Some (String a l, r)
           | None => None
           end
  end.

(** [getline(stream, field, delim)]: success, the new [field] (untouched when
    the stream is already exhausted), the rest of the stream. *)
Definition getline (st : option string) (field : string) (delim : ascii)
    : bool * string * option string :=
  match st with
  | None => (false, field, None)
  | Some s =>
      match break_at delim s with
      | Some (l, r) => (true, l, Some r)
      | None => (negb (String.eqb s ""), s, None)
      end
  end.

(** [while (getline(stream, line, delim))]: the fields it yields. *)
Fixpoint fields_fuel (n : nat) (st : option string) (delim : ascii) : list string :=
  match n with
  | O => []
  | S n' =>
      match getline st "" delim with
      | (true, f, st') => f :: fields_fuel n' st' delim
      | (false, _, _) => []
      end
  end.
Definition fields (st : option string) (delim : ascii) : list string :=
  fields_fuel (match st with Some s => S (String.length s) | None => 0%nat end) st delim.

Definition is_space (a : ascii) : bool :=
  Ascii.eqb a " " || Ascii.eqb a "009" || Ascii.eqb a "010" || Ascii.eqb a "013".

Fixpoint trim_left (s : string) : string :=
  match s with
  | "" => ""
  | String a s' => if is_space a then trim_left s' else s
  end.

Fixpoint trim_right (s : string) : string :=
  match s with
  | "" => ""
  | String a s' =>
      match trim_right s' with
      | "" => if is_space a then "" else String a ""
      | t => String a t
      end
  end.

Definition _trim (s : string) : string := trim_right (trim_left s).

(** Characters [isspace] accepts and [_trim] does not list. *)
Definition isspace (a : ascii) : bool :=
  is_space a || Ascii.eqb a "011" || Ascii.eqb a "012".

Definition digit (a : ascii) : option Z :=
  let n := Z.of_nat (nat_of_ascii a) in
  if (48 <=? n) && (n <=? 57) then Some (n - 48) else None.

Fixpoint digits (s : string) (acc : Z) : Z :=
  match s with
  | "" => acc
  | String a s' => match digit a with Some d => digits s' (10 * acc + d) | None => acc end
  end.

Fixpoint atoi (s : string) : Z :=
  match s with
  | "" => 0
  | String a s' =>
      if isspace a then atoi s'
      else if Ascii.eqb a "-" then i32 (- digits s' 0)
      else if Ascii.eqb a "+" then i32 (digits s' 0)
      else i32 (digits s 0)
  end.

(** [s.find(sub) < string::npos] *)
Fixpoint contains (sub s : string) : bool :=
  String.prefix sub s || match s with "" => false | String _ s' => contains sub s' end.

(** [s.find_last_of(c)]: one past the position, 0 for [npos]. *)
Fixpoint after_last (c : ascii) (s : string) : nat :=
  match s with
  | "" => 0
  | String a s' =>
      match after_last c s' with
      | O => if Ascii.eqb a c then 1%nat else 0%nat
      | S p => S (S p)
      end
  end.

Fixpoint drop_chars (n : nat) (s : string) : string :=
  match n, s with
  | S n', String _ s' => drop_chars n' s'
  | _, _ => s
  end.

Fixpoint take_chars (n : nat) (s : string) : string :=
  match n, s with
  | S n', String a s' => String a (take_chars n' s')
  | _, _ => ""
  end.

(** ** [scanf] and [strto] conversions *)

Fixpoint skip_space (s : string) : string :=
  match s with String a s' => if isspace a then skip_space s' else s | EmptyString => s end.

Definition hex_digit (a : ascii) : option Z :=
  let n := Z.of_nat (nat_of_ascii a) in
  if (48 <=? n) && (n <=? 57) then Some (n - 48)
  else if (97 <=? n) && (n <=? 102) then Some (n - 87)
  else if (65 <=? n) && (n <=? 70) then Some (n - 55)
  else None.

Fixpoint scan_digits (dig : ascii -> option Z) (base : Z) (s : string) (acc : option Z) : option (Z * string) :=
  match s with
  | String a s' =>
      match dig a with
      | Some d => scan_digits dig base s' (Some (base * default 0 acc + d))
      | None => (fun n => (n, s)) <$> acc
      end
  | EmptyString => (fun n => (n, s)) <$> acc
  end.

Definition scan_sign (s : string) : Z * string :=
  match s with
  | String a s' => if Ascii.eqb a "-" then (-1, s') else if Ascii.eqb a "+" then (1, s') else (1, s)
  | EmptyString => (1, s)
  end.

Definition skip_0x (s : string) : string :=
  match s with
  | String "0" (String x s') => if Ascii.eqb x "x" || Ascii.eqb x "X" then s' else s
  | _ => s
  end.

(** [%llx] saturates as [strtoull], [%lld] as [strtoll]. *)
Definition scan_llx (s : string) : option (Z * string) :=
  let '(sg, s1) := scan_sign (skip_space s) in
  match scan_digits hex_digit 16 (skip_0x s1) None with
  | Some (n, r) => Some (if n <=? 2 ^ 64 - 1 then w64 (sg * n) else 2 ^ 64 - 1, r)
  | None => None
  end.
Definition scan_lld (s : string) : option (Z * string) :=
  let '(sg, s1) := scan_sign (skip_space s) in
  match scan_digits digit 10 s1 None with
  | Some (n, r) => Some (Z.max (- 2 ^ 63) (Z.min (2 ^ 63 - 1) (sg * n)), r)
  | None => None
  end.

(** ** Lemmas *)

Lemma append_cons a (s t : string) : String a s +:+ t = String a (s +:+ t).
Proof. done. Qed.

Lemma length_append (s t : string) :
  String.length (s +:+ t) = (String.length s + String.length t)%nat.
Proof. induction s as [|a s IH]; [done|]. rewrite append_cons. cbn. by rewrite IH. Qed.

Lemma break_at_spec c s l r : break_at c s = Some (l, r) -> s = l +:+ String c r.
Proof.
  revert l r. induction s as [|a s IH]; intros l r; cbn; [done|].
  destruct (Ascii.eqb_spec a c) as [->|]; [by intros [= <- <-]|].
  destruct (break_at c s) as [[l' r']|]; [|done]. intros [= <- <-]. cbn.
  by rewrite (IH l' r') at 1.
Qed.

Lemma break_at_length c s l r : break_at c s = Some (l, r) ->
  (String.length r < String.length s)%nat /\ (String.length l < String.length s)%nat.
Proof.
  intros ->%break_at_spec. rewrite length_append. cbn. lia.
Qed.

Lemma fields_fuel_enough delim : forall n1 n2 st,
  (match st with Some s => S (String.length s) | None => 0 end <= n1)%nat ->
  (match st with Some s => S (String.length s) | None => 0 end <= n2)%nat ->
  fields_fuel n1 st delim = fields_fuel n2 st delim.
Proof.
  induction n1 as [|n1 IH]; intros [|n2] [s|] H1 H2; cbn in *; try lia; try done.
  destruct (break_at delim s) as [[l r]|] eqn:E.
  - apply break_at_length in E as [? ?]. f_equal. apply IH; cbn; lia.
  - destruct (negb _); [|done]. f_equal. apply IH; cbn; lia.
Qed.

(** The loop, one call of [getline] at a time. *)
Lemma fields_unfold st delim :
  fields st delim =
    match getline st "" delim with
    | (true, f, st') => f :: fields st' delim
    | (false, _, _) => []
    end.
Proof.
  unfold fields. destruct st as [s|]; [|done]. cbn [fields_fuel].
  destruct (getline (Some s) "" delim) as [[[] f] st'] eqn:E; [|done]. f_equal.
  apply fields_fuel_enough; [|done]. cbn in E.
  destruct (break_at delim s) as [[l r]|] eqn:E1.
  - injection E as <- <-. apply break_at_length in E1 as [? ?]. cbn. lia.
  - injection E as _ <- <-. cbn. lia.
Qed.
