(* ===== verification/FrfcfsBuffer.v ===== *)
(** * The first-ready first-come-first-served queue

    [template class FRFCFS_Buffer] of [header/FRFCFS_Buffer.h], instantiated at
    [Message] as every use in the simulator does.  The readiness callback is
    [check]: it may end the program, and it returns the queued item as well as
    its new state because the coherence protocols cast away the callback's
    [const] and write to the item.  [hold] is the optional address interlock
    ([m_hold], constantly false when unset). *)

From S2P Require Export Messages.

Inductive FRFCFS_State := Ready | NonReady | NeedsAction | Waiting.
#[export] Instance FRFCFS_State_eq_dec : EqDecision FRFCFS_State.
Proof. solve_decision. Defined.

Record Element := mkElement { item : Message; el_state : FRFCFS_State }.
#[export] Instance Element_eq_dec : EqDecision Element.
Proof. solve_decision. Defined.

Record FRFCFS_Buffer := mkBuffer {
  m_buffer : list Element;
  m_max_size : Z;                 (* -1: unbounded *)
  m_line_mask : Z;                (* 0: no per-line gate *)
  m_readiness_state_only : bool;
  m_dirty : bool }.

Definition set_buffer (l : list Element) (dirty : bool) (b : FRFCFS_Buffer) : FRFCFS_Buffer :=
  mkBuffer l (m_max_size b) (m_line_mask b) (m_readiness_state_only b) dirty.

Definition newBuffer (max_size line_mask : Z) (readiness_state_only : bool) : FRFCFS_Buffer :=
  mkBuffer [] max_size line_mask readiness_state_only true.

Definition buf_size (b : FRFCFS_Buffer) : Z := Z.of_nat (length (m_buffer b)).

Definition pushBack (m : Message) (st : FRFCFS_State) (force : bool) (b : FRFCFS_Buffer)
    : bool * FRFCFS_Buffer :=
  if negb force && negb (bool_decide (st = Ready)) && negb (m_max_size b =? -1) &&
     (m_max_size b <=? buf_size b)
  then (false, b)
  else (true, set_buffer (m_buffer b ++ [mkElement m st]) true b).

(** [pos]: one past the last element of the same source, 0 when there is none. *)
Fixpoint insert_pos (src : Source) (l : list Element) : nat :=
  match l with
  | [] => 0
  | e :: l' =>
      match insert_pos src l' with
      | O => if decide (msg_source (item e) = src) then 1%nat else 0%nat
      | S p => S (S p)
      end
  end.

Definition pushFrontOrdered (m : Message) (b : FRFCFS_Buffer) : bool * FRFCFS_Buffer :=
  let pos := insert_pos (msg_source m) (m_buffer b) in
  (true, set_buffer (take pos (m_buffer b) ++ mkElement m Ready :: drop pos (m_buffer b)) true b).

Definition pushFront (m : Message) (b : FRFCFS_Buffer) : bool * FRFCFS_Buffer :=
  (true, set_buffer (mkElement m Ready :: m_buffer b) true b).

Definition markDirty (b : FRFCFS_Buffer) : FRFCFS_Buffer := set_buffer (m_buffer b) true b.

Definition countIf (pred : Message -> bool) (b : FRFCFS_Buffer) : Z :=
  Z.of_nat (length (filter (fun e => pred (item e) = true) (m_buffer b))).

(** Requests and invalidations, the items subject to per-line order. *)
Definition line_ordered (m : Message) : bool := isDemandRequest m || isInvalidation m.

Definition same_line (mask a1 a2 : Z) : bool := Z.land (Z.lxor a1 a2) mask =? 0.

(** [blocked_by_older_same_line] over the elements before the current one. *)
Definition blocked (mask : Z) (older : list Element) (m : Message) : bool :=
  negb (mask =? 0) && line_ordered m &&
  existsb (fun e => line_ordered (item e) && same_line mask (msg_addr (item e)) (msg_addr m)) older.

Section Scan.
  Context (check : Message -> FRFCFS_State -> outcome (FRFCFS_State * Message)).
  Context (hold : Message -> bool).

(** The readiness of one element: the callback runs unless it is [Ready]. *)
Definition element_state (e : Element) : outcome (FRFCFS_State * Message) :=
  if decide (el_state e = Ready) then Ok (Ready, item e) else check (item e) (el_state e).

(** The [for] loop of [getFirstReady]: [older] has been passed over. *)
Fixpoint scan_ready (mask : Z) (older rest : list Element)
    : outcome (option Message * list Element) :=
  match rest with
  | [] => Ok (None, older)
  | e :: rest' =>
      if hold (item e) then scan_ready mask (older ++ [e]) rest'
      else if blocked mask older (item e) then scan_ready mask (older ++ [e]) rest'
      else
        let! (st, it) := element_state e in
        match st with
        | Ready => Ok (Some it, older ++ rest')
        | NeedsAction => Ok (Some it, older ++ mkElement it Waiting :: rest')
        | _ => scan_ready mask (older ++ [mkElement it st]) rest'
        end
  end.

Definition getFirstReady (b : FRFCFS_Buffer) : outcome (option Message * FRFCFS_Buffer) :=
  if m_readiness_state_only b && negb (m_dirty b) then Ok (None, b)
  else
    match m_buffer b with
    | [] => Ok (None, set_buffer [] false b)
    | _ =>
        let! (r, l) := scan_ready (m_line_mask b) [] (m_buffer b) in
        match r with
        | Some m => Ok (Some m, set_buffer l (m_dirty b) b)
        | None => Ok (None, set_buffer l false b)
        end
    end.

(** The same queue with the rescan-skip of [m_readiness_state_only] removed. *)
Definition getFirstReady_rescan (b : FRFCFS_Buffer) : outcome (option Message * FRFCFS_Buffer) :=
  getFirstReady (set_buffer (m_buffer b) true b).

End Scan.

(** ** Lemmas *)

Lemma pushBack_size m st force b ok b' :
  pushBack m st force b = (ok, b') ->
  (ok = true /\ m_buffer b' = m_buffer b ++ [mkElement m st]) \/ (ok = false /\ b' = b).
Proof.
  unfold pushBack. destruct (_ && _) eqn:E; intros [= <- <-]; [by right|by left].
Qed.

Lemma insert_pos_le src l : (insert_pos src l <= length l)%nat.
Proof.
  induction l as [|e l IH]; cbn; [lia|].
  destruct (insert_pos src l); [case_decide|]; lia.
Qed.

(** After the insertion point nothing has the source. *)
Lemma insert_pos_none src l : insert_pos src l = 0%nat -> Forall (fun e => msg_source (item e) <> src) l.
Proof.
  induction l as [|e l IH]; cbn; [by constructor|].
  destruct (insert_pos src l) eqn:E; [case_decide|]; intros; try lia. constructor; auto.
Qed.

Lemma insert_pos_drop src l : Forall (fun e => msg_source (item e) <> src) (drop (insert_pos src l) l).
Proof.
  induction l as [|e l IH]; cbn; [constructor|].
  destruct (insert_pos src l) eqn:E; cbn.
  - apply insert_pos_none in E. case_decide; cbn; [done|by constructor].
  - done.
Qed.

Lemma filter_drop_pos src l :
  filter (fun e => msg_source (item e) = src) (drop (insert_pos src l) l) = [].
Proof.
  apply filter_nil_iff. intros e He. by apply (proj1 (Forall_forall _ _) (insert_pos_drop src l)).
Qed.

Lemma filter_take_pos src l :
  filter (fun e => msg_source (item e) = src) (take (insert_pos src l) l) =
  filter (fun e => msg_source (item e) = src) l.
Proof.
  transitivity (filter (fun e => msg_source (item e) = src)
    (take (insert_pos src l) l ++ drop (insert_pos src l) l)); [|by rewrite take_drop].
  by rewrite filter_app, filter_drop_pos, app_nil_r.
Qed.

(** ** Properties *)

(** Items of one source in queue order. *)
Definition from_source (src : Source) (b : FRFCFS_Buffer) : list Message :=
  item <$> filter (fun e => msg_source (item e) = src) (m_buffer b).

(** Interconnect-side intake keeps the delivery order of its side: the new
    message goes behind every queued message of its source and the other
    sources' messages keep their order. *)
Theorem pushFrontOrdered_order m b :
  let b' := snd (pushFrontOrdered m b) in
  from_source (msg_source m) b' = from_source (msg_source m) b ++ [m] /\
  (forall src, src <> msg_source m -> from_source src b' = from_source src b) /\
  m_buffer b' ≡ₚ mkElement m Ready :: m_buffer b.
Proof.
  unfold from_source; cbn. set (pos := insert_pos (msg_source m) (m_buffer b)). split_and!.
  - rewrite filter_app, filter_cons_True by done. unfold pos.
    by rewrite filter_drop_pos, filter_take_pos, fmap_app.
  - intros src Hsrc. rewrite filter_app, filter_cons_False by (cbn; congruence).
    rewrite <- filter_app, take_drop. done.
  - rewrite <- Permutation_middle. f_equiv. by rewrite take_drop.
Qed.

(** Splitting a scan at the element it stops at. *)
Lemma scan_ready_spec check hold mask : forall rest older r l,
  scan_ready check hold mask older rest = Ok (r, l) ->
  match r with
  | None => exists rest', l = older ++ rest' /\ length rest' = length rest
  | Some m => exists pre e post pre' st,
      rest = pre ++ e :: post /\ length pre' = length pre /\
      hold (item e) = false /\ blocked mask (older ++ pre') (item e) = false /\
      element_state check e = Ok (st, m) /\
      ((st = Ready /\ l = (older ++ pre') ++ post) \/
       (st = NeedsAction /\ l = (older ++ pre') ++ mkElement m Waiting :: post))
  end.
Proof.
  induction rest as [|e rest IH]; intros older r l; cbn [scan_ready].
  { intros [= <- <-]. exists []. by rewrite app_nil_r. }
  assert (Hskip : forall e', scan_ready check hold mask (older ++ [e']) rest = Ok (r, l) ->
    match r with
    | None => exists rest', l = older ++ rest' /\ length rest' = length (e :: rest)
    | Some m => exists pre e0 post pre' st,
        e :: rest = pre ++ e0 :: post /\ length pre' = length pre /\
        hold (item e0) = false /\ blocked mask (older ++ pre') (item e0) = false /\
        element_state check e0 = Ok (st, m) /\
        ((st = Ready /\ l = (older ++ pre') ++ post) \/
         (st = NeedsAction /\ l = (older ++ pre') ++ mkElement m Waiting :: post))
    end).
  { intros e' H. apply IH in H. destruct r as [m|].
    - destruct H as (pre & e0 & post & pre' & st & -> & Hlen & Hh & Hb & He & Hl).
      rewrite <- (app_assoc older [e'] pre') in Hb, Hl.
      exists (e :: pre), e0, post, (e' :: pre'), st.
      split_and!; [done|cbn; lia|done|done|done|done].
    - destruct H as (rest' & -> & Hlen). exists (e' :: rest').
      rewrite <- app_assoc. split; [done|cbn; lia]. }
  destruct (hold (item e)) eqn:Hh; [apply Hskip|].
  destruct (blocked mask older (item e)) eqn:Hb; [apply Hskip|].
  intros ([st it] & He & H)%obind_Ok.
  destruct st; [|by eapply Hskip| |by eapply Hskip]; injection H as <- <-.
  - exists [], e, rest, [], Ready. rewrite !app_nil_r. split_and!; auto.
  - exists [], e, rest, [], NeedsAction. rewrite !app_nil_r. split_and!; auto.
Qed.

Lemma getFirstReady_inv check hold b r b' :
  getFirstReady check hold b = Ok (r, b') ->
  (r = None /\ b' = b /\ m_readiness_state_only b && negb (m_dirty b) = true) \/
  (exists l, scan_ready check hold (m_line_mask b) [] (m_buffer b) = Ok (r, l) /\
     b' = set_buffer l (match r with Some _ => m_dirty b | None => false end) b).
Proof.
  unfold getFirstReady. destruct (_ && _); [intros [= <- <-]; by left|].
  destruct (m_buffer b) as [|e l0] eqn:E.
  - intros [= <- <-]. right. by exists [].
  - intros ([r0 l] & Hs & H)%obind_Ok. right. exists l.
    destruct r0; injection H as <- <-; done.
Qed.

(** Per-line order and the address interlock.  An item handed out by
    [getFirstReady] is not held, its readiness is [Ready] or [NeedsAction] and,
    when it is a request or an invalidation and the gate is on, no older
    request or invalidation to its line is left in the queue before it. *)
Theorem getFirstReady_line_order check hold b m b' :
  m_line_mask b <> 0 ->
  getFirstReady check hold b = Ok (Some m, b') ->
  exists pre e post st,
    m_buffer b = pre ++ e :: post /\
    hold (item e) = false /\
    element_state check e = Ok (st, m) /\ (st = Ready \/ st = NeedsAction) /\
    (exists older, take (length pre) (m_buffer b') = older /\ length older = length pre /\
      (line_ordered (item e) = true ->
       forall e', e' ∈ older -> line_ordered (item e') = true ->
         same_line (m_line_mask b) (msg_addr (item e')) (msg_addr (item e)) = false)).
Proof.
  intros Hmask [(? & _)|(l & Hs & ->)]%getFirstReady_inv; [done|].
  apply scan_ready_spec in Hs as (pre & e & post & pre' & st & Hb & Hlen & Hh & Hbl & He & Hl).
  exists pre, e, post, st. split_and!; [done..| |].
  { destruct Hl as [[? _]|[? _]]; auto. }
  exists pre'. cbn in *. split_and!; [|done|].
  - destruct Hl as [[_ ->]|[_ ->]]; by rewrite take_app_length' by done.
  - intros Ho e' He' Ho'. unfold blocked in Hbl. rewrite Ho in Hbl.
    destruct (Z.eqb_spec (m_line_mask b) 0); [done|]. cbn in Hbl.
    destruct (same_line _ _ _) eqn:Hsame; [|done]. exfalso.
    assert (existsb (fun e0 => line_ordered (item e0) && same_line (m_line_mask b) (msg_addr (item e0)) (msg_addr (item e))) pre' = true); [|congruence].
    apply existsb_exists. exists e'. split; [by apply list_elem_of_In|]. by rewrite Ho', Hsame.
Qed.

(** The admission bound.  An unforced push of an item that is not [Ready]
    never takes the queue past its maximum, and it is refused only when the
    queue is at its maximum. *)
Theorem pushBack_bound m st b ok b' :
  st <> Ready -> m_max_size b <> -1 ->
  pushBack m st false b = (ok, b') ->
  (ok = true /\ buf_size b' <= m_max_size b \/ ok = false /\ b' = b /\ m_max_size b <= buf_size b).
Proof.
  intros Hst Hmax. unfold pushBack, buf_size. rewrite bool_decide_eq_false_2 by done.
  destruct (Z.eqb_spec (m_max_size b) (-1)); [done|]. cbn.
  destruct (Z.leb_spec (m_max_size b) (Z.of_nat (length (m_buffer b)))); intros [= <- <-].
  - right. auto.
  - left. cbn. rewrite length_app; cbn. split; [done|lia].
Qed.

(** ** The rescan-skip optimisation *)

(** What the readiness of the queued items depends on. *)
Record Env := mkEnv {
  env_check : Message -> FRFCFS_State -> outcome (FRFCFS_State * Message);
  env_hold : Message -> bool }.

(** The callback leaves the item alone and gives the same answer when asked
    again in the state it answered. *)
Definition stable_check (env : Env) : Prop :=
  forall m st st' it, env_check env m st = Ok (st', it) ->
    it = m /\ env_check env m st' = Ok (st', m).

Inductive QueueOp :=
| QPushBack (m : Message) (st : FRFCFS_State) (force : bool)
| QPushFront (m : Message)
| QPushFrontOrdered (m : Message)
| QMarkDirty
| QGetFirstReady
| QEnv (env : Env).  (* the state the readiness depends on changes *)

(** One operation with the results visible to the owner.  A change of the
    environment while the queue is not dirty breaks the owner's obligation. *)
Definition queue_step (get : Env -> FRFCFS_Buffer -> outcome (option Message * FRFCFS_Buffer))
    (s : Env * FRFCFS_Buffer) (op : QueueOp) : outcome (list (option Message) * (Env * FRFCFS_Buffer)) :=
  let '(env, b) := s in
  match op with
  | QPushBack m st force => Ok ([], (env, snd (pushBack m st force b)))
  | QPushFront m => Ok ([], (env, snd (pushFront m b)))
  | QPushFrontOrdered m => Ok ([], (env, snd (pushFrontOrdered m b)))
  | QMarkDirty => Ok ([], (env, markDirty b))
  | QGetFirstReady => let! (r, b') := get env b in Ok ([r], (env, b'))
  | QEnv env' => if m_dirty b then Ok ([], (env', b)) else Exit "readiness changed on a clean queue"
  end.

Fixpoint queue_run (get : Env -> FRFCFS_Buffer -> outcome (option Message * FRFCFS_Buffer))
    (s : Env * FRFCFS_Buffer) (ops : list QueueOp) : outcome (list (option Message)) :=
  match ops with
  | [] => Ok []
  | op :: ops' =>
      let! (out, s') := queue_step get s op in
      let! outs := queue_run get s' ops' in
      Ok (out ++ outs)
  end.

Definition get_skip (env : Env) := getFirstReady (env_check env) (env_hold env).
(** The reference: a rescan every time (and so never a clean queue). *)
Definition get_rescan (env : Env) (b : FRFCFS_Buffer) : outcome (option Message * FRFCFS_Buffer) :=
  let! (r, b') := getFirstReady_rescan (env_check env) (env_hold env) b in Ok (r, markDirty b').

(** A fruitless scan leaves a queue on which a scan is fruitless and changes
    nothing. *)
Lemma scan_ready_fixpoint env mask : stable_check env -> forall rest older l,
  scan_ready (env_check env) (env_hold env) mask older rest = Ok (None, l) ->
  exists rest', l = older ++ rest' /\
    scan_ready (env_check env) (env_hold env) mask older rest' = Ok (None, l).
Proof.
  intros Hst. induction rest as [|e rest IH]; intros older l; cbn [scan_ready].
  { intros [= <-]. exists []. by rewrite app_nil_r. }
  assert (Hnext : forall e', scan_ready (env_check env) (env_hold env) mask (older ++ [e']) rest = Ok (None, l) ->
    (env_hold env (item e') = true \/ blocked mask older (item e') = true \/
     (env_hold env (item e') = false /\ blocked mask older (item e') = false /\
      element_state (env_check env) e' = Ok (el_state e', item e') /\
      el_state e' <> Ready /\ el_state e' <> NeedsAction)) ->
    exists rest', l = older ++ rest' /\
      scan_ready (env_check env) (env_hold env) mask older rest' = Ok (None, l)).
  { intros e' H Hcase. apply IH in H as (rest' & -> & Hs).
    exists (e' :: rest'). rewrite <- app_assoc. split; [done|]. cbn.
    rewrite <- app_assoc in Hs. cbn in Hs.
    destruct Hcase as [->|[Hb|(-> & -> & -> & H1 & H2)]]; [done| |].
    - destruct (env_hold env (item e')); [done|]. by rewrite Hb.
    - cbn. destruct e' as [it st]; cbn in *. destruct st; done. }
  destruct (env_hold env (item e)) eqn:Hh; [intros H; apply Hnext in H; auto|].
  destruct (blocked mask older (item e)) eqn:Hb; [intros H; apply Hnext in H; auto|].
  intros ([st it] & He & H)%obind_Ok.
  assert (Hit : it = item e /\ (st <> Ready -> element_state (env_check env) (mkElement it st) = Ok (st, it))).
  { unfold element_state in *. case_decide.
    - injection He as <- <-. done.
    - destruct (Hst _ _ _ _ He) as [-> Hc]. split; [done|]. intros. cbn. by rewrite decide_False. }
  destruct Hit as [-> Hagain].
  destruct st; [done| |done|]; apply Hnext in H; try done; right; right; cbn; auto 10.
Qed.

(** A clean queue is one whose scan is fruitless. *)
Definition clean_inv (s : Env * FRFCFS_Buffer) : Prop :=
  m_dirty (snd s) = false ->
  scan_ready (env_check (fst s)) (env_hold (fst s)) (m_line_mask (snd s)) [] (m_buffer (snd s))
  = Ok (None, m_buffer (snd s)).

Lemma getFirstReady_dirty_scan env b : m_dirty b = true ->
  get_skip env b =
    let! (r, l) := scan_ready (env_check env) (env_hold env) (m_line_mask b) [] (m_buffer b) in
    Ok (r, set_buffer l (match r with Some _ => true | None => false end) b).
Proof.
  intros Hd. unfold get_skip, getFirstReady. rewrite Hd, andb_false_r.
  destruct (m_buffer b); [done|]. destruct (scan_ready _ _ _ _ _) as [[[] ?]|?|?]; done.
Qed.

Lemma get_rescan_scan env b :
  get_rescan env b =
    let! (r, l) := scan_ready (env_check env) (env_hold env) (m_line_mask b) [] (m_buffer b) in
    Ok (r, set_buffer l true b).
Proof.
  unfold get_rescan, getFirstReady_rescan.
  change (getFirstReady (env_check env) (env_hold env)) with (get_skip env).
  rewrite getFirstReady_dirty_scan by done. cbn.
  destruct (scan_ready _ _ _ _ _) as [[r l]|?|?]; done.
Qed.

(** The simulation relation: same queue up to the dirty bit. *)
Definition same_queue (s t : Env * FRFCFS_Buffer) : Prop :=
  fst s = fst t /\ markDirty (snd s) = snd t /\ clean_inv s /\ stable_check (fst s).

Lemma same_queue_dirty env b :
  stable_check env -> m_dirty b = true -> same_queue (env, b) (env, b).
Proof.
  intros Hst Hd. unfold same_queue, clean_inv; cbn. rewrite Hd.
  split_and!; [done| |done|done]. destruct b; cbn in *; by subst.
Qed.

Lemma queue_step_sim s t op out s' :
  same_queue s t -> match op with QEnv env => stable_check env | _ => True end ->
  m_readiness_state_only (snd s) = true ->
  queue_step get_skip s op = Ok (out, s') ->
  exists t', queue_step get_rescan t op = Ok (out, t') /\ same_queue s' t' /\
    m_readiness_state_only (snd s') = true.
Proof.
  destruct s as [env b], t as [env' b']; intros (E1 & E2 & Hclean & Hst) Hop Hro; cbn in *.
  subst env' b'. destruct op; cbn.
  - unfold pushBack, buf_size; cbn. destruct (_ && _); cbn; intros [= <- <-].
    + by exists (env, markDirty b).
    + eexists; split; [done|]. split; [|done]. by apply same_queue_dirty.
  - intros [= <- <-]. eexists; split; [done|]. split; [|done]. by apply same_queue_dirty.
  - intros [= <- <-]. eexists; split; [done|]. split; [|done]. by apply same_queue_dirty.
  - intros [= <- <-]. eexists; split; [done|]. split; [|done]. by apply same_queue_dirty.
  - intros ([r b2] & Hg & [= <- <-])%obind_Ok. rewrite get_rescan_scan. cbn.
    destruct (m_dirty b) eqn:Hd.
    + rewrite getFirstReady_dirty_scan in Hg by done.
      destruct (scan_ready _ _ _ _ _) as [[r1 l]|?|?] eqn:Hs; cbn in Hg; [|done..].
      injection Hg as <- <-. cbn. eexists; split; [done|]. split; [|done].
      split_and!; [done|done| |done]. unfold clean_inv; cbn. destruct r1; [done|]. intros _.
      by destruct (scan_ready_fixpoint env _ Hst _ _ _ Hs) as (rest' & -> & ?).
    + unfold get_skip, getFirstReady in Hg. rewrite Hro, Hd in Hg. cbn in Hg. injection Hg as <- <-.
      specialize (Hclean Hd) as Hs. cbn in Hs. rewrite Hs. cbn.
      eexists; split; [done|]. by split.
  - destruct (m_dirty b) eqn:Hd; [|done]. intros [= <- <-]. eexists; split; [done|].
    split; [|done]. replace (markDirty b) with b by (destruct b; cbn in *; by subst).
    by apply same_queue_dirty.
Qed.

Definition stable_op (op : QueueOp) : Prop :=
  match op with QEnv env => stable_check env | _ => True end.

Lemma queue_run_sim ops : Forall stable_op ops -> forall s t outs,
  same_queue s t -> m_readiness_state_only (snd s) = true ->
  queue_run get_skip s ops = Ok outs -> queue_run get_rescan t ops = Ok outs.
Proof.
  induction 1 as [|op ops Hop _ IH]; intros s t outs Hsim Hro; cbn; [done|].
  intros ([out s'] & Hstep & (outs' & Hrest & [= <-])%obind_Ok)%obind_Ok.
  destruct (queue_step_sim s t op out s' Hsim Hop Hro Hstep) as (t' & -> & Hsim' & Hro').
  cbn. by rewrite (IH s' t' outs' Hsim' Hro' Hrest).
Qed.


(** ** Witnesses *)

(** A line-granular gate (64-byte lines) and a callback that keeps odd-tagged
    lines waiting. *)
Definition demo_msg (id addr cv : Z) : Message := newMessage id addr 0 cv 0.
Definition demo_check (m : Message) (st : FRFCFS_State) : outcome (FRFCFS_State * Message) :=
  Ok (if Z.testbit (msg_addr m) 6 then Waiting else Ready, m).
Definition demo_hold (m : Message) : bool := msg_addr m =? 0x200.
Definition demo_env : Env := mkEnv demo_check demo_hold.
Definition demo_buffer : FRFCFS_Buffer :=
  mkBuffer [mkElement (demo_msg 1 0x40 0) NonReady; mkElement (demo_msg 2 0x48 0) NonReady;
            mkElement (demo_msg 3 0x200 0) NonReady; mkElement (demo_msg 4 0x80 1) NonReady]
    4 (Z.lnot 63) true true.

Lemma getFirstReady_line_order_witness :
  exists b', getFirstReady demo_check demo_hold demo_buffer = Ok (Some (demo_msg 4 0x80 1), b') /\
  exists pre e post st,
    m_buffer demo_buffer = pre ++ e :: post /\
    demo_hold (item e) = false /\
    element_state demo_check e = Ok (st, demo_msg 4 0x80 1) /\ (st = Ready \/ st = NeedsAction) /\
    (exists older, take (length pre) (m_buffer b') = older /\ length older = length pre /\
      (line_ordered (item e) = true ->
       forall e', e' ∈ older -> line_ordered (item e') = true ->
         same_line (m_line_mask demo_buffer) (msg_addr (item e')) (msg_addr (item e)) = false)).
Proof.
  eexists. split; [vm_compute; reflexivity|].
  apply (getFirstReady_line_order demo_check demo_hold demo_buffer); [done|vm_compute; reflexivity].
Defined.

Lemma pushBack_bound_witness :
  let r := pushBack (demo_msg 5 0x100 0) NonReady false demo_buffer in
  fst r = false /\
  (fst r = true /\ buf_size (snd r) <= m_max_size demo_buffer \/
   fst r = false /\ snd r = demo_buffer /\ m_max_size demo_buffer <= buf_size demo_buffer).
Proof.
  split; [reflexivity|].
  apply (pushBack_bound (demo_msg 5 0x100 0) NonReady demo_buffer); done.
Defined.

Definition demo_ops : list QueueOp :=
  [QGetFirstReady; QGetFirstReady; QPushBack (demo_msg 6 0x0 0) NonReady false;
   QGetFirstReady; QMarkDirty; QEnv (mkEnv (fun m st => Ok (Ready, m)) (fun _ => false));
   QGetFirstReady; QGetFirstReady].

Lemma demo_check_stable : stable_check demo_env.
Proof. intros m st st' it. cbn. unfold demo_check. by intros [= <- <-]. Qed.

