(* ===== verification/CacheLine.v ===== *)
(** * Cache lines and replacement policies

    [GenericCacheLine], [ReplacementPolicies/] and [Policy.h].  A line's data is
    [None] while [m_data] is NULL.  [rand()] is a stream of draws kept in the
    policy's state: what the library returns is arbitrary, the theorems hold
    for every stream. *)

From S2P Require Export Messages CText.

(** ** [GenericCacheLine] *)

Record GenericCacheLine := mkLine {
  valid : bool;
  insertCycle : Z;
  accessCycle : Z;
  accessCounter : Z;
  tag : Z;               (* int64_t *)
  state : Z;             (* int *)
  owner_id : Z;          (* int *)
  line_block_size : Z;   (* uint32_t m_block_size *)
  line_data : option bytes }.
#[export] Instance GenericCacheLine_eq_dec : EqDecision GenericCacheLine.
Proof. solve_decision. Defined.

Definition newLine : GenericCacheLine := mkLine false 0 0 0 (-1) 0 (-1) 0 None.

Definition set_valid (v : bool) (l : GenericCacheLine) : GenericCacheLine :=
  mkLine v (insertCycle l) (accessCycle l) (accessCounter l) (tag l) (state l) (owner_id l)
    (line_block_size l) (line_data l).
Definition set_tag (t : Z) (l : GenericCacheLine) : GenericCacheLine :=
  mkLine (valid l) (insertCycle l) (accessCycle l) (accessCounter l) t (state l) (owner_id l)
    (line_block_size l) (line_data l).
Definition set_state (s : Z) (l : GenericCacheLine) : GenericCacheLine :=
  mkLine (valid l) (insertCycle l) (accessCycle l) (accessCounter l) (tag l) s (owner_id l)
    (line_block_size l) (line_data l).
Definition set_owner_id (o : Z) (l : GenericCacheLine) : GenericCacheLine :=
  mkLine (valid l) (insertCycle l) (accessCycle l) (accessCounter l) (tag l) (state l) o
    (line_block_size l) (line_data l).
Definition set_block_size (n : Z) (l : GenericCacheLine) : GenericCacheLine :=
  mkLine (valid l) (insertCycle l) (accessCycle l) (accessCounter l) (tag l) (state l) (owner_id l)
    n (line_data l).
Definition set_data (d : option bytes) (l : GenericCacheLine) : GenericCacheLine :=
  mkLine (valid l) (insertCycle l) (accessCycle l) (accessCounter l) (tag l) (state l) (owner_id l)
    (line_block_size l) d.

(** [self.copyBits(line)]: everything but the tag and the data. *)
Definition copyBits (line self : GenericCacheLine) : GenericCacheLine :=
  mkLine (valid line) (insertCycle line) (accessCycle line) (accessCounter line) (tag self)
    (state line) (owner_id line) (line_block_size line) (line_data self).

(** [self.copyData(data)]: a buffer is allocated when there is none. *)
Definition copyData (data : bytes) (self : GenericCacheLine) : GenericCacheLine :=
  set_data (Some (memcpy (default [] (line_data self)) data (line_block_size self))) self.

(** [self.copy(line)], also [operator=] and, on [newLine], the copy constructor. *)
Definition copy (line self : GenericCacheLine) : GenericCacheLine :=
  let self' := copyBits line self in
  match line_data line with
  | Some d => copyData d self'
  | None => self'
  end.

(** [self.modifyData(data, offset, size)].  The guard compares the offset alone
    with the block size; a write that runs past the buffer is a [Crash]. *)
Definition modifyData (data : bytes) (offset size : Z) (self : GenericCacheLine)
    : outcome GenericCacheLine :=
  match line_data self with
  | None => Exit "GenericCacheLine: Error modifying unallocated line"
  | Some d =>
      if line_block_size self <? offset
      then Exit "GenericCacheLine: Error out of boundary access"
      else if Z.of_nat (length d) <? offset + size then Crash "write past the line buffer"
      else Ok (set_data (Some (take (Z.to_nat offset) d ++ take (Z.to_nat size) data
                               ++ drop (Z.to_nat (offset + size)) d)) self)
  end.

(** A line whose buffer, when it has one, holds a block. *)
Definition line_wf (bs : Z) (l : GenericCacheLine) : Prop :=
  line_block_size l = bs /\
  match line_data l with Some d => Z.of_nat (length d) = bs | None => True end.

Lemma memcpy_full dst src n :
  Z.of_nat (length src) = n -> Z.of_nat (length dst) <= n -> memcpy dst src n = src.
Proof.
  intros Hs Hd. unfold memcpy. rewrite drop_ge by lia. rewrite app_nil_r. apply take_ge. lia.
Qed.

Lemma copyData_wf bs d l :
  line_wf bs l -> Z.of_nat (length d) = bs -> copyData d l = set_data (Some d) l.
Proof.
  intros [Hb Hl] Hd. unfold copyData. rewrite memcpy_full; [done|lia|].
  destruct (line_data l); cbn; lia.
Qed.

Lemma set_data_wf bs d l :
  line_wf bs l -> Z.of_nat (length d) = bs -> line_wf bs (set_data (Some d) l).
Proof. intros [Hb Hl] Hd. by split. Qed.

Lemma copy_wf_eq bs l s :
  line_wf bs l -> line_wf bs s ->
  copy l s = set_tag (tag s) (match line_data l with Some _ => l | None => set_data (line_data s) l end).
Proof.
  intros [Hb Hl] [Hb' Hs]. unfold copy.
  destruct l as [v ic ac an t st o b [d|]], s as [v' ic' ac' an' t' st' o' b' ds]; cbn in *; [|done].
  subst b'. unfold copyData, set_data, set_tag; cbn. rewrite memcpy_full; [done|lia|].
  destruct ds; cbn in *; lia.
Qed.

Lemma copy_wf bs l s : line_wf bs l -> line_wf bs s -> line_wf bs (copy l s).
Proof.
  intros Hl Hs. rewrite (copy_wf_eq bs) by done. destruct Hl as [Hb Hl], Hs as [Hb' Hs].
  unfold line_wf. destruct l as [v ic ac an t st o b [d|]]; cbn in *; auto.
Qed.

(** ** Replacement policies *)

Inductive PolicyKind :=
| LRU (last_access_cycle : gmap Z (list Z))
| RANDOM (rand : nat -> Z).

Record ReplacementPolicy := mkPolicy { policy : PolicyKind; policy_ways : Z }.

Definition getReplacementPolicy (policy_name : string) (ways_count : Z) (rand : nat -> Z)
    : outcome ReplacementPolicy :=
  if String.eqb policy_name "RANDOM" then Ok (mkPolicy (RANDOM rand) ways_count)
  else if String.eqb policy_name "LRU" then Ok (mkPolicy (LRU ∅) ways_count)
  else Exit "Error unvalid policy name".

(** The ways of [0 .. ways_count - 1] whose bit is set in [allowed]. *)
Definition ways (ways_count : Z) : list Z := seqZ 0 ways_count.
Definition allowed_ways (ways_count allowed : Z) : list Z :=
  filter (fun i => Z.testbit allowed i = true) (ways ways_count).

Module LeastRecentlyUsed.
Definition stamps (m : gmap Z (list Z)) (set : Z) : list Z := default [] (m !! set).

Definition update (m : gmap Z (list Z)) (set way cycle : Z) : gmap Z (list Z) :=
  if way <? 0 then m
  else
    let v := stamps m set in
    if way <? Z.of_nat (length v)
    then <[set := <[Z.to_nat way := cycle]> v]> m
    else <[set := v ++ [cycle]]> m.

(** [getReplacementCandidate(set, way)]: the first smallest stamp recorded. *)
Fixpoint oldest (v : list Z) (i way best : Z) : Z :=
  match v with
  | [] => way
  | s :: v' => if s <? best then oldest v' (i + 1) i s else oldest v' (i + 1) way best
  end.

Definition getReplacementCandidate (m : gmap Z (list Z)) (ways_count set : Z) : outcome Z :=
  if bool_decide (m !! set = None) && (ways_count =? 0)
  then Exit "LeastRecentlyUsed: No record for set or it's not full"
  else Ok (match stamps m set with [] => 0 | s :: v => oldest v 1 0 s end).

(** The loop of the restricted choice; [None] is [*way == -1]. *)
Fixpoint oldest_allowed (v : list Z) (cands : list Z) (way : option (Z * Z)) : option (Z * Z) :=
  match cands with
  | [] => way
  | i :: cands' =>
      let stamp := default 0 (v !! Z.to_nat i) in
      match way with
      | None => oldest_allowed v cands' (Some (i, stamp))
      | Some (_, best) =>
          if stamp <? best then oldest_allowed v cands' (Some (i, stamp))
          else oldest_allowed v cands' way
      end
  end.

Definition getReplacementCandidate_allowed (m : gmap Z (list Z)) (ways_count set allowed : Z)
    : outcome Z :=
  match oldest_allowed (stamps m set) (allowed_ways ways_count allowed) None with
  | Some (way, _) => Ok way
  | None => getReplacementCandidate m ways_count set
  end.
End LeastRecentlyUsed.

Module Random.
(** [rand() % m_ways_count] *)
Definition getReplacementCandidate (rand : nat -> Z) (ways_count : Z) : outcome Z :=
  if ways_count =? 0 then Crash "Random: modulo by zero" else Ok (w32 (rand 0%nat) mod ways_count).

Definition getReplacementCandidate_allowed (rand : nat -> Z) (ways_count allowed : Z) : outcome Z :=
  match allowed_ways ways_count allowed with
  | [] => getReplacementCandidate rand ways_count
  | l => match l !! Z.to_nat (rand 0%nat mod Z.of_nat (length l)) with
         | Some way => Ok way
         | None => Crash "unreachable"
         end
  end.
End Random.

(** Virtual dispatch.  A choice by [RANDOM] consumes a draw. *)
Definition policy_update (p : ReplacementPolicy) (set way cycle : Z) : ReplacementPolicy :=
  match policy p with
  | LRU m => mkPolicy (LRU (LeastRecentlyUsed.update m set way cycle)) (policy_ways p)
  | RANDOM _ => p
  end.

Definition policy_candidate (p : ReplacementPolicy) (set allowed : Z) : outcome (Z * ReplacementPolicy) :=
  match policy p with
  | LRU m =>
      let! way := LeastRecentlyUsed.getReplacementCandidate_allowed m (policy_ways p) set allowed in
      Ok (way, p)
  | RANDOM r =>
      let! way := Random.getReplacementCandidate_allowed r (policy_ways p) allowed in
      Ok (way, mkPolicy (RANDOM (fun n => r (S n))) (policy_ways p))
  end.

(** ** Lemmas *)

Lemma ways_elem n i : i ∈ ways n <-> 0 <= i < n.
Proof. unfold ways. rewrite elem_of_seqZ. lia. Qed.

Lemma allowed_ways_elem n a i : i ∈ allowed_ways n a <-> 0 <= i < n /\ Z.testbit a i = true.
Proof. unfold allowed_ways. rewrite list_elem_of_filter, ways_elem. tauto. Qed.

Lemma oldest_allowed_spec v cands way r :
  LeastRecentlyUsed.oldest_allowed v cands way = r ->
  match way with Some (w, b) => b = default 0 (v !! Z.to_nat w) | None => True end ->
  match r with
  | None => way = None /\ cands = []
  | Some (w, b) =>
      b = default 0 (v !! Z.to_nat w) /\
      (w ∈ cands \/ way = Some (w, b)) /\
      (forall i, i ∈ cands -> b <= default 0 (v !! Z.to_nat i)) /\
      match way with Some (_, b0) => b <= b0 | None => True end
  end.
Proof.
  intros <-. revert way. induction cands as [|i cands IH]; intros way Hway; cbn.
  - destruct way as [[w b]|]; [|done]. split_and!; [done|auto| |lia]. by intros i Hi%not_elem_of_nil.
  - assert (Hstep : forall w' b', b' = default 0 (v !! Z.to_nat w') ->
      (w' = i \/ way = Some (w', b')) -> b' <= default 0 (v !! Z.to_nat i) ->
      match way with Some (_, b0) => b' <= b0 | None => True end ->
      match LeastRecentlyUsed.oldest_allowed v cands (Some (w', b')) with
      | None => way = None /\ i :: cands = []
      | Some (w, b) =>
          b = default 0 (v !! Z.to_nat w) /\ (w ∈ i :: cands \/ way = Some (w, b)) /\
          (forall i', i' ∈ i :: cands -> b <= default 0 (v !! Z.to_nat i')) /\
          match way with Some (_, b0) => b <= b0 | None => True end
      end).
    { intros w' b' Hb Hor Hle Hle0. specialize (IH (Some (w', b')) Hb).
      destruct (LeastRecentlyUsed.oldest_allowed v cands (Some (w', b'))) as [[w b]|].
      - destruct IH as (Hbw & Hin & Hmin & Hbb). split_and!; [done| | |].
        + destruct Hin as [Hin|[= -> ->]]; [left; by right|].
          destruct Hor as [->|Hor]; [left; by left|by right].
        + intros i' [->|Hi']%elem_of_cons; [lia|auto].
        + destruct way as [[? ?]|]; lia || done.
      - by destruct IH as [? _]. }
    destruct way as [[w0 b0]|]; [|apply Hstep; auto; lia].
    destruct (Z.ltb_spec (default 0 (v !! Z.to_nat i)) b0); apply Hstep; auto; lia.
Qed.

Lemma random_pick_ok (l : list Z) r : l <> [] ->
  exists way, l !! Z.to_nat (r mod Z.of_nat (length l)) = Some way.
Proof.
  intros Hl. apply lookup_lt_is_Some. destruct l; [done|]. cbn.
  pose proof (Z.mod_pos_bound r (Z.of_nat (S (length l)))). lia.
Qed.

(** A choice restricted to a set of ways that has a way of the cache ends in
    one of them. *)
Lemma policy_candidate_allowed p set allowed :
  allowed_ways (policy_ways p) allowed <> [] ->
  exists way p', policy_candidate p set allowed = Ok (way, p') /\
    way ∈ allowed_ways (policy_ways p) allowed /\ policy_ways p' = policy_ways p.
Proof.
  intros Hne. unfold policy_candidate. destruct (policy p) as [m|r].
  - unfold LeastRecentlyUsed.getReplacementCandidate_allowed.
    destruct (LeastRecentlyUsed.oldest_allowed _ _ None) as [[w b]|] eqn:E;
      apply oldest_allowed_spec in E; try done.
    + destruct E as (_ & [Hin|?] & _); [|done]. cbn. by exists w, p.
    + by destruct E.
  - unfold Random.getReplacementCandidate_allowed.
    destruct (allowed_ways (policy_ways p) allowed) as [|a l] eqn:E; [done|].
    destruct (random_pick_ok (a :: l) (r 0%nat)) as [way Hw]; [done|]. rewrite Hw. cbn.
    eexists _, _. split_and!; [done| |done]. by eapply list_elem_of_lookup_2.
Qed.

Lemma policy_update_ways p set way c : policy_ways (policy_update p set way c) = policy_ways p.
Proof. unfold policy_update. by destruct (policy p). Qed.

Lemma stamps_insert m set v : LeastRecentlyUsed.stamps (<[set := v]> m) set = v.
Proof. unfold LeastRecentlyUsed.stamps. by rewrite lookup_insert_eq. Qed.

(** ** Properties *)

(** The LRU victim.  With a way mask that allows some way of the set, the
    victim is allowed and no allowed way carries an older stamp, a way that
    was never touched counting as stamp 0. *)
Theorem LRU_victim_oldest m n set allowed way :
  allowed_ways n allowed <> [] ->
  LeastRecentlyUsed.getReplacementCandidate_allowed m n set allowed = Ok way ->
  0 <= way < n /\ Z.testbit allowed way = true /\
  forall i, 0 <= i < n -> Z.testbit allowed i = true ->
    default 0 (LeastRecentlyUsed.stamps m set !! Z.to_nat way)
    <= default 0 (LeastRecentlyUsed.stamps m set !! Z.to_nat i).
Proof.
  intros Hne. unfold LeastRecentlyUsed.getReplacementCandidate_allowed.
  destruct (LeastRecentlyUsed.oldest_allowed _ _ None) as [[w b]|] eqn:E;
    apply oldest_allowed_spec in E; try done; [|by destruct E].
  intros [= <-]. destruct E as (-> & [Hin|?] & Hmin & _); [|done].
  apply allowed_ways_elem in Hin as [? ?]. split_and!; [lia..|done|].
  intros i Hi Ha. apply Hmin, allowed_ways_elem. auto.
Qed.

Lemma LRU_victim_oldest_witness :
  LeastRecentlyUsed.getReplacementCandidate_allowed {[ 3 := [5; 2; 9; 1] ]} 4 3 7 = Ok 1 /\
  (0 <= 1 < 4 /\ Z.testbit 7 1 = true /\
   forall i, 0 <= i < 4 -> Z.testbit 7 i = true ->
    default 0 (LeastRecentlyUsed.stamps {[ 3 := [5; 2; 9; 1] ]} 3 !! Z.to_nat 1)
    <= default 0 (LeastRecentlyUsed.stamps {[ 3 := [5; 2; 9; 1] ]} 3 !! Z.to_nat i)).
Proof.
  split; [vm_compute; reflexivity|].
  apply (LRU_victim_oldest {[ 3 := [5; 2; 9; 1] ]} 4 3 7 1); [done|vm_compute; reflexivity].
Defined.

(** The LRU bookkeeping goes wrong exactly when a way is first touched out
    of order: the stamp of a touch of [way] is recorded under [way] if and only
    if [way] is at most the number of ways already recorded. *)
Theorem LRU_update_records m set way cycle :
  0 <= way ->
  LeastRecentlyUsed.stamps (LeastRecentlyUsed.update m set way cycle) set !! Z.to_nat way = Some cycle
  <-> way <= Z.of_nat (length (LeastRecentlyUsed.stamps m set)).
Proof.
  intros Hway. unfold LeastRecentlyUsed.update. destruct (Z.ltb_spec way 0); [lia|].
  set (v := LeastRecentlyUsed.stamps m set).
  destruct (Z.ltb_spec way (Z.of_nat (length v))); rewrite stamps_insert.
  - rewrite list_lookup_insert_eq by lia. split; [lia|done].
  - split; intros Hl.
    + apply lookup_lt_Some in Hl. rewrite length_app in Hl. cbn in Hl. lia.
    + rewrite lookup_app_r by lia. by replace (Z.to_nat way - length v)%nat with 0%nat by lia.
Qed.

Lemma LRU_update_records_witness :
  LeastRecentlyUsed.stamps (LeastRecentlyUsed.update ∅ 0 1 77) 0 = [77] /\
  (LeastRecentlyUsed.stamps (LeastRecentlyUsed.update ∅ 0 1 77) 0 !! Z.to_nat 1 = Some 77
   <-> 1 <= Z.of_nat (length (LeastRecentlyUsed.stamps ∅ 0))).
Proof.
  split; [vm_compute; reflexivity|]. apply (LRU_update_records ∅ 0 1 77). lia.
Defined.
