(* ===== verification/DataHandler.v ===== *)
(** * The cache data handler

    [CacheDataHandler] (the tag and data array with its port timing and the way
    partition) and [CacheDataHandler_COTS] (the array with a miss status
    holding register file and a write-back buffer).  The virtual functions the
    base class calls through [this] are the class [CacheStore]; the base
    operations are written against it and instantiated at both handlers. *)

From S2P Require Export CacheLine.

Local Open Scope string_scope.
Open Scope Z_scope.

(** ** State *)

Record CacheDataHandler := mkHandler {
  m_cache : list GenericCacheLine;        (* [m_cache[set * m_ways_count + way]] *)
  m_block_size : Z;                       (* uint32_t *)
  m_ways_count : Z;                       (* uint32_t *)
  m_way_mask : gmap Z Z;                  (* core -> ways *)
  m_shared_mask : Z;
  m_all_mask : Z;
  m_requester : Z;                        (* int, -1: unrestricted *)
  m_sets_count : Z;                       (* uint32_t *)
  m_replacement_policy : ReplacementPolicy;
  dh_cycle : Z;                           (* uint64_t m_cycle *)
  m_data_access_latency : Z;              (* uint32_t *)
  m_ready_cycle : Z;                      (* uint64_t *)
  m_data_array_pipelined : bool;
  m_data_array_ports : Z }.

Definition set_cache (c : list GenericCacheLine) (h : CacheDataHandler) : CacheDataHandler :=
  mkHandler c (m_block_size h) (m_ways_count h) (m_way_mask h) (m_shared_mask h) (m_all_mask h)
    (m_requester h) (m_sets_count h) (m_replacement_policy h) (dh_cycle h)
    (m_data_access_latency h) (m_ready_cycle h) (m_data_array_pipelined h) (m_data_array_ports h).
Definition setRequester (core : Z) (h : CacheDataHandler) : CacheDataHandler :=
  mkHandler (m_cache h) (m_block_size h) (m_ways_count h) (m_way_mask h) (m_shared_mask h) (m_all_mask h)
    core (m_sets_count h) (m_replacement_policy h) (dh_cycle h)
    (m_data_access_latency h) (m_ready_cycle h) (m_data_array_pipelined h) (m_data_array_ports h).
Definition set_policy (p : ReplacementPolicy) (h : CacheDataHandler) : CacheDataHandler :=
  mkHandler (m_cache h) (m_block_size h) (m_ways_count h) (m_way_mask h) (m_shared_mask h) (m_all_mask h)
    (m_requester h) (m_sets_count h) p (dh_cycle h)
    (m_data_access_latency h) (m_ready_cycle h) (m_data_array_pipelined h) (m_data_array_ports h).
Definition updateCycle (cycle : Z) (h : CacheDataHandler) : CacheDataHandler :=
  mkHandler (m_cache h) (m_block_size h) (m_ways_count h) (m_way_mask h) (m_shared_mask h) (m_all_mask h)
    (m_requester h) (m_sets_count h) (m_replacement_policy h) cycle
    (m_data_access_latency h) (m_ready_cycle h) (m_data_array_pipelined h) (m_data_array_ports h).
(** [if (!m_data_array_pipelined) m_ready_cycle = m_cycle + m_data_access_latency;] *)
Definition close_port (h : CacheDataHandler) : CacheDataHandler :=
  mkHandler (m_cache h) (m_block_size h) (m_ways_count h) (m_way_mask h) (m_shared_mask h) (m_all_mask h)
    (m_requester h) (m_sets_count h) (m_replacement_policy h) (dh_cycle h)
    (m_data_access_latency h)
    (if m_data_array_pipelined h then m_ready_cycle h else w64 (dh_cycle h + m_data_access_latency h))
    (m_data_array_pipelined h) (m_data_array_ports h).

(** ** Configuration *)

(** [way_partition]: the [range] lambda, "a-b" or "a". *)
Definition way_range (s : string) : Z * Z :=
  let lo := atoi s in
  match break_at "-" s with
  | Some (_, r) => (lo, atoi r)
  | None => (lo, lo)
  end.

(** [for (int w = w0; w <= w1 && w < (int)m_ways_count; w++) mask |= 1u << w;] *)
Definition way_bits (w0 w1 ways_count : Z) : Z :=
  foldl (fun mask w => Z.lor mask (Z.shiftl 1 w)) 0 (seqZ w0 (Z.min (w1 + 1) ways_count - w0)).

(** One ";"-separated entry: the masks of the cores it names, and the shared
    mask without the ways it claims. *)
Definition way_entry (ways_count : Z) (s : gmap Z Z * Z) (entry : string) : gmap Z Z * Z :=
  let '(masks, shared) := s in
  match break_at ":" entry with
  | None => s
  | Some (cores, ws) =>
      let '(c0, c1) := way_range cores in
      let '(w0, w1) := way_range ws in
      let mask := way_bits w0 w1 ways_count in
      (foldl (fun m core => <[core := mask]> m) masks (seqZ c0 (c1 + 1 - c0)),
       Z.land shared (Z.lxor mask 0xffffffff))
  end.

(** The [while (p < spec.size())] loop: the entries are the ";" fields. *)
Definition way_partition (spec : option string) (ways_count all_mask : Z) : gmap Z Z * Z :=
  match spec with
  | None => (∅, all_mask)
  | Some spec =>
      let '(masks, shared) := foldl (way_entry ways_count) (∅, all_mask) (fields (Some spec) ";") in
      (masks, if negb (bool_decide (masks = ∅)) && (shared =? 0) then all_mask else shared)
  end.

Record HandlerParams := mkHandlerParams {
  p_cache_size : Z;
  p_block_size : Z;
  p_ways_count : Z;
  p_data_access_latency : Z;
  p_data_array_pipelined : option Z;
  p_data_array_ports : option Z;
  p_replacement_policy_name : string;
  p_way_partition : option string;
  p_pwb_size : option Z }.

(** The constructor, after the parameters are read; [rand] is what the
    library's generator will return. *)
Definition newCacheDataHandler (p : HandlerParams) (rand : nat -> Z) : outcome CacheDataHandler :=
  let block_size := w32 (p_block_size p) in
  let ways_count := w32 (p_ways_count p) in
  if block_size =? 0 then Crash "CacheDataHandler: division by zero" else
  let lines_count := i32 (w32 (p_cache_size p) / block_size) in
  if ways_count =? 0 then Crash "CacheDataHandler: division by zero" else
  let! policy := getReplacementPolicy (p_replacement_policy_name p) ways_count rand in
  let all_mask := if 32 <=? ways_count then 0xffffffff else Z.shiftl 1 ways_count - 1 in
  let '(masks, shared) := way_partition (p_way_partition p) ways_count all_mask in
  let ports := w32 (default 1 (p_data_array_ports p)) in
  Ok (mkHandler (replicate (Z.to_nat lines_count) newLine)
        block_size ways_count masks shared all_mask (-1)
        (w32 lines_count / ways_count) policy 0
        (w32 (p_data_access_latency p)) 0
        (negb (default 0 (p_data_array_pipelined p) =? 0))
        (if ports =? 0 then 1 else ports)).

(** ** Addresses *)

Definition offset_bits (h : CacheDataHandler) : Z := Z.log2 (m_block_size h).
Definition index_bits (h : CacheDataHandler) : Z := Z.log2 (m_sets_count h).

Definition calculate_tag (h : CacheDataHandler) (address : Z) : Z :=
  Z.shiftr address (offset_bits h + index_bits h).
Definition calculate_set (h : CacheDataHandler) (address : Z) : Z :=
  Z.land (Z.shiftr address (offset_bits h)) (w32 (m_sets_count h - 1)).
Definition calculate_address (h : CacheDataHandler) (tag set : Z) : Z :=
  Z.lor (w64 (Z.shiftl tag (offset_bits h + index_bits h))) (w64 (Z.shiftl set (offset_bits h))).
(** [address & ~((uint64_t)m_block_size - 1)] *)
Definition mask_offset (h : CacheDataHandler) (address : Z) : Z :=
  Z.land address (Z.lxor (w64 (m_block_size h - 1)) 0xFFFFFFFFFFFFFFFF).

(** ** The array *)

Definition line_index (h : CacheDataHandler) (set way : Z) : nat :=
  Z.to_nat (set * m_ways_count h + way).
Definition array_line (h : CacheDataHandler) (set way : Z) : GenericCacheLine :=
  default newLine (m_cache h !! line_index h set way).
Definition set_array_line (set way : Z) (l : GenericCacheLine) (h : CacheDataHandler) : CacheDataHandler :=
  set_cache (<[line_index h set way := l]> (m_cache h)) h.

(** [CacheDataHandler::findline]: the set and the way, when the line is there. *)
Definition findline_base (h : CacheDataHandler) (address : Z) : option (Z * Z) :=
  let set := calculate_set h address in
  let hit way := bool_decide (valid (array_line h set way) = true /\
                              tag (array_line h set way) = i64 (calculate_tag h address)) in
  '(_, way) ← list_find (fun way => hit way = true) (ways (m_ways_count h)); Some (set, way).

Definition allowedWays (h : CacheDataHandler) : Z :=
  if (m_requester h <? 0) || bool_decide (m_way_mask h = ∅) then m_all_mask h
  else default (m_shared_mask h) (m_way_mask h !! m_requester h).

Definition partitioned (h : CacheDataHandler) : bool := negb (bool_decide (m_way_mask h = ∅)).

(** -1 when every allowed way is taken. *)
Definition findEmptyWay (h : CacheDataHandler) (address : Z) : Z :=
  let set := calculate_set h address in
  match list_find (fun way => Z.testbit (allowedWays h) way = true /\ valid (array_line h set way) = false)
          (ways (m_ways_count h)) with
  | Some (_, way) => way
  | None => -1
  end.

(** Its body is commented out, and nothing calls it. *)
Definition getEvictionCandidate (h : CacheDataHandler) (address : Z) (line : GenericCacheLine) : Z := 0.

Definition isReady (h : CacheDataHandler) : bool :=
  m_data_array_pipelined h || (m_ready_cycle h <=? dh_cycle h).

(** [for set, for way]: every line of the array. *)
Definition initializeCacheStates (initialState : Z) (h : CacheDataHandler) : CacheDataHandler :=
  let n := Z.to_nat (m_sets_count h * m_ways_count h) in
  let reset l := set_block_size (m_block_size h) (set_valid false (set_state initialState l)) in
  set_cache ((reset <$> take n (m_cache h)) ++ drop n (m_cache h)) h.

(** [initializeCacheLine(line)]: a default line with a zeroed block. *)
Definition initializeCacheLine (h : CacheDataHandler) (line : GenericCacheLine) : GenericCacheLine :=
  set_data (Some (replicate (Z.to_nat (m_block_size h)) 0))
    (set_block_size (m_block_size h) (copy newLine line)).

(** ** Operations over the virtual functions *)

Class CacheStore (S : Type) := {
  cs_base : S -> CacheDataHandler;
  cs_set_base : CacheDataHandler -> S -> S;
  findline : S -> Z -> option (Z * Z);
  getLine : S -> Z -> Z -> option GenericCacheLine;       (* None: NULL *)
  setLine : Z -> Z -> GenericCacheLine -> S -> S;         (* writes through [getLine]'s pointer *)
  isReady_at : S -> Z -> bool }.

Section Operations.
Context {S : Type} `{CacheStore S}.

Definition touch (set way : Z) (s : S) : S :=
  let h := cs_base s in
  cs_set_base (set_policy (policy_update (m_replacement_policy h) set way (dh_cycle h)) h) s.
Definition close (s : S) : S := cs_set_base (close_port (cs_base s)) s.

Definition null_line {A} : outcome A := Crash "null line".

Definition writeCacheLine_bypassLatency (address : Z) (line : GenericCacheLine) (soft_write : bool) (s : S)
    : outcome (bool * S) :=
  let set := calculate_set (cs_base s) address in
  let way := findEmptyWay (cs_base s) address in
  if way =? -1 then Ok (false, s) else
  match getLine s set way with
  | None => null_line
  | Some l =>
      let s1 := setLine set way (set_tag (i64 (calculate_tag (cs_base s) address)) (copy line l)) s in
      Ok (true, if soft_write then s1 else touch set way s1)
  end.

Definition writeCacheLine (address : Z) (line : GenericCacheLine) (s : S) : outcome (bool * S) :=
  if negb (isReady_at s address) then Ok (false, s) else
  let s1 := match line_data line with Some _ => close s | None => s end in
  writeCacheLine_bypassLatency address line false s1.

Definition updateLineBits_base (address : Z) (line : GenericCacheLine) (s : S) : outcome (bool * S) :=
  match findline s address with
  | None => Ok (false, s)
  | Some (set, way) =>
      match getLine s set way with
      | None => null_line
      | Some l => Ok (true, setLine set way (set_block_size (m_block_size (cs_base s)) (copyBits line l)) s)
      end
  end.

Definition updateLineData_base (address : Z) (data : bytes) (s : S) : outcome (bool * S) :=
  match findline s address with
  | None => Ok (false, s)
  | Some (set, way) =>
      if negb (isReady_at s address) then Ok (false, s) else
      match getLine s set way with
      | None => null_line
      | Some l => Ok (true, touch set way (close (setLine set way (copyData data l) s)))
      end
  end.

Definition modifyLineData (address : Z) (data : bytes) (size : Z) (soft_write : bool) (s : S)
    : outcome (bool * S) :=
  match findline s address with
  | None => Ok (false, s)
  | Some (set, way) =>
      if negb (isReady_at s address || soft_write) then Ok (false, s) else
      match getLine s set way with
      | None => null_line
      | Some l =>
          let offset := w16 (Z.land address (w32 (m_block_size (cs_base s) - 1))) in
          let! l' := modifyData data offset size l in
          let s1 := close (setLine set way l' s) in
          Ok (true, if soft_write then s1 else touch set way s1)
      end
  end.

(** [out_line]: the caller's line, [None] for a NULL pointer. *)
Definition readCacheLine (address : Z) (out_line : option GenericCacheLine) (soft_read : bool) (s : S)
    : outcome (bool * option GenericCacheLine * S) :=
  match findline s address with
  | None => Ok (false, out_line, s)
  | Some (set, way) =>
      if negb (isReady_at s address) then Ok (false, out_line, s) else
      match getLine s set way with
      | None => null_line
      | Some l =>
          let s1 := match out_line with Some _ => close s | None => s end in
          Ok (true, copy l <$> out_line, if soft_read then s1 else touch set way s1)
      end
  end.

Definition readLineBits (address : Z) (out_line : GenericCacheLine) (s : S)
    : bool * GenericCacheLine :=
  match findline s address with
  | None => (false, out_line)
  | Some (set, way) =>
      match getLine s set way with
      | None => (false, out_line)
      | Some l => (true, copyBits l out_line)
      end
  end.
End Operations.

(** ** The base handler *)

#[export] Instance base_store : CacheStore CacheDataHandler := {|
  cs_base h := h;
  cs_set_base h _ := h;
  findline := findline_base;
  getLine h set way := m_cache h !! line_index h set way;
  setLine := set_array_line;
  isReady_at h _ := isReady h |}.

Inductive LineLocation := LOC_NONE | ARRAY | MSHR | PWB.
#[export] Instance LineLocation_eq_dec : EqDecision LineLocation.
Proof. solve_decision. Defined.

Definition lineLocation_base (h : CacheDataHandler) (address : Z) : LineLocation :=
  match findline_base h address with Some _ => ARRAY | None => LOC_NONE end.

(** ** The handler with miss registers and a write-back buffer *)

Record COTS := mkCOTS {
  base : CacheDataHandler;
  m_miss_status_holding_regs : gmap Z GenericCacheLine;
  m_pending_write_back_regs : gmap Z GenericCacheLine;
  m_pwb_size : Z;                          (* -1: unbounded *)
  m_pwb_pending_issue : list Z }.

Definition DEFAULT_PWB_SIZE : Z := 8.

Definition newCOTS (p : HandlerParams) (rand : nat -> Z) : outcome COTS :=
  let! h := newCacheDataHandler p rand in
  Ok (mkCOTS h ∅ ∅ (default DEFAULT_PWB_SIZE (p_pwb_size p)) []).

Definition set_base (h : CacheDataHandler) (s : COTS) : COTS :=
  mkCOTS h (m_miss_status_holding_regs s) (m_pending_write_back_regs s) (m_pwb_size s) (m_pwb_pending_issue s).
Definition set_mshr (r : gmap Z GenericCacheLine) (s : COTS) : COTS :=
  mkCOTS (base s) r (m_pending_write_back_regs s) (m_pwb_size s) (m_pwb_pending_issue s).
Definition set_pwb (r : gmap Z GenericCacheLine) (s : COTS) : COTS :=
  mkCOTS (base s) (m_miss_status_holding_regs s) r (m_pwb_size s) (m_pwb_pending_issue s).
Definition set_pending_issue (l : list Z) (s : COTS) : COTS :=
  mkCOTS (base s) (m_miss_status_holding_regs s) (m_pending_write_back_regs s) (m_pwb_size s) l.

Definition checkMSHR (s : COTS) (address : Z) : bool :=
  bool_decide (is_Some (m_miss_status_holding_regs s !! address)).
Definition checkPWB (s : COTS) (address : Z) : bool :=
  bool_decide (is_Some (m_pending_write_back_regs s !! address)).

(** [findline] answers way -1 and the block address for a register. *)
Definition findline_cots (s : COTS) (address : Z) : option (Z * Z) :=
  match findline_base (base s) address with
  | Some r => Some r
  | None =>
      let a := mask_offset (base s) address in
      if checkMSHR s a then Some (a, -1)
      else if checkPWB s a then Some (a, -1)
      else None
  end.

Definition getLine_cots (s : COTS) (set way : Z) : option GenericCacheLine :=
  if 0 <=? way then m_cache (base s) !! line_index (base s) set way
  else if checkMSHR s set then m_miss_status_holding_regs s !! set
  else if checkPWB s set then m_pending_write_back_regs s !! set
  else None.

Definition setLine_cots (set way : Z) (l : GenericCacheLine) (s : COTS) : COTS :=
  if 0 <=? way then set_base (set_array_line set way l (base s)) s
  else if checkMSHR s set then set_mshr (<[set := l]> (m_miss_status_holding_regs s)) s
  else if checkPWB s set then set_pwb (<[set := l]> (m_pending_write_back_regs s)) s
  else s.

Definition isReady_cots (s : COTS) (address : Z) : bool :=
  let a := mask_offset (base s) address in
  checkMSHR s a || checkPWB s a || isReady (base s).

#[export] Instance cots_store : CacheStore COTS := {|
  cs_base := base;
  cs_set_base := set_base;
  findline := findline_cots;
  getLine := getLine_cots;
  setLine := setLine_cots;
  isReady_at := isReady_cots |}.

Definition writeLine2MSHR (address : Z) (line : GenericCacheLine) (s : COTS) : COTS :=
  if negb (valid line) then s
  else
    let a := mask_offset (base s) address in
    let old := default newLine (m_miss_status_holding_regs s !! a) in
    set_mshr (<[a := set_block_size (m_block_size (base s)) (copy line old)]> (m_miss_status_holding_regs s)) s.

Definition moveLine2WB (set way : Z) (s : COTS) : outcome COTS :=
  match getLine_cots s set way with
  | None => null_line
  | Some line =>
      let wb_address := calculate_address (base s) (tag line) set in
      let old := default newLine (m_pending_write_back_regs s !! wb_address) in
      let s1 := set_pwb (<[wb_address := copy line old]> (m_pending_write_back_regs s)) s in
      Ok (set_pending_issue (m_pwb_pending_issue s ++ [wb_address])
            (setLine_cots set way (set_valid false line) s1))
  end.

Definition chooseEvictionWay (set : Z) (s : COTS) : outcome (Z * COTS) :=
  let! (way, p) := policy_candidate (m_replacement_policy (base s)) set (allowedWays (base s)) in
  Ok (way, set_base (set_policy p (base s)) s).

Definition updateLineData (address : Z) (data : bytes) (s : COTS) : outcome (bool * COTS) :=
  let a := mask_offset (base s) address in
  match findline_base (base s) address with
  | Some _ => updateLineData_base address data s
  | None =>
      match m_miss_status_holding_regs s !! a with
      | Some l =>
          let s1 := set_mshr (<[a := copyData data l]> (m_miss_status_holding_regs s)) s in
          let! s2 := (if findEmptyWay (base s1) address =? -1
                      then let! (way, s') := chooseEvictionWay (calculate_set (base s1) address) s1 in
                           moveLine2WB (calculate_set (base s1) address) way s'
                      else Ok s1) in
          let! (ok, s3) := writeCacheLine address (copyData data l) s2 in
          if ok : bool
          then Ok (true, set_mshr (delete a (m_miss_status_holding_regs s3)) s3)
          else Ok (false, s3)
      | None =>
          match m_pending_write_back_regs s !! a with
          | Some l => Ok (true, set_pwb (<[a := copyData data l]> (m_pending_write_back_regs s)) s)
          | None => Ok (false, s)
          end
      end
  end.

Definition updateLineBits (address : Z) (line : GenericCacheLine) (s : COTS) : outcome (bool * COTS) :=
  let! (r, s1) := updateLineBits_base address line s in
  match findline_cots s1 address with
  | Some (set, way) =>
      if (way <? 0) && negb (valid line) then
        if checkMSHR s1 set then Ok (r, set_mshr (delete set (m_miss_status_holding_regs s1)) s1)
        else if checkPWB s1 set then Ok (r, set_pwb (delete set (m_pending_write_back_regs s1)) s1)
        else Ok (r, s1)
      else Ok (r, s1)
  | None => Ok (r, s1)
  end.

Definition addressOfLinePendingWB (clear_flag : bool) (s : COTS) : option Z * COTS :=
  match m_pwb_pending_issue s with
  | [] => (None, s)
  | a :: l => (Some a, if clear_flag then set_pending_issue l s else s)
  end.

Definition isAddressTracked (s : COTS) (address : Z) : bool :=
  bool_decide (is_Some (findline_cots s address)).

Definition pwbHasSpace (s : COTS) : bool :=
  (m_pwb_size s <? 0) || (Z.of_nat (size (m_pending_write_back_regs s)) <? m_pwb_size s).

Definition fillWouldOverflowPwb (s : COTS) (address : Z) : bool :=
  negb (pwbHasSpace s) && checkMSHR s (mask_offset (base s) address) &&
  bool_decide (findline_base (base s) address = None) && (findEmptyWay (base s) address =? -1).

Definition lineLocation (s : COTS) (address : Z) : LineLocation :=
  match findline_base (base s) address with
  | Some _ => ARRAY
  | None =>
      let a := mask_offset (base s) address in
      if checkMSHR s a then MSHR else if checkPWB s a then PWB else LOC_NONE
  end.
