(* ===== verification/DataHandlerView.v ===== *)
(** * The data handler as a map from blocks to lines

    The array, the miss registers and the write-back buffer together behave
    as one finite map from block addresses to line contents: [view].  The
    invariant [cots_wf] says that the geometry is a power of two, that a block
    is in at most one place and that every buffer holds one block; every
    operation preserves it, and its effect on [view] is that of the map
    operation it stands for, evictions included. *)

From S2P Require Export DataHandler.

(** ** Geometry *)

Definition in_addr (a : Z) : Prop := 0 <= a < 2 ^ 64.

Record geom (h : CacheDataHandler) : Prop := mk_geom {
  geom_block : m_block_size h = 2 ^ offset_bits h;
  geom_sets : m_sets_count h = 2 ^ index_bits h;
  geom_offset : 1 <= offset_bits h < 32;
  geom_index : 0 <= index_bits h < 32;
  geom_ways : 0 < m_ways_count h <= 32;
  geom_cache : Z.of_nat (length (m_cache h)) = m_sets_count h * m_ways_count h }.

(** The number of the block of an address. *)
Definition block (h : CacheDataHandler) (a : Z) : Z := Z.shiftr a (offset_bits h).

Section Geometry.
Context (h : CacheDataHandler) (G : geom h).

Lemma w32_pred_pow k : 0 <= k < 32 -> w32 (2 ^ k - 1) = Z.ones k.
Proof.
  intros Hk. rewrite Z.ones_equiv. unfold w32. rewrite wrap_small; [lia|].
  pose proof (Z.pow_pos_nonneg 2 k). pose proof (Z.pow_lt_mono_r 2 k 32). lia.
Qed.

Lemma calculate_set_eq a : calculate_set h a = Z.land (block h a) (Z.ones (index_bits h)).
Proof. unfold calculate_set. by rewrite (geom_sets h G), w32_pred_pow by apply G. Qed.

Lemma calculate_tag_eq a : calculate_tag h a = Z.shiftr (block h a) (index_bits h).
Proof.
  unfold calculate_tag, block. destruct G. by rewrite Z.shiftr_shiftr by lia.
Qed.

Lemma in_addr_bits a n : in_addr a -> 64 <= n -> Z.testbit a n = false.
Proof. intros Ha Hn. apply (testbit_small a 64); [done|lia]. Qed.

Lemma mask_offset_eq a : in_addr a -> mask_offset h a = Z.shiftl (block h a) (offset_bits h).
Proof.
  intros Ha. pose proof G as [Hb _ Ho _ _ _]. unfold mask_offset, block. rewrite Hb.
  replace (w64 (2 ^ offset_bits h - 1)) with (Z.ones (offset_bits h)).
  2: { rewrite Z.ones_equiv. unfold w64. rewrite wrap_small; [lia|].
       pose proof (Z.pow_pos_nonneg 2 (offset_bits h)).
       pose proof (Z.pow_lt_mono_r 2 (offset_bits h) 64). lia. }
  change 0xFFFFFFFFFFFFFFFF with (Z.ones 64).
  apply Z.bits_inj'. intros n Hn. rewrite Z.land_spec, Z.lxor_spec, Z.shiftl_spec by lia.
  destruct (Z.lt_ge_cases n (offset_bits h)).
  - rewrite !Z.ones_spec_low by lia. rewrite (Z.testbit_neg_r _ (n - _)) by lia. apply andb_false_r.
  - rewrite Z.ones_spec_high by lia. rewrite Z.shiftr_spec by lia.
    replace (n - offset_bits h + offset_bits h) with n by lia.
    destruct (Z.lt_ge_cases n 64).
    + rewrite Z.ones_spec_low by lia. apply andb_true_r.
    + rewrite in_addr_bits by done. done.
Qed.

Lemma block_mask a b : in_addr a -> in_addr b ->
  mask_offset h a = mask_offset h b <-> block h a = block h b.
Proof.
  intros Ha Hb. rewrite !mask_offset_eq by done. split; [|by intros ->]. intros E.
  apply (f_equal (fun x => Z.shiftr x (offset_bits h))) in E. destruct G.
  by rewrite !Z.shiftr_shiftl_l, !Z.sub_diag, !Z.shiftl_0_r in E by lia.
Qed.

Lemma block_mask_idem a : in_addr a -> block h (mask_offset h a) = block h a.
Proof.
  intros Ha. rewrite mask_offset_eq by done. unfold block at 1. destruct G.
  by rewrite Z.shiftr_shiftl_l, Z.sub_diag, Z.shiftl_0_r by lia.
Qed.

Lemma mask_in_addr a : in_addr a -> in_addr (mask_offset h a).
Proof.
  intros Ha. unfold mask_offset, in_addr in *. split.
  - apply Z.land_nonneg. lia.
  - apply Z.le_lt_trans with a; [|lia]. apply Z.ldiff_le; [lia|].
    apply Z.bits_inj'. intros n Hn. rewrite Z.ldiff_spec, Z.land_spec, Z.bits_0.
    by destruct (Z.testbit a n), (Z.testbit _ n).
Qed.

(** A block is its tag and its set. *)
Lemma block_tag_set a b :
  block h a = block h b <-> calculate_tag h a = calculate_tag h b /\ calculate_set h a = calculate_set h b.
Proof.
  rewrite !calculate_tag_eq, !calculate_set_eq. split; [by intros ->|]. intros [Ht Hs].
  apply Z.bits_inj'. intros n Hn. destruct G.
  destruct (Z.lt_ge_cases n (index_bits h)).
  - apply (f_equal (fun x => Z.testbit x n)) in Hs.
    by rewrite !Z.land_spec, !Z.ones_spec_low, !andb_true_r in Hs by lia.
  - apply (f_equal (fun x => Z.testbit x (n - index_bits h))) in Ht.
    rewrite !Z.shiftr_spec in Ht by lia.
    by replace (n - index_bits h + index_bits h) with n in Ht by lia.
Qed.

Definition tag_bits : Z := 64 - offset_bits h - index_bits h.

Lemma calculate_tag_range a : in_addr a -> 0 <= calculate_tag h a < 2 ^ tag_bits.
Proof.
  intros Ha. unfold calculate_tag, tag_bits. destruct G. unfold in_addr in Ha.
  rewrite Z.shiftr_div_pow2 by lia. split; [apply Z.div_pos; lia|].
  apply Z.div_lt_upper_bound; [lia|]. rewrite <- Z.pow_add_r by lia.
  replace (_ + _) with 64 by lia. lia.
Qed.

Lemma i64_tag t : 0 <= t < 2 ^ tag_bits -> i64 t = t.
Proof.
  intros Ht. unfold i64. apply to_signed_small; [lia|].
  unfold tag_bits in Ht. destruct G.
  pose proof (Z.pow_le_mono_r 2 (64 - offset_bits h - index_bits h) 63). lia.
Qed.

Lemma calculate_set_range a : 0 <= calculate_set h a < m_sets_count h.
Proof.
  rewrite calculate_set_eq. destruct G. rewrite Z.land_ones, geom_sets0 by lia.
  apply Z.mod_pos_bound. lia.
Qed.

(** [calculate_address] is the inverse of [calculate_tag] and [calculate_set]
    on every tag and set of the geometry. *)
Lemma address_of_tag_set t set :
  0 <= t < 2 ^ tag_bits -> 0 <= set < m_sets_count h ->
  let a := calculate_address h t set in
  in_addr a /\ calculate_tag h a = t /\ calculate_set h a = set /\ mask_offset h a = a.
Proof.
  intros Ht Hset. destruct G as [Hb Hs Ho Hi Hw Hc]. rewrite Hs in Hset. cbn zeta.
  assert (E : calculate_address h t set =
              Z.shiftl (t * 2 ^ index_bits h + set) (offset_bits h)).
  { unfold calculate_address, tag_bits in *.
    rewrite !Z.shiftl_mul_pow2 by lia.
    assert (set * 2 ^ offset_bits h < 2 ^ (offset_bits h + index_bits h)).
    { rewrite Z.pow_add_r by lia. nia. }
    assert (2 ^ (64 - offset_bits h - index_bits h) * 2 ^ (offset_bits h + index_bits h) = 2 ^ 64).
    { rewrite <- Z.pow_add_r by lia. f_equal; lia. }
    assert (2 ^ (offset_bits h + index_bits h) <= 2 ^ 64) by (apply Z.pow_le_mono_r; lia).
    assert (0 <= set * 2 ^ offset_bits h) by nia.
    rewrite !w64_small by nia.
    rewrite <- Z.shiftl_mul_pow2 by lia.
    assert (D : Z.land (Z.shiftl t (offset_bits h + index_bits h)) (set * 2 ^ offset_bits h) = 0).
    { apply Z.bits_inj'. intros n Hn. rewrite Z.land_spec, Z.bits_0, Z.shiftl_spec by lia.
      destruct (Z.lt_ge_cases n (offset_bits h + index_bits h)).
      - by rewrite Z.testbit_neg_r by lia.
      - rewrite (testbit_small (set * _) (offset_bits h + index_bits h)) by lia. apply andb_false_r. }
    rewrite lor_disjoint by done.
    rewrite !Z.shiftl_mul_pow2, Z.pow_add_r by lia. lia. }
  assert (Hrange : 0 <= t * 2 ^ index_bits h + set < 2 ^ (64 - offset_bits h)).
  { unfold tag_bits in Ht.
    replace (64 - offset_bits h) with ((64 - offset_bits h - index_bits h) + index_bits h) by lia.
    rewrite Z.pow_add_r by lia. nia. }
  assert (Hin : in_addr (calculate_address h t set)).
  { rewrite E, Z.shiftl_mul_pow2 by lia. unfold in_addr.
    replace 64 with ((64 - offset_bits h) + offset_bits h) by lia. rewrite Z.pow_add_r by lia. nia. }
  assert (Hblk : block h (calculate_address h t set) = t * 2 ^ index_bits h + set).
  { unfold block. by rewrite E, Z.shiftr_shiftl_l, Z.sub_diag, Z.shiftl_0_r by lia. }
  split_and!; [done|..].
  - rewrite calculate_tag_eq, Hblk, Z.shiftr_div_pow2 by lia.
    rewrite Z.div_add_l, Z.div_small by lia. lia.
  - rewrite calculate_set_eq, Hblk, Z.land_ones by lia.
    rewrite Z.add_comm, Z.mod_add, Z.mod_small by lia. done.
  - rewrite mask_offset_eq by done. by rewrite Hblk, E.
Qed.
End Geometry.

(** ** The array as a partial map *)

(** What a reader of the store sees of a line. *)
Definition content (l : GenericCacheLine) : Z * Z * option bytes := (state l, owner_id l, line_data l).

(** Line [l] of set [set] is the copy of the block of [a]. *)
Definition line_holds (h : CacheDataHandler) (l : GenericCacheLine) (set a : Z) : Prop :=
  calculate_set h a = set /\ valid l = true /\ tag l = calculate_tag h a.
#[export] Instance line_holds_dec h l set a : Decision (line_holds h l set a).
Proof. unfold line_holds. apply _. Defined.

Definition in_array (h : CacheDataHandler) (set way : Z) : Prop :=
  0 <= set < m_sets_count h /\ 0 <= way < m_ways_count h.

Record array_wf (h : CacheDataHandler) : Prop := mk_array_wf {
  aw_geom : geom h;
  aw_policy : policy_ways (m_replacement_policy h) = m_ways_count h;
  aw_lines : forall set way, in_array h set way -> line_wf (m_block_size h) (array_line h set way);
  aw_tags : forall set way, in_array h set way -> valid (array_line h set way) = true ->
    0 <= tag (array_line h set way) < 2 ^ tag_bits h;
  aw_unique : forall set w1 w2, in_array h set w1 -> in_array h set w2 ->
    valid (array_line h set w1) = true -> valid (array_line h set w2) = true ->
    tag (array_line h set w1) = tag (array_line h set w2) -> w1 = w2 }.

Lemma in_array_set h a way : geom h -> 0 <= way < m_ways_count h -> in_array h (calculate_set h a) way.
Proof. intros G Hw. split; [by apply calculate_set_range|done]. Qed.

Lemma findline_base_Some h a set way : array_wf h -> in_addr a ->
  findline_base h a = Some (set, way) <->
  in_array h set way /\ line_holds h (array_line h set way) set a.
Proof.
  intros W Ha. pose proof (aw_geom _ W) as G.
  assert (Hfwd : forall set way, findline_base h a = Some (set, way) ->
    in_array h set way /\ line_holds h (array_line h set way) set a).
  { intros set' way'. unfold findline_base.
    destruct (list_find _ _) as [[i w]|] eqn:E; [|done]. cbn. intros [= <- <-].
    apply list_find_Some in E as (Hi & Hhit%bool_decide_eq_true & _).
    apply list_elem_of_lookup_2, ways_elem in Hi.
    rewrite (i64_tag h) in Hhit by (by apply calculate_tag_range || done).
    split; [by apply in_array_set|]. by destruct Hhit. }
  split; [apply Hfwd|]. intros [Hin (Hs & Hv & Ht)].
  destruct (findline_base h a) as [[set' way']|] eqn:E.
  - destruct (Hfwd _ _ eq_refl) as [Hin' (<- & Hv' & Ht')]. subst set. f_equal. f_equal.
    eapply (aw_unique _ W); eauto. congruence.
  - exfalso. unfold findline_base in E.
    destruct (list_find _ _) as [[i w]|] eqn:E'; [done|]. apply list_find_None in E'.
    rewrite Forall_forall in E'. apply (E' way); [apply ways_elem, Hin|].
    apply bool_decide_eq_true. subst set.
    rewrite (i64_tag h) by (by apply calculate_tag_range || done). done.
Qed.

Lemma findline_base_None h a : array_wf h -> in_addr a ->
  findline_base h a = None <->
  forall way, 0 <= way < m_ways_count h ->
    ~ line_holds h (array_line h (calculate_set h a) way) (calculate_set h a) a.
Proof.
  intros W Ha. destruct (findline_base h a) as [[set way]|] eqn:E.
  - split; [done|]. apply findline_base_Some in E as [[? Hw] Hh]; [|done..].
    pose proof Hh as (<- & _). intros Hno. by destruct (Hno way).
  - split; [|done]. intros _ way Hw Hh.
    assert (findline_base h a = Some (calculate_set h a, way)); [|congruence].
    apply findline_base_Some; [done..|]. split; [|done]. by apply in_array_set; [apply W|].
Qed.

(** The array's part of the view. *)
Definition array_view (h : CacheDataHandler) (a : Z) : option (Z * Z * option bytes) :=
  '(set, way) ← findline_base h a; Some (content (array_line h set way)).

Lemma line_index_inj h s w s' w' : 0 <= s -> 0 <= s' ->
  0 <= w < m_ways_count h -> 0 <= w' < m_ways_count h ->
  line_index h s w = line_index h s' w' -> s = s' /\ w = w'.
Proof.
  unfold line_index. intros Hs Hs' Hw Hw' E. apply Z2Nat.inj in E; [|nia..].
  destruct (Z.lt_trichotomy s s') as [|[|]]; nia.
Qed.

Lemma line_index_lt h s w : geom h -> in_array h s w -> (line_index h s w < length (m_cache h))%nat.
Proof.
  intros G [Hs Hw]. unfold line_index. pose proof (geom_cache h G).
  assert ((s + 1) * m_ways_count h <= m_sets_count h * m_ways_count h)
    by (apply Z.mul_le_mono_nonneg_r; lia).
  assert (0 <= s * m_ways_count h) by nia. lia.
Qed.

Lemma array_line_set h s w l s' w' : geom h -> in_array h s w -> in_array h s' w' ->
  array_line (set_array_line s w l h) s' w' =
  if decide (s = s' /\ w = w') then l else array_line h s' w'.
Proof.
  intros G Hin Hin'. unfold array_line. cbn.
  change (line_index (set_array_line s w l h)) with (line_index h).
  destruct (decide (s = s' /\ w = w')) as [[<- <-]|Hne].
  - rewrite list_lookup_insert_eq; [done|]. by apply line_index_lt.
  - rewrite list_lookup_insert_ne; [done|]. intros E. apply Hne.
    destruct Hin, Hin'. by apply (line_index_inj h); try lia.
Qed.

(** Replacing one line keeps the array well formed when the new line is and
    its tag is not elsewhere in the set. *)
Lemma array_wf_set h s w l : array_wf h -> in_array h s w ->
  line_wf (m_block_size h) l ->
  (valid l = true -> 0 <= tag l < 2 ^ tag_bits h /\
    forall w', in_array h s w' -> w' <> w -> valid (array_line h s w') = true ->
      tag (array_line h s w') <> tag l) ->
  array_wf (set_array_line s w l h).
Proof.
  intros W Hin Hl Hv. pose proof (aw_geom _ W) as G.
  assert (G' : geom (set_array_line s w l h)).
  { destruct G. constructor; cbn; try done. by rewrite length_insert. }
  constructor; [done|apply W|..].
  - intros s' w' Hin'. rewrite array_line_set by done. case_decide; [done|]. by apply W.
  - intros s' w' Hin'. rewrite array_line_set by done. case_decide; [by intros [? _]%Hv|]. by apply W.
  - intros s' w1 w2 Hin1 Hin2. rewrite !array_line_set by done.
    repeat case_decide; destruct_and?; subst; try done.
    + intros Hv1 Hv2 Ht. apply Hv in Hv1 as [_ Hu].
      destruct (decide (w2 = w1)); [done|]. exfalso. by eapply (Hu w2).
    + intros Hv1 Hv2 Ht. apply Hv in Hv2 as [_ Hu].
      destruct (decide (w1 = w2)); [done|]. exfalso. by eapply (Hu w1).
    + by apply W.
Qed.

Lemma array_view_set h s w l a : array_wf h -> array_wf (set_array_line s w l h) ->
  in_array h s w -> in_addr a ->
  array_view (set_array_line s w l h) a =
  if decide (line_holds h l s a) then Some (content l)
  else if decide (line_holds h (array_line h s w) s a) then None else array_view h a.
Proof.
  intros W W' Hin Ha. pose proof (aw_geom _ W) as G. unfold array_view.
  destruct (findline_base (set_array_line s w l h) a) as [[s1 w1]|] eqn:E.
  - apply findline_base_Some in E as [Hin1 Hh1]; [|done..].
    change (in_array h s1 w1) in Hin1. rewrite array_line_set in Hh1 by done. cbn.
    rewrite array_line_set by done. change (line_holds (set_array_line s w l h)) with (line_holds h) in Hh1.
    destruct (decide (s = s1 /\ w = w1)) as [[<- <-]|Hne]; [by rewrite decide_True|].
    rewrite decide_False.
    2: { intros Hl. assert (E2 : findline_base (set_array_line s w l h) a = Some (s, w)).
         { apply findline_base_Some; [done..|]. split; [done|]. by rewrite array_line_set, decide_True. }
         assert (E1 : findline_base (set_array_line s w l h) a = Some (s1, w1)).
         { apply findline_base_Some; [done..|]. split; [done|]. by rewrite array_line_set, decide_False. }
         apply Hne. by simplify_eq. }
    assert (E1 : findline_base h a = Some (s1, w1)) by (by apply findline_base_Some).
    rewrite E1. cbn. rewrite decide_False; [done|].
    intros Ho. assert (E2 : findline_base h a = Some (s, w)) by (by apply findline_base_Some).
    apply Hne. by simplify_eq.
  - cbn. rewrite findline_base_None in E by done.
    change (calculate_set (set_array_line s w l h)) with (calculate_set h) in E.
    change (line_holds (set_array_line s w l h)) with (line_holds h) in E.
    change (m_ways_count (set_array_line s w l h)) with (m_ways_count h) in E.
    rewrite decide_False.
    2: { intros Hl. pose proof Hl as (Hs & _). destruct (E w); [apply Hin|].
         rewrite array_line_set, decide_True by (try done; rewrite Hs; done). by rewrite Hs. }
    case_decide as Ho; [done|].
    destruct (findline_base h a) as [[s1 w1]|] eqn:E1; [|done]. exfalso.
    apply findline_base_Some in E1 as [Hin1 Hh1]; [|done..]. pose proof Hh1 as (Hs & _).
    apply (E w1); [apply Hin1|]. rewrite Hs. rewrite array_line_set by done.
    rewrite decide_False; [done|]. by intros [-> ->].
Qed.

Lemma line_holds_block h l s a b : geom h -> line_holds h l s a ->
  line_holds h l s b <-> block h b = block h a.
Proof.
  intros G (Hs & Hv & Ht). rewrite block_tag_set by done. unfold line_holds.
  rewrite Ht, Hs. split; intros; destruct_and?; split_and?; congruence.
Qed.

(** The three ways the store writes to the array: in place, over an invalid
    slot, and the invalidation of a line. *)
Lemma array_write_in_place h s w l a : array_wf h -> in_array h s w ->
  line_holds h (array_line h s w) s a -> line_wf (m_block_size h) l ->
  valid l = true -> tag l = tag (array_line h s w) ->
  array_wf (set_array_line s w l h) /\
  forall b, in_addr b -> array_view (set_array_line s w l h) b =
    if decide (block h b = block h a) then Some (content l) else array_view h b.
Proof.
  intros W Hin Hold Hl Hv Ht. pose proof (aw_geom _ W) as G.
  assert (Hnew : line_holds h l s a).
  { destruct Hold as (? & ? & ?). split_and!; congruence. }
  assert (W' : array_wf (set_array_line s w l h)).
  { apply array_wf_set; [done..|]. intros _. pose proof Hold as (_ & Hv0 & _).
    rewrite Ht. split; [by apply W|]. intros w' Hin' Hne Hv' Ht'. apply Hne.
    by apply (aw_unique _ W s). }
  split; [done|]. intros b Hb. rewrite array_view_set by done.
  destruct (decide (block h b = block h a)) as [Hblk|Hblk].
  - by rewrite decide_True by (by apply (line_holds_block h l s a)).
  - rewrite decide_False by (by intros ?%(line_holds_block h l s a)).
    by rewrite decide_False by (by intros ?%(line_holds_block h _ s a)).
Qed.

Lemma array_invalidate h s w l a : array_wf h -> in_array h s w ->
  line_holds h (array_line h s w) s a -> line_wf (m_block_size h) l -> valid l = false ->
  array_wf (set_array_line s w l h) /\
  forall b, in_addr b -> array_view (set_array_line s w l h) b =
    if decide (block h b = block h a) then None else array_view h b.
Proof.
  intros W Hin Hold Hl Hv. pose proof (aw_geom _ W) as G.
  assert (W' : array_wf (set_array_line s w l h)).
  { apply array_wf_set; [done..|]. by rewrite Hv. }
  split; [done|]. intros b Hb. rewrite array_view_set by done.
  rewrite decide_False by (intros (_ & ? & _); congruence).
  destruct (decide (block h b = block h a)) as [Hblk|Hblk].
  - by rewrite decide_True by (by apply (line_holds_block h _ s a)).
  - by rewrite decide_False by (by intros ?%(line_holds_block h _ s a)).
Qed.

Lemma array_fill h w l a : array_wf h -> 0 <= w < m_ways_count h -> in_addr a ->
  valid (array_line h (calculate_set h a) w) = false -> array_view h a = None ->
  line_wf (m_block_size h) l -> valid l = true -> tag l = calculate_tag h a ->
  array_wf (set_array_line (calculate_set h a) w l h) /\
  forall b, in_addr b -> array_view (set_array_line (calculate_set h a) w l h) b =
    if decide (block h b = block h a) then Some (content l) else array_view h b.
Proof.
  intros W Hw Ha Hinv Hno Hl Hv Ht. pose proof (aw_geom _ W) as G.
  pose proof (in_array_set h a w G Hw) as Hin.
  assert (Hnew : line_holds h l (calculate_set h a) a) by done.
  assert (W' : array_wf (set_array_line (calculate_set h a) w l h)).
  { apply array_wf_set; [done..|]. intros _. rewrite Ht.
    split; [by apply calculate_tag_range|]. intros w' Hin' Hne Hv' Ht'.
    assert (E : findline_base h a = Some (calculate_set h a, w')).
    { by apply findline_base_Some. }
    unfold array_view in Hno. by rewrite E in Hno. }
  split; [done|]. intros b Hb. rewrite array_view_set by done.
  rewrite (decide_False (P := line_holds h (array_line _ _ _) _ _)) by (intros (_ & ? & _); congruence).
  destruct (decide (block h b = block h a)) as [Hblk|Hblk].
  - by rewrite decide_True by (by apply (line_holds_block h l _ a)).
  - by rewrite decide_False by (by intros ?%(line_holds_block h l _ a)).
Qed.

(** Moving a port time or a policy stamp is invisible. *)
Lemma array_wf_policy h p : array_wf h -> policy_ways p = m_ways_count h -> array_wf (set_policy p h).
Proof. intros [[] ? ? ? ?] ?. by constructor. Qed.

Lemma array_wf_touch h set way : array_wf h ->
  array_wf (set_policy (policy_update (m_replacement_policy h) set way (dh_cycle h)) h).
Proof. intros W. apply array_wf_policy; [done|]. rewrite policy_update_ways. apply W. Qed.

Lemma array_wf_close h : array_wf h -> array_wf (close_port h).
Proof. intros [[] ? ? ? ?]. by constructor. Qed.

(** ** The store *)

Definition regs_wf (h : CacheDataHandler) (r : gmap Z GenericCacheLine) : Prop :=
  forall k l, r !! k = Some l ->
    in_addr k /\ mask_offset h k = k /\ line_wf (m_block_size h) l /\ valid l = true.

Record cots_wf (s : COTS) : Prop := mk_cots_wf {
  cw_array : array_wf (base s);
  cw_mshr : regs_wf (base s) (m_miss_status_holding_regs s);
  cw_pwb : regs_wf (base s) (m_pending_write_back_regs s);
  cw_regs : forall k, is_Some (m_miss_status_holding_regs s !! k) -> m_pending_write_back_regs s !! k = None;
  cw_excl : forall a, in_addr a -> is_Some (array_view (base s) a) ->
    m_miss_status_holding_regs s !! mask_offset (base s) a = None /\
    m_pending_write_back_regs s !! mask_offset (base s) a = None }.

(** What a read of the block of [a] finds, through [findline] and [getLine]. *)
Definition view (s : COTS) (a : Z) : option (Z * Z * option bytes) :=
  '(set, way) ← findline_cots s a; content <$> getLine_cots s set way.

Definition reg_view (s : COTS) (k : Z) : option (Z * Z * option bytes) :=
  content <$> (match m_miss_status_holding_regs s !! k with
               | Some l => Some l
               | None => m_pending_write_back_regs s !! k end).

Lemma view_eq s a : array_wf (base s) -> in_addr a ->
  view s a = match array_view (base s) a with
             | Some c => Some c
             | None => reg_view s (mask_offset (base s) a)
             end.
Proof.
  intros W Ha. unfold view, findline_cots, array_view, reg_view.
  destruct (findline_base (base s) a) as [[set way]|] eqn:E.
  - apply findline_base_Some in E as [Hin _]; [|done..]. pose proof Hin as [_ Hw]. cbn.
    unfold getLine_cots. rewrite (proj2 (Z.leb_le 0 way)) by lia.
    destruct (lookup_lt_is_Some_2 (m_cache (base s)) (line_index (base s) set way)) as [l Hl].
    { apply line_index_lt; [apply W|done]. }
    unfold array_line. by rewrite Hl.
  - cbn. unfold checkMSHR, checkPWB.
    destruct (m_miss_status_holding_regs s !! mask_offset (base s) a) as [l|] eqn:E1.
    + rewrite bool_decide_eq_true_2 by done. cbn. unfold getLine_cots, checkMSHR; cbn.
      by rewrite E1, bool_decide_eq_true_2.
    + rewrite bool_decide_eq_false_2 by (by intros [? ?]).
      destruct (m_pending_write_back_regs s !! mask_offset (base s) a) as [l|] eqn:E2.
      * rewrite bool_decide_eq_true_2 by done. cbn. unfold getLine_cots, checkMSHR, checkPWB; cbn.
        rewrite E1, E2, bool_decide_eq_false_2 by (by intros [? ?]). by rewrite bool_decide_eq_true_2.
      * by rewrite bool_decide_eq_false_2 by (by intros [? ?]).
Qed.

Lemma findline_base_view h a : findline_base h a = None <-> array_view h a = None.
Proof. unfold array_view. by destruct (findline_base h a) as [[? ?]|]. Qed.

Lemma findEmptyWay_spec h a :
  (findEmptyWay h a = -1 /\
   forall way, way ∈ allowed_ways (m_ways_count h) (allowedWays h) ->
     valid (array_line h (calculate_set h a) way) = true) \/
  (findEmptyWay h a ∈ allowed_ways (m_ways_count h) (allowedWays h) /\
   valid (array_line h (calculate_set h a) (findEmptyWay h a)) = false).
Proof.
  unfold findEmptyWay. destruct (list_find _ _) as [[i w]|] eqn:E.
  - right. apply list_find_Some in E as (Hi & [Ha Hv] & _).
    apply list_elem_of_lookup_2, ways_elem in Hi. split; [|done]. by apply allowed_ways_elem.
  - left. split; [done|]. intros way [Hw Ha]%allowed_ways_elem.
    apply list_find_None in E. rewrite Forall_forall in E.
    specialize (E way (proj2 (ways_elem _ _) Hw)). cbn in E.
    destruct (valid _) eqn:Hv; [done|]. by destruct E.
Qed.

Lemma findEmptyWay_neg h a w : w ∈ allowed_ways (m_ways_count h) (allowedWays h) ->
  valid (array_line h (calculate_set h a) w) = false -> findEmptyWay h a <> -1.
Proof.
  intros Hw Hv E. destruct (findEmptyWay_spec h a) as [[_ Hall]|[Hin _]].
  - by rewrite Hall in Hv.
  - rewrite E in Hin. apply allowed_ways_elem in Hin as [? _]. lia.
Qed.

(** Replacing the base handler by one whose array maps no more blocks. *)
Lemma cots_wf_base s h : cots_wf s -> array_wf h -> m_block_size h = m_block_size (base s) ->
  (forall b, in_addr b -> is_Some (array_view h b) -> is_Some (array_view (base s) b)) ->
  cots_wf (set_base h s).
Proof.
  intros W Wh Hbs Hview.
  assert (Hmask : forall a, mask_offset h a = mask_offset (base s) a).
  { intros a. unfold mask_offset. by rewrite Hbs. }
  constructor; [done|..|apply W|].
  - intros k l Hk. cbn. rewrite Hbs, Hmask. by apply (cw_mshr s W).
  - intros k l Hk. cbn. rewrite Hbs, Hmask. by apply (cw_pwb s W).
  - intros a Ha Hs. cbn. rewrite Hmask. apply (cw_excl s W); auto.
Qed.

Lemma copy_fresh bs l : line_wf bs l -> copy l newLine = set_tag (-1) l.
Proof.
  intros [Hb Hl]. unfold copy. destruct l as [v ic ac an t st o b [d|]]; cbn in *; [|done].
  unfold copyData, set_data; cbn. by rewrite memcpy_full by (cbn; lia).
Qed.

Lemma getLine_array s set way : cots_wf s -> in_array (base s) set way ->
  getLine_cots s set way = Some (array_line (base s) set way).
Proof.
  intros W Hin. pose proof Hin as [_ Hw]. unfold getLine_cots.
  rewrite (proj2 (Z.leb_le 0 way)) by lia.
  destruct (lookup_lt_is_Some_2 (m_cache (base s)) (line_index (base s) set way)) as [l Hl].
  { apply line_index_lt; [apply W|done]. }
  unfold array_line. by rewrite Hl.
Qed.

Lemma mask_ne h a b : geom h -> in_addr a -> in_addr b ->
  block h b <> block h a -> mask_offset h a <> mask_offset h b.
Proof. intros G Ha Hb Hne E. apply Hne. symmetry. by apply block_mask. Qed.

(** An eviction moves a line and nothing else. *)
Lemma moveLine2WB_spec s set way : cots_wf s -> in_array (base s) set way ->
  valid (array_line (base s) set way) = true ->
  exists s', moveLine2WB set way s = Ok s' /\ cots_wf s' /\
    (forall b, in_addr b -> view s' b = view s b) /\
    base s' = set_array_line set way (set_valid false (array_line (base s) set way)) (base s) /\
    m_miss_status_holding_regs s' = m_miss_status_holding_regs s /\
    (forall b, in_addr b -> line_holds (base s) (array_line (base s) set way) set b ->
      is_Some (m_pending_write_back_regs s' !! mask_offset (base s) b) /\
      m_pwb_pending_issue s' = m_pwb_pending_issue s ++ [mask_offset (base s) b]) /\
    (forall b, in_addr b -> array_view (base s) b = None -> array_view (base s') b = None) /\
    size (m_pending_write_back_regs s') = S (size (m_pending_write_back_regs s)).
Proof.
  intros W Hin Hv. pose proof (cw_array s W) as WA. pose proof (aw_geom _ WA) as G.
  set (l := array_line (base s) set way) in *.
  assert (Hl : line_wf (m_block_size (base s)) l) by (by apply WA).
  destruct (address_of_tag_set (base s) G (tag l) set) as (Hva & Hvt & Hvs & Hvm); [by apply WA|apply Hin|].
  set (v := calculate_address (base s) (tag l) set) in *.
  assert (Hh : line_holds (base s) l set v) by done.
  assert (Hvview : array_view (base s) v = Some (content l)).
  { unfold array_view. by rewrite (proj2 (findline_base_Some (base s) v set way WA Hva) (conj Hin Hh)). }
  destruct (cw_excl s W v Hva) as [Hm Hp]; [by rewrite Hvview|]. rewrite Hvm in Hm, Hp.
  destruct (array_invalidate (base s) set way (set_valid false l) v) as [WA' HV']; [done..|].
  unfold moveLine2WB. rewrite getLine_array by done. fold l. fold v. rewrite Hp. cbn [default].
  rewrite (copy_fresh (m_block_size (base s))) by done.
  eexists. split; [done|].
  unfold setLine_cots. rewrite (proj2 (Z.leb_le 0 way)) by apply Hin.
  assert (Hview' : forall b, in_addr b ->
    view (set_pending_issue (m_pwb_pending_issue s ++ [v])
      (set_base (set_array_line set way (set_valid false l) (base s))
        (set_pwb (<[v:=set_tag (-1) l]> (m_pending_write_back_regs s)) s))) b = view s b).
  { intros b Hb. rewrite !view_eq by done. cbn. rewrite HV' by done.
    change (mask_offset (set_array_line set way (set_valid false l) (base s))) with (mask_offset (base s)).
    destruct (decide (block (base s) b = block (base s) v)) as [E|E].
    - assert (mask_offset (base s) b = v) as ->.
      { rewrite <- Hvm. by apply block_mask. }
      assert (array_view (base s) b = Some (content l)) as ->.
      { unfold array_view. rewrite (proj2 (findline_base_Some (base s) b set way WA Hb)); [done|].
        split; [done|]. by apply (line_holds_block (base s) l set v). }
      unfold reg_view; cbn. by rewrite Hm, lookup_insert_eq.
    - unfold reg_view; cbn. rewrite lookup_insert_ne; [done|].
      rewrite <- Hvm. by apply mask_ne. }
  split_and!; [|done|done|done| | |by apply map_size_insert_None].
  - constructor; cbn; [done|apply W| | |].
    + intros k l0. cbn. rewrite lookup_insert_Some. intros [[<- <-]|[_ Hk]]; [|by apply (cw_pwb s W)].
      done.
    + intros k Hk. rewrite lookup_insert_ne; [by apply W|]. intros <-. rewrite Hm in Hk. by destruct Hk.
    + intros b Hb. rewrite HV' by done. case_decide as E; [by intros [? ?]|]. intros Hs.
      change (mask_offset (set_array_line set way (set_valid false l) (base s))) with (mask_offset (base s)).
      rewrite lookup_insert_ne; [by apply W|]. rewrite <- Hvm. by apply mask_ne.
  - intros b Hb Hhb. apply (line_holds_block _ _ _ v) in Hhb; [|done..].
    assert (mask_offset (base s) b = v) as -> by (rewrite <- Hvm; by apply block_mask).
    split; [|done]. cbn. by rewrite lookup_insert_eq.
  - intros b Hb Hnone. cbn. rewrite HV' by done. by case_decide.
Qed.

(** The map [v'] is [v] with the block of [a] set to [o]. *)
Definition updated (h : CacheDataHandler) (a : Z) (o : option (Z * Z * option bytes))
    (v v' : Z -> option (Z * Z * option bytes)) : Prop :=
  forall b, in_addr b -> v' b = if decide (block h b = block h a) then o else v b.

Definition put_data (d : bytes) (c : Z * Z * option bytes) : Z * Z * option bytes := (c.1, Some d).

Lemma view_reg s a : cots_wf s -> in_addr a -> array_view (base s) a = None ->
  view s a = reg_view s (mask_offset (base s) a).
Proof. intros W Ha Hno. by rewrite view_eq, Hno by (done || apply W). Qed.

(** A block in a register is not in the array. *)
Lemma reg_not_array s a b : cots_wf s -> in_addr a -> in_addr b ->
  is_Some (reg_view s (mask_offset (base s) a)) -> block (base s) b = block (base s) a ->
  array_view (base s) b = None.
Proof.
  intros W Ha Hb Hs E. destruct (array_view (base s) b) eqn:E1; [|done].
  destruct (cw_excl s W b Hb) as [Hm Hp]; [by rewrite E1|].
  rewrite (proj2 (block_mask (base s) (aw_geom _ (cw_array s W)) b a Hb Ha) E) in Hm, Hp.
  unfold reg_view in Hs. rewrite Hm, Hp in Hs. by destruct Hs.
Qed.

(** Some way is open to the requester of the next fill. *)
Definition can_fill (s : COTS) : Prop :=
  allowed_ways (m_ways_count (base s)) (allowedWays (base s)) <> [].

Lemma isReady_cots_array s a : cots_wf s -> in_addr a -> is_Some (array_view (base s) a) ->
  isReady_cots s a = isReady (base s).
Proof.
  intros W Ha Hs. destruct (cw_excl s W a Ha Hs) as [Hm Hp].
  unfold isReady_cots, checkMSHR, checkPWB. rewrite Hm, Hp.
  by rewrite !bool_decide_eq_false_2 by (by intros [? ?]).
Qed.

(** Writing in place, then possibly closing the port and stamping the line. *)
Lemma cots_write_in_place s set way l a (h' : CacheDataHandler) : cots_wf s ->
  in_array (base s) set way ->
  line_holds (base s) (array_line (base s) set way) set a -> line_wf (m_block_size (base s)) l ->
  valid l = true -> tag l = tag (array_line (base s) set way) ->
  array_wf h' -> m_block_size h' = m_block_size (base s) ->
  (forall b, array_view h' b = array_view (set_array_line set way l (base s)) b) ->
  in_addr a ->
  cots_wf (set_base h' s) /\
  updated (base s) a (Some (content l)) (view s) (view (set_base h' s)).
Proof.
  intros W Hin Hh Hl Hv Ht Wh' Hbs Hav Ha. pose proof (cw_array s W) as WA.
  destruct (array_write_in_place (base s) set way l a) as [WA' HV]; [done..|].
  assert (Hfa : forall b, in_addr b -> block (base s) b = block (base s) a ->
    array_view (base s) b = Some (content (array_line (base s) set way))).
  { intros b Hb E. unfold array_view. rewrite (proj2 (findline_base_Some (base s) b set way WA Hb)); [done|].
    split; [done|]. apply (line_holds_block _ _ _ a); [apply WA|done..]. }
  split.
  - apply cots_wf_base; [done..|]. intros b Hb. rewrite Hav, HV by done.
    case_decide as E; [|done]. by rewrite Hfa.
  - intros b Hb. rewrite !view_eq by done. cbn. rewrite Hav, HV by done.
    unfold mask_offset. rewrite Hbs. case_decide as E; [done|].
    done.
Qed.

Lemma updateLineData_array s a d : cots_wf s -> in_addr a ->
  Z.of_nat (length d) = m_block_size (base s) -> is_Some (array_view (base s) a) ->
  exists ok s', updateLineData a d s = Ok (ok, s') /\ cots_wf s' /\ ok = isReady (base s) /\
    (ok = true -> updated (base s) a (put_data d <$> view s a) (view s) (view s')) /\ (ok = false -> s' = s).
Proof.
  intros W Ha Hd Hs. pose proof (cw_array s W) as WA. pose proof Hs as Hs0.
  destruct Hs as [c Hc]. unfold array_view in Hc.
  destruct (findline_base (base s) a) as [[set way]|] eqn:E; [|done].
  pose proof E as [Hin Hh]%findline_base_Some; [|done..].
  unfold updateLineData. rewrite E. unfold updateLineData_base. cbn.
  unfold findline_cots. rewrite E. rewrite isReady_cots_array by done.
  destruct (isReady (base s)) eqn:Hr; cbn.
  2: { exists false, s. split_and!; done. }
  rewrite getLine_array by done. eexists _, _. split; [done|].
  unfold setLine_cots, touch, close; cbn. rewrite (proj2 (Z.leb_le 0 way)) by apply Hin. cbn.
  set (l := array_line (base s) set way) in *.
  assert (Hl : line_wf (m_block_size (base s)) l) by (by apply WA).
  rewrite (copyData_wf (m_block_size (base s))) by done.
  set (h1 := set_array_line set way (set_data (Some d) l) (base s)).
  assert (Wl : line_wf (m_block_size (base s)) (set_data (Some d) l)) by by apply set_data_wf.
  destruct Hh as (Hh1 & Hh2 & Hh3).
  destruct (array_write_in_place (base s) set way (set_data (Some d) l) a) as [W1 _]; [done..|].
  match goal with |- context [cots_wf (set_base ?h' (set_base ?h2 (set_base ?h3 s)))] =>
    change (set_base h' (set_base h2 (set_base h3 s))) with (set_base h' s);
    destruct (cots_write_in_place s set way (set_data (Some d) l) a h') as [W' HV'];
      [done..|apply array_wf_policy; [by apply array_wf_close|]; rewrite policy_update_ways; apply WA
      |done|done|done|] end.
  split_and!; [done|done| |done]. intros _.
  rewrite view_eq by done. unfold array_view. rewrite E. apply HV'.
Qed.

(** No line outside the ways open to the requester is touched. *)
Definition same_outside (h h' : CacheDataHandler) : Prop :=
  m_ways_count h' = m_ways_count h /\ m_sets_count h' = m_sets_count h /\
  allowedWays h' = allowedWays h /\
  forall set way, in_array h set way -> Z.testbit (allowedWays h) way = false ->
    array_line h' set way = array_line h set way.

Lemma same_outside_trans h1 h2 h3 : same_outside h1 h2 -> same_outside h2 h3 -> same_outside h1 h3.
Proof.
  intros (W1 & S1 & A1 & L1) (W2 & S2 & A2 & L2). split_and!; try congruence.
  intros set way Hin Hb. rewrite L2; [by apply L1| |by rewrite A1].
  unfold in_array in *. by rewrite W1, S1.
Qed.

Lemma same_outside_set h set way l : geom h -> in_array h set way ->
  Z.testbit (allowedWays h) way = true -> same_outside h (set_array_line set way l h).
Proof.
  intros G Hin Hb. split_and!; [done..|]. intros s' w' Hin' Hb'.
  rewrite array_line_set by done. rewrite decide_False; [done|]. intros [-> ->]. congruence.
Qed.

(** [writeCacheLine] of a line whose block waits in a miss register, into a set
    with an allowed empty way. *)
Lemma writeCacheLine_fill s a l : cots_wf s -> in_addr a ->
  m_miss_status_holding_regs s !! mask_offset (base s) a = Some l ->
  line_wf (m_block_size (base s)) l -> line_data l <> None -> valid l = true ->
  findEmptyWay (base s) a <> -1 ->
  exists s', writeCacheLine a l s = Ok (true, s') /\
    array_wf (base s') /\ m_block_size (base s') = m_block_size (base s) /\
    m_miss_status_holding_regs s' = m_miss_status_holding_regs s /\
    m_pending_write_back_regs s' = m_pending_write_back_regs s /\
    (forall b, in_addr b -> array_view (base s') b =
       if decide (block (base s) b = block (base s) a) then Some (content l) else array_view (base s) b) /\
    same_outside (base s) (base s').
Proof.
  intros W Ha Hm Hl Hd Hv Hw. pose proof (cw_array s W) as WA. pose proof (aw_geom _ WA) as G.
  assert (Hno : array_view (base s) a = None).
  { destruct (array_view (base s) a) eqn:E; [|done].
    destruct (cw_excl s W a Ha) as [Hm' _]; [by rewrite E|]. congruence. }
  unfold writeCacheLine; cbn. unfold isReady_cots, checkMSHR. rewrite Hm, bool_decide_eq_true_2 by done. cbn.
  assert (exists d, line_data l = Some d) as [d Hld] by (destruct (line_data l); [eauto|done]). rewrite Hld.
  unfold writeCacheLine_bypassLatency; cbn.
  change (findEmptyWay (close_port (base s)) a) with (findEmptyWay (base s) a).
  change (calculate_set (close_port (base s)) a) with (calculate_set (base s) a).
  change (calculate_tag (close_port (base s)) a) with (calculate_tag (base s) a).
  destruct (findEmptyWay_spec (base s) a) as [[? _]|[Hin Hinv]]; [done|].
  set (w := findEmptyWay (base s) a) in *. destruct (Z.eqb_spec w (-1)); [done|].
  apply allowed_ways_elem in Hin as [Hwr Hwa].
  pose proof (in_array_set (base s) a w G Hwr) as Hia.
  set (set := calculate_set (base s) a) in *.
  change (getLine_cots (set_base (close_port (base s)) s) set w) with (getLine_cots s set w).
  rewrite getLine_array by done. eexists. split; [done|].
  rewrite (i64_tag (base s)) by (by apply calculate_tag_range || done).
  set (old := array_line (base s) set w) in *.
  assert (Hold : line_wf (m_block_size (base s)) old) by by apply WA.
  rewrite (copy_wf_eq (m_block_size (base s))) by done. rewrite Hld.
  set (l' := set_tag (calculate_tag (base s) a) (set_tag (tag old) l)).
  destruct (array_fill (base s) w l' a) as [W1 HV1]; try done.
  unfold touch, setLine_cots; cbn. rewrite (proj2 (Z.leb_le 0 w)) by lia. cbn.
  split_and!; [|done..|by apply (same_outside_set (base s) set w l')].
  apply array_wf_policy; [|rewrite policy_update_ways; apply WA].
  by apply (array_wf_close (set_array_line set w l' (base s))).
Qed.

(** A fill adds one line to the write-back buffer when its set is full. *)
Definition fill_pwb_size (s : COTS) (a : Z) (s' : COTS) : Prop :=
  Z.of_nat (size (m_pending_write_back_regs s')) =
  Z.of_nat (size (m_pending_write_back_regs s)) + (if findEmptyWay (base s) a =? -1 then 1 else 0).

(** The eviction of [updateLineData], when it is needed. *)
Lemma make_room s a : cots_wf s -> in_addr a -> can_fill s -> array_view (base s) a = None ->
  exists s', (if findEmptyWay (base s) a =? -1
      then let! (way, s') := chooseEvictionWay (calculate_set (base s) a) s in
           moveLine2WB (calculate_set (base s) a) way s'
      else Ok s) = Ok s' /\ cots_wf s' /\
    (forall b, in_addr b -> view s' b = view s b) /\
    m_block_size (base s') = m_block_size (base s) /\
    m_sets_count (base s') = m_sets_count (base s) /\
    m_miss_status_holding_regs s' = m_miss_status_holding_regs s /\
    findEmptyWay (base s') a <> -1 /\ array_view (base s') a = None /\
    same_outside (base s) (base s') /\ fill_pwb_size s a s'.
Proof.
  intros W Ha Hcan Hno. pose proof (cw_array s W) as WA.
  destruct (Z.eqb_spec (findEmptyWay (base s) a) (-1)) as [E|E].
  2: { exists s. split_and!; try done. unfold fill_pwb_size.
       destruct (Z.eqb_spec (findEmptyWay (base s) a) (-1)); lia. }
  destruct (findEmptyWay_spec (base s) a) as [[_ Hall]|[Hin _]].
  2: { rewrite E in Hin. apply allowed_ways_elem in Hin as [? _]. lia. }
  unfold chooseEvictionWay. unfold can_fill in Hcan. rewrite <- (aw_policy _ WA) in Hcan.
  destruct (policy_candidate_allowed _ (calculate_set (base s) a) _ Hcan) as (way & p & -> & Hway & Hp).
  cbn. rewrite (aw_policy _ WA) in Hway, Hp.
  set (s1 := set_base (set_policy p (base s)) s).
  assert (W1 : cots_wf s1).
  { apply cots_wf_base; [done| |done|done]. by apply array_wf_policy. }
  pose proof Hway as [Hwr Hwa]%allowed_ways_elem.
  pose proof (in_array_set (base s) a way (aw_geom _ WA) Hwr) as Hia.
  destruct (moveLine2WB_spec s1 (calculate_set (base s) a) way) as (s2 & Hs2 & W2 & HV & Hb & Hm & _ & Hn & Hsz); [done|done| |].
  { by apply Hall. }
  exists s2. split; [done|]. split_and!; [done| |by rewrite Hb|by rewrite Hb|done| | | |].
  - intros b Hbr. rewrite HV by done. done.
  - rewrite Hb. apply (findEmptyWay_neg _ _ way); [done|].
    change (calculate_set (set_array_line _ _ _ _) a) with (calculate_set (base s) a).
    rewrite array_line_set; [by rewrite decide_True|apply W1|done|done].
  - by apply Hn.
  - rewrite Hb. apply (same_outside_set (set_policy p (base s))); [apply W1|done|done].
  - unfold fill_pwb_size. rewrite Hsz, E. cbn. lia.
Qed.

(** Overwriting or dropping a miss register. *)
Lemma mshr_write s a l l' : cots_wf s -> in_addr a ->
  m_miss_status_holding_regs s !! mask_offset (base s) a = Some l ->
  line_wf (m_block_size (base s)) l' -> valid l' = true ->
  let s1 := set_mshr (<[mask_offset (base s) a := l']> (m_miss_status_holding_regs s)) s in
  cots_wf s1 /\ updated (base s) a (Some (content l')) (view s) (view s1).
Proof.
  intros W Ha Hm Hl Hv s1. pose proof (cw_array s W) as WA. pose proof (aw_geom _ WA) as G.
  split.
  - constructor; cbn; [done| |apply W| |].
    + intros k l0. rewrite lookup_insert_Some. intros [[<- <-]|[_ Hk0]]; [|by apply (cw_mshr s W)].
      destruct (cw_mshr s W _ _ Hm) as (? & ? & _ & _). by split_and!.
    + intros k [l0 [[<- _]|[_ Hk0]]%lookup_insert_Some]; apply W; by eauto.
    + intros b Hb Hs. destruct (cw_excl s W b Hb Hs) as [Hmb Hpb]. split; [|done].
      rewrite lookup_insert_ne; [done|]. intros Eb. rewrite <- Eb in Hmb. congruence.
  - intros b Hb. rewrite !view_eq by done. cbn. case_decide as E.
    + rewrite (reg_not_array s a b) by (done || unfold reg_view; by rewrite Hm).
      unfold reg_view; cbn. by rewrite (proj2 (block_mask (base s) G b a Hb Ha) E), lookup_insert_eq.
    + unfold reg_view; cbn. by rewrite lookup_insert_ne by (by apply mask_ne).
Qed.

Lemma mshr_drop s a l : cots_wf s -> in_addr a ->
  m_miss_status_holding_regs s !! mask_offset (base s) a = Some l ->
  let s1 := set_mshr (delete (mask_offset (base s) a) (m_miss_status_holding_regs s)) s in
  cots_wf s1 /\ updated (base s) a None (view s) (view s1).
Proof.
  intros W Ha Hm s1. pose proof (cw_array s W) as WA. pose proof (aw_geom _ WA) as G.
  assert (Hp : m_pending_write_back_regs s !! mask_offset (base s) a = None).
  { apply (cw_regs s W). by rewrite Hm. }
  split.
  - constructor; cbn; [done| |apply W| |].
    + intros k l0 [_ ?]%lookup_delete_Some. by apply (cw_mshr s W).
    + intros k [l0 [_ Hk0]%lookup_delete_Some]. apply W; by eauto.
    + intros b Hb Hs. destruct (cw_excl s W b Hb Hs) as [Hmb Hpb]. split; [|done].
      rewrite lookup_delete_ne; [done|]. intros Eb. rewrite <- Eb in Hmb. congruence.
  - intros b Hb. rewrite !view_eq by done. cbn. case_decide as E.
    + rewrite (reg_not_array s a b) by (done || unfold reg_view; by rewrite Hm).
      unfold reg_view; cbn. by rewrite (proj2 (block_mask (base s) G b a Hb Ha) E), lookup_delete_eq, Hp.
    + unfold reg_view; cbn. by rewrite lookup_delete_ne by (by apply mask_ne).
Qed.

(** The same for the write-back buffer. *)
Lemma pwb_no_mshr s k l : cots_wf s -> m_pending_write_back_regs s !! k = Some l ->
  m_miss_status_holding_regs s !! k = None.
Proof.
  intros W Hp. destruct (m_miss_status_holding_regs s !! _) eqn:E; [|done].
  rewrite (cw_regs s W) in Hp; [done|]. by rewrite E.
Qed.

Lemma pwb_write s a l l' : cots_wf s -> in_addr a ->
  m_pending_write_back_regs s !! mask_offset (base s) a = Some l ->
  line_wf (m_block_size (base s)) l' -> valid l' = true ->
  let s1 := set_pwb (<[mask_offset (base s) a := l']> (m_pending_write_back_regs s)) s in
  cots_wf s1 /\ updated (base s) a (Some (content l')) (view s) (view s1).
Proof.
  intros W Ha Hp Hl Hv s1. pose proof (cw_array s W) as WA. pose proof (aw_geom _ WA) as G.
  pose proof (pwb_no_mshr _ _ _ W Hp) as Hm. split.
  - constructor; cbn; [done|apply W| | |].
    + intros k l0. rewrite lookup_insert_Some. intros [[<- <-]|[_ Hk0]]; [|by apply (cw_pwb s W)].
      destruct (cw_pwb s W _ _ Hp) as (? & ? & _ & _). by split_and!.
    + intros k Hk. rewrite lookup_insert_ne; [by apply W|]. intros <-. rewrite Hm in Hk. by destruct Hk.
    + intros b Hb Hs. destruct (cw_excl s W b Hb Hs) as [Hmb Hpb]. split; [done|].
      rewrite lookup_insert_ne; [done|]. intros Eb. rewrite <- Eb in Hpb. congruence.
  - intros b Hb. rewrite !view_eq by done. cbn. case_decide as E.
    + rewrite (reg_not_array s a b) by (done || unfold reg_view; by rewrite Hm, Hp).
      unfold reg_view; cbn. by rewrite (proj2 (block_mask (base s) G b a Hb Ha) E), Hm, lookup_insert_eq.
    + unfold reg_view; cbn. by rewrite lookup_insert_ne by (by apply mask_ne).
Qed.

Lemma pwb_drop s a l : cots_wf s -> in_addr a ->
  m_pending_write_back_regs s !! mask_offset (base s) a = Some l ->
  let s1 := set_pwb (delete (mask_offset (base s) a) (m_pending_write_back_regs s)) s in
  cots_wf s1 /\ updated (base s) a None (view s) (view s1).
Proof.
  intros W Ha Hp s1. pose proof (cw_array s W) as WA. pose proof (aw_geom _ WA) as G.
  pose proof (pwb_no_mshr _ _ _ W Hp) as Hm. split.
  - constructor; cbn; [done|apply W| | |].
    + intros k l0 [_ ?]%lookup_delete_Some. by apply (cw_pwb s W).
    + intros k Hk. apply lookup_delete_None. right. by apply W.
    + intros b Hb Hs. destruct (cw_excl s W b Hb Hs) as [Hmb Hpb]. split; [done|].
      rewrite lookup_delete_ne; [done|]. intros Eb. rewrite <- Eb in Hpb. congruence.
  - intros b Hb. rewrite !view_eq by done. cbn. case_decide as E.
    + rewrite (reg_not_array s a b) by (done || unfold reg_view; by rewrite Hm, Hp).
      unfold reg_view; cbn. by rewrite (proj2 (block_mask (base s) G b a Hb Ha) E), Hm, lookup_delete_eq.
    + unfold reg_view; cbn. by rewrite lookup_delete_ne by (by apply mask_ne).
Qed.

(** The miss register's copy has become the array's. *)
Lemma retire_mshr s s' a l : cots_wf s -> in_addr a ->
  m_miss_status_holding_regs s !! mask_offset (base s) a = Some l ->
  array_wf (base s') -> m_block_size (base s') = m_block_size (base s) ->
  m_miss_status_holding_regs s' = m_miss_status_holding_regs s ->
  m_pending_write_back_regs s' = m_pending_write_back_regs s ->
  (forall b, in_addr b -> array_view (base s') b =
     if decide (block (base s) b = block (base s) a) then Some (content l) else array_view (base s) b) ->
  let s'' := set_mshr (delete (mask_offset (base s) a) (m_miss_status_holding_regs s')) s' in
  cots_wf s'' /\ (forall b, in_addr b -> view s'' b = view s b) /\ lineLocation s'' a = ARRAY.
Proof.
  intros W Ha Hm W' Hbs Hm' Hp' HV s''. pose proof (aw_geom _ (cw_array s W)) as G.
  assert (Hmask : forall b, mask_offset (base s') b = mask_offset (base s) b).
  { intros b. unfold mask_offset. by rewrite Hbs. }
  split_and!.
  - constructor; cbn; [done|..].
    + intros k l0. rewrite Hm', lookup_delete_Some, Hmask, Hbs. intros [_ ?]. by apply (cw_mshr s W).
    + intros k l0. rewrite Hp', Hmask, Hbs. by apply (cw_pwb s W).
    + intros k [l0 Hk0]. rewrite Hm', lookup_delete_Some in Hk0. rewrite Hp'.
      apply (cw_regs s W). eexists. apply Hk0.
    + intros b Hb. rewrite HV, Hmask, Hm', Hp' by done. case_decide as E.
      * intros _. rewrite (proj2 (block_mask (base s) G b a Hb Ha) E), lookup_delete_eq.
        split; [done|]. apply (cw_regs s W). by rewrite Hm.
      * intros [E1 E2]%(cw_excl s W b Hb). by rewrite lookup_delete_ne by (by apply mask_ne).
  - intros b Hb. rewrite !view_eq by (done || apply W). cbn. rewrite HV, Hmask by done. unfold reg_view; cbn.
    rewrite Hm', Hp'. case_decide as E.
    + destruct (array_view (base s) b) as [c|] eqn:Eb.
      { destruct (cw_excl s W b Hb) as [E1 _]; [by rewrite Eb|].
        rewrite (proj2 (block_mask (base s) G b a Hb Ha) E) in E1. congruence. }
      by rewrite (proj2 (block_mask (base s) G b a Hb Ha) E), Hm.
    + by rewrite lookup_delete_ne by (by apply mask_ne).
  - unfold lineLocation. destruct (findline_base (base s'') a) eqn:Ef; [done|].
    apply findline_base_view in Ef. cbn in Ef. by rewrite HV, decide_True in Ef.
Qed.

Lemma updateLineData_MSHR s a d l : cots_wf s -> in_addr a -> can_fill s ->
  Z.of_nat (length d) = m_block_size (base s) -> array_view (base s) a = None ->
  m_miss_status_holding_regs s !! mask_offset (base s) a = Some l ->
  exists s', updateLineData a d s = Ok (true, s') /\ cots_wf s' /\
    updated (base s) a (put_data d <$> view s a) (view s) (view s') /\ lineLocation s' a = ARRAY /\
    same_outside (base s) (base s') /\ fill_pwb_size s a s'.
Proof.
  intros W Ha Hcan Hd Hno Hm. pose proof (cw_array s W) as WA.
  unfold updateLineData. rewrite (proj2 (findline_base_view _ _)) by done. rewrite Hm.
  destruct (cw_mshr s W _ _ Hm) as (_ & _ & Hl & Hv).
  rewrite (copyData_wf (m_block_size (base s))) by done. set (l' := set_data (Some d) l).
  assert (Hl' : line_wf (m_block_size (base s)) l') by by apply set_data_wf.
  destruct (mshr_write s a l l') as [W1 HV1]; [done..|]. cbv zeta in W1, HV1.
  set (s1 := set_mshr (<[mask_offset (base s) a := l']> (m_miss_status_holding_regs s)) s) in *.
  destruct (make_room s1 a) as (s2 & -> & W2 & HV2 & Hbs & Hsc & Hm2 & Hw2 & Hno2 & Hout2 & Hsz2); [done..|]. cbn [obind].
  assert (Hmask : mask_offset (base s2) a = mask_offset (base s) a).
  { unfold mask_offset. by rewrite Hbs. }
  assert (Hs2a : m_miss_status_holding_regs s2 !! mask_offset (base s2) a = Some l').
  { rewrite Hmask, Hm2. cbn. by rewrite lookup_insert_eq. }
  destruct (writeCacheLine_fill s2 a l') as (s3 & -> & W3 & Hbs3 & Hm3 & Hp3 & HV3 & Hout3); try done.
  { by rewrite Hbs. }
  destruct (retire_mshr s2 s3 a l') as (W4 & HV4 & Hloc); try done.
  cbv zeta in W4, HV4, Hloc. rewrite Hmask in W4, HV4, Hloc.
  eexists. split; [done|]. split_and!; [done| |done| |].
  - rewrite view_reg by done. unfold reg_view. rewrite Hm.
    intros b Hb. rewrite HV4, HV2 by done. by apply HV1.
  - by apply (same_outside_trans _ (base s2)).
  - unfold fill_pwb_size in *. cbn in *. by rewrite Hp3.
Qed.

(** C6: [updateLineData] is a write of the map.  On a well-formed store it
    never fails to answer; it answers yes exactly when the block is tracked
    and, for a block in the array, the port is open; on yes the data of that
    block is the new data and every other block is as it was, whatever line a
    fill evicted; a block that waited in a miss register is then in the array. *)
Theorem updateLineData_refines s a d : cots_wf s -> in_addr a -> can_fill s ->
  Z.of_nat (length d) = m_block_size (base s) ->
  exists ok s', updateLineData a d s = Ok (ok, s') /\ cots_wf s' /\
    ok = match lineLocation s a with LOC_NONE => false | ARRAY => isReady (base s) | _ => true end /\
    (if ok then updated (base s) a (put_data d <$> view s a) (view s) (view s') else s' = s) /\
    (lineLocation s a = MSHR -> lineLocation s' a = ARRAY).
Proof.
  intros W Ha Hcan Hd. unfold lineLocation at 1 2.
  destruct (findline_base (base s) a) as [p|] eqn:E.
  - destruct (updateLineData_array s a d) as (ok & s' & Hu & W' & -> & Hyes & Hno); [done..| |].
    { destruct (array_view (base s) a) eqn:E1; [done|]. apply findline_base_view in E1. congruence. }
    exists (isReady (base s)), s'. split_and!; [done..| |done]. destruct (isReady (base s)); auto.
  - pose proof (proj1 (findline_base_view _ _) E) as Hno. unfold checkMSHR, checkPWB.
    destruct (m_miss_status_holding_regs s !! mask_offset (base s) a) as [l|] eqn:Em.
    + rewrite bool_decide_eq_true_2 by done.
      destruct (updateLineData_MSHR s a d l) as (s' & Hu & W' & HV & Hloc & _); [done..|].
      by exists true, s'.
    + rewrite bool_decide_eq_false_2 by (by intros [? ?]). unfold updateLineData. rewrite E, Em.
      destruct (m_pending_write_back_regs s !! mask_offset (base s) a) as [l|] eqn:Ep.
      * rewrite bool_decide_eq_true_2 by done. destruct (cw_pwb s W _ _ Ep) as (? & ? & Hl & Hv).
        rewrite (copyData_wf (m_block_size (base s))) by done.
        destruct (pwb_write s a l (set_data (Some d) l)) as [W' HV]; [done..|by apply set_data_wf|done|].
        eexists true, _. split_and!; [done..| |done].
        rewrite view_reg by done. unfold reg_view. rewrite Em, Ep. apply HV.
      * rewrite bool_decide_eq_false_2 by (by intros [? ?]). by exists false, s.
Qed.

(** ** Bits, allocation and reads *)

Lemma findline_cots_view s a : cots_wf s -> in_addr a ->
  findline_cots s a = None <-> view s a = None.
Proof.
  intros W Ha. rewrite view_eq by (done || apply W). unfold findline_cots, reg_view, checkMSHR, checkPWB.
  destruct (findline_base (base s) a) as [[set way]|] eqn:E; unfold array_view; rewrite E; cbn; [done|].
  destruct (m_miss_status_holding_regs s !! _).
  { by rewrite bool_decide_eq_true_2. }
  rewrite bool_decide_eq_false_2 by (by intros [? ?]).
  destruct (m_pending_write_back_regs s !! _).
  { by rewrite bool_decide_eq_true_2. }
  by rewrite bool_decide_eq_false_2 by (by intros [? ?]).
Qed.

(** Where the block of [a] is, with the line that holds it. *)
Inductive located (s : COTS) (a : Z) : Prop :=
| loc_array set way (Hf : findline_base (base s) a = Some (set, way)) (Hin : in_array (base s) set way)
    (Hh : line_holds (base s) (array_line (base s) set way) set a)
    (Hfc : findline_cots s a = Some (set, way)) (Hway : (way <? 0) = false)
    (Hg : getLine_cots s set way = Some (array_line (base s) set way))
    (Hl : line_wf (m_block_size (base s)) (array_line (base s) set way))
    (Hview : view s a = Some (content (array_line (base s) set way)))
| loc_mshr l (Hf : findline_base (base s) a = None)
    (Hm : m_miss_status_holding_regs s !! mask_offset (base s) a = Some l)
    (Hfc : findline_cots s a = Some (mask_offset (base s) a, -1))
    (Hl : line_wf (m_block_size (base s)) l) (Hview : view s a = Some (content l))
| loc_pwb l (Hf : findline_base (base s) a = None)
    (Hm : m_miss_status_holding_regs s !! mask_offset (base s) a = None)
    (Hp : m_pending_write_back_regs s !! mask_offset (base s) a = Some l)
    (Hfc : findline_cots s a = Some (mask_offset (base s) a, -1))
    (Hl : line_wf (m_block_size (base s)) l) (Hview : view s a = Some (content l))
| loc_none (Hfc : findline_cots s a = None) (Hf : findline_base (base s) a = None)
    (Hm : m_miss_status_holding_regs s !! mask_offset (base s) a = None)
    (Hp : m_pending_write_back_regs s !! mask_offset (base s) a = None)
    (Hview : view s a = None).

Lemma locate s a : cots_wf s -> in_addr a -> located s a.
Proof.
  intros W Ha. pose proof (cw_array s W) as WA.
  destruct (findline_base (base s) a) as [[set way]|] eqn:E.
  { pose proof E as [Hin Hh]%findline_base_Some; [|done..].
    apply (loc_array s a set way); try done.
    - unfold findline_cots. by rewrite E.
    - destruct Hin. apply Z.ltb_ge. lia.
    - by apply getLine_array.
    - by apply WA.
    - rewrite view_eq by done. unfold array_view. by rewrite E. }
  pose proof (proj1 (findline_base_view _ _) E) as Hno. pose proof (view_reg s a W Ha Hno) as HV.
  unfold reg_view in HV.
  destruct (m_miss_status_holding_regs s !! mask_offset (base s) a) as [l|] eqn:Em.
  { apply (loc_mshr s a l); try done.
    - unfold findline_cots, checkMSHR. by rewrite E, Em, bool_decide_eq_true_2.
    - by apply (cw_mshr s W) in Em as (_ & _ & ? & _). }
  destruct (m_pending_write_back_regs s !! mask_offset (base s) a) as [l|] eqn:Ep.
  { apply (loc_pwb s a l); try done.
    - unfold findline_cots, checkMSHR, checkPWB.
      rewrite E, Em, Ep, bool_decide_eq_false_2 by (by intros [? ?]). by rewrite bool_decide_eq_true_2.
    - by apply (cw_pwb s W) in Ep as (_ & _ & ? & _). }
  apply loc_none; try done. by apply findline_cots_view.
Qed.

(** [getLine] and [setLine] on a register. *)
Lemma reg_line_mshr s k l : m_miss_status_holding_regs s !! k = Some l ->
  getLine_cots s k (-1) = Some l /\
  forall l', setLine_cots k (-1) l' s = set_mshr (<[k := l']> (m_miss_status_holding_regs s)) s.
Proof.
  intros Hm. unfold getLine_cots, setLine_cots, checkMSHR; cbn. rewrite Hm.
  by rewrite bool_decide_eq_true_2.
Qed.

Lemma reg_line_pwb s k l : m_miss_status_holding_regs s !! k = None ->
  m_pending_write_back_regs s !! k = Some l ->
  getLine_cots s k (-1) = Some l /\
  forall l', setLine_cots k (-1) l' s = set_pwb (<[k := l']> (m_pending_write_back_regs s)) s.
Proof.
  intros Hm Hp. unfold getLine_cots, setLine_cots, checkMSHR, checkPWB; cbn. rewrite Hm, Hp.
  rewrite bool_decide_eq_false_2 by (by intros [? ?]). by rewrite bool_decide_eq_true_2.
Qed.

Definition new_bits (s : COTS) (line l : GenericCacheLine) : GenericCacheLine :=
  set_block_size (m_block_size (base s)) (copyBits line l).

Lemma new_bits_wf s line l : line_wf (m_block_size (base s)) l -> line_wf (m_block_size (base s)) (new_bits s line l).
Proof. intros [Hb Hl]. by split. Qed.

Lemma updateLineBits_base_eq s a line set way l :
  findline_cots s a = Some (set, way) -> getLine_cots s set way = Some l ->
  updateLineBits_base a line s = Ok (true, setLine_cots set way (new_bits s line l) s).
Proof. intros Hf Hg. unfold updateLineBits_base; cbn. by rewrite Hf, Hg. Qed.

Lemma updateLineBits_array s a line set way : cots_wf s -> in_addr a ->
  in_array (base s) set way -> line_holds (base s) (array_line (base s) set way) set a ->
  let s1 := set_base (set_array_line set way (new_bits s line (array_line (base s) set way)) (base s)) s in
  cots_wf s1 /\
  updated (base s) a (if valid line then Some (state line, owner_id line, line_data (array_line (base s) set way)) else None)
    (view s) (view s1).
Proof.
  intros W Ha Hin Hh s1. pose proof (cw_array s W) as WA.
  set (l' := new_bits s line (array_line (base s) set way)).
  assert (Hl' : line_wf (m_block_size (base s)) l') by (by apply new_bits_wf, WA).
  destruct (valid line) eqn:Hv.
  - destruct (array_write_in_place (base s) set way l' a) as [W1 _]; [done..|].
    by apply (cots_write_in_place s set way l' a).
  - destruct (array_invalidate (base s) set way l' a) as [W1 HV1]; [done..|]. split.
    + apply cots_wf_base; [done..|]. intros b Hb. rewrite HV1 by done. case_decide; [by intros [? ?]|done].
    + intros b Hb. rewrite !view_eq by done.
      change (mask_offset (base s1) b) with (mask_offset (base s) b). cbn. rewrite HV1 by done.
      case_decide as E; [|done]. destruct (cw_excl s W b Hb) as [Hm Hp].
      { unfold array_view. rewrite (proj2 (findline_base_Some (base s) b set way WA Hb)); [done|].
        split; [done|]. apply (line_holds_block _ _ _ a); [apply WA|done..]. }
      unfold reg_view; cbn. by rewrite Hm, Hp.
Qed.

(** Addresses of one block are indistinguishable. *)
Lemma array_view_block h a b : geom h -> block h a = block h b -> array_view h a = array_view h b.
Proof. intros G [Et Es]%block_tag_set; [|done]. unfold array_view, findline_base. by rewrite Es, Et. Qed.

Lemma view_block s a b : cots_wf s -> in_addr a -> in_addr b -> block (base s) a = block (base s) b ->
  view s a = view s b.
Proof.
  intros W Ha Hb E. pose proof (aw_geom _ (cw_array s W)) as G.
  rewrite !view_eq by (done || apply W). rewrite (array_view_block _ a b) by done.
  by rewrite (proj2 (block_mask (base s) G a b Ha Hb) E).
Qed.

Lemma bits_tail {A} (o : option (Z * Z)) (f : Z -> A) (x : A) :
  match o with Some (set, way) => if (way <? 0) && false then f set else x | None => x end = x.
Proof. destruct o as [[set way]|]; [by rewrite andb_false_r|done]. Qed.

(** [updateLineBits] sets the state and the owner of a tracked block, keeps
    its data, drops the block when the new bits are invalid, and touches no
    other block; it answers whether the block was tracked. *)
Theorem updateLineBits_refines s a line : cots_wf s -> in_addr a ->
  exists s', updateLineBits a line s = Ok (isAddressTracked s a, s') /\ cots_wf s' /\
    updated (base s) a
      (c ← view s a; if valid line then Some (state line, owner_id line, c.2) else None)
      (view s) (view s').
Proof.
  intros W Ha. unfold updateLineBits, isAddressTracked.
  destruct (locate s a W Ha) as [set way Hf Hin Hh Hfc Hway Hg Hl HV|l Hf Hm Hfc Hl HV|l Hf Hm Hp Hfc Hl HV|Hfc Hf Hm Hp HV];
    rewrite HV; cbn.
  - rewrite (updateLineBits_base_eq s a line set way _ Hfc Hg), Hfc, bool_decide_eq_true_2 by done. cbn [obind].
    unfold setLine_cots. rewrite (proj2 (Z.leb_le 0 way)) by apply Hin.
    destruct (updateLineBits_array s a line set way) as [W1 HV1]; [done..|].
    cbv zeta in W1, HV1. destruct (valid line) eqn:Hv; cbn [negb].
    + eexists. split; [|by split]. apply bits_tail.
    + eexists. split; [|by split]. rewrite (proj2 (findline_cots_view _ a W1 Ha)); [done|].
      rewrite HV1 by done. by rewrite decide_True.
  - destruct (reg_line_mshr s _ l Hm) as [Hg Hset].
    rewrite (updateLineBits_base_eq s a line _ _ l Hfc Hg), Hfc, Hset, bool_decide_eq_true_2 by done. cbn [obind].
    destruct (valid line) eqn:Hv; cbn [negb].
    + destruct (mshr_write s a l (new_bits s line l)) as [W1 HV1]; [done..|by apply new_bits_wf|done|].
      eexists. split; [|by split]. apply bits_tail.
    + destruct (mshr_drop s a l) as [W1 HV1]; [done..|]. eexists. split; [|by split].
      unfold findline_cots; cbn. rewrite Hf. unfold checkMSHR; cbn.
      rewrite lookup_insert_eq, bool_decide_eq_true_2 by done. cbn.
      rewrite lookup_insert_eq, bool_decide_eq_true_2 by done. by rewrite delete_insert_eq.
  - destruct (reg_line_pwb s _ l Hm Hp) as [Hg Hset].
    rewrite (updateLineBits_base_eq s a line _ _ l Hfc Hg), Hfc, Hset, bool_decide_eq_true_2 by done. cbn [obind].
    destruct (valid line) eqn:Hv; cbn [negb].
    + destruct (pwb_write s a l (new_bits s line l)) as [W1 HV1]; [done..|by apply new_bits_wf|done|].
      eexists. split; [|by split]. apply bits_tail.
    + destruct (pwb_drop s a l) as [W1 HV1]; [done..|]. eexists. split; [|by split].
      unfold findline_cots; cbn. rewrite Hf. unfold checkMSHR, checkPWB; cbn.
      rewrite Hm, bool_decide_eq_false_2 by (by intros [? ?]).
      rewrite lookup_insert_eq, bool_decide_eq_true_2 by done. cbn.
      rewrite Hm, bool_decide_eq_false_2 by (by intros [? ?]).
      rewrite lookup_insert_eq, bool_decide_eq_true_2 by done. by rewrite delete_insert_eq.
  - unfold updateLineBits_base; cbn. rewrite Hfc. cbn. rewrite Hfc.
    exists s. split_and!; [done..|].
    intros b Hb. case_decide as E; [|done]. by rewrite (view_block s b a).
Qed.

Lemma writeLine2MSHR_spec s a line : cots_wf s -> in_addr a -> view s a = None ->
  line_wf (m_block_size (base s)) line ->
  cots_wf (writeLine2MSHR a line s) /\
  updated (base s) a (if valid line then Some (content line) else None)
    (view s) (view (writeLine2MSHR a line s)).
Proof.
  intros W Ha Hno Hl. pose proof (cw_array s W) as WA. pose proof (aw_geom _ WA) as G.
  unfold writeLine2MSHR. destruct (valid line) eqn:Hv; cbn [negb].
  2: { split; [done|]. intros b Hb. case_decide as E; [|done]. by rewrite (view_block s b a). }
  destruct (locate s a W Ha) as [? ? ? ? ? ? ? ? ? HV|? ? ? ? ? HV|? ? ? ? ? ? HV|Hfc Hf Hm Hp _]; try congruence.
  rewrite Hm. cbn [default]. rewrite (copy_fresh (m_block_size (base s))) by done.
  set (l' := set_block_size (m_block_size (base s)) (set_tag (-1) line)).
  assert (Hl' : line_wf (m_block_size (base s)) l') by (destruct Hl; by split).
  pose proof (proj1 (findline_base_view _ _) Hf) as Hna.
  split.
  - constructor; cbn; [done| |apply W| |].
    + intros k l0. rewrite lookup_insert_Some. intros [[<- <-]|[_ Hk0]]; [|by apply (cw_mshr s W)].
      split_and!; [by apply mask_in_addr| |done|done].
      apply block_mask; [done|by apply mask_in_addr|done|]. by apply block_mask_idem.
    + intros k [l0 [[<- _]|[_ Hk0]]%lookup_insert_Some]; [done|]. apply W; by eauto.
    + intros b Hb Hs. destruct (cw_excl s W b Hb Hs) as [Hmb Hpb]. split; [|done].
      rewrite lookup_insert_ne; [done|]. intros Eb%block_mask; [|done..].
      rewrite <- (array_view_block _ a b), Hna in Hs by done. by destruct Hs.
  - intros b Hb. rewrite !view_eq by done. unfold reg_view; cbn. case_decide as E.
    + rewrite (array_view_block _ b a), Hna by done.
      by rewrite (proj2 (block_mask (base s) G b a Hb Ha) E), lookup_insert_eq.
    + by rewrite lookup_insert_ne by (by apply mask_ne).
Qed.

(** Allocating a miss register.  For an untracked block it adds the line to
    the map (an invalid line is ignored). *)
Theorem writeLine2MSHR_refines s a line : cots_wf s -> in_addr a -> view s a = None ->
  line_wf (m_block_size (base s)) line ->
  cots_wf (writeLine2MSHR a line s) /\
  updated (base s) a (if valid line then Some (content line) else None)
    (view s) (view (writeLine2MSHR a line s)).
Proof. apply writeLine2MSHR_spec. Qed.

(** A read of the line leaves the map as it is. *)
Lemma cots_wf_quiet s h : cots_wf s -> array_wf h -> m_block_size h = m_block_size (base s) ->
  (forall b, array_view h b = array_view (base s) b) ->
  cots_wf (set_base h s) /\ forall b, in_addr b -> view (set_base h s) b = view s b.
Proof.
  intros W Wh Hbs Hav. split.
  - apply cots_wf_base; [done..|]. intros b Hb. by rewrite Hav.
  - intros b Hb. rewrite !view_eq by (done || apply W). cbn. rewrite Hav. unfold mask_offset. by rewrite Hbs.
Qed.

(** The line a hit copies into a fresh line carries the content. *)
Lemma content_copy bs l : line_wf bs l -> content (copy l newLine) = content l.
Proof. intros Hl. by rewrite (copy_fresh bs). Qed.

(** Reads.  [readCacheLine] into a fresh line answers yes exactly when the
    block is tracked and, for a block in the array, the port is open; it then
    delivers what the map holds.  The map is unchanged in every case. *)
Theorem readCacheLine_view s a soft : cots_wf s -> in_addr a ->
  exists ok o s', readCacheLine a (Some newLine) soft s = Ok (ok, Some o, s') /\ cots_wf s' /\
    (forall b, in_addr b -> view s' b = view s b) /\
    ok = match lineLocation s a with LOC_NONE => false | ARRAY => isReady (base s) | _ => true end /\
    (if ok then view s a = Some (content o) else s' = s).
Proof.
  intros W Ha. unfold readCacheLine, lineLocation; cbn. pose proof (cw_array s W) as WA.
  assert (Hq : forall set way, let s1 := set_base (close_port (base s)) s in
    let s' := if soft then s1 else set_base (set_policy (policy_update (m_replacement_policy (base s)) set way (dh_cycle (base s))) (close_port (base s))) s in
    cots_wf s' /\ forall b, in_addr b -> view s' b = view s b).
  { intros set way. cbv zeta. destruct soft; apply cots_wf_quiet; try done.
    - by apply array_wf_close.
    - apply array_wf_policy; [by apply array_wf_close|]. rewrite policy_update_ways. apply WA. }
  destruct (locate s a W Ha) as [set way Hf Hin Hh Hfc Hway Hg Hl HV|l Hf Hm Hfc Hl HV|l Hf Hm Hp Hfc Hl HV|Hfc Hf Hm Hp HV];
    rewrite Hf, Hfc, HV.
  - rewrite isReady_cots_array by (done || unfold array_view; rewrite Hf; done).
    destruct (isReady (base s)) eqn:Hr; cbn; [|by exists false, newLine, s].
    rewrite Hg. eexists _, _, _. split; [done|]. destruct (Hq set way) as [W' HV'].
    split_and!; [done|done|done|]. by rewrite (content_copy (m_block_size (base s))).
  - unfold checkMSHR, isReady_cots, checkMSHR. rewrite Hm, bool_decide_eq_true_2 by done. cbn [negb orb].
    destruct (reg_line_mshr s _ l Hm) as [-> _]. eexists _, _, _. split; [done|].
    destruct (Hq (mask_offset (base s) a) (-1)) as [W' HV'].
    split_and!; [done|done|done|]. by rewrite (content_copy (m_block_size (base s))).
  - unfold checkMSHR, isReady_cots, checkMSHR, checkPWB.
    rewrite Hm, Hp, bool_decide_eq_false_2, bool_decide_eq_true_2 by (done || by intros [? ?]). cbn [negb orb].
    destruct (reg_line_pwb s _ l Hm Hp) as [-> _]. eexists _, _, _. split; [done|].
    destruct (Hq (mask_offset (base s) a) (-1)) as [W' HV'].
    split_and!; [done|done|done|]. by rewrite (content_copy (m_block_size (base s))).
  - unfold checkMSHR, checkPWB. rewrite Hm, Hp, bool_decide_eq_false_2 by (by intros [? ?]).
    by exists false, newLine, s.
Qed.

(** Way-partition isolation.  The fill of a missing block, victim choice
    included, changes no array line outside the ways of its requester. *)
Theorem fill_partition_isolated s a d l ok s' : cots_wf s -> in_addr a -> can_fill s ->
  Z.of_nat (length d) = m_block_size (base s) ->
  m_miss_status_holding_regs s !! mask_offset (base s) a = Some l ->
  updateLineData a d s = Ok (ok, s') ->
  forall set way, in_array (base s) set way -> Z.testbit (allowedWays (base s)) way = false ->
    array_line (base s') set way = array_line (base s) set way.
Proof.
  intros W Ha Hcan Hd Hm Hu.
  assert (Hno : array_view (base s) a = None).
  { apply (reg_not_array s a a); try done. unfold reg_view. by rewrite Hm. }
  destruct (updateLineData_MSHR s a d l) as (s2 & Hu2 & _ & _ & _ & (_ & _ & _ & Hout) & _); try done.
  rewrite Hu in Hu2. by injection Hu2 as -> ->.
Qed.

(** [fillWouldOverflowPwb] predicts the overflow exactly: for a block that
    waits in a miss register, the fill takes the write-back buffer past its
    bound if and only if the predicate holds before it. *)
Theorem fillWouldOverflowPwb_exact s a d l ok s' : cots_wf s -> in_addr a -> can_fill s ->
  Z.of_nat (length d) = m_block_size (base s) ->
  m_miss_status_holding_regs s !! mask_offset (base s) a = Some l ->
  0 <= m_pwb_size s -> Z.of_nat (size (m_pending_write_back_regs s)) <= m_pwb_size s ->
  updateLineData a d s = Ok (ok, s') ->
  fillWouldOverflowPwb s a = true <-> m_pwb_size s < Z.of_nat (size (m_pending_write_back_regs s')).
Proof.
  intros W Ha Hcan Hd Hm Hsz Hle Hu.
  assert (Hno : array_view (base s) a = None).
  { apply (reg_not_array s a a); try done. unfold reg_view. by rewrite Hm. }
  destruct (updateLineData_MSHR s a d l) as (s2 & Hu2 & _ & _ & _ & _ & Hpwb); try done.
  rewrite Hu in Hu2. injection Hu2 as -> ->. unfold fill_pwb_size in Hpwb.
  unfold fillWouldOverflowPwb, pwbHasSpace, checkMSHR.
  rewrite Hm, (proj2 (findline_base_view _ _) Hno), !bool_decide_eq_true_2 by done.
  destruct (Z.ltb_spec (m_pwb_size s) 0), (Z.ltb_spec (Z.of_nat (size (m_pending_write_back_regs s))) (m_pwb_size s)),
    (Z.eqb_spec (findEmptyWay (base s) a) (-1)); cbn; split; try done; lia.
Qed.

(** ** The constructor *)

(** Parameters of a cache of [2^k] sets of [n] ways of [2^b]-byte blocks. *)
Record params_ok (p : HandlerParams) (b k : Z) : Prop := mk_params_ok {
  po_block : p_block_size p = 2 ^ b;
  po_size : p_cache_size p = 2 ^ k * p_ways_count p * 2 ^ b;
  po_b : 1 <= b < 31;
  po_k : 0 <= k < 31;
  po_ways : 0 < p_ways_count p <= 32;
  po_fits : p_cache_size p < 2 ^ 31 }.

(** The store after construction and [initializeCacheStates]. *)
Definition fresh_store (p : HandlerParams) (rand : nat -> Z) (initialState : Z) : outcome COTS :=
  let! s := newCOTS p rand in Ok (set_base (initializeCacheStates initialState (base s)) s).

Definition blank (p : HandlerParams) (st : Z) : GenericCacheLine :=
  set_block_size (p_block_size p) (set_state st newLine).

Lemma params_arith p b k : params_ok p b k ->
  w32 (p_block_size p) = 2 ^ b /\ w32 (p_ways_count p) = p_ways_count p /\
  i32 (w32 (p_cache_size p) / 2 ^ b) = 2 ^ k * p_ways_count p /\
  w32 (2 ^ k * p_ways_count p) / p_ways_count p = 2 ^ k.
Proof.
  intros [Hb Hs Hbr Hkr Hw Hf].
  pose proof (Z.pow_pos_nonneg 2 b). pose proof (Z.pow_pos_nonneg 2 k).
  assert (2 ^ b < 2 ^ 31) by (apply Z.pow_lt_mono_r; lia).
  assert (Hlines : 0 < 2 ^ k * p_ways_count p < 2 ^ 31) by nia.
  unfold w32, i32. split_and!.
  - rewrite Hb. apply wrap_small. lia.
  - apply wrap_small. lia.
  - rewrite wrap_small by nia. rewrite Hs, Z.div_mul by lia. apply to_signed_small; lia.
  - rewrite wrap_small by lia. apply Z.div_mul. lia.
Qed.

Lemma fresh_store_wf p rand st b k s : params_ok p b k -> fresh_store p rand st = Ok s ->
  cots_wf s /\ (forall a, in_addr a -> view s a = None).
Proof.
  intros P Hs. pose proof P as [Hb Hsz Hbr Hkr Hw Hf].
  destruct (params_arith p b k P) as (Eb & Ew & El & Es).
  apply obind_Ok in Hs as (s0 & Hs0 & [= <-]).
  apply obind_Ok in Hs0 as (h & Hh & [= <-]). unfold newCacheDataHandler in Hh.
  rewrite Eb, Ew in Hh.
  destruct (Z.eqb_spec (2 ^ b) 0); [lia|]. destruct (Z.eqb_spec (p_ways_count p) 0); [lia|].
  apply obind_Ok in Hh as (pol & Hpol & Hh). destruct (way_partition _ _ _) as [masks shared].
  rewrite El, Es in Hh. injection Hh as <-. cbn.
  set (h' := initializeCacheStates _ _).
  assert (Hsets : m_sets_count h' = 2 ^ k) by done.
  assert (Ecells : m_cache h' = replicate (Z.to_nat (2 ^ k * p_ways_count p)) (blank p st)).
  { cbn. rewrite take_ge, drop_ge, app_nil_r by by rewrite length_replicate. rewrite fmap_replicate. unfold blank. by rewrite Hb. }
  assert (Hline : forall set way, in_array h' set way -> array_line h' set way = blank p st).
  { intros set way [Hset Hway]. unfold array_line. rewrite Ecells, lookup_replicate_2; [done|].
    rewrite Hsets in Hset. unfold line_index. cbn in *. assert (set * p_ways_count p + way < 2 ^ k * p_ways_count p) by nia. lia. }
  assert (W : array_wf h').
  { constructor.
    - constructor; unfold offset_bits, index_bits; cbn; rewrite ?Z.log2_pow2 by lia; try done; try lia.
      change (Z.of_nat (length (m_cache h')) = 2 ^ k * p_ways_count p). rewrite Ecells, length_replicate. lia.
    - cbn. unfold getReplacementPolicy in Hpol. do 2 (case_match; [by injection Hpol as <-|]). done.
    - intros set way Hin. rewrite Hline by done. split; cbn; [done|done].
    - intros set way Hin. by rewrite Hline.
    - intros set w1 w2 Hin1 Hin2. by rewrite Hline. }
  assert (Hv : forall a, in_addr a -> array_view h' a = None).
  { intros a Ha. apply findline_base_view, findline_base_None; [done..|]. intros way Hwy (_ & Hvl & _).
    by rewrite Hline in Hvl by (by apply in_array_set; [apply W|]). }
  split.
  - constructor; cbn; [done|..]; try (intros ? ?; rewrite lookup_empty; done).
  - intros a Ha. rewrite view_eq by done. cbn. fold h'. rewrite Hv by done. unfold reg_view; cbn. by rewrite !lookup_empty.
Qed.

(** Construction.  With power-of-two geometry, either policy and any way
    partition the constructor succeeds and the store is well formed and maps
    no block. *)
Theorem newCOTS_refines p rand st b k : params_ok p b k ->
  p_replacement_policy_name p = "LRU"%string \/ p_replacement_policy_name p = "RANDOM"%string ->
  exists s, fresh_store p rand st = Ok s /\ cots_wf s /\ forall a, in_addr a -> view s a = None.
Proof.
  intros P Hn. assert (Hok : exists s, fresh_store p rand st = Ok s).
  { unfold fresh_store, newCOTS, newCacheDataHandler.
    destruct (params_arith p b k P) as (Eb & Ew & El & Es). rewrite Eb, Ew.
    pose proof P as [_ _ ? _ ? _].
    destruct (Z.eqb_spec (2 ^ b) 0); [lia|]. destruct (Z.eqb_spec (p_ways_count p) 0); [lia|].
    destruct (way_partition _ _ _). destruct Hn as [-> | ->]; cbn; eauto. }
  destruct Hok as [s Hs]. exists s. split; [done|]. by apply (fresh_store_wf p rand st b k).
Qed.

(** Tags, sets and addresses.  The block address of an address is rebuilt
    from its tag and its set. *)
Theorem address_roundtrip h a : geom h -> in_addr a ->
  calculate_address h (calculate_tag h a) (calculate_set h a) = mask_offset h a.
Proof.
  intros G Ha. destruct (address_of_tag_set h G (calculate_tag h a) (calculate_set h a)) as (Hr & Ht & Hs & Hm).
  - by apply calculate_tag_range.
  - by apply calculate_set_range.
  - rewrite <- Hm. apply block_mask; [done..|]. by apply block_tag_set.
Qed.

(** ** Witnesses: two sets of two ways of 4-byte blocks, core 0 owns
    way 0, and there is no room in the write-back buffer *)

Definition demo_params : HandlerParams :=
  mkHandlerParams 16 4 2 3 None None "LRU" (Some "0:0;1-3:1"%string) (Some 0).
Definition demo_store : COTS :=
  match fresh_store demo_params (fun _ => 0) 0 with
  | Ok s => s
  | _ => mkCOTS (mkHandler [] 0 0 ∅ 0 0 0 0 (mkPolicy (LRU ∅) 0) 0 0 0 false 1) ∅ ∅ 0 []
  end.

Lemma demo_params_ok : params_ok demo_params 2 1.
Proof. by constructor. Qed.

Lemma demo_store_wf : cots_wf demo_store /\ forall a, in_addr a -> view demo_store a = None.
Proof.
  apply (fresh_store_wf demo_params (fun _ => 0) 0 2 1); [apply demo_params_ok|]. by vm_compute.
Qed.

Definition demo_line : GenericCacheLine := mkLine true 0 0 0 (-1) 3 1 4 None.
(** Core 0 has a miss pending at 0x10. *)
Definition demo_miss : COTS :=
  let s := writeLine2MSHR 0x12 demo_line demo_store in set_base (setRequester 0 (base s)) s.

Lemma demo_miss_wf : cots_wf demo_miss.
Proof.
  destruct demo_store_wf as [W Hno].
  destruct (writeLine2MSHR_spec demo_store 0x12 demo_line) as [W' _]; [done|done|by apply Hno|done|].
  unfold demo_miss. apply cots_wf_base; [done| |done|done].
  pose proof (cw_array _ W') as [[] ? ? ? ?]. by constructor.
Qed.

Lemma updateLineData_refines_witness :
  exists ok s', updateLineData 0x12 [1; 2; 3; 4] demo_miss = Ok (ok, s') /\ cots_wf s' /\
    ok = match lineLocation demo_miss 0x12 with
         | LOC_NONE => false | ARRAY => isReady (base demo_miss) | _ => true end /\
    (if ok then updated (base demo_miss) 0x12 (put_data [1; 2; 3; 4] <$> view demo_miss 0x12)
                  (view demo_miss) (view s')
     else s' = demo_miss) /\
    (lineLocation demo_miss 0x12 = MSHR -> lineLocation s' 0x12 = ARRAY).
Proof.
  apply (updateLineData_refines demo_miss 0x12 [1; 2; 3; 4]);
    [apply demo_miss_wf|done|by vm_compute|by vm_compute].
Defined.

Lemma updateLineBits_refines_witness :
  exists s', updateLineBits 0x11 (set_state 5 demo_line) demo_miss = Ok (isAddressTracked demo_miss 0x11, s') /\
    cots_wf s' /\
    updated (base demo_miss) 0x11
      (c ← view demo_miss 0x11; Some (5, 1, c.2)) (view demo_miss) (view s').
Proof.
  apply (updateLineBits_refines demo_miss 0x11 (set_state 5 demo_line)); [apply demo_miss_wf|done].
Defined.

Lemma writeLine2MSHR_refines_witness :
  cots_wf (writeLine2MSHR 0x12 demo_line demo_store) /\
  updated (base demo_store) 0x12 (Some (3, 1, None)) (view demo_store)
    (view (writeLine2MSHR 0x12 demo_line demo_store)).
Proof.
  apply (writeLine2MSHR_refines demo_store 0x12 demo_line);
    [apply demo_store_wf|done|by apply demo_store_wf|done].
Defined.

Lemma readCacheLine_view_witness :
  exists ok o s', readCacheLine 0x10 (Some newLine) false demo_miss = Ok (ok, Some o, s') /\ cots_wf s' /\
    (forall b, in_addr b -> view s' b = view demo_miss b) /\
    ok = match lineLocation demo_miss 0x10 with
         | LOC_NONE => false | ARRAY => isReady (base demo_miss) | _ => true end /\
    (if ok then view demo_miss 0x10 = Some (content o) else s' = demo_miss).
Proof. apply (readCacheLine_view demo_miss 0x10 false); [apply demo_miss_wf|done]. Defined.

Lemma fill_partition_isolated_witness :
  Z.testbit (allowedWays (base demo_miss)) 1 = false /\
  exists s', updateLineData 0x12 [1; 2; 3; 4] demo_miss = Ok (true, s') /\
    array_line (base s') 0 1 = array_line (base demo_miss) 0 1.
Proof.
  split; [by vm_compute|]. eexists. split; [vm_compute; reflexivity|].
  eapply (fill_partition_isolated demo_miss 0x12 [1; 2; 3; 4]);
    [apply demo_miss_wf|done|by vm_compute|by vm_compute|vm_compute; reflexivity
    |vm_compute; reflexivity|by vm_compute|by vm_compute].
Defined.

Lemma newCOTS_refines_witness :
  exists s, fresh_store demo_params (fun _ => 0) 0 = Ok s /\ cots_wf s /\ forall a, in_addr a -> view s a = None.
Proof.
  apply (newCOTS_refines demo_params (fun _ => 0) 0 2 1); [apply demo_params_ok|by left].
Defined.

Lemma address_roundtrip_witness :
  calculate_address (base demo_store) (calculate_tag (base demo_store) 0xABCDE) (calculate_set (base demo_store) 0xABCDE)
  = mask_offset (base demo_store) 0xABCDE.
Proof. apply (address_roundtrip (base demo_store) 0xABCDE); [apply demo_store_wf|done]. Defined.

(** The fill of 0x10 is done and core 0 misses on 0x20, in the same set. *)
Definition demo_filled : COTS :=
  match updateLineData 0x12 [1; 2; 3; 4] demo_miss with Ok (_, s) => s | _ => demo_miss end.
Definition demo_full : COTS := writeLine2MSHR 0x20 demo_line demo_filled.

Lemma demo_full_wf : cots_wf demo_full.
Proof.
  destruct (updateLineData_MSHR demo_miss 0x12 [1; 2; 3; 4] (set_block_size 4 demo_line))
    as (s & Hs & W & _);
    [apply demo_miss_wf|by vm_compute|by vm_compute|by vm_compute|by vm_compute|by vm_compute|].
  assert (E : demo_filled = s) by (unfold demo_filled; by rewrite Hs).
  rewrite <- E in W. apply (writeLine2MSHR_spec demo_filled 0x20 demo_line); [done|done|by vm_compute|done].
Qed.

Lemma fillWouldOverflowPwb_exact_witness :
  exists s', updateLineData 0x20 [5; 6; 7; 8] demo_full = Ok (true, s') /\
    (fillWouldOverflowPwb demo_full 0x20 = true <->
     m_pwb_size demo_full < Z.of_nat (size (m_pending_write_back_regs s'))) /\
    fillWouldOverflowPwb demo_full 0x20 = true.
Proof.
  eexists. split; [vm_compute; reflexivity|]. split; [|by vm_compute].
  eapply (fillWouldOverflowPwb_exact demo_full 0x20 [5; 6; 7; 8]);
    [apply demo_full_wf|done|by vm_compute|by vm_compute|vm_compute; reflexivity
    |by vm_compute|by vm_compute|vm_compute; reflexivity].
Defined.
