(* ===== verification/FsmReader.v ===== *)
(** * The reader of the coherence tables

    [class FSMReader] of [src/FSMReader.cpp]: the parser of the protocol CSV
    files and the queries the protocol handlers make.  A file is its text. *)

From S2P Require Export CText.

Local Open Scope string_scope.
Open Scope Z_scope.

Record FSMState := mkFSMState {
  is_data_valid : bool;
  stable : bool;
  transitions : gmap Z Z;
  actions : gmap Z (list Z);
  m_own_state : Z }.

Record FSMReader := mkFSMReader {
  m_eventIds : gmap string Z;
  m_actionIds : gmap string Z;
  m_stateIds : gmap string Z;
  m_states : list FSMState }.

Definition emptyFSMReader : FSMReader := mkFSMReader ∅ ∅ ∅ [].

(** [map::at] *)
Definition map_at (ids : gmap string Z) (name : string) : outcome Z :=
  match ids !! name with
  | Some v => Ok v
  | None => Crash "map::at"
  end.

(** ** Parsing *)

(** The [do ... while] over the action names of a cell: [pos] is the stream's
    position, [last_delim] that of the last "/". *)
Fixpoint action_names (n : nat) (st : option string) (pos last_delim : nat) : list string :=
  match n with
  | O => []
  | S n' =>
      let '(_, name, st') := getline st "" "/" in
      let pos' := (pos + String.length name + 1)%nat in
      name :: (if (pos' <? last_delim)%nat then action_names n' st' pos' last_delim else [])
  end.

(** One cell of a row: the next state and the actions. *)
Definition parse_cell (actionIds stateIds : gmap string Z) (state_name field : string)
    : outcome (Z * list Z) :=
  let field := _trim field in
  if String.eqb field "" then let! s := map_at stateIds state_name in Ok (s, [])
  else
    match after_last "/" field with
    | O => let! s := map_at stateIds field in Ok (s, [])
    | S last_delim =>
        let next_state := _trim (drop_chars (S last_delim) field) in
        let! s := map_at stateIds (if String.eqb next_state "" then state_name else next_state) in
        let! acts := ofold (fun acts name => let! a := map_at actionIds (_trim name) in Ok (acts ++ [a])%list)
                       (action_names (S (String.length field)) (Some field) 0 last_delim) [] in
        Ok (s, acts)
    end.

(** [this->actions[event_index]] exists only when an action was pushed. *)
Definition add_cell (event_index : Z) (c : Z * list Z) (st : FSMState) : FSMState :=
  mkFSMState (is_data_valid st) (stable st) (<[event_index := c.1]> (transitions st))
    (match c.2 with [] => actions st | l => <[event_index := l]> (actions st) end) (m_own_state st).

Fixpoint parse_cells (actionIds stateIds : gmap string Z) (state_name : string)
    (cells : list string) (event_index : Z) (st : FSMState) : outcome FSMState :=
  match cells with
  | [] => Ok st
  | field :: cells' =>
      let! c := parse_cell actionIds stateIds state_name field in
      parse_cells actionIds stateIds state_name cells' (event_index + 1) (add_cell event_index c st)
  end.

(** [FSMState::FSMState(line, ...)] *)
Definition newFSMState (line : string) (actionIds stateIds : gmap string Z) : outcome FSMState :=
  let '(_, state_name, st1) := getline (Some line) "" "," in
  let state_name := _trim state_name in
  let! own := map_at stateIds state_name in
  let '(_, field1, st2) := getline st1 "" "," in
  let '(_, field2, st3) := getline st2 field1 "," in
  parse_cells actionIds stateIds state_name (fields st3 ",") 0
    (mkFSMState (atoi field2 =? 1) (atoi field1 =? 1) ∅ ∅ own).

(** [parseFile(file, ids)]: the ids and the lines left in the file. *)
Fixpoint parseFile_ids (lines : list string) (ids : gmap string Z) : gmap string Z * list string :=
  match lines with
  | [] => (ids, [])
  | line :: lines' =>
      let '(_, value, st1) := getline (Some line) "" "," in
      let '(_, index, _) := getline st1 "" "," in
      let index := _trim index in
      if String.eqb index "" then (ids, lines')
      else parseFile_ids lines' (<[index := atoi (_trim value)]> ids)
  end.

(** [parseFile(file, states)]: every remaining line is a row. *)
Definition parseFile_states (r : FSMReader) (lines : list string) : outcome FSMReader :=
  let! states := ofold (fun states line =>
      let! st := newFSMState line (m_actionIds r) (m_stateIds r) in Ok (states ++ [st])%list)
    lines (m_states r) in
  Ok (mkFSMReader (m_eventIds r) (m_actionIds r) (m_stateIds r) states).

Definition EVENT_CSV_ID := "EventNum".
Definition ACTION_CSV_ID := "ActionNum".
Definition STATE_CSV_ID := "StateNum".
Definition STATE_CSV_TABLE := "State".

(** The constructor's loop over the lines; [n] bounds the lines left. *)
Fixpoint load_lines (n : nat) (r : FSMReader) (lines : list string) : outcome FSMReader :=
  match n, lines with
  | O, _ | _, [] => Ok r
  | S n', line :: lines' =>
      if contains EVENT_CSV_ID line then
        let '(ids, rest) := parseFile_ids lines' (m_eventIds r) in
        load_lines n' (mkFSMReader ids (m_actionIds r) (m_stateIds r) (m_states r)) rest
      else if contains ACTION_CSV_ID line then
        let '(ids, rest) := parseFile_ids lines' (m_actionIds r) in
        load_lines n' (mkFSMReader (m_eventIds r) ids (m_stateIds r) (m_states r)) rest
      else if contains STATE_CSV_ID line then
        let '(ids, rest) := parseFile_ids lines' (m_stateIds r) in
        load_lines n' (mkFSMReader (m_eventIds r) (m_actionIds r) ids (m_states r)) rest
      else if contains STATE_CSV_TABLE line then parseFile_states r lines'
      else load_lines n' r lines'
  end.

(** [FSMReader::FSMReader(fsmPath)] on the text of the file; [None] when it
    cannot be opened. *)
Definition newFSMReader (file : option string) : outcome FSMReader :=
  match file with
  | None => Exit "ERROR: Can't open FSM CSV file"
  | Some text =>
      let lines := fields (Some text) "010" in
      load_lines (length lines) emptyFSMReader lines
  end.

(** ** Queries *)

(** [m_states[state]]: no bounds check, an index out of range is undefined. *)
Definition fsm_row (r : FSMReader) (state : Z) : outcome FSMState :=
  if state <? 0 then Crash "vector index out of range" else
  match m_states r !! Z.to_nat state with
  | Some st => Ok st
  | None => Crash "vector index out of range"
  end.

Definition getNextState (st : FSMState) (event : Z) : Z := default (m_own_state st) (transitions st !! event).
Definition getActions (st : FSMState) (event : Z) : list Z := default [] (actions st !! event).

(** [m_stateIds[state_name]]: [operator[]] answers 0 for an unknown name. *)
Definition getState (r : FSMReader) (state_name : string) : Z := default 0 (m_stateIds r !! state_name).

Definition getTransition (r : FSMReader) (current_state event : Z) : outcome (Z * list Z) :=
  let! st := fsm_row r current_state in Ok (getNextState st event, getActions st event).

Definition isValidState (r : FSMReader) (state : Z) : outcome bool :=
  let! st := fsm_row r state in Ok (is_data_valid st).

Definition isStable (r : FSMReader) (state : Z) : outcome bool :=
  let! st := fsm_row r state in Ok (stable st).

Definition has_id (l : list Z) (id : Z) : bool := existsb (Z.eqb id) l.

Definition isHit (r : FSMReader) (state event : Z) : outcome bool :=
  let! st := fsm_row r state in Ok (has_id (getActions st event) (default 0 (m_actionIds r !! "Hit"))).

Definition isStall (r : FSMReader) (state event : Z) : outcome bool :=
  let! st := fsm_row r state in Ok (has_id (getActions st event) (default 0 (m_actionIds r !! "Stall"))).

Definition hasAction (r : FSMReader) (state event : Z) (action_name : string) : outcome bool :=
  match m_actionIds r !! action_name with
  | None => Ok false
  | Some id => let! st := fsm_row r state in Ok (has_id (getActions st event) id)
  end.

(** ** Lemmas *)

Lemma parse_cells_spec A S name cells : forall i st st',
  parse_cells A S name cells i st = Ok st' ->
  m_own_state st' = m_own_state st /\ is_data_valid st' = is_data_valid st /\ stable st' = stable st /\
  forall e, match cells !! Z.to_nat (e - i) with
            | Some c => i <= e -> actions st !! e = None ->
                parse_cell A S name c = Ok (getNextState st' e, getActions st' e)
            | None => transitions st' !! e = transitions st !! e /\ actions st' !! e = actions st !! e
            end /\
            (e < i -> transitions st' !! e = transitions st !! e /\ actions st' !! e = actions st !! e).
Proof.
  induction cells as [|c cells IH]; intros i st st'; cbn.
  { by intros [= <-]. }
  intros ([s acts] & Hc & H)%obind_Ok.
  apply IH in H as (Hown & Hval & Hst & Hcells).
  split_and!; [done..|]. intros e. destruct (Hcells e) as [He Hlt].
  assert (Hother : e <> i -> transitions (add_cell i (s, acts) st) !! e = transitions st !! e /\
                             actions (add_cell i (s, acts) st) !! e = actions st !! e).
  { intros Hne. cbn. rewrite lookup_insert_ne by done. split; [done|].
    destruct acts; [done|]. by rewrite lookup_insert_ne. }
  split.
  - destruct (Z.lt_trichotomy e i) as [Hlt'|[->|Hgt]].
    + assert (Ee : Z.to_nat (e - i) = 0%nat) by lia. rewrite Ee. cbn. lia.
    + rewrite Z.sub_diag. cbn. intros _ Hact. destruct Hlt as [Ht Ha]; [lia|].
      rewrite Hc. unfold getNextState, getActions. rewrite Ht, Ha. cbn. rewrite lookup_insert_eq.
      destruct acts; [by rewrite Hact|]. by rewrite lookup_insert_eq.
    + assert (Ee : Z.to_nat (e - i) = Datatypes.S (Z.to_nat (e - (i + 1)))) by lia. rewrite Ee. cbn.
      destruct Hother as [Ht Ha]; [lia|]. destruct (cells !! Z.to_nat (e - (i + 1))).
      * intros _ Hact. apply He; [lia|]. by rewrite Ha.
      * by rewrite <- Ht, <- Ha.
  - intros Hlt'. destruct Hlt as [Ht Ha]; [lia|]. destruct Hother as [Ht' Ha']; [lia|]. by rewrite Ht, Ha.
Qed.

Lemma parseFile_ids_length lines ids : (length (parseFile_ids lines ids).2 <= length lines)%nat.
Proof.
  revert ids. induction lines as [|line lines IH]; intros ids; cbn [parseFile_ids]; [done|].
  destruct (getline (Some line) "" ",") as [[? value] st1].
  destruct (getline st1 "" ",") as [[? index] ?]. destruct (String.eqb _ _); cbn; [lia|].
  etrans; [apply IH|]. lia.
Qed.

Lemma load_lines_fuel : forall n m r lines,
  (length lines <= n)%nat -> (length lines <= m)%nat -> load_lines n r lines = load_lines m r lines.
Proof.
  induction n as [|n IH]; intros [|m] r [|line lines] Hn Hm; cbn [length load_lines] in *; try lia; try done.
  pose proof (parseFile_ids_length lines) as Hlen.
  repeat case_match; try done; try (apply IH; lia);
    match goal with H : parseFile_ids lines ?ids = (_, ?rest) |- _ =>
      specialize (Hlen ids); rewrite H in Hlen; cbn in Hlen; apply IH; lia end.
Qed.

(** ** Properties *)

(** The name and the cells of a row, as the constructor splits the line. *)
Definition row_name (line : string) : string :=
  let '(_, state_name, _) := getline (Some line) "" "," in _trim state_name.
Definition row_cells (line : string) : list string :=
  let '(_, _, st1) := getline (Some line) "" "," in
  let '(_, field1, st2) := getline st1 "" "," in
  let '(_, _, st3) := getline st2 field1 "," in fields st3 ",".

(** A parsed row means its cells.  The transition of event [e] is what the
    cell in column [e] says; an event whose cell is missing (a trailing cell
    [getline] drops) stays in the row's own state without action, and so does
    one whose cell is blank. *)
Theorem newFSMState_cells line A S st : newFSMState line A S = Ok st ->
  map_at S (row_name line) = Ok (m_own_state st) /\
  forall e, 0 <= e ->
    match row_cells line !! Z.to_nat e with
    | Some c =>
        parse_cell A S (row_name line) c = Ok (getNextState st e, getActions st e) /\
        (_trim c = "" -> getNextState st e = m_own_state st /\ getActions st e = [])
    | None => getNextState st e = m_own_state st /\ getActions st e = []
    end.
Proof.
  unfold newFSMState, row_name, row_cells.
  destruct (getline (Some line) "" ",") as [[? name] st1].
  intros (own & Hown & H)%obind_Ok.
  destruct (getline st1 "" ",") as [[? field1] st2].
  destruct (getline st2 field1 ",") as [[? field2] st3].
  apply parse_cells_spec in H as (Hown' & _ & _ & Hcells). cbn in Hown'. rewrite Hown'.
  split; [done|]. intros e He. destruct (Hcells e) as [Hc _]. rewrite Z.sub_0_r in Hc.
  destruct (fields st3 "," !! Z.to_nat e) as [c|].
  - cbn in Hc. specialize (Hc He). rewrite lookup_empty in Hc. specialize (Hc eq_refl).
    split; [done|]. intros Hblank. unfold parse_cell in Hc. rewrite Hblank in Hc. cbn in Hc.
    rewrite Hown in Hc. cbn in Hc. by injection Hc as <- <-.
  - cbn in Hc. rewrite !lookup_empty in Hc. destruct Hc as [Ht Ha].
    unfold getNextState, getActions. by rewrite Ht, Ha, Hown'.
Qed.

Definition demo_ids : gmap string Z := list_to_map [("I", 0); ("S", 3); ("Hit", 1); ("GetS", 2)].

Lemma newFSMState_cells_witness :
  exists st, newFSMState " S ,1,1, Hit/ ,,GetS/Hit/I,I" demo_ids demo_ids = Ok st /\
  map_at demo_ids "S" = Ok (m_own_state st) /\
  forall e, 0 <= e ->
    match [" Hit/ "; ""; "GetS/Hit/I"; "I"] !! Z.to_nat e with
    | Some c =>
        parse_cell demo_ids demo_ids "S" c = Ok (getNextState st e, getActions st e) /\
        (_trim c = "" -> getNextState st e = m_own_state st /\ getActions st e = [])
    | None => getNextState st e = m_own_state st /\ getActions st e = []
    end.
Proof.
  eexists. split; [vm_compute; reflexivity|].
  apply (newFSMState_cells " S ,1,1, Hit/ ,,GetS/Hit/I,I" demo_ids demo_ids). vm_compute. reflexivity.
Defined.

(** The constructor's loop reads the whole file: any larger number of
    iterations gives the same reader. *)
Lemma newFSMReader_total text n :
  (length (fields (Some text) "010") <= n)%nat ->
  load_lines n emptyFSMReader (fields (Some text) "010") = newFSMReader (Some text).
Proof. intros Hn. unfold newFSMReader. by apply load_lines_fuel. Qed.
