(* ===== verification/FsmTables.v ===== *)
(** * The shipped coherence tables

    The files of [Protocols_FSM/] that the protocol classes of the simulator
    load, as text, and what every one of them satisfies.  [crlf] puts back the
    carriage returns of the files that have them, [bom] their byte order mark. *)

From S2P Require Export FsmReader.

Local Open Scope string_scope.
Open Scope Z_scope.

Definition bom : string := String "239" (String "187" (String "191" "")).
Fixpoint crlf (s : string) : string :=
  match s with
  | "" => ""
  | String a s' => if Ascii.eqb a "010" then String "013" (String "010" (crlf s')) else String a (crlf s')
  end.

Definition MSI_splitBus_snooping_csv : string := bom +:+ (bom +:+ (crlf "EventNum,Event,,,,,,,,,,,,
0,Load,,,,,,,,,,,,
1,Store,,,,,,,,,,,,
2,Replacement,,,,,,,,,,,,
3,Own_GetS,,,,,,,,,,,,
4,Own_GetM,,,,,,,,,,,,
5,Own_PutM,,,,,,,,,,,,
6,Other_GetS,,,,,,,,,,,,
7,Other_GetM,,,,,,,,,,,,
8,Other_PutM,,,,,,,,,,,,
9,OwnData,,,,,,,,,,,,
10,Invalidation,,,,,,,,,,,,
,,,,,,,,,,,,,
ActionNum,Action,,,,,,,,,,,,
0,Stall,,,,,,,,,,,,
1,Hit,,,,,,,,,,,,
2,GetS,,,,,,,,,,,,
3,GetM,,,,,,,,,,,,
4,PutM,,,,,,,,,,,,
5,Data2Req,,,,,,,,,,,,
6,Data2Both,,,,,,,,,,,,
7,SaveReq,,,,,,,,,,,,
8,Fault,,,,,,,,,,,,
,,,,,,,,,,,,,
StateNum,State,,,,,,,,,,,,
0,I,,,,,,,,,,,,
1,IS_ad,,,,,,,,,,,,
2,IS_d,,,,,,,,,,,,
3,IS_a,,,,,,,,,,,,
4,IS_dI,,,,,,,,,,,,
5,IM_ad,,,,,,,,,,,,
6,IM_d,,,,,,,,,,,,
7,IM_a,,,,,,,,,,,,
8,IM_dI,,,,,,,,,,,,
9,IM_dS,,,,,,,,,,,,
10,IM_dSI,,,,,,,,,,,,
11,S,,,,,,,,,,,,
12,SM_ad,,,,,,,,,,,,
13,SM_d,,,,,,,,,,,,
14,SM_a,,,,,,,,,,,,
15,SM_dI,,,,,,,,,,,,
16,SM_dS,,,,,,,,,,,,
17,SM_dSI,,,,,,,,,,,,
18,M,,,,,,,,,,,,
19,MI_a,,,,,,,,,,,,
20,MII_a,,,,,,,,,,,,
21,II_a,,,,,,,,,,,,
,,,,,,,,,,,,,
State,stable,isDataValid,Load,Store,Replacement,Own_GetS,Own_GetM,Own_PutM,Other_GetS,Other_GetM,Other_PutM,OwnData,Invalidation
I,1,0,GetS/IS_ad,GetM/IM_ad,,Fault/,Fault/,Fault/,,,,Fault/,
IS_ad,0,1,Stall/,Stall/,Stall/,IS_d,Fault/,Fault/,,,,IS_a,
IS_d,0,1,Stall/,Stall/,Stall/,Fault/,Fault/,Fault/,,IS_dI,,Hit/S,IS_dI
IS_a,0,1,Stall/,Stall/,Stall/,Hit/S,Fault/,Fault/,,,Fault/,Fault/,IS_ad
IS_dI,0,1,Stall/,Stall/,Stall/,Fault/,Fault/,Fault/,,,,Hit/I,
IM_ad,0,1,Stall/,Stall/,Stall/,Fault/,IM_d,Fault/,,,,IM_a,
IM_d,0,1,Stall/,Stall/,Stall/,Fault/,Fault/,Fault/,SaveReq/IM_dS,SaveReq/IM_dI,,Hit/M,SaveReq/IM_dI
IM_a,0,1,Stall/,Stall/,Stall/,Fault/,Hit/M,Fault/,,,,Fault/,IM_ad
IM_dI,0,1,Stall/,Stall/,Stall/,Fault/,Fault/,Fault/,,,,Hit/Data2Req/I,
IM_dS,0,1,Stall/,Stall/,Stall/,Fault/,Fault/,Fault/,,IM_dSI,,Hit/Data2Both/S,IM_dSI
IM_dSI,0,1,Stall/,Stall/,Stall/,Fault/,Fault/,Fault/,,,,Hit/Data2Both/I,
S,1,1,Hit/,GetM/SM_ad,I,Fault/,Fault/,Fault/,,I,,Fault/,I
SM_ad,0,1,Hit/,Stall/,Stall/,Fault/,SM_d,Fault/,,IM_ad,,SM_a,IM_ad
SM_d,0,1,Hit/,Stall/,Stall/,Fault/,Fault/,Fault/,SaveReq/SM_dS,SaveReq/SM_dI,,Hit/M,SaveReq/IM_dI
SM_a,0,1,Hit/,Stall/,Stall/,Fault/,Hit/M,Fault/,,IM_a,Fault/,Fault/,IM_a
SM_dI,0,1,Hit/,Stall/,Stall/,Fault/,Fault/,Fault/,,,,Hit/Data2Req/I,
SM_dS,0,1,Hit/,Stall/,Stall/,Fault/,Fault/,Fault/,,SM_dSI,,Hit/Data2Both/S,SM_dSI
SM_dSI,0,1,Hit/,Stall/,Stall/,Fault/,Fault/,Fault/,,,,Hit/Data2Both/I,
M,1,1,Hit/,Hit/,PutM/MI_a,Fault/,Fault/,Fault/,Data2Both/S,Data2Req/I,,Fault/,Data2Req/I
MI_a,0,1,Hit/,Hit/,Stall/,Fault/,Fault/,Data2Req/I,Data2Both/II_a,Data2Req/II_a,,Fault/,MII_a
MII_a,0,1,Hit/,Hit/,Stall/,Fault/,Fault/,Data2Req/I,,,,Fault/,
II_a,0,1,Stall/,Stall/,Stall/,Fault/,Fault/,I,,,,Fault/,")).

Definition MSI_LLC_csv : string := bom +:+ (crlf "EventNum , Event                  ,            ,                  ,                      ,            ,                  ,                  ,                        ,                        , 
0        , GetS                   ,            ,                  ,                      ,            ,                  ,                  ,                        ,                        , 
1        , GetM                   ,            ,                  ,                      ,            ,                  ,                  ,                        ,                        , 
2        , Replacement            ,            ,                  ,                      ,            ,                  ,                  ,                        ,                        , 
3        , PutM_fromOwner         ,            ,                  ,                      ,            ,                  ,                  ,                        ,                        , 
4        , PutM_fromNonOwner      ,            ,                  ,                      ,            ,                  ,                  ,                        ,                        , 
5        , Data_fromLowerInterface,            ,                  ,                      ,            ,                  ,                  ,                        ,                        , 
6        , Data_fromUpperInterface,            ,                  ,                      ,            ,                  ,                  ,                        ,                        , 
7        , Own_Invalidation       ,            ,                  ,                      ,            ,                  ,                  ,                        ,                        , 
         ,                        ,            ,                  ,                      ,            ,                  ,                  ,                        ,                        , 
ActionNum, Action                 ,            ,                  ,                      ,            ,                  ,                  ,                        ,                        , 
0        , Stall                  ,            ,                  ,                      ,            ,                  ,                  ,                        ,                        , 
1        , GetData                ,            ,                  ,                      ,            ,                  ,                  ,                        ,                        , 
2        , SendData               ,            ,                  ,                      ,            ,                  ,                  ,                        ,                        , 
3        , SaveData               ,            ,                  ,                      ,            ,                  ,                  ,                        ,                        , 
4        , SetOwner               ,            ,                  ,                      ,            ,                  ,                  ,                        ,                        , 
5        , ClearOwner             ,            ,                  ,                      ,            ,                  ,                  ,                        ,                        , 
6        , IssueInv               ,            ,                  ,                      ,            ,                  ,                  ,                        ,                        , 
7        , WriteBack              ,            ,                  ,                      ,            ,                  ,                  ,                        ,                        , 
8        , Fault                  ,            ,                  ,                      ,            ,                  ,                  ,                        ,                        , 
         ,                        ,            ,                  ,                      ,            ,                  ,                  ,                        ,                        , 
StateNum , State                  ,            ,                  ,                      ,            ,                  ,                  ,                        ,                        , 
0        , N                      ,            ,                  ,                      ,            ,                  ,                  ,                        ,                        , 
1        , NIorS_d                ,            ,                  ,                      ,            ,                  ,                  ,                        ,                        , 
2        , NM_d                   ,            ,                  ,                      ,            ,                  ,                  ,                        ,                        , 
3        , IorS                   ,            ,                  ,                      ,            ,                  ,                  ,                        ,                        , 
4        , M                      ,            ,                  ,                      ,            ,                  ,                  ,                        ,                        , 
5        , IorS_d                 ,            ,                  ,                      ,            ,                  ,                  ,                        ,                        , 
6        , IorS_a                 ,            ,                  ,                      ,            ,                  ,                  ,                        ,                        , 
7        , N_d                    ,            ,                  ,                      ,            ,                  ,                  ,                        ,                        , 
8        , N_a                    ,            ,                  ,                      ,            ,                  ,                  ,                        ,                        , 
         ,                        ,            ,                  ,                      ,            ,                  ,                  ,                        ,                        , 
State    , stable                 , isDataValid, GetS             , GetM                 , Replacement, PutM_fromOwner   , PutM_fromNonOwner, Data_fromLowerInterface, Data_fromUpperInterface, Own_Invalidation
N        , 1                      , 0          , GetData/NIorS_d  , GetData/SetOwner/NM_d,            , Fault/           ,, Fault/                 , Fault/                 , Fault/
NIorS_d  , 0                      , 1          , Stall/           , Stall/               , Stall/     , Fault/           , Fault/           , Fault/                 , SendData/IorS          , Fault/
NM_d     , 0                      , 1          , Stall/           , Stall/               , Stall/     , Fault/           , Fault/           , Fault/                 , SendData/M             , Fault/
IorS     , 1                      , 1          , SendData/        , SendData/SetOwner/M  , IssueInv/  , Fault/           ,                  , Fault/                 , Fault/                 , WriteBack/N
M        , 1                      , 1          , ClearOwner/IorS_d, SetOwner/            , IssueInv/  , ClearOwner/IorS_d,                  , SaveData/IorS_a        , Fault/                 , ClearOwner/N_d
IorS_d   , 0                      , 1          , Stall/           , Stall/               , Stall/     , Stall/           ,                  , SaveData/IorS          , Fault/                 , N_d
IorS_a   , 0                      , 1          , ClearOwner/IorS  , Stall/               , Stall/     , ClearOwner/IorS  ,                  , Fault/                 , Fault/                 , WriteBack/N_a
N_d      , 0                      , 1          , Stall/           , Stall/               , Stall/     , Fault/           ,                  , WriteBack/N            , Fault/                 , Fault/
N_a      , 0                      , 1          , ClearOwner/N     , Stall/               , Stall/     , ClearOwner/N     ,                  , Fault/                 , Fault/                 , Fault/").

Definition MESI_splitBus_snooping_csv : string := bom +:+ (crlf "EventNum , Event             ,            ,           ,           ,            ,         ,         ,           ,               ,              ,           ,                     ,              , 
0, Load              ,            ,           ,           ,            ,         ,         ,           ,               ,              ,           ,                     ,              , 
1, Store             ,            ,           ,           ,            ,         ,         ,           ,               ,              ,           ,                     ,              , 
2, Replacement       ,            ,           ,           ,            ,         ,         ,           ,               ,              ,           ,                     ,              , 
3, Own_GetS          ,            ,           ,           ,            ,         ,         ,           ,               ,              ,           ,                     ,              , 
4, Own_GetM          ,            ,           ,           ,            ,         ,         ,           ,               ,              ,           ,                     ,              , 
5, Own_PutM          ,            ,           ,           ,            ,         ,         ,           ,               ,              ,           ,                     ,              , 
6, Other_GetS        ,            ,           ,           ,            ,         ,         ,           ,               ,              ,           ,                     ,              , 
7, Other_GetM        ,            ,           ,           ,            ,         ,         ,           ,               ,              ,           ,                     ,              , 
8, Other_PutM        ,            ,           ,           ,            ,         ,         ,           ,               ,              ,           ,                     ,              , 
9, OwnData           ,            ,           ,           ,            ,         ,         ,           ,               ,              ,           ,                     ,              , 
10, Invalidation      ,            ,           ,           ,            ,         ,         ,           ,               ,              ,           ,                     ,              , 
11, OwnData_Execlusive,            ,           ,           ,            ,         ,         ,           ,               ,              ,           ,                     ,              , 
         ,                   ,            ,           ,           ,            ,         ,         ,           ,               ,              ,           ,                     ,              , 
ActionNum, Action            ,            ,           ,           ,            ,         ,         ,           ,               ,              ,           ,                     ,              , 
0, Stall             ,            ,           ,           ,            ,         ,         ,           ,               ,              ,           ,                     ,              , 
1, Hit               ,            ,           ,           ,            ,         ,         ,           ,               ,              ,           ,                     ,              , 
2, GetS              ,            ,           ,           ,            ,         ,         ,           ,               ,              ,           ,                     ,              , 
3, GetM              ,            ,           ,           ,            ,         ,         ,           ,               ,              ,           ,                     ,              , 
4, PutM              ,            ,           ,           ,            ,         ,         ,           ,               ,              ,           ,                     ,              , 
5, Data2Req          ,            ,           ,           ,            ,         ,         ,           ,               ,              ,           ,                     ,              , 
6, Data2Both         ,            ,           ,           ,            ,         ,         ,           ,               ,              ,           ,                     ,              , 
7, SaveReq           ,            ,           ,           ,            ,         ,         ,           ,               ,              ,           ,                     ,              , 
8, Fault             ,            ,           ,           ,            ,         ,         ,           ,               ,              ,           ,                     ,              , 
9, removeSavedReq    ,            ,           ,           ,            ,         ,         ,           ,               ,              ,           ,                     ,              , 
         ,                   ,            ,           ,           ,            ,         ,         ,           ,               ,              ,           ,                     ,              , 
StateNum , State             ,            ,           ,           ,            ,         ,         ,           ,               ,              ,           ,                     ,              , 
0, I                 ,            ,           ,           ,            ,         ,         ,           ,               ,              ,           ,                     ,              , 
1, IS_ad             ,            ,           ,           ,            ,         ,         ,           ,               ,              ,           ,                     ,              , 
2, IS_d              ,            ,           ,           ,            ,         ,         ,           ,               ,              ,           ,                     ,              , 
3, IS_a              ,            ,           ,           ,            ,         ,         ,           ,               ,              ,           ,                     ,              , 
4, IS_dI             ,            ,           ,           ,            ,         ,         ,           ,               ,              ,           ,                     ,              , 
5, IM_ad             ,            ,           ,           ,            ,         ,         ,           ,               ,              ,           ,                     ,              , 
6, IM_d              ,            ,           ,           ,            ,         ,         ,           ,               ,              ,           ,                     ,              , 
7, IM_a              ,            ,           ,           ,            ,         ,         ,           ,               ,              ,           ,                     ,              , 
8, IM_dI             ,            ,           ,           ,            ,         ,         ,           ,               ,              ,           ,                     ,              , 
9, IM_dS             ,            ,           ,           ,            ,         ,         ,           ,               ,              ,           ,                     ,              , 
10, IM_dSI            ,            ,           ,           ,            ,         ,         ,           ,               ,              ,           ,                     ,              , 
11, S                 ,            ,           ,           ,            ,         ,         ,           ,               ,              ,           ,                     ,              , 
12, SM_ad             ,            ,           ,           ,            ,         ,         ,           ,               ,              ,           ,                     ,              , 
13, SM_d              ,            ,           ,           ,            ,         ,         ,           ,               ,              ,           ,                     ,              , 
14, SM_a              ,            ,           ,           ,            ,         ,         ,           ,               ,              ,           ,                     ,              , 
15, SM_dI             ,            ,           ,           ,            ,         ,         ,           ,               ,              ,           ,                     ,              , 
16, SM_dS             ,            ,           ,           ,            ,         ,         ,           ,               ,              ,           ,                     ,              , 
17, SM_dSI            ,            ,           ,           ,            ,         ,         ,           ,               ,              ,           ,                     ,              , 
18, M                 ,            ,           ,           ,            ,         ,         ,           ,               ,              ,           ,                     ,              , 
19, MI_a              ,            ,           ,           ,            ,         ,         ,           ,               ,              ,           ,                     ,              , 
20, II_a              ,            ,           ,           ,            ,         ,         ,           ,               ,              ,           ,                     ,              , 
21, E                 ,            ,           ,           ,            ,         ,         ,           ,               ,              ,           ,                     ,              , 
22, IES_d             ,            ,           ,           ,            ,         ,         ,           ,               ,              ,           ,                     ,              ,
23, IES_dI            ,            ,           ,           ,            ,         ,         ,           ,               ,              ,           ,                     ,              ,
         ,                   ,            ,           ,           ,            ,         ,         ,           ,               ,              ,           ,                     ,              ,
State    , stable            , isDataValid, Load      , Store     , Replacement, Own_GetS, Own_GetM, Own_PutM  , Other_GetS    , Other_GetM   , Other_PutM, OwnData             , Invalidation , OwnData_Execlusive
I        ,1,0, GetS/IS_ad, GetM/IM_ad,            , Fault/  , Fault/  , Fault/    ,               ,              ,           , Fault/              ,              , Fault/
IS_ad    ,0,1, Stall/    , Stall/    , Stall/     , IS_d    , Fault/  , Fault/    ,               ,              ,           , IS_a                ,              , Fault/
IS_d     ,0,1, Stall/    , Stall/    , Stall/     , Fault/  , Fault/  , Fault/    , SaveReq/IES_d , SaveReq/IS_dI,           , Hit/S               , IS_dI        , Hit/E
IS_a     ,0,1, Stall/    , Stall/    , Stall/     , Hit/S   , Fault/  , Fault/    ,               ,              , Fault/    , Fault/              , IS_ad        , Fault/
IS_dI    ,0,1, Stall/    , Stall/    , Stall/     , Fault/  , Fault/  , Fault/    ,               ,              ,           , Hit/removeSavedReq/I,              , Hit/Data2Req/I
IM_ad    ,0,1, Stall/    , Stall/    , Stall/     , Fault/  , IM_d    , Fault/    ,               ,              ,           , IM_a                ,              , Fault/
IM_d     ,0,1, Stall/    , Stall/    , Stall/     , Fault/  , Fault/  , Fault/    , SaveReq/IM_dS , SaveReq/IM_dI,           , Hit/M               , SaveReq/IM_dI, Fault/
IM_a     ,0,1, Stall/    , Stall/    , Stall/     , Fault/  , Hit/M   , Fault/    ,               ,              ,           , Fault/              , IM_ad        , Fault/
IM_dI    ,0,1, Stall/    , Stall/    , Stall/     , Fault/  , Fault/  , Fault/    ,               ,              ,           , Hit/Data2Req/I      ,              , Fault/
IM_dS    ,0,1, Stall/    , Stall/    , Stall/     , Fault/  , Fault/  , Fault/    ,               , IM_dSI       ,           , Hit/Data2Both/S     , IM_dSI       , Fault/
IM_dSI   ,0,1, Stall/    , Stall/    , Stall/     , Fault/  , Fault/  , Fault/    ,               ,              ,           , Hit/Data2Both/I     ,              , Fault/
S        ,1,1, Hit/      , GetM/SM_ad, I          , Fault/  , Fault/  , Fault/    ,               , I            ,           , Fault/              , I            , Fault/
SM_ad    ,0,1, Hit/      , Stall/    , Stall/     , Fault/  , SM_d    , Fault/    ,               , IM_ad        ,           , SM_a                , IM_ad        , Fault/
SM_d     ,0,1, Hit/      , Stall/    , Stall/     , Fault/  , Fault/  , Fault/    , SaveReq/SM_dS , SaveReq/SM_dI,           , Hit/M               , SaveReq/IM_dI, Fault/
SM_a     ,0,1, Hit/      , Stall/    , Stall/     , Fault/  , Hit/M   , Fault/    ,               , IM_a         , Fault/    , Fault/              , IM_a         , Fault/
SM_dI    ,0,1, Hit/      , Stall/    , Stall/     , Fault/  , Fault/  , Fault/    ,               ,              ,           , Hit/Data2Req/I      ,              , Fault/
SM_dS    ,0,1, Hit/      , Stall/    , Stall/     , Fault/  , Fault/  , Fault/    ,               , SM_dSI       ,           , Hit/Data2Both/S     , SM_dSI       , Fault/
SM_dSI   ,0,1, Hit/      , Stall/    , Stall/     , Fault/  , Fault/  , Fault/    ,               ,              ,           , Hit/Data2Both/I     ,              , Fault/
M        ,1,1, Hit/      , Hit/      , PutM/MI_a  , Fault/  , Fault/  , Fault/    , Data2Both/S   , Data2Req/I   ,           , Fault/              , Data2Req/I   , Fault/
MI_a     ,0,1, Hit/      , Hit/      , Stall/     , Fault/  , Fault/  , Data2Req/I, Data2Both/II_a, Data2Req/II_a,           , Fault/              , Data2Req/II_a, Fault/
II_a     ,0,1, Stall/    , Stall/    , Stall/     , Fault/  , Fault/  , I         ,               ,              ,           , Fault/              ,              , Fault/
E        ,1,1, Hit/      , Hit/M     , PutM/MI_a  , Fault/  , Fault/  , Fault/    , Data2Both/S   , Data2Req/I   ,           , Fault/              , Data2Req/I   , Fault/
IES_d    ,0,1, Stall/    , Stall/    , Stall/     , Fault/  , Fault/  , Fault/    ,               , IES_dI       ,           , Hit/removeSavedReq/S, IS_dI        , Hit/Data2Both/S
IES_dI   ,0,1, Stall/    , Stall/    , Stall/     , Fault/  , Fault/  , Fault/    ,               ,              ,           , Hit/removeSavedReq/S, IS_dI        , Hit/Data2Both/I
").

Definition MESI_LLC_csv : string := bom +:+ ("EventNum,Event,,,,,,,,,
0,GetS,,,,,,,,,
1,GetM,,,,,,,,,
2,Replacement,,,,,,,,,
3,PutM_fromOwner,,,,,,,,,
4,PutM_fromNonOwner,,,,,,,,,
5,Data_fromLowerInterface,,,,,,,,,
6,Data_fromUpperInterface,,,,,,,,,
7,Own_Invalidation,,,,,,,,,
,,,,,,,,,,
ActionNum,Action,,,,,,,,,
0,Stall,,,,,,,,,
1,GetData,,,,,,,,,
2,SendData,,,,,,,,,
3,SaveData,,,,,,,,,
4,SetOwner,,,,,,,,,
5,ClearOwner,,,,,,,,,
6,IssueInv,,,,,,,,,
7,WriteBack,,,,,,,,,
8,Fault,,,,,,,,,
9,SendExeclusiveData,,,,,,,,,
,,,,,,,,,,
StateNum,State,,,,,,,,,
0,N,,,,,,,,,
1,NE_d,,,,,,,,,
2,NM_d,,,,,,,,,
3,I,,,,,,,,,
4,S,,,,,,,,,
5,EorM,,,,,,,,,
6,IorS_a,,,,,,,,,
7,MN_d,,,,,,,,,
8,S_d,,,,,,,,,
9,I_d,,,,,,,,,
10,N_a,,,,,,,,,
,,,,,,,,,,
State,stable,isDataValid,GetS,GetM,Replacement,PutM_fromOwner,PutM_fromNonOwner,Data_fromLowerInterface,Data_fromUpperInterface,Own_Invalidation
N,1,0,GetData/SetOwner/NE_d,GetData/SetOwner/NM_d,,Fault/,,Fault/,Fault/,SaveData/N
NE_d,0,1,Stall/,Stall/,Stall/,Fault/,Fault/,Fault/,SendExeclusiveData/EorM,Fault/
NM_d,0,1,Stall/,Stall/,Stall/,Fault/,Fault/,Fault/,SendData/EorM,Fault/
I,1,1,SendExeclusiveData/SetOwner/EorM,SendData/SetOwner/EorM,IssueInv/,Fault/,,Fault/,Fault/,WriteBack/N
S,1,1,SendData/,SendData/SetOwner/EorM,IssueInv/,Fault/,,Fault/,Fault/,WriteBack/N
EorM,1,1,ClearOwner/S_d,SetOwner/,IssueInv/,ClearOwner/I_d,,SaveData/IorS_a,Fault/,ClearOwner/MN_d
IorS_a,0,1,ClearOwner/S,Stall/,Stall/,ClearOwner/I,,Fault/,Fault/,WriteBack/N_a
MN_d,0,1,Stall/,Stall/,Stall/,Fault/,,WriteBack/N,Fault/,SaveData/MN_d
S_d,0,1,Stall/,Stall/,Stall/,Fault/,,SaveData/S,Fault/,MN_d
I_d,0,1,Stall/,Stall/,Stall/,Fault/,,SaveData/I,Fault/,MN_d
N_a,0,1,ClearOwner/N,Stall/,Stall/,ClearOwner/N,,Fault/,Fault/,Fault/
").

Definition MSI_directory_csv : string := bom +:+ (crlf "EventNum,Event,,,,,,,,,,,,,
0,Load,,,,,,,,,,,,,
1,Store,,,,,,,,,,,,,
2,Replacement,,,,,,,,,,,,,
3,Fwd_GetS,,,,,,,,,,,,,
4,Fwd_GetM,,,,,,,,,,,,,
5,Inv,,,,,,,,,,,,,
6,Put_Ack,,,,,,,,,,,,,
7,Data_zeroAck,,,,,,,,,,,,,
8,Data_nonZeroAck,,,,,,,,,,,,,
9,DataFromOwner,,,,,,,,,,,,,
10,InvAck,,,,,,,,,,,,,
11,lastInvAck,,,,,,,,,,,,,
,,,,,,,,,,,,,,
ActionNum,Action,,,,,,,,,,,,,
0,Stall,,,,,,,,,,,,,
1,Hit,,,,,,,,,,,,,
2,GetS,,,,,,,,,,,,,
3,GetM,,,,,,,,,,,,,
4,PutS,,,,,,,,,,,,,
5,PutM_Data,,,,,,,,,,,,,
6,Data2Both,,,,,,,,,,,,,
7,Data2Req,,,,,,,,,,,,,
8,InvAck2Req,,,,,,,,,,,,,
9,InvAck_Data,,,,,,,,,,,,,
10,Ack_dec,,,,,,,,,,,,,
11,AckNum_set,,,,,,,,,,,,,
12,SaveReq,,,,,,,,,,,,,
13,Fault,,,,,,,,,,,,,
,,,,,,,,,,,,,,
StateNum,State,,,,,,,,,,,,,
0,I,,,,,,,,,,,,,
1,IS_d,,,,,,,,,,,,,
2,IS_dI,,,,,,,,,,,,,
3,IM_ad,,,,,,,,,,,,,
4,IM_a,,,,,,,,,,,,,
5,IM_aS,,,,,,,,,,,,,
6,IM_aSI,,,,,,,,,,,,,
7,IM_aI,,,,,,,,,,,,,
8,S,,,,,,,,,,,,,
9,SM_ad,,,,,,,,,,,,,
10,SM_a,,,,,,,,,,,,,
11,M,,,,,,,,,,,,,
12,MI_a,,,,,,,,,,,,,
13,SI_a,,,,,,,,,,,,,
14,II_a,,,,,,,,,,,,,
,,,,,,,,,,,,,,
State,stable,isDataValid,Load,Store,Replacement,Fwd_GetS,Fwd_GetM,Inv,Put_Ack,Data_zeroAck,Data_nonZeroAck,DataFromOwner,InvAck,lastInvAck
I,1,0,GetS/IS_d,GetM/IM_ad,,Fault/,Fault/,Fault/,Fault/,Fault/,Fault/,Fault/,Fault/,Fault/
IS_d,0,1,Stall/,Stall/,Stall/,Fault/,Fault/,InvAck2Req/IS_dI,Fault/,Hit/S,Fault/,Hit/S,Fault/,Fault/
IS_dI,0,1,Stall/,Stall/,Stall/,Fault/,Fault/,Fault/,Fault/,Hit/I,Fault/,Hit/I,Fault/,Fault/
IM_ad,0,1,Stall/,Stall/,Stall/,Stall/,Stall/,Stall/,Fault/,Hit/M,AckNum_set/IM_a,Hit/M,Ack_dec/,Fault/
IM_a,0,1,Stall/,Stall/,Stall/,SaveReq/IM_aS,SaveReq/IM_aI,Fault/,Fault/,Fault/,Fault/,Fault/,Ack_dec/,Hit/Ack_dec/M
IM_aS,0,1,Stall/,Stall/,Stall/,Fault/,Fault/,InvAck2Req/IM_aSI,Fault/,Fault/,Fault/,Fault/,Ack_dec/,Hit/Ack_dec/Data2Both/S
IM_aSI,0,1,Stall/,Stall/,Stall/,Fault/,Fault/,Fault/,Fault/,Fault/,Fault/,Fault/,Ack_dec/,Hit/Data2Both/Ack_dec/I
IM_aI,0,1,Stall/,Stall/,Stall/,Fault/,Fault/,Fault/,Fault/,Fault/,Fault/,Fault/,Ack_dec/,Hit/Data2Req/Ack_dec/I
S,1,1,Hit/,GetM/SM_ad,PutS/SI_a,Fault/,Fault/,InvAck2Req/I,Fault/,Fault/,Fault/,Fault/,Fault/,Fault/
SM_ad,0,1,Hit/,Stall/,Stall/,Stall/,Stall/,InvAck2Req/IM_ad,Fault/,Hit/M,AckNum_set/SM_a,Fault/,Ack_dec/,Fault/
SM_a,0,1,Hit/,Stall/,Stall/,Stall/,Stall/,Fault/,Fault/,Fault/,Fault/,Fault/,Ack_dec/,Hit/Ack_dec/M
M,1,1,Hit/,Hit/,PutM_Data/MI_a,Data2Both/S,Data2Req/I,InvAck_Data/I,Fault/,Fault/,Fault/,Fault/,Fault/,Fault/
MI_a,0,1,Stall/,Stall/,Stall/,Data2Both/SI_a,Data2Req/II_a,,I,Fault/,Fault/,Fault/,Fault/,Fault/
SI_a,0,1,Stall/,Stall/,Stall/,Fault/,Fault/,InvAck2Req/II_a,I,Fault/,Fault/,Fault/,Fault/,Fault/
II_a,0,1,Stall/,Stall/,Stall/,Fault/,Fault/,Fault/,I,Fault/,Fault/,Fault/,Fault/,Fault/").

Definition MSI_LLC_directory_csv : string := bom +:+ (crlf "EventNum,Event,,,,,,,,,,,,
0,GetS,,,,,,,,,,,,
1,GetM,,,,,,,,,,,,
2,Replacement,,,,,,,,,,,,
3,PutS,,,,,,,,,,,,
4,last_PutS,,,,,,,,,,,,
5,InvAck,,,,,,,,,,,,
6,last_InvAck,,,,,,,,,,,,
7,PutM_Data_fromOwner,,,,,,,,,,,,
8,PutM_Data_fromNonOwner,,,,,,,,,,,,
9,Data_fromLowerInterface,,,,,,,,,,,,
10,Data_fromUpperInterface,,,,,,,,,,,,
,,,,,,,,,,,,,
ActionNum,Action,,,,,,,,,,,,
0,Stall,,,,,,,,,,,,
1,GetData,,,,,,,,,,,,
2,SendData,,,,,,,,,,,,
3,SaveData,,,,,,,,,,,,
4,SetOwner,,,,,,,,,,,,
5,ClearOwner,,,,,,,,,,,,
6,SendInv,,,,,,,,,,,,
7,WriteBack,,,,,,,,,,,,
8,FwdGetS,,,,,,,,,,,,
9,FwdGetM,,,,,,,,,,,,
10,PutAck,,,,,,,,,,,,
11,IncSharers,,,,,,,,,,,,
12,DecSharers,,,,,,,,,,,,
13,Fault,,,,,,,,,,,,
,,,,,,,,,,,,,
StateNum,State,,,,,,,,,,,,
0,N,,,,,,,,,,,,
1,NS_d,,,,,,,,,,,,
2,NM_d,,,,,,,,,,,,
3,I,,,,,,,,,,,,
4,S,,,,,,,,,,,,
5,M,,,,,,,,,,,,
6,S_d,,,,,,,,,,,,
7,N_d,,,,,,,,,,,,
8,N_a,,,,,,,,,,,,
,,,,,,,,,,,,,
State,stable,isDataValid,GetS,GetM,Replacement,PutS,last_PutS,InvAck,last_InvAck,PutM_Data_fromOwner,PutM_Data_fromNonOwner,Data_fromLowerInterface,Data_fromUpperInterface
N,1,0,GetData/IncSharers/NS_d,SetOwner/GetData/NM_d,Fault/,Fault/,Fault/,Fault/,Fault/,Fault/,PutAck/,Fault/,Fault/
NS_d,0,1,Stall/,Stall/,Stall/,Fault/,Fault/,Fault/,Fault/,Fault/,PutAck/,Fault/,SendData/S
NM_d,0,1,Stall/,Stall/,Stall/,Fault/,Fault/,Fault/,Fault/,Fault/,PutAck/,Fault/,SendData/M
I,1,1,SendData/IncSharers/S,SetOwner/SendData/M,WriteBack/N,PutAck/,PutAck/,Fault/,PutAck/,Fault/,PutAck/,Fault/,Fault/
S,1,1,SendData/IncSharers/,SetOwner/SendData/SendInv/M,SendInv/WriteBack/N_a,PutAck/DecSharers/,PutAck/DecSharers/I,Fault/,Fault/,Fault/,PutAck/DecSharers/,Fault/,Fault/
M,1,1,ClearOwner/FwdGetS/IncSharers/S_d,SetOwner/FwdGetM/,SendInv/N_d,PutAck/,PutAck/,DecSharers/,DecSharers/,ClearOwner/DecSharers/PutAck/SaveData/I,PutAck/,Fault/,Fault/
S_d,0,1,Stall/,Stall/,Stall/,Stall/,Stall/,Fault/,Fault/,Fault/,PutAck/DecSharers/,SaveData/S,Fault/
N_d,0,1,Stall/,Stall/,Stall/,Fault/,Fault/,Fault/,ClearOwner/DecSharers/WriteBack/N,ClearOwner/DecSharers/PutAck/WriteBack/N,PutAck/,DecSharers/WriteBack/N,Fault/
N_a,0,1,Stall/,Stall/,Stall/,PutAck/,PutAck/,DecSharers/,DecSharers/N,Fault/,PutAck/,Fault/,Fault/").

Definition MESI_directory_csv : string := bom +:+ (crlf "EventNum,Event,,,,,,,,,,,,,,
0,Load,,,,,,,,,,,,,,
1,Store,,,,,,,,,,,,,,
2,Replacement,,,,,,,,,,,,,,
3,Fwd_GetS,,,,,,,,,,,,,,
4,Fwd_GetM,,,,,,,,,,,,,,
5,Inv,,,,,,,,,,,,,,
6,Put_Ack,,,,,,,,,,,,,,
7,Data_zeroAck,,,,,,,,,,,,,,
8,Data_nonZeroAck,,,,,,,,,,,,,,
9,DataFromOwner,,,,,,,,,,,,,,
10,InvAck,,,,,,,,,,,,,,
11,lastInvAck,,,,,,,,,,,,,,
12,Data_execlusive,,,,,,,,,,,,,,
,,,,,,,,,,,,,,,
ActionNum,Action,,,,,,,,,,,,,,
0,Stall,,,,,,,,,,,,,,
1,Hit,,,,,,,,,,,,,,
2,GetS,,,,,,,,,,,,,,
3,GetM,,,,,,,,,,,,,,
4,PutS,,,,,,,,,,,,,,
5,PutM_Data,,,,,,,,,,,,,,
6,Data2Both,,,,,,,,,,,,,,
7,Data2Req,,,,,,,,,,,,,,
8,InvAck2Req,,,,,,,,,,,,,,
9,InvAck_Data,,,,,,,,,,,,,,
10,Ack_dec,,,,,,,,,,,,,,
11,AckNum_set,,,,,,,,,,,,,,
12,SaveReq,,,,,,,,,,,,,,
13,Fault,,,,,,,,,,,,,,
14,PutE,,,,,,,,,,,,,,
,,,,,,,,,,,,,,,
StateNum,State,,,,,,,,,,,,,,
0,I,,,,,,,,,,,,,,
1,IS_d,,,,,,,,,,,,,,
2,IS_dI,,,,,,,,,,,,,,
3,IM_ad,,,,,,,,,,,,,,
4,IM_a,,,,,,,,,,,,,,
5,IM_aS,,,,,,,,,,,,,,
6,IM_aSI,,,,,,,,,,,,,,
7,IM_aI,,,,,,,,,,,,,,
8,S,,,,,,,,,,,,,,
9,SM_ad,,,,,,,,,,,,,,
10,SM_a,,,,,,,,,,,,,,
11,SM_aS,,,,,,,,,,,,,,
12,SM_aSI,,,,,,,,,,,,,,
13,SM_aI,,,,,,,,,,,,,,
14,M,,,,,,,,,,,,,,
15,E,,,,,,,,,,,,,,
16,MI_a,,,,,,,,,,,,,,
17,EI_a,,,,,,,,,,,,,,
18,SI_a,,,,,,,,,,,,,,
19,II_a,,,,,,,,,,,,,,
,,,,,,,,,,,,,,,
State,stable,isDataValid,Load,Store,Replacement,Fwd_GetS,Fwd_GetM,Inv,Put_Ack,Data_zeroAck,Data_nonZeroAck,DataFromOwner,InvAck,lastInvAck,Data_execlusive
I,1,0,GetS/IS_d,GetM/IM_ad,,Fault/,Fault/,Fault/,Fault/,Fault/,Fault/,Fault/,Fault/,Fault/,Fault/
IS_d,0,1,Stall/,Stall/,Stall/,Stall/,Stall/,InvAck2Req/IS_dI,Fault/,Hit/S,Fault/,Hit/S,Fault/,Fault/,Hit/E
IS_dI,0,1,Stall/,Stall/,Stall/,Stall/,Stall/,Fault/,Fault/,Hit/I,Fault/,Hit/I,Fault/,Fault/,Hit/Data2Req/I
IM_ad,0,1,Stall/,Stall/,Stall/,Stall/,Stall/,Stall/,Fault/,Hit/M,AckNum_set/IM_a,Hit/M,Ack_dec/,Fault/,Fault/
IM_a,0,1,Stall/,Stall/,Stall/,SaveReq/IM_aS,SaveReq/IM_aI,Fault/,Fault/,Fault/,Fault/,Fault/,Ack_dec/,Hit/Ack_dec/M,Fault/
IM_aS,0,1,Stall/,Stall/,Stall/,Fault/,Fault/,InvAck2Req/IM_aSI,Fault/,Fault/,Fault/,Fault/,Ack_dec/,Hit/Ack_dec/Data2Both/S,Fault/
IM_aSI,0,1,Stall/,Stall/,Stall/,Fault/,Fault/,Fault/,Fault/,Fault/,Fault/,Fault/,Ack_dec/,Hit/Data2Both/Ack_dec/I,Fault/
IM_aI,0,1,Stall/,Stall/,Stall/,Fault/,Fault/,Fault/,Fault/,Fault/,Fault/,Fault/,Ack_dec/,Hit/Data2Req/Ack_dec/I,Fault/
S,1,1,Hit/,GetM/SM_ad,PutS/SI_a,Fault/,Fault/,InvAck2Req/I,Fault/,Fault/,Fault/,Fault/,Fault/,Fault/,Fault/
SM_ad,0,1,Hit/,Stall/,Stall/,Stall/,Stall/,InvAck2Req/IM_ad,Fault/,Hit/M,AckNum_set/SM_a,Fault/,Ack_dec/,Fault/,Fault/
SM_a,0,1,Hit/,Stall/,Stall/,SaveReq/SM_aS,SaveReq/SM_aI,Fault/,Fault/,Fault/,Fault/,Fault/,Ack_dec/,Hit/Ack_dec/M,Fault/
SM_aS,0,1,Stall/,Stall/,Stall/,Fault/,Fault/,InvAck2Req/SM_aSI,Fault/,Fault/,Fault/,Fault/,Ack_dec/,Hit/Ack_dec/Data2Both/S,Fault/
SM_aSI,0,1,Stall/,Stall/,Stall/,Fault/,Fault/,Fault/,Fault/,Fault/,Fault/,Fault/,Ack_dec/,Hit/Data2Both/Ack_dec/I,Fault/
SM_aI,0,1,Stall/,Stall/,Stall/,Fault/,Fault/,Fault/,Fault/,Fault/,Fault/,Fault/,Ack_dec/,Hit/Data2Req/Ack_dec/I,Fault/
M,1,1,Hit/,Hit/,PutM_Data/MI_a,Data2Both/S,Data2Req/I,InvAck_Data/I,Fault/,Fault/,Fault/,Fault/,Fault/,Fault/,Fault/
E,1,1,Hit/,Hit/M,PutE/EI_a,Data2Both/S,Data2Req/I,InvAck_Data/I,Fault/,Fault/,Fault/,Fault/,Fault/,Fault/,Fault/
MI_a,0,1,Stall/,Stall/,Stall/,Data2Both/SI_a,Data2Req/II_a,,I,Fault/,Fault/,Fault/,Fault/,Fault/,Fault/
EI_a,0,1,Stall/,Stall/,Stall/,Data2Both/SI_a,Data2Req/II_a,,I,Fault/,Fault/,Fault/,Fault/,Fault/,Fault/
SI_a,0,1,Stall/,Stall/,Stall/,Fault/,Fault/,InvAck2Req/II_a,I,Fault/,Fault/,Fault/,Fault/,Fault/,Fault/
II_a,0,1,Stall/,Stall/,Stall/,Fault/,Fault/,Fault/,I,Fault/,Fault/,Fault/,Fault/,Fault/,Fault/").

Definition MESI_LLC_directory_csv : string := bom +:+ (crlf "EventNum,Event,,,,,,,,,,,,,,
0,GetS,,,,,,,,,,,,,,
1,GetM,,,,,,,,,,,,,,
2,Replacement,,,,,,,,,,,,,,
3,PutS,,,,,,,,,,,,,,
4,last_PutS,,,,,,,,,,,,,,
5,InvAck,,,,,,,,,,,,,,
6,last_InvAck,,,,,,,,,,,,,,
7,PutM_Data_fromOwner,,,,,,,,,,,,,,
8,PutM_Data_fromNonOwner,,,,,,,,,,,,,,
9,Data_fromLowerInterface,,,,,,,,,,,,,,
10,Data_fromUpperInterface,,,,,,,,,,,,,,
11,PutE_fromOwner,,,,,,,,,,,,,,
12,PutE_fromNonOwner,,,,,,,,,,,,,,
,,,,,,,,,,,,,,,
ActionNum,Action,,,,,,,,,,,,,,
0,Stall,,,,,,,,,,,,,,
1,GetData,,,,,,,,,,,,,,
2,SendData,,,,,,,,,,,,,,
3,SaveData,,,,,,,,,,,,,,
4,SetOwner,,,,,,,,,,,,,,
5,ClearOwner,,,,,,,,,,,,,,
6,SendInv,,,,,,,,,,,,,,
7,WriteBack,,,,,,,,,,,,,,
8,FwdGetS,,,,,,,,,,,,,,
9,FwdGetM,,,,,,,,,,,,,,
10,PutAck,,,,,,,,,,,,,,
11,IncSharers,,,,,,,,,,,,,,
12,DecSharers,,,,,,,,,,,,,,
13,Fault,,,,,,,,,,,,,,
14,SendEData,,,,,,,,,,,,,,
,,,,,,,,,,,,,,,
StateNum,State,,,,,,,,,,,,,,
0,N,,,,,,,,,,,,,,
1,NE_d,,,,,,,,,,,,,,
2,NM_d,,,,,,,,,,,,,,
3,I,,,,,,,,,,,,,,
4,S,,,,,,,,,,,,,,
5,E,,,,,,,,,,,,,,
6,M,,,,,,,,,,,,,,
7,S_d,,,,,,,,,,,,,,
8,N_d,,,,,,,,,,,,,,
9,N_a,,,,,,,,,,,,,,
,,,,,,,,,,,,,,,
State,stable,isDataValid,GetS,GetM,Replacement,PutS,last_PutS,InvAck,last_InvAck,PutM_Data_fromOwner,PutM_Data_fromNonOwner,Data_fromLowerInterface,Data_fromUpperInterface,PutE_fromOwner,PutE_fromNonOwner
N,1,0,SetOwner/GetData/NE_d,SetOwner/GetData/NM_d,Fault/,Fault/,Fault/,Fault/,Fault/,Fault/,Fault/,Fault/,Fault/,Fault/,Fault/
NE_d,0,1,Stall/,Stall/,Stall/,Fault/,Fault/,Fault/,Fault/,Fault/,Fault/,Fault/,SendEData/E,Fault/,Fault/
NM_d,0,1,Stall/,Stall/,Stall/,Fault/,Fault/,Fault/,Fault/,Fault/,Fault/,Fault/,SendData/M,Fault/,Fault/
I,1,1,SetOwner/SendEData/E,SetOwner/SendData/M,WriteBack/N,PutAck/,PutAck/,Fault/,,Fault/,PutAck/,Fault/,Fault/,Fault/,PutAck/
S,1,1,SendData/IncSharers/,SetOwner/SendData/SendInv/M,SendInv/WriteBack/N_a,PutAck/DecSharers/,PutAck/DecSharers/I,Fault/,Fault/,Fault/,PutAck/DecSharers/,Fault/,Fault/,Fault/,PutAck/DecSharers/
E,1,1,ClearOwner/FwdGetS/IncSharers/S_d,SetOwner/FwdGetM/,SendInv/N_d,PutAck/,PutAck/,DecSharers/,DecSharers/,ClearOwner/DecSharers/PutAck/SaveData/I,PutAck/,Fault/,Fault/,ClearOwner/DecSharers/PutAck/I,PutAck/
M,1,1,ClearOwner/FwdGetS/IncSharers/S_d,SetOwner/FwdGetM/,SendInv/N_d,PutAck/,PutAck/,DecSharers/,DecSharers/,ClearOwner/DecSharers/PutAck/SaveData/I,PutAck/,Fault/,Fault/,Fault/,PutAck/
S_d,0,1,Stall/,Stall/,Stall/,Stall/,Stall/,Fault/,Fault/,Fault/,PutAck/DecSharers/,SaveData/S,Fault/,Fault/,PutAck/DecSharers/
N_d,0,1,Stall/,Stall/,Stall/,Fault/,Fault/,Fault/,,ClearOwner/DecSharers/PutAck/WriteBack/N,PutAck/,DecSharers/WriteBack/N,Fault/,ClearOwner/DecSharers/PutAck/N,PutAck/
N_a,0,1,Stall/,Stall/,Stall/,PutAck/,PutAck/,DecSharers/,DecSharers/N,Fault/,Fault/,Fault/,Fault/,Fault/,Fault/").

Definition PMSI_csv : string := bom +:+ (crlf "EventNum,Event,,,,,,,,,,,
0,Load,,,,,,,,,,,
1,Store,,,,,,,,,,,
2,Replacement,,,,,,,,,,,
3,Own_GetS,,,,,,,,,,,
4,Own_GetM,,,,,,,,,,,
5,Own_PutM,,,,,,,,,,,
6,Other_GetS,,,,,,,,,,,
7,Other_GetM,,,,,,,,,,,
8,Other_PutM,,,,,,,,,,,
9,Own_Data,,,,,,,,,,,
,,,,,,,,,,,,
ActionNum,Action,,,,,,,,,,,
0,Stall,,,,,,,,,,,
1,Hit,,,,,,,,,,,
2,GetS,,,,,,,,,,,
3,GetM,,,,,,,,,,,
4,PutM,,,,,,,,,,,
5,SendData,,,,,,,,,,,
8,Fault,,,,,,,,,,,
9,PutM_nonDem,,,,,,,,,,,
,,,,,,,,,,,,
StateNum,State,,,,,,,,,,,
0,I,,,,,,,,,,,
1,IS_ad,,,,,,,,,,,
2,IS_a,,,,,,,,,,,
3,S,,,,,,,,,,,
4,IM_ad,,,,,,,,,,,
5,IM_a,,,,,,,,,,,
6,M,,,,,,,,,,,
7,IS_d,,,,,,,,,,,
8,IM_d,,,,,,,,,,,
9,SM_ad,,,,,,,,,,,
10,SM_d,,,,,,,,,,,
11,MI_wb,,,,,,,,,,,
12,MS_wb,,,,,,,,,,,
13,IM_dI,,,,,,,,,,,
14,IS_dI,,,,,,,,,,,
15,IM_dS,,,,,,,,,,,
,,,,,,,,,,,,
State,stable,isDataValid,Load,Store,Replacement,Own_GetS,Own_GetM,Own_PutM,Other_GetS,Other_GetM,Other_PutM,Own_Data
I,1,0,GetS/IS_ad,GetM/IM_ad,,,,Fault/,,,,Fault/
IS_ad,0,1,Stall/,Stall/,Stall/,IS_d,Fault/,Fault/,,,,IS_a
IS_a,0,1,Stall/,Stall/,Stall/,Hit/S,Fault/,Fault/,,,Fault/,Fault/
S,1,1,Hit/,GetM/SM_ad,Stall/,,,Fault/,,I,Fault/,
IM_ad,0,1,Stall/,Stall/,Stall/,Fault/,IM_d,Fault/,,,,IM_a
IM_a,0,1,Stall/,Stall/,Stall/,Fault/,Hit/M,Fault/,,,,Fault/
M,1,1,Hit/,Hit/,PutM/MI_wb,,,Fault/,PutM_nonDem/MS_wb,PutM_nonDem/MI_wb,Fault/,Fault/
IS_d,0,1,Stall/,Stall/,Stall/,,,Fault/,,IS_dI,,Hit/S
IM_d,0,1,Stall/,Stall/,Stall/,,,Fault/,IM_dS,IM_dI,,Hit/M
SM_ad,0,1,Hit/,Stall/,Stall/,Fault/,SM_d,Fault/,,IM_ad,,
SM_d,0,1,Hit/,Stall/,Stall/,Fault/,Fault/,Fault/,IM_dS,IM_dI,Fault/,Hit/M
MI_wb,0,1,Hit/,Hit/,Stall/,,,SendData/I,,,Fault/,Fault/
MS_wb,0,1,Hit/,Hit/,MI_wb,,,SendData/S,,MI_wb,Fault/,Fault/
IM_dI,0,1,Stall/,Stall/,Stall/,,,Fault/,,,,Hit/PutM_nonDem/MI_wb
IS_dI,0,1,Stall/,Stall/,Stall/,,,Fault/,,,,Hit/I
IM_dS,0,1,Stall/,Stall/,Stall/,,,Fault/,,IM_dI,,Hit/PutM_nonDem/MS_wb").

Definition PMSI_LLC_csv : string := bom +:+ (crlf "EventNum,Event,,,,,,,,
0,GetS,,,,,,,,
1,GetM,,,,,,,,
2,Replacement,,,,,,,,
3,PutM_fromOwner,,,,,,,,
4,PutM_fromNonOwner,,,,,,,,
5,Data_fromLowerInterface,,,,,,,,
6,Data_fromUpperInterface,,,,,,,,
,,,,,,,,,
ActionNum,Action,,,,,,,,
0,Stall,,,,,,,,
1,GetData,,,,,,,,
2,SendData,,,,,,,,
3,SaveData,,,,,,,,
4,SetOwner,,,,,,,,
5,ClearOwner,,,,,,,,
6,IssueInv,,,,,,,,
7,WriteBack,,,,,,,,
8,Fault,,,,,,,,
9,waitData,,,,,,,,
,,,,,,,,,
StateNum,State,,,,,,,,
0,N,,,,,,,,
1,NIorS_d,,,,,,,,
2,NM_d,,,,,,,,
3,IorS,,,,,,,,
4,M,,,,,,,,
5,M_dM,,,,,,,,
6,M_dIorS,,,,,,,,
7,IorS_d,,,,,,,,
8,IorS_a,,,,,,,,
9,MN_d,,,,,,,,
,,,,,,,,,
State,stable,isDataValid,GetS,GetM,Replacement,PutM_fromOwner,PutM_fromNonOwner,Data_fromLowerInterface,Data_fromUpperInterface
N,1,0,GetData/NIorS_d,GetData/SetOwner/NM_d,,Fault/,Fault/,Fault/,Fault/
NIorS_d,0,1,Stall/,Stall/,Stall/,Fault/,Fault/,Fault/,SendData/IorS
NM_d,0,1,Stall/,Stall/,Stall/,Fault/,Fault/,Fault/,SendData/M
IorS,1,1,SendData/,SendData/SetOwner/M,IssueInv/WriteBack/N,Fault/,,Fault/,Fault/
M,1,1,ClearOwner/waitData/M_dIorS,SetOwner/waitData/M_dM,IssueInv/ClearOwner/MN_d,ClearOwner/IorS_d,,SaveData/IorS_a,Fault/
M_dM,0,1,Stall/,Stall/,Stall/,Fault/,,SendData/M,Fault/
M_dIorS,0,1,Stall/,Stall/,Stall/,Fault/,,SendData/IorS,Fault/
IorS_d,0,1,Stall/,Stall/,Stall/,Stall/,,SaveData/IorS,Fault/
IorS_a,0,1,ClearOwner/IorS,,Stall/,ClearOwner/IorS,,Fault/,Fault/
MN_d,0,1,Stall/,Stall/,Stall/,Fault/,,WriteBack/N,Fault/").

Definition PMESI_csv : string := bom +:+ (crlf "EventNum,Event,,,,,,,,,,,,
0,Load,,,,,,,,,,,,
1,Store,,,,,,,,,,,,
2,Replacement,,,,,,,,,,,,
3,Own_GetS,,,,,,,,,,,,
4,Own_GetM,,,,,,,,,,,,
5,Own_PutM,,,,,,,,,,,,
6,Other_GetS,,,,,,,,,,,,
7,Other_GetM,,,,,,,,,,,,
8,Other_PutM,,,,,,,,,,,,
9,Own_Data,,,,,,,,,,,,
10,OwnData_Execlusive,,,,,,,,,,,,
,,,,,,,,,,,,,
ActionNum,Action,,,,,,,,,,,,
0,Stall,,,,,,,,,,,,
1,Hit,,,,,,,,,,,,
2,GetS,,,,,,,,,,,,
3,GetM,,,,,,,,,,,,
4,PutM,,,,,,,,,,,,
5,SendData,,,,,,,,,,,,
8,Fault,,,,,,,,,,,,
9,PutM_nonDem,,,,,,,,,,,,
,,,,,,,,,,,,,
StateNum,State,,,,,,,,,,,,
0,I,,,,,,,,,,,,
1,IS_ad,,,,,,,,,,,,
2,IS_a,,,,,,,,,,,,
3,S,,,,,,,,,,,,
4,IM_ad,,,,,,,,,,,,
5,IM_a,,,,,,,,,,,,
6,M,,,,,,,,,,,,
7,IS_d,,,,,,,,,,,,
8,IM_d,,,,,,,,,,,,
9,SM_ad,,,,,,,,,,,,
10,SM_d,,,,,,,,,,,,
11,MI_wb,,,,,,,,,,,,
12,MS_wb,,,,,,,,,,,,
13,IM_dI,,,,,,,,,,,,
14,IS_dI,,,,,,,,,,,,
15,IM_dS,,,,,,,,,,,,
16,E,,,,,,,,,,,,
,,,,,,,,,,,,,
State,stable,isDataValid,Load,Store,Replacement,Own_GetS,Own_GetM,Own_PutM,Other_GetS,Other_GetM,Other_PutM,Own_Data,OwnData_Execlusive
I,1,0,GetS/IS_ad,GetM/IM_ad,,Fault/,Fault/,Fault/,,,,Fault/,Fault/
IS_ad,0,1,Stall/,Stall/,Stall/,IS_d,Fault/,Fault/,,,,IS_a,Fault/
IS_a,0,1,Stall/,Stall/,Stall/,Hit/S,Fault/,Fault/,,,Fault/,Fault/,Fault/
S,1,1,Hit/,GetM/SM_ad,Stall/,Fault/,Fault/,Fault/,,I,Fault/,,Fault/
IM_ad,0,1,Stall/,Stall/,Stall/,Fault/,IM_d,Fault/,,,,IM_a,Fault/
IM_a,0,1,Stall/,Stall/,Stall/,Fault/,Hit/M,Fault/,,,,Fault/,Fault/
M,1,1,Hit/,Hit/,PutM/MI_wb,Fault/,Fault/,Fault/,PutM_nonDem/MS_wb,PutM_nonDem/MI_wb,Fault/,Fault/,Fault/
IS_d,0,1,Stall/,Stall/,Stall/,Fault/,Fault/,Fault/,,IS_dI,,Hit/S,Hit/E
IM_d,0,1,Stall/,Stall/,Stall/,Fault/,Fault/,Fault/,IM_dS,IM_dI,,Hit/M,Fault/
SM_ad,0,1,Hit/,Stall/,Stall/,Fault/,SM_d,Fault/,,IM_ad,,,Fault/
SM_d,0,1,Hit/,Stall/,Stall/,Fault/,Fault/,Fault/,IM_dS,IM_dI,Fault/,Hit/M,Fault/
MI_wb,0,1,Hit/,Hit/,Stall/,Fault/,Fault/,SendData/I,,,Fault/,Fault/,Fault/
MS_wb,0,1,Hit/,Hit/,MI_wb,Fault/,Fault/,SendData/S,,MI_wb,Fault/,Fault/,Fault/
IM_dI,0,1,Stall/,Stall/,Stall/,Fault/,Fault/,Fault/,,,,Hit/PutM_nonDem/MI_wb,Fault/
IS_dI,0,1,Stall/,Stall/,Stall/,Fault/,Fault/,Fault/,,,,Hit/I,Fault/
IM_dS,0,1,Stall/,Stall/,Stall/,Fault/,Fault/,Fault/,,IM_dI,,Hit/PutM_nonDem/MS_wb,Fault/
E,1,1,Hit/,Hit/M,PutM/MI_wb,Fault/,Fault/,Fault/,PutM_nonDem/MS_wb,PutM_nonDem/MI_wb,,Fault/,Fault/").

Definition PMESI_LLC_csv : string := bom +:+ (crlf "EventNum,Event,,,,,,,,
0,GetS,,,,,,,,
1,GetM,,,,,,,,
2,Replacement,,,,,,,,
3,PutM_fromOwner,,,,,,,,
4,PutM_fromNonOwner,,,,,,,,
5,Data_fromLowerInterface,,,,,,,,
6,Data_fromUpperInterface,,,,,,,,
,,,,,,,,,
ActionNum,Action,,,,,,,,
0,Stall,,,,,,,,
1,GetData,,,,,,,,
2,SendData,,,,,,,,
3,SaveData,,,,,,,,
4,SetOwner,,,,,,,,
5,ClearOwner,,,,,,,,
6,IssueInv,,,,,,,,
7,WriteBack,,,,,,,,
8,Fault,,,,,,,,
9,waitData,,,,,,,,
10,SendExeclusiveData,,,,,,,,
,,,,,,,,,
StateNum,State,,,,,,,,
0,N,,,,,,,,
1,NE_d,,,,,,,,
2,NM_d,,,,,,,,
3,I,,,,,,,,
4,S,,,,,,,,
5,EorM,,,,,,,,
6,M_dM,,,,,,,,
7,M_dS,,,,,,,,
8,I_d,,,,,,,,
9,IorS_a,,,,,,,,
10,MN_d,,,,,,,,
,,,,,,,,,
State,stable,isDataValid,GetS,GetM,Replacement,PutM_fromOwner,PutM_fromNonOwner,Data_fromLowerInterface,Data_fromUpperInterface
N,1,0,GetData/SetOwner/NE_d,GetData/SetOwner/NM_d,,Fault/,Fault/,Fault/,Fault/
NE_d,0,1,Stall/,Stall/,Stall/,Fault/,Fault/,Fault/,SendExeclusiveData/EorM
NM_d,0,1,Stall/,Stall/,Stall/,Fault/,Fault/,Fault/,SendData/EorM
I,1,1,SendExeclusiveData/SetOwner/EorM,SendData/SetOwner/EorM,IssueInv/WriteBack/N,Fault/,,Fault/,Fault/
S,1,1,SendData/,SendData/SetOwner/EorM,IssueInv/WriteBack/N,Fault/,,Fault/,Fault/
EorM,1,1,ClearOwner/waitData/M_dS,SetOwner/waitData/M_dM,IssueInv/ClearOwner/MN_d,ClearOwner/I_d,,SaveData/IorS_a,Fault/
M_dM,0,1,Stall/,Stall/,Stall/,Fault/,,SendData/EorM,Fault/
M_dS,0,1,Stall/,Stall/,Stall/,Fault/,,SendData/S,Fault/
I_d,0,1,Stall/,Stall/,Stall/,Fault/,,SaveData/I,Fault/
IorS_a,0,1,ClearOwner/S,Stall/,Stall/,ClearOwner/I,,Fault/,Fault/
MN_d,0,1,Stall/,Stall/,Stall/,Fault/,,WriteBack/N,Fault/").

Definition MOESI_splitBus_snooping_csv : string := bom +:+ ("EventNum,Event,,,,,,,,,,,,,
0,Load,,,,,,,,,,,,,
1,Store,,,,,,,,,,,,,
2,Replacement,,,,,,,,,,,,,
3,Own_GetS,,,,,,,,,,,,,
4,Own_GetM,,,,,,,,,,,,,
5,Own_PutM,,,,,,,,,,,,,
6,Other_GetS,,,,,,,,,,,,,
7,Other_GetM,,,,,,,,,,,,,
8,Other_PutM,,,,,,,,,,,,,
9,OwnData,,,,,,,,,,,,,
10,Invalidation,,,,,,,,,,,,,
11,OwnData_Execlusive,,,,,,,,,,,,,
,,,,,,,,,,,,,,
ActionNum,Action,,,,,,,,,,,,,
0,Stall,,,,,,,,,,,,,
1,Hit,,,,,,,,,,,,,
2,GetS,,,,,,,,,,,,,
3,GetM,,,,,,,,,,,,,
4,PutM,,,,,,,,,,,,,
5,Data2Req,,,,,,,,,,,,,
6,Data2Both,,,,,,,,,,,,,
7,SaveReq,,,,,,,,,,,,,
8,Fault,,,,,,,,,,,,,
9,removeSavedReq,,,,,,,,,,,,,
,,,,,,,,,,,,,,
StateNum,State,,,,,,,,,,,,,
0,I,,,,,,,,,,,,,
1,IS_ad,,,,,,,,,,,,,
2,IS_d,,,,,,,,,,,,,
3,IS_a,,,,,,,,,,,,,
4,IS_dI,,,,,,,,,,,,,
5,IM_ad,,,,,,,,,,,,,
6,IM_d,,,,,,,,,,,,,
7,IM_a,,,,,,,,,,,,,
8,IM_dI,,,,,,,,,,,,,
9,IM_dO,,,,,,,,,,,,,
10,S,,,,,,,,,,,,,
11,SM_ad,,,,,,,,,,,,,
12,SM_d,,,,,,,,,,,,,
13,SM_a,,,,,,,,,,,,,
14,SM_dI,,,,,,,,,,,,,
15,SM_dO,,,,,,,,,,,,,
16,M,,,,,,,,,,,,,
17,MI_a,,,,,,,,,,,,,
18,II_a,,,,,,,,,,,,,
19,E,,,,,,,,,,,,,
20,O,,,,,,,,,,,,,
21,OM_a,,,,,,,,,,,,,
22,OI_a,,,,,,,,,,,,,
23,EI_a,,,,,,,,,,,,,
24,IES_d,,,,,,,,,,,,,
25,IES_dI,,,,,,,,,,,,,
26,EM_a,,,,,,,,,,,,,
27,IM_dOI,,,,,,,,,,,,,
28,SM_dOI,,,,,,,,,,,,,
,,,,,,,,,,,,,,
State,stable,isDataValid,Load,Store,Replacement,Own_GetS,Own_GetM,Own_PutM,Other_GetS,Other_GetM,Other_PutM,OwnData,Invalidation,OwnData_Execlusive
I,1,0,GetS/IS_ad,GetM/IM_ad,,Fault/,Fault/,Fault/,,,,Fault/,,Fault/
IS_ad,0,1,Stall/,Stall/,Stall/,IS_d,Fault/,Fault/,,,,IS_a,,Fault/
IS_d,0,1,Stall/,Stall/,Stall/,Fault/,Fault/,Fault/,SaveReq/IES_d, SaveReq/IS_dI,,Hit/S,IS_dI,Hit/E
IS_a,0,1,Stall/,Stall/,Stall/,Hit/S,Fault/,Fault/,,,Fault/,Fault/,IS_ad,Fault/
IS_dI,0,1,Stall/,Stall/,Stall/,Fault/,Fault/,Fault/,,,,Hit/removeSavedReq/I,, Hit/Data2Req/I
IM_ad,0,1,Stall/,Stall/,Stall/,Fault/,IM_d,Fault/,,,,IM_a,,Fault/
IM_d,0,1,Stall/,Stall/,Stall/,Fault/,Fault/,Fault/,SaveReq/IM_dO,SaveReq/IM_dI,,Hit/M,SaveReq/IM_dI,Fault/
IM_a,0,1,Stall/,Stall/,Stall/,Fault/,Hit/M,Fault/,,,,Fault/,IM_ad,Fault/
IM_dI,0,1,Stall/,Stall/,Stall/,Fault/,Fault/,Fault/,,,,Hit/Data2Req/I,,Fault/
IM_dO,0,1,Stall/,Stall/,Stall/,Fault/,Fault/,Fault/,SaveReq/,SaveReq/IM_dOI,,Hit/Data2Req/O,SaveReq/IM_dOI,Fault/
S,1,1,Hit/,GetM/SM_ad,I,Fault/,Fault/,Fault/,,I,,Fault/,I,Fault/
SM_ad,0,1,Hit/,Stall/,Stall/,Fault/,SM_d,Fault/,,IM_ad,,SM_a,IM_ad,Fault/
SM_d,0,1,Hit/,Stall/,Stall/,Fault/,Fault/,Fault/,SaveReq/SM_dO,SaveReq/SM_dI,,Hit/M,SaveReq/IM_dI,Fault/
SM_a,0,1,Hit/,Stall/,Stall/,Fault/,Hit/M,Fault/,,IM_a,Fault/,Fault/,IM_a,Fault/
SM_dI,0,1,Hit/,Stall/,Stall/,Fault/,Fault/,Fault/,,,,Hit/Data2Req/I,,Fault/
SM_dO,0,1,Hit/,Stall/,Stall/,Fault/,Fault/,Fault/,SaveReq/,SaveReq/SM_dOI,,Hit/Data2Req/O,SaveReq/SM_dOI,Fault/
M,1,1,Hit/,Hit/,PutM/MI_a,Fault/,Fault/,Fault/,Data2Req/O,Data2Req/I,,Fault/,Data2Req/I,Fault/
MI_a,0,1,Hit/,Hit/,Stall/,Fault/,Fault/,Data2Req/I,Data2Req/OI_a,Data2Req/II_a,,Fault/,Data2Req/II_a,Fault/
II_a,0,1,Stall/,Stall/,Stall/,Fault/,Fault/,I,,,,Fault/,,Fault/
E,1,1,Hit/,GetM/EM_a,PutM/EI_a,Fault/,Fault/,Fault/,Data2Req/S,Data2Req/I,,Fault/,I,Fault/
O,1,1,Hit/,GetM/OM_a,PutM/OI_a,Fault/,Fault/,Fault/,Data2Req/,Data2Req/I,,Fault/,Data2Req/I,Fault/
OM_a,0,1,Hit/,Stall/,Stall/,Fault/,Hit/M,Fault/,Data2Req/,Data2Req/IM_ad,,Fault/,Data2Req/IM_ad,Fault/
OI_a,0,1,Hit/,Stall/,Stall/,Fault/,Fault/,Data2Req/I,Data2Req/,Data2Req/II_a,,Fault/,Data2Req/II_a,Fault/
EI_a,0,1,Hit/,Stall/,Stall/,Fault/,Fault/,I,Data2Req/,Data2Req/II_a,,Fault/,II_a,Fault/
IES_d,0,1,Stall/,Stall/,Stall/,Fault/,Fault/,Fault/,,IES_dI,,Hit/removeSavedReq/S,IS_dI,Hit/Data2Req/S
IES_dI,0,1,Stall/,Stall/,Stall/,Fault/,Fault/,Fault/,,,,Hit/removeSavedReq/S,IS_dI,Hit/Data2Req/I
EM_a,0,1,Stall/,Stall/,Stall/,Fault/,Hit/M,Fault/,Data2Req/SM_ad,Data2Req/IM_ad,Stall/,Fault/,IM_ad,Fault/
IM_dOI,0,1,Stall/,Stall/,Stall/,Fault/,Fault/,Fault/,,,,Hit/Data2Req/I,,Fault/
SM_dOI,0,1,Hit/,Stall/,Stall/,Fault/,Fault/,Fault/,,,,Hit/Data2Req/I,,Fault/
").

Definition MOESI_LLC_csv : string := "EventNum,Event,,,,,,,,,
0,GetS,,,,,,,,,
1,GetM,,,,,,,,,
2,Replacement,,,,,,,,,
3,PutM_fromOwner,,,,,,,,,
4,PutM_fromNonOwner,,,,,,,,,
5,Data_fromLowerInterface,,,,,,,,,
6,Data_fromUpperInterface,,,,,,,,,
7,Own_Invalidation,,,,,,,,,
,,,,,,,,,,
ActionNum,Action,,,,,,,,,
0,Stall,,,,,,,,,
1,GetData,,,,,,,,,
2,SendData,,,,,,,,,
3,SaveData,,,,,,,,,
4,SetOwner,,,,,,,,,
5,ClearOwner,,,,,,,,,
6,IssueInv,,,,,,,,,
7,WriteBack,,,,,,,,,
8,Fault,,,,,,,,,
9,SendExeclusiveData,,,,,,,,,
,,,,,,,,,,
StateNum,State,,,,,,,,,
0,N,,,,,,,,,
1,NE_d,,,,,,,,,
2,NM_d,,,,,,,,,
3,I,,,,,,,,,
4,S,,,,,,,,,
5,E,,,,,,,,,
6,I_a,,,,,,,,,
7,MN_d,,,,,,,,,
8,S_d,,,,,,,,,
9,I_d,,,,,,,,,
10,O,,,,,,,,,
11,S_a,,,,,,,,,
12,O_d,,,,,,,,,
13,M,,,,,,,,,
,,,,,,,,,,
State,stable,isDataValid,GetS,GetM,Replacement,PutM_fromOwner,PutM_fromNonOwner,Data_fromLowerInterface,Data_fromUpperInterface,Own_Invalidation
N,1,0,GetData/SetOwner/NE_d,GetData/SetOwner/NM_d,,Fault/,,Fault/,Fault/,SaveData/N
NE_d,0,1,Stall/,Stall/,Stall/,Fault/,Fault/,Fault/,SendExeclusiveData/E,Fault/
NM_d,0,1,Stall/,Stall/,Stall/,Fault/,Fault/,Fault/,SendData/M,Fault/
I,1,1,SendExeclusiveData/SetOwner/E,SendData/SetOwner/M,IssueInv/,Fault/,,Fault/,Fault/,WriteBack/N
S,1,1,SendData/,SendData/SetOwner/M,IssueInv/,Fault/,,Fault/,Fault/,WriteBack/N
E,1,1,ClearOwner/S,SetOwner/M,IssueInv/,ClearOwner/I,,Fault/,Fault/,ClearOwner/WriteBack/N
I_a,0,1,Stall/,Stall/,Stall/,ClearOwner/I,,Fault/,Fault/,Fault/
MN_d,0,1,Stall/,Stall/,Stall/,Fault/,,WriteBack/N,Fault/,SaveData/MN_d
S_d,0,1,Stall/,Stall/,Stall/,Fault/,,SaveData/S,Fault/,MN_d
I_d,0,1,Stall/,Stall/,Stall/,Fault/,,SaveData/I,Fault/,MN_d
O,1,1,,SetOwner/M,IssueInv/,S_d,,SaveData/S,Fault/,ClearOwner/MN_d
S_a,0,1,Stall/,Stall/,Stall/,ClearOwner/S,,Fault/,Fault/,Fault/
O_d,0,1,Stall/,Stall/,Stall/,Fault/,,SaveData/O,Fault/,MN_d
M,1,1,O,SetOwner/M,IssueInv/,ClearOwner/I_d,,SaveData/I_a,Fault/,ClearOwner/MN_d
".

Definition MOESI_directory_csv : string := bom +:+ (crlf "EventNum,Event,,,,,,,,,,,,,,,,,,
0,Load,,,,,,,,,,,,,,,,,,
1,Store,,,,,,,,,,,,,,,,,,
2,Replacement,,,,,,,,,,,,,,,,,,
3,Fwd_GetS,,,,,,,,,,,,,,,,,,
4,Fwd_GetM,,,,,,,,,,,,,,,,,,
5,Inv,,,,,,,,,,,,,,,,,,
6,Put_Ack,,,,,,,,,,,,,,,,,,
7,Data_zeroAck,,,,,,,,,,,,,,,,,,
8,Data_nonZeroAck,,,,,,,,,,,,,,,,,,
9,DataFromOwner,,,,,,,,,,,,,,,,,,
10,InvAck,,,,,,,,,,,,,,,,,,
11,lastInvAck,,,,,,,,,,,,,,,,,,
12,Data_execlusive,,,,,,,,,,,,,,,,,,
13,AckCount,,,,,,,,,,,,,,,,,,
14,AckCount_zero,,,,,,,,,,,,,,,,,,
15,DataFromOwner_nonZeroAck,,,,,,,,,,,,,,,,,,
16,InvM,,,,,,,,,,,,,,,,,,
,,,,,,,,,,,,,,,,,,,
ActionNum,Action,,,,,,,,,,,,,,,,,,
0,Stall,,,,,,,,,,,,,,,,,,
1,Hit,,,,,,,,,,,,,,,,,,
2,GetS,,,,,,,,,,,,,,,,,,
3,GetM,,,,,,,,,,,,,,,,,,
4,PutS,,,,,,,,,,,,,,,,,,
5,PutM_Data,,,,,,,,,,,,,,,,,,
6,Data2Both,,,,,,,,,,,,,,,,,,
7,Data2Req,,,,,,,,,,,,,,,,,,
8,InvAck2Req,,,,,,,,,,,,,,,,,,
9,InvAck_Data,,,,,,,,,,,,,,,,,,
10,Ack_dec,,,,,,,,,,,,,,,,,,
11,AckNum_set,,,,,,,,,,,,,,,,,,
12,SaveReq,,,,,,,,,,,,,,,,,,
13,Fault,,,,,,,,,,,,,,,,,,
14,PutE,,,,,,,,,,,,,,,,,,
15,PutO_Data,,,,,,,,,,,,,,,,,,
16,SetAck,,,,,,,,,,,,,,,,,,
,,,,,,,,,,,,,,,,,,,
StateNum,State,,,,,,,,,,,,,,,,,,
0,I,,,,,,,,,,,,,,,,,,
1,IS_d,,,,,,,,,,,,,,,,,,
2,IS_dI,,,,,,,,,,,,,,,,,,
3,IM_ad,,,,,,,,,,,,,,,,,,
4,IM_a,,,,,,,,,,,,,,,,,,
5,S,,,,,,,,,,,,,,,,,,
6,SM_ad,,,,,,,,,,,,,,,,,,
7,SM_a,,,,,,,,,,,,,,,,,,
8,M,,,,,,,,,,,,,,,,,,
9,E,,,,,,,,,,,,,,,,,,
10,O,,,,,,,,,,,,,,,,,,
11,OM_ac,,,,,,,,,,,,,,,,,,
12,OM_a,,,,,,,,,,,,,,,,,,
13,OI_a,,,,,,,,,,,,,,,,,,
14,MI_a,,,,,,,,,,,,,,,,,,
15,EI_a,,,,,,,,,,,,,,,,,,
16,SI_a,,,,,,,,,,,,,,,,,,
17,II_a,,,,,,,,,,,,,,,,,,
18,IS_dInvM,,,,,,,,,,,,,,,,,,
,,,,,,,,,,,,,,,,,,,
State,stable,isDataValid,Load,Store,Replacement,Fwd_GetS,Fwd_GetM,Inv,Put_Ack,Data_zeroAck,Data_nonZeroAck,DataFromOwner,InvAck,lastInvAck,Data_execlusive,AckCount,AckCount_zero,DataFromOwner_nonZeroAck,InvM
I,1,0,GetS/IS_d,GetM/IM_ad,,Fault/,Fault/,Fault/,Fault/,Fault/,Fault/,Fault/,Fault/,Fault/,Fault/,Fault/,Fault/,Fault/,Fault/
IS_d,0,1,Stall/,Stall/,Stall/,Stall/,Stall/,InvAck2Req/IS_dI,Fault/,Hit/S,Fault/,Hit/S,Fault/,Fault/,Hit/E,Fault/,Fault/,Fault/,IS_dInvM
IS_dI,0,1,Stall/,Stall/,Stall/,Stall/,Stall/,Fault/,Fault/,Hit/I,Fault/,Hit/I,Fault/,Fault/,Hit/Data2Req/I,Fault/,Fault/,Fault/,Fault/
IM_ad,0,1,Stall/,Stall/,Stall/,Stall/,Stall/,Stall/,Fault/,Hit/M,AckNum_set/IM_a,Hit/M,Ack_dec/,Fault/,Fault/,Fault/,Fault/,AckNum_set/IM_a,Stall/
IM_a,0,1,Stall/,Stall/,Stall/,Stall/,Stall/,Stall/,Fault/,Fault/,Fault/,Fault/,Ack_dec/,Hit/Ack_dec/M,Fault/,Fault/,Fault/,Fault/,Stall/
S,1,1,Hit/,GetM/SM_ad,PutS/SI_a,Fault/,Fault/,InvAck2Req/I,Fault/,Fault/,Fault/,Fault/,Fault/,Fault/,Fault/,Fault/,Fault/,Fault/,Fault/
SM_ad,0,1,Hit/,Stall/,Stall/,Stall/,Stall/,InvAck2Req/IM_ad,Fault/,Hit/M,AckNum_set/SM_a,Hit/M,Ack_dec/,Fault/,Fault/,Fault/,Fault/,AckNum_set/SM_a,Stall/
SM_a,0,1,Hit/,Stall/,Stall/,Stall/,Stall/,Stall/,Fault/,Fault/,Fault/,Fault/,Ack_dec/,Hit/Ack_dec/M,Fault/,Fault/,Fault/,Fault/,Stall/
M,1,1,Hit/,Hit/,PutM_Data/MI_a,Data2Req/O,Data2Req/I,InvAck_Data/I,Fault/,Fault/,Fault/,Fault/,Fault/,Fault/,Fault/,Fault/,Fault/,Fault/,InvAck_Data/I
E,1,1,Hit/,Hit/M,PutE/EI_a,Data2Req/O,Data2Req/I,InvAck_Data/I,Fault/,Fault/,Fault/,Fault/,Fault/,Fault/,Fault/,Fault/,Fault/,Fault/,InvAck_Data/I
O,1,1,Hit/,GetM/OM_ac,PutO_Data/OI_a,Data2Req/,Data2Req/I,InvAck_Data/I,Fault/,Fault/,Fault/,Fault/,Fault/,Fault/,Fault/,Fault/,Fault/,Fault/,InvAck_Data/I
OM_ac,0,1,Hit/,Stall/,Stall/,Data2Req/,Data2Req/IM_ad,InvAck_Data/IM_ad,Fault/,Fault/,Fault/,Fault/,Ack_dec/,Fault/,Fault/,SetAck/OM_a,Hit/SetAck/M,Fault/,InvAck_Data/IM_ad
OM_a,0,1,Hit/,Stall/,Stall/,Stall/,Stall/,Stall/,Fault/,Fault/,Fault/,Fault/,Ack_dec/,Hit/Ack_dec/M,Fault/,Fault/,Fault/,Fault/,Stall/
OI_a,0,1,Stall/,Stall/,Stall/,Data2Req/,Data2Req/II_a,,I,Fault/,Fault/,Fault/,Fault/,Fault/,Fault/,Fault/,Fault/,Fault/,
MI_a,0,1,Stall/,Stall/,Stall/,Data2Req/OI_a,Data2Req/II_a,,I,Fault/,Fault/,Fault/,Fault/,Fault/,Fault/,Fault/,Fault/,Fault/,
EI_a,0,1,Stall/,Stall/,Stall/,Data2Req/SI_a,Data2Req/II_a,,I,Fault/,Fault/,Fault/,Fault/,Fault/,Fault/,Fault/,Fault/,Fault/,
SI_a,0,1,Stall/,Stall/,Stall/,Fault/,Fault/,InvAck2Req/II_a,I,Fault/,Fault/,Fault/,Fault/,Fault/,Fault/,Fault/,Fault/,Fault/,Fault/
II_a,0,1,Stall/,Stall/,Stall/,Fault/,Fault/,Fault/,I,Fault/,Fault/,Fault/,Fault/,Fault/,Fault/,Fault/,Fault/,Fault/,Fault/
IS_dInvM,0,1,Stall/,Stall/,Stall/,Stall/,Stall/,Fault/,Fault/,Hit/Data2Req/I,Fault/,Hit/Data2Req/I,Fault/,Fault/,Hit/Data2Req/I,Fault/,Fault/,Fault/,Fault/").

Definition MOESI_LLC_directory_csv : string := bom +:+ (crlf "EventNum,Event,,,,,,,,,,,,,,,,,,,
0,GetS,,,,,,,,,,,,,,,,,,,
1,GetM,,,,,,,,,,,,,,,,,,,
2,Replacement,,,,,,,,,,,,,,,,,,,
3,PutS,,,,,,,,,,,,,,,,,,,
4,last_PutS,,,,,,,,,,,,,,,,,,,
5,InvAck,,,,,,,,,,,,,,,,,,,
6,last_InvAck,,,,,,,,,,,,,,,,,,,
7,PutM_Data_fromOwner,,,,,,,,,,,,,,,,,,,
8,PutM_Data_fromNonOwner,,,,,,,,,,,,,,,,,,,
9,Data_fromLowerInterface,,,,,,,,,,,,,,,,,,,
10,Data_fromUpperInterface,,,,,,,,,,,,,,,,,,,
11,PutE_fromOwner,,,,,,,,,,,,,,,,,,,
12,PutE_fromNonOwner,,,,,,,,,,,,,,,,,,,
13,GetM_fromOwner,,,,,,,,,,,,,,,,,,,
14,PutO_Data_fromOwner,,,,,,,,,,,,,,,,,,,
15,PutO_Data_fromNonOwner,,,,,,,,,,,,,,,,,,,
16,last_PutO_fromOwner,,,,,,,,,,,,,,,,,,,
17,Data_fromLowerInterface_lastAck,,,,,,,,,,,,,,,,,,,
,,,,,,,,,,,,,,,,,,,,
ActionNum,Action,,,,,,,,,,,,,,,,,,,
0,Stall,,,,,,,,,,,,,,,,,,,
1,GetData,,,,,,,,,,,,,,,,,,,
2,SendData,,,,,,,,,,,,,,,,,,,
3,SaveData,,,,,,,,,,,,,,,,,,,
4,SetOwner,,,,,,,,,,,,,,,,,,,
5,ClearOwner,,,,,,,,,,,,,,,,,,,
6,SendInv,,,,,,,,,,,,,,,,,,,
7,WriteBack,,,,,,,,,,,,,,,,,,,
8,FwdGetS,,,,,,,,,,,,,,,,,,,
9,FwdGetM,,,,,,,,,,,,,,,,,,,
10,PutAck,,,,,,,,,,,,,,,,,,,
11,IncSharers,,,,,,,,,,,,,,,,,,,
12,DecSharers,,,,,,,,,,,,,,,,,,,
13,Fault,,,,,,,,,,,,,,,,,,,
14,SendEData,,,,,,,,,,,,,,,,,,,
15,sendAckC,,,,,,,,,,,,,,,,,,,
16,SendInvM,,,,,,,,,,,,,,,,,,,
,,,,,,,,,,,,,,,,,,,,
StateNum,State,,,,,,,,,,,,,,,,,,,
0,N,,,,,,,,,,,,,,,,,,,
1,NE_d,,,,,,,,,,,,,,,,,,,
2,NM_d,,,,,,,,,,,,,,,,,,,
3,I,,,,,,,,,,,,,,,,,,,
4,S,,,,,,,,,,,,,,,,,,,
5,E,,,,,,,,,,,,,,,,,,,
6,M,,,,,,,,,,,,,,,,,,,
7,O,,,,,,,,,,,,,,,,,,,
8,S_d,,,,,,,,,,,,,,,,,,,
9,N_ad,,,,,,,,,,,,,,,,,,,
10,N_d,,,,,,,,,,,,,,,,,,,
11,N_a,,,,,,,,,,,,,,,,,,,
,,,,,,,,,,,,,,,,,,,,
State,stable,isDataValid,GetS,GetM,Replacement,PutS,last_PutS,InvAck,last_InvAck,PutM_Data_fromOwner,PutM_Data_fromNonOwner,Data_fromLowerInterface,Data_fromUpperInterface,PutE_fromOwner,PutE_fromNonOwner,GetM_fromOwner,PutO_Data_fromOwner,PutO_Data_fromNonOwner,last_PutO_fromOwner,Data_fromLowerInterface_lastAck
N,1,0,SetOwner/GetData/NE_d,SetOwner/GetData/NM_d,Fault/,Fault/,Fault/,Fault/,Fault/,Fault/,Fault/,Fault/,Fault/,Fault/,Fault/,Fault/,Fault/,Fault/,Fault/,Fault/
NE_d,0,1,Stall/,Stall/,Stall/,Fault/,Fault/,Fault/,Fault/,Fault/,Fault/,Fault/,SendEData/E,Fault/,Fault/,Fault/,Fault/,Fault/,Fault/,Fault/
NM_d,0,1,Stall/,Stall/,Stall/,Fault/,Fault/,Fault/,Fault/,Fault/,Fault/,Fault/,SendData/M,Fault/,Fault/,Fault/,Fault/,Fault/,Fault/,Fault/
I,1,1,SetOwner/SendEData/E,SetOwner/SendData/M,WriteBack/N,PutAck/,PutAck/,Fault/,PutAck/,Fault/,PutAck/,Fault/,Fault/,Fault/,PutAck/,Fault/,Fault/,PutAck/,Fault/,Fault/
S,1,1,SendData/IncSharers/,SetOwner/SendData/SendInv/M,SendInv/WriteBack/N_a,PutAck/DecSharers/,PutAck/DecSharers/I,Fault/,Fault/,Fault/,PutAck/DecSharers/,Fault/,Fault/,Fault/,PutAck/DecSharers/,Fault/,Fault/,PutAck/DecSharers/,Fault/,Fault/
E,1,1,FwdGetS/IncSharers/O,SetOwner/FwdGetM/,SendInvM/N_d,PutAck/,PutAck/,DecSharers/,DecSharers/,ClearOwner/DecSharers/PutAck/SaveData/I,PutAck/,Fault/,Fault/,ClearOwner/DecSharers/PutAck/I,PutAck/,Fault/,Fault/,PutAck/,Fault/,Fault/
M,1,1,FwdGetS/IncSharers/O,SetOwner/FwdGetM/,SendInvM/N_d,PutAck/,PutAck/,DecSharers/,DecSharers/,ClearOwner/DecSharers/PutAck/SaveData/I,PutAck/,Fault/,Fault/,Fault/,PutAck/,Fault/,Fault/,PutAck/,Fault/,Fault/
O,1,1,FwdGetS/IncSharers/,SetOwner/FwdGetM/SendInv/M,SendInv/N_ad,PutAck/DecSharers/,PutAck/DecSharers/,Fault/,Fault/,ClearOwner/DecSharers/PutAck/SaveData/S,PutAck/DecSharers/,Fault/,Fault/,ClearOwner/DecSharers/PutAck/S,Fault/,SetOwner/sendAckC/SendInv/M,ClearOwner/DecSharers/PutAck/SaveData/S,PutAck/DecSharers/,ClearOwner/DecSharers/PutAck/SaveData/I,Fault/
S_d,0,1,Stall/,Stall/,Stall/,Stall/,Stall/,Fault/,Fault/,Fault/,PutAck/DecSharers/,SaveData/S,Fault/,Fault/,PutAck/DecSharers/,Fault/,Fault/,Fault/,Fault/,SaveData/S
N_ad,0,1,Stall/,Stall/,Stall/,PutAck/,PutAck/,DecSharers/,DecSharers/N_d,Fault/,PutAck/,DecSharers/SaveData/N_a,Fault/,Fault/,Fault/,Stall/,ClearOwner/DecSharers/PutAck/SaveData/N_a,PutAck/,ClearOwner/DecSharers/PutAck/WriteBack/N,DecSharers/WriteBack/N
N_d,0,1,Stall/,Stall/,Stall/,Fault/,Fault/,Fault/,Fault/,ClearOwner/DecSharers/PutAck/WriteBack/N,PutAck/,DecSharers/WriteBack/N,Fault/,ClearOwner/DecSharers/PutAck/WriteBack/N,PutAck/,Stall/,Fault/,PutAck/,ClearOwner/DecSharers/PutAck/WriteBack/N,DecSharers/WriteBack/N
N_a,0,1,Stall/,Stall/,Stall/,PutAck/,PutAck/,DecSharers/,DecSharers/N,Fault/,Fault/,Fault/,Fault/,Fault/,Fault/,Stall/,Fault/,Fault/,Fault/,Fault/").

Definition PMSI_asterisk_csv : string := bom +:+ (crlf "EventNum,Event,,,,,,,,,,,,
0,Load,,,,,,,,,,,,
1,Store,,,,,,,,,,,,
2,Replacement,,,,,,,,,,,,
3,Own_GetS,,,,,,,,,,,,
4,Own_GetM,,,,,,,,,,,,
5,Own_PutM,,,,,,,,,,,,
6,Other_GetS,,,,,,,,,,,,
7,Other_GetM,,,,,,,,,,,,
8,Other_PutM,,,,,,,,,,,,
9,RDM,,,,,,,,,,,,
10,RDC,,,,,,,,,,,,
,,,,,,,,,,,,,
ActionNum,Action,,,,,,,,,,,,
0,Stall,,,,,,,,,,,,
1,Hit,,,,,,,,,,,,
2,GetS,,,,,,,,,,,,
3,GetM,,,,,,,,,,,,
4,PutM,,,,,,,,,,,,
5,Data2Req,,,,,,,,,,,,
6,Data2Both,,,,,,,,,,,,
7,SaveReq,,,,,,,,,,,,
8,Fault,,,,,,,,,,,,
,,,,,,,,,,,,,
StateNum,State,,,,,,,,,,,,
0,I,,,,,,,,,,,,
1,IS_ad,,,,,,,,,,,,
2,IS_d,,,,,,,,,,,,
3,IM_ad,,,,,,,,,,,,
4,IM_d,,,,,,,,,,,,
5,S,,,,,,,,,,,,
6,SM_ad,,,,,,,,,,,,
7,SM_d,,,,,,,,,,,,
8,M,,,,,,,,,,,,
9,MI_a,,,,,,,,,,,,
10,II_a,,,,,,,,,,,,
,,,,,,,,,,,,,
State,stable,isDataValid,Load,Store,Replacement,Own_GetS,Own_GetM,Own_PutM,Other_GetS,Other_GetM,Other_PutM,RDM,RDC
I,1,0,GetS/IS_ad,GetM/IM_ad,,Fault/,Fault/,Fault/,,,,Fault/,Fault/
IS_ad,0,1,Stall/,Stall/,Stall/,IS_d,Fault/,Fault/,,,,Fault/,Fault/
IS_d,0,1,Stall/,Stall/,Stall/,Fault/,Fault/,Fault/,Fault/,Fault/,Fault/,Hit/S,Hit/M
IM_ad,0,1,Stall/,Stall/,Stall/,Fault/,IM_d,Fault/,,,,Fault/,Fault/
IM_d,0,1,Stall/,Stall/,Stall/,Fault/,Fault/,Fault/,Fault/,Fault/,Fault/,Hit/M,Hit/M
S,1,1,Hit/,GetM/SM_ad,I,Fault/,Fault/,Fault/,,I,,Fault/,Fault/
SM_ad,0,1,Hit/,Stall/,Stall/,Fault/,SM_d,Fault/,,IM_ad,,Fault/,Fault/
SM_d,0,1,Hit/,Stall/,Stall/,Fault/,Fault/,Fault/,Fault/,Fault/,Fault/,Hit/M,Hit/M
M,1,1,Hit/,Hit/,PutM/MI_a,Fault/,Fault/,Fault/,Data2Req/I,Data2Req/I,,Fault/,Fault/
MI_a,0,1,Hit/,Hit/,Stall/,Fault/,Fault/,Data2Req/I,Data2Req/II_a,Data2Req/II_a,,Fault/,Fault/
II_a,0,1,Stall/,Stall/,Stall/,Fault/,Fault/,I,,,,Fault/,Fault/").

Definition PMSI_asterisk_LLC_csv : string := bom +:+ (crlf "EventNum,Event,,,,,,,,
0,GetS,,,,,,,,
1,GetM,,,,,,,,
2,Replacement,,,,,,,,
3,PutM_fromOwner,,,,,,,,
4,PutM_fromNonOwner,,,,,,,,
5,Data_fromLowerInterface,,,,,,,,
6,Data_fromUpperInterface,,,,,,,,
,,,,,,,,,
ActionNum,Action,,,,,,,,
0,Stall,,,,,,,,
1,GetData,,,,,,,,
2,SendData,,,,,,,,
3,SaveData,,,,,,,,
4,SetOwner,,,,,,,,
5,ClearOwner,,,,,,,,
6,IssueInv,,,,,,,,
7,WriteBack,,,,,,,,
8,Fault,,,,,,,,
,,,,,,,,,
StateNum,State,,,,,,,,
0,N,,,,,,,,
1,NIorS_d,,,,,,,,
2,NM_d,,,,,,,,
3,IorS,,,,,,,,
4,M,,,,,,,,
5,IorS_d,,,,,,,,
6,MN_d,,,,,,,,
,,,,,,,,,
,,,,,,,,,
State,stable,isDataValid,GetS,GetM,Replacement,PutM_fromOwner,PutM_fromNonOwner,Data_fromLowerInterface,Data_fromUpperInterface
N,1,0,GetData/NIorS_d,GetData/SetOwner/NM_d,,Fault/,Fault/,Fault/,Fault/
NIorS_d,0,1,Stall/,Stall/,Stall/,Fault/,Fault/,Fault/,SendData/IorS
NM_d,0,1,Stall/,Stall/,Stall/,Fault/,Fault/,Fault/,SendData/M
IorS,1,1,SendData/,SendData/SetOwner/M,IssueInv/WriteBack/N,Fault/,,Fault/,Fault/
M,1,1,SetOwner/,SetOwner/,IssueInv/ClearOwner/MN_d,ClearOwner/IorS_d,,Fault/,Fault/
IorS_d,0,1,Stall/,Stall/,Stall/,Stall/,,SaveData/IorS,Fault/
MN_d,0,1,Stall/,Stall/,Stall/,Fault/,,WriteBack/N,Fault/").

Definition PMESI_asterisk_csv : string := bom +:+ (crlf "EventNum,Event,,,,,,,,,,,,,
0,Load,,,,,,,,,,,,,
1,Store,,,,,,,,,,,,,
2,Replacement,,,,,,,,,,,,,
3,Own_GetS,,,,,,,,,,,,,
4,Own_GetM,,,,,,,,,,,,,
5,Own_PutM,,,,,,,,,,,,,
6,Other_GetS,,,,,,,,,,,,,
7,Other_GetM,,,,,,,,,,,,,
8,Other_PutM,,,,,,,,,,,,,
9,RDM,,,,,,,,,,,,,
10,RDM_Execlusive,,,,,,,,,,,,,
11,RDC,,,,,,,,,,,,,
,,,,,,,,,,,,,,
ActionNum,Action,,,,,,,,,,,,,
0,Stall,,,,,,,,,,,,,
1,Hit,,,,,,,,,,,,,
2,GetS,,,,,,,,,,,,,
3,GetM,,,,,,,,,,,,,
4,PutM,,,,,,,,,,,,,
5,Data2Req,,,,,,,,,,,,,
6,Data2Both,,,,,,,,,,,,,
7,SaveReq,,,,,,,,,,,,,
8,Fault,,,,,,,,,,,,,
,,,,,,,,,,,,,,
StateNum,State,,,,,,,,,,,,,
0,I,,,,,,,,,,,,,
1,IS_ad,,,,,,,,,,,,,
2,IS_d,,,,,,,,,,,,,
3,IM_ad,,,,,,,,,,,,,
4,IM_d,,,,,,,,,,,,,
5,S,,,,,,,,,,,,,
6,SM_ad,,,,,,,,,,,,,
7,SM_d,,,,,,,,,,,,,
8,M,,,,,,,,,,,,,
9,MI_a,,,,,,,,,,,,,
10,II_a,,,,,,,,,,,,,
11,E,,,,,,,,,,,,,
,,,,,,,,,,,,,,
State,stable,isDataValid,Load,Store,Replacement,Own_GetS,Own_GetM,Own_PutM,Other_GetS,Other_GetM,Other_PutM,RDM,RDM_Execlusive,RDC
I,1,0,GetS/IS_ad,GetM/IM_ad,,Fault/,Fault/,Fault/,,,,Fault/,Fault/,Fault/
IS_ad,0,1,Stall/,Stall/,Stall/,IS_d,Fault/,Fault/,,,,Fault/,Fault/,Fault/
IS_d,0,1,Stall/,Stall/,Stall/,Fault/,Fault/,Fault/,Fault/,Fault/,Fault/,Hit/S,Hit/E,Hit/E
IM_ad,0,1,Stall/,Stall/,Stall/,Fault/,IM_d,Fault/,,,,Fault/,Fault/,Fault/
IM_d,0,1,Stall/,Stall/,Stall/,Fault/,Fault/,Fault/,Fault/,Fault/,Fault/,Hit/M,Hit/M,Hit/M
S,1,1,Hit/,GetM/SM_ad,I,Fault/,Fault/,Fault/,,I,,Fault/,Fault/,Fault/
SM_ad,0,1,Hit/,Stall/,Stall/,Fault/,SM_d,Fault/,,IM_ad,,Fault/,Fault/,Fault/
SM_d,0,1,Hit/,Stall/,Stall/,Fault/,Fault/,Fault/,Fault/,Fault/,Fault/,Hit/M,Hit/M,Hit/M
M,1,1,Hit/,Hit/,PutM/MI_a,Fault/,Fault/,Fault/,Data2Req/I,Data2Req/I,,Fault/,Fault/,Fault/
MI_a,0,1,Hit/,Hit/,Stall/,Fault/,Fault/,Data2Req/I,Data2Req/II_a,Data2Req/II_a,,Fault/,Fault/,Fault/
II_a,0,1,Stall/,Stall/,Stall/,Fault/,Fault/,I,,,,Fault/,Fault/,Fault/
E,1,1,Hit/,Hit/M,PutM/MI_a,Fault/,Fault/,Fault/,Data2Req/I,Data2Req/I,,Fault/,Fault/,Fault/").

Definition PMESI_asterisk_LLC_csv : string := bom +:+ (crlf "EventNum,Event,,,,,,,,
0,GetS,,,,,,,,
1,GetM,,,,,,,,
2,Replacement,,,,,,,,
3,PutM_fromOwner,,,,,,,,
4,PutM_fromNonOwner,,,,,,,,
5,Data_fromLowerInterface,,,,,,,,
6,Data_fromUpperInterface,,,,,,,,
,,,,,,,,,
ActionNum,Action,,,,,,,,
0,Stall,,,,,,,,
1,GetData,,,,,,,,
2,SendData,,,,,,,,
3,SaveData,,,,,,,,
4,SetOwner,,,,,,,,
5,ClearOwner,,,,,,,,
6,IssueInv,,,,,,,,
7,WriteBack,,,,,,,,
8,Fault,,,,,,,,
9,SendExeclusiveData,,,,,,,,
,,,,,,,,,
StateNum,State,,,,,,,,
0,N,,,,,,,,
1,NE_d,,,,,,,,
2,NM_d,,,,,,,,
3,I,,,,,,,,
4,S,,,,,,,,
5,EorM,,,,,,,,
6,MN_d,,,,,,,,
7,I_d,,,,,,,,
,,,,,,,,,
,,,,,,,,,
,,,,,,,,,
State,stable,isDataValid,GetS,GetM,Replacement,PutM_fromOwner,PutM_fromNonOwner,Data_fromLowerInterface,Data_fromUpperInterface
N,1,0,GetData/SetOwner/NE_d,GetData/SetOwner/NM_d,,Fault/,Fault/,Fault/,Fault/
NE_d,0,1,Stall/,Stall/,Stall/,Fault/,Fault/,Fault/,SendExeclusiveData/EorM
NM_d,0,1,Stall/,Stall/,Stall/,Fault/,Fault/,Fault/,SendData/EorM
I,1,1,SendExeclusiveData/SetOwner/EorM,SendData/SetOwner/EorM,IssueInv/WriteBack/N,Fault/,,Fault/,Fault/
S,1,1,SendData/,SendData/SetOwner/EorM,IssueInv/WriteBack/N,Fault/,,Fault/,Fault/
EorM,1,1,SetOwner/,SetOwner/,IssueInv/ClearOwner/MN_d,ClearOwner/I_d,,Fault/,Fault/
MN_d,0,1,Stall/,Stall/,Stall/,Fault/,,WriteBack/N,Fault/
I_d,0,1,Stall/,Stall/,Stall/,Fault/,,SaveData/I,Fault/").

Definition shipped_tables : list (string * string) := [
  ("MSI_splitBus_snooping", MSI_splitBus_snooping_csv); ("MSI_LLC", MSI_LLC_csv);
  ("MESI_splitBus_snooping", MESI_splitBus_snooping_csv); ("MESI_LLC", MESI_LLC_csv);
  ("MSI_directory", MSI_directory_csv); ("MSI_LLC_directory", MSI_LLC_directory_csv);
  ("MESI_directory", MESI_directory_csv); ("MESI_LLC_directory", MESI_LLC_directory_csv);
  ("PMSI", PMSI_csv); ("PMSI_LLC", PMSI_LLC_csv); ("PMESI", PMESI_csv); ("PMESI_LLC", PMESI_LLC_csv);
  ("MOESI_splitBus_snooping", MOESI_splitBus_snooping_csv); ("MOESI_LLC", MOESI_LLC_csv);
  ("MOESI_directory", MOESI_directory_csv); ("MOESI_LLC_directory", MOESI_LLC_directory_csv);
  ("PMSI_asterisk", PMSI_asterisk_csv); ("PMSI_asterisk_LLC", PMSI_asterisk_LLC_csv);
  ("PMESI_asterisk", PMESI_asterisk_csv); ("PMESI_asterisk_LLC", PMESI_asterisk_LLC_csv)].

(** ** Checks *)

(** Row [i] is the row of state [i], and there is a row per state. *)
Definition rows_aligned (r : FSMReader) : bool :=
  bool_decide (m_own_state <$> m_states r = seqZ 0 (Z.of_nat (length (m_states r)))) &&
  bool_decide (length (m_states r) = size (m_stateIds r)).

(** Every transition of the row leads to a state that has a row. *)
Definition rows_closed (r : FSMReader) : bool :=
  forallb (fun st => forallb (fun t : Z * Z => (0 <=? t.2) && (t.2 <? Z.of_nat (length (m_states r))))
                       (map_to_list (transitions st))) (m_states r).

(** A cell with the Stall action does nothing else and keeps the state. *)
Definition stalls_inert (r : FSMReader) : bool :=
  match m_actionIds r !! "Stall" with
  | None => false
  | Some stall =>
      forallb (fun st => forallb (fun t : Z * list Z => negb (has_id t.2 stall) ||
                 (bool_decide (t.2 = [stall]) && (getNextState st t.1 =? m_own_state st)))
                 (map_to_list (actions st))) (m_states r)
  end.

Definition table_ok (r : FSMReader) : bool := rows_aligned r && rows_closed r.

Definition check_tables (chk : FSMReader -> bool) : list string :=
  omap (fun '(name, text) =>
    match newFSMReader (Some text) with
    | Ok r => if chk r then None else Some name
    | _ => Some name
    end) shipped_tables.

(** ** What the checks mean *)

Definition n_states (r : FSMReader) : Z := Z.of_nat (length (m_states r)).

Lemma fsm_row_Ok r s : 0 <= s < n_states r -> exists st, fsm_row r s = Ok st /\ m_states r !! Z.to_nat s = Some st.
Proof.
  intros Hs. unfold fsm_row. destruct (Z.ltb_spec s 0); [lia|].
  destruct (lookup_lt_is_Some_2 (m_states r) (Z.to_nat s)) as [st Hst]; [unfold n_states in Hs; lia|].
  rewrite Hst. eauto.
Qed.

Lemma rows_aligned_own r s st : rows_aligned r = true -> 0 <= s ->
  m_states r !! Z.to_nat s = Some st -> m_own_state st = s.
Proof.
  intros [Ha%bool_decide_eq_true _]%andb_true_iff Hs Hst.
  assert (E : (m_own_state <$> m_states r) !! Z.to_nat s = Some (m_own_state st)).
  { by rewrite list_lookup_fmap, Hst. }
  rewrite Ha in E. apply lookup_seqZ in E as [E _]. lia.
Qed.

Lemma rows_closed_next r st e : rows_aligned r = true -> rows_closed r = true ->
  st ∈ m_states r -> 0 <= getNextState st e < n_states r.
Proof.
  intros Ha Hc Hst. apply list_elem_of_lookup in Hst as [i Hi].
  assert (Hown : m_own_state st = Z.of_nat i).
  { apply (rows_aligned_own r); [done|lia|]. by rewrite Nat2Z.id. }
  pose proof (lookup_lt_Some _ _ _ Hi).
  unfold getNextState. destruct (transitions st !! e) as [t|] eqn:Et; cbn.
  - unfold rows_closed in Hc. rewrite forallb_forall in Hc.
    specialize (Hc st (proj1 (list_elem_of_In _ _) (list_elem_of_lookup_2 _ _ _ Hi))).
    rewrite forallb_forall in Hc. specialize (Hc (e, t)). cbn in Hc.
    rewrite <- list_elem_of_In, elem_of_map_to_list in Hc. specialize (Hc Et).
    apply andb_true_iff in Hc as [? ?]. unfold n_states. lia.
  - unfold n_states. lia.
Qed.

Lemma has_id_elem l i : has_id l i = true <-> i ∈ l.
Proof.
  unfold has_id. rewrite existsb_exists. split.
  - intros (x & Hx & ->%Z.eqb_eq). by apply list_elem_of_In.
  - intros Hi. exists i. rewrite Z.eqb_refl. by rewrite <- list_elem_of_In.
Qed.

Lemma stalls_inert_row r s e : rows_aligned r = true -> stalls_inert r = true ->
  isStall r s e = Ok true -> exists a, getTransition r s e = Ok (s, a) /\ length a = 1%nat.
Proof.
  intros Ha Hi. unfold isStall, getTransition. intros (st & Hst & H)%obind_Ok. rewrite Hst. cbn.
  injection H as H. unfold stalls_inert in Hi. destruct (m_actionIds r !! "Stall") as [stall|]; [|done]. cbn in H.
  assert (Hs : 0 <= s /\ m_states r !! Z.to_nat s = Some st).
  { unfold fsm_row in Hst. destruct (Z.ltb_spec s 0); [done|]. split; [done|].
    destruct (m_states r !! Z.to_nat s); [by injection Hst as ->|done]. }
  destruct Hs as [Hs Hl]. unfold getActions in *. destruct (actions st !! e) as [acts|] eqn:Ea; [|done]. cbn in *.
  rewrite forallb_forall in Hi.
  specialize (Hi st (proj1 (list_elem_of_In _ _) (list_elem_of_lookup_2 _ _ _ Hl))).
  rewrite forallb_forall in Hi. specialize (Hi (e, acts)). cbn in Hi.
  rewrite <- list_elem_of_In, elem_of_map_to_list in Hi. specialize (Hi Ea).
  rewrite H in Hi. cbn in Hi. apply andb_true_iff in Hi as [->%bool_decide_eq_true Hn%Z.eqb_eq].
  exists [stall]. rewrite Hn. by rewrite (rows_aligned_own r s st).
Qed.

Lemma check_tables_nil chk : check_tables chk = [] ->
  forall name text, (name, text) ∈ shipped_tables -> exists r, newFSMReader (Some text) = Ok r /\ chk r = true.
Proof.
  unfold check_tables. generalize shipped_tables as l.
  induction l as [|[n t] l IH]; intros Hnil name text Hin; [by apply not_elem_of_nil in Hin|].
  cbn [omap list_omap] in Hnil. destruct (newFSMReader (Some t)) as [r|?|?] eqn:E; try done.
  destruct (chk r) eqn:Ec; [|done].
  apply elem_of_cons in Hin as [[= -> ->]|Hin]; [by exists r|]. by apply (IH Hnil name).
Qed.


Lemma MSI_in_shipped : ("MSI_splitBus_snooping", MSI_splitBus_snooping_csv) ∈ shipped_tables.
Proof. by left. Qed.


(** In every shipped table a stalled event changes nothing: its transition
    keeps the state and its only action is the stall. *)
Theorem shipped_tables_stall_inert name text : (name, text) ∈ shipped_tables ->
  exists r, newFSMReader (Some text) = Ok r /\
    forall s e, isStall r s e = Ok true ->
      exists a, getTransition r s e = Ok (s, a) /\ length a = 1%nat.
Proof.
  intros Hin.
  destruct (check_tables_nil (fun r => rows_aligned r && stalls_inert r)) with name text as (r & Hr & Hok);
    [by vm_compute|done|].
  exists r. split; [done|]. intros s e. apply andb_true_iff in Hok as [Ha Hi]. by apply stalls_inert_row.
Qed.

Lemma shipped_tables_stall_inert_witness :
  exists r, newFSMReader (Some MSI_splitBus_snooping_csv) = Ok r /\
    forall s e, isStall r s e = Ok true ->
      exists a, getTransition r s e = Ok (s, a) /\ length a = 1%nat.
Proof. apply (shipped_tables_stall_inert "MSI_splitBus_snooping"). apply MSI_in_shipped. Defined.
