(* ===== verification/Protocol.v ===== *)
(** * Coherence protocol handlers: the common part

    [ControllerAction.h] and [class CoherenceProtocolHandler].  What a handler
    promises to a cache controller is the class [CoherenceProtocol]; the data
    handler it reads is a [COTS] store passed to each operation. *)

From S2P Require Export Messages FrfcfsBuffer DataHandler FsmReader.

(** ** Controller actions *)

Inductive ActionType :=
| REMOVE_PENDING | HIT_Action | ADD_PENDING | SEND_BUS_MSG | WRITE_BACK | UPDATE_CACHE_LINE
| WRITE_CACHE_LINE_DATA | MODIFY_DATA | SAVE_REQ_FOR_WRITE_BACK | NO_ACTION | REMOVE_SAVED_REQ
| TIMER_ACTION | ADD_SHARER | REMOVE_SHARER | SEND_INV_MSG | STALL | ADD_DATA2MSG | SET_ACK_NUMBER
| DECREMENT_ACK | INCREMENT_SHARERS | DECREMENT_SHARERS | SET_SHARERS | CLEAR_SHARERS
| SEND_FWD_MESSAGE | REMOVE_PENDING_NORESPONSE.
#[export] Instance ActionType_eq_dec : EqDecision ActionType.
Proof. solve_decision. Defined.

(** [data] points at a message, at a message followed by a line, or nowhere. *)
Record ControllerAction := mkAction {
  ca_type : ActionType;
  ca_msg : option Message;
  ca_line : option GenericCacheLine }.

Definition act (t : ActionType) (m : Message) : ControllerAction := mkAction t (Some m) None.
Definition act_line (t : ActionType) (m : Message) (l : GenericCacheLine) : ControllerAction :=
  mkAction t (Some m) (Some l).
Definition act_none : ControllerAction := mkAction NO_ACTION None None.

(** [Message()], and [new Message(msg)] / [(new Message())->copy(msg)]. *)
Definition defaultMessage : Message := newMessage 0 0 0 0 0.
Definition dup (m : Message) : Message := Message_copy m defaultMessage.

Lemma dup_wf m : msg_wf m -> dup m = m.
Proof. apply Message_copy_wf_id. Qed.

(** ** The handler *)

Record ProtocolState := mkProtocol {
  p_id : Z;                    (* int m_id *)
  m_shared_memory_id : Z;      (* int *)
  m_fsm : FSMReader }.

(** [CacheControllerDirectory]'s maps, keyed by line: the cores that share it and
    the acknowledgements outstanding ([int64_t]).  A directory protocol holds
    pointers to them: every operation is given the controller's maps. *)
Record DirCounters := mkCounters {
  m_sharers : gmap Z (list Z);
  m_ack_counters : gmap Z Z }.
Definition noCounters : DirCounters := mkCounters ∅ ∅.

Class CoherenceProtocol (P : Type) := {
  proto_state : P -> ProtocolState;
  (** [request_msg] is a reference: the handler may write to it. *)
  processRequest : P -> DirCounters -> COTS -> Message -> outcome (Message * list ControllerAction);
  getRequestState : P -> DirCounters -> COTS -> Message -> FRFCFS_State -> outcome (FRFCFS_State * Message);
  createDefaultCacheLine : P -> COTS -> GenericCacheLine -> GenericCacheLine;
  isReadableState : P -> Z -> outcome bool;
  needsDataArray : P -> DirCounters -> COTS -> Message -> outcome bool }.

(** [CoherenceProtocolHandler::initializeCacheStates] *)
Definition protocol_initializeCacheStates (p : ProtocolState) (s : COTS) : COTS :=
  set_base (initializeCacheStates (getState (m_fsm p) "I") (base s)) s.

(** The line the handlers look up: a default line when the block is nowhere. *)
Definition line_bits (s : COTS) (address : Z) : GenericCacheLine := snd (readLineBits address newLine s).

(** The [for ... erase ... break] loops: the list without the first [a], and
    whether there was one. *)
Fixpoint erase_first (a : Z) (l : list Z) : bool * list Z :=
  match l with
  | [] => (false, [])
  | b :: l' => if b =? a then (true, l') else let '(r, l'') := erase_first a l' in (r, b :: l'')
  end.
