(* ===== verification/SnoopL1.v ===== *)
(** * Private-cache snooping protocols

    [MSIProtocol] and the classes derived from it: [MESIProtocol],
    [MOESIProtocol], [PMSIProtocol], [PMESIProtocol], [PMSIAsteriskProtocol] and
    [PMESIAsteriskProtocol].  One Module per class that overrides something;
    [L1Protocol] is the object, with its dynamic class. *)

From S2P Require Export Protocol.

(** ** [MSIProtocol] *)

Module MSI.
Definition REQUEST_TYPE_GETS : Z := 0.
Definition REQUEST_TYPE_GETM : Z := 1.
Definition REQUEST_TYPE_PUTM : Z := 2.
Definition REQUEST_TYPE_INV : Z := 10.

(** [enum class EventId] *)
Definition Load : Z := 0.
Definition Store : Z := 1.
Definition Replacement : Z := 2.
Definition Own_GetS : Z := 3.
Definition Own_GetM : Z := 4.
Definition Own_PutM : Z := 5.
Definition Other_GetS : Z := 6.
Definition Other_GetM : Z := 7.
Definition Other_PutM : Z := 8.
Definition OwnData : Z := 9.
Definition Invalidation : Z := 10.

(** [enum class ActionId] *)
Definition Stall : Z := 0.
Definition Hit : Z := 1.
Definition GetS : Z := 2.
Definition GetM : Z := 3.
Definition PutM : Z := 4.
Definition Data2Req : Z := 5.
Definition Data2Both : Z := 6.
Definition SaveReq : Z := 7.
Definition Fault : Z := 8.

Definition readEvent (p : ProtocolState) (msg : Message) : outcome Z :=
  let own := msg_owner msg =? p_id p in
  match msg_source msg with
  | LOWER_INTERCONNECT => Ok (if complementary_value msg =? 0 then Load else Store)
  | SELF => if own then Ok Replacement else Exit "LLCMSIDirectory: Invalid Transaction"
  | UPPER_INTERCONNECT =>
      if has_data msg then Ok OwnData
      else if complementary_value msg =? REQUEST_TYPE_GETS then Ok (if own then Own_GetS else Other_GetS)
      else if complementary_value msg =? REQUEST_TYPE_GETM then Ok (if own then Own_GetM else Other_GetM)
      else if complementary_value msg =? REQUEST_TYPE_PUTM then Ok (if own then Own_PutM else Other_PutM)
      else if complementary_value msg =? REQUEST_TYPE_INV then Ok Invalidation
      else Exit "MSIProtocol: Invalid Transaction detected on the Bus"
  end.

(** A request on the bus: [new Message(id, addr, 0, cv, m_id)] to the shared memory. *)
Definition bus_request (p : ProtocolState) (msg : Message) (cv : Z) (k : Kind) : Message :=
  set_msg_kind k (push_to (m_shared_memory_id p)
    (newMessage (msg_id msg) (msg_addr msg) 0 cv (w16 (p_id p)))).

Definition write_back_kind (msg : Message) : Kind :=
  if has_data msg then K_SUPPLY_DEFERRED
  else if complementary_value msg =? REQUEST_TYPE_PUTM then K_WB_DATA
  else if complementary_value msg =? REQUEST_TYPE_INV then K_WB_INV
  else K_SUPPLY.

Definition write_back (p : ProtocolState) (both : bool) (msg : Message) : Message :=
  let m := set_msg_to [] (set_msg_kind (write_back_kind msg) (dup msg)) in
  if both then push_to (m_shared_memory_id p) m else m.

(** One iteration of the [switch]: the actions collected so far are extended at
    the end, or at the front for a write-back. *)
Definition action_step (p : ProtocolState) (msg : Message) (acts : list ControllerAction) (a : Z)
    : outcome (list ControllerAction) :=
  if a =? Stall then Ok (acts ++ [act STALL (dup msg)])
  else if a =? Hit then
    Ok (acts ++ [act (if decide (msg_source msg = LOWER_INTERCONNECT) then HIT_Action else REMOVE_PENDING) (dup msg);
                 act MODIFY_DATA (dup msg)])
  else if (a =? GetS) || (a =? GetM) then
    Ok (acts ++ [act ADD_PENDING (dup msg);
                 act SEND_BUS_MSG (if a =? GetS then bus_request p msg REQUEST_TYPE_GETS K_GETS
                                   else bus_request p msg REQUEST_TYPE_GETM K_GETM)])
  else if a =? PutM then Ok (acts ++ [act SEND_BUS_MSG (bus_request p msg REQUEST_TYPE_PUTM K_PUTM)])
  else if (a =? Data2Req) || (a =? Data2Both) then
    Ok (act WRITE_BACK (write_back p (a =? Data2Both) msg) :: acts)
  else if a =? SaveReq then
    Ok (acts ++ [act SAVE_REQ_FOR_WRITE_BACK
          (newMessage (msg_id msg) (msg_addr msg) 0 (complementary_value msg) (msg_owner msg))])
  else if a =? Fault then Exit "MSIProtocol: Fault Transaction is detected"
  else Crash "action without a case".

Definition stalled (acts : list Z) : bool :=
  match acts with a :: _ => a =? Stall | [] => false end.

Definition handleAction (p : ProtocolState) (actions : list Z) (msg : Message)
    (cache_line : GenericCacheLine) (next_state : Z) : outcome (list ControllerAction) :=
  let! start :=
    (if stalled actions then Ok []
     else let! v := isValidState (m_fsm p) next_state in
          Ok [act_line UPDATE_CACHE_LINE (dup msg)
                (copy (set_state next_state (set_valid v cache_line)) newLine)]) in
  ofold (action_step p msg) actions start.
End MSI.

(** ** [MESIProtocol] *)

Module MESI.
Definition OwnData_Execlusive : Z := 11.
Definition removeSavedReq : Z := 9.

(** The message is written to: the exclusive mark is cleared. *)
Definition readEvent (p : ProtocolState) (msg : Message) : outcome (Z * Message) :=
  let! e := MSI.readEvent p msg in
  let e := if e =? MSI.OwnData
           then if complementary_value msg =? 2 then OwnData_Execlusive else MSI.OwnData else e in
  Ok (e, if e =? OwnData_Execlusive then set_msg_cv 0 msg else msg).

Definition handleAction (p : ProtocolState) (actions : list Z) (msg : Message)
    (cache_line : GenericCacheLine) (next_state : Z) : outcome (list ControllerAction) :=
  let '(remove_saved_request, actions) := erase_first removeSavedReq actions in
  let! acts := MSI.handleAction p actions msg cache_line next_state in
  Ok (if remove_saved_request : bool then acts ++ [act REMOVE_SAVED_REQ (dup msg)] else acts).
End MESI.

(** ** [PMSIProtocol] and [PMESIProtocol] *)

Module PMSI.
Definition PutM_nonDem : Z := 9.

Definition handleAction (p : ProtocolState) (actions : list Z) (msg : Message)
    (cache_line : GenericCacheLine) (next_state : Z) : outcome (list ControllerAction) :=
  let '(putm_non_demanding, actions) := erase_first PutM_nonDem actions in
  let! acts := MSI.handleAction p actions msg cache_line next_state in
  Ok (if putm_non_demanding : bool
      then acts ++ [act SEND_BUS_MSG (push_to (m_shared_memory_id p)
             (newMessage (msg_id msg) (msg_addr msg) 0 PutM_nonDem (w16 (p_id p))))]
      else acts).
End PMSI.

Module PMESI.
(** [PMESIProtocol::handleAction] also calls [MSIProtocol]'s. *)
Definition handleAction (p : ProtocolState) (actions : list Z) (msg : Message)
    (cache_line : GenericCacheLine) (next_state : Z) : outcome (list ControllerAction) :=
  let '(putm_non_demanding, actions) := erase_first PMSI.PutM_nonDem actions in
  let! acts := MSI.handleAction p actions msg cache_line next_state in
  Ok (if putm_non_demanding : bool
      then acts ++ [act SEND_BUS_MSG (push_to (m_shared_memory_id p)
             (newMessage (msg_id msg) (msg_addr msg) 0 PMSI.PutM_nonDem (w16 (p_id p))))]
      else acts).
End PMESI.

(** ** The asterisk variants: data from memory or from a cache *)

Module PMSIAsterisk.
Definition RDM : Z := 9.
Definition RDC : Z := 10.

(** [msg.to[0]] of an empty vector is undefined. *)
Definition first_to (msg : Message) : outcome Z :=
  match msg_to msg with t :: _ => Ok t | [] => Crash "vector index out of range" end.

Definition readEvent (p : ProtocolState) (msg : Message) : outcome Z :=
  let! e := MSI.readEvent p msg in
  if e =? MSI.OwnData
  then let! t := first_to msg in Ok (if t =? m_shared_memory_id p then RDM else RDC)
  else Ok e.
End PMSIAsterisk.

Module PMESIAsterisk.
Definition RDM : Z := 9.
Definition RDM_Execlusive : Z := 10.
Definition RDC : Z := 11.

Definition readEvent (p : ProtocolState) (msg : Message) : outcome (Z * Message) :=
  let! (e, msg') := MESI.readEvent p msg in
  if e =? MSI.OwnData
  then let! t := PMSIAsterisk.first_to msg' in Ok (if t =? m_shared_memory_id p then RDM else RDC, msg')
  else if e =? MESI.OwnData_Execlusive then Ok (RDM_Execlusive, msg')
  else Ok (e, msg').
End PMESIAsterisk.

(** ** Virtual dispatch *)

Inductive L1Class :=
| MSIProtocol | MESIProtocol | MOESIProtocol | PMSIProtocol | PMESIProtocol
| PMSIAsteriskProtocol | PMESIAsteriskProtocol.
#[export] Instance L1Class_eq_dec : EqDecision L1Class.
Proof. solve_decision. Defined.

Definition L1Protocol : Type := L1Class * ProtocolState.

Definition L1_readEvent (p : L1Protocol) (msg : Message) : outcome (Z * Message) :=
  match p with
  | (MSIProtocol, q) | (PMSIProtocol, q) => let! e := MSI.readEvent q msg in Ok (e, msg)
  | (MESIProtocol, q) | (MOESIProtocol, q) | (PMESIProtocol, q) => MESI.readEvent q msg
  | (PMSIAsteriskProtocol, q) => let! e := PMSIAsterisk.readEvent q msg in Ok (e, msg)
  | (PMESIAsteriskProtocol, q) => PMESIAsterisk.readEvent q msg
  end.

Definition L1_handleAction (p : L1Protocol) (actions : list Z) (msg : Message)
    (cache_line : GenericCacheLine) (next_state : Z) : outcome (list ControllerAction) :=
  match p with
  | (MSIProtocol, q) | (PMSIAsteriskProtocol, q) => MSI.handleAction q actions msg cache_line next_state
  | (MESIProtocol, q) | (MOESIProtocol, q) | (PMESIAsteriskProtocol, q) =>
      MESI.handleAction q actions msg cache_line next_state
  | (PMSIProtocol, q) => PMSI.handleAction q actions msg cache_line next_state
  | (PMESIProtocol, q) => PMESI.handleAction q actions msg cache_line next_state
  end.

(** [statesRequireWriteBack]: every class adds to its base's. *)
Definition MSI_statesRequireWriteBack (r : FSMReader) : list Z := [getState r "M"].
Definition MESI_statesRequireWriteBack (r : FSMReader) : list Z := MSI_statesRequireWriteBack r ++ [getState r "E"].
Definition MOESI_statesRequireWriteBack (r : FSMReader) : list Z := MESI_statesRequireWriteBack r ++ [getState r "O"].
Definition statesRequireWriteBack (p : L1Protocol) : list Z :=
  match fst p with
  | MSIProtocol | PMSIProtocol | PMSIAsteriskProtocol => MSI_statesRequireWriteBack (m_fsm (snd p))
  | MESIProtocol | PMESIProtocol | PMESIAsteriskProtocol => MESI_statesRequireWriteBack (m_fsm (snd p))
  | MOESIProtocol => MOESI_statesRequireWriteBack (m_fsm (snd p))
  end.

Definition L1_processRequest (p : L1Protocol) (s : COTS) (request_msg : Message)
    : outcome (Message * list ControllerAction) :=
  let cache_line := line_bits s (msg_addr request_msg) in
  let! (event_id, msg) := L1_readEvent p request_msg in
  let! (next_state, actions) := getTransition (m_fsm (snd p)) (state cache_line) event_id in
  let! acts := L1_handleAction p actions msg cache_line next_state in
  Ok (msg, acts).

Definition L1_getRequestState (p : L1Protocol) (s : COTS) (msg : Message) (req_state : FRFCFS_State)
    : outcome (FRFCFS_State * Message) :=
  let cache_line := line_bits s (msg_addr msg) in
  let! (event_id, msg') := L1_readEvent p msg in
  let! b := isStall (m_fsm (snd p)) (state cache_line) event_id in
  Ok (if b : bool then NonReady else FrfcfsBuffer.Ready, msg').

Definition L1_isReadableState (p : L1Protocol) (st : Z) : outcome bool :=
  isHit (m_fsm (snd p)) st MSI.Load.

Definition L1_needsDataArray (p : L1Protocol) (s : COTS) (msg : Message) : outcome bool :=
  let cache_line := line_bits s (msg_addr msg) in
  let! (ev, _) := L1_readEvent p msg in
  let r := m_fsm (snd p) in
  let! h := hasAction r (state cache_line) ev "Hit" in
  let! q := hasAction r (state cache_line) ev "Data2Req" in
  let! b := hasAction r (state cache_line) ev "Data2Both" in
  Ok (h || q || b).

#[export] Instance L1_protocol : CoherenceProtocol L1Protocol := {|
  proto_state := snd;
  processRequest p _ := L1_processRequest p;
  getRequestState p _ := L1_getRequestState p;
  createDefaultCacheLine _ _ l := l;
  isReadableState := L1_isReadableState;
  needsDataArray p _ := L1_needsDataArray p |}.
