(* ===== verification/SnoopLLC.v ===== *)
(** * Shared-cache snooping protocols

    [LLCMSIProtocol] and the classes derived from it: [LLCMESIProtocol],
    [LLCPMSIProtocol] and [LLCPMESIProtocol]. *)

From S2P Require Export Protocol SnoopL1.

(** ** [LLCMSIProtocol] *)

Module LLCMSI.
(** [enum class EventId] *)
Definition GetS : Z := 0.
Definition GetM : Z := 1.
Definition Replacement : Z := 2.
Definition PutM_fromOwner : Z := 3.
Definition PutM_fromNonOwner : Z := 4.
Definition Data_fromLowerInterface : Z := 5.
Definition Data_fromUpperInterface : Z := 6.
Definition Own_Invalidation : Z := 7.

(** [enum class ActionId] *)
Definition Stall : Z := 0.
Definition GetData : Z := 1.
Definition SendData : Z := 2.
Definition SaveData : Z := 3.
Definition SetOwner : Z := 4.
Definition ClearOwner : Z := 5.
Definition IssueInv : Z := 6.
Definition WriteBack : Z := 7.
Definition Fault : Z := 8.

(** Where the code prints a diagnostic and goes on, [*out_id] is left unset. *)
Definition unset {A} : outcome A := Crash "event id read before it is set".

Definition readEvent (p : ProtocolState) (msg : Message) (cache_line : GenericCacheLine) : outcome Z :=
  let own := msg_owner msg =? p_id p in
  match msg_source msg with
  | SELF => if own then Ok Replacement else unset
  | UPPER_INTERCONNECT => if has_data msg then Ok Data_fromUpperInterface else unset
  | LOWER_INTERCONNECT =>
      if has_data msg then Ok Data_fromLowerInterface
      else if complementary_value msg =? MSI.REQUEST_TYPE_GETS then Ok GetS
      else if complementary_value msg =? MSI.REQUEST_TYPE_GETM then Ok GetM
      else if complementary_value msg =? MSI.REQUEST_TYPE_PUTM then
        if own then Ok Replacement
        else Ok (if msg_owner msg =? owner_id cache_line then PutM_fromOwner else PutM_fromNonOwner)
      else if complementary_value msg =? MSI.REQUEST_TYPE_INV then
        if own then Ok Own_Invalidation else unset
      else Exit "LLCMSIProtocol: Invalid Transaction detected on the Bus"
  end.

(** The answer to the requester. *)
Definition response (msg : Message) : Message :=
  set_msg_kind K_RESP (push_to (msg_owner msg) (set_msg_to [] (dup msg))).
Definition response_type (msg : Message) : ActionType :=
  if decide (msg_source msg = LOWER_INTERCONNECT) then HIT_Action else REMOVE_PENDING.

Definition write_back (msg : Message) : Message :=
  let m := newMessage (msg_id msg) (msg_addr msg) 0 0 (msg_owner msg) in
  set_msg_kind K_MEM_WRITE (match msg_data msg with Some d => copy_bytes d 64 m | None => m end).

(** One iteration of the [switch]; the line's owner is written on the way. *)
Definition action_step (p : ProtocolState) (msg : Message) (s : list ControllerAction * GenericCacheLine) (a : Z)
    : outcome (list ControllerAction * GenericCacheLine) :=
  let '(acts, line) := s in
  if a =? Stall then Exit "LLCMSIProtocol: Stall Transaction is detected"
  else if a =? SendData then Ok (acts ++ [act (response_type msg) (response msg)], line)
  else if a =? GetData then
    Ok (acts ++ [act ADD_PENDING (dup msg);
                 act SEND_BUS_MSG (set_msg_kind K_MEM_READ (push_to (m_shared_memory_id p)
                   (newMessage (msg_id msg) (msg_addr msg) 0 (w16 a) (msg_owner msg))))], line)
  else if a =? SetOwner then Ok (acts ++ [act_none], set_owner_id (msg_owner msg) line)
  else if a =? ClearOwner then Ok (acts ++ [act_none], set_owner_id (-1) line)
  else if a =? SaveData then Ok (acts ++ [act_none], line)
  else if a =? IssueInv then
    Ok (acts ++ [act SEND_INV_MSG (set_msg_kind K_INV (push_to (p_id p)
           (newMessage (msg_id msg) (msg_addr msg) 0 MSI.REQUEST_TYPE_INV (w16 (p_id p)))))], line)
  else if a =? WriteBack then Ok (acts ++ [act WRITE_BACK (write_back msg)], line)
  else if a =? Fault then Exit "LLCMSIProtocol: Fault Transaction is detected"
  else Crash "action without a case".

Definition handleAction (p : ProtocolState) (actions : list Z) (msg : Message)
    (cache_line : GenericCacheLine) (next_state : Z) : outcome (list ControllerAction) :=
  let! (acts, line) := ofold (action_step p msg) actions ([], cache_line) in
  let! v := isValidState (m_fsm p) next_state in
  Ok (acts ++ [act_line UPDATE_CACHE_LINE (dup msg) (copy (set_state next_state (set_valid v line)) newLine)]).
End LLCMSI.

(** ** The derived classes *)

Module LLCMESI.
Definition SendExeclusiveData : Z := 9.

Definition exclusive_response (msg : Message) : Message :=
  set_msg_cv 2 (push_to (msg_owner msg) (set_msg_to [] (dup msg))).

Definition handleAction (p : ProtocolState) (actions : list Z) (msg : Message)
    (cache_line : GenericCacheLine) (next_state : Z) : outcome (list ControllerAction) :=
  let '(execlusiveData, actions) := erase_first SendExeclusiveData actions in
  let! acts := LLCMSI.handleAction p actions msg cache_line next_state in
  Ok (if execlusiveData : bool
      then acts ++ [act (LLCMSI.response_type msg) (exclusive_response msg)] else acts).
End LLCMESI.

Module LLCPMSI.
Definition WaitData : Z := 9.

Definition handleAction (p : ProtocolState) (actions : list Z) (msg : Message)
    (cache_line : GenericCacheLine) (next_state : Z) : outcome (list ControllerAction) :=
  let '(wait_data, actions) := erase_first WaitData actions in
  let! acts := LLCMSI.handleAction p actions msg cache_line next_state in
  Ok (if wait_data : bool then acts ++ [act ADD_PENDING (dup msg)] else acts).
End LLCPMSI.

Module LLCPMESI.
Definition WaitData : Z := 9.
Definition SendExeclusiveData : Z := 10.

(** Calls [LLCMSIProtocol::handleAction], not its base class's. *)
Definition handleAction (p : ProtocolState) (actions : list Z) (msg : Message)
    (cache_line : GenericCacheLine) (next_state : Z) : outcome (list ControllerAction) :=
  let '(wait_data, actions) := erase_first WaitData actions in
  let '(execlusiveData, actions) := erase_first SendExeclusiveData actions in
  let! acts := LLCMSI.handleAction p actions msg cache_line next_state in
  let acts := if wait_data : bool then acts ++ [act ADD_PENDING (dup msg)] else acts in
  Ok (if execlusiveData : bool then acts ++ [act REMOVE_PENDING (set_msg_cv 2 (dup msg))] else acts).
End LLCPMESI.

(** ** Virtual dispatch *)

Inductive LLCClass := LLCMSIProtocol | LLCMESIProtocol | LLCPMSIProtocol | LLCPMESIProtocol.
#[export] Instance LLCClass_eq_dec : EqDecision LLCClass.
Proof. solve_decision. Defined.

Definition LLCProtocol : Type := LLCClass * ProtocolState.

Definition LLC_handleAction (p : LLCProtocol) :=
  match p with
  | (LLCMSIProtocol, q) => LLCMSI.handleAction q
  | (LLCMESIProtocol, q) => LLCMESI.handleAction q
  | (LLCPMSIProtocol, q) => LLCPMSI.handleAction q
  | (LLCPMESIProtocol, q) => LLCPMESI.handleAction q
  end.

Definition LLC_processRequest (p : LLCProtocol) (s : COTS) (request_msg : Message)
    : outcome (Message * list ControllerAction) :=
  let cache_line := line_bits s (msg_addr request_msg) in
  let! event_id := LLCMSI.readEvent (snd p) request_msg cache_line in
  let! (next_state, actions) := getTransition (m_fsm (snd p)) (state cache_line) event_id in
  let! acts := LLC_handleAction p actions request_msg cache_line next_state in
  Ok (request_msg, acts).

(** A message that carries data is [Ready] whatever the table says. *)
Definition LLC_getRequestState (p : LLCProtocol) (s : COTS) (msg : Message) (req_state : FRFCFS_State)
    : outcome (FRFCFS_State * Message) :=
  let cache_line := line_bits s (msg_addr msg) in
  let! event_id := LLCMSI.readEvent (snd p) msg cache_line in
  if has_data msg then Ok (FrfcfsBuffer.Ready, msg)
  else
    let! b := isStall (m_fsm (snd p)) (state cache_line) event_id in
    Ok (if b : bool then NonReady else FrfcfsBuffer.Ready, msg).

Definition LLC_needsDataArray (p : LLCProtocol) (s : COTS) (msg : Message) : outcome bool :=
  let cache_line := line_bits s (msg_addr msg) in
  let! ev := LLCMSI.readEvent (snd p) msg cache_line in
  let r := m_fsm (snd p) in
  let! d := hasAction r (state cache_line) ev "SendData" in
  let! e := hasAction r (state cache_line) ev "SendExeclusiveData" in
  let! v := hasAction r (state cache_line) ev "SaveData" in
  Ok (d || e || v).

(** The default line of a block the LLC admits without data. *)
Definition LLC_createDefaultCacheLine (p : LLCProtocol) (s : COTS) (l : GenericCacheLine) : GenericCacheLine :=
  let name := match fst p with
              | LLCMSIProtocol | LLCPMSIProtocol => "IorS"
              | LLCMESIProtocol | LLCPMESIProtocol => "I"
              end%string in
  set_valid true (set_state (getState (m_fsm (snd p)) name) (initializeCacheLine (base s) l)).

#[export] Instance LLC_protocol : CoherenceProtocol LLCProtocol := {|
  proto_state := snd;
  processRequest p _ := LLC_processRequest p;
  getRequestState p _ := LLC_getRequestState p;
  createDefaultCacheLine := LLC_createDefaultCacheLine;
  isReadableState _ _ := Ok false;
  needsDataArray p _ := LLC_needsDataArray p |}.
