(* ===== verification/SnoopTheory.v ===== *)
(** * Properties of the snooping protocol handlers

    Shape of the actions a handler emits, agreement of the readiness test with
    the processing, and what the shipped tables add to the handlers. *)

From S2P Require Export FsmTables SnoopLLC DataHandlerView.

(** ** Emission *)

Lemma erase_first_elem a l b : b ∈ (erase_first a l).2 -> b ∈ l.
Proof.
  induction l as [|c l IH]; cbn; [done|].
  destruct (Z.eqb_spec c a); cbn; [by right|].
  destruct (erase_first a l) as [r l']. cbn in *. intros [->|H]%elem_of_cons; [by left|right; auto].
Qed.

Definition is_wb (a : ControllerAction) : Prop := ca_type a = WRITE_BACK.

(** The state of the loop: write-backs first, then the rest. *)
Definition wb_first (n : nat) (acts : list ControllerAction) (first : list ControllerAction) : Prop :=
  exists wbs rest, acts = wbs ++ first ++ rest /\ length wbs = n /\
    Forall is_wb wbs /\ Forall (fun a => ~ is_wb a) rest.

Definition data_action (a : Z) : bool := (a =? MSI.Data2Req) || (a =? MSI.Data2Both).

Lemma MSI_step_wb_first p msg acts a acts' n first :
  wb_first n acts first -> MSI.action_step p msg acts a = Ok acts' ->
  wb_first (if data_action a then S n else n) acts' first.
Proof.
  intros (wbs & rest & -> & Hn & Hwb & Hrest) Hs. unfold MSI.action_step in Hs.
  assert (Htail : forall new, Forall (fun b => ~ is_wb b) new ->
    Ok ((wbs ++ first ++ rest) ++ new) = Ok acts' -> data_action a = false ->
    wb_first (if data_action a then S n else n) acts' first).
  { intros new Hnew [= <-] ->. exists wbs, (rest ++ new). rewrite <- !app_assoc. split_and!; try done.
    by apply Forall_app. }
  destruct (Z.eqb_spec a MSI.Stall) as [->|].
  { eapply Htail; [|exact Hs|done]. by constructor. }
  destruct (Z.eqb_spec a MSI.Hit) as [->|].
  { eapply Htail; [|exact Hs|done]. unfold is_wb. repeat constructor; cbn; [by case_decide|done]. }
  destruct ((a =? MSI.GetS) || (a =? MSI.GetM)) eqn:E.
  { eapply Htail; [|exact Hs|].
    - repeat constructor; done.
    - apply orb_true_iff in E as [->%Z.eqb_eq| ->%Z.eqb_eq]; done. }
  destruct (Z.eqb_spec a MSI.PutM) as [->|].
  { eapply Htail; [|exact Hs|done]. by constructor. }
  fold (data_action a) in Hs. destruct (data_action a) eqn:Ed.
  { injection Hs as <-. exists (act WRITE_BACK (MSI.write_back p (a =? MSI.Data2Both) msg) :: wbs), rest.
    split_and!; [done|cbn; lia|by constructor|done]. }
  destruct (Z.eqb_spec a MSI.SaveReq) as [->|].
  { eapply Htail; [|exact Hs|done]. by constructor. }
  by destruct (a =? MSI.Fault).
Qed.

Lemma MSI_loop_wb_first p msg actions : forall acts acts' n first,
  wb_first n acts first -> ofold (MSI.action_step p msg) actions acts = Ok acts' ->
  wb_first (length (filter (fun a => data_action a = true) actions) + n) acts' first.
Proof.
  induction actions as [|a actions IH]; intros acts acts' n first Hwf; cbn [ofold].
  { by intros [= <-]. }
  intros (acts1 & H1 & H2)%obind_Ok. eapply MSI_step_wb_first in H1; [|done].
  apply (IH acts1 acts' _ first H1) in H2. rewrite filter_cons.
  destruct (data_action a) eqn:E.
  - rewrite decide_True by done. cbn [length]. by rewrite Nat.add_succ_l, <- Nat.add_succ_r.
  - by rewrite decide_False.
Qed.

(** A snooped line is read before it changes.  The actions of a transition
    that is not a stall are: one write-back per data action of the table cell,
    then the update of the line to the next state with the validity of that
    state, then the others, none of which is a write-back. *)
Theorem MSI_writebacks_before_update p actions msg line next acts :
  MSI.stalled actions = false ->
  MSI.handleAction p actions msg line next = Ok acts ->
  exists wbs rest line',
    acts = wbs ++ act_line UPDATE_CACHE_LINE (dup msg) line' :: rest /\
    Forall is_wb wbs /\ length wbs = length (filter (fun a => data_action a = true) actions) /\
    Forall (fun a => ~ is_wb a) rest /\
    state line' = next /\ Ok (valid line') = isValidState (m_fsm p) next.
Proof.
  unfold MSI.handleAction. intros ->. intros (start & (v & Hv & [= <-])%obind_Ok & H)%obind_Ok.
  set (line' := copy (set_state next (set_valid v line)) newLine) in H.
  apply (MSI_loop_wb_first p msg actions _ _ 0 [act_line UPDATE_CACHE_LINE (dup msg) line']) in H as
    (wbs & rest & -> & Hn & Hwb & Hrest); [|by exists [], []].
  exists wbs, rest, line'. split_and!; try done; [lia|..].
  - subst line'. unfold copy. by destruct (line_data _).
  - rewrite Hv. subst line'. unfold copy. by destruct (line_data _).
Qed.

(** ** Readiness *)

(** The actions of type STALL come from the stall action of the table. *)
Lemma MSI_step_no_stall p msg acts a acts' : a <> MSI.Stall ->
  Forall (fun c => ca_type c <> STALL) acts -> MSI.action_step p msg acts a = Ok acts' ->
  Forall (fun c => ca_type c <> STALL) acts'.
Proof.
  intros Ha Hacts Hs. unfold MSI.action_step in Hs. rewrite (proj2 (Z.eqb_neq _ _) Ha) in Hs.
  repeat case_match; try done; injection Hs as <-; rewrite ?Forall_app; split_and?;
    try done; repeat constructor; cbn; try case_decide; done.
Qed.

Lemma MSI_handle_no_stall p actions msg line next acts : MSI.Stall ∉ actions ->
  MSI.handleAction p actions msg line next = Ok acts ->
  Forall (fun c => ca_type c <> STALL) acts.
Proof.
  intros Hno. unfold MSI.handleAction. intros (start & Hstart & H)%obind_Ok.
  assert (Hs : Forall (fun c => ca_type c <> STALL) start).
  { destruct (MSI.stalled actions); [by injection Hstart as <-|].
    apply obind_Ok in Hstart as (v & _ & [= <-]). by repeat constructor. }
  eapply (ofold_inv (Forall (fun c => ca_type c <> STALL))); [|exact Hs|exact H].
  intros t a t' Ha Ht. apply MSI_step_no_stall; [|done]. by intros ->.
Qed.

Lemma L1_handle_no_stall p actions msg line next acts : MSI.Stall ∉ actions ->
  L1_handleAction p actions msg line next = Ok acts ->
  Forall (fun c => ca_type c <> STALL) acts.
Proof.
  intros Hno. destruct p as [cls q].
  assert (Herase : forall k (f : bool -> list ControllerAction -> list ControllerAction),
    (forall b l, Forall (fun c => ca_type c <> STALL) l -> Forall (fun c => ca_type c <> STALL) (f b l)) ->
    (let '(b, l) := erase_first k actions in
     let! acts := MSI.handleAction q l msg line next in Ok (f b acts)) = Ok acts ->
    Forall (fun c => ca_type c <> STALL) acts).
  { intros k f Hf H. pose proof (erase_first_elem k actions MSI.Stall) as He.
    destruct (erase_first k actions) as [b l]. cbn in He.
    apply obind_Ok in H as (acts0 & H0 & [= <-]). apply Hf.
    eapply MSI_handle_no_stall; [|exact H0]. auto. }
  destruct cls; cbn; [by apply MSI_handle_no_stall|..|by apply MSI_handle_no_stall|];
    (eapply Herase; intros [] l Hl; cbn; rewrite ?Forall_app; split_and?; try done; by repeat constructor).
Qed.

(** The stall action is numbered 0 and stalled cells do nothing else. *)
Definition stall_table (r : FSMReader) : Prop :=
  m_actionIds r !! "Stall"%string = Some MSI.Stall /\ rows_aligned r = true /\ stalls_inert r = true.

Lemma stall_table_row r s e row : stall_table r -> fsm_row r s = Ok row ->
  has_id (getActions row e) MSI.Stall = true -> getActions row e = [MSI.Stall].
Proof.
  intros (Hid & Ha & Hi) Hrow Hh.
  destruct (stalls_inert_row r s e Ha Hi) as (a & Ht & Hlen).
  { unfold isStall. rewrite Hrow, Hid. cbn. by rewrite Hh. }
  unfold getTransition in Ht. rewrite Hrow in Ht. cbn in Ht. injection Ht as _ <-.
  destruct (getActions row e) as [|x [|? ?]]; try done.
  apply has_id_elem, list_elem_of_singleton in Hh. by rewrite <- Hh.
Qed.

Lemma L1_handle_stall p msg line next acts :
  L1_handleAction p [MSI.Stall] msg line next = Ok acts -> acts = [act STALL (dup msg)].
Proof. destruct p as [[] q]; cbn; by intros [= <-]. Qed.

(** The readiness test is honest.  With a stall table (every shipped table
    is one), processing in the same state a message the test found ready issues
    no stall, and processing one it refused issues a stall and nothing else. *)
Theorem L1_ready_iff_no_stall p s m st r m' msg acts :
  stall_table (m_fsm (snd p)) ->
  L1_getRequestState p s m st = Ok (r, m') ->
  L1_processRequest p s m = Ok (msg, acts) ->
  msg = m' /\
  (r = FrfcfsBuffer.Ready /\ Forall (fun c => ca_type c <> STALL) acts \/
   r = NonReady /\ acts = [act STALL (dup msg)]).
Proof.
  intros Htab. unfold L1_getRequestState, L1_processRequest, isStall, getTransition.
  intros ([e m1] & He & (b & (row & Hrow & [= <-])%obind_Ok & [= <- <-])%obind_Ok)%obind_Ok.
  rewrite He, Hrow. cbn. intros (acts' & Hacts & [= <- <-])%obind_Ok.
  rewrite (proj1 Htab). cbn. split; [done|].
  destruct (has_id (getActions row e) MSI.Stall) eqn:Eh; [right|left]; split; try done.
  - rewrite (stall_table_row _ _ _ _ Htab Hrow Eh) in Hacts. by apply L1_handle_stall in Hacts.
  - eapply L1_handle_no_stall; [|exact Hacts]. intros Hin%has_id_elem. congruence.
Qed.

(** The classes whose [readEvent] leaves the message alone. *)
Definition pure_readEvent (c : L1Class) : bool :=
  match c with MSIProtocol | PMSIProtocol | PMSIAsteriskProtocol => true | _ => false end.

Lemma readEvent_pure p m e m' : pure_readEvent (fst p) = true -> L1_readEvent p m = Ok (e, m') -> m' = m.
Proof. destruct p as [[] q]; try done; intros _ (? & _ & [= _ <-])%obind_Ok; done. Qed.

(** The obligation of the rescan-skip queue.  The readiness test of the MSI
    family and that of every shared-cache protocol leave the message alone and
    answer the same again while the lines do not change. *)
Theorem readiness_stable (p : L1Protocol) (q : LLCProtocol) s hold : pure_readEvent (fst p) = true ->
  stable_check (mkEnv (L1_getRequestState p s) hold) /\
  stable_check (mkEnv (LLC_getRequestState q s) hold).
Proof.
  intros Hp. split; intros m st st' it; cbn.
  - unfold L1_getRequestState. intros ([e m1] & He & (b & Hb & [= <- <-])%obind_Ok)%obind_Ok.
    pose proof (readEvent_pure _ _ _ _ Hp He) as ->. split; [done|].
    rewrite He; cbn. by rewrite Hb.
  - unfold LLC_getRequestState. intros (e & He & H)%obind_Ok. destruct (has_data m) eqn:Hd.
    + injection H as <- <-. split; [done|]. by rewrite He; cbn.
    + apply obind_Ok in H as (b & Hb & [= <- <-]). split; [done|]. rewrite He; cbn. by rewrite Hb.
Qed.

(** Reading a MESI message twice loses the exclusive mark.  The first
    [readEvent] of a data response marked exclusive answers
    [OwnData_Execlusive] and clears the mark; a second one answers [OwnData].
    Every other message reads the same again. *)
Theorem MESI_readEvent_twice p m e m' : MESI.readEvent p m = Ok (e, m') ->
  (e = MESI.OwnData_Execlusive -> complementary_value m = 2 /\ MESI.readEvent p m' = Ok (MSI.OwnData, m')) /\
  (e <> MESI.OwnData_Execlusive -> m' = m).
Proof.
  unfold MESI.readEvent. intros (e0 & He0 & [= <- <-])%obind_Ok.
  assert (Hrange : e0 <> MESI.OwnData_Execlusive).
  { unfold MSI.readEvent in He0. repeat case_match; try done; injection He0 as <-; done. }
  destruct (Z.eqb_spec e0 MSI.OwnData) as [->|Hne].
  2: { rewrite (proj2 (Z.eqb_neq _ _) Hrange). done. }
  destruct (Z.eqb_spec (complementary_value m) 2) as [Hcv|]; cbn; [|done]. split; [|done].
  intros _. split; [done|]. unfold MSI.readEvent in *. cbn.
  change (has_data (set_msg_cv 0 m)) with (has_data m).
  destruct (msg_source m); try done.
  - repeat case_match; done.
  - destruct (has_data m); [done|]. repeat case_match; done.
  - case_match; done.
Qed.

(** ** Shared-cache handlers *)

(** What the ownership actions of a cell leave in the line. *)
Definition owner_after (msg : Message) (actions : list Z) (o : Z) : Z :=
  foldl (fun o a => if a =? LLCMSI.SetOwner then msg_owner msg
                    else if a =? LLCMSI.ClearOwner then -1 else o) o actions.

Lemma LLC_step_line p msg acts line a acts' line' :
  LLCMSI.action_step p msg (acts, line) a = Ok (acts', line') ->
  line' = set_owner_id (owner_after msg [a] (owner_id line)) line /\ exists new, acts' = acts ++ new /\
    Forall (fun c => ca_type c <> UPDATE_CACHE_LINE /\ ca_type c <> STALL) new.
Proof.
  assert (Hid : forall l, set_owner_id (owner_id l) l = l) by by intros [].
  unfold LLCMSI.action_step, owner_after. cbn [foldl].
  destruct (Z.eqb_spec a LLCMSI.Stall); [done|].
  destruct (Z.eqb_spec a LLCMSI.SendData) as [->|].
  { intros [= <- <-]. cbn. rewrite Hid. split; [done|]. eexists. split; [done|].
    repeat constructor; cbn; unfold LLCMSI.response_type; by case_decide. }
  destruct (Z.eqb_spec a LLCMSI.GetData) as [->|].
  { intros [= <- <-]. cbn. rewrite Hid. split; [done|]. eexists. split; [done|]. by repeat constructor. }
  destruct (Z.eqb_spec a LLCMSI.SetOwner) as [->|].
  { intros [= <- <-]. cbn. split; [done|]. eexists. split; [done|]. by repeat constructor. }
  destruct (Z.eqb_spec a LLCMSI.ClearOwner) as [->|].
  { intros [= <- <-]. cbn. split; [done|]. eexists. split; [done|]. by repeat constructor. }
  rewrite Hid. repeat case_match; try done; intros [= <- <-]; (split; [done|]); eexists;
    (split; [done|]); by repeat constructor.
Qed.

Lemma LLC_loop_line p msg actions : forall acts line acts' line',
  ofold (LLCMSI.action_step p msg) actions (acts, line) = Ok (acts', line') ->
  line' = set_owner_id (owner_after msg actions (owner_id line)) line /\ exists new, acts' = acts ++ new /\
    Forall (fun c => ca_type c <> UPDATE_CACHE_LINE /\ ca_type c <> STALL) new.
Proof.
  induction actions as [|a actions IH]; intros acts line acts' line'; cbn [ofold].
  { intros [= <- <-]. split; [by destruct line|]. exists []. by rewrite app_nil_r. }
  intros ([acts1 line1] & H1 & H2)%obind_Ok.
  apply LLC_step_line in H1 as (-> & new1 & -> & Hn1). apply IH in H2 as (-> & new2 & -> & Hn2).
  split; [done|]. exists (new1 ++ new2). rewrite app_assoc. split; [done|]. by apply Forall_app.
Qed.

(** The LLC keeps the books.  A successful transition of the MSI shared
    cache ends in exactly one line update, to the next state with the validity
    of that state, and with the owner that the cell's SetOwner and ClearOwner
    actions leave: the sender, nobody, or the owner it had. *)
Theorem LLCMSI_updates_owner p actions msg line next acts :
  LLCMSI.handleAction p actions msg line next = Ok acts ->
  exists before line',
    acts = before ++ [act_line UPDATE_CACHE_LINE (dup msg) line'] /\
    Forall (fun c => ca_type c <> UPDATE_CACHE_LINE /\ ca_type c <> STALL) before /\
    state line' = next /\ Ok (valid line') = isValidState (m_fsm p) next /\
    owner_id line' = owner_after msg actions (owner_id line).
Proof.
  unfold LLCMSI.handleAction. intros ([acts0 l0] & Hl & (v & Hv & [= <-])%obind_Ok)%obind_Ok.
  apply LLC_loop_line in Hl as (-> & new & -> & Hn). cbn in *.
  eexists new, _. split_and!; [done|done|..]; unfold copy; cbn.
  - by destruct (line_data line).
  - rewrite Hv. by destruct (line_data line).
  - by destruct (line_data line).
Qed.

(** No shipped shared-cache table stalls a message that carries data. *)
Definition data_never_stalls (r : FSMReader) : bool :=
  forallb (fun st => negb (has_id (getActions st LLCMSI.Data_fromLowerInterface) LLCMSI.Stall) &&
                     negb (has_id (getActions st LLCMSI.Data_fromUpperInterface) LLCMSI.Stall)) (m_states r).

Definition llc_tables : list (string * string) :=
  filter (fun nt => contains "LLC" nt.1 = true /\ contains "directory" nt.1 = false) shipped_tables.

Lemma fsm_row_elem r s row : fsm_row r s = Ok row -> row ∈ m_states r.
Proof.
  unfold fsm_row. destruct (s <? 0); [done|]. destruct (m_states r !! Z.to_nat s) eqn:E; [|done].
  intros [= <-]. by eapply list_elem_of_lookup_2.
Qed.

Lemma LLC_step_not_stall p msg actions s w : LLCMSI.Stall ∉ actions ->
  ofold (LLCMSI.action_step p msg) actions s = Exit w -> w <> "LLCMSIProtocol: Stall Transaction is detected"%string.
Proof.
  revert s. induction actions as [|a actions IH]; intros s Hno; cbn [ofold]; [done|].
  apply not_elem_of_cons in Hno as [Ha Hno]. destruct (LLCMSI.action_step p msg s a) as [s'|w'|w'] eqn:E; cbn.
  - by apply IH.
  - intros [= <-]. destruct s as [acts line]. unfold LLCMSI.action_step in E.
    rewrite (proj2 (Z.eqb_neq _ _) (not_eq_sym Ha)) in E. repeat case_match; try done; by injection E as <-.
  - done.
Qed.

Lemma fsm_row_not_exit r s w : fsm_row r s <> Exit w.
Proof. unfold fsm_row. repeat case_match; done. Qed.

Lemma LLC_handle_not_stall p actions msg line next w : LLCMSI.Stall ∉ actions ->
  LLC_handleAction p actions msg line next = Exit w -> w <> "LLCMSIProtocol: Stall Transaction is detected"%string.
Proof.
  assert (Hbase : forall q l, LLCMSI.Stall ∉ l -> LLCMSI.handleAction q l msg line next = Exit w ->
    w <> "LLCMSIProtocol: Stall Transaction is detected"%string).
  { intros q l Hno. unfold LLCMSI.handleAction. destruct (ofold _ l _) as [[? ?]|?|?] eqn:E; cbn; try done.
    - unfold isValidState. destruct (fsm_row (m_fsm q) next) eqn:Er; cbn; try done. by apply fsm_row_not_exit in Er.
    - intros [= <-]. by eapply LLC_step_not_stall. }
  intros Hno. destruct p as [cls q].
  assert (Hbind : forall l (f : list ControllerAction -> list ControllerAction), LLCMSI.Stall ∉ l ->
    (let! acts := LLCMSI.handleAction q l msg line next in Ok (f acts)) = Exit w ->
    w <> "LLCMSIProtocol: Stall Transaction is detected"%string).
  { intros l f Hl. destruct (LLCMSI.handleAction q l msg line next) eqn:E; cbn; try done.
    intros [= <-]. by eapply Hbase. }
  destruct cls; cbn.
  - by apply Hbase.
  - unfold LLCMESI.handleAction. pose proof (erase_first_elem LLCMESI.SendExeclusiveData actions LLCMSI.Stall) as He.
    destruct (erase_first _ actions) as [b l]. apply Hbind. auto.
  - unfold LLCPMSI.handleAction. pose proof (erase_first_elem LLCPMSI.WaitData actions LLCMSI.Stall) as He.
    destruct (erase_first _ actions) as [b l]. apply Hbind. auto.
  - unfold LLCPMESI.handleAction. pose proof (erase_first_elem LLCPMESI.WaitData actions LLCMSI.Stall) as He.
    destruct (erase_first LLCPMESI.WaitData actions) as [b l]. cbn in He.
    pose proof (erase_first_elem LLCPMESI.SendExeclusiveData l LLCMSI.Stall) as He2.
    destruct (erase_first LLCPMESI.SendExeclusiveData l) as [b2 l2].
    apply (Hbind l2 (fun acts => if b2 : bool then (if b then acts ++ [act ADD_PENDING (dup msg)] else acts) ++ _ else _)). auto.
Qed.

(** The LLC never dies on a stall.  With a shipped shared-cache table, a
    message the readiness test lets through is never processed into the
    "Stall Transaction" exit, although the test does not look at the table for
    messages that carry data (a message the LLC sends itself carries none). *)
Theorem LLC_ready_never_stall_exit name text q s m st m' :
  (name, text) ∈ llc_tables -> newFSMReader (Some text) = Ok (m_fsm (snd q)) ->
  (has_data m = true -> msg_source m <> SELF) ->
  LLC_getRequestState q s m st = Ok (FrfcfsBuffer.Ready, m') ->
  LLC_processRequest q s m' <> Exit "LLCMSIProtocol: Stall Transaction is detected".
Proof.
  intros Hin Hr Hsrc Hready.
  assert (Htab : m_actionIds (m_fsm (snd q)) !! "Stall"%string = Some MSI.Stall /\
                 data_never_stalls (m_fsm (snd q)) = true).
  { assert (Hall : forallb (fun nt : string * string => match newFSMReader (Some nt.2) with
        | Ok r => bool_decide (m_actionIds r !! "Stall"%string = Some MSI.Stall) && data_never_stalls r
        | _ => false end) llc_tables = true) by by vm_compute.
    rewrite forallb_forall in Hall. specialize (Hall _ (proj1 (list_elem_of_In _ _) Hin)).
    change (name, text).2 with text in Hall. rewrite Hr in Hall. by apply andb_true_iff in Hall as [?%bool_decide_eq_true ?]. }
  destruct Htab as [Hid Hdata]. unfold LLC_getRequestState in Hready.
  apply obind_Ok in Hready as (e & He & Hready).
  assert (Hm : m' = m).
  { destruct (has_data m); [by injection Hready as <-|]. by apply obind_Ok in Hready as (? & _ & [= _ <-]). }
  subst m'. unfold LLC_processRequest. rewrite He. cbn. unfold getTransition.
  destruct (fsm_row (m_fsm (snd q)) (state (line_bits s (msg_addr m)))) as [row|w|w] eqn:Erow;
    [|by apply fsm_row_not_exit in Erow|done]. cbn.
  assert (Hno : LLCMSI.Stall ∉ getActions row e).
  { intros Hst%has_id_elem. destruct (has_data m) eqn:Hd.
    - unfold data_never_stalls in Hdata. rewrite forallb_forall in Hdata.
      apply fsm_row_elem in Erow as Hrow. specialize (Hdata row (proj1 (list_elem_of_In _ _) Hrow)).
      unfold LLCMSI.readEvent in He. rewrite Hd in He.
      apply andb_true_iff in Hdata as [H1 H2].
      specialize (Hsrc eq_refl). destruct (msg_source m); [| |done]; injection He as <-.
      + by rewrite Hst in H1.
      + by rewrite Hst in H2.
    - unfold isStall in Hready. rewrite Erow, Hid in Hready. cbn in Hready.
      change LLCMSI.Stall with MSI.Stall in Hst. by rewrite Hst in Hready. }
  destruct (LLC_handleAction q (getActions row e) m _ _) eqn:Eh; cbn; try done.
  intros [= ->]. by eapply LLC_handle_not_stall.
Qed.

(** ** Numbering *)

Definition fsm_of (text : string) : FSMReader :=
  match newFSMReader (Some text) with Ok r => r | _ => emptyFSMReader end.

(** The table gives each of the names the number of the enumerator. *)
Definition numbered (ids : gmap string Z) (names : list (string * Z)) : bool :=
  forallb (fun nv => bool_decide (ids !! nv.1 = Some nv.2)) names.

Local Open Scope string_scope.
Definition MSI_events : list (string * Z) := [
  ("Load", MSI.Load); ("Store", MSI.Store); ("Replacement", MSI.Replacement); ("Own_GetS", MSI.Own_GetS);
  ("Own_GetM", MSI.Own_GetM); ("Own_PutM", MSI.Own_PutM); ("Other_GetS", MSI.Other_GetS);
  ("Other_GetM", MSI.Other_GetM); ("Other_PutM", MSI.Other_PutM); ("OwnData", MSI.OwnData);
  ("Invalidation", MSI.Invalidation)].
Definition MSI_actions : list (string * Z) := [
  ("Stall", MSI.Stall); ("Hit", MSI.Hit); ("GetS", MSI.GetS); ("GetM", MSI.GetM); ("PutM", MSI.PutM);
  ("Data2Req", MSI.Data2Req); ("Data2Both", MSI.Data2Both); ("SaveReq", MSI.SaveReq); ("Fault", MSI.Fault)].
Definition LLC_events : list (string * Z) := [
  ("GetS", LLCMSI.GetS); ("GetM", LLCMSI.GetM); ("Replacement", LLCMSI.Replacement);
  ("PutM_fromOwner", LLCMSI.PutM_fromOwner); ("PutM_fromNonOwner", LLCMSI.PutM_fromNonOwner);
  ("Data_fromLowerInterface", LLCMSI.Data_fromLowerInterface);
  ("Data_fromUpperInterface", LLCMSI.Data_fromUpperInterface)].
Definition LLC_actions : list (string * Z) := [
  ("Stall", LLCMSI.Stall); ("GetData", LLCMSI.GetData); ("SendData", LLCMSI.SendData); ("SaveData", LLCMSI.SaveData);
  ("SetOwner", LLCMSI.SetOwner); ("ClearOwner", LLCMSI.ClearOwner); ("IssueInv", LLCMSI.IssueInv);
  ("WriteBack", LLCMSI.WriteBack); ("Fault", LLCMSI.Fault)].
Local Close Scope string_scope.

Definition table_numbered (events acts : list (string * Z)) (text : string) : bool :=
  numbered (m_eventIds (fsm_of text)) events && numbered (m_actionIds (fsm_of text)) acts.

(** The numbers in the tables are the enumerators.  For MSI, MESI and MOESI
    and for every snooping shared-cache table, the event and action numbers of
    the file are those of the C++ enumerations the handlers cast them to, the
    exclusive-data event and the actions the derived classes add included. *)
Theorem table_numbers_agree :
  table_numbered MSI_events MSI_actions MSI_splitBus_snooping_csv = true /\
  (forall text, text ∈ [MESI_splitBus_snooping_csv; MOESI_splitBus_snooping_csv] ->
     table_numbered (MSI_events ++ [("OwnData_Execlusive"%string, MESI.OwnData_Execlusive)])
       (MSI_actions ++ [("removeSavedReq"%string, MESI.removeSavedReq)]) text = true) /\
  (forall nt, nt ∈ llc_tables -> table_numbered LLC_events LLC_actions nt.2 = true) /\
  table_numbered [] [("SendExeclusiveData"%string, LLCMESI.SendExeclusiveData)] MESI_LLC_csv = true /\
  table_numbered [] [("waitData"%string, LLCPMSI.WaitData)] PMSI_LLC_csv = true /\
  table_numbered [] [("waitData"%string, LLCPMESI.WaitData);
                     ("SendExeclusiveData"%string, LLCPMESI.SendExeclusiveData)] PMESI_LLC_csv = true.
Proof.
  assert (H1 : forallb (table_numbered (MSI_events ++ [("OwnData_Execlusive"%string, MESI.OwnData_Execlusive)])
       (MSI_actions ++ [("removeSavedReq"%string, MESI.removeSavedReq)]))
       [MESI_splitBus_snooping_csv; MOESI_splitBus_snooping_csv] = true) by by vm_compute.
  assert (H2 : forallb (fun nt => table_numbered LLC_events LLC_actions nt.2) llc_tables = true) by by vm_compute.
  rewrite forallb_forall in H1, H2.
  split_and!; [by vm_compute| | |by vm_compute..].
  - intros text Hin%list_elem_of_In. by apply H1.
  - intros nt Hin%list_elem_of_In. by apply H2.
Qed.

Lemma row_without r e : forallb (fun st => bool_decide (transitions st !! e = None /\ actions st !! e = None)) (m_states r) = true ->
  rows_aligned r = true -> forall s, 0 <= s < n_states r -> getTransition r s e = Ok (s, []).
Proof.
  intros Hall Ha s Hs. destruct (fsm_row_Ok r s Hs) as (row & Hrow & Hl).
  rewrite forallb_forall in Hall.
  specialize (Hall row (proj1 (list_elem_of_In _ _) (list_elem_of_lookup_2 _ _ _ Hl))).
  apply bool_decide_eq_true in Hall as [Ht Hac].
  unfold getTransition, getNextState, getActions. rewrite Hrow. cbn. rewrite Ht, Hac. cbn.
  rewrite (rows_aligned_own r s row); [done|done|lia|done].
Qed.

(** Exclusive data is lost in PMESI.  The class reads it as event 11, as
    MESI does; the shipped PMESI table numbers the exclusive-data event 10 and
    has no event 11, so in every state the data response is consumed without an
    action: the waiting request is never answered. *)
Theorem PMESI_exclusive_data_lost q m s :
  m_fsm q = fsm_of PMESI_csv -> msg_source m = UPPER_INTERCONNECT -> has_data m = true ->
  complementary_value m = 2 -> 0 <= state (line_bits s (msg_addr m)) < n_states (m_fsm q) ->
  m_eventIds (m_fsm q) !! "OwnData_Execlusive"%string = Some 10 /\
  exists m' line', L1_processRequest (PMESIProtocol, q) s m = Ok (m', [act_line UPDATE_CACHE_LINE (dup m') line']) /\
    state line' = state (line_bits s (msg_addr m)).
Proof.
  intros Hr Hsrc Hd Hcv Hs. rewrite Hr in *. split; [by vm_compute|].
  unfold L1_processRequest; cbn [fst snd]. cbn [L1_readEvent]. unfold MESI.readEvent, MSI.readEvent.
  rewrite Hsrc, Hd, Hcv, Hr. cbn [obind]. cbn -[fsm_of].
  rewrite (row_without (fsm_of PMESI_csv) 11) by (done || by vm_compute). cbn -[fsm_of].
  unfold PMESI.handleAction, MSI.handleAction. cbn -[fsm_of].
  rewrite Hr. unfold isValidState. destruct (fsm_row_Ok _ _ Hs) as (row & -> & _). cbn -[fsm_of].
  eexists _, _. split; [done|]. unfold copy; cbn. by destruct (line_data _).
Qed.

(** ** Witnesses *)

Definition msi_state : ProtocolState := mkProtocol 1 100 (fsm_of MSI_splitBus_snooping_csv).
Definition snooped_GetM : Message := set_msg_source UPPER_INTERCONNECT (newMessage 7 0x12 0 1 2).

(** The owner in M answers another core's GetM and gives the line up. *)
Lemma MSI_writebacks_before_update_witness :
  getTransition (m_fsm msi_state) 18 MSI.Other_GetM = Ok (0, [MSI.Data2Req]) /\
  exists acts, MSI.handleAction msi_state [MSI.Data2Req] snooped_GetM newLine 0 = Ok acts /\
  exists wbs rest line',
    acts = wbs ++ act_line UPDATE_CACHE_LINE (dup snooped_GetM) line' :: rest /\
    Forall is_wb wbs /\ length wbs = length (filter (fun a => data_action a = true) [MSI.Data2Req]) /\
    Forall (fun a => ~ is_wb a) rest /\
    state line' = 0 /\ Ok (valid line') = isValidState (m_fsm msi_state) 0.
Proof.
  split; [by vm_compute|]. eexists. split; [vm_compute; reflexivity|].
  apply (MSI_writebacks_before_update msi_state [MSI.Data2Req] snooped_GetM newLine 0); [done|].
  vm_compute. reflexivity.
Defined.

Lemma msi_stall_table : stall_table (m_fsm msi_state).
Proof. split_and!; by vm_compute. Qed.

(** A load to a line in IS_ad waits. *)
Lemma L1_ready_iff_no_stall_witness :
  let s := writeLine2MSHR 0x12 (set_state 1 demo_line) demo_store in
  let m := newMessage 9 0x10 0 0 1 in
  exists r m' acts, L1_getRequestState (MSIProtocol, msi_state) s m NonReady = Ok (r, m') /\
    L1_processRequest (MSIProtocol, msi_state) s m = Ok (m, acts) /\ m = m' /\
    (r = FrfcfsBuffer.Ready /\ Forall (fun c => ca_type c <> STALL) acts \/
     r = NonReady /\ acts = [act STALL (dup m)]).
Proof.
  cbv zeta. eexists _, _, _. split; [vm_compute; reflexivity|]. split; [vm_compute; reflexivity|].
  eapply (L1_ready_iff_no_stall (MSIProtocol, msi_state)
            (writeLine2MSHR 0x12 (set_state 1 demo_line) demo_store) (newMessage 9 0x10 0 0 1) NonReady).
  - apply msi_stall_table.
  - vm_compute. reflexivity.
  - vm_compute. reflexivity.
Defined.

Lemma readiness_stable_witness :
  stable_check (mkEnv (L1_getRequestState (MSIProtocol, msi_state) demo_store) (fun _ => false)) /\
  stable_check (mkEnv (LLC_getRequestState (LLCMSIProtocol, msi_state) demo_store) (fun _ => false)).
Proof. apply (readiness_stable (MSIProtocol, msi_state) (LLCMSIProtocol, msi_state)). done. Defined.

Definition exclusive_data : Message :=
  set_msg_source UPPER_INTERCONNECT (set_msg_data (Some [1; 2; 3; 4]) 4 (newMessage 7 0x12 0 2 1)).

Lemma MESI_readEvent_twice_witness :
  (MESI.OwnData_Execlusive = MESI.OwnData_Execlusive -> complementary_value exclusive_data = 2 /\
     MESI.readEvent msi_state (set_msg_cv 0 exclusive_data) = Ok (MSI.OwnData, set_msg_cv 0 exclusive_data)) /\
  (MESI.OwnData_Execlusive <> MESI.OwnData_Execlusive -> set_msg_cv 0 exclusive_data = exclusive_data).
Proof. apply (MESI_readEvent_twice msi_state exclusive_data). vm_compute. reflexivity. Defined.

Definition llc_state : ProtocolState := mkProtocol 10 100 (fsm_of MSI_LLC_csv).

Lemma LLCMSI_updates_owner_witness :
  let m := newMessage 7 0x12 0 1 2 in
  exists acts, LLCMSI.handleAction llc_state [LLCMSI.SendData; LLCMSI.SetOwner] m demo_line 4 = Ok acts /\
  exists before line',
    acts = before ++ [act_line UPDATE_CACHE_LINE (dup m) line'] /\
    Forall (fun c => ca_type c <> UPDATE_CACHE_LINE /\ ca_type c <> STALL) before /\
    state line' = 4 /\ Ok (valid line') = isValidState (m_fsm llc_state) 4 /\
    owner_id line' = owner_after m [LLCMSI.SendData; LLCMSI.SetOwner] (owner_id demo_line).
Proof.
  cbv zeta. eexists. split; [vm_compute; reflexivity|].
  apply (LLCMSI_updates_owner llc_state [LLCMSI.SendData; LLCMSI.SetOwner] (newMessage 7 0x12 0 1 2) demo_line 4).
  vm_compute. reflexivity.
Defined.

Lemma MSI_LLC_in_tables : ("MSI_LLC"%string, MSI_LLC_csv) ∈ llc_tables.
Proof. apply list_elem_of_filter. split; [by vm_compute|]. right. by left. Qed.

Lemma LLC_ready_never_stall_exit_witness :
  let m := newMessage 7 0x12 0 1 2 in
  LLC_getRequestState (LLCMSIProtocol, llc_state) demo_store m NonReady = Ok (FrfcfsBuffer.Ready, m) /\
  LLC_processRequest (LLCMSIProtocol, llc_state) demo_store m
    <> Exit "LLCMSIProtocol: Stall Transaction is detected".
Proof.
  cbv zeta. split; [vm_compute; reflexivity|].
  eapply (LLC_ready_never_stall_exit "MSI_LLC" MSI_LLC_csv (LLCMSIProtocol, llc_state) demo_store
            (newMessage 7 0x12 0 1 2) NonReady).
  - apply MSI_LLC_in_tables.
  - vm_compute. reflexivity.
  - done.
  - vm_compute. reflexivity.
Defined.

Definition pmesi_state : ProtocolState := mkProtocol 1 100 (fsm_of PMESI_csv).

Lemma PMESI_exclusive_data_lost_witness :
  m_eventIds (m_fsm pmesi_state) !! "OwnData_Execlusive"%string = Some 10 /\
  exists m' line', L1_processRequest (PMESIProtocol, pmesi_state) demo_store exclusive_data
      = Ok (m', [act_line UPDATE_CACHE_LINE (dup m') line']) /\
    state line' = state (line_bits demo_store (msg_addr exclusive_data)).
Proof.
  apply (PMESI_exclusive_data_lost pmesi_state exclusive_data demo_store); try reflexivity.
  vm_compute. split; [discriminate|reflexivity].
Defined.
