(* ===== verification/DirL1.v ===== *)
(** * Private-cache directory protocols

    [MSIDirectory] and the classes derived from it, [MESIDirectory] and
    [MOESIDirectory].  They count acknowledgements in the map of the controller
    they serve, which every operation is given. *)

From S2P Require Export Protocol SnoopL1 Arbiters.

(** [addr & ~uint64_t(getBlockSize() - 1)] *)
Definition line_key (s : COTS) (addr : Z) : Z :=
  Z.land addr (Z.lxor (w32 (m_block_size (base s) - 1)) UINT64_MAX).

(** [ack_counters->find(key) != end() && at(key) + n == 0]; the sum is unsigned. *)
Definition ack_balance (ct : DirCounters) (key n : Z) : bool :=
  match m_ack_counters ct !! key with Some k => w64 (k + n) =? 0 | None => false end.

(** ** [MSIDirectory] *)

Module MSIDir.
Definition REQUEST_TYPE_GETS : Z := 0.
Definition REQUEST_TYPE_GETM : Z := 1.
Definition REQUEST_TYPE_PUTS : Z := 2.
Definition REQUEST_TYPE_PUTM : Z := 3.
Definition REQUEST_TYPE_INV : Z := 4.
Definition REQUEST_TYPE_PUT_ACK : Z := 5.
Definition REQUEST_TYPE_INV_ACK : Z := 6.

(** [enum class EventId] *)
Definition Load : Z := 0.
Definition Store : Z := 1.
Definition Replacement : Z := 2.
Definition Fwd_GetS : Z := 3.
Definition Fwd_GetM : Z := 4.
Definition Inv : Z := 5.
Definition Put_Ack : Z := 6.
Definition Data_zeroAck : Z := 7.
Definition Data_nonZeroAck : Z := 8.
Definition DataFromOwner : Z := 9.
Definition InvAck : Z := 10.
Definition lastInvAck : Z := 11.

(** [enum class ActionId] *)
Definition Stall : Z := 0.
Definition Hit : Z := 1.
Definition GetS : Z := 2.
Definition GetM : Z := 3.
Definition PutS : Z := 4.
Definition PutM_Data : Z := 5.
Definition Data2Both : Z := 6.
Definition Data2Req : Z := 7.
Definition InvAck2Req : Z := 8.
Definition InvAck_Data : Z := 9.
Definition Ack_dec : Z := 10.
Definition AckNum_set : Z := 11.
Definition SaveReq : Z := 12.
Definition Fault : Z := 13.

(** A message with data from the shared memory carries the number of
    acknowledgements to wait for. *)
Definition data_event (p : ProtocolState) (ct : DirCounters) (s : COTS) (msg : Message) : Z :=
  if negb (msg_from msg =? m_shared_memory_id p) then DataFromOwner
  else if complementary_value msg =? 0 then Data_zeroAck
  else if ack_balance ct (line_key s (msg_addr msg)) (complementary_value msg) then Data_zeroAck
  else Data_nonZeroAck.

Definition readEvent (p : ProtocolState) (ct : DirCounters) (s : COTS) (msg : Message) : outcome Z :=
  match msg_source msg with
  | LOWER_INTERCONNECT => Ok (if complementary_value msg =? 0 then Load else Store)
  | SELF => if msg_owner msg =? p_id p then Ok Replacement else Exit "LLCMSIDirectory: Invalid Transaction"
  | UPPER_INTERCONNECT =>
      if has_data msg then Ok (data_event p ct s msg)
      else
        let cv := complementary_value msg in
        if cv =? REQUEST_TYPE_GETS then Ok Fwd_GetS
        else if cv =? REQUEST_TYPE_GETM then Ok Fwd_GetM
        else if cv =? REQUEST_TYPE_PUT_ACK then Ok Put_Ack
        else if cv =? REQUEST_TYPE_INV then Ok Inv
        else if cv =? REQUEST_TYPE_INV_ACK then
          Ok (if ack_balance ct (line_key s (msg_addr msg)) (-1) then lastInvAck else InvAck)
        else Exit "MSIDirectory: Invalid Transaction detected"
  end.

(** [new Message(id, addr, 0, cv, m_id)] *)
Definition own_message (p : ProtocolState) (msg : Message) (cv : Z) : Message :=
  newMessage (msg_id msg) (msg_addr msg) 0 cv (w16 (p_id p)).
Definition to_home (p : ProtocolState) (k : Kind) (m : Message) : Message :=
  set_msg_kind k (push_to (m_shared_memory_id p) m).

(** [Hit]: a request of the core is answered; data from above answers every
    parked request, an acknowledgement the message itself. *)
Definition hit_actions (ct : DirCounters) (s : COTS) (msg : Message) : list ControllerAction :=
  let upper := bool_decide (msg_source msg = UPPER_INTERCONNECT) in
  (if bool_decide (msg_source msg = LOWER_INTERCONNECT) || negb (has_data msg)
   then (if upper then [act REMOVE_PENDING_NORESPONSE (dup msg)] else []) ++ [act HIT_Action (dup msg)]
   else [act REMOVE_PENDING (dup msg)]) ++
  (if upper && ack_balance ct (line_key s (msg_addr msg)) (complementary_value msg)
   then [act SET_ACK_NUMBER (dup msg)] else []) ++
  [act MODIFY_DATA (dup msg)].

(** The owner's answer to a forwarded request. *)
Definition supply (p : ProtocolState) (both : bool) (msg : Message) : Message :=
  let m := set_msg_kind K_SUPPLY (set_msg_to [] (set_msg_cv 0 (dup msg))) in
  if both then push_to (m_shared_memory_id p) m else m.

(** One iteration of the [switch]. *)
Definition action_step (p : ProtocolState) (ct : DirCounters) (s : COTS) (msg : Message)
    (acts : list ControllerAction) (a : Z) : outcome (list ControllerAction) :=
  if a =? Stall then Ok (acts ++ [act STALL (dup msg)])
  else if a =? Hit then Ok (acts ++ hit_actions ct s msg)
  else if (a =? GetS) || (a =? GetM) then
    Ok (acts ++ [act ADD_PENDING (dup msg);
                 act SEND_BUS_MSG (if a =? GetS then to_home p K_GETS (own_message p msg REQUEST_TYPE_GETS)
                                   else to_home p K_GETM (own_message p msg REQUEST_TYPE_GETM))])
  else if a =? PutS then Ok (acts ++ [act SEND_BUS_MSG (to_home p K_PUTS (own_message p msg REQUEST_TYPE_PUTS))])
  else if a =? PutM_Data then
    Ok (act WRITE_BACK (set_msg_kind K_PUTM (own_message p msg REQUEST_TYPE_PUTM)) :: acts)
  else if (a =? Data2Req) || (a =? Data2Both) then Ok (act WRITE_BACK (supply p (a =? Data2Both) msg) :: acts)
  else if a =? InvAck2Req then
    Ok (acts ++ [act SEND_BUS_MSG (set_msg_kind K_ACK
          (push_to (msg_owner msg) (own_message p msg REQUEST_TYPE_INV_ACK)))])
  else if a =? InvAck_Data then
    Ok (act WRITE_BACK (set_msg_kind K_ACK (own_message p msg REQUEST_TYPE_INV_ACK)) :: acts)
  else if a =? Ack_dec then Ok (acts ++ [act DECREMENT_ACK (dup msg)])
  else if a =? AckNum_set then Ok (acts ++ [act SET_ACK_NUMBER (dup msg)])
  else if a =? SaveReq then
    Ok (acts ++ [act SAVE_REQ_FOR_WRITE_BACK (newMessage (msg_id msg) (msg_addr msg) 0 0 (msg_owner msg))])
  else if a =? Fault then Exit "MSIDirectory: Fault Transaction is detected"
  else Crash "action without a case".

Definition handleAction (p : ProtocolState) (ct : DirCounters) (s : COTS) (actions : list Z) (msg : Message)
    (cache_line : GenericCacheLine) (next_state : Z) : outcome (list ControllerAction) :=
  let! start :=
    (if MSI.stalled actions then Ok []
     else let! v := isValidState (m_fsm p) next_state in
          Ok [act_line UPDATE_CACHE_LINE (dup msg)
                (copy (set_state next_state (set_valid v cache_line)) newLine)]) in
  ofold (action_step p ct s msg) actions start.
End MSIDir.

(** ** [MESIDirectory] *)

Module MESIDir.
Definition REQUEST_TYPE_PUTE : Z := 7.
Definition RESPONSE_TYPE_EXECLUSIVE_DATA : Z := 0xFFFFFFFF.
Definition Data_execlusive : Z := 12.
Definition PutE : Z := 14.

Definition readEvent (p : ProtocolState) (ct : DirCounters) (s : COTS) (msg : Message) : outcome Z :=
  if bool_decide (msg_source msg = UPPER_INTERCONNECT) && has_data msg &&
     (complementary_value msg =? RESPONSE_TYPE_EXECLUSIVE_DATA)
  then Ok Data_execlusive else MSIDir.readEvent p ct s msg.

Definition handleAction (p : ProtocolState) (ct : DirCounters) (s : COTS) (actions : list Z) (msg : Message)
    (cache_line : GenericCacheLine) (next_state : Z) : outcome (list ControllerAction) :=
  let '(putE_found, actions) := erase_first PutE actions in
  let! acts := MSIDir.handleAction p ct s actions msg cache_line next_state in
  Ok (if putE_found : bool
      then acts ++ [act SEND_BUS_MSG (push_to (m_shared_memory_id p) (MSIDir.own_message p msg REQUEST_TYPE_PUTE))]
      else acts).
End MESIDir.

(** ** [MOESIDirectory] *)

Module MOESIDir.
Definition REQUEST_TYPE_PUTO : Z := 8.
Definition RESPONSE_TYPE_ACKCOUNT : Z := 9.
Definition REQUEST_TYPE_INVM : Z := 10.
Definition AckCount : Z := 13.
Definition AckCount_zero : Z := 14.
Definition DataFromOwner_nonZeroAck : Z := 15.
Definition InvM : Z := 16.
Definition PutO_Data : Z := 15.
Definition SetAck : Z := 16.

Definition readEvent (p : ProtocolState) (ct : DirCounters) (s : COTS) (msg : Message) : outcome Z :=
  let cv := complementary_value msg in
  if negb (bool_decide (msg_source msg = UPPER_INTERCONNECT)) then MESIDir.readEvent p ct s msg
  else if complementary_value2 msg =? RESPONSE_TYPE_ACKCOUNT then Ok (if cv =? 0 then AckCount_zero else AckCount)
  else if has_data msg then
    if negb (msg_from msg =? m_shared_memory_id p) && negb (cv =? 0) &&
       negb (ack_balance ct (line_key s (msg_addr msg)) cv)
    then Ok DataFromOwner_nonZeroAck else MESIDir.readEvent p ct s msg
  else if cv =? REQUEST_TYPE_INVM then Ok InvM
  else MESIDir.readEvent p ct s msg.

Definition has (a : Z) (actions : list Z) : bool := existsb (Z.eqb a) actions.
Definition erase_all (ids actions : list Z) : list Z := filter (fun a => negb (has a ids) = true) actions.

(** The owner supplies the line with the number of acknowledgements the shared
    cache put beside the forwarded request. *)
Definition supply (msg : Message) : Message := set_msg_to [] (set_msg_cv (complementary_value2 msg) (dup msg)).

Definition handleAction (p : ProtocolState) (ct : DirCounters) (s : COTS) (actions : list Z) (msg : Message)
    (cache_line : GenericCacheLine) (next_state : Z) : outcome (list ControllerAction) :=
  let rest := erase_all [PutO_Data; SetAck; MSIDir.Data2Req] actions in
  let! acts := MESIDir.handleAction p ct s rest msg cache_line next_state in
  let acts := if has PutO_Data actions then act WRITE_BACK (MSIDir.own_message p msg REQUEST_TYPE_PUTO) :: acts else acts in
  let acts := if has SetAck actions then acts ++ [act SET_ACK_NUMBER (dup msg)] else acts in
  Ok (if has MSIDir.Data2Req actions then act WRITE_BACK (supply msg) :: acts else acts).
End MOESIDir.

(** ** Virtual dispatch *)

Inductive L1DirClass := MSIDirectory | MESIDirectory | MOESIDirectory.
#[export] Instance L1DirClass_eq_dec : EqDecision L1DirClass.
Proof. solve_decision. Defined.

Definition L1Directory : Type := L1DirClass * ProtocolState.

Definition L1Dir_readEvent (p : L1Directory) :=
  match p with
  | (MSIDirectory, q) => MSIDir.readEvent q
  | (MESIDirectory, q) => MESIDir.readEvent q
  | (MOESIDirectory, q) => MOESIDir.readEvent q
  end.

Definition L1Dir_handleAction (p : L1Directory) :=
  match p with
  | (MSIDirectory, q) => MSIDir.handleAction q
  | (MESIDirectory, q) => MESIDir.handleAction q
  | (MOESIDirectory, q) => MOESIDir.handleAction q
  end.

Definition L1Dir_processRequest (p : L1Directory) (ct : DirCounters) (s : COTS) (request_msg : Message)
    : outcome (Message * list ControllerAction) :=
  let cache_line := line_bits s (msg_addr request_msg) in
  let! event_id := L1Dir_readEvent p ct s request_msg in
  let! (next_state, actions) := getTransition (m_fsm (snd p)) (state cache_line) event_id in
  let! acts := L1Dir_handleAction p ct s actions request_msg cache_line next_state in
  Ok (request_msg, acts).

Definition L1Dir_getRequestState (p : L1Directory) (ct : DirCounters) (s : COTS) (msg : Message)
    (req_state : FRFCFS_State) : outcome (FRFCFS_State * Message) :=
  let cache_line := line_bits s (msg_addr msg) in
  let! event_id := L1Dir_readEvent p ct s (dup msg) in
  let! b := isStall (m_fsm (snd p)) (state cache_line) event_id in
  Ok (if b : bool then NonReady else FrfcfsBuffer.Ready, msg).

#[export] Instance L1_directory : CoherenceProtocol L1Directory := {|
  proto_state := snd;
  processRequest := L1Dir_processRequest;
  getRequestState := L1Dir_getRequestState;
  createDefaultCacheLine _ _ l := l;
  isReadableState _ _ := Ok false;
  needsDataArray _ _ _ _ := Ok false |}.
