(* ===== verification/DirLLC.v ===== *)
(** * Shared-cache directory protocols

    [LLCMSIDirectory] and the classes derived from it, [LLCMESIDirectory] and
    [LLCMOESIDirectory].  The sharers of a line are a list in the map of the
    controller they serve. *)

From S2P Require Export DirL1 SnoopLLC.

(** [counters->find(key) != end() && at(key).size() - 1 == 0] *)
Definition one_sharer (ct : DirCounters) (key : Z) : bool :=
  match m_sharers ct !! key with Some l => Z.of_nat (length l) =? 1 | None => false end.

(** [counters->at(key)] *)
Definition sharers_at (ct : DirCounters) (key : Z) : outcome (list Z) :=
  match m_sharers ct !! key with Some l => Ok l | None => Crash "map::at" end.

(** How many caches must acknowledge: the sharers but the requester. *)
Definition acks_due (ct : DirCounters) (key owner : Z) : Z :=
  match m_sharers ct !! key with
  | Some l => let n := Z.of_nat (length l) in if existsb (Z.eqb owner) l then w64 (n - 1) else n
  | None => 0
  end.

(** ** [LLCMSIDirectory] *)

Module LLCMSIDir.
(** [enum class EventId] *)
Definition GetS : Z := 0.
Definition GetM : Z := 1.
Definition Replacement : Z := 2.
Definition PutS : Z := 3.
Definition last_PutS : Z := 4.
Definition InvAck : Z := 5.
Definition last_InvAck : Z := 6.
Definition PutM_Data_fromOwner : Z := 7.
Definition PutM_Data_fromNonOwner : Z := 8.
Definition Data_fromLowerInterface : Z := 9.
Definition Data_fromUpperInterface : Z := 10.

(** [enum class ActionId] *)
Definition Stall : Z := 0.
Definition GetData : Z := 1.
Definition SendData : Z := 2.
Definition SaveData : Z := 3.
Definition SetOwner : Z := 4.
Definition ClearOwner : Z := 5.
Definition SendInv : Z := 6.
Definition WriteBack : Z := 7.
Definition FwdGetS : Z := 8.
Definition FwdGetM : Z := 9.
Definition PutAck : Z := 10.
Definition IncSharers : Z := 11.
Definition DecSharers : Z := 12.
Definition Fault : Z := 13.

(** A [PutS] is the last one only from the one sharer left. *)
Definition last_sharer (ct : DirCounters) (key owner : Z) : bool :=
  match m_sharers ct !! key with Some [id] => id =? owner | _ => false end.

Definition readEvent (p : ProtocolState) (ct : DirCounters) (s : COTS) (msg : Message) (line : GenericCacheLine)
    : outcome Z :=
  let key := line_key s (msg_addr msg) in
  let cv := complementary_value msg in
  match msg_source msg with
  | UPPER_INTERCONNECT =>
      if has_data msg then Ok Data_fromUpperInterface else Exit "LLCMSIDirectory: Invalid Transaction"
  | LOWER_INTERCONNECT =>
      if has_data msg then
        if cv =? MSIDir.REQUEST_TYPE_PUTM
        then Ok (if msg_owner msg =? owner_id line then PutM_Data_fromOwner else PutM_Data_fromNonOwner)
        else Ok Data_fromLowerInterface
      else if cv =? MSIDir.REQUEST_TYPE_GETS then Ok GetS
      else if cv =? MSIDir.REQUEST_TYPE_GETM then Ok GetM
      else if cv =? MSIDir.REQUEST_TYPE_PUTS then
        Ok (if last_sharer ct key (msg_owner msg) then last_PutS else PutS)
      else if cv =? MSIDir.REQUEST_TYPE_INV_ACK then Ok (if one_sharer ct key then last_InvAck else InvAck)
      else Exit "LLCMSIDirectory: Invalid Transaction"
  | SELF => if msg_owner msg =? p_id p then Ok Replacement else Exit "LLCMSIDirectory: Invalid Transaction"
  end.

(** The answer to the requester, with the number of acknowledgements to wait for. *)
Definition response (ct : DirCounters) (s : COTS) (msg : Message) (line : GenericCacheLine) : Message :=
  set_msg_cv (if owner_id line =? -1 then 0 else acks_due ct (line_key s (msg_addr msg)) (msg_owner msg))
    (LLCMSI.response msg).

Definition invalidation (msg : Message) (dests : list Z) : Message :=
  foldl (fun m id => push_to id m) (set_msg_to [] (set_msg_kind K_INV (set_msg_cv MSIDir.REQUEST_TYPE_INV (dup msg))))
    dests.

Definition forward (msg : Message) (cv old_owner : Z) : Message :=
  push_to old_owner (set_msg_to [] (set_msg_kind K_FWD (set_msg_cv cv (dup msg)))).

(** One iteration of the [switch]; the line's owner is written on the way. *)
Definition action_step (p : ProtocolState) (ct : DirCounters) (s : COTS) (msg : Message) (old_owner : Z)
    (st : list ControllerAction * GenericCacheLine) (a : Z) : outcome (list ControllerAction * GenericCacheLine) :=
  let '(acts, line) := st in
  if a =? Stall then Exit "LLCMSIDirectory: Stall Transaction is detected"
  else if a =? GetData then
    Ok (acts ++ [act ADD_PENDING (dup msg);
                 act SEND_BUS_MSG (set_msg_kind K_MEM_READ (push_to (m_shared_memory_id p)
                   (newMessage (msg_id msg) (msg_addr msg) 0 (w16 a) (msg_owner msg))))], line)
  else if a =? SendData then Ok (acts ++ [act (LLCMSI.response_type msg) (response ct s msg line)], line)
  else if a =? SaveData then Ok (acts ++ [act_none], line)
  else if a =? SetOwner then Ok (acts ++ [act SET_SHARERS (dup msg)], set_owner_id (msg_owner msg) line)
  else if a =? ClearOwner then Ok (acts ++ [act NO_ACTION (dup msg)], set_owner_id (-1) line)
  else if a =? SendInv then
    let! l := sharers_at ct (line_key s (msg_addr msg)) in
    Ok (acts ++ [act SEND_FWD_MESSAGE (invalidation msg (filter (fun id => id <> msg_owner msg) l))], line)
  else if a =? FwdGetS then
    Ok (acts ++ [act SEND_FWD_MESSAGE (forward msg MSIDir.REQUEST_TYPE_GETS old_owner)], line)
  else if a =? FwdGetM then
    Ok (acts ++ [act SEND_FWD_MESSAGE (forward msg MSIDir.REQUEST_TYPE_GETM old_owner)], line)
  else if a =? PutAck then
    Ok (acts ++ [act SEND_FWD_MESSAGE (set_msg_kind K_ACK (push_to (msg_owner msg)
          (MSIDir.own_message p msg MSIDir.REQUEST_TYPE_PUT_ACK)))], line)
  else if a =? WriteBack then
    Ok (acts ++ [act WRITE_BACK (set_msg_kind K_MEM_WRITE (MSIDir.own_message p msg 0))], line)
  else if a =? IncSharers then Ok (acts ++ [act INCREMENT_SHARERS (dup msg)], line)
  else if a =? DecSharers then Ok (acts ++ [act DECREMENT_SHARERS (dup msg)], line)
  else if a =? Fault then Exit "LLCMSIDirectory: Fault Transaction is detected"
  else Crash "action without a case".

Definition handleAction (p : ProtocolState) (ct : DirCounters) (s : COTS) (actions : list Z) (msg : Message)
    (cache_line : GenericCacheLine) (next_state : Z) : outcome (list ControllerAction) :=
  let! (acts, line) := ofold (action_step p ct s msg (owner_id cache_line)) actions ([], cache_line) in
  let! v := isValidState (m_fsm p) next_state in
  Ok (acts ++ [act_line UPDATE_CACHE_LINE (dup msg) (copy (set_state next_state (set_valid v line)) newLine)]).
End LLCMSIDir.

(** ** [LLCMESIDirectory] *)

Module LLCMESIDir.
Definition PutE_fromOwner : Z := 11.
Definition PutE_fromNonOwner : Z := 12.
Definition SendEData : Z := 14.

Definition readEvent (p : ProtocolState) (ct : DirCounters) (s : COTS) (msg : Message) (line : GenericCacheLine)
    : outcome Z :=
  if bool_decide (msg_source msg = LOWER_INTERCONNECT) && (complementary_value msg =? MESIDir.REQUEST_TYPE_PUTE)
  then Ok (if msg_owner msg =? owner_id line then PutE_fromOwner else PutE_fromNonOwner)
  else LLCMSIDir.readEvent p ct s msg line.

Definition exclusive_response (msg : Message) : Message :=
  set_msg_cv MESIDir.RESPONSE_TYPE_EXECLUSIVE_DATA (push_to (msg_owner msg) (set_msg_to [] (dup msg))).

Definition handleAction (p : ProtocolState) (ct : DirCounters) (s : COTS) (actions : list Z) (msg : Message)
    (cache_line : GenericCacheLine) (next_state : Z) : outcome (list ControllerAction) :=
  let '(sendEData_found, actions) := erase_first SendEData actions in
  let! acts := LLCMSIDir.handleAction p ct s actions msg cache_line next_state in
  Ok (if sendEData_found : bool then acts ++ [act (LLCMSI.response_type msg) (exclusive_response msg)] else acts).
End LLCMESIDir.

(** ** [LLCMOESIDirectory] *)

Module LLCMOESIDir.
Definition GetM_fromOwner : Z := 13.
Definition PutO_Data_fromOwner : Z := 14.
Definition PutO_Data_fromNonOwner : Z := 15.
Definition last_PutO_fromOwner : Z := 16.
Definition Data_fromLowerInterface_lastAck : Z := 17.
Definition sendAckC : Z := 15.
Definition SendInvM : Z := 16.

Definition readEvent (p : ProtocolState) (ct : DirCounters) (s : COTS) (msg : Message) (line : GenericCacheLine)
    : outcome Z :=
  let key := line_key s (msg_addr msg) in
  let cv := complementary_value msg in
  if negb (bool_decide (msg_source msg = LOWER_INTERCONNECT)) then LLCMESIDir.readEvent p ct s msg line
  else if has_data msg then
    if cv =? MOESIDir.REQUEST_TYPE_PUTO then
      Ok (if msg_owner msg =? owner_id line
          then if one_sharer ct key then last_PutO_fromOwner else PutO_Data_fromOwner
          else PutO_Data_fromNonOwner)
    else if (cv =? MSIDir.REQUEST_TYPE_INV_ACK) && one_sharer ct key then Ok Data_fromLowerInterface_lastAck
    else LLCMESIDir.readEvent p ct s msg line
  else if (cv =? MSIDir.REQUEST_TYPE_GETM) && (owner_id line =? msg_owner msg) then Ok GetM_fromOwner
  else LLCMESIDir.readEvent p ct s msg line.

Definition ack_count (p : ProtocolState) (ct : DirCounters) (s : COTS) (msg : Message) : Message :=
  set_msg_cv (acks_due ct (line_key s (msg_addr msg)) (msg_owner msg))
    (set_msg_cv2 MOESIDir.RESPONSE_TYPE_ACKCOUNT (push_to (msg_owner msg) (MSIDir.own_message p msg 0))).

(** The old owner learns of the request by a forward, unless the cache itself
    evicts the line. *)
Definition to_invalidate (p : ProtocolState) (msg : Message) (old_owner : Z) (l : list Z) : list Z :=
  filter (fun id => id <> msg_owner msg /\ ~ (id = w64 old_owner /\ msg_owner msg <> p_id p)) l.
Definition invalidation (msg : Message) (dests : list Z) : Message :=
  foldl (fun m id => push_to id m) (set_msg_to [] (set_msg_cv MSIDir.REQUEST_TYPE_INV (dup msg))) dests.

Definition forward_getM (msg : Message) (old_owner : Z) (l : list Z) : Message :=
  set_msg_cv2 (Z.of_nat (length (filter (fun id => id <> msg_owner msg /\ id <> w64 old_owner) l)))
    (push_to old_owner (set_msg_to [] (set_msg_cv MSIDir.REQUEST_TYPE_GETM (dup msg)))).

Definition invM (msg : Message) (old_owner : Z) : Message :=
  push_to old_owner (set_msg_to [] (set_msg_cv MOESIDir.REQUEST_TYPE_INVM (dup msg))).

Definition handleAction (p : ProtocolState) (ct : DirCounters) (s : COTS) (actions : list Z) (msg : Message)
    (cache_line : GenericCacheLine) (next_state : Z) : outcome (list ControllerAction) :=
  let old_owner := owner_id cache_line in
  let key := line_key s (msg_addr msg) in
  let flag a := MOESIDir.has a actions in
  let rest := MOESIDir.erase_all [LLCMSIDir.SendInv; LLCMSIDir.FwdGetM; sendAckC; SendInvM] actions in
  let! acts := LLCMESIDir.handleAction p ct s rest msg cache_line next_state in
  let acts := if flag sendAckC then acts ++ [act SEND_FWD_MESSAGE (ack_count p ct s msg)] else acts in
  let! acts := (if flag LLCMSIDir.SendInv
                then let! l := sharers_at ct key in
                     Ok (acts ++ [act SEND_FWD_MESSAGE (invalidation msg (to_invalidate p msg old_owner l))])
                else Ok acts) in
  let! acts := (if flag LLCMSIDir.FwdGetM
                then let! l := sharers_at ct key in
                     Ok (acts ++ [act SEND_FWD_MESSAGE (forward_getM msg old_owner l)])
                else Ok acts) in
  Ok (if flag SendInvM then acts ++ [act SEND_FWD_MESSAGE (invM msg old_owner)] else acts).
End LLCMOESIDir.

(** ** Virtual dispatch *)

Inductive LLCDirClass := LLCMSIDirectory | LLCMESIDirectory | LLCMOESIDirectory.
#[export] Instance LLCDirClass_eq_dec : EqDecision LLCDirClass.
Proof. solve_decision. Defined.

Definition LLCDirectory : Type := LLCDirClass * ProtocolState.

Definition LLCDir_readEvent (p : LLCDirectory) :=
  match p with
  | (LLCMSIDirectory, q) => LLCMSIDir.readEvent q
  | (LLCMESIDirectory, q) => LLCMESIDir.readEvent q
  | (LLCMOESIDirectory, q) => LLCMOESIDir.readEvent q
  end.

Definition LLCDir_handleAction (p : LLCDirectory) :=
  match p with
  | (LLCMSIDirectory, q) => LLCMSIDir.handleAction q
  | (LLCMESIDirectory, q) => LLCMESIDir.handleAction q
  | (LLCMOESIDirectory, q) => LLCMOESIDir.handleAction q
  end.

Definition LLCDir_processRequest (p : LLCDirectory) (ct : DirCounters) (s : COTS) (request_msg : Message)
    : outcome (Message * list ControllerAction) :=
  let cache_line := line_bits s (msg_addr request_msg) in
  let! event_id := LLCDir_readEvent p ct s request_msg cache_line in
  let! (next_state, actions) := getTransition (m_fsm (snd p)) (state cache_line) event_id in
  let! acts := LLCDir_handleAction p ct s actions request_msg cache_line next_state in
  Ok (request_msg, acts).

(** A message that carries data is [Ready] whatever the table says. *)
Definition LLCDir_getRequestState (p : LLCDirectory) (ct : DirCounters) (s : COTS) (msg : Message)
    (req_state : FRFCFS_State) : outcome (FRFCFS_State * Message) :=
  let cache_line := line_bits s (msg_addr msg) in
  let! event_id := LLCDir_readEvent p ct s msg cache_line in
  if has_data msg then Ok (FrfcfsBuffer.Ready, msg)
  else
    let! b := isStall (m_fsm (snd p)) (state cache_line) event_id in
    Ok (if b : bool then NonReady else FrfcfsBuffer.Ready, msg).

Definition LLCDir_needsDataArray (p : LLCDirectory) (ct : DirCounters) (s : COTS) (msg : Message) : outcome bool :=
  let cache_line := line_bits s (msg_addr msg) in
  let! ev := LLCDir_readEvent p ct s (dup msg) cache_line in
  let r := m_fsm (snd p) in
  let! d := hasAction r (state cache_line) ev "SendData" in
  let! e := hasAction r (state cache_line) ev "SendExeclusiveData" in
  let! v := hasAction r (state cache_line) ev "SaveData" in
  Ok (d || e || v).

Definition LLCDir_createDefaultCacheLine (p : LLCDirectory) (s : COTS) (l : GenericCacheLine) : GenericCacheLine :=
  set_valid true (set_state (getState (m_fsm (snd p)) "I") (initializeCacheLine (base s) l)).

#[export] Instance LLC_directory : CoherenceProtocol LLCDirectory := {|
  proto_state := snd;
  processRequest := LLCDir_processRequest;
  getRequestState := LLCDir_getRequestState;
  createDefaultCacheLine := LLCDir_createDefaultCacheLine;
  isReadableState _ _ := Ok false;
  needsDataArray := LLCDir_needsDataArray |}.
