(* ===== verification/BusInterfaces.v ===== *)
(** * Bus interfaces

    [BusInterface] and [TripleBusInterface]: the bounded transmit and receive
    queues between a controller and a bus.  The static delivery counter
    [s_rx_delivery_seq] is an argument of the receive operations.  [BusPort]
    adds to [CommInterface] what a bus controller uses: the transmit queues. *)

From S2P Require Export Messages.

(** ** [BusInterface] *)

Record BusInterface := mkBusInterface {
  bi_id : Z;
  m_buffer_selector : Z;
  m_buffer_max_size : Z;
  m_tx_request_buffer : list Message;
  m_tx_response_buffer : list Message;
  m_rx_request_buffer : list Message;
  m_rx_response_buffer : list Message;
  m_rx_request_seq : list Z;
  m_rx_response_seq : list Z }.

Definition newBusInterface (id buffer_max_size : Z) : BusInterface :=
  mkBusInterface id (-1) buffer_max_size [] [] [] [] [] [].

Definition bi_set_selector (sel : Z) (b : BusInterface) : BusInterface :=
  mkBusInterface (bi_id b) sel (m_buffer_max_size b) (m_tx_request_buffer b) (m_tx_response_buffer b)
    (m_rx_request_buffer b) (m_rx_response_buffer b) (m_rx_request_seq b) (m_rx_response_seq b).
Definition bi_set_tx (req resp : list Message) (b : BusInterface) : BusInterface :=
  mkBusInterface (bi_id b) (m_buffer_selector b) (m_buffer_max_size b) req resp
    (m_rx_request_buffer b) (m_rx_response_buffer b) (m_rx_request_seq b) (m_rx_response_seq b).
Definition bi_set_rx_request (l : list Message) (q : list Z) (b : BusInterface) : BusInterface :=
  mkBusInterface (bi_id b) (m_buffer_selector b) (m_buffer_max_size b) (m_tx_request_buffer b) (m_tx_response_buffer b)
    l (m_rx_response_buffer b) q (m_rx_response_seq b).
Definition bi_set_rx_response (l : list Message) (q : list Z) (b : BusInterface) : BusInterface :=
  mkBusInterface (bi_id b) (m_buffer_selector b) (m_buffer_max_size b) (m_tx_request_buffer b) (m_tx_response_buffer b)
    (m_rx_request_buffer b) l (m_rx_request_seq b) q.

Module BI.
(** The two-pass loop of [peekMessage]: the buffer handed out last goes second. *)
Fixpoint peek_loop (n : nat) (b : BusInterface) : option Message * BusInterface :=
  match n with
  | O => (None, b)
  | S n' =>
      match m_rx_request_buffer b, m_buffer_selector b =? 0 with
      | m :: _, false => (Some m, bi_set_selector 0 b)
      | _, _ =>
          match m_rx_response_buffer b, m_buffer_selector b =? 1 with
          | m :: _, false => (Some m, bi_set_selector 1 b)
          | _, _ => peek_loop n' (bi_set_selector (-1) b)
          end
      end
  end.

Definition peekMessage (b : BusInterface) : option Message * BusInterface := peek_loop 2 b.

Definition popFrontMessage (b : BusInterface) : BusInterface :=
  if m_buffer_selector b =? 0
  then bi_set_rx_request (tail (m_rx_request_buffer b)) (tail (m_rx_request_seq b)) b
  else if m_buffer_selector b =? 1
  then bi_set_rx_response (tail (m_rx_response_buffer b)) (tail (m_rx_response_seq b)) b
  else b.

(** The message is stamped before it is stored. *)
Definition stamp (id : Z) (m : Message) (cycle : Z) : Message :=
  set_msg_from id (if cycle =? 0 then m else set_msg_cycle cycle m).

Definition pushMessage (b : BusInterface) (m : Message) (cycle : Z) (type : MessageType)
    : bool * BusInterface :=
  let m := stamp (bi_id b) m cycle in
  match type with
  | REQUEST =>
      if Z.of_nat (length (m_tx_request_buffer b)) <? m_buffer_max_size b
      then (true, bi_set_tx (m_tx_request_buffer b ++ [m]) (m_tx_response_buffer b) b) else (false, b)
  | DATA_RESPONSE =>
      if Z.of_nat (length (m_tx_response_buffer b)) <? m_buffer_max_size b
      then (true, bi_set_tx (m_tx_request_buffer b) (m_tx_response_buffer b ++ [m]) b) else (false, b)
  | SERVICE_REQUEST => (false, b)
  end.

Definition pushMessage2RX (seq : Z) (b : BusInterface) (m : Message) (type : MessageType)
    : bool * BusInterface * Z :=
  match type with
  | REQUEST =>
      if isDemandRequest m && (m_buffer_max_size b <=? Z.of_nat (length (m_rx_request_buffer b)))
      then (false, b, seq)
      else (true, bi_set_rx_request (m_rx_request_buffer b ++ [m]) (m_rx_request_seq b ++ [w64 (seq + 1)]) b,
            w64 (seq + 1))
  | DATA_RESPONSE =>
      (true, bi_set_rx_response (m_rx_response_buffer b ++ [m]) (m_rx_response_seq b ++ [w64 (seq + 1)]) b,
       w64 (seq + 1))
  | SERVICE_REQUEST => (false, b, seq)
  end.

Definition canAcceptRX (b : BusInterface) (type : MessageType) : bool :=
  match type with
  | REQUEST => Z.of_nat (length (m_rx_request_buffer b)) <? m_buffer_max_size b
  | DATA_RESPONSE => true
  | SERVICE_REQUEST => false
  end.

Definition txResponseFreeSlots (b : BusInterface) : Z :=
  m_buffer_max_size b - Z.of_nat (length (m_tx_response_buffer b)).

(** [a & ~(mask - 1)] *)
Definition line_of (mask a : Z) : Z := Z.land a (Z.lxor (w64 (mask - 1)) 0xFFFFFFFFFFFFFFFF).

(** The first message of the line, and the buffer without it. *)
Fixpoint take_line (mask address : Z) (l : list Message) : option (Message * list Message) :=
  match l with
  | [] => None
  | m :: l' =>
      if line_of mask address =? line_of mask (msg_addr m) then Some (m, l')
      else match take_line mask address l' with Some (r, l'') => Some (r, m :: l'') | None => None end
  end.

Definition rollback (b : BusInterface) (address mask : Z) : option Message * BusInterface :=
  match take_line mask address (m_tx_request_buffer b) with
  | Some (m, l) => (Some m, bi_set_tx l (m_tx_response_buffer b) b)
  | None =>
      match take_line mask address (m_tx_response_buffer b) with
      | Some (m, l) => (Some m, bi_set_tx (m_tx_request_buffer b) l b)
      | None => (None, b)
      end
  end.
End BI.

#[export] Instance BI_interface : CommInterface BusInterface := {|
  ci_id := bi_id;
  peekMessage := BI.peekMessage;
  popFrontMessage := BI.popFrontMessage;
  pushMessage b m c t := Ok (BI.pushMessage b m c t);
  pushMessage2RX := BI.pushMessage2RX;
  canAcceptRX := BI.canAcceptRX;
  txResponseFreeSlots := BI.txResponseFreeSlots;
  rollback := BI.rollback |}.

(** ** [TripleBusInterface] *)

Record TripleBusInterface := mkTripleBusInterface {
  tb_base : BusInterface;
  m_tx_service_buffer : list Message;
  m_rx_service_buffer : list Message;
  m_rx_service_seq : list Z;
  m_service_selected : bool }.

Definition newTripleBusInterface (id buffer_max_size : Z) : TripleBusInterface :=
  mkTripleBusInterface (newBusInterface id buffer_max_size) [] [] [] false.

Definition tb_set_base (b : BusInterface) (t : TripleBusInterface) : TripleBusInterface :=
  mkTripleBusInterface b (m_tx_service_buffer t) (m_rx_service_buffer t) (m_rx_service_seq t) (m_service_selected t).
Definition tb_set_selected (s : bool) (t : TripleBusInterface) : TripleBusInterface :=
  mkTripleBusInterface (tb_base t) (m_tx_service_buffer t) (m_rx_service_buffer t) (m_rx_service_seq t) s.
Definition tb_set_tx_service (l : list Message) (t : TripleBusInterface) : TripleBusInterface :=
  mkTripleBusInterface (tb_base t) l (m_rx_service_buffer t) (m_rx_service_seq t) (m_service_selected t).
Definition tb_set_rx_service (l : list Message) (q : list Z) (t : TripleBusInterface) : TripleBusInterface :=
  mkTripleBusInterface (tb_base t) (m_tx_service_buffer t) l q (m_service_selected t).

Module TBI.
(** The service head goes first when the bus delivered it before the request
    head ([m_rx_request_seq[0]] is read only when there is a request). *)
Definition service_first (t : TripleBusInterface) : option Message :=
  match m_rx_service_buffer t, m_rx_request_buffer (tb_base t) with
  | m :: _, [] => Some m
  | m :: _, _ :: _ =>
      if nth 0 (m_rx_service_seq t) 0 <? nth 0 (m_rx_request_seq (tb_base t)) 0 then Some m else None
  | [], _ => None
  end.

Definition peekMessage (t : TripleBusInterface) : option Message * TripleBusInterface :=
  match service_first t with
  | Some m => (Some m, tb_set_selected true t)
  | None =>
      let '(r, b) := BI.peekMessage (tb_base t) in (r, tb_set_base b (tb_set_selected false t))
  end.

Definition popFrontMessage (t : TripleBusInterface) : TripleBusInterface :=
  if m_service_selected t
  then tb_set_selected false (tb_set_rx_service (tail (m_rx_service_buffer t)) (tail (m_rx_service_seq t)) t)
  else tb_set_base (BI.popFrontMessage (tb_base t)) t.

Definition pushMessage (t : TripleBusInterface) (m : Message) (cycle : Z) (type : MessageType)
    : bool * TripleBusInterface :=
  match type with
  | SERVICE_REQUEST =>
      if Z.of_nat (length (m_tx_service_buffer t)) <? m_buffer_max_size (tb_base t)
      then (true, tb_set_tx_service (m_tx_service_buffer t ++ [BI.stamp (bi_id (tb_base t)) m cycle]) t)
      else (false, t)
  | _ => let '(r, b) := BI.pushMessage (tb_base t) m cycle type in (r, tb_set_base b t)
  end.

Definition pushMessage2RX (seq : Z) (t : TripleBusInterface) (m : Message) (type : MessageType)
    : bool * TripleBusInterface * Z :=
  match type with
  | SERVICE_REQUEST =>
      (true, tb_set_rx_service (m_rx_service_buffer t ++ [m]) (m_rx_service_seq t ++ [w64 (seq + 1)]) t,
       w64 (seq + 1))
  | _ => let '(r, b, seq') := BI.pushMessage2RX seq (tb_base t) m type in (r, tb_set_base b t, seq')
  end.

Definition canAcceptRX (t : TripleBusInterface) (type : MessageType) : bool :=
  match type with SERVICE_REQUEST => true | _ => BI.canAcceptRX (tb_base t) type end.

Definition rollback (t : TripleBusInterface) (address mask : Z) : option Message * TripleBusInterface :=
  let '(r, b) := BI.rollback (tb_base t) address mask in (r, tb_set_base b t).
End TBI.

#[export] Instance TBI_interface : CommInterface TripleBusInterface := {|
  ci_id t := bi_id (tb_base t);
  peekMessage := TBI.peekMessage;
  popFrontMessage := TBI.popFrontMessage;
  pushMessage t m c ty := Ok (TBI.pushMessage t m c ty);
  pushMessage2RX := TBI.pushMessage2RX;
  canAcceptRX := TBI.canAcceptRX;
  txResponseFreeSlots t := BI.txResponseFreeSlots (tb_base t);
  rollback := TBI.rollback |}.

(** ** What a bus controller sees of an interface

    [getCongregatedBuffers] and [getCongregatedServiceBuffers] collect pointers
    to these queues; an election or a broadcast removes from them. *)

Class BusPort (I : Type) `{CommInterface I} := {
  tx_requests : I -> list Message;
  tx_responses : I -> list Message;
  tx_services : I -> list Message;
  set_tx_requests : list Message -> I -> I;
  set_tx_responses : list Message -> I -> I;
  set_tx_services : list Message -> I -> I }.

(** The transmit queues are separate from the rest of the interface. *)
Class BusPortLaws (I : Type) `{BusPort I, !CommInterfaceLaws I} := {
  bp_set_requests : forall l i, let i' := set_tx_requests l i in
    tx_requests i' = l /\ tx_responses i' = tx_responses i /\ tx_services i' = tx_services i /\
    ci_rx i' = ci_rx i /\ ci_id i' = ci_id i;
  bp_set_responses : forall l i, let i' := set_tx_responses l i in
    tx_requests i' = tx_requests i /\ tx_responses i' = l /\ tx_services i' = tx_services i /\
    ci_rx i' = ci_rx i /\ ci_id i' = ci_id i;
  bp_rx : forall q i m t r i' q', pushMessage2RX q i m t = (r, i', q') ->
    tx_requests i' = tx_requests i /\ tx_responses i' = tx_responses i /\
    tx_services i' = tx_services i /\ ci_id i' = ci_id i }.

#[export] Instance BI_port : BusPort BusInterface := {|
  tx_requests := m_tx_request_buffer;
  tx_responses := m_tx_response_buffer;
  tx_services _ := [];
  set_tx_requests l b := bi_set_tx l (m_tx_response_buffer b) b;
  set_tx_responses l b := bi_set_tx (m_tx_request_buffer b) l b;
  set_tx_services _ b := b |}.

#[export] Instance TBI_port : BusPort TripleBusInterface := {|
  tx_requests t := m_tx_request_buffer (tb_base t);
  tx_responses t := m_tx_response_buffer (tb_base t);
  tx_services := m_tx_service_buffer;
  set_tx_requests l t := tb_set_base (bi_set_tx l (m_tx_response_buffer (tb_base t)) (tb_base t)) t;
  set_tx_responses l t := tb_set_base (bi_set_tx (m_tx_request_buffer (tb_base t)) l (tb_base t)) t;
  set_tx_services := tb_set_tx_service |}.

(** ** The laws *)

Definition bi_rx (b : BusInterface) : list Message := m_rx_request_buffer b ++ m_rx_response_buffer b.
Definition bi_tx (b : BusInterface) : list Message := m_tx_request_buffer b ++ m_tx_response_buffer b.

Lemma perm_snoc_l (l1 l2 : list Message) m : (l1 ++ [m]) ++ l2 ≡ₚ m :: l1 ++ l2.
Proof. rewrite <- app_assoc. cbn. symmetry. apply Permutation_middle. Qed.

Lemma perm_snoc_r (l1 l2 : list Message) m : l1 ++ l2 ++ [m] ≡ₚ m :: l1 ++ l2.
Proof. rewrite app_assoc. symmetry. apply Permutation_cons_append. Qed.

(** Which buffer [peekMessage] hands out. *)
Lemma BI_peek_cases b r b' : BI.peekMessage b = (r, b') ->
  (exists m l, r = Some m /\ m_rx_request_buffer b = m :: l /\ b' = bi_set_selector 0 b) \/
  (exists m l, r = Some m /\ m_rx_response_buffer b = m :: l /\ b' = bi_set_selector 1 b) \/
  (r = None /\ m_rx_request_buffer b = [] /\ m_rx_response_buffer b = [] /\ b' = bi_set_selector (-1) b).
Proof.
  destruct b as [id sel mx txq txr rq rr sq sr]. unfold BI.peekMessage. cbn.
  destruct rq as [|m rq], rr as [|m' rr], (Z.eqb_spec sel 0), (Z.eqb_spec sel 1); cbn;
    intros [= <- <-]; try lia; eauto 10.
Qed.

Lemma BI_peek_none b b' : BI.peekMessage b = (None, b') ->
  bi_rx b = [] /\ bi_rx b' = [] /\ bi_tx b' = bi_tx b.
Proof.
  intros [(m & l & [=] & _)|[(m & l & [=] & _)|(_ & E1 & E2 & ->)]]%BI_peek_cases.
  unfold bi_rx, bi_tx; cbn. by rewrite E1, E2.
Qed.

Lemma BI_peek_some b m b' : BI.peekMessage b = (Some m, b') ->
  bi_rx b' = bi_rx b /\ bi_tx b' = bi_tx b /\ bi_rx b ≡ₚ m :: bi_rx (BI.popFrontMessage b').
Proof.
  unfold bi_rx, bi_tx.
  intros [(m0 & l & [= ->] & E & ->)|[(m0 & l & [= ->] & E & ->)|([=] & _)]]%BI_peek_cases; cbn;
    rewrite E; cbn; split_and!; try done. by rewrite Permutation_middle.
Qed.

Lemma BI_pop_tx b : bi_tx (BI.popFrontMessage b) = bi_tx b.
Proof. unfold BI.popFrontMessage. by repeat case_match. Qed.

Lemma BI_push_ok b m c t b' : BI.pushMessage b m c t = (true, b') ->
  bi_rx b' = bi_rx b /\ bi_id b' = bi_id b /\ bi_tx b' ≡ₚ BI.stamp (bi_id b) m c :: bi_tx b.
Proof.
  unfold BI.pushMessage, bi_rx, bi_tx.
  repeat case_match; intros [= <-]; cbn; (split_and!; [done..|]); apply perm_snoc_l || apply perm_snoc_r.
Qed.

Lemma BI_push_full b m c t b' : BI.pushMessage b m c t = (false, b') -> b' = b.
Proof. unfold BI.pushMessage. by repeat case_match; intros [= <-]. Qed.

Lemma BI_rx_ok q b m t b' q' : BI.pushMessage2RX q b m t = (true, b', q') ->
  bi_rx b' ≡ₚ m :: bi_rx b /\ bi_tx b' = bi_tx b.
Proof.
  unfold BI.pushMessage2RX, bi_rx, bi_tx.
  repeat case_match; intros [= <- <-]; cbn; (split; [|done]); apply perm_snoc_l || apply perm_snoc_r.
Qed.

Lemma BI_rx_full q b m t b' q' : BI.pushMessage2RX q b m t = (false, b', q') -> b' = b /\ q' = q.
Proof. unfold BI.pushMessage2RX. by repeat case_match; intros [= <- <-]. Qed.

Lemma BI_can_accept q b m t : BI.canAcceptRX b t = true ->
  exists b' q', BI.pushMessage2RX q b m t = (true, b', q').
Proof.
  unfold BI.canAcceptRX, BI.pushMessage2RX. intros H. destruct t; [|by eauto|done].
  apply Z.ltb_lt in H. rewrite (proj2 (Z.leb_gt _ _)) by lia. rewrite andb_false_r. eauto.
Qed.

Lemma BI_service_accept q b m t : isDemandRequest m = false -> t <> SERVICE_REQUEST ->
  exists b' q', BI.pushMessage2RX q b m t = (true, b', q').
Proof. unfold BI.pushMessage2RX. intros ->. destruct t; [| |done]; cbn; eauto. Qed.

Lemma BI_peek_id b r b' : BI.peekMessage b = (r, b') -> bi_id b' = bi_id b.
Proof.
  destruct b as [id sel mx txq txr rq rr sq sr]. unfold BI.peekMessage; cbn.
  repeat case_match; by intros [= _ <-].
Qed.

Lemma BI_pop_id b : bi_id (BI.popFrontMessage b) = bi_id b.
Proof. unfold BI.popFrontMessage. by repeat case_match. Qed.

#[export] Instance BI_laws : CommInterfaceLaws BusInterface := {|
  ci_rx := bi_rx;
  ci_tx := bi_tx;
  ci_peek_some := BI_peek_some;
  ci_peek_none := BI_peek_none;
  ci_pop_tx := BI_pop_tx;
  ci_peek_id := BI_peek_id;
  ci_pop_id := BI_pop_id;
  ci_push_ok b m c t b' H := BI_push_ok b m c t b' (f_equal (fun o => match o with Ok x => x | _ => (true, b') end) H);
  ci_push_full b m c t b' H := BI_push_full b m c t b' (f_equal (fun o => match o with Ok x => x | _ => (false, b') end) H);
  ci_rx_ok := BI_rx_ok;
  ci_rx_full := BI_rx_full;
  ci_can_accept := BI_can_accept;
  ci_service_accept := BI_service_accept |}.

Definition tb_rx (t : TripleBusInterface) : list Message := m_rx_service_buffer t ++ bi_rx (tb_base t).
Definition tb_tx (t : TripleBusInterface) : list Message := m_tx_service_buffer t ++ bi_tx (tb_base t).

Lemma TBI_service_first_Some t m : TBI.service_first t = Some m ->
  exists l, m_rx_service_buffer t = m :: l.
Proof. unfold TBI.service_first. repeat case_match; intros [= <-]; eauto. Qed.

Lemma TBI_service_first_None t : TBI.service_first t = None ->
  m_rx_service_buffer t = [] \/ m_rx_request_buffer (tb_base t) <> [].
Proof. unfold TBI.service_first. repeat case_match; intros [=]; auto. Qed.

Lemma TBI_peek_some t m t' : TBI.peekMessage t = (Some m, t') ->
  tb_rx t' = tb_rx t /\ tb_tx t' = tb_tx t /\ tb_rx t ≡ₚ m :: tb_rx (TBI.popFrontMessage t').
Proof.
  unfold TBI.peekMessage. destruct (TBI.service_first t) as [m0|] eqn:E.
  - intros [= -> <-]. apply TBI_service_first_Some in E as [l E].
    unfold tb_rx, tb_tx, TBI.popFrontMessage; cbn. by rewrite E.
  - destruct (BI.peekMessage (tb_base t)) as [r b] eqn:Eb. intros [= -> <-].
    apply BI_peek_some in Eb as (E1 & E2 & E3).
    unfold tb_rx, tb_tx, TBI.popFrontMessage; cbn. rewrite E1, E2. split_and!; [done..|].
    rewrite E3 at 1. by rewrite <- Permutation_middle.
Qed.

Lemma TBI_peek_none t t' : TBI.peekMessage t = (None, t') ->
  tb_rx t = [] /\ tb_rx t' = [] /\ tb_tx t' = tb_tx t.
Proof.
  unfold TBI.peekMessage. destruct (TBI.service_first t) as [m0|] eqn:E; [done|].
  destruct (BI.peekMessage (tb_base t)) as [r b] eqn:Eb. intros [= -> <-].
  apply BI_peek_none in Eb as (E1 & E2 & E3). unfold tb_rx, tb_tx; cbn. rewrite E1, E2, E3.
  apply TBI_service_first_None in E as [E|E]; [by rewrite E|].
  unfold bi_rx in E1. by apply app_eq_nil in E1 as [? _].
Qed.

Lemma TBI_pop_tx t : tb_tx (TBI.popFrontMessage t) = tb_tx t.
Proof.
  unfold TBI.popFrontMessage, tb_tx. destruct (m_service_selected t); [done|]. cbn. by rewrite BI_pop_tx.
Qed.

Lemma TBI_push_ok t m c ty t' : TBI.pushMessage t m c ty = (true, t') ->
  tb_rx t' = tb_rx t /\ bi_id (tb_base t') = bi_id (tb_base t) /\
  tb_tx t' ≡ₚ BI.stamp (bi_id (tb_base t)) m c :: tb_tx t.
Proof.
  assert (Hbase : ty <> SERVICE_REQUEST ->
    (let '(r, b) := BI.pushMessage (tb_base t) m c ty in (r, tb_set_base b t)) = (true, t') ->
    tb_rx t' = tb_rx t /\ bi_id (tb_base t') = bi_id (tb_base t) /\
    tb_tx t' ≡ₚ BI.stamp (bi_id (tb_base t)) m c :: tb_tx t).
  { intros _. destruct (BI.pushMessage _ _ _ _) as [r b] eqn:Eb. intros [= -> <-].
    apply BI_push_ok in Eb as (E1 & Ei & E2). unfold tb_rx, tb_tx; cbn. rewrite E1, E2, Ei.
    split_and!; [done..|]. by rewrite <- Permutation_middle. }
  unfold TBI.pushMessage. destruct ty; [by apply Hbase|by apply Hbase|].
  destruct (_ <? _); [|done]. intros [= <-]. unfold tb_rx, tb_tx; cbn. split_and!; [done..|]. apply perm_snoc_l.
Qed.

Lemma TBI_push_full t m c ty t' : TBI.pushMessage t m c ty = (false, t') -> t' = t.
Proof.
  assert (Hbase : (let '(r, b) := BI.pushMessage (tb_base t) m c ty in (r, tb_set_base b t)) = (false, t') -> t' = t).
  { destruct (BI.pushMessage _ _ _ _) as [r b] eqn:Eb. intros [= -> <-]. apply BI_push_full in Eb as ->. by destruct t. }
  unfold TBI.pushMessage. destruct ty; [by apply Hbase|by apply Hbase|]. by destruct (_ <? _); intros [= <-].
Qed.

Lemma TBI_rx_base q t m ty r t' q' : ty <> SERVICE_REQUEST -> TBI.pushMessage2RX q t m ty = (r, t', q') ->
  exists b, BI.pushMessage2RX q (tb_base t) m ty = (r, b, q') /\ t' = tb_set_base b t.
Proof.
  intros Hty. unfold TBI.pushMessage2RX. destruct ty; [..|done];
    destruct (BI.pushMessage2RX _ _ _ _) as [[r0 b] q0]; intros [= <- <- <-]; eauto.
Qed.

Lemma TBI_rx_ok q t m ty t' q' : TBI.pushMessage2RX q t m ty = (true, t', q') ->
  tb_rx t' ≡ₚ m :: tb_rx t /\ tb_tx t' = tb_tx t.
Proof.
  destruct (decide (ty = SERVICE_REQUEST)) as [->|Hty].
  - intros [= <- <-]. unfold tb_rx, tb_tx; cbn. split; [|done]. apply perm_snoc_l.
  - intros (b & (E1 & E2)%BI_rx_ok & ->)%TBI_rx_base; [|done]. unfold tb_rx, tb_tx; cbn.
    rewrite E1, E2. split; [|done]. by rewrite <- Permutation_middle.
Qed.

Lemma TBI_rx_full q t m ty t' q' : TBI.pushMessage2RX q t m ty = (false, t', q') -> t' = t /\ q' = q.
Proof.
  destruct (decide (ty = SERVICE_REQUEST)) as [->|Hty]; [done|].
  intros (b & [-> ->]%BI_rx_full & ->)%TBI_rx_base; [|done]. by destruct t.
Qed.

Lemma TBI_can_accept q t m ty : TBI.canAcceptRX t ty = true ->
  exists t' q', TBI.pushMessage2RX q t m ty = (true, t', q').
Proof.
  unfold TBI.canAcceptRX, TBI.pushMessage2RX. destruct ty; [..|by eauto];
    intros (b & q1 & ->)%(BI_can_accept q _ m); eauto.
Qed.

Lemma TBI_service_accept q t m ty : isDemandRequest m = false -> ty <> SERVICE_REQUEST ->
  exists t' q', TBI.pushMessage2RX q t m ty = (true, t', q').
Proof.
  intros Hm Hty. destruct (BI_service_accept q (tb_base t) m ty Hm Hty) as (b & q' & E).
  unfold TBI.pushMessage2RX. destruct ty; [..|done]; rewrite E; eauto.
Qed.

Lemma TBI_peek_id t r t' : TBI.peekMessage t = (r, t') -> bi_id (tb_base t') = bi_id (tb_base t).
Proof.
  unfold TBI.peekMessage. destruct (TBI.service_first t); [by intros [= _ <-]|].
  destruct (BI.peekMessage (tb_base t)) as [r0 b] eqn:E. intros [= _ <-]. by apply BI_peek_id in E.
Qed.

Lemma TBI_pop_id t : bi_id (tb_base (TBI.popFrontMessage t)) = bi_id (tb_base t).
Proof. unfold TBI.popFrontMessage. destruct (m_service_selected t); [done|]. apply BI_pop_id. Qed.

#[export] Instance TBI_laws : CommInterfaceLaws TripleBusInterface := {|
  ci_rx := tb_rx;
  ci_tx := tb_tx;
  ci_peek_some := TBI_peek_some;
  ci_peek_none := TBI_peek_none;
  ci_pop_tx := TBI_pop_tx;
  ci_peek_id := TBI_peek_id;
  ci_pop_id := TBI_pop_id;
  ci_push_ok t m c ty t' H := TBI_push_ok t m c ty t' (f_equal (fun o => match o with Ok x => x | _ => (true, t') end) H);
  ci_push_full t m c ty t' H := TBI_push_full t m c ty t' (f_equal (fun o => match o with Ok x => x | _ => (false, t') end) H);
  ci_rx_ok := TBI_rx_ok;
  ci_rx_full := TBI_rx_full;
  ci_can_accept := TBI_can_accept;
  ci_service_accept := TBI_service_accept |}.

Lemma BI_rx_tx q b m t r b' q' : BI.pushMessage2RX q b m t = (r, b', q') ->
  m_tx_request_buffer b' = m_tx_request_buffer b /\ m_tx_response_buffer b' = m_tx_response_buffer b /\
  bi_id b' = bi_id b.
Proof. unfold BI.pushMessage2RX. destruct t; [destruct (_ && _)|..]; by intros [= _ <- _]. Qed.

#[export] Instance BI_port_laws : BusPortLaws BusInterface.
Proof.
  split; [done..|]. intros q b m t r b' q' H. apply BI_rx_tx in H as (? & ? & ?). by split_and!.
Qed.

#[export] Instance TBI_port_laws : BusPortLaws TripleBusInterface.
Proof.
  split; [done..|]. intros q t m ty r t' q'. cbn.
  destruct (decide (ty = SERVICE_REQUEST)) as [->|Hty]; [by intros [= _ <- _]|].
  intros (b & (? & ? & ?)%BI_rx_tx & ->)%TBI_rx_base; [|done]. by split_and!.
Qed.

(** ** Bus order

    [TDeliver]: the bus delivers a message here; [TOther n]: it makes [n]
    deliveries elsewhere; [TTake]: the controller peeks and pops. *)

Inductive TOp := TDeliver (m : Message) (ty : MessageType) | TOther (n : Z) | TTake.

(** The delivery number of what the last peek handed out; none for a data
    response, which is not ordered. *)
Definition taken_seq (t : TripleBusInterface) : option Z :=
  if m_service_selected t then head (m_rx_service_seq t)
  else if m_buffer_selector (tb_base t) =? 0 then head (m_rx_request_seq (tb_base t)) else None.

Definition t_step (s : Z * TripleBusInterface) (op : TOp) : list Z * (Z * TripleBusInterface) :=
  let '(q, t) := s in
  match op with
  | TDeliver m ty => let '(_, t', q') := TBI.pushMessage2RX q t m ty in ([], (q', t'))
  | TOther n => ([], (q + n, t))
  | TTake =>
      match TBI.peekMessage t with
      | (Some _, t') => (match taken_seq t' with Some n => [n] | None => [] end, (q, TBI.popFrontMessage t'))
      | (None, t') => ([], (q, t'))
      end
  end.

Fixpoint t_run (s : Z * TripleBusInterface) (ops : list TOp) : list Z * (Z * TripleBusInterface) :=
  match ops with
  | [] => ([], s)
  | op :: ops' =>
      let '(out, s') := t_step s op in let '(outs, s'') := t_run s' ops' in (out ++ outs, s'')
  end.

(** A queue of delivery numbers between [lo] (excluded) and [hi]. *)
Fixpoint seqs_ok (lo hi : Z) (l : list Z) : Prop :=
  match l with
  | [] => lo <= hi
  | n :: l' => lo < n /\ seqs_ok n hi l'
  end.

Lemma seqs_ok_le lo hi l : seqs_ok lo hi l -> lo <= hi.
Proof. revert lo. induction l as [|n l IH]; intros lo; cbn; [done|]. intros [? ?%IH]. lia. Qed.

Lemma seqs_ok_weaken lo lo' hi hi' l : lo' <= lo -> hi <= hi' -> seqs_ok lo hi l -> seqs_ok lo' hi' l.
Proof.
  revert lo lo'. induction l as [|n l IH]; intros lo lo' Hlo Hhi; cbn; [lia|].
  intros [? H]. split; [lia|]. by apply (IH n n).
Qed.

Lemma seqs_ok_snoc lo hi l n : seqs_ok lo hi l -> hi < n -> seqs_ok lo n (l ++ [n]).
Proof.
  revert lo. induction l as [|k l IH]; intros lo; cbn; [lia|]. intros [? H] Hn. split; [done|]. by apply IH.
Qed.

Lemma seqs_ok_bound lo hi l n : seqs_ok lo hi l -> n ∈ l -> n <= hi.
Proof.
  revert lo. induction l as [|k l IH]; intros lo; cbn; [by intros _ ?%not_elem_of_nil|].
  intros [? H] [->|Hn]%elem_of_cons; [by eapply seqs_ok_le|by eapply IH].
Qed.

Record t_inv (last q : Z) (t : TripleBusInterface) : Prop := mk_t_inv {
  ti_req : seqs_ok last q (m_rx_request_seq (tb_base t));
  ti_srv : seqs_ok last q (m_rx_service_seq t);
  ti_req_len : length (m_rx_request_seq (tb_base t)) = length (m_rx_request_buffer (tb_base t));
  ti_srv_len : length (m_rx_service_seq t) = length (m_rx_service_buffer t);
  ti_disj : forall n, n ∈ m_rx_request_seq (tb_base t) -> n ∉ m_rx_service_seq t }.

Lemma t_deliver_inv last q t m ty r t' q' : t_inv last q t -> 0 <= q < 2 ^ 64 - 1 ->
  TBI.pushMessage2RX q t m ty = (r, t', q') -> t_inv last q' t' /\ q <= q' <= q + 1.
Proof.
  intros [Hr Hs Hrl Hsl Hd] Hq. unfold TBI.pushMessage2RX, BI.pushMessage2RX. rewrite w64_small by lia.
  destruct ty; [destruct (_ && _)|..]; intros [= <- <- <-];
    (split; [|lia]); constructor; cbn; rewrite ?length_app; cbn;
    try (eapply seqs_ok_snoc; [done|lia]); try (eapply seqs_ok_weaken; [..|done]; lia); try done; try lia.
  - intros n [Hn|Hn]%elem_of_app; [by apply Hd|]. apply list_elem_of_singleton in Hn as ->.
    intros Hn%(seqs_ok_bound _ _ _ _ Hs). lia.
  - intros n Hn [Hn'|Hn']%elem_of_app; [by eapply Hd|]. apply list_elem_of_singleton in Hn' as ->.
    apply (seqs_ok_bound _ _ _ _ Hr) in Hn. lia.
Qed.

(** The two ways a message under bus order leaves. *)
Lemma t_pop_service last q t n l : t_inv last q t -> m_rx_service_seq t = n :: l ->
  (match m_rx_request_seq (tb_base t) with [] => True | k :: _ => n < k end) ->
  last < n /\ t_inv n q (tb_set_selected false (tb_set_rx_service (tail (m_rx_service_buffer t)) l t)).
Proof.
  intros [Hr Hs Hrl Hsl Hd] E Hlt. rewrite E in Hs, Hsl, Hd. destruct Hs as [Hn Hs]. split; [done|].
  constructor; cbn; [|done|done|destruct (m_rx_service_buffer t); cbn in *; lia|].
  - destruct (m_rx_request_seq (tb_base t)) as [|k rs]; cbn in *; [by eapply seqs_ok_le|]. by destruct Hr.
  - intros k Hk Hl. eapply Hd; [done|]. by right.
Qed.

Lemma t_pop_request last q t n l : t_inv last q t -> m_rx_request_seq (tb_base t) = n :: l ->
  (match m_rx_service_seq t with [] => True | k :: _ => n <= k end) ->
  last < n /\ t_inv n q (tb_set_base (bi_set_rx_request (tail (m_rx_request_buffer (tb_base t))) l
                                      (bi_set_selector 0 (tb_base t))) (tb_set_selected false t)).
Proof.
  intros [Hr Hs Hrl Hsl Hd] E Hle. rewrite E in Hr, Hrl, Hd. destruct Hr as [Hn Hr]. split; [done|].
  constructor; cbn; [done| |destruct (m_rx_request_buffer (tb_base t)); cbn in *; lia|done|].
  - destruct (m_rx_service_seq t) as [|k ss]; cbn in *; [by eapply seqs_ok_le|]. destruct Hs. split; [|done].
    assert (n <> k); [|lia]. intros ->. eapply Hd; by left.
  - intros k Hk. apply Hd. by right.
Qed.

Lemma t_take_inv last q t m t' : t_inv last q t -> TBI.peekMessage t = (Some m, t') ->
  match taken_seq t' with
  | Some n => last < n /\ t_inv n q (TBI.popFrontMessage t')
  | None => t_inv last q (TBI.popFrontMessage t')
  end.
Proof.
  intros W. pose proof W as [Hr Hs Hrl Hsl Hd]. unfold TBI.peekMessage.
  destruct (TBI.service_first t) as [m0|] eqn:E.
  - intros [= -> <-]. unfold taken_seq, TBI.popFrontMessage; cbn.
    pose proof (TBI_service_first_Some _ _ E) as [l El]. rewrite El in Hsl.
    destruct (m_rx_service_seq t) as [|n ss] eqn:Es; [done|]. cbn. apply (t_pop_service last q t n ss); [done|done|].
    unfold TBI.service_first in E. rewrite El, Es in E.
    destruct (m_rx_request_buffer (tb_base t)), (m_rx_request_seq (tb_base t)) as [|k rs]; try done.
    cbn in E. by destruct (Z.ltb_spec n k).
  - destruct (BI.peekMessage (tb_base t)) as [r b'] eqn:Eb. intros [= -> <-].
    unfold taken_seq, TBI.popFrontMessage; cbn.
    apply BI_peek_cases in Eb as [(m1 & l & _ & El & ->)|[(m1 & l & _ & El & ->)|([=] & _)]]; cbn.
    + rewrite El in Hrl. destruct (m_rx_request_seq (tb_base t)) as [|n rs] eqn:Es; [done|].
      cbn. apply (t_pop_request last q t n rs); [done|done|].
      unfold TBI.service_first in E. rewrite El, Es in E.
      destruct (m_rx_service_buffer t), (m_rx_service_seq t) as [|k ss]; try done.
      cbn in E. by destruct (Z.ltb_spec k n).
    + by constructor.
Qed.

Lemma t_inv_later last q q' t : q <= q' -> t_inv last q t -> t_inv last q' t.
Proof. intros ? [? ? ? ? ?]. constructor; try done; (eapply seqs_ok_weaken; [..|done]; lia). Qed.

Definition ops_count (ops : list TOp) : Z :=
  foldr (fun op n => n + match op with TDeliver _ _ => 1 | TOther k => k | TTake => 0 end) 0 ops.

Definition op_ok (op : TOp) : Prop := match op with TOther n => 0 <= n | _ => True end.

Lemma ops_count_nonneg ops : Forall op_ok ops -> 0 <= ops_count ops.
Proof. induction 1 as [|op ops Hop _ IH]; [done|].
  destruct op; cbn in Hop |- *; fold (ops_count ops); lia.
Qed.

Lemma t_run_sorted ops : Forall op_ok ops -> forall last q t, t_inv last q t ->
  0 <= q -> q + ops_count ops < 2 ^ 64 ->
  let '(outs, (q', _)) := t_run (q, t) ops in seqs_ok last q' outs.
Proof.
  induction 1 as [|op ops Hop Hops IH]; intros last q t W Hq Hmax; cbn [t_run].
  { cbn. eapply seqs_ok_le, W. }
  pose proof (ops_count_nonneg ops Hops). cbn in Hmax. fold (ops_count ops) in Hmax.
  destruct op as [m ty|n|]; cbn [t_step].
  - destruct (TBI.pushMessage2RX q t m ty) as [[r t'] q'] eqn:E.
    apply (t_deliver_inv last) in E as [W' Hq']; [|done|lia].
    specialize (IH last q' t' W'). destruct (t_run (q', t') ops) as [outs [q'' t'']]. apply IH; lia.
  - cbn in Hop. specialize (IH last (q + n) t). destruct (t_run (q + n, t) ops) as [outs [q'' t'']].
    apply IH; [|lia..]. eapply t_inv_later; [|done]. lia.
  - destruct (TBI.peekMessage t) as [[m|] t'] eqn:E.
    + apply (t_take_inv last q) in E; [|done]. destruct (taken_seq t') as [n|].
      * destruct E as [Hlt W']. specialize (IH n q (TBI.popFrontMessage t') W').
        destruct (t_run _ ops) as [outs [q'' t'']]. cbn. split; [done|]. apply IH; lia.
      * specialize (IH last q (TBI.popFrontMessage t') E).
        destruct (t_run _ ops) as [outs [q'' t'']]. apply IH; lia.
    + assert (t_inv last q t') as W'.
      { unfold TBI.peekMessage in E. destruct (TBI.service_first t); [done|].
        destruct (BI.peekMessage (tb_base t)) as [r b'] eqn:Eb. injection E as -> <-.
        apply BI_peek_cases in Eb as [(? & ? & [=] & _)|[(? & ? & [=] & _)|(_ & _ & _ & ->)]].
        destruct W. by constructor. }
      specialize (IH last q t' W'). destruct (t_run _ ops) as [outs [q'' t'']]. apply IH; lia.
Qed.

(** Bus order is kept.  Whatever the interleaving of deliveries here and
    elsewhere and of the controller's reads, a controller on a triple bus takes
    requests and back-invalidations in the order the bus delivered them: the
    delivery numbers of what it takes increase strictly. *)
Theorem triple_bus_order id max ops : Forall op_ok ops -> ops_count ops < 2 ^ 64 ->
  let '(outs, _) := t_run (0, newTripleBusInterface id max) ops in
  forall i j n m, (i < j)%nat -> outs !! i = Some n -> outs !! j = Some m -> n < m.
Proof.
  intros Hops Hmax. pose proof (t_run_sorted ops Hops 0 0 (newTripleBusInterface id max)) as H.
  destruct (t_run _ ops) as [outs [q' t']].
  assert (Hs : seqs_ok 0 q' outs).
  { apply H; [|lia|lia]. constructor; cbn; try lia. by intros n ?%not_elem_of_nil. }
  clear H. revert Hs. generalize 0 as lo. induction outs as [|k outs IH]; intros lo; cbn; [done|].
  intros [Hk Hs] i j n m Hij Hi Hj. destruct j as [|j]; [lia|]. cbn in Hj. destruct i as [|i].
  - injection Hi as <-. clear IH. revert k Hk Hs j Hij Hj. induction outs as [|k' outs IH]; intros k Hk Hs j Hij Hj; [done|].
    destruct Hs as [Hlt Hs]. destruct j as [|j]; [by injection Hj as <-|].
    assert (k' < m); [|lia]. apply (IH k' ltac:(lia) Hs j); [lia|done].
  - by apply (IH k Hs i j n m); [lia|..].
Qed.

Lemma triple_bus_order_witness :
  let ops := [TDeliver (newMessage 1 0 0 0 0) REQUEST; TOther 3; TDeliver (newMessage 2 0 0 10 0) SERVICE_REQUEST;
              TTake; TTake] in
  (t_run (0, newTripleBusInterface 1 4) ops).1 = [1; 5] /\
  forall i j n m, (i < j)%nat -> [1; 5] !! i = Some n -> [1; 5] !! j = Some m -> n < m.
Proof.
  cbv zeta. split; [vm_compute; reflexivity|].
  apply (triple_bus_order 1 4 [TDeliver (newMessage 1 0 0 0 0) REQUEST; TOther 3;
    TDeliver (newMessage 2 0 0 10 0) SERVICE_REQUEST; TTake; TTake]).
  - by repeat constructor.
  - done.
Defined.
