(* ===== verification/MainMemory.v ===== *)
(** * The main memory controller

    [src/MainMemoryController.cpp]: requests wait a fixed latency in an FR-FCFS
    queue without line order; a read is answered with a zeroed block, a write is
    counted.  [memory_is_delay_line]: that queue is a FIFO. *)

From Stdlib Require Export Sorted.
From S2P Require Export FrfcfsBuffer BusInterfaces.

Local Open Scope string_scope.
Local Open Scope list_scope.
Open Scope Z_scope.

Record MainMemory {IL : Type} := mkMemory {
  mm_id : Z;
  m_llc_id : Z;
  m_clk_cycle : Z;
  m_memory_latency : Z;
  m_read_count : Z;
  m_write_count : Z;
  mm_lower : IL;
  mm_queue : FRFCFS_Buffer }.
Arguments mkMemory {IL}.

Section Memory.
Context {IL : Type} `{!CommInterface IL}.
Abbreviation M := (@MainMemory IL).
Implicit Types m : M.

Definition DEFAULT_MEM_PROCESSING_QUEUE_SIZE : Z := 32.

Definition newMainMemory (id llc_id latency : Z) (queue_size : option Z) (lower : IL) : M :=
  mkMemory id llc_id 1 (w32 latency) 0 0 lower
    (newBuffer (default DEFAULT_MEM_PROCESSING_QUEUE_SIZE queue_size) 0 false).

Definition mm_set (clk reads writes : Z) (lower : IL) (q : FRFCFS_Buffer) m : M :=
  mkMemory (mm_id m) (m_llc_id m) clk (m_memory_latency m) reads writes lower q.

Definition mm_getRequestState m (msg : Message) (current_state : FRFCFS_State) : outcome (FRFCFS_State * Message) :=
  Ok (if bool_decide (current_state = NonReady) && (w64 (msg_cycle msg + m_memory_latency m) <=? m_clk_cycle m)
      then Ready else NonReady, msg).

Definition mm_addRequests2ProcessingQueue m : M :=
  let same := mm_set (m_clk_cycle m) (m_read_count m) (m_write_count m) in
  match peekMessage (mm_lower m) with
  | (None, i) => same i (mm_queue m) m
  | (Some msg, i) =>
      let msg := set_msg_cycle (m_clk_cycle m) (set_msg_source LOWER_INTERCONNECT msg) in
      let '(ok, b) := pushBack msg NonReady false (mm_queue m) in
      if ok then same (popFrontMessage i) b m else same i (mm_queue m) m
  end.

(** The block a read is answered with. *)
Definition mm_response m (msg : Message) : Message :=
  copy_bytes (replicate 64 0) 64 (set_msg_kind K_FILL (push_to (m_llc_id m)
    (newMessage (msg_id msg) (msg_addr msg) (m_clk_cycle m) 0 (msg_owner msg)))).

Definition mm_processLogic m : outcome M :=
  let m1 := mm_addRequests2ProcessingQueue m in
  let! (r, q) := getFirstReady (mm_getRequestState m1) (fun _ => false) (mm_queue m1) in
  match r with
  | None => Ok (mm_set (m_clk_cycle m1) (m_read_count m1) (m_write_count m1) (mm_lower m1) q m1)
  | Some msg =>
      if has_data msg
      then Ok (mm_set (m_clk_cycle m1) (m_read_count m1) (w64 (m_write_count m1 + 1)) (mm_lower m1) q m1)
      else
        let! (ok, i) := pushMessage (mm_lower m1) (mm_response m1 msg) (m_clk_cycle m1) DATA_RESPONSE in
        if ok : bool
        then Ok (mm_set (m_clk_cycle m1) (w64 (m_read_count m1 + 1)) (m_write_count m1) i q m1)
        else Exit "MainMemoryController: Cannot insert the Msg into the lower interface FIFO, FIFO is Full"
  end.

Definition mm_cycleProcess m : outcome M :=
  let! m1 := mm_processLogic m in
  Ok (mm_set (w64 (m_clk_cycle m1 + 1)) (m_read_count m1) (m_write_count m1) (mm_lower m1) (mm_queue m1) m1).

(** ** A delay line *)

Definition waiting m : list Message := item <$> m_buffer (mm_queue m).

(** Arrivals are stamped in order, and nothing is marked ready. *)
Record mem_wf m : Prop := mk_mem_wf {
  mw_state : Forall (fun e => el_state e = NonReady) (m_buffer (mm_queue m));
  mw_order : StronglySorted (fun a b => msg_cycle a <= msg_cycle b) (waiting m);
  mw_past : Forall (fun a => 0 <= msg_cycle a <= m_clk_cycle m) (waiting m);
  mw_mask : m_line_mask (mm_queue m) = 0;
  mw_rescan : m_readiness_state_only (mm_queue m) = false;
  mw_latency : 0 <= m_memory_latency m }.

(** What is served out of a waiting list. *)
Definition serve_head (clk latency : Z) (l : list Message) : option Message * list Message :=
  match l with
  | a :: l' => if msg_cycle a + latency <=? clk then (Some a, l') else (None, l)
  | [] => (None, [])
  end.

Lemma mem_scan m older rest : 0 <= m_memory_latency m -> m_clk_cycle m + m_memory_latency m < 2 ^ 64 ->
  Forall (fun e => el_state e = NonReady) rest ->
  StronglySorted (fun a b => msg_cycle a <= msg_cycle b) (item <$> rest) ->
  Forall (fun a => 0 <= msg_cycle a <= m_clk_cycle m) (item <$> rest) ->
  exists l, scan_ready (mm_getRequestState m) (fun _ => false) 0 older rest =
    Ok ((serve_head (m_clk_cycle m) (m_memory_latency m) (item <$> rest)).1, older ++ l) /\
    item <$> l = (serve_head (m_clk_cycle m) (m_memory_latency m) (item <$> rest)).2 /\
    Forall (fun e => el_state e = NonReady) l.
Proof.
  intros HL Hmax Hst. revert older. induction Hst as [|[a st] rest Ha Hst IH]; intros older; cbn [fmap list_fmap].
  { intros _ _. exists []. by rewrite app_nil_r. }
  cbn in Ha. subst st. intros [Hs Hle]%StronglySorted_inv [Hr Hr']%Forall_cons. cbn in Hle, Hr.
  assert (Hb : blocked 0 older a = false) by done.
  cbn [scan_ready]. cbn [item]. rewrite Hb. unfold element_state. cbn [el_state item]. rewrite decide_False by done.
  unfold mm_getRequestState at 1. cbn [obind]. rewrite bool_decide_true by done. cbn [andb].
  rewrite w64_small by lia. cbn [serve_head].
  destruct (Z.leb_spec (msg_cycle a + m_memory_latency m) (m_clk_cycle m)) as [Hle'|Hgt].
  { exists rest. by split_and!. }
  destruct (IH (older ++ [mkElement a NonReady]) Hs Hr') as (l & E & El & Hl).
  assert (Hnone : serve_head (m_clk_cycle m) (m_memory_latency m) (item <$> rest) = (None, item <$> rest)).
  { destruct rest as [|[b stb] rest']; [done|]. cbn in Hle |- *. apply Forall_cons in Hle as [Hab _].
    cbn in Hab. by rewrite (proj2 (Z.leb_gt _ _)) by lia. }
  rewrite Hnone in *. cbn in *. exists (mkElement a NonReady :: l). rewrite E, <- app_assoc. split_and!; [done| |].
  - cbn. by rewrite El.
  - by constructor.
Qed.

Lemma mem_intake m m1 : mem_wf m -> 0 <= m_clk_cycle m -> mm_addRequests2ProcessingQueue m = m1 ->
  mem_wf m1 /\ m_clk_cycle m1 = m_clk_cycle m /\ m_memory_latency m1 = m_memory_latency m /\
  (waiting m1 = waiting m \/ exists a, waiting m1 = waiting m ++ [a] /\ msg_cycle a = m_clk_cycle m).
Proof.
  intros [Hst Hord Hpast Hmask Hres HL] Hclk <-. unfold mm_addRequests2ProcessingQueue.
  destruct (peekMessage (mm_lower m)) as [[msg|] i]; [|by split_and!; [constructor|..|left]].
  destruct (pushBack _ _ _ _) as [ok b] eqn:E. pose proof E as E'.
  apply pushBack_size in E' as [[-> Eb]|[-> ->]]; [|by split_and!; [constructor|..|left]].
  assert (Em : m_line_mask b = m_line_mask (mm_queue m) /\
               m_readiness_state_only b = m_readiness_state_only (mm_queue m)).
  { unfold pushBack in E. destruct (_ && _); [done|]. by injection E as <-. }
  destruct Em as [Em1 Em2]. unfold waiting in *. cbn.
  assert (Ew : item <$> m_buffer b = (item <$> m_buffer (mm_queue m)) ++
            [set_msg_cycle (m_clk_cycle m) (set_msg_source LOWER_INTERCONNECT msg)]) by (rewrite Eb, fmap_app; done).
  split; [|split_and!; [done..|right; eexists; split; [exact Ew|done]]].
  constructor; unfold waiting; cbn; rewrite ?Ew, ?Em1, ?Em2; try done.
  - rewrite Eb. apply Forall_app. by split; [|constructor].
  - clear - Hord Hpast. induction Hord as [|a l Hs IH Ha]; [by repeat constructor|].
    apply Forall_cons in Hpast as [Hpa Hpast]. cbn. constructor; [by apply IH|].
    apply Forall_app. split; [done|]. constructor; [cbn in *; lia|constructor].
  - apply Forall_app. split; [done|]. constructor; [cbn; lia|constructor].
Qed.

Lemma serve_head_keeps clk lat (R : Message -> Message -> Prop) (Q : Message -> Prop) l :
  StronglySorted R l -> Forall Q l ->
  StronglySorted R (serve_head clk lat l).2 /\ Forall Q (serve_head clk lat l).2.
Proof.
  intros [|a l' Hs Ha]; [by repeat constructor|]. intros [Hq Hqs]%Forall_cons. cbn.
  destruct (_ <=? _); cbn; [done|]. split; constructor; done.
Qed.

(** What [getFirstReady] does to a well-formed memory. *)
Lemma mem_serve m : mem_wf m -> 0 <= m_clk_cycle m -> m_clk_cycle m + m_memory_latency m < 2 ^ 64 ->
  let r := serve_head (m_clk_cycle m) (m_memory_latency m) (waiting m) in
  exists q, getFirstReady (mm_getRequestState m) (fun _ => false) (mm_queue m) = Ok (r.1, q) /\
    item <$> m_buffer q = r.2 /\
    forall clk reads writes i, m_clk_cycle m <= clk -> mem_wf (mm_set clk reads writes i q m).
Proof.
  intros [Hst Hord Hpast Hmask Hres HL] Hclk Hmax. cbn.
  destruct (mem_scan m [] (m_buffer (mm_queue m)) HL Hmax Hst Hord Hpast) as (l & E & Ew & Hl).
  fold (waiting m) in E, Ew. cbn [app] in E.
  assert (W : forall b clk reads writes i, m_clk_cycle m <= clk ->
    mem_wf (mm_set clk reads writes i (set_buffer l b (mm_queue m)) m)).
  { intros b clk reads writes i Hc.
    pose proof (serve_head_keeps (m_clk_cycle m) (m_memory_latency m) _ _ _ Hord Hpast) as [K1 K2].
    rewrite <- Ew in K1, K2. constructor; unfold waiting; cbn; try done.
    eapply Forall_impl; [exact K2|]. cbn. lia. }
  unfold getFirstReady. rewrite Hres, Hmask. cbn [andb].
  destruct (m_buffer (mm_queue m)) as [|e0 l0] eqn:Eb.
  - eexists. assert (waiting m = []) as Enil by (unfold waiting; by rewrite Eb). rewrite Enil in *. cbn in *.
    split; [done|]. split; [done|]. apply fmap_nil_inv in Ew. subst l. intros. by apply W.
  - rewrite E. cbn [obind]. destruct (serve_head _ _ (waiting m)) as [[a|] rest] eqn:Es; cbn in *;
      eexists; (split; [done|]); (split; [done|]); intros; by apply W.
Qed.

(** C37: the memory is a delay line.  In a cycle it admits at most one request,
    behind all that wait; then it serves the oldest, if that has waited the
    latency, and nothing else.  A read is answered with one fill addressed to the
    shared cache; a write is only counted. *)
Theorem memory_is_delay_line `{!CommInterfaceLaws IL} m m' : mem_wf m -> 0 <= m_clk_cycle m ->
  m_clk_cycle m + m_memory_latency m < 2 ^ 64 - 1 -> mm_cycleProcess m = Ok m' ->
  mem_wf m' /\ m_clk_cycle m' = m_clk_cycle m + 1 /\
  exists arrived, (length arrived <= 1)%nat /\
    let '(served, rest) := serve_head (m_clk_cycle m) (m_memory_latency m) (waiting m ++ arrived) in
    waiting m' = rest /\
    match served with
    | Some a => if has_data a then ci_tx (mm_lower m') = ci_tx (mm_lower m)
                else exists r, ci_tx (mm_lower m') ≡ₚ r :: ci_tx (mm_lower m) /\
                       msg_id r = msg_id a /\ msg_addr r = msg_addr a /\ msg_to r = [w16 (m_llc_id m)] /\ has_data r = true
    | None => ci_tx (mm_lower m') = ci_tx (mm_lower m)
    end.
Proof.
  intros Hwf Hclk Hmax. unfold mm_cycleProcess, mm_processLogic.
  set (m1 := mm_addRequests2ProcessingQueue m).
  destruct (mem_intake m m1 Hwf Hclk eq_refl) as (W1 & Ec & El & Ew).
  assert (Etx : ci_tx (mm_lower m1) = ci_tx (mm_lower m) /\ m_llc_id m1 = m_llc_id m).
  { unfold m1, mm_addRequests2ProcessingQueue. destruct (peekMessage (mm_lower m)) as [[msg|] i] eqn:Ep.
    - apply ci_peek_some in Ep as (_ & Ep & _). destruct (pushBack _ _ _ _) as [[] b]; cbn; by rewrite ?ci_pop_tx.
    - by apply ci_peek_none in Ep as (_ & _ & Ep). }
  destruct Etx as [Etx Eid]. clearbody m1. rewrite <- Ec, <- El.
  assert (exists arrived, (length arrived <= 1)%nat /\ waiting m ++ arrived = waiting m1) as (arr & Hlen & Earr).
  { destruct Ew as [-> | (a & -> & _)]; [exists []|exists [a]]; rewrite ?app_nil_r; cbn; split; done || lia. }
  intros (m2 & E2 & [= <-])%obind_Ok. pose proof (mw_latency _ W1).
  assert (Hw : w64 (m_clk_cycle m1 + 1) = m_clk_cycle m1 + 1) by (apply w64_small; lia).
  destruct (mem_serve m1 W1 ltac:(lia) ltac:(lia)) as (q & Eq & Ewq & Wq). rewrite Eq in E2. cbn in E2.
  destruct (serve_head _ _ _) as [[a|] rest] eqn:Es; cbn in *.
  - destruct (has_data a) eqn:Ed.
    + injection E2 as <-. cbn. rewrite Hw. split; [apply Wq; lia|]. split; [lia|]. exists arr.
      rewrite Earr, Es, ?Ed. by split_and!.
    + apply obind_Ok in E2 as ([ok i] & Ep & E2). destruct ok; [|done]. injection E2 as <-. cbn.
      rewrite Hw. split; [apply Wq; lia|]. split; [lia|]. exists arr.
      rewrite Earr, Es, Ed. split_and!; [done..|].
      apply ci_push_ok in Ep as (_ & _ & Ep). eexists. split; [by rewrite Ep, Etx|].
      destruct (m_clk_cycle m1 =? 0); cbn; by rewrite Eid.
  - injection E2 as <-. cbn. rewrite Hw. split; [apply Wq; lia|]. split; [lia|]. exists arr.
      rewrite Earr, Es, ?Ed. by split_and!.
Qed.
End Memory.

(** A memory of latency 2 in its fifth cycle: one read has waited since the
    third, another request is on the interface. *)
Definition demo_memory : @MainMemory BusInterface :=
  mkMemory 100 10 5 2 0 0 (bi_set_rx_request [newMessage 9 0x40 0 0 10] [] (newBusInterface 100 4))
    (set_buffer [mkElement (newMessage 8 0x20 3 0 10) NonReady] true (newBuffer 32 0 false)).

Lemma memory_is_delay_line_witness : exists m', mm_cycleProcess demo_memory = Ok m' /\
  mem_wf m' /\ m_clk_cycle m' = 6 /\
  exists arrived, (length arrived <= 1)%nat /\
    let '(served, rest) := serve_head 5 2 (waiting demo_memory ++ arrived) in
    waiting m' = rest /\
    match served with
    | Some a => if has_data a then ci_tx (mm_lower m') = ci_tx (mm_lower demo_memory)
                else exists r, ci_tx (mm_lower m') ≡ₚ r :: ci_tx (mm_lower demo_memory) /\
                       msg_id r = msg_id a /\ msg_addr r = msg_addr a /\ msg_to r = [w16 10] /\ has_data r = true
    | None => ci_tx (mm_lower m') = ci_tx (mm_lower demo_memory)
    end.
Proof.
  assert (F : is_ok (mm_cycleProcess demo_memory) = true) by (vm_compute; reflexivity).
  destruct (mm_cycleProcess demo_memory) as [m'|s|s] eqn:E; [|discriminate F..]. exists m'. split; [done|].
  apply (memory_is_delay_line demo_memory m'); [|done|done|exact E].
  constructor; repeat constructor; cbn; lia.
Defined.
