(* ===== verification/BusControllers.v ===== *)
(** * Bus controllers

    [BusController] (broadcast and send), [SplitBusController],
    [UnifiedBusController], [TripleBusController], [Point2PointController] and
    [DirectController], over any interface that is a [BusPort].  [ifs] is
    [*m_interfaces]; [q] is the delivery counter. *)

From S2P Require Export Arbiters BusInterfaces.

Section Bus.
Context {I : Type} `{BusPort I}.

(** ** [BusController] *)

Fixpoint deliver_all (q : Z) (ifs : list I) (m : Message) (type : MessageType) : list I * Z :=
  match ifs with
  | [] => ([], q)
  | i :: ifs' =>
      let '(_, i', q1) := pushMessage2RX q i m type in
      let '(ifs'', q2) := deliver_all q1 ifs' m type in (i' :: ifs'', q2)
  end.

(** A demand is delivered to every interface or to none. *)
Definition broadcast (q : Z) (ifs : list I) (m : Message) (type : MessageType) : bool * list I * Z :=
  if isDemandRequest m && negb (forallb (fun i => canAcceptRX i type) ifs) then (false, ifs, q)
  else let '(ifs', q') := deliver_all q ifs m type in (true, ifs', q').

Definition send_one (m : Message) (type : MessageType) (s : list I * Z) (dest : Z) : outcome (list I * Z) :=
  let '(ifs, q) := s in
  match list_find (fun i => ci_id i = dest) ifs with
  | None => Exit "BusController: Wrong destination"
  | Some (j, i) =>
      match pushMessage2RX q i m type with
      | (true, i', q') => Ok (<[j := i']> ifs, q')
      | (false, _, _) => Exit "BusController: full buffer"
      end
  end.

Definition send (q : Z) (ifs : list I) (m : Message) (type : MessageType) : outcome (list I * Z) :=
  ofold (send_one m type) (msg_to m) (ifs, q).

(** An election over one kind of transmit queue of every interface. *)
Definition elect_on (get : I -> list Message) (set : list Message -> I -> I)
    (el : Z -> list (list Message) -> outcome (option (Message * list (list Message)) * ArbiterObj))
    (cycle : Z) (ifs : list I) : outcome (option Message * list I * ArbiterObj) :=
  let! (r, a') := el cycle (get <$> ifs) in
  match r with
  | Some (m, bufs) => Ok (Some m, zip_with set bufs ifs, a')
  | None => Ok (None, ifs, a')
  end.

(** ** [SplitBusController] *)

Record SplitBus := mkSplitBus {
  sb_request_latency : Z;
  sb_response_latency : Z;
  m_response_reserve : Z;
  arb_request : ArbiterObj;
  arb_response : ArbiterObj;
  clk_in_slot_req : Z;
  elected_msg_req : Message;
  message_available_req : bool;
  clk_in_slot_resp : Z;
  elected_msg_resp : Message;
  message_available_resp : bool }.

Definition arbiter_kind (arbiter_type : string) : outcome ArbiterKind :=
  if String.eqb arbiter_type "TDMArbiter" then Ok TDM
  else if String.eqb arbiter_type "FCFSArbiter" then Ok FCFS
  else if String.eqb arbiter_type "RRArbiter" then Ok RR
  else Exit "Error: there is no matching arbiter".

Definition newSplitBus (ifs : list I) (arbiter_type : string) (req_latency resp_latency : Z)
    (response_reserve : option Z) : outcome SplitBus :=
  let! k := arbiter_kind arbiter_type in
  let cands := ci_id <$> ifs in
  Ok (mkSplitBus req_latency resp_latency (default 0 response_reserve)
        (k, newArbiter cands req_latency) (k, newArbiter cands resp_latency)
        0 (newMessage 0 0 0 0 0) false 0 (newMessage 0 0 0 0 0) false).

Definition set_req_slot (a : ArbiterObj) (clk : Z) (m : Message) (avail : bool) (b : SplitBus) : SplitBus :=
  mkSplitBus (sb_request_latency b) (sb_response_latency b) (m_response_reserve b) a (arb_response b)
    clk m avail (clk_in_slot_resp b) (elected_msg_resp b) (message_available_resp b).
Definition set_resp_slot (a : ArbiterObj) (clk : Z) (m : Message) (avail : bool) (b : SplitBus) : SplitBus :=
  mkSplitBus (sb_request_latency b) (sb_response_latency b) (m_response_reserve b) (arb_request b) a
    (clk_in_slot_req b) (elected_msg_req b) (message_available_req b) clk m avail.

Definition responseBackpressured (b : SplitBus) (ifs : list I) : bool :=
  existsb (fun i => txResponseFreeSlots i <=? m_response_reserve b) ifs.

(** The election at slot 0 when no message is held. *)
Definition request_elect (cycle : Z) (b : SplitBus) (ifs : list I) : outcome (SplitBus * list I) :=
  if (clk_in_slot_req b =? 0) && negb (message_available_req b) then
    let! (r, ifs', a') := elect_on tx_requests set_tx_requests (elect (arb_request b)) cycle ifs in
    match r with
    | Some m => Ok (set_req_slot a' (clk_in_slot_req b) m true b, ifs')
    | None => Ok (set_req_slot a' (clk_in_slot_req b) (elected_msg_req b) false b, ifs')
    end
  else Ok (b, ifs).

Definition requestBusStep (cycle q : Z) (b : SplitBus) (ifs : list I) : outcome (SplitBus * list I * Z) :=
  if responseBackpressured b ifs then Ok (b, ifs, q) else
  let! (b1, ifs1) := request_elect cycle b ifs in
  if message_available_req b1 && (clk_in_slot_req b1 =? sb_request_latency b1 - 1) then
    match broadcast q ifs1 (elected_msg_req b1) REQUEST with
    | (true, ifs2, q') => Ok (set_req_slot (arb_request b1) 0 (elected_msg_req b1) false b1, ifs2, q')
    | (false, ifs2, q') => Ok (b1, ifs2, q')
    end
  else
    Ok (set_req_slot (arb_request b1) (if message_available_req b1 then clk_in_slot_req b1 + 1 else 0)
          (elected_msg_req b1) (message_available_req b1) b1, ifs1, q).

Definition response_elect (cycle : Z) (b : SplitBus) (ifs : list I) : outcome (SplitBus * list I) :=
  if (clk_in_slot_resp b =? 0) && negb (message_available_resp b) then
    let! (r, ifs', a') := elect_on tx_responses set_tx_responses (elect (arb_response b)) cycle ifs in
    match r with
    | Some m => Ok (set_resp_slot a' (clk_in_slot_resp b) m true b, ifs')
    | None => Ok (set_resp_slot a' (clk_in_slot_resp b) (elected_msg_resp b) false b, ifs')
    end
  else Ok (b, ifs).

Definition responseBusStep (cycle q : Z) (b : SplitBus) (ifs : list I) : outcome (SplitBus * list I * Z) :=
  let! (b1, ifs1) := response_elect cycle b ifs in
  if message_available_resp b1 && (clk_in_slot_resp b1 =? sb_response_latency b1 - 1) then
    let! (ifs2, q') := send q ifs1 (elected_msg_resp b1) DATA_RESPONSE in
    Ok (set_resp_slot (arb_response b1) 0 (elected_msg_resp b1) false b1, ifs2, q')
  else
    Ok (set_resp_slot (arb_response b1) (if message_available_resp b1 then clk_in_slot_resp b1 + 1 else 0)
          (elected_msg_resp b1) (message_available_resp b1) b1, ifs1, q).

Definition split_busStep (cycle q : Z) (b : SplitBus) (ifs : list I) : outcome (SplitBus * list I * Z) :=
  let! (b1, ifs1, q1) := requestBusStep cycle q b ifs in responseBusStep cycle q1 b1 ifs1.

(** ** [TripleBusController] *)

(** The first interface with a service message: its index and the message. *)
Fixpoint first_service (ifs : list I) : option (nat * Message) :=
  match ifs with
  | [] => None
  | i :: ifs' =>
      match tx_services i with
      | m :: _ => Some (0%nat, m)
      | [] => match first_service ifs' with Some (j, m) => Some (S j, m) | None => None end
      end
  end.

(** One service broadcast per cycle; the sender's queue loses its head when the
    broadcast went through. *)
Definition serviceBusStep (q : Z) (ifs : list I) : list I * Z :=
  match first_service ifs with
  | None => (ifs, q)
  | Some (j, m) =>
      match broadcast q ifs m SERVICE_REQUEST with
      | (true, ifs', q') => (alter (fun i => set_tx_services (tail (tx_services i)) i) j ifs', q')
      | (false, ifs', q') => (ifs', q')
      end
  end.

Definition triple_busStep (cycle q : Z) (b : SplitBus) (ifs : list I) : outcome (SplitBus * list I * Z) :=
  let! (b1, ifs1, q1) := split_busStep cycle q b ifs in
  let '(ifs2, q2) := serviceBusStep q1 ifs1 in Ok (b1, ifs2, q2).

(** ** [UnifiedBusController] *)

Record UnifiedBus := mkUnifiedBus {
  ub_request_latency : Z;
  ub_response_latency : Z;
  ub_arbiter : ArbiterObj;
  clk_in_slot : Z;
  elected_msg : Message;
  message_available : bool }.

Definition newUnifiedBus (lower_level_ids : list Z) (arbiter_type : string) (req_latency resp_latency : Z)
    : outcome UnifiedBus :=
  let! k := arbiter_kind arbiter_type in
  Ok (mkUnifiedBus req_latency resp_latency (k, newArbiter lower_level_ids (req_latency + resp_latency))
        0 (newMessage 0 0 0 0 0) false).

Definition set_slot (a : ArbiterObj) (m : Message) (avail : bool) (b : UnifiedBus) : UnifiedBus :=
  mkUnifiedBus (ub_request_latency b) (ub_response_latency b) a (clk_in_slot b) m avail.
Definition set_clk (clk : Z) (b : UnifiedBus) : UnifiedBus :=
  mkUnifiedBus (ub_request_latency b) (ub_response_latency b) (ub_arbiter b) clk (elected_msg b) (message_available b).

(** An election keeps the old message when it elects none. *)
Definition unified_elect (r : outcome (option Message * list I * ArbiterObj)) (q : Z) (b : UnifiedBus)
    : outcome (UnifiedBus * list I * Z) :=
  let! (m, ifs', a') := r in
  match m with
  | Some m => Ok (set_slot a' m true b, ifs', q)
  | None => Ok (set_slot a' (elected_msg b) false b, ifs', q)
  end.

(** The slot's work; the result of [broadcast] is not looked at. *)
Definition unified_slot (cycle q : Z) (b : UnifiedBus) (ifs : list I) : outcome (UnifiedBus * list I * Z) :=
  if clk_in_slot b =? 0 then
    unified_elect (elect_on tx_requests set_tx_requests (elect (ub_arbiter b)) cycle ifs) q b
  else if clk_in_slot b =? ub_request_latency b - 1 then
    if message_available b
    then let '(_, ifs', q') := broadcast q ifs (elected_msg b) REQUEST in Ok (b, ifs', q')
    else Ok (b, ifs, q)
  else if clk_in_slot b =? ub_request_latency b then
    unified_elect (elect_on tx_responses set_tx_responses (forceElect (ub_arbiter b)) cycle ifs) q b
  else if clk_in_slot b =? ub_request_latency b + ub_response_latency b - 1 then
    if message_available b
    then let! (ifs', q') := send q ifs (elected_msg b) DATA_RESPONSE in
         Ok (set_slot (ub_arbiter b) (elected_msg b) false b, ifs', q')
    else Ok (b, ifs, q)
  else Ok (b, ifs, q).

Definition unified_busStep (cycle q : Z) (b : UnifiedBus) (ifs : list I) : outcome (UnifiedBus * list I * Z) :=
  let! (b1, ifs1, q1) := unified_slot cycle q b ifs in
  let total := ub_request_latency b1 + ub_response_latency b1 in
  if message_available b1 then
    if total =? 0 then Crash "UnifiedBusController: modulo by zero"
    else Ok (set_clk (Z.rem (clk_in_slot b1 + 1) total) b1, ifs1, q1)
  else Ok (set_clk 0 b1, ifs1, q1).

(** ** [Point2PointController] *)

Record P2PBus := mkP2PBus {
  pp_request_latency : Z;
  pp_response_latency : Z;
  pp_arbiter : ArbiterObj;
  pp_lower : list nat;              (* indices of the lower interfaces *)
  pp_upper : list nat;              (* index of the upper interface, if any *)
  clk_in_slot_lower : Z;
  clk_in_slot_upper : Z;
  elected_msg_lower : Message;
  elected_msg_upper : Message;
  message_available_lower : bool;
  message_available_upper : bool }.

(** [clk_in_slot_upper] and [message_available_upper] are not initialised:
    their first values are arguments. *)
Definition newP2PBus (ifs : list I) (lower_level_ids candidates_id : list Z) (arbiter_type : string)
    (req_latency resp_latency : Z) (clk_upper : Z) (avail_upper : bool) : outcome P2PBus :=
  let! k := arbiter_kind arbiter_type in
  let ids := match candidates_id with [] => lower_level_ids | _ => candidates_id end in
  let lower := omap (fun id => fst <$> list_find (fun i => ci_id i = id) ifs) lower_level_ids in
  let upper := match list_find (fun i => ci_id i ∉ lower_level_ids) ifs with Some (j, _) => [j] | None => [] end in
  Ok (mkP2PBus req_latency resp_latency (k, newArbiter ids (req_latency + resp_latency)) lower upper
        0 clk_upper (newMessage 0 0 0 0 0) (newMessage 0 0 0 0 0) false avail_upper).

Definition set_lower (a : ArbiterObj) (clk : Z) (m : Message) (avail : bool) (b : P2PBus) : P2PBus :=
  mkP2PBus (pp_request_latency b) (pp_response_latency b) a (pp_lower b) (pp_upper b) clk (clk_in_slot_upper b)
    m (elected_msg_upper b) avail (message_available_upper b).
Definition set_upper (clk : Z) (m : Message) (avail : bool) (b : P2PBus) : P2PBus :=
  mkP2PBus (pp_request_latency b) (pp_response_latency b) (pp_arbiter b) (pp_lower b) (pp_upper b)
    (clk_in_slot_lower b) clk (elected_msg_lower b) m (message_available_lower b) avail.

(** The request queues of the interfaces [idx], then their response queues. *)
Definition queues_of (ifs : list I) (idx : list nat) : list (list Message) :=
  (tx_requests <$> omap (fun j => ifs !! j) idx) ++ (tx_responses <$> omap (fun j => ifs !! j) idx).
Definition put_queues (idx : list nat) (bufs : list (list Message)) (ifs : list I) : list I :=
  let n := length idx in
  foldl (fun l jb => alter (set_tx_responses jb.2) jb.1 l)
    (foldl (fun l jb => alter (set_tx_requests jb.2) jb.1 l) ifs (zip idx (take n bufs)))
    (zip idx (drop n bufs)).

Definition next_slot (clk latency : Z) (avail : bool) : outcome Z :=
  if avail then
    if latency =? 0 then Crash "Point2PointController: modulo by zero" else Ok (Z.rem (clk + 1) latency)
  else Ok 0.

Definition lowerBusStep (cycle q : Z) (b : P2PBus) (ifs : list I) : outcome (P2PBus * list I * Z) :=
  let! (b1, ifs1, q1) :=
    (if clk_in_slot_lower b =? 0 then
       let! (r, a') := elect (pp_arbiter b) cycle (queues_of ifs (pp_lower b)) in
       match r with
       | Some (m, bufs) => Ok (set_lower a' (clk_in_slot_lower b) m true b, put_queues (pp_lower b) bufs ifs, q)
       | None => Ok (set_lower a' (clk_in_slot_lower b) (elected_msg_lower b) false b, ifs, q)
       end
     else if (clk_in_slot_lower b =? pp_request_latency b - 1) && message_available_lower b then
       let! (ifs', q') := send q ifs (elected_msg_lower b) DATA_RESPONSE in Ok (b, ifs', q')
     else Ok (b, ifs, q)) in
  let! clk := next_slot (clk_in_slot_lower b1) (pp_request_latency b1) (message_available_lower b1) in
  Ok (set_lower (pp_arbiter b1) clk (elected_msg_lower b1) (message_available_lower b1) b1, ifs1, q1).

(** The first non-empty queue of the upper interface. *)
Fixpoint first_nonempty (bufs : list (list Message)) : option (Message * list (list Message)) :=
  match bufs with
  | [] => None
  | (m :: l) :: bufs' => Some (m, l :: bufs')
  | [] :: bufs' => match first_nonempty bufs' with Some (m, bs) => Some (m, [] :: bs) | None => None end
  end.

Definition upperBusStep (cycle q : Z) (b : P2PBus) (ifs : list I) : outcome (P2PBus * list I * Z) :=
  let! (b1, ifs1, q1) :=
    (if clk_in_slot_upper b =? 0 then
       let bufs := queues_of ifs (pp_upper b) in
       match first_nonempty bufs with
       | Some (m, bufs') => Ok (set_upper (clk_in_slot_upper b) m true b, put_queues (pp_upper b) bufs' ifs, q)
       | None => Ok (set_upper (clk_in_slot_upper b) (elected_msg_upper b)
                       (match bufs with [] => message_available_upper b | _ => false end) b, ifs, q)
       end
     else if (clk_in_slot_upper b =? pp_response_latency b - 1) && message_available_upper b then
       let! (ifs', q') := send q ifs (elected_msg_upper b) DATA_RESPONSE in Ok (b, ifs', q')
     else Ok (b, ifs, q)) in
  let! clk := next_slot (clk_in_slot_upper b1) (pp_response_latency b1) (message_available_upper b1) in
  Ok (set_upper clk (elected_msg_upper b1) (message_available_upper b1) b1, ifs1, q1).

Definition p2p_busStep (cycle q : Z) (b : P2PBus) (ifs : list I) : outcome (P2PBus * list I * Z) :=
  let! (b1, ifs1, q1) := lowerBusStep cycle q b ifs in upperBusStep cycle q1 b1 ifs1.

(** ** [DirectController] *)

(** [m_interfaces->at(i ^ 1)->pushMessage2RX(head of queue i)]: stop at the first
    queue whose head was taken. *)
Fixpoint direct_loop (get : I -> list Message) (set : list Message -> I -> I) (type : MessageType)
    (idx : list nat) (q : Z) (ifs : list I) : outcome (list I * Z) :=
  match idx with
  | [] => Ok (ifs, q)
  | j :: idx' =>
      match ifs !! j with
      | None => Ok (ifs, q)
      | Some i =>
          match get i with
          | [] => direct_loop get set type idx' q ifs
          | m :: l =>
              let k := Z.to_nat (Z.lxor (Z.of_nat j) 1) in
              match ifs !! k with
              | None => Crash "vector::at"
              | Some peer =>
                  match pushMessage2RX q peer m type with
                  | (true, peer', q') => Ok (alter (set l) j (<[k := peer']> ifs), q')
                  | (false, peer', q') => direct_loop get set type idx' q' (<[k := peer']> ifs)
                  end
              end
          end
      end
  end.

Definition controllerStep (q : Z) (ifs : list I) : outcome (list I * Z) :=
  let idx := seq 0 (length ifs) in
  let! (ifs1, q1) := direct_loop tx_requests set_tx_requests REQUEST idx q ifs in
  direct_loop tx_responses set_tx_responses DATA_RESPONSE idx q1 ifs1.
End Bus.
