(* ===== verification/BusTheory.v ===== *)
(** * Properties of the bus controllers

    Delivery, conservation and timing, over any interface that satisfies
    [CommInterfaceLaws] and [BusPortLaws]. *)

From S2P Require Export BusControllers.

Section Theory.
Context {I : Type} `{!CommInterface I, !BusPort I, !CommInterfaceLaws I, !BusPortLaws I}.

Definition delivered (m : Message) (i i' : I) : Prop := ci_rx i' ≡ₚ m :: ci_rx i.
Definition rx_same (i i' : I) : Prop := ci_rx i' = ci_rx i.
Definition tx_same (i i' : I) : Prop :=
  tx_requests i' = tx_requests i /\ tx_responses i' = tx_responses i /\
  tx_services i' = tx_services i /\ ci_id i' = ci_id i.

(** Every interface takes the message. *)
Definition all_accept (m : Message) (t : MessageType) (ifs : list I) : Prop :=
  Forall (fun i => forall q, exists i' q', pushMessage2RX q i m t = (true, i', q')) ifs.

Lemma deliver_all_spec q ifs m t ifs' q' : all_accept m t ifs ->
  deliver_all q ifs m t = (ifs', q') ->
  Forall2 (delivered m) ifs ifs' /\ Forall2 tx_same ifs ifs'.
Proof.
  intros Hacc. revert q ifs' q'. induction Hacc as [|i ifs Hi _ IH]; intros q ifs' q'; cbn.
  { intros [= <- <-]. by split. }
  destruct (Hi q) as (i1 & q1 & E). rewrite E. destruct (deliver_all q1 ifs m t) as [ifs2 q2] eqn:E2.
  intros [= <- <-]. apply IH in E2 as [H1 H2]. apply ci_rx_ok in E as Hrx. apply bp_rx in E.
  destruct Hrx. by split; constructor.
Qed.

Lemma demand_accept m t ifs : forallb (fun i => canAcceptRX i t) ifs = true -> all_accept m t ifs.
Proof.
  rewrite forallb_forall. intros Hf. apply Forall_forall. intros i Hi q.
  apply ci_can_accept. apply Hf. by apply list_elem_of_In.
Qed.

Lemma service_accept m t ifs : isDemandRequest m = false -> t <> SERVICE_REQUEST -> all_accept m t ifs.
Proof. intros Hm Ht. apply Forall_forall. intros i _ q. by apply ci_service_accept. Qed.

Lemma broadcast_spec q ifs m t r ifs' q' : t <> SERVICE_REQUEST ->
  broadcast q ifs m t = (r, ifs', q') ->
  (r = true /\ Forall2 (delivered m) ifs ifs' /\ Forall2 tx_same ifs ifs') \/
  (r = false /\ ifs' = ifs /\ q' = q /\ isDemandRequest m = true /\ exists i, i ∈ ifs /\ canAcceptRX i t = false).
Proof.
  intros Ht. unfold broadcast.
  destruct (isDemandRequest m) eqn:Hd; cbn [andb].
  - destruct (forallb (fun i => canAcceptRX i t) ifs) eqn:Hf; cbn [negb].
    + destruct (deliver_all q ifs m t) as [l q1] eqn:E. intros [= <- <- <-]. left. split; [done|].
      eapply deliver_all_spec; [by apply demand_accept|done].
    + intros [= <- <- <-]. right. split_and!; try done.
      apply not_true_iff_false in Hf. rewrite forallb_forall in Hf.
      destruct (decide (Exists (fun i => canAcceptRX i t = false) ifs)) as [(i & Hi & Hc)%Exists_exists|Hno]; [eauto|].
      exfalso. apply Hf. intros i Hi%list_elem_of_In. apply Forall_Exists_neg in Hno.
      rewrite Forall_forall in Hno. specialize (Hno i Hi). by destruct (canAcceptRX i t).
  - destruct (deliver_all q ifs m t) as [l q1] eqn:E. intros [= <- <- <-]. left. split; [done|].
    eapply deliver_all_spec; [by apply service_accept|done].
Qed.

(** A broadcast is all or nothing.  On the request and response channels
    either every interface has received exactly one copy of the message, or
    nothing happened at all: then the message is a demand and some receiver had
    no room.  Traffic that is not a demand is never refused. *)
Theorem broadcast_atomic q ifs m t r ifs' q' : t <> SERVICE_REQUEST ->
  broadcast q ifs m t = (r, ifs', q') ->
  (r = true /\ Forall2 (delivered m) ifs ifs') \/
  (r = false /\ ifs' = ifs /\ q' = q /\ isDemandRequest m = true /\ exists i, i ∈ ifs /\ canAcceptRX i t = false).
Proof. intros Ht [(-> & H1 & _)|H]%broadcast_spec; auto. Qed.

(** ** Elections *)

Lemma zip_set_get (get : I -> list Message) (set : list Message -> I -> I) bufs ifs :
  (forall l i, get (set l i) = l) -> length bufs = length ifs -> get <$> zip_with set bufs ifs = bufs.
Proof.
  intros Hgs. revert bufs. induction ifs as [|i ifs IH]; intros [|b bufs]; cbn; try done.
  intros [= Hlen]. by rewrite Hgs, IH.
Qed.

Lemma zip_set_rel (set : list Message -> I -> I) (R : I -> I -> Prop) bufs ifs :
  (forall l i, R i (set l i)) -> length bufs = length ifs -> Forall2 R ifs (zip_with set bufs ifs).
Proof.
  intros HR. revert bufs. induction ifs as [|i ifs IH]; intros [|b bufs]; cbn; try done.
  intros [= Hlen]. constructor; auto.
Qed.

Lemma Forall2_fmap_eq {B} (f : I -> B) ifs ifs' : Forall2 (fun i i' => f i' = f i) ifs ifs' -> f <$> ifs' = f <$> ifs.
Proof. induction 1; cbn; congruence. Qed.

Lemma elect_on_spec (get : I -> list Message) (set : list Message -> I -> I) el cycle ifs r ifs' a' (R : I -> I -> Prop) :
  (forall c bs m bs' a'', el c bs = Ok (Some (m, bs'), a'') -> elected_from bs m bs') ->
  (forall l i, get (set l i) = l) -> (forall l i, R i (set l i)) -> (forall i, R i i) ->
  elect_on get set el cycle ifs = Ok (r, ifs', a') ->
  Forall2 R ifs ifs' /\
  concat (get <$> ifs) ≡ₚ match r with Some m => [m] | None => [] end ++ concat (get <$> ifs').
Proof.
  intros Hel Hgs HR Hrefl. unfold elect_on. intros ([r0 a0] & He & H)%obind_Ok.
  destruct r0 as [[m bufs]|].
  - injection H as <- <- <-. apply Hel, elected_from_perm in He as [Hp Hlen].
    rewrite length_fmap in Hlen. split; [by apply zip_set_rel|]. by rewrite zip_set_get.
  - injection H as <- <- <-. split; [|done]. by apply Forall_Forall2_diag, Forall_true.
Qed.

(** ** Conservation *)

(** What is on its way: queued at the senders, or held by the bus. *)
Definition pending_requests (b : SplitBus) (ifs : list I) : list Message :=
  (if message_available_req b then [elected_msg_req b] else []) ++ concat (tx_requests <$> ifs).

Lemma Forall2_tx_same_requests ifs ifs' : Forall2 tx_same ifs ifs' -> tx_requests <$> ifs' = tx_requests <$> ifs.
Proof. induction 1 as [|i i' ifs ifs' (E & _) _ IH]; cbn; congruence. Qed.

Lemma rx_same_delivered m ifs ifs1 ifs2 : Forall2 rx_same ifs ifs1 -> Forall2 (delivered m) ifs1 ifs2 ->
  Forall2 (delivered m) ifs ifs2.
Proof.
  intros H. revert ifs2. induction H as [|i i1 ifs ifs1 E _ IH]; intros ifs2 H2; [by inversion H2|].
  inversion H2 as [|? i2 ? ? Hd Ht]; subst. constructor; [|by apply IH]. unfold delivered, rx_same in *. by rewrite <- E.
Qed.

Lemma request_elect_spec cycle b ifs b1 ifs1 : request_elect cycle b ifs = Ok (b1, ifs1) ->
  Forall2 rx_same ifs ifs1 /\ pending_requests b1 ifs1 ≡ₚ pending_requests b ifs /\
  sb_request_latency b1 = sb_request_latency b /\ clk_in_slot_req b1 = clk_in_slot_req b.
Proof.
  unfold request_elect. destruct (_ && _) eqn:E.
  - apply andb_true_iff in E as [_ Hav]. apply negb_true_iff in Hav.
    intros ([[r ifs'] a'] & He & H)%obind_Ok.
    apply (elect_on_spec tx_requests set_tx_requests _ _ _ _ _ _ rx_same) in He as [Hrx Hp];
      [|apply elect_elected_from|intros l i; apply (bp_set_requests l i)|intros l i; apply (bp_set_requests l i)|done].
    destruct r as [m|]; injection H as <- <-; (split_and!; [done| |done|done]);
      unfold pending_requests; cbn; rewrite Hav; cbn; by rewrite Hp.
  - intros [= <- <-]. split_and!; try done. by apply Forall_Forall2_diag, Forall_true.
Qed.

(** C22: the request bus neither loses nor duplicates.  One step leaves the
    messages on their way and the receivers as they were, or delivers exactly
    one of them, to every receiver, and takes it off. *)
Theorem request_bus_conserves cycle q b ifs b' ifs' q' :
  requestBusStep cycle q b ifs = Ok (b', ifs', q') ->
  (pending_requests b' ifs' ≡ₚ pending_requests b ifs /\ Forall2 rx_same ifs ifs') \/
  (exists m, pending_requests b ifs ≡ₚ m :: pending_requests b' ifs' /\ Forall2 (delivered m) ifs ifs').
Proof.
  unfold requestBusStep. destruct (responseBackpressured b ifs).
  { intros [= <- <- <-]. left. split; [done|]. by apply Forall_Forall2_diag, Forall_true. }
  intros ([b1 ifs1] & (Hrx & Hp & _ & _)%request_elect_spec & H)%obind_Ok.
  destruct (message_available_req b1 && _) eqn:E.
  - apply andb_true_iff in E as [Hav _].
    destruct (broadcast q ifs1 (elected_msg_req b1) REQUEST) as [[r ifs2] q2] eqn:Eb.
    apply broadcast_spec in Eb as [(-> & Hd & Ht)|(-> & -> & -> & _)]; [..|done]; injection H as <- <- <-.
    + right. exists (elected_msg_req b1). split; [|by eapply rx_same_delivered].
      rewrite <- Hp. unfold pending_requests; cbn. rewrite Hav, (Forall2_tx_same_requests ifs1 ifs2) by done. done.
    + left. split; done.
  - injection H as <- <- <-. left. split; [|done]. rewrite <- Hp. done.
Qed.

(** ** Timing *)

(** The bus holds [m], [c] cycles into its slot. *)
Definition holds_req (b : SplitBus) (m : Message) (c : Z) : Prop :=
  message_available_req b = true /\ elected_msg_req b = m /\ clk_in_slot_req b = c.

Lemma request_hold_step cycle q b ifs m c : holds_req b m c -> responseBackpressured b ifs = false ->
  0 <= c < sb_request_latency b - 1 ->
  exists b', requestBusStep cycle q b ifs = Ok (b', ifs, q) /\ holds_req b' m (c + 1) /\
    sb_request_latency b' = sb_request_latency b /\ m_response_reserve b' = m_response_reserve b.
Proof.
  intros (Hav & Hm & Hc) Hbp Hr. unfold requestBusStep, request_elect. rewrite Hbp, Hav, andb_false_r. cbn.
  rewrite Hav, Hc. rewrite (proj2 (Z.eqb_neq _ _)) by lia. cbn. eexists. split; [done|].
  unfold holds_req; cbn. by rewrite Hm.
Qed.

(** The request bus over a sequence of cycles, each with the cycle number and
    the interfaces as the bus finds them then. *)
Fixpoint request_run (q : Z) (b : SplitBus) (env : list (Z * list I)) : outcome SplitBus :=
  match env with
  | [] => Ok b
  | (cycle, ifs) :: env' => let! (b', _, _) := requestBusStep cycle q b ifs in request_run q b' env'
  end.

Lemma request_hold_run q b m c env : holds_req b m c ->
  Forall (fun e => forall b', m_response_reserve b' = m_response_reserve b -> responseBackpressured b' e.2 = false) env ->
  0 <= c -> c + Z.of_nat (length env) <= sb_request_latency b - 1 ->
  exists b', request_run q b env = Ok b' /\ holds_req b' m (c + Z.of_nat (length env)) /\
    sb_request_latency b' = sb_request_latency b /\ m_response_reserve b' = m_response_reserve b.
Proof.
  intros Hh Henv. revert b c Hh Henv. induction env as [|[cycle ifs] env IH]; intros b c Hh Henv Hc Hlen; cbn.
  { exists b. by rewrite Z.add_0_r. }
  apply Forall_cons in Henv as [He Henv]. cbn [length] in Hlen.
  destruct (request_hold_step cycle q b ifs m c) as (b1 & -> & Hh1 & Hl1 & Hr1); [done|by apply He|lia|]. cbn.
  destruct (IH b1 (c + 1)) as (b2 & -> & Hh2 & Hl2 & Hr2); [done| |lia|rewrite Hl1; lia|].
  { eapply Forall_impl; [exact Henv|]. intros e H b' Hb'. apply H. congruence. }
  exists b2. split; [done|]. split; [|split; congruence].
  by replace (c + Z.of_nat (S (length env))) with (c + 1 + Z.of_nat (length env)) by lia.
Qed.


(** The unified bus loses requests.  With a request latency of 1 the slot
    that elects is never the slot that broadcasts: the message leaves its sender
    and the next cycle's response election replaces it, so it is in no
    transmit queue and no receiver ever got it. *)
Theorem unified_latency1_loses cycle cycle' q b ifs m ifs1 a1 r2 ifs2 a2 :
  ub_request_latency b = 1 -> 0 < ub_response_latency b -> clk_in_slot b = 0 ->
  elect_on tx_requests set_tx_requests (elect (ub_arbiter b)) cycle ifs = Ok (Some m, ifs1, a1) ->
  elect_on tx_responses set_tx_responses (forceElect a1) cycle' ifs1 = Ok (r2, ifs2, a2) ->
  exists b1 b2, unified_busStep cycle q b ifs = Ok (b1, ifs1, q) /\
    unified_busStep cycle' q b1 ifs1 = Ok (b2, ifs2, q) /\
    concat (tx_requests <$> ifs) ≡ₚ m :: concat (tx_requests <$> ifs2) /\
    ci_rx <$> ifs2 = ci_rx <$> ifs /\
    (message_available b2 = true -> Some (elected_msg b2) = r2).
Proof.
  intros HL Hresp Hclk He1 He2. pose proof He1 as He1'. pose proof He2 as He2'.
  apply (elect_on_spec tx_responses set_tx_responses _ _ _ _ _ _ (fun i i' => rx_same i i' /\ tx_requests i' = tx_requests i)) in He2' as [Hs2 _];
    [|apply forceElect_elected_from|intros l i; apply (bp_set_responses l i)
     |intros l i; split; apply (bp_set_responses l i)|done].
  assert (Hrx2 : ci_rx <$> ifs2 = ci_rx <$> ifs1).
  { apply Forall2_fmap_eq. eapply Forall2_impl; [exact Hs2|]. by intros i i' [? _]. }
  assert (Htx2 : tx_requests <$> ifs2 = tx_requests <$> ifs1).
  { apply Forall2_fmap_eq. eapply Forall2_impl; [exact Hs2|]. by intros i i' [_ ?]. }
  apply (elect_on_spec tx_requests set_tx_requests _ _ _ _ _ _ rx_same) in He1' as [Hrx1 Hp];
    [|apply elect_elected_from|intros l i; apply (bp_set_requests l i)|intros l i; apply (bp_set_requests l i)|done].
  assert (S1 : exists b1, unified_busStep cycle q b ifs = Ok (b1, ifs1, q) /\ clk_in_slot b1 = 1 /\
    ub_request_latency b1 = 1 /\ ub_response_latency b1 = ub_response_latency b /\ ub_arbiter b1 = a1 /\
    message_available b1 = true).
  { unfold unified_busStep, unified_slot, unified_elect. rewrite Hclk. cbn. rewrite He1. cbn. rewrite HL, Hclk.
    rewrite (proj2 (Z.eqb_neq _ _)) by lia. eexists. split; [done|]. cbn. split_and!; try done.
    rewrite Z.rem_small; lia. }
  destruct S1 as (b1 & E1 & Hc1 & Hl1 & Hr1 & Ha1 & Hv1).
  assert (S2 : exists b2, unified_busStep cycle' q b1 ifs1 = Ok (b2, ifs2, q) /\
    (message_available b2 = true -> Some (elected_msg b2) = r2)).
  { unfold unified_busStep, unified_slot. rewrite Hc1, Hl1.
    change (1 =? 0) with false. change (1 =? 1 - 1) with false. change (1 =? 1) with true. cbv iota.
    rewrite Ha1, He2. unfold unified_elect. cbn [obind].
    destruct r2 as [m2|]; cbn [obind set_slot message_available ub_request_latency ub_response_latency];
      [|by eexists]. rewrite Hl1, Hr1, (proj2 (Z.eqb_neq _ _)) by lia. by eexists. }
  destruct S2 as (b2 & E2 & Hv2). apply Forall2_fmap_eq in Hrx1. exists b1, b2. split_and!; try done.
  - by rewrite Htx2.
  - congruence.
Qed.
End Theory.

(** ** A concrete bus

    Two interfaces with room for two messages; the first has a demand to send. *)

Definition demo_msg : Message := newMessage 7 64 3 0 0.
Definition demo_ifs : list BusInterface :=
  [bi_set_tx [demo_msg] [] (newBusInterface 0 2); newBusInterface 1 2].
Definition demo_bus (latency : Z) : SplitBus :=
  mkSplitBus latency 4 0 (FCFS, newArbiter [0; 1] latency) (FCFS, newArbiter [0; 1] 4)
    0 (newMessage 0 0 0 0 0) false 0 (newMessage 0 0 0 0 0) false.

Lemma broadcast_atomic_witness :
  let ifs := [newBusInterface 0 0; newBusInterface 1 2] in
  broadcast 5 ifs demo_msg REQUEST = (false, ifs, 5) /\
  ((false = true /\ Forall2 (delivered demo_msg) ifs ifs) \/
   (false = false /\ ifs = ifs /\ 5 = 5 /\ isDemandRequest demo_msg = true /\
    exists i, i ∈ ifs /\ canAcceptRX i REQUEST = false)).
Proof.
  split; [reflexivity|]. eapply (broadcast_atomic 5); [discriminate|reflexivity].
Defined.

Lemma request_bus_conserves_witness :
  match requestBusStep 10 0 (demo_bus 1) demo_ifs with
  | Ok (b', ifs', _) =>
      (pending_requests b' ifs' ≡ₚ pending_requests (demo_bus 1) demo_ifs /\ Forall2 rx_same demo_ifs ifs') \/
      (exists m, pending_requests (demo_bus 1) demo_ifs ≡ₚ m :: pending_requests b' ifs' /\
                 Forall2 (delivered m) demo_ifs ifs')
  | _ => False
  end.
Proof. cbv [requestBusStep]. eapply (request_bus_conserves 10 0). reflexivity. Defined.


Lemma unified_latency1_loses_witness :
  let b := mkUnifiedBus 1 2 (FCFS, newArbiter [0] 3) 0 (newMessage 0 0 0 0 0) false in
  let ifs2 := [newBusInterface 0 2; newBusInterface 1 2] in
  exists b1 b2, unified_busStep 10 0 b demo_ifs = Ok (b1, ifs2, 0) /\
    unified_busStep 11 0 b1 ifs2 = Ok (b2, ifs2, 0) /\
    concat (tx_requests <$> demo_ifs) ≡ₚ demo_msg :: concat (tx_requests <$> ifs2) /\
    ci_rx <$> ifs2 = ci_rx <$> demo_ifs /\
    (message_available b2 = true -> Some (elected_msg b2) = None).
Proof. eapply (unified_latency1_loses 10 11 0); reflexivity. Defined.
