(* ===== verification/Topology.v ===== *)
(** * Interconnects as clocked components

    [Bus], [TripleBus] and [DirectInterconnect] ([src/Interconnect/]): the
    interfaces an interconnect creates, the controller it picks, and its clock
    cycle, which steps the controller on every other edge. *)

From S2P Require Export BusControllers.

(** ** The edges *)

Record Edges := mkEdges { bus_cycle : Z; bus_cycle_edges : Z }.
Definition newEdges : Edges := mkEdges 1 1.

(** [if (edges % 2 == 1) step(cycle++); edges++] *)
Definition on_edge {St} (step : Z -> St -> outcome St) (e : Edges) (s : St) : outcome (Edges * St) :=
  let edges := w64 (bus_cycle_edges e + 1) in
  if bus_cycle_edges e mod 2 =? 1
  then let! s' := step (bus_cycle e) s in Ok (mkEdges (w64 (bus_cycle e + 1)) edges, s')
  else Ok (mkEdges (bus_cycle e) edges, s).

(** ** [Bus] and [TripleBus] *)

Inductive BusController :=
| Point2Point (b : P2PBus)
| Split (b : SplitBus)
| Unified (b : UnifiedBus)
| Triple (b : SplitBus)
| NoController.                 (* no type matched: the pointer is not set *)

Record BusParams := mkBusParams {
  p_lower_level_ids : list Z;
  p_upper_level_cache_ids : list Z;
  p_controller_type : string;
  p_buffers_max_size : Z;
  p_arbiter_type : string;
  p_request_latency : Z;
  p_response_latency : Z;
  p_response_reserve : option Z;
  p_candidates_id : list Z;
  p_clk_upper : Z;              (* what the memory of the uninitialised fields holds *)
  p_avail_upper : bool }.

Definition bus_controller {I} `{BusPort I} (p : BusParams) (ifs : list I) : outcome BusController :=
  if String.eqb (p_controller_type p) "Point2Point" then
    let! b := newP2PBus ifs (p_lower_level_ids p) (p_candidates_id p) (p_arbiter_type p)
                (p_request_latency p) (p_response_latency p) (p_clk_upper p) (p_avail_upper p) in Ok (Point2Point b)
  else if String.eqb (p_controller_type p) "Split" then
    let! b := newSplitBus ifs (p_arbiter_type p) (p_request_latency p) (p_response_latency p) (p_response_reserve p) in
    Ok (Split b)
  else if String.eqb (p_controller_type p) "Unified" then
    let! b := newUnifiedBus (p_lower_level_ids p) (p_arbiter_type p) (p_request_latency p) (p_response_latency p) in
    Ok (Unified b)
  else Ok NoController.

(** The interfaces: the upper level's, then the lower level's. *)
Definition bus_ids (p : BusParams) : list Z := p_upper_level_cache_ids p ++ p_lower_level_ids p.

Definition newBus (p : BusParams) : outcome (BusController * Edges * list BusInterface) :=
  let ifs := (fun id => newBusInterface id (p_buffers_max_size p)) <$> bus_ids p in
  let! c := bus_controller p ifs in Ok (c, newEdges, ifs).

(** [TripleBus] builds a [Bus] first, controller and all, and then replaces its
    interfaces and its controller, which has parameters of its own ([q]). *)
Definition newTripleBus (p q : BusParams) : outcome (BusController * Edges * list TripleBusInterface) :=
  let! _ := newBus p in
  let ifs := (fun id => newTripleBusInterface id (p_buffers_max_size p)) <$> bus_ids p in
  let! b := newSplitBus ifs (p_arbiter_type q) (p_request_latency q) (p_response_latency q) (p_response_reserve q) in
  Ok (Triple b, newEdges, ifs).

(** [interconnect_controller->busStep]: the controller, the interfaces and the
    delivery counter. *)
Definition busStep {I} `{BusPort I} (cycle : Z) (s : BusController * list I * Z)
    : outcome (BusController * list I * Z) :=
  let '(c, ifs, q) := s in
  match c with
  | Point2Point b => let! (b', ifs', q') := p2p_busStep cycle q b ifs in Ok (Point2Point b', ifs', q')
  | Split b => let! (b', ifs', q') := split_busStep cycle q b ifs in Ok (Split b', ifs', q')
  | Unified b => let! (b', ifs', q') := unified_busStep cycle q b ifs in Ok (Unified b', ifs', q')
  | Triple b => let! (b', ifs', q') := triple_busStep cycle q b ifs in Ok (Triple b', ifs', q')
  | NoController => Crash "interconnect_controller is not set"
  end.

Definition bus_cycleProcess {I} `{BusPort I} : Edges -> BusController * list I * Z ->
    outcome (Edges * (BusController * list I * Z)) := on_edge busStep.

Definition bus_getInterfaceFor {I} `{CommInterface I} (ifs : list I) (id : Z) : option nat :=
  fst <$> list_find (fun i => ci_id i = id) ifs.

(** ** [DirectInterconnect] *)

Definition newDirectInterconnect (upper_id lower_id buffers_max_size : Z) : Edges * list BusInterface :=
  (newEdges, [newBusInterface lower_id buffers_max_size; newBusInterface upper_id buffers_max_size]).

Definition direct_cycleProcess : Edges -> list BusInterface * Z -> outcome (Edges * (list BusInterface * Z)) :=
  on_edge (fun _ '(ifs, q) => controllerStep q ifs).

(** ** Half rate *)

(** [n] clock cycles of an interconnect. *)
Fixpoint edge_run {St} (step : Z -> St -> outcome St) (n : nat) (e : Edges) (s : St) : outcome (Edges * St) :=
  match n with
  | O => Ok (e, s)
  | S n' => let! (e', s') := on_edge step e s in edge_run step n' e' s'
  end.

Lemma odd_edge k : (2 * k + 1) mod 2 = 1.
Proof. Z.to_euclidean_division_equations. lia. Qed.
Lemma even_edge k : (2 * k + 1 + 1) mod 2 = 0.
Proof. Z.to_euclidean_division_equations. lia. Qed.

Lemma edge_run_from {St} (step : Z -> St -> outcome St) n k s : 0 <= k -> 2 * k + Z.of_nat n + 2 < 2 ^ 64 ->
  (let! (_, s') := edge_run step n (mkEdges (k + 1) (2 * k + 1)) s in Ok s') =
  ofold (fun s c => step c s) (seqZ (k + 1) ((Z.of_nat n + 1) / 2)) s.
Proof.
  revert k s. induction n as [n IH] using lt_wf_ind. intros k s Hk Hn.
  destruct n as [|[|n]]; [done| |].
  - replace (seqZ (k + 1) ((Z.of_nat 1 + 1) / 2)) with [k + 1] by (unfold seqZ; cbn; f_equal; lia).
    cbn [edge_run ofold]. unfold on_edge. cbn [bus_cycle_edges bus_cycle].
    rewrite odd_edge. by destruct (step (k + 1) s).
  - replace ((Z.of_nat (S (S n)) + 1) / 2) with (Z.succ ((Z.of_nat n + 1) / 2))
      by (replace (Z.of_nat (S (S n)) + 1) with (Z.of_nat n + 1 + 1 * 2) by lia; rewrite Z.div_add by lia; lia).
    rewrite seqZ_cons by (apply Z.lt_succ_r, Z.div_pos; lia).
    cbn [edge_run ofold]. unfold on_edge at 1. cbn [bus_cycle_edges bus_cycle].
    rewrite odd_edge. cbn [Z.eqb Pos.eqb]. destruct (step (k + 1) s) as [s'| |]; cbn [obind]; [|done..].
    unfold on_edge at 1. cbn [bus_cycle_edges bus_cycle].
    rewrite !w64_small by lia. rewrite even_edge.
    cbn [Z.eqb obind].
    specialize (IH n ltac:(lia) (k + 1) s' ltac:(lia) ltac:(lia)).
    replace (2 * k + 1 + 1 + 1) with (2 * (k + 1) + 1) by lia. rewrite IH.
    by rewrite Z.pred_succ.
Qed.

(** An interconnect runs at half the rate of its clock.  [n] clock cycles
    after its construction it has made [ceil(n / 2)] steps, with the cycle
    numbers 1, 2, and so on, and stopped at the first that ends the simulator. *)
Theorem interconnect_half_rate {St} (step : Z -> St -> outcome St) n s : Z.of_nat n + 2 < 2 ^ 64 ->
  (let! (_, s') := edge_run step n newEdges s in Ok s') =
  ofold (fun s c => step c s) (seqZ 1 ((Z.of_nat n + 1) / 2)) s.
Proof. intros Hn. apply (edge_run_from step n 0); lia. Qed.

(** Five cycles of a connection between a core and its cache. *)
Definition demo_direct : list BusInterface * Z :=
  let '(e, ifs) := newDirectInterconnect 1 0 4 in
  (alter (fun b => snd (BI.pushMessage b (newMessage 3 64 0 0 0) 9 REQUEST)) 0%nat ifs, 0).

Lemma interconnect_half_rate_witness :
  (let! (_, s') := edge_run (fun _ '(ifs, q) => controllerStep q ifs) 5 newEdges demo_direct in Ok s') =
  ofold (fun s c => (fun (_ : Z) '(ifs, q) => controllerStep q ifs) c s) [1; 2; 3] demo_direct.
Proof.
  pose proof (interconnect_half_rate (fun _ '(ifs, q) => controllerStep q ifs) 5 demo_direct) as H.
  apply H. reflexivity.
Defined.
