(* ===== verification/Mesh.v ===== *)
(** * Mesh and network-on-chip interconnects

    [MeshInterface], [MeshController], [Mesh] and the classes derived from them,
    [NoCInterface], [NoCController] and [NoC] ([src/Interconnect/]).  A link is
    an undirected pair of interfaces with its own arbiter; [buffers] of a link
    are pointers to the transmit queues the two ends keep for each other, here
    the positions of those queues.  What the two kinds of interface share is the
    class [MeshPort]. *)

From S2P Require Export Arbiters Messages.

(** ** [MeshInterface] *)

Record MeshInterface := mkMeshInterface {
  mi_id : Z;
  mi_buffer_selector : Z;
  mi_buffer_max_size : Z;
  mi_link_ids : list Z;
  mi_tx_request : list (list Message);      (* one queue per link *)
  mi_tx_data : list (list Message);
  mi_rx_request : list Message;
  mi_rx_data : list Message }.

Definition newMeshInterface (id buffer_max_size : Z) (link_ids : list Z) : MeshInterface :=
  mkMeshInterface id (-1) buffer_max_size link_ids ((fun _ => []) <$> link_ids) ((fun _ => []) <$> link_ids) [] [].

Definition mi_set_selector (s : Z) (i : MeshInterface) : MeshInterface :=
  mkMeshInterface (mi_id i) s (mi_buffer_max_size i) (mi_link_ids i) (mi_tx_request i) (mi_tx_data i)
    (mi_rx_request i) (mi_rx_data i).
Definition mi_set_tx_request (l : list (list Message)) (i : MeshInterface) : MeshInterface :=
  mkMeshInterface (mi_id i) (mi_buffer_selector i) (mi_buffer_max_size i) (mi_link_ids i) l (mi_tx_data i)
    (mi_rx_request i) (mi_rx_data i).
Definition mi_set_tx_data (l : list (list Message)) (i : MeshInterface) : MeshInterface :=
  mkMeshInterface (mi_id i) (mi_buffer_selector i) (mi_buffer_max_size i) (mi_link_ids i) (mi_tx_request i) l
    (mi_rx_request i) (mi_rx_data i).
Definition mi_set_rx (req data : list Message) (i : MeshInterface) : MeshInterface :=
  mkMeshInterface (mi_id i) (mi_buffer_selector i) (mi_buffer_max_size i) (mi_link_ids i) (mi_tx_request i)
    (mi_tx_data i) req data.

Module MeshIf.
(** The two-pass loop: the buffer handed out last goes second. *)
Fixpoint peek_loop (n : nat) (i : MeshInterface) : option Message * MeshInterface :=
  match n with
  | O => (None, i)
  | S n' =>
      match mi_rx_request i, mi_buffer_selector i =? 0 with
      | m :: _, false => (Some m, mi_set_selector 0 i)
      | _, _ =>
          match mi_rx_data i, mi_buffer_selector i =? 1 with
          | m :: _, false => (Some m, mi_set_selector 1 i)
          | _, _ => peek_loop n' (mi_set_selector (-1) i)
          end
      end
  end.

Definition peekMessage (i : MeshInterface) : option Message * MeshInterface := peek_loop 2 i.

Definition popFrontMessage (i : MeshInterface) : MeshInterface :=
  if mi_buffer_selector i =? 0 then mi_set_rx (tail (mi_rx_request i)) (mi_rx_data i) i
  else if mi_buffer_selector i =? 1 then mi_set_rx (mi_rx_request i) (tail (mi_rx_data i)) i
  else i.

(** The queue of the first link named [id]. *)
Definition link_position (link_ids : list Z) (id : Z) : option nat :=
  fst <$> list_find (fun l => l = id) link_ids.

(** One copy per destination, addressed to it alone, on the link [route] names. *)
Definition push_copies (route : Z -> Z) (link_ids : list Z) (m : Message) (queues : list (list Message))
    : list (list Message) :=
  foldl (fun qs to_id =>
    match link_position link_ids (route to_id) with
    | Some k => alter (fun q => q ++ [set_msg_to [to_id] m]) k qs
    | None => qs
    end) queues (msg_to m).

(** The bound counts the links, not the messages. *)
Definition push_routed (route : Z -> Z) (m : Message) (i : MeshInterface) : outcome (bool * MeshInterface) :=
  match msg_to m with
  | [] => Exit "Error missing to vector"
  | _ :: _ =>
      if has_data m then
        if Z.of_nat (length (mi_tx_data i)) <? mi_buffer_max_size i
        then Ok (true, mi_set_tx_data (push_copies route (mi_link_ids i) m (mi_tx_data i)) i)
        else Ok (false, i)
      else if Z.of_nat (length (mi_tx_request i)) <? mi_buffer_max_size i
      then Ok (true, mi_set_tx_request (push_copies route (mi_link_ids i) m (mi_tx_request i)) i)
      else Ok (false, i)
  end.

Definition stamp (id : Z) (m : Message) (cycle : Z) : Message :=
  set_msg_from id (if cycle =? 0 then m else set_msg_cycle cycle m).

(** [type] is ignored. *)
Definition pushMessage (i : MeshInterface) (m : Message) (cycle : Z) : outcome (bool * MeshInterface) :=
  push_routed (fun id => id) (stamp (mi_id i) m cycle) i.

Definition pushMessage2RX (m : Message) (i : MeshInterface) : bool * MeshInterface :=
  if has_data m then
    if Z.of_nat (length (mi_rx_data i)) <? mi_buffer_max_size i
    then (true, mi_set_rx (mi_rx_request i) (mi_rx_data i ++ [m]) i) else (false, i)
  else if Z.of_nat (length (mi_rx_request i)) <? mi_buffer_max_size i
  then (true, mi_set_rx (mi_rx_request i ++ [m]) (mi_rx_data i) i) else (false, i).

Definition rollback (i : MeshInterface) (address mask : Z) : option Message * MeshInterface := (None, i).
End MeshIf.

#[export] Instance Mesh_interface : CommInterface MeshInterface := {|
  ci_id := mi_id;
  peekMessage := MeshIf.peekMessage;
  popFrontMessage := MeshIf.popFrontMessage;
  pushMessage i m c _ := MeshIf.pushMessage i m c;
  pushMessage2RX q i m _ := let '(r, i') := MeshIf.pushMessage2RX m i in (r, i', q);
  canAcceptRX _ _ := true;
  txResponseFreeSlots _ := 2 ^ 30;
  rollback := MeshIf.rollback |}.

(** ** [NoCInterface] *)

Record NoCInterface := mkNoCInterface {
  ni_base : MeshInterface;
  m_routing_table : gmap Z Z }.

(** The nodes behind switch [id], in every row of the matrix that starts with it
    (the first column names the row's node: no row is empty). *)
Definition add_switch (self id : Z) (connection_mat : list (list Z)) (t : gmap Z Z) : gmap Z Z :=
  foldl (fun t row =>
    match row with
    | v :: reach => if v =? id then foldl (fun t r => if r =? self then t else <[r := id]> t) t reach else t
    | [] => t
    end) t connection_mat.

Definition routing_table (self : Z) (link_ids : list Z) (connection_mat : list (list Z)) (switch_ids : list Z)
    : gmap Z Z :=
  foldl (fun t id =>
    let t := <[id := id]> t in
    if existsb (Z.eqb id) switch_ids then add_switch self id connection_mat t else t) ∅ link_ids.

Definition newNoCInterface (id buffer_max_size : Z) (link_ids : list Z) (connection_mat : list (list Z))
    (switch_ids : list Z) : NoCInterface :=
  mkNoCInterface (newMeshInterface id buffer_max_size link_ids)
    (routing_table id link_ids connection_mat switch_ids).

(** [m_routing_table[to_id]]: the entry [operator[]] adds for a missing key reads
    as the missing key does. *)
Definition next_hop (t : gmap Z Z) (to_id : Z) : Z := default 0 (t !! to_id).

Definition ni_set_base (b : MeshInterface) (n : NoCInterface) : NoCInterface := mkNoCInterface b (m_routing_table n).

Definition noc_pushMessage (n : NoCInterface) (m : Message) : outcome (bool * NoCInterface) :=
  let! (r, b) := MeshIf.push_routed (next_hop (m_routing_table n)) m (ni_base n) in Ok (r, ni_set_base b n).

#[export] Instance NoC_interface : CommInterface NoCInterface := {|
  ci_id n := mi_id (ni_base n);
  peekMessage n := let '(r, b) := MeshIf.peekMessage (ni_base n) in (r, ni_set_base b n);
  popFrontMessage n := ni_set_base (MeshIf.popFrontMessage (ni_base n)) n;
  pushMessage n m c _ := noc_pushMessage n (MeshIf.stamp (mi_id (ni_base n)) m c);
  pushMessage2RX q n m _ := let '(r, b) := MeshIf.pushMessage2RX m (ni_base n) in (r, ni_set_base b n, q);
  canAcceptRX _ _ := true;
  txResponseFreeSlots _ := 2 ^ 30;
  rollback n a k := let '(r, b) := MeshIf.rollback (ni_base n) a k in (r, ni_set_base b n) |}.

(** What a link sees of an interface. *)
Class MeshPort (I : Type) := {
  mesh_base : I -> MeshInterface;
  set_mesh_base : MeshInterface -> I -> I }.

#[export] Instance Mesh_port : MeshPort MeshInterface := {| mesh_base i := i; set_mesh_base b _ := b |}.
#[export] Instance NoC_port : MeshPort NoCInterface := {| mesh_base := ni_base; set_mesh_base := ni_set_base |}.

(** ** Links *)

Inductive LinkType := RequestLink | DataLink.
#[export] Instance LinkType_eq_dec : EqDecision LinkType.
Proof. solve_decision. Defined.

(** [buffers]: interface and position of each transmit queue, both indices. *)
Record Link := mkLink {
  id_a : Z;
  id_b : Z;
  link_type : LinkType;
  link_latency : Z;
  utilization_cycle : Z;
  link_arbiter : ArbiterObj;
  link_buffers : list (nat * nat);
  link_msg : Message }.

Definition link_same (a b : Z * Z * LinkType) : bool :=
  let '(a1, b1, t1) := a in
  let '(a2, b2, t2) := b in
  ((a1 =? a2) && (b1 =? b2) && bool_decide (t1 = t2)) || ((a1 =? b2) && (b1 =? a2) && bool_decide (t1 = t2)).

Definition isReady (cycle_number : Z) (l : Link) : bool := utilization_cycle l <? cycle_number.

Definition utilize (cycle_number : Z) (m : Message) (a : ArbiterObj) (l : Link) : Link :=
  mkLink (id_a l) (id_b l) (link_type l) (link_latency l) (w64 (cycle_number + link_latency l - 1)) a
    (link_buffers l) m.
Definition set_link_arbiter (a : ArbiterObj) (l : Link) : Link :=
  mkLink (id_a l) (id_b l) (link_type l) (link_latency l) (utilization_cycle l) a (link_buffers l) (link_msg l).

(** [map<int, vector<int>>], in key order. *)
Fixpoint topology_insert (id : Z) (peers : list Z) (t : list (Z * list Z)) : list (Z * list Z) :=
  match t with
  | [] => [(id, peers)]
  | (k, ps) :: t' =>
      if id <? k then (id, peers) :: t
      else if id =? k then (id, peers) :: t'
      else (k, ps) :: topology_insert id peers t'
  end.

Section Controller.
Context {I : Type} `{CommInterface I, MeshPort I}.

(** ** [MeshController] *)

Definition queues (ty : LinkType) (i : I) : list (list Message) :=
  match ty with RequestLink => mi_tx_request (mesh_base i) | DataLink => mi_tx_data (mesh_base i) end.
Definition set_queues (ty : LinkType) (qs : list (list Message)) (i : I) : I :=
  match ty with
  | RequestLink => set_mesh_base (mi_set_tx_request qs (mesh_base i)) i
  | DataLink => set_mesh_base (mi_set_tx_data qs (mesh_base i)) i
  end.

(** The queue a pointer of [buffers] points at, and the store through it. *)
Definition queue_at (ty : LinkType) (ifs : list I) (p : nat * nat) : list Message :=
  default [] (i ← ifs !! p.1; queues ty i !! p.2).
Definition put_queue (ty : LinkType) (ifs : list I) (pq : (nat * nat) * list Message) : list I :=
  alter (fun i => set_queues ty (<[pq.1.2 := pq.2]> (queues ty i)) i) pq.1.1 ifs.

(** [getCongregatedBuffers] over the two ends of a link. *)
Definition queue_to (j : nat) (i : I) (peer : Z) : list (nat * nat) :=
  match MeshIf.link_position (mi_link_ids (mesh_base i)) peer with Some k => [(j, k)] | None => [] end.
Definition setInterfaceBuffers (ifs : list I) (a b : Z) : outcome (list (nat * nat)) :=
  match filter (fun '(_, i) => ci_id i = a \/ ci_id i = b) (imap pair ifs) with
  | [(j0, i0); (j1, i1)] => Ok (queue_to j0 i0 (ci_id i1) ++ queue_to j1 i1 (ci_id i0))
  | _ => Exit "interfaces are more than 2"
  end.

Definition arbiter_kind (arbiter_type : string) : outcome ArbiterKind :=
  if String.eqb arbiter_type "TDMArbiter" then Ok TDM
  else if String.eqb arbiter_type "FCFSArbiter" then Ok FCFS
  else if String.eqb arbiter_type "RRArbiter" then Ok RR
  else Exit "Error: there is no matching arbiter".

Definition link_arbiter_for (k : ArbiterKind) (candidates : list Z) (l : Z * Z) (latency : Z) : ArbiterObj :=
  match k with
  | FCFS => (FCFS, newArbiter [l.1; l.2] latency)
  | _ => (k, newArbiter candidates latency)
  end.

(** The links of the topology, a request and a data link per undirected edge,
    in the order they are first met. *)
Definition link_ends (topology : list (Z * list Z)) : list (Z * Z * LinkType) :=
  foldl (fun ls ab =>
    let add t ls := if existsb (link_same (ab, t)) ls then ls else ls ++ [(ab, t)] in
    add DataLink (add RequestLink ls)) []
    (topology ≫= fun '(a, peers) => (fun b => (a, b)) <$> peers).

Definition initializeLinks (ifs : list I) (topology : list (Z * list Z)) (arbiter_type : string)
    (candidates : list Z) (request_latency data_latency : Z) : outcome (list Link) :=
  ofold (fun links '(a, b, t) =>
    let latency := match t with RequestLink => request_latency | DataLink => data_latency end in
    let! k := arbiter_kind arbiter_type in
    let! bufs := setInterfaceBuffers ifs a b in
    Ok (links ++ [mkLink a b t latency 0 (link_arbiter_for k candidates (a, b) latency) bufs
                    (newMessage 0 0 0 0 0)])) (link_ends topology) [].

Definition message_type (m : Message) : MessageType := if has_data m then DATA_RESPONSE else REQUEST.

Definition send_to (who : string) (m : Message) (s : list I * Z) (dest : Z) : outcome (list I * Z) :=
  let '(ifs, q) := s in
  match list_find (fun i => ci_id i = dest) ifs with
  | None => Exit (who ++ ": Wrong destination")
  | Some (j, i) =>
      match pushMessage2RX q i m (message_type m) with
      | (true, i', q') => Ok (<[j := i']> ifs, q')
      | (false, _, _) => Exit (who ++ ": full buffer")
      end
  end.

(** [MeshController::send] and [NoCController::send]. *)
Definition mesh_send (l : Link) (s : list I * Z) : outcome (list I * Z) :=
  ofold (send_to "MeshController" (link_msg l)) (msg_to (link_msg l)) s.
Definition noc_send (l : Link) (s : list I * Z) : outcome (list I * Z) :=
  send_to "NoCController" (link_msg l) s
    (if msg_from (link_msg l) =? id_a l then id_b l else id_a l).

(** One link's turn in [step]. *)
Definition link_step (send : Link -> list I * Z -> outcome (list I * Z)) (cycle_number : Z)
    (l : Link) (s : list I * Z) : outcome (Link * (list I * Z)) :=
  let '(ifs, q) := s in
  if isReady cycle_number l then
    let! (r, a') := elect (link_arbiter l) cycle_number (queue_at (link_type l) ifs <$> link_buffers l) in
    match r with
    | Some (m, bufs) =>
        Ok (utilize cycle_number m a' l, (foldl (put_queue (link_type l)) ifs (zip (link_buffers l) bufs), q))
    | None => Ok (set_link_arbiter a' l, s)
    end
  else if utilization_cycle l =? cycle_number then let! s' := send l s in Ok (l, s')
  else Ok (l, s).

Fixpoint links_step (send : Link -> list I * Z -> outcome (list I * Z)) (cycle_number : Z)
    (links : list Link) (s : list I * Z) : outcome (list Link * (list I * Z)) :=
  match links with
  | [] => Ok ([], s)
  | l :: links' =>
      let! (l', s1) := link_step send cycle_number l s in
      let! (ls, s2) := links_step send cycle_number links' s1 in
      Ok (l' :: ls, s2)
  end.

(** ** [Mesh] *)

Record Mesh := mkMesh {
  mesh_links : list Link;
  m_cycle : Z;
  m_cycle_edges : Z;
  mesh_switches : list nat }.    (* NoC: the interfaces of the switches *)

(** [step] on the odd edges. *)
Definition mesh_cycle (send : Link -> list I * Z -> outcome (list I * Z)) (n : Mesh) (s : list I * Z)
    : outcome (Mesh * (list I * Z)) :=
  let edges := w64 (m_cycle_edges n + 1) in
  if m_cycle_edges n mod 2 =? 1 then
    let! (ls, s') := links_step send (m_cycle n) (mesh_links n) s in
    Ok (mkMesh ls (w64 (m_cycle n + 1)) edges (mesh_switches n), s')
  else Ok (mkMesh (mesh_links n) (m_cycle n) edges (mesh_switches n), s).

Definition getInterfaceFor (ifs : list I) (id : Z) : option nat := fst <$> list_find (fun i => ci_id i = id) ifs.
End Controller.

(** The neighbours of node [id]: the rest of the first row that starts with it. *)
Definition row_of (connection_matrix : list (list Z)) (id : Z) : outcome (list Z) :=
  match list_find (fun row => hd_error row = Some id) connection_matrix with
  | Some (_, row) => Ok (tail row)
  | None => Crash "connection_matrix out of range"
  end.

Definition mesh_topology (connection_matrix : list (list Z)) (ids : list Z) : outcome (list (Z * list Z)) :=
  ofold (fun t id => let! row := row_of connection_matrix id in Ok (topology_insert id row t)) ids [].

Definition newMesh (component_ids : list Z) (connection_matrix : list (list Z)) (buffers_max_size : Z)
    (arbiter_type : string) (request_latency data_latency : Z) : outcome (Mesh * list MeshInterface) :=
  let! ifs := ofold (fun ifs id =>
    let! row := row_of connection_matrix id in Ok (ifs ++ [newMeshInterface id buffers_max_size row]))
    component_ids [] in
  let! topology := mesh_topology connection_matrix component_ids in
  let! links := initializeLinks ifs topology arbiter_type component_ids request_latency data_latency in
  Ok (mkMesh links 1 1 [], ifs).

Definition mesh_cycleProcess (n : Mesh) (s : list MeshInterface * Z) : outcome (Mesh * (list MeshInterface * Z)) :=
  mesh_cycle mesh_send n s.

(** ** [NoC] *)

(** The constructor of [NoCController]: the switches stop being candidates and
    the arbiters that look at the candidates are built again. *)
Definition remove_first (ids : list Z) (id : Z) : list Z :=
  match list_find (fun x => x = id) ids with Some (k, _) => delete k ids | None => ids end.
Definition noc_arbiter (candidates : list Z) (l : Link) : Link :=
  match (link_arbiter l).1 with
  | FCFS => l
  | k => set_link_arbiter (k, newArbiter candidates (link_latency l)) l
  end.

Definition newNoC (component_ids switch_ids : list Z) (connection_matrix : list (list Z)) (buffers_max_size : Z)
    (arbiter_type : string) (request_latency data_latency : Z) : outcome (Mesh * list NoCInterface) :=
  let ids := component_ids ++ switch_ids in
  let! ifs := ofold (fun ifs id =>
    let! row := row_of connection_matrix id in
    Ok (ifs ++ [newNoCInterface id buffers_max_size row connection_matrix switch_ids])) ids [] in
  let! topology := mesh_topology connection_matrix ids in
  let! links := initializeLinks ifs topology arbiter_type ids request_latency data_latency in
  let! switches := ofold (fun sw id =>
    match getInterfaceFor ifs id with Some j => Ok (sw ++ [j]) | None => Crash "null interface" end) switch_ids [] in
  Ok (mkMesh (noc_arbiter (foldl remove_first ids switch_ids) <$> links) 1 1 switches, ifs).

(** A switch passes on everything it received; the answer of [noc_pushMessage]
    is not looked at. *)
Fixpoint switch_drain (fuel : nat) (n : NoCInterface) : outcome NoCInterface :=
  match peekMessage n with
  | (None, n') => Ok n'
  | (Some m, n') =>
      match fuel with
      | O => Crash "loop bound"
      | S f => let! (_, n'') := noc_pushMessage (popFrontMessage n') m in switch_drain f n''
      end
  end.

Definition switches_step (switches : list nat) (ifs : list NoCInterface) : outcome (list NoCInterface) :=
  ofold (fun ifs j =>
    match ifs !! j with
    | Some n =>
        let! n' := switch_drain (length (mi_rx_request (ni_base n)) + length (mi_rx_data (ni_base n))) n in
        Ok (<[j := n']> ifs)
    | None => Crash "null interface"
    end) switches ifs.

Definition noc_cycleProcess (n : Mesh) (s : list NoCInterface * Z) : outcome (Mesh * (list NoCInterface * Z)) :=
  let! (n', (ifs, q)) := mesh_cycle noc_send n s in
  if m_cycle_edges n' mod 2 =? 0 then
    let! ifs' := switches_step (mesh_switches n') ifs in Ok (n', (ifs', q))
  else Ok (n', (ifs, q)).
