(* ===== verification/MeshTheory.v ===== *)
(** * Properties of the mesh and network-on-chip interconnects

    Conservation and timing of the links, over both kinds of interface, and the
    hop a link of a network-on-chip makes. *)

From S2P Require Export Mesh.

(** Everything an interface holds. *)
Definition mesh_messages (i : MeshInterface) : list Message :=
  concat (mi_tx_request i) ++ concat (mi_tx_data i) ++ mi_rx_request i ++ mi_rx_data i.
Definition mesh_tx (i : MeshInterface) : list Message := concat (mi_tx_request i) ++ concat (mi_tx_data i).

(** The controllers reach the mesh state of an interface through [mesh_base]. *)
Class MeshPortLaws (I : Type) `{CommInterface I, MeshPort I} := {
  mp_get_set : forall b i, mesh_base (set_mesh_base b i) = b;
  mp_set_get : forall i, set_mesh_base (mesh_base i) i = i;
  mp_set_set : forall b b' i, set_mesh_base b (set_mesh_base b' i) = set_mesh_base b i;
  mp_rx : forall q i m t i' q', pushMessage2RX q i m t = (true, i', q') ->
    mesh_messages (mesh_base i') ≡ₚ m :: mesh_messages (mesh_base i) /\ mesh_tx (mesh_base i') = mesh_tx (mesh_base i) }.

Lemma MeshIf_rx m i i' : MeshIf.pushMessage2RX m i = (true, i') ->
  mesh_messages i' ≡ₚ m :: mesh_messages i /\ mesh_tx i' = mesh_tx i.
Proof.
  unfold MeshIf.pushMessage2RX, mesh_messages, mesh_tx. intros H.
  repeat case_match; simplify_eq; cbn; (split; [|done]);
    rewrite ?app_assoc; rewrite <- ?Permutation_cons_append; [done|]; rewrite Permutation_app_comm; cbn;
    by rewrite Permutation_app_comm.
Qed.

#[export] Instance Mesh_port_laws : MeshPortLaws MeshInterface.
Proof.
  split; try done. cbn. intros q i m _ i' q'.
  destruct (MeshIf.pushMessage2RX m i) as [r j] eqn:E. intros [= -> <- <-]. by apply MeshIf_rx.
Qed.

#[export] Instance NoC_port_laws : MeshPortLaws NoCInterface.
Proof.
  split; [done|by intros []|done|]. cbn. intros q i m _ i' q'.
  destruct (MeshIf.pushMessage2RX m (ni_base i)) as [r j] eqn:E. intros [= -> <- <-]. by apply MeshIf_rx.
Qed.

(** ** Lists of lists *)

Lemma alter_at {A} (g : A -> A) (l : list A) j x : l !! j = Some x -> alter g j l = <[j := g x]> l.
Proof. intros H. rewrite list_insert_alter. apply list_alter_ext; [|done]. intros y Hy. congruence. Qed.

Lemma alter_missing {A} (g : A -> A) (l : list A) j : l !! j = None -> alter g j l = l.
Proof. revert j. induction l as [|x l IH]; intros [|j] H; cbn in *; [done..|]. by rewrite IH. Qed.

Section Concat.
Context {A : Type} (f : A -> list Message).

(** Replacing one element by one with a message less, or with one more. *)
Lemma concat_remove (l : list A) j i i' m : l !! j = Some i -> f i ≡ₚ m :: f i' ->
  concat (f <$> l) ≡ₚ m :: concat (f <$> <[j := i']> l).
Proof.
  revert j. induction l as [|x l IH]; intros [|j] Hj Hf; [done..| |]; cbn in *.
  - injection Hj as ->. by rewrite Hf.
  - rewrite (IH j) by done. by rewrite Permutation_middle.
Qed.

Lemma concat_add (l : list A) j i i' m : l !! j = Some i -> f i' ≡ₚ m :: f i ->
  concat (f <$> <[j := i']> l) ≡ₚ m :: concat (f <$> l).
Proof.
  intros Hj Hf. rewrite (concat_remove (<[j := i']> l) j i' i m); [|by apply list_lookup_insert_eq, lookup_lt_Some with i|done].
  by rewrite list_insert_insert_eq, list_insert_id.
Qed.

Lemma concat_same (l : list A) j i i' : l !! j = Some i -> f i' = f i -> concat (f <$> <[j := i']> l) = concat (f <$> l).
Proof. intros Hj Hf. by rewrite list_fmap_insert, Hf, list_insert_id by (by rewrite list_lookup_fmap, Hj). Qed.
End Concat.

Lemma concat_queue (qs : list (list Message)) j q k m : qs !! j = Some q -> q !! k = Some m ->
  concat qs ≡ₚ m :: concat (<[j := delete k q]> qs).
Proof.
  intros Hj Hk. rewrite <- (list_fmap_id qs) at 1. rewrite (concat_remove (fun x => x) qs j q (delete k q) m Hj).
  - by rewrite list_fmap_id.
  - by apply delete_Permutation.
Qed.

(** ** Pointers to transmit queues *)

Section Ports.
Context {I : Type} `{MeshPortLaws I}.

Lemma queues_set ty qs (i : I) : queues ty (set_queues ty qs i) = qs.
Proof. destruct ty; cbn; by rewrite mp_get_set. Qed.

Lemma set_queues_same ty (i : I) : set_queues ty (queues ty i) i = i.
Proof.
  assert (E : forall b, mi_set_tx_request (mi_tx_request b) b = b /\ mi_set_tx_data (mi_tx_data b) b = b) by by intros [].
  destruct (E (mesh_base i)) as [E1 E2]. destruct ty; cbn; rewrite ?E1, ?E2; apply mp_set_get.
Qed.

Lemma put_queue_same ty (ifs : list I) p : put_queue ty ifs (p, queue_at ty ifs p) = ifs.
Proof.
  destruct p as [j k]. unfold put_queue, queue_at. cbn. destruct (ifs !! j) as [i|] eqn:Ej; cbn.
  - rewrite (alter_at _ ifs j i Ej). destruct (queues ty i !! k) as [q|] eqn:Ek; cbn.
    + rewrite (list_insert_id _ k q Ek), set_queues_same. by apply list_insert_id.
    + rewrite (list_insert_ge _ k) by by apply lookup_ge_None. rewrite set_queues_same. by apply list_insert_id.
  - by apply alter_missing.
Qed.

Lemma queue_at_put_ne ty (ifs : list I) p q p' : p' <> p -> queue_at ty (put_queue ty ifs (p, q)) p' = queue_at ty ifs p'.
Proof.
  destruct p as [j k], p' as [j' k']. intros Hne. unfold put_queue, queue_at. cbn.
  destruct (decide (j' = j)) as [->|Hj].
  - destruct (ifs !! j) as [i|] eqn:Ej; cbn.
    + rewrite list_lookup_alter_eq, Ej. cbn. rewrite queues_set. rewrite list_lookup_insert_ne by congruence. done.
    + rewrite list_lookup_alter_eq, Ej. done.
  - rewrite list_lookup_alter_ne by done. done.
Qed.

(** Writing every pointer back changes the queue the election took from, only. *)
Lemma put_all ty (ptrs : list (nat * nat)) (ifs : list I) n k p :
  NoDup ptrs -> ptrs !! n = Some p ->
  foldl (put_queue ty) ifs (zip ptrs (erase_at n k (queue_at ty ifs <$> ptrs))) =
  put_queue ty ifs (p, delete k (queue_at ty ifs p)).
Proof.
  assert (Hid : forall ptrs ifs', NoDup ptrs -> forall bufs, bufs = queue_at ty ifs' <$> ptrs ->
    foldl (put_queue ty) ifs' (zip ptrs bufs) = ifs').
  { induction ptrs0 as [|p0 ptrs0 IH]; intros ifs' Hnd bufs ->; [done|]. cbn. rewrite put_queue_same.
    apply IH; [by eapply NoDup_cons_1_2|done]. }
  unfold erase_at. revert ifs n. induction ptrs as [|p0 ptrs IH]; intros ifs [|n] Hnd Hp; [done..| |].
  - injection Hp as ->. cbn. apply Hid; [by eapply NoDup_cons_1_2|].
    apply list_fmap_ext. intros x y Hx. symmetry. apply queue_at_put_ne.
    apply NoDup_cons in Hnd as [Hn _]. intros ->. by apply Hn, list_elem_of_lookup_2 with x.
  - cbn. rewrite put_queue_same. apply IH; [by eapply NoDup_cons_1_2|done].
Qed.
End Ports.

(** ** Conservation *)

Section Conservation.
Context {I : Type} `{MeshPortLaws I}.

(** A link holds its message up to the cycle it delivers it. *)
Definition in_flight (cycle : Z) (l : Link) : list Message :=
  if cycle <=? utilization_cycle l then [link_msg l] else [].
Definition held (ifs : list I) : list Message := concat ((fun i => mesh_messages (mesh_base i)) <$> ifs).
Definition waiting_tx (ifs : list I) : list Message := concat ((fun i => mesh_tx (mesh_base i)) <$> ifs).

(** Everything on the network, and the part of it still to be delivered. *)
Definition on_network (cycle : Z) (links : list Link) (ifs : list I) : list Message :=
  concat (in_flight cycle <$> links) ++ held ifs.
Definition to_deliver (cycle : Z) (links : list Link) (ifs : list I) : list Message :=
  concat (in_flight cycle <$> links) ++ waiting_tx ifs.

Definition single (m : Message) : Prop := exists d, msg_to m = [d].

Record link_ok (cycle : Z) (l : Link) : Prop := mk_link_ok {
  lk_latency : 2 <= link_latency l;
  lk_cycle : 0 <= cycle /\ cycle + link_latency l <= 2 ^ 64;
  lk_ptrs : NoDup (link_buffers l) }.

Lemma take_from_queue ty (ifs : list I) p k m : queue_at ty ifs p !! k = Some m ->
  let ifs' := put_queue ty ifs (p, delete k (queue_at ty ifs p)) in
  held ifs ≡ₚ m :: held ifs' /\ waiting_tx ifs ≡ₚ m :: waiting_tx ifs'.
Proof.
  destruct p as [j n]. unfold queue_at, put_queue. cbn. intros Hk.
  destruct (ifs !! j) as [i|] eqn:Ej; cbn in Hk; [|by rewrite lookup_nil in Hk].
  destruct (queues ty i !! n) as [q|] eqn:Eq; cbn in Hk; [|by rewrite lookup_nil in Hk].
  cbn. rewrite Eq. cbn. rewrite (alter_at _ ifs j i Ej).
  assert (Hp := concat_queue _ _ _ _ _ Eq Hk).
  split; apply (concat_remove _ ifs j i); try done; unfold mesh_messages, mesh_tx;
    destruct ty; cbn in *; rewrite mp_get_set; cbn; rewrite Hp; cbn; try done; by rewrite <- Permutation_middle.
Qed.

Lemma send_to_spec who m (ifs : list I) q dest ifs' q' : send_to who m (ifs, q) dest = Ok (ifs', q') ->
  held ifs' ≡ₚ m :: held ifs /\ waiting_tx ifs' = waiting_tx ifs.
Proof.
  unfold send_to. destruct (list_find _ ifs) as [[j i]|] eqn:Ef; [|done].
  apply list_find_Some in Ef as (Ej & _ & _).
  destruct (pushMessage2RX q i m (message_type m)) as [[[] i'] q1] eqn:Er; [|done].
  intros [= <- <-]. apply mp_rx in Er as [Hm Ht]. split.
  - by apply (concat_add _ ifs j i).
  - by apply (concat_same _ ifs j i).
Qed.

(** A delivery over a link: its message, once. *)
Definition delivers (send : Link -> list I * Z -> outcome (list I * Z)) : Prop :=
  forall l ifs q ifs' q', single (link_msg l) -> send l (ifs, q) = Ok (ifs', q') ->
    held ifs' ≡ₚ link_msg l :: held ifs /\ waiting_tx ifs' = waiting_tx ifs.

Lemma noc_send_delivers : delivers noc_send.
Proof. intros l ifs q ifs' q' _ Hs. by eapply send_to_spec. Qed.

Lemma mesh_send_delivers : delivers mesh_send.
Proof.
  intros l ifs q ifs' q' [d Hd]. unfold mesh_send. rewrite Hd. cbn.
  intros ([ifs1 q1] & Hs & [= <- <-])%obind_Ok. by eapply send_to_spec.
Qed.

Lemma link_step_conserves send c l (ifs : list I) q l' ifs' q' : delivers send -> link_ok c l ->
  Forall single (in_flight c l ++ waiting_tx ifs) ->
  link_step send c l (ifs, q) = Ok (l', (ifs', q')) ->
  in_flight c l ++ held ifs ≡ₚ in_flight (c + 1) l' ++ held ifs' /\
  exists gone, in_flight c l ++ waiting_tx ifs ≡ₚ gone ++ in_flight (c + 1) l' ++ waiting_tx ifs'.
Proof.
  intros Hd [Hlat Hc Hnd] Hs. unfold link_step, isReady. destruct (Z.ltb_spec (utilization_cycle l) c) as [Hu|Hu].
  - assert (Hf : in_flight c l = []) by (unfold in_flight; by rewrite (proj2 (Z.leb_gt _ _)) by lia).
    rewrite Hf. intros ([r a'] & He & Hr)%obind_Ok. destruct r as [[m bufs]|]; injection Hr as <- <- <-.
    + apply elect_elected_from in He as (n & k & b & Hb & Hk & ->).
      rewrite list_lookup_fmap in Hb. destruct (link_buffers l !! n) as [p|] eqn:Hp; [|done]. injection Hb as <-. rewrite (put_all _ _ _ n k p Hnd Hp).
      destruct (take_from_queue _ ifs p k m Hk) as [Hh Ht].
      assert (Hf' : in_flight (c + 1) (utilize c m a' l) = [m]).
      { unfold in_flight, utilize. cbn. rewrite w64_small by lia. by rewrite (proj2 (Z.leb_le _ _)) by lia. }
      rewrite Hf'. cbn. split; [done|]. by exists [].
    + assert (Hf' : in_flight (c + 1) (set_link_arbiter a' l) = [])
        by (unfold in_flight; cbn; by rewrite (proj2 (Z.leb_gt _ _)) by lia).
      rewrite Hf'. split; [done|]. by exists [].
  - assert (Hf : in_flight c l = [link_msg l]) by (unfold in_flight; by rewrite (proj2 (Z.leb_le _ _)) by lia).
    rewrite Hf in *. destruct (Z.eqb_spec (utilization_cycle l) c) as [Heq|Hne].
    + intros ([ifs1 q1] & Hsend & [= <- <- <-])%obind_Ok.
      assert (Hf' : in_flight (c + 1) l = []) by (unfold in_flight; by rewrite (proj2 (Z.leb_gt _ _)) by lia).
      rewrite Hf'. apply Hd in Hsend as [Hh Ht]; [|by apply Forall_cons in Hs as [? _]].
      split; [by rewrite Hh|]. exists [link_msg l]. by rewrite Ht.
    + intros [= <- <- <-].
      assert (Hf' : in_flight (c + 1) l = [link_msg l]) by (unfold in_flight; by rewrite (proj2 (Z.leb_le _ _)) by lia).
      rewrite Hf'. split; [done|]. by exists [].
Qed.

(** C28: the mesh neither loses nor duplicates.  When every link takes at least
    two cycles and every message still to be delivered has one destination (what
    [pushMessage] makes of it), a step of a mesh or of a network-on-chip keeps
    the messages that wait, are on a link or have arrived, and the messages
    still to be delivered go on having one destination. *)
Theorem mesh_step_conserves send c links (ifs : list I) q links' ifs' q' :
  send = mesh_send \/ send = noc_send ->
  Forall (link_ok c) links -> Forall single (to_deliver c links ifs) ->
  links_step send c links (ifs, q) = Ok (links', (ifs', q')) ->
  on_network (c + 1) links' ifs' ≡ₚ on_network c links ifs /\ Forall single (to_deliver (c + 1) links' ifs').
Proof.
  intros Hsend. assert (Hd : delivers send) by (destruct Hsend as [-> | ->]; [apply mesh_send_delivers|apply noc_send_delivers]).
  clear Hsend. unfold on_network, to_deliver. revert ifs q links' ifs' q'.
  induction links as [|l links IH]; intros ifs q links' ifs' q' Hok Hs; cbn.
  { by intros [= <- <- <-]. }
  apply Forall_cons in Hok as [Hl Hok]. cbn in Hs. rewrite <- app_assoc in Hs.
  intros ([l' [ifs1 q1]] & Hstep & ([ls [ifs2 q2]] & Hrest & [= <- <- <-])%obind_Ok)%obind_Ok.
  assert (Hs1 : Forall single (in_flight c l ++ waiting_tx ifs)).
  { rewrite !Forall_app in Hs. rewrite Forall_app. tauto. }
  destruct (link_step_conserves _ _ _ _ _ _ _ _ Hd Hl Hs1 Hstep) as [Hp [gone Hg]].
  assert (Hs2 : Forall single (gone ++ in_flight (c + 1) l' ++ waiting_tx ifs1)) by by rewrite <- Hg.
  rewrite !Forall_app in Hs, Hs2. destruct Hs as (_ & Hs & _), Hs2 as (_ & Hs2 & Hs3).
  destruct (IH ifs1 q1 ls ifs2 q2 Hok) as [Hq Hs4]; [by rewrite Forall_app|done|].
  cbn. rewrite <- !app_assoc. split.
  - rewrite Hq. rewrite !(Permutation_app_swap_app _ (concat _)). by rewrite <- Hp.
  - rewrite Forall_app. by split.
Qed.

(** ** Timing *)

(** A cycle in which a free link elects. *)
Definition elects (send : Link -> list I * Z -> outcome (list I * Z)) (c : Z) (l : Link) (s : list I * Z)
    (m : Message) (l' : Link) (s' : list I * Z) : Prop :=
  isReady c l = true /\ link_step send c l s = Ok (l', s') /\ utilization_cycle l' = w64 (c + link_latency l - 1) /\
  link_msg l' = m /\ held s.1 ≡ₚ m :: held s'.1.

(** The latency of a link is exact.  A link that elects a message in cycle
    [c] delivers it in cycle [c + latency - 1], whatever the interfaces do in
    between, touches nothing before, and is free again one cycle later.  With a
    latency of 1 it is free in the very next cycle and never delivers: the
    message has left its queue and is on no link. *)
Theorem link_latency_exact send c (l : Link) s m l' s' :
  0 <= c -> 1 <= link_latency l -> c + link_latency l < 2 ^ 64 -> elects send c l s m l' s' ->
  (forall k s1, c < k < c + link_latency l - 1 -> link_step send k l' s1 = Ok (l', s1)) /\
  (1 < link_latency l -> forall s1,
     link_step send (c + link_latency l - 1) l' s1 = let! s2 := send l' s1 in Ok (l', s2)) /\
  isReady (c + link_latency l) l' = true /\
  (link_latency l = 1 -> forall k, c < k -> in_flight k l' = [] /\ isReady k l' = true).
Proof.
  intros Hc Hlat Hmax (_ & _ & Hu & <- & _). rewrite w64_small in Hu by lia.
  unfold link_step, isReady, in_flight. rewrite Hu. split_and!.
  - intros k [ifs q] Hk. rewrite (proj2 (Z.ltb_ge _ _)), (proj2 (Z.eqb_neq _ _)) by lia. done.
  - intros Hl [ifs q]. by rewrite Z.ltb_irrefl, Z.eqb_refl.
  - apply Z.ltb_lt. lia.
  - intros Hl k Hk. rewrite (proj2 (Z.leb_gt _ _)), (proj2 (Z.ltb_lt _ _)) by lia. done.
Qed.
End Conservation.

(** ** Sending *)

(** One queue per link. *)
Definition mi_wf (i : MeshInterface) : Prop :=
  length (mi_tx_request i) = length (mi_link_ids i) /\ length (mi_tx_data i) = length (mi_link_ids i).

(** The copies [push_routed] makes: the destinations it knows a link for. *)
Definition copies (route : Z -> Z) (i : MeshInterface) (m : Message) : list Message :=
  (fun d => set_msg_to [d] m) <$>
    filter (fun d => MeshIf.link_position (mi_link_ids i) (route d) <> None) (msg_to m).

Lemma link_position_lt ids id k : MeshIf.link_position ids id = Some k -> (k < length ids)%nat.
Proof.
  unfold MeshIf.link_position. destruct (list_find _ ids) as [[j x]|] eqn:E; [|done]. intros [= <-].
  apply list_find_Some in E as (E & _). by eapply lookup_lt_Some.
Qed.

Lemma push_copies_perm route ids m l qs : length qs = length ids ->
  let step := fun qs to_id =>
    match MeshIf.link_position ids (route to_id) with
    | Some k => alter (fun q => q ++ [set_msg_to [to_id] m]) k qs
    | None => qs
    end in
  length (foldl step qs l) = length ids /\
  concat (foldl step qs l) ≡ₚ
    ((fun d => set_msg_to [d] m) <$> filter (fun d => MeshIf.link_position ids (route d) <> None) l) ++ concat qs.
Proof.
  intros Hlen step. revert qs Hlen. induction l as [|d l IH]; intros qs Hlen; [done|].
  cbn [foldl]. unfold step at 2 4. destruct (MeshIf.link_position ids (route d)) as [k|] eqn:Ek.
  - destruct (lookup_lt_is_Some_2 qs k) as [q Hq]; [rewrite Hlen; by eapply link_position_lt|].
    destruct (IH (alter (fun q => q ++ [set_msg_to [d] m]) k qs)) as [Hl Hp]; [by rewrite length_alter|].
    split; [done|]. rewrite Hp, filter_cons_True by by rewrite Ek.
    rewrite (alter_at _ qs k q Hq). cbn. rewrite Permutation_middle. f_equiv.
    rewrite <- (list_fmap_id qs) at 2. rewrite <- (list_fmap_id (<[_ := _]> qs)).
    apply (concat_add (fun x => x) qs k q); [done|]. by rewrite <- Permutation_cons_append.
  - rewrite filter_cons_False by (rewrite Ek; tauto). by apply IH.
Qed.

(** A message is sent once per destination.  Accepted by an interface of a
    mesh or of a network-on-chip, a message leaves one copy per destination the
    routing knows a link for, addressed to that destination alone; what waited
    before still waits.  A destination without a link gets nothing, and the
    sender is told the message was accepted all the same.  Only an interface
    with at least as many links as its buffer size refuses. *)
Theorem mesh_push_copies route m i r i' : mi_wf i -> MeshIf.push_routed route m i = Ok (r, i') ->
  mi_wf i' /\
  (r = true -> mesh_tx i' ≡ₚ copies route i m ++ mesh_tx i /\ Forall single (copies route i m)) /\
  (r = false -> i' = i /\ mi_buffer_max_size i <= Z.of_nat (length (mi_link_ids i))).
Proof.
  intros [Hr Hd] Hp. unfold MeshIf.push_routed in Hp. destruct (msg_to m) as [|d0 ds] eqn:Eto; [done|].
  assert (Hs : Forall single (copies route i m)).
  { apply Forall_fmap, Forall_forall. intros d _. by exists d. }
  destruct (has_data m), (Z.ltb_spec (Z.of_nat (length (mi_tx_data i))) (mi_buffer_max_size i)),
    (Z.ltb_spec (Z.of_nat (length (mi_tx_request i))) (mi_buffer_max_size i));
    injection Hp as <- <-; (split; [|split]); try done; unfold mi_wf, mesh_tx, copies, MeshIf.push_copies; cbn;
    try (intros _; split; [done|lia]);
    destruct (push_copies_perm route (mi_link_ids i) m (msg_to m) (mi_tx_data i) Hd) as [Hl1 Hp1];
    destruct (push_copies_perm route (mi_link_ids i) m (msg_to m) (mi_tx_request i) Hr) as [Hl2 Hp2];
    try done; intros _; (split; [|done]); cbn in Hp1, Hp2; rewrite ?Hp1, ?Hp2;
    rewrite ?app_assoc; try done; by rewrite (Permutation_app_comm (concat (mi_tx_request i))).
Qed.

(** ** A concrete network: three components around a switch *)

Definition demo_matrix : list (list Z) := [[0; 200]; [1; 200]; [10; 200]; [200; 0; 1; 10]].
Definition demo_noc (latency : Z) : outcome (Mesh * list NoCInterface) :=
  newNoC [0; 1; 10] [200] demo_matrix 8 "FCFSArbiter" latency 3.
Definition demo_mesh_msg : Message := set_msg_to [10] (newMessage 7 64 0 0 0).

Fixpoint noc_run (n : nat) (m : Mesh) (s : list NoCInterface * Z) : outcome (Mesh * (list NoCInterface * Z)) :=
  match n with
  | O => Ok (m, s)
  | S n' => let! (m', s') := noc_cycleProcess m s in noc_run n' m' s'
  end.

(** The network after component 0 sent the message and [n] edges passed. *)
Definition demo_noc_after (net : outcome (Mesh * list NoCInterface)) (n : nat) : outcome (Mesh * (list NoCInterface * Z)) :=
  let! (m, ifs) := net in
  match ifs !! 0%nat with
  | Some i => let! (_, i') := pushMessage i demo_mesh_msg 0 REQUEST in noc_run n m (<[0%nat := i']> ifs, 0)
  | None => Crash "no interface"
  end.

(** Two cycles per link: the message is at component 10 after the fourth cycle. *)
Example demo_noc_delivers :
  (let! (_, (ifs, _)) := demo_noc_after (demo_noc 2) 7 in Ok (mi_rx_request <$> (ni_base <$> ifs))) =
  Ok [[]; []; [demo_mesh_msg]; []].
Proof. vm_compute. reflexivity. Qed.

(** One cycle per link: it is nowhere after the first. *)
Example demo_noc_latency1_loses :
  (let! (_, (ifs, _)) := demo_noc_after (demo_noc 1) 2 in Ok (held ifs)) = Ok [].
Proof. vm_compute. reflexivity. Qed.

(** The network as component 0 has just sent, and its first step. *)
Definition demo_noc_start : Mesh * (list NoCInterface * Z) :=
  match demo_noc_after (demo_noc 2) 0 with Ok r => r | _ => (mkMesh [] 0 0 [], ([], 0)) end.
Definition demo_noc_step : outcome (list Link * (list NoCInterface * Z)) :=
  links_step noc_send 1 (mesh_links demo_noc_start.1) demo_noc_start.2.

Lemma mesh_step_conserves_witness :
  exists links' ifs' q', demo_noc_step = Ok (links', (ifs', q')) /\
    on_network 2 links' ifs' ≡ₚ on_network 1 (mesh_links demo_noc_start.1) demo_noc_start.2.1 /\
    on_network 1 (mesh_links demo_noc_start.1) demo_noc_start.2.1 = [demo_mesh_msg].
Proof.
  assert (F : is_ok demo_noc_step = true) by (vm_compute; reflexivity).
  destruct demo_noc_step as [[links' [ifs' q']]| |] eqn:E; [|discriminate F..].
  exists links', ifs', q'. split; [reflexivity|split; [|vm_compute; reflexivity]].
  refine (proj1 (mesh_step_conserves noc_send 1 (mesh_links demo_noc_start.1) demo_noc_start.2.1 0 links' ifs' q' _ _ _ _)).
  - by right.
  - apply Forall_forall. intros l Hl.
    assert (G : forallb (fun l => (2 <=? link_latency l) && (link_latency l <=? 3) && bool_decide (NoDup (link_buffers l)))
                  (mesh_links demo_noc_start.1) = true) by (vm_compute; reflexivity).
    rewrite forallb_forall in G. specialize (G l (proj1 (list_elem_of_In _ _) Hl)).
    apply andb_true_iff in G as [G G3]. apply andb_true_iff in G as [G1 G2].
    apply Z.leb_le in G1, G2. split; [lia|lia|by apply bool_decide_eq_true in G3].
  - apply Forall_forall. intros m Hm. exists 10.
    assert (G : to_deliver 1 (mesh_links demo_noc_start.1) demo_noc_start.2.1 = [demo_mesh_msg]) by (vm_compute; reflexivity).
    rewrite G in Hm. apply list_elem_of_singleton in Hm as ->. reflexivity.
  - rewrite <- E. reflexivity.
Defined.

(** The first link of that network, and its turn in the first step. *)
Definition demo_link : Link :=
  default (mkLink 0 0 RequestLink 0 0 (FCFS, newArbiter [] 1) [] demo_mesh_msg) (head (mesh_links demo_noc_start.1)).
Definition demo_link_step : outcome (Link * (list NoCInterface * Z)) := link_step noc_send 1 demo_link demo_noc_start.2.

Lemma link_latency_exact_witness :
  exists l' s', demo_link_step = Ok (l', s') /\ isReady 3 l' = true /\
    (forall s1, link_step noc_send 2 l' s1 = let! s2 := noc_send l' s1 in Ok (l', s2)).
Proof.
  assert (F : match demo_link_step with
              | Ok (l', s') => link_msg l' = demo_mesh_msg /\ utilization_cycle l' = 2 /\ held s'.1 = []
              | _ => False end) by (vm_compute; auto).
  destruct demo_link_step as [[l' s']| |] eqn:E; [|done..]. destruct F as (F1 & F2 & F3).
  exists l', s'. split; [reflexivity|].
  destruct (link_latency_exact noc_send 1 demo_link demo_noc_start.2 demo_mesh_msg l' s') as (_ & H1 & H2 & _).
  - lia.
  - vm_compute. discriminate.
  - vm_compute. reflexivity.
  - split; [vm_compute; reflexivity|]. split; [exact E|]. split; [rewrite F2; vm_compute; reflexivity|].
    split; [exact F1|]. rewrite F3. assert (G : held demo_noc_start.2.1 = [demo_mesh_msg]) by (vm_compute; reflexivity).
    rewrite G. reflexivity.
  - split; [exact H2|]. apply H1. vm_compute. reflexivity.
Defined.

(** An interface of a mesh with links to 1 and 10, sending to 10 and to 5. *)
Definition demo_mi : MeshInterface := newMeshInterface 0 8 [1; 10].
Definition demo_mi_msg : Message := set_msg_to [10; 5] demo_mesh_msg.

Lemma mesh_push_copies_witness :
  exists i', MeshIf.push_routed (fun d => d) demo_mi_msg demo_mi = Ok (true, i') /\
    mesh_tx i' ≡ₚ [set_msg_to [10] demo_mesh_msg].
Proof.
  destruct (MeshIf.push_routed (fun d => d) demo_mi_msg demo_mi) as [[[] i']| |] eqn:E; try (vm_compute in E; discriminate E).
  exists i'. split; [reflexivity|].
  destruct (mesh_push_copies (fun d => d) demo_mi_msg demo_mi true i') as (_ & H & _).
  - split; reflexivity.
  - exact E.
  - destruct H as [H _]; [reflexivity|]. rewrite H. vm_compute. reflexivity.
Defined.
