(* ===== verification/ControllerState.v ===== *)
(** * The state of a cache controller

    The fields of [BaseController], [CacheController],
    [CacheController_End2End] and [CacheControllerDirectory] ([header/CacheControllers/]) with their setters,
    for any coherence protocol [P] and any upper and lower interfaces.  The
    counters and stamps that only feed the logger are left out; the two static
    counters a controller advances are fields. *)

From S2P Require Export Protocol Arbiters.

Local Open Scope string_scope.
Open Scope Z_scope.

(** ** State *)

Inductive ControllerClass := 
| CacheController | CacheControllerExclusive | CacheController_End2End | CacheControllerDirectory.
#[export] Instance ControllerClass_eq_dec : EqDecision ControllerClass.
Proof. solve_decision. Defined.

(** What an external core model attached to an L1 is told. *)
Inductive CpuEvent := Commit (id addr : Z) | Invalidate (addr : Z).

Inductive OpKind := MESSAGE | ACTIONS.
#[export] Instance OpKind_eq_dec : EqDecision OpKind.
Proof. solve_decision. Defined.

(** [struct DataArrayOp] *)
Record DataArrayOp := mkOp {
  op_kind : OpKind;
  op_msg : Message;
  op_actions : list ControllerAction;
  op_id : Z;
  op_admitted : bool;
  op_ready_cycle : Z }.

Definition set_op_id (n : Z) (o : DataArrayOp) : DataArrayOp :=
  mkOp (op_kind o) (op_msg o) (op_actions o) n (op_admitted o) (op_ready_cycle o).
Definition admit_op (ready : Z) (o : DataArrayOp) : DataArrayOp :=
  mkOp (op_kind o) (op_msg o) (op_actions o) (op_id o) true ready.

(** What the constructors fix. *)
Record ControllerConfig := mkConfig {
  c_class : ControllerClass;
  m_id : Z;                            (* int *)
  c_shared_memory_id : Z;              (* int m_shared_memory_id *)
  m_perfect_llc : bool;
  m_num_mshr : Z;                      (* int, -1: unbounded *)
  m_line_interlock : bool;
  m_processing_queue_size : Z;         (* int *)
  m_arbiter_candidates : list Z }.

Record Controller {P IU IL : Type} := mkController {
  cfg : ControllerConfig;
  protocol : P;
  cache_cycle : Z;                                  (* uint64_t m_cache_cycle *)
  lower : IL;                                       (* m_lower_interface *)
  upper : IU;                                       (* m_upper_interface *)
  data_handler : COTS;                              (* m_data_handler *)
  queue : FRFCFS_Buffer;                            (* m_processing_queue *)
  m_pending_requests : gmap Z (list Message);       (* line -> requests, oldest first *)
  m_saved_requests_for_wb : gmap Z (list Message);
  m_modifying_data_messages : gmap Z Message;       (* message id -> store *)
  m_data_access_arbiter : option ArbiterObj;
  m_array_ops : list DataArrayOp;
  m_array_admitted_this_cycle : Z;
  m_array_op_seq : Z;
  m_pipe_firing : bool;
  m_cpu_port : option (list CpuEvent);              (* None: NULL *)
  m_data_read_failures : Z;
  m_admit_fail_cycles : Z;
  m_intake_refusals : Z;
  m_queue_peak : Z;
  m_owner_of_latest_data : Z;                       (* CacheController_End2End *)
  counters : DirCounters;                           (* CacheControllerDirectory *)
  next_req_id : Z;                                  (* IdGenerator::reqId *)
  rx_seq : Z }.                                     (* BusInterface::s_rx_delivery_seq *)
Arguments mkController {P IU IL}.

Section State.
Context {P IU IL : Type}.
Abbreviation C := (@Controller P IU IL).

Definition set_cache_cycle (v : Z) (c : C) : C :=
  mkController
    (cfg c) (protocol c) v (lower c) (upper c) (data_handler c) (queue c) (m_pending_requests c)
    (m_saved_requests_for_wb c) (m_modifying_data_messages c) (m_data_access_arbiter c) (m_array_ops c)
    (m_array_admitted_this_cycle c) (m_array_op_seq c) (m_pipe_firing c) (m_cpu_port c)
    (m_data_read_failures c) (m_admit_fail_cycles c) (m_intake_refusals c) (m_queue_peak c)
    (m_owner_of_latest_data c) (counters c) (next_req_id c) (rx_seq c).
Definition set_lower (v : IL) (c : C) : C :=
  mkController
    (cfg c) (protocol c) (cache_cycle c) v (upper c) (data_handler c) (queue c) (m_pending_requests c)
    (m_saved_requests_for_wb c) (m_modifying_data_messages c) (m_data_access_arbiter c) (m_array_ops c)
    (m_array_admitted_this_cycle c) (m_array_op_seq c) (m_pipe_firing c) (m_cpu_port c)
    (m_data_read_failures c) (m_admit_fail_cycles c) (m_intake_refusals c) (m_queue_peak c)
    (m_owner_of_latest_data c) (counters c) (next_req_id c) (rx_seq c).
Definition set_upper (v : IU) (c : C) : C :=
  mkController
    (cfg c) (protocol c) (cache_cycle c) (lower c) v (data_handler c) (queue c) (m_pending_requests c)
    (m_saved_requests_for_wb c) (m_modifying_data_messages c) (m_data_access_arbiter c) (m_array_ops c)
    (m_array_admitted_this_cycle c) (m_array_op_seq c) (m_pipe_firing c) (m_cpu_port c)
    (m_data_read_failures c) (m_admit_fail_cycles c) (m_intake_refusals c) (m_queue_peak c)
    (m_owner_of_latest_data c) (counters c) (next_req_id c) (rx_seq c).
Definition set_data_handler (v : COTS) (c : C) : C :=
  mkController
    (cfg c) (protocol c) (cache_cycle c) (lower c) (upper c) v (queue c) (m_pending_requests c)
    (m_saved_requests_for_wb c) (m_modifying_data_messages c) (m_data_access_arbiter c) (m_array_ops c)
    (m_array_admitted_this_cycle c) (m_array_op_seq c) (m_pipe_firing c) (m_cpu_port c)
    (m_data_read_failures c) (m_admit_fail_cycles c) (m_intake_refusals c) (m_queue_peak c)
    (m_owner_of_latest_data c) (counters c) (next_req_id c) (rx_seq c).
Definition set_queue (v : FRFCFS_Buffer) (c : C) : C :=
  mkController
    (cfg c) (protocol c) (cache_cycle c) (lower c) (upper c) (data_handler c) v (m_pending_requests c)
    (m_saved_requests_for_wb c) (m_modifying_data_messages c) (m_data_access_arbiter c) (m_array_ops c)
    (m_array_admitted_this_cycle c) (m_array_op_seq c) (m_pipe_firing c) (m_cpu_port c)
    (m_data_read_failures c) (m_admit_fail_cycles c) (m_intake_refusals c) (m_queue_peak c)
    (m_owner_of_latest_data c) (counters c) (next_req_id c) (rx_seq c).
Definition set_pending_requests (v : gmap Z (list Message)) (c : C) : C :=
  mkController
    (cfg c) (protocol c) (cache_cycle c) (lower c) (upper c) (data_handler c) (queue c) v
    (m_saved_requests_for_wb c) (m_modifying_data_messages c) (m_data_access_arbiter c) (m_array_ops c)
    (m_array_admitted_this_cycle c) (m_array_op_seq c) (m_pipe_firing c) (m_cpu_port c)
    (m_data_read_failures c) (m_admit_fail_cycles c) (m_intake_refusals c) (m_queue_peak c)
    (m_owner_of_latest_data c) (counters c) (next_req_id c) (rx_seq c).
Definition set_saved_requests_for_wb (v : gmap Z (list Message)) (c : C) : C :=
  mkController
    (cfg c) (protocol c) (cache_cycle c) (lower c) (upper c) (data_handler c) (queue c)
    (m_pending_requests c) v (m_modifying_data_messages c) (m_data_access_arbiter c) (m_array_ops c)
    (m_array_admitted_this_cycle c) (m_array_op_seq c) (m_pipe_firing c) (m_cpu_port c)
    (m_data_read_failures c) (m_admit_fail_cycles c) (m_intake_refusals c) (m_queue_peak c)
    (m_owner_of_latest_data c) (counters c) (next_req_id c) (rx_seq c).
Definition set_modifying_data_messages (v : gmap Z Message) (c : C) : C :=
  mkController
    (cfg c) (protocol c) (cache_cycle c) (lower c) (upper c) (data_handler c) (queue c)
    (m_pending_requests c) (m_saved_requests_for_wb c) v (m_data_access_arbiter c) (m_array_ops c)
    (m_array_admitted_this_cycle c) (m_array_op_seq c) (m_pipe_firing c) (m_cpu_port c)
    (m_data_read_failures c) (m_admit_fail_cycles c) (m_intake_refusals c) (m_queue_peak c)
    (m_owner_of_latest_data c) (counters c) (next_req_id c) (rx_seq c).
Definition set_data_access_arbiter (v : option ArbiterObj) (c : C) : C :=
  mkController
    (cfg c) (protocol c) (cache_cycle c) (lower c) (upper c) (data_handler c) (queue c)
    (m_pending_requests c) (m_saved_requests_for_wb c) (m_modifying_data_messages c) v (m_array_ops c)
    (m_array_admitted_this_cycle c) (m_array_op_seq c) (m_pipe_firing c) (m_cpu_port c)
    (m_data_read_failures c) (m_admit_fail_cycles c) (m_intake_refusals c) (m_queue_peak c)
    (m_owner_of_latest_data c) (counters c) (next_req_id c) (rx_seq c).
Definition set_array_ops (v : list DataArrayOp) (c : C) : C :=
  mkController
    (cfg c) (protocol c) (cache_cycle c) (lower c) (upper c) (data_handler c) (queue c)
    (m_pending_requests c) (m_saved_requests_for_wb c) (m_modifying_data_messages c)
    (m_data_access_arbiter c) v (m_array_admitted_this_cycle c) (m_array_op_seq c) (m_pipe_firing c)
    (m_cpu_port c) (m_data_read_failures c) (m_admit_fail_cycles c) (m_intake_refusals c) (m_queue_peak c)
    (m_owner_of_latest_data c) (counters c) (next_req_id c) (rx_seq c).
Definition set_array_admitted_this_cycle (v : Z) (c : C) : C :=
  mkController
    (cfg c) (protocol c) (cache_cycle c) (lower c) (upper c) (data_handler c) (queue c)
    (m_pending_requests c) (m_saved_requests_for_wb c) (m_modifying_data_messages c)
    (m_data_access_arbiter c) (m_array_ops c) v (m_array_op_seq c) (m_pipe_firing c) (m_cpu_port c)
    (m_data_read_failures c) (m_admit_fail_cycles c) (m_intake_refusals c) (m_queue_peak c)
    (m_owner_of_latest_data c) (counters c) (next_req_id c) (rx_seq c).
Definition set_array_op_seq (v : Z) (c : C) : C :=
  mkController
    (cfg c) (protocol c) (cache_cycle c) (lower c) (upper c) (data_handler c) (queue c)
    (m_pending_requests c) (m_saved_requests_for_wb c) (m_modifying_data_messages c)
    (m_data_access_arbiter c) (m_array_ops c) (m_array_admitted_this_cycle c) v (m_pipe_firing c)
    (m_cpu_port c) (m_data_read_failures c) (m_admit_fail_cycles c) (m_intake_refusals c) (m_queue_peak c)
    (m_owner_of_latest_data c) (counters c) (next_req_id c) (rx_seq c).
Definition set_pipe_firing (v : bool) (c : C) : C :=
  mkController
    (cfg c) (protocol c) (cache_cycle c) (lower c) (upper c) (data_handler c) (queue c)
    (m_pending_requests c) (m_saved_requests_for_wb c) (m_modifying_data_messages c)
    (m_data_access_arbiter c) (m_array_ops c) (m_array_admitted_this_cycle c) (m_array_op_seq c) v
    (m_cpu_port c) (m_data_read_failures c) (m_admit_fail_cycles c) (m_intake_refusals c) (m_queue_peak c)
    (m_owner_of_latest_data c) (counters c) (next_req_id c) (rx_seq c).
Definition set_cpu_port (v : option (list CpuEvent)) (c : C) : C :=
  mkController
    (cfg c) (protocol c) (cache_cycle c) (lower c) (upper c) (data_handler c) (queue c)
    (m_pending_requests c) (m_saved_requests_for_wb c) (m_modifying_data_messages c)
    (m_data_access_arbiter c) (m_array_ops c) (m_array_admitted_this_cycle c) (m_array_op_seq c)
    (m_pipe_firing c) v (m_data_read_failures c) (m_admit_fail_cycles c) (m_intake_refusals c)
    (m_queue_peak c) (m_owner_of_latest_data c) (counters c) (next_req_id c) (rx_seq c).
Definition set_data_read_failures (v : Z) (c : C) : C :=
  mkController
    (cfg c) (protocol c) (cache_cycle c) (lower c) (upper c) (data_handler c) (queue c)
    (m_pending_requests c) (m_saved_requests_for_wb c) (m_modifying_data_messages c)
    (m_data_access_arbiter c) (m_array_ops c) (m_array_admitted_this_cycle c) (m_array_op_seq c)
    (m_pipe_firing c) (m_cpu_port c) v (m_admit_fail_cycles c) (m_intake_refusals c) (m_queue_peak c)
    (m_owner_of_latest_data c) (counters c) (next_req_id c) (rx_seq c).
Definition set_admit_fail_cycles (v : Z) (c : C) : C :=
  mkController
    (cfg c) (protocol c) (cache_cycle c) (lower c) (upper c) (data_handler c) (queue c)
    (m_pending_requests c) (m_saved_requests_for_wb c) (m_modifying_data_messages c)
    (m_data_access_arbiter c) (m_array_ops c) (m_array_admitted_this_cycle c) (m_array_op_seq c)
    (m_pipe_firing c) (m_cpu_port c) (m_data_read_failures c) v (m_intake_refusals c) (m_queue_peak c)
    (m_owner_of_latest_data c) (counters c) (next_req_id c) (rx_seq c).
Definition set_intake_refusals (v : Z) (c : C) : C :=
  mkController
    (cfg c) (protocol c) (cache_cycle c) (lower c) (upper c) (data_handler c) (queue c)
    (m_pending_requests c) (m_saved_requests_for_wb c) (m_modifying_data_messages c)
    (m_data_access_arbiter c) (m_array_ops c) (m_array_admitted_this_cycle c) (m_array_op_seq c)
    (m_pipe_firing c) (m_cpu_port c) (m_data_read_failures c) (m_admit_fail_cycles c) v (m_queue_peak c)
    (m_owner_of_latest_data c) (counters c) (next_req_id c) (rx_seq c).
Definition set_queue_peak (v : Z) (c : C) : C :=
  mkController
    (cfg c) (protocol c) (cache_cycle c) (lower c) (upper c) (data_handler c) (queue c)
    (m_pending_requests c) (m_saved_requests_for_wb c) (m_modifying_data_messages c)
    (m_data_access_arbiter c) (m_array_ops c) (m_array_admitted_this_cycle c) (m_array_op_seq c)
    (m_pipe_firing c) (m_cpu_port c) (m_data_read_failures c) (m_admit_fail_cycles c) (m_intake_refusals c) v
    (m_owner_of_latest_data c) (counters c) (next_req_id c) (rx_seq c).
Definition set_owner_of_latest_data (v : Z) (c : C) : C :=
  mkController
    (cfg c) (protocol c) (cache_cycle c) (lower c) (upper c) (data_handler c) (queue c)
    (m_pending_requests c) (m_saved_requests_for_wb c) (m_modifying_data_messages c)
    (m_data_access_arbiter c) (m_array_ops c) (m_array_admitted_this_cycle c) (m_array_op_seq c)
    (m_pipe_firing c) (m_cpu_port c) (m_data_read_failures c) (m_admit_fail_cycles c) (m_intake_refusals c)
    (m_queue_peak c) v (counters c) (next_req_id c) (rx_seq c).
Definition set_counters (v : DirCounters) (c : C) : C :=
  mkController
    (cfg c) (protocol c) (cache_cycle c) (lower c) (upper c) (data_handler c) (queue c)
    (m_pending_requests c) (m_saved_requests_for_wb c) (m_modifying_data_messages c)
    (m_data_access_arbiter c) (m_array_ops c) (m_array_admitted_this_cycle c) (m_array_op_seq c)
    (m_pipe_firing c) (m_cpu_port c) (m_data_read_failures c) (m_admit_fail_cycles c) (m_intake_refusals c)
    (m_queue_peak c) (m_owner_of_latest_data c) v (next_req_id c) (rx_seq c).
Definition set_next_req_id (v : Z) (c : C) : C :=
  mkController
    (cfg c) (protocol c) (cache_cycle c) (lower c) (upper c) (data_handler c) (queue c)
    (m_pending_requests c) (m_saved_requests_for_wb c) (m_modifying_data_messages c)
    (m_data_access_arbiter c) (m_array_ops c) (m_array_admitted_this_cycle c) (m_array_op_seq c)
    (m_pipe_firing c) (m_cpu_port c) (m_data_read_failures c) (m_admit_fail_cycles c) (m_intake_refusals c)
    (m_queue_peak c) (m_owner_of_latest_data c) (counters c) v (rx_seq c).
Definition set_rx_seq (v : Z) (c : C) : C :=
  mkController
    (cfg c) (protocol c) (cache_cycle c) (lower c) (upper c) (data_handler c) (queue c)
    (m_pending_requests c) (m_saved_requests_for_wb c) (m_modifying_data_messages c)
    (m_data_access_arbiter c) (m_array_ops c) (m_array_admitted_this_cycle c) (m_array_op_seq c)
    (m_pipe_firing c) (m_cpu_port c) (m_data_read_failures c) (m_admit_fail_cycles c) (m_intake_refusals c)
    (m_queue_peak c) (m_owner_of_latest_data c) (counters c) (next_req_id c) v.
End State.
