(* ===== verification/CacheController.v ===== *)
(** * Cache controllers

    The operations of [BaseController], [CacheController],
    [CacheControllerExclusive], [CacheController_End2End] and
    [CacheControllerDirectory] ([src/CacheControllers/]), over any coherence protocol and any pair of
    interfaces.  An operation takes the controller and returns it, or ends the
    simulator.  A parked action holds the action's message as it was when it
    parked, because the source parks the pointer.  The loops of the source that
    nothing bounds take a [fuel]; [out_of_fuel] is their failure. *)

From S2P Require Export ControllerState.

Local Open Scope string_scope.
Local Open Scope list_scope.
Open Scope Z_scope.

Definition out_of_fuel {A} : outcome A := Crash "loop bound".

Section Controller.
Context {P IU IL : Type} `{!CoherenceProtocol P, !CommInterface IU, !CommInterface IL}.
Abbreviation C := (@Controller P IU IL).

Definition getAddressKey (c : C) (addr : Z) : Z :=
  Z.land addr (Z.lxor (w32 (m_block_size (base (data_handler c)) - 1)) UINT64_MAX).

Definition list_at (m : gmap Z (list Message)) (key : Z) : list Message := default [] (m !! key).

(** ** The data array *)

Definition pipelinedArray (c : C) : bool :=
  let h := base (data_handler c) in m_data_array_pipelined h && (0 <? m_data_access_latency h).

Definition arbitrated (c : C) (owner : Z) : bool := existsb (Z.eqb owner) (m_arbiter_candidates (cfg c)).

Definition lineHasDeferredOp (c : C) (address : Z) : bool :=
  existsb (fun o => getAddressKey c (msg_addr (op_msg o)) =? getAddressKey c address) (m_array_ops c).

(** The index of the first operation that passes a test. *)
Definition find_op (f : DataArrayOp -> bool) (c : C) : option nat :=
  fst <$> list_find (fun o => f o = true) (m_array_ops c).

(** What the arbiter is handed: the waiting accesses' messages, the operation's
    number in place of the message's. *)
Definition array_candidates (c : C) : list Message :=
  (fun o => set_msg_id (op_id o) (op_msg o)) <$>
  filter (fun o => negb (op_admitted o) && arbitrated c (msg_owner (op_msg o)) = true) (m_array_ops c).

Definition arrayElect (c : C) : outcome (option nat * C) :=
  match m_data_access_arbiter c with
  | None => Ok (find_op (fun o => negb (op_admitted o)) c, c)
  | Some a =>
      let unarbitrated (c : C) := find_op (fun o => negb (op_admitted o) && negb (arbitrated c (msg_owner (op_msg o)))) c in
      match array_candidates c with
      | [] => Ok (unarbitrated c, c)
      | candidates =>
          let! (r, a') := elect a (cache_cycle c) [candidates] in
          let c' := set_data_access_arbiter (Some a') c in
          match r with
          | None => Ok (unarbitrated c', c')
          | Some (elected, _) =>
              match find_op (fun o => negb (op_admitted o) && (op_id o =? msg_id elected)) c' with
              | Some i => Ok (Some i, c')
              | None => Ok (unarbitrated c', c')
              end
          end
      end
  end.

(** The loop of [arrayAdmit]: [n] ports are left. *)
Fixpoint admit_loop (n : nat) (c : C) : outcome C :=
  match n with
  | O => Ok c
  | S n' =>
      let! (r, c1) := arrayElect c in
      match r with
      | None => Ok c1
      | Some i =>
          let ready := w64 (cache_cycle c1 + m_data_access_latency (base (data_handler c1))) in
          admit_loop n' (set_array_admitted_this_cycle (w32 (m_array_admitted_this_cycle c1 + 1))
                          (set_array_ops (alter (admit_op ready) i (m_array_ops c1)) c1))
      end
  end.

Definition arrayAdmit (c : C) : outcome C :=
  admit_loop (Z.to_nat (m_data_array_ports (base (data_handler c)) - m_array_admitted_this_cycle c)) c.

Definition arrayEnqueue (o : DataArrayOp) (c : C) : outcome C :=
  let n := w64 (m_array_op_seq c + 1) in
  let c1 := set_array_ops (m_array_ops c ++ [set_op_id n o]) (set_array_op_seq n c) in
  if pipelinedArray c1 then arrayAdmit c1 else Ok c1.

(** Whether the action may use the array now; otherwise it is parked. *)
Definition checkReadinessOfCache (a : ControllerAction) (msg : Message) (c : C) : outcome (bool * C) :=
  let ready :=
    if pipelinedArray c
    then m_pipe_firing c ||
         bool_decide (lineLocation (data_handler c) (msg_addr msg) = MSHR) ||
         bool_decide (lineLocation (data_handler c) (msg_addr msg) = PWB)
    else isReady_cots (data_handler c) (msg_addr msg) in
  if ready then Ok (true, c)
  else let! c' := arrayEnqueue (mkOp ACTIONS msg [a] 0 false 0) c in Ok (false, c').

(** ** Actions *)

(** A response without the line's bytes: tolerated without an external core. *)
Definition dataArrayReadFailed (c : C) : outcome C :=
  match m_cpu_port c with
  | None => Ok (set_data_read_failures (w64 (m_data_read_failures c + 1)) c)
  | Some _ => Exit "CacheController: needs the data of a line but the array has no readable copy"
  end.

Definition tell_cpu (e : CpuEvent) (c : C) : C :=
  match m_cpu_port c with Some l => set_cpu_port (Some (l ++ [e])) c | None => c end.

(** [if (msg->data == NULL) ...]: the line's bytes go into the message. *)
Definition fill_data (msg : Message) (c : C) : outcome (Message * C) :=
  if has_data msg then Ok (msg, c)
  else
    let! (ok, line, s) := readCacheLine (msg_addr msg) (Some newLine) false (data_handler c) in
    let c1 := set_data_handler s c in
    match ok, line ≫= line_data with
    | true, Some d => Ok (copy_bytes d 64 msg, c1)
    | _, _ => let! c2 := dataArrayReadFailed c1 in Ok (msg, c2)
    end.

Definition push_lower (msg : Message) (t : MessageType) (site : string) (c : C) : outcome C :=
  let! (ok, i) := pushMessage (lower c) msg (cache_cycle c) t in
  if ok : bool then Ok (set_lower i c) else Exit site.

Definition push_upper (msg : Message) (t : MessageType) (site : string) (c : C) : outcome C :=
  let! (ok, i) := pushMessage (upper c) msg (cache_cycle c) t in
  if ok : bool then Ok (set_upper i c) else Exit site.

Definition base_addtoPendingRequests (msg : Message) (c : C) : C :=
  let key := getAddressKey c (msg_addr msg) in
  set_pending_requests (<[key := list_at (m_pending_requests c) key ++ [msg]]> (m_pending_requests c)) c.

Definition addtoPendingRequests (msg : Message) (c : C) : C :=
  let c1 := match msg_data msg with
            | Some _ => set_modifying_data_messages (<[msg_id msg := msg]> (m_modifying_data_messages c)) c
            | None => c
            end in
  base_addtoPendingRequests msg c1.

(** A parked request as it is answered. *)
Definition pending_response (msg : Message) (d : bytes) (p : Message) : Message :=
  set_msg_kind K_RESP (copy_bytes d 64 (set_msg_to (msg_to msg) (set_msg_cv (complementary_value msg) p))).

Definition respond_pending (msg : Message) (c : C) (p : Message) : outcome C :=
  match msg_data msg with
  | None => Exit "CacheController: Remove from pending without data"
  | Some d =>
      let p' := pending_response msg d p in
      push_lower p' DATA_RESPONSE "CacheController: Cannot insert the Msg into lower interface."
        (tell_cpu (Commit (msg_id p') (msg_addr p')) c)
  end.

Definition base_removePendingAndRespond (msg : Message) (c : C) : outcome C :=
  let! (msg, c1) := fill_data msg c in
  let key := getAddressKey c1 (msg_addr msg) in
  match m_pending_requests c1 !! key with
  | None => Exit "CacheController: Request is not found in the pending buffer."
  | Some pending =>
      let! c2 := ofold (respond_pending msg) pending c1 in
      Ok (set_pending_requests (delete key (m_pending_requests c2)) c2)
  end.

Definition removePendingAndRespond (a : ControllerAction) (msg : Message) (c : C) : outcome C :=
  if has_data msg then base_removePendingAndRespond msg c
  else
    let! (ready, c1) := checkReadinessOfCache a msg c in
    if ready : bool then base_removePendingAndRespond msg c1 else Ok c1.

Definition base_hitAction (msg : Message) (c : C) : outcome C :=
  let! (msg, c1) := fill_data msg c in
  let msg := set_msg_kind K_RESP msg in
  push_lower msg DATA_RESPONSE "CacheController: Cannot insert the Msg into lower interface."
    (tell_cpu (Commit (msg_id msg) (msg_addr msg)) c1).

Definition hitAction (a : ControllerAction) (msg : Message) (c : C) : outcome C :=
  if has_data msg then base_hitAction msg c
  else
    let! (ready, c1) := checkReadinessOfCache a msg c in
    if ready : bool then base_hitAction msg c1 else Ok c1.

(** The fill a perfect LLC makes up. *)
Definition perfect_fill (c : C) (msg : Message) : Message :=
  copy_bytes (replicate 64 0) 64
    (set_msg_kind K_FILL (push_to (m_id (cfg c)) (newMessage (msg_id msg) (msg_addr msg) (cache_cycle c) 0 (msg_owner msg)))).

Definition base_sendBusRequest (msg : Message) (c : C) : outcome C :=
  let msg := set_msg_cycle (cache_cycle c) msg in
  if m_perfect_llc (cfg c) && bool_decide (head (msg_to msg) = Some (w16 (c_shared_memory_id (cfg c)))) then
    let '(_, i, q) := pushMessage2RX (rx_seq c) (upper c) (perfect_fill c msg) DATA_RESPONSE in
    Ok (set_rx_seq q (set_upper i c))
  else push_upper msg REQUEST "CacheController: Cannot insert the Msg into the upper interface FIFO, FIFO is Full" c.

(** [CacheController_End2End]: take the line back from the transmit queue. *)
Definition sendBusRequest (msg : Message) (c : C) : outcome C :=
  if decide (c_class (cfg c) = CacheController_End2End) then
    let '(r, i) := rollback (upper c) (msg_addr msg) (m_block_size (base (data_handler c))) in
    let c1 := set_upper i c in
    match r with
    | Some returned_msg =>
        match msg_data returned_msg with
        | Some d =>
            let msg := set_msg_kind K_FILL_ROLLBACK (copy_bytes d 64 msg) in
            let '(_, i', q) := pushMessage2RX (rx_seq c1) (upper c1) msg DATA_RESPONSE in
            Ok (set_rx_seq q (set_upper i' c1))
        | None => Exit "CacheController_End2End: Wrong message returned from the rollback"
        end
    | None => base_sendBusRequest msg c1
    end
  else base_sendBusRequest msg c.

Definition base_performWriteBack (msg : Message) (c : C) : outcome C :=
  let! (msg, c1) := fill_data msg c in
  let send (msg : Message) :=
    push_upper msg DATA_RESPONSE "CacheController: Cannot insert the Msg into BusTxResp FIFO, FIFO is Full" c1 in
  if msg_owner msg =? m_id (cfg c1)
  then if m_perfect_llc (cfg c1) then Ok c1 else send (push_to (c_shared_memory_id (cfg c1)) msg)
  else send (push_to (msg_owner msg) msg).

(** The directory controller overrides the rule. *)
Definition deferredSupplyCopiesToLLC (c : C) : bool := negb (bool_decide (c_class (cfg c) = CacheControllerDirectory)).

(** The requests parked on the line become destinations of the supply. *)
Definition deferred_supply (c : C) (msg : Message) (first : Message) (others : list Message) : Message :=
  let msg := set_msg_id (msg_id first) (set_msg_owner (msg_owner first) msg) in
  let llc := w16 (c_shared_memory_id (cfg c)) in
  let has_llc := existsb (Z.eqb llc) (msg_to msg) in
  let msg := if deferredSupplyCopiesToLLC c && (complementary_value first =? 0) && negb has_llc
             then push_to llc msg else msg in
  foldl (fun msg saved => push_to (msg_owner saved) msg) msg others.

Definition writeBack_destinations (msg : Message) (c : C) : Message * C :=
  let key := getAddressKey c (msg_addr msg) in
  match m_saved_requests_for_wb c !! key with
  | Some (first :: others) =>
      (deferred_supply c msg first others,
       set_saved_requests_for_wb (delete key (m_saved_requests_for_wb c)) c)
  | _ => (if decide (msg_kind msg = K_SUPPLY_DEFERRED) then set_msg_kind K_WB_INV msg else msg, c)
  end.

(** [CacheController_End2End] writes back to the memory whatever the owner. *)
Definition end2end_performWriteBack (a : ControllerAction) (msg : Message) (c : C) : outcome C :=
  if m_perfect_llc (cfg c) then Ok c else
  let! (ready, c1) := (if has_data msg then Ok (true, c) else checkReadinessOfCache a msg c) in
  if ready : bool then
    let! (msg, c2) := fill_data msg c1 in
    let owner := if -1 <? m_owner_of_latest_data c2 then m_owner_of_latest_data c2 else m_id (cfg c2) in
    push_upper (push_to (c_shared_memory_id (cfg c2)) (set_msg_owner owner msg)) DATA_RESPONSE
      "CacheController: Cannot insert the Msg into BusTxResp FIFO, FIFO is Full" c2
  else Ok c1.

Definition performWriteBack (msg : Message) (c : C) : outcome C :=
  if decide (c_class (cfg c) = CacheController_End2End)
  then end2end_performWriteBack (act WRITE_BACK msg) msg c
  else
    let '(msg, c1) := writeBack_destinations msg c in
    let! (ready, c2) := (if has_data msg then Ok (true, c1)
                         else checkReadinessOfCache (act WRITE_BACK msg) msg c1) in
    if ready : bool then base_performWriteBack msg c2 else Ok c2.

(** The fill: installed in, and evicting from, the requester's ways. *)
Definition writeCacheLineData (msg : Message) (line : GenericCacheLine) (c : C) : outcome C :=
  let! (ready, c1) := checkReadinessOfCache (act_line WRITE_CACHE_LINE_DATA msg line) msg c in
  if ready : bool then
    match msg_data msg with
    | None => Crash "null data"
    | Some d =>
        let s := data_handler c1 in
        let! (ok, s') := updateLineData (msg_addr msg) d (set_base (setRequester (msg_owner msg) (base s)) s) in
        if ok : bool then Ok (set_data_handler (set_base (setRequester (-1) (base s')) s') c1)
        else Exit "CacheController: update data of an unfound line"
    end
  else Ok c1.

(** The external core loses its readable copy. *)
Definition report_lost_copy (msg : Message) (line : GenericCacheLine) (c : C) : outcome C :=
  match m_cpu_port c with
  | None => Ok c
  | Some _ =>
      let '(found, old_line) := readLineBits (msg_addr msg) newLine (data_handler c) in
      if found : bool then
        let! old_readable := isReadableState (protocol c) (state old_line) in
        if old_readable : bool then
          let! readable := isReadableState (protocol c) (state line) in
          Ok (if readable : bool then c else tell_cpu (Invalidate (msg_addr msg)) c)
        else Ok c
      else Ok c
  end.

Definition updateCacheLine (msg : Message) (line : GenericCacheLine) (c : C) : outcome C :=
  let! c1 := report_lost_copy msg line c in
  let! (found, s) := updateLineBits (msg_addr msg) line (data_handler c1) in
  if negb (has_data msg) || negb (valid line) ||
     (msg_data_size msg <? m_block_size (base (data_handler c1)))
  then Ok (set_data_handler (if found : bool then s else writeLine2MSHR (msg_addr msg) line s) c1)
  else writeCacheLineData msg line (set_data_handler s c1).

Definition modifyData (msg : Message) (c : C) : outcome C :=
  let write (data_msg : Message) :=
    match msg_data data_msg with
    | None => Crash "null data"
    | Some d =>
        let! (_, s) := modifyLineData (msg_addr data_msg) d (msg_data_size data_msg) false (data_handler c) in
        Ok (set_modifying_data_messages (delete (msg_id msg) (m_modifying_data_messages c)) (set_data_handler s c))
    end in
  match m_modifying_data_messages c !! msg_id msg with
  | Some data_msg => write data_msg
  | None =>
      if bool_decide (msg_source msg = LOWER_INTERCONNECT) && has_data msg then write msg else Ok c
  end.

Definition saveReqForWriteBack (msg : Message) (c : C) : C :=
  let key := getAddressKey c (msg_addr msg) in
  set_saved_requests_for_wb
    (<[key := list_at (m_saved_requests_for_wb c) key ++ [msg]]> (m_saved_requests_for_wb c)) c.

(** [CacheControllerExclusive] *)
Definition removedSaveRequest (msg : Message) (c : C) : C :=
  set_saved_requests_for_wb (delete (getAddressKey c (msg_addr msg)) (m_saved_requests_for_wb c)) c.

Definition stall (msg : Message) (c : C) : outcome C :=
  let '(ok, b) := pushBack msg NonReady false (queue c) in
  if ok then Ok (set_queue b c)
  else Exit "CacheController: error there is no free space to push request to processing queue".

Definition sendInvalidationMessage (msg : Message) (c : C) : outcome C :=
  push_lower (set_msg_cycle (cache_cycle c) msg) SERVICE_REQUEST
    "CacheController: Cannot insert INV into lower interface FIFO" c.

(** *** [CacheControllerDirectory] *)

(** The line is read into the message; no protocol emits this action. *)
Definition addData2Message (msg : Message) (c : C) : outcome C :=
  let! (_, line, s) := readCacheLine (msg_addr msg) (Some newLine) false (data_handler c) in
  match line ≫= line_data with
  | Some _ => Ok (set_data_handler s c)
  | None => Crash "null data"
  end.

(** A counter that reaches 0 is dropped. *)
Definition bump_ack (key n : Z) (ct : DirCounters) : DirCounters :=
  let v := i64 (default 0 (m_ack_counters ct !! key) + n) in
  mkCounters (m_sharers ct) (if v =? 0 then delete key (m_ack_counters ct) else <[key := v]> (m_ack_counters ct)).

Definition setACKNumber (msg : Message) (c : C) : C :=
  set_counters (bump_ack (getAddressKey c (msg_addr msg)) (complementary_value msg) (counters c)) c.
Definition decrementACK (msg : Message) (c : C) : C :=
  set_counters (bump_ack (getAddressKey c (msg_addr msg)) (-1) (counters c)) c.

Definition sharers_of (ct : DirCounters) (key : Z) : list Z := default [] (m_sharers ct !! key).
Definition put_sharers (f : gmap Z (list Z) -> gmap Z (list Z)) (ct : DirCounters) : DirCounters :=
  mkCounters (f (m_sharers ct)) (m_ack_counters ct).

(** [list::erase] of the first [id]; an emptied list is dropped, the empty one
    that [operator[]] makes for a missing key is not. *)
Definition erase_sharer (key id : Z) (ct : DirCounters) : DirCounters :=
  match list_find (fun i => i = id) (sharers_of ct key) with
  | None => put_sharers <[key := sharers_of ct key]> ct
  | Some (k, _) =>
      match delete k (sharers_of ct key) with
      | [] => put_sharers (delete key) ct
      | l => put_sharers <[key := l]> ct
      end
  end.

Definition incrementSharers (msg : Message) (c : C) : C :=
  let key := getAddressKey c (msg_addr msg) in
  set_counters (put_sharers <[key := sharers_of (counters c) key ++ [msg_owner msg]]> (counters c)) c.
Definition decrementSharers (msg : Message) (c : C) : C :=
  set_counters (erase_sharer (getAddressKey c (msg_addr msg)) (msg_owner msg) (counters c)) c.
Definition setSharers (msg : Message) (c : C) : C :=
  set_counters (put_sharers <[getAddressKey c (msg_addr msg) := [msg_owner msg]]> (counters c)) c.
Definition clearSharers (msg : Message) (c : C) : C :=
  set_counters (put_sharers (delete (getAddressKey c (msg_addr msg))) (counters c)) c.

Definition sendForwardMessage (msg : Message) (c : C) : outcome C :=
  match msg_to msg with
  | [] => Ok c
  | _ :: _ => push_lower (set_msg_cycle (cache_cycle c) msg) SERVICE_REQUEST
      "CacheController: Cannot insert the Msg into the lower interface FIFO, FIFO is Full" c
  end.

Definition removePendingNoResponse (msg : Message) (c : C) : outcome C :=
  let key := getAddressKey c (msg_addr msg) in
  match m_pending_requests c !! key with
  | Some _ => Ok (set_pending_requests (delete key (m_pending_requests c)) c)
  | None => Exit "CacheControllerDirectory: Request is not found in the pending buffer."
  end.

(** The entries the directory controller adds to [action_functions]. *)
Definition directory_action (t : ActionType) (msg : Message) (c : C) : outcome C :=
  match t with
  | ADD_DATA2MSG => addData2Message msg c
  | SET_ACK_NUMBER => Ok (setACKNumber msg c)
  | DECREMENT_ACK => Ok (decrementACK msg c)
  | INCREMENT_SHARERS => Ok (incrementSharers msg c)
  | DECREMENT_SHARERS => Ok (decrementSharers msg c)
  | SET_SHARERS => Ok (setSharers msg c)
  | CLEAR_SHARERS => Ok (clearSharers msg c)
  | SEND_FWD_MESSAGE => sendForwardMessage msg c
  | REMOVE_PENDING_NORESPONSE => removePendingNoResponse msg c
  | _ => Crash "bad_function_call"
  end.

(** [action_functions[action.type](action.data)]: an action without an entry is
    an empty [std::function]. *)
Definition do_action (c : C) (a : ControllerAction) : outcome C :=
  match ca_type a with
  | NO_ACTION => Ok c
  | t =>
      match ca_msg a with
      | None => Crash "null action data"
      | Some msg =>
          match t with
          | REMOVE_PENDING => removePendingAndRespond a msg c
          | HIT_Action => hitAction a msg c
          | ADD_PENDING => Ok (addtoPendingRequests msg c)
          | SEND_BUS_MSG => sendBusRequest msg c
          | WRITE_BACK => performWriteBack msg c
          | UPDATE_CACHE_LINE =>
              match ca_line a with Some l => updateCacheLine msg l c | None => Crash "null line" end
          | WRITE_CACHE_LINE_DATA =>
              match ca_line a with Some l => writeCacheLineData msg l c | None => Crash "null line" end
          | MODIFY_DATA => modifyData msg c
          | SAVE_REQ_FOR_WRITE_BACK => Ok (saveReqForWriteBack msg c)
          | SEND_INV_MSG => sendInvalidationMessage msg c
          | STALL => stall msg c
          | REMOVE_SAVED_REQ =>
              if decide (c_class (cfg c) = CacheControllerExclusive)
              then Ok (removedSaveRequest msg c) else Crash "bad_function_call"
          | _ =>
              if decide (c_class (cfg c) = CacheControllerDirectory)
              then directory_action t msg c else Crash "bad_function_call"
          end
      end
  end.

Definition do_actions (acts : list ControllerAction) (c : C) : outcome C := ofold do_action acts c.

(** ** Completing an array access *)

Definition finish_fire (was_firing : bool) (c : C) : C :=
  set_queue (markDirty (queue c)) (set_pipe_firing was_firing c).

Definition pipelineFire (o : DataArrayOp) (c : C) : outcome C :=
  let was_firing := m_pipe_firing c in
  let c1 := set_pipe_firing true c in
  match op_kind o with
  | MESSAGE =>
      let! (st, msg) := getRequestState (protocol c1) (counters c1) (data_handler c1) (op_msg o) NonReady in
      if decide (st = Ready) then
        let! (_, acts) := processRequest (protocol c1) (counters c1) (data_handler c1) msg in
        let! c2 := do_actions acts c1 in Ok (finish_fire was_firing c2)
      else Ok (finish_fire was_firing (set_queue (snd (pushBack msg NonReady true (queue c1))) c1))
  | ACTIONS => let! c2 := do_actions (op_actions o) c1 in Ok (finish_fire was_firing c2)
  end.

(** Fire the operations that pass [f], oldest first, until none does. *)
Fixpoint fire_all (fuel : nat) (f : C -> DataArrayOp -> bool) (c : C) : outcome C :=
  match list_find (fun o => f c o = true) (m_array_ops c) with
  | None => Ok c
  | Some (i, o) =>
      match fuel with
      | O => out_of_fuel
      | S n => let! c' := pipelineFire o (set_array_ops (delete i (m_array_ops c)) c) in fire_all n f c'
      end
  end.

Definition op_due (c : C) (o : DataArrayOp) : bool := op_admitted o && (op_ready_cycle o <=? cache_cycle c).

Definition pipelineStep (fuel : nat) (c : C) : outcome C :=
  let! c1 := arrayAdmit (set_array_admitted_this_cycle 0 c) in fire_all fuel op_due c1.

Definition op_on_line (key : Z) (c : C) (o : DataArrayOp) : bool := getAddressKey c (msg_addr (op_msg o)) =? key.

Definition pipelineFlushLine (fuel : nat) (address : Z) (c : C) : outcome C :=
  fire_all fuel (op_on_line (getAddressKey c address)) c.

Definition processDataArrayBuffer (c : C) : outcome C :=
  if negb (isReady (base (data_handler c))) then Ok c
  else
    let! (r, c1) := arrayElect c in
    match r with
    | None => Ok c1
    | Some i =>
        match m_array_ops c1 !! i with
        | Some o => pipelineFire o (set_array_ops (delete i (m_array_ops c1)) c1)
        | None => Ok c1
        end
    end.

(** ** Intake *)

(** A line evicted by a fill is written back through the queue. *)
Definition checkReplacements (fuel : nat) (c : C) : outcome C :=
  match addressOfLinePendingWB false (data_handler c) with
  | (None, _) => Ok c
  | (Some evicted_address, _) =>
      let msg := set_msg_kind K_EVICT (set_msg_source SELF
                   (push_to (c_shared_memory_id (cfg c))
                      (newMessage (w64 (next_req_id c)) evicted_address (cache_cycle c) 0 (m_id (cfg c))))) in
      let c1 := set_next_req_id (next_req_id c + 1) c in
      let '(ok, b) := pushBack msg NonReady true (queue c1) in
      let c2 := set_queue b c1 in
      let c3 := if ok then set_data_handler (snd (addressOfLinePendingWB true (data_handler c2))) c2 else c2 in
      pipelineFlushLine fuel evicted_address c3
  end.

Definition intake_upper (c : C) : C :=
  match peekMessage (upper c) with
  | (None, i) => set_upper i c
  | (Some msg, i) =>
      let '(ok, b) := pushFrontOrdered (set_msg_source UPPER_INTERCONNECT msg) (queue c) in
      if ok then set_queue b (set_upper (popFrontMessage i) c) else set_upper i c
  end.

Definition intake_lower (c : C) : C :=
  match peekMessage (lower c) with
  | (None, i) => set_lower i c
  | (Some msg, i) =>
      let msg := set_msg_source LOWER_INTERCONNECT msg in
      let '(ok, b) := pushBack msg NonReady (negb (isDemandRequest msg)) (queue c) in
      if ok then set_queue b (set_lower (popFrontMessage i) c)
      else set_intake_refusals (w64 (m_intake_refusals c + 1)) (set_lower i c)
  end.

Definition base_addRequests2ProcessingQueue (c : C) : C :=
  let c1 := intake_lower (intake_upper c) in
  if m_queue_peak c1 <? buf_size (queue c1) then set_queue_peak (buf_size (queue c1)) c1 else c1.

(** [CacheController_End2End] looks at the upper head first. *)
Definition note_latest_owner (c : C) : C :=
  let '(r, i) := peekMessage (upper c) in
  let c1 := set_upper i c in
  match r with
  | Some msg => if has_data msg then set_owner_of_latest_data (msg_owner msg) c1 else c1
  | None => c1
  end.

(** [CacheControllerDirectory] drops what is not addressed to it, puts data from
    above first and everything else last. *)
Definition addressed_to_me (msg : Message) (c : C) : bool := existsb (Z.eqb (m_id (cfg c))) (msg_to msg).

Definition directory_intake_upper (c : C) : outcome C :=
  match peekMessage (upper c) with
  | (None, i) => Ok (set_upper i c)
  | (Some msg, i) =>
      if negb (addressed_to_me msg c) then Ok (set_upper (popFrontMessage i) c)
      else
        let! (st, msg) := getRequestState (protocol c) (counters c) (data_handler c)
                            (set_msg_source UPPER_INTERCONNECT msg) NonReady in
        let '(ok, b) := (if has_data msg then pushFront msg (queue c)
                         else pushBack msg st (negb (isDemandRequest msg)) (queue c)) in
        Ok (set_queue b (set_upper (if ok : bool then popFrontMessage i else i) c))
  end.

Definition directory_intake_lower (c : C) : C :=
  match peekMessage (lower c) with
  | (None, i) => set_lower i c
  | (Some msg, i) =>
      if negb (addressed_to_me msg c) then set_lower (popFrontMessage i) c
      else
        let msg := set_msg_source LOWER_INTERCONNECT msg in
        let '(ok, b) := pushBack msg NonReady (negb (isDemandRequest msg)) (queue c) in
        set_queue b (set_lower (if ok : bool then popFrontMessage i else i) c)
  end.

Definition addRequests2ProcessingQueue (fuel : nat) (c : C) : outcome C :=
  match c_class (cfg c) with
  | CacheControllerDirectory =>
      let! c1 := directory_intake_upper c in checkReplacements fuel (directory_intake_lower c1)
  | CacheController_End2End => checkReplacements fuel (base_addRequests2ProcessingQueue (note_latest_owner c))
  | _ => checkReplacements fuel (base_addRequests2ProcessingQueue c)
  end.

(** ** Admission *)

Definition canAdmitRequest (msg : Message) (c : C) : bool :=
  negb (isDemandRequest msg) ||
  isAddressTracked (data_handler c) (msg_addr msg) ||
  bool_decide (is_Some (m_pending_requests c !! getAddressKey c (msg_addr msg))) ||
  negb ((0 <=? m_num_mshr (cfg c)) && (m_num_mshr (cfg c) <=? Z.of_nat (size (m_pending_requests c)))).

Definition base_demandAdmissionBlocked (outstanding : Z) (c : C) : bool :=
  (0 <=? m_processing_queue_size (cfg c)) && (m_processing_queue_size (cfg c) <=? outstanding).

Definition demandAdmissionBlocked (outstanding : Z) (c : C) : bool :=
  base_demandAdmissionBlocked outstanding c ||
  ((0 <=? m_num_mshr (cfg c)) && (m_num_mshr (cfg c) <=? Z.of_nat (size (m_pending_requests c)))) ||
  negb (pwbHasSpace (data_handler c)).

Definition messageTouchesArray (msg : Message) (c : C) : outcome bool :=
  let! b := needsDataArray (protocol c) (counters c) (data_handler c) msg in
  if b : bool then Ok true
  else if negb (pipelinedArray c) then Ok false
  else
    let cpu_demand := bool_decide (msg_source msg = LOWER_INTERCONNECT) &&
                      ((complementary_value msg =? 0) || (complementary_value msg =? 1)) in
    Ok (has_data msg && negb cpu_demand).

Definition deferForDataArray (msg : Message) (c : C) : outcome (bool * C) :=
  let defer := let! c' := arrayEnqueue (mkOp MESSAGE msg [] 0 false 0) c in Ok (true, c') in
  if negb (pipelinedArray c) then
    let h := base (data_handler c) in
    if negb (m_line_interlock (cfg c)) || (m_data_access_latency h =? 0) || isReady h then Ok (false, c)
    else
      let! b := needsDataArray (protocol c) (counters c) (data_handler c) msg in
      if b : bool then defer else Ok (false, c)
  else if decide (lineLocation (data_handler c) (msg_addr msg) = PWB) then Ok (false, c)
  else
    let! b := messageTouchesArray msg c in
    if b : bool then defer else Ok (false, c).

(** ** A cycle *)

Definition hold (c : C) (m : Message) : bool := m_line_interlock (cfg c) && lineHasDeferredOp c (msg_addr m).

Definition next_ready (c : C) : outcome (option Message * C) :=
  let! (r, b) := getFirstReady (getRequestState (protocol c) (counters c) (data_handler c)) (hold c) (queue c) in
  Ok (r, set_queue b c).

Definition push_back_ready (msg : Message) (c : C) : C := set_queue (snd (pushBack msg NonReady false (queue c))) c.

(** What is done with a ready message; [false]: the loop of the cycle ends. *)
Definition serve (msg : Message) (c : C) : outcome (bool * C) :=
  if negb (canAdmitRequest msg c) then
    Ok (false, push_back_ready msg (set_admit_fail_cycles (w64 (m_admit_fail_cycles c + 1)) c))
  else
    let! (deferred, c1) := deferForDataArray msg c in
    if deferred : bool then Ok (true, c1)
    else if negb (canAdmitRequest msg c1) then Ok (false, push_back_ready msg c1)
    else
      let! (_, acts) := processRequest (protocol c1) (counters c1) (data_handler c1) msg in
      let! c2 := do_actions acts c1 in Ok (true, c2).

Fixpoint process_loop (fuel : nat) (c : C) : outcome C :=
  let! (r, c1) := next_ready c in
  match r with
  | None => Ok c1
  | Some msg =>
      match fuel with
      | O => out_of_fuel
      | S n =>
          let! (continue, c2) := serve msg c1 in
          if continue : bool then process_loop n c2 else Ok c2
      end
  end.

Definition processLogic (fuel : nat) (c : C) : outcome C :=
  let! c1 := addRequests2ProcessingQueue fuel c in process_loop fuel c1.

Definition cycleProcess (fuel : nat) (c : C) : outcome C :=
  let c1 := set_data_handler (set_base (updateCycle (cache_cycle c) (base (data_handler c))) (data_handler c)) c in
  let! c2 := (if pipelinedArray c1 then pipelineStep fuel c1 else processDataArrayBuffer c1) in
  let! c3 := processLogic fuel c2 in
  Ok (set_cache_cycle (w64 (cache_cycle c3 + 1)) c3).

(** ** Construction *)

Record ControllerParams := mkParams {
  cp_class : ControllerClass;
  cp_id : Z;
  cp_shared_memory_id : Z;
  cp_perfect_llc : option Z;
  cp_processing_queue_size : Z;
  cp_line_interlock : option Z;
  cp_num_mshr : option Z;
  cp_arbiter_type : string;
  cp_arbiter_candidates_ids : list Z;
  cp_data_handler : HandlerParams;
  cp_cpu_port : bool }.

Definition DEFAULT_NUM_MSHR : Z := 16.

(** Any other arbiter type leaves the pointer uninitialised. *)
Definition data_access_arbiter (p : ControllerParams) (latency : Z) : outcome (option ArbiterObj) :=
  let a := newArbiter (cp_arbiter_candidates_ids p) latency in
  if String.eqb (cp_arbiter_type p) "NULL" then Ok None
  else if String.eqb (cp_arbiter_type p) "RRArbiter" then Ok (Some (RR, a))
  else if String.eqb (cp_arbiter_type p) "FCFSArbiter" then Ok (Some (FCFS, a))
  else Crash "uninitialised arbiter".

(** The protocol object, the two interfaces, the library's random stream and
    the two static counters are arguments. *)
Definition newController (p : ControllerParams) (proto : P) (u : IU) (l : IL) (rand : nat -> Z) (req_id seq : Z)
    : outcome C :=
  let! s := newCOTS (cp_data_handler p) rand in
  let h := base s in
  let! arb := data_access_arbiter p (m_data_access_latency h) in
  let pipelined := m_data_array_pipelined h && (0 <? m_data_access_latency h) in
  let interlock := negb (default 0 (cp_line_interlock p) =? 0) || pipelined in
  let candidates := if String.eqb (cp_arbiter_type p) "NULL" then [] else cp_arbiter_candidates_ids p in
  Ok (mkController
        (mkConfig (cp_class p) (cp_id p) (cp_shared_memory_id p) (negb (default 0 (cp_perfect_llc p) =? 0))
           (default DEFAULT_NUM_MSHR (cp_num_mshr p)) interlock (cp_processing_queue_size p) candidates)
        proto 1 l u s
        (newBuffer (cp_processing_queue_size p) (Z.lxor (w32 (m_block_size h - 1)) UINT64_MAX) true)
        ∅ ∅ ∅ arb [] 0 0 false (if cp_cpu_port p then Some [] else None) 0 0 0 0 (-1) noCounters req_id seq).

(** [init()] *)
Definition init (c : C) : C :=
  set_data_handler (protocol_initializeCacheStates (proto_state (protocol c)) (data_handler c)) c.
End Controller.
