(* ===== verification/ControllerTheory.v ===== *)
(** * Properties of the cache controllers

    What an action may touch ([frame]), the deferred accesses, termination of
    the cycle's loops, and what the responses, the supplies and the stores do.
    Everything is over any protocol and any interfaces; [ProtocolLaws] is what
    a protocol promises. *)

From S2P Require Export SnoopL1 SnoopLLC CacheController.

(** ** What a protocol promises to a controller *)

Class ProtocolLaws (P : Type) `{CoherenceProtocol P} := {
  pl_addr : forall p ct s m st st' m', getRequestState p ct s m st = Ok (st', m') -> msg_addr m' = msg_addr m }.

Lemma MESI_readEvent_addr q m e m' : MESI.readEvent q m = Ok (e, m') -> msg_addr m' = msg_addr m.
Proof. unfold MESI.readEvent. intros H; split_ok H; by repeat case_match. Qed.

Lemma L1_readEvent_addr p m e m' : L1_readEvent p m = Ok (e, m') -> msg_addr m' = msg_addr m.
Proof.
  destruct p as [[] q]; cbn; try apply MESI_readEvent_addr; unfold PMESIAsterisk.readEvent;
    intros H; split_ok H; try done; by eapply MESI_readEvent_addr.
Qed.

#[export] Instance L1_laws : ProtocolLaws L1Protocol.
Proof.
  split. intros p ct s m st st' m'. cbn. unfold L1_getRequestState.
  intros ([e m1] & E%L1_readEvent_addr & H)%obind_Ok. apply obind_Ok in H as (b & _ & [= _ <-]). done.
Qed.

#[export] Instance LLC_laws : ProtocolLaws LLCProtocol.
Proof.
  split. intros p ct s m st st' m'. cbn. unfold LLC_getRequestState.
  intros (e & _ & H)%obind_Ok. destruct (has_data m); [by injection H as _ <-|].
  by apply obind_Ok in H as (b & _ & [= _ <-]).
Qed.

(** ** Block size *)

Definition bsize (s : COTS) : Z := m_block_size (base s).

Lemma bsize_setLine set way l s : bsize (setLine_cots set way l s) = bsize s.
Proof. unfold setLine_cots. by repeat case_match. Qed.

Lemma bsize_touch set way (s : COTS) : bsize (touch set way s) = bsize s.
Proof. done. Qed.

Lemma bsize_close (s : COTS) : bsize (close s) = bsize s.
Proof. done. Qed.

Lemma readCacheLine_bsize a o soft (s : COTS) r : readCacheLine a o soft s = Ok r -> bsize r.2 = bsize s.
Proof.
  unfold readCacheLine. intros H. split_ok H; cbn; try done.
Qed.

Lemma writeCacheLine_bsize a l (s : COTS) r : writeCacheLine a l s = Ok r -> bsize r.2 = bsize s.
Proof.
  unfold writeCacheLine, writeCacheLine_bypassLatency. intros H. split_ok H; cbn [snd]; try done;
    by refine (eq_trans (bsize_setLine _ _ _ _) _).
Qed.

Lemma updateLineBits_bsize a l (s : COTS) r : updateLineBits a l s = Ok r -> bsize r.2 = bsize s.
Proof.
  unfold updateLineBits, updateLineBits_base. intros H.
  apply obind_Ok in H as ([ok s1] & E & H).
  assert (bsize s1 = bsize s) as <-; [|split_ok H; done].
  split_ok E; try done. by refine (eq_trans (bsize_setLine _ _ _ _) _).
Qed.

Lemma modifyLineData_bsize a d n soft (s : COTS) r : modifyLineData a d n soft s = Ok r -> bsize r.2 = bsize s.
Proof.
  unfold modifyLineData. intros H. split_ok H; cbn [snd]; try destruct soft; try done;
    by refine (eq_trans (bsize_setLine _ _ _ _) _).
Qed.

Lemma moveLine2WB_bsize set way (s s' : COTS) : moveLine2WB set way s = Ok s' -> bsize s' = bsize s.
Proof. unfold moveLine2WB. intros H. split_ok H. cbn. by refine (eq_trans (bsize_setLine _ _ _ _) _). Qed.

Lemma updateLineData_bsize a d (s : COTS) r : updateLineData a d s = Ok r -> bsize r.2 = bsize s.
Proof.
  unfold updateLineData, updateLineData_base, chooseEvictionWay. intros H.
  destruct (findline_base (base s) a) as [?|].
  { split_ok H; cbn [snd]; try done. by refine (eq_trans (bsize_setLine _ _ _ _) _). }
  destruct (m_miss_status_holding_regs s !! mask_offset (base s) a) as [l|].
  - apply obind_Ok in H as (s2 & E & H). apply obind_Ok in H as ([ok s3] & E3 & H).
    apply writeCacheLine_bsize in E3. cbn in E3.
    assert (bsize s2 = bsize s) as Es.
    { split_ok E; [|done]. apply moveLine2WB_bsize in E. rewrite E. destruct x. split_ok E0. done. }
    split_ok H; cbn [snd]; [exact (eq_trans E3 Es)|exact (eq_trans E3 Es)].
  - split_ok H; done.
Qed.

Lemma writeLine2MSHR_bsize a l s : bsize (writeLine2MSHR a l s) = bsize s.
Proof. unfold writeLine2MSHR. by destruct (negb _). Qed.

(** ** What an action may touch *)

(** The addresses of the messages deferred whole. *)
Definition message_addrs (ops : list DataArrayOp) : list Z :=
  (fun o => msg_addr (op_msg o)) <$> filter (fun o => op_kind o = MESSAGE) ops.

Arguments message_addrs : simpl never.

Section Frame.
Context {P IU IL : Type} `{!CoherenceProtocol P, !CommInterface IU, !CommInterface IL}.
Abbreviation C := (@Controller P IU IL).
Implicit Types c : C.

(** What no action of a transition changes. *)
Definition skeleton c :=
  (cfg c, protocol c, bsize (data_handler c), cache_cycle c, m_pipe_firing c, message_addrs (m_array_ops c)).

Definition frame c c' : Prop := skeleton c' = skeleton c /\ (queue c', counters c') = (queue c, counters c).

(** The updates of the sharers and of the acknowledgement counters. *)
Definition counter_step (key : Z -> Z) (ct : DirCounters) (a : ControllerAction) : DirCounters :=
  match ca_type a, ca_msg a with
  | SET_ACK_NUMBER, Some m => bump_ack (key (msg_addr m)) (complementary_value m) ct
  | DECREMENT_ACK, Some m => bump_ack (key (msg_addr m)) (-1) ct
  | INCREMENT_SHARERS, Some m =>
      put_sharers <[key (msg_addr m) := sharers_of ct (key (msg_addr m)) ++ [msg_owner m]]> ct
  | DECREMENT_SHARERS, Some m => erase_sharer (key (msg_addr m)) (msg_owner m) ct
  | SET_SHARERS, Some m => put_sharers <[key (msg_addr m) := [msg_owner m]]> ct
  | CLEAR_SHARERS, Some m => put_sharers (delete (key (msg_addr m))) ct
  | _, _ => ct
  end.

#[export] Instance frame_preorder : PreOrder frame.
Proof. split; [done|]. intros c1 c2 c3 [E1 Q1] [E2 Q2]. split; congruence. Qed.

Lemma frame_trans c1 c2 c3 : frame c1 c2 -> frame c2 c3 -> frame c1 c3.
Proof. apply transitivity. Qed.

Lemma frame_handler c s : bsize s = bsize (data_handler c) -> frame c (set_data_handler s c).
Proof. intros E. split; [|done]. unfold skeleton; cbn. by rewrite E. Qed.

Lemma getAddressKey_skeleton c c' a : skeleton c' = skeleton c -> getAddressKey c' a = getAddressKey c a.
Proof. intros [= _ _ E _ _ _]. unfold getAddressKey. fold (bsize (data_handler c')). by rewrite E. Qed.

Lemma message_addrs_app l1 l2 : message_addrs (l1 ++ l2) = message_addrs l1 ++ message_addrs l2.
Proof. unfold message_addrs. by rewrite filter_app, fmap_app. Qed.

Lemma message_addrs_cons o l :
  message_addrs (o :: l) = (if decide (op_kind o = MESSAGE) then [msg_addr (op_msg o)] else []) ++ message_addrs l.
Proof. unfold message_addrs. rewrite filter_cons. by case_decide. Qed.

Lemma message_addrs_admit ready i l : message_addrs (alter (admit_op ready) i l) = message_addrs l.
Proof.
  revert i. induction l as [|o l IH]; intros [|i]; [done..| |]; cbn; rewrite !message_addrs_cons; [done|].
  f_equal. apply IH.
Qed.

Lemma message_addrs_delete i l : sublist (message_addrs (delete i l)) (message_addrs l).
Proof.
  revert i. induction l as [|o l IH]; intros [|i]; [done..| |]; cbn; rewrite !message_addrs_cons.
  - by apply sublist_inserts_l.
  - by apply sublist_app.
Qed.

Lemma arrayElect_frame c r c' : arrayElect c = Ok (r, c') -> frame c c' /\ m_array_ops c' = m_array_ops c.
Proof.
  unfold arrayElect. destruct (m_data_access_arbiter c); [|by intros [= _ <-]].
  destruct (array_candidates c); [by intros [= _ <-]|].
  intros ([r0 a'] & _ & H)%obind_Ok. split_ok H; done.
Qed.

Lemma admit_loop_frame n c c' : admit_loop n c = Ok c' -> frame c c'.
Proof.
  revert c. induction n as [|n IH]; intros c; cbn; [by intros [= <-]|].
  intros ([r c1] & [F E]%arrayElect_frame & H)%obind_Ok. destruct r as [i|]; [|by injection H as <-].
  apply IH in H. refine (frame_trans _ _ _ F (frame_trans _ _ _ _ H)).
  split; [|done]. unfold skeleton; cbn. by rewrite message_addrs_admit.
Qed.

Lemma arrayAdmit_frame c c' : arrayAdmit c = Ok c' -> frame c c'.
Proof. apply admit_loop_frame. Qed.

(** An operation enters the list; its message counts if it is a whole message. *)
Lemma arrayEnqueue_addrs o c c' : arrayEnqueue o c = Ok c' ->
  frame (set_array_ops (m_array_ops c ++ [o]) c) c'.
Proof.
  unfold arrayEnqueue. set (c1 := set_array_ops _ (set_array_op_seq _ c)). intros H.
  assert (frame (set_array_ops (m_array_ops c ++ [o]) c) c1) as F.
  { split; [|done]. unfold skeleton, c1; cbn. by rewrite !message_addrs_app, !message_addrs_cons. }
  destruct (pipelinedArray c1).
  - apply arrayAdmit_frame in H. by refine (frame_trans _ _ _ F H).
  - by injection H as <-.
Qed.

Lemma checkReadiness_frame a msg c r c' : checkReadinessOfCache a msg c = Ok (r, c') -> frame c c'.
Proof.
  unfold checkReadinessOfCache. destruct (if pipelinedArray c then _ else _); [by intros [= _ <-]|].
  intros (c1 & E%arrayEnqueue_addrs & [= _ <-])%obind_Ok. refine (frame_trans _ _ _ _ E).
  split; [|done]. unfold skeleton; cbn. rewrite message_addrs_app, message_addrs_cons. cbn.
  by rewrite decide_False, app_nil_r.
Qed.

Lemma dataArrayReadFailed_frame c c' : dataArrayReadFailed c = Ok c' -> frame c c'.
Proof. unfold dataArrayReadFailed. destruct (m_cpu_port c); [done|]. by intros [= <-]. Qed.

Lemma tell_cpu_frame e c : frame c (tell_cpu e c).
Proof. unfold tell_cpu. by destruct (m_cpu_port c). Qed.

Lemma fill_data_frame msg c m c' : fill_data msg c = Ok (m, c') -> frame c c'.
Proof.
  unfold fill_data. destruct (has_data msg); [by intros [= _ <-]|].
  intros ([[ok line] s] & E%readCacheLine_bsize & H)%obind_Ok. cbn in E.
  assert (F : frame c (set_data_handler s c)) by by apply frame_handler.
  assert (G : forall m0 c2, dataArrayReadFailed (set_data_handler s c) = Ok c2 ->
                Ok (m0, c2) = Ok (m, c') -> frame c c').
  { intros m0 c2 E2%dataArrayReadFailed_frame [= _ <-]. by refine (frame_trans _ _ _ F E2). }
  destruct ok, (line ≫= line_data); [by injection H as _ <-|..];
    apply obind_Ok in H as (c2 & E2 & H); by eapply G.
Qed.

Lemma push_lower_frame msg t site c c' : push_lower msg t site c = Ok c' -> frame c c'.
Proof. unfold push_lower. intros ([ok i] & _ & H)%obind_Ok. destruct ok; [|done]. by injection H as <-. Qed.

Lemma push_upper_frame msg t site c c' : push_upper msg t site c = Ok c' -> frame c c'.
Proof. unfold push_upper. intros ([ok i] & _ & H)%obind_Ok. destruct ok; [|done]. by injection H as <-. Qed.

Lemma base_hitAction_frame msg c c' : base_hitAction msg c = Ok c' -> frame c c'.
Proof.
  unfold base_hitAction. intros ([m c1] & F%fill_data_frame & G%push_lower_frame)%obind_Ok.
  refine (frame_trans _ _ _ F (frame_trans _ _ _ _ G)). apply tell_cpu_frame.
Qed.

Lemma base_remove_frame msg c c' : base_removePendingAndRespond msg c = Ok c' -> frame c c'.
Proof.
  unfold base_removePendingAndRespond. intros ([m c1] & F%fill_data_frame & H)%obind_Ok.
  destruct (_ !! _) as [pending|]; [|done]. apply obind_Ok in H as (c2 & E & [= <-]).
  refine (frame_trans _ _ _ F _). refine (ofold_inv (frame c1) _ _ _ _ _ _ E); [|done].
  intros c3 p c4 _ G. unfold respond_pending. destruct (msg_data m); [|done].
  intros G'%push_lower_frame. refine (frame_trans _ _ _ G (frame_trans _ _ _ _ G')). apply tell_cpu_frame.
Qed.

Lemma when_ready_frame a msg (k : C -> outcome C) c c' : (forall c1 c2, k c1 = Ok c2 -> frame c1 c2) ->
  (if has_data msg then k c
   else let! (ready, c1) := checkReadinessOfCache a msg c in if ready : bool then k c1 else Ok c1) = Ok c' ->
  frame c c'.
Proof.
  intros Hk. destruct (has_data msg); [apply Hk|].
  intros ([ready c1] & F%checkReadiness_frame & H)%obind_Ok.
  destruct ready; [|by injection H as <-]. by refine (frame_trans _ _ _ F (Hk _ _ H)).
Qed.

Lemma base_sendBusRequest_frame msg c c' : base_sendBusRequest msg c = Ok c' -> frame c c'.
Proof.
  unfold base_sendBusRequest. destruct (_ && _); [|apply push_upper_frame].
  destruct (pushMessage2RX _ _ _ _) as [[ok i] q]. by intros [= <-].
Qed.

Lemma sendBusRequest_frame msg c c' : sendBusRequest msg c = Ok c' -> frame c c'.
Proof.
  unfold sendBusRequest. case_decide; [|apply base_sendBusRequest_frame].
  destruct (rollback _ _ _) as [[m|] i]; [|by intros F%base_sendBusRequest_frame; refine (frame_trans _ _ _ _ F)].
  destruct (msg_data m); [|done]. destruct (pushMessage2RX _ _ _ _) as [[ok i'] q]. by intros [= <-].
Qed.

Lemma base_performWriteBack_frame msg c c' : base_performWriteBack msg c = Ok c' -> frame c c'.
Proof.
  unfold base_performWriteBack. intros ([m c1] & F%fill_data_frame & H)%obind_Ok. refine (frame_trans _ _ _ F _).
  destruct (_ =? _); [destruct (m_perfect_llc _); [by injection H as <-|]|]; by eapply push_upper_frame.
Qed.

Lemma wait_data_frame a msg c r c' :
  (if has_data msg then Ok (true, c) else checkReadinessOfCache a msg c) = Ok (r, c') -> frame c c'.
Proof. destruct (has_data msg); [by intros [= _ <-]|apply checkReadiness_frame]. Qed.

Lemma writeBack_destinations_frame msg c m c' : writeBack_destinations msg c = (m, c') -> frame c c'.
Proof. unfold writeBack_destinations. by repeat case_match; intros [= _ <-]. Qed.

Lemma performWriteBack_frame msg c c' : performWriteBack msg c = Ok c' -> frame c c'.
Proof.
  unfold performWriteBack. case_decide as Hcls.
  - unfold end2end_performWriteBack. destruct (m_perfect_llc _); [by intros [= <-]|].
    intros ([r c1] & F%wait_data_frame & H)%obind_Ok. destruct r; [|by injection H as <-].
    apply obind_Ok in H as ([m c2] & G%fill_data_frame & K%push_upper_frame).
    by refine (frame_trans _ _ _ F (frame_trans _ _ _ G K)).
  - destruct (writeBack_destinations msg c) as [m c1] eqn:E. apply writeBack_destinations_frame in E as F.
    intros ([r c2] & G%wait_data_frame & H)%obind_Ok. refine (frame_trans _ _ _ F (frame_trans _ _ _ G _)).
    destruct r; [by eapply base_performWriteBack_frame|by injection H as <-].
Qed.

Lemma writeCacheLineData_frame msg l c c' : writeCacheLineData msg l c = Ok c' -> frame c c'.
Proof.
  unfold writeCacheLineData. intros ([r c1] & F%checkReadiness_frame & H)%obind_Ok. refine (frame_trans _ _ _ F _).
  destruct r; [|by injection H as <-]. destruct (msg_data msg); [|done].
  apply obind_Ok in H as ([ok s'] & E%updateLineData_bsize & H). destruct ok; [|done]. injection H as <-.
  by apply frame_handler.
Qed.

Lemma report_lost_copy_frame msg l c c' : report_lost_copy msg l c = Ok c' -> frame c c'.
Proof.
  unfold report_lost_copy. destruct (m_cpu_port c); [|by intros [= <-]].
  destruct (readLineBits _ _ _) as [found old]. intros H. split_ok H; try done. apply tell_cpu_frame.
Qed.

Lemma updateCacheLine_frame msg l c c' : updateCacheLine msg l c = Ok c' -> frame c c'.
Proof.
  unfold updateCacheLine. intros (c1 & F%report_lost_copy_frame & H)%obind_Ok.
  apply obind_Ok in H as ([found s] & E%updateLineBits_bsize & H). cbn in E. refine (frame_trans _ _ _ F _).
  destruct (_ || _ || _).
  - injection H as <-. apply frame_handler. destruct found; [done|]. by rewrite writeLine2MSHR_bsize.
  - apply writeCacheLineData_frame in H. refine (frame_trans _ _ _ _ H). by apply frame_handler.
Qed.

Lemma modifyData_frame msg c c' : modifyData msg c = Ok c' -> frame c c'.
Proof.
  unfold modifyData.
  assert (G : forall m, match msg_data m with
    | None => Crash "null data"
    | Some d =>
        let! (_, s) := modifyLineData (msg_addr m) d (msg_data_size m) false (data_handler c) in
        Ok (set_modifying_data_messages (delete (msg_id msg) (m_modifying_data_messages c)) (set_data_handler s c))
    end = Ok c' -> frame c c').
  { intros m. destruct (msg_data m); [|done]. intros ([ok s] & E%modifyLineData_bsize & [= <-])%obind_Ok.
    refine (frame_trans _ _ _ (frame_handler c s E) _). done. }
  destruct (_ !! _); [apply G|]. destruct (_ && _); [apply G|by intros [= <-]].
Qed.

#[local] Hint Resolve when_ready_frame base_remove_frame base_hitAction_frame sendBusRequest_frame
  performWriteBack_frame updateCacheLine_frame writeCacheLineData_frame modifyData_frame push_lower_frame : octopus.

Lemma removePendingNoResponse_frame msg c c' : removePendingNoResponse msg c = Ok c' -> frame c c'.
Proof. unfold removePendingNoResponse. destruct (_ !! _); [by intros [= <-]|done]. Qed.

Lemma set_counters_same c : set_counters (counters c) c = c.
Proof. by destruct c. Qed.

Lemma addData2Message_frame msg c c' : addData2Message msg c = Ok c' -> frame c c'.
Proof.
  unfold addData2Message. intros ([[ok line] s] & E%readCacheLine_bsize & H)%obind_Ok.
  destruct (line ≫= line_data); [|done]. injection H as <-. by apply frame_handler.
Qed.

Lemma sendForwardMessage_frame msg c c' : sendForwardMessage msg c = Ok c' -> frame c c'.
Proof. unfold sendForwardMessage. destruct (msg_to msg); [by intros [= <-]|apply push_lower_frame]. Qed.

Lemma directory_action_frame t msg l c c' : directory_action t msg c = Ok c' ->
  frame (set_counters (counter_step (getAddressKey c) (counters c) (mkAction t (Some msg) l)) c) c'.
Proof.
  unfold directory_action. destruct t; try done; try (by intros [= <-]); cbn; rewrite set_counters_same.
  - apply addData2Message_frame.
  - apply sendForwardMessage_frame.
  - apply removePendingNoResponse_frame.
Qed.

Lemma do_action_frame c a c' : ca_type a <> STALL -> do_action c a = Ok c' ->
  frame (set_counters (counter_step (getAddressKey c) (counters c) a) c) c'.
Proof.
  destruct a as [t m l]. unfold do_action. cbn. intros Hst.
  assert (G : forall msg, m = Some msg ->
    (if decide (c_class (cfg c) = CacheControllerDirectory) then directory_action t msg c
     else Crash "bad_function_call") = Ok c' ->
    frame (set_counters (counter_step (getAddressKey c) (counters c) (mkAction t m l)) c) c').
  { intros msg ->. case_decide; [apply directory_action_frame|done]. }
  destruct t; try done; try (destruct m as [msg|]; [|done]); try (by apply G); clear G;
    unfold counter_step; cbn; rewrite set_counters_same; eauto with octopus; try by intros [= <-].
  - intros [= <-]. unfold addtoPendingRequests. by destruct (msg_data msg).
  - destruct l; [|done]. eauto with octopus.
  - destruct l; [|done]. eauto with octopus.
  - case_decide; [by intros [= <-]|done].
  - by case_decide.
  - by case_decide.
  - by case_decide.
Qed.

(** A stall only puts its message back. *)
Lemma do_action_stall c a c' : ca_type a = STALL -> do_action c a = Ok c' ->
  skeleton c' = skeleton c /\ exists m, ca_msg a = Some m /\ m_buffer (queue c') = m_buffer (queue c) ++ [mkElement m NonReady].
Proof.
  unfold do_action. intros ->. destruct (ca_msg a) as [msg|]; [|done]. unfold stall.
  destruct (pushBack msg NonReady false (queue c)) as [ok b] eqn:E. destruct ok; [|done]. intros [= <-].
  apply pushBack_size in E as [[_ E]|[E _]]; [|done]. split; [done|]. exists msg. by split.
Qed.

Lemma do_action_skeleton c a c' : do_action c a = Ok c' -> skeleton c' = skeleton c.
Proof.
  intros H. destruct (decide (ca_type a = STALL)) as [E|E].
  - by apply (do_action_stall _ _ _ E) in H as [H _].
  - by apply (do_action_frame _ _ _ E) in H as [H _].
Qed.

Lemma do_action_queue c a c' : ca_type a <> STALL -> do_action c a = Ok c' -> queue c' = queue c.
Proof. intros E H. by apply (do_action_frame _ _ _ E) in H as [_ [= H _]]. Qed.

Lemma do_action_counters c a c' : do_action c a = Ok c' -> counters c' = counter_step (getAddressKey c) (counters c) a.
Proof.
  intros H. destruct (decide (ca_type a = STALL)) as [E|E].
  - unfold do_action in H. unfold counter_step. rewrite E in *. destruct (ca_msg a); [|done]. unfold stall in H.
    destruct (pushBack _ _ _ _) as [[] b]; [|done]. by injection H as <-.
  - by apply (do_action_frame _ _ _ E) in H as [_ [= _ H]].
Qed.

Lemma do_actions_skeleton acts c c' : do_actions acts c = Ok c' -> skeleton c' = skeleton c.
Proof.
  intros H. refine (ofold_inv (fun c0 => skeleton c0 = skeleton c) _ _ _ _ _ _ H); [|done].
  intros c1 a c2 _ E H2%do_action_skeleton. congruence.
Qed.

(** Carrying out a transition's actions updates the counters as the actions say. *)
Lemma do_actions_counters acts c c' : do_actions acts c = Ok c' ->
  counters c' = foldl (counter_step (getAddressKey c)) (counters c) acts.
Proof.
  revert c. induction acts as [|a acts IH]; intros c; [by intros [= <-]|].
  change (do_actions (a :: acts) c) with (let! c1 := do_action c a in do_actions acts c1).
  intros (c1 & E & H%IH)%obind_Ok. rewrite H. cbn [foldl]. rewrite (do_action_counters _ _ _ E).
  apply do_action_skeleton in E. generalize (counter_step (getAddressKey c) (counters c) a).
  clear -E. induction acts as [|b acts IH]; intros ct; cbn; [done|]. rewrite IH. f_equal.
  unfold counter_step. destruct (ca_type b); try done; destruct (ca_msg b); try done;
    by rewrite (getAddressKey_skeleton _ _ _ E).
Qed.
End Frame.

(** ** The address interlock *)

Section Interlock.
Context {P IU IL : Type} `{!CoherenceProtocol P, !CommInterface IU, !CommInterface IL, !ProtocolLaws P}.
Abbreviation C := (@Controller P IU IL).
Implicit Types c : C.

(** What [getFirstReady] returns comes from an element the queue does not hold. *)
Lemma scan_ready_held check hold mask older rest m l :
  scan_ready check hold mask older rest = Ok (Some m, l) ->
  exists e, e ∈ rest /\ hold (item e) = false /\
    (m = item e \/ exists st', check (item e) (el_state e) = Ok (st', m)).
Proof.
  revert older. induction rest as [|e rest IH]; intros older; cbn [scan_ready]; [done|].
  assert (G : forall older', scan_ready check hold mask older' rest = Ok (Some m, l) ->
    exists e0, e0 ∈ e :: rest /\ hold (item e0) = false /\
      (m = item e0 \/ exists st', check (item e0) (el_state e0) = Ok (st', m))).
  { intros older' (e0 & He & Hh)%IH. exists e0. split; [by right|done]. }
  destruct (hold (item e)) eqn:Eh; [apply G|]. destruct (blocked _ _ _); [apply G|].
  intros ([st it] & E & H)%obind_Ok.
  assert (K : m = it -> exists e0, e0 ∈ e :: rest /\ hold (item e0) = false /\
      (m = item e0 \/ exists st', check (item e0) (el_state e0) = Ok (st', m))).
  { intros ->. exists e. split; [by left|]. split; [done|]. unfold element_state in E.
    destruct (decide _); [left; by injection E as _ <-|right; eauto]. }
  destruct st; [|by apply (G _ H)| |by apply (G _ H)]; injection H as <- _; by apply K.
Qed.

Lemma next_ready_spec c m c' : next_ready c = Ok (Some m, c') ->
  skeleton c' = skeleton c /\ m_array_ops c' = m_array_ops c /\
  (m_line_interlock (cfg c) = true -> lineHasDeferredOp c (msg_addr m) = false).
Proof.
  unfold next_ready. intros ([r b] & E & [= -> <-])%obind_Ok. split; [done|]. split; [done|].
  intros Hl. unfold getFirstReady in E. destruct (_ && _); [done|].
  destruct (m_buffer (queue c)) as [|e0 l0] eqn:El; [done|].
  apply obind_Ok in E as ([r l] & E & H). destruct r as [m'|]; [|done]. injection H as -> _.
  apply scan_ready_held in E as (e & _ & Hh & Hm). unfold hold in Hh. rewrite Hl in Hh. cbn in Hh.
  destruct Hm as [->|(st' & Hm)]; [done|]. by rewrite (pl_addr _ _ _ _ _ _ _ Hm).
Qed.

(** At most one message per line is deferred. *)
Definition one_per_line c : Prop := NoDup (getAddressKey c <$> message_addrs (m_array_ops c)).

Lemma one_per_line_skeleton c c' : skeleton c' = skeleton c -> one_per_line c -> one_per_line c'.
Proof.
  intros E. pose proof E as E'. unfold one_per_line. injection E' as _ _ _ _ _ ->.
  intros H. erewrite list_fmap_ext; [exact H|]. intros i a _. by apply getAddressKey_skeleton.
Qed.

Lemma one_per_line_delete c i : one_per_line c -> one_per_line (set_array_ops (delete i (m_array_ops c)) c).
Proof.
  unfold one_per_line. intros H. cbn.
  assert (S : sublist (getAddressKey c <$> message_addrs (delete i (m_array_ops c)))
                      (getAddressKey c <$> message_addrs (m_array_ops c))).
  { pose proof (message_addrs_delete i (m_array_ops c)) as S. revert S.
    generalize (message_addrs (delete i (m_array_ops c))), (message_addrs (m_array_ops c)).
    induction 1; cbn; by constructor. }
  by eapply sublist_NoDup.
Qed.

(** Firing leaves the list of deferred messages alone. *)
Lemma pipelineFire_skeleton o c c' : pipelineFire o c = Ok c' -> skeleton c' = skeleton c.
Proof.
  unfold pipelineFire.
  assert (G : forall acts c2, do_actions acts (set_pipe_firing true c) = Ok c2 ->
    skeleton (finish_fire (m_pipe_firing c) c2) = skeleton c).
  { intros acts c2 E%do_actions_skeleton. unfold skeleton, finish_fire in *; cbn in *. congruence. }
  destruct (op_kind o).
  - intros ([st msg] & _ & H)%obind_Ok. case_decide; [|by injection H as <-].
    apply obind_Ok in H as ([m acts] & _ & H). apply obind_Ok in H as (c2 & E & [= <-]). by apply (G acts).
  - intros (c2 & E & [= <-])%obind_Ok. by eapply G.
Qed.

Lemma one_per_line_fire i o c c' : one_per_line c ->
  pipelineFire o (set_array_ops (delete i (m_array_ops c)) c) = Ok c' -> one_per_line c'.
Proof. intros W E%pipelineFire_skeleton. eapply one_per_line_skeleton; [exact E|]. by apply one_per_line_delete. Qed.

Lemma fire_all_inv (R : C -> Prop) fuel f c c' :
  (forall c1 i o c2, R c1 -> m_array_ops c1 !! i = Some o -> f c1 o = true ->
     pipelineFire o (set_array_ops (delete i (m_array_ops c1)) c1) = Ok c2 -> R c2) ->
  R c -> fire_all fuel f c = Ok c' -> R c'.
Proof.
  intros HR. revert c. induction fuel as [|n IH]; intros c HRc; cbn;
    (destruct (list_find _ _) as [[i o]|] eqn:E; [|by intros [= <-]]); [done|].
  apply list_find_Some in E as (Hi & Hf & _). intros (c2 & Hfire & H)%obind_Ok. eapply IH; [|exact H]. eauto.
Qed.

Lemma fire_all_one_per_line fuel f c c' : one_per_line c -> fire_all fuel f c = Ok c' ->
  one_per_line c' /\ cfg c' = cfg c.
Proof.
  intros W H. refine (fire_all_inv (fun c1 => one_per_line c1 /\ cfg c1 = cfg c) fuel f c c' _ _ H); [|done].
  intros c1 i o c2 [W1 E1] _ _ Hf. split; [by eapply one_per_line_fire|].
  apply pipelineFire_skeleton in Hf. injection Hf as -> _ _ _ _ _. done.
Qed.

Lemma intake_skeleton c : skeleton (base_addRequests2ProcessingQueue c) = skeleton c.
Proof.
  unfold base_addRequests2ProcessingQueue, intake_lower, intake_upper.
  destruct (peekMessage (upper c)) as [[m|] i]; cbn;
    destruct (peekMessage (lower c)) as [[m'|] i']; cbn; try destruct (pushBack _ _ _ _) as [[] b];
    cbn; by case_match.
Qed.

Lemma directory_intake_skeleton c c' : directory_intake_upper c = Ok c' ->
  skeleton (directory_intake_lower c') = skeleton c.
Proof.
  assert (G : forall c0, skeleton (directory_intake_lower c0) = skeleton c0).
  { intros c0. unfold directory_intake_lower. destruct (peekMessage (lower c0)) as [[m|] i]; [|done].
    destruct (negb _); [done|]. by destruct (pushBack _ _ _ _) as [ok b]. }
  unfold directory_intake_upper. rewrite G. destruct (peekMessage (upper c)) as [[m|] i]; [|by intros [= <-]].
  destruct (negb _); [by intros [= <-]|]. intros ([st m'] & _ & H)%obind_Ok.
  destruct (if has_data m' then _ else _) as [ok b]. by injection H as <-.
Qed.

Lemma checkReplacements_one_per_line fuel c c' : one_per_line c -> checkReplacements fuel c = Ok c' ->
  one_per_line c' /\ cfg c' = cfg c.
Proof.
  intros W. unfold checkReplacements.
  destruct (addressOfLinePendingWB false _) as [[a|] s]; [|by intros [= <-]].
  destruct (pushBack _ _ _ _) as [ok b]. unfold pipelineFlushLine. intros H.
  apply fire_all_one_per_line in H as [W3 E3]; [split; [done|]|].
  - rewrite E3. by destruct ok.
  - eapply one_per_line_skeleton; [|exact W]. unfold skeleton. destruct ok; cbn; [|done].
    unfold addressOfLinePendingWB. by destruct (m_pwb_pending_issue _).
Qed.

Lemma addRequests_one_per_line fuel c c' : one_per_line c -> addRequests2ProcessingQueue fuel c = Ok c' ->
  one_per_line c' /\ cfg c' = cfg c.
Proof.
  intros W.
  assert (G : forall c2, skeleton c2 = skeleton c -> checkReplacements fuel c2 = Ok c' ->
    one_per_line c' /\ cfg c' = cfg c).
  { intros c2 E H. apply checkReplacements_one_per_line in H as [W2 E2]; [|by eapply one_per_line_skeleton].
    split; [done|]. rewrite E2. by injection E. }
  unfold addRequests2ProcessingQueue. destruct (c_class (cfg c)).
  1,2: apply G, intake_skeleton.
  - apply G. rewrite intake_skeleton. unfold note_latest_owner.
    destruct (peekMessage (upper c)) as [[m|] i]; [by destruct (has_data m)|done].
  - intros (c1 & E%directory_intake_skeleton & H)%obind_Ok. by apply (G _ E).
Qed.

(** A message the queue does not hold may be deferred. *)
Lemma defer_one_per_line c msg r c' : one_per_line c -> m_line_interlock (cfg c) = true \/ r = false ->
  (m_line_interlock (cfg c) = true -> lineHasDeferredOp c (msg_addr msg) = false) ->
  deferForDataArray msg c = Ok (r, c') -> one_per_line c' /\ cfg c' = cfg c.
Proof.
  intros W Hr Hno. unfold deferForDataArray.
  assert (G : (let! c' := arrayEnqueue (mkOp MESSAGE msg [] 0 false 0) c in Ok (true, c')) = Ok (r, c') ->
    one_per_line c' /\ cfg c' = cfg c).
  { intros (c1 & E%arrayEnqueue_addrs & [= <- <-])%obind_Ok. destruct E as [E _].
    split; [|by injection E as -> _]. eapply one_per_line_skeleton; [exact E|].
    unfold one_per_line. cbn. rewrite message_addrs_app, fmap_app. apply NoDup_app. split; [done|].
    split; [|cbn; apply NoDup_singleton].
    intros k (a & -> & (o & -> & [Hk Ho]%list_elem_of_filter)%list_elem_of_fmap)%list_elem_of_fmap Hin.
    cbn in Hin. apply list_elem_of_singleton in Hin.
    destruct Hr as [Hl|]; [|done]. specialize (Hno Hl). unfold lineHasDeferredOp in Hno.
    apply not_true_iff_false in Hno. apply Hno. apply existsb_exists. exists o.
    split; [by apply list_elem_of_In|]. by apply Z.eqb_eq. }
  assert (K : forall b : outcome bool,
    (let! b := b in if b : bool then let! c' := arrayEnqueue (mkOp MESSAGE msg [] 0 false 0) c in Ok (true, c')
                    else Ok (false, c)) = Ok (r, c') -> one_per_line c' /\ cfg c' = cfg c).
  { intros b ([] & _ & H)%obind_Ok; [by apply G|]. by injection H as _ <-. }
  destruct (negb (pipelinedArray c)).
  - destruct (_ || _ || _); [by intros [= _ <-]|]. apply K.
  - case_decide; [by intros [= _ <-]|]. apply K.
Qed.

Lemma lineHasDeferredOp_skeleton c c' a : skeleton c' = skeleton c -> m_array_ops c' = m_array_ops c ->
  lineHasDeferredOp c' a = lineHasDeferredOp c a.
Proof.
  intros [= _ _ E _ _ _] Eops. unfold lineHasDeferredOp, getAddressKey. fold (bsize (data_handler c')).
  by rewrite Eops, E.
Qed.

Definition interlocked c : Prop := one_per_line c /\ m_line_interlock (cfg c) = true.

Lemma interlocked_skeleton c c' : skeleton c' = skeleton c -> interlocked c -> interlocked c'.
Proof.
  intros E [W Hl]. split; [by eapply one_per_line_skeleton|]. injection E as -> _ _ _ _ _. done.
Qed.

Lemma serve_interlocked c msg r c' : interlocked c -> lineHasDeferredOp c (msg_addr msg) = false ->
  serve msg c = Ok (r, c') -> interlocked c'.
Proof.
  intros [W Hl] Hno. unfold serve. destruct (negb (canAdmitRequest msg c)); [by intros [= _ <-]|].
  intros ([d c1] & E & H)%obind_Ok.
  apply defer_one_per_line in E as [W1 E1]; [|done|by left|done]. rewrite <- E1 in Hl.
  destruct d; [by injection H as _ <-|].
  destruct (negb (canAdmitRequest msg c1)); [by injection H as _ <-|].
  apply obind_Ok in H as ([m acts] & _ & H). apply obind_Ok in H as (c2 & E2%do_actions_skeleton & [= _ <-]).
  by eapply interlocked_skeleton.
Qed.

Lemma process_loop_interlocked fuel c c' : interlocked c -> process_loop fuel c = Ok c' -> interlocked c'.
Proof.
  revert c. induction fuel as [|n IH]; intros c W; cbn;
    intros ([[msg|] c1] & E & H)%obind_Ok; try done;
    try (injection H as <-; eapply interlocked_skeleton; [|exact W];
         unfold next_ready in E; by apply obind_Ok in E as ([r b] & _ & [= _ <-])).
  apply next_ready_spec in E as (E & Eops & Hno). apply obind_Ok in H as ([[] c2] & Es & H).
  - eapply IH; [|exact H]. eapply serve_interlocked; [by eapply interlocked_skeleton| |exact Es].
    rewrite <- (Hno (proj2 W)). by apply lineHasDeferredOp_skeleton.
  - injection H as <-. eapply serve_interlocked; [by eapply interlocked_skeleton| |exact Es].
    rewrite <- (Hno (proj2 W)). by apply lineHasDeferredOp_skeleton.
Qed.

Lemma processDataArrayBuffer_interlocked c c' : interlocked c -> processDataArrayBuffer c = Ok c' -> interlocked c'.
Proof.
  intros W. unfold processDataArrayBuffer. destruct (negb _); [by intros [= <-]|].
  intros ([r c1] & [[E _] _]%arrayElect_frame & H)%obind_Ok.
  assert (W1 : interlocked c1) by by eapply interlocked_skeleton.
  destruct r as [i|]; [|by injection H as <-]. destruct (m_array_ops c1 !! i) as [o|]; [|by injection H as <-].
  split; [eapply one_per_line_fire; [apply W1|exact H]|].
  apply pipelineFire_skeleton in H. injection H as -> _ _ _ _ _. apply W1.
Qed.

Lemma cycle_interlocked fuel c c' : interlocked c -> cycleProcess fuel c = Ok c' -> interlocked c'.
Proof.
  intros W. unfold cycleProcess, pipelineStep. set (c1 := set_data_handler _ c).
  assert (W1 : interlocked c1) by done. intros (c2 & E2 & H)%obind_Ok.
  assert (W2 : interlocked c2).
  { destruct (pipelinedArray c1); [|by eapply processDataArrayBuffer_interlocked].
    apply obind_Ok in E2 as (c3 & [E3 _]%arrayAdmit_frame & E2).
    assert (W3 : interlocked c3) by (eapply interlocked_skeleton; [exact E3|done]).
    apply fire_all_one_per_line in E2 as [W2 Ec]; [|apply W3]. split; [done|]. rewrite Ec. apply W3. }
  apply obind_Ok in H as (c3 & E3 & [= <-]). unfold processLogic in E3.
  apply obind_Ok in E3 as (c4 & E4 & E3). apply addRequests_one_per_line in E4 as [W4 Ec]; [|apply W2].
  assert (W5 : interlocked c4) by (split; [done|]; rewrite Ec; apply W2).
  by apply process_loop_interlocked in E3.
Qed.

(** The states a controller goes through: its own cycles, and whatever the
    buses and the other controllers do to its interfaces and to the shared
    counters in between. *)
Inductive reachable (c0 : C) : C -> Prop :=
| reach_start : reachable c0 c0
| reach_cycle c fuel c' : reachable c0 c -> cycleProcess fuel c = Ok c' -> reachable c0 c'
| reach_env c u l id q : reachable c0 c ->
    reachable c0 (set_rx_seq q (set_next_req_id id (set_upper u (set_lower l c)))).

(** C11: the address interlock.  With the interlock configured, or a pipelined
    array, which turns it on, at no time are two messages to the same line
    deferred for the data array, whatever arrives from the buses and however
    long the controller runs: per line, the deferred messages are at most one. *)
Theorem interlock_one_per_line p proto u l rand id q c0 c :
  newController p proto u l rand id q = Ok c0 ->
  default 0 (cp_line_interlock p) <> 0 \/ pipelinedArray c0 = true ->
  reachable (init c0) c -> NoDup (getAddressKey c <$> message_addrs (m_array_ops c)).
Proof.
  intros H0 Hl H. enough (interlocked c) as [? _] by done.
  induction H as [|c fuel c' _ IH E|c u' l' id' q' _ IH]; [|by eapply cycle_interlocked|done].
  unfold newController in H0. apply obind_Ok in H0 as (s & _ & H0). apply obind_Ok in H0 as (arb & _ & [= <-]).
  split; [constructor|]. cbn. destruct Hl as [Hl|Hl].
  - by rewrite (proj2 (Z.eqb_neq _ _)).
  - unfold pipelinedArray in Hl. cbn in Hl. by rewrite Hl, orb_true_r.
Qed.
End Interlock.
