(* ===== verification/ControllerLive.v ===== *)
(** * Termination of a controller's cycle

    [processLogic] serves ready messages until the queue has none.  The runs of
    that loop are an inductive relation, without fuel; every queue has one. *)

From S2P Require Export SnoopTheory ControllerTheory.

Section Loop.
Context {P IU IL : Type} `{!CoherenceProtocol P, !CommInterface IU, !CommInterface IL}.
Abbreviation C := (@Controller P IU IL).
Implicit Types c : C.

(** The loop ends with this result. *)
Inductive loop_runs : C -> outcome C -> Prop :=
| loop_empty c c1 : next_ready c = Ok (None, c1) -> loop_runs c (Ok c1)
| loop_stop c m c1 c2 : next_ready c = Ok (Some m, c1) -> serve m c1 = Ok (false, c2) -> loop_runs c (Ok c2)
| loop_next c m c1 c2 r : next_ready c = Ok (Some m, c1) -> serve m c1 = Ok (true, c2) ->
    loop_runs c2 r -> loop_runs c r
| loop_pop_fails c : is_ok (next_ready c) = false -> loop_runs c (let! (_, c1) := next_ready c in Ok c1)
| loop_serve_fails c m c1 : next_ready c = Ok (Some m, c1) -> is_ok (serve m c1) = false ->
    loop_runs c (let! (_, c2) := serve m c1 in Ok c2).

(** What the loop needs of the protocol: the readiness test answers Ready or
    NonReady, a transition stalls at most once, and not when the test has just
    said Ready. *)
Record serves_ready (p : P) : Prop := {
  sr_test : forall ct s m st st' m', getRequestState p ct s m st = Ok (st', m') -> st' = Ready \/ st' = NonReady;
  sr_once : forall ct s m m' acts, processRequest p ct s m = Ok (m', acts) ->
    (length (filter (fun a => ca_type a = STALL) acts) <= 1)%nat;
  sr_ready : forall ct s m st m1 m' acts, getRequestState p ct s m st = Ok (Ready, m1) ->
    processRequest p ct s m1 = Ok (m', acts) -> Forall (fun a => ca_type a <> STALL) acts }.

(** Messages that wait without a test count twice. *)
Definition weight (l : list Element) : nat :=
  length l + length (filter (fun e => el_state e = Ready) l).

Lemma weight_app l1 l2 : weight (l1 ++ l2) = (weight l1 + weight l2)%nat.
Proof. unfold weight. rewrite filter_app, !length_app. lia. Qed.

Lemma weight_cons e l : weight (e :: l) = (weight l + if decide (el_state e = Ready) then 2 else 1)%nat.
Proof. unfold weight. rewrite filter_cons. case_decide; cbn; lia. Qed.

(** Taking a message out: two off if it was never tested, else it passed the test. *)
Lemma scan_ready_weight p ct s hold mask older rest m l : serves_ready p ->
  scan_ready (getRequestState p ct s) hold mask older rest = Ok (Some m, l) ->
  (weight l + 2 <= weight (older ++ rest))%nat \/
  ((weight l + 1 <= weight (older ++ rest))%nat /\
   exists m0 st, getRequestState p ct s m0 st = Ok (Ready, m)).
Proof.
  intros Hp. revert older. induction rest as [|e rest IH]; intros older; cbn [scan_ready]; [done|].
  assert (G : scan_ready (getRequestState p ct s) hold mask (older ++ [e]) rest = Ok (Some m, l) -> _) by apply IH.
  rewrite <- app_assoc in G. cbn [app] in G.
  destruct (hold (item e)); [apply G|]. destruct (blocked _ _ _); [apply G|].
  intros ([st it] & E & H)%obind_Ok. unfold element_state in E. destruct (decide (el_state e = Ready)) as [Er|Er].
  - injection E as <- <-. injection H as _ <-. left.
    rewrite !weight_app, weight_cons, decide_True by done. lia.
  - pose proof (sr_test _ Hp _ _ _ _ _ _ E) as [-> | ->].
    + injection H as <- <-. right. split; [|eauto]. rewrite !weight_app, weight_cons, decide_False by done. lia.
    + apply IH in H. rewrite <- app_assoc in H. cbn [app] in H.
      rewrite !weight_app, !weight_cons in *. rewrite (decide_False (P := el_state e = Ready)) by done.
      rewrite decide_False in H by done. exact H.
Qed.

Definition load c : nat := weight (m_buffer (queue c)).

Lemma next_ready_load c m c1 : serves_ready (protocol c) -> next_ready c = Ok (Some m, c1) ->
  (load c1 + 2 <= load c)%nat \/
  ((load c1 + 1 <= load c)%nat /\ exists m0 st, getRequestState (protocol c1) (counters c1) (data_handler c1) m0 st = Ok (Ready, m)).
Proof.
  intros Hp. unfold next_ready, load. intros ([r b] & E & [= -> <-])%obind_Ok. cbn.
  unfold getFirstReady in E. destruct (_ && _); [done|].
  destruct (m_buffer (queue c)) as [|e0 l0] eqn:El; [done|].
  apply obind_Ok in E as ([r l] & E & H). destruct r as [m'|]; [|done]. injection H as -> <-.
  apply scan_ready_weight in E; [|done]. by rewrite app_nil_l in E.
Qed.

Lemma do_actions_load acts c c' : do_actions acts c = Ok c' ->
  load c' = (load c + length (filter (fun a => ca_type a = STALL) acts))%nat.
Proof.
  revert c. induction acts as [|a acts IH]; intros c; [intros [= <-]; rewrite filter_nil; cbn; lia|].
  change (do_actions (a :: acts) c) with (let! c1 := do_action c a in do_actions acts c1).
  intros (c1 & E & H%IH)%obind_Ok. rewrite H. destruct (decide (ca_type a = STALL)) as [Ea|Ea].
  - apply (do_action_stall _ _ _ Ea) in E as (_ & m & _ & Eq). unfold load. rewrite Eq, weight_app, weight_cons.
    rewrite filter_cons, (decide_True (P := ca_type a = STALL)), decide_False by done. cbn. lia.
  - apply (do_action_queue _ _ _ Ea) in E as Eq. unfold load. rewrite Eq.
    rewrite filter_cons, decide_False by done. lia.
Qed.

Lemma defer_queue msg c r c' : deferForDataArray msg c = Ok (r, c') ->
  queue c' = queue c /\ protocol c' = protocol c /\ (r = false -> c' = c).
Proof.
  unfold deferForDataArray.
  assert (G : (let! c' := arrayEnqueue (mkOp MESSAGE msg [] 0 false 0) c in Ok (true, c')) = Ok (r, c') ->
    queue c' = queue c /\ protocol c' = protocol c /\ (r = false -> c' = c)).
  { intros (c1 & E%arrayEnqueue_addrs & [= <- <-])%obind_Ok. destruct E as [Es Eq].
    split_and!; [by injection Eq|by injection Es|done]. }
  intros H. destruct (negb _); [destruct (_ || _ || _)|case_decide];
    try (injection H as <- <-; done); apply obind_Ok in H as ([] & _ & H); try (by apply G);
    injection H as <- <-; done.
Qed.

(** A message served to the end leaves the queue lighter. *)
Lemma serve_load c m c1 c2 : serves_ready (protocol c) -> next_ready c = Ok (Some m, c1) ->
  serve m c1 = Ok (true, c2) -> (load c2 < load c)%nat /\ protocol c2 = protocol c.
Proof.
  intros Hp E Es. assert (Ep : protocol c1 = protocol c).
  { unfold next_ready in E. by apply obind_Ok in E as ([r b] & _ & [= _ <-]). }
  pose proof (next_ready_load _ _ _ Hp E) as Hl. unfold serve in Es.
  destruct (negb (canAdmitRequest m c1)); [done|].
  apply obind_Ok in Es as ([d c3] & (Eq & Ep3 & Ed)%defer_queue & Es). destruct d.
  { injection Es as <-. unfold load in *. rewrite Eq. split; [lia|congruence]. }
  rewrite (Ed eq_refl) in *. clear Ed Eq Ep3 c3. destruct (negb (canAdmitRequest m c1)); [done|].
  apply obind_Ok in Es as ([m' acts] & Epr & Es). apply obind_Ok in Es as (c4 & Ea & [= <-]).
  split; [|apply do_actions_skeleton in Ea; injection Ea; congruence].
  apply do_actions_load in Ea. rewrite <- Ep in Hp. destruct Hl as [Hl|(Hl & m0 & st & Hr)].
  - pose proof (sr_once _ Hp _ _ _ _ _ Epr). lia.
  - pose proof (sr_ready _ Hp _ _ _ _ _ _ _ Hr Epr) as Hf.
    assert (filter (fun a => ca_type a = STALL) acts = []) as Enil; [|rewrite Enil in Ea; cbn in Ea; lia].
    apply filter_nil_iff. intros a Ha. by apply (proj1 (Forall_forall _ _) Hf).
Qed.

End Loop.

(** ** The protocols keep the promise *)

Lemma no_stall_filter acts : Forall (fun a => ca_type a <> STALL) acts ->
  filter (fun a => ca_type a = STALL) acts = [].
Proof. intros H. apply filter_nil_iff. intros a Ha. by apply (proj1 (Forall_forall _ _) H). Qed.

(** The actions of an L1 transition: none stalls, or the one stall. *)
Lemma L1_stalls p s m m' acts : stall_table (m_fsm (snd p)) -> L1_processRequest p s m = Ok (m', acts) ->
  exists e row, L1_readEvent p m = Ok (e, m') /\ fsm_row (m_fsm (snd p)) (state (line_bits s (msg_addr m))) = Ok row /\
    if has_id (getActions row e) MSI.Stall then acts = [act STALL (dup m')]
    else Forall (fun a => ca_type a <> STALL) acts.
Proof.
  intros Htab. unfold L1_processRequest, getTransition. intros ([e m1] & He & H)%obind_Ok.
  apply obind_Ok in H as ([ns al] & Ht & H). apply obind_Ok in Ht as (row & Hrow & [= <- <-]).
  apply obind_Ok in H as (acts' & Ha & [= <- <-]). exists e, row. split_and!; [done..|].
  destruct (has_id (getActions row e) MSI.Stall) eqn:Eh.
  - rewrite (stall_table_row _ _ _ _ Htab Hrow Eh) in Ha. by apply L1_handle_stall in Ha.
  - eapply L1_handle_no_stall; [|exact Ha]. intros Hin%has_id_elem. congruence.
Qed.

Lemma L1_serves_ready (p : L1Protocol) : stall_table (m_fsm (snd p)) -> pure_readEvent (fst p) = true ->
  serves_ready p.
Proof.
  intros Htab Hpure. split; cbn.
  - intros _ s m st st' m'. unfold L1_getRequestState. intros ([e m1] & _ & H)%obind_Ok.
    apply obind_Ok in H as ([] & _ & [= <- _]); auto.
  - intros _ s m m' acts (e & row & _ & _ & H)%L1_stalls; [|done].
    destruct (has_id _ _); [subst; rewrite filter_cons, filter_nil; case_decide; cbn; lia|]. rewrite no_stall_filter by done; cbn; lia.
  - intros _ s m st m1 m' acts Hr (e & row & He & Hrow & H)%L1_stalls; [|done].
    unfold L1_getRequestState, isStall in Hr. apply obind_Ok in Hr as ([e1 m2] & He1 & Hr).
    pose proof (readEvent_pure _ _ _ _ Hpure He1) as ->.
    apply obind_Ok in Hr as (b & Hb & [= Hb' <-]). rewrite Hrow in Hb. cbn in Hb.
    rewrite (proj1 Htab) in Hb. cbn in Hb. injection Hb as <-.
    rewrite He in He1. injection He1 as -> _. by destruct (has_id (getActions row e1) MSI.Stall).
Qed.

Lemma LLC_step_no_stall p msg s a s' : Forall (fun c => ca_type c <> STALL) s.1 ->
  LLCMSI.action_step p msg s a = Ok s' -> Forall (fun c => ca_type c <> STALL) s'.1.
Proof.
  destruct s as [acts line]. cbn. intros Hacts. unfold LLCMSI.action_step.
  repeat case_match; try done; intros [= <-]; cbn; rewrite ?Forall_app; split_and?; try done;
    repeat constructor; cbn; try (unfold LLCMSI.response_type; case_decide); done.
Qed.

Lemma LLCMSI_no_stall p actions msg line next acts : LLCMSI.handleAction p actions msg line next = Ok acts ->
  Forall (fun c => ca_type c <> STALL) acts.
Proof.
  unfold LLCMSI.handleAction. intros ([acts0 l] & H & H')%obind_Ok. apply obind_Ok in H' as (v & _ & [= <-]).
  apply Forall_app. split; [|by repeat constructor].
  refine (ofold_inv (fun s => Forall (fun c => ca_type c <> STALL) s.1) _ _ _ _ _ _ H); [|constructor].
  intros t a t' _ Ht. by apply LLC_step_no_stall.
Qed.

Lemma LLC_no_stall p actions msg line next acts : LLC_handleAction p actions msg line next = Ok acts ->
  Forall (fun c => ca_type c <> STALL) acts.
Proof.
  destruct p as [[] q]; cbn; [apply LLCMSI_no_stall| | |];
    unfold LLCMESI.handleAction, LLCPMSI.handleAction, LLCPMESI.handleAction;
    repeat (destruct (erase_first _ _) as [? ?]);
    intros (acts0 & H%LLCMSI_no_stall & [= <-])%obind_Ok;
    repeat case_match; rewrite ?Forall_app; split_and?; try done;
    repeat constructor; cbn; try (unfold LLCMSI.response_type; case_decide); done.
Qed.

Lemma LLC_serves_ready (p : LLCProtocol) : serves_ready p.
Proof.
  assert (G : forall s m m' acts, LLC_processRequest p s m = Ok (m', acts) -> Forall (fun a => ca_type a <> STALL) acts).
  { intros s m m' acts. unfold LLC_processRequest. intros (e & _ & H)%obind_Ok.
    apply obind_Ok in H as ([ns al] & _ & H). apply obind_Ok in H as (acts' & H%LLC_no_stall & [= _ <-]). done. }
  split; cbn.
  - intros _ s m st st' m'. unfold LLC_getRequestState. intros (e & _ & H)%obind_Ok.
    destruct (has_data m); [injection H as <- _; auto|]. apply obind_Ok in H as ([] & _ & [= <- _]); auto.
  - intros _ s m m' acts H%G. rewrite no_stall_filter by done. cbn. lia.
  - intros _ s m st m1 m' acts _. apply G.
Qed.
