(* ===== verification/ControllerData.v ===== *)
(** * What a controller sends and stores

    Answers to parked requests, supplies to other cores, stores, and the bounds
    of admission, over interfaces that keep [CommInterfaceLaws]. *)

From S2P Require Export ControllerTheory.

Section Data.
Context {P IU IL : Type} `{!CoherenceProtocol P, !CommInterface IU, !CommInterface IL,
  !CommInterfaceLaws IU, !CommInterfaceLaws IL}.
Abbreviation C := (@Controller P IU IL).
Implicit Types c : C.

(** A message as an interface stores it. *)
Definition sent {I} `{CommInterface I} (i : I) (cycle : Z) (m : Message) : Message :=
  set_msg_from (ci_id i) (if cycle =? 0 then m else set_msg_cycle cycle m).

Lemma push_lower_spec msg t site c c' : push_lower msg t site c = Ok c' ->
  exists i, c' = set_lower i c /\ ci_id i = ci_id (lower c) /\ ci_rx i = ci_rx (lower c) /\
    ci_tx i ≡ₚ sent (lower c) (cache_cycle c) msg :: ci_tx (lower c).
Proof.
  unfold push_lower. intros ([ok i] & E & H)%obind_Ok. destruct ok; [|done]. injection H as <-.
  apply ci_push_ok in E as (E1 & E2 & E3). by exists i.
Qed.

Lemma push_upper_spec msg t site c c' : push_upper msg t site c = Ok c' ->
  exists i, c' = set_upper i c /\ ci_id i = ci_id (upper c) /\ ci_rx i = ci_rx (upper c) /\
    ci_tx i ≡ₚ sent (upper c) (cache_cycle c) msg :: ci_tx (upper c).
Proof.
  unfold push_upper. intros ([ok i] & E & H)%obind_Ok. destruct ok; [|done]. injection H as <-.
  apply ci_push_ok in E as (E1 & E2 & E3). by exists i.
Qed.

(** ** Answers to parked requests *)

Definition commits (pending : list Message) : list CpuEvent := (fun p => Commit (msg_id p) (msg_addr p)) <$> pending.

(** Everything but the lower interface and the core's log is as before. *)
Definition answered_from c c' (pending : list Message) (answer : Message -> Message) : Prop :=
  (exists i l, c' = set_cpu_port l (set_lower i c) /\ l = (fun e => e ++ commits pending) <$> m_cpu_port c) /\
  ci_id (lower c') = ci_id (lower c) /\ ci_rx (lower c') = ci_rx (lower c) /\
  ci_tx (lower c') ≡ₚ (sent (lower c) (cache_cycle c) ∘ answer <$> pending) ++ ci_tx (lower c).

Lemma respond_one msg d c p c' : msg_data msg = Some d -> respond_pending msg c p = Ok c' ->
  answered_from c c' [p] (pending_response msg d).
Proof.
  intros Hd. unfold respond_pending. rewrite Hd. set (p' := pending_response msg d p).
  intros (i & -> & Ei & Er & Et)%push_lower_spec. unfold tell_cpu, answered_from in *.
  destruct (m_cpu_port c) as [l|] eqn:Ec; cbn in *; (split; [|by split_and!]).
  - exists i, (Some (l ++ commits [p])). split; [|done]. by destruct c.
  - exists i, None. split; [|done]. destruct c; cbn in *. by subst.
Qed.

Lemma respond_all msg d pending c c' : msg_data msg = Some d -> ofold (respond_pending msg) pending c = Ok c' ->
  answered_from c c' pending (pending_response msg d).
Proof.
  intros Hd. revert c. induction pending as [|p pending IH]; intros c; cbn [ofold].
  - intros [= <-]. split; [|done]. exists (lower c), (m_cpu_port c). split; [by destruct c|].
    destruct (m_cpu_port c) as [l|]; [|done]. cbn. by rewrite app_nil_r.
  - intros (c1 & E & H%IH)%obind_Ok. apply (respond_one msg d) in E; [|done].
    destruct E as ((i & l & -> & ->) & Ei & Er & Et), H as ((i' & l' & -> & ->) & Ei' & Er' & Et').
    cbn in *. split; [|split_and!; cbn; [congruence..|]].
    + exists i', ((fun e => e ++ commits (p :: pending)) <$> m_cpu_port c). split; [|done].
      destruct (m_cpu_port c) as [l|]; cbn; [|done]. by rewrite <- app_assoc.
    + rewrite Et'. cbn. unfold sent in *. rewrite Ei. rewrite Et. cbn. by rewrite Permutation_middle.
Qed.

(** C26: a completed request answers everyone who waits for the line.  When
    bytes arrive for a line, each request parked on it is answered, once, with
    those bytes, as a data response towards the core that sent it; the core model is told of each
    commit in arrival order; the line's entry is removed and no other. *)
Theorem removePending_answers_all msg d c c' : msg_data msg = Some d ->
  base_removePendingAndRespond msg c = Ok c' ->
  exists pending, m_pending_requests c !! getAddressKey c (msg_addr msg) = Some pending /\
    ci_tx (lower c') ≡ₚ (sent (lower c) (cache_cycle c) ∘ pending_response msg d <$> pending) ++ ci_tx (lower c) /\
    Forall (fun m => msg_kind m = K_RESP /\ msg_data m = Some (take 64 d)) (pending_response msg d <$> pending) /\
    m_pending_requests c' = delete (getAddressKey c (msg_addr msg)) (m_pending_requests c) /\
    m_cpu_port c' = (fun e => e ++ commits pending) <$> m_cpu_port c /\
    data_handler c' = data_handler c.
Proof.
  intros Hd. unfold base_removePendingAndRespond, fill_data, has_data. rewrite Hd. cbn [obind].
  destruct (m_pending_requests c !! _) as [pending|] eqn:Ep; [|done].
  intros (c2 & E & [= <-])%obind_Ok. exists pending.
  apply (respond_all msg d) in E as ((i & l & -> & ->) & Ei & Er & Et); [|done]. cbn in *.
  split_and!; try done. apply Forall_fmap, Forall_true. intros p. done.
Qed.

(** ** Supplies *)

Lemma push_to_elem id m : w16 id ∈ msg_to (push_to id m).
Proof. apply elem_of_app. right. by left. Qed.

Lemma fanout_fields others msg :
  let r := foldl (fun msg saved => push_to (msg_owner saved) msg) msg others in
  msg_to r = msg_to msg ++ ((fun s => w16 (msg_owner s)) <$> others) /\
  msg_data r = msg_data msg /\ msg_owner r = msg_owner msg /\ msg_id r = msg_id msg /\ msg_addr r = msg_addr msg.
Proof.
  revert msg. induction others as [|o others IH]; intros msg; cbn; [by rewrite app_nil_r|].
  destruct (IH (push_to (msg_owner o) msg)) as (-> & -> & -> & -> & ->). cbn.
  by rewrite <- app_assoc.
Qed.


(** ** Stores *)


(** ** Admission *)

(** The miss bound.  A demand to a line that is nowhere in the cache opens
    a pending entry only within the configured number of outstanding misses; and
    when the external core's port is not blocked, no demand is turned away. *)
Theorem admission_bound msg c outstanding : 0 <= m_num_mshr (cfg c) ->
  isDemandRequest msg = true ->
  (isAddressTracked (data_handler c) (msg_addr msg) = false ->
   Z.of_nat (size (m_pending_requests c)) <= m_num_mshr (cfg c) ->
   canAdmitRequest msg c = true ->
   Z.of_nat (size (m_pending_requests (addtoPendingRequests msg c))) <= m_num_mshr (cfg c)) /\
  (demandAdmissionBlocked outstanding c = false -> canAdmitRequest msg c = true).
Proof.
  intros Hn Hdem. split.
  - intros Ht Hsz. unfold canAdmitRequest. rewrite Hdem, Ht. cbn [negb orb].
    intros H. unfold addtoPendingRequests. rewrite demand_no_data by done. unfold base_addtoPendingRequests. cbn.
    destruct (m_pending_requests c !! getAddressKey c (msg_addr msg)) as [l|] eqn:El.
    + rewrite map_size_insert_Some by eauto. done.
    + rewrite map_size_insert_None by done. rewrite bool_decide_false in H by (by intros [? [=]]).
      cbn in H. destruct (Z.leb_spec 0 (m_num_mshr (cfg c))); [|lia]. cbn in H.
      apply negb_true_iff, Z.leb_gt in H. lia.
  - unfold demandAdmissionBlocked, canAdmitRequest. intros H. apply orb_false_iff in H as [H _].
    apply orb_false_iff in H as [_ H]. rewrite H. by rewrite orb_true_r.
Qed.
End Data.
