(* ===== verification/DirTheory.v ===== *)
(** * Properties of the directory protocols

    The acknowledgements a write waits for, the owner and the sharers the shared
    cache records, and the obligations towards the controller. *)

From S2P Require Export DirL1 DirLLC ControllerLive.

(** ** What a controller is promised *)

#[export] Instance L1Dir_laws : ProtocolLaws L1Directory.
Proof.
  split. intros p ct s m st st' m'. cbn. unfold L1Dir_getRequestState.
  intros (e & _ & H)%obind_Ok. by apply obind_Ok in H as (b & _ & [= _ <-]).
Qed.

#[export] Instance LLCDir_laws : ProtocolLaws LLCDirectory.
Proof.
  split. intros p ct s m st st' m'. cbn. unfold LLCDir_getRequestState.
  intros (e & _ & H)%obind_Ok. destruct (has_data m); [by injection H as _ <-|].
  by apply obind_Ok in H as (b & _ & [= _ <-]).
Qed.

Definition no_stall (acts : list ControllerAction) : Prop := Forall (fun a => ca_type a <> STALL) acts.

Lemma no_stall_app l1 l2 : no_stall (l1 ++ l2) <-> no_stall l1 /\ no_stall l2.
Proof. apply Forall_app. Qed.

Lemma no_stall_one a : no_stall [a] <-> ca_type a <> STALL.
Proof. unfold no_stall. rewrite Forall_singleton. done. Qed.

Ltac solve_no_stall :=
  rewrite ?no_stall_app; split_and?; try done; unfold no_stall; repeat constructor; cbn; try case_decide; done.

Lemma hit_no_stall ct s msg : no_stall (MSIDir.hit_actions ct s msg).
Proof.
  unfold MSIDir.hit_actions. rewrite !no_stall_app. split_and!; [|by case_match; repeat constructor|by repeat constructor].
  repeat case_match; by repeat constructor.
Qed.

Lemma MSIDir_step_no_stall p ct s msg acts a acts' : a <> MSIDir.Stall -> no_stall acts ->
  MSIDir.action_step p ct s msg acts a = Ok acts' -> no_stall acts'.
Proof.
  intros Ha Hacts Hs. unfold MSIDir.action_step in Hs. rewrite (proj2 (Z.eqb_neq _ _) Ha) in Hs.
  destruct (a =? MSIDir.Hit).
  { injection Hs as <-. apply no_stall_app. split; [done|apply hit_no_stall]. }
  repeat case_match; try done; injection Hs as <-; solve_no_stall.
Qed.

Lemma MSIDir_no_stall p ct s actions msg line next acts : MSIDir.Stall ∉ actions ->
  MSIDir.handleAction p ct s actions msg line next = Ok acts -> no_stall acts.
Proof.
  intros Hno. unfold MSIDir.handleAction. intros (start & Hstart & H)%obind_Ok.
  assert (Hs : no_stall start).
  { destruct (MSI.stalled actions); [by injection Hstart as <-; constructor|].
    apply obind_Ok in Hstart as (v & _ & [= <-]). by repeat constructor. }
  eapply (ofold_inv no_stall); [|exact Hs|exact H].
  intros t a t' Ha Ht. apply MSIDir_step_no_stall; [|done]. by intros ->.
Qed.

Lemma MESIDir_no_stall p ct s actions msg line next acts : MSIDir.Stall ∉ actions ->
  MESIDir.handleAction p ct s actions msg line next = Ok acts -> no_stall acts.
Proof.
  intros Hno. unfold MESIDir.handleAction. pose proof (erase_first_elem MESIDir.PutE actions MSIDir.Stall) as He.
  destruct (erase_first MESIDir.PutE actions) as [b l]. cbn in He.
  intros (acts0 & H0%MSIDir_no_stall & [= <-])%obind_Ok; [|by auto]. destruct b; solve_no_stall.
Qed.

Lemma L1Dir_no_stall p ct s actions msg line next acts : MSIDir.Stall ∉ actions ->
  L1Dir_handleAction p ct s actions msg line next = Ok acts -> no_stall acts.
Proof.
  intros Hno. destruct p as [[] q]; cbn; [by apply MSIDir_no_stall|by apply MESIDir_no_stall|].
  unfold MOESIDir.handleAction. intros (acts0 & H0%MESIDir_no_stall & [= <-])%obind_Ok.
  - repeat case_match; rewrite ?no_stall_app; split_and?; try done;
      repeat (constructor; [done|]); rewrite ?Forall_app; split_and?; try done; by repeat constructor.
  - unfold MOESIDir.erase_all. intros [_ H]%list_elem_of_filter. done.
Qed.

Lemma L1Dir_handle_stall p ct s msg line next acts :
  L1Dir_handleAction p ct s [MSIDir.Stall] msg line next = Ok acts -> acts = [act STALL (dup msg)].
Proof. destruct p as [[] q]; cbn; by intros [= <-]. Qed.

Lemma L1Dir_stalls p ct s m m' acts : stall_table (m_fsm (snd p)) -> L1Dir_processRequest p ct s m = Ok (m', acts) ->
  m' = m /\ exists e row, L1Dir_readEvent p ct s m = Ok e /\
    fsm_row (m_fsm (snd p)) (state (line_bits s (msg_addr m))) = Ok row /\
    if has_id (getActions row e) MSI.Stall then acts = [act STALL (dup m)] else no_stall acts.
Proof.
  intros Htab. unfold L1Dir_processRequest, getTransition. intros (e & He & H)%obind_Ok.
  apply obind_Ok in H as ([ns al] & Ht & H). apply obind_Ok in Ht as (row & Hrow & [= <- <-]).
  apply obind_Ok in H as (acts' & Ha & [= <- <-]). split; [done|]. exists e, row. split_and!; [done..|].
  destruct (has_id (getActions row e) MSI.Stall) eqn:Eh.
  - rewrite (stall_table_row _ _ _ _ Htab Hrow Eh) in Ha. by apply L1Dir_handle_stall in Ha.
  - eapply L1Dir_no_stall; [|exact Ha]. intros Hin%has_id_elem. change MSIDir.Stall with MSI.Stall in Hin. congruence.
Qed.

(** Readiness is read off the copy of the message a queue holds. *)
Lemma L1Dir_event_dup p ct s m : L1Dir_readEvent p ct s (dup m) = L1Dir_readEvent p ct s m.
Proof. destruct m as [? ? ? ? ? ? ? ? [] [d|] ? ?]; by destruct p as [[] q]. Qed.

Lemma L1Dir_serves_ready (p : L1Directory) : stall_table (m_fsm (snd p)) -> serves_ready p.
Proof.
  intros Htab. split; cbn.
  - intros ct s m st st' m'. unfold L1Dir_getRequestState. intros (e & _ & H)%obind_Ok.
    apply obind_Ok in H as ([] & _ & [= <- _]); auto.
  - intros ct s m m' acts (_ & e & row & _ & _ & H)%L1Dir_stalls; [|done].
    destruct (has_id _ _); [subst; rewrite filter_cons, filter_nil; case_decide; cbn; lia|].
    rewrite no_stall_filter by done. cbn. lia.
  - intros ct s m st m1 m' acts Hr (_ & e & row & He & Hrow & H)%L1Dir_stalls; [|done].
    unfold L1Dir_getRequestState, isStall in Hr. apply obind_Ok in Hr as (e1 & He1 & Hr).
    apply obind_Ok in Hr as (b & Hb & [= Hb' <-]). rewrite Hrow, (proj1 Htab) in Hb. cbn in Hb. injection Hb as <-.
    rewrite L1Dir_event_dup, He in He1. injection He1 as ->. by destruct (has_id (getActions row e1) MSI.Stall).
Qed.

Lemma LLCMSIDir_no_stall p ct s actions msg line next acts :
  LLCMSIDir.handleAction p ct s actions msg line next = Ok acts -> no_stall acts.
Proof.
  unfold LLCMSIDir.handleAction. intros ([acts0 l] & H & H')%obind_Ok. apply obind_Ok in H' as (v & _ & [= <-]).
  apply no_stall_app. split; [|by repeat constructor].
  refine (ofold_inv (fun st => no_stall st.1) _ _ _ _ _ _ H); [|constructor].
  intros [acts1 l1] a [acts2 l2] _ H1. cbn in *. unfold LLCMSIDir.action_step, sharers_at.
  repeat case_match; try done; cbn [obind]; intros [= <- _]; try done; apply no_stall_app; (split; [done|]);
    repeat constructor; cbn; try (unfold LLCMSI.response_type; case_decide); done.
Qed.

Lemma LLCDir_no_stall p ct s actions msg line next acts : LLCDir_handleAction p ct s actions msg line next = Ok acts ->
  no_stall acts.
Proof.
  assert (G : forall q l acts, LLCMESIDir.handleAction q ct s l msg line next = Ok acts -> no_stall acts).
  { intros q l acts1. unfold LLCMESIDir.handleAction. destruct (erase_first _ _) as [b l'].
    intros (acts0 & H%LLCMSIDir_no_stall & [= <-])%obind_Ok. destruct b; [|done].
    apply no_stall_app. split; [done|]. repeat constructor. cbn. unfold LLCMSI.response_type. by case_decide. }
  destruct p as [[] q]; cbn; [apply LLCMSIDir_no_stall|apply G|].
  unfold LLCMOESIDir.handleAction. intros (acts0 & H%G & H1)%obind_Ok.
  apply obind_Ok in H1 as (acts1 & H1 & H2). apply obind_Ok in H2 as (acts2 & H2 & [= <-]).
  assert (K1 : no_stall acts1).
  { destruct (MOESIDir.has LLCMSIDir.SendInv _); [apply obind_Ok in H1 as (l & _ & [= <-])|injection H1 as <-];
      destruct (MOESIDir.has LLCMOESIDir.sendAckC _); solve_no_stall. }
  assert (K2 : no_stall acts2).
  { destruct (MOESIDir.has LLCMSIDir.FwdGetM _); [apply obind_Ok in H2 as (l & _ & [= <-])|injection H2 as <-];
      solve_no_stall. }
  destruct (MOESIDir.has LLCMOESIDir.SendInvM _); solve_no_stall.
Qed.

Lemma LLCDir_serves_ready (p : LLCDirectory) : serves_ready p.
Proof.
  assert (G : forall ct s m m' acts, LLCDir_processRequest p ct s m = Ok (m', acts) -> no_stall acts).
  { intros ct s m m' acts. unfold LLCDir_processRequest. intros (e & _ & H)%obind_Ok.
    apply obind_Ok in H as ([ns al] & _ & H). apply obind_Ok in H as (acts' & H%LLCDir_no_stall & [= _ <-]). done. }
  split; cbn.
  - intros ct s m st st' m'. unfold LLCDir_getRequestState. intros (e & _ & H)%obind_Ok.
    destruct (has_data m); [injection H as <- _; auto|]. apply obind_Ok in H as ([] & _ & [= <- _]); auto.
  - intros ct s m m' acts H%G. rewrite no_stall_filter by done. cbn. lia.
  - intros ct s m st m1 m' acts _. apply G.
Qed.

(** ** The shipped tables *)

Definition l1dir_fsm (cls : L1DirClass) : FSMReader :=
  fsm_of match cls with
         | MSIDirectory => MSI_directory_csv | MESIDirectory => MESI_directory_csv | MOESIDirectory => MOESI_directory_csv
         end.
Definition llcdir_fsm (cls : LLCDirClass) : FSMReader :=
  fsm_of match cls with
         | LLCMSIDirectory => MSI_LLC_directory_csv | LLCMESIDirectory => MESI_LLC_directory_csv
         | LLCMOESIDirectory => MOESI_LLC_directory_csv
         end.

Lemma l1dir_stall_table cls : stall_table (l1dir_fsm cls).
Proof. destruct cls; by vm_compute. Qed.

(** One entry of a table: the actions and the state it leads to. *)
Definition cell (r : FSMReader) (st : string) (event : Z) (acts : list Z) (next : string) : Prop :=
  getTransition r (getState r st) event = Ok (getState r next, acts) /\ is_ok (isValidState r (getState r next)) = true.

Ltac solve_cell := split; vm_compute; reflexivity.

(** The rows of a write that waits for data and acknowledgements; [w]: it started
    from a shared copy. *)
Definition wait_data (w : bool) : string := if w then "SM_ad" else "IM_ad".
Definition wait_acks (w : bool) : string := if w then "SM_a" else "IM_a".

Lemma cell_ack_early cls w : cell (l1dir_fsm cls) (wait_data w) MSIDir.InvAck [MSIDir.Ack_dec] (wait_data w).
Proof. destruct cls, w; solve_cell. Qed.
Lemma cell_ack cls w : cell (l1dir_fsm cls) (wait_acks w) MSIDir.InvAck [MSIDir.Ack_dec] (wait_acks w).
Proof. destruct cls, w; solve_cell. Qed.
Lemma cell_ack_last cls w : cell (l1dir_fsm cls) (wait_acks w) MSIDir.lastInvAck [MSIDir.Hit; MSIDir.Ack_dec] "M".
Proof. destruct cls, w; solve_cell. Qed.
Lemma cell_data cls w : cell (l1dir_fsm cls) (wait_data w) MSIDir.Data_nonZeroAck [MSIDir.AckNum_set] (wait_acks w).
Proof. destruct cls, w; solve_cell. Qed.
Lemma cell_data_last cls w : cell (l1dir_fsm cls) (wait_data w) MSIDir.Data_zeroAck [MSIDir.Hit] "M".
Proof. destruct cls, w; solve_cell. Qed.

Lemma wait_not_M cls w : getState (l1dir_fsm cls) (wait_data w) <> getState (l1dir_fsm cls) "M" /\ getState (l1dir_fsm cls) (wait_acks w) <> getState (l1dir_fsm cls) "M".
Proof. destruct cls, w; by vm_compute. Qed.

(** ** Collecting acknowledgements *)

Lemma dup_nodata m : has_data m = false -> dup m = m.
Proof. by destruct m as [? ? ? ? ? ? ? ? ? [] ? ?]. Qed.

Lemma dup_fields m : msg_addr (dup m) = msg_addr m /\ complementary_value (dup m) = complementary_value m /\
  msg_owner (dup m) = msg_owner m /\ msg_id (dup m) = msg_id m.
Proof. by destruct m as [? ? ? ? ? ? ? ? ? [] ? ?]. Qed.

(** The state an action list stores, and whether it answers the core. *)
Definition stored_state (acts : list ControllerAction) : option Z :=
  match filter (fun a => ca_type a = UPDATE_CACHE_LINE) acts with a :: _ => state <$> ca_line a | [] => None end.
Definition completes (acts : list ControllerAction) : bool :=
  existsb (fun a => bool_decide (ca_type a = HIT_Action) || bool_decide (ca_type a = REMOVE_PENDING)) acts.

Section Collect.
(** A private cache; [store st] is its data handler while the line at [a] is in
    state [st]. *)
Context (p : L1Directory) (a key : Z) (store : Z -> COTS).
Hypothesis Hfsm : m_fsm (snd p) = l1dir_fsm (fst p).
Hypothesis Hstate : forall st, state (line_bits (store st) a) = st.
Hypothesis Hkey : forall st, line_key (store st) a = key.

(** The messages of one write are processed one after the other: the line's
    state and the counters follow the actions, which are logged. *)
Fixpoint collect (st : Z) (ct : DirCounters) (msgs : list Message) : outcome (Z * DirCounters * list (list ControllerAction)) :=
  match msgs with
  | [] => Ok (st, ct, [])
  | m :: msgs' =>
      let! (_, acts) := L1Dir_processRequest p ct (store st) m in
      let! (st', ct', log) := collect (default st (stored_state acts))
                                (foldl (counter_step (line_key (store st))) ct acts) msgs' in
      Ok (st', ct', acts :: log)
  end.

Definition is_ack (m : Message) : Prop :=
  msg_addr m = a /\ msg_source m = UPPER_INTERCONNECT /\ has_data m = false /\
  complementary_value m = MSIDir.REQUEST_TYPE_INV_ACK /\ complementary_value2 m = 0.
(** The shared cache's data: [n] acknowledgements are to come. *)
Definition is_data (n : Z) (m : Message) : Prop :=
  msg_addr m = a /\ msg_source m = UPPER_INTERCONNECT /\ has_data m = true /\
  msg_from m = m_shared_memory_id (snd p) /\ complementary_value m = n /\ complementary_value2 m = 0.

Abbreviation tab := (l1dir_fsm (fst p)).

(** The actions that only count, or answer the core, are [MSIDirectory]'s in every class. *)
Lemma process_cell ct m st e al next : msg_addr m = a -> L1Dir_readEvent p ct (store (getState tab st)) m = Ok e ->
  cell tab st e al next ->
  al ∈ [[MSIDir.Ack_dec]; [MSIDir.AckNum_set]; [MSIDir.Hit]; [MSIDir.Hit; MSIDir.Ack_dec]] ->
  exists acts v, L1Dir_processRequest p ct (store (getState tab st)) m = Ok (m, acts) /\
    ofold (MSIDir.action_step (snd p) ct (store (getState tab st)) m) al
      [act_line UPDATE_CACHE_LINE (dup m) (copy (set_state (getState tab next)
        (set_valid v (line_bits (store (getState tab st)) a))) newLine)] = Ok acts.
Proof.
  intros Ha He [Ht Hv] Hal. unfold L1Dir_processRequest. rewrite He, Ha, Hstate, Hfsm. cbn [obind].
  rewrite Ht. cbn [obind]. destruct (isValidState tab (getState tab next)) as [v| |] eqn:Ev; [|done..].
  destruct p as [cls q]. cbn [fst snd] in *.
  rewrite !elem_of_cons, elem_of_nil in Hal. destruct Hal as [->|[->|[->|[->|[]]]]];
    (eexists _, v; split; [|reflexivity]); destruct cls; cbn [L1Dir_handleAction];
    unfold MOESIDir.handleAction, MESIDir.handleAction, MSIDir.handleAction;
    cbn -[fsm_of l1dir_fsm MSIDir.hit_actions]; rewrite Hfsm, Ev; reflexivity.
Qed.

Definition entry (ct : DirCounters) : option Z := m_ack_counters ct !! key.

(** Where a write stands after [j] acknowledgements, with or without its data. *)
Definition phase (w : bool) (n : Z) (data : bool) (j : Z) (st : Z) (ct : DirCounters) : Prop :=
  if data then
    if j =? n then st = getState tab "M" /\ entry ct = None
    else st = getState tab (wait_acks w) /\ entry ct = Some (n - j)
  else st = getState tab (wait_data w) /\ entry ct = if j =? 0 then None else Some (- j).

Lemma ack_event ct s m st : is_ack m -> line_key s a = key -> st = entry ct ->
  L1Dir_readEvent p ct s m =
    Ok (if match st with Some k => w64 (k - 1) =? 0 | None => false end then MSIDir.lastInvAck else MSIDir.InvAck).
Proof.
  intros (Ha & Hs & Hd & Hc & Hc2) Hk ->. destruct p as [[] q]; cbn;
    unfold MOESIDir.readEvent, MESIDir.readEvent, MSIDir.readEvent, ack_balance, entry;
    rewrite ?Hs, ?Hd, ?Hc, ?Hc2, Ha, Hk; cbn; by destruct (m_ack_counters ct !! key).
Qed.

Lemma data_event ct s n m : is_data n m -> 0 <= n < 2 ^ 31 -> line_key s a = key ->
  L1Dir_readEvent p ct s m = Ok (if (n =? 0) || ack_balance ct key n then MSIDir.Data_zeroAck else MSIDir.Data_nonZeroAck).
Proof.
  intros (Ha & Hs & Hd & Hf & Hc & Hc2) Hn Hk.
  destruct p as [[] q]; cbn; unfold MOESIDir.readEvent, MESIDir.readEvent, MSIDir.readEvent, MSIDir.data_event;
    cbn in Hf; rewrite ?Hs, ?Hd, ?Hc, ?Hc2, Ha, Hk, ?Hf, ?Z.eqb_refl; cbn -[Z.eqb];
    unfold MESIDir.RESPONSE_TYPE_EXECLUSIVE_DATA, MOESIDir.RESPONSE_TYPE_ACKCOUNT;
    rewrite ?(proj2 (Z.eqb_neq n 0xFFFFFFFF)) by lia; rewrite ?andb_false_r; destruct (n =? 0); cbn; try done;
    by destruct (ack_balance ct key n).
Qed.

Lemma bump_entry n ct : entry (bump_ack key n ct) =
  let v := i64 (default 0 (entry ct) + n) in if v =? 0 then None else Some v.
Proof. unfold entry, bump_ack. cbn. case_match; by simplify_map_eq. Qed.

Lemma hit_counters k ct s m : foldl (counter_step k) ct (MSIDir.hit_actions ct s m) =
  if bool_decide (msg_source m = UPPER_INTERCONNECT) && ack_balance ct (line_key s (msg_addr m)) (complementary_value m)
  then bump_ack (k (msg_addr m)) (complementary_value m) ct else ct.
Proof.
  pose proof (dup_fields m) as (Ea & Ec & _). unfold MSIDir.hit_actions.
  destruct (bool_decide (msg_source m = UPPER_INTERCONNECT)), (ack_balance _ _ _), (_ || _); cbn;
    unfold counter_step; cbn; by rewrite ?Ea, ?Ec.
Qed.

(** What one message of the write does. *)
Definition advances (w : bool) (n : Z) (data' : bool) (j' : Z) (st : Z) (ct : DirCounters) (m : Message) : Prop :=
  exists acts, L1Dir_processRequest p ct (store st) m = Ok (m, acts) /\
    phase w n data' j' (default st (stored_state acts)) (foldl (counter_step (line_key (store st))) ct acts) /\
    completes acts = data' && (j' =? n).

Lemma stored_update m st v l rest :
  stored_state (act_line UPDATE_CACHE_LINE m (copy (set_state st (set_valid v l)) newLine) :: rest) = Some st.
Proof. unfold stored_state, copy. cbn. by destruct (line_data _). Qed.

Lemma hit_completes x ct s m rest : completes (x :: MSIDir.hit_actions ct s m ++ rest) = true.
Proof.
  unfold completes. cbn [existsb]. rewrite existsb_app. unfold MSIDir.hit_actions. rewrite existsb_app.
  assert (existsb (fun b => bool_decide (ca_type b = HIT_Action) || bool_decide (ca_type b = REMOVE_PENDING))
    (if bool_decide (msg_source m = LOWER_INTERCONNECT) || negb (has_data m)
     then (if bool_decide (msg_source m = UPPER_INTERCONNECT) then [act REMOVE_PENDING_NORESPONSE (dup m)] else []) ++
          [act HIT_Action (dup m)]
     else [act REMOVE_PENDING (dup m)]) = true) as -> by (by repeat case_match).
  by rewrite orb_true_r.
Qed.

(** A message that only counts. *)
Lemma count_step w n data j st e al next k ct m : msg_addr m = a ->
  L1Dir_readEvent p ct (store (getState tab st)) m = Ok e -> cell tab st e al next ->
  (al = [MSIDir.Ack_dec] /\ k = -1 \/ al = [MSIDir.AckNum_set] /\ k = complementary_value m) ->
  phase w n data j (getState tab next) (bump_ack key k ct) -> data && (j =? n) = false ->
  advances w n data j (getState tab st) ct m.
Proof.
  intros Ha He Hc Hal Hph Hn. pose proof (dup_fields m) as (Ea & Ec & _).
  destruct (process_cell ct m st e al next Ha He Hc) as (acts & v & Hp & H).
  { destruct Hal as [[-> _]|[-> _]]; set_solver. }
  exists acts. split; [done|]. rewrite Hn. clear Hp Hc.
  destruct Hal as [[-> ->]|[-> ->]]; cbn in H; injection H as <-;
    rewrite stored_update; cbn; unfold counter_step; cbn; by rewrite Ea, ?Ec, Ha, Hkey.
Qed.

Lemma ack_advances w n data j st ct m : n < 2 ^ 31 -> 0 <= j < n -> is_ack m -> phase w n data j st ct ->
  advances w n data (j + 1) st ct m.
Proof.
  intros Hn Hj Hm Hph. pose proof Hm as (Ha & Hs & Hd & Hcv & _). unfold phase in Hph.
  destruct data.
  - rewrite (proj2 (Z.eqb_neq j n)) in Hph by lia. destruct Hph as [-> He].
    pose proof (ack_event ct (store (getState tab (wait_acks w))) m _ Hm (Hkey _) eq_refl) as Hev.
    rewrite He, w64_eqb_0 in Hev by lia.
    destruct (Z.eqb_spec (n - j - 1) 0) as [E|E].
    + destruct (process_cell ct m _ _ _ _ Ha Hev (cell_ack_last _ w)) as (acts & v & Hp & H); [set_solver|].
      exists acts. split; [done|]. cbn in H. injection H as <-. cbn [foldl]. unfold counter_step at 2; cbn [ca_type act_line].
      rewrite foldl_app, hit_counters, Hs, Ha, Hkey, Hcv. unfold ack_balance. fold (entry ct). rewrite He.
      rewrite w64_eqb_0, (proj2 (Z.eqb_neq _ 0)) by (unfold MSIDir.REQUEST_TYPE_INV_ACK; lia).
      rewrite andb_false_r. cbn [foldl].
      pose proof (dup_fields m) as (Ea & _). unfold counter_step; cbn [ca_type ca_msg act]. rewrite Ea, Ha, Hkey.
      rewrite stored_update, hit_completes. unfold phase. rewrite (proj2 (Z.eqb_eq (j + 1) n)) by lia.
      split_and!; [done| |done]. rewrite bump_entry, He. cbn. rewrite i64_small, (proj2 (Z.eqb_eq _ 0)) by lia. done.
    + eapply count_step; [done|exact Hev|apply cell_ack|by left| |by apply andb_false_intro2, Z.eqb_neq; lia].
      unfold phase. rewrite (proj2 (Z.eqb_neq _ _)) by lia. split; [done|].
      rewrite bump_entry, He. cbn. rewrite i64_small, (proj2 (Z.eqb_neq _ 0)) by lia. f_equal. lia.
  - destruct Hph as [-> He].
    pose proof (ack_event ct (store (getState tab (wait_data w))) m _ Hm (Hkey _) eq_refl) as Hev.
    assert (Hev' : L1Dir_readEvent p ct (store (getState tab (wait_data w))) m = Ok MSIDir.InvAck).
    { rewrite Hev, He. destruct (Z.eqb_spec j 0); [done|]. rewrite w64_eqb_0, (proj2 (Z.eqb_neq _ 0)) by lia. done. }
    eapply count_step; [done|exact Hev'|apply cell_ack_early|by left| |done].
    unfold phase. split; [done|]. rewrite bump_entry, He, (proj2 (Z.eqb_neq (j + 1) 0)) by lia.
    destruct (Z.eqb_spec j 0) as [->|]; cbn; [done|].
    rewrite i64_small, (proj2 (Z.eqb_neq _ 0)) by lia. f_equal. lia.
Qed.

Lemma data_advances w n j st ct m : 0 <= n < 2 ^ 31 -> 0 <= j <= n -> is_data n m -> phase w n false j st ct ->
  advances w n true j st ct m.
Proof.
  intros Hn Hj Hm [-> He]. pose proof Hm as (Ha & Hs & Hd & _ & Hcv & _).
  pose proof (data_event ct (store (getState tab (wait_data w))) n m Hm Hn (Hkey _)) as Hev.
  assert (Hb : ack_balance ct key n = negb (n =? 0) && (j =? n)).
  { unfold ack_balance. fold (entry ct). rewrite He. destruct (Z.eqb_spec j 0) as [->|].
    - symmetry. apply andb_false_iff. destruct (Z.eqb_spec n 0); [by left|right]. apply Z.eqb_neq. lia.
    - rewrite w64_eqb_0, (proj2 (Z.eqb_neq n 0)) by lia. apply eq_true_iff_eq. cbn [negb andb].
      rewrite !Z.eqb_eq. lia. }
  assert (Hn0 : (n =? 0) || ack_balance ct key n = (j =? n)).
  { rewrite Hb. destruct (Z.eqb_spec n 0) as [->|]; [|done]. cbn. symmetry. apply Z.eqb_eq. lia. }
  rewrite Hn0 in Hev. destruct (Z.eqb_spec j n) as [->|Hne].
  - destruct (process_cell ct m _ _ _ _ Ha Hev (cell_data_last _ w)) as (acts & v & Hp & H); [set_solver|].
    exists acts. split; [done|]. cbn in H. injection H as <-.
    cbn [foldl]. unfold counter_step at 2; cbn [ca_type act_line].
    rewrite stored_update, hit_counters, Hs, Ha, Hkey, Hcv, Hb, Z.eqb_refl.
    rewrite <- (app_nil_r (MSIDir.hit_actions _ _ _)), hit_completes.
    unfold phase. rewrite Z.eqb_refl. cbn [default andb]. split_and!; [done| |done].
    rewrite bool_decide_eq_true_2, andb_true_r by done. cbn [andb]. destruct (Z.eqb_spec n 0) as [->|]; [done|].
    cbn [negb]. rewrite bump_entry, He. cbn.
    rewrite i64_small, (proj2 (Z.eqb_eq _ 0)) by lia. done.
  - eapply count_step; [done|exact Hev|apply cell_data|right; split; [done|reflexivity]| |by apply andb_false_intro2, Z.eqb_neq].
    unfold phase. rewrite (proj2 (Z.eqb_neq _ _)) by done. split; [done|].
    rewrite bump_entry, He, Hcv. destruct (Z.eqb_spec j 0) as [->|]; cbn;
      rewrite i64_small, (proj2 (Z.eqb_neq _ 0)) by lia; f_equal; lia.
Qed.

Definition datas (msgs : list Message) : Z := Z.of_nat (length (filter (fun m => has_data m = true) msgs)).
Definition acks (msgs : list Message) : Z := Z.of_nat (length (filter (fun m => has_data m = false) msgs)).

Lemma datas_acks msgs : datas msgs + acks msgs = Z.of_nat (length msgs).
Proof.
  unfold datas, acks. induction msgs as [|m msgs IH]; [done|]. rewrite !filter_cons.
  destruct (has_data m); [rewrite decide_True, decide_False by done|rewrite decide_False, decide_True by done];
    cbn [length]; lia.
Qed.

Lemma collect_phases w n : 0 <= n < 2 ^ 31 -> forall msgs data j st ct,
  Forall (fun m => is_ack m \/ is_data n m) msgs -> datas msgs + Z.b2z data <= 1 -> 0 <= j -> acks msgs + j <= n ->
  phase w n data j st ct ->
  exists st' ct' log, collect st ct msgs = Ok (st', ct', log) /\ length log = length msgs /\
    phase w n (data || (0 <? datas msgs)) (j + acks msgs) st' ct' /\
    forall i acts, log !! i = Some acts -> completes acts = true <-> Z.of_nat i + j + Z.b2z data = n.
Proof.
  intros Hn. induction msgs as [|m msgs IH]; intros data j st ct Hall Hd Hj Hac Hph.
  { exists st, ct, []. change (datas []) with 0. change (acks []) with 0. cbn. rewrite orb_false_r, Z.add_0_r.
    by split_and!. }
  apply Forall_cons in Hall as [Hm Hall].
  assert (G : exists data' j', advances w n data' j' st ct m /\ datas msgs + Z.b2z data' <= 1 /\ 0 <= j' /\
    acks msgs + j' <= n /\ data' || (0 <? datas msgs) = data || (0 <? datas (m :: msgs)) /\
    j' + acks msgs = j + acks (m :: msgs) /\ j' + Z.b2z data' = j + Z.b2z data + 1).
  { destruct Hm as [Hm|Hm].
    - assert (E : datas (m :: msgs) = datas msgs /\ acks (m :: msgs) = acks msgs + 1).
      { pose proof Hm as (_ & _ & Hnd & _). unfold datas, acks. rewrite !filter_cons, Hnd.
        rewrite decide_False, decide_True by done. cbn [length]. lia. }
      destruct E as [E1 E2]. exists data, (j + 1). rewrite E1, E2 in *.
      assert (0 <= acks msgs) by (unfold acks; lia). split_and!; try done; try lia. apply ack_advances; done || lia.
    - assert (E : datas (m :: msgs) = datas msgs + 1 /\ acks (m :: msgs) = acks msgs).
      { pose proof Hm as (_ & _ & Hnd & _). unfold datas, acks. rewrite !filter_cons, Hnd.
        rewrite decide_True, decide_False by done. cbn [length]. lia. }
      destruct E as [E1 E2]. exists true, j. rewrite E1, E2 in *.
      assert (0 <= acks msgs /\ 0 <= datas msgs) as [? ?] by (unfold acks, datas; lia).
      destruct data; [cbn in Hd; lia|]. cbn in *. split_and!; try done; try lia.
      apply data_advances; done || lia. }
  destruct G as (data' & j' & (acts & Hp & Hph' & Hc) & G1 & G2 & G3 & G4 & G5 & G6).
  destruct (IH data' j' _ _ Hall G1 G2 G3 Hph') as (st' & ct' & log & Hcol & Hlen & Hfin & Hlog).
  exists st', ct', (acts :: log). cbn [collect]. rewrite Hp. cbn [obind]. rewrite Hcol. cbn.
  rewrite Hlen, <- G4, <- G5. split_and!; try done.
  intros [|i] acts' Hi; cbn in Hi.
  - injection Hi as <-. rewrite Hc. destruct data'; cbn in *; [rewrite Z.eqb_eq; lia|split; [done|]].
    assert (0 <= acks msgs) by (unfold acks; lia). lia.
  - rewrite (Hlog _ _ Hi). lia.
Qed.
End Collect.

(** A write completes exactly when every acknowledgement and its data are
    in.  A private cache (any directory protocol, its shipped table) waits for
    data that announces [n] acknowledgements; the acknowledgements and the data
    arrive in any order.  Nothing on the way is a fault, the message that
    completes the write is the one after [n] others and no other, the line is
    then modifiable, and the counter is gone. *)
Theorem acks_collected p a key store w n ct msgs :
  m_fsm (snd p) = l1dir_fsm (fst p) ->
  (forall st, state (line_bits (store st) a) = st) -> (forall st, line_key (store st) a = key) ->
  0 <= n < 2 ^ 31 -> m_ack_counters ct !! key = None ->
  Forall (fun m => is_ack a m \/ is_data p a n m) msgs -> datas msgs <= 1 -> acks msgs <= n ->
  exists st ct' log, collect p store (getState (l1dir_fsm (fst p)) (wait_data w)) ct msgs = Ok (st, ct', log) /\
    length log = length msgs /\
    (forall i acts, log !! i = Some acts -> completes acts = true <-> Z.of_nat i = n) /\
    (st = getState (l1dir_fsm (fst p)) "M" <-> Z.of_nat (length msgs) = n + 1) /\
    (Z.of_nat (length msgs) = n + 1 -> m_ack_counters ct' !! key = None).
Proof.
  intros Hf Hs Hk Hn Hct Hall Hd Hac.
  destruct (collect_phases p a key store Hf Hs Hk w n Hn msgs false 0 (getState (l1dir_fsm (fst p)) (wait_data w)) ct)
    as (st & ct' & log & Hcol & Hlen & Hph & Hlog); [done|cbn; lia|lia|lia|done|].
  exists st, ct', log. cbn [orb] in Hph. rewrite Z.add_0_l in Hph. pose proof (datas_acks msgs) as Hda.
  assert (0 <= acks msgs /\ 0 <= datas msgs) as [? ?] by (unfold acks, datas; lia).
  pose proof (wait_not_M (fst p) w) as [Hw1 Hw2].
  split_and!; [done|done| | |].
  - intros i acts0 Hi. rewrite (Hlog i acts0 Hi). cbn. lia.
  - unfold phase in Hph. destruct (Z.ltb_spec 0 (datas msgs)) as [H1|H1].
    + destruct (Z.eqb_spec (acks msgs) n) as [H2|H2]; destruct Hph as [-> _]; split; try done; lia.
    + destruct Hph as [-> _]. split; [done|lia].
  - intros Hl. unfold phase in Hph. rewrite (proj2 (Z.ltb_lt _ _)) in Hph by lia.
    rewrite (proj2 (Z.eqb_eq _ _)) in Hph by lia. by destruct Hph.
Qed.
