(* ===== verification/DirShared.v ===== *)
(** * Properties of the directory at the shared cache

    What a write to a shared line sets off, up to its completion; the owner the
    directory records. *)

From S2P Require Export DirTheory.

(** ** A write to a shared line: the shared cache *)

Lemma push_all_to l m : msg_to (foldl (fun m id => push_to id m) m l) = msg_to m ++ (w16 <$> l) /\
  (forall f, (forall i m, f (push_to i m) = f m) -> f (foldl (fun m id => push_to id m) m l) = f m :> Z).
Proof.
  revert m. induction l as [|i l IH]; intros m; cbn; [by rewrite app_nil_r|].
  destruct (IH (push_to i m)) as [-> Hf]. cbn. split; [by rewrite <- app_assoc|].
  intros f E. by rewrite Hf, E.
Qed.

Lemma w16_map l : Forall (fun id => 0 <= id < 2 ^ 16) l -> w16 <$> l = l.
Proof. induction 1 as [|i l Hi _ IH]; cbn; [done|]. by rewrite w16_small, IH. Qed.

Lemma cell_shared_getM cls : cell (llcdir_fsm cls) "S" LLCMSIDir.GetM
  [LLCMSIDir.SetOwner; LLCMSIDir.SendData; LLCMSIDir.SendInv] "M".
Proof. destruct cls; solve_cell. Qed.

(** The sharers that are not the requester, and how many acknowledgements the
    answer announces. *)
Lemma acks_due_count ct key l owner : m_sharers ct !! key = Some l -> Z.of_nat (length l) < 2 ^ 64 ->
  (length (filter (fun id => id = owner) l) <= 1)%nat ->
  acks_due ct key owner = Z.of_nat (length (filter (fun id => id <> owner) l)).
Proof.
  intros El Hlen Hone. unfold acks_due. rewrite El.
  assert (E : (length (filter (fun id => id = owner) l) + length (filter (fun id => id <> owner) l) = length l)%nat).
  { clear. induction l as [|i l IH]; [done|]. rewrite !filter_cons. destruct (decide (i = owner));
      [rewrite decide_False by (intros H; by apply H)|rewrite decide_True by done]; cbn [length]; lia. }
  destruct (existsb (Z.eqb owner) l) eqn:Ex.
  - apply existsb_exists in Ex as (i & Hi & <-%Z.eqb_eq). apply list_elem_of_In in Hi.
    assert (0 < length (filter (fun id => id = owner) l))%nat.
    { destruct (filter _ l) eqn:Ef; [|cbn; lia].
      assert (owner ∈ filter (fun id => id = owner) l) as Hin by by apply list_elem_of_filter.
      rewrite Ef in Hin. by apply not_elem_of_nil in Hin. }
    rewrite w64_small by lia. lia.
  - assert (length (filter (fun id => id = owner) l) = 0)%nat; [|lia].
    rewrite (proj2 (filter_nil_iff _ _)); [done|]. intros i Hi ->. apply not_true_iff_false in Ex. apply Ex.
    apply existsb_exists. exists owner. rewrite Z.eqb_refl. split; [by apply list_elem_of_In|done].
Qed.

(** A request to write. *)
Definition is_getM (m : Message) : Prop :=
  msg_source m = LOWER_INTERCONNECT /\ has_data m = false /\ complementary_value m = MSIDir.REQUEST_TYPE_GETM /\
  0 <= msg_owner m < 2 ^ 16.

Lemma getM_event p ct s m line : is_getM m -> owner_id line = -1 -> LLCDir_readEvent p ct s m line = Ok LLCMSIDir.GetM.
Proof.
  intros (Hs & Hd & Hc & Ho) El. destruct p as [[] q]; cbn;
    unfold LLCMOESIDir.readEvent, LLCMESIDir.readEvent, LLCMSIDir.readEvent; 
    rewrite ?Hs, ?Hd, ?Hc, ?El, ?(proj2 (Z.eqb_neq (-1) (msg_owner m))) by lia; done.
Qed.

(** The part every class shares: the new owner, the answer with the count. *)
Lemma getM_answer q ct s m line l next more : msg_source m = LOWER_INTERCONNECT -> has_data m = false -> 0 <= msg_owner m ->
  acks_due ct (line_key s (msg_addr m)) (msg_owner m) = l ->
  is_ok (isValidState (m_fsm q) next) = true ->
  exists v, LLCMSIDir.handleAction q ct s (LLCMSIDir.SetOwner :: LLCMSIDir.SendData :: more) m line next =
    let! (acts, line') := ofold (LLCMSIDir.action_step q ct s m (owner_id line)) more
       ([act SET_SHARERS m; act HIT_Action (set_msg_cv l (LLCMSI.response m))], set_owner_id (msg_owner m) line) in
    Ok (acts ++ [act_line UPDATE_CACHE_LINE m (copy (set_state next (set_valid v line')) newLine)]).
Proof.
  intros Hs Hd Ho Hl Hv. destruct (isValidState (m_fsm q) next) as [v| |] eqn:Ev; [|done..]. exists v.
  assert (Hr : LLCMSI.response_type m = HIT_Action) by (unfold LLCMSI.response_type; by rewrite decide_True).
  assert (Hk : LLCMSIDir.response ct s m (set_owner_id (msg_owner m) line) = set_msg_cv l (LLCMSI.response m)).
  { unfold LLCMSIDir.response. cbn [owner_id set_owner_id]. by rewrite (proj2 (Z.eqb_neq (msg_owner m) (-1))), Hl by lia. }
  unfold LLCMSIDir.handleAction. cbn [ofold]. unfold LLCMSIDir.action_step at 1 2. cbn -[LLCMSIDir.response set_owner_id LLCMSIDir.action_step].
  rewrite Hk, Hr, dup_nodata by done. rewrite Ev. done.
Qed.

Lemma no_owner_filter p m l owner : Forall (fun id => 0 <= id < 2 ^ 16) l -> owner = -1 ->
  LLCMOESIDir.to_invalidate p m owner l = filter (fun id => id <> msg_owner m) l.
Proof.
  intros Hids ->. unfold LLCMOESIDir.to_invalidate. induction Hids as [|i l Hi _ IH]; [done|].
  assert (i <> w64 (-1)) by (change (w64 (-1)) with 18446744073709551615; lia).
  rewrite !filter_cons, IH. repeat case_decide; done || tauto.
Qed.

(** [inv] tells the caches [l] that the sender of [m] is about to write. *)
Definition invalidates (m : Message) (l : list Z) (inv : Message) : Prop :=
  msg_to inv = l /\ complementary_value inv = MSIDir.REQUEST_TYPE_INV /\ msg_owner inv = msg_owner m /\
  msg_addr inv = msg_addr m /\ msg_id inv = msg_id m /\ has_data inv = false /\
  complementary_value2 inv = complementary_value2 m.

Lemma push_all_invalidates m m0 l : Forall (fun id => 0 <= id < 2 ^ 16) l -> msg_to m0 = [] -> has_data m0 = false ->
  complementary_value m0 = MSIDir.REQUEST_TYPE_INV -> msg_owner m0 = msg_owner m -> msg_addr m0 = msg_addr m ->
  msg_id m0 = msg_id m -> complementary_value2 m0 = complementary_value2 m ->
  invalidates m l (foldl (fun m id => push_to id m) m0 l).
Proof.
  intros Hl E1 E2 E3 E4 E5 E6 E7. destruct (push_all_to l m0) as [Et Ez]. unfold invalidates.
  rewrite Et, E1, w16_map, !Ez by done. split_and!; try done. clear - E2. revert m0 E2. induction l; cbn; auto.
Qed.

Lemma invalidation_ok m l : Forall (fun id => 0 <= id < 2 ^ 16) l -> has_data m = false ->
  invalidates m l (LLCMSIDir.invalidation m l) /\ invalidates m l (LLCMOESIDir.invalidation m l).
Proof.
  intros Hl Hd. unfold LLCMSIDir.invalidation, LLCMOESIDir.invalidation. rewrite dup_nodata by done.
  by split; apply push_all_invalidates.
Qed.

(** What it sets off: the answer with the count, the invalidations, and the
    writer as the one sharer and owner. *)
Lemma getM_shared p ct s m l : m_fsm (snd p) = llcdir_fsm (fst p) -> is_getM m ->
  state (line_bits s (msg_addr m)) = getState (llcdir_fsm (fst p)) "S" -> owner_id (line_bits s (msg_addr m)) = -1 ->
  m_sharers ct !! line_key s (msg_addr m) = Some l -> Forall (fun id => 0 <= id < 2 ^ 16) l ->
  Z.of_nat (length l) < 2 ^ 64 -> (length (filter (fun id => id = msg_owner m) l) <= 1)%nat ->
  exists inv line rest, LLCDir_processRequest p ct s m = Ok (m, rest) /\
    rest ≡ₚ [act SET_SHARERS m; act HIT_Action (set_msg_cv (Z.of_nat (length (msg_to inv))) (LLCMSI.response m));
             act SEND_FWD_MESSAGE inv; act_line UPDATE_CACHE_LINE m line] /\
    invalidates m (filter (fun id => id <> msg_owner m) l) inv /\
    state line = getState (llcdir_fsm (fst p)) "M" /\ owner_id line = msg_owner m.
Proof.
  intros Hf Hm Hst Hown Hl Hids Hlen Hone. pose proof Hm as (Hs & Hd & Hc & Ho).
  pose proof (acks_due_count ct _ l (msg_owner m) Hl Hlen Hone) as Hdue.
  destruct (cell_shared_getM (fst p)) as [Ht Hv].
  unfold LLCDir_processRequest. rewrite (getM_event p ct s m _ Hm Hown), Hf, Hst. cbn [obind]. rewrite Ht. cbn [obind].
  set (dests := filter (fun id => id <> msg_owner m) l) in *.
  assert (Hdests : Forall (fun id => 0 <= id < 2 ^ 16) dests)
    by (apply Forall_forall; intros i [_ Hi]%list_elem_of_filter; by eapply Forall_forall in Hids).
  destruct p as [cls q]. cbn [fst snd] in *. rewrite <- Hf in Hv.
  assert (Hup : forall v, let line := set_owner_id (msg_owner m) (line_bits s (msg_addr m)) in
    let new := copy (set_state (getState (m_fsm q) "M") (set_valid v line)) newLine in
    state new = getState (llcdir_fsm cls) "M" /\ owner_id new = msg_owner m)
    by (intros v; cbn; unfold copy; destruct (line_data _); by rewrite Hf).
  destruct (invalidation_ok m dests Hdests Hd) as [Hi1 Hi2].
  pose proof (fun more => getM_answer q ct s m (line_bits s (msg_addr m)) _ _ more Hs Hd (proj1 Ho) Hdue Hv) as G.
  rewrite <- Hf in Hup. rewrite <- Hf.
  destruct cls; cbn [LLCDir_handleAction]; unfold LLCMOESIDir.handleAction, LLCMESIDir.handleAction.
  3: { replace (MOESIDir.erase_all _ _) with [LLCMSIDir.SetOwner; LLCMSIDir.SendData] by reflexivity.
    replace (erase_first _ _) with (false, [LLCMSIDir.SetOwner; LLCMSIDir.SendData]) by reflexivity.
    destruct (G []) as (v & ->). cbn [ofold obind]. unfold sharers_at. rewrite Hl, Hown.
    cbn -[LLCMOESIDir.invalidation filter set_state set_valid set_msg_cv set_owner_id line_bits copy].
    rewrite no_owner_filter by done.
    eexists (LLCMOESIDir.invalidation m dests), _, _. rewrite (proj1 Hi2).
    split_and!; [reflexivity| |done|apply (Hup v)..]. 
    do 2 constructor. apply Permutation_swap. }
  2: replace (erase_first _ _) with (false, [LLCMSIDir.SetOwner; LLCMSIDir.SendData; LLCMSIDir.SendInv]) by reflexivity.
  all: destruct (G [LLCMSIDir.SendInv]) as (v & ->); cbn [ofold]; unfold LLCMSIDir.action_step, sharers_at;
    rewrite Hl; cbn -[LLCMSIDir.invalidation set_msg_cv filter set_state set_valid line_bits];
    eexists (LLCMSIDir.invalidation m dests), _, _; rewrite (proj1 Hi1);
    (split_and!; [reflexivity|done|done|apply (Hup v)..]).
Qed.

(** ** The invalidated caches *)

(** The states of a shared, or soon to be shared, line, and what an invalidation
    makes of them. *)
Definition inv_next : list (string * string) :=
  [("S", "I"); ("IS_d", "IS_dI"); ("SM_ad", "IM_ad"); ("SI_a", "II_a")].

Lemma cell_inv cls st next : (st, next) ∈ inv_next -> cell (l1dir_fsm cls) st MSIDir.Inv [MSIDir.InvAck2Req] next.
Proof.
  unfold inv_next. rewrite !elem_of_cons, elem_of_nil.
  intros [[= -> ->]|[[= -> ->]|[[= -> ->]|[[= -> ->]|[]]]]]; destruct cls; solve_cell.
Qed.

(** A copy of [m] that came from above. *)
Definition delivered (m m' : Message) : Prop :=
  msg_source m' = UPPER_INTERCONNECT /\ msg_id m' = msg_id m /\ msg_addr m' = msg_addr m /\
  msg_owner m' = msg_owner m /\ complementary_value m' = complementary_value m /\
  complementary_value2 m' = complementary_value2 m.

(** A private cache: its protocol, counters and data handler. *)
Definition Cache : Type := L1Directory * DirCounters * COTS.

(** The cache gives the line up and sends one message, [ack]. *)
Definition answers (c : Cache) (inv ack : Message) : Prop :=
  let '(p, ct, s) := c in
  exists line, L1Dir_processRequest p ct s inv = Ok (inv, [act_line UPDATE_CACHE_LINE inv line; act SEND_BUS_MSG ack]) /\
    exists next, next ∈ inv_next.*2 /\ state line = getState (l1dir_fsm (fst p)) next.

(** The cache holds the line, or waits for it, as a sharer. *)
Definition shares (c : Cache) (a : Z) : Prop :=
  let '(p, ct, s) := c in
  m_fsm (snd p) = l1dir_fsm (fst p) /\
  exists st, st ∈ inv_next.*1 /\ state (line_bits s a) = getState (l1dir_fsm (fst p)) st.

Lemma inv_event p ct s m : msg_source m = UPPER_INTERCONNECT -> has_data m = false ->
  complementary_value m = MSIDir.REQUEST_TYPE_INV -> complementary_value2 m = 0 ->
  L1Dir_readEvent p ct s m = Ok MSIDir.Inv.
Proof.
  intros Hs Hd Hc Hc2. destruct p as [[] q]; cbn;
    unfold MOESIDir.readEvent, MESIDir.readEvent, MSIDir.readEvent; by rewrite ?Hs, ?Hd, ?Hc, ?Hc2.
Qed.

Lemma inv_acked c m : shares c (msg_addr m) -> msg_source m = UPPER_INTERCONNECT -> has_data m = false ->
  complementary_value m = MSIDir.REQUEST_TYPE_INV -> complementary_value2 m = 0 -> 0 <= msg_owner m < 2 ^ 16 ->
  exists ack, answers c m ack /\ msg_to ack = [msg_owner m] /\ msg_addr ack = msg_addr m /\ has_data ack = false /\
    complementary_value ack = MSIDir.REQUEST_TYPE_INV_ACK /\ complementary_value2 ack = 0.
Proof.
  destruct c as [[p ct] s]. intros (Hf & st & Hin & Hst) Hs Hd Hc Hc2 Ho.
  apply list_elem_of_fmap in Hin as ([st' next] & -> & Hin). cbn in Hst.
  destruct (cell_inv (fst p) _ _ Hin) as [Ht Hv].
  destruct (isValidState (l1dir_fsm (fst p)) (getState (l1dir_fsm (fst p)) next)) as [v| |] eqn:Ev; [|done..].
  exists (set_msg_kind K_ACK (push_to (msg_owner m) (MSIDir.own_message (snd p) m MSIDir.REQUEST_TYPE_INV_ACK))). split.
  - unfold answers.
    exists (copy (set_state (getState (l1dir_fsm (fst p)) next) (set_valid v (line_bits s (msg_addr m)))) newLine). split; [|exists next; split; [apply list_elem_of_fmap; by exists (st', next)|]].
    + unfold L1Dir_processRequest. rewrite (inv_event p ct s m Hs Hd Hc Hc2), Hst, Hf. cbn [obind]. rewrite Ht. cbn [obind].
      destruct p as [[] q]; cbn [L1Dir_handleAction]; unfold MOESIDir.handleAction, MESIDir.handleAction, MSIDir.handleAction;
        cbn -[fsm_of l1dir_fsm getState isValidState] in Hf, Ev |- *; rewrite Hf, Ev; rewrite dup_nodata by done; reflexivity.
    + cbn. unfold copy. by destruct (line_data _).
  - cbn. rewrite w16_small by lia. done.
Qed.

(** ** From the request to its completion *)

(** The replies the writer receives: one per invalidated cache. *)
Definition replies (caches : Z -> Cache) (inv : Message) (l : list Z) (acks : list Message) : Prop :=
  Forall2 (fun i ack' => exists inv' ack, delivered inv inv' /\ has_data inv' = false /\ answers (caches i) inv' ack /\
                         delivered ack ack' /\ has_data ack' = has_data ack) l acks.

Lemma answers_fun c inv ack1 ack2 : answers c inv ack1 -> answers c inv ack2 -> ack1 = ack2.
Proof. destruct c as [[p ct] s]. unfold answers. intros (l1 & E1 & _) (l2 & E2 & _). by rewrite E1 in E2; injection E2. Qed.

Lemma replies_acks m l inv caches acks : invalidates m l inv -> complementary_value2 m = 0 -> 0 <= msg_owner m < 2 ^ 16 ->
  Forall (fun i => shares (caches i) (msg_addr m)) l -> replies caches inv l acks -> Forall (is_ack (msg_addr m)) acks.
Proof.
  intros (_ & Hc & Ho & Ha & _ & _ & Hc2) H0 Hown Hsh H. revert Hsh.
  induction H as [|i ack' l acks (inv' & ack & Hd & Hnd & Hans & Hd' & Hnd') _ IH]; intros Hsh; [constructor|].
  apply Forall_cons in Hsh as [Hi Hsh]. constructor; [|by apply IH].
  destruct Hd as (D1 & _ & D2 & D3 & D4 & D5). destruct Hd' as (F1 & _ & F2 & _ & F4 & F5).
  destruct (inv_acked (caches i) inv') as (ack1 & Hans1 & _ & G1 & G2 & G3 & G4); try congruence.
  pose proof (answers_fun _ _ _ _ Hans Hans1) as ->. unfold is_ack. rewrite F1, F2, F4, F5. split_and!; congruence.
Qed.

Lemma acks_all a msgs : Forall (is_ack a) msgs -> DirTheory.acks msgs = Z.of_nat (length msgs) /\ datas msgs = 0.
Proof.
  unfold DirTheory.acks, datas. induction 1 as [|m l (_ & _ & Hd & _) _ IH]; [done|].
  rewrite !filter_cons, Hd, decide_True, decide_False by done. cbn [length]. lia.
Qed.

(** C9: a write to a shared line completes, and only when every sharer has given
    the line up.  The shared cache (any directory class, its shipped table)
    answers the request with data and the number of caches it invalidates; each
    of those, in whatever class and sharing state, gives the line up and sends
    one acknowledgement to the writer.  Whatever order the data and the
    acknowledgements arrive in, the writer processes them without a fault,
    answers its core at the last of them and not before, and ends in [M]. *)
Theorem directory_write_completes pl ct s m l p ctp store key w caches :
  m_fsm (snd pl) = llcdir_fsm (fst pl) -> is_getM m -> complementary_value2 m = 0 ->
  state (line_bits s (msg_addr m)) = getState (llcdir_fsm (fst pl)) "S" -> owner_id (line_bits s (msg_addr m)) = -1 ->
  m_sharers ct !! line_key s (msg_addr m) = Some l -> Forall (fun id => 0 <= id < 2 ^ 16) l ->
  Z.of_nat (length l) < 2 ^ 31 -> NoDup l ->
  (forall i, i ∈ l -> i <> msg_owner m -> shares (caches i) (msg_addr m)) ->
  m_fsm (snd p) = l1dir_fsm (fst p) -> (forall st, state (line_bits (store st) (msg_addr m)) = st) ->
  (forall st, line_key (store st) (msg_addr m) = key) -> m_ack_counters ctp !! key = None ->
  exists inv resp rest, LLCDir_processRequest pl ct s m = Ok (m, rest) /\
    act SEND_FWD_MESSAGE inv ∈ rest /\ act HIT_Action resp ∈ rest /\
    msg_to inv = filter (fun i => i <> msg_owner m) l /\ msg_to resp = [msg_owner m] /\
    complementary_value resp = Z.of_nat (length (msg_to inv)) /\
    (forall i inv', i ∈ msg_to inv -> delivered inv inv' -> has_data inv' = false ->
       exists ack, answers (caches i) inv' ack /\ msg_to ack = [msg_owner m]) /\
    forall data acks msgs, delivered resp data -> has_data data = true -> msg_from data = m_shared_memory_id (snd p) ->
      replies caches inv (msg_to inv) acks -> msgs ≡ₚ data :: acks ->
      exists ct' log, collect p store (getState (l1dir_fsm (fst p)) (wait_data w)) ctp msgs =
                        Ok (getState (l1dir_fsm (fst p)) "M", ct', log) /\
        length log = length msgs /\ m_ack_counters ct' !! key = None /\
        forall i acts, log !! i = Some acts -> completes acts = true <-> S i = length msgs.
Proof.
  intros Hf Hm Hc2 Hst Hown Hl Hids Hlen Hnd Hcaches Hfp Hs Hk Hctp. pose proof Hm as (_ & _ & _ & Hmo).
  destruct (getM_shared pl ct s m l) as (inv & line & rest & Hp & Hrest & Hinv & _); try done; [lia| |].
  { apply Nat.le_trans with (length (filter (fun id => id = msg_owner m) l)); [lia|].
    clear - Hnd. induction Hnd as [|i l Hi _ IH]; [cbn; lia|]. rewrite filter_cons. case_decide; [|lia]. subst.
    rewrite (proj2 (filter_nil_iff _ l)); [cbn; lia|]. intros j Hj ->. done. }
  pose proof Hinv as (Hto & Hc & Ho & Ha & Hid & Hndata & Hi2).
  set (resp := set_msg_cv (Z.of_nat (length (msg_to inv))) (LLCMSI.response m)) in *.
  assert (Hsh : Forall (fun i => shares (caches i) (msg_addr m)) (msg_to inv)).
  { rewrite Hto. apply Forall_forall. intros i [Hi1 Hi]%list_elem_of_filter. auto. }
  exists inv, resp, rest. split_and!; try done; [rewrite Hrest, !elem_of_cons; auto..| | |].
  - cbn. by rewrite w16_small by lia.
  - intros i inv' Hi (D1 & _ & D2 & D3 & D4 & D5) D6. eapply Forall_forall in Hsh; [|exact Hi].
    destruct (inv_acked (caches i) inv') as (ack & Hans & Hack & _); try congruence.
    exists ack. by rewrite Hack, D3, Ho.
  - intros data acks msgs (D1 & _ & D2 & _ & D4 & D5) Hdd Hdf Hrep Hperm. rewrite Hto in Hsh, Hrep.
    assert (Hack : Forall (is_ack (msg_addr m)) acks) by exact (replies_acks m _ inv caches acks Hinv Hc2 Hmo Hsh Hrep).
    assert (Hdata : is_data p (msg_addr m) (Z.of_nat (length (msg_to inv))) data).
    { unfold is_data. rewrite D2, D4, D5. cbn. rewrite dup_nodata by apply Hm. done. }
    assert (Hn : 0 <= Z.of_nat (length (msg_to inv)) < 2 ^ 31).
    { rewrite Hto. pose proof (length_filter (fun i => i <> msg_owner m) l). lia. }
    pose proof (Forall2_length _ _ _ Hrep) as Hlr. rewrite <- Hto in Hlr. destruct (acks_all _ _ Hack) as [Ea Ed].
    assert (E : datas msgs = 1 /\ DirTheory.acks msgs = Z.of_nat (length (msg_to inv)) /\
                length msgs = S (length (msg_to inv))).
    { revert Ea Ed. unfold datas, DirTheory.acks. rewrite Hperm, Hlr, !filter_cons, Hdd.
      rewrite decide_True, decide_False by done. cbn [length]. lia. }
    destruct E as (E1 & E2 & E3).
    destruct (collect_phases p (msg_addr m) key store Hfp Hs Hk w _ Hn msgs false 0
                (getState (l1dir_fsm (fst p)) (wait_data w)) ctp) as (st' & ct' & log & Hcol & Hll & Hph & Hlog); try done.
    + rewrite Hperm. constructor; [by right|]. eapply Forall_impl; [exact Hack|]. by left.
    + cbn. lia.
    + lia.
    + exists ct', log. unfold phase in Hph. rewrite E1, E2, Z.eqb_refl in Hph. destruct Hph as [-> He].
      split_and!; try done. intros i acts Hi. rewrite (Hlog i acts Hi), E3. cbn. lia.
Qed.

(** ** The owner of a modified line *)

Section Owner.
(** The shared cache; [store line] is its data handler while [line] is what it
    holds at [a]. *)
Context (p : LLCDirectory) (a key : Z) (store : GenericCacheLine -> COTS).
Hypothesis Hfsm : m_fsm (snd p) = llcdir_fsm (fst p).
Hypothesis Hline : forall line, let line0 := line_bits (store line) a in
  state line0 = state line /\ owner_id line0 = owner_id line.
Hypothesis Hkey : forall line, line_key (store line) a = key.

Abbreviation tab := (llcdir_fsm (fst p)).

Lemma cell_owned_getM cls st : st ∈ ["M"; match cls with LLCMSIDirectory => "M" | _ => "E" end] ->
  cell (llcdir_fsm cls) st LLCMSIDir.GetM [LLCMSIDir.SetOwner; LLCMSIDir.FwdGetM] st.
Proof. rewrite !elem_of_cons, elem_of_nil. intros [->|[->|[]]]; destruct cls; solve_cell. Qed.

(** The forwarded requests among a list of actions: what is asked, and of whom. *)
Definition forwards (acts : list ControllerAction) : list (Z * list Z) :=
  omap (fun ac => match ca_type ac, ca_msg ac with
                  | SEND_FWD_MESSAGE, Some m => Some (complementary_value m, msg_to m)
                  | _, _ => None end) acts.

Definition stored_line (acts : list ControllerAction) : option GenericCacheLine :=
  match filter (fun a => ca_type a = UPDATE_CACHE_LINE) acts with a :: _ => ca_line a | [] => None end.

(** Requests served one after the other. *)
Fixpoint serve_all (line : GenericCacheLine) (ct : DirCounters) (msgs : list Message)
    : outcome (GenericCacheLine * DirCounters * list (list ControllerAction)) :=
  match msgs with
  | [] => Ok (line, ct, [])
  | m :: msgs' =>
      let! (_, acts) := LLCDir_processRequest p ct (store line) m in
      let! (line', ct', log) := serve_all (default line (stored_line acts))
                                  (foldl (counter_step (line_key (store line))) ct acts) msgs' in
      Ok (line', ct', acts :: log)
  end.

(** [owner_id] and the sharers agree on one cache. *)
Definition owned_by (o : Z) (st : string) (line : GenericCacheLine) (ct : DirCounters) : Prop :=
  state line = getState tab st /\ owner_id line = o /\ m_sharers ct !! key = Some [o].

Lemma getM_owned_event ct s m line : is_getM m -> owner_id line <> msg_owner m ->
  LLCDir_readEvent p ct s m line = Ok LLCMSIDir.GetM.
Proof.
  intros (Hs & Hd & Hc & Ho) El. destruct p as [[] q]; cbn;
    unfold LLCMOESIDir.readEvent, LLCMESIDir.readEvent, LLCMSIDir.readEvent;
    rewrite ?Hs, ?Hd, ?Hc, ?(proj2 (Z.eqb_neq _ (msg_owner m))) by done; done.
Qed.

(** A write to an owned line: the owner is told, nobody is answered. *)
Lemma getM_owned ct m line o st : st ∈ ["M"; match fst p with LLCMSIDirectory => "M" | _ => "E" end] ->
  is_getM m -> msg_addr m = a -> owned_by o st line ct -> 0 <= o < 2 ^ 16 -> o <> msg_owner m ->
  exists acts line', LLCDir_processRequest p ct (store line) m = Ok (m, acts) /\
    stored_line acts = Some line' /\ forwards acts = [(MSIDir.REQUEST_TYPE_GETM, [o])] /\ completes acts = false /\
    owned_by (msg_owner m) st line' (foldl (counter_step (line_key (store line))) ct acts).
Proof.
  intros Hin Hm Ha (Hst & Ho & Hsh) Hob Hne. pose proof Hm as (_ & Hd & _ & Hob2).
  destruct (cell_owned_getM (fst p) st Hin) as [Ht Hv]. rewrite <- Hfsm in Ht, Hv.
  destruct (isValidState (m_fsm (snd p)) (getState (m_fsm (snd p)) st)) as [v| |] eqn:Ev; [|done..].
  destruct (Hline line) as [Hst0 Ho0]. rewrite <- Hst0 in Hst. rewrite <- Ho0 in Ho.
  set (line0 := line_bits (store line) a) in *.
  set (line' := copy (set_state (getState (m_fsm (snd p)) st) (set_valid v (set_owner_id (msg_owner m) line0))) newLine).
  assert (Hup : state line' = getState tab st /\ owner_id line' = msg_owner m)
    by (unfold line', copy; rewrite Hfsm; by destruct (line_data _)).
  assert (B : exists fwd acts, LLCDir_processRequest p ct (store line) m = Ok (m, acts) /\
    msg_to fwd = [o] /\ complementary_value fwd = MSIDir.REQUEST_TYPE_GETM /\
    (acts = [act SET_SHARERS m; act SEND_FWD_MESSAGE fwd; act_line UPDATE_CACHE_LINE m line'] \/
     acts = [act SET_SHARERS m; act_line UPDATE_CACHE_LINE m line'; act SEND_FWD_MESSAGE fwd])).
  { unfold LLCDir_processRequest. rewrite Ha. fold line0. rewrite getM_owned_event by congruence. cbn [obind].
    rewrite Hst, <- Hfsm, Ht. cbn [obind].
    exists (match fst p with
            | LLCMOESIDirectory => LLCMOESIDir.forward_getM m (owner_id line0) [o]
            | _ => LLCMSIDir.forward m MSIDir.REQUEST_TYPE_GETM (owner_id line0)
            end).
    destruct p as [cls q]; cbn [fst snd] in *.
    destruct cls; cbn [LLCDir_handleAction]; unfold LLCMOESIDir.handleAction, LLCMESIDir.handleAction.
    3: { replace (MOESIDir.erase_all _ _) with [LLCMSIDir.SetOwner] by reflexivity.
      replace (erase_first _ _) with (false, [LLCMSIDir.SetOwner]) by reflexivity.
      unfold LLCMSIDir.handleAction, sharers_at. rewrite Ha, Hkey, Hsh.
      cbn -[llcdir_fsm LLCMOESIDir.forward_getM set_state set_valid copy]. rewrite Ev, dup_nodata by done. eexists.
      split_and!; [reflexivity|cbn; by rewrite Ho, w16_small|done|by right]. }
    2: replace (erase_first _ _) with (false, [LLCMSIDir.SetOwner; LLCMSIDir.FwdGetM]) by reflexivity.
    all: unfold LLCMSIDir.handleAction; cbn -[llcdir_fsm LLCMSIDir.forward set_state set_valid copy];
      rewrite Ev, dup_nodata by done; eexists; (split_and!; [reflexivity|cbn; by rewrite Ho, w16_small|done|by left]). }
  destruct B as (fwd & acts & Hp & Hto & Hcv & Hacts). exists acts, line'. split; [done|].
  destruct Hup as [Hup1 Hup2].
  destruct Hacts as [-> | ->]; cbn -[line']; rewrite Hto, Hcv; unfold stored_line, owned_by; cbn -[line'];
    unfold counter_step; cbn -[line']; rewrite Ha, Hkey; split_and!; try done; cbn; by simplify_map_eq.
Qed.

(** Each request is forwarded to the one before it; the first, to the owner. *)
Fixpoint ownership (o : Z) (msgs : list Message) : list (list (Z * list Z)) * Z :=
  match msgs with
  | [] => ([], o)
  | m :: msgs' => let '(l, o') := ownership (msg_owner m) msgs' in ([(MSIDir.REQUEST_TYPE_GETM, [o])] :: l, o')
  end.

(** No request of the owner itself. *)
Fixpoint alternate (o : Z) (msgs : list Message) : Prop :=
  match msgs with [] => True | m :: msgs' => o <> msg_owner m /\ alternate (msg_owner m) msgs' end.

Lemma ownership_served st msgs : st ∈ ["M"; match fst p with LLCMSIDirectory => "M" | _ => "E" end] ->
  Forall (fun m => is_getM m /\ msg_addr m = a) msgs -> forall o line ct, 0 <= o < 2 ^ 16 -> alternate o msgs ->
  owned_by o st line ct ->
  exists line' ct' log, serve_all line ct msgs = Ok (line', ct', log) /\ forwards <$> log = fst (ownership o msgs) /\
    Forall (fun acts => completes acts = false) log /\ owned_by (snd (ownership o msgs)) st line' ct'.
Proof.
  intros Hst Hall. induction Hall as [|m msgs [Hm Ha] _ IH]; intros o line ct Ho Halt Hown.
  { exists line, ct, []. cbn. by split_and!. }
  destruct Halt as [Hne Halt].
  destruct (getM_owned ct m line o st Hst Hm Ha Hown Ho Hne) as (acts & line' & Hp & Hl & Hf & Hc & Hown').
  destruct (IH (msg_owner m) line' _ (proj2 (proj2 (proj2 Hm))) Halt Hown') as (line2 & ct2 & log & Hs & Hfw & Hcs & Hfin).
  exists line2, ct2, (acts :: log). cbn [serve_all ownership]. rewrite Hp. cbn [obind]. rewrite Hl. change (default line (Some line')) with line'. rewrite Hs.
  destruct (ownership (msg_owner m) msgs) as [l o']. cbn in *. rewrite Hf, Hfw. split_and!; try done. by constructor.
Qed.
End Owner.


(** ** Witnesses *)

(** The demo handler with the line of 0x10 in a register. *)
Definition holding (line : GenericCacheLine) : COTS := set_mshr {[0x10 := line]} demo_store.
Definition in_state (st : Z) : COTS := holding (set_owner_id (-1) (set_state st demo_line)).

Definition l1dir (cls : L1DirClass) (id : Z) : L1Directory := (cls, mkProtocol id 100 (l1dir_fsm cls)).
Definition llcdir (cls : LLCDirClass) : LLCDirectory := (cls, mkProtocol 100 200 (llcdir_fsm cls)).

Definition demo_ack (i : Z) : Message :=
  set_msg_source UPPER_INTERCONNECT (set_msg_from i (newMessage i 0x12 0 MSIDir.REQUEST_TYPE_INV_ACK i)).
Definition demo_data (n : Z) : Message :=
  set_msg_source UPPER_INTERCONNECT (set_msg_from 100 (set_msg_data (Some [1; 2; 3; 4]) 4 (newMessage 7 0x12 0 n 1))).

(** An acknowledgement, the data, the other acknowledgement. *)
Lemma acks_collected_witness :
  let msgs := [demo_ack 2; demo_data 2; demo_ack 3] in
  exists st ct' log,
    collect (l1dir MOESIDirectory 1) in_state (getState (l1dir_fsm MOESIDirectory) "SM_ad") noCounters msgs =
      Ok (st, ct', log) /\
    length log = 3%nat /\ (forall i acts, log !! i = Some acts -> completes acts = true <-> Z.of_nat i = 2) /\
    (st = getState (l1dir_fsm MOESIDirectory) "M" <-> 3 = 2 + 1) /\ (3 = 2 + 1 -> m_ack_counters ct' !! 0x10 = None).
Proof.
  apply (acks_collected (l1dir MOESIDirectory 1) 0x12 0x10 in_state true 2 noCounters [demo_ack 2; demo_data 2; demo_ack 3]);
    try done; try lia.
  - apply Forall_cons_2; [by left|]. apply Forall_cons_2; [by right|]. apply Forall_cons_2; [by left|constructor].
Defined.

Definition demo_getM : Message := newMessage 7 0x12 0 MSIDir.REQUEST_TYPE_GETM 1.
(** Two sharers beside the writer: one holds the line, one waits to write it too. *)
Definition demo_caches (i : Z) : Cache :=
  (l1dir MSIDirectory i, noCounters, in_state (getState (l1dir_fsm MSIDirectory) (if i =? 2 then "S" else "SM_ad"))).
Definition demo_shared : DirCounters := mkCounters {[0x10 := [1; 2; 3]]} ∅.

Lemma demo_caches_share i : shares (demo_caches i) 0x12.
Proof.
  unfold demo_caches, shares. split; [done|]. exists (if i =? 2 then "S"%string else "SM_ad"%string).
  destruct (i =? 2); (split; [set_solver|by vm_compute]).
Qed.

Lemma directory_write_completes_witness :
  let pl := llcdir LLCMESIDirectory in let p := l1dir MESIDirectory 1 in let m := demo_getM in
  let s := in_state (getState (llcdir_fsm (fst pl)) "S") in
  is_getM m /\ m_sharers demo_shared !! line_key s (msg_addr m) = Some [1; 2; 3] /\
  exists inv resp rest, LLCDir_processRequest pl demo_shared s m = Ok (m, rest) /\
    act SEND_FWD_MESSAGE inv ∈ rest /\ act HIT_Action resp ∈ rest /\
    msg_to inv = filter (fun i => i <> msg_owner m) [1; 2; 3] /\ msg_to resp = [msg_owner m] /\
    complementary_value resp = Z.of_nat (length (msg_to inv)) /\
    (forall i inv', i ∈ msg_to inv -> delivered inv inv' -> has_data inv' = false ->
       exists ack, answers (demo_caches i) inv' ack /\ msg_to ack = [msg_owner m]) /\
    forall data acks msgs, delivered resp data -> has_data data = true -> msg_from data = m_shared_memory_id (snd p) ->
      replies demo_caches inv (msg_to inv) acks -> msgs ≡ₚ data :: acks ->
      exists ct' log, collect p in_state (getState (l1dir_fsm (fst p)) (wait_data true)) noCounters msgs =
                        Ok (getState (l1dir_fsm (fst p)) "M", ct', log) /\
        length log = length msgs /\ m_ack_counters ct' !! 0x10 = None /\
        forall i acts, log !! i = Some acts -> completes acts = true <-> S i = length msgs.
Proof.
  intros pl p m s. assert (Hm : is_getM m) by by split_and!.
  assert (Hl : m_sharers demo_shared !! line_key s (msg_addr m) = Some [1; 2; 3]) by by vm_compute.
  split; [done|]. split; [done|].
  apply (directory_write_completes pl demo_shared s m [1; 2; 3] p noCounters in_state 0x10 true demo_caches);
    [reflexivity|done|reflexivity|by vm_compute|by vm_compute|done|repeat (apply Forall_cons_2; [lia|]); constructor|by vm_compute| |
     |reflexivity|intros st; by vm_compute|intros st; by vm_compute|by vm_compute].
  - apply (bool_decide_unpack (NoDup [1; 2; 3])). by vm_compute.
  - intros. apply demo_caches_share.
Defined.

