(* ===== verification/ControllerDemo.v ===== *)
(** * A concrete controller

    An MSI L1 (id 1) on two bus interfaces, with the shipped table, the line
    interlock and a two-entry miss table; the properties of the controllers
    applied to it. *)

From S2P Require Export BusInterfaces ControllerLive ControllerData.

Definition DemoL1 : Type := @Controller L1Protocol BusInterface BusInterface.

(** A four-line array; [latency] cycles per access. *)
Definition demo_array (latency : Z) (pipelined : bool) : HandlerParams :=
  mkHandlerParams 16 4 2 latency (Some (if pipelined then 1 else 0)) None "LRU" None (Some 0).

Definition demo_l1_params (latency : Z) (pipelined : bool) : ControllerParams :=
  mkParams CacheController 1 100 None 4 (Some 1) (Some 2) "NULL" [] (demo_array latency pipelined) false.

Definition demo_proto : L1Protocol := (MSIProtocol, msi_state).

(** The core has sent [requests]. *)
Definition demo_lower (requests : list Message) : BusInterface := bi_set_rx_request requests [] (newBusInterface 1 4).

Definition demo_l1 (latency : Z) (pipelined : bool) (requests : list Message) : DemoL1 :=
  match newController (demo_l1_params latency pipelined) demo_proto (newBusInterface 1 4) (demo_lower requests)
          (fun _ => 0) 0 0 with
  | Ok c => c
  | _ => mkController (mkConfig CacheController 1 100 false 2 true 4 []) demo_proto 1 (newBusInterface 1 4)
           (newBusInterface 1 4) demo_store (newBuffer 4 0 true) ∅ ∅ ∅ None [] 0 0 false None 0 0 0 0 (-1) noCounters 0 0
  end.

(** Line 0x10 in the array, in state [st]. *)
Definition resident (st : string) (c : DemoL1) : DemoL1 :=
  let line := mkLine true 0 0 0 (-1) (getState (m_fsm msi_state) st) (-1) 4 (Some [1; 2; 3; 4]) in
  match writeCacheLine_bypassLatency 0x10 line true (data_handler c) with
  | Ok (_, s) => set_data_handler s c
  | _ => c
  end.

Definition demo_cycles (n : nat) (c : DemoL1) : outcome DemoL1 :=
  Nat.iter n (fun o => let! c := o in cycleProcess 10 c) (Ok c).

Definition demo_load (id : Z) : Message := newMessage id 0x10 0 0 1.
Definition demo_store_msg : Message := set_msg_data (Some [9]) 1 (newMessage 7 0x11 0 1 1).

(** A miss: the request goes out, comes back on the bus, and the data arrives;
    the data message is deferred for the pipelined array. *)
Definition demo_own_GetS : Message := newMessage 7 0x10 2 0 1.
Definition demo_data : Message := set_msg_data (Some [5; 6; 7; 8]) 4 (newMessage 7 0x10 3 0 1).

Definition demo_start : DemoL1 := demo_l1 3 true [demo_load 7; demo_load 8].

Definition demo_deferred : outcome DemoL1 :=
  let! c1 := cycleProcess 10 (init demo_start) in
  let! c2 := cycleProcess 10 (set_upper (bi_set_rx_request [demo_own_GetS] [1] (upper c1)) c1) in
  cycleProcess 10 (set_upper (bi_set_rx_response [demo_data] [2] (upper c2)) c2).

Lemma reach_upper (c0 c : DemoL1) i : reachable c0 c -> reachable c0 (set_upper i c).
Proof. intros H. pose proof (reach_env c0 c i (lower c) (next_req_id c) (rx_seq c) H) as K. by destruct c. Qed.

Lemma demo_deferred_reachable c : demo_deferred = Ok c -> reachable (init demo_start) c.
Proof.
  unfold demo_deferred. intros (c1 & E1 & (c2 & E2 & E3)%obind_Ok)%obind_Ok.
  eapply reach_cycle; [|exact E3]. apply reach_upper.
  eapply reach_cycle; [|exact E2]. apply reach_upper.
  eapply reach_cycle; [|exact E1]. constructor.
Qed.

Lemma demo_start_new : newController (demo_l1_params 3 true) demo_proto (newBusInterface 1 4)
  (demo_lower [demo_load 7; demo_load 8]) (fun _ => 0) 0 0 = Ok demo_start.
Proof. vm_compute. reflexivity. Qed.

Lemma interlock_one_per_line_witness : exists c, demo_deferred = Ok c /\ message_addrs (m_array_ops c) = [0x10] /\
  NoDup (getAddressKey c <$> message_addrs (m_array_ops c)).
Proof.
  assert (F : match demo_deferred with Ok c => message_addrs (m_array_ops c) = [0x10] | _ => False end)
    by (vm_compute; reflexivity).
  destruct demo_deferred as [c|s|s] eqn:E; [|destruct F..].
  exists c. split; [reflexivity|]. split; [exact F|].
  apply (interlock_one_per_line (demo_l1_params 3 true) demo_proto (newBusInterface 1 4)
           (demo_lower [demo_load 7; demo_load 8]) (fun _ => 0) 0 0 demo_start c).
  - apply demo_start_new.
  - left. discriminate.
  - exact (demo_deferred_reachable c E).
Defined.


(** Two loads are parked on the line; the data answers both. *)
Definition demo_parked : DemoL1 :=
  base_addtoPendingRequests (demo_load 8) (base_addtoPendingRequests (demo_load 7) demo_start).

Lemma removePending_answers_all_witness : exists c', base_removePendingAndRespond demo_data demo_parked = Ok c' /\
  exists pending, m_pending_requests demo_parked !! getAddressKey demo_parked 0x10 = Some pending /\
    ci_tx (lower c') ≡ₚ (sent (lower demo_parked) (cache_cycle demo_parked) ∘ pending_response demo_data [5; 6; 7; 8] <$> pending)
                          ++ ci_tx (lower demo_parked) /\
    Forall (fun m => msg_kind m = K_RESP /\ msg_data m = Some (take 64 [5; 6; 7; 8]))
      (pending_response demo_data [5; 6; 7; 8] <$> pending) /\
    m_pending_requests c' = delete (getAddressKey demo_parked 0x10) (m_pending_requests demo_parked) /\
    m_cpu_port c' = (fun e => e ++ commits pending) <$> m_cpu_port demo_parked /\
    data_handler c' = data_handler demo_parked.
Proof.
  assert (F : is_ok (base_removePendingAndRespond demo_data demo_parked) = true) by (vm_compute; reflexivity).
  destruct (base_removePendingAndRespond demo_data demo_parked) as [c'|s|s] eqn:E; [|discriminate F..]. exists c'. split; [done|].
  apply (removePending_answers_all demo_data [5; 6; 7; 8] demo_parked c'); [done|exact E].
Defined.

(** Cores 2 and 3 asked for the line while the data was on its way. *)
Definition demo_saved : DemoL1 :=
  saveReqForWriteBack (newMessage 31 0x10 0 0 3) (saveReqForWriteBack (newMessage 30 0x10 0 0 2) demo_start).
Definition demo_supply : Message := set_msg_kind K_SUPPLY_DEFERRED demo_data.


(** A store hits line 0x10 while the array is busy. *)
Definition demo_busy : DemoL1 :=
  let c := resident "M" (init (demo_l1 3 false [])) in
  set_data_handler (set_base (close_port (base (data_handler c))) (data_handler c)) c.


Lemma admission_bound_witness :
  (isAddressTracked (data_handler demo_parked) 0x20 = false ->
   Z.of_nat (size (m_pending_requests demo_parked)) <= 2 ->
   canAdmitRequest (newMessage 9 0x20 0 0 1) demo_parked = true ->
   Z.of_nat (size (m_pending_requests (addtoPendingRequests (newMessage 9 0x20 0 0 1) demo_parked))) <= 2) /\
  (demandAdmissionBlocked 1 demo_parked = false -> canAdmitRequest (newMessage 9 0x20 0 0 1) demo_parked = true).
Proof. apply (admission_bound (newMessage 9 0x20 0 0 1) demo_parked 1); [by vm_compute|done]. Defined.

(** The bound does not cover upgrades: a store to a resident line is admitted
    and parked whatever the number of outstanding misses. *)
Lemma mshr_upgrade_exceeds :
  let full := set_pending_requests (<[0x20 := [demo_load 1]]> (<[0x30 := [demo_load 2]]> ∅))
                (resident "S" (init (demo_l1 3 false []))) in
  Z.of_nat (size (m_pending_requests full)) = m_num_mshr (cfg full) /\
  canAdmitRequest (newMessage 9 0x10 0 1 1) full = true /\
  match serve (newMessage 9 0x10 0 1 1) full with
  | Ok (_, c') => Z.of_nat (size (m_pending_requests c')) = m_num_mshr (cfg full) + 1
  | _ => False
  end.
Proof. vm_compute. done. Qed.
