(* ===== verification/Coherence.v ===== *)
(** * Coherence on a snooping bus

    The composition of private caches with [MSIProtocol], a shared cache with
    [LLCMSIProtocol] and a bus that shows every request to all of them in one
    order ([BusTheory.broadcast_atomic], [BusInterfaces.triple_bus_order]), for
    one line.  What a cache does with a message is its [processRequest] on the
    shipped table; how long a message waits in its queue is left open, the
    queue keeps the order of a line ([FrfcfsBuffer.getFirstReady_line_order]).
    Back-invalidations and replacements of the shared cache are left out. *)

From S2P Require Export SnoopTheory.
From stdpp Require Import relations.

Local Open Scope list_scope.
Open Scope Z_scope.

(** ** Steps *)

(** The state and the owner of a line after a handler's actions. *)
Definition line_after (l : Z * Z) (acts : list ControllerAction) : Z * Z :=
  foldl (fun l a =>
    match ca_type a, ca_line a with
    | UPDATE_CACHE_LINE, Some line => (state line, owner_id line)
    | _, _ => l
    end) l acts.

(** Some store in which the line has state [st]: the message is processed. *)
Definition l1_moves (q : ProtocolState) (st : Z) (msg : Message) (st' : Z) : Prop :=
  exists s msg' acts, state (line_bits s (msg_addr msg)) = st /\
    L1_processRequest (MSIProtocol, q) s msg = Ok (msg', acts) /\ fst (line_after (st, -1) acts) = st'.

Definition llc_moves (q : ProtocolState) (l : Z * Z) (msg : Message) (l' : Z * Z) : Prop :=
  exists s msg' acts, state (line_bits s (msg_addr msg)) = fst l /\ owner_id (line_bits s (msg_addr msg)) = snd l /\
    LLC_processRequest (LLCMSIProtocol, q) s msg = Ok (msg', acts) /\ line_after l acts = l'.

(** A private cache and the shared one: the line, and the requests the bus has
    shown that the cache has not taken yet. *)
Record L1Node := mkL1Node { nd_proto : ProtocolState; nd_state : Z; nd_inbox : list Message }.
Record LLCNode := mkLLCNode { ll_proto : ProtocolState; ll_line : Z * Z; ll_inbox : list Message }.
Record BusSystem := mkBusSystem { l1s : list L1Node; llc : LLCNode }.

(** A request of one of the cores on the bus. *)
Definition bus_message (b : BusSystem) (m : Message) : Prop :=
  has_data m = false /\ (exists nd, nd ∈ l1s b /\ msg_owner m = p_id (nd_proto nd)) /\
  complementary_value m ∈ [MSI.REQUEST_TYPE_GETS; MSI.REQUEST_TYPE_GETM; MSI.REQUEST_TYPE_PUTM].

(** What reaches a cache otherwise: its core's requests, its replacements, data. *)
Definition local_message (m : Message) : Prop :=
  msg_source m = LOWER_INTERCONNECT \/ msg_source m = SELF \/ (msg_source m = UPPER_INTERCONNECT /\ has_data m = true).

Definition shown (m : Message) (nd : L1Node) : L1Node := mkL1Node (nd_proto nd) (nd_state nd) (nd_inbox nd ++ [m]).

Inductive bus_step : BusSystem -> BusSystem -> Prop :=
| BusShows b m : bus_message b m ->
    bus_step b (mkBusSystem (shown m <$> l1s b) (mkLLCNode (ll_proto (llc b)) (ll_line (llc b)) (ll_inbox (llc b) ++ [m])))
| L1Snoops b i q st m inbox st' : l1s b !! i = Some (mkL1Node q st (m :: inbox)) ->
    l1_moves q st (set_msg_source UPPER_INTERCONNECT m) st' ->
    bus_step b (mkBusSystem (<[i := mkL1Node q st' inbox]> (l1s b)) (llc b))
| L1Local b i q st m inbox st' : l1s b !! i = Some (mkL1Node q st inbox) -> local_message m -> l1_moves q st m st' ->
    bus_step b (mkBusSystem (<[i := mkL1Node q st' inbox]> (l1s b)) (llc b))
| LLCTakes b q l m inbox l' : llc b = mkLLCNode q l (m :: inbox) ->
    llc_moves q l (set_msg_source LOWER_INTERCONNECT m) l' -> bus_step b (mkBusSystem (l1s b) (mkLLCNode q l' inbox))
| LLCData b q l m inbox l' : llc b = mkLLCNode q l inbox -> has_data m = true -> msg_source m <> SELF ->
    llc_moves q l m l' -> bus_step b (mkBusSystem (l1s b) (mkLLCNode q l' inbox)).

(** Every line invalid, nothing on the way. *)
Definition cold (b : BusSystem) : Prop :=
  Forall (fun nd => nd_state nd = 0 /\ nd_inbox nd = [] /\ m_fsm (nd_proto nd) = fsm_of MSI_splitBus_snooping_csv) (l1s b) /\
  NoDup (p_id ∘ nd_proto <$> l1s b) /\
  (p_id (ll_proto (llc b)) ∉ (p_id ∘ nd_proto <$> l1s b)) /\
  m_fsm (ll_proto (llc b)) = fsm_of MSI_LLC_csv /\ fst (ll_line (llc b)) = 0 /\ ll_inbox (llc b) = [].

(** ** Permission in the order of the bus *)

Inductive Perm := NoAccess | ReadOnly | Exclusive.
#[export] Instance Perm_eq_dec : EqDecision Perm.
Proof. solve_decision. Defined.

Definition perm_rank (c : Perm) : Z := match c with NoAccess => 0 | ReadOnly => 1 | Exclusive => 2 end.

(** What the requests seen so far grant the cache of core [id]. *)
Definition bus_grants (id : Z) (c : Perm) (m : Message) : Perm :=
  let own := msg_owner m =? id in
  if complementary_value m =? MSI.REQUEST_TYPE_GETS then
    if own then ReadOnly else match c with Exclusive => ReadOnly | _ => c end
  else if complementary_value m =? MSI.REQUEST_TYPE_GETM then if own then Exclusive else NoAccess
  else if own then NoAccess else c.
Definition granted (id : Z) (log : list Message) : Perm := foldl (bus_grants id) NoAccess log.

(** Who the requests seen so far make the owner. *)
Definition bus_owner (o : option Z) (m : Message) : option Z :=
  if complementary_value m =? MSI.REQUEST_TYPE_GETS then None
  else if complementary_value m =? MSI.REQUEST_TYPE_GETM then Some (msg_owner m)
  else if decide (o = Some (msg_owner m)) then None else o.
Definition owner_of (log : list Message) : option Z := foldl bus_owner None log.

Lemma granted_owner id log : granted id log = Exclusive <-> owner_of log = Some id.
Proof.
  unfold granted, owner_of. induction log as [|m log IH] using rev_ind; [done|].
  rewrite !foldl_snoc. unfold bus_grants at 1, bus_owner at 1.
  set (c := foldl (bus_grants id) NoAccess log) in *. set (o := foldl bus_owner None log) in *.
  destruct (complementary_value m =? MSI.REQUEST_TYPE_GETS);
    [|destruct (complementary_value m =? MSI.REQUEST_TYPE_GETM)]; destruct (Z.eqb_spec (msg_owner m) id) as [E|E].
  - done.
  - split; [|done]. by destruct c.
  - split; [|done]. congruence.
  - split; congruence.
  - split; [done|]. case_decide as H; [done|]. rewrite <- IH. intros Hc. apply IH in Hc. congruence.
  - rewrite IH. case_decide as H; [|done]. rewrite H. split; [|done]. congruence.
Qed.

(** While somebody may write, nobody else may do anything. *)
Lemma granted_exclusive id id' log : id <> id' -> granted id log = Exclusive -> granted id' log = NoAccess.
Proof.
  intros Hne. unfold granted. induction log as [|m log IH] using rev_ind; [done|]. rewrite !foldl_snoc.
  unfold bus_grants at 1 3. set (c := foldl (bus_grants id) NoAccess log) in *.
  set (c' := foldl (bus_grants id') NoAccess log) in *.
  destruct (complementary_value m =? MSI.REQUEST_TYPE_GETS);
    [|destruct (complementary_value m =? MSI.REQUEST_TYPE_GETM)];
    destruct (Z.eqb_spec (msg_owner m) id) as [E|E], (Z.eqb_spec (msg_owner m) id') as [E'|E'];
    try done; try congruence; try (by destruct c); auto.
Qed.

(** ** The tables respect the order of the bus *)

Lemma getTransition_state r s e x : getTransition r s e = Ok x -> 0 <= s < n_states r.
Proof.
  unfold getTransition, fsm_row, n_states. destruct (Z.ltb_spec s 0); [done|].
  destruct (m_states r !! Z.to_nat s) eqn:E; [|done]. apply lookup_lt_Some in E. lia.
Qed.

(** What the bus has granted a cache whose line is in a state of the MSI table.
    [MII_a], entered by a back-invalidation only, is in no class. *)
Definition perm_of (st : Z) : option Perm :=
  if bool_decide (st ∈ [0; 1; 3; 4; 5; 7; 8; 10; 15; 17; 21]) then Some NoAccess
  else if bool_decide (st ∈ [2; 9; 11; 12; 14; 16]) then Some ReadOnly
  else if bool_decide (st ∈ [6; 13; 18; 19]) then Some Exclusive
  else None.

Definition after_event (e : Z) (c : Perm) : Perm :=
  if e =? MSI.Own_GetS then ReadOnly
  else if e =? MSI.Own_GetM then Exclusive
  else if (e =? MSI.Own_PutM) || (e =? MSI.Other_GetM) then NoAccess
  else if e =? MSI.Other_GetS then match c with Exclusive => ReadOnly | _ => c end
  else c.

Definition l1_cell_ok (r : FSMReader) (s e : Z) : bool :=
  match perm_of s, getTransition r s e with
  | Some c, Ok (next, acts) =>
      has_id acts MSI.Fault ||
      (negb (MSI.stalled acts) || (next =? s)) &&
      match perm_of next with Some c' => perm_rank c' <=? perm_rank (after_event e c) | None => false end
  | _, _ => true
  end.
Definition l1_table_ok (r : FSMReader) : bool :=
  forallb (fun s => forallb (l1_cell_ok r s) (seqZ 0 10)) (seqZ 0 22).

(** States of the shared cache's table in which a core owns the line. *)
Definition llc_owned (st : Z) : bool := bool_decide (st ∈ [2; 4; 6; 8]).
Definition llc_owner (l : Z * Z) : option Z := if llc_owned (fst l) then Some (snd l) else None.

(** What a cell's actions do to the owner. *)
Definition owner_effect (acts : list Z) : option bool :=
  foldl (fun f a => if a =? LLCMSI.SetOwner then Some true else if a =? LLCMSI.ClearOwner then Some false else f) None acts.

Definition llc_cell_ok (r : FSMReader) (s e : Z) : bool :=
  match getTransition r s e with
  | Ok (next, acts) =>
      has_id acts LLCMSI.Fault || has_id acts LLCMSI.Stall ||
      if e =? LLCMSI.GetM then llc_owned next && bool_decide (owner_effect acts = Some true)
      else if (e =? LLCMSI.GetS) || (e =? LLCMSI.PutM_fromOwner) then negb (llc_owned next)
      else eqb (llc_owned next) (llc_owned s) && bool_decide (owner_effect acts = None)
  | _ => true
  end.
Definition llc_table_ok (r : FSMReader) : bool :=
  (n_states r =? 9) && forallb (fun s => forallb (llc_cell_ok r s) [0; 1; 3; 4; 5; 6]) (seqZ 0 9).

Lemma MSI_table_ok : l1_table_ok (fsm_of MSI_splitBus_snooping_csv) = true.
Proof. by vm_compute. Qed.

Lemma LLC_table_ok : llc_table_ok (fsm_of MSI_LLC_csv) = true.
Proof. by vm_compute. Qed.

(** ** The handlers follow the tables *)

Definition updates (acts : list ControllerAction) : list ControllerAction :=
  filter (fun a => ca_type a = UPDATE_CACHE_LINE) acts.

Lemma line_after_updates acts : forall l, line_after l acts = line_after l (updates acts).
Proof.
  unfold line_after, updates. induction acts as [|a acts IH]; intros l; [done|]. rewrite filter_cons.
  case_decide as H; cbn [foldl]; [apply IH|]. rewrite <- IH. f_equal. by destruct (ca_type a).
Qed.

Lemma MSI_step_updates p msg acts a acts' : MSI.action_step p msg acts a = Ok acts' ->
  updates acts' = updates acts /\ a <> MSI.Fault.
Proof.
  unfold MSI.action_step, updates. intros H.
  repeat case_match; try done; injection H as <-; rewrite ?filter_app;
    rewrite ?filter_cons; cbn [ca_type act]; repeat (rewrite decide_False by (done || by case_decide));
    rewrite ?filter_nil, ?app_nil_r; (split; [done|]); intros ->; done.
Qed.

Lemma MSI_loop_updates p msg actions : forall acts acts', ofold (MSI.action_step p msg) actions acts = Ok acts' ->
  updates acts' = updates acts /\ MSI.Fault ∉ actions.
Proof.
  induction actions as [|a actions IH]; intros acts acts'; cbn [ofold].
  { intros [= <-]. split; [done|]. by intros ?%elem_of_nil. }
  intros (acts1 & [H1 Ha]%MSI_step_updates & [H2 Hn]%IH)%obind_Ok. split; [congruence|].
  by apply not_elem_of_cons.
Qed.

Lemma has_id_false l i : i ∉ l -> has_id l i = false.
Proof. intros H. destruct (has_id l i) eqn:E; [|done]. by apply has_id_elem in E. Qed.

Lemma MSI_handle_line p actions msg line next acts l : MSI.handleAction p actions msg line next = Ok acts ->
  has_id actions MSI.Fault = false /\ fst (line_after l acts) = if MSI.stalled actions then fst l else next.
Proof.
  unfold MSI.handleAction. intros (start & Hs & [Hu Hf]%MSI_loop_updates)%obind_Ok.
  split; [by apply has_id_false|]. rewrite line_after_updates, Hu. destruct (MSI.stalled actions).
  - by injection Hs as <-.
  - apply obind_Ok in Hs as (v & _ & [= <-]). cbn. unfold copy. by destruct (line_data _).
Qed.

(** A move of a private cache is a cell of its table. *)
Lemma l1_moves_cell q st msg st' : l1_moves q st msg st' -> exists e next actions,
  MSI.readEvent q msg = Ok e /\ getTransition (m_fsm q) st e = Ok (next, actions) /\
  has_id actions MSI.Fault = false /\ st' = if MSI.stalled actions then st else next.
Proof.
  intros (s & msg' & acts & <- & H & <-). unfold L1_processRequest in H. cbn [L1_readEvent fst snd] in H.
  apply obind_Ok in H as ([e m1] & He & H). apply obind_Ok in He as (e' & He & [= <- <-]).
  apply obind_Ok in H as ([next actions] & Ht & H). apply obind_Ok in H as (acts' & Ha & [= <- <-]).
  cbn [L1_handleAction] in Ha.
  apply (MSI_handle_line _ _ _ _ _ _ (state (line_bits s (msg_addr msg)), -1)) in Ha as [Hf Hl].
  by exists e', next, actions.
Qed.

Lemma LLC_step_clean p msg s a s' : LLCMSI.action_step p msg s a = Ok s' -> a <> LLCMSI.Fault /\ a <> LLCMSI.Stall.
Proof.
  destruct s as [acts line]. unfold LLCMSI.action_step. intros H.
  split; intros ->; repeat case_match; done.
Qed.

Lemma LLC_loop_clean p msg actions : forall s s', ofold (LLCMSI.action_step p msg) actions s = Ok s' ->
  has_id actions LLCMSI.Fault = false /\ has_id actions LLCMSI.Stall = false.
Proof.
  induction actions as [|a actions IH]; intros s s'; cbn [ofold]; [done|].
  intros (s1 & [H1 H2]%LLC_step_clean & [H3 H4]%IH)%obind_Ok.
  unfold has_id in *. cbn [existsb]. by rewrite (proj2 (Z.eqb_neq _ _) (not_eq_sym H1)), (proj2 (Z.eqb_neq _ _) (not_eq_sym H2)).
Qed.

Lemma owner_after_effect msg actions o : owner_after msg actions o =
  match owner_effect actions with Some true => msg_owner msg | Some false => -1 | None => o end.
Proof.
  unfold owner_after, owner_effect. induction actions as [|a actions IH] using rev_ind; [done|].
  rewrite !foldl_snoc, IH. destruct (a =? LLCMSI.SetOwner); [done|]. by destruct (a =? LLCMSI.ClearOwner).
Qed.

(** A move of the shared cache is a cell of its table. *)
Lemma llc_moves_cell q l msg l' : llc_moves q l msg l' -> exists e next actions line,
  owner_id line = snd l /\ LLCMSI.readEvent q msg line = Ok e /\ getTransition (m_fsm q) (fst l) e = Ok (next, actions) /\
  has_id actions LLCMSI.Fault = false /\ has_id actions LLCMSI.Stall = false /\
  l' = (next, match owner_effect actions with Some true => msg_owner msg | Some false => -1 | None => snd l end).
Proof.
  intros (s & msg' & acts & Es & Eo & H & <-). unfold LLC_processRequest in H. cbn [snd] in H.
  apply obind_Ok in H as (e & He & H). apply obind_Ok in H as ([next actions] & Ht & H).
  apply obind_Ok in H as (acts' & Ha & [= <- <-]). cbn [LLC_handleAction] in Ha.
  assert (Hc : has_id actions LLCMSI.Fault = false /\ has_id actions LLCMSI.Stall = false).
  { unfold LLCMSI.handleAction in Ha. apply obind_Ok in Ha as ([a0 l0] & Hl & _). by apply LLC_loop_clean in Hl. }
  apply LLCMSI_updates_owner in Ha as (before & line' & -> & Hb & Hs & _ & Ho).
  exists e, next, actions, (line_bits s (msg_addr msg)). rewrite <- Es. destruct Hc. split_and!; try done.
  assert (Hnil : updates before = []).
  { apply filter_nil_iff. intros a Hin. by apply (proj1 (Forall_forall _ _) Hb). }
  rewrite line_after_updates. unfold updates in *. rewrite filter_app, Hnil, filter_cons_True by done. cbn.
  by rewrite Hs, Ho, owner_after_effect, Eo.
Qed.

(** ** The invariant *)

Section Invariant.
Context (r rl : FSMReader) (Hr : l1_table_ok r = true) (Hrl : llc_table_ok rl = true).

(** A request a core put on the bus. *)
Definition core_request (ids : list Z) (m : Message) : Prop :=
  has_data m = false /\ msg_owner m ∈ ids /\
  complementary_value m ∈ [MSI.REQUEST_TYPE_GETS; MSI.REQUEST_TYPE_GETM; MSI.REQUEST_TYPE_PUTM].

(** A cache that has taken [done] of the bus's requests has no more than they
    grant; the shared cache, the owner they make. *)
Definition l1_bounded (log : list Message) (nd : L1Node) : Prop :=
  m_fsm (nd_proto nd) = r /\ exists taken c, log = taken ++ nd_inbox nd /\
  perm_of (nd_state nd) = Some c /\ perm_rank c <= perm_rank (granted (p_id (nd_proto nd)) taken).
Definition llc_tracks (log : list Message) (n : LLCNode) : Prop :=
  m_fsm (ll_proto n) = rl /\ exists taken, log = taken ++ ll_inbox n /\ llc_owner (ll_line n) = owner_of taken.

Definition core_ids (b : BusSystem) : list Z := p_id ∘ nd_proto <$> l1s b.

Record coherent (log : list Message) (b : BusSystem) : Prop := mk_coherent {
  coh_ids : NoDup (core_ids b);
  coh_llc_id : p_id (ll_proto (llc b)) ∉ core_ids b;
  coh_log : Forall (core_request (core_ids b)) log;
  coh_l1 : Forall (l1_bounded log) (l1s b);
  coh_llc : llc_tracks log (llc b) }.

(** The event of a request on the bus. *)
Definition bus_event (own : bool) (cv : Z) : Z :=
  if cv =? MSI.REQUEST_TYPE_GETS then if own then MSI.Own_GetS else MSI.Other_GetS
  else if cv =? MSI.REQUEST_TYPE_GETM then if own then MSI.Own_GetM else MSI.Other_GetM
  else if own then MSI.Own_PutM else MSI.Other_PutM.

Lemma readEvent_bus q ids m : core_request ids m ->
  MSI.readEvent q (set_msg_source UPPER_INTERCONNECT m) = Ok (bus_event (msg_owner m =? p_id q) (complementary_value m)).
Proof.
  intros (Hd & _ & Hcv). unfold MSI.readEvent, bus_event. cbn. change (has_data (set_msg_source UPPER_INTERCONNECT m)) with (has_data m).
  rewrite Hd. rewrite !elem_of_cons, elem_of_nil in Hcv.
  destruct Hcv as [->|[->|[->|[]]]]; reflexivity.
Qed.

Lemma readEvent_local q m e : local_message m -> MSI.readEvent q m = Ok e ->
  e ∈ [MSI.Load; MSI.Store; MSI.Replacement; MSI.OwnData].
Proof.
  unfold MSI.readEvent. intros [->|[->|[-> ->]]] H; repeat case_match; try done; injection H as <-; set_solver.
Qed.

(** A cell of the MSI table keeps to what the event grants. *)
Lemma l1_cell_bound st e next actions c : perm_of st = Some c -> 0 <= e < 10 ->
  getTransition r st e = Ok (next, actions) -> has_id actions MSI.Fault = false ->
  exists c', perm_of (if MSI.stalled actions then st else next) = Some c' /\ perm_rank c' <= perm_rank (after_event e c).
Proof.
  intros Hc He Ht Hf. assert (Hs : 0 <= st < 22).
  { unfold perm_of in Hc. repeat case_bool_decide; [..|done]; set_unfold; lia. }
  unfold l1_table_ok in Hr. rewrite forallb_forall in Hr.
  specialize (Hr st (proj1 (list_elem_of_In _ _) (proj2 (elem_of_seqZ 0 22 st) ltac:(lia)))).
  rewrite forallb_forall in Hr.
  specialize (Hr e (proj1 (list_elem_of_In _ _) (proj2 (elem_of_seqZ 0 10 e) ltac:(lia)))).
  unfold l1_cell_ok in Hr. rewrite Hc, Ht, Hf in Hr. cbn [orb] in Hr. apply andb_true_iff in Hr as [Hst Hok].
  destruct (perm_of next) as [c'|] eqn:En; [|done]. exists c'. split; [|by apply Z.leb_le].
  destruct (MSI.stalled actions); [|done]. cbn in Hst. apply Z.eqb_eq in Hst. congruence.
Qed.

(** Taking a request leaves a cache within what it grants. *)
Lemma l1_snoop_bounded q st ids m taken st' c : core_request ids m -> m_fsm q = r -> perm_of st = Some c ->
  perm_rank c <= perm_rank (granted (p_id q) taken) -> l1_moves q st (set_msg_source UPPER_INTERCONNECT m) st' ->
  exists c', perm_of st' = Some c' /\ perm_rank c' <= perm_rank (granted (p_id q) (taken ++ [m])).
Proof.
  intros Hm Hq Hc Hle (e & next & actions & He & Ht & Hf & ->)%l1_moves_cell. rewrite Hq in Ht.
  rewrite (readEvent_bus q ids m Hm) in He. injection He as <-.
  set (e := bus_event _ _) in *. destruct (l1_cell_bound st e next actions c Hc) as (c' & Hc' & Hb); [|exact Ht|exact Hf|].
  { unfold e, bus_event. repeat case_match; by vm_compute. }
  exists c'. split; [done|]. unfold e, granted in *. rewrite foldl_snoc. etrans; [exact Hb|].
  set (g := foldl (bus_grants (p_id q)) NoAccess taken) in *. clearbody g. unfold bus_event, bus_grants. clear Hb Hc' Ht.
  destruct (complementary_value m =? MSI.REQUEST_TYPE_GETS); [|destruct (complementary_value m =? MSI.REQUEST_TYPE_GETM)];
    destruct (msg_owner m =? p_id q); destruct c, g; first [by vm_compute | cbn in Hle; lia].
Qed.

Lemma l1_local_bounded q st m st' c : local_message m -> m_fsm q = r -> perm_of st = Some c -> l1_moves q st m st' ->
  exists c', perm_of st' = Some c' /\ perm_rank c' <= perm_rank c.
Proof.
  intros Hm Hq Hc (e & next & actions & He & Ht & Hf & ->)%l1_moves_cell. rewrite Hq in Ht.
  apply readEvent_local in He; [|done].
  destruct (l1_cell_bound st e next actions c Hc) as (c' & Hc' & Hb); [|exact Ht|exact Hf|].
  { rewrite !elem_of_cons, elem_of_nil in He. destruct He as [->|[->|[->|[->|[]]]]]; by vm_compute. }
  exists c'. split; [done|]. rewrite !elem_of_cons, elem_of_nil in He. by destruct He as [->|[->|[->|[->|[]]]]].
Qed.

(** The same for the shared cache. *)
Definition llc_event (e : Z) : Prop := e ∈ [0; 1; 3; 4; 5; 6].

Lemma llc_cell_tracks l e next actions o : llc_event e ->
  getTransition rl (fst l) e = Ok (next, actions) -> has_id actions LLCMSI.Fault = false -> has_id actions LLCMSI.Stall = false ->
  let l' := (next, match owner_effect actions with Some true => o | Some false => -1 | None => snd l end) in
  llc_owner l' = if e =? LLCMSI.GetM then Some o
                 else if (e =? LLCMSI.GetS) || (e =? LLCMSI.PutM_fromOwner) then None else llc_owner l.
Proof.
  intros He Ht Hf Hs. cbv zeta.
  unfold llc_table_ok in Hrl. apply andb_true_iff in Hrl as [Hn Hc]. apply Z.eqb_eq in Hn.
  pose proof (getTransition_state _ _ _ _ Ht) as Hl. rewrite Hn in Hl. rewrite forallb_forall in Hc.
  specialize (Hc (fst l) (proj1 (list_elem_of_In _ _) (proj2 (elem_of_seqZ 0 9 (fst l)) ltac:(lia)))).
  rewrite forallb_forall in Hc. specialize (Hc e (proj1 (list_elem_of_In _ _) He)).
  unfold llc_cell_ok in Hc. rewrite Ht, Hf, Hs in Hc. cbn [orb] in Hc. unfold llc_owner; cbn [fst snd].
  destruct (e =? LLCMSI.GetM); [|destruct ((e =? LLCMSI.GetS) || (e =? LLCMSI.PutM_fromOwner))].
  - apply andb_true_iff in Hc as [-> ->%bool_decide_eq_true]. done.
  - apply negb_true_iff in Hc as ->. done.
  - apply andb_true_iff in Hc as [->%eqb_prop ->%bool_decide_eq_true]. done.
Qed.

Lemma llc_take_tracks q l m l' ids : core_request ids m -> p_id q ∉ ids -> m_fsm q = rl ->
  llc_moves q l (set_msg_source LOWER_INTERCONNECT m) l' -> llc_owner l' = bus_owner (llc_owner l) m.
Proof.
  intros (Hd & Ho & Hcv) Hid Hq (e & next & actions & line & Hlo & He & Ht & Hf & Hs & ->)%llc_moves_cell.
  rewrite Hq in Ht. unfold LLCMSI.readEvent in He. cbn [msg_source set_msg_source msg_owner complementary_value] in He.
  change (has_data (set_msg_source LOWER_INTERCONNECT m)) with (has_data m) in He. rewrite Hd, Hlo in He.
  assert (Hne : (msg_owner m =? p_id q) = false) by (apply Z.eqb_neq; congruence). rewrite Hne in He.
  pose proof (fun H => llc_cell_tracks l e next actions (msg_owner m) H Ht Hf Hs) as Htr. cbn in Htr.
  change (msg_owner (set_msg_source LOWER_INTERCONNECT m)) with (msg_owner m).
  unfold bus_owner. rewrite !elem_of_cons, elem_of_nil in Hcv. destruct Hcv as [E|[E|[E|[]]]]; rewrite E in *; cbn in He |- *.
  - injection He as <-. apply Htr. by left.
  - injection He as <-. apply Htr. by right; left.
  - destruct (Z.eqb_spec (msg_owner m) (snd l)) as [E1|E1]; injection He as <-.
    + rewrite Htr by (unfold llc_event; set_solver). cbn. unfold llc_owner. rewrite E1.
      destruct (llc_owned (fst l)); [by rewrite decide_True|done].
    + rewrite Htr by (unfold llc_event; set_solver). cbn. unfold llc_owner.
      destruct (llc_owned (fst l)); case_decide as H; congruence.
Qed.

Lemma llc_data_tracks q l m l' : has_data m = true -> msg_source m <> SELF -> m_fsm q = rl ->
  llc_moves q l m l' -> llc_owner l' = llc_owner l.
Proof.
  intros Hd Hsrc Hq (e & next & actions & line & _ & He & Ht & Hf & Hs & ->)%llc_moves_cell.
  rewrite Hq in Ht. unfold LLCMSI.readEvent in He. rewrite Hd in He.
  assert (Hev : e = 5 \/ e = 6) by (destruct (msg_source m); [injection He as <-; auto..|done]).
  rewrite (llc_cell_tracks l e next actions (msg_owner m)); [|destruct Hev as [-> | ->]; unfold llc_event; set_solver|done..].
  by destruct Hev as [-> | ->].
Qed.

Lemma core_ids_insert b i nd q st inbox n : l1s b !! i = Some nd -> nd_proto nd = q ->
  core_ids (mkBusSystem (<[i := mkL1Node q st inbox]> (l1s b)) n) = core_ids b.
Proof.
  intros Hi Hq. unfold core_ids; cbn. rewrite list_fmap_insert. apply list_insert_id.
  rewrite list_lookup_fmap, Hi. cbn. by rewrite Hq.
Qed.

Lemma coherent_l1 log b i q st inbox nd' : coherent log b -> l1s b !! i = Some (mkL1Node q st inbox) ->
  nd_proto nd' = q -> l1_bounded log nd' -> coherent log (mkBusSystem (<[i := nd']> (l1s b)) (llc b)).
Proof.
  intros [Hid Hlid Hlog Hl1 Hllc] Hi Hq Hb. destruct nd' as [q' st' inbox']. cbn in Hq. subst q'.
  constructor; try (erewrite core_ids_insert by (exact Hi || done)); try done. cbn. by apply Forall_insert.
Qed.

Lemma bus_step_coherent log b b' : coherent log b -> bus_step b b' -> exists log', coherent log' b'.
Proof.
  intros C Hstep. pose proof C as [Hid Hlid Hlog Hl1 [Hlf (ltaken & Hll & Hlo)]]. destruct Hstep as
    [b m (Hd & (nd & Hnd & Ho) & Hcv)|b i q st m inbox st' Hi Hm|b i q st m inbox st' Hi Hloc Hm
    |b q l m inbox l' E Hm|b q l m inbox l' E Hd Hsrc Hm].
  - exists (log ++ [m]). assert (Eids : core_ids (mkBusSystem (shown m <$> l1s b)
      (mkLLCNode (ll_proto (llc b)) (ll_line (llc b)) (ll_inbox (llc b) ++ [m]))) = core_ids b).
    { unfold core_ids; cbn. by rewrite <- list_fmap_compose. }
    constructor; rewrite ?Eids; try done.
    + apply Forall_app. split; [done|]. constructor; [|done]. split_and!; try done. rewrite Ho.
      by apply (list_elem_of_fmap_2 (p_id ∘ nd_proto)).
    + cbn. apply Forall_fmap. eapply Forall_impl; [exact Hl1|]. intros x (Hf & taken & c & -> & Hc & Hle).
      split; [done|]. exists taken, c. cbn. by rewrite <- app_assoc.
    + split; [done|]. exists ltaken. cbn. by rewrite Hll, <- app_assoc.
  - exists log. pose proof (proj1 (Forall_lookup _ _) Hl1 i _ Hi) as (Hf & taken & c & El & Hc & Hle). cbn in *.
    apply (coherent_l1 _ _ _ _ _ _ _ C Hi); [done|]. split; [done|].
    assert (Hreq : core_request (core_ids b) m) by (rewrite El in Hlog; apply Forall_app in Hlog as [_ H]; by inversion H).
    destruct (l1_snoop_bounded q st _ m taken st' c Hreq Hf Hc Hle Hm) as (c' & ? & ?).
    exists (taken ++ [m]), c'. cbn. by rewrite <- app_assoc.
  - exists log. pose proof (proj1 (Forall_lookup _ _) Hl1 i _ Hi) as (Hf & taken & c & El & Hc & Hle). cbn in *.
    apply (coherent_l1 _ _ _ _ _ _ _ C Hi); [done|]. split; [done|].
    destruct (l1_local_bounded q st m st' c Hloc Hf Hc Hm) as (c' & ? & ?). exists taken, c'. cbn. split_and!; [done..|lia].
  - exists log. rewrite E in *. cbn in *. constructor; try done. split; [done|].
    assert (Hreq : core_request (core_ids b) m) by (rewrite Hll in Hlog; apply Forall_app in Hlog as [_ H]; by inversion H).
    exists (ltaken ++ [m]). cbn. rewrite <- app_assoc. split; [done|]. unfold owner_of in *. rewrite foldl_snoc, <- Hlo.
    by eapply llc_take_tracks.
  - exists log. rewrite E in *. cbn in *. constructor; try done. split; [done|].
    exists ltaken. cbn. split; [done|]. rewrite <- Hlo. by eapply llc_data_tracks.
Qed.
End Invariant.

(** ** Hits *)

(** A store hits under exclusive permission only; a load under some permission,
    or while the cache still waits for the data of a write granted earlier. *)
Definition overdue (r : FSMReader) : list Z := [getState r "SM_dI"; getState r "SM_dSI"].
Definition hits_ok (r : FSMReader) (s : Z) : bool :=
  match perm_of s, isHit r s MSI.Store, isHit r s MSI.Load with
  | Some c, Ok w, Ok l =>
      (negb w || bool_decide (c = Exclusive)) &&
      (negb l || negb (bool_decide (c = NoAccess)) || bool_decide (s ∈ overdue r))
  | _, _, _ => true
  end.

Lemma MSI_hits_ok : forallb (hits_ok (fsm_of MSI_splitBus_snooping_csv)) (seqZ 0 22) = true.
Proof. by vm_compute. Qed.

Lemma perm_of_range st c : perm_of st = Some c -> 0 <= st < 22.
Proof. unfold perm_of. intros H. repeat case_bool_decide; [..|done]; set_unfold; lia. Qed.

Lemma hits_permitted r st c : forallb (hits_ok r) (seqZ 0 22) = true -> perm_of st = Some c ->
  (isHit r st MSI.Store = Ok true -> c = Exclusive) /\
  (isHit r st MSI.Load = Ok true -> c = NoAccess -> st ∈ overdue r).
Proof.
  intros Hok Hc. rewrite forallb_forall in Hok. pose proof (perm_of_range st c Hc) as Hs.
  specialize (Hok st (proj1 (list_elem_of_In _ _) (proj2 (elem_of_seqZ 0 22 st) ltac:(lia)))).
  unfold hits_ok in Hok. rewrite Hc in Hok. unfold isHit in *. destruct (fsm_row r st) as [row|?|?]; cbn in *; [|done..].
  apply andb_true_iff in Hok as [Hw Hl]. split.
  - intros [= E]. rewrite E in Hw. cbn in Hw. by apply bool_decide_eq_true in Hw.
  - intros [= E] ->. rewrite E in Hl. cbn in Hl. by apply bool_decide_eq_true in Hl.
Qed.

Lemma cold_coherent b : cold b -> coherent (fsm_of MSI_splitBus_snooping_csv) (fsm_of MSI_LLC_csv) [] b.
Proof.
  intros (Hl1 & Hnd & Hid & Hf & Hs & Hin). constructor; try done.
  - eapply Forall_impl; [exact Hl1|]. intros [q st inbox] (Hst & Hi & Hq). cbn in *. subst. split; [done|].
    exists [], NoAccess. by split_and!.
  - split; [done|]. exists []. rewrite Hin. split; [done|]. unfold llc_owner. by rewrite Hs.
Qed.

Lemma reachable_coherent b0 b : cold b0 -> rtc bus_step b0 b ->
  exists log, coherent (fsm_of MSI_splitBus_snooping_csv) (fsm_of MSI_LLC_csv) log b.
Proof.
  intros Hc Hr. assert (H0 : exists log, coherent (fsm_of MSI_splitBus_snooping_csv) (fsm_of MSI_LLC_csv) log b0)
    by (eexists; by apply cold_coherent).
  clear Hc. induction Hr as [|b0 b1 b Hs _ IH]; [done|]. apply IH. destruct H0 as [log H].
  eapply bus_step_coherent; [apply MSI_table_ok|apply LLC_table_ok|exact H|exact Hs].
Qed.

(** A cache where stores hit: the requests it has taken make it the owner. *)
Lemma writer_granted r rl log b i x : coherent r rl log b -> forallb (hits_ok r) (seqZ 0 22) = true ->
  l1s b !! i = Some x -> isHit (m_fsm (nd_proto x)) (nd_state x) MSI.Store = Ok true ->
  exists taken, log = taken ++ nd_inbox x /\ granted (p_id (nd_proto x)) taken = Exclusive.
Proof.
  intros C Hok Hx Hh. destruct (proj1 (Forall_lookup _ _) (coh_l1 _ _ _ _ C) i x Hx) as (Hf & taken & c & El & Hc & Hle).
  rewrite Hf in Hh. apply (hits_permitted r _ c Hok Hc) in Hh as ->. exists taken. split; [done|].
  by destruct (granted _ taken).
Qed.



(** ** Witnesses *)

(** A store whose line at [0x10] has the given state and owner. *)
Definition store_with (st owner : Z) : COTS :=
  writeLine2MSHR 0x10 (mkLine true 0 0 0 (-1) st owner 4 None) demo_store.

Definition l1_of (id : Z) : ProtocolState := mkProtocol id 100 (fsm_of MSI_splitBus_snooping_csv).
Definition llc_of : ProtocolState := mkProtocol 100 200 (fsm_of MSI_LLC_csv).
Definition cold_pair : BusSystem :=
  mkBusSystem [mkL1Node (l1_of 1) 0 []; mkL1Node (l1_of 2) 0 []] (mkLLCNode llc_of (0, -1) []).
Definition getM_1 : Message := newMessage 7 0x10 0 MSI.REQUEST_TYPE_GETM 1.
Definition store_1 : Message := newMessage 7 0x10 0 1 1.
Definition data_1 : Message := set_msg_data (Some [1; 2; 3; 4]) 4 (set_msg_source UPPER_INTERCONNECT (newMessage 7 0x10 0 0 1)).

(** Core 1 writes: its cache asks, the bus shows the request, memory and the
    shared cache answer. *)
Definition writer_done : BusSystem :=
  mkBusSystem [mkL1Node (l1_of 1) 18 []; mkL1Node (l1_of 2) 0 []] (mkLLCNode llc_of (4, 1) []).

Ltac l1_move st := exists (store_with st (-1)); eexists _, _; split; [vm_compute; reflexivity|];
  split; [vm_compute; reflexivity|vm_compute; reflexivity].
Ltac llc_move st o := exists (store_with st o); eexists _, _; split; [vm_compute; reflexivity|];
  split; [vm_compute; reflexivity|]; split; [vm_compute; reflexivity|vm_compute; reflexivity].

Lemma cold_pair_cold : cold cold_pair.
Proof.
  split; [by repeat constructor|]. split; [by apply (bool_decide_unpack _)|]. split; [by apply (bool_decide_unpack _)|done].
Qed.

Lemma writer_reached : rtc bus_step cold_pair writer_done.
Proof.
  eapply rtc_l. { apply (L1Local cold_pair 0 (l1_of 1) 0 store_1 [] 5); [done|by left|]. l1_move 0. }
  eapply rtc_l. { apply (BusShows _ getM_1). split_and!; [done| |cbn; set_solver]. eexists. split; [left|done]. }
  eapply rtc_l. { eapply (L1Snoops _ 0 (l1_of 1) 5 getM_1 [] 6); [done|]. l1_move 5. }
  eapply rtc_l. { eapply (L1Snoops _ 1 (l1_of 2) 0 getM_1 [] 0); [done|]. l1_move 0. }
  eapply rtc_l. { eapply (LLCTakes _ llc_of (0, -1) getM_1 [] (2, 1)); [done|]. llc_move 0 (-1). }
  eapply rtc_l. { eapply (LLCData _ llc_of (2, 1) data_1 [] (4, 1)); [done..|]. llc_move 2 1. }
  eapply rtc_l. { eapply (L1Local _ 0 (l1_of 1) 6 data_1 [] 18); [done|by right; right|]. l1_move 6. }
  apply rtc_refl.
Qed.


