(* ===== verification/CoherenceStore.v ===== *)
(** * The states of [Coherence] in a controller's store

    What a handler decides about a line is what the next lookup of the line
    finds: [CacheController::updateCacheLine] against the abstract store. *)

From S2P Require Export ControllerDemo Coherence DataHandlerView.

Local Open Scope list_scope.
Open Scope Z_scope.

(** State and owner of a block; one that is nowhere reads as a fresh line. *)
Definition seen (s : COTS) (a : Z) : Z * Z :=
  match view s a with Some (st, o, _) => (st, o) | None => (0, -1) end.

Lemma line_bits_seen s a : cots_wf s -> in_addr a ->
  (state (line_bits s a), owner_id (line_bits s a)) = seen s a.
Proof.
  intros W Ha. unfold line_bits, readLineBits, seen. cbn.
  destruct (locate s a W Ha) as [set way ? ? ? Hfc ? Hg ? HV|l ? Hm Hfc ? HV|l ? Hm Hp Hfc ? HV|Hfc ? ? ? HV]; rewrite Hfc, HV.
  - by rewrite Hg.
  - by rewrite (proj1 (reg_line_mshr s _ l Hm)).
  - by rewrite (proj1 (reg_line_pwb s _ l Hm Hp)).
  - done.
Qed.

Lemma tracked_view s a : cots_wf s -> in_addr a -> isAddressTracked s a = bool_decide (is_Some (view s a)).
Proof.
  intros W Ha. unfold isAddressTracked.
  destruct (locate s a W Ha) as [set way ? ? ? Hfc ? Hg ? HV|l ? Hm Hfc ? HV|l ? Hm Hp Hfc ? HV|Hfc ? ? ? HV]; rewrite Hfc, HV;
    by apply bool_decide_ext; split; intros [? ?].
Qed.

Section Store.
Context {P IU IL : Type} `{!CoherenceProtocol P, !CommInterface IU, !CommInterface IL,
  !CommInterfaceLaws IU, !CommInterfaceLaws IL}.
Abbreviation C := (@Controller P IU IL).

Lemma report_lost_copy_store msg line (c c' : C) : report_lost_copy msg line c = Ok c' -> data_handler c' = data_handler c.
Proof.
  unfold report_lost_copy, tell_cpu. intros H. split_ok H; done.
Qed.

End Store.

(** A load misses: its line goes to a miss register in state [IS_ad]. *)
Definition seen_l1 : DemoL1 := set_data_handler demo_store demo_start.
Definition missed : GenericCacheLine := mkLine true 0 0 0 (-1) 1 (-1) 4 None.

