(* ===== verification/TaskFile.v ===== *)
(** * Task programs

    [CPU::loadTask] ([src/CPU.cpp]): the rows of a [.task.csv] file, which make
    the body and the timing of a periodic task.  The conversions are those of
    the C library: [strtoull] and [strtoll] with base 0, [atof]. *)

From S2P Require Export CText.
From Stdlib Require Export SpecFloat.

Local Open Scope string_scope.
Open Scope Z_scope.

(** ** Conversions *)

Definition oct_digit (a : ascii) : option Z :=
  let n := Z.of_nat (nat_of_ascii a) in if (48 <=? n) && (n <=? 55) then Some (n - 48) else None.

(** The digits after the sign, in the base their prefix names. *)
Definition int_digits (s : string) : Z :=
  match s with
  | String "0" rest =>
      match rest with
      | String x r =>
          if Ascii.eqb x "x" || Ascii.eqb x "X"
          then default 0 (fst <$> scan_digits hex_digit 16 r None)
          else default 0 (fst <$> scan_digits oct_digit 8 rest None)
      | EmptyString => 0
      end
  | _ => default 0 (fst <$> scan_digits digit 10 s None)
  end.

Definition strtoull (s : string) : Z :=
  let '(sg, s1) := scan_sign (skip_space s) in
  let n := int_digits s1 in if n <=? 2 ^ 64 - 1 then w64 (sg * n) else 2 ^ 64 - 1.
Definition strtoll (s : string) : Z :=
  let '(sg, s1) := scan_sign (skip_space s) in
  Z.max (- 2 ^ 63) (Z.min (2 ^ 63 - 1) (sg * int_digits s1)).

(** A [double]. *)
Definition double_of (n e : Z) : spec_float := binary_normalize 53 1024 n e false.

(** Digits with a point: the number without its point, the digits after it, the
    rest of the text; [None] when there is no digit. *)
Definition point_digits (dig : ascii -> option Z) (b : Z) (s : string) : option (Z * Z * string) :=
  let '(n, r) := default (0, s) (scan_digits dig b s None) in
  let ipart := Z.of_nat (String.length s - String.length r) in
  let '(m, k, r') :=
    match r with
    | String "." f =>
        match scan_digits dig b f (Some n) with
        | Some (m, r') => (m, Z.of_nat (String.length f - String.length r'), r')
        | None => (n, 0, r)
        end
    | _ => (n, 0, r)
    end in
  if ipart + k =? 0 then None else Some (m, k, r').

(** The exponent, if the text goes on with one. *)
Definition exponent (lo up : ascii) (s : string) : Z :=
  match s with
  | String e x =>
      if Ascii.eqb e lo || Ascii.eqb e up
      then let '(sg, d) := scan_sign x in sg * default 0 (fst <$> scan_digits digit 10 d None)
      else 0
  | EmptyString => 0
  end.

(** [m * 10 ^ e], rounded to nearest. *)
Definition decimal (sg : bool) (m e : Z) : spec_float :=
  match m with
  | Zpos p =>
      if 0 <=? e then binary_normalize 53 1024 (cond_Zopp sg (m * (10 ^ e))) 0 sg
      else SFdiv 53 1024 (S754_finite sg p 0) (S754_finite false (Z.to_pos (10 ^ (- e))) 0)
  | _ => S754_zero sg
  end.

Definition lower (a : ascii) : ascii :=
  let n := nat_of_ascii a in if ((65 <=? n) && (n <=? 90))%nat then ascii_of_nat (n + 32) else a.
Fixpoint starts_with (word s : string) : bool :=
  match word, s with
  | EmptyString, _ => true
  | String w word', String a s' => Ascii.eqb w (lower a) && starts_with word' s'
  | _, _ => false
  end.

Definition atof (s : string) : spec_float :=
  let '(sign, s1) := scan_sign (skip_space s) in
  let sg := sign <? 0 in
  if starts_with "inf" s1 then S754_infinity sg
  else if starts_with "nan" s1 then S754_nan
  else
    match (if starts_with "0x" s1 then point_digits hex_digit 16 (drop_chars 2 s1) else None) with
    | Some (m, k, r) => binary_normalize 53 1024 (cond_Zopp sg m) (exponent "p" "P" r - 4 * k) sg
    | None =>
        match point_digits digit 10 s1 with
        | Some (m, k, r) => decimal sg m (exponent "e" "E" r - k)
        | None => S754_zero false
        end
    end.

(** ** Tasks *)

(** A body row; [rd_ratio] is a C++ [double]. *)
Inductive Phase :=
| COMPUTE (cycles : Z)
| READ_ONE (addr : Z)
| WRITE_ONE (addr : Z)
| LINEAR (base count stride : Z) (rd_ratio : spec_float)
| RANDOM (base range count : Z) (rd_ratio : spec_float).

Record Task := mkTask {
  m_period : Z;
  m_deadline_rel : Z;
  m_start : Z;
  m_jobs_total : Z;        (* int64_t; negative: a free-running generator *)
  m_body : list Phase }.
Definition noTask : Task := mkTask 0 0 0 0 [].

(** ** Rows *)

(** The task so far, and the window of outstanding requests once it is set. *)
Definition Loading : Type := Task * option Z.

Definition num (s : string) : Z := if String.eqb s "" then 0 else strtoull s.
Definition ratio (s : string) : spec_float := if String.eqb s "" then double_of 1 0 else atof s.

Definition set_attr (name value : string) (l : Loading) : option Loading :=
  let '(t, ooo) := l in
  if String.eqb name "period" then Some (mkTask (num value) (m_deadline_rel t) (m_start t) (m_jobs_total t) (m_body t), ooo)
  else if String.eqb name "jobs" then Some (mkTask (m_period t) (m_deadline_rel t) (m_start t) (strtoll value) (m_body t), ooo)
  else if String.eqb name "ooo" then Some (t, Some (w32 (num value)))
  else if String.eqb name "deadline" then Some (mkTask (m_period t) (num value) (m_start t) (m_jobs_total t) (m_body t), ooo)
  else if String.eqb name "start" then Some (mkTask (m_period t) (m_deadline_rel t) (num value) (m_jobs_total t) (m_body t), ooo)
  else if String.eqb name "base" then Some l
  else None.

Definition add_phase (ph : Phase) (l : Loading) : Loading :=
  let '(t, ooo) := l in (mkTask (m_period t) (m_deadline_rel t) (m_start t) (m_jobs_total t) (m_body t ++ [ph])%list, ooo).

Definition strip_cr (line : string) : string :=
  match after_last "013" line with
  | S p => if Nat.eqb (S p) (String.length line) then take_chars p line else line
  | O => line
  end.

(** The first character that is neither a space nor a tab. *)
Fixpoint first_visible (s : string) : option ascii :=
  match s with
  | EmptyString => None
  | String a s' => if Ascii.eqb a " " || Ascii.eqb a "009" then first_visible s' else Some a
  end.

(** The columns of a row; [None]: an unknown attribute or row kind. *)
Definition load_cells (cols : list string) (l : Loading) : option Loading :=
  let cell n := nth n cols "" in
  let kind := cell 0%nat in
  if String.eqb kind "kind" then Some l
  else if String.eqb kind "attr" then set_attr (cell 1%nat) (cell 2%nat) l
  else if String.eqb kind "COMPUTE" then Some (add_phase (COMPUTE (num (cell 1%nat))) l)
  else if String.eqb kind "READ" then Some (add_phase (READ_ONE (num (cell 1%nat))) l)
  else if String.eqb kind "WRITE" then Some (add_phase (WRITE_ONE (num (cell 1%nat))) l)
  else if String.eqb kind "LINEAR" then
    Some (add_phase (LINEAR (num (cell 1%nat)) (num (cell 2%nat)) (num (cell 3%nat)) (ratio (cell 4%nat))) l)
  else if String.eqb kind "RANDOM" then
    Some (add_phase (RANDOM (num (cell 1%nat)) (num (cell 2%nat)) (num (cell 3%nat)) (ratio (cell 4%nat))) l)
  else None.

(** One line of the file. *)
Definition load_row (l : Loading) (line : string) : option Loading :=
  let line := strip_cr line in
  match first_visible line with
  | None => Some l
  | Some a => if Ascii.eqb a "#" then Some l else load_cells (fields (Some line) ",") l
  end.

Fixpoint load_rows (lines : list string) (l : Loading) : option Loading :=
  match lines with
  | [] => Some l
  | line :: lines' => match load_row l line with Some l' => load_rows lines' l' | None => None end
  end.

(** The end of [loadTask]: the checks and the defaults. *)
Definition finish_task (t : Task) : option Task :=
  if (0 <=? m_jobs_total t) && (m_period t =? 0) then None else
  let deadline := if m_deadline_rel t =? 0 then m_period t else m_deadline_rel t in
  let period := if (m_jobs_total t <? 0) && (m_period t =? 0) then 1 else m_period t in
  Some (mkTask period deadline (m_start t) (m_jobs_total t) (m_body t)).

(** [None]: the file cannot be opened, or does not hold a task. *)
Definition loadTask (file : option (list string)) : option Loading :=
  match file with
  | None => None
  | Some lines =>
      match load_rows lines (noTask, None) with
      | Some (t, ooo) => (fun t' => (t', ooo)) <$> finish_task t
      | None => None
      end
  end.
