(* ===== verification/TaskTheory.v ===== *)
(** * Task programs, printed and read

    A printer for tasks, numbers in decimal and ratios in the notation of [%a],
    and the proof that [loadTask] reads back what it prints. *)

From S2P Require Export TaskFile.

Local Open Scope string_scope.
Open Scope Z_scope.

(** ** Printing numbers *)

Definition digit_char (d : Z) : ascii := ascii_of_nat (Z.to_nat (if d <? 10 then d + 48 else d + 87)).

Fixpoint show_digits (fuel : nat) (b n : Z) (rest : string) : string :=
  match fuel with
  | O => rest
  | S f => if n <? b then String (digit_char n) rest else show_digits f b (n / b) (String (digit_char (n mod b)) rest)
  end.
Definition show (b n : Z) (rest : string) : string := show_digits (S (Z.to_nat (Z.log2 n))) b n rest.

(** [dig] reads the digits of base [b] that [show] prints. *)
Definition reads (dig : ascii -> option Z) (b : Z) : Prop := forall d, 0 <= d < b -> dig (digit_char d) = Some d.

Lemma small_cases (P : Z -> Prop) n : (forall k, (k < n)%nat -> P (Z.of_nat k)) -> forall d, 0 <= d < Z.of_nat n -> P d.
Proof. intros H d Hd. replace d with (Z.of_nat (Z.to_nat d)) by lia. apply H. lia. Qed.

Lemma digit_reads : reads digit 10.
Proof. unfold reads. apply (small_cases _ 10). intros k Hk. do 10 (destruct k as [|k]; [done|]). lia. Qed.

Lemma hex_digit_reads : reads hex_digit 16.
Proof. unfold reads. apply (small_cases _ 16). intros k Hk. do 16 (destruct k as [|k]; [done|]). lia. Qed.

(** Enough fuel: one step per binary digit. *)
Definition enough (fuel : nat) (n : Z) : Prop := n < 2 ^ Z.of_nat fuel.

Lemma enough_div fuel b n : 2 <= b -> 0 <= n -> enough (S fuel) n -> enough fuel (n / b).
Proof.
  unfold enough. intros Hb Hn H. rewrite Nat2Z.inj_succ, Z.pow_succ_r in H by lia.
  apply Z.div_lt_upper_bound; [lia|]. nia.
Qed.

Lemma enough_log2 n : 0 <= n -> enough (S (Z.to_nat (Z.log2 n))) n.
Proof.
  unfold enough. intros Hn. rewrite Nat2Z.inj_succ, Z2Nat.id by apply Z.log2_nonneg.
  destruct (decide (n = 0)) as [->|]; [done|]. apply Z.log2_spec. lia.
Qed.

Lemma show_digits_scan dig b : 2 <= b -> reads dig b -> forall fuel n rest, 0 <= n -> enough fuel n -> (0 < fuel)%nat ->
  scan_digits dig b (show_digits fuel b n rest) None = scan_digits dig b rest (Some n).
Proof.
  intros Hb Hdig. induction fuel as [|f IH]; intros n rest Hn He Hf; [lia|]. cbn [show_digits].
  destruct (Z.ltb_spec n b).
  - cbn [scan_digits]. rewrite Hdig by lia. cbn. f_equal. f_equal. lia.
  - assert (0 < n / b) by (apply Z.div_str_pos; lia). pose proof (enough_div f b n Hb Hn He) as He'.
    rewrite IH; [|lia|done|destruct f; [unfold enough in He'; cbn in He'; lia|lia]].
    cbn [scan_digits]. rewrite Hdig by (apply Z.mod_pos_bound; lia). cbn. f_equal. f_equal. pose proof (Z.div_mod n b). lia.
Qed.

Lemma show_scan dig b n rest : 2 <= b -> reads dig b -> 0 <= n ->
  scan_digits dig b (show b n rest) None = scan_digits dig b rest (Some n).
Proof. intros. apply show_digits_scan; [done..|by apply enough_log2|lia]. Qed.

(** The leading digit of a positive number is not 0. *)
Lemma show_digits_head b : 2 <= b -> forall fuel n rest, 0 < n -> enough fuel n ->
  exists d r, show_digits fuel b n rest = String (digit_char d) r /\ 0 < d < b.
Proof.
  intros Hb. induction fuel as [|f IH]; intros n rest Hn He; [unfold enough in He; cbn in He; lia|]. cbn [show_digits].
  destruct (Z.ltb_spec n b); [by exists n, rest|].
  apply IH; [apply Z.div_str_pos; lia|by apply enough_div; [| lia|]].
Qed.

(** A text that ends a number. *)
Definition stops (dig : ascii -> option Z) (rest : string) : Prop :=
  match rest with String a _ => dig a = None | EmptyString => True end.

Lemma scan_stops dig b rest n : stops dig rest -> scan_digits dig b rest (Some n) = Some (n, rest).
Proof. destruct rest as [|a rest]; cbn; [done|]. by intros ->. Qed.

(** ** Conversions read back what is printed *)

Definition show_dec (n : Z) : string := show 10 n "".
Definition show_int (n : Z) : string := if n <? 0 then String "-" (show_dec (- n)) else show_dec n.

Lemma show_lead b n rest : 2 <= b -> 0 < n -> exists d r, show b n rest = String (digit_char d) r /\ 0 < d < b.
Proof. intros Hb Hn. apply show_digits_head; [done..|]. apply enough_log2. lia. Qed.

(** Decimal digits, and what the reader makes of the first one. *)
Lemma lead_digit d r : 0 < d < 10 ->
  let s := String (digit_char d) r in
  skip_space s = s /\ scan_sign s = (1, s) /\ int_digits s = default 0 (fst <$> scan_digits digit 10 s None).
Proof.
  intros Hd. assert (H : forall k, (k < 10)%nat -> Z.of_nat k <> 0 -> let s := String (digit_char (Z.of_nat k)) r in
    skip_space s = s /\ scan_sign s = (1, s) /\ int_digits s = default 0 (fst <$> scan_digits digit 10 s None)).
  { intros k Hk Hk0. do 10 (destruct k as [|k]; [done|]). lia. }
  replace d with (Z.of_nat (Z.to_nat d)) by lia. apply H; lia.
Qed.

Lemma show_dec_int n : 0 <= n ->
  skip_space (show_dec n) = show_dec n /\ scan_sign (show_dec n) = (1, show_dec n) /\ int_digits (show_dec n) = n.
Proof.
  intros Hn. destruct (decide (n = 0)) as [->|Hne]; [done|]. unfold show_dec.
  destruct (show_lead 10 n "") as (d & r & E & Hd); [lia..|]. pose proof (lead_digit d r Hd) as (H1 & H2 & H3).
  rewrite <- E in *. split_and!; [done..|]. rewrite H3, show_scan by (apply digit_reads || lia). done.
Qed.

Lemma num_show n : 0 <= n < 2 ^ 64 -> num (show_dec n) = n.
Proof.
  intros Hn. unfold num. destruct (show_dec_int n) as (H1 & H2 & H3); [lia|].
  destruct (String.eqb_spec (show_dec n) "") as [E|_]; [by rewrite E in H3|].
  unfold strtoull. rewrite H1, H2, H3, Z.mul_1_l.
  destruct (Z.leb_spec n (2 ^ 64 - 1)); [|lia]. apply wrap_small. lia.
Qed.

Lemma strtoll_show n : - 2 ^ 63 <= n < 2 ^ 63 -> strtoll (show_int n) = n.
Proof.
  intros Hn. unfold show_int, strtoll. destruct (Z.ltb_spec n 0).
  - destruct (show_dec_int (- n)) as (_ & _ & H3); [lia|].
    change (scan_sign (skip_space (String "-" (show_dec (- n))))) with (-1, show_dec (- n)). cbv beta iota. rewrite H3. lia.
  - destruct (show_dec_int n) as (H1 & H2 & H3); [lia|]. rewrite H1, H2, H3. lia.
Qed.

(** A [double], as [%a] prints it. *)
Definition show_double (x : spec_float) : string :=
  let sign (sg : bool) s := if sg then String "-" s else s in
  match x with
  | S754_zero sg => sign sg "0"
  | S754_infinity sg => sign sg "inf"
  | S754_nan => "nan"
  | S754_finite sg m e => sign sg (String "0" (String "x" (show 16 (Zpos m) (String "p" (show_int e)))))
  end.

Lemma binary_round_valid sg m e : bounded 53 1024 m e = true -> binary_round 53 1024 sg m e = S754_finite sg m e.
Proof.
  unfold bounded, canonical_mantissa. intros [Hc He]%andb_true_iff. apply Z.eqb_eq in Hc.
  unfold binary_round, shl_align. rewrite Hc, Z.sub_diag. unfold binary_round_aux, shr_fexp. cbn [Zdigits2].
  rewrite Hc, Z.sub_diag. cbn [shr shr_record_of_loc shr_m loc_of_shr_record round_nearest_even Zdigits2].
  rewrite Hc, Z.sub_diag. cbn [shr shr_record_of_loc shr_m]. by rewrite He.
Qed.

Lemma show_digits_length b : 2 <= b -> forall fuel n rest, (0 < fuel)%nat ->
  (String.length rest < String.length (show_digits fuel b n rest))%nat.
Proof.
  intros Hb. induction fuel as [|f IH]; intros n rest Hf; [lia|]. cbn [show_digits].
  destruct (n <? b); [cbn; lia|]. destruct f as [|f]; [cbn; lia|].
  etrans; [|apply IH; lia]. cbn. lia.
Qed.

Lemma exponent_show e : exponent "p" "P" (String "p" (show_int e)) = e.
Proof.
  unfold exponent. change (Ascii.eqb "p" "p" || Ascii.eqb "p" "P") with true. cbv beta iota. unfold show_int.
  destruct (Z.ltb_spec e 0).
  - change (scan_sign (String "-" (show_dec (- e)))) with (-1, show_dec (- e)). cbv beta iota. unfold show_dec.
    rewrite show_scan by (apply digit_reads || lia). cbn. lia.
  - destruct (show_dec_int e) as (_ & -> & _); [lia|]. cbv beta iota. unfold show_dec.
    rewrite show_scan by (apply digit_reads || lia). cbn. lia.
Qed.

Lemma hex_point m e : 0 <= m ->
  point_digits hex_digit 16 (show 16 m (String "p" (show_int e))) = Some (m, 0, String "p" (show_int e)).
Proof.
  intros Hm. unfold point_digits. rewrite show_scan by (apply hex_digit_reads || lia). rewrite scan_stops by done. cbn [from_option]. unfold id. cbv beta iota.
  pose proof (show_digits_length 16 ltac:(lia) (S (Z.to_nat (Z.log2 m))) m (String "p" (show_int e)) ltac:(lia)) as Hl.
  fold (show 16 m (String "p" (show_int e))) in Hl.
  destruct (Z.eqb_spec (Z.of_nat (String.length (show 16 m (String "p" (show_int e))) - String.length (String "p" (show_int e))) + 0) 0);
    [lia|done].
Qed.

Lemma ratio_show x : valid_binary 53 1024 x = true -> ratio (show_double x) = x.
Proof.
  destruct x as [[]|[]| |sg m e]; [by vm_compute..|]. cbn [valid_binary]. intros Hv.
  set (t := show 16 (Zpos m) (String "p" (show_int e))).
  transitivity (atof (if sg then String "-" (String "0" (String "x" t)) else String "0" (String "x" t))); [by destruct sg|].
  unfold atof.
  assert (Ha : forall s1, s1 = String "0" (String "x" t) ->
    scan_sign (skip_space (if sg then String "-" s1 else s1)) = (if sg then -1 else 1, s1)) by (intros s1 ->; by destruct sg).
  rewrite (Ha _ eq_refl). assert (Hsg : ((if sg then -1 else 1) <? 0) = sg) by by destruct sg. rewrite Hsg.
  change (starts_with "inf" (String "0" (String "x" t))) with false.
  change (starts_with "nan" (String "0" (String "x" t))) with false.
  change (starts_with "0x" (String "0" (String "x" t))) with true. cbn [drop_chars].
  unfold t. rewrite hex_point by lia. cbv beta iota. rewrite exponent_show. change (4 * 0) with 0. rewrite Z.sub_0_r.
  unfold binary_normalize. destruct sg; cbn [cond_Zopp Z.opp]; by apply binary_round_valid.
Qed.

(** ** Rows *)

(** Text that stays one column of one line. *)
Definition clean_char (a : ascii) : bool := negb (Ascii.eqb a ",") && negb (Ascii.eqb a "013").
Fixpoint clean (s : string) : bool :=
  match s with EmptyString => true | String a s' => clean_char a && clean s' end.

Lemma digit_clean d : 0 <= d < 16 -> clean_char (digit_char d) = true.
Proof. apply (small_cases (fun d => clean_char (digit_char d) = true) 16). intros k Hk. do 16 (destruct k as [|k]; [done|]). lia. Qed.

Lemma show_digits_clean b : 2 <= b <= 16 -> forall fuel n rest, 0 <= n -> clean rest = true -> clean (show_digits fuel b n rest) = true.
Proof.
  intros Hb. induction fuel as [|f IH]; intros n rest Hn Hr; cbn [show_digits]; [done|]. destruct (Z.ltb_spec n b).
  - cbn [clean]. by rewrite digit_clean by lia.
  - apply IH; [apply Z.div_pos; lia|]. pose proof (Z.mod_pos_bound n b). cbn [clean]. by rewrite digit_clean by lia.
Qed.

Lemma show_clean b n rest : 2 <= b <= 16 -> 0 <= n -> clean rest = true -> clean (show b n rest) = true.
Proof. intros. by apply show_digits_clean. Qed.

Lemma show_int_clean n : clean (show_int n) = true /\ show_int n <> "".
Proof.
  unfold show_int. destruct (Z.ltb_spec n 0); [split; [|done]; cbn; apply show_clean; (done || lia)|].
  split; [apply show_clean; (done || lia)|]. intros E. unfold show_dec, show in E.
  pose proof (show_digits_length 10 ltac:(lia) (S (Z.to_nat (Z.log2 n))) n "" ltac:(lia)) as Hl. rewrite E in Hl. cbn in Hl. lia.
Qed.

Lemma show_dec_clean n : 0 <= n -> clean (show_dec n) = true /\ show_dec n <> "".
Proof. intros Hn. pose proof (show_int_clean n) as H. unfold show_int in H. by rewrite (proj2 (Z.ltb_ge n 0)) in H. Qed.

Lemma show_double_clean x : clean (show_double x) = true /\ show_double x <> "".
Proof.
  destruct x as [[]|[]| |sg m e]; try done.
  assert (H : clean (show 16 (Zpos m) (String "p" (show_int e))) = true).
  { apply show_clean; [lia..|]. cbn. apply show_int_clean. }
  unfold show_double. generalize dependent (show 16 (Zpos m) (String "p" (show_int e))). intros t Ht. by destruct sg.
Qed.

Fixpoint join (cells : list string) : string :=
  match cells with
  | [] => ""
  | [w] => w
  | w :: cells' => w +:+ String "," (join cells')
  end.

Lemma break_clean w s : clean w = true -> break_at "," (w +:+ String "," s) = Some (w, s).
Proof.
  induction w as [|a w IH]; [done|]. rewrite append_cons. cbn [clean break_at]. intros [Ha Hw]%andb_true_iff.
  unfold clean_char in Ha. apply andb_true_iff in Ha as [Ha _]. apply negb_true_iff in Ha. by rewrite Ha, IH.
Qed.

Lemma break_none w : clean w = true -> break_at "," w = None.
Proof.
  induction w as [|a w IH]; [done|]. cbn [clean break_at]. intros [Ha Hw]%andb_true_iff.
  unfold clean_char in Ha. apply andb_true_iff in Ha as [Ha _]. apply negb_true_iff in Ha. by rewrite Ha, IH.
Qed.

(** Splitting undoes joining, unless the last column is empty. *)
Lemma fields_join cells : Forall (fun w => clean w = true) cells -> last cells <> Some "" -> cells <> [] ->
  fields (Some (join cells)) "," = cells.
Proof.
  induction cells as [|w cells IH]; [done|]. intros [Hw Hc]%Forall_cons Hl _. rewrite fields_unfold.
  destruct cells as [|w' cells].
  - cbn [join getline]. rewrite break_none by done. destruct (String.eqb_spec w "") as [->|Hne]; [by cbn in Hl|done].
  - change (join (w :: w' :: cells)) with (w +:+ String "," (join (w' :: cells))). cbn [getline].
    rewrite break_clean by done. f_equal. by apply IH.
Qed.

Lemma clean_append a b : clean (a +:+ b) = clean a && clean b.
Proof. induction a as [|c a IH]; [done|]. rewrite append_cons. cbn. by rewrite IH, andb_assoc. Qed.

Definition no_cr (s : string) : Prop := after_last "013" s = O.

Lemma no_cr_append a b : no_cr a -> no_cr b -> no_cr (a +:+ b).
Proof.
  unfold no_cr. intros Ha Hb. induction a as [|c a IH]; [done|]. rewrite append_cons. cbn in *.
  destruct (after_last "013" a) eqn:E; [|done]. rewrite IH by done. done.
Qed.

Lemma clean_no_cr s : clean s = true -> no_cr s.
Proof.
  unfold no_cr. induction s as [|a s IH]; [done|]. cbn [clean after_last]. intros [Ha Hs]%andb_true_iff. rewrite IH by done.
  unfold clean_char in Ha. apply andb_true_iff in Ha as [_ Ha]. apply negb_true_iff in Ha. by rewrite Ha.
Qed.

Lemma join_no_cr cells : Forall (fun w => clean w = true) cells -> no_cr (join cells).
Proof.
  induction cells as [|w cells IH]; [done|]. intros [Hw Hc]%Forall_cons. destruct cells as [|w' cells]; [by apply clean_no_cr|].
  change (join (w :: w' :: cells)) with (w +:+ (String "," "" +:+ join (w' :: cells))).
  apply no_cr_append; [by apply clean_no_cr|]. apply no_cr_append; [done|by apply IH].
Qed.

Lemma first_visible_append a s c : first_visible a = Some c -> first_visible (a +:+ s) = Some c.
Proof. induction a as [|b a IH]; [done|]. rewrite append_cons. cbn. destruct (_ || _); auto. Qed.

Lemma join_head w cells : exists s, join (w :: cells) = w +:+ s.
Proof.
  destruct cells as [|w' cells]; [|by eexists]. exists "". cbn. induction w as [|a w IH]; [done|]. rewrite append_cons. by f_equal.
Qed.

(** A printed row is read as its columns. *)
Lemma load_row_join l w cells a : first_visible w = Some a -> a <> "#"%char ->
  Forall (fun w => clean w = true) (w :: cells) -> last (w :: cells) <> Some "" ->
  load_row l (join (w :: cells)) = load_cells (w :: cells) l.
Proof.
  intros Hv Ha Hc Hl. unfold load_row. replace (strip_cr (join (w :: cells))) with (join (w :: cells))
    by (unfold strip_cr; pose proof (join_no_cr _ Hc) as E; unfold no_cr in E; by rewrite E).
  cbv zeta. destruct (join_head w cells) as [s E]. rewrite E, (first_visible_append _ _ _ Hv), <- E, fields_join by done.
  destruct (Ascii.eqb_spec a "#"); [done|]. done.
Qed.

(** ** Tasks *)

Definition show_phase (ph : Phase) : string :=
  match ph with
  | COMPUTE n => join ["COMPUTE"; show_dec n]
  | READ_ONE a => join ["READ"; show_dec a]
  | WRITE_ONE a => join ["WRITE"; show_dec a]
  | LINEAR b n st d => join ["LINEAR"; show_dec b; show_dec n; show_dec st; show_double d]
  | RANDOM b r n d => join ["RANDOM"; show_dec b; show_dec r; show_dec n; show_double d]
  end.

Definition show_task (t : Task) (ooo : Z) : list string :=
  ([join ["attr"; "period"; show_dec (m_period t)]; join ["attr"; "jobs"; show_int (m_jobs_total t)];
    join ["attr"; "ooo"; show_dec ooo]; join ["attr"; "deadline"; show_dec (m_deadline_rel t)];
    join ["attr"; "start"; show_dec (m_start t)]] ++ (show_phase <$> m_body t))%list.

Definition u64 (n : Z) : Prop := 0 <= n < 2 ^ 64.
Definition phase_ok (ph : Phase) : Prop :=
  match ph with
  | COMPUTE n => u64 n
  | READ_ONE a | WRITE_ONE a => u64 a
  | LINEAR b n st d => u64 b /\ u64 n /\ u64 st /\ valid_binary 53 1024 d = true
  | RANDOM b r n d => u64 b /\ u64 r /\ u64 n /\ valid_binary 53 1024 d = true
  end.
Record task_ok (t : Task) : Prop := mk_task_ok {
  to_period : u64 (m_period t);
  to_deadline : u64 (m_deadline_rel t);
  to_start : u64 (m_start t);
  to_jobs : - 2 ^ 63 <= m_jobs_total t < 2 ^ 63;
  to_body : Forall phase_ok (m_body t) }.

Ltac row a := rewrite (load_row_join _ _ _ a);
  [|done|done|repeat (constructor; [first [done | apply show_dec_clean; unfold u64 in *; lia | apply show_int_clean | apply show_double_clean]|]); by constructor
   |cbn; intros [= Hlast]; revert Hlast; first [apply show_dec_clean; unfold u64 in *; lia | apply show_int_clean | apply show_double_clean]];
  cbn [load_cells nth String.eqb Ascii.eqb Bool.eqb set_attr noTask].

Lemma load_phase l ph : phase_ok ph -> load_row l (show_phase ph) = Some (add_phase ph l).
Proof.
  destruct ph as [n|a|a|b n st d|b r n d]; cbn [phase_ok show_phase]; intros H; destruct_and?.
  - row "C"%char. by rewrite num_show.
  - row "R"%char. by rewrite num_show.
  - row "W"%char. by rewrite num_show.
  - row "L"%char. by rewrite !num_show, ratio_show.
  - row "R"%char. by rewrite !num_show, ratio_show.
Qed.

Lemma load_body body : forall l, Forall phase_ok body ->
  load_rows (show_phase <$> body) l = Some (foldl (fun l ph => add_phase ph l) l body).
Proof.
  induction body as [|ph body IH]; intros l; [done|]. intros [Hp Hb]%Forall_cons. cbn. rewrite load_phase by done. by apply IH.
Qed.

Lemma add_phases body : forall t ooo, foldl (fun l ph => add_phase ph l) (t, ooo) body =
  (mkTask (m_period t) (m_deadline_rel t) (m_start t) (m_jobs_total t) (m_body t ++ body)%list, ooo).
Proof.
  induction body as [|ph body IH]; intros t ooo; cbn; [rewrite app_nil_r; by destruct t|].
  rewrite IH. cbn. by rewrite <- app_assoc.
Qed.

(** C35: a task printed as a program is read back.  Whatever its attributes, in
    the range of their C++ types, and its rows, with any [double] as a ratio,
    [loadTask] of the printed lines is the task with its defaults filled in, or
    the refusal of a periodic task without a period. *)
Theorem task_roundtrip t ooo : task_ok t -> 0 <= ooo < 2 ^ 32 ->
  loadTask (Some (show_task t ooo)) = (fun t' => (t', Some ooo)) <$> finish_task t.
Proof.
  intros [Hp Hd Hs Hj Hb] Ho. assert (Ho' : u64 ooo) by (unfold u64; lia). unfold loadTask, show_task. cbn [app load_rows].
  row "a"%char. rewrite num_show by done.
  row "a"%char. rewrite strtoll_show by done.
  row "a"%char. rewrite num_show by done.
  row "a"%char. rewrite num_show by done.
  row "a"%char. rewrite num_show by done.
  rewrite load_body by done. rewrite add_phases. cbn. unfold w32. rewrite wrap_small by lia. by destruct t.
Qed.

(** ** A concrete task *)

Definition demo_body : list Phase :=
  [COMPUTE 5; READ_ONE 64; LINEAR 128 3 64 (double_of 1 (-1)); COMPUTE 7; RANDOM 4096 256 2 (double_of 1 0); COMPUTE 2].
Definition demo_task : Task := mkTask 100 0 10 5 demo_body.

(** Its file, with a header, a comment, numbers in hexadecimal and octal, a
    missing ratio and a line that ends in a carriage return. *)
Definition demo_lines : list string :=
  ["kind,a,b,c,d"; "# a task"; "attr,period,100"; "attr,start,012"; "attr,jobs,5"; "";
   "COMPUTE,5"; "READ,0x40"; "LINEAR,0x80,3,64,0.5"; "COMPUTE,7" +:+ String "013" ""; "RANDOM,0x1000,256,2"; "COMPUTE,2"].

Example demo_lines_load : loadTask (Some demo_lines) = (fun t => (t, None)) <$> finish_task demo_task.
Proof. vm_compute. reflexivity. Qed.

Example demo_bad_row : loadTask (Some ["attr,period,100"; "COMPUTER,5"]) = None.
Proof. reflexivity. Qed.

Lemma task_roundtrip_witness : task_ok demo_task /\
  show_task demo_task 4 = ["attr,period,100"; "attr,jobs,5"; "attr,ooo,4"; "attr,deadline,0"; "attr,start,10"; "COMPUTE,5";
    "READ,64"; "LINEAR,128,3,64,0x10000000000000p-53"; "COMPUTE,7"; "RANDOM,4096,256,2,0x10000000000000p-52"; "COMPUTE,2"] /\
  loadTask (Some (show_task demo_task 4)) = (fun t' => (t', Some 4)) <$> finish_task demo_task.
Proof.
  assert (Ht : task_ok demo_task) by (split; cbn; repeat constructor; unfold u64; try lia; by vm_compute).
  split_and!; [done|by vm_compute|]. apply task_roundtrip; [done|lia].
Defined.
