(* ===== verification/Cpu.v ===== *)
(** * The trace-driven core

    [class CPU] ([src/CPU.cpp], [header/CPU.h]): a core that replays an access
    trace, or runs the jobs of a periodic task, through a window of outstanding
    requests.  The two static counters every core shares are [Shared].  A trace
    file is the list of the lines still to be read; a task program is what
    [loadTask] makes of its rows.  The job reports, which the logger writes out,
    are a list, newest first. *)

From S2P Require Export Messages TaskFile.

(** ** Reading a trace line: [sscanf(line, "%llx %*d %c %lld", ...)] *)

(** The address, the type and the cycle; a conversion that fails leaves its
    variable and those after it. *)
Definition sscanf_sample (line : string) (addr0 : Z) (type0 : ascii) (cycle0 : Z) : Z * ascii * Z :=
  match scan_llx line with
  | None => (addr0, type0, cycle0)
  | Some (a, r) =>
      match scan_lld r with
      | None => (a, type0, cycle0)
      | Some (_, r1) =>
          match skip_space r1 with
          | EmptyString => (a, type0, cycle0)
          | String t r2 =>
              match scan_lld r2 with
              | None => (a, t, cycle0)
              | Some (n, _) => (a, t, w64 n)
              end
          end
      end
  end.

Definition sample_cycle (line : string) : Z := snd (sscanf_sample line 0 "R" 0).

(** ** State *)

Definition READ : Z := 0.
Definition WRITE : Z := 1.

(** [IdGenerator::reqId] and [CPU::s_finite_cores_running]. *)
Record Shared := mkShared { reqId : Z; s_finite_cores_running : Z }.
Definition nextReqId (sh : Shared) : Z * Shared :=
  (w64 (reqId sh), mkShared (i32 (reqId sh + 1)) (s_finite_cores_running sh)).

Record TraceSample := mkSample { compute_time : Z; read_cycle : Z; sample_msg : Message }.

Record Job := mkJob {
  m_job_index : Z;
  m_job_release : Z;
  m_job_deadline : Z;
  m_trailing_compute : Z;
  m_job_accesses : Z;
  m_job_lat_sum : Z;
  m_job_lat_max : Z;
  m_job_first_access : bool;
  m_job_samples : list TraceSample;
  m_job_next : nat;
  m_missed_deadlines : Z;
  m_rng : Z }.
Definition noJob : Job := mkJob 0 0 0 0 0 0 0 true [] 0 0 0.

(** A row of [JobReport]. *)
Record JobReport := mkReport {
  jr_index : Z; jr_release : Z; jr_finish : Z; jr_deadline : Z; jr_miss : bool;
  jr_accesses : Z; jr_skipped : Z; jr_lat_avg : Z; jr_lat_max : Z }.

Record CPU {IU : Type} := mkCPU {
  cpu_id : Z;
  m_number_of_OoO_requests : Z;
  m_periodic : bool;
  m_idle : bool;
  addr_drawn_first : bool;    (* which argument of [access] the compiler evaluates first *)
  task : Task;
  cpu_clk_cycle : Z;
  m_last_received_msg_cycle : Z;
  m_sent_requests : Z;        (* int32_t *)
  m_simulation_done : bool;
  m_sample_in_progess : option TraceSample;
  m_workload_file : option (list string);   (* [None]: not open *)
  cpu_upper : IU;
  m_issue_cycle : gmap Z Z;
  job : Job;
  job_reports : list JobReport }.
Arguments CPU : clear implicits.

Section Core.
Context {IU : Type} `{CommInterface IU}.
Implicit Types c : CPU IU.

Definition set_clk_cycle (v : Z) c : CPU IU :=
  mkCPU _ (cpu_id c) (m_number_of_OoO_requests c) (m_periodic c) (m_idle c) (addr_drawn_first c) (task c) v
    (m_last_received_msg_cycle c) (m_sent_requests c) (m_simulation_done c) (m_sample_in_progess c)
    (m_workload_file c) (cpu_upper c) (m_issue_cycle c) (job c) (job_reports c).
Definition set_sent (last sent : Z) c : CPU IU :=
  mkCPU _ (cpu_id c) (m_number_of_OoO_requests c) (m_periodic c) (m_idle c) (addr_drawn_first c) (task c)
    (cpu_clk_cycle c) last sent (m_simulation_done c) (m_sample_in_progess c)
    (m_workload_file c) (cpu_upper c) (m_issue_cycle c) (job c) (job_reports c).
Definition set_done c : CPU IU :=
  mkCPU _ (cpu_id c) (m_number_of_OoO_requests c) (m_periodic c) (m_idle c) (addr_drawn_first c) (task c)
    (cpu_clk_cycle c) (m_last_received_msg_cycle c) (m_sent_requests c) true (m_sample_in_progess c)
    (m_workload_file c) (cpu_upper c) (m_issue_cycle c) (job c) (job_reports c).
Definition set_sample (s : option TraceSample) (file : option (list string)) c : CPU IU :=
  mkCPU _ (cpu_id c) (m_number_of_OoO_requests c) (m_periodic c) (m_idle c) (addr_drawn_first c) (task c)
    (cpu_clk_cycle c) (m_last_received_msg_cycle c) (m_sent_requests c) (m_simulation_done c) s
    file (cpu_upper c) (m_issue_cycle c) (job c) (job_reports c).
Definition set_cpu_upper (i : IU) c : CPU IU :=
  mkCPU _ (cpu_id c) (m_number_of_OoO_requests c) (m_periodic c) (m_idle c) (addr_drawn_first c) (task c)
    (cpu_clk_cycle c) (m_last_received_msg_cycle c) (m_sent_requests c) (m_simulation_done c)
    (m_sample_in_progess c) (m_workload_file c) i (m_issue_cycle c) (job c) (job_reports c).
Definition set_job (issue : gmap Z Z) (j : Job) (r : list JobReport) c : CPU IU :=
  mkCPU _ (cpu_id c) (m_number_of_OoO_requests c) (m_periodic c) (m_idle c) (addr_drawn_first c) (task c)
    (cpu_clk_cycle c) (m_last_received_msg_cycle c) (m_sent_requests c) (m_simulation_done c)
    (m_sample_in_progess c) (m_workload_file c) (cpu_upper c) issue j r.

Definition new_sample : TraceSample := mkSample 0 0 (newMessage 0 0 0 0 0).

(** What [readSampleFromWorkload] of a message makes of a line. *)
Definition read_message (id : Z) (line : string) (m : Message) (sh : Shared) : Message * Shared :=
  let '(a, ty, cy) := sscanf_sample line (msg_addr m) "R" (msg_cycle m) in
  let '(n, sh') := nextReqId sh in
  (push_to id (mkMessage n a cy (if Ascii.eqb ty "R" then READ else WRITE) (complementary_value2 m) (w16 id)
     (msg_from m) (msg_to m) (msg_source m) (msg_data m) (msg_data_size m) (msg_kind m)), sh').

(** [readSampleFromWorkload] of a sample: the second of two lines, with the
    gap between their cycles; the file moves on by one line. *)
Definition readSampleFromWorkload (s : TraceSample) c (sh : Shared)
    : outcome (option (TraceSample * list string) * Shared) :=
  match m_workload_file c with
  | None => Exit "CPU: Error workload file is not opened!"
  | Some (l1 :: l2 :: rest) =>
      let '(m, sh') := read_message (cpu_id c) l2 (sample_msg s) sh in
      Ok (Some (mkSample (w64 (msg_cycle m - sample_cycle l1)) (read_cycle s) m, l2 :: rest), sh')
  | Some _ => Ok (None, sh)
  end.

Definition coreDone c (sh : Shared) : CPU IU * Shared :=
  (set_done c, if 0 <=? m_jobs_total (task c) then mkShared (reqId sh) (i32 (s_finite_cores_running sh - 1)) else sh).

(** ** Issue: the part [processLogic] and [periodicLogic] share *)

(** The sample goes out when the window has room, its time has come and the
    interface takes it. *)
Definition issue (base : Z) (s : TraceSample) c : outcome (bool * CPU IU) :=
  if negb (w32 (m_sent_requests c) <? m_number_of_OoO_requests c) then Ok (false, c) else
  let issue_cycle := w64 (base + compute_time s) in
  if negb (issue_cycle <=? cpu_clk_cycle c) then Ok (false, c) else
  let m := set_msg_kind K_DEMAND (set_msg_cycle (Z.max issue_cycle (read_cycle s)) (sample_msg s)) in
  let s' := mkSample (compute_time s) (read_cycle s) m in
  let! (ok, i) := pushMessage (cpu_upper c) m 0 REQUEST in
  let c := set_cpu_upper i c in
  if ok : bool
  then Ok (true, set_sent (m_last_received_msg_cycle c) (i32 (m_sent_requests c + 1)) (set_sample None (m_workload_file c) c))
  else Ok (false, set_sample (Some s') (m_workload_file c) c).

Definition processLogic c (sh : Shared) : outcome (CPU IU * Shared) :=
  match m_sample_in_progess c with
  | Some s => let! (_, c') := issue (m_last_received_msg_cycle c) s c in Ok (c', sh)
  | None =>
      let! (r, sh') := readSampleFromWorkload (mkSample 0 (cpu_clk_cycle c) (sample_msg new_sample)) c sh in
      match r with
      | Some (s, file) =>
          let c1 := set_sample (Some s) (Some file) c in
          let! (_, c') := issue (m_last_received_msg_cycle c1) s c1 in Ok (c', sh')
      | None => Ok (if m_sent_requests c =? 0 then coreDone c sh' else (c, sh'))
      end
  end.

(** ** Periodic tasks *)

(** [splitmix64]: the 53 bits of the draw; the double is the draw over 2^53. *)
Definition rnd (rng : Z) : Z * Z :=
  let r := w64 (rng + 0x9E3779B97F4A7C15) in
  let z := w64 (Z.lxor r (Z.shiftr r 30) * 0xBF58476D1CE4E5B9) in
  let z := w64 (Z.lxor z (Z.shiftr z 27) * 0x94D049BB133111EB) in
  let z := Z.lxor z (Z.shiftr z 31) in
  (Z.shiftr z 11, r).

Definition trunc (x : spec_float) : Z :=
  match x with
  | S754_finite sg m e => let v := Z.shiftl (Zpos m) e in if sg then - v else v
  | _ => 0
  end.

(** [rnd() >= d] and [(uint64_t)(rnd() * lines)]. *)
Definition draw_write (d : spec_float) (rng : Z) : bool * Z :=
  let '(u, rng') := rnd rng in (SFleb d (double_of u (-53)), rng').
Definition draw_line (lines rng : Z) : Z * Z :=
  let '(u, rng') := rnd rng in (w64 (trunc (SFmul 53 1024 (double_of u (-53)) (double_of lines 0))), rng').

(** The body under expansion: the compute since the last access, the samples so
    far, the generator and the id counter. *)
Definition Expansion : Type := Z * list TraceSample * Z * Shared.

Definition access (id addr : Z) (write : bool) (e : Expansion) : Expansion :=
  let '(compute, samples, rng, sh) := e in
  let '(n, sh') := nextReqId sh in
  let m := push_to id (newMessage n addr 0 (if write then WRITE else READ) (w16 id)) in
  (0, samples ++ [mkSample compute 0 m], rng, sh').

Definition linear_access (id base stride : Z) (d : spec_float) (e : Expansion) (i : Z) : Expansion :=
  let '(compute, samples, rng, sh) := e in
  let '(wr, rng') := draw_write d rng in
  access id (w64 (base + i * stride)) wr (compute, samples, rng', sh).

Definition random_access (id : Z) (addr_first : bool) (base lines : Z) (d : spec_float) (e : Expansion) (i : Z) : Expansion :=
  let '(compute, samples, rng, sh) := e in
  let '(k, wr, rng') :=
    (if addr_first
     then let '(k, r1) := draw_line lines rng in let '(wr, r2) := draw_write d r1 in (k, wr, r2)
     else let '(wr, r1) := draw_write d rng in let '(k, r2) := draw_line lines r1 in (k, wr, r2)) in
  access id (w64 (base + k * 64)) wr (compute, samples, rng', sh).

Definition expand_phase (id : Z) (addr_first : bool) (e : Expansion) (ph : Phase) : Expansion :=
  match ph with
  | COMPUTE n => let '(compute, samples, rng, sh) := e in (w64 (compute + n), samples, rng, sh)
  | READ_ONE a => access id a false e
  | WRITE_ONE a => access id a true e
  | LINEAR base count stride d => foldl (linear_access id base stride d) e (seqZ 0 count)
  | RANDOM base range count d =>
      foldl (random_access id addr_first base (Z.max 1 (range / 64)) d) e (seqZ 0 count)
  end.

Definition w32_size (l : list TraceSample) : Z := w32 (Z.of_nat (length l)).

Definition expandJob c (sh : Shared) : CPU IU * Shared :=
  let j := job c in
  let '(compute, samples, rng, sh') :=
    foldl (expand_phase (cpu_id c) (addr_drawn_first c)) (0, [], m_rng j, sh) (m_body (task c)) in
  (set_job (m_issue_cycle c)
     (mkJob (m_job_index j) (m_job_release j) (m_job_deadline j) compute (w32_size samples) 0 0 true samples 0
        (m_missed_deadlines j) rng) (job_reports c) c, sh').

(** The periods an overrun swallowed: [k] moves on while its whole window ended
    and it is a job of the task. *)
Fixpoint skip_periods (fuel : nat) (t : Task) (finish skipped k : Z) : Z * Z :=
  match fuel with
  | O => (skipped, k)
  | S f =>
      if (w64 (m_start t + w64 (k * m_period t) + m_period t) <=? finish) && (i64 k <? m_jobs_total t)
      then skip_periods f t finish (w64 (skipped + 1)) (w64 (k + 1))
      else (skipped, k)
  end.

Definition report_avg (j : Job) : Z :=
  if m_job_accesses j =? 0 then 0 else m_job_lat_sum j / m_job_accesses j.

Definition finishJob (finish_cycle : Z) c (sh : Shared) : CPU IU * Shared :=
  let j := job c in
  let t := task c in
  if m_jobs_total t <? 0 then
    let r := mkReport (m_job_index j) (m_job_release j) finish_cycle 0 false (m_job_accesses j) 0
               (report_avg j) (m_job_lat_max j) in
    let j1 := mkJob (w64 (m_job_index j + 1)) (m_job_release j) (m_job_deadline j) (m_trailing_compute j)
                (m_job_accesses j) (m_job_lat_sum j) (m_job_lat_max j) (m_job_first_access j) (m_job_samples j)
                (m_job_next j) (m_missed_deadlines j) (m_rng j) in
    let c1 := set_job (m_issue_cycle c) j1 (r :: job_reports c) c in
    if s_finite_cores_running sh =? 0 then coreDone c1 sh
    else
      let j2 := mkJob (m_job_index j1) finish_cycle (m_job_deadline j1) (m_trailing_compute j1)
                  (m_job_accesses j1) (m_job_lat_sum j1) (m_job_lat_max j1) (m_job_first_access j1)
                  (m_job_samples j1) (m_job_next j1) (m_missed_deadlines j1) (m_rng j1) in
      expandJob (set_job (m_issue_cycle c1) j2 (job_reports c1) c1) sh
  else
    let miss := m_job_deadline j <? finish_cycle in
    let '(skipped, _) := skip_periods (Z.to_nat (m_jobs_total t - m_job_index j)) t finish_cycle 0
                           (w64 (m_job_index j + 1)) in
    let r := mkReport (m_job_index j) (m_job_release j) finish_cycle (m_job_deadline j) miss (m_job_accesses j) skipped
               (report_avg j) (m_job_lat_max j) in
    let index := w64 (m_job_index j + (1 + skipped)) in
    let j1 release deadline :=
      mkJob index release deadline (m_trailing_compute j) (m_job_accesses j) (m_job_lat_sum j) (m_job_lat_max j)
        (m_job_first_access j) (m_job_samples j) (m_job_next j) (w64 (m_missed_deadlines j + skipped)) (m_rng j) in
    if m_jobs_total t <=? i64 index
    then coreDone (set_job (m_issue_cycle c) (j1 (m_job_release j) (m_job_deadline j)) (r :: job_reports c) c) sh
    else
      let start := w64 (m_start t + w64 (index * m_period t)) in
      expandJob (set_job (m_issue_cycle c) (j1 (Z.max finish_cycle start) (w64 (start + m_deadline_rel t)))
                   (r :: job_reports c) c) sh.

(** An issued access: the first one is over and its issue cycle is kept. *)
Definition note_issue c : CPU IU :=
  let j := job c in
  let issue := match m_job_samples j !! (m_job_next j - 1)%nat with
               | Some s => <[msg_id (sample_msg s) := cpu_clk_cycle c]> (m_issue_cycle c)
               | None => m_issue_cycle c
               end in
  set_job issue
    (mkJob (m_job_index j) (m_job_release j) (m_job_deadline j) (m_trailing_compute j) (m_job_accesses j)
       (m_job_lat_sum j) (m_job_lat_max j) false (m_job_samples j) (m_job_next j) (m_missed_deadlines j) (m_rng j))
    (job_reports c) c.

Definition issue_base c : Z :=
  if m_job_first_access (job c) then m_job_release (job c) else m_last_received_msg_cycle c.

Definition periodic_issue (s : TraceSample) c (sh : Shared) : outcome (CPU IU * Shared) :=
  let! (sent, c') := issue (issue_base c) s c in Ok (if sent : bool then note_issue c' else c', sh).

Definition next_sample (j : Job) : Job :=
  mkJob (m_job_index j) (m_job_release j) (m_job_deadline j) (m_trailing_compute j) (m_job_accesses j)
    (m_job_lat_sum j) (m_job_lat_max j) (m_job_first_access j) (m_job_samples j) (S (m_job_next j))
    (m_missed_deadlines j) (m_rng j).

(** When the last access of the body and the trailing compute are over. *)
Definition job_done_at c : Z :=
  w64 ((if m_job_accesses (job c) =? 0 then m_job_release (job c) else m_last_received_msg_cycle c)
       + m_trailing_compute (job c)).

Definition periodicLogic c (sh : Shared) : outcome (CPU IU * Shared) :=
  if cpu_clk_cycle c <? m_job_release (job c) then Ok (c, sh) else
  match m_sample_in_progess c with
  | Some s => periodic_issue s c sh
  | None =>
      match m_job_samples (job c) !! m_job_next (job c) with
      | Some s =>
          let s := mkSample (compute_time s) (cpu_clk_cycle c) (sample_msg s) in
          periodic_issue s (set_sample (Some s) (m_workload_file c)
                              (set_job (m_issue_cycle c) (next_sample (job c)) (job_reports c) c)) sh
      | None =>
          Ok (if m_sent_requests c =? 0 then
                if cpu_clk_cycle c <? job_done_at c then (c, sh) else finishJob (job_done_at c) c sh
              else (c, sh))
      end
  end.

(** ** The clock cycle *)

(** The latency of a returned access of the current job. *)
Definition account (m : Message) c : CPU IU :=
  match m_issue_cycle c !! msg_id m with
  | Some t =>
      let j := job c in
      let lat := w64 (cpu_clk_cycle c - t) in
      set_job (delete (msg_id m) (m_issue_cycle c))
        (mkJob (m_job_index j) (m_job_release j) (m_job_deadline j) (m_trailing_compute j) (m_job_accesses j)
           (w64 (m_job_lat_sum j + lat)) (Z.max (m_job_lat_max j) lat) (m_job_first_access j) (m_job_samples j)
           (m_job_next j) (m_missed_deadlines j) (m_rng j))
        (job_reports c) c
  | None => c
  end.

Definition checkReceiveBuffer c : outcome (CPU IU) :=
  match peekMessage (cpu_upper c) with
  | (None, i) => Ok (set_cpu_upper i c)
  | (Some m, i) =>
      let c1 := set_cpu_upper (popFrontMessage i) c in
      let c2 := if m_periodic c1 then account m c1 else c1 in
      let sent := i32 (m_sent_requests c2 - 1) in
      if sent <? 0 then Exit "error" else Ok (set_sent (cpu_clk_cycle c2) sent c2)
  end.

(** The boolean asks the clock manager to stop this core's clock. *)
Definition cpu_cycleProcess c (sh : Shared) : outcome (bool * CPU IU * Shared) :=
  if m_simulation_done c then Ok (true, c, sh) else
  let! c1 := checkReceiveBuffer c in
  let! (c2, sh') := (if m_periodic c1 then periodicLogic c1 sh else processLogic c1 sh) in
  Ok (false, set_clk_cycle (w64 (cpu_clk_cycle c2 + 1)) c2, sh').

(** ** Construction *)

Inductive Workload := WIdle | WTrace (file : option (list string)) | WTask (file : option (list string)).

Definition newCPU (id ooo : Z) (addr_first : bool) (w : Workload) (upper : IU) (sh : Shared)
    : outcome (CPU IU * Shared) :=
  let mk ooo periodic idle t file := mkCPU _ id ooo periodic idle addr_first t 1 0 0 false None file upper ∅ noJob [] in
  let counted t := if 0 <=? m_jobs_total t then mkShared (reqId sh) (i32 (s_finite_cores_running sh + 1)) else sh in
  match w with
  | WIdle => Ok (mk ooo false true noTask None, sh)
  | WTrace file => Ok (mk ooo false false noTask file, counted noTask)
  | WTask file =>
      match loadTask file with
      | Some (t', o) => Ok (mk (default ooo o) true false t' None, counted t')
      | None => Exit "CPU: cannot read task program"
      end
  end.

(** [init]: an idle core is done, a task releases job 0, a trace loads its
    first line and is rewound. *)
Definition cpu_init c (sh : Shared) : outcome (CPU IU * Shared) :=
  if m_idle c then Ok (set_done c, sh) else
  if m_periodic c then
    let t := task c in
    let rng := Z.lxor 0x9E3779B97F4A7C15 (w64 (w64 (cpu_id c) * 0x1234567)) in
    Ok (expandJob (set_job (m_issue_cycle c)
          (mkJob 0 (m_start t) (w64 (m_start t + m_deadline_rel t)) 0 0 0 0 true [] 0 0 rng) (job_reports c) c) sh)
  else
    match m_workload_file c with
    | None => Exit "CPU: Error workload file is not opened!"
    | Some [] => Ok (set_sample (Some new_sample) (m_workload_file c) c, sh)
    | Some (line :: _) =>
        let '(m, sh') := read_message (cpu_id c) line (sample_msg new_sample) sh in
        Ok (set_sample (Some (mkSample (msg_cycle m) 0 m)) (m_workload_file c) c, sh')
    end.
End Core.
