(* ===== verification/CpuTheory.v ===== *)
(** * Properties of the trace-driven core

    The window of outstanding requests, the expansion of a task's body, and the
    release of its jobs. *)

From S2P Require Export Cpu BusInterfaces TaskTheory.

(** ** The release of jobs *)

Lemma skip_periods_spec t finish : forall fuel skipped k,
  0 <= k -> 0 <= skipped -> k + Z.of_nat fuel < 2 ^ 63 -> skipped + Z.of_nat fuel < 2 ^ 63 ->
  0 <= m_start t -> 0 <= m_period t -> m_start t + (k + Z.of_nat fuel) * m_period t + m_period t < 2 ^ 64 ->
  m_jobs_total t <= k + Z.of_nat fuel ->
  exists n, 0 <= n <= Z.of_nat fuel /\ skip_periods fuel t finish skipped k = (skipped + n, k + n) /\
    (forall i, k <= i < k + n -> m_start t + i * m_period t + m_period t <= finish /\ i < m_jobs_total t) /\
    (m_jobs_total t <= k + n \/ finish < m_start t + (k + n) * m_period t + m_period t).
Proof.
  induction fuel as [|f IH]; intros skipped k Hk Hs Hkf Hsf Hst Hp Hov Htot; cbn [skip_periods].
  { exists 0. rewrite !Z.add_0_r. split_and!; [lia|lia|done|lia|]. left. lia. }
  rewrite (w64_small (k * m_period t)) by nia. rewrite (w64_small (_ + _ + _)) by nia. rewrite i64_small by lia.
  destruct (Z.leb_spec (m_start t + k * m_period t + m_period t) finish) as [H1|H1]; cbn [andb].
  2: { exists 0. rewrite !Z.add_0_r. split_and!; [lia|lia|done|lia|]. by right. }
  destruct (Z.ltb_spec k (m_jobs_total t)) as [H2|H2].
  2: { exists 0. rewrite !Z.add_0_r. split_and!; [lia|lia|done|lia|]. by left. }
  rewrite !w64_small by lia.
  destruct (IH (skipped + 1) (k + 1)) as (n & Hn & He & Hall & Hend); [lia..|nia|lia|].
  exists (n + 1). rewrite He. split_and!; [lia|lia|f_equal; lia| |].
  - intros i Hi. destruct (decide (i = k)) as [->|]; [done|]. apply Hall. lia.
  - by replace (k + (n + 1)) with (k + 1 + n) by lia.
Qed.

(** The task in state [c]: sizes within which the times of its jobs do not wrap. *)
Record task_wf {IU} (c : CPU IU) (finish : Z) : Prop := mk_task_wf {
  tw_index : 0 <= m_job_index (job c) < m_jobs_total (task c);
  tw_total : m_jobs_total (task c) < 2 ^ 62;
  tw_start : 0 <= m_start (task c);
  tw_period : 0 < m_period (task c);
  tw_deadline : 0 <= m_deadline_rel (task c);
  tw_end : m_start (task c) + (m_jobs_total (task c) + 2) * m_period (task c) + m_deadline_rel (task c) < 2 ^ 64;
  tw_finish : 0 <= finish < 2 ^ 64;
  tw_missed : 0 <= m_missed_deadlines (job c) < 2 ^ 62 }.

Lemma expandJob_frame {IU} (c : CPU IU) sh c' sh' : expandJob c sh = (c', sh') ->
  m_job_index (job c') = m_job_index (job c) /\ m_job_release (job c') = m_job_release (job c) /\
  m_job_deadline (job c') = m_job_deadline (job c) /\ m_missed_deadlines (job c') = m_missed_deadlines (job c) /\
  job_reports c' = job_reports c /\ m_simulation_done c' = m_simulation_done c /\ task c' = task c.
Proof.
  unfold expandJob. destruct (foldl _ _ _) as [[[compute samples] rng] sh1]. intros [= <- <-]. by cbn.
Qed.

(** C29: the schedule of a periodic task.  When job [j] of a task with period
    [T], phase [start] and relative deadline [D] finishes, the jobs skipped are
    exactly those after [j] whose whole period ended by then; each counts as a
    missed deadline, and the report says whether [j] missed its own.  If jobs
    remain, the next is the first job whose period is not over: its release is
    [max (finish, start + k T)] and its deadline [start + k T + D].  If none
    remain, the core is done. *)
Theorem finishJob_schedule {IU} (c : CPU IU) sh finish c' sh' : task_wf c finish ->
  finishJob finish c sh = (c', sh') ->
  let t := task c in
  exists n, 0 <= n /\
    let k := m_job_index (job c) + 1 + n in
    (forall i, m_job_index (job c) < i < k -> m_start t + i * m_period t + m_period t <= finish /\ i < m_jobs_total t) /\
    (m_jobs_total t <= k \/ finish < m_start t + k * m_period t + m_period t) /\
    m_missed_deadlines (job c') = m_missed_deadlines (job c) + n /\ m_job_index (job c') = k /\
    (exists r, job_reports c' = r :: job_reports c /\ jr_index r = m_job_index (job c) /\ jr_finish r = finish /\
       jr_skipped r = n /\ jr_miss r = (m_job_deadline (job c) <? finish)) /\
    (m_jobs_total t <= k -> m_simulation_done c' = true) /\
    (k < m_jobs_total t -> m_simulation_done c' = m_simulation_done c /\
       m_job_release (job c') = Z.max finish (m_start t + k * m_period t) /\
       m_job_deadline (job c') = m_start t + k * m_period t + m_deadline_rel t).
Proof.
  intros [Hi Htot Hst Hp Hd Hend Hf Hm]. unfold finishJob.
  rewrite (proj2 (Z.ltb_ge (m_jobs_total (task c)) 0)) by lia.
  rewrite (w64_small (m_job_index (job c) + 1)) by lia.
  destruct (skip_periods_spec (task c) finish (Z.to_nat (m_jobs_total (task c) - m_job_index (job c))) 0
              (m_job_index (job c) + 1)) as (n & Hn & He & Hall & Hstop); [lia..|rewrite Z2Nat.id by lia; nia|lia|].
  rewrite He, Z.add_0_l. rewrite Z2Nat.id in Hn by lia.
  assert (Hk : m_job_index (job c) + 1 + n <= m_jobs_total (task c)).
  { destruct (decide (n = 0)) as [->|]; [lia|]. destruct (Hall (m_job_index (job c) + n)); lia. }
  rewrite (w64_small (m_job_index (job c) + (1 + n))), (w64_small (m_missed_deadlines (job c) + n)) by lia.
  replace (m_job_index (job c) + (1 + n)) with (m_job_index (job c) + 1 + n) by lia.
  rewrite i64_small by lia. rewrite (w64_small (_ * m_period (task c))) by nia.
  rewrite (w64_small (m_start (task c) + _)) by nia. rewrite (w64_small (_ + m_deadline_rel (task c))) by nia.
  assert (Hall' : forall i, m_job_index (job c) < i < m_job_index (job c) + 1 + n ->
    m_start (task c) + i * m_period (task c) + m_period (task c) <= finish /\ i < m_jobs_total (task c))
    by (intros i ?; apply Hall; lia).
  destruct (Z.leb_spec (m_jobs_total (task c)) (m_job_index (job c) + 1 + n)) as [Hlast|Hmore]; intros E.
  - injection E as <- <-. exists n. cbn. split_and!; try done; try lia; eauto 10.
  - apply expandJob_frame in E as (E1 & E2 & E3 & E4 & E5 & E6 & _). cbn in *.
    exists n. rewrite E1, E2, E3, E4, E5, E6. split_and!; try done; try lia; eauto 10.
Qed.

(** ** The expansion of a body *)

(** What a row asks for: accesses, and cycles of compute. *)
Definition phase_accesses (ph : Phase) : Z :=
  match ph with
  | COMPUTE _ => 0
  | READ_ONE _ | WRITE_ONE _ => 1
  | LINEAR _ n _ _ | RANDOM _ _ n _ => Z.max 0 n
  end.
Definition phase_compute (ph : Phase) : Z := match ph with COMPUTE n => n | _ => 0 end.
Definition total (f : Phase -> Z) (body : list Phase) : Z := foldr (fun ph n => f ph + n) 0 body.

Definition samples_of (e : Expansion) : list TraceSample := let '(_, samples, _, _) := e in samples.
Definition compute_of (e : Expansion) : Z := let '(compute, _, _, _) := e in compute.
Definition computed (l : list TraceSample) : Z := foldr (fun s n => compute_time s + n) 0 l.

(** The accesses and the compute an expansion has placed, pending compute included. *)
Definition placed (e : Expansion) : Z * Z :=
  (Z.of_nat (length (samples_of e)), (compute_of e + computed (samples_of e)) mod 2 ^ 64).

Lemma computed_app l1 l2 : computed (l1 ++ l2) = computed l1 + computed l2.
Proof. induction l1 as [|s l1 IH]; [done|]. unfold computed in *. cbn [app foldr]. lia. Qed.

Lemma access_placed id a wr e : placed (access id a wr e) = (fst (placed e) + 1, snd (placed e)).
Proof.
  destruct e as [[[compute samples] rng] sh]. unfold placed, access, nextReqId; cbn.
  rewrite length_app, computed_app; cbn [length computed foldr compute_time]. apply pair_equal_spec.
  split; [lia|]. cbn [compute_time]. f_equal. unfold computed; cbn [foldr compute_time]. lia.
Qed.

Lemma linear_placed id base stride d e i : placed (linear_access id base stride d e i) = (fst (placed e) + 1, snd (placed e)).
Proof.
  destruct e as [[[compute samples] rng] sh]. unfold linear_access. destruct (draw_write d rng). by rewrite access_placed.
Qed.

Lemma random_placed id af base lines d e i : placed (random_access id af base lines d e i) = (fst (placed e) + 1, snd (placed e)).
Proof.
  destruct e as [[[compute samples] rng] sh]. unfold random_access.
  destruct (if af then _ else _) as [[k wr] rng']. by rewrite access_placed.
Qed.

Lemma loop_placed (step : Expansion -> Z -> Expansion) n e :
  (forall e i, placed (step e i) = (fst (placed e) + 1, snd (placed e))) ->
  placed (foldl step e (seqZ 0 n)) = (fst (placed e) + Z.max 0 n, snd (placed e)).
Proof.
  intros Hs. replace (Z.max 0 n) with (Z.of_nat (length (seqZ 0 n))) by (rewrite length_seqZ; lia).
  generalize (seqZ 0 n). intros l. revert e. induction l as [|i l IH]; intros e; cbn [foldl length].
  - rewrite Z.add_0_r. by destruct (placed e).
  - rewrite IH, Hs; cbn [fst snd]. apply pair_equal_spec. split; [lia|done].
Qed.

Lemma phase_placed id af e ph :
  placed (expand_phase id af e ph) = (fst (placed e) + phase_accesses ph, (snd (placed e) + phase_compute ph) mod 2 ^ 64).
Proof.
  assert (Hid : forall e, snd (placed e) mod 2 ^ 64 = snd (placed e)) by (intros; apply Z.mod_mod; lia).
  destruct ph as [n|a|a|base n stride d|base range n d]; cbn [expand_phase phase_accesses phase_compute]; rewrite ?Z.add_0_r.
  - destruct e as [[[compute samples] rng] sh]. unfold placed; cbn. f_equal. unfold w64, wrap.
    rewrite Zplus_mod_idemp_l, Zplus_mod_idemp_l. f_equal. lia.
  - by rewrite access_placed, Hid.
  - by rewrite access_placed, Hid.
  - rewrite loop_placed, Hid by apply linear_placed. done.
  - rewrite loop_placed, Hid by apply random_placed. done.
Qed.

(** No work is lost in the expansion of a task's body.  The job has one
    sample per access the rows ask for, and the compute before the samples with
    the trailing compute add up to the rows' compute (as 64-bit integers), in
    whichever order the draws are made. *)
Theorem expandJob_accounts {IU} (c : CPU IU) sh c' sh' : expandJob c sh = (c', sh') ->
  Z.of_nat (length (m_job_samples (job c'))) = total phase_accesses (m_body (task c)) /\
  (m_trailing_compute (job c') + computed (m_job_samples (job c'))) mod 2 ^ 64 =
    total phase_compute (m_body (task c)) mod 2 ^ 64 /\
  m_job_accesses (job c') = total phase_accesses (m_body (task c)) mod 2 ^ 32 /\
  m_job_next (job c') = 0%nat /\ m_job_first_access (job c') = true.
Proof.
  unfold expandJob.
  assert (Hall : forall body e, placed (foldl (expand_phase (cpu_id c) (addr_drawn_first c)) e body) =
    (fst (placed e) + total phase_accesses body, (snd (placed e) + total phase_compute body) mod 2 ^ 64)).
  { induction body as [|ph body IH]; intros e; cbn [foldl total foldr].
    - rewrite !Z.add_0_r. unfold placed; cbn [fst snd]. by rewrite Z.mod_mod by lia.
    - rewrite IH, phase_placed; cbn [fst snd]. fold (total phase_accesses body) (total phase_compute body).
      rewrite Zplus_mod_idemp_l. apply pair_equal_spec. split; [lia|]. f_equal. lia. }
  specialize (Hall (m_body (task c)) (0, [], m_rng (job c), sh)).
  destruct (foldl _ _ _) as [[[compute samples] rng] sh1]. unfold placed in Hall; cbn in Hall.
  injection Hall as H1 H2. intros [= <- <-]; cbn. unfold w32_size, w32, wrap. rewrite H1. split_and!; done.
Qed.

(** ** The window *)

Section Window.
Context {IU : Type} `{CommInterfaceLaws IU}.
Implicit Types c : CPU IU.

(** The part of the core the window is about. *)
Definition port c : Z * IU * Z * Z := (m_sent_requests c, cpu_upper c, m_number_of_OoO_requests c, cpu_clk_cycle c).

(** [iss] was handed to the interface, each counted in the window, each due. *)
Definition issued c c' (iss : list Message) : Prop :=
  (length iss <= 1)%nat /\ ci_rx (cpu_upper c') = ci_rx (cpu_upper c) /\
  ci_tx (cpu_upper c') ≡ₚ iss ++ ci_tx (cpu_upper c) /\
  m_sent_requests c' = m_sent_requests c + Z.of_nat (length iss) /\
  (iss <> [] -> m_sent_requests c < m_number_of_OoO_requests c) /\
  m_number_of_OoO_requests c' = m_number_of_OoO_requests c /\ cpu_clk_cycle c' = cpu_clk_cycle c /\
  Forall (fun m => msg_kind m = K_DEMAND) iss.

Lemma issued_none c c' : port c' = port c -> issued c c' [].
Proof. intros [= E1 E2 E3 E4]. unfold issued. rewrite E1, E2, E3, E4. cbn. split_and!; done || lia. Qed.

Lemma issued_port c1 c2 c1' c2' iss : port c1 = port c2 -> port c1' = port c2' -> issued c1 c1' iss -> issued c2 c2' iss.
Proof. intros [= E1 E2 E3 E4] [= F1 F2 F3 F4]. unfold issued. by rewrite E1, E2, E3, E4, F1, F2, F3, F4. Qed.

Lemma issue_spec base s c b c' : 0 <= m_sent_requests c <= m_number_of_OoO_requests c ->
  m_number_of_OoO_requests c < 2 ^ 31 -> issue base s c = Ok (b, c') -> exists iss, issued c c' iss.
Proof.
  intros Hs Ho. unfold issue, w32. rewrite wrap_small by lia.
  destruct (Z.ltb_spec (m_sent_requests c) (m_number_of_OoO_requests c)) as [Hlt|]; cbn [negb].
  2: { intros [= <- <-]. exists []. by apply issued_none. }
  destruct (w64 (base + compute_time s) <=? cpu_clk_cycle c) eqn:E; cbn [negb].
  2: { intros [= <- <-]. exists []. by apply issued_none. }
  intros ([[] i] & Hp & Hr)%obind_Ok; injection Hr as <- <-.
  - apply ci_push_ok in Hp as (Hrx & _ & Htx).
    match type of Htx with _ ≡ₚ ?m :: _ => exists [m] end. unfold issued; cbn.
    rewrite i32_small by lia. split_and!; first [done|lia|by constructor].
  - apply ci_push_full in Hp as ->. exists []. by apply issued_none.
Qed.

Lemma expandJob_port c sh : port (fst (expandJob c sh)) = port c.
Proof. unfold expandJob. by destruct (foldl _ _ _) as [[[? ?] ?] ?]. Qed.

Lemma finishJob_port f c sh : port (fst (finishJob f c sh)) = port c.
Proof.
  unfold finishJob. destruct (m_jobs_total (task c) <? 0).
  - destruct (_ =? 0); [done|]. by rewrite expandJob_port.
  - destruct (skip_periods _ _ _ _ _) as [n k]. destruct (_ <=? _); [done|]. by rewrite expandJob_port.
Qed.

Lemma processLogic_spec c sh c' sh' : 0 <= m_sent_requests c <= m_number_of_OoO_requests c ->
  m_number_of_OoO_requests c < 2 ^ 31 -> processLogic c sh = Ok (c', sh') -> exists iss, issued c c' iss.
Proof.
  intros Hs Ho. unfold processLogic. destruct (m_sample_in_progess c) as [s|].
  - intros ([b c1] & Hi & [= <- <-])%obind_Ok. by eapply issue_spec.
  - intros ([r sh1] & _ & Hr)%obind_Ok. destruct r as [[s file]|].
    + apply obind_Ok in Hr as ([b c1] & Hi & [= <- <-]). by apply issue_spec in Hi.
    + exists []. apply issued_none. destruct (m_sent_requests c =? 0); by injection Hr as <- <-.
Qed.

Lemma periodic_issue_spec s c sh c' sh' : 0 <= m_sent_requests c <= m_number_of_OoO_requests c ->
  m_number_of_OoO_requests c < 2 ^ 31 -> periodic_issue s c sh = Ok (c', sh') -> exists iss, issued c c' iss.
Proof.
  intros Hs Ho. unfold periodic_issue. intros ([b c1] & Hi & [= <- <-])%obind_Ok.
  apply issue_spec in Hi as [iss Hi]; [|done..]. exists iss. by destruct b.
Qed.

Lemma periodicLogic_spec c sh c' sh' : 0 <= m_sent_requests c <= m_number_of_OoO_requests c ->
  m_number_of_OoO_requests c < 2 ^ 31 -> periodicLogic c sh = Ok (c', sh') -> exists iss, issued c c' iss.
Proof.
  intros Hs Ho. unfold periodicLogic. destruct (_ <? _).
  { intros [= <- <-]. exists []. by apply issued_none. }
  destruct (m_sample_in_progess c) as [s|]; [by apply periodic_issue_spec|].
  destruct (m_job_samples (job c) !! m_job_next (job c)) as [s|].
  - intros Hi. by apply periodic_issue_spec in Hi.
  - intros [= E]. exists []. apply issued_none. destruct (m_sent_requests c =? 0); [destruct (_ <? _)|]; try by injection E as <- <-.
    pose proof (finishJob_port (job_done_at c) c sh) as Hp. rewrite E in Hp. done.
Qed.

Lemma account_port m c : port (if m_periodic c then account m c else c) = port c.
Proof. destruct (m_periodic c); [unfold account; by destruct (_ !! _)|done]. Qed.

(** The window.  A cycle of a core takes at most one answer and issues at
    most one demand, only when fewer than the configured number are on their
    way; the count of outstanding requests follows exactly and stays within the
    window.  An answer nobody waits for ends the simulator. *)
Theorem cpu_window c sh stop c' sh' : 0 <= m_sent_requests c <= m_number_of_OoO_requests c ->
  m_number_of_OoO_requests c < 2 ^ 31 -> cpu_cycleProcess c sh = Ok (stop, c', sh') ->
  0 <= m_sent_requests c' <= m_number_of_OoO_requests c' /\ m_number_of_OoO_requests c' = m_number_of_OoO_requests c /\
  exists recv iss, (length recv <= 1)%nat /\ (length iss <= 1)%nat /\
    ci_rx (cpu_upper c) ≡ₚ recv ++ ci_rx (cpu_upper c') /\ ci_tx (cpu_upper c') ≡ₚ iss ++ ci_tx (cpu_upper c) /\
    m_sent_requests c' = m_sent_requests c - Z.of_nat (length recv) + Z.of_nat (length iss) /\
    (recv <> [] -> 0 < m_sent_requests c) /\ Forall (fun m => msg_kind m = K_DEMAND) iss.
Proof.
  intros Hs Ho. unfold cpu_cycleProcess. destruct (m_simulation_done c).
  { intros [= <- <- <-]. split_and!; try lia. exists [], []. cbn. split_and!; done || lia. }
  intros (c1 & Hc & ([c2 sh2] & Hl & [= <- <- <-])%obind_Ok)%obind_Ok.
  assert (Hc1 : exists recv, (length recv <= 1)%nat /\ ci_rx (cpu_upper c) ≡ₚ recv ++ ci_rx (cpu_upper c1) /\
    ci_tx (cpu_upper c1) = ci_tx (cpu_upper c) /\ m_sent_requests c1 = m_sent_requests c - Z.of_nat (length recv) /\
    0 <= m_sent_requests c1 /\ m_number_of_OoO_requests c1 = m_number_of_OoO_requests c).
  { unfold checkReceiveBuffer in Hc. destruct (peekMessage (cpu_upper c)) as [[m|] i] eqn:Ep.
    - apply ci_peek_some in Ep as (_ & Htx & Hrx).
      pose proof (account_port m (set_cpu_upper (popFrontMessage i) c)) as Hp.
      remember (if m_periodic _ then _ else _) as c2' eqn:E2. clear E2. injection Hp as A1 A2 A3 A4. cbn in A1, A2, A3, A4.
      rewrite A1, i32_small in Hc by lia. destruct (Z.ltb_spec (m_sent_requests c - 1) 0); [done|]. injection Hc as <-.
      exists [m]. cbn. rewrite A2, A3, ci_pop_tx. split_and!; first [done|lia].
    - apply ci_peek_none in Ep as (Hrx & Hrx' & Htx). injection Hc as <-. exists []. cbn.
      rewrite Hrx, Hrx'. split_and!; done || lia. }
  destruct Hc1 as (recv & Hr1 & Hr2 & Hr3 & Hr4 & Hr5 & Hr6).
  assert (Hi : exists iss, issued c1 c2 iss).
  { destruct (m_periodic c1); [eapply periodicLogic_spec|eapply processLogic_spec]; try exact Hl; lia. }
  destruct Hi as (iss & I1 & I2 & I3 & I4 & I5 & I6 & _ & I8). cbn.
  split_and!; [destruct iss; cbn in *; lia|destruct iss as [|m l]; [cbn in *; lia|]|lia|].
  { specialize (I5 ltac:(done)). destruct l; cbn in *; lia. }
  exists recv, iss. split_and!; try done; try lia.
  - by rewrite I2.
  - by rewrite I3, Hr3.
  - intros Hne. destruct recv; [done|]. cbn in Hr4. lia.
Qed.
End Window.

(** ** A concrete core *)

(** A core with a window of 2 on a bus interface, its first job released; the
    cycle is the one of the first access. *)
Definition demo_cpu : outcome (CPU BusInterface * Shared) :=
  let! (c, sh) := newCPU 3 2 true (WTask (Some demo_lines)) (newBusInterface 3 8) (mkShared 1 0) in
  let! (c, sh) := cpu_init c sh in Ok (set_clk_cycle 15 c, sh).

Lemma expandJob_accounts_witness : exists c sh c' sh', demo_cpu = Ok (c, sh) /\ expandJob c sh = (c', sh') /\
  length (m_job_samples (job c')) = 6%nat /\ total phase_accesses (m_body (task c)) = 6 /\
  (m_trailing_compute (job c') + computed (m_job_samples (job c'))) mod 2 ^ 64 = 14.
Proof.
  assert (F : is_ok demo_cpu = true) by (vm_compute; reflexivity).
  destruct demo_cpu as [[c sh]| |] eqn:E; [|discriminate F..].
  assert (Hb : m_body (task c) = demo_body).
  { assert (G : match demo_cpu with Ok (c, _) => m_body (task c) | _ => [] end = demo_body) by (vm_compute; reflexivity).
    by rewrite E in G. }
  destruct (expandJob c sh) as [c' sh'] eqn:Ej.
  pose proof (expandJob_accounts c sh c' sh' Ej) as (H1 & H2 & _). exists c, sh, c', sh'.
  rewrite Hb in H1, H2. rewrite H2, Hb. split_and!; [done|done| |reflexivity|reflexivity].
  apply Nat2Z.inj. rewrite H1. reflexivity.
Defined.

Lemma finishJob_schedule_witness : exists c sh c' sh', demo_cpu = Ok (c, sh) /\ task_wf c 325 /\
  finishJob 325 c sh = (c', sh') /\ exists n, 0 <= n /\ m_missed_deadlines (job c') = m_missed_deadlines (job c) + n.
Proof.
  assert (F : is_ok demo_cpu = true) by (vm_compute; reflexivity).
  destruct demo_cpu as [[c sh]| |] eqn:E; [|discriminate F..].
  assert (Hw : task_wf c 325).
  { assert (G : match demo_cpu with Ok (c, _) => (m_job_index (job c), m_jobs_total (task c), m_start (task c),
        m_period (task c), m_deadline_rel (task c), m_missed_deadlines (job c)) | _ => (0, 0, 0, 0, 0, 0) end
      = (0, 5, 10, 100, 100, 0)) by (vm_compute; reflexivity).
    rewrite E in G. injection G as G1 G2 G3 G4 G5 G6. split; rewrite ?G1, ?G2, ?G3, ?G4, ?G5, ?G6; lia. }
  destruct (finishJob 325 c sh) as [c' sh'] eqn:Ej.
  pose proof (finishJob_schedule c sh 325 c' sh' Hw Ej) as (n & Hn & _ & _ & Hm & _).
  exists c, sh, c', sh'. clear E. split_and!; [done..|]. by exists n.
Defined.

(** The overrun of job 0 until 325 swallows jobs 1 and 2: the next is job 3. *)
Example demo_overrun : match demo_cpu with
  | Ok (c, sh) => let '(c', _) := finishJob 325 c sh in
      (m_job_index (job c'), m_job_release (job c'), m_job_deadline (job c'), m_missed_deadlines (job c'))
  | _ => (0, 0, 0, 0) end = (3, 325, 410, 2).
Proof. vm_compute. reflexivity. Qed.

Lemma cpu_window_witness : exists c sh c' sh', demo_cpu = Ok (c, sh) /\
  cpu_cycleProcess c sh = Ok (false, c', sh') /\ m_sent_requests c = 0 /\ m_sent_requests c' = 1 /\
  0 <= m_sent_requests c' <= m_number_of_OoO_requests c' /\ m_number_of_OoO_requests c' = m_number_of_OoO_requests c.
Proof.
  assert (F : is_ok demo_cpu = true) by (vm_compute; reflexivity).
  destruct demo_cpu as [[c sh]| |] eqn:E; [|discriminate F..].
  assert (G : match demo_cpu with Ok (c, sh) => match cpu_cycleProcess c sh with
      | Ok (b, c', _) => (b, m_sent_requests c, m_number_of_OoO_requests c, m_sent_requests c') | _ => (true, 0, 0, 0) end
      | _ => (true, 0, 0, 0) end = (false, 0, 2, 1)) by (vm_compute; reflexivity).
  rewrite E in G. destruct (cpu_cycleProcess c sh) as [[[b c'] sh']| |] eqn:Ec; [|discriminate G..].
  injection G as Gb G1 G2 G3. subst b.
  assert (H1 : 0 <= m_sent_requests c <= m_number_of_OoO_requests c) by (rewrite G1, G2; lia).
  assert (H2 : m_number_of_OoO_requests c < 2 ^ 31) by (rewrite G2; lia).
  pose proof (cpu_window c sh false c' sh' H1 H2 Ec) as (Hw & Ho & _). exists c, sh, c', sh'. clear E. split_and!; done || lia.
Defined.
