(* ===== verification/Preload.v ===== *)
(** * Functional access to a cache

    [class Initializable] ([header/Initializable.h]) and its implementation by
    [CacheController] ([src/CacheControllers/CacheController.cpp]): memory
    contents written before the simulation, from a program image or from the
    addresses of a trace, and read back.  The controllers below are the list
    [m_children_controllers]. *)

From S2P Require Export CacheController Cpu DataHandlerView.

Local Open Scope list_scope.
Open Scope Z_scope.

Class Initializable (A : Type) := {
  initialize : A -> Z -> bytes -> Z -> outcome A;
  initialize_child : A -> Z -> bytes -> Z -> outcome A;
  (** [None]: the caller's buffer is left as it was. *)
  read : A -> Z -> outcome (option bytes * A) }.

(** [f] on every element, in order; the first failure ends it. *)
Fixpoint oeach {A} (f : A -> outcome A) (l : list A) : outcome (list A) :=
  match l with
  | [] => Ok []
  | a :: l' => let! a' := f a in let! l'' := oeach f l' in Ok (a' :: l'')
  end.

Section Preload.
Context {P IU IL Ch : Type} `{!CoherenceProtocol P, !CommInterface IU, !CommInterface IL, !Initializable Ch}.
Abbreviation C := (@Controller P IU IL).

(** A controller with its children. *)
Definition Family : Type := C * list Ch.

(** A block that is nowhere: a default line of the protocol, with the bytes. *)
Definition place (address : Z) (data : bytes) (size : Z) (c : C) : outcome C :=
  let s := data_handler c in
  if findEmptyWay (base s) address =? -1
  then Exit "ERROR: Cache doesn't fit the data ... increase the cache size"
  else
    let line := createDefaultCacheLine (protocol c) s newLine in
    let! line' := modifyData data (w16 (Z.land address (w32 (line_block_size line - 1)))) (w16 size) line in
    let! (_, s') := writeCacheLine_bypassLatency address line' true s in
    Ok (set_data_handler s' c).

Definition modify_resident (address : Z) (data : bytes) (size : Z) (c : C) : outcome C :=
  let! (_, s) := modifyLineData address data (w16 size) true (data_handler c) in Ok (set_data_handler s c).

Definition controller_initialize (address : Z) (data : bytes) (size : Z) (f : Family) : outcome Family :=
  let '(c, children) := f in
  if negb (fst (readLineBits address newLine (data_handler c)))
  then let! c' := place address data size c in Ok (c', children)
  else
    let! c' := modify_resident address data size c in
    let! children' := oeach (fun ch => initialize_child ch address data size) children in
    Ok (c', children').

Definition controller_initialize_child (address : Z) (data : bytes) (size : Z) (f : Family) : outcome Family :=
  let '(c, children) := f in
  if fst (readLineBits address newLine (data_handler c))
  then let! c' := modify_resident address data size c in Ok (c', children)
  else Ok f.

(** [m_children_controllers[owner]] is unchecked. *)
Definition controller_read (address : Z) (f : Family) : outcome (option bytes * Family) :=
  let '(c, children) := f in
  let! (ok, line, s) := readCacheLine address (Some newLine) true (data_handler c) in
  let c' := set_data_handler s c in
  if negb ok then Ok (None, (c', children)) else
  let line := default newLine line in
  if (owner_id line =? m_id (cfg c)) || (owner_id line =? -1) then
    match line_data line with
    | Some d => Ok (Some (take (Z.to_nat (line_block_size line)) d), (c', children))
    | None => Crash "memcpy from NULL"
    end
  else
    match children !! Z.to_nat (owner_id line) with
    | Some ch =>
        if owner_id line <? 0 then Crash "child out of range" else
        let! (r, ch') := read ch address in
        Ok (r, (c', <[Z.to_nat (owner_id line) := ch']> children))
    | None => Crash "child out of range"
    end.

#[export] Instance controller_initializable : Initializable Family := {|
  initialize f a d n := controller_initialize a d n f;
  initialize_child f a d n := controller_initialize_child a d n f;
  read f a := controller_read a f |}.

(** ** The addresses of a trace *)

(** The bytes of a 64-bit value in memory order. *)
Definition le_bytes (v : Z) : bytes := (fun i => Z.land (Z.shiftr v (8 * i)) 0xFF) <$> seqZ 0 8.

(** One line of a trace file; a line without an address leaves [address]
    uninitialised. *)
Definition preload_line (st : C * Z) (line : string) : outcome (C * Z) :=
  let '(c, mockup_data) := st in
  match scan_llx line with
  | None => Crash "uninitialised address"
  | Some (address, _) =>
      let s := data_handler c in
      if fst (readLineBits address newLine s) then Ok st
      else if findEmptyWay (base s) address =? -1
      then Exit "ERROR: Cache is not prefect ... increase the cache size"
      else
        let cache_line := createDefaultCacheLine (protocol c) s newLine in
        match line_data cache_line with
        | None => Crash "memcpy to NULL"
        | Some d =>
            if Z.of_nat (length d) <? 8 then Crash "write past the line buffer" else
            let cache_line := set_data (Some (memcpy d (le_bytes mockup_data) 8)) cache_line in
            let! (_, s') := writeCacheLine_bypassLatency address cache_line false s in
            Ok (set_data_handler s' c, w64 (mockup_data + 1))
        end
  end.

(** [None]: the file cannot be opened. *)
Definition preload_file (st : C * Z) (file : option (list string)) : outcome (C * Z) :=
  match file with
  | None => Exit "ERROR: Can't open trace file"
  | Some l => ofold preload_line l st
  end.

Definition initializeCacheData (tracePaths : list (option (list string))) (c : C) : outcome C :=
  let! (c', _) := ofold preload_file tracePaths (c, 1) in Ok c'.
End Preload.
