(* ===== verification/PreloadTheory.v ===== *)
(** * Properties of functional access

    A functional write is the corresponding update of the abstract cache
    ([DataHandlerView.view]); a functional read returns what it holds, when the
    line is the controller's own. *)

From S2P Require Export SnoopTheory DirLLC BusInterfaces ControllerTheory Preload.

Local Open Scope list_scope.
Open Scope Z_scope.

(** ** Bytes *)

Definition splice (offset : Z) (data d : bytes) : bytes :=
  take (Z.to_nat offset) d ++ data ++ drop (Z.to_nat (offset + Z.of_nat (length data))) d.

Lemma length_splice off data d : 0 <= off -> off + Z.of_nat (length data) <= Z.of_nat (length d) ->
  length (splice off data d) = length d.
Proof. intros H1 H2. unfold splice. rewrite !length_app, length_take, length_drop. lia. Qed.

Lemma splice_read off data d : 0 <= off -> off + Z.of_nat (length data) <= Z.of_nat (length d) ->
  take (length data) (drop (Z.to_nat off) (splice off data d)) = data.
Proof.
  intros H1 H2. unfold splice. rewrite drop_app_length' by (rewrite length_take; lia).
  by rewrite take_app_length.
Qed.

Lemma modify_line_ok bs l d data off : line_wf bs l -> line_data l = Some d -> 0 <= off ->
  off + Z.of_nat (length data) <= bs ->
  modifyData data off (Z.of_nat (length data)) l = Ok (set_data (Some (splice off data d)) l).
Proof.
  intros [Hb Hd] El Ho Hn. rewrite El in Hd. unfold modifyData. rewrite El.
  rewrite (proj2 (Z.ltb_ge _ _)), (proj2 (Z.ltb_ge _ _)) by lia. unfold splice. rewrite Nat2Z.id.
  by rewrite (take_ge data) by lia.
Qed.

(** The offset of an address in its block. *)
Definition offset_of (bs a : Z) : Z := w16 (Z.land a (w32 (bs - 1))).

Lemma offset_of_nonneg bs a : 0 <= offset_of bs a.
Proof. unfold offset_of, w16, wrap. apply Z.mod_pos_bound. lia. Qed.

(** ** The handler *)

Section Handler.
Context (s : COTS) (W : cots_wf s) (a : Z) (Ha : in_addr a).
Abbreviation bs := (m_block_size (base s)).

(** A line rewritten where it is, the port closed afterwards. *)
Lemma rewrite_in_place f st o d :
  (forall l, line_wf bs l -> content l = (st, o, d) ->
     line_wf bs (f l) /\ valid (f l) = valid l /\ tag (f l) = tag l) ->
  view s a = Some (st, o, d) ->
  exists set way l, findline_cots s a = Some (set, way) /\ getLine_cots s set way = Some l /\ line_wf bs l /\
    content l = (st, o, d) /\
    let s' := set_base (close_port (base (setLine_cots set way (f l) s))) (setLine_cots set way (f l) s) in
    cots_wf s' /\ updated (base s) a (Some (content (f l))) (view s) (view s').
Proof.
  intros Hf HV. pose proof (cw_array s W) as WA.
  destruct (locate s a W Ha) as [set way Hfl Hin Hh Hfc Hway Hg Hl HV'|l Hfl Hm Hfc Hl HV'|l Hfl Hm Hp Hfc Hl HV'|Hfc Hfl Hm Hp HV'];
    rewrite HV' in HV; [apply (inj Some) in HV..|done].
  - set (l := array_line (base s) set way) in *. destruct (Hf l Hl HV) as (F1 & F2 & F3).
    pose proof Hh as (Hh1 & Hh2 & Hh3).
    exists set, way, l. split_and!; [done..|].
    unfold setLine_cots. rewrite (proj2 (Z.leb_le 0 way)) by (apply Z.ltb_ge in Hway; lia).
    change (cots_wf (set_base (close_port (set_array_line set way (f l) (base s))) s) /\
            updated (base s) a (Some (content (f l))) (view s)
              (view (set_base (close_port (set_array_line set way (f l) (base s))) s))).
    destruct (array_write_in_place (base s) set way (f l) a) as [W1 _]; try done; [congruence|].
    apply (cots_write_in_place s set way (f l) a); try done; [congruence|by apply array_wf_close].
  - destruct (cw_mshr s W _ _ Hm) as (_ & _ & _ & Hv). destruct (Hf l Hl HV) as (F1 & F2 & F3).
    exists (mask_offset (base s) a), (-1), l. destruct (reg_line_mshr s _ l Hm) as [Hg Hs].
    split_and!; [done..|]. rewrite Hs.
    destruct (mshr_write s a l (f l)) as [W1 U1]; try done; [congruence|].
    destruct (cots_wf_quiet _ (close_port (base s)) W1) as [W2 V2]; [by apply array_wf_close|done|done|].
    split; [exact W2|]. intros b Hb. rewrite V2 by done. by apply U1.
  - destruct (cw_pwb s W _ _ Hp) as (_ & _ & _ & Hv). destruct (Hf l Hl HV) as (F1 & F2 & F3).
    exists (mask_offset (base s) a), (-1), l. destruct (reg_line_pwb s _ l Hm Hp) as [Hg Hs].
    split_and!; [done..|]. rewrite Hs.
    destruct (pwb_write s a l (f l)) as [W1 U1]; try done; [congruence|].
    destruct (cots_wf_quiet _ (close_port (base s)) W1) as [W2 V2]; [by apply array_wf_close|done|done|].
    split; [exact W2|]. intros b Hb. rewrite V2 by done. by apply U1.
Qed.

(** A functional write of a line the handler has, wherever it is. *)
Lemma modifyLineData_refines data st o d : view s a = Some (st, o, Some d) ->
  offset_of bs a + Z.of_nat (length data) <= bs ->
  exists s', modifyLineData a data (Z.of_nat (length data)) true s = Ok (true, s') /\ cots_wf s' /\
    updated (base s) a (Some (st, o, Some (splice (offset_of bs a) data d))) (view s) (view s') /\
    m_block_size (base s') = bs /\ Z.of_nat (length d) = bs.
Proof.
  intros HV Hn. pose proof (offset_of_nonneg bs a) as Ho.
  set (d' := splice (offset_of bs a) data d).
  destruct (rewrite_in_place (fun l => set_data (Some d') l) st o (Some d)) as (set & way & l & Hfc & Hg & Hl & Hc & W' & U).
  - intros l Hl [= Hst Hown Hd]. split_and!; [|done..]. apply set_data_wf; [done|].
    destruct Hl as [_ Hl]. rewrite Hd in Hl. unfold d'. rewrite length_splice; lia.
  - done.
  - injection Hc as Hst Hown Hd. unfold modifyLineData. cbn. rewrite Hfc, orb_true_r. cbn. rewrite Hg.
    fold (offset_of bs a). rewrite (modify_line_ok bs l d) by done. cbn. eexists. split; [done|]. split; [exact W'|].
    split; [intros b Hb; rewrite U by done; unfold content; cbn; by rewrite Hst, Hown|].
    destruct Hl as [_ Hl]. rewrite Hd in Hl. split; [|done].
    unfold setLine_cots, checkMSHR, checkPWB. by repeat case_match.
Qed.

(** A functional write of a line without a buffer. *)
Lemma modifyLineData_unallocated data n st o : view s a = Some (st, o, None) ->
  modifyLineData a data n true s = Exit "GenericCacheLine: Error modifying unallocated line".
Proof.
  intros HV. destruct (rewrite_in_place (fun l => l) st o None) as (set & way & l & Hfc & Hg & Hl & Hc & _); [done..|].
  injection Hc as _ _ Hd. unfold modifyLineData. cbn. rewrite Hfc, orb_true_r. cbn. rewrite Hg.
  unfold modifyData. by rewrite Hd.
Qed.

(** A new line in an empty way. *)
Lemma place_line l : view s a = None -> findEmptyWay (base s) a <> -1 -> line_wf bs l -> line_data l <> None ->
  valid l = true ->
  exists s', writeCacheLine_bypassLatency a l true s = Ok (true, s') /\ cots_wf s' /\
    updated (base s) a (Some (content l)) (view s) (view s') /\ m_block_size (base s') = bs.
Proof.
  intros HV Hw Hl Hd Hv. pose proof (cw_array s W) as WA. pose proof (aw_geom _ WA) as G.
  destruct (locate s a W Ha) as [? ? ? ? ? ? ? ? ? HV'|? ? ? ? ? HV'|? ? ? ? ? ? HV'|Hfc Hf Hm Hp _];
    [congruence..|].
  pose proof (proj1 (findline_base_view _ _) Hf) as Hno.
  assert (exists d, line_data l = Some d) as [d Hld] by (destruct (line_data l); [eauto|done]).
  unfold writeCacheLine_bypassLatency; cbn.
  destruct (findEmptyWay_spec (base s) a) as [[? _]|[Hin Hinv]]; [done|].
  set (w := findEmptyWay (base s) a) in *. destruct (Z.eqb_spec w (-1)); [done|].
  apply allowed_ways_elem in Hin as [Hwr Hwa]. pose proof (in_array_set (base s) a w G Hwr) as Hia.
  rewrite getLine_array by done. eexists. split; [done|].
  rewrite (i64_tag (base s)) by (by apply calculate_tag_range || done).
  set (old := array_line (base s) (calculate_set (base s) a) w) in *.
  assert (Hold : line_wf bs old) by by apply WA.
  rewrite (copy_wf_eq bs) by done. rewrite Hld.
  set (l' := set_tag (calculate_tag (base s) a) (set_tag (tag old) l)).
  destruct (array_fill (base s) w l' a) as [W1 HV1]; try done.
  unfold setLine_cots. rewrite (proj2 (Z.leb_le 0 w)) by lia.
  set (h' := set_array_line (calculate_set (base s) a) w l' (base s)) in *.
  assert (Hmask : forall b, in_addr b -> block (base s) b = block (base s) a -> mask_offset (base s) b = mask_offset (base s) a)
    by (intros b Hb; by apply block_mask).
  split; [|split; [|done]].
  - constructor; try apply W; [done|]. intros b Hb Hs. change (is_Some (array_view h' b)) in Hs. rewrite HV1 in Hs by done.
    change (m_miss_status_holding_regs s !! mask_offset (base s) b = None /\ m_pending_write_back_regs s !! mask_offset (base s) b = None).
    case_decide as E; [rewrite (Hmask b Hb E); by rewrite Hm, Hp|by apply (cw_excl s W)].
  - intros b Hb. rewrite !view_eq by done. cbn. rewrite HV1 by done.
    case_decide as E; [done|]. done.
Qed.
End Handler.

Lemma readLineBits_view s a l : cots_wf s -> in_addr a -> fst (readLineBits a l s) = bool_decide (is_Some (view s a)).
Proof.
  intros W Ha. unfold readLineBits. cbn.
  destruct (locate s a W Ha) as [set way ? ? ? Hfc ? Hg ? HV|l0 ? Hm Hfc ? HV|l0 ? Hm Hp Hfc ? HV|Hfc ? ? ? HV]; rewrite Hfc, HV.
  - by rewrite Hg.
  - by rewrite (proj1 (reg_line_mshr s _ l0 Hm)).
  - by rewrite (proj1 (reg_line_pwb s _ l0 Hm Hp)).
  - by rewrite bool_decide_eq_false_2 by (by intros [? ?]).
Qed.

(** ** The controller *)

Section Controller.
Context {P IU IL Ch : Type} `{!CoherenceProtocol P, !CommInterface IU, !CommInterface IL, !Initializable Ch}.
Abbreviation C := (@Controller P IU IL).
Implicit Types c : C.

(** The protocol's default line is a valid line with a block. *)
Definition default_line_ok (p : P) (s : COTS) : Prop :=
  let l := createDefaultCacheLine p s newLine in
  line_wf (m_block_size (base s)) l /\ valid l = true /\ is_Some (line_data l).

(** What a functional write makes of a block. *)
Definition written (c : C) (a : Z) (data : bytes) : option (Z * Z * option bytes) :=
  let s := data_handler c in
  let '(st, o, d) := default (content (createDefaultCacheLine (protocol c) s newLine)) (view s a) in
  Some (st, o, splice (offset_of (m_block_size (base s)) a) data <$> d).

Lemma initialize_spec c (children : list Ch) a data : let s := data_handler c in
  cots_wf s -> in_addr a -> default_line_ok (protocol c) s -> Z.of_nat (length data) < 2 ^ 16 ->
  offset_of (m_block_size (base s)) a + Z.of_nat (length data) <= m_block_size (base s) ->
  match controller_initialize a data (Z.of_nat (length data)) (c, children) with
  | Ok (c', children') =>
      cots_wf (data_handler c') /\ updated (base s) a (written c a data) (view s) (view (data_handler c')) /\
      cfg c' = cfg c /\ m_block_size (base (data_handler c')) = m_block_size (base s) /\
      (exists st o d, written c a data = Some (st, o, Some d) /\ Z.of_nat (length d) = m_block_size (base s) /\
         take (length data) (drop (Z.to_nat (offset_of (m_block_size (base s)) a)) d) = data)
  | Exit _ => view s a = None /\ findEmptyWay (base s) a = -1 \/ (exists st o, view s a = Some (st, o, None)) \/
              is_ok (oeach (fun ch => initialize_child ch a data (Z.of_nat (length data))) children) = false
  | Crash _ => is_ok (oeach (fun ch => initialize_child ch a data (Z.of_nat (length data))) children) = false
  end.
Proof.
  intros s W Ha (Hdl & Hdv & dd & Hdd) Hsz Hn. unfold controller_initialize, written. fold s.
  assert (Hw : w16 (Z.of_nat (length data)) = Z.of_nat (length data)) by (apply w16_small; lia).
  rewrite readLineBits_view by done. pose proof (offset_of_nonneg (m_block_size (base s)) a) as Ho.
  destruct (view s a) as [[[st o] d]|] eqn:HV.
  - rewrite bool_decide_eq_true_2 by done. cbn [negb default]. unfold modify_resident. fold s. rewrite Hw.
    destruct d as [d|].
    + destruct (modifyLineData_refines s W a Ha data st o d HV Hn) as (s' & E & W' & U & Hbs & Hlen). rewrite E. cbn [obind].
      destruct (oeach _ children) as [children'| |]; cbn [obind is_ok]; [|by auto..].
      split_and!; [done|done|done|done|]. eexists _, _, _. split; [done|].
      rewrite length_splice, splice_read by lia. done.
    + rewrite (modifyLineData_unallocated s W a Ha _ _ st o HV). cbn. eauto.
  - rewrite bool_decide_eq_false_2 by (by intros [? ?]). cbn [negb default]. unfold place. fold s.
    destruct (Z.eqb_spec (findEmptyWay (base s) a) (-1)) as [He|He]; [cbn; auto|].
    set (l := createDefaultCacheLine (protocol c) s newLine) in *. pose proof Hdl as [Hlb Hld]. rewrite Hdd in Hld.
    rewrite Hlb. fold (offset_of (m_block_size (base s)) a). rewrite Hw, (modify_line_ok (m_block_size (base s)) l dd) by done.
    cbn [obind]. set (d' := splice (offset_of (m_block_size (base s)) a) data dd).
    assert (Hd' : Z.of_nat (length d') = m_block_size (base s)) by (unfold d'; rewrite length_splice; lia).
    destruct (place_line s W a Ha (set_data (Some d') l) HV He (set_data_wf _ _ _ Hdl Hd')) as (s' & E & W' & U & Hbs); [done..|].
    rewrite E. cbn [obind]. change (content l) with (state l, owner_id l, line_data l). rewrite Hdd.
    cbn [fmap option_fmap option_map].
    split_and!; [done|exact U|done|done|]. eexists _, _, _. split; [done|]. split; [done|].
    unfold d'. by rewrite splice_read by lia.
Qed.

(** A functional read of a line that can be read now. *)
Lemma controller_read_spec c (children : list Ch) a : let s := data_handler c in
  cots_wf s -> in_addr a -> isReady_cots s a = true ->
  match view s a with
  | None => controller_read a (c, children) = Ok (None, (c, children))
  | Some (st, o, d) =>
      if (o =? m_id (cfg c)) || (o =? -1) then
        match d with
        | Some d => exists c', controller_read a (c, children) = Ok (Some d, (c', children)) /\
            forall b, in_addr b -> view (data_handler c') b = view s b
        | None => controller_read a (c, children) = Crash "memcpy from NULL"
        end
      else children !! Z.to_nat o = None -> controller_read a (c, children) = Crash "child out of range"
  end.
Proof.
  intros s W Ha Hr. destruct (view s a) as [[[st o] d]|] eqn:HV.
  - destruct (rewrite_in_place s W a Ha (fun l => l) st o d) as (set & way & l & Hfc & Hg & Hl & Hc & W' & U); [done..|].
    assert (E : readCacheLine a (Some newLine) true s = Ok (true, Some (set_tag (-1) l), set_base (close_port (base s)) s)).
    { unfold readCacheLine. cbn. rewrite Hfc, Hr. cbn. by rewrite Hg, (copy_fresh _ _ Hl). }
    unfold controller_read. fold s. rewrite E. cbn [obind negb]. injection Hc as Hst Ho Hd.
    change (default newLine (Some (set_tag (-1) l))) with (set_tag (-1) l).
    cbn [owner_id set_tag line_data line_block_size]. rewrite Ho, Hd.
    destruct ((o =? m_id (cfg c)) || (o =? -1)).
    + destruct d as [d|]; [|done]. destruct Hl as [Hlb Hld]. rewrite Hd in Hld.
      rewrite take_ge by lia. eexists. split; [done|]. intros b Hb. cbn.
      destruct (cots_wf_quiet s (close_port (base s)) W) as [_ V]; [apply array_wf_close, W|done..|by apply V].
    + intros ->. done.
  - assert (Hfc : findline_cots s a = None) by by apply findline_cots_view.
    unfold controller_read. fold s. unfold readCacheLine. cbn. rewrite Hfc. cbn. by destruct c.
Qed.
End Controller.


(** A functional read of a line another cache owns.  Nothing fills the list
    of children, so the controller indexes an empty vector. *)
Theorem functional_read_owned {P IU IL Ch : Type} `{!CoherenceProtocol P, !CommInterface IU, !CommInterface IL, !Initializable Ch}
    (c : @Controller P IU IL) a st o d :
  cots_wf (data_handler c) -> in_addr a -> isReady_cots (data_handler c) a = true ->
  view (data_handler c) a = Some (st, o, d) -> o <> m_id (cfg c) -> o <> -1 ->
  controller_read a (c, ([] : list Ch)) = Crash "child out of range".
Proof.
  intros W Ha Hr HV H1 H2. pose proof (controller_read_spec c ([] : list Ch) a W Ha Hr) as R. rewrite HV in R.
  rewrite (proj2 (Z.eqb_neq _ _) H1), (proj2 (Z.eqb_neq _ _) H2) in R. by apply R.
Qed.

(** The shared caches' default lines have a zeroed block; the private caches'
    protocols have no default line. *)
Lemma zeroed_line_ok s v st : cots_wf s ->
  let l := set_valid true (set_state st (initializeCacheLine (base s) newLine)) in
  v = l -> line_wf (m_block_size (base s)) v /\ valid v = true /\ is_Some (line_data v).
Proof.
  intros W l ->. pose proof (aw_geom _ (cw_array s W)) as G. split_and!; [split; [done|]|done|by eexists].
  cbn. rewrite length_replicate. rewrite (geom_block _ G). lia.
Qed.
Lemma LLC_default_line_ok (p : LLCProtocol) s : cots_wf s -> default_line_ok p s.
Proof. intros W. by eapply zeroed_line_ok. Qed.
Lemma LLCDir_default_line_ok (p : LLCDirectory) s : cots_wf s -> default_line_ok p s.
Proof. intros W. by eapply zeroed_line_ok. Qed.

#[export] Instance no_children : Initializable Empty_set := {|
  initialize f _ _ _ := Ok f;
  initialize_child f _ _ _ := Ok f;
  read f _ := Ok (None, f) |}.

Definition demo_llc (s : COTS) : @Controller LLCDirectory BusInterface BusInterface :=
  mkController (mkConfig CacheControllerDirectory 100 200 false (-1) true 8 []) (LLCMSIDirectory, mkProtocol 100 200 (fsm_of MSI_LLC_directory_csv))
    1 (newBusInterface 100 4) (newBusInterface 100 4) s (newBuffer 8 0 true) ∅ ∅ ∅ None [] 0 0 false None 0 0 0 0 (-1) noCounters 0 0.


(** Core 1 owns the line of 0x10. *)
Lemma functional_read_owned_witness :
  controller_read 0x12 (demo_llc (writeLine2MSHR 0x12 (set_data (Some [1; 2; 3; 4]) demo_line) demo_store), ([] : list Empty_set)) =
  Crash "child out of range".
Proof.
  destruct demo_store_wf as [W V].
  destruct (writeLine2MSHR_spec demo_store 0x12 (set_data (Some [1; 2; 3; 4]) demo_line)) as [W' U]; [done|done|by apply V|done|].
  apply (functional_read_owned (demo_llc (writeLine2MSHR 0x12 (set_data (Some [1; 2; 3; 4]) demo_line) demo_store)) 0x12 3 1 (Some [1; 2; 3; 4]));
    [exact W'|done|by vm_compute|by vm_compute|done|done].
Defined.
