(* ===== verification/External.v ===== *)
(** * Bridges to other simulators

    [ExternalCPU] ([src/ExternalCPU.cpp]), the port of a core model that lives
    outside, and [MCsimInterface] ([src/MCsimInterface.cpp]), the memory
    controller that hands its requests to the DRAM simulator MCsim.  What is on
    the other side, the embedder's callbacks and MCsim, are the classes
    [Embedder] and [DramSim]. *)

From S2P Require Export FrfcfsBuffer Preload.

Local Open Scope list_scope.
Open Scope Z_scope.

(** Both queues hold messages that are always ready. *)
Definition always_ready (m : Message) (st : FRFCFS_State) : outcome (FRFCFS_State * Message) := Ok (Ready, m).
Definition no_hold (m : Message) : bool := false.
Definition plainBuffer : FRFCFS_Buffer := newBuffer (-1) 0 false.

(** ** The external core *)

(** [enum RequestType] *)
Definition SETUP_WRITE : Z := 2.
Definition SETUP_READ : Z := 3.

(** A call of [addRequest]. *)
Record Request := mkRequest { rq_address : Z; rq_type : Z; rq_data : option bytes; rq_size : Z }.
(** The arguments of the completion callback. *)
Record Completion := mkCompletion { cm_id : Z; cm_address : Z; cm_cycle : Z; cm_type : Z; cm_data : option bytes }.

(** The core model.  Its completion callback may call [addRequest] before it
    returns; [on_issued] is what it does with the id, and the bytes, of a call. *)
Class Embedder (E : Type) := {
  on_complete : E -> Completion -> E * list Request;
  on_issued : E -> Request -> Z -> option bytes -> E }.

Record ExternalCPU {IU : Type} := mkExternal {
  ext_id : Z;
  ext_clk_cycle : Z;
  m_link_full_holds : Z;
  ext_upper : IU;
  ext_queue : FRFCFS_Buffer;
  m_cpu_callback : bool }.       (* whether one is registered *)
Arguments ExternalCPU : clear implicits.

Section ExternalCore.
Context {IU E Mem : Type} `{!CommInterface IU, !Embedder E, !Initializable Mem}.
Implicit Types x : ExternalCPU IU.

(** What calls reach besides the port: the embedder, the registered memory
    component ([None]: none is) and the request counter. *)
Definition Outside : Type := E * option Mem * Shared.

Definition newExternalCPU (id : Z) (upper : IU) : ExternalCPU IU := mkExternal _ id 1 0 upper plainBuffer false.

Definition ext_set (holds : Z) (upper : IU) (q : FRFCFS_Buffer) x : ExternalCPU IU :=
  mkExternal _ (ext_id x) (ext_clk_cycle x) holds upper q (m_cpu_callback x).

Definition registerCPUCallback (present : bool) x : ExternalCPU IU :=
  mkExternal _ (ext_id x) (ext_clk_cycle x) (m_link_full_holds x) (ext_upper x) (ext_queue x) present.

(** [addRequest]: the id, the bytes a [SETUP_READ] stored, and the message
    queued, if there is one. *)
Definition request_of (id : Z) (r : Request) (o : Outside) : outcome (Z * option bytes * list Message * Outside) :=
  let '(e, mem, sh) := o in
  if rq_type r =? SETUP_WRITE then
    match rq_data r, mem with
    | None, _ => Exit "ExternalCPU: Error addRequest without data"
    | Some _, None => Exit "ExternalCPU: Error no registered setup function"
    | Some d, Some c => let! c' := initialize c (rq_address r) d (rq_size r) in Ok (0, None, [], (e, Some c', sh))
    end
  else if rq_type r =? SETUP_READ then
    match mem with
    | None => Crash "no memory component"
    | Some c => let! (b, c') := read c (rq_address r) in Ok (0, b, [], (e, Some c', sh))
    end
  else
    let '(n, sh') := nextReqId sh in
    let m := set_msg_data None (w16 (rq_size r))
               (set_msg_source LOWER_INTERCONNECT (newMessage n (rq_address r) 0 (rq_type r) id)) in
    let m := match rq_data r with
             | Some d => if rq_type r =? WRITE then copy_bytes d (rq_size r) m else m
             | None => m
             end in
    Ok (msg_id m, None, [m], (e, mem, sh')).

Definition addRequest (r : Request) x (o : Outside) : outcome (Z * option bytes * ExternalCPU IU * Outside) :=
  let! (id, b, l, o') := request_of (ext_id x) r o in
  Ok (id, b, ext_set (m_link_full_holds x) (ext_upper x)
               (foldl (fun q m => snd (pushBack m NonReady false q)) (ext_queue x) l) x, o').

(** The calls the embedder makes from inside its callback. *)
Fixpoint addRequests (l : list Request) x (o : Outside) : outcome (ExternalCPU IU * Outside) :=
  match l with
  | [] => Ok (x, o)
  | r :: l' =>
      let! (id, b, x', o') := addRequest r x o in
      let '(e, mem, sh) := o' in
      addRequests l' x' (on_issued e r id b, mem, sh)
  end.

(** The loop over the upper interface. *)
Fixpoint ext_intake (fuel : nat) x : outcome (ExternalCPU IU) :=
  match fuel with
  | O => out_of_fuel
  | S f =>
      match peekMessage (ext_upper x) with
      | (None, i) => Ok (ext_set (m_link_full_holds x) i (ext_queue x) x)
      | (Some msg, i) =>
          let msg := set_msg_cycle (ext_clk_cycle x) (set_msg_source UPPER_INTERCONNECT msg) in
          let '(ok, q) := pushBack msg Ready false (ext_queue x) in
          if ok then ext_intake f (ext_set (m_link_full_holds x) (popFrontMessage i) q x)
          else Ok (ext_set (m_link_full_holds x) i (ext_queue x) x)
      end
  end.

(** A request the link refused keeps what [pushMessage] wrote into it. *)
Definition stamped x (m : Message) : Message :=
  set_msg_from (ci_id (ext_upper x)) (set_msg_cycle (ext_clk_cycle x) m).

Definition completion x (m : Message) : Completion :=
  mkCompletion (msg_id m) (msg_addr m) (ext_clk_cycle x) (complementary_value m) (msg_data m).

(** The service loop of [processLogic]. *)
Fixpoint ext_loop (fuel : nat) x (o : Outside) : outcome (ExternalCPU IU * Outside) :=
  match fuel with
  | O => out_of_fuel
  | S f =>
      let! (r, q) := getFirstReady always_ready no_hold (ext_queue x) in
      let x1 := ext_set (m_link_full_holds x) (ext_upper x) q x in
      match r with
      | None => Ok (x1, o)
      | Some m =>
          match msg_source m with
          | LOWER_INTERCONNECT =>
              let! (ok, i) := pushMessage (ext_upper x) (set_msg_cycle (ext_clk_cycle x) m) (ext_clk_cycle x) REQUEST in
              if ok : bool then ext_loop f (ext_set (m_link_full_holds x) i q x) o
              else Ok (ext_set (w64 (m_link_full_holds x + 1)) i (snd (pushFront (stamped x m) q)) x, o)
          | UPPER_INTERCONNECT =>
              if negb (m_cpu_callback x) then Exit "ExternalCPU: Error CPU Callback is invalid" else
              let '(e, mem, sh) := o in
              let '(e', l) := on_complete e (completion x m) in
              let! (x2, o2) := addRequests l x1 (e', mem, sh) in
              ext_loop f x2 o2
          | SELF => ext_loop f x1 o
          end
      end
  end.

Definition ext_processLogic (fuel : nat) x (o : Outside) : outcome (ExternalCPU IU * Outside) :=
  let! x1 := ext_intake fuel x in ext_loop fuel x1 o.

Definition ext_cycleProcess (fuel : nat) x (o : Outside) : outcome (ExternalCPU IU * Outside) :=
  let! (x1, o1) := ext_processLogic fuel x o in
  Ok (mkExternal _ (ext_id x1) (w64 (ext_clk_cycle x1 + 1)) (m_link_full_holds x1) (ext_upper x1) (ext_queue x1)
        (m_cpu_callback x1), o1).
End ExternalCore.

(** [isBlocked] and [outstandingLimit]; [None]: no cache is attached. *)
Definition isBlocked {P IU IL} (cache : option (@Controller P IU IL)) (outstanding : Z) : bool :=
  match cache with None => false | Some c => demandAdmissionBlocked outstanding c end.
Definition outstandingLimit {P IU IL} (cache : option (@Controller P IU IL)) : Z :=
  match cache with None => -1 | Some c => m_processing_queue_size (cfg c) end.

(** ** The MCsim memory controller *)

Inductive DramEvent := ReadDone (address : Z) | WriteDone.

(** MCsim: [addRequest(requestor, address, read, size)], and one tick of its
    clock with the callbacks it makes. *)
Class DramSim (D : Type) := {
  dram_addRequest : D -> Z -> Z -> bool -> Z -> bool * D;
  dram_update : D -> list DramEvent * D }.

Record MCsimInterface {IL D : Type} := mkMCsim {
  mi_id : Z;
  mi_llc_id : Z;
  mi_line_size : Z;
  mi_clk_cycle : Z;
  mi_read_count : Z;
  mi_write_count : Z;
  mi_pending : list Message;         (* m_pending_requests *)
  m_output_buffer : list Message;
  mi_lower : IL;
  mi_queue : FRFCFS_Buffer;
  m_mcsim : D;
  stack_bytes : bytes }.             (* what follows an 8-byte local on the stack *)
Arguments MCsimInterface : clear implicits.

Section Dram.
Context {IL D : Type} `{!CommInterface IL, !DramSim D}.
Implicit Types i : MCsimInterface IL D.

Definition newMCsimInterface (lower : IL) (dram_id llc_id block_size clk_period : Z) (sim : D) (junk : bytes)
    : outcome (MCsimInterface IL D) :=
  if clk_period =? 0 then Exit "MCsimInterface: clock period must be non-zero"
  else Ok (mkMCsim _ _ dram_id llc_id block_size 1 0 0 [] [] lower plainBuffer sim junk).

Definition mi_set (pending output : list Message) (lower : IL) (q : FRFCFS_Buffer) (sim : D) i : MCsimInterface IL D :=
  mkMCsim _ _ (mi_id i) (mi_llc_id i) (mi_line_size i) (mi_clk_cycle i) (mi_read_count i) (mi_write_count i)
    pending output lower q sim (stack_bytes i).

Definition mi_counts (clk reads writes : Z) i : MCsimInterface IL D :=
  mkMCsim _ _ (mi_id i) (mi_llc_id i) (mi_line_size i) clk reads writes
    (mi_pending i) (m_output_buffer i) (mi_lower i) (mi_queue i) (m_mcsim i) (stack_bytes i).

Definition mi_addRequests2ProcessingQueue i : MCsimInterface IL D :=
  match peekMessage (mi_lower i) with
  | (None, l) => mi_set (mi_pending i) (m_output_buffer i) l (mi_queue i) (m_mcsim i) i
  | (Some msg, l) =>
      let msg := set_msg_cycle (mi_clk_cycle i) (set_msg_source LOWER_INTERCONNECT msg) in
      let '(ok, q) := pushBack msg Ready false (mi_queue i) in
      mi_set (mi_pending i) (m_output_buffer i) (if ok then popFrontMessage l else l) q (m_mcsim i) i
  end.

(** The request the queue hands out goes to MCsim; a read is remembered. *)
Definition mi_submit (m : Message) (q : FRFCFS_Buffer) i : outcome (MCsimInterface IL D) :=
  let '(ok, sim) := dram_addRequest (m_mcsim i) (msg_owner m) (msg_addr m) (negb (has_data m)) (mi_line_size i) in
  if ok then Ok (mi_set (if has_data m then mi_pending i else mi_pending i ++ [m]) (m_output_buffer i) (mi_lower i) q sim i)
  else Exit "MCsimInterface: Error failed to add request to MCsim".

(** One finished read leaves per cycle. *)
Definition mi_output i : outcome (MCsimInterface IL D) :=
  match m_output_buffer i with
  | [] => Ok i
  | m :: rest =>
      let! (ok, l) := pushMessage (mi_lower i) m (mi_clk_cycle i) DATA_RESPONSE in
      if ok : bool then Ok (mi_set (mi_pending i) rest l (mi_queue i) (m_mcsim i) i)
      else Exit "MCsimInterface: Cannot insert the Msg into the lower interface FIFO, FIFO is Full"
  end.

Definition mi_processLogic i : outcome (MCsimInterface IL D) :=
  let i1 := mi_addRequests2ProcessingQueue i in
  let! (r, q) := getFirstReady always_ready no_hold (mi_queue i1) in
  let! i2 := (match r with
              | Some m => mi_submit m q i1
              | None => Ok (mi_set (mi_pending i1) (m_output_buffer i1) (mi_lower i1) q (m_mcsim i1) i1)
              end) in
  mi_output i2.

(** The bytes of the answer are 64 bytes read from an 8-byte counter. *)
Definition mi_fill (m : Message) i : Message :=
  copy_bytes (le_bytes (mi_read_count i) ++ stack_bytes i) 64
    (set_msg_kind K_FILL (push_to (mi_llc_id i) (newMessage (msg_id m) (msg_addr m) (mi_clk_cycle i) 0 (msg_owner m)))).

(** [read_callback]: the oldest pending request for the address. *)
Fixpoint take_pending (address : Z) (l : list Message) : option (Message * list Message) :=
  match l with
  | [] => None
  | m :: l' =>
      if msg_addr m =? address then Some (m, l')
      else match take_pending address l' with Some (r, l'') => Some (r, m :: l'') | None => None end
  end.

Definition dram_callback i (ev : DramEvent) : outcome (MCsimInterface IL D) :=
  match ev with
  | WriteDone => Ok (mi_counts (mi_clk_cycle i) (mi_read_count i) (w64 (mi_write_count i + 1)) i)
  | ReadDone address =>
      match take_pending address (mi_pending i) with
      | Some (m, rest) =>
          Ok (mi_counts (mi_clk_cycle i) (w64 (mi_read_count i + 1)) (mi_write_count i)
                (mi_set rest (m_output_buffer i ++ [mi_fill m i]) (mi_lower i) (mi_queue i) (m_mcsim i) i))
      | None => Exit "MCsimInterface: Error read_callback couldn't find the pending request"
      end
  end.

Definition mi_update i : outcome (MCsimInterface IL D) :=
  let '(evs, sim) := dram_update (m_mcsim i) in
  ofold dram_callback evs (mi_set (mi_pending i) (m_output_buffer i) (mi_lower i) (mi_queue i) sim i).

Definition mi_cycleProcess i : outcome (MCsimInterface IL D) :=
  let! i1 := mi_processLogic i in
  let! i2 := mi_update i1 in
  Ok (mi_counts (w64 (mi_clk_cycle i2 + 1)) (mi_read_count i2) (mi_write_count i2) i2).
End Dram.
