(* ===== verification/ExternalLaws.v ===== *)
(** * Lemmas on the bridges

    Queues of messages that are always ready hand out their head; what the
    DRAM simulator promises ([DramLaws]); the steps of the two loops. *)

From S2P Require Export External.

Local Open Scope list_scope.
Open Scope Z_scope.

(** ** Plain queues *)

Definition items (q : FRFCFS_Buffer) : list Message := item <$> m_buffer q.

(** Unbounded, with no line gate and no rescan skip. *)
Definition plain_queue (q : FRFCFS_Buffer) : Prop :=
  m_max_size q = -1 /\ m_line_mask q = 0 /\ m_readiness_state_only q = false.

Lemma element_always_ready e : element_state always_ready e = Ok (Ready, item e).
Proof. unfold element_state, always_ready. by case_decide. Qed.

Lemma getFirstReady_head q : plain_queue q -> exists q',
  getFirstReady always_ready no_hold q = Ok (head (items q), q') /\ items q' = tail (items q) /\ plain_queue q'.
Proof.
  intros (Hm & Hl & Hr). unfold getFirstReady, items. rewrite Hr, Hl.
  destruct (m_buffer q) as [|e l] eqn:E; cbn [andb negb].
  - eexists. by split_and!.
  - cbn [scan_ready blocked no_hold Z.eqb negb andb existsb]. rewrite element_always_ready. cbn.
    eexists. by split_and!.
Qed.

Lemma pushBack_plain m st q : plain_queue q -> exists q',
  pushBack m st false q = (true, q') /\ items q' = items q ++ [m] /\ plain_queue q'.
Proof.
  intros (Hm & Hl & Hr). unfold pushBack. rewrite Hm. rewrite !andb_false_r. cbn.
  eexists. split_and!; [done|unfold items; cbn; by rewrite fmap_app|done..].
Qed.

Lemma pushFront_plain m q : plain_queue q ->
  items (snd (pushFront m q)) = m :: items q /\ plain_queue (snd (pushFront m q)).
Proof. done. Qed.

Lemma plainBuffer_plain : plain_queue plainBuffer.
Proof. done. Qed.

(** ** MCsim *)

Definition read_done (ev : DramEvent) : option Z := match ev with ReadDone a => Some a | WriteDone => None end.

(** The addresses of the reads MCsim has accepted and not finished: it finishes
    each once, with the address it was given, in any order. *)
Class DramLaws (D : Type) `{DramSim D} := {
  outstanding : D -> list Z;
  dram_add_ok : forall d owner a rd size d', dram_addRequest d owner a rd size = (true, d') ->
    outstanding d' ≡ₚ (if rd then [a] else []) ++ outstanding d;
  dram_update_ok : forall d evs d', dram_update d = (evs, d') ->
    omap read_done evs ++ outstanding d' ≡ₚ outstanding d }.

Lemma take_pending_found a l : a ∈ (msg_addr <$> l) ->
  exists m l', take_pending a l = Some (m, l') /\ l ≡ₚ m :: l' /\ msg_addr m = a.
Proof.
  induction l as [|m l IH]; cbn; [by intros ?%elem_of_nil|].
  destruct (Z.eqb_spec (msg_addr m) a) as [E|E]; [eauto|].
  intros [H|H]%elem_of_cons; [congruence|]. destruct (IH H) as (m' & l' & -> & Hp & Ha).
  exists m', (m :: l'). split_and!; [done| |done]. rewrite Hp. constructor.
Qed.

(** A request, seen from both ends. *)
Definition ticket (m : Message) : Z * Z * Z := (msg_id m, msg_addr m, w16 (msg_owner m)).

Definition is_read (m : Message) : bool := negb (has_data m).

Section DramStep.
Context {IL D : Type} `{!CommInterface IL, !CommInterfaceLaws IL, !DramSim D, !DramLaws D}.
Implicit Types i : MCsimInterface IL D.

(** Reads that have arrived and wait, that are in MCsim, and that leave. *)
Definition waiting i : list Message := filter is_read (ci_rx (mi_lower i)) ++ filter is_read (items (mi_queue i)).
Definition answered i : list Message := m_output_buffer i ++ ci_tx (mi_lower i).
Definition read_tickets i : list (Z * Z * Z) := ticket <$> (waiting i ++ mi_pending i ++ answered i).

(** What is remembered is what MCsim owes. *)
Record mi_inv i : Prop := mk_mi_inv {
  mii_pending : msg_addr <$> mi_pending i ≡ₚ outstanding (m_mcsim i);
  mii_queue : plain_queue (mi_queue i) }.

(** A step keeps the invariant and the reads. *)
Definition mi_keeps i i' : Prop := mi_inv i' /\ read_tickets i' ≡ₚ read_tickets i.

Lemma mi_keeps_trans i1 i2 i3 : mi_keeps i1 i2 -> mi_keeps i2 i3 -> mi_keeps i1 i3.
Proof. intros [_ H1] [Hi H2]. split; [done|]. by rewrite H2. Qed.

Lemma mi_intake_keeps i : mi_inv i -> mi_keeps i (mi_addRequests2ProcessingQueue i).
Proof.
  intros [Hp Hq]. unfold mi_addRequests2ProcessingQueue.
  destruct (peekMessage (mi_lower i)) as [[m|] l] eqn:E.
  - destruct (pushBack_plain (set_msg_cycle (mi_clk_cycle i) (set_msg_source LOWER_INTERCONNECT m)) Ready _ Hq)
      as (q & -> & Hit & Hq'). apply ci_peek_some in E as (_ & Et & Er).
    split; [by split|]. unfold read_tickets, waiting, answered; cbn. rewrite Hit, ci_pop_tx, Et.
    rewrite !fmap_app, filter_app, !fmap_app, Er.
    destruct (decide (is_read m)) as [Hr|Hr].
    + rewrite (filter_cons_True _ m), (filter_cons_True _ (set_msg_cycle _ _)) by done. cbn. solve_perm.
    + rewrite (filter_cons_False _ m), (filter_cons_False _ (set_msg_cycle _ _)) by done. cbn. by rewrite app_nil_r.
  - apply ci_peek_none in E as (Er0 & Er & Et). split; [by split|].
    unfold read_tickets, waiting, answered; cbn. by rewrite Er, Et, Er0.
Qed.

Lemma mi_submit_keeps m q i i' : mi_inv i -> plain_queue q -> items (mi_queue i) = m :: items q ->
  mi_submit m q i = Ok i' -> mi_keeps i i'.
Proof.
  intros [Hp Hq] Hq' Hit. unfold mi_submit.
  destruct (dram_addRequest _ _ _ _ _) as [[|] d] eqn:E; [|done]. intros [= <-].
  apply dram_add_ok in E. split.
  - split; cbn; [|done]. rewrite E, <- Hp. destruct (has_data m); cbn; [done|].
    rewrite fmap_app; cbn. solve_perm.
  - unfold read_tickets, waiting, answered; cbn. rewrite Hit. destruct (has_data m) eqn:Hd.
    + rewrite (filter_cons_False _ m) by (unfold is_read; rewrite Hd; by intros []). done.
    + rewrite (filter_cons_True _ m) by (unfold is_read; by rewrite Hd).
      rewrite !fmap_app; cbn. solve_perm.
Qed.

Lemma mi_output_keeps i i' : mi_inv i -> mi_output i = Ok i' -> mi_keeps i i'.
Proof.
  intros [Hp Hq]. unfold mi_output. destruct (m_output_buffer i) as [|m rest] eqn:Eo; [by intros [= <-]|].
  intros ([[|] l] & E & H)%obind_Ok; [|done]. injection H as <-.
  apply ci_push_ok in E as (Er & _ & Et). split; [by split|].
  unfold read_tickets, waiting, answered; cbn. rewrite Er, Et, Eo, !fmap_app. cbn.
  case_match; cbn; solve_perm.
Qed.

Lemma mi_processLogic_keeps i i' : mi_inv i -> mi_processLogic i = Ok i' -> mi_keeps i i'.
Proof.
  intros Hi. unfold mi_processLogic. pose proof (mi_intake_keeps i Hi) as K1.
  set (i1 := mi_addRequests2ProcessingQueue i) in *. destruct (getFirstReady_head _ (mii_queue _ (proj1 K1))) as (q & -> & Ht & Hq).
  cbn [obind]. intros (i2 & E & H)%obind_Ok. apply (mi_keeps_trans _ _ _ K1).
  assert (K2 : mi_keeps i1 i2); [|by apply (mi_keeps_trans _ _ _ K2), mi_output_keeps; [apply K2|]].
  destruct K1 as [Hi1 _]. destruct (items (mi_queue i1)) as [|m l] eqn:El; cbn in E, Ht.
  - injection E as <-. split; [split; [apply Hi1|done]|].
    unfold read_tickets, waiting, answered; cbn. by rewrite Ht, El.
  - eapply mi_submit_keeps; [done| |by rewrite El, Ht|done]. done.
Qed.

(** A callback for an address that is owed finds its request. *)
Lemma dram_callback_keeps a i : plain_queue (mi_queue i) -> a ∈ (msg_addr <$> mi_pending i) -> exists i',
  dram_callback i (ReadDone a) = Ok i' /\ read_tickets i' ≡ₚ read_tickets i /\ plain_queue (mi_queue i') /\
  msg_addr <$> mi_pending i ≡ₚ a :: (msg_addr <$> mi_pending i') /\ m_mcsim i' = m_mcsim i.
Proof.
  intros Hq Ha. cbn. destruct (take_pending_found _ _ Ha) as (m & l & -> & Hp & Hm).
  eexists. split; [done|]. cbn. rewrite Hp. split_and!; [|done| |done].
  - unfold read_tickets, waiting, answered; cbn. rewrite Hp, !fmap_app. cbn.
    replace (ticket (mi_fill m i)) with (ticket m); [solve_perm|].
    unfold ticket, mi_fill; cbn. by rewrite (w16_small (w16 _)) by (apply wrap_range; lia).
  - cbn. by rewrite Hm.
Qed.

Lemma dram_callbacks_keep evs : forall i rest, plain_queue (mi_queue i) ->
  omap read_done evs ++ rest ≡ₚ msg_addr <$> mi_pending i -> exists i',
  ofold dram_callback evs i = Ok i' /\ read_tickets i' ≡ₚ read_tickets i /\ plain_queue (mi_queue i') /\
  msg_addr <$> mi_pending i' ≡ₚ rest /\ m_mcsim i' = m_mcsim i.
Proof.
  induction evs as [|[a|] evs IH]; intros i rest Hq Hp.
  - exists i. by split_and!.
  - cbn in Hp. destruct (dram_callback_keeps a i Hq) as (i1 & E & Ht & Hq1 & Hp1 & Hm); [rewrite <- Hp; by left|].
    rewrite Hp1 in Hp. apply (inj (cons a)) in Hp.
    destruct (IH i1 rest Hq1 Hp) as (i' & E' & Ht' & Hq' & Hp' & Hm').
    exists i'. cbn [ofold]. rewrite E. split_and!; [done|by rewrite Ht'|done|done|congruence].
  - destruct (IH (mi_counts (mi_clk_cycle i) (mi_read_count i) (w64 (mi_write_count i + 1)) i) rest Hq Hp) as (i' & E' & ?).
    by exists i'.
Qed.

Lemma mi_update_keeps i : mi_inv i -> exists i', mi_update i = Ok i' /\ mi_keeps i i'.
Proof.
  intros [Hp Hq]. unfold mi_update. destruct (dram_update (m_mcsim i)) as [evs d] eqn:E.
  apply dram_update_ok in E.
  destruct (dram_callbacks_keep evs (mi_set (mi_pending i) (m_output_buffer i) (mi_lower i) (mi_queue i) d i)
              (outstanding d) Hq) as (i' & E' & Ht & Hq' & Hp' & Hm); [by rewrite E|].
  exists i'. split; [done|]. split; [|done]. split; [|done]. by rewrite Hp', Hm.
Qed.
End DramStep.

(** ** The external core *)

Section ExternalSteps.
Context {IU E Mem : Type} `{!CommInterface IU, !CommInterfaceLaws IU, !Embedder E, !Initializable Mem}.
Implicit Types x : ExternalCPU IU.
Implicit Types o : Outside (E := E) (Mem := Mem).

(** What the embedder's calls queue, and leave outside the port. *)
Fixpoint issue_all (id : Z) (l : list Request) o : outcome (list Message * Outside) :=
  match l with
  | [] => Ok ([], o)
  | r :: l' =>
      let! (n, b, ms, o1) := request_of id r o in
      let '(e, mem, sh) := o1 in
      let! (ms', o2) := issue_all id l' (on_issued e r n b, mem, sh) in
      Ok (ms ++ ms', o2)
  end.

(** The embedder's view of a cycle: the answers it is given, in order, and the
    requests it makes meanwhile.  Queue and link play no part in it. *)
Fixpoint deliver x (served : list Message) o : outcome (list Message * Outside) :=
  match served with
  | [] => Ok ([], o)
  | m :: served' =>
      match msg_source m with
      | UPPER_INTERCONNECT =>
          let '(e, mem, sh) := o in
          let '(e', l) := on_complete e (completion x m) in
          let! (ms, o1) := issue_all (ext_id x) l (e', mem, sh) in
          let! (ms', o2) := deliver x served' o1 in
          Ok (ms ++ ms', o2)
      | _ => deliver x served' o
      end
  end.

(** A core that makes no functional access from inside the callback. *)
Definition timed (r : Request) : Prop := rq_type r <> SETUP_WRITE /\ rq_type r <> SETUP_READ.
Definition timed_embedder : Prop := forall (e : E) c, Forall timed (snd (on_complete e c)).
(** The link answers every request, with yes or no. *)
Definition link_answers : Prop := forall (i : IU) m c, exists ok i', pushMessage i m c REQUEST = Ok (ok, i').

Definition is_upper (m : Message) : Prop := msg_source m = UPPER_INTERCONNECT.
Definition is_lower (m : Message) : Prop := msg_source m = LOWER_INTERCONNECT.
#[export] Instance is_upper_dec m : Decision (is_upper m).
Proof. unfold is_upper. apply _. Defined.
#[export] Instance is_lower_dec m : Decision (is_lower m).
Proof. unfold is_lower. apply _. Defined.

Lemma request_of_timed id r o : timed r -> exists n m o', request_of id r o = Ok (n, None, [m], o') /\ is_lower m.
Proof.
  intros [H1 H2]. destruct o as [[e mem] sh]. unfold request_of.
  rewrite (proj2 (Z.eqb_neq _ _) H1), (proj2 (Z.eqb_neq _ _) H2). destruct (nextReqId sh) as [n sh'].
  destruct (rq_data r) as [d|]; [destruct (_ =? WRITE)|]; eexists _, _, _; by split.
Qed.

Lemma issue_all_timed id l : forall o, Forall timed l -> exists ms o',
  issue_all id l o = Ok (ms, o') /\ Forall is_lower ms.
Proof.
  induction l as [|r l IH]; intros o Hl; cbn; [by eexists _, _|].
  apply Forall_cons in Hl as [Hr Hl]. destruct (request_of_timed id r o Hr) as (n & m & [[e mem] sh] & -> & Hm). cbn.
  destruct (IH (on_issued e r n None, mem, sh) Hl) as (ms & o' & -> & Hms). cbn. eexists _, _. split; [done|by constructor].
Qed.

Lemma push_all_plain ms : forall q, plain_queue q ->
  let q' := foldl (fun q m => snd (pushBack m NonReady false q)) q ms in items q' = items q ++ ms /\ plain_queue q'.
Proof.
  induction ms as [|m ms IH]; intros q Hq; cbn; [by rewrite app_nil_r|].
  destruct (pushBack_plain m NonReady q Hq) as (q1 & -> & E1 & Hq1). cbn.
  destruct (IH q1 Hq1) as [E2 Hq2]. split; [|done]. by rewrite E2, E1, <- app_assoc.
Qed.

(** The calls made from inside the callback, through the port. *)
Lemma addRequests_issue l : forall x o ms o', plain_queue (ext_queue x) -> issue_all (ext_id x) l o = Ok (ms, o') ->
  exists q, addRequests l x o = Ok (ext_set (m_link_full_holds x) (ext_upper x) q x, o') /\
    items q = items (ext_queue x) ++ ms /\ plain_queue q.
Proof.
  induction l as [|r l IH]; intros x o ms o' Hq; cbn.
  - intros [= <- <-]. exists (ext_queue x). rewrite app_nil_r. by destruct x.
  - unfold addRequest. destruct (request_of (ext_id x) r o) as [[[[n b] ms1] [[e mem] sh]]|?|?]; cbn; [|done..].
    intros ([ms2 o2] & Hi & [= <- <-])%obind_Ok. destruct (push_all_plain ms1 _ Hq) as [E1 Hq1].
    match goal with |- context [addRequests l ?y _] => destruct (IH y _ _ _ Hq1 Hi) as (q & -> & E2 & Hq2) end.
    exists q. split_and!; [done| |done]. rewrite E2. cbn. by rewrite E1, <- app_assoc.
Qed.

(** What the service loop has done when it returns. *)
Definition loop_done x o x' (o' : Outside) : Prop :=
  exists served added h u q, x' = ext_set h u q x /\ plain_queue q /\
    deliver x served o = Ok (added, o') /\
    ci_rx u = ci_rx (ext_upper x) /\ ci_id u = ci_id (ext_upper x) /\
    ci_tx u ≡ₚ (stamped x <$> filter is_lower served) ++ ci_tx (ext_upper x) /\
    ((items (ext_queue x) ++ added = served /\ items q = [] /\ h = m_link_full_holds x) \/
     exists m rest, items (ext_queue x) ++ added = served ++ m :: rest /\ is_lower m /\
       items q = stamped x m :: rest /\ h = w64 (m_link_full_holds x + 1)).

Lemma deliver_ext_set h u q x served : forall o, deliver (ext_set h u q x) served o = deliver x served o.
Proof.
  induction served as [|m served IH]; intros o; [done|]. cbn [deliver]. destruct (msg_source m); [apply IH| |apply IH].
  destruct o as [[e mem] sh]. change (completion (ext_set h u q x) m) with (completion x m).
  destruct (on_complete e (completion x m)) as [e' l]. change (ext_id (ext_set h u q x)) with (ext_id x).
  destruct (issue_all (ext_id x) l (e', mem, sh)) as [[ms o1]|?|?]; cbn; [|done..]. by rewrite IH.
Qed.

(** One message served, then the rest of the loop. *)
Lemma loop_done_lower x o x' o' m i q1 : items (ext_queue x) = m :: items q1 -> is_lower m ->
  ci_rx i = ci_rx (ext_upper x) -> ci_id i = ci_id (ext_upper x) -> ci_tx i ≡ₚ stamped x m :: ci_tx (ext_upper x) ->
  loop_done (ext_set (m_link_full_holds x) i q1 x) o x' o' -> loop_done x o x' o'.
Proof.
  intros Hit Hm Hr Hid Ht (served & added & h & u & q & -> & Hq & Hd & Hr' & Hid' & Ht' & Hend).
  exists (m :: served), added, h, u, q. cbn in Hr', Hid', Ht', Hend. split_and!; [done..| | | | |].
  - cbn. rewrite Hm. by rewrite deliver_ext_set in Hd.
  - congruence.
  - congruence.
  - rewrite filter_cons_True by done. rewrite Ht', Ht. unfold stamped in *; cbn. rewrite Hid. solve_perm.
  - rewrite Hit. destruct Hend as [(<- & ? & ?)|(m' & rest & Eq & Hm' & Hi & ?)]; [by left|].
    right. exists m', rest. cbn [app]. rewrite Eq. split_and!; [done..| |done].
    rewrite Hi. unfold stamped; cbn. by rewrite Hid.
Qed.

Lemma loop_done_skip x o o1 x' o' m q1 ms : items (ext_queue x) = m :: items q1 -> ~ is_lower m ->
  (forall served added, deliver x served o1 = Ok (added, o') -> deliver x (m :: served) o = Ok (ms ++ added, o')) ->
  forall q2, items q2 = items q1 ++ ms ->
  loop_done (ext_set (m_link_full_holds x) (ext_upper x) q2 x) o1 x' o' -> loop_done x o x' o'.
Proof.
  intros Hit Hm Hdel q2 Hq2 (served & added & h & u & q & -> & Hq & Hd & Hr' & Hid' & Ht' & Hend).
  exists (m :: served), (ms ++ added), h, u, q. cbn in Hr', Hid', Ht', Hend. split_and!; try done.
  - apply Hdel. by rewrite deliver_ext_set in Hd.
  - rewrite filter_cons_False by done. exact Ht'.
  - rewrite Hq2, <- app_assoc in Hend. rewrite Hit. cbn [app].
    destruct Hend as [(<- & ? & ?)|(m' & rest & -> & ?)]; [by left|]. right. by exists m', rest.
Qed.

(** Enough fuel, and what the loop then returns. *)
Definition loop_ends x o : Prop := exists N x' o',
  (forall fuel, (N <= fuel)%nat -> ext_loop fuel x o = Ok (x', o')) /\ loop_done x o x' o'.

Lemma loop_ends_step x o x1 o1 :
  (forall f, ext_loop (S f) x o = ext_loop f x1 o1) ->
  (forall x' o', loop_done x1 o1 x' o' -> loop_done x o x' o') ->
  loop_ends x1 o1 -> loop_ends x o.
Proof.
  intros Hs Hd (N & x' & o' & Hr & Hl). exists (S N), x', o'. split; [|auto].
  intros [|f] Hf; [lia|]. rewrite Hs. apply Hr. lia.
Qed.

Definition uppers x : nat := length (filter is_upper (items (ext_queue x))).

Lemma ext_loop_ends : timed_embedder -> link_answers -> forall up len x o, plain_queue (ext_queue x) ->
  m_cpu_callback x = true -> (uppers x <= up)%nat -> (length (items (ext_queue x)) <= len)%nat -> loop_ends x o.
Proof.
  intros He Hlink. induction up as [up IHup] using lt_wf_ind. induction len as [len IHlen] using lt_wf_ind.
  intros x o Hq Hcb Hup Hlen. destruct (getFirstReady_head _ Hq) as (q1 & Eg & Et & Hq1).
  destruct (items (ext_queue x)) as [|m rest] eqn:Hit; cbn in Eg, Et.
  - exists 1%nat, (ext_set (m_link_full_holds x) (ext_upper x) q1 x), o. split.
    + intros [|f] Hf; [lia|]. cbn [ext_loop]. by rewrite Eg.
    + exists [], [], (m_link_full_holds x), (ext_upper x), q1. cbn. rewrite Hit. split_and!; try done. by left.
  - rewrite <- Et in Hit. assert (Hlen1 : (length (items q1) < len)%nat) by (rewrite Et; cbn in Hlen; lia).
    assert (Hnext : forall x1 o1, ext_queue x1 = q1 -> m_cpu_callback x1 = true -> ~ is_upper m -> loop_ends x1 o1).
    { intros x1 o1 E1 Hc1 Hm. apply (IHlen (length (items q1))); rewrite ?E1; [done..| |lia].
      unfold uppers in *. rewrite E1. rewrite Hit, filter_cons_False in Hup by done. done. }
    destruct (msg_source m) eqn:Hs.
    + destruct (Hlink (ext_upper x) (set_msg_cycle (ext_clk_cycle x) m) (ext_clk_cycle x)) as ([|] & i & Ep).
      * apply (loop_ends_step x o (ext_set (m_link_full_holds x) i q1 x) o).
        -- intros f. cbn [ext_loop]. rewrite Eg. cbn. by rewrite Hs, Ep.
        -- apply ci_push_ok in Ep as (? & ? & Ht). intros x' o'. eapply loop_done_lower; try done.
           rewrite Ht. by case_match.
        -- apply Hnext; [done..|]. unfold is_upper. by rewrite Hs.
      * exists 1%nat. eexists _, _. split.
        -- intros [|f] Hf; [lia|]. cbn [ext_loop]. rewrite Eg. cbn. rewrite Hs, Ep. done.
        -- apply ci_push_full in Ep as ->. eexists [], [], _, _, _. split_and!; try done. right. exists m, (items q1).
           by rewrite Hit, app_nil_r.
    + destruct o as [[e mem] sh]. destruct (on_complete e (completion x m)) as [e' l] eqn:Ec.
      destruct (issue_all_timed (ext_id x) l (e', mem, sh)) as (ms & o1 & Ei & Hms).
      { specialize (He e (completion x m)). by rewrite Ec in He. }
      destruct (addRequests_issue l (ext_set (m_link_full_holds x) (ext_upper x) q1 x) _ _ _ Hq1 Ei)
        as (q2 & Ea & E2 & Hq2). cbn in Ea, E2.
      apply (loop_ends_step x _ (ext_set (m_link_full_holds x) (ext_upper x) q2 x) o1).
      * intros f. cbn [ext_loop]. rewrite Eg. cbn. rewrite Hs, Hcb. cbn. by rewrite Ec, Ea.
      * intros x' o'. apply (loop_done_skip x _ o1 x' o' m q1 ms Hit); [unfold is_lower; by rewrite Hs| |done].
        intros served added Hd. cbn [deliver]. by rewrite Hs, Ec, Ei; cbn; rewrite Hd.
      * apply (IHup (uppers (ext_set (m_link_full_holds x) (ext_upper x) q2 x))) with (len := length (items q2)); try done.
        unfold uppers in *. cbn. rewrite E2, filter_app, Hit, filter_cons_True in * by done.
        rewrite (proj2 (filter_nil_iff is_upper ms)); [rewrite app_nil_r; cbn in Hup; lia|].
        intros m' Hm'. rewrite Forall_forall in Hms. specialize (Hms m' Hm'). unfold is_lower, is_upper in *. congruence.
    + apply (loop_ends_step x o (ext_set (m_link_full_holds x) (ext_upper x) q1 x) o).
      * intros f. cbn [ext_loop]. rewrite Eg. cbn. by rewrite Hs.
      * intros x' o'. apply (loop_done_skip x o o x' o' m q1 [] Hit); [unfold is_lower; by rewrite Hs| |by rewrite app_nil_r].
        intros served added Hd. cbn [deliver]. by rewrite Hs.
      * apply Hnext; [done..|]. unfold is_upper. by rewrite Hs.
Qed.

(** What arrives is stamped with the cycle and the side it came from. *)
Definition arrived x (m : Message) : Message := set_msg_cycle (ext_clk_cycle x) (set_msg_source UPPER_INTERCONNECT m).

Lemma ext_intake_ends : forall n x, plain_queue (ext_queue x) -> (length (ci_rx (ext_upper x)) <= n)%nat ->
  exists u q received, (forall fuel, (n < fuel)%nat -> ext_intake fuel x = Ok (ext_set (m_link_full_holds x) u q x)) /\
    plain_queue q /\ items q = items (ext_queue x) ++ received /\ (received ≡ₚ arrived x <$> ci_rx (ext_upper x)) /\
    ci_rx u = [] /\ ci_tx u = ci_tx (ext_upper x) /\ ci_id u = ci_id (ext_upper x).
Proof.
  induction n as [|n IH]; intros x Hq Hn; destruct (peekMessage (ext_upper x)) as [[m|] i] eqn:Ep;
    pose proof (ci_peek_id _ _ _ Ep) as Hid.
  2, 4: apply ci_peek_none in Ep as Hp; destruct Hp as (Hr0 & Hr & Ht);
    exists i, (ext_queue x), []; rewrite Hr0, app_nil_r; split_and!; try done;
    intros [|f] Hf; [lia|]; cbn [ext_intake]; by rewrite Ep.
  all: apply ci_peek_some in Ep as Hp; destruct Hp as (_ & Ht & Hr).
  { apply Permutation_length in Hr. cbn in Hr. lia. }
  destruct (pushBack_plain (arrived x m) Ready _ Hq) as (q1 & Eq & E1 & Hq1).
  destruct (IH (ext_set (m_link_full_holds x) (popFrontMessage i) q1 x)) as (u & q & rec & Hf & Hq' & Eit & Hrec & Hu1 & Hu2 & Hu3);
    [done|apply Permutation_length in Hr; cbn in *; lia|].
  exists u, q, (arrived x m :: rec). cbn in Eit, Hrec, Hu2, Hu3. split_and!; try done.
  - intros [|f] Hlt; [lia|]. cbn [ext_intake]. rewrite Ep. fold (arrived x m). rewrite Eq. apply Hf. lia.
  - by rewrite Eit, E1, <- app_assoc.
  - rewrite Hr. cbn. by rewrite Hrec.
  - by rewrite Hu2, ci_pop_tx.
  - by rewrite Hu3, ci_pop_id.
Qed.
End ExternalSteps.
