(* ===== verification/ExternalTheory.v ===== *)
(** * Properties of the bridges

    What a cycle of the external core's port does with its queue, and that the
    MCsim bridge answers each read once, whatever order MCsim finishes them in. *)

From S2P Require Export External ExternalLaws BusInterfaces.

Local Open Scope list_scope.
Open Scope Z_scope.

(** C30: a cycle of the port, with enough fuel, ends.  It serves, in order, the
    requests queued, then what has arrived, then what the embedder queues from
    inside its callbacks.  Requests go on the link with the cycle and the port's
    id, answers are given to the embedder, which sees nothing else ([deliver]).
    It serves everything, or stops at the first request the link refuses: that
    one stays in front, stamped, what follows it stays behind it, and the hold
    is counted. *)
Theorem external_cycle_serves {IU E Mem} `{!CommInterface IU, !CommInterfaceLaws IU, !Embedder E, !Initializable Mem}
    (x : ExternalCPU IU) (o : Outside (E := E) (Mem := Mem)) :
  timed_embedder (E := E) -> link_answers (IU := IU) -> plain_queue (ext_queue x) -> m_cpu_callback x = true ->
  exists N x' o' received served added,
    (forall fuel, (N <= fuel)%nat -> ext_cycleProcess fuel x o = Ok (x', o')) /\
    deliver x served o = Ok (added, o') /\
    received ≡ₚ (arrived x <$> ci_rx (ext_upper x)) /\ ci_rx (ext_upper x') = [] /\
    ci_tx (ext_upper x') ≡ₚ (stamped x <$> filter is_lower served) ++ ci_tx (ext_upper x) /\
    plain_queue (ext_queue x') /\
    let due := items (ext_queue x) ++ received ++ added in
    ((due = served /\ items (ext_queue x') = [] /\ m_link_full_holds x' = m_link_full_holds x) \/
     exists m rest, due = served ++ m :: rest /\ is_lower m /\ items (ext_queue x') = stamped x m :: rest /\
       m_link_full_holds x' = w64 (m_link_full_holds x + 1)).
Proof.
  intros He Hl Hq Hcb. destruct (ext_intake_ends _ x Hq (le_n _)) as (u & q & rec & Hin & Hq1 & Eit & Hrec & Hu1 & Hu2 & Hu3).
  set (x1 := ext_set (m_link_full_holds x) u q x) in *.
  destruct (ext_loop_ends He Hl _ _ x1 o Hq1 Hcb (le_n _) (le_n _)) as (N & x2 & o' & Hloop & Hdone).
  destruct Hdone as (served & added & h & u' & q' & -> & Hq' & Hdel & Hr & _ & Ht & Hend).
  assert (Hst : stamped x1 = stamped x) by (unfold stamped; cbn; by rewrite Hu3).
  cbn in Hr, Ht, Hend. rewrite Hst in Ht, Hend. unfold x1 in Hdel.
  rewrite deliver_ext_set in Hdel. rewrite Hu2 in Ht. rewrite Eit, <- app_assoc in Hend.
  eexists (N + S (length (ci_rx (ext_upper x))))%nat, _, o', rec, served, added. split.
  - intros fuel Hf. unfold ext_cycleProcess, ext_processLogic. rewrite Hin by lia. cbn [obind]. by rewrite Hloop by lia.
  - cbn. split_and!; try done. congruence.
Qed.

(** C31: the MCsim bridge.  Over a cycle that does not end in a full link or a
    request MCsim refuses, every callback finds the request it finishes, what
    the bridge remembers is again what MCsim owes, and each read is, with its id,
    address and owner, in exactly one place: waiting, in MCsim, or answered. *)
Theorem mcsim_answers_once {IL D} `{!CommInterface IL, !CommInterfaceLaws IL, !DramSim D, !DramLaws D}
    (i i1 : MCsimInterface IL D) :
  mi_inv i -> mi_processLogic i = Ok i1 -> exists i',
    mi_cycleProcess i = Ok i' /\ mi_inv i' /\ read_tickets i' ≡ₚ read_tickets i.
Proof.
  intros Hi E. pose proof (mi_processLogic_keeps i i1 Hi E) as K1. destruct (mi_update_keeps i1 (proj1 K1)) as (i2 & E2 & K2).
  destruct (mi_keeps_trans _ _ _ K1 K2) as [[Hp Hq] Ht]. unfold mi_cycleProcess. rewrite E. cbn [obind]. rewrite E2.
  eexists. by split_and!.
Qed.

(** ** Witnesses *)

(** A core that asks for the next line whenever it is answered. *)
Record DemoCore := mkDemoCore { next_line : Z; seen : list Completion; ids : list Z }.
#[export] Instance demo_core : Embedder DemoCore := {|
  on_complete e c := (mkDemoCore (next_line e + 64) (c :: seen e) (ids e), [mkRequest (next_line e) 0 None 64]);
  on_issued e r id b := mkDemoCore (next_line e) (seen e) (id :: ids e) |}.

(** No memory component. *)
#[export] Instance no_memory : Initializable unit := {|
  initialize u _ _ _ := Ok u; initialize_child u _ _ _ := Ok u; read u _ := Ok (None, u) |}.

(** Two answers have arrived and one request is queued; the link holds one. *)
Definition demo_port : ExternalCPU BusInterface :=
  mkExternal _ 1 7 0
    (mkBusInterface 1 (-1) 1 [] [] [] [newMessage 3 0x40 5 0 1; newMessage 4 0x80 5 0 1] [] [1; 2])
    (snd (pushBack (newMessage 9 0x200 0 1 1) NonReady false plainBuffer)) true.
Definition demo_outside : Outside (E := DemoCore) (Mem := unit) := (mkDemoCore 0x1000 [] [], None, mkShared 10 1).

Lemma external_cycle_serves_witness :
  (exists x' o', ext_cycleProcess 9 demo_port demo_outside = Ok (x', o') /\
     msg_id <$> items (ext_queue x') = [10; 11] /\ cm_id <$> seen (fst (fst o')) = [4; 3] /\ m_link_full_holds x' = 1) /\
  exists N x' o' received served added,
    (forall fuel, (N <= fuel)%nat -> ext_cycleProcess fuel demo_port demo_outside = Ok (x', o')) /\
    deliver demo_port served demo_outside = Ok (added, o') /\
    received ≡ₚ (arrived demo_port <$> ci_rx (ext_upper demo_port)) /\ ci_rx (ext_upper x') = [] /\
    ci_tx (ext_upper x') ≡ₚ (stamped demo_port <$> filter is_lower served) ++ ci_tx (ext_upper demo_port) /\
    plain_queue (ext_queue x') /\
    let due := items (ext_queue demo_port) ++ received ++ added in
    ((due = served /\ items (ext_queue x') = [] /\ m_link_full_holds x' = m_link_full_holds demo_port) \/
     exists m rest, due = served ++ m :: rest /\ is_lower m /\ items (ext_queue x') = stamped demo_port m :: rest /\
       m_link_full_holds x' = w64 (m_link_full_holds demo_port + 1)).
Proof.
  split.
  - eexists _, _. split; [vm_compute; reflexivity|]. by vm_compute.
  - apply (external_cycle_serves demo_port demo_outside); [| |done..].
    + intros e c. by repeat constructor.
    + intros i m c. cbn. case_match; eauto.
Defined.

(** A DRAM that finishes its youngest request first, one per tick. *)
Definition demo_sim : Type := list (Z * bool).
#[export] Instance demo_dram : DramSim demo_sim := {|
  dram_addRequest d _ a rd _ := (true, (a, rd) :: d);
  dram_update d := match d with [] => ([], []) | (a, rd) :: d' => ([if rd : bool then ReadDone a else WriteDone], d') end |}.
#[export, refine] Instance demo_dram_laws : DramLaws demo_sim := {|
  outstanding d := omap (fun p => if snd p : bool then Some (fst p) else None) d; dram_add_ok := _; dram_update_ok := _ |}.
Proof.
  - intros d _ a rd _ d' [= <-]. by destruct rd.
  - intros [|[a []] d] evs d'; by intros [= <- <-].
Defined.

(** One read in MCsim, one answered, one that arrives. *)
Definition demo_bridge : MCsimInterface BusInterface demo_sim :=
  mkMCsim _ _ 3 2 64 20 1 0 [newMessage 5 0x40 3 0 0] [newMessage 4 0x80 3 0 1]
    (mkBusInterface 3 (-1) 4 [] [] [newMessage 6 0xC0 19 0 1] [] [4] []) plainBuffer [(0x40, true)] (repeat 0 56).

Lemma mcsim_answers_once_witness : exists i1, mi_processLogic demo_bridge = Ok i1 /\ exists i',
  mi_cycleProcess demo_bridge = Ok i' /\ mi_inv i' /\ read_tickets i' ≡ₚ read_tickets demo_bridge.
Proof.
  assert (F : is_ok (mi_processLogic demo_bridge) = true) by (vm_compute; reflexivity).
  destruct (mi_processLogic demo_bridge) as [i1|?|?] eqn:E; [|discriminate F..]. exists i1. split; [done|].
  apply (mcsim_answers_once demo_bridge i1); [by split|done].
Defined.
