(* ===== verification/Dram.v ===== *)
(** * DRAM devices

    [src/MCsim/dram/DRAM.h]: a device is a tree (channel, rank, bank group,
    bank) whose nodes know, for each command, the earliest time it may be issued
    again.  The standard ([T] of the template) is the record [Standard]; the
    statistics, which nothing reads back, are left out. *)

From S2P Require Export Prelude.

Local Open Scope list_scope.
Open Scope Z_scope.

(** ** Commands, states and timing entries *)

Module Ram.
Inductive Command := ACT_R | ACT_W | ACT | PRE | PREA | RD | WR | RDA | WRA | REF | PDE | PDX | SRE | SRX.
#[global] Instance Command_eq_dec : EqDecision Command.
Proof. solve_decision. Defined.

(** [int(cmd)]. *)
Definition number (c : Command) : nat :=
  match c with
  | ACT_R => 0 | ACT_W => 1 | ACT => 2 | PRE => 3 | PREA => 4 | RD => 5 | WR => 6 | RDA => 7 | WRA => 8
  | REF => 9 | PDE => 10 | PDX => 11 | SRE => 12 | SRX => 13
  end.
Definition MAX : nat := 14.
Definition commands : list Command := [ACT_R; ACT_W; ACT; PRE; PREA; RD; WR; RDA; WRA; REF; PDE; PDX; SRE; SRX].

Inductive State := Opened | Closed | PowerUp | ActPowerDown | PrePowerDown | SelfRefresh | MAX_State.
#[global] Instance State_eq_dec : EqDecision State.
Proof. solve_decision. Defined.
End Ram.

Record TimingEntry := mkTiming { t_cmd : Ram.Command; t_dist : Z; t_val : Z; t_sibling : bool }.

(** ** The tree *)

(** A node; [next] and [prev] are indexed by command. *)
Inductive DRAM := mkDRAM {
  level : nat;
  node_id : Z;
  state : Ram.State;
  row_state : gmap Z Ram.State;
  cur_clk : Z;
  next : list Z;
  prev : list (list Z);
  children : list DRAM }.

Definition set_state (st : Ram.State) (rows : gmap Z Ram.State) (n : DRAM) : DRAM :=
  mkDRAM (level n) (node_id n) st rows (cur_clk n) (next n) (prev n) (children n).
Definition set_children (ch : list DRAM) (n : DRAM) : DRAM :=
  mkDRAM (level n) (node_id n) (state n) (row_state n) (cur_clk n) (next n) (prev n) ch.
Definition set_clk (clk : Z) (n : DRAM) : DRAM :=
  mkDRAM (level n) (node_id n) (state n) (row_state n) clk (next n) (prev n) (children n).

(** The state transitions a standard's [lambda] table uses; [below] is the
    distance from the node to its banks. *)
Inductive Effect :=
| OpenRow                    (* this bank, the addressed row *)
| CloseRow                   (* this bank *)
| CloseBanks (below : nat)
| PowerDown (below : nat)
| GoTo (st : Ram.State)
| NoEffect.

Record Standard := mkStandard {
  lv_row : nat;                                     (* int(T::Level::Row) *)
  scope : Ram.Command -> nat;
  start : nat -> Ram.State;
  count : nat -> Z;                                 (* org_entry.count *)
  timing : nat -> Ram.Command -> list TimingEntry;
  lambda : nat -> Ram.Command -> option Effect;
  prereq : nat -> Ram.Command -> option (DRAM -> Z -> outcome (option Ram.Command)) }.   (* None: Command::MAX *)

Section Device.
Variable spec : Standard.

(** ** Construction *)

(** How many issues of [cmd] a node at level [lv] remembers. *)
Definition history (lv : nat) (cmd : Ram.Command) : Z :=
  foldl (fun dist t => Z.max dist (t_dist t)) 0 (timing spec lv cmd).

Fixpoint new_node (fuel : nat) (lv : nat) (id : Z) : DRAM :=
  mkDRAM lv id (start spec lv) ∅ 0 (repeat (-1) Ram.MAX)
    ((fun cmd => repeat (-1) (Z.to_nat (history lv cmd))) <$> Ram.commands)
    (match fuel with
     | O => []
     | S f => if Nat.eqb (S lv) (lv_row spec) then [] else (fun i => new_node f (S lv) i) <$> seqZ 0 (count spec (S lv))
     end).
Definition newDRAM (lv : nat) : DRAM := new_node (lv_row spec) lv 0.

(** ** Queries *)

Definition at_cmd (cmd : Ram.Command) (l : list Z) : Z := nth (Ram.number cmd) l (-1).
Definition addr_at (lv : nat) (addr : list Z) : Z := nth lv addr (-1).

(** [children[child_id]->...]. *)
Definition no_child : string := "DRAM: child out of range".
Definition on_child {R} (f : DRAM -> outcome R) : list DRAM -> nat -> outcome R :=
  fix pick (l : list DRAM) (k : nat) :=
    match l, k with
    | c :: _, O => f c
    | _ :: l', S k' => pick l' k'
    | [], _ => Crash no_child
    end.

Fixpoint check (cmd : Ram.Command) (addr : list Z) (clk : Z) (n : DRAM) : outcome bool :=
  match n with
  | mkDRAM lv _ _ _ _ nx _ ch =>
      if negb (at_cmd cmd nx =? -1) && (clk <? at_cmd cmd nx) then Ok false
      else
        let child_id := addr_at (S lv) addr in
        if (child_id <? 0) || Nat.eqb lv (scope spec cmd) || (length ch =? 0)%nat then Ok true
        else on_child (check cmd addr clk) ch (Z.to_nat child_id)
  end.

(** The loop of [get_next] from a node down. *)
Fixpoint next_below (cmd : Ram.Command) (addr : list Z) (next_clk : Z) (n : DRAM) : outcome Z :=
  match n with
  | mkDRAM lv _ _ _ _ nx _ ch =>
      let next_clk := Z.max next_clk (at_cmd cmd nx) in
      if (lv <? scope spec cmd)%nat && negb (length ch =? 0)%nat && (0 <=? addr_at (S lv) addr)
      then on_child (next_below cmd addr next_clk) ch (Z.to_nat (addr_at (S lv) addr))
      else Ok next_clk
  end.
Definition get_next (cmd : Ram.Command) (addr : list Z) (n : DRAM) : outcome Z := next_below cmd addr (cur_clk n) n.

(** The command a command needs first. *)
Fixpoint decode (cmd : Ram.Command) (addr : list Z) (n : DRAM) : outcome Ram.Command :=
  match n with
  | mkDRAM lv _ _ _ _ _ _ ch =>
      let child_id := addr_at (S lv) addr in
      let! p := (match prereq spec lv cmd with Some f => f n child_id | None => Ok None end) in
      match p with
      | Some prereq_cmd => Ok prereq_cmd
      | None =>
          if (child_id <? 0) || (length ch =? 0)%nat then Ok cmd else on_child (decode cmd addr) ch (Z.to_nat child_id)
      end
  end.

(** ** Updates *)

(** Every node [below] levels under this one. *)
Fixpoint on_banks (f : DRAM -> DRAM) (below : nat) (n : DRAM) : DRAM :=
  match below with
  | O => f n
  | S b => set_children (on_banks f b <$> children n) n
  end.
Fixpoint banks (below : nat) (n : DRAM) : list DRAM :=
  match below with
  | O => [n]
  | S b => concat (banks b <$> children n)
  end.

Definition is_closed (n : DRAM) : bool := bool_decide (state n = Ram.Closed).

Definition run_effect (e : Effect) (id : Z) (n : DRAM) : DRAM :=
  match e with
  | OpenRow => set_state Ram.Opened (<[id := Ram.Opened]> (row_state n)) n
  | CloseRow => set_state Ram.Closed ∅ n
  | CloseBanks below => on_banks (set_state Ram.Closed ∅) below n
  | PowerDown below =>
      set_state (if forallb is_closed (banks below n) then Ram.PrePowerDown else Ram.ActPowerDown) (row_state n) n
  | GoTo st => set_state st (row_state n) n
  | NoEffect => n
  end.

Definition lambda_at (cmd : Ram.Command) (id : Z) (n : DRAM) : DRAM :=
  match lambda spec (level n) cmd with Some e => run_effect e id n | None => n end.

(** [update_state]; [fuel] bounds the depth of the tree. *)
Definition replace_child (ch : list DRAM) (k : nat) (n : DRAM) (c : DRAM) : DRAM := set_children (<[k := c]> ch) n.
Fixpoint update_state (fuel : nat) (cmd : Ram.Command) (addr : list Z) (n : DRAM) : outcome DRAM :=
  let child_id := addr_at (S (level n)) addr in
  let n := lambda_at cmd child_id n in
  if Nat.eqb (level n) (scope spec cmd) || (length (children n) =? 0)%nat then Ok n
  else
    match fuel with
    | O => Crash no_child
    | S f =>
        if child_id <? 0 then Crash no_child else
        match children n !! Z.to_nat child_id with
        | Some c => let! c' := update_state f cmd addr c in Ok (replace_child (children n) (Z.to_nat child_id) n c')
        | None => Crash no_child
        end
    end.

(** [next[t.cmd] = max(next[t.cmd], future)]. *)
Definition raise (cmd : Ram.Command) (future : Z) (nx : list Z) : list Z := alter (Z.max future) (Ram.number cmd) nx.

Definition sibling_timing (clk : Z) (ts : list TimingEntry) (nx : list Z) : list Z :=
  foldl (fun nx t => if t_sibling t then raise (t_cmd t) (clk + t_val t) nx else nx) nx ts.

Definition target_timing (hist : list Z) (ts : list TimingEntry) (nx : list Z) : list Z :=
  foldl (fun nx t =>
    if t_sibling t then nx else
    let past := nth (Z.to_nat (t_dist t - 1)) hist (-1) in
    if past <? 0 then nx else raise (t_cmd t) (past + t_val t) nx) nx ts.

Definition push_history (clk : Z) (h : list Z) : list Z :=
  match h with [] => [] | _ => clk :: removelast h end.

Fixpoint update_timing (cmd : Ram.Command) (addr : list Z) (clk : Z) (n : DRAM) : DRAM :=
  match n with
  | mkDRAM lv id st rows cc nx pv ch =>
      if negb (id =? addr_at lv addr) then mkDRAM lv id st rows cc (sibling_timing clk (timing spec lv cmd) nx) pv ch
      else
        let hist := push_history clk (nth (Ram.number cmd) pv []) in
        mkDRAM lv id st rows cc (target_timing hist (timing spec lv cmd) nx) (<[Ram.number cmd := hist]> pv)
          (List.map (update_timing cmd addr clk) ch)
  end.

Definition update (cmd : Ram.Command) (addr : list Z) (clk : Z) (n : DRAM) : outcome DRAM :=
  let! n := update_state (lv_row spec) cmd addr (set_clk clk n) in Ok (update_timing cmd addr clk n).
End Device.
