(* ===== verification/Ddr.v ===== *)
(** * The DDR3 and DDR4 standards

    [src/MCsim/dram/DDR3.h], [DDR3.cpp], [DDR4.h], [DDR4.cpp]: the organisations,
    the speeds, the tables of timing constraints, the state transitions and the
    prerequisites of the two standards, entry for entry.  [freq] is left out:
    nothing reads it. *)

From S2P Require Export Dram TaskFile.

Local Open Scope list_scope.
Open Scope Z_scope.
Import Ram.

(** [org_map[str]]: an unknown name is the first entry. *)
Fixpoint index_of (names : list string) (name : string) : option nat :=
  match names with
  | [] => None
  | n :: names' => if String.eqb n name then Some O else S <$> index_of names' name
  end.
Definition lookup_name {A} (names : list string) (table : list A) (name : string) (dflt : A) : A :=
  nth (default O (index_of names name)) table dflt.

(** [(3/0.4)/k] in double precision. *)
Definition SF (n : Z) : spec_float := double_of n 0.
Definition tCK_of (k : Z) : spec_float := SFdiv 53 1024 (SFdiv 53 1024 (SF 3) (decimal false 4 (-1))) (SF k).

Definition entry (cmd next_cmd : Command) (dist val : Z) (sibling : bool) : Command * TimingEntry :=
  (cmd, mkTiming next_cmd dist val sibling).

(** [timing[level][cmd]]: the entries pushed for [cmd], in order. *)
Definition entries_of (cmd : Command) (l : list (Command * TimingEntry)) : list TimingEntry :=
  snd <$> filter (fun p => fst p = cmd) l.

(** [scope]: one initialiser per command, the missing ones 0. *)
Definition scope_of (levels : list nat) (cmd : Command) : nat := nth (number cmd) levels O.

(** The conditions of [init_prereq], for a standard whose banks are [below]
    levels under the rank. *)
Definition power_ready (n : DRAM) (id : Z) : outcome (option Command) :=
  match state n with
  | PowerUp => Ok None
  | ActPowerDown | PrePowerDown => Ok (Some PDX)
  | SelfRefresh => Ok (Some SRX)
  | _ => Crash "assert(false)"
  end.
Definition row_ready (cmd : Command) (n : DRAM) (id : Z) : outcome (option Command) :=
  match state n with
  | Closed => Ok (Some ACT)
  | Opened => Ok (Some (match row_state n !! id with Some _ => cmd | None => PRE end))
  | _ => Crash "assert(false)"
  end.
Definition refresh_ready (below : nat) (n : DRAM) (id : Z) : outcome (option Command) :=
  Ok (Some (if forallb is_closed (banks below n) then REF else PREA)).
Definition power_down_ready (n : DRAM) (id : Z) : outcome (option Command) :=
  match state n with
  | PowerUp | ActPowerDown | PrePowerDown => Ok (Some PDE)
  | SelfRefresh => Ok (Some SRX)
  | _ => Crash "assert(false)"
  end.
Definition self_refresh_ready (n : DRAM) (id : Z) : outcome (option Command) :=
  match state n with
  | PowerUp | SelfRefresh => Ok (Some SRE)
  | ActPowerDown | PrePowerDown => Ok (Some PDX)
  | _ => Crash "assert(false)"
  end.
Definition prereq_table (bank below lv : nat) (cmd : Command) : option (DRAM -> Z -> outcome (option Command)) :=
  if Nat.eqb lv 1 then
    match cmd with
    | RD | WR => Some power_ready
    | REF => Some (refresh_ready below)
    | PDE => Some power_down_ready
    | SRE => Some self_refresh_ready
    | _ => None
    end
  else if Nat.eqb lv bank then match cmd with RD | WR => Some (row_ready cmd) | _ => None end
  else None.

(** [init_lambda]. *)
Definition lambda_table (bank below lv : nat) (cmd : Command) : option Effect :=
  if Nat.eqb lv bank then
    match cmd with
    | ACT | ACT_R | ACT_W => Some OpenRow
    | PRE | RDA | WRA => Some CloseRow
    | RD | WR => Some NoEffect
    | _ => None
    end
  else if Nat.eqb lv 1 then
    match cmd with
    | PREA => Some (CloseBanks below)
    | REF => Some NoEffect
    | PDE => Some (PowerDown below)
    | PDX | SRX => Some (GoTo PowerUp)
    | SRE => Some (GoTo SelfRefresh)
    | _ => None
    end
  else None.

(** ** DDR3 *)

Module DDR3.
Definition Channel : nat := 0.
Definition Rank : nat := 1.
Definition Bank : nat := 2.
Definition Row : nat := 3.
Definition Column : nat := 4.

Definition scope : Command -> nat :=
  scope_of [Row; Bank; Rank; Column; Column; Column; Column; Rank; Rank; Rank; Rank; Rank].
Definition start (lv : nat) : State := nth lv [MAX_State; PowerUp; Closed; Closed; MAX_State] MAX_State.

Record OrgEntry := mkOrg { size : Z; dq : Z; counts : list Z }.
Record SpeedEntry := mkSpeed {
  rate : Z; tCK : spec_float;
  nBL : Z; nCCD : Z; nRTRS : Z; nCL : Z; nRCD : Z; nRP : Z; nCWL : Z; nRAS : Z; nRC : Z; nRTP : Z; nWTR : Z; nWR : Z;
  nRRD : Z; nFAW : Z; nRFC : Z; nREFI : Z; nPD : Z; nXP : Z; nXPDLL : Z; nCKESR : Z; nXS : Z; nXSDLL : Z }.

Definition org_table : list OrgEntry :=
  [ mkOrg 512 4 [0; 0; 8; 8192; 2048];
    mkOrg 512 8 [0; 0; 8; 8192; 1024];
    mkOrg 512 16 [0; 0; 8; 4096; 1024];
    mkOrg 1024 4 [0; 0; 8; 16384; 2048];
    mkOrg 1024 8 [0; 0; 8; 16384; 1024];
    mkOrg 1024 16 [0; 0; 8; 8192; 1024];
    mkOrg 2048 4 [0; 0; 8; 32768; 2048];
    mkOrg 2048 8 [0; 0; 8; 32768; 1024];
    mkOrg 2048 16 [0; 0; 8; 16384; 1024];
    mkOrg 4096 4 [0; 0; 8; 65536; 2048];
    mkOrg 4096 8 [0; 0; 8; 65536; 1024];
    mkOrg 4096 16 [0; 0; 8; 32768; 1024];
    mkOrg 8192 4 [0; 0; 8; 65536; 4096];
    mkOrg 8192 8 [0; 0; 8; 65536; 2048];
    mkOrg 8192 16 [0; 0; 8; 65536; 1024] ].
Definition speed_table : list SpeedEntry :=
  [ mkSpeed 800 (tCK_of 3) 4 4 2 5 5 5 5 15 20 4 4 6 0 0 0 3120 3 3 10 4 0 512;
    mkSpeed 800 (tCK_of 3) 4 4 2 6 6 6 5 15 21 4 4 6 0 0 0 3120 3 3 10 4 0 512;
    mkSpeed 1066 (tCK_of 4) 4 4 2 6 6 6 6 20 26 4 4 8 0 0 0 4160 3 4 13 4 0 512;
    mkSpeed 1066 (tCK_of 4) 4 4 2 7 7 7 6 20 27 4 4 8 0 0 0 4160 3 4 13 4 0 512;
    mkSpeed 1066 (tCK_of 4) 4 4 2 8 8 8 6 20 28 4 4 8 0 0 0 4160 3 4 13 4 0 512;
    mkSpeed 1333 (tCK_of 5) 4 4 2 8 8 8 7 24 32 5 5 10 0 0 0 5200 4 4 16 5 0 512;
    mkSpeed 1333 (tCK_of 5) 4 4 2 9 9 9 7 24 33 5 5 10 0 0 0 5200 4 4 16 5 0 512;
    mkSpeed 1600 (tCK_of 6) 4 4 2 9 9 9 8 28 37 6 6 12 0 0 0 6240 4 5 20 5 0 512;
    mkSpeed 1600 (tCK_of 6) 4 4 2 10 10 10 8 28 38 6 6 12 0 0 0 6240 4 5 20 5 0 512;
    mkSpeed 1600 (tCK_of 6) 4 4 2 11 11 11 8 28 39 6 6 12 0 0 0 6240 4 5 20 5 0 512;
    mkSpeed 1866 (tCK_of 7) 4 4 2 11 11 11 9 32 43 7 7 14 0 0 0 7280 5 6 23 6 0 512;
    mkSpeed 1866 (tCK_of 7) 4 4 2 12 12 12 9 32 44 7 7 14 0 0 0 7280 5 6 23 6 0 512;
    mkSpeed 2133 (tCK_of 8) 4 4 2 12 12 12 10 36 48 8 8 16 0 0 0 8320 6 7 26 7 0 512;
    mkSpeed 2133 (tCK_of 8) 4 4 2 13 13 13 10 36 49 8 8 16 0 0 0 8320 6 7 26 7 0 512 ].
Definition org_map : list string :=
  [ "DDR3_512Mb_x4"; "DDR3_512Mb_x8"; "DDR3_512Mb_x16"; "DDR3_1Gb_x4"; "DDR3_1Gb_x8"; "DDR3_1Gb_x16";
    "DDR3_2Gb_x4"; "DDR3_2Gb_x8"; "DDR3_2Gb_x16"; "DDR3_4Gb_x4"; "DDR3_4Gb_x8"; "DDR3_4Gb_x16"; "DDR3_8Gb_x4";
    "DDR3_8Gb_x8"; "DDR3_8Gb_x16" ].
Definition speed_map : list string :=
  [ "DDR3_800D"; "DDR3_800E"; "DDR3_1066E"; "DDR3_1066F"; "DDR3_1066G"; "DDR3_1333G"; "DDR3_1333H";
    "DDR3_1600H"; "DDR3_1600J"; "DDR3_1600K"; "DDR3_1866K"; "DDR3_1866L"; "DDR3_2133L"; "DDR3_2133M" ].

Definition by_size (chip a b c d e : Z) : Z :=
  if chip =? 512 then a else if chip =? 1024 then b else if chip =? 2048 then c else if chip =? 4096 then d else e.

(** [init_speed]: nRRD, nFAW, nRFC and nXS from the page and the chip. *)
Definition init_speed (o : OrgEntry) (s : SpeedEntry) : outcome SpeedEntry :=
  let page1 := Z.shiftr (dq o * nth Column (counts o) 0) 13 =? 1 in
  let pick (a b : Z) := if page1 then a else b in
  let chip := size o in
  let! (rrd, faw, rfc, xs) :=
    (if rate s =? 800 then Ok (pick 4 4, pick 16 20, by_size chip 36 44 64 104 140, by_size chip 40 48 68 108 144)
     else if rate s =? 1066 then Ok (pick 4 6, pick 20 27, by_size chip 48 59 86 139 187, by_size chip 54 64 91 144 192)
     else if rate s =? 1333 then Ok (pick 4 5, pick 20 30, by_size chip 60 74 107 174 234, by_size chip 67 80 114 180 240)
     else if rate s =? 1600 then Ok (pick 5 6, pick 24 32, by_size chip 72 88 128 208 280, by_size chip 80 96 136 216 288)
     else if rate s =? 1866 then Ok (pick 5 6, pick 26 33, by_size chip 84 103 150 243 327, by_size chip 94 112 159 252 336)
     else if rate s =? 2133 then Ok (pick 5 6, pick 27 34, by_size chip 96 118 171 278 374, by_size chip 107 128 182 288 384)
     else Crash "assert(false)") in
  Ok (mkSpeed (rate s) (tCK s) (nBL s) (nCCD s) (nRTRS s) (nCL s) (nRCD s) (nRP s) (nCWL s) (nRAS s) (nRC s) (nRTP s)
        (nWTR s) (nWR s) rrd faw rfc (nREFI s) (nPD s) (nXP s) (nXPDLL s) (nCKESR s) xs (nXSDLL s)).

Definition timing_Channel (s : SpeedEntry) : list (Ram.Command * TimingEntry) :=
  [ entry RD RD 1 (nBL s) false; entry RD RDA 1 (nBL s) false; entry RDA RD 1 (nBL s) false;
    entry RDA RDA 1 (nBL s) false; entry WR WR 1 (nBL s) false; entry WR WRA 1 (nBL s) false;
    entry WRA WR 1 (nBL s) false; entry WRA WRA 1 (nBL s) false ].

Definition timing_Rank (s : SpeedEntry) : list (Ram.Command * TimingEntry) :=
  [ entry RD RD 1 (nCCD s) false; entry RD RDA 1 (nCCD s) false; entry RDA RD 1 (nCCD s) false;
    entry RDA RDA 1 (nCCD s) false; entry WR WR 1 (nCCD s) false; entry WR WRA 1 (nCCD s) false;
    entry WRA WR 1 (nCCD s) false; entry WRA WRA 1 (nCCD s) false;
    entry RD WR 1 (nCL s + nCCD s + 2 - nCWL s) false; entry RD WRA 1 (nCL s + nCCD s + 2 - nCWL s) false;
    entry RDA WR 1 (nCL s + nCCD s + 2 - nCWL s) false; entry RDA WRA 1 (nCL s + nCCD s + 2 - nCWL s) false;
    entry WR RD 1 (nCWL s + nBL s + nWTR s) false; entry WR RDA 1 (nCWL s + nBL s + nWTR s) false;
    entry WRA RD 1 (nCWL s + nBL s + nWTR s) false; entry WRA RDA 1 (nCWL s + nBL s + nWTR s) false;
    entry RD RD 1 (nBL s + nRTRS s) true; entry RD RDA 1 (nBL s + nRTRS s) true;
    entry RDA RD 1 (nBL s + nRTRS s) true; entry RDA RDA 1 (nBL s + nRTRS s) true;
    entry RD WR 1 (nBL s + nRTRS s) true; entry RD WRA 1 (nBL s + nRTRS s) true;
    entry RDA WR 1 (nBL s + nRTRS s) true; entry RDA WRA 1 (nBL s + nRTRS s) true;
    entry RD WR 1 (nCL s + nBL s + nRTRS s - nCWL s) true;
    entry RD WRA 1 (nCL s + nBL s + nRTRS s - nCWL s) true;
    entry RDA WR 1 (nCL s + nBL s + nRTRS s - nCWL s) true;
    entry RDA WRA 1 (nCL s + nBL s + nRTRS s - nCWL s) true;
    entry WR RD 1 (nCWL s + nBL s + nRTRS s - nCL s) true;
    entry WR RDA 1 (nCWL s + nBL s + nRTRS s - nCL s) true;
    entry WRA RD 1 (nCWL s + nBL s + nRTRS s - nCL s) true;
    entry WRA RDA 1 (nCWL s + nBL s + nRTRS s - nCL s) true; entry RD PREA 1 (nRTP s) false;
    entry WR PREA 1 (nCWL s + nBL s + nWR s) false; entry RD PDE 1 (nCL s + nBL s + 1) false;
    entry RDA PDE 1 (nCL s + nBL s + 1) false; entry WR PDE 1 (nCWL s + nBL s + nWR s) false;
    entry WRA PDE 1 (nCWL s + nBL s + nWR s + 1) false; entry PDX RD 1 (nXP s) false;
    entry PDX RDA 1 (nXP s) false; entry PDX WR 1 (nXP s) false; entry PDX WRA 1 (nXP s) false;
    entry ACT ACT 1 (nRRD s) false; entry ACT ACT 4 (nFAW s) false; entry ACT PREA 1 (nRAS s) false;
    entry PREA ACT 1 (nRP s) false; entry ACT_R ACT_R 1 (nRRD s) false; entry ACT_W ACT_W 1 (nRRD s) false;
    entry ACT_R ACT_W 1 (nRRD s) false; entry ACT_W ACT_R 1 (nRRD s) false;
    entry ACT_R ACT_W 4 (nFAW s) false; entry ACT_R ACT_R 4 (nFAW s) false;
    entry ACT_W ACT_W 4 (nFAW s) false; entry ACT_W ACT_R 4 (nFAW s) false;
    entry ACT_R PREA 1 (nRAS s) false; entry ACT_W PREA 1 (nRAS s) false; entry PREA ACT_R 1 (nRP s) false;
    entry PREA ACT_W 1 (nRP s) false; entry PRE REF 1 (nRP s) false; entry PREA REF 1 (nRP s) false;
    entry REF ACT 1 (nRFC s) false; entry REF ACT_R 1 (nRFC s) false; entry REF ACT_W 1 (nRFC s) false;
    entry ACT_R PDE 1 (1) false; entry ACT_W PDE 1 (1) false; entry PDX ACT_R 1 (nXP s) false;
    entry PDX ACT_W 1 (nXP s) false; entry ACT PDE 1 (1) false; entry PDX ACT 1 (nXP s) false;
    entry PDX PRE 1 (nXP s) false; entry PDX PREA 1 (nXP s) false; entry PRE SRE 1 (nRP s) false;
    entry PREA SRE 1 (nRP s) false; entry SRX ACT 1 (nXS s) false; entry SRX ACT_R 1 (nXS s) false;
    entry SRX ACT_W 1 (nXS s) false; entry REF REF 1 (nRFC s) false; entry REF PDE 1 (1) false;
    entry PDX REF 1 (nXP s) false; entry SRX REF 1 (nXS s) false; entry PDE PDX 1 (nPD s) false;
    entry PDX PDE 1 (nXP s) false; entry PDX SRE 1 (nXP s) false; entry SRX PDE 1 (nXS s) false;
    entry SRE SRX 1 (nCKESR s) false; entry SRX SRE 1 (nXS s) false ].

Definition timing_Bank (s : SpeedEntry) : list (Ram.Command * TimingEntry) :=
  [ entry ACT RD 1 (nRCD s) false; entry ACT RDA 1 (nRCD s) false; entry ACT WR 1 (nRCD s) false;
    entry ACT WRA 1 (nRCD s) false; entry ACT_R RD 1 (nRCD s) false; entry ACT_W RD 1 (nRCD s) false;
    entry ACT_R RDA 1 (nRCD s) false; entry ACT_W RDA 1 (nRCD s) false; entry ACT_R WR 1 (nRCD s) false;
    entry ACT_W WR 1 (nRCD s) false; entry ACT_R WRA 1 (nRCD s) false; entry ACT_W WRA 1 (nRCD s) false;
    entry RD PRE 1 (nRTP s) false; entry WR PRE 1 (nCWL s + nBL s + nWR s) false;
    entry RDA ACT_R 1 (nRTP s + nRP s) false; entry RDA ACT_W 1 (nRTP s + nRP s) false;
    entry WRA ACT_R 1 (nCWL s + nBL s + nWR s + nRP s) false;
    entry WRA ACT_W 1 (nCWL s + nBL s + nWR s + nRP s) false; entry RD PRE 1 (nRTP s) false;
    entry WR PRE 1 (nCWL s + nBL s + nWR s) false; entry RDA ACT 1 (nRTP s + nRP s) false;
    entry WRA ACT 1 (nCWL s + nBL s + nWR s + nRP s) false; entry ACT ACT 1 (nRC s) false;
    entry ACT PRE 1 (nRAS s) false; entry PRE ACT 1 (nRP s) false; entry ACT_R ACT_R 1 (nRC s) false;
    entry ACT_R ACT_W 1 (nRC s) false; entry ACT_W ACT_W 1 (nRC s) false; entry ACT_W ACT_R 1 (nRC s) false;
    entry ACT_R PRE 1 (nRAS s) false; entry ACT_W PRE 1 (nRAS s) false; entry PRE ACT_R 1 (nRP s) false;
    entry PRE ACT_W 1 (nRP s) false ].

Definition timing (s : SpeedEntry) (lv : nat) (cmd : Command) : list TimingEntry :=
  entries_of cmd (nth lv [timing_Channel s; timing_Rank s; timing_Bank s] []).

Definition set_rank_number (ranks : Z) (o : OrgEntry) : OrgEntry := mkOrg (size o) (dq o) (<[Rank := ranks]> (counts o)).

(** The constructor, up to [new DRAM]. *)
Definition noOrg : OrgEntry := mkOrg 0 0 [].
Definition noSpeed : SpeedEntry := mkSpeed 0 (SF 0) 0 0 0 0 0 0 0 0 0 0 0 0 0 0 0 0 0 0 0 0 0 0.
Definition select (org_str speed_str : string) : outcome (OrgEntry * SpeedEntry) :=
  let o := lookup_name org_map org_table org_str noOrg in
  let! s := init_speed o (lookup_name speed_map speed_table speed_str noSpeed) in Ok (o, s).
Definition standard (o : OrgEntry) (s : SpeedEntry) : Standard :=
  mkStandard Row scope start (fun lv => nth lv (counts o) 0) (timing s) (lambda_table Bank 1) (prereq_table Bank 1).
End DDR3.

(** ** DDR4 *)

Module DDR4.
Definition Channel : nat := 0.
Definition Rank : nat := 1.
Definition BankGroup : nat := 2.
Definition Bank : nat := 3.
Definition Row : nat := 4.
Definition Column : nat := 5.

Definition scope : Command -> nat :=
  scope_of [Row; Bank; Rank; Column; Column; Column; Column; Rank; Rank; Rank; Rank; Rank].
Definition start (lv : nat) : State := nth lv [MAX_State; PowerUp; MAX_State; Closed; Closed; MAX_State] MAX_State.

Record OrgEntry := mkOrg { size : Z; dq : Z; counts : list Z }.
Record SpeedEntry := mkSpeed {
  rate : Z; tCK : spec_float;
  nBL : Z; nCCDS : Z; nCCDL : Z; nRTRS : Z; nCL : Z; nRCD : Z; nRP : Z; nCWL : Z; nRAS : Z; nRC : Z;
  nRTP : Z; nWTRS : Z; nWTRL : Z; nWR : Z; nRRDS : Z; nRRDL : Z; nFAW : Z; nRFC : Z; nREFI : Z;
  nPD : Z; nXP : Z; nXPDLL : Z; nCKESR : Z; nXS : Z; nXSDLL : Z }.

Definition org_table : list OrgEntry :=
  [ mkOrg 2048 4 [0; 0; 4; 4; 32768; 1024];
    mkOrg 2048 8 [0; 0; 4; 16; 16384; 16384];
    mkOrg 2048 16 [0; 0; 2; 4; 16384; 1024];
    mkOrg 4096 4 [0; 0; 4; 4; 65536; 1024];
    mkOrg 4096 8 [0; 0; 4; 4; 32768; 1024];
    mkOrg 4096 16 [0; 0; 2; 4; 32768; 1024];
    mkOrg 8192 4 [0; 0; 4; 4; 131072; 1024];
    mkOrg 8192 8 [0; 0; 4; 4; 65536; 1024];
    mkOrg 8192 16 [0; 0; 2; 4; 65536; 1024] ].
Definition speed_table : list SpeedEntry :=
  [ mkSpeed 1600 (tCK_of 6) 4 4 5 2 11 11 11 9 28 39 6 2 6 12 0 0 0 0 0 4 5 0 5 0 0;
    mkSpeed 1600 (tCK_of 6) 4 4 5 2 12 12 12 9 28 40 6 2 6 12 0 0 0 0 0 4 5 0 5 0 0;
    mkSpeed 1866 (tCK_of 7) 4 4 5 2 13 13 13 10 32 45 7 3 7 14 0 0 0 0 0 5 6 0 6 0 0;
    mkSpeed 1866 (tCK_of 7) 4 4 5 2 14 14 14 10 32 46 7 3 7 14 0 0 0 0 0 5 6 0 6 0 0;
    mkSpeed 2133 (tCK_of 8) 4 4 6 2 15 15 15 11 36 51 8 3 8 16 0 0 0 0 0 6 7 0 7 0 0;
    mkSpeed 2133 (tCK_of 8) 4 4 6 2 16 16 16 11 36 52 8 3 8 16 0 0 0 0 0 6 7 0 7 0 0;
    mkSpeed 2400 (tCK_of 9) 4 4 6 2 16 16 16 12 39 55 9 3 9 18 0 0 0 0 0 6 8 0 7 0 0;
    mkSpeed 2400 (tCK_of 9) 4 4 6 2 18 18 18 12 39 57 9 3 9 18 0 0 0 0 0 6 8 0 7 0 0 ].
Definition org_map : list string :=
  [ "DDR4_2Gb_x4"; "DDR4_2Gb_x8"; "DDR4_2Gb_x16"; "DDR4_4Gb_x4"; "DDR4_4Gb_x8"; "DDR4_4Gb_x16"; "DDR4_8Gb_x4";
    "DDR4_8Gb_x8"; "DDR4_8Gb_x16" ].
Definition speed_map : list string :=
  [ "DDR4_1600K"; "DDR4_1600L"; "DDR4_1866M"; "DDR4_1866N"; "DDR4_2133P"; "DDR4_2133R"; "DDR4_2400R"; "DDR4_2400U" ].

Definition RRDS_TABLE : list (list Z) := [[4; 4; 4; 4]; [5; 5; 6; 7]].
Definition RRDL_TABLE : list (list Z) := [[5; 5; 6; 6]; [6; 6; 7; 8]].
Definition FAW_TABLE : list (list Z) := [[16; 16; 16; 16]; [20; 22; 23; 26]; [28; 28; 32; 36]].
Definition RFC_TABLE : list (list (list Z)) :=
  [[[128; 150; 171; 192]; [208; 243; 278; 312]; [280; 327; 374; 420]];
   [[88; 103; 118; 132]; [128; 150; 171; 192]; [208; 243; 278; 312]];
   [[72; 84; 96; 108]; [88; 103; 118; 132]; [128; 150; 171; 192]]].
Definition REFI_TABLE : list Z := [6240; 7280; 8320; 9360].
Definition XS_TABLE : list (list Z) := [[136; 159; 182; 204]; [216; 252; 288; 324]; [288; 336; 384; 432]].
Definition refresh_mode : nat := 0.

Definition cell (t : list (list Z)) (i j : nat) : Z := nth j (nth i t []) 0.
Definition init_speed (o : OrgEntry) (s : SpeedEntry) : outcome SpeedEntry :=
  let! speed := (if rate s =? 1600 then Ok 0%nat else if rate s =? 1866 then Ok 1%nat
                 else if rate s =? 2133 then Ok 2%nat else if rate s =? 2400 then Ok 3%nat else Crash "assert(false)") in
  let gb := Z.shiftr (size o) 10 in
  let! density := (if gb =? 2 then Ok 0%nat else if gb =? 4 then Ok 1%nat else if gb =? 8 then Ok 2%nat
                   else Crash "assert(false)") in
  let wide := if dq o =? 16 then 1%nat else 0%nat in
  let faw := if dq o =? 4 then 0%nat else if dq o =? 8 then 1%nat else 2%nat in
  Ok (mkSpeed (rate s) (tCK s) (nBL s) (nCCDS s) (nCCDL s) (nRTRS s) (nCL s) (nRCD s) (nRP s) (nCWL s) (nRAS s) (nRC s)
        (nRTP s) (nWTRS s) (nWTRL s) (nWR s) (cell RRDS_TABLE wide speed) (cell RRDL_TABLE wide speed)
        (cell FAW_TABLE faw speed) (cell (nth refresh_mode RFC_TABLE []) density speed)
        (Z.shiftr (nth speed REFI_TABLE 0) (Z.of_nat refresh_mode))
        (nPD s) (nXP s) (nXPDLL s) (nCKESR s) (cell XS_TABLE density speed) (nXSDLL s)).

Definition timing_Channel (s : SpeedEntry) : list (Ram.Command * TimingEntry) :=
  [ entry RD RD 1 (nBL s) false; entry RD RDA 1 (nBL s) false; entry RDA RD 1 (nBL s) false;
    entry RDA RDA 1 (nBL s) false; entry WR WR 1 (nBL s) false; entry WR WRA 1 (nBL s) false;
    entry WRA WR 1 (nBL s) false; entry WRA WRA 1 (nBL s) false ].

Definition timing_Rank (s : SpeedEntry) : list (Ram.Command * TimingEntry) :=
  [ entry RD RD 1 (nCCDS s) false; entry RD RDA 1 (nCCDS s) false; entry RDA RD 1 (nCCDS s) false;
    entry RDA RDA 1 (nCCDS s) false; entry WR WR 1 (nCCDS s) false; entry WR WRA 1 (nCCDS s) false;
    entry WRA WR 1 (nCCDS s) false; entry WRA WRA 1 (nCCDS s) false;
    entry RD WR 1 (nCL s + nCCDS s + 2 - nCWL s) false; entry RD WRA 1 (nCL s + nCCDS s + 2 - nCWL s) false;
    entry RDA WR 1 (nCL s + nCCDS s + 2 - nCWL s) false;
    entry RDA WRA 1 (nCL s + nCCDS s + 2 - nCWL s) false; entry WR RD 1 (nCWL s + nBL s + nWTRS s) false;
    entry WR RDA 1 (nCWL s + nBL s + nWTRS s) false; entry WRA RD 1 (nCWL s + nBL s + nWTRS s) false;
    entry WRA RDA 1 (nCWL s + nBL s + nWTRS s) false; entry RD RD 1 (nBL s + nRTRS s) true;
    entry RD RDA 1 (nBL s + nRTRS s) true; entry RDA RD 1 (nBL s + nRTRS s) true;
    entry RDA RDA 1 (nBL s + nRTRS s) true; entry RD WR 1 (nBL s + nRTRS s) true;
    entry RD WRA 1 (nBL s + nRTRS s) true; entry RDA WR 1 (nBL s + nRTRS s) true;
    entry RDA WRA 1 (nBL s + nRTRS s) true; entry RD WR 1 (nCL s + nBL s + nRTRS s - nCWL s) true;
    entry RD WRA 1 (nCL s + nBL s + nRTRS s - nCWL s) true;
    entry RDA WR 1 (nCL s + nBL s + nRTRS s - nCWL s) true;
    entry RDA WRA 1 (nCL s + nBL s + nRTRS s - nCWL s) true;
    entry WR RD 1 (nCWL s + nBL s + nRTRS s - nCL s) true;
    entry WR RDA 1 (nCWL s + nBL s + nRTRS s - nCL s) true;
    entry WRA RD 1 (nCWL s + nBL s + nRTRS s - nCL s) true;
    entry WRA RDA 1 (nCWL s + nBL s + nRTRS s - nCL s) true; entry RD PREA 1 (nRTP s) false;
    entry WR PREA 1 (nCWL s + nBL s + nWR s) false; entry RD PDE 1 (nCL s + nBL s + 1) false;
    entry RDA PDE 1 (nCL s + nBL s + 1) false; entry WR PDE 1 (nCWL s + nBL s + nWR s) false;
    entry WRA PDE 1 (nCWL s + nBL s + nWR s + 1) false; entry PDX RD 1 (nXP s) false;
    entry PDX RDA 1 (nXP s) false; entry PDX WR 1 (nXP s) false; entry PDX WRA 1 (nXP s) false;
    entry ACT ACT 1 (nRRDS s) false; entry ACT ACT 4 (nFAW s) false; entry ACT PREA 1 (nRAS s) false;
    entry PREA ACT 1 (nRP s) false; entry ACT_R ACT_R 1 (nRRDS s) false; entry ACT_W ACT_W 1 (nRRDS s) false;
    entry ACT_R ACT_W 1 (nRRDS s) false; entry ACT_W ACT_R 1 (nRRDS s) false;
    entry ACT_R ACT_W 4 (nFAW s) false; entry ACT_R ACT_R 4 (nFAW s) false;
    entry ACT_W ACT_W 4 (nFAW s) false; entry ACT_W ACT_R 4 (nFAW s) false;
    entry ACT_R PREA 1 (nRAS s) false; entry ACT_W PREA 1 (nRAS s) false; entry PREA ACT_R 1 (nRP s) false;
    entry PREA ACT_W 1 (nRP s) false; entry PRE REF 1 (nRP s) false; entry PREA REF 1 (nRP s) false;
    entry REF ACT 1 (nRFC s) false; entry REF ACT_R 1 (nRFC s) false; entry REF ACT_W 1 (nRFC s) false;
    entry ACT_R PDE 1 (1) false; entry ACT_W PDE 1 (1) false; entry PDX ACT_R 1 (nXP s) false;
    entry PDX ACT_W 1 (nXP s) false; entry ACT PDE 1 (1) false; entry PDX ACT 1 (nXP s) false;
    entry PDX PRE 1 (nXP s) false; entry PDX PREA 1 (nXP s) false; entry PRE SRE 1 (nRP s) false;
    entry PREA SRE 1 (nRP s) false; entry SRX ACT 1 (nXS s) false; entry SRX ACT_R 1 (nXS s) false;
    entry SRX ACT_W 1 (nXS s) false; entry REF REF 1 (nRFC s) false; entry REF PDE 1 (1) false;
    entry PDX REF 1 (nXP s) false; entry SRX REF 1 (nXS s) false; entry PDE PDX 1 (nPD s) false;
    entry PDX PDE 1 (nXP s) false; entry PDX SRE 1 (nXP s) false; entry SRX PDE 1 (nXS s) false;
    entry SRE SRX 1 (nCKESR s) false; entry SRX SRE 1 (nXS s) false ].

Definition timing_BankGroup (s : SpeedEntry) : list (Ram.Command * TimingEntry) :=
  [ entry RD RD 1 (nCCDL s) false; entry RD RDA 1 (nCCDL s) false; entry RDA RD 1 (nCCDL s) false;
    entry RDA RDA 1 (nCCDL s) false; entry WR WR 1 (nCCDL s) false; entry WR WRA 1 (nCCDL s) false;
    entry WRA WR 1 (nCCDL s) false; entry WRA WRA 1 (nCCDL s) false; entry WR WR 1 (nCCDL s) false;
    entry WR WRA 1 (nCCDL s) false; entry WRA WR 1 (nCCDL s) false; entry WRA WRA 1 (nCCDL s) false;
    entry WR RD 1 (nCWL s + nBL s + nWTRL s) false; entry WR RDA 1 (nCWL s + nBL s + nWTRL s) false;
    entry WRA RD 1 (nCWL s + nBL s + nWTRL s) false; entry WRA RDA 1 (nCWL s + nBL s + nWTRL s) false;
    entry ACT ACT 1 (nRRDL s) false; entry ACT_R ACT_R 1 (nRRDL s) false;
    entry ACT_W ACT_W 1 (nRRDL s) false; entry ACT_W ACT_R 1 (nRRDL s) false;
    entry ACT_R ACT_W 1 (nRRDL s) false ].

Definition timing_Bank (s : SpeedEntry) : list (Ram.Command * TimingEntry) :=
  [ entry ACT RD 1 (nRCD s) false; entry ACT RDA 1 (nRCD s) false; entry ACT WR 1 (nRCD s) false;
    entry ACT WRA 1 (nRCD s) false; entry ACT_R RD 1 (nRCD s) false; entry ACT_W RD 1 (nRCD s) false;
    entry ACT_R RDA 1 (nRCD s) false; entry ACT_W RDA 1 (nRCD s) false; entry ACT_R WR 1 (nRCD s) false;
    entry ACT_W WR 1 (nRCD s) false; entry ACT_R WRA 1 (nRCD s) false; entry ACT_W WRA 1 (nRCD s) false;
    entry RD PRE 1 (nRTP s) false; entry WR PRE 1 (nCWL s + nBL s + nWR s) false;
    entry RDA ACT 1 (nRTP s + nRP s) false; entry RDA ACT_R 1 (nRTP s + nRP s) false;
    entry RDA ACT_W 1 (nRTP s + nRP s) false; entry WRA ACT 1 (nCWL s + nBL s + nWR s + nRP s) false;
    entry WRA ACT_R 1 (nCWL s + nBL s + nWR s + nRP s) false;
    entry WRA ACT_W 1 (nCWL s + nBL s + nWR s + nRP s) false; entry ACT ACT 1 (nRC s) false;
    entry ACT PRE 1 (nRAS s) false; entry PRE ACT 1 (nRP s) false; entry ACT_R ACT_R 1 (nRC s) false;
    entry ACT_R ACT_W 1 (nRC s) false; entry ACT_W ACT_W 1 (nRC s) false; entry ACT_W ACT_R 1 (nRC s) false;
    entry ACT_R PRE 1 (nRAS s) false; entry ACT_W PRE 1 (nRAS s) false; entry PRE ACT_R 1 (nRP s) false;
    entry PRE ACT_W 1 (nRP s) false ].

Definition timing (s : SpeedEntry) (lv : nat) (cmd : Command) : list TimingEntry :=
  entries_of cmd (nth lv [timing_Channel s; timing_Rank s; timing_BankGroup s; timing_Bank s] []).

Definition set_rank_number (ranks : Z) (o : OrgEntry) : OrgEntry := mkOrg (size o) (dq o) (<[Rank := ranks]> (counts o)).

Definition noOrg : OrgEntry := mkOrg 0 0 [].
Definition noSpeed : SpeedEntry := mkSpeed 0 (SF 0) 0 0 0 0 0 0 0 0 0 0 0 0 0 0 0 0 0 0 0 0 0 0 0 0 0.
Definition select (org_str speed_str : string) : outcome (OrgEntry * SpeedEntry) :=
  let o := lookup_name org_map org_table org_str noOrg in
  let! s := init_speed o (lookup_name speed_map speed_table speed_str noSpeed) in Ok (o, s).
Definition standard (o : OrgEntry) (s : SpeedEntry) : Standard :=
  mkStandard Row scope start (fun lv => nth lv (counts o) 0) (timing s) (lambda_table Bank 2) (prereq_table Bank 2).
End DDR4.

Example ddr4_2400U : (fun p => (DDR4.nRRDS (snd p), DDR4.nRRDL (snd p), DDR4.nFAW (snd p), DDR4.nRFC (snd p)))
  <$> match DDR4.select "DDR4_8Gb_x8" "DDR4_2400U" with Ok p => Some p | _ => None end = Some (4, 6, 26, 420).
Proof. reflexivity. Qed.
