(* ===== verification/DramTheory.v ===== *)
(** * Timing constraints of a DRAM device

    What the tree of [Dram] enforces: a command that passes [check] comes after
    every constraint its standard lists, at each level the command's scope
    reaches, whatever was issued before. *)

From S2P Require Export Dram.

Local Open Scope list_scope.
Open Scope Z_scope.

(** ** Trees *)

Lemma DRAM_ind' (P : DRAM -> Prop) :
  (forall lv id st rows cc nx pv ch, Forall P ch -> P (mkDRAM lv id st rows cc nx pv ch)) -> forall n, P n.
Proof.
  intros H. fix IH 1. intros [lv id st rows cc nx pv ch]. apply H.
  induction ch as [|c ch IHch]; constructor; [apply IH|apply IHch].
Qed.

Lemma on_child_lookup {R} (f : DRAM -> outcome R) l k :
  on_child f l k = match l !! k with Some c => f c | None => Crash no_child end.
Proof. revert k. induction l as [|c l IH]; intros [|k]; cbn; auto. Qed.

(** The part of a tree that [check] and [update_timing] look at. *)
Fixpoint skeleton (n : DRAM) : DRAM :=
  match n with
  | mkDRAM lv id st rows cc nx pv ch => mkDRAM lv id Ram.MAX_State ∅ 0 nx pv (List.map skeleton ch)
  end.

Lemma skeleton_children n : children (skeleton n) = skeleton <$> children n.
Proof. by destruct n. Qed.

Lemma skeleton_set_children ch n : skeleton <$> ch = skeleton <$> children n ->
  skeleton (set_children ch n) = skeleton n.
Proof. destruct n. cbn. intros H. f_equal. exact H. Qed.

Lemma skeleton_on_banks f : (forall n, skeleton (f n) = skeleton n) -> forall below n, skeleton (on_banks f below n) = skeleton n.
Proof.
  intros Hf. induction below as [|b IH]; intros n; cbn; [apply Hf|]. apply skeleton_set_children.
  rewrite <- list_fmap_compose. apply list_fmap_ext. intros i c _. apply IH.
Qed.

Lemma skeleton_lambda spec cmd id n : skeleton (lambda_at spec cmd id n) = skeleton n.
Proof.
  unfold lambda_at. destruct (lambda spec (level n) cmd) as [[]|]; cbn; try by destruct n.
  apply skeleton_on_banks. by intros [].
Qed.

Lemma skeleton_update_state spec cmd addr : forall fuel n n', update_state spec fuel cmd addr n = Ok n' ->
  skeleton n' = skeleton n.
Proof.
  induction fuel as [|f IH]; intros n n'; cbn [update_state];
    set (m := lambda_at spec cmd (addr_at (S (level n)) addr) n);
    assert (Hm : skeleton m = skeleton n) by apply skeleton_lambda;
    destruct (_ || _); try discriminate; try (by intros [= <-]).
  destruct (_ <? 0); [discriminate|]. destruct (children m !! _) as [c|] eqn:Ec; [|discriminate].
  intros (c' & Hc & [= <-])%obind_Ok. rewrite <- Hm. apply skeleton_set_children.
  apply IH in Hc. rewrite list_fmap_insert, Hc. apply list_insert_id. by rewrite list_lookup_fmap, Ec.
Qed.

Lemma check_skeleton spec cmd addr clk : forall n, check spec cmd addr clk (skeleton n) = check spec cmd addr clk n.
Proof.
  induction n as [lv id st rows cc nx pv ch IH] using DRAM_ind'. cbn [skeleton check].
  destruct (_ && _); [done|]. rewrite length_map. destruct (_ || _); [done|]. rewrite !on_child_lookup.
  change (List.map skeleton ch) with (skeleton <$> ch). rewrite list_lookup_fmap.
  destruct (ch !! _) as [c|] eqn:Ec; [|done]. by apply (proj1 (Forall_lookup _ _) IH _ c Ec).
Qed.

(** ** Earliest times *)

Lemma raise_length cmd f nx : length (raise cmd f nx) = length nx.
Proof. apply length_alter. Qed.

Lemma number_inj c d : Ram.number c = Ram.number d -> c = d.
Proof. by destruct c, d. Qed.

Lemma number_lt c : (Ram.number c < Ram.MAX)%nat.
Proof. destruct c; cbn; unfold Ram.MAX; lia. Qed.

Lemma at_cmd_lookup c nx : at_cmd c nx = default (-1) (nx !! Ram.number c).
Proof. unfold at_cmd. by rewrite nth_lookup. Qed.

Lemma raise_mono c cmd f nx : at_cmd c nx <= at_cmd c (raise cmd f nx).
Proof.
  rewrite !at_cmd_lookup. unfold raise. destruct (decide (Ram.number c = Ram.number cmd)) as [->|Hne].
  - rewrite list_lookup_alter_eq. destruct (nx !! _); cbn; lia.
  - rewrite list_lookup_alter_ne by congruence. lia.
Qed.

Lemma raise_reaches cmd f nx : length nx = Ram.MAX -> f <= at_cmd cmd (raise cmd f nx).
Proof.
  intros Hl. rewrite at_cmd_lookup. unfold raise. rewrite list_lookup_alter_eq.
  destruct (lookup_lt_is_Some_2 nx (Ram.number cmd)) as [x ->]; [rewrite Hl; apply number_lt|]. cbn. lia.
Qed.

(** A fold that only raises. *)
Section Raise.
Context {T : Type} (due : T -> option (Ram.Command * Z)).
Definition raise_due (nx : list Z) (t : T) : list Z := match due t with Some (c, f) => raise c f nx | None => nx end.

Lemma raise_all_length ts nx : length (foldl raise_due nx ts) = length nx.
Proof.
  revert nx. induction ts as [|t ts IH]; intros nx; cbn; [done|]. rewrite IH. unfold raise_due.
  destruct (due t) as [[]|]; [apply raise_length|done].
Qed.

Lemma raise_all_mono c ts nx : at_cmd c nx <= at_cmd c (foldl raise_due nx ts).
Proof.
  revert nx. induction ts as [|t ts IH]; intros nx; cbn; [done|]. etrans; [|apply IH]. unfold raise_due.
  destruct (due t) as [[]|]; [apply raise_mono|done].
Qed.

Lemma raise_all_reaches ts nx t c f : length nx = Ram.MAX -> t ∈ ts -> due t = Some (c, f) ->
  f <= at_cmd c (foldl raise_due nx ts).
Proof.
  intros Hl Ht Hd. revert nx Hl. induction Ht as [t ts|t t' ts Ht IH]; intros nx Hl; cbn.
  - etrans; [|apply raise_all_mono]. unfold raise_due. rewrite Hd. by apply raise_reaches.
  - apply IH; [done|]. unfold raise_due. destruct (due t') as [[]|]; [by rewrite raise_length|done].
Qed.
End Raise.

Definition due_sibling (clk : Z) (t : TimingEntry) : option (Ram.Command * Z) :=
  if t_sibling t then Some (t_cmd t, clk + t_val t) else None.
Definition due_target (hist : list Z) (t : TimingEntry) : option (Ram.Command * Z) :=
  if t_sibling t then None else
  let past := nth (Z.to_nat (t_dist t - 1)) hist (-1) in if past <? 0 then None else Some (t_cmd t, past + t_val t).

Lemma sibling_timing_due clk ts nx : sibling_timing clk ts nx = foldl (raise_due (due_sibling clk)) nx ts.
Proof.
  revert nx. induction ts as [|t ts IH]; intros nx; [done|]. cbn. rewrite <- IH. unfold raise_due, due_sibling.
  by destruct (t_sibling t).
Qed.

Lemma target_timing_due hist ts nx : target_timing hist ts nx = foldl (raise_due (due_target hist)) nx ts.
Proof.
  revert nx. induction ts as [|t ts IH]; intros nx; [done|]. cbn. rewrite <- IH. unfold raise_due, due_target.
  destruct (t_sibling t); [done|]. cbv zeta. by destruct (_ <? 0).
Qed.

(** ** The history of a node *)

Record Issue := mkIssue { is_cmd : Ram.Command; is_addr : list Z; is_clk : Z }.

(** When [cmd] was issued where [hit] holds, as the given history lists it. *)
Definition times (hit : Issue -> bool) (cmd : Ram.Command) (h : list Issue) : list Z :=
  is_clk <$> filter (fun e => is_cmd e = cmd /\ hit e = true) h.

Lemma times_ext hit hit' cmd h : (forall e, hit e = hit' e) -> times hit cmd h = times hit' cmd h.
Proof. intros H. unfold times. f_equal. apply list_filter_iff. intros e. by rewrite H. Qed.

Lemma times_hit hit e h : hit e = true -> times hit (is_cmd e) (e :: h) = is_clk e :: times hit (is_cmd e) h.
Proof. intros H. unfold times. by rewrite filter_cons_True. Qed.

Lemma times_miss hit cmd e h : is_cmd e <> cmd \/ hit e = false -> times hit cmd (e :: h) = times hit cmd h.
Proof. intros H. unfold times. rewrite filter_cons_False; [done|]. destruct H as [H|H]; [tauto|]. rewrite H. by intros [_ ?]. Qed.

Definition hits_at (on : Issue -> bool) (lv : nat) (id : Z) (e : Issue) : bool := on e && (id =? addr_at lv (is_addr e)).

Section Timing.
Variable spec : Standard.

(** Distances start at 1. *)
Definition timing_wf : Prop := forall lv c t, t ∈ timing spec lv c -> 1 <= t_dist t.

(** A node whose ancestors are on the path of the commands [on] selects. *)
Fixpoint timed (h : list Issue) (on : Issue -> bool) (n : DRAM) : Prop :=
  match n with
  | mkDRAM lv id _ _ _ nx pv ch =>
      let hit := hits_at on lv id in
      length nx = Ram.MAX /\
      (forall c, pv !! Ram.number c = Some (take (Z.to_nat (history spec lv c))
                   (times hit c h ++ repeat (-1) (Z.to_nat (history spec lv c))))) /\
      (forall c t τ, t ∈ timing spec lv c -> t_sibling t = false ->
         times hit c h !! Z.to_nat (t_dist t - 1) = Some τ -> τ + t_val t <= at_cmd (t_cmd t) nx) /\
      (forall t e, e ∈ h -> on e = true -> hit e = false -> t ∈ timing spec lv (is_cmd e) -> t_sibling t = true ->
         is_clk e + t_val t <= at_cmd (t_cmd t) nx) /\
      (forall k c, ch !! k = Some c -> level c = S lv /\ node_id c = Z.of_nat k) /\
      (S lv <> lv_row spec -> ch <> []) /\
      (fix all l := match l with [] => True | c :: l' => timed h hit c /\ all l' end) ch
  end.

Lemma timed_children h hit ch :
  (fix all l := match l with [] => True | c :: l' => timed h hit c /\ all l' end) ch <-> Forall (timed h hit) ch.
Proof. induction ch as [|c ch IH]; [by split|]. rewrite Forall_cons. by rewrite IH. Qed.

Lemma timed_unfold h on lv id st rows cc nx pv ch :
  timed h on (mkDRAM lv id st rows cc nx pv ch) <->
  length nx = Ram.MAX /\
  (forall c, pv !! Ram.number c = Some (take (Z.to_nat (history spec lv c))
               (times (hits_at on lv id) c h ++ repeat (-1) (Z.to_nat (history spec lv c))))) /\
  (forall c t τ, t ∈ timing spec lv c -> t_sibling t = false ->
     times (hits_at on lv id) c h !! Z.to_nat (t_dist t - 1) = Some τ -> τ + t_val t <= at_cmd (t_cmd t) nx) /\
  (forall t e, e ∈ h -> on e = true -> hits_at on lv id e = false -> t ∈ timing spec lv (is_cmd e) -> t_sibling t = true ->
     is_clk e + t_val t <= at_cmd (t_cmd t) nx) /\
  (forall k c, ch !! k = Some c -> level c = S lv /\ node_id c = Z.of_nat k) /\
  (S lv <> lv_row spec -> ch <> []) /\
  Forall (timed h (hits_at on lv id)) ch.
Proof. cbn [timed]. by rewrite timed_children. Qed.

Lemma level_skeleton n : level (skeleton n) = level n.
Proof. by destruct n. Qed.
Lemma id_skeleton n : node_id (skeleton n) = node_id n.
Proof. by destruct n. Qed.

Lemma timed_skeleton h : forall n on, timed h on (skeleton n) <-> timed h on n.
Proof.
  induction n as [lv id st rows cc nx pv ch IH] using DRAM_ind'. intros on. cbn [skeleton].
  rewrite !timed_unfold. change (List.map skeleton ch) with (skeleton <$> ch). rewrite Forall_fmap.
  repeat match goal with |- (_ /\ _) <-> (_ /\ _) => apply and_iff_compat_l end.
  assert (E : (forall k c, (skeleton <$> ch) !! k = Some c -> level c = S lv /\ node_id c = Z.of_nat k) <->
    (forall k c, ch !! k = Some c -> level c = S lv /\ node_id c = Z.of_nat k)).
  { split; intros H k c Hc.
    - specialize (H k (skeleton c)). rewrite list_lookup_fmap, Hc, level_skeleton, id_skeleton in H. by apply H.
    - rewrite list_lookup_fmap in Hc. destruct (ch !! k) as [c'|] eqn:Ec; [|done]. injection Hc as <-.
      rewrite level_skeleton, id_skeleton. by apply H. }
  rewrite E. apply and_iff_compat_l.
  assert (E2 : (skeleton <$> ch <> []) <-> (ch <> [])) by (destruct ch; cbn; split; congruence).
  rewrite E2. apply and_iff_compat_l.
  rewrite !Forall_forall in *. split; intros H c Hc; by apply (IH c Hc), H.
Qed.

(** *** A command elsewhere *)

Lemma timed_off h e : forall n on, on e = false -> timed h on n -> timed (e :: h) on n.
Proof.
  induction n as [lv id st rows cc nx pv ch IH] using DRAM_ind'. intros on Hoff. rewrite !timed_unfold.
  intros (Hl & Hp & Ht & Hs & Hc & Hd & Hf).
  assert (Hm : hits_at on lv id e = false) by (unfold hits_at; by rewrite Hoff).
  split_and!; [done| | | |done|done|].
  - intros c. by rewrite times_miss by auto.
  - intros c t τ. rewrite times_miss by auto. apply Ht.
  - intros t e' [->|He]%elem_of_cons Hon; [congruence|]. by apply Hs.
  - rewrite Forall_forall in *. intros c Hin. apply IH; [done..|]. by apply Hf.
Qed.

(** *** A command here *)

Lemma push_history_times d l x : push_history x (take d (l ++ repeat (-1)%Z d)) = take d ((x :: l) ++ repeat (-1)%Z d).
Proof.
  destruct d as [|d]; [by rewrite !take_0|].
  assert (Hlen : (d < length (l ++ repeat (-1)%Z (S d)))%nat) by (rewrite length_app, repeat_length; lia).
  set (k := l ++ repeat (-1) (S d)) in *. change ((x :: l) ++ repeat (-1) (S d)) with (x :: k).
  destruct (lookup_lt_is_Some_2 k d Hlen) as [y Hy]. rewrite (take_S_r k d y Hy). cbn [take].
  unfold push_history. destruct (take d k ++ [y]) eqn:E; [by destruct (take d k)|]. rewrite <- E. by rewrite removelast_last.
Qed.

Lemma history_dist lv c t : t ∈ timing spec lv c -> t_dist t <= history spec lv c.
Proof.
  unfold history. assert (H : forall (ts : list TimingEntry) d, d <= foldl (fun dist (t : TimingEntry) => Z.max dist (t_dist t)) d ts).
  { induction ts as [|u ts IH]; intros d; cbn; [done|]. etrans; [|apply IH]. lia. }
  assert (G : forall ts d, t ∈ ts -> t_dist t <= foldl (fun dist t => Z.max dist (t_dist t)) d ts).
  { intros ts. induction ts as [|u ts IH]; intros d; cbn; [by intros ?%elem_of_nil|].
    intros [->|Ht]%elem_of_cons; [|by apply IH]. etrans; [|apply H]. lia. }
  apply G.
Qed.

Lemma nth_history d l k τ : l !! k = Some τ -> (k < d)%nat -> nth k (take d (l ++ repeat (-1)%Z d)) (-1) = τ.
Proof.
  intros Hl Hk. rewrite nth_lookup, lookup_take_lt by done. rewrite lookup_app_l by (by eapply lookup_lt_Some).
  by rewrite Hl.
Qed.

Lemma timed_step h e : timing_wf -> 0 <= is_clk e -> Forall (fun e => 0 <= is_clk e) h -> forall n on,
  on e = true -> timed h on n -> timed (e :: h) on (update_timing spec (is_cmd e) (is_addr e) (is_clk e) n).
Proof.
  intros Hwf He Hh. induction n as [lv id st rows cc nx pv ch IH] using DRAM_ind'. intros on Hon. rewrite timed_unfold.
  intros (Hl & Hp & Ht & Hs & Hc & Hd & Hf). cbn [update_timing]. set (hit := hits_at on lv id) in *.
  destruct (id =? addr_at lv (is_addr e)) eqn:Eid; cbn [negb]; rewrite timed_unfold; fold hit.
  - assert (Hm : hit e = true) by (unfold hit, hits_at; by rewrite Hon).
    assert (Ehist : push_history (is_clk e) (nth (Ram.number (is_cmd e)) pv []) =
      take (Z.to_nat (history spec lv (is_cmd e))) (times hit (is_cmd e) (e :: h) ++ repeat (-1) (Z.to_nat (history spec lv (is_cmd e))))).
    { rewrite nth_lookup, Hp. cbn [from_option]. rewrite times_hit by done. apply push_history_times. }
    rewrite target_timing_due. split_and!.
    + by rewrite raise_all_length.
    + intros c. destruct (decide (c = is_cmd e)) as [->|Hne].
      * rewrite list_lookup_insert_eq by (eapply lookup_lt_Some, Hp). by rewrite Ehist.
      * rewrite list_lookup_insert_ne by (intros E%number_inj; congruence). rewrite times_miss by auto. apply Hp.
    + intros c t τ Hin Hsib Hτ. destruct (decide (c = is_cmd e)) as [->|Hne].
      * eapply raise_all_reaches; [done|exact Hin|]. unfold due_target. rewrite Hsib, Ehist. cbv zeta.
        pose proof (Hwf _ _ _ Hin). pose proof (history_dist _ _ _ Hin). rewrite (nth_history _ _ _ τ Hτ) by lia.
        assert (Hτ0 : 0 <= τ).
        { apply list_elem_of_lookup_2 in Hτ. apply list_elem_of_fmap in Hτ as (e' & -> & He').
          apply list_elem_of_filter in He' as [_ [->|Hin']%elem_of_cons]; [done|]. by apply (proj1 (Forall_forall _ _) Hh). }
        destruct (Z.ltb_spec τ 0); [lia|done].
      * rewrite times_miss in Hτ by auto. etrans; [by eapply Ht|apply raise_all_mono].
    + intros t e' [->|Hin]%elem_of_cons Hon' Hmiss Htt Hsib; [congruence|]. etrans; [by eapply Hs|apply raise_all_mono].
    + intros k c Hk. change (List.map ?f ch) with (f <$> ch) in Hk. rewrite list_lookup_fmap in Hk.
      destruct (ch !! k) as [c'|] eqn:Ek; [|done]. injection Hk as <-. destruct (Hc k c' Ek) as [H1 H2].
      destruct c'; cbn in *. by destruct (negb _).
    + intros H. specialize (Hd H). by destruct ch.
    + change (List.map ?f ch) with (f <$> ch). rewrite Forall_fmap. rewrite Forall_forall in *.
      intros c Hin. apply IH; [done..|]. by apply Hf.
  - assert (Hm : hit e = false) by (unfold hit, hits_at; by rewrite Eid, andb_false_r). rewrite sibling_timing_due. split_and!.
    + by rewrite raise_all_length.
    + intros c. by rewrite times_miss by auto.
    + intros c t τ Hin Hsib Hτ. rewrite times_miss in Hτ by auto. etrans; [by eapply Ht|apply raise_all_mono].
    + intros t e' [->|Hin]%elem_of_cons Hon' Hmiss Htt Hsib.
      * eapply raise_all_reaches; [done|exact Htt|]. unfold due_sibling. by rewrite Hsib.
      * etrans; [by eapply Hs|apply raise_all_mono].
    + done.
    + done.
    + rewrite Forall_forall in *. intros c Hin. apply timed_off; [done|]. by apply Hf.
Qed.

(** *** A new device *)

Lemma timed_new : (forall lv, (0 < lv < lv_row spec)%nat -> 0 < count spec lv) -> forall fuel lv id on,
  (lv < lv_row spec)%nat -> (lv_row spec <= lv + fuel)%nat -> timed [] on (new_node spec fuel lv id).
Proof.
  intros Hcount. induction fuel as [|f IH]; intros lv id on Hlv Hf; [lia|]. cbn [new_node]. rewrite timed_unfold.
  assert (Hprev : forall c, ((fun cmd => repeat (-1) (Z.to_nat (history spec lv cmd))) <$> Ram.commands) !! Ram.number c =
    Some (take (Z.to_nat (history spec lv c)) (times (hits_at on lv id) c [] ++ repeat (-1) (Z.to_nat (history spec lv c))))).
  { intros c. assert (E : Ram.commands !! Ram.number c = Some c) by by destruct c. rewrite list_lookup_fmap, E. cbn [fmap option_fmap option_map].
    unfold times. cbn [filter list_filter fmap list_fmap app]. by rewrite take_ge by (rewrite repeat_length; lia). }
  split_and!; [done|exact Hprev|by intros|by intros ?? ?%elem_of_nil| | |];
    destruct (Nat.eqb_spec (S lv) (lv_row spec)) as [Hr|Hr]; try done.
  - intros k c Hk. rewrite list_lookup_fmap in Hk. destruct (seqZ 0 _ !! k) as [x|] eqn:Ex; [|done]. injection Hk as <-.
    apply lookup_seqZ in Ex as [-> _]. destruct f; cbn; split; (done || lia).
  - intros _ E. pose proof (Hcount (S lv) ltac:(lia)) as Hpos. apply (f_equal length) in E. rewrite length_fmap, length_seqZ in E.
    cbn in E. lia.
  - rewrite Forall_fmap, Forall_forall. intros x Hx. apply IH; lia.
Qed.

(** ** What [check] enforces *)

(** Levels [lv] to [lv + k] of two addresses agree. *)
Definition agree (lv k : nat) (a b : list Z) : bool := forallb (fun l => addr_at l a =? addr_at l b) (seq lv (S k)).

Lemma timed_check h : forall n on cmd addr clk k, timed h on n -> check spec cmd addr clk n = Ok true ->
  node_id n = addr_at (level n) addr -> (level n + k <= scope spec cmd)%nat -> (level n + k < lv_row spec)%nat ->
  (forall l, (l <= level n + k)%nat -> 0 <= addr_at l addr) -> 0 <= clk ->
  (forall c t τ, t ∈ timing spec (level n + k) c -> t_cmd t = cmd -> t_sibling t = false ->
     times (fun e => on e && agree (level n) k addr (is_addr e)) c h !! Z.to_nat (t_dist t - 1) = Some τ -> τ + t_val t <= clk) /\
  (forall t e, e ∈ h -> on e = true -> (forall l, (level n <= l < level n + k)%nat -> addr_at l addr = addr_at l (is_addr e)) ->
     addr_at (level n + k) addr <> addr_at (level n + k) (is_addr e) ->
     t ∈ timing spec (level n + k) (is_cmd e) -> t_cmd t = cmd -> t_sibling t = true -> is_clk e + t_val t <= clk).
Proof.
  induction n as [lv id st rows cc nx pv ch IH] using DRAM_ind'. intros on cmd addr clk k. rewrite timed_unfold.
  intros (Hl & Hp & Ht & Hs & Hc & Hd & Hf) Hck Hid Hsc Hrow Haddr Hclk. cbn [level node_id] in *. cbn [check] in Hck.
  destruct (negb _ && _) eqn:Hnow; [discriminate|].
  assert (Hnx : forall x, x <= at_cmd cmd nx -> 0 <= x \/ x < 0 -> x <= clk).
  { intros x Hx _. destruct (Z.eqb_spec (at_cmd cmd nx) (-1)) as [E|E]; cbn in Hnow; [lia|]. apply Z.ltb_ge in Hnow. lia. }
  assert (Hhit : forall e, hits_at on lv id e = on e && (addr_at lv addr =? addr_at lv (is_addr e)))
    by (intros e; unfold hits_at; by rewrite Hid).
  destruct k as [|k].
  - rewrite !Nat.add_0_r in *. split.
    + intros c t τ Hin <- Hsib Hτ. apply Hnx; [|lia]. eapply Ht; [done..|]. rewrite <- Hτ. f_equal. apply times_ext.
      intros e. rewrite Hhit. unfold agree. cbn. by rewrite andb_true_r.
    + intros t e Hin Hon _ Hne Htt <- Hsib. apply Hnx; [|lia]. eapply Hs; [done..| |done|done]. rewrite Hhit, Hon. by apply Z.eqb_neq.
  - assert (Hch : ch <> []) by (apply Hd; lia).
    replace ((addr_at (S lv) addr <? 0) || Nat.eqb lv (scope spec cmd) || (length ch =? 0)%nat) with false in Hck.
    2: { symmetry. rewrite !orb_false_iff. split_and!; [apply Z.ltb_ge, Haddr; lia|apply Nat.eqb_neq; lia|].
         apply Nat.eqb_neq. by destruct ch. }
    rewrite on_child_lookup in Hck. destruct (ch !! _) as [c0|] eqn:Ec; [|discriminate]. destruct (Hc _ _ Ec) as [Hlv Hcid].
    pose proof (list_elem_of_lookup_2 _ _ _ Ec) as Hin0. rewrite Forall_forall in IH, Hf.
    destruct (IH c0 Hin0 (hits_at on lv id) cmd addr clk k) as [H1 H2]; rewrite ?Hlv; [by apply Hf|done| |lia|lia| |done|].
    { rewrite Hcid, Z2Nat.id; [done|]. apply Haddr. lia. }
    { intros l Hle. apply Haddr. lia. }
    rewrite Hlv in H1, H2. replace (S lv + k)%nat with (lv + S k)%nat in H1, H2 by lia. split.
    + intros c t τ Hin Hcmd Hsib Hτ. eapply H1; [done..|]. rewrite <- Hτ. f_equal. apply times_ext. intros e. rewrite Hhit.
      unfold agree. cbn [seq forallb]. by rewrite <- !andb_assoc.
    + intros t e Hin Hon Heq Hne Htt Hcmd Hsib. eapply H2; [done| |by intros; apply Heq; lia|done..]. rewrite Hhit, Hon.
      apply Z.eqb_eq. apply Heq. lia.
Qed.

(** The commands issued to a device, oldest first. *)
Definition replay (es : list Issue) (n : DRAM) : outcome DRAM :=
  ofold (fun n e => update spec (is_cmd e) (is_addr e) (is_clk e) n) es n.

Lemma timed_update h on e n n' : timing_wf -> 0 <= is_clk e -> Forall (fun e => 0 <= is_clk e) h -> on e = true ->
  timed h on n -> update spec (is_cmd e) (is_addr e) (is_clk e) n = Ok n' -> timed (e :: h) on n'.
Proof.
  intros Hwf He Hh Hon Hn (m & Hm & [= <-])%obind_Ok. apply timed_step; [done..|].
  apply timed_skeleton. apply skeleton_update_state in Hm as ->. rewrite timed_skeleton in *.
  destruct n. rewrite <- timed_skeleton in Hn |- *. exact Hn.
Qed.

Lemma timed_replay on : timing_wf -> (forall e, on e = true) -> forall es h n n',
  Forall (fun e => 0 <= is_clk e) (es ++ h) -> timed h on n -> replay es n = Ok n' -> timed (rev es ++ h) on n'.
Proof.
  intros Hwf Hon. induction es as [|e es IH]; intros h n n' Hclk Hn; cbn; [by intros [= <-]|].
  intros (m & Hm & Hr)%obind_Ok. apply Forall_cons in Hclk as [He Hclk]. rewrite <- app_assoc. apply (IH (e :: h) m); [|..|done].
  - rewrite Forall_app in *. split; [tauto|]. by constructor; [|tauto].
  - apply Forall_app in Hclk as [_ Hh]. by eapply timed_update.
Qed.

Lemma timed_device es n : timing_wf -> (forall lv, (0 < lv < lv_row spec)%nat -> 0 < count spec lv) -> (0 < lv_row spec)%nat ->
  Forall (fun e => 0 <= is_clk e) es -> replay es (newDRAM spec 0) = Ok n -> timed (rev es) (fun _ => true) n.
Proof.
  intros Hwf Hcount Hrow Hclk Hr. rewrite <- (app_nil_r (rev es)). eapply timed_replay; [done|done| | |done].
  - by rewrite app_nil_r.
  - apply timed_new; (done || lia).
Qed.
End Timing.

(** A standard that can be built and whose distances start at 1. *)
Record standard_ok (spec : Standard) : Prop := mk_standard_ok {
  so_timing : timing_wf spec;
  so_count : forall lv, (0 < lv < lv_row spec)%nat -> 0 < count spec lv;
  so_row : (0 < lv_row spec)%nat }.

Lemma root_replay spec es n n' : replay spec es n = Ok n' -> level n' = level n /\ node_id n' = node_id n.
Proof.
  revert n. induction es as [|e es IH]; intros n; cbn; [by intros [= <-]|]. intros (m & Hm & Hr)%obind_Ok.
  apply IH in Hr as [-> ->]. apply obind_Ok in Hm as (u & Hu & [= <-]). apply skeleton_update_state in Hu.
  assert (H : level u = level n /\ node_id u = node_id n).
  { rewrite <- (level_skeleton u), <- (id_skeleton u), Hu, level_skeleton, id_skeleton. by destruct n. }
  destruct u; cbn in *. by destruct (negb _).
Qed.

(** Timing.  Whatever was issued to a new device, a command that passes [check]
    keeps every timing entry of its standard, at every level its scope reaches:
    it comes at least [val] after the [dist]-th last [c] issued to the node it
    addresses, and, for a sibling entry, at least [val] after every [c] issued
    beside that node under the same parent. *)
Lemma timing_enforced spec es n cmd addr clk lv :
  standard_ok spec -> Forall (fun e => 0 <= is_clk e) es -> replay spec es (newDRAM spec 0) = Ok n ->
  0 <= clk -> addr_at 0 addr = 0 -> (forall l, (l <= lv)%nat -> 0 <= addr_at l addr) ->
  (lv <= scope spec cmd)%nat -> (lv < lv_row spec)%nat -> check spec cmd addr clk n = Ok true ->
  (forall c t τ, t ∈ timing spec lv c -> t_cmd t = cmd -> t_sibling t = false ->
     times (fun e => agree 0 lv addr (is_addr e)) c (rev es) !! Z.to_nat (t_dist t - 1) = Some τ -> τ + t_val t <= clk) /\
  (forall t e, e ∈ es -> (forall l, (l < lv)%nat -> addr_at l addr = addr_at l (is_addr e)) ->
     addr_at lv addr <> addr_at lv (is_addr e) ->
     t ∈ timing spec lv (is_cmd e) -> t_cmd t = cmd -> t_sibling t = true -> is_clk e + t_val t <= clk).
Proof.
  intros [Hwf Hcount Hrow] Hes Hr Hclk H0 Haddr Hsc Hlv Hck.
  pose proof (timed_device spec es n Hwf Hcount Hrow Hes Hr) as Hn. apply root_replay in Hr as [El Ei].
  assert (El0 : level n = 0%nat) by (rewrite El; unfold newDRAM; by destruct (lv_row spec)).
  assert (Ei0 : node_id n = 0) by (rewrite Ei; unfold newDRAM; by destruct (lv_row spec)).
  destruct (timed_check spec (rev es) n (fun _ => true) cmd addr clk lv) as [H1 H2]; rewrite ?El0, ?Ei0, ?Nat.add_0_l in *; [done..|].
  split.
  - intros c t τ Ht Hc Hs Hτ. eapply H1; [done..|]. exact Hτ.
  - intros t e He Heq Hne Ht Hc Hs. eapply (H2 t e); [by apply list_elem_of_In, in_rev; rewrite rev_involutive; apply list_elem_of_In|done| |done..].
    intros l [_ Hl]. by apply Heq.
Qed.
