(* ===== verification/DdrTheory.v ===== *)
(** * The DDR standards are well formed

    Every timing entry of the two standards has a distance of at least one, and
    every level above the rows has children: the hypotheses of the timing
    theorem hold for every organisation and speed of the tables. *)

From S2P Require Export DramTheory Ddr.

Local Open Scope list_scope.
Open Scope Z_scope.

Definition dist_ok (p : Ram.Command * TimingEntry) : bool := 1 <=? t_dist (snd p).

Lemma entries_dist cmd l t : forallb dist_ok l = true -> t ∈ entries_of cmd l -> 1 <= t_dist t.
Proof.
  intros Hl ([c t'] & -> & [_ Hp]%list_elem_of_filter)%list_elem_of_fmap.
  rewrite forallb_forall in Hl. apply list_elem_of_In, Hl in Hp. unfold dist_ok in Hp. cbn in *. lia.
Qed.

(** A table per level, and nothing below. *)
Lemma levels_dist cmd lv (ls : list (list (Ram.Command * TimingEntry))) t :
  forallb (forallb dist_ok) ls = true -> t ∈ entries_of cmd (nth lv ls []) -> 1 <= t_dist t.
Proof.
  intros H. apply entries_dist. destruct (nth_in_or_default lv ls []) as [Hin| ->]; [|done].
  rewrite forallb_forall in H. by apply H.
Qed.

(** Names beyond the table do not exist. *)
Lemma index_of_lt names name i : index_of names name = Some i -> (i < length names)%nat.
Proof.
  revert i. induction names as [|n names IH]; intros i; cbn; [done|]. destruct (String.eqb n name); [intros [= <-]; lia|].
  destruct (index_of names name) as [j|]; cbn; [|done]. intros [= <-]. specialize (IH j eq_refl). lia.
Qed.

Lemma lookup_name_in {A} names (table : list A) name dflt : (length names <= length table)%nat -> table <> [] ->
  lookup_name names table name dflt ∈ table.
Proof.
  intros Hl Ht. unfold lookup_name. apply list_elem_of_In, nth_In.
  destruct (index_of names name) as [i|] eqn:E; cbn; [apply index_of_lt in E; lia|]. destruct table; [done|cbn; lia].
Qed.

Lemma DDR3_select_org org speed o s : DDR3.select org speed = Ok (o, s) -> o ∈ DDR3.org_table.
Proof. unfold DDR3.select. intros (s1 & _ & [= <- <-])%obind_Ok. apply lookup_name_in; [cbn; lia|done]. Qed.
Lemma DDR4_select_org org speed o s : DDR4.select org speed = Ok (o, s) -> o ∈ DDR4.org_table.
Proof. unfold DDR4.select. intros (s1 & _ & [= <- <-])%obind_Ok. apply lookup_name_in; [cbn; lia|done]. Qed.

Lemma DDR3_standard_ok o s ranks : o ∈ DDR3.org_table -> 0 < ranks ->
  standard_ok (DDR3.standard (DDR3.set_rank_number ranks o) s).
Proof.
  intros Ho Hr. split; [| |cbn; unfold DDR3.Row; lia].
  - intros lv c t. change (timing (DDR3.standard (DDR3.set_rank_number ranks o) s) lv c) with (DDR3.timing s lv c). unfold DDR3.timing.
    apply levels_dist. reflexivity.
  - intros lv [H1 H2]. cbn in H2. unfold DDR3.Row in H2. cbn.
    repeat (apply elem_of_cons in Ho as [-> | Ho]; [cbn; do 3 (destruct lv as [|lv]; [lia || (cbn; lia)|]); lia|]).
    by apply elem_of_nil in Ho.
Qed.

Lemma DDR4_standard_ok o s ranks : o ∈ DDR4.org_table -> 0 < ranks ->
  standard_ok (DDR4.standard (DDR4.set_rank_number ranks o) s).
Proof.
  intros Ho Hr. split; [| |cbn; unfold DDR4.Row; lia].
  - intros lv c t. change (timing (DDR4.standard (DDR4.set_rank_number ranks o) s) lv c) with (DDR4.timing s lv c). unfold DDR4.timing.
    apply levels_dist. reflexivity.
  - intros lv [H1 H2]. cbn in H2. unfold DDR4.Row in H2. cbn.
    repeat (apply elem_of_cons in Ho as [-> | Ho]; [cbn; do 4 (destruct lv as [|lv]; [lia || (cbn; lia)|]); lia|]).
    by apply elem_of_nil in Ho.
Qed.
