(* ===== verification/McTypes.v ===== *)
(** * MCsim: requests, commands and their queues

    [src/MCsim/src/Request.h], [BusPacket.h], [AddressMapping.cpp],
    [RequestQueue.cpp], [CommandQueue.cpp], [CommandGenerator.cpp] and the two
    generic generators of [src/MCsim/generalScheduler/].  Pointers to requests
    and packets are their values: a request leaves its queue before anything
    writes to it.  [abort()] is a [Crash]; a field nothing initialises holds an
    arbitrary value, an argument of the constructor. *)

From S2P Require Export Prelude.

Local Open Scope list_scope.
Open Scope Z_scope.

Definition aborted : string := "abort()".
Definition out_of_range : string := "vector index out of range".

(** ** [enum memOrg], [enum BusPacketType], [class Request], [class BusPacket] *)

Module Mem.
Definition Rank : nat := 0.
Definition BankGroup : nat := 1.
Definition Bank : nat := 2.
Definition SubArray : nat := 3.
Definition Row : nat := 4.
Definition Column : nat := 5.
End Mem.

Module Pkt.
Inductive BusPacketType :=
| RD | RDA | WR | WRA | ACT_R | ACT_W | ACT | PRE | PREA | REF | REFPB | PDE | PDX | SRE | SRX | DATA.
#[global] Instance BusPacketType_eq_dec : EqDecision BusPacketType.
Proof. solve_decision. Defined.

(** The value of the enumerator. *)
Definition value (t : BusPacketType) : Z :=
  match t with
  | RD => 0 | RDA => 1 | WR => 2 | WRA => 3 | ACT_R => 4 | ACT_W => 5 | ACT => 6 | PRE => 7 | PREA => 8 | REF => 9
  | REFPB => 10 | PDE => 11 | PDX => 12 | SRE => 13 | SRX => 14 | DATA => 15
  end.
(** [for (type = RD; type != PDE; type++)]. *)
Definition timed_types : list BusPacketType := [RD; RDA; WR; WRA; ACT_R; ACT_W; ACT; PRE; PREA; REF; REFPB].
End Pkt.

Module MC.
Inductive RequestType := DATA_READ | DATA_WRITE.
#[global] Instance RequestType_eq_dec : EqDecision RequestType.
Proof. solve_decision. Defined.

Record Request := mkRequest {
  requestType : RequestType;
  requestorID : Z;
  requestSize : Z;
  address : Z;
  arriveTime : Z;
  rank : Z; bankGroup : Z; bank : Z; subArray : Z; row : Z; col : Z;
  addressMap : list Z;
  reqID : Z }.

(** [junk]: what the fields the constructor leaves out hold. *)
Definition newRequest (junk id : Z) (type : RequestType) (size addr : Z) : Request :=
  mkRequest type id size addr junk junk junk junk junk junk junk (repeat junk 4) 0.
Definition set_arriveTime (t : Z) (r : Request) : Request :=
  mkRequest (requestType r) (requestorID r) (requestSize r) (address r) t (rank r) (bankGroup r) (bank r) (subArray r)
    (row r) (col r) (addressMap r) (reqID r).
Definition set_requestSize (sz : Z) (r : Request) : Request :=
  mkRequest (requestType r) (requestorID r) sz (address r) (arriveTime r) (rank r) (bankGroup r) (bank r) (subArray r)
    (row r) (col r) (addressMap r) (reqID r).
Definition set_fields (rk bg bk sa rw cl : Z) (am : list Z) (r : Request) : Request :=
  mkRequest (requestType r) (requestorID r) (requestSize r) (address r) (arriveTime r) rk bg bk sa rw cl am (reqID r).

Record BusPacket := mkPacket {
  busPacketType : Pkt.BusPacketType;
  p_requestorID : Z;
  p_address : Z;
  p_reqID : Z;
  p_size : Z;
  p_column : Z; p_row : Z; p_subArray : Z; p_bank : Z; p_rank : Z;
  p_arriveTime : Z;
  postCommand : bool }.
(** The two constructors; both clear [bankGroup] and [postCommand]. *)
Definition newPacket (type : Pkt.BusPacketType) (id addr column row bank rank sa time : Z) : BusPacket :=
  mkPacket type id addr 0 0 column row sa bank rank time false.
Definition newCommand (type : Pkt.BusPacketType) (id addr column row bank rank sa time reqID size : Z) : BusPacket :=
  mkPacket type id addr reqID size column row sa bank rank time false.
Definition stamp (t : Z) (p : BusPacket) : BusPacket :=
  mkPacket (busPacketType p) (p_requestorID p) (p_address p) (p_reqID p) (p_size p) (p_column p) (p_row p) (p_subArray p)
    (p_bank p) (p_rank p) t (postCommand p).
End MC.
Import MC.

(** ** [AddressMapping] *)

(** [log2]: the shifts, then the correction when the number is no power of 2. *)
Fixpoint log2_loop (fuel : nat) (value logbase2 : Z) : Z :=
  match fuel with
  | O => logbase2
  | S f => if 0 <? value then log2_loop f (Z.shiftr value 1) (logbase2 + 1) else logbase2
  end.
Definition log2 (num_value : Z) : Z :=
  let logbase2 := log2_loop 32 (Z.shiftr num_value 1) 0 in
  if w32 (Z.shiftl 1 logbase2) <? num_value then logbase2 + 1 else logbase2.

(** [decodeIndex]: a level of [memOrg] and its number of address bits. *)
Definition AddressMapping : Type := list (nat * Z).

Definition TX_SIZE_BITS : Z := 6.

Definition newAddressMapping (format : string) (memTable : list Z) : outcome AddressMapping :=
  ofold (fun dec a =>
    let memIndex := w32 (Z.of_nat (Ascii.nat_of_ascii a) - 48) in
    if Z.of_nat Mem.Column <? memIndex then Crash aborted else
    let bits := log2 (nth (Z.to_nat memIndex) memTable 0) in
    Ok (dec ++ [(Z.to_nat memIndex, if memIndex =? Z.of_nat Mem.Column then w32 (bits - 3) else bits)]))
    (String.list_ascii_of_string format) [].

(** The [switch]: one field of the request. *)
Definition assign_field (level : nat) (v : Z) (r : Request) : Request :=
  match level with
  | 0%nat => set_fields v (bankGroup r) (bank r) (subArray r) (row r) (col r) (<[Mem.Rank := v]> (addressMap r)) r
  | 1%nat => set_fields (rank r) v (bank r) (subArray r) (row r) (col r) (addressMap r) r
  | 2%nat => set_fields (rank r) (bankGroup r) v (subArray r) (row r) (col r) (<[Mem.Bank := v]> (addressMap r)) r
  | 3%nat => set_fields (rank r) (bankGroup r) (bank r) v (row r) (col r) (addressMap r) r
  | 4%nat => set_fields (rank r) (bankGroup r) (bank r) (subArray r) v (col r) (addressMap r) r
  | _ => set_fields (rank r) (bankGroup r) (bank r) (subArray r) (row r) v (addressMap r) r
  end.

(** One turn of the loop: the low bits of [tempB]; a shift by 32 or more is
    undefined. *)
Definition take_bits (tempB bits : Z) : outcome (Z * Z) :=
  if 32 <=? bits then Crash "shift by the width of the type" else
  let tempA := w32 (Z.shiftl (Z.shiftr tempB bits) bits) in
  Ok (Z.lxor tempA tempB, Z.shiftr tempA bits).

Fixpoint decode_fields (dec : list (nat * Z)) (temp : Z) (r : Request) : outcome Request :=
  match dec with
  | [] => Ok r
  | (level, bits) :: dec' =>
      let! (tempAddr, temp') := take_bits temp bits in decode_fields dec' temp' (assign_field level tempAddr r)
  end.

(** From the last character of the format to the first. *)
Definition addressMapping (dec : AddressMapping) (r : Request) : outcome Request :=
  let! r := decode_fields (rev dec) (w32 (Z.shiftr (address r) TX_SIZE_BITS)) r in
  Ok (set_fields (rank r) (bankGroup r) (bank r) (subArray r) (row r) (col r)
        (<[Mem.Bank := bank r]> (<[Mem.Rank := 0]> (addressMap r))) r).

(** ** [RequestQueue] *)

Record RequestQueue := mkRequestQueue {
  rq_writeQueueEnable : bool;
  rq_perRequestor : bool;
  rq_flag : bool;
  writeMode : bool;
  writeQueue : list Request;
  generalBuffer : list Request;
  requestorBuffer : gmap Z (list Request);
  requestorOrder : list Z;
  scheduledRequest : bool * (Z * nat) }.       (* which buffer, whose, at what index *)

Definition lowwatermark : nat := 4.
Definition highwatermark : nat := 10.

Definition newRequestQueue (perRequestor writeQueueEnable : bool) : RequestQueue :=
  mkRequestQueue writeQueueEnable perRequestor false false [] [] ∅ [] (false, (0, O)).

Section RequestQueue.
Implicit Types q : RequestQueue.

Definition rq_set (flag : bool) (wq gb : list Request) (rb : gmap Z (list Request)) (order : list Z)
    (sched : bool * (Z * nat)) q : RequestQueue :=
  mkRequestQueue (rq_writeQueueEnable q) (rq_perRequestor q) flag (writeMode q) wq gb rb order sched.
Definition set_general (l : list Request) q : RequestQueue :=
  rq_set (rq_flag q) (writeQueue q) l (requestorBuffer q) (requestorOrder q) (scheduledRequest q) q.
Definition set_requestors (rb : gmap Z (list Request)) (order : list Z) q : RequestQueue :=
  rq_set (rq_flag q) (writeQueue q) (generalBuffer q) rb order (scheduledRequest q) q.
Definition set_scheduled (s : bool * (Z * nat)) q : RequestQueue :=
  rq_set (rq_flag q) (writeQueue q) (generalBuffer q) (requestorBuffer q) (requestorOrder q) s q.
Definition set_writes (flag : bool) (wq : list Request) q : RequestQueue :=
  rq_set flag wq (generalBuffer q) (requestorBuffer q) (requestorOrder q) (scheduledRequest q) q.

Definition requests_of (id : Z) q : list Request := default [] (requestorBuffer q !! id).

(** Always [true]. *)
Definition insertRequest (r : Request) q : RequestQueue :=
  if rq_writeQueueEnable q && bool_decide (requestType r = DATA_WRITE) then set_writes (rq_flag q) (writeQueue q ++ [r]) q
  else if rq_perRequestor q then
    let order := match requestorBuffer q !! requestorID r with
                 | None => requestorOrder q ++ [requestorID r]
                 | Some _ => requestorOrder q
                 end in
    set_requestors (<[requestorID r := requests_of (requestorID r) q ++ [r]]> (requestorBuffer q)) order q
  else set_general (generalBuffer q ++ [r]) q.

Definition getQueueSize q : nat := length (requestorOrder q).

Definition getSize (requestor : bool) (index : nat) q : outcome nat :=
  if requestor then
    match requestorOrder q with
    | [] => Ok O
    | _ => match requestorOrder q !! index with
           | Some id => Ok (length (requests_of id q))
           | None => Crash out_of_range
           end
    end
  else Ok (length (generalBuffer q)).

(** [getRequest(reqIndex, index)]: the request of a requestor, remembered for
    [removeRequest]. *)
Definition getRequestOf (reqIndex index : nat) q : outcome (option Request * RequestQueue) :=
  match requestorOrder q !! reqIndex with
  | None => Crash out_of_range
  | Some id =>
      match requests_of id q with
      | [] => Ok (None, q)
      | l => match l !! index with
             | Some r => Ok (Some r, set_scheduled (true, (id, index)) q)
             | None => Crash out_of_range
             end
      end
  end.

Definition checkRequestIndex (reqIndex index : nat) q : outcome (option Request) :=
  match requestorOrder q !! reqIndex with
  | None => Crash out_of_range
  | Some id => match requests_of id q with
               | [] => Ok None
               | l => match l !! index with Some r => Ok (Some r) | None => Crash out_of_range end
               end
  end.

Definition getRequest (index : nat) q : outcome (option Request * RequestQueue) :=
  match generalBuffer q with
  | [] => Ok (None, q)
  | l => match l !! index with
         | Some r => Ok (Some r, set_scheduled (false, (0, index)) q)
         | None => Crash out_of_range
         end
  end.

Definition getRequestCheck (index : nat) q : outcome (option Request) :=
  match generalBuffer q with
  | [] => Ok None
  | l => match l !! index with Some r => Ok (Some r) | None => Crash out_of_range end
  end.

Definition removeRequest q : outcome RequestQueue :=
  let '(per, (id, index)) := scheduledRequest q in
  if per : bool then
    let l := requests_of id q in
    if (index <? length l)%nat then Ok (set_requestors (<[id := delete index l]> (requestorBuffer q)) (requestorOrder q) q)
    else Crash out_of_range
  else if (index <? length (generalBuffer q))%nat then Ok (set_general (delete index (generalBuffer q)) q)
  else Crash out_of_range.

(** The hysteresis of the write queue. *)
Definition switchMode q : bool * RequestQueue :=
  if rq_flag q then
    if (length (writeQueue q) =? 0)%nat then (true, set_writes false (writeQueue q) q) else (false, q)
  else if (highwatermark <? length (writeQueue q))%nat then (false, set_writes true (writeQueue q) q) else (true, q).

Definition scheduleWritecheck q : outcome Request :=
  match writeQueue q with r :: _ => Ok r | [] => Crash out_of_range end.
Definition removeWriteRequest q : outcome RequestQueue :=
  match writeQueue q with _ :: l => Ok (set_writes (rq_flag q) l q) | [] => Crash out_of_range end.

(** The oldest request of a requestor to a bank. *)
Definition same_target (p b : Z) (r : Request) : bool := (bank r =? b) && (requestorID r =? p).
Definition earliestperBankperReq (p b : Z) q : option Request :=
  let l := List.filter (same_target p b) (generalBuffer q) in
  match l with
  | [] => None
  | r :: _ => Some (foldl (fun temp r => if arriveTime r <? arriveTime temp then r else temp) r l)
  end.
End RequestQueue.

(** ** [CommandQueue] *)

Record CommandQueue := mkCommandQueue {
  cq_perRequestor : bool;
  scheduledQueue : bool;
  requestorMap : list Z;
  cq_requestorBuffer : gmap Z (list BusPacket);
  hrtBuffer : list BusPacket;
  srtBuffer : list BusPacket }.

Definition newCommandQueue (perRequestor : bool) : CommandQueue := mkCommandQueue perRequestor true [] ∅ [] [].

Section CommandQueue.
Implicit Types q : CommandQueue.

Definition commands_of (id : Z) q : list BusPacket := default [] (cq_requestorBuffer q !! id).

Definition getRequestorIndex q : nat := length (requestorMap q).
Definition getRequestorSize (index : nat) q : outcome nat :=
  match requestorMap q !! index with Some id => Ok (length (commands_of id q)) | None => Crash out_of_range end.
Definition cq_getSize (critical : bool) q : nat := length (if critical then hrtBuffer q else srtBuffer q).
Definition clearQueue (critical : bool) q : CommandQueue :=
  mkCommandQueue (cq_perRequestor q) (scheduledQueue q) (requestorMap q) (cq_requestorBuffer q)
    (if critical then [] else hrtBuffer q) (if critical then srtBuffer q else []).

Definition insertCommand (p : BusPacket) (critical : bool) q : CommandQueue :=
  if cq_perRequestor q then
    let map := match cq_requestorBuffer q !! p_requestorID p with
               | None => requestorMap q ++ [p_requestorID p]
               | Some _ => requestorMap q
               end in
    mkCommandQueue true (scheduledQueue q) map
      (<[p_requestorID p := commands_of (p_requestorID p) q ++ [p]]> (cq_requestorBuffer q)) (hrtBuffer q) (srtBuffer q)
  else mkCommandQueue false (scheduledQueue q) (requestorMap q) (cq_requestorBuffer q)
         (if critical then hrtBuffer q ++ [p] else hrtBuffer q) (if critical then srtBuffer q else srtBuffer q ++ [p]).

Definition getCommand (critical : bool) q : outcome (BusPacket * CommandQueue) :=
  match (if critical then hrtBuffer q else srtBuffer q) with
  | p :: _ => Ok (p, mkCommandQueue (cq_perRequestor q) critical (requestorMap q) (cq_requestorBuffer q) (hrtBuffer q) (srtBuffer q))
  | [] => Crash aborted
  end.

Definition getRequestorCommand (index : nat) q : outcome BusPacket :=
  match requestorMap q !! index with
  | None => Crash out_of_range
  | Some id => match commands_of id q with p :: _ => Ok p | [] => Crash out_of_range end
  end.

(** [removeCommand(requestorID)]. *)
Definition removeCommandOf (id : Z) q : outcome CommandQueue :=
  match commands_of id q with
  | _ :: l => Ok (mkCommandQueue (cq_perRequestor q) (scheduledQueue q) (requestorMap q)
                    (<[id := l]> (cq_requestorBuffer q)) (hrtBuffer q) (srtBuffer q))
  | [] => Crash out_of_range
  end.

(** [removeCommand()]: the queue accessed last. *)
Definition removeCommand q : outcome CommandQueue :=
  match (if scheduledQueue q then hrtBuffer q else srtBuffer q) with
  | [] => Crash out_of_range
  | _ :: l => Ok (mkCommandQueue (cq_perRequestor q) (scheduledQueue q) (requestorMap q) (cq_requestorBuffer q)
                    (if scheduledQueue q then l else hrtBuffer q) (if scheduledQueue q then srtBuffer q else l))
  end.
End CommandQueue.

(** ** Command generators *)

Inductive GeneratorKind := GEN_OPEN | GEN_CLOSE.

Record CommandGenerator := mkGenerator {
  g_kind : GeneratorKind;
  dataBusSize : Z;
  first : list bool;                    (* bool first[8] *)
  lookupTable : gmap Z (Z * Z);
  commandBuffer : list BusPacket }.

Definition newCommandGenerator (kind : GeneratorKind) (dataBus : Z) : CommandGenerator :=
  mkGenerator kind dataBus (repeat true 8)
    (match kind with
     | GEN_OPEN => ∅
     | GEN_CLOSE => <[w32 (dataBus * 16) := (8, 2)]> (<[w32 (dataBus * 8) := (8, 1)]> (<[w32 (dataBus * 4) := (4, 1)]>
                      (<[w32 (dataBus * 2) := (2, 1)]> {[dataBus := (1, 1)]})))
     end) [].

Definition push_commands (ps : list BusPacket) (fst_ : list bool) (g : CommandGenerator) : CommandGenerator :=
  mkGenerator (g_kind g) (dataBusSize g) fst_ (lookupTable g) (commandBuffer g ++ ps).

(** A packet of a request. *)
Definition command_for (g : CommandGenerator) (r : Request) (type : Pkt.BusPacketType) (column bank : Z) : BusPacket :=
  newCommand type (requestorID r) (address r) column (row r) bank (rank r) (subArray r) 0 (reqID r) (dataBusSize g).

(** [CommandGenerator_Open::commandGenerate]. *)
Definition generate_open (r : Request) (open : bool) (g : CommandGenerator) : outcome CommandGenerator :=
  if dataBusSize g =? 0 then Crash "division by zero" else
  let CAS := match requestType r with DATA_READ => Pkt.RD | DATA_WRITE => Pkt.WR end in
  let size := requestSize r / dataBusSize g in
  let cas := (fun x => command_for g r CAS (w32 (col r + x)) (bank r)) <$> seqZ 0 size in
  if open then Ok (push_commands cas (first g) g) else
  match first g !! Z.to_nat (bank r) with
  | None => Crash "first[8] out of range"
  | Some false => Ok (push_commands ([command_for g r Pkt.PRE (col r) (bank r); command_for g r Pkt.ACT (col r) (bank r)] ++ cas) (first g) g)
  | Some true => Ok (push_commands ([command_for g r Pkt.ACT (col r) (bank r)] ++ cas) (<[Z.to_nat (bank r) := false]> (first g)) g)
  end.

(** [CommandGenerator_Close::commandGenerate]. *)
Definition generate_close (r : Request) (g : CommandGenerator) : CommandGenerator :=
  let CAS := match requestType r with DATA_READ => Pkt.RDA | DATA_WRITE => Pkt.WRA end in
  let '(nb, nc) := default (0, 0) (lookupTable g !! requestSize r) in
  push_commands
    (concat ((fun bi => let bk := w32 (bank r + bi) mod 16 in
       concat ((fun _ => [command_for g r Pkt.ACT (col r) bk; command_for g r CAS (col r) bk]) <$> seqZ 0 nc)) <$> seqZ 0 nb))
    (first g) g.

Definition commandGenerate (r : Request) (open : bool) (g : CommandGenerator) : outcome CommandGenerator :=
  match g_kind g with GEN_OPEN => generate_open r open g | GEN_CLOSE => Ok (generate_close r g) end.
