(* ===== verification/McDevice.v ===== *)
(** * MCsim: memory devices

    [src/MCsim/src/MemoryDevice.cpp], [Ramulator_DDR3.h] and [Ramulator_DDR4.h]:
    the device a memory controller drives, over the tree of [Dram].  The two
    wrappers are one template with different tables; [DeviceModel] holds what
    they read from the standard.  The command trace is left out. *)

From S2P Require Export McTypes Ddr.

Local Open Scope list_scope.
Open Scope Z_scope.
Import MC.

(** What [command_timing] reads from [speed_entry]. *)
Record Timings := mkTimings {
  tm_RP : Z; tm_RC : Z; tm_RAS : Z; tm_RCD : Z; tm_CL : Z; tm_BL : Z; tm_CWL : Z; tm_RTP : Z; tm_WR : Z }.

Record DeviceModel := mkModel {
  dm_standard : Standard;
  dm_bank : nat;                        (* int(T::Level::Bank) *)
  dm_counts : list Z;                   (* org_entry.count *)
  dm_dq : Z;
  dm_timings : Timings;
  dm_tCK : spec_float;
  dm_constraints : string -> Z }.

Definition by_name (table : list (string * Z)) (parameter : string) : Z :=
  default 0 (snd <$> List.find (fun p => String.eqb (fst p) parameter) table).

Local Open Scope string_scope.
Definition DDR3_model (ranks : Z) (o : DDR3.OrgEntry) (s : DDR3.SpeedEntry) : DeviceModel :=
  let o := DDR3.set_rank_number ranks o in
  mkModel (DDR3.standard o s) DDR3.Bank (DDR3.counts o) (DDR3.dq o)
    (mkTimings (DDR3.nRP s) (DDR3.nRC s) (DDR3.nRAS s) (DDR3.nRCD s) (DDR3.nCL s) (DDR3.nBL s) (DDR3.nCWL s) (DDR3.nRTP s) (DDR3.nWR s))
    (DDR3.tCK s)
    (by_name [("tRCD", DDR3.nRCD s); ("tWL", DDR3.nCWL s); ("tRL", DDR3.nCL s); ("tWTR", DDR3.nWTR s);
      ("tRTW", DDR3.nCL s + DDR3.nBL s + 2 - DDR3.nCWL s); ("tBus", DDR3.nBL s); ("tREFI", DDR3.nREFI s);
      ("tRFC", DDR3.nRFC s); ("tRRD", DDR3.nRRD s); ("tFAW", DDR3.nFAW s)]).

Definition DDR4_model (ranks : Z) (o : DDR4.OrgEntry) (s : DDR4.SpeedEntry) : DeviceModel :=
  let o := DDR4.set_rank_number ranks o in
  mkModel (DDR4.standard o s) DDR4.Bank (DDR4.counts o) (DDR4.dq o)
    (mkTimings (DDR4.nRP s) (DDR4.nRC s) (DDR4.nRAS s) (DDR4.nRCD s) (DDR4.nCL s) (DDR4.nBL s) (DDR4.nCWL s) (DDR4.nRTP s) (DDR4.nWR s))
    (DDR4.tCK s)
    (by_name [("tRCD", DDR4.nRCD s); ("tWL", DDR4.nCWL s); ("tRL", DDR4.nCL s); ("tWTR", DDR4.nWTRS s);
      ("tRTW", DDR4.nCL s + DDR4.nBL s + 2 - DDR4.nCWL s); ("tBus", DDR4.nBL s); ("tREFI", DDR4.nREFI s);
      ("tRFC", DDR4.nRFC s); ("tCCDL", DDR4.nCCDL s); ("tCCDS", DDR4.nCCDS s); ("tRRDS", DDR4.nRRDS s);
      ("tRRDL", DDR4.nRRDL s); ("tXS", DDR4.nXS s); ("tFAW", DDR4.nFAW s)]).
Local Close Scope string_scope.

Record MemoryDevice := mkDevice {
  dv_model : DeviceModel;
  dv_clockCycle : Z;
  dv_ranks : Z; dv_bankGroups : Z; dv_banks : Z; dv_subArrays : Z; dv_rows : Z; dv_columns : Z;
  dataBusWidth : Z;
  dv_channel : DRAM;
  dataCycles : list Z;
  pendingReadData : list BusPacket;
  postBuffer : list BusPacket;
  postCounter : list Z }.

(** The constructor of the wrappers; rows follow banks in both standards. *)
Definition newDevice (m : DeviceModel) (ranks : Z) : MemoryDevice :=
  let count lv := nth lv (dm_counts m) 0 in
  mkDevice m 0 ranks (if Nat.eqb (dm_bank m) 2 then 1 else count (dm_bank m - 1)%nat) (count (dm_bank m)) 1
    (count (S (dm_bank m))) (count (S (S (dm_bank m)))) (dm_dq m) (newDRAM (dm_standard m) 0) [] [] [] [].

Section Device.
Implicit Types d : MemoryDevice.

Definition get_DataBus d : Z := w32 (dataBusWidth d * 8).
Definition get_constraints (parameter : string) d : Z := dm_constraints (dv_model d) parameter.

Definition dv_set (chan : DRAM) (cycles : list Z) (data : list BusPacket) (post : list BusPacket) (counter : list Z) d
    : MemoryDevice :=
  mkDevice (dv_model d) (dv_clockCycle d) (dv_ranks d) (dv_bankGroups d) (dv_banks d) (dv_subArrays d) (dv_rows d)
    (dv_columns d) (dataBusWidth d) chan cycles data post counter.
Definition dv_tick d : MemoryDevice :=
  mkDevice (dv_model d) (w32 (dv_clockCycle d + 1)) (dv_ranks d) (dv_bankGroups d) (dv_banks d) (dv_subArrays d) (dv_rows d)
    (dv_columns d) (dataBusWidth d) (dv_channel d) (dataCycles d) (pendingReadData d) (postBuffer d) (postCounter d).

(** [command_timing(command, type)]: the cycles from a command to the next of
    type [type] in the same queue. *)
Definition command_timing (t : Timings) (cmd type : Pkt.BusPacketType) : Z :=
  let to_row := match type with
    | Pkt.PREA | Pkt.PRE => tm_RAS t
    | Pkt.RD | Pkt.RDA | Pkt.WR | Pkt.WRA => tm_RCD t
    | _ => 1
    end in
  match cmd with
  | Pkt.PRE | Pkt.PREA => match type with Pkt.ACT | Pkt.ACT_R | Pkt.ACT_W => tm_RP t | _ => 0 end
  | Pkt.ACT => match type with Pkt.ACT => tm_RC t | _ => to_row end
  | Pkt.ACT_R | Pkt.ACT_W => match type with Pkt.ACT_R | Pkt.ACT_W => tm_RC t | _ => to_row end
  | Pkt.RD =>
      match type with
      | Pkt.RD | Pkt.RDA => 4
      | Pkt.WR | Pkt.WRA => w32 (tm_CL t + tm_BL t + 2 - tm_CWL t)
      | Pkt.PRE | Pkt.PREA => tm_RTP t
      | _ => 1
      end
  | Pkt.RDA => match type with Pkt.ACT => tm_RTP t + tm_RP t | _ => 1 end
  | Pkt.WR =>
      match type with
      | Pkt.RD | Pkt.RDA => tm_CWL t + 4 + 6
      | Pkt.WR | Pkt.WRA => 4
      | Pkt.PRE | Pkt.PREA => tm_CWL t + 4 + tm_WR t
      | _ => 1
      end
  | Pkt.WRA => match type with Pkt.ACT => tm_CWL t + 4 + tm_WR t + tm_RP t | _ => 1 end
  | _ => 1
  end.

Definition convert_cmd (t : Pkt.BusPacketType) : outcome Ram.Command :=
  match t with
  | Pkt.RD => Ok Ram.RD | Pkt.WR => Ok Ram.WR | Pkt.RDA => Ok Ram.RDA | Pkt.WRA => Ok Ram.WRA
  | Pkt.ACT => Ok Ram.ACT | Pkt.ACT_R => Ok Ram.ACT_R | Pkt.ACT_W => Ok Ram.ACT_W
  | Pkt.PRE => Ok Ram.PRE | Pkt.PREA => Ok Ram.PREA | Pkt.REF => Ok Ram.REF
  | _ => Crash aborted
  end.

(** Rank and bank group are always 0: [addr_vec] has one entry per level. *)
Definition convert_addr (m : DeviceModel) (p : BusPacket) : list Z :=
  repeat 0 (dm_bank m) ++ [to_signed 32 (p_bank p); to_signed 32 (p_row p); to_signed 32 (p_column p)].

Definition command_check (p : BusPacket) d : outcome bool :=
  if postCommand p then Ok true else
  let! c := convert_cmd (busPacketType p) in
  check (dm_standard (dv_model d)) c (convert_addr (dv_model d) p) (dv_clockCycle d) (dv_channel d).

(** [generateData]: a read has its data after the latency. *)
Definition generateData (p : BusPacket) d : MemoryDevice :=
  match busPacketType p with
  | Pkt.RD | Pkt.RDA =>
      dv_set (dv_channel d) (dataCycles d ++ [get_constraints "tRL" d + get_constraints "tBus" d])
        (pendingReadData d ++ [newPacket Pkt.DATA (p_requestorID p) (p_address p) 0 0 0 0 0 (p_arriveTime p)])
        (postBuffer d) (postCounter d) d
  | _ => d
  end.

Definition receiveFromBus (p : BusPacket) d : outcome MemoryDevice :=
  if postCommand p then
    Ok (dv_set (dv_channel d) (dataCycles d) (pendingReadData d)
          (postBuffer d ++ [newPacket (busPacketType p) (p_requestorID p) (p_address p) (p_column p) (p_row p) (p_bank p) 0
             (p_subArray p) (p_arriveTime p)]) (postCounter d ++ [get_constraints "tRCD" d]) d)
  else
    let! d := (if bool_decide (busPacketType p = Pkt.DATA) then Ok d else
      let! c := convert_cmd (busPacketType p) in
      let! chan := Dram.update (dm_standard (dv_model d)) c (convert_addr (dv_model d) p) (dv_clockCycle d) (dv_channel d) in
      Ok (dv_set chan (dataCycles d) (pendingReadData d) (postBuffer d) (postCounter d) d)) in
    Ok (generateData p d).

Definition count_down (l : list Z) : list Z := (fun c => if 0 <? c then c - 1 else c) <$> l.

(** [update]: the data whose time has come goes to the controller; then the
    posted command whose time has come; then the clock. *)
Definition dv_data d : option BusPacket * MemoryDevice :=
  match pendingReadData d with
  | [] => (None, d)
  | p :: data =>
      match count_down (dataCycles d) with
      | 0 :: cycles => (Some p, dv_set (dv_channel d) cycles data (postBuffer d) (postCounter d) d)
      | cycles => (None, dv_set (dv_channel d) cycles (pendingReadData d) (postBuffer d) (postCounter d) d)
      end
  end.
Definition dv_post d : outcome MemoryDevice :=
  match postBuffer d with
  | [] => Ok d
  | p :: post =>
      let counter := count_down (postCounter d) in
      let d := dv_set (dv_channel d) (dataCycles d) (pendingReadData d) (postBuffer d) counter d in
      match counter with
      | 0 :: counter' =>
          let! d := receiveFromBus p d in
          Ok (dv_set (dv_channel d) (dataCycles d) (pendingReadData d) (tail (postBuffer d)) (tail (postCounter d)) d)
      | _ => Ok d
      end
  end.
Definition dv_update d : outcome (option BusPacket * MemoryDevice) :=
  let '(data, d) := dv_data d in let! d := dv_post d in Ok (data, dv_tick d).
End Device.
