(* ===== verification/McSchedulers.v ===== *)
(** * MCsim: schedulers

    [src/MCsim/src/RequestScheduler.cpp], [CommandScheduler.cpp],
    [RefreshMachine.h], the generic schedulers of
    [src/MCsim/generalScheduler/] (DIRECT, FCFS, PUSH) and those of
    [src/MCsim/system/FCFS] and [FRFCFS].  Command traces are left out. *)

From S2P Require Export McDevice.

Local Open Scope list_scope.
Open Scope Z_scope.
Import MC.

(** ** Request schedulers *)

Inductive RequestSchedulerKind := RS_DIRECT | RS_FCFS | RS_FRFCFS.

Record RequestScheduler := mkRequestScheduler {
  rs_kind : RequestSchedulerKind;
  rs_clock : Z;
  bankTable : gmap Z (gmap Z Z);
  switch_enable : bool;
  requestorIndex : list nat;            (* RequestScheduler_Direct *)
  rs_generator : CommandGenerator }.

Definition newRequestScheduler (kind : RequestSchedulerKind) (queues : nat) (g : CommandGenerator) : RequestScheduler :=
  mkRequestScheduler kind 1 ∅ false (repeat O queues) g.

Section RequestScheduler.
Implicit Types s : RequestScheduler.

Definition rs_set (table : gmap Z (gmap Z Z)) (index : list nat) (g : CommandGenerator) s : RequestScheduler :=
  mkRequestScheduler (rs_kind s) (rs_clock s) table (switch_enable s) index g.

Definition isRowHit (r : Request) s : bool :=
  match bankTable s !! nth Mem.Rank (addressMap r) 0 with
  | Some t => match t !! nth Mem.Bank (addressMap r) 0 with Some rw => rw =? row r | None => false end
  | None => false
  end.

Definition updateRowTable (rk bk rw : Z) s : RequestScheduler :=
  rs_set (<[rk := <[bk := rw]> (default ∅ (bankTable s !! rk))]> (bankTable s)) (requestorIndex s) (rs_generator s) s.

(** [isSchedulable]: cracks the request into commands; always [true]. *)
Definition isSchedulable (r : Request) (open : bool) s : outcome RequestScheduler :=
  let! g := commandGenerate r open (rs_generator s) in Ok (rs_set (bankTable s) (requestorIndex s) g s).

Definition rs_step s : RequestScheduler :=
  mkRequestScheduler (rs_kind s) (rs_clock s + 1) (bankTable s) (switch_enable s) (requestorIndex s) (rs_generator s).
Definition flushWriteReq (sw : bool) s : RequestScheduler :=
  mkRequestScheduler (rs_kind s) (rs_clock s) (bankTable s) sw (requestorIndex s) (rs_generator s).

(** The first row hit, or the oldest request, remembered for removal. *)
Fixpoint first_hit (l : list Request) (s : RequestScheduler) : option nat :=
  match l with
  | [] => None
  | r :: l' => if isRowHit r s then Some O else S <$> first_hit l' s
  end.
Definition scheduleFR (q : RequestQueue) s : outcome (option Request * RequestQueue) :=
  getRequest (default O (first_hit (generalBuffer q) s)) q.

(** [bankFlag]: whether the command queue of a bank is empty; a bank without a
    queue reads [false]. *)
Definition bank_flags (cqs : list CommandQueue) : list bool := (fun q => (cq_getSize true q =? 0)%nat) <$> cqs.
Definition bank_free (flags : list bool) (bk : Z) : bool := nth (Z.to_nat bk) flags false.
Definition bank_taken (flags : list bool) (bk : Z) : list bool := <[Z.to_nat bk := false]> flags.

(** What the scheduling loops carry. *)
Definition Scheduling : Type := RequestQueue * RequestScheduler * list bool.

(** Send a request on: its commands, the row table, its removal, its bank. *)
Definition dispatch (rk bk : Z) (r : Request) (st : Scheduling) : outcome Scheduling :=
  let '(q, s, flags) := st in
  let! s := isSchedulable r (isRowHit r s) s in
  let s := updateRowTable rk bk (row r) s in
  let! q := removeRequest q in
  Ok (q, s, bank_taken flags (bank r)).

(** [RequestScheduler_FRFCFS]: a pass over the queue; the first one serves row
    hits only. *)
Fixpoint frfcfs_pass (hits_only : bool) (fuel index : nat) (st : Scheduling) : outcome Scheduling :=
  match fuel with
  | O => Ok st
  | S f =>
      let '(q, s, flags) := st in
      if (index <? length (generalBuffer q))%nat then
        let! c := getRequestCheck index q in
        let! st :=
          (match c with
           | None => Ok st
           | Some r =>
               if bank_free flags (bank r) && (negb hits_only || isRowHit r s) then
                 let! (c', q') := getRequest index q in
                 match c' with Some r' => dispatch (rank r') (bank r') r' (q', s, flags) | None => Ok st end
               else Ok st
           end) in
        frfcfs_pass hits_only f (S index) st
      else Ok st
  end.
Definition frfcfs_schedule (st : Scheduling) : outcome Scheduling :=
  let passes (hits_only : bool) (st : Scheduling) :=
    frfcfs_pass hits_only (length (generalBuffer (fst (fst st)))) O st in
  let! st := passes true st in passes false st.

(** [RequestScheduler_FCFS], one queue: the oldest head among the requestors. *)
Fixpoint oldest_head (fuel num : nat) (q : RequestQueue) (best : option (Request * nat)) : outcome (option (Request * nat)) :=
  match fuel with
  | O => Ok best
  | S f =>
      let! sz := getSize true num q in
      let! best :=
        (if (sz =? 0)%nat then Ok best else
         let! c := checkRequestIndex num O q in
         match c, best with
         | Some r, Some (b, _) => Ok (if arriveTime r <=? arriveTime b then Some (r, num) else best)
         | Some r, None => Ok (Some (r, num))
         | None, _ => Ok best
         end) in
      oldest_head f (S num) q best
  end.
(** [stale]: an earlier queue has left its candidate behind, which a queue
    without requests then takes for its own. *)
Definition fcfs_schedule (stale : bool) (st : Scheduling) : outcome Scheduling :=
  let '(q, s, flags) := st in
  let! (c, q) :=
    (if rq_perRequestor q then
       let! best := oldest_head (getQueueSize q) O q None in
       match best with
       | Some (_, num) => getRequestOf num O q
       | None => if stale then Crash "null request" else Ok (None, q)
       end
     else getRequest O q) in
  match c with
  | None => Ok (q, s, flags)
  | Some r => let! (q, s, _) := dispatch (nth Mem.Rank (addressMap r) 0) (nth Mem.Bank (addressMap r) 0) r (q, s, flags) in Ok (q, s, flags)
  end.

(** [RequestScheduler_Direct], one queue: one turn per requestor, the first
    request of each whose bank is free. *)
Fixpoint direct_turns (fuel qi : nat) (st : Scheduling) : outcome Scheduling :=
  match fuel with
  | O => Ok st
  | S f =>
      let '(q, s, flags) := st in
      let cur := nth qi (requestorIndex s) O in
      let! sz := getSize true cur q in
      let! st :=
        (if (sz =? 0)%nat then Ok st else
         let! (c, q) := getRequestOf cur O q in
         match c with
         | Some r => if bank_free flags (bank r) then dispatch (nth Mem.Rank (addressMap r) 0) (nth Mem.Bank (addressMap r) 0) r (q, s, flags) else Ok (q, s, flags)
         | None => Ok (q, s, flags)
         end) in
      let '(q, s, flags) := st in
      let next := if Nat.eqb (S cur) (getQueueSize q) then O else S cur in
      direct_turns f qi (q, rs_set (bankTable s) (<[qi := next]> (requestorIndex s)) (rs_generator s) s, flags)
  end.
Definition direct_schedule (qi : nat) (st : Scheduling) : outcome Scheduling :=
  let '(q, s, flags) := st in
  if rq_perRequestor q then direct_turns (getQueueSize q) qi st
  else
    let! (c, q) := scheduleFR q s in
    match c with
    | Some r => if bank_free flags (bank r) then dispatch (rank r) (bank r) r (q, s, flags) else Ok (q, s, flags)
    | None => Ok (q, s, flags)
    end.

(** [requestSchedule]: over the request queues; FRFCFS serves the first only. *)
Definition schedule_queue (qi : nat) (stale : bool) (st : Scheduling) : outcome Scheduling :=
  let '(_, s, _) := st in
  match rs_kind s with
  | RS_FRFCFS => if Nat.eqb qi O then frfcfs_schedule st else Ok st
  | RS_FCFS => fcfs_schedule stale st
  | RS_DIRECT => direct_schedule qi st
  end.
(** Whether a queue leaves a candidate behind. *)
Definition leaves_candidate (q : RequestQueue) : bool :=
  rq_perRequestor q && existsb (fun id => negb (length (requests_of id q) =? 0)%nat) (requestorOrder q).
Fixpoint schedule_queues (qi : nat) (stale : bool) (qs : list RequestQueue) (s : RequestScheduler) (flags : list bool)
    : outcome (list RequestQueue * RequestScheduler) :=
  match qs with
  | [] => Ok ([], s)
  | q :: qs' =>
      let stale' := stale || leaves_candidate q in
      let! (q, s, flags) := schedule_queue qi stale (q, s, flags) in
      let! (qs', s) := schedule_queues (S qi) stale' qs' s flags in
      Ok (q :: qs', s)
  end.
Definition requestSchedule (qs : list RequestQueue) (cqs : list CommandQueue) s : outcome (list RequestQueue * RequestScheduler) :=
  schedule_queues O false qs s (bank_flags cqs).
End RequestScheduler.

(** ** The refresh machine *)

Inductive RefreshMechanism := REFRESH_NONE | REFRESH_DISTRIBUTED | REFRESH_PER_BANK.
#[global] Instance RefreshMechanism_eq_dec : EqDecision RefreshMechanism.
Proof. solve_decision. Defined.

Record RefreshMachine := mkRefresh {
  rf_commands : list BusPacket;
  isRefreshingBank : list Z;            (* the banks that read true *)
  rf_ranks : Z; rf_banks : Z; rf_tREFI : Z; rf_tRFCpb : Z; rf_tRFC : Z; rf_tRCD : Z;
  refresh_mechanism : RefreshMechanism;
  isRefreshing : bool;
  isInterval : bool;
  Round_robin : Z;
  rf_flag : bool;
  bank_release : Z;
  interval_pb : Z;
  globeRefreshCountdown : Z;
  refreshCounting : Z }.

(** The constructor: [refresh_mechanism] is ["none"]; [junk] is what the two
    fields it leaves out hold. *)
Definition newRefreshMachine (ranks banks tREFI tRFCpb tRFC tRCD junk : Z) : RefreshMachine :=
  mkRefresh [] [] ranks banks tREFI tRFCpb tRFC tRCD REFRESH_NONE false false 0 false junk (tREFI / 8) (tREFI / 8) junk.

Section Refresh.
Implicit Types f : RefreshMachine.

Definition rf_set (cmds : list BusPacket) (busy : list Z) (refreshing interval : bool) (rr : Z) (flag : bool)
    (release countdown counting : Z) f : RefreshMachine :=
  mkRefresh cmds busy (rf_ranks f) (rf_banks f) (rf_tREFI f) (rf_tRFCpb f) (rf_tRFC f) (rf_tRCD f) (refresh_mechanism f)
    refreshing interval rr flag release (interval_pb f) countdown counting.

Definition busyBank (bk : Z) f : bool := existsb (Z.eqb bk) (isRefreshingBank f).

(** [refresh]: the command to issue, if any. *)
Definition rf_refresh f : option BusPacket * RefreshMachine :=
  let cmd := if rf_flag f then None else head (rf_commands f) in
  if (refreshCounting f =? 0) && rf_flag f then
    let busy := match refresh_mechanism f with
      | REFRESH_PER_BANK => List.filter (fun b => negb (b =? bank_release f)) (isRefreshingBank f)
      | REFRESH_DISTRIBUTED => List.filter (fun b => rf_banks f <=? b) (isRefreshingBank f)
      | REFRESH_NONE => isRefreshingBank f
      end in
    (head (rf_commands f),
     rf_set (rf_commands f) busy false false (Round_robin f) false (bank_release f) (globeRefreshCountdown f) (refreshCounting f) f)
  else (cmd, f).

(** [popCommand]; the packet after the last one is read before it is missed. *)
Definition popCommand f : outcome RefreshMachine :=
  match rf_commands f with
  | [] => Crash out_of_range
  | p :: rest =>
      let '(release, counting, flag) := match busPacketType p with
        | Pkt.REFPB => (p_bank p, rf_tRFCpb f, true)
        | Pkt.REF => (p_bank p, rf_tRFC f, true)
        | _ => (bank_release f, refreshCounting f, rf_flag f)
        end in
      match rest with
      | [] => Crash out_of_range
      | p' :: _ =>
          let counting := if bool_decide (busPacketType p' = Pkt.ACT) then counting + rf_tRCD f else counting in
          Ok (rf_set rest (isRefreshingBank f) (isRefreshing f) (isInterval f) (Round_robin f) flag release
                (globeRefreshCountdown f) counting f)
      end
  end.

Definition refreshPacket (type : Pkt.BusPacketType) (rw bk rk : Z) : BusPacket := newPacket type 0 0 0 rw bk rk 0 0.

(** [commandGenerate]: precharge, refresh, and the rows that pending accesses
    need again.  Per bank: the bank whose turn it is. *)
Definition pending_access (q : CommandQueue) : option BusPacket :=
  match hrtBuffer q with
  | p :: _ => if Pkt.value (busPacketType p) <? Pkt.value Pkt.ACT then Some p else None
  | [] => None
  end.
Definition rf_commandGenerate (cqs : list CommandQueue) f : RefreshMachine :=
  let pending := omap pending_access cqs in
  let rr := Round_robin f in
  match refresh_mechanism f with
  | REFRESH_NONE => f
  | REFRESH_DISTRIBUTED =>
      let all := concat ((fun rk => [refreshPacket Pkt.PREA 0 0 rk; refreshPacket Pkt.REF 0 0 rk]) <$> seqZ 0 (rf_ranks f)) in
      let busy := if 0 <? rf_ranks f then seqZ 0 (rf_banks f) else [] in
      rf_set (rf_commands f ++ all ++ ((fun p => refreshPacket Pkt.ACT (p_row p) (p_bank p) (p_rank p)) <$> pending))
        (busy ++ isRefreshingBank f) (isRefreshing f) (isInterval f) rr (rf_flag f) (bank_release f)
        (globeRefreshCountdown f) (refreshCounting f) f
  | REFRESH_PER_BANK =>
      let mine := List.filter (fun p => p_bank p =? rr) pending in
      let own := concat ((fun p => [refreshPacket Pkt.PRE 0 rr 0; refreshPacket Pkt.REFPB 0 rr 0;
                                    refreshPacket Pkt.ACT (p_row p) (p_bank p) (p_rank p)]) <$> mine) in
      let alone := match mine with [] => [refreshPacket Pkt.REFPB 0 rr 0] | _ => [] end in
      let rr' := if rr + 1 =? 8 then 0 else rr + 1 in
      rf_set (rf_commands f ++ own ++ alone) (rr :: isRefreshingBank f) (isRefreshing f) (isInterval f) rr' (rf_flag f)
        (bank_release f) (globeRefreshCountdown f) (refreshCounting f) f
  end.

Definition rf_step (cqs : list CommandQueue) f : RefreshMachine :=
  let countdown := match refresh_mechanism f with
    | REFRESH_NONE => globeRefreshCountdown f
    | _ => w32 (globeRefreshCountdown f - 1)
    end in
  let f :=
    (if countdown =? 0 then
       let reload := match refresh_mechanism f with
         | REFRESH_PER_BANK => interval_pb f
         | REFRESH_DISTRIBUTED => w32 (rf_tREFI f)
         | REFRESH_NONE => countdown
         end in
       rf_commandGenerate cqs
         (rf_set (rf_commands f) (isRefreshingBank f) true true (Round_robin f) (rf_flag f) (bank_release f) reload (refreshCounting f) f)
     else rf_set (rf_commands f) (isRefreshingBank f) (isRefreshing f) (isInterval f) (Round_robin f) (rf_flag f) (bank_release f)
            countdown (refreshCounting f) f) in
  rf_set (rf_commands f) (isRefreshingBank f) (isRefreshing f) (isInterval f) (Round_robin f) (rf_flag f) (bank_release f)
    (globeRefreshCountdown f) (if refreshCounting f =? 0 then 0 else refreshCounting f - 1) f.
End Refresh.

(** ** Command schedulers *)

Inductive CommandSchedulerKind := CS_FCFS | CS_FRFCFS | CS_PUSH.

(** Counters by command type. *)
Definition Timers : Type := gmap Z Z.
Definition timer (type : Pkt.BusPacketType) (t : Timers) : Z := default 0 (t !! Pkt.value type).

Record CommandScheduler := mkCommandScheduler {
  cs_kind : CommandSchedulerKind;
  cmdQueueTimer : gmap nat Timers;
  reqCmdQueueTimer : list (gmap Z Timers);
  refreshMachine : RefreshMachine;
  scheduledCommand : option BusPacket;  (* the packet is deleted by the controller *)
  cs_clock : Z }.

Definition newCommandScheduler (kind : CommandSchedulerKind) (queues : nat) (f : RefreshMachine) : CommandScheduler :=
  mkCommandScheduler kind ∅ (repeat ∅ queues) f None 1.

Section CommandScheduler.
Implicit Types s : CommandScheduler.

(** What a command scheduler works on: the queues, itself and the device. *)
Record Channel := mkChannel { ch_queues : list CommandQueue; ch_scheduler : CommandScheduler; ch_device : MemoryDevice }.
Implicit Types c : Channel.

Definition cs_set (timers : gmap nat Timers) (req : list (gmap Z Timers)) (f : RefreshMachine) s : CommandScheduler :=
  mkCommandScheduler (cs_kind s) timers req f (scheduledCommand s) (cs_clock s).

Definition queue_timers (qi : nat) s : Timers := default ∅ (cmdQueueTimer s !! qi).
Definition requestor_timers (qi : nat) (id : Z) s : Timers :=
  match reqCmdQueueTimer s !! qi with Some m => default ∅ (m !! id) | None => ∅ end.

(** [isReady]: the timer of its queue has run out. *)
Definition isReady (p : BusPacket) (qi : nat) (q : CommandQueue) s : bool :=
  timer (busPacketType p) (if cq_perRequestor q then requestor_timers qi (p_requestorID p) s else queue_timers qi s) =? 0.

Definition isIssuable (p : BusPacket) c : outcome bool :=
  if busyBank (p_bank p) (refreshMachine (ch_scheduler c)) then Ok false else command_check p (ch_device c).

(** The timers after a command. *)
Definition bump_timers (t : Timings) (cmd : Pkt.BusPacketType) (tm : Timers) : Timers :=
  foldl (fun tm type => <[Pkt.value type := Z.max (timer type tm) (command_timing t cmd type)]> tm) tm Pkt.timed_types.

(** [sendCommand]: timers, queue, device.  [bypass] leaves the queue alone. *)
Definition sendCommand (p : BusPacket) (qi : nat) (bypass : bool) c : outcome Channel :=
  match ch_queues c !! qi with
  | None => Crash out_of_range
  | Some q =>
      let s := ch_scheduler c in
      let tm := dm_timings (dv_model (ch_device c)) in
      let! (q, s) :=
        (if cq_perRequestor q then
           let! q := removeCommandOf (p_requestorID p) q in
           let m := default ∅ (reqCmdQueueTimer s !! qi) in
           let t := bump_timers tm (busPacketType p) (requestor_timers qi (p_requestorID p) s) in
           Ok (q, cs_set (cmdQueueTimer s) (<[qi := <[p_requestorID p := t]> m]> (reqCmdQueueTimer s)) (refreshMachine s) s)
         else
           let! q := (if bypass then Ok q else removeCommand q) in
           let t := bump_timers tm (busPacketType p) (queue_timers qi s) in
           Ok (q, cs_set (<[qi := t]> (cmdQueueTimer s)) (reqCmdQueueTimer s) (refreshMachine s) s)) in
      let! d := receiveFromBus p (ch_device c) in
      Ok (mkChannel (<[qi := q]> (ch_queues c)) s d)
  end.

(** [refresh]: the next command of the refresh machine, if the device takes it. *)
Definition cs_refresh c : outcome Channel :=
  let s := ch_scheduler c in
  if isInterval (refreshMachine s) then
    let '(cmd, f) := rf_refresh (refreshMachine s) in
    match cmd with
    | None => Ok (mkChannel (ch_queues c) (cs_set (cmdQueueTimer s) (reqCmdQueueTimer s) f s) (ch_device c))
    | Some p =>
        let! ok := command_check p (ch_device c) in
        if ok : bool then
          let! d := receiveFromBus p (ch_device c) in
          let! f := popCommand f in
          Ok (mkChannel (ch_queues c) (cs_set (cmdQueueTimer s) (reqCmdQueueTimer s) f s) d)
        else Ok (mkChannel (ch_queues c) (cs_set (cmdQueueTimer s) (reqCmdQueueTimer s) f s) (ch_device c))
    end
  else Ok c.

(** The head of a queue, if it is ready and issuable; the queue remembers that
    its critical half was read. *)
Definition set_queue (qi : nat) (q : CommandQueue) c : Channel := mkChannel (<[qi := q]> (ch_queues c)) (ch_scheduler c) (ch_device c).
Definition ready_head (qi : nat) (q : CommandQueue) c : outcome (option BusPacket * Channel) :=
  if (cq_getSize true q =? 0)%nat then Ok (None, c) else
  let! (p, q) := getCommand true q in
  let c := set_queue qi q c in
  if isReady p qi q (ch_scheduler c) then
    let! ok := isIssuable p c in Ok (if ok : bool then Some p else None, c)
  else Ok (None, c).

(** The head of a requestor, if it is ready, issuable and of a wanted type. *)
Definition ready_of (want : BusPacket -> bool) (qi num : nat) (q : CommandQueue) c : outcome (option BusPacket) :=
  let! sz := getRequestorSize num q in
  if (sz =? 0)%nat then Ok None else
  let! p := getRequestorCommand num q in
  if want p && isReady p qi q (ch_scheduler c) then let! ok := isIssuable p c in Ok (if ok : bool then Some p else None)
  else Ok None.

(** Two passes over the requestors: a first candidate, then any that [better]
    prefers. *)
Fixpoint best_of (want : BusPacket -> bool) (better : BusPacket -> BusPacket -> bool) (fuel qi num : nat) (q : CommandQueue) c
    (best : option BusPacket) : outcome (option BusPacket) :=
  match fuel with
  | O => Ok best
  | S f =>
      let! p := ready_of want qi num q c in
      best_of want better f qi (S num) q c
        (match p, best with Some p, Some b => if better p b then Some p else best | Some p, None => Some p | None, _ => best end)
  end.

Definition is_type (ts : list Pkt.BusPacketType) (p : BusPacket) : bool := existsb (fun t => bool_decide (busPacketType p = t)) ts.
Definition is_CAS : BusPacket -> bool := is_type [Pkt.RD; Pkt.WR].
Definition any_command (p : BusPacket) : bool := true.
Definition earlier (p b : BusPacket) : bool := p_arriveTime p <? p_arriveTime b.
Definition no_later (p b : BusPacket) : bool := p_arriveTime p <=? p_arriveTime b.

Definition forget_scheduled c : Channel :=
  let s := ch_scheduler c in
  mkChannel (ch_queues c) (mkCommandScheduler (cs_kind s) (cmdQueueTimer s) (reqCmdQueueTimer s) (refreshMachine s) None (cs_clock s))
    (ch_device c).
Definition note_scheduled (p : BusPacket) c : Channel :=
  let s := ch_scheduler c in
  mkChannel (ch_queues c) (mkCommandScheduler (cs_kind s) (cmdQueueTimer s) (reqCmdQueueTimer s) (refreshMachine s) (Some p) (cs_clock s))
    (ch_device c).
Definition issue (p : BusPacket) (qi : nat) c : outcome (option BusPacket * Channel) :=
  let! c := sendCommand p qi false (note_scheduled p c) in Ok (Some p, c).

(** *** [CommandScheduler_FRFCFS] *)

(** Whether a head replaces the candidate. *)
Definition prefer (p b : BusPacket) : bool :=
  if is_CAS p then earlier p b
  else if is_type [Pkt.ACT] p then
    if is_type [Pkt.ACT] b then earlier p b else is_type [Pkt.PRE] b
  else if is_type [Pkt.PRE] p then is_type [Pkt.PRE] b && earlier p b
  else false.

(** The queues of one requestor each: accesses first, then row commands. *)
Definition row_command : BusPacket -> bool := is_type [Pkt.ACT; Pkt.PRE].
Definition frfcfs_requestors (qi : nat) (q : CommandQueue) c : outcome (option BusPacket) :=
  let n := getRequestorIndex q in
  let! cas := best_of is_CAS earlier n qi O q c None in
  match cas with
  | Some p => Ok (Some p)
  | None =>
      let! last := best_of row_command (fun _ _ => true) n qi O q c None in
      best_of row_command earlier n qi O q c last
  end.

Fixpoint frfcfs_commands (fuel qi : nat) (best : option (BusPacket * nat)) c : outcome (option BusPacket * Channel) :=
  match fuel, ch_queues c !! qi with
  | S f, Some q =>
      if cq_perRequestor q then
        let! p := frfcfs_requestors qi q c in
        match p with Some p => issue p qi c | None => frfcfs_commands f (S qi) best c end
      else
        let! (p, c) := ready_head qi q c in
        let best := match p, best with
          | Some p, Some (b, _) => if prefer p b then Some (p, qi) else best
          | Some p, None => Some (p, qi)
          | None, _ => best
          end in
        match f, best with
        | O, Some (p, i) => issue p i c
        | _, _ => frfcfs_commands f (S qi) best c
        end
  | _, _ => Ok (scheduledCommand (ch_scheduler c), c)
  end.

(** *** [CommandScheduler_FCFS] *)

(** Nothing issued: the pointer of an earlier cycle is returned, if no queue
    has cleared it. *)
Definition fcfs_nothing c : outcome (option BusPacket * Channel) :=
  match scheduledCommand (ch_scheduler c) with None => Ok (None, c) | Some _ => Crash "dangling command" end.

Fixpoint fcfs_commands (fuel qi : nat) c : outcome (option BusPacket * Channel) :=
  match fuel, ch_queues c !! qi with
  | S f, Some q =>
      if cq_perRequestor q then
        let! p := best_of any_command no_later (getRequestorIndex q) qi O q c None in
        match p with Some p => issue p qi c | None => fcfs_commands f (S qi) c end
      else
        let! (p, c) := ready_head qi q (forget_scheduled c) in
        match p with Some p => issue p qi c | None => fcfs_commands f (S qi) c end
  | _, _ => fcfs_nothing c
  end.

(** *** [CommandScheduler_PUSH] *)

Fixpoint push_pass (keep : BusPacket -> BusPacket -> bool) (fuel qi : nat) (best : option (BusPacket * nat)) c
    : outcome (option (BusPacket * nat) * Channel) :=
  match fuel, ch_queues c !! qi with
  | S f, Some q =>
      let! (p, c) := ready_head qi q (forget_scheduled c) in
      push_pass keep f (S qi)
        (match p, best with
         | Some p, Some (b, _) => if keep p b then Some (p, qi) else best
         | Some p, None => Some (p, qi)
         | None, _ => best
         end) c
  | _, _ => Ok (best, c)
  end.
Definition push_commands_schedule (n : nat) c : outcome (option BusPacket * Channel) :=
  let! (last, c) := push_pass (fun _ _ => true) n O None c in
  let! (best, c) := push_pass no_later n O last c in
  match best with Some (p, qi) => issue p qi c | None => Ok (scheduledCommand (ch_scheduler c), c) end.

(** [commandSchedule]: the command issued this cycle. *)
Definition commandSchedule c : outcome (option BusPacket * Channel) :=
  let n := length (ch_queues c) in
  match cs_kind (ch_scheduler c) with
  | CS_FRFCFS => frfcfs_commands n O None (forget_scheduled c)
  | CS_FCFS => fcfs_commands n O c
  | CS_PUSH => push_commands_schedule n c
  end.

(** [tick]: the timers of every queue, the refresh machine, the clock. *)
Definition tick_timers (t : Timers) : Timers := (fun x : Z => if 0 <? x then x - 1 else x) <$> t.
Definition cs_tick c : Channel :=
  let s := ch_scheduler c in
  let per qi := match ch_queues c !! qi with Some q => cq_perRequestor q | None => true end in
  mkChannel (ch_queues c)
    (mkCommandScheduler (cs_kind s)
       (map_imap (fun qi t => Some (if per qi then t else tick_timers t)) (cmdQueueTimer s))
       (imap (fun qi m => if per qi then tick_timers <$> m else m) (reqCmdQueueTimer s))
       (rf_step (ch_queues c) (refreshMachine s)) (scheduledCommand s) (cs_clock s + 1))
    (ch_device c).
End CommandScheduler.
