(* ===== verification/McController.v ===== *)
(** * MCsim: the memory controller

    [src/MCsim/src/MemoryController.cpp], [SchedulerRegister.h],
    [MemorySystem.cpp], [MultiChannelMemorySystem.cpp] and [ClockDomain.cpp]:
    from a request of the cache side to the callback that answers it.  What a
    controller shares with its scheduler (the generator) and what the scheduler
    drives (the command queues, the device) are the fields [mc_scheduler] and
    [mc_channel].  Statistics and traces are left out; an event is a call of a
    registered callback. *)

From S2P Require Export CText Cpu McSchedulers.

Local Open Scope list_scope.
Open Scope Z_scope.
Import MC.

(** ** The configuration file *)

Record MCConfig := mkConfig {
  reqMap : list Z;
  writeQueueEnable : bool;
  requestorReqQ : bool;
  cmdMap : list Z;
  requestorCmdQ : bool;
  configTable : gmap string string }.

(** [junk]: the flags nothing initialises. *)
Definition noConfig (junk : bool) : MCConfig := mkConfig [] junk junk [] junk ∅.

Section Config.
Implicit Types c : MCConfig.
Local Open Scope string_scope.

Definition isNumeric (s : string) : bool :=
  forallb (fun a => match digit a with Some _ => true | None => false end) (String.list_ascii_of_string s).
(** [ss >> intValue]: too large a number is [UINT_MAX]. *)
Definition convertNumber (s : string) : Z := if isNumeric s then Z.min (uint_max 32) (digits s 0) else 0.
Definition setQueue (queueOrg : string) (queueMap : list Z) : list Z :=
  queueMap ++ ((fun a => if Ascii.eqb a "1" then 1 else 0) <$> String.list_ascii_of_string queueOrg).

Definition SetKey (key value : string) c : MCConfig :=
  let flag := negb (Z.eqb (convertNumber value) 0) in
  if String.eqb key "RequestQueue" then
    mkConfig (setQueue value (reqMap c)) (writeQueueEnable c) (requestorReqQ c) (cmdMap c) (requestorCmdQ c) (configTable c)
  else if String.eqb key "WriteQueue" then
    mkConfig (reqMap c) flag (requestorReqQ c) (cmdMap c) (requestorCmdQ c) (configTable c)
  else if String.eqb key "ReqPerREQ" then
    mkConfig (reqMap c) (writeQueueEnable c) flag (cmdMap c) (requestorCmdQ c) (configTable c)
  else if String.eqb key "CommandQueue" then
    mkConfig (reqMap c) (writeQueueEnable c) (requestorReqQ c) (setQueue value (cmdMap c)) (requestorCmdQ c) (configTable c)
  else if String.eqb key "CmdPerREQ" then
    mkConfig (reqMap c) (writeQueueEnable c) (requestorReqQ c) (cmdMap c) flag (configTable c)
  else
    mkConfig (reqMap c) (writeQueueEnable c) (requestorReqQ c) (cmdMap c) (requestorCmdQ c) (<[key := value]> (configTable c)).

Definition blank (a : ascii) : bool := Ascii.eqb a " " || Ascii.eqb a "009".
(** The end spaces go, unless the line has nothing else. *)
Fixpoint trim_end (s : string) : string :=
  match s with
  | "" => ""
  | String a s' => match trim_end s' with "" => if blank a then "" else String a "" | t => String a t end
  end.
Definition trim_spaces (s : string) : string := match trim_end s with "" => s | t => t end.

(** One line of the file. *)
Definition config_line (c : MCConfig) (line : string) : outcome MCConfig :=
  if String.eqb line "" then Ok c else
  let line := match break_at ";" line with Some (before, _) => before | None => line end in
  if String.eqb line "" then Ok c else
  match break_at "=" (trim_spaces line) with
  | None => Crash aborted
  | Some (key, value) => Ok (SetKey key value c)
  end.
(** A file that does not open configures nothing. *)
Definition readConfigFile (file : option (list string)) c : outcome MCConfig :=
  match file with None => Ok c | Some lines => ofold config_line lines c end.

(** [configTable[key]]. *)
Definition setting (key : string) c : string := default "" (configTable c !! key).

(** [SchedulerRegister]: a registered scheduler this development does not
    model has no model controller either. *)
Definition unmodelled : string := "scheduler not modelled".
Definition registered {A} (table : list (string * A)) (others : list string) (name : string) : outcome A :=
  match List.find (fun p => String.eqb (fst p) name) table with
  | Some (_, k) => Ok k
  | None => if existsb (String.eqb name) others then Crash unmodelled else Crash aborted
  end.
Definition getRequestScheduler : string -> outcome RequestSchedulerKind :=
  registered [("DIRECT", RS_DIRECT); ("FCFS", RS_FCFS); ("FRFCFS", RS_FRFCFS)]
    ["RR"; "FRFCFS_Batching"; "FRFCFS_cap"; "BLISS"; "PARBS"; "RTMem"; "PMC"; "MCMC"; "MEDUSA"; "RROF"].
Definition getCommandGenerator : string -> outcome GeneratorKind :=
  registered [("OPEN", GEN_OPEN); ("CLOSE", GEN_CLOSE)] ["ROUND"; "MCMC"; "PipeCAS"].
Definition getCommandScheduler : string -> outcome CommandSchedulerKind :=
  registered [("FRFCFS", CS_FRFCFS); ("FCFS", CS_FCFS); ("PUSH", CS_PUSH)]
    ["RTMem"; "Round"; "ORP"; "DCmc"; "MAG"; "ReOrder"; "ROC"; "PipeCAS"; "rankReOrder"; "RROF"].
End Config.

(** ** Queue indices *)

Definition first_one (queueMap : list Z) : option nat := fst <$> list_find (fun b => b = 1) queueMap.

(** [memTable] has six entries, [addressMap] four. *)
Definition queueNumber (memTable queueMap : list Z) : outcome Z :=
  match first_one queueMap with
  | None => Ok 1
  | Some i => if (i <? length memTable)%nat then Ok (foldl (fun n m => w32 (n * m)) 1 (take (S i) memTable)) else Crash out_of_range
  end.
Definition decodeQueue (memTable addressMap queueMap : list Z) : outcome Z :=
  match first_one queueMap with
  | None => Ok 0
  | Some i =>
      match addressMap !! i, memTable !! i with
      | Some a, Some m =>
          let level := foldl (fun level v => if 0 <? v then if level =? 0 then v else w32 (level * v) else level) 0 (take i addressMap) in
          Ok (w32 (a + level * m))
      | _, _ => Crash out_of_range
      end
  end.

(** ** The controller *)

(** [ReturnReadData] and [WriteDataDone]: the address and the clock. *)
Inductive Event := ReturnReadData (address clock : Z) | WriteDataDone (address clock : Z).

Record MemoryController := mkController {
  mc_config : MCConfig;
  memTable : list Z;
  mc_dataBusWidth : Z;
  requestorCriticalTable : gmap Z bool;
  mc_mapping : AddressMapping;
  requestQueue : list RequestQueue;
  mc_scheduler : RequestScheduler;
  mc_channel : Channel;
  pendingReadRequest : list Request;
  pendingWriteRequest : list Request;
  sendDataBuffer : list (Z * BusPacket);    (* with sendDataCounter *)
  mc_clockCycle : Z }.

(** [connectMemoryDevice], on a controller read from its configuration file. *)
Definition connectMemoryDevice (config : MCConfig) (numberRequestors : nat) (junk : Z) (d : MemoryDevice) : outcome MemoryController :=
  let table := [dv_ranks d; dv_bankGroups d; dv_banks d; 1; dv_rows d; dv_columns d] in
  let width := get_DataBus d in
  let! nreq := queueNumber table (reqMap config) in
  let! ncmd := queueNumber table (cmdMap config) in
  let! dec := newAddressMapping (setting "AddressMapping" config) table in
  let! rs := getRequestScheduler (setting "RequestScheduler" config) in
  let! g := getCommandGenerator (setting "CommandGenerator" config) in
  let! cs := getCommandScheduler (setting "CommandScheduler" config) in
  let count c := get_constraints c d in
  let f := newRefreshMachine (dv_ranks d) (dv_banks d) (count "tREFI"%string) (count "tRFCpb"%string)
             (count "tRFC"%string) (count "tRCD"%string) junk in
  Ok (mkController config table width (list_to_map ((fun id => (Z.of_nat id, true)) <$> seq 0 numberRequestors)) dec
        (repeat (newRequestQueue (requestorReqQ config) (writeQueueEnable config)) (Z.to_nat nreq))
        (newRequestScheduler rs (Z.to_nat nreq) (newCommandGenerator g width))
        (mkChannel (repeat (newCommandQueue (requestorCmdQ config)) (Z.to_nat ncmd)) (newCommandScheduler cs (Z.to_nat ncmd) f) d)
        [] [] [] 0).

Section Controller.
Implicit Types c : MemoryController.

Definition mc_set (rqs : list RequestQueue) (s : RequestScheduler) (ch : Channel) (reads writes : list Request)
    (send : list (Z * BusPacket)) c : MemoryController :=
  mkController (mc_config c) (memTable c) (mc_dataBusWidth c) (requestorCriticalTable c) (mc_mapping c) rqs s ch reads writes send
    (mc_clockCycle c).

Definition setRequestor (id : Z) (criticality : bool) c : MemoryController :=
  mkController (mc_config c) (memTable c) (mc_dataBusWidth c) (<[id := criticality]> (requestorCriticalTable c)) (mc_mapping c)
    (requestQueue c) (mc_scheduler c) (mc_channel c) (pendingReadRequest c) (pendingWriteRequest c) (sendDataBuffer c) (mc_clockCycle c).

(** A new request, mapped, and the queue it goes to. *)
Definition incoming (junk id address : Z) (R_W : bool) (size reqID : Z) c : outcome (Request * Z) :=
  let r := newRequest junk id (if R_W then DATA_READ else DATA_WRITE) size address in
  let r := mkRequest (requestType r) (requestorID r) (requestSize r) (MC.address r) (w32 (mc_clockCycle c)) (rank r) (bankGroup r)
             (bank r) (subArray r) (row r) (col r) (addressMap r) reqID in
  let! r := addressMapping (mc_mapping c) r in
  let! qi := decodeQueue (memTable c) (addressMap r) (reqMap (mc_config c)) in
  Ok (r, qi).
(** Into its queue, and among the requests waiting for their data. *)
Definition admit_request (r : Request) (qi : Z) c : outcome MemoryController :=
  match requestQueue c !! Z.to_nat qi with
  | None => Crash out_of_range
  | Some q =>
      let rd := bool_decide (requestType r = DATA_READ) in
      Ok (mc_set (<[Z.to_nat qi := insertRequest r q]> (requestQueue c)) (mc_scheduler c) (mc_channel c)
            (if rd then pendingReadRequest c ++ [r] else pendingReadRequest c)
            (if rd then pendingWriteRequest c else pendingWriteRequest c ++ [r]) (sendDataBuffer c) c)
  end.

(** [addRequest] with four arguments. *)
Definition mc_addRequest (junk id address : Z) (R_W : bool) (size : Z) c : outcome MemoryController :=
  let! (r, qi) := incoming junk id address R_W size 0 c in admit_request r qi c.

(** [addRequest] with a request id: a read that meets a queued write to its
    address is answered at the next call, [hitRequest] being static. *)
Fixpoint write_waiting (fuel requestor : nat) (address : Z) (q : RequestQueue) : outcome bool :=
  match fuel with
  | O => Ok false
  | S f =>
      match requestorOrder q !! requestor with
      | None => Crash out_of_range
      | Some id =>
          if existsb (fun r => (MC.address r =? address) && bool_decide (requestType r = DATA_WRITE)) (requests_of id q)
          then Ok true else write_waiting f (S requestor) address q
      end
  end.
Definition mc_addRequest_id (junk id address : Z) (R_W : bool) (size reqID : Z) (hitRequest : option Request) c
    : outcome (list Event * option Request * MemoryController) :=
  let evs := match hitRequest with Some h => [ReturnReadData (MC.address h) (mc_clockCycle c)] | None => [] end in
  let! (r, qi) := incoming junk id address R_W size reqID c in
  match requestQueue c !! Z.to_nat qi with
  | None => Crash out_of_range
  | Some q =>
      let! hit := (if R_W then write_waiting (getQueueSize q) O address q else Ok false) in
      if hit : bool then Ok (evs, Some r, c) else let! c := admit_request r qi c in Ok (evs, None, c)
  end.

Definition mc_flushWrite (sw : bool) c : MemoryController :=
  if writeQueueEnable (mc_config c)
  then mc_set (requestQueue c) (flushWriteReq sw (mc_scheduler c)) (mc_channel c) (pendingReadRequest c) (pendingWriteRequest c)
         (sendDataBuffer c) c
  else c.

(** [enqueueCommand]; a requestor that was not set up is not critical. *)
Definition enqueueCommand (memTable : list Z) (critical : gmap Z bool) (cmdMap : list Z) (clock : Z)
    (qs : list CommandQueue) (p : BusPacket) : outcome (list CommandQueue) :=
  let! qi := decodeQueue memTable [0; 0; p_bank p; p_subArray p] cmdMap in
  match qs !! Z.to_nat qi with
  | None => Crash out_of_range
  | Some q => Ok (<[Z.to_nat qi := insertCommand (stamp (w32 clock) p) (default false (critical !! p_requestorID p)) q]> qs)
  end.

(** The first request of the packet: answered when its last beat is here. *)
Fixpoint settle (width : Z) (p : BusPacket) (l : list Request) : option Request * list Request :=
  match l with
  | [] => (None, [])
  | r :: l' =>
      if (p_requestorID p =? requestorID r) && (p_address p =? MC.address r) then
        if requestSize r =? width then (Some r, l') else (None, set_requestSize (w32 (requestSize r - width)) r :: l')
      else let '(x, l'') := settle width p l' in (x, r :: l'')
  end.

Definition receiveData (p : BusPacket) c : list Event * MemoryController :=
  let '(x, reads) := settle (mc_dataBusWidth c) p (pendingReadRequest c) in
  (match x with Some r => [ReturnReadData (MC.address r) (mc_clockCycle c)] | None => [] end,
   mc_set (requestQueue c) (mc_scheduler c) (mc_channel c) reads (pendingWriteRequest c) (sendDataBuffer c) c).

Definition sendData (p : BusPacket) c : outcome (list Event * MemoryController) :=
  let ch := mc_channel c in
  let! d := receiveFromBus p (ch_device ch) in
  let '(x, writes) := settle (mc_dataBusWidth c) p (pendingWriteRequest c) in
  Ok (match x with Some r => [WriteDataDone (MC.address r) (mc_clockCycle c)] | None => [] end,
      mc_set (requestQueue c) (mc_scheduler c) (mkChannel (ch_queues ch) (ch_scheduler ch) d) (pendingReadRequest c) writes
        (sendDataBuffer c) c).

(** *** [update] *)

(** Requests become commands, commands reach their queues. *)
Definition mc_schedule c : outcome MemoryController :=
  let ch := mc_channel c in
  let! (rqs, s) := requestSchedule (requestQueue c) (ch_queues ch) (mc_scheduler c) in
  let g := rs_generator s in
  let! qs := ofold (enqueueCommand (memTable c) (requestorCriticalTable c) (cmdMap (mc_config c)) (mc_clockCycle c))
               (commandBuffer g) (ch_queues ch) in
  Ok (mc_set rqs (rs_set (bankTable s) (requestorIndex s) (mkGenerator (g_kind g) (dataBusSize g) (first g) (lookupTable g) []) s)
        (mkChannel qs (ch_scheduler ch) (ch_device ch)) (pendingReadRequest c) (pendingWriteRequest c) (sendDataBuffer c) c).

(** The data of a write follows its command. *)
Definition write_data (p : BusPacket) c : list (Z * BusPacket) :=
  match busPacketType p with
  | Pkt.WR | Pkt.WRA =>
      let count k := get_constraints k (ch_device (mc_channel c)) in
      [(w32 ((if postCommand p then count "tRCD"%string - 1 else 0) + count "tWL"%string + count "tBus"%string),
        newPacket Pkt.DATA (p_requestorID p) (p_address p) (p_column p) (p_row p) (p_bank p) 0 (p_subArray p) (w32 (mc_clockCycle c)))]
  | _ => []
  end.
Definition mc_command c : outcome (option BusPacket * MemoryController) :=
  let! ch := cs_refresh (mc_channel c) in
  let! (p, ch) := commandSchedule ch in
  let c := mc_set (requestQueue c) (mc_scheduler c) ch (pendingReadRequest c) (pendingWriteRequest c) (sendDataBuffer c) c in
  Ok (p, mc_set (requestQueue c) (mc_scheduler c) ch (pendingReadRequest c) (pendingWriteRequest c)
           (sendDataBuffer c ++ match p with Some p => write_data p c | None => [] end) c).

Definition mc_send c : outcome (list Event * MemoryController) :=
  let! (evs, c) :=
    (match sendDataBuffer c with
     | (0, p) :: rest =>
         let! (evs, c) := sendData p c in
         Ok (evs, mc_set (requestQueue c) (mc_scheduler c) (mc_channel c) (pendingReadRequest c) (pendingWriteRequest c) rest c)
     | _ => Ok ([], c)
     end) in
  Ok (evs, mc_set (requestQueue c) (mc_scheduler c) (mc_channel c) (pendingReadRequest c) (pendingWriteRequest c)
             ((fun x => (w32 (fst x - 1), snd x)) <$> sendDataBuffer c) c).

Definition mc_tick c : MemoryController :=
  mkController (mc_config c) (memTable c) (mc_dataBusWidth c) (requestorCriticalTable c) (mc_mapping c)
    (requestQueue c) (rs_step (mc_scheduler c)) (cs_tick (mc_channel c)) (pendingReadRequest c) (pendingWriteRequest c)
    (sendDataBuffer c) (w64 (mc_clockCycle c + 1)).

Definition mc_update c : outcome (list Event * MemoryController) :=
  let! c := mc_schedule c in
  let! (_, c) := mc_command c in
  let! (evs, c) := mc_send c in
  Ok (evs, mc_tick c).
End Controller.

(** ** [MemorySystem]: a controller and its device *)

Record MemorySystem := mkSystem { sys_controller : MemoryController; sys_clockCycle : Z }.

(** The constructor; any other generation leaves the device pointer unset.
    [DSARP] is not modelled. *)
Definition newMemorySystem (numberRequestors : nat) (ini : option (list string)) (gene speed size : string) (ranks junk : Z)
    : outcome MemorySystem :=
  let! config := readConfigFile ini (noConfig (Z.odd junk)) in
  let! d :=
    (if String.eqb gene "DDR3" then
       let! (o, s) := DDR3.select (String.append gene (String.append "_" size)) (String.append gene (String.append "_" speed)) in
       Ok (newDevice (DDR3_model ranks o s) ranks)
     else if String.eqb gene "DDR4" then
       let! (o, s) := DDR4.select (String.append gene (String.append "_" size)) (String.append gene (String.append "_" speed)) in
       Ok (newDevice (DDR4_model ranks o s) ranks)
     else if String.eqb gene "DSARP" then Crash "device not modelled"
    else Crash "no memory device") in
  let! c := connectMemoryDevice config numberRequestors junk d in
  Ok (mkSystem c 0).

Definition sys_device (m : MemorySystem) : MemoryDevice := ch_device (mc_channel (sys_controller m)).
Definition with_device (d : MemoryDevice) (c : MemoryController) : MemoryController :=
  mc_set (requestQueue c) (mc_scheduler c) (mkChannel (ch_queues (mc_channel c)) (ch_scheduler (mc_channel c)) d)
    (pendingReadRequest c) (pendingWriteRequest c) (sendDataBuffer c) c.

Definition sys_addRequest (junk id address : Z) (R_W : bool) (size : Z) (m : MemorySystem) : outcome MemorySystem :=
  let! c := mc_addRequest junk id address R_W size (sys_controller m) in Ok (mkSystem c (sys_clockCycle m)).

(** [update]: the controller, then the device, whose data goes back to it. *)
Definition sys_update (m : MemorySystem) : outcome (list Event * MemorySystem) :=
  let! (evs, c) := mc_update (sys_controller m) in
  let! (data, d) := dv_update (ch_device (mc_channel c)) in
  let '(evs', c) := match data with Some p => receiveData p c | None => ([], c) end in
  Ok (evs ++ evs', mkSystem (with_device d c) (w64 (sys_clockCycle m + 1))).

(** ** [ClockDomainCrosser] *)

Record ClockDomainCrosser := mkCrosser { clock1 : Z; clock2 : Z; counter1 : Z; counter2 : Z }.

(** The loop of [update]: how many times the callback is called. *)
Fixpoint catch_up (fuel : nat) (x : ClockDomainCrosser) (calls : nat) : outcome (nat * ClockDomainCrosser) :=
  if counter2 x <? counter1 x then
    match fuel with
    | O => Crash "out of fuel"
    | S f => catch_up f (mkCrosser (clock1 x) (clock2 x) (counter1 x) (w64 (counter2 x + clock2 x))) (S calls)
    end
  else Ok (calls, x).
Definition crosser_update (fuel : nat) (x : ClockDomainCrosser) : outcome (nat * ClockDomainCrosser) :=
  if clock1 x =? clock2 x then Ok (1%nat, x) else
  let! (calls, x) := catch_up fuel (mkCrosser (clock1 x) (clock2 x) (w64 (counter1 x + clock1 x)) (counter2 x)) O in
  Ok (calls, if counter1 x =? counter2 x then mkCrosser (clock1 x) (clock2 x) 0 0 else x).

(** ** [MultiChannelMemorySystem] *)

Record MultiChannel := mkMulti {
  channels : list MemorySystem;
  multi_tCK : spec_float;               (* a float *)
  clockDomainCrosser : ClockDomainCrosser;
  multi_clockCycle : Z }.

(** Rounding to [float]. *)
Definition to_float (x : spec_float) : spec_float :=
  match x with
  | S754_finite s m e => binary_normalize 24 128 (cond_Zopp s (Zpos m)) e s
  | _ => x
  end.

Fixpoint new_channels (n : nat) (build : outcome MemorySystem) : outcome (list MemorySystem) :=
  match n with O => Ok [] | S n' => let! m := build in let! l := new_channels n' build in Ok (m :: l) end.

Definition newMultiChannel (numberRequestors : nat) (ini : option (list string)) (gene speed size : string) (numberChannels : nat)
    (ranks junk : Z) : outcome MultiChannel :=
  match numberChannels with
  | O => Crash aborted
  | _ =>
      let! l := new_channels numberChannels (newMemorySystem numberRequestors ini gene speed size ranks junk) in
      let tCK := match l with m :: _ => to_float (dm_tCK (dv_model (sys_device m))) | [] => S754_nan end in
      Ok (mkMulti l tCK (mkCrosser 1 1 0 0) 0)
  end.

(** [setCPUClockSpeed]. *)
Definition setCPUClockSpeed (cpuClkFreqHz : Z) (m : MultiChannel) : MultiChannel :=
  let period := SFmul 53 1024 (multi_tCK m) (decimal false 1 (-9)) in
  let mcsim := w64 (trunc (SFdiv 53 1024 (double_of 1 0) period)) in
  let x := clockDomainCrosser m in
  mkMulti (channels m) (multi_tCK m)
    (mkCrosser mcsim (if cpuClkFreqHz =? 0 then mcsim else cpuClkFreqHz) (counter1 x) (counter2 x)) (multi_clockCycle m).

(** A requestor has one channel. *)
Definition findChannelNumber (requestorID : Z) (m : MultiChannel) : nat :=
  match length (channels m) with 1%nat => O | n => Z.to_nat (requestorID mod Z.of_nat n) end.

Definition multi_addRequest (junk id address : Z) (R_W : bool) (size : Z) (m : MultiChannel) : outcome MultiChannel :=
  let k := findChannelNumber id m in
  match channels m !! k with
  | None => Crash out_of_range
  | Some ch =>
      let! ch := sys_addRequest junk id address R_W size ch in
      Ok (mkMulti (<[k := ch]> (channels m)) (multi_tCK m) (clockDomainCrosser m) (multi_clockCycle m))
  end.

Fixpoint update_channels (l : list MemorySystem) : outcome (list Event * list MemorySystem) :=
  match l with
  | [] => Ok ([], [])
  | ch :: l' =>
      let! (evs, ch) := sys_update ch in
      let! (evs', l') := update_channels l' in
      Ok (evs ++ evs', ch :: l')
  end.
Definition actual_update (m : MultiChannel) : outcome (list Event * MultiChannel) :=
  let! (evs, l) := update_channels (channels m) in
  Ok (evs, mkMulti l (multi_tCK m) (clockDomainCrosser m) (w64 (multi_clockCycle m + 1))).

Fixpoint run_updates (n : nat) (m : MultiChannel) : outcome (list Event * MultiChannel) :=
  match n with
  | O => Ok ([], m)
  | S n' => let! (evs, m) := actual_update m in let! (evs', m) := run_updates n' m in Ok (evs ++ evs', m)
  end.
Definition multi_update (fuel : nat) (m : MultiChannel) : outcome (list Event * MultiChannel) :=
  let! (n, x) := crosser_update fuel (clockDomainCrosser m) in
  let! (evs, m) := run_updates n m in
  Ok (evs, mkMulti (channels m) (multi_tCK m) x (multi_clockCycle m)).

(** What [MCsimInterface] builds: DDR4-2400U, 8Gb x8, one channel, one rank,
    at 2.4 GHz, configured by [src/MCsim/system/FRFCFS/FRFCFS.ini]. *)
Definition FRFCFS_ini : list string :=
  (["; Rank[0], BankGroup[1], Bank[2], SubArray[3], Row[4], Col[5]";
    ";AddressMapping=425 ; For the verification purpose";
    "AddressMapping=401235";
    "; Channel, Rank, BankGroup, Bank, SubArray";
    "RequestQueue=0000";
    "WriteQueue=0";
    "ReqPerREQ=0";
    "CommandQueue=0010";
    "CmdPerREQ=0";
    "";
    "; Scheduler Based on Names";
    "RequestScheduler=FRFCFS";
    "CommandGenerator=OPEN";
    "CommandScheduler=FRFCFS";
    "; Note that the command scheduler for the FRFCFS could be much simpler. ";
    "; As using one global queue for the command queue do not require any arbitration and etc (similar to device simulators.)"])%string.
Definition getMemorySystemInstance (num_cores : nat) (ini : option (list string)) (junk : Z) : outcome MultiChannel :=
  let! m := newMultiChannel num_cores ini "DDR4" "2400U" "8Gb_x8" 1 1 junk in Ok (setCPUClockSpeed 2400000000 m).
