(* ===== verification/McQueueTheory.v ===== *)
(** * MCsim: what the queues and the request schedulers do

    Whatever the scheduler, its work is a sequence of two steps: looking at a
    queue, and dispatching the request it remembered ([sched_step]).  The
    contents of the queues, as lists up to order. *)

From S2P Require Export McController.

Local Open Scope list_scope.
Open Scope Z_scope.
Import MC.

(** ** Buffers keyed by requestor *)

Definition flat {A} (m : gmap Z (list A)) : list A := concat (snd <$> map_to_list m).

Lemma flat_empty {A} : flat (A := A) ∅ = [].
Proof. done. Qed.

Lemma flat_insert {A} (id : Z) (l : list A) m : default [] (m !! id) ++ flat (<[id := l]> m) ≡ₚ l ++ flat m.
Proof.
  unfold flat. destruct (m !! id) as [l0|] eqn:E.
  - rewrite <- (insert_delete_id m id l0 E) at 2. rewrite <- insert_delete_eq.
    rewrite !map_to_list_insert by apply lookup_delete_eq. cbn. solve_perm.
  - rewrite map_to_list_insert by done. cbn. done.
Qed.

Lemma concat_insert {A B} (f : A -> list B) l i x y : l !! i = Some x ->
  f y ++ concat (f <$> l) ≡ₚ f x ++ concat (f <$> <[i := y]> l).
Proof.
  intros (l1 & l2 & -> & ->)%list_elem_of_split_length. rewrite insert_app_r_alt, Nat.sub_diag by lia. cbn.
  rewrite !fmap_app, !concat_app. cbn. solve_perm.
Qed.

(** ** Contents of the queues *)

Definition all_requests (q : RequestQueue) : list Request :=
  writeQueue q ++ generalBuffer q ++ flat (requestorBuffer q).
Definition all_commands (q : CommandQueue) : list BusPacket :=
  hrtBuffer q ++ srtBuffer q ++ flat (cq_requestorBuffer q).

Lemma insertRequest_all r q : all_requests (insertRequest r q) ≡ₚ r :: all_requests q.
Proof.
  unfold insertRequest, all_requests. case_match; [|case_match]; cbn; [solve_perm| |solve_perm].
  pose proof (flat_insert (requestorID r) (requests_of (requestorID r) q ++ [r]) (requestorBuffer q)) as HF.
  unfold requests_of in *. rewrite <- app_assoc in HF. apply (inj (app _)) in HF. rewrite HF. solve_perm.
Qed.

Lemma set_scheduled_all x q : all_requests (set_scheduled x q) = all_requests q.
Proof. done. Qed.

(** The request [removeRequest] takes. *)
Definition remembered (r : Request) (q : RequestQueue) : Prop :=
  let '(per, (id, i)) := scheduledRequest q in (if per : bool then requests_of id q else generalBuffer q) !! i = Some r.

Lemma removeRequest_all r q q' : remembered r q -> removeRequest q = Ok q' -> all_requests q ≡ₚ r :: all_requests q'.
Proof.
  unfold remembered, removeRequest. destruct (scheduledRequest q) as [[|] [id i]]; intros Hr; case_match; [|done| |done];
    intros [= <-]; unfold all_requests; cbn.
  - pose proof (flat_insert id (delete i (requests_of id q)) (requestorBuffer q)) as HF. unfold requests_of in *.
    rewrite (delete_Permutation _ i r Hr) in HF at 1. cbn in HF. rewrite (Permutation_middle _ _ r) in HF.
    apply (inj (app _)) in HF. rewrite <- HF. solve_perm.
  - rewrite (delete_Permutation _ i r Hr) at 1. solve_perm.
Qed.

Lemma insertCommand_all p critical q : all_commands (insertCommand p critical q) ≡ₚ p :: all_commands q.
Proof.
  unfold insertCommand, all_commands. case_match; cbn; [|destruct critical; solve_perm].
  pose proof (flat_insert (p_requestorID p) (commands_of (p_requestorID p) q ++ [p]) (cq_requestorBuffer q)) as HF.
  unfold commands_of in *. rewrite <- app_assoc in HF. apply (inj (app _)) in HF. rewrite HF. solve_perm.
Qed.

Lemma removeCommandOf_all id q q' : removeCommandOf id q = Ok q' ->
  exists p, head (commands_of id q) = Some p /\ all_commands q ≡ₚ p :: all_commands q'.
Proof.
  unfold removeCommandOf. destruct (commands_of id q) as [|p l] eqn:E; [done|]. intros [= <-]. exists p. split; [done|].
  unfold all_commands; cbn. pose proof (flat_insert id l (cq_requestorBuffer q)) as HF. unfold commands_of in E. rewrite E in HF.
  cbn in HF. rewrite (Permutation_middle l _ p) in HF. apply (inj (app _)) in HF. rewrite <- HF. solve_perm.
Qed.

Definition remembered_command (q : CommandQueue) : option BusPacket :=
  head (if scheduledQueue q then hrtBuffer q else srtBuffer q).

Lemma removeCommand_all q q' : removeCommand q = Ok q' ->
  exists p, remembered_command q = Some p /\ all_commands q ≡ₚ p :: all_commands q'.
Proof.
  unfold removeCommand, remembered_command, all_commands.
  destruct (scheduledQueue q), (hrtBuffer q) as [|p l] eqn:Eh, (srtBuffer q) as [|p' l'] eqn:Es; try done;
    intros [= <-]; eexists; (split; [done|]); cbn; rewrite ?Eh, ?Es; solve_perm.
Qed.

(** ** Steps of a request scheduler *)

Inductive sched_step : Scheduling -> Scheduling -> Prop :=
| sched_look x index q s flags flags' :
    sched_step (q, s, flags) (set_scheduled x q, rs_set (bankTable s) index (rs_generator s) s, flags')
| sched_dispatch rk bk r q s flags st :
    remembered r q -> dispatch rk bk r (q, s, flags) = Ok st -> sched_step (q, s, flags) st.

Lemma set_scheduled_id q : set_scheduled (scheduledRequest q) q = q.
Proof. by destruct q. Qed.
Lemma rs_set_id s : rs_set (bankTable s) (requestorIndex s) (rs_generator s) s = s.
Proof. by destruct s. Qed.

Lemma sched_remember x q s flags : rtc sched_step (q, s, flags) (set_scheduled x q, s, flags).
Proof. rewrite <- (rs_set_id s) at 2. apply rtc_once. constructor. Qed.

Lemma sched_flags flags' q s flags : rtc sched_step (q, s, flags) (q, s, flags').
Proof. rewrite <- (rs_set_id s) at 2. rewrite <- (set_scheduled_id q) at 2. apply rtc_once. constructor. Qed.

Lemma sched_turn index q s flags : rtc sched_step (q, s, flags) (q, rs_set (bankTable s) index (rs_generator s) s, flags).
Proof. rewrite <- (set_scheduled_id q) at 2. apply rtc_once. constructor. Qed.

Lemma getRequest_some i q r q' : getRequest i q = Ok (r, q') ->
  (r = None /\ q' = q) \/ (exists r0, r = Some r0 /\ q' = set_scheduled (false, (0, i)) q /\ remembered r0 q').
Proof.
  unfold getRequest. destruct (generalBuffer q) as [|r0 l] eqn:E; [intros [= <- <-]; by left|].
  destruct ((r0 :: l) !! i) as [r1|] eqn:Ei; [|done]. intros [= <- <-]. right. exists r1. split_and!; [done..|].
  unfold remembered; cbn. by rewrite E.
Qed.

Lemma getRequestOf_some k i q r q' : getRequestOf k i q = Ok (r, q') ->
  (r = None /\ q' = q) \/ (exists r0 x, r = Some r0 /\ q' = set_scheduled x q /\ remembered r0 q').
Proof.
  unfold getRequestOf. destruct (requestorOrder q !! k) as [id|]; [|done].
  destruct (requests_of id q) as [|r0 l] eqn:E; [intros [= <- <-]; by left|].
  destruct ((r0 :: l) !! i) as [r1|] eqn:Ei; [|done]. intros [= <- <-]. right. exists r1, (true, (id, i)). split_and!; [done..|].
  unfold remembered; cbn. change (requests_of id (set_scheduled (true, (id, i)) q)) with (requests_of id q). by rewrite E.
Qed.

(** Remember, then dispatch. *)
Lemma sched_serve rk bk r x q s flags st : remembered r (set_scheduled x q) ->
  dispatch rk bk r (set_scheduled x q, s, flags) = Ok st -> rtc sched_step (q, s, flags) st.
Proof. intros Hr Hd. etrans; [apply (sched_remember x)|]. apply rtc_once. by econstructor. Qed.

Lemma frfcfs_pass_steps hits : forall fuel i st st', frfcfs_pass hits fuel i st = Ok st' -> rtc sched_step st st'.
Proof.
  induction fuel as [|f IH]; intros i [[q s] flags] st'; cbn [frfcfs_pass]; [by intros [= <-]|].
  case_match; [|by intros [= <-]]. intros (c & _ & (st1 & H1 & H2%IH)%obind_Ok)%obind_Ok. etrans; [|exact H2].
  destruct c as [r|]; [|by injection H1 as <-]. destruct (_ && _); [|by injection H1 as <-].
  apply obind_Ok in H1 as ([c' q'] & Hg & Hd).
  apply getRequest_some in Hg as [[-> ->]|(r0 & -> & -> & Hr)]; [by injection Hd as <-|]. by eapply sched_serve.
Qed.

Lemma direct_turns_steps : forall fuel qi st st', direct_turns fuel qi st = Ok st' -> rtc sched_step st st'.
Proof.
  induction fuel as [|f IH]; intros qi [[q s] flags] st'; cbn [direct_turns]; [by intros [= <-]|].
  intros (sz & _ & ([[q1 s1] f1] & H1 & H2%IH)%obind_Ok)%obind_Ok. etrans; [|etrans; [apply sched_turn|exact H2]].
  destruct (sz =? 0)%nat; [by injection H1 as <- <- <-|]. apply obind_Ok in H1 as ([c q'] & Hg & Hd).
  apply getRequestOf_some in Hg as [[-> ->]|(r0 & x & -> & -> & Hr)]; [by injection Hd as <- <- <-|].
  destruct (bank_free _ _); [by eapply sched_serve|]. injection Hd as <- <- <-. apply sched_remember.
Qed.

Lemma direct_schedule_steps qi st st' : direct_schedule qi st = Ok st' -> rtc sched_step st st'.
Proof.
  destruct st as [[q s] flags]. unfold direct_schedule. destruct (rq_perRequestor q); [apply direct_turns_steps|].
  intros ([c q'] & Hg & Hd)%obind_Ok. unfold scheduleFR in Hg.
  apply getRequest_some in Hg as [[-> ->]|(r0 & -> & -> & Hr)]; [by injection Hd as <-|].
  destruct (bank_free _ _); [by eapply sched_serve|]. injection Hd as <-. apply sched_remember.
Qed.

Lemma fcfs_schedule_steps stale st st' : fcfs_schedule stale st = Ok st' -> rtc sched_step st st'.
Proof.
  destruct st as [[q s] flags]. unfold fcfs_schedule. intros ([c q'] & Hg & Hd)%obind_Ok.
  assert (H : (c = None /\ q' = q) \/ exists r x, c = Some r /\ q' = set_scheduled x q /\ remembered r q').
  { destruct (rq_perRequestor q).
    - apply obind_Ok in Hg as ([[b num]|] & _ & Hg); [by eapply getRequestOf_some|].
      destruct stale; [done|]. injection Hg as <- <-. by left.
    - apply getRequest_some in Hg as [?|(r & ? & ? & ?)]; [by left|right; eauto 10]. }
  destruct H as [[-> ->]|(r & x & -> & -> & Hr)]; [by injection Hd as <-|].
  apply obind_Ok in Hd as ([[q1 s1] f1] & Hd & [= <-]).
  etrans; [by eapply sched_serve|]. apply sched_flags.
Qed.

Lemma frfcfs_schedule_steps st st' : frfcfs_schedule st = Ok st' -> rtc sched_step st st'.
Proof. unfold frfcfs_schedule. intros (st1 & H1 & H2)%obind_Ok. etrans; eapply frfcfs_pass_steps; eauto. Qed.

Lemma schedule_queue_steps qi stale st st' : schedule_queue qi stale st = Ok st' -> rtc sched_step st st'.
Proof.
  destruct st as [[q s] flags]. unfold schedule_queue.
  destruct (rs_kind s); [apply direct_schedule_steps|apply fcfs_schedule_steps|].
  case_match; [apply frfcfs_schedule_steps|by intros [= <-]].
Qed.

(** An invariant of one queue and the scheduler, whatever the other queues. *)
Lemma requestSchedule_inv (I : list Request -> RequestScheduler -> Prop) qs cqs s qs' s' :
  (forall l l' t, l ≡ₚ l' -> I l t -> I l' t) ->
  (forall l t index, I l t -> I l (rs_set (bankTable t) index (rs_generator t) t)) ->
  (forall rk bk r l q t flags q' t' flags', remembered r q -> dispatch rk bk r (q, t, flags) = Ok (q', t', flags') ->
     I (l ++ all_requests q) t -> I (l ++ all_requests q') t') ->
  I (concat (all_requests <$> qs)) s -> requestSchedule qs cqs s = Ok (qs', s') -> I (concat (all_requests <$> qs')) s'.
Proof.
  intros Hp Hlook Hdisp. unfold requestSchedule. generalize (bank_flags cqs), O, false. intros flags qi stale.
  assert (Hstep : forall l q t f q' t' f', rtc sched_step (q, t, f) (q', t', f') -> I (l ++ all_requests q) t -> I (l ++ all_requests q') t').
  { intros l q t f q' t' f' H. remember (q, t, f) as a eqn:Ea. remember (q', t', f') as b eqn:Eb. revert q t f Ea Eb.
    induction H as [a|a [[q1 t1] f1] b H _ IH]; intros q t f -> Eb; [by injection Eb as -> ->|]. intros HI. eapply IH; [done..|].
    inversion H; subst; [rewrite set_scheduled_all; by apply Hlook|by eapply Hdisp]. }
  change (concat (all_requests <$> qs)) with ([] ++ concat (all_requests <$> qs)).
  change (concat (all_requests <$> qs')) with ([] ++ concat (all_requests <$> qs')). generalize ([] : list Request) as l.
  revert flags qi stale s s' qs'. induction qs as [|q qs IH]; intros flags qi stale s s' qs' l HI; cbn [schedule_queues]; [by intros [= <- <-]|].
  intros ([[q1 s1] f1] & H1 & ([qs1 s2] & H2 & [= <- <-])%obind_Ok)%obind_Ok. apply schedule_queue_steps in H1. cbn in *.
  rewrite app_assoc. eapply IH; [|exact H2]. rewrite app_assoc in HI.
  apply (Hp ((l ++ concat (all_requests <$> qs)) ++ all_requests q1)); [solve_perm|]. eapply Hstep; [exact H1|].
  eapply Hp; [|exact HI]. solve_perm.
Qed.
