(* ===== verification/McCommandTheory.v ===== *)
(** * MCsim: what the command schedulers do

    Whatever the scheduler, a cycle looks at the queues and then either issues
    nothing or sends a command that is at the head of its queue, whose timers
    have run out and which the device accepts. *)

From S2P Require Export McQueueTheory.

Local Open Scope list_scope.
Open Scope Z_scope.
Import MC.

(** ** Queues that are looked at *)

(** The queues of requestors hold their own commands, and only they do. *)
Definition cq_wf (q : CommandQueue) : Prop :=
  if cq_perRequestor q then hrtBuffer q = [] /\ srtBuffer q = [] /\
    (forall id, Forall (fun p => p_requestorID p = id) (commands_of id q))
  else cq_requestorBuffer q = ∅.

Definition mark (b : bool) (q : CommandQueue) : CommandQueue :=
  mkCommandQueue (cq_perRequestor q) b (requestorMap q) (cq_requestorBuffer q) (hrtBuffer q) (srtBuffer q).

Lemma mark_mark b b' q : mark b (mark b' q) = mark b q.
Proof. done. Qed.
Lemma mark_same q : mark (scheduledQueue q) q = q.
Proof. by destruct q. Qed.
Lemma mark_wf b q : cq_wf (mark b q) <-> cq_wf q.
Proof. done. Qed.

(** [p] is what a removal takes from the queue. *)
Definition takes (q : CommandQueue) (p : BusPacket) : Prop :=
  if cq_perRequestor q then head (commands_of (p_requestorID p) q) = Some p
  else scheduledQueue q = true /\ head (hrtBuffer q) = Some p.

Definition marked (q q' : CommandQueue) : Prop := exists b, q' = mark b q.
#[global] Instance marked_preorder : PreOrder marked.
Proof.
  split; [intros q; exists (scheduledQueue q); by rewrite mark_same|]. intros q1 q2 q3 [b ->] [b' ->]. by exists b'.
Qed.

Definition bare (s : CommandScheduler) : CommandScheduler :=
  mkCommandScheduler (cs_kind s) (cmdQueueTimer s) (reqCmdQueueTimer s) (refreshMachine s) None (cs_clock s).

(** Only the marks of the queues, and the remembered command, may differ. *)
Record looked (c c' : Channel) : Prop := mk_looked {
  lk_queues : Forall2 marked (ch_queues c) (ch_queues c');
  lk_device : ch_device c' = ch_device c;
  lk_scheduler : bare (ch_scheduler c') = bare (ch_scheduler c) }.

#[global] Instance looked_preorder : PreOrder looked.
Proof.
  split.
  - by intros c.
  - intros c1 c2 c3 [Hq1 Hd1 Hs1] [Hq2 Hd2 Hs2]. split.
    + by etrans.
    + congruence.
    + congruence.
Qed.

Lemma looked_forget c : looked c (forget_scheduled c).
Proof. done. Qed.
Lemma looked_note p c : looked c (note_scheduled p c).
Proof. done. Qed.

Lemma looked_set_queue qi q b c : ch_queues c !! qi = Some q -> looked c (set_queue qi (mark b q) c).
Proof.
  intros Hq. split; [|done..]. cbn. rewrite <- (list_insert_id (ch_queues c) qi q Hq) at 1. apply Forall2_insert; [done|by exists b].
Qed.

Lemma looked_all c c' : looked c c' -> all_commands <$> ch_queues c' = all_commands <$> ch_queues c.
Proof. intros [Hq _ _]. induction Hq as [|q q' l l' [b ->] _ IH]; cbn; [done|]. by rewrite IH. Qed.

Lemma looked_wf c c' : looked c c' -> Forall cq_wf (ch_queues c) -> Forall cq_wf (ch_queues c').
Proof. intros [Hq _ _] Hw. induction Hq as [|q q' l l' [b ->] _ IH]; [done|]. apply Forall_cons in Hw as [??]. constructor; auto. Qed.

Lemma looked_ready c c' p qi q b : looked c c' -> isReady p qi (mark b q) (ch_scheduler c') = isReady p qi q (ch_scheduler c).
Proof.
  intros [_ _ Hs]. injection Hs as Hk Ht Hr Hf Hc.
  unfold isReady, requestor_timers, queue_timers. by rewrite Ht, Hr.
Qed.

Lemma looked_issuable c c' p : looked c c' -> isIssuable p c' = isIssuable p c.
Proof.
  intros [_ Hd Hs]. injection Hs as Hk Ht Hr Hf Hc. unfold isIssuable. by rewrite Hd, Hf.
Qed.

Lemma looked_lookup c c' qi q' : looked c c' -> ch_queues c' !! qi = Some q' -> exists q b, ch_queues c !! qi = Some q /\ q' = mark b q.
Proof. intros [Hq _ _] Hl. destruct (Forall2_lookup_r _ _ _ _ _ Hq Hl) as (q & Hq0 & b & ->). eauto. Qed.

(** ** Candidates *)

(** A command that may be sent. *)
Definition candidate (c : Channel) (p : BusPacket) (qi : nat) : Prop :=
  exists q, ch_queues c !! qi = Some q /\ takes q p /\ isReady p qi q (ch_scheduler c) = true /\ isIssuable p c = Ok true.

Lemma candidate_notes c c' p qi : ch_queues c' = ch_queues c -> looked c c' -> candidate c p qi -> candidate c' p qi.
Proof.
  intros Hq Hl (q & Hqi & Ht & Hr & Hi). exists q. rewrite Hq. split_and!; [done..| |by rewrite (looked_issuable c)].
  rewrite <- Hr, <- (mark_same q) at 1. by apply looked_ready.
Qed.

Lemma candidate_set_queue qj qb c p qi : ch_queues c !! qj = Some qb ->
  candidate c p qi -> candidate (set_queue qj (mark true qb) c) p qi.
Proof.
  intros Hj (q & Hqi & Ht & Hr & Hi). pose proof (looked_set_queue qj qb true c Hj) as Hl. unfold candidate. cbn.
  destruct (decide (qi = qj)) as [->|Hne].
  - rewrite Hj in Hqi. injection Hqi as ->. exists (mark true q). rewrite list_lookup_insert_eq by by eapply lookup_lt_Some.
    split_and!; [done| |by rewrite <- Hr; apply (looked_ready c)|by rewrite (looked_issuable c)].
    unfold takes in *. cbn. destruct (cq_perRequestor q); [done|]. by destruct Ht.
  - exists q. rewrite list_lookup_insert_ne by done. split_and!; [done..|by rewrite (looked_issuable c)].
Qed.

Lemma ready_head_spec qi q c p c' : ch_queues c !! qi = Some q -> cq_wf q -> ready_head qi q c = Ok (p, c') ->
  looked c c' /\ (forall p0 i0, candidate c p0 i0 -> candidate c' p0 i0) /\
  scheduledCommand (ch_scheduler c') = scheduledCommand (ch_scheduler c) /\ (forall p1, p = Some p1 -> candidate c' p1 qi).
Proof.
  intros Hqi Hw. unfold ready_head. destruct (cq_getSize true q =? 0)%nat eqn:Es; [by intros [= <- <-]|].
  unfold getCommand. destruct (hrtBuffer q) as [|p1 l] eqn:Eh; [done|]. cbn [obind].
  rewrite <- Eh. change (mkCommandQueue _ _ _ _ _ _) with (mark true q).
  intros H. assert (Hc : c' = set_queue qi (mark true q) c).
  { destruct (isReady _ _ _ _); [apply obind_Ok in H as (b & _ & [= <- <-])|injection H as <- <-]; done. }
  subst c'. split_and!; [by apply looked_set_queue|by intros; apply candidate_set_queue|done|]. intros p2 ->.
  destruct (isReady _ _ _ _) eqn:Er; [|done]. apply obind_Ok in H as ([|] & Hi & [= <-]).
  exists (mark true q). cbn. rewrite list_lookup_insert_eq by by eapply lookup_lt_Some. split_and!; [done| |done..].
  unfold cq_wf, takes in *. cbn. destruct (cq_perRequestor q); [destruct Hw as [Hw _]; congruence|by rewrite Eh].
Qed.

Lemma ready_of_spec want qi num q c p : ch_queues c !! qi = Some q -> cq_wf q -> cq_perRequestor q = true ->
  ready_of want qi num q c = Ok (Some p) -> candidate c p qi.
Proof.
  intros Hqi Hw Hp. unfold ready_of. intros (sz & _ & H)%obind_Ok. destruct (sz =? 0)%nat; [done|].
  apply obind_Ok in H as (p1 & Hg & H). destruct (want p1 && _) eqn:Er; [|done]. apply andb_prop in Er as [_ Er].
  apply obind_Ok in H as ([|] & Hi & [= <-]). exists q. split_and!; [done| |done..].
  unfold getRequestorCommand in Hg. destruct (requestorMap q !! num) as [id|]; [|done].
  destruct (commands_of id q) as [|p2 l] eqn:El; [done|]. injection Hg as ->. unfold takes, cq_wf in *. rewrite Hp in *.
  destruct Hw as (_ & _ & Hw). specialize (Hw id). rewrite El in Hw. apply Forall_cons in Hw as [-> _]. by rewrite El.
Qed.

Lemma best_of_spec want better : forall fuel qi num q c best p, ch_queues c !! qi = Some q -> cq_wf q -> cq_perRequestor q = true ->
  (forall p0, best = Some p0 -> candidate c p0 qi) -> best_of want better fuel qi num q c best = Ok (Some p) -> candidate c p qi.
Proof.
  induction fuel as [|f IH]; intros qi num q c best p Hq Hw Hp Hb; cbn [best_of]; [intros [= ->]; by apply Hb|].
  intros (p1 & H1 & H)%obind_Ok. eapply IH; [exact Hq|done..| |exact H].
  assert (H2 : forall p0, p1 = Some p0 -> candidate c p0 qi) by (intros p0 ->; by eapply ready_of_spec).
  destruct p1 as [p1|], best as [b|]; intros p0; try (intros [= <-]; by auto); try done.
  case_match; intros [= <-]; auto.
Qed.

(** ** A cycle of a command scheduler *)

Definition quiet (c : Channel) : Prop := scheduledCommand (ch_scheduler c) = None.

(** Nothing is issued, or a candidate. *)
Inductive cycle (c : Channel) : option BusPacket -> Channel -> Prop :=
| cycle_idle c' : looked c c' -> quiet c' -> cycle c None c'
| cycle_issue c1 p qi c' : looked c c1 -> candidate c1 p qi -> sendCommand p qi false c1 = Ok c' -> cycle c (Some p) c'.

Lemma cycle_looked c c1 r c' : looked c c1 -> cycle c1 r c' -> cycle c r c'.
Proof.
  intros Hl [c2 H2 Hq|c2 p qi c3 H2 Hc Hs].
  - apply cycle_idle; [by etrans|done].
  - eapply cycle_issue; [|done..]. by etrans.
Qed.

Lemma issue_cycle c p qi r c' : candidate c p qi -> issue p qi c = Ok (r, c') -> cycle c r c'.
Proof.
  intros Hc. unfold issue. intros (c1 & Hs & [= <- <-])%obind_Ok. eapply cycle_issue; [apply looked_note| |exact Hs].
  by apply (candidate_notes c); [|apply looked_note|].
Qed.

Definition queues_wf (c : Channel) : Prop := Forall cq_wf (ch_queues c).

Lemma frfcfs_requestors_spec qi q c p : ch_queues c !! qi = Some q -> cq_wf q -> cq_perRequestor q = true ->
  frfcfs_requestors qi q c = Ok (Some p) -> candidate c p qi.
Proof.
  intros Hq Hw Hp. unfold frfcfs_requestors. intros ([p0|] & H0 & H)%obind_Ok.
  - injection H as ->. eapply best_of_spec; [exact Hq|done..| |exact H0]. done.
  - apply obind_Ok in H as (l & Hl & H). eapply best_of_spec; [exact Hq|done..| |exact H].
    intros p1 ->. eapply best_of_spec; [exact Hq|done..| |exact Hl]. done.
Qed.

(** The candidate, if there is one yet. *)
Definition held (c : Channel) (best : option (BusPacket * nat)) : Prop :=
  match best with Some (p, qi) => candidate c p qi | None => True end.

Lemma frfcfs_commands_cycle : forall fuel qi best c r c', queues_wf c -> quiet c -> held c best ->
  frfcfs_commands fuel qi best c = Ok (r, c') -> cycle c r c'.
Proof.
  induction fuel as [|f IH]; intros qi best c r c' Hw Hn Hb; cbn [frfcfs_commands];
    [rewrite Hn; intros [= <- <-]; by apply cycle_idle|].
  destruct (ch_queues c !! qi) as [q|] eqn:Hq; [|rewrite Hn; intros [= <- <-]; by apply cycle_idle].
  assert (Hwq : cq_wf q) by (by eapply (Forall_lookup_1 _ _ _ _ Hw)).
  destruct (cq_perRequestor q) eqn:Hp.
  - intros ([p|] & H0 & H)%obind_Ok; [|by eapply IH]. eapply issue_cycle; [|exact H]. by eapply frfcfs_requestors_spec.
  - intros ([p c1] & H0 & H)%obind_Ok. destruct (ready_head_spec _ _ _ _ _ Hq Hwq H0) as (Hl & Hk & Hs & H1).
    apply (cycle_looked c c1); [done|]. set (best' := match p with Some _ => _ | None => best end) in H.
    assert (Hb' : held c1 best').
    { unfold best'. destruct p as [p|], best as [[b i]|]; cbn; auto. by destruct (prefer p b); cbn; auto. }
    assert (Hw1 : queues_wf c1) by by eapply looked_wf. assert (Hn1 : quiet c1) by (unfold quiet; congruence).
    clearbody best'. destruct f as [|f'], best' as [[p' i]|]; try by eapply IH. by eapply issue_cycle.
Qed.

Lemma fcfs_commands_cycle : forall fuel qi c r c', queues_wf c -> fcfs_commands fuel qi c = Ok (r, c') -> cycle c r c'.
Proof.
  assert (Hnone : forall c r c', fcfs_nothing c = Ok (r, c') -> cycle c r c').
  { intros c r c'. unfold fcfs_nothing. destruct (scheduledCommand _) eqn:E; [done|]. intros [= <- <-]. by apply cycle_idle. }
  induction fuel as [|f IH]; intros qi c r c' Hw; cbn [fcfs_commands]; [apply Hnone|].
  destruct (ch_queues c !! qi) as [q|] eqn:Hq; [|apply Hnone].
  assert (Hwq : cq_wf q) by (by eapply (Forall_lookup_1 _ _ _ _ Hw)).
  destruct (cq_perRequestor q) eqn:Hp.
  - intros ([p|] & H0 & H)%obind_Ok; [|by eapply IH]. eapply issue_cycle; [|exact H].
    eapply best_of_spec; [exact Hq|done..| |exact H0]. done.
  - intros ([p c1] & H0 & H)%obind_Ok. apply (cycle_looked c (forget_scheduled c)); [apply looked_forget|].
    destruct (ready_head_spec qi q (forget_scheduled c) p c1 Hq Hwq H0) as (Hl & Hk & Hs & H1).
    apply (cycle_looked _ c1); [done|]. destruct p as [p|]; [eapply issue_cycle; [|done]; by apply H1|].
    eapply IH; [|done]. by eapply looked_wf; [exact Hl|].
Qed.

Lemma push_pass_spec keep : forall fuel qi best c best' c', queues_wf c -> held c best ->
  push_pass keep fuel qi best c = Ok (best', c') ->
  looked c c' /\ held c' best' /\ (quiet c -> quiet c') /\ ((0 < fuel)%nat -> is_Some (ch_queues c !! qi) -> quiet c').
Proof.
  induction fuel as [|f IH]; intros qi best c best' c' Hw Hb; cbn [push_pass]; [intros [= <- <-]; split_and!; try done; intros; lia|].
  destruct (ch_queues c !! qi) as [q|] eqn:Hq; [|intros [= <- <-]; split_and!; try done; by intros _ [? ?]].
  assert (Hwq : cq_wf q) by (by eapply (Forall_lookup_1 _ _ _ _ Hw)).
  intros ([p c1] & H0 & H)%obind_Ok.
  destruct (ready_head_spec qi q (forget_scheduled c) p c1 Hq Hwq H0) as (Hl & Hk & Hs & H1).
  assert (Hl1 : looked c c1) by (etrans; [apply looked_forget|done]).
  assert (Hf : held (forget_scheduled c) best).
  { destruct best as [[b i]|]; [|done]. by apply (candidate_notes c); [|apply looked_forget|]. }
  apply IH in H as (Hl2 & Hb2 & Hn2 & _).
  - split_and!; [by etrans|done|intros _|intros _ _]; apply Hn2; unfold quiet; by rewrite Hs.
  - by eapply looked_wf.
  - destruct p as [p|], best as [[b i]|]; cbn in *; auto. destruct (keep p b); cbn; auto.
Qed.

(** What [commandSchedule] does. *)
Lemma commandSchedule_cycle c r c' : queues_wf c -> (ch_queues c = [] -> quiet c) ->
  commandSchedule c = Ok (r, c') -> cycle c r c'.
Proof.
  intros Hw Hn. unfold commandSchedule. destruct (cs_kind (ch_scheduler c)).
  - by apply fcfs_commands_cycle.
  - intros H. apply (cycle_looked c (forget_scheduled c)); [apply looked_forget|].
    by eapply frfcfs_commands_cycle; [exact Hw| | |exact H].
  - unfold push_commands_schedule. intros ([last c1] & H1 & ([best c2] & H2 & H)%obind_Ok)%obind_Ok.
    apply push_pass_spec in H1 as (Hl1 & Hb1 & Hq1 & Hs1); [|done..].
    apply push_pass_spec in H2 as (Hl2 & Hb2 & Hq2 & _); [|by eapply looked_wf|done].
    assert (Hl : looked c c2) by (by etrans). apply (cycle_looked c c2); [done|].
    destruct best as [[p qi]|]; [by eapply issue_cycle|].
    assert (Hq : quiet c2).
    { apply Hq2. destruct (ch_queues c) as [|q qs] eqn:E; [by apply Hq1, Hn|]. apply Hs1; cbn; [lia|by eexists]. }
    rewrite Hq in H. injection H as <- <-. by apply cycle_idle.
Qed.

(** ** Sending *)

Lemma flat_lookup {A} (m : gmap Z (list A)) : (forall id, default [] (m !! id) = []) -> flat m = [].
Proof.
  intros H. unfold flat. enough (Forall (fun x => x.2 = []) (map_to_list m)) as Hl.
  { induction Hl as [|x l Hx _ IH]; cbn; [done|]. by rewrite Hx, IH. }
  apply Forall_forall. intros [id l] Hin%elem_of_map_to_list. specialize (H id). by rewrite Hin in H.
Qed.

Lemma takes_removes q p q' : cq_wf q -> takes q p ->
  (if cq_perRequestor q then removeCommandOf (p_requestorID p) q else removeCommand q) = Ok q' ->
  all_commands q ≡ₚ p :: all_commands q' /\ cq_wf q'.
Proof.
  unfold takes, cq_wf. destruct (cq_perRequestor q) eqn:Hp.
  - intros (Hh & Hs & Hw) Ht H. destruct (removeCommandOf_all _ _ _ H) as (p' & Hp' & Ha).
    rewrite Ht in Hp'. injection Hp' as <-. split; [done|]. unfold removeCommandOf in H.
    destruct (commands_of (p_requestorID p) q) as [|p0 l] eqn:El; [done|]. injection H as <-. cbn. rewrite Hp. split_and!; [done..|].
    intros id. unfold commands_of; cbn. destruct (decide (id = p_requestorID p)) as [->|Hne].
    + rewrite lookup_insert_eq. cbn. specialize (Hw (p_requestorID p)). rewrite El in Hw. by apply Forall_cons in Hw as [_ ?].
    + rewrite lookup_insert_ne by done. apply Hw.
  - intros Hw [Hf Ht] H. destruct (removeCommand_all _ _ H) as (p' & Hp' & Ha). unfold remembered_command in Hp'.
    rewrite Hf, Ht in Hp'. injection Hp' as <-. split; [done|]. unfold removeCommand in H. rewrite Hf in H.
    destruct (hrtBuffer q); [done|]. injection H as <-. by rewrite Hp.
Qed.

(** A sent command leaves its queue and reaches the device. *)
Lemma sendCommand_spec c p qi c' : queues_wf c -> candidate c p qi -> sendCommand p qi false c = Ok c' ->
  receiveFromBus p (ch_device c) = Ok (ch_device c') /\ queues_wf c' /\
  concat (all_commands <$> ch_queues c) ≡ₚ p :: concat (all_commands <$> ch_queues c') /\
  refreshMachine (ch_scheduler c') = refreshMachine (ch_scheduler c) /\ cs_kind (ch_scheduler c') = cs_kind (ch_scheduler c) /\
  length (ch_queues c') = length (ch_queues c).
Proof.
  intros Hw (q & Hq & Ht & _). unfold sendCommand. rewrite Hq. intros ([q' s'] & H & (d & Hd & [= <-])%obind_Ok)%obind_Ok.
  assert (Hwq : cq_wf q) by (by eapply (Forall_lookup_1 _ _ _ _ Hw)).
  assert (Hr : (if cq_perRequestor q then removeCommandOf (p_requestorID p) q else removeCommand q) = Ok q' /\
    refreshMachine s' = refreshMachine (ch_scheduler c) /\ cs_kind s' = cs_kind (ch_scheduler c)).
  { destruct (cq_perRequestor q); apply obind_Ok in H as (q1 & Hq1 & [= <- <-]); by rewrite Hq1. }
  destruct Hr as (Hr & Hrf & Hk). destruct (takes_removes _ _ _ Hwq Ht Hr) as [Ha Hw']. cbn. split_and!; [done| | |done..|].
  - by apply Forall_insert.
  - pose proof (concat_insert all_commands _ _ _ q' Hq) as HF. rewrite Ha in HF. cbn in HF.
    rewrite (Permutation_middle _ _ p) in HF. apply (inj (app _)) in HF. by rewrite HF.
  - apply length_insert.
Qed.
