(* ===== verification/McTheory.v ===== *)
(** * MCsim: runs of a memory system

    A run is a sequence of accepted requests and of updates; [sys_issues] are
    the commands an update puts on the bus.  Every command of a run respects
    the standard of its device. *)

From S2P Require Export McCommandTheory DdrTheory.

Local Open Scope list_scope.
Open Scope Z_scope.
Import MC.

(** ** Runs *)

(** The command an update issues, as the device sees it. *)
Definition issue_of (d : MemoryDevice) (p : BusPacket) : list Issue :=
  match convert_cmd (busPacketType p) with
  | Ok cmd => [mkIssue cmd (convert_addr (dv_model d) p) (dv_clockCycle d)]
  | _ => []
  end.
Definition sys_issues (m : MemorySystem) : list Issue :=
  match (let! c := mc_schedule (sys_controller m) in mc_command c) with
  | Ok (Some p, _) => issue_of (sys_device m) p
  | _ => []
  end.

(** A run: requests and updates, and what comes of them, oldest first. *)
Inductive Op := Add (junk id address : Z) (R_W : bool) (size : Z) | Tick.

Fixpoint drive (ops : list Op) (m : MemorySystem) : outcome (list Issue * list Event * MemorySystem) :=
  match ops with
  | [] => Ok ([], [], m)
  | Add junk id address R_W size :: ops' => let! m' := sys_addRequest junk id address R_W size m in drive ops' m'
  | Tick :: ops' =>
      let! (evs, m') := sys_update m in
      let! (es', evs', m'') := drive ops' m' in
      Ok (sys_issues m ++ es', evs ++ evs', m'')
  end.

(** ** Plain packets *)

Definition plain (p : BusPacket) : Prop := postCommand p = false.

Lemma generate_open_plain r open g g' : generate_open r open g = Ok g' -> exists ps,
  commandBuffer g' = commandBuffer g ++ ps /\ Forall plain ps.
Proof.
  assert (Hcas : forall t l, Forall plain ((fun x => command_for g r t (w32 (col r + x)) (bank r)) <$> l)).
  { intros t l. by apply Forall_fmap, Forall_true. }
  unfold generate_open. case_match; [done|].
  destruct open; [intros [= <-]; eexists; by split; [|apply Hcas]|].
  destruct (first g !! _) as [[|]|]; [| |done]; intros [= <-]; eexists; (split; [done|]); repeat constructor; apply Hcas.
Qed.

Lemma generate_close_plain r g : exists ps, commandBuffer (generate_close r g) = commandBuffer g ++ ps /\ Forall plain ps.
Proof.
  unfold generate_close. destruct (default (0, 0) _) as [nb nc]. eexists. split; [done|].
  apply Forall_concat, Forall_fmap, Forall_true. intros bi. apply Forall_concat, Forall_fmap, Forall_true. intros ?. by repeat constructor.
Qed.

Lemma commandGenerate_plain r open g g' : commandGenerate r open g = Ok g' -> exists ps,
  commandBuffer g' = commandBuffer g ++ ps /\ Forall plain ps.
Proof. unfold commandGenerate. destruct (g_kind g); [apply generate_open_plain|intros [= <-]; apply generate_close_plain]. Qed.

Lemma dispatch_spec rk bk r q s flags q' s' flags' : dispatch rk bk r (q, s, flags) = Ok (q', s', flags') -> exists g open,
  commandGenerate r open (rs_generator s) = Ok g /\ rs_generator s' = g /\ removeRequest q = Ok q'.
Proof.
  unfold dispatch, isSchedulable. intros (s1 & (g & Hg & [= <-])%obind_Ok & (q1 & Hq & [= <- <- <-])%obind_Ok)%obind_Ok.
  by exists g, (isRowHit r s).
Qed.

Lemma insertCommand_wf p critical q : cq_wf q -> cq_wf (insertCommand p critical q).
Proof.
  unfold cq_wf, insertCommand. destruct (cq_perRequestor q); cbn; [|done]. intros (Hh & Hs & Hw). split_and!; [done..|].
  intros id. unfold commands_of at 1; cbn. destruct (decide (id = p_requestorID p)) as [->|Hne].
  - rewrite lookup_insert_eq. cbn. apply Forall_app. split; [apply Hw|by repeat constructor].
  - rewrite lookup_insert_ne by done. apply Hw.
Qed.

Lemma enqueueCommand_spec mt cr map clk qs p qs' : enqueueCommand mt cr map clk qs p = Ok qs' ->
  concat (all_commands <$> qs') ≡ₚ stamp (w32 clk) p :: concat (all_commands <$> qs) /\
  (Forall cq_wf qs -> Forall cq_wf qs') /\ length qs' = length qs.
Proof.
  unfold enqueueCommand. intros (qi & _ & H)%obind_Ok. destruct (qs !! Z.to_nat qi) as [q|] eqn:Hq; [|done].
  injection H as <-. set (cr' := default false _). split_and!; [|intros Hw; apply Forall_insert; [done|]|apply length_insert].
  - pose proof (concat_insert all_commands qs _ q (insertCommand (stamp (w32 clk) p) cr' q) Hq) as HF.
    rewrite insertCommand_all in HF at 1. cbn in HF. rewrite (Permutation_middle (all_commands q)) in HF.
    by apply (inj (app _)) in HF.
  - apply insertCommand_wf. by eapply (Forall_lookup_1 _ _ _ _ Hw).
Qed.

Lemma enqueue_all mt cr map clk ps : forall qs qs', ofold (enqueueCommand mt cr map clk) ps qs = Ok qs' ->
  concat (all_commands <$> qs') ≡ₚ (stamp (w32 clk) <$> ps) ++ concat (all_commands <$> qs) /\
  (Forall cq_wf qs -> Forall cq_wf qs') /\ length qs' = length qs.
Proof.
  induction ps as [|p ps IH]; intros qs qs'; cbn; [by intros [= <-]|]. intros (qs1 & (H1 & Hw1 & Hl1)%enqueueCommand_spec & H2)%obind_Ok.
  apply IH in H2 as (H2 & Hw2 & Hl2). split_and!; [|tauto|congruence]. rewrite H2, H1. solve_perm.
Qed.

(** ** Commands and the device *)

(** Every command passed its check. *)
Inductive checked (spec : Standard) : list Issue -> Prop :=
| checked_nil : checked spec []
| checked_snoc es n e : checked spec es -> replay spec es (newDRAM spec 0) = Ok n ->
    check spec (is_cmd e) (is_addr e) (is_clk e) n = Ok true -> checked spec (es ++ [e]).

Lemma checked_split spec es1 e es2 : checked spec (es1 ++ e :: es2) ->
  exists n, replay spec es1 (newDRAM spec 0) = Ok n /\ check spec (is_cmd e) (is_addr e) (is_clk e) n = Ok true.
Proof.
  intros H. remember (es1 ++ e :: es2) as es eqn:E. revert es2 E.
  induction H as [|es n e' H IH Hr Hc]; intros es2 E; [by destruct es1|].
  destruct es2 as [|e2 es2 _] using rev_ind.
  - apply app_inj_tail in E as [-> ->]. by exists n.
  - rewrite app_comm_cons, app_assoc in E. apply app_inj_tail in E as [-> _]. by eapply IH.
Qed.

Lemma replay_app spec es1 es2 n : replay spec (es1 ++ es2) n = let! m := replay spec es1 n in replay spec es2 m.
Proof. revert n. induction es1 as [|e es1 IH]; intros n; cbn; [done|]. destruct (Dram.update _ _ _ _ _); cbn; [apply IH|done..]. Qed.

Definition device_spec (d : MemoryDevice) : Standard := dm_standard (dv_model d).

Record device_ok (es : list Issue) (d : MemoryDevice) : Prop := mk_device_ok {
  dk_checked : checked (device_spec d) es;
  dk_replay : replay (device_spec d) es (newDRAM (device_spec d) 0) = Ok (dv_channel d);
  dk_clock : 0 <= dv_clockCycle d /\ Forall (fun e => 0 <= is_clk e) es;
  dk_root : Forall (fun e => addr_at 0 (is_addr e) = 0) es;
  dk_bank : (0 < dm_bank (dv_model d))%nat;
  dk_post : postBuffer d = [] }.

Lemma convert_addr_root m p : (0 < dm_bank m)%nat -> addr_at 0 (convert_addr m p) = 0.
Proof. unfold convert_addr, addr_at. destruct (dm_bank m); [lia|done]. Qed.

Lemma receive_issue es d p d' : device_ok es d -> plain p -> command_check p d = Ok true -> receiveFromBus p d = Ok d' ->
  device_ok (es ++ issue_of d p) d' /\ dv_model d' = dv_model d.
Proof.
  intros [Hc Hr [Hk Hes] H0 Hb Hp] Hpl. unfold command_check, receiveFromBus. rewrite Hpl.
  intros (cmd & Hcmd & Hck)%obind_Ok (d1 & H1 & [= <-])%obind_Ok. unfold issue_of. rewrite Hcmd.
  destruct (bool_decide (busPacketType p = Pkt.DATA)) eqn:Eb; [apply bool_decide_eq_true in Eb; by rewrite Eb in Hcmd|].
  rewrite Hcmd in H1. cbn in H1. apply obind_Ok in H1 as (chan & Hu & [= <-]).
  set (d2 := dv_set chan _ _ _ _ d). set (e := mkIssue cmd (convert_addr (dv_model d) p) (dv_clockCycle d)).
  assert (Hd : device_ok (es ++ [e]) d2).
  { split; cbn.
    - by eapply checked_snoc.
    - change (device_spec d2) with (device_spec d). rewrite replay_app, Hr. cbn. unfold device_spec. by rewrite Hu.
    - split; [done|]. apply Forall_app; split; [done|]. by repeat constructor.
    - apply Forall_app; split; [done|]. repeat constructor. by apply convert_addr_root.
    - done.
    - done. }
  destruct Hd. unfold generateData. destruct (busPacketType p); by split.
Qed.

Lemma receive_data es d p d' : device_ok es d -> plain p -> busPacketType p = Pkt.DATA -> receiveFromBus p d = Ok d' -> d' = d.
Proof. intros Hd Hp Ht. unfold receiveFromBus, generateData. rewrite Hp, Ht. by intros [= <-]. Qed.

Lemma dv_update_ok es d r d' : device_ok es d -> dv_update d = Ok (r, d') -> device_ok es d' /\ dv_model d' = dv_model d.
Proof.
  intros Hd. unfold dv_update. destruct (dv_data d) as [data d1] eqn:E.
  assert (H : dv_model d1 = dv_model d /\ dv_channel d1 = dv_channel d /\ dv_clockCycle d1 = dv_clockCycle d /\ postBuffer d1 = postBuffer d).
  { unfold dv_data in E. destruct (pendingReadData d) as [|p l]; [by injection E as <- <-|].
    destruct (count_down (dataCycles d)) as [|[|?|?] ?]; by injection E as <- <-. }
  destruct H as (Hm & Hc & Hk & Hp). destruct Hd as [H1 H2 [H3 H4] H5 H6 H7].
  unfold dv_post. rewrite Hp, H7. intros [= <- <-]. cbn. split; [|done].
  split; unfold device_spec; cbn; rewrite ?Hm, ?Hc; try done; [|congruence]. split; [apply wrap_range; lia|done].
Qed.

(** ** The invariant of a run *)

Definition no_refresh (f : RefreshMachine) : Prop := refresh_mechanism f = REFRESH_NONE /\ rf_commands f = [].
Definition data_packet (x : Z * BusPacket) : Prop := plain (snd x) /\ busPacketType (snd x) = Pkt.DATA.

Record channel_ok (c : Channel) : Prop := mk_channel_ok {
  hk_queues : queues_wf c;
  hk_quiet : ch_queues c = [] -> quiet c;
  hk_plain : Forall plain (concat (all_commands <$> ch_queues c));
  hk_refresh : no_refresh (refreshMachine (ch_scheduler c)) }.

Record controller_ok (es : list Issue) (c : MemoryController) : Prop := mk_controller_ok {
  ck_device : device_ok es (ch_device (mc_channel c));
  ck_channel : channel_ok (mc_channel c);
  ck_generator : commandBuffer (rs_generator (mc_scheduler c)) = [];
  ck_send : Forall data_packet (sendDataBuffer c) }.

Lemma rf_step_none cqs f : no_refresh f -> no_refresh (rf_step cqs f).
Proof. unfold no_refresh, rf_step. intros [Hm Hc]. rewrite Hm. destruct (_ =? 0); cbn; unfold rf_commandGenerate; cbn; rewrite ?Hm; by split. Qed.

Lemma rf_refresh_none f : no_refresh f -> rf_refresh f = (None, snd (rf_refresh f)) /\ no_refresh (snd (rf_refresh f)).
Proof. unfold no_refresh, rf_refresh. intros [Hm Hc]. rewrite Hm, Hc. destruct (rf_flag f), (refreshCounting f =? 0); cbn; by split_and!. Qed.

Lemma cs_refresh_none c c' : channel_ok c -> cs_refresh c = Ok c' ->
  channel_ok c' /\ ch_queues c' = ch_queues c /\ ch_device c' = ch_device c.
Proof.
  intros [H1 H2 H3 H4]. unfold cs_refresh. destruct (isInterval _); [|by intros [= <-]].
  destruct (rf_refresh_none _ H4) as [-> Hn]. intros [= <-]. by split.
Qed.

Lemma cs_tick_ok c : channel_ok c -> channel_ok (cs_tick c).
Proof. intros [H1 H2 H3 H4]. split; [done|done|done|]. cbn. by apply rf_step_none. Qed.

Lemma looked_channel_ok c c' : looked c c' -> channel_ok c -> (ch_queues c' = [] -> quiet c') -> channel_ok c'.
Proof.
  intros Hl [H1 H2 H3 H4] Hq. split; [by eapply looked_wf|done|by rewrite (looked_all _ _ Hl)|].
  pose proof (lk_scheduler _ _ Hl) as Hs. injection Hs as _ _ _ Hf _. by rewrite Hf.
Qed.

(** A cycle of the command scheduler. *)
Lemma cycle_ok es c r c' : channel_ok c -> device_ok es (ch_device c) -> commandSchedule c = Ok (r, c') ->
  channel_ok c' /\ device_ok (es ++ match r with Some p => issue_of (ch_device c) p | None => [] end) (ch_device c') /\
  dv_model (ch_device c') = dv_model (ch_device c).
Proof.
  intros Hc Hd H. apply commandSchedule_cycle in H; [|apply Hc..].
  destruct H as [c1 Hl|c1 p qi c2 Hl Hcand Hs].
  - rewrite app_nil_r, (lk_device _ _ Hl). split_and!; [|done..]. by apply (looked_channel_ok c).
  - assert (Hc1 : channel_ok c1) by (apply (looked_channel_ok c); [done..|]; intros E; exfalso; destruct Hcand as (q & Hq & _); by rewrite E in Hq).
    pose proof Hcand as (q & Hq & Ht & Hr & Hi).
    destruct (sendCommand_spec _ _ _ _ (hk_queues _ Hc1) Hcand Hs) as (Hrec & Hw & Ha & Hf & Hk & Hlen).
    assert (Hpl : Forall plain (p :: concat (all_commands <$> ch_queues c2))) by (rewrite <- Ha; apply Hc1).
    apply Forall_cons in Hpl as [Hp Hpl]. rewrite <- (lk_device _ _ Hl) in Hd |- *.
    split; [|eapply receive_issue; [done|done| |done]].
    + split; [done| |done|rewrite Hf; apply Hc1]. intros E. rewrite E in Hlen. cbn in Hlen.
      destruct (ch_queues c1); [done|discriminate Hlen].
    + unfold isIssuable in Hi. by destruct (busyBank _ _).
Qed.

Lemma mc_schedule_ok es c c' : controller_ok es c -> mc_schedule c = Ok c' ->
  controller_ok es c' /\ ch_device (mc_channel c') = ch_device (mc_channel c).
Proof.
  intros [Hd [Hq Hn Hp Hf] Hg Hs]. unfold mc_schedule. intros ([rqs s] & H1 & (qs & H2 & [= <-])%obind_Ok)%obind_Ok.
  assert (Hb : Forall plain (commandBuffer (rs_generator s))).
  { apply (requestSchedule_inv (fun _ s => Forall plain (commandBuffer (rs_generator s)))) in H1; [done..| |by rewrite Hg].
    intros rk bk r l q t flags q' t' flags' _ (g & open & Hgen & <- & _)%dispatch_spec Hb.
    apply commandGenerate_plain in Hgen as (ps & -> & Hps). by apply Forall_app. }
  apply enqueue_all in H2 as (Ha & Hw & Hl). split; [|done]. split; [done| |done|done]. cbn. split; cbn; [by apply Hw| | |done].
  - intros ->. apply Hn. cbn in Hl. by destruct (ch_queues (mc_channel c)).
  - rewrite Ha. apply Forall_app. split; [|done]. apply Forall_fmap. eapply Forall_impl; [exact Hb|]. by intros p.
Qed.

Lemma write_data_packets p c : Forall data_packet (write_data p c).
Proof. unfold write_data. destruct (busPacketType p); repeat constructor. Qed.

Lemma mc_command_ok es c r c' : controller_ok es c -> mc_command c = Ok (r, c') ->
  controller_ok (es ++ match r with Some p => issue_of (ch_device (mc_channel c)) p | None => [] end) c' /\
  dv_model (ch_device (mc_channel c')) = dv_model (ch_device (mc_channel c)).
Proof.
  intros [Hd Hc Hg Hs]. unfold mc_command. intros (ch1 & H1 & ([p ch2] & H2 & [= <- <-])%obind_Ok)%obind_Ok.
  destruct (cs_refresh_none _ _ Hc H1) as (Hc1 & Hq1 & Hd1). rewrite <- Hd1 in Hd |- *.
  destruct (cycle_ok _ _ _ _ Hc1 Hd H2) as (Hc2 & Hd2 & Hm). split; [|done]. split; [done..|]. cbn.
  apply Forall_app. split; [done|]. destruct p as [p|]; [apply write_data_packets|done].
Qed.

Lemma mc_send_ok es c evs c' : controller_ok es c -> mc_send c = Ok (evs, c') ->
  controller_ok es c' /\ ch_device (mc_channel c') = ch_device (mc_channel c).
Proof.
  intros Hc. unfold mc_send. intros ([evs1 c1] & H1 & [= <- <-])%obind_Ok.
  assert (H : controller_ok es c1 /\ ch_device (mc_channel c1) = ch_device (mc_channel c)).
  { destruct Hc as [Hd [Hq Hn Hp Hf] Hg Hs]. destruct (sendDataBuffer c) as [|[[|?|?] p] rest] eqn:E; try (injection H1 as <- <-; split; [|done]; by split).
    - injection H1 as <- <-. split; [|done]. split; [done..|]. by rewrite E.
    - apply Forall_cons in Hs as [[Hp1 Ht] Hs]. apply obind_Ok in H1 as ([e2 c2] & H2 & [= <- <-]).
      unfold sendData in H2. apply obind_Ok in H2 as (d & Hd' & H2). apply (receive_data es) in Hd' as ->; [|done..].
      destruct (settle _ _ _) as [x writes]. injection H2 as <- <-. by split.
    - injection H1 as <- <-. split; [|done]. split; [done..|]. by rewrite E.
    - injection H1 as <- <-. split; [|done]. split; [done..|]. by rewrite E. }
  destruct H as [[Hd Hch Hg Hs] Hdev]. split; [|done]. split; [done..|]. cbn. apply Forall_fmap. eapply Forall_impl; [exact Hs|]. by intros [].
Qed.

Lemma mc_update_ok es c evs c' : controller_ok es c -> mc_update c = Ok (evs, c') ->
  controller_ok (es ++ sys_issues (mkSystem c 0)) c' /\
  dv_model (ch_device (mc_channel c')) = dv_model (ch_device (mc_channel c)).
Proof.
  intros Hc. unfold mc_update, sys_issues; cbn [sys_controller sys_device].
  intros (c1 & H1 & ([p c2] & H2 & ([evs3 c3] & H3 & [= <- <-])%obind_Ok)%obind_Ok)%obind_Ok. rewrite H1. cbn [obind]. rewrite H2.
  destruct (mc_schedule_ok _ _ _ Hc H1) as [Hc1 Hd1]. unfold sys_device; cbn. rewrite <- Hd1.
  destruct (mc_command_ok _ _ _ _ Hc1 H2) as [Hc2 Hm2]. destruct (mc_send_ok _ _ _ _ Hc2 H3) as [Hc3 Hd3].
  split; [|cbn; congruence]. destruct p as [p|]; destruct Hc3 as [Hd [Hq Hn Hp Hf] Hg Hs]; (split; [done| |done|done]); cbn;
    by apply cs_tick_ok.
Qed.

Definition system_ok (es : list Issue) (m : MemorySystem) : Prop := controller_ok es (sys_controller m).

Lemma receiveData_ok es p c : controller_ok es c -> controller_ok es (snd (receiveData p c)) /\
  mc_channel (snd (receiveData p c)) = mc_channel c.
Proof. intros [Hd [Hq Hn Hp Hf] Hg Hs]. unfold receiveData. destruct (settle _ _ _). cbn. by split. Qed.

Lemma with_device_ok es d c : controller_ok es c -> device_ok es d -> controller_ok es (with_device d c).
Proof. intros [Hd [Hq Hn Hp Hf] Hg Hs] H. by split. Qed.

Lemma sys_update_ok es m evs m' : system_ok es m -> sys_update m = Ok (evs, m') ->
  system_ok (es ++ sys_issues m) m' /\ dv_model (sys_device m') = dv_model (sys_device m).
Proof.
  intros Hm. unfold sys_update. intros ([evs1 c1] & H1 & ([data d] & H2 & H3)%obind_Ok)%obind_Ok.
  destruct (mc_update_ok _ _ _ _ Hm H1) as [Hc1 Hm1]. change (sys_issues (mkSystem (sys_controller m) 0)) with (sys_issues m) in Hc1.
  destruct (dv_update_ok _ _ _ _ (ck_device _ _ Hc1) H2) as [Hd2 Hm2].
  destruct (match data with Some p => receiveData p c1 | None => ([], c1) end) as [evs2 c2] eqn:E. injection H3 as <- <-.
  split; [|unfold sys_device; cbn; congruence]. unfold system_ok; cbn. apply with_device_ok; [|done]. destruct data as [p|].
  - pose proof (receiveData_ok _ p _ Hc1) as [Hc2 _]. by rewrite E in Hc2.
  - by injection E as <- <-.
Qed.

Lemma sys_addRequest_ok es m junk id address R_W size m' : system_ok es m -> sys_addRequest junk id address R_W size m = Ok m' ->
  system_ok es m' /\ sys_device m' = sys_device m.
Proof.
  intros [Hd [Hq Hn Hp Hf] Hg Hs]. unfold sys_addRequest, mc_addRequest, admit_request.
  intros (c & (r & _ & H)%obind_Ok & [= <-])%obind_Ok. destruct r as [r qi], (requestQueue _ !! _); [|done]. injection H as <-.
  by split.
Qed.

Lemma drive_ok ops : forall es0 m0 es evs m, system_ok es0 m0 -> drive ops m0 = Ok (es, evs, m) ->
  system_ok (es0 ++ es) m /\ dv_model (sys_device m) = dv_model (sys_device m0).
Proof.
  induction ops as [|[junk id address R_W size|] ops IH]; intros es0 m0 es evs m H0; cbn [drive].
  - intros [= <- <- <-]. by rewrite app_nil_r.
  - intros (m1 & H1 & H)%obind_Ok. destruct (sys_addRequest_ok _ _ _ _ _ _ _ _ H0 H1) as [Hm1 Hd].
    rewrite <- Hd. by eapply IH.
  - intros ([evs1 m1] & H1 & ([[es2 evs2] m2] & H2 & [= <- <- <-])%obind_Ok)%obind_Ok.
    destruct (sys_update_ok _ _ _ _ H0 H1) as [Hm1 Hd]. rewrite <- Hd, app_assoc. by eapply IH.
Qed.

(** ** New systems *)

Lemma flat_new_queues b n : concat (all_commands <$> repeat (newCommandQueue b) n) = [].
Proof. by induction n. Qed.

Lemma connect_ok config n junk d c : device_ok [] d -> connectMemoryDevice config n junk d = Ok c ->
  controller_ok [] c /\ ch_device (mc_channel c) = d.
Proof.
  intros Hd. unfold connectMemoryDevice.
  intros (nreq & _ & (ncmd & _ & (dec & _ & (rs & _ & (g & _ & (cs & _ & [= <-])%obind_Ok)%obind_Ok)%obind_Ok)%obind_Ok)%obind_Ok)%obind_Ok.
  split; [|done]. split; [done| |done|done]. cbn. split; cbn; [|done| |done].
  - unfold queues_wf; cbn. apply Forall_forall. intros q Hq%list_elem_of_In%repeat_spec. subst q. unfold cq_wf, newCommandQueue.
    by destruct (requestorCmdQ config).
  - rewrite flat_new_queues. done.
Qed.

Lemma newMemorySystem_ok n ini gene speed size ranks junk m : 0 < ranks ->
  newMemorySystem n ini gene speed size ranks junk = Ok m -> system_ok [] m /\ standard_ok (device_spec (sys_device m)).
Proof.
  intros Hr. unfold newMemorySystem. intros (config & _ & (d & Hd & (c & Hc & [= <-])%obind_Ok)%obind_Ok)%obind_Ok.
  assert (H : device_ok [] d /\ standard_ok (device_spec d)).
  { destruct (String.eqb gene "DDR3"); [|destruct (String.eqb gene "DDR4"); [|by destruct (String.eqb gene "DSARP")]];
      apply obind_Ok in Hd as ([o s] & Hs & [= <-]).
    - apply DDR3_select_org in Hs. split; [|by apply DDR3_standard_ok].
      split; try done; [apply checked_nil|cbn; unfold DDR3.Bank; lia].
    - apply DDR4_select_org in Hs. split; [|by apply DDR4_standard_ok].
      split; try done; [apply checked_nil|cbn; unfold DDR4.Bank; lia]. }
  destruct H as [Hok Hstd]. destruct (connect_ok _ _ _ _ _ Hok Hc) as [Hco Hdev]. split; [done|]. unfold sys_device; cbn. by rewrite Hdev.
Qed.

(** What a standard asks of a command, given those before it. *)
Definition respects (spec : Standard) (es : list Issue) (e : Issue) : Prop :=
  forall lv, (lv <= scope spec (is_cmd e))%nat -> (lv < lv_row spec)%nat -> (forall l, (l <= lv)%nat -> 0 <= addr_at l (is_addr e)) ->
  (forall c t τ, t ∈ timing spec lv c -> t_cmd t = is_cmd e -> t_sibling t = false ->
     times (fun e' => agree 0 lv (is_addr e) (is_addr e')) c (rev es) !! Z.to_nat (t_dist t - 1) = Some τ -> τ + t_val t <= is_clk e) /\
  (forall t e', e' ∈ es -> (forall l, (l < lv)%nat -> addr_at l (is_addr e) = addr_at l (is_addr e')) ->
     addr_at lv (is_addr e) <> addr_at lv (is_addr e') ->
     t ∈ timing spec lv (is_cmd e') -> t_cmd t = is_cmd e -> t_sibling t = true -> is_clk e' + t_val t <= is_clk e).

