(* ===== verification/McConserve.v ===== *)
(** * MCsim: no request and no beat is lost

    A request is owed one beat per bus width of its size.  Every beat is, at any
    time, in a request that waits, in a command that waits, or on its way as
    data; the data of a beat finds the request it belongs to. *)

From S2P Require Export McTheory.

Local Open Scope list_scope.
Open Scope Z_scope.
Import MC.

(** ** Beats *)

Definition Key : Type := Z * Z.
Definition request_key (r : Request) : Key := (requestorID r, address r).
Definition packet_key (p : BusPacket) : Key := (p_requestorID p, p_address p).

Definition beats (w : Z) (r : Request) : list Key := repeat (request_key r) (Z.to_nat (requestSize r / w)).
Definition owed (w : Z) (k : RequestType) (l : list Request) : list Key := concat (beats w <$> filter (fun r => requestType r = k) l).

(** The accesses among commands. *)
Definition is_access (k : RequestType) (p : BusPacket) : bool :=
  match busPacketType p, k with
  | Pkt.RD, DATA_READ | Pkt.RDA, DATA_READ | Pkt.WR, DATA_WRITE | Pkt.WRA, DATA_WRITE => true
  | _, _ => false
  end.
Definition accesses (k : RequestType) (l : list BusPacket) : list Key := packet_key <$> filter (fun p => is_access k p) l.

#[global] Arguments owed : simpl never.
#[global] Arguments accesses : simpl never.

#[global] Instance owed_perm w k : Proper ((≡ₚ) ==> (≡ₚ)) (owed w k).
Proof. intros l l' H. unfold owed. by rewrite H. Qed.
#[global] Instance accesses_perm k : Proper ((≡ₚ) ==> (≡ₚ)) (accesses k).
Proof. intros l l' H. unfold accesses. by rewrite H. Qed.

Lemma owed_app w k l l' : owed w k (l ++ l') = owed w k l ++ owed w k l'.
Proof. unfold owed. by rewrite filter_app, fmap_app, concat_app. Qed.
Lemma accesses_app k l l' : accesses k (l ++ l') = accesses k l ++ accesses k l'.
Proof. unfold accesses. by rewrite filter_app, fmap_app. Qed.

Lemma owed_cons w k r l : owed w k (r :: l) = (if decide (requestType r = k) then beats w r else []) ++ owed w k l.
Proof. unfold owed. rewrite filter_cons. by case_decide. Qed.
Lemma accesses_cons k p l : accesses k (p :: l) = (if is_access k p then [packet_key p] else []) ++ accesses k l.
Proof. unfold accesses. rewrite filter_cons. destruct (is_access k p) eqn:E; [by rewrite decide_True|rewrite decide_False; [done|by intros []]]. Qed.

(** ** Requests the generators cut into whole beats *)

(** A request waiting for its data. *)
Definition due (w : Z) (k : RequestType) (r : Request) : Prop :=
  0 < requestSize r < 2 ^ 32 /\ (w | requestSize r) /\ requestType r = k.
(** A request not cut yet. *)
Definition whole (w : Z) (kind : GeneratorKind) (size : Z) : Prop :=
  0 < size < 2 ^ 32 /\ match kind with
    | GEN_OPEN => (w | size)
    | GEN_CLOSE => size = w \/ size = w * 2 \/ size = w * 4 \/ size = w * 8 \/ size = w * 16
    end.

Lemma whole_divides w kind size : whole w kind size -> (w | size).
Proof. intros [_ H]. destruct kind; [done|]. destruct H as [->|[->|[->|[->| ->]]]]; eexists; rewrite Z.mul_comm; try done. by rewrite Z.mul_1_r. Qed.

(** A generator of a controller whose bus is [w] bytes wide. *)
Record generator_ok (w : Z) (g : CommandGenerator) : Prop := mk_generator_ok {
  gk_width : 0 < w < 2 ^ 28;
  gk_size : dataBusSize g = w;
  gk_table : lookupTable g = lookupTable (newCommandGenerator (g_kind g) w) }.

Lemma concat_repeat {A} (a : A) n l : Forall (fun x => x = [a]) l -> length l = n -> concat l = repeat a n.
Proof. intros H <-. induction H as [|x l -> _ IH]; cbn; [done|]. by rewrite IH. Qed.

Lemma accesses_access r g type k l (f : Z -> Z) (b : Z) :
  is_access k (command_for g r type 0 0) = true ->
  accesses k ((fun x => command_for g r type (f x) b) <$> l) = repeat (request_key r) (length l).
Proof.
  intros H. induction l as [|x l IH]; [done|]. rewrite fmap_cons, accesses_cons. cbn [length repeat].
  replace (is_access k (command_for g r type (f x) b)) with true by (by rewrite <- H). cbn. by rewrite IH.
Qed.

Lemma accesses_other r g type k l (f : Z -> Z) (b : Z) :
  is_access k (command_for g r type 0 0) = false -> accesses k ((fun x => command_for g r type (f x) b) <$> l) = [].
Proof.
  intros H. induction l as [|x l IH]; [done|]. rewrite fmap_cons, accesses_cons.
  replace (is_access k (command_for g r type (f x) b)) with false by (by rewrite <- H). done.
Qed.

Lemma generate_open_accesses w k r open g g' : generator_ok w g -> whole w GEN_OPEN (requestSize r) -> generate_open r open g = Ok g' ->
  accesses k (commandBuffer g') = accesses k (commandBuffer g) ++ owed w k [r] /\ g_kind g' = g_kind g /\ generator_ok w g'.
Proof.
  intros [Hw Hs Ht] [Hsz Hd]. unfold generate_open. rewrite Hs. destruct (w =? 0) eqn:E; [lia|].
  set (cas := (fun x => _) <$> seqZ 0 _).
  assert (Hcas : accesses k cas = owed w k [r]).
  { rewrite owed_cons. unfold cas, owed. rewrite filter_nil, app_nil_r. unfold beats.
    rewrite <- (length_seqZ 0 (requestSize r / w)).
    case_decide as Hk; [rewrite <- Hk; apply accesses_access; by destruct (requestType r)|].
    apply accesses_other. by destruct (requestType r), k. }
  assert (Hrow : forall type c, (type = Pkt.PRE \/ type = Pkt.ACT) -> is_access k (command_for g r type c (bank r)) = false)
    by (by intros type c [-> | ->]; destruct k).
  destruct open; [intros [= <-]; cbn [push_commands commandBuffer g_kind]; by rewrite accesses_app, Hcas|].
  destruct (first g !! _) as [[|]|]; [| |done]; intros [= <-]; cbn [push_commands commandBuffer g_kind];
    rewrite !accesses_app, ?accesses_cons, ?Hrow, Hcas by auto; done.
Qed.

Lemma w32_scale w n : 0 < w < 2 ^ 28 -> 0 < n <= 16 -> w32 (w * n) = w * n.
Proof. intros. unfold w32. apply wrap_small. nia. Qed.

(** The table of the closed-page generator. *)
Lemma close_table w g size : generator_ok w g -> g_kind g = GEN_CLOSE -> whole w GEN_CLOSE size -> exists nb nc,
  lookupTable g !! size = Some (nb, nc) /\ 0 <= nb /\ 0 <= nc /\ size / w = nb * nc.
Proof.
  intros [Hw Hs Ht] Hk [_ Hsz]. rewrite Ht, Hk. unfold newCommandGenerator; cbn [lookupTable].
  rewrite !w32_scale by lia.
  assert (Hd : forall n, 0 < n -> w * n / w = n) by (intros; rewrite Z.mul_comm; apply Z.div_mul; lia).
  destruct Hsz as [->|[->|[->|[->| ->]]]].
  - exists 1, 1. rewrite !lookup_insert_ne by lia. rewrite lookup_singleton_eq, Z.div_same by lia. by split_and!.
  - exists 2, 1. rewrite !lookup_insert_ne by lia. rewrite lookup_insert_eq, Hd by lia. by split_and!.
  - exists 4, 1. rewrite !lookup_insert_ne by lia. rewrite lookup_insert_eq, Hd by lia. by split_and!.
  - exists 8, 1. rewrite !lookup_insert_ne by lia. rewrite lookup_insert_eq, Hd by lia. by split_and!.
  - exists 8, 2. rewrite lookup_insert_eq, Hd by lia. by split_and!.
Qed.

Lemma concat_const {A B} (f : B -> list A) a n l : (forall x, f x = repeat a n) -> concat (f <$> l) = repeat a (length l * n).
Proof. intros H. induction l as [|x l IH]; cbn; [done|]. by rewrite H, IH, repeat_app. Qed.

Lemma accesses_concat {B} k (f : B -> list BusPacket) l : accesses k (concat (f <$> l)) = concat ((fun x => accesses k (f x)) <$> l).
Proof. induction l as [|x l IH]; [done|]. rewrite !fmap_cons. cbn [concat]. by rewrite accesses_app, IH. Qed.

Lemma generate_close_accesses w k r g : generator_ok w g -> g_kind g = GEN_CLOSE -> whole w GEN_CLOSE (requestSize r) ->
  accesses k (commandBuffer (generate_close r g)) = accesses k (commandBuffer g) ++ owed w k [r] /\
  g_kind (generate_close r g) = g_kind g /\ generator_ok w (generate_close r g).
Proof.
  intros Hg Hk Hr. destruct (close_table _ _ _ Hg Hk Hr) as (nb & nc & Hl & Hb & Hc & Hsz).
  unfold generate_close. rewrite Hl. cbn [from_option id push_commands commandBuffer g_kind].
  split; [|split; [done|by destruct Hg]]. rewrite accesses_app. f_equal. rewrite accesses_concat, owed_cons. unfold owed.
  rewrite filter_nil, app_nil_r. unfold beats. rewrite Hsz.
  set (hit := if decide (requestType r = k) then 1%nat else O).
  erewrite concat_const; [|intros bi; rewrite accesses_concat; erewrite concat_const; [reflexivity|]].
  - instantiate (1 := hit). instantiate (1 := request_key r). rewrite !length_seqZ. unfold hit. case_decide.
    + f_equal. rewrite Nat.mul_1_r. lia.
    + by rewrite !Nat.mul_0_r.
  - intros x. cbv beta. rewrite !accesses_cons. unfold hit. destruct (requestType r), k; cbn; done.
Qed.

Lemma commandGenerate_accesses w k r open g g' : generator_ok w g -> whole w (g_kind g) (requestSize r) ->
  commandGenerate r open g = Ok g' ->
  accesses k (commandBuffer g') = accesses k (commandBuffer g) ++ owed w k [r] /\ g_kind g' = g_kind g /\ generator_ok w g'.
Proof.
  intros Hg Hr. unfold commandGenerate. destruct (g_kind g) eqn:Hk.
  - intros H. rewrite <- Hk. by eapply generate_open_accesses.
  - intros [= <-]. rewrite <- Hk. by apply generate_close_accesses.
Qed.

(** ** Settling *)

Lemma beats_split w r : 0 < w -> 0 < requestSize r < 2 ^ 32 -> (w | requestSize r) ->
  beats w r = request_key r :: (if requestSize r =? w then [] else beats w (set_requestSize (w32 (requestSize r - w)) r)) /\
  (requestSize r <> w -> 0 < w32 (requestSize r - w) < 2 ^ 32 /\ (w | w32 (requestSize r - w))).
Proof.
  intros Hw Hs [n Hn]. assert (Hn0 : 0 < n) by nia. unfold beats.
  assert (Hsub : requestSize r <> w -> w32 (requestSize r - w) = (n - 1) * w).
  { intros Hne. unfold w32. rewrite wrap_small; nia. }
  rewrite Hn, Z.div_mul by lia. split.
  - destruct (Z.eqb_spec (n * w) w) as [E|E].
    + replace n with 1 by nia. done.
    + change (requestSize (set_requestSize (w32 (n * w - w)) r)) with (w32 (n * w - w)).
      change (request_key (set_requestSize (w32 (n * w - w)) r)) with (request_key r).
      rewrite <- Hn, Hsub, Z.div_mul by (rewrite ?Hn; lia). replace (Z.to_nat n) with (S (Z.to_nat (n - 1))) by lia. cbn. done.
  - rewrite <- Hn. intros Hne. rewrite Hsub by done. split; [nia|by exists (n - 1)].
Qed.

(** A beat that is owed is taken from the request it belongs to. *)
Lemma settle_owed w k p l : 0 < w -> Forall (due w k) l -> packet_key p ∈ owed w k l ->
  owed w k l ≡ₚ packet_key p :: owed w k (snd (settle w p l)) /\ Forall (due w k) (snd (settle w p l)).
Proof.
  intros Hw. induction l as [|r l IH]; [by intros _ ?%elem_of_nil|]. intros [(Hs & Hd & Ht) Hl]%Forall_cons. rewrite owed_cons, decide_True by done.
  destruct (beats_split w r Hw Hs Hd) as [Hb Hrest]. cbn [settle].
  destruct ((p_requestorID p =? requestorID r) && (p_address p =? address r)) eqn:E.
  - apply andb_prop in E as [E1 E2]. assert (Hk : request_key r = packet_key p) by (unfold request_key, packet_key; f_equal; lia).
    intros _. rewrite Hb, Hk. destruct (requestSize r =? w) eqn:E; cbn [snd]; [by split|].
    rewrite owed_cons, decide_True by done. split; [done|]. apply Forall_cons. split; [|done]. apply Z.eqb_neq in E.
    split; [by apply Hrest|]. split; [by apply Hrest|done].
  - intros [Hin|Hin]%elem_of_app.
    + exfalso. apply list_elem_of_In in Hin. apply repeat_spec in Hin. injection Hin as E1 E2. lia.
    + destruct (IH Hl Hin) as [Hp Hf]. destruct (settle w p l) as [x l'']. cbn [snd] in *. split.
      * rewrite owed_cons, decide_True, Hp by done. solve_perm.
      * by apply Forall_cons.
Qed.

(** ** The balance of a controller *)

Definition pending (k : RequestType) (c : MemoryController) : list Request :=
  match k with DATA_READ => pendingReadRequest c | DATA_WRITE => pendingWriteRequest c end.
Definition waiting_requests (c : MemoryController) : list Request := concat (all_requests <$> requestQueue c).
Definition waiting_commands (c : MemoryController) : list BusPacket := concat (all_commands <$> ch_queues (mc_channel c)).
(** Beats on the bus. *)
Definition in_transit (k : RequestType) (c : MemoryController) : list Key :=
  packet_key <$> match k with
  | DATA_READ => pendingReadData (ch_device (mc_channel c))
  | DATA_WRITE => snd <$> sendDataBuffer c
  end.
Definition generator (c : MemoryController) : CommandGenerator := rs_generator (mc_scheduler c).

Record balanced (w : Z) (pol : GeneratorKind) (c : MemoryController) : Prop := mk_balanced {
  bl_beats : forall k, owed w k (pending k c) ≡ₚ
    owed w k (waiting_requests c) ++ accesses k (waiting_commands c) ++ in_transit k c;
  bl_due : forall k, Forall (due w k) (pending k c);
  bl_whole : Forall (fun r => whole w pol (requestSize r)) (waiting_requests c);
  bl_generator : generator_ok w (generator c);
  bl_width : mc_dataBusWidth c = w;
  bl_policy : g_kind (generator c) = pol }.

Lemma accesses_stamp k t l : accesses k (stamp t <$> l) = accesses k l.
Proof. induction l as [|p l IH]; [done|]. rewrite fmap_cons, !accesses_cons, IH. done. Qed.

Lemma mc_schedule_balanced es w pol c c' : controller_ok es c -> balanced w pol c -> mc_schedule c = Ok c' -> balanced w pol c'.
Proof.
  intros Hc [Hb Hd Hw Hg Hwd Hpol]. unfold mc_schedule. intros ([rqs s] & H1 & (qs & H2 & [= <-])%obind_Ok)%obind_Ok.
  set (I := fun (l : list Request) (t : RequestScheduler) =>
    g_kind (rs_generator t) = pol /\ generator_ok w (rs_generator t) /\
    Forall (fun r => whole w pol (requestSize r)) l /\
    forall k, owed w k l ++ accesses k (commandBuffer (rs_generator t)) ≡ₚ owed w k (waiting_requests c)).
  assert (HI : I (concat (all_requests <$> rqs)) s).
  { apply (requestSchedule_inv I) in H1; [done| | | |].
    - intros l l' t Hp (Hk & Hg' & Hw' & Ho). split_and!; [done|done|by rewrite <- Hp|]. intros k. by rewrite <- Hp.
    - by intros l t index.
    - intros rk bk r l q t flags q' t' flags' Hr (g & open & Hgen & Hg' & Hq)%dispatch_spec (Hk & Hgt & Hw' & Ho).
      apply (removeRequest_all _ _ _ Hr) in Hq. rewrite Hq in Hw'. rewrite <- (Permutation_middle l) in Hw'.
      apply Forall_cons in Hw' as [Hwr Hw']. rewrite <- Hk in Hwr. unfold I. rewrite Hg'.
      pose proof (fun k => commandGenerate_accesses w k r open _ g Hgt Hwr Hgen) as Ha.
      split_and!; [rewrite <- Hk; apply (Ha DATA_READ)|apply (Ha DATA_READ)|done|]. intros k. rewrite <- (Ho k), Hq.
      destruct (Ha k) as [-> _]. rewrite <- (Permutation_middle l), (owed_cons _ _ r (l ++ _)).
      rewrite (owed_cons w k r []). unfold owed at 3. cbn. rewrite app_nil_r. solve_perm.
    - unfold I. split_and!; [done..|]. intros k. unfold generator in *. rewrite (ck_generator _ _ Hc). cbn. by rewrite app_nil_r. }
  destruct HI as (Hk & Hg' & Hw' & Ho). apply enqueue_all in H2 as (Ha & _ & _).
  split; [|intros []; apply Hd|done| |done|done].
  - intros k. unfold waiting_commands, waiting_requests; cbn. rewrite Ha, accesses_app, accesses_stamp.
    transitivity (owed w k (pending k c)); [by destruct k|]. rewrite (Hb k), <- (Ho k).
    replace (in_transit k (mc_set _ _ _ _ _ _ c)) with (in_transit k c) by by destruct k. unfold waiting_commands. solve_perm.
  - destruct Hg'. by split.
Qed.

Lemma receive_transit p d d' : plain p -> receiveFromBus p d = Ok d' ->
  packet_key <$> pendingReadData d' = (packet_key <$> pendingReadData d) ++ accesses DATA_READ [p].
Proof.
  intros Hp. unfold receiveFromBus. rewrite Hp. intros (d1 & H1 & [= <-])%obind_Ok.
  assert (Hd : pendingReadData d1 = pendingReadData d).
  { case_match; [by injection H1 as <-|]. apply obind_Ok in H1 as (cmd & _ & (chan & _ & [= <-])%obind_Ok). done. }
  rewrite accesses_cons. unfold generateData, is_access. destruct (busPacketType p); cbn; rewrite Hd, ?fmap_app, ?app_nil_r; done.
Qed.

Lemma write_data_transit p c : packet_key <$> (snd <$> write_data p c) = accesses DATA_WRITE [p].
Proof. rewrite accesses_cons. unfold write_data, is_access. by destruct (busPacketType p). Qed.

(** A command leaves the queues for the bus. *)
Lemma mc_command_balanced es w pol c r c' : controller_ok es c -> balanced w pol c -> mc_command c = Ok (r, c') -> balanced w pol c'.
Proof.
  intros Hc [Hb Hd Hw Hg Hwd Hpol]. unfold mc_command. intros (ch1 & H1 & ([p ch2] & H2 & [= <- <-])%obind_Ok)%obind_Ok.
  destruct (cs_refresh_none _ _ (ck_channel _ _ Hc) H1) as (Hc1 & Hq1 & Hd1).
  apply commandSchedule_cycle in H2; [|apply Hc1..].
  split; [|intros []; apply Hd|done|done|done|done].
  enough (HE : forall k, accesses k (waiting_commands c) ++ in_transit k c ≡ₚ
    accesses k (concat (all_commands <$> ch_queues ch2)) ++ (packet_key <$> match k with
      | DATA_READ => pendingReadData (ch_device ch2)
      | DATA_WRITE => snd <$> (sendDataBuffer c ++ match p with Some p => write_data p (mc_set (requestQueue c) (mc_scheduler c) ch2
          (pendingReadRequest c) (pendingWriteRequest c) (sendDataBuffer c) c) | None => [] end) end)).
  { intros k. specialize (HE k). specialize (Hb k). rewrite HE in Hb. by destruct k. }
  unfold waiting_commands, in_transit. rewrite <- Hq1, <- Hd1.
  destruct H2 as [ch2 Hl _|c1 p qi ch2 Hl Hcand Hs].
  - intros k. rewrite (looked_all _ _ Hl), (lk_device _ _ Hl), app_nil_r. done.
  - assert (Hc1' : channel_ok c1) by (apply (looked_channel_ok ch1); [done..|]; intros E; exfalso; destruct Hcand as (q & Hq & _); by rewrite E in Hq).
    destruct (sendCommand_spec _ _ _ _ (hk_queues _ Hc1') Hcand Hs) as (Hrec & _ & Ha & _).
    pose proof (hk_plain _ Hc1') as Hpl. rewrite Ha in Hpl. apply Forall_cons in Hpl as [Hp _].
    apply receive_transit in Hrec; [|done]. rewrite <- (looked_all _ _ Hl), <- (lk_device _ _ Hl).
    intros k. rewrite Ha, accesses_cons. destruct k; [rewrite Hrec|rewrite !fmap_app, write_data_transit];
      rewrite accesses_cons, app_nil_r; solve_perm.
Qed.

Lemma in_transit_owed w pol c k p l : balanced w pol c -> in_transit k c ≡ₚ packet_key p :: l ->
  packet_key p ∈ owed w k (pending k c).
Proof. intros Hb Hl. rewrite (bl_beats _ _ _ Hb k), Hl, !elem_of_app. right. right. by left. Qed.

Lemma snd_count (l : list (Z * BusPacket)) : snd <$> ((fun x => (w32 (fst x - 1), snd x)) <$> l) = snd <$> l.
Proof. by induction l as [|x l IH]; [|rewrite !fmap_cons, IH]. Qed.

(** The data of a write, and the request it settles. *)
Lemma mc_send_balanced es w pol c evs c' : controller_ok es c -> balanced w pol c -> mc_send c = Ok (evs, c') -> balanced w pol c'.
Proof.
  intros Hc Hb. unfold mc_send. intros ([evs1 c1] & H1 & [= <- <-])%obind_Ok.
  assert (H : balanced w pol c1).
  { destruct (sendDataBuffer c) as [|[[|?|?] p] rest] eqn:E; try (by injection H1 as <- <-).
    pose proof (in_transit_owed w pol c DATA_WRITE p (packet_key <$> (snd <$> rest)) Hb) as Hin. unfold in_transit in Hin. rewrite E in Hin.
    specialize (Hin (reflexivity _)). pose proof (ck_send _ _ Hc) as Hs. rewrite E in Hs.
    apply Forall_cons in Hs as [[Hp Ht] _].
    apply obind_Ok in H1 as ([e2 c2] & H2 & [= <- <-]). unfold sendData in H2. apply obind_Ok in H2 as (d & Hd' & H2).
    apply (receive_data es) in Hd' as ->; [|apply Hc|done..].
    destruct Hb as [Hb Hd Hw Hg Hwd Hpol]. pose proof (gk_width _ _ Hg) as Hw0.
    destruct (settle_owed w DATA_WRITE p (pendingWriteRequest c)) as [Ho Hdue]; [lia|apply (Hd DATA_WRITE)|done|].
    rewrite Hwd in H2. destruct (settle w p (pendingWriteRequest c)) as [x writes]. cbn in Ho, Hdue. injection H2 as <- <-.
    split; [|intros []; [apply (Hd DATA_READ)|done]|done|done|done|done].
    intros []; [apply (Hb DATA_READ)|]. specialize (Hb DATA_WRITE). unfold in_transit in *. cbn [pending] in *. rewrite E in Hb.
    rewrite Ho in Hb. cbn [pending in_transit mc_set pendingWriteRequest sendDataBuffer fmap list_fmap snd] in *.
    rewrite !app_assoc, <- Permutation_middle, <- !app_assoc in Hb. by apply (inj (cons _)) in Hb. }
  destruct H as [Hb1 Hd1 Hw1 Hg1 Hwd1 Hpol1]. split; [|intros []; apply Hd1|done|done|done|done].
  intros k. specialize (Hb1 k). destruct k; [done|]. unfold in_transit in *. cbn [mc_set sendDataBuffer]. by rewrite snd_count.
Qed.

Lemma mc_update_balanced es w pol c evs c' : controller_ok es c -> balanced w pol c -> mc_update c = Ok (evs, c') -> balanced w pol c'.
Proof.
  intros Hc Hb. unfold mc_update. intros (c1 & H1 & ([p c2] & H2 & ([evs3 c3] & H3 & [= <- <-])%obind_Ok)%obind_Ok)%obind_Ok.
  destruct (mc_schedule_ok _ _ _ Hc H1) as [Hc1 _]. destruct (mc_command_ok _ _ _ _ Hc1 H2) as [Hc2 _].
  assert (H : balanced w pol c3).
  { eapply mc_send_balanced, H3; [done|]. eapply mc_command_balanced, H2; [done|]. exact (mc_schedule_balanced _ _ _ _ _ Hc Hb H1). }
  destruct H as [Hb3 Hd3 Hw3 Hg3 Hwd3 Hpol3]. split; [|intros k; specialize (Hd3 k); destruct k; exact Hd3|done|done|done|done]. intros k. specialize (Hb3 k). by destruct k.
Qed.

(** ** The balance of a system *)

Lemma dv_update_data d r d' : postBuffer d = [] -> dv_update d = Ok (r, d') ->
  pendingReadData d = match r with Some p => [p] | None => [] end ++ pendingReadData d'.
Proof.
  intros Hp. unfold dv_update. destruct (dv_data d) as [data d1] eqn:E. unfold dv_data in E.
  assert (H : postBuffer d1 = [] /\ pendingReadData d = match data with Some p => [p] | None => [] end ++ pendingReadData d1).
  { destruct (pendingReadData d) as [|p l] eqn:El; [injection E as <- <-; by rewrite El|].
    destruct (count_down (dataCycles d)) as [|[|?|?] ?]; injection E as <- <-; by cbn. }
  destruct H as [H1 H2]. unfold dv_post. rewrite H1. by intros [= <- <-].
Qed.

Lemma sys_update_balanced es w pol m evs m' : system_ok es m -> balanced w pol (sys_controller m) -> sys_update m = Ok (evs, m') ->
  balanced w pol (sys_controller m').
Proof.
  intros Hm Hb. unfold sys_update. intros ([evs1 c1] & H1 & ([data d] & H2 & H3)%obind_Ok)%obind_Ok.
  pose proof (mc_update_balanced _ _ _ _ _ _ Hm Hb H1) as Hb1. destruct (mc_update_ok _ _ _ _ Hm H1) as [Hc1 _].
  apply dv_update_data in H2; [|apply Hc1].
  assert (H : balanced w pol (with_device d (match data with Some p => receiveData p c1 | None => ([], c1) end).2)).
  { destruct data as [p|].
    - pose proof (in_transit_owed w pol c1 DATA_READ p (packet_key <$> pendingReadData d) Hb1) as Hin. unfold in_transit in Hin. rewrite H2 in Hin.
      specialize (Hin (reflexivity _)). destruct Hb1 as [Hb1 Hd1 Hw1 Hg1 Hwd1 Hpol1]. pose proof (gk_width _ _ Hg1).
      destruct (settle_owed w DATA_READ p (pendingReadRequest c1)) as [Ho Hdue]; [lia|apply (Hd1 DATA_READ)|done|].
      unfold receiveData. rewrite Hwd1. destruct (settle w p (pendingReadRequest c1)) as [x reads]. cbn in Ho, Hdue.
      split; [|intros []; [done|apply (Hd1 DATA_WRITE)]|done|done|done|done].
      intros []; [|apply (Hb1 DATA_WRITE)]. specialize (Hb1 DATA_READ). unfold in_transit in *. rewrite H2 in Hb1. cbn [pending] in *.
      rewrite Ho in Hb1. cbn [fmap list_fmap app] in Hb1. rewrite !app_assoc, <- Permutation_middle, <- !app_assoc in Hb1.
      by apply (inj (cons _)) in Hb1.
    - destruct Hb1 as [Hb1 Hd1 Hw1 Hg1 Hwd1 Hpol1]. split; [|intros []; apply Hd1|done|done|done|done].
      intros k. specialize (Hb1 k). unfold in_transit in *. rewrite H2 in Hb1. by destruct k. }
  destruct data as [p|]; [destruct (receiveData p c1) as [evs2 c2]|]; by injection H3 as <- <-.
Qed.

(** Mapping an address leaves the request its own. *)
Lemma decode_fields_keeps dec : forall t r r', decode_fields dec t r = Ok r' ->
  requestType r' = requestType r /\ requestSize r' = requestSize r /\ request_key r' = request_key r.
Proof.
  induction dec as [|[lv bits] dec IH]; intros t r r'; cbn [decode_fields]; [by intros [= <-]|].
  intros ([v t'] & _ & H)%obind_Ok. apply IH in H as (-> & -> & ->).
  destruct lv as [|[|[|[|[|lv]]]]]; done.
Qed.

Lemma incoming_keeps junk id addr R_W size reqID c r qi : incoming junk id addr R_W size reqID c = Ok (r, qi) ->
  requestType r = (if R_W then DATA_READ else DATA_WRITE) /\ requestSize r = size /\ request_key r = (id, addr).
Proof.
  unfold incoming, addressMapping. intros (r1 & (r2 & H & [= <-])%obind_Ok & (q1 & _ & [= <- <-])%obind_Ok)%obind_Ok.
  by apply decode_fields_keeps in H.
Qed.

Definition page_policy (m : MemorySystem) : GeneratorKind := g_kind (generator (sys_controller m)).
Definition bus_width (m : MemorySystem) : Z := mc_dataBusWidth (sys_controller m).

Lemma admit_request_spec r qi c c' : admit_request r qi c = Ok c' ->
  (forall k, pending k c' = pending k c ++ if decide (requestType r = k) then [r] else []) /\
  waiting_requests c' ≡ₚ r :: waiting_requests c /\ mc_channel c' = mc_channel c /\ mc_scheduler c' = mc_scheduler c /\
  sendDataBuffer c' = sendDataBuffer c /\ mc_dataBusWidth c' = mc_dataBusWidth c.
Proof.
  unfold admit_request. destruct (requestQueue c !! Z.to_nat qi) as [q|] eqn:Hq; [|done]. intros [= <-]. split_and!; try done.
  - intros k. destruct (requestType r), k; cbn; by rewrite ?app_nil_r.
  - pose proof (concat_insert all_requests _ _ _ (insertRequest r q) Hq) as HF. rewrite insertRequest_all in HF at 1. cbn in HF.
    rewrite (Permutation_middle (all_requests q)) in HF. apply (inj (app _)) in HF. symmetry. exact HF.
Qed.

Lemma sys_addRequest_balanced w pol m junk id addr R_W size m' : balanced w pol (sys_controller m) -> whole w pol size ->
  sys_addRequest junk id addr R_W size m = Ok m' -> balanced w pol (sys_controller m').
Proof.
  intros [Hb Hd Hw Hg Hwd Hpol] Hsz. unfold sys_addRequest, mc_addRequest.
  intros (c & ([r qi] & (Ht & Hs & _)%incoming_keeps & (Hp & Ha & Hch & Hsc & Hsd & Hwi)%admit_request_spec)%obind_Ok & [= <-])%obind_Ok.
  assert (Hdue : due w (requestType r) r) by (rewrite <- Hs in Hsz; split; [apply Hsz|split; [by eapply whole_divides|done]]).
  assert (Htr : forall k, in_transit k c = in_transit k (sys_controller m)) by (intros []; unfold in_transit; by rewrite ?Hch, ?Hsd).
  split; cbn [sys_controller].
  - intros k. rewrite Hp, Ha, Htr, owed_app, owed_cons, (Hb k). unfold waiting_commands. rewrite Hch. case_decide as Ek.
    + rewrite owed_cons, decide_True by done. unfold owed at 3. cbn. rewrite app_nil_r. solve_perm.
    + unfold owed at 2. cbn. by rewrite app_nil_r.
  - intros k. rewrite Hp. apply Forall_app. split; [apply Hd|]. case_decide as Ek; [|done]. subst k. by apply Forall_singleton.
  - rewrite Ha. apply Forall_cons. split; [by rewrite Hs|done].
  - unfold generator. by rewrite Hsc.
  - by rewrite Hwi.
  - unfold generator. by rewrite Hsc.
Qed.

(** The requests of a run suit the generator and the bus of its system. *)
Definition op_whole (m : MemorySystem) (op : Op) : Prop :=
  match op with Add _ _ _ _ size => whole (bus_width m) (page_policy m) size | Tick => True end.


Lemma drive_balanced w pol ops : forall es0 m0 es evs m, system_ok es0 m0 -> balanced w pol (sys_controller m0) ->
  Forall (fun op => match op with Add _ _ _ _ size => whole w pol size | Tick => True end) ops ->
  drive ops m0 = Ok (es, evs, m) -> balanced w pol (sys_controller m).
Proof.
  induction ops as [|[junk id address R_W size|] ops IH]; intros es0 m0 es evs m H0 Hb Hops; cbn [drive]; [by intros [= <- <- <-]| |];
    apply Forall_cons in Hops as [Hop Hops].
  - intros (m1 & H1 & H)%obind_Ok. destruct (sys_addRequest_ok _ _ _ _ _ _ _ _ H0 H1) as [Hm1 _].
    eapply IH; [exact Hm1| |done|exact H]. by eapply sys_addRequest_balanced.
  - intros ([evs1 m1] & H1 & ([[es2 evs2] m2] & H2 & [= <- <- <-])%obind_Ok)%obind_Ok.
    destruct (sys_update_ok _ _ _ _ H0 H1) as [Hm1 _]. eapply IH; [exact Hm1| |done|exact H2]. exact (sys_update_balanced _ _ _ _ _ _ H0 Hb H1).
Qed.

(** ** New systems *)

Lemma new_queues_empty b wq n : concat (all_requests <$> repeat (newRequestQueue b wq) n) = [].
Proof. by induction n. Qed.

Lemma DDR3_dq o : o ∈ DDR3.org_table -> 0 < DDR3.dq o <= 16.
Proof. intros Ho. repeat (apply elem_of_cons in Ho as [-> | Ho]; [cbn; lia|]). by apply elem_of_nil in Ho. Qed.
Lemma DDR4_dq o : o ∈ DDR4.org_table -> 0 < DDR4.dq o <= 16.
Proof. intros Ho. repeat (apply elem_of_cons in Ho as [-> | Ho]; [cbn; lia|]). by apply elem_of_nil in Ho. Qed.

Lemma connect_balanced config n junk d c : 0 < dataBusWidth d <= 16 -> pendingReadData d = [] ->
  connectMemoryDevice config n junk d = Ok c -> balanced (mc_dataBusWidth c) (g_kind (generator c)) c.
Proof.
  intros Hw Hp. unfold connectMemoryDevice.
  intros (nreq & _ & (ncmd & _ & (dec & _ & (rs & _ & (g & _ & (cs & _ & [= <-])%obind_Ok)%obind_Ok)%obind_Ok)%obind_Ok)%obind_Ok)%obind_Ok.
  split; [| | | |done|done].
  - intros k. unfold waiting_requests, waiting_commands, in_transit. cbn. rewrite new_queues_empty, flat_new_queues, Hp. by destruct k.
  - by intros [].
  - unfold waiting_requests. cbn. by rewrite new_queues_empty.
  - unfold generator; cbn. assert (E : get_DataBus d = dataBusWidth d * 8) by (unfold get_DataBus, w32; apply wrap_small; lia).
    split; cbn; [rewrite E; lia|done|done].
Qed.

Lemma newMemorySystem_balanced n ini gene speed size ranks junk m : newMemorySystem n ini gene speed size ranks junk = Ok m ->
  balanced (bus_width m) (page_policy m) (sys_controller m).
Proof.
  unfold newMemorySystem. intros (config & _ & (d & Hd & (c & Hc & [= <-])%obind_Ok)%obind_Ok)%obind_Ok.
  unfold bus_width, page_policy; cbn [sys_controller].
  assert (H : 0 < dataBusWidth d <= 16 /\ pendingReadData d = []).
  { destruct (String.eqb gene "DDR3"); [|destruct (String.eqb gene "DDR4"); [|by destruct (String.eqb gene "DSARP")]];
      apply obind_Ok in Hd as ([o s] & Hs & [= <-]).
    - apply DDR3_select_org, DDR3_dq in Hs. done.
    - apply DDR4_select_org, DDR4_dq in Hs. done. }
  destruct H. by eapply connect_balanced.
Qed.

(** ** Theorems *)

Lemma owed_nil w k l : 0 < w -> Forall (due w k) l -> owed w k l = [] -> l = [].
Proof.
  intros Hw. destruct l as [|r l]; [done|]. intros [(Hs & Hd & Ht) _]%Forall_cons. rewrite owed_cons, decide_True by done.
  destruct (beats_split w r Hw Hs Hd) as [-> _]. done.
Qed.

Lemma owed_request w k l key : key ∈ owed w k l -> exists r, r ∈ l /\ request_key r = key.
Proof.
  induction l as [|r l IH]; [by intros ?%elem_of_nil|]. rewrite owed_cons, elem_of_app. intros [H|H].
  - case_decide; [|by apply elem_of_nil in H]. apply list_elem_of_In, repeat_spec in H. exists r. split; [by left|done].
  - destruct (IH H) as (r' & Hr & Hk). exists r'. split; [by right|done].
Qed.

(** C13: no beat is lost or made up.  In every run of a memory system whose
    requests suit its generator, the beats owed to the requests that wait for
    their data are, request by request, those of the requests not scheduled yet,
    of the accesses among the queued commands and of the data on the bus.  So the
    data of an update belongs to a request that waits for it, and once queues and
    bus are empty every request has been answered. *)
Theorem mcsim_conserves n ini gene speed size ranks junk m0 ops es evs m k : 0 < ranks ->
  newMemorySystem n ini gene speed size ranks junk = Ok m0 -> Forall (op_whole m0) ops -> drive ops m0 = Ok (es, evs, m) ->
  let c := sys_controller m in let w := bus_width m0 in
  owed w k (pending k c) ≡ₚ owed w k (waiting_requests c) ++ accesses k (waiting_commands c) ++ in_transit k c /\
  (forall p, packet_key p ∈ in_transit k c -> exists r, r ∈ pending k c /\ request_key r = packet_key p) /\
  (waiting_requests c = [] -> waiting_commands c = [] -> in_transit k c = [] -> pending k c = []).
Proof.
  intros Hr H0 Hops Hrun c w. destruct (newMemorySystem_ok _ _ _ _ _ _ _ _ Hr H0) as [Hok _].
  pose proof (drive_balanced w _ _ _ _ _ _ _ Hok (newMemorySystem_balanced _ _ _ _ _ _ _ _ H0) Hops Hrun) as [Hb Hd _ Hg _ _].
  pose proof (gk_width _ _ Hg) as Hw. change (sys_controller m) with c in Hb, Hd. clearbody c w. split_and!; [apply Hb| |].
  - intros p Hp. assert (Hin : packet_key p ∈ owed w k (pending k c)) by (rewrite (Hb k), !elem_of_app; auto).
    by apply owed_request in Hin.
  - intros E1 E2 E3. pose proof (Hb k) as Hbk. rewrite E1, E2, E3 in Hbk. apply (owed_nil w k); [lia|apply Hd|].
    by apply Permutation_nil.
Qed.
