(* ===== verification/McAnswers.v ===== *)
(** * MCsim: every request is answered once

    The callbacks a memory system makes are the requests it was given and has
    not finished; it keeps the promise [DramLaws] that [MCsimInterface] relies
    on.  The clock crosser runs it at the ratio of the two clocks. *)

From S2P Require Export ExternalLaws McConserve.

Local Open Scope list_scope.
Open Scope Z_scope.
Import MC.

(** ** Callbacks *)

Definition answer (k : RequestType) (ev : Event) : option Z :=
  match k, ev with
  | DATA_READ, ReturnReadData a _ | DATA_WRITE, WriteDataDone a _ => Some a
  | _, _ => None
  end.
Definition pending_addresses (k : RequestType) (c : MemoryController) : list Z := address <$> pending k c.

Lemma settle_addresses w p l :
  match fst (settle w p l) with Some r => [address r] | None => [] end ++ (address <$> snd (settle w p l)) ≡ₚ address <$> l.
Proof.
  induction l as [|r l IH]; [done|]. cbn [settle]. destruct (_ && _); [destruct (_ =? w); reflexivity|].
  destruct (settle w p l) as [x l'']. cbn in *. rewrite <- IH. solve_perm.
Qed.

(** A part of an update: its callbacks settle pending requests. *)
Definition answers (k : RequestType) (evs : list Event) (c c' : MemoryController) : Prop :=
  omap (answer k) evs ++ pending_addresses k c' ≡ₚ pending_addresses k c.

Lemma receiveData_answers k p c : answers k (fst (receiveData p c)) c (snd (receiveData p c)).
Proof.
  unfold answers, receiveData, pending_addresses. pose proof (settle_addresses (mc_dataBusWidth c) p (pendingReadRequest c)) as H.
  destruct (settle _ _ _) as [[r|] l], k; cbn in *; done.
Qed.

Lemma sendData_answers k p c evs c' : sendData p c = Ok (evs, c') -> answers k evs c c'.
Proof.
  unfold sendData. intros (d & _ & H)%obind_Ok. unfold answers, pending_addresses.
  pose proof (settle_addresses (mc_dataBusWidth c) p (pendingWriteRequest c)) as Hs.
  destruct (settle _ _ _) as [[r|] l]; injection H as <- <-; destruct k; cbn in *; done.
Qed.

Lemma mc_update_answers k c evs c' : mc_update c = Ok (evs, c') -> answers k evs c c'.
Proof.
  unfold mc_update. intros (c1 & H1 & ([p c2] & H2 & ([evs3 c3] & H3 & [= <- <-])%obind_Ok)%obind_Ok)%obind_Ok.
  assert (E1 : pending k c1 = pending k c).
  { unfold mc_schedule in H1. apply obind_Ok in H1 as ([rqs s] & _ & (qs & _ & [= <-])%obind_Ok). by destruct k. }
  assert (E2 : pending k c2 = pending k c1).
  { unfold mc_command in H2. apply obind_Ok in H2 as (ch1 & _ & ([r ch2] & _ & [= <- <-])%obind_Ok). by destruct k. }
  unfold mc_send in H3. apply obind_Ok in H3 as ([evs4 c4] & H4 & [= <- <-]).
  assert (H : answers k evs4 c2 c4).
  { destruct (sendDataBuffer c2) as [|[[|?|?] p'] rest]; try (injection H4 as <- <-; unfold answers; reflexivity).
    apply obind_Ok in H4 as ([evs5 c5] & H5%(sendData_answers k) & [= <- <-]). by destruct k. }
  unfold answers, pending_addresses in *. rewrite <- E1, <- E2, <- H. by destruct k.
Qed.

Lemma sys_update_answers k m evs m' : sys_update m = Ok (evs, m') -> answers k evs (sys_controller m) (sys_controller m').
Proof.
  unfold sys_update. intros ([evs1 c1] & H1%(mc_update_answers k) & ([data d] & _ & H3)%obind_Ok)%obind_Ok.
  assert (H : answers k (fst match data with Some p => receiveData p c1 | None => ([], c1) end) c1
                (snd match data with Some p => receiveData p c1 | None => ([], c1) end)).
  { destruct data as [p|]; [apply receiveData_answers|unfold answers; reflexivity]. }
  destruct (match data with Some p => receiveData p c1 | None => ([], c1) end) as [evs2 c2]. injection H3 as <- <-.
  unfold answers, pending_addresses in *. cbn in H. rewrite omap_app, <- H1, <- app_assoc, <- H. by destruct k.
Qed.

Lemma sys_addRequest_pending k junk id addr R_W size m m' : sys_addRequest junk id addr R_W size m = Ok m' ->
  pending_addresses k (sys_controller m') =
  pending_addresses k (sys_controller m) ++ if decide ((if R_W then DATA_READ else DATA_WRITE) = k) then [addr] else [].
Proof.
  unfold sys_addRequest, mc_addRequest, pending_addresses.
  intros (c & ([r qi] & (Ht & _ & Hk)%incoming_keeps & (Hp & _)%admit_request_spec)%obind_Ok & [= <-])%obind_Ok. cbn [sys_controller].
  injection Hk as _ Ha. rewrite Hp, fmap_app, Ht. case_decide; cbn; by rewrite ?Ha.
Qed.

(** ** Channels *)

Definition multi_outstanding (k : RequestType) (m : MultiChannel) : list Z :=
  concat ((fun ch => pending_addresses k (sys_controller ch)) <$> channels m).

Lemma update_channels_answers k : forall l evs l', update_channels l = Ok (evs, l') ->
  omap (answer k) evs ++ concat ((fun ch => pending_addresses k (sys_controller ch)) <$> l') ≡ₚ
  concat ((fun ch => pending_addresses k (sys_controller ch)) <$> l).
Proof.
  induction l as [|ch l IH]; intros evs l'; cbn [update_channels]; [by intros [= <- <-]|].
  intros ([evs1 ch1] & H1%(sys_update_answers k) & ([evs2 l2] & H2%IH & [= <- <-])%obind_Ok)%obind_Ok.
  unfold answers in H1. rewrite omap_app, !fmap_cons. cbn [concat]. rewrite <- H1, <- H2. solve_perm.
Qed.

Lemma run_updates_answers k : forall n m evs m', run_updates n m = Ok (evs, m') ->
  omap (answer k) evs ++ multi_outstanding k m' ≡ₚ multi_outstanding k m.
Proof.
  induction n as [|n IH]; intros m evs m'; cbn [run_updates]; [by intros [= <- <-]|].
  intros ([evs1 m1] & H1 & ([evs2 m2] & H2%IH & [= <- <-])%obind_Ok)%obind_Ok. unfold actual_update in H1.
  apply obind_Ok in H1 as ([evs3 l] & H3%(update_channels_answers k) & [= <- <-]). rewrite omap_app, <- app_assoc, H2. exact H3.
Qed.

Lemma multi_update_answers k fuel m evs m' : multi_update fuel m = Ok (evs, m') ->
  omap (answer k) evs ++ multi_outstanding k m' ≡ₚ multi_outstanding k m.
Proof. unfold multi_update. intros ([n x] & _ & ([evs1 m1] & H1%(run_updates_answers k) & [= <- <-])%obind_Ok)%obind_Ok. exact H1. Qed.

Lemma multi_addRequest_outstanding k junk id addr R_W size m m' : multi_addRequest junk id addr R_W size m = Ok m' ->
  multi_outstanding k m' ≡ₚ (if decide ((if R_W then DATA_READ else DATA_WRITE) = k) then [addr] else []) ++ multi_outstanding k m.
Proof.
  unfold multi_addRequest. destruct (channels m !! _) as [ch|] eqn:Hch; [|done]. intros (ch' & H%(sys_addRequest_pending k) & [= <-])%obind_Ok.
  unfold multi_outstanding; cbn [channels].
  pose proof (concat_insert (fun ch => pending_addresses k (sys_controller ch)) _ _ _ ch' Hch) as HF. cbv beta in HF. rewrite H in HF at 1.
  rewrite <- app_assoc in HF. apply (inj (app _)) in HF. by rewrite HF.
Qed.

(** ** The simulator behind [MCsimInterface] *)

(** [mcsim_alive] goes when a call ends the program; nothing answers then. *)
Record MCsim := mkMCsimSim { mcsim_state : MultiChannel; mcsim_alive : bool; mcsim_junk : Z; mcsim_fuel : nat }.

Definition to_dram_event (ev : Event) : DramEvent := match ev with ReturnReadData a _ => ReadDone a | WriteDataDone _ _ => WriteDone end.
Definition running (m : MultiChannel) (s : MCsim) : MCsim := mkMCsimSim m (mcsim_alive s) (mcsim_junk s) (mcsim_fuel s).
Definition ended (s : MCsim) : MCsim := mkMCsimSim (mcsim_state s) false (mcsim_junk s) (mcsim_fuel s).

#[global] Instance MCsim_sim : DramSim MCsim := {
  dram_addRequest s id addr R_W size :=
    if mcsim_alive s then
      match multi_addRequest (mcsim_junk s) id addr R_W size (mcsim_state s) with
      | Ok m => (true, running m s)
      | _ => (false, ended s)
      end
    else (false, s);
  dram_update s :=
    if mcsim_alive s then
      match multi_update (mcsim_fuel s) (mcsim_state s) with
      | Ok (evs, m) => (to_dram_event <$> evs, running m s)
      | _ => ([], ended s)
      end
    else ([], s) }.

Lemma read_done_answer (evs : list Event) : omap read_done (to_dram_event <$> evs) = omap (answer DATA_READ) evs.
Proof. induction evs as [|[] evs IH]; cbn; congruence. Qed.

(** MCsim keeps its promise. *)
#[global, refine] Instance MCsim_laws : DramLaws MCsim := {| outstanding s := multi_outstanding DATA_READ (mcsim_state s) |}.
Proof.
  - intros s owner a rd size s'. cbn. destruct (mcsim_alive s); [|done].
    destruct (multi_addRequest _ _ _ _ _ _) as [m| |] eqn:E; [|done..]. intros [= <-]. cbn.
    rewrite (multi_addRequest_outstanding DATA_READ _ _ _ _ _ _ _ E). by destruct rd.
  - intros s evs s'. cbn. destruct (mcsim_alive s); [|by intros [= <- <-]].
    destruct (multi_update _ _) as [[e m]| |] eqn:E; [|by intros [= <- <-]..]. intros [= <- <-]. cbn.
    rewrite read_done_answer. by eapply multi_update_answers.
Defined.

(** ** The clock crosser *)

(** [n] updates of a crosser, and the callbacks they make. *)
Fixpoint crossings (fuel n : nat) (x : ClockDomainCrosser) : outcome (Z * ClockDomainCrosser) :=
  match n with
  | O => Ok (0, x)
  | S n' =>
      let! (calls, x) := crosser_update fuel x in
      let! (total, x) := crossings fuel n' x in
      Ok (Z.of_nat calls + total, x)
  end.

(** Where the counters stand after [n] updates since they were both 0, [n] below
    the period. *)
Record crosser_inv (c1 c2 : Z) (x : ClockDomainCrosser) : Prop := mk_crosser_inv {
  cr_clocks : clock1 x = c1 /\ clock2 x = c2;
  cr_first : exists n, 0 <= n < c2 /\ counter1 x = n * c1;
  cr_second : exists k, counter2 x = k * c2;
  cr_ahead : counter1 x <= counter2 x < counter1 x + c2 }.

Section Crosser.
Variables c1 c2 : Z.
Hypothesis (H1 : 0 < c1) (H2 : 0 < c2) (Hmax : c1 * c2 + c2 < 2 ^ 64).

Lemma catch_up_spec : forall fuel x calls k, clock2 x = c2 -> counter1 x <= c1 * c2 -> counter2 x = k * c2 -> 0 <= k ->
  counter1 x - counter2 x <= Z.of_nat fuel * c2 -> counter2 x < counter1 x + c2 ->
  exists calls' k', catch_up fuel x calls = Ok (calls', mkCrosser (clock1 x) c2 (counter1 x) (k' * c2)) /\
    Z.of_nat calls' - Z.of_nat calls = k' - k /\ counter1 x <= k' * c2 < counter1 x + c2.
Proof.
  induction fuel as [|f IH]; intros x calls k Hc Hle Hk Hk0 Hf Hlt; cbn [catch_up].
  - destruct (Z.ltb_spec (counter2 x) (counter1 x)); [lia|]. exists calls, k. rewrite <- Hk, <- Hc. split; [by destruct x|lia].
  - destruct (Z.ltb_spec (counter2 x) (counter1 x)).
    + assert (Hw : w64 (counter2 x + clock2 x) = (k + 1) * c2) by (unfold w64; rewrite wrap_small; nia).
      destruct (IH (mkCrosser (clock1 x) (clock2 x) (counter1 x) (w64 (counter2 x + clock2 x))) (S calls) (k + 1))
        as (calls' & k' & E & Hn & Hb); cbn [clock1 clock2 counter1 counter2] in *; [done|done|done|lia|rewrite Hw; lia|rewrite Hw; lia|].
      exists calls', k'. split; [exact E|lia].
    + exists calls, k. rewrite <- Hk, <- Hc. split; [by destruct x|lia].
Qed.

(** Enough turns for one update. *)
Definition turns : nat := S (Z.to_nat (c1 / c2)).

Lemma crosser_update_spec x fuel : crosser_inv c1 c2 x -> (turns <= fuel)%nat -> exists calls x',
  crosser_update fuel x = Ok (calls, x') /\ crosser_inv c1 c2 x' /\
  counter2 x + Z.of_nat calls * c2 - (counter1 x + c1) = counter2 x' - counter1 x'.
Proof.
  intros [[E1 E2] (n & Hn & Hc1) (k & Hc2) Ha] Hfuel. unfold crosser_update. rewrite E1, E2.
  destruct (Z.eqb_spec c1 c2) as [E|Hne].
  { exists 1%nat, x. split_and!; [done|split; eauto|]. lia. }
  pose proof (Z.mul_div_le c1 c2 H2). pose proof (Z.mul_succ_div_gt c1 c2 H2).
  assert (Hw : w64 (counter1 x + c1) = counter1 x + c1) by (unfold w64; rewrite wrap_small; nia). rewrite Hw.
  destruct (catch_up_spec fuel (mkCrosser c1 c2 (counter1 x + c1) (counter2 x)) O k) as (calls & k' & E & Hcalls & Hb);
    cbn [clock1 clock2 counter1 counter2] in *; [done|nia|done|nia|unfold turns in Hfuel; nia|lia|].
  assert (Hkk : counter2 x + Z.of_nat calls * c2 = k' * c2) by (replace (Z.of_nat calls) with (k' - k) by lia; rewrite Hc2; lia).
  rewrite E. cbn [obind counter1 counter2]. destruct (Z.eqb_spec (counter1 x + c1) (k' * c2)) as [Eq|Neq].
  - eexists _, _. split; [done|]. split; [|cbn; lia]. split; cbn; [done|exists 0; lia|exists 0; lia|lia].
  - eexists _, _. split; [done|]. split; [|cbn; lia]. split; cbn; [done| |by exists k'|lia].
    exists (n + 1). split; [|lia]. destruct (Z.eq_dec (n + 1) c2) as [En|]; [|lia]. exfalso.
    assert (Ec : counter1 x + c1 = c1 * c2) by (rewrite Hc1, <- En; lia). rewrite Ec in Hb, Neq.
    assert (c1 <= k') by (apply (Z.mul_le_mono_pos_r _ _ c2); lia). assert (k' < c1 + 1) by (apply (Z.mul_lt_mono_pos_r c2); lia).
    apply Neq. f_equal. lia.
Qed.
End Crosser.

(** C32: the clock crosser runs MCsim at the exact ratio of the two clocks:
    after any number of updates it has called back [n * clock1 / clock2] times,
    rounded up; its loop ends, and its counters never wrap. *)
Theorem crosser_exact c1 c2 fuel n : 0 < c1 -> 0 < c2 -> c1 * c2 + c2 < 2 ^ 64 -> (turns c1 c2 <= fuel)%nat ->
  exists x, crossings fuel n (mkCrosser c1 c2 0 0) = Ok ((Z.of_nat n * c1 + c2 - 1) / c2, x).
Proof.
  intros H1 H2 Hmax Hf.
  assert (H : forall n x, crosser_inv c1 c2 x -> exists total x', crossings fuel n x = Ok (total, x') /\
    crosser_inv c1 c2 x' /\ counter2 x + total * c2 - (counter1 x + Z.of_nat n * c1) = counter2 x' - counter1 x').
  { clear n. induction n as [|n IH]; intros x Hx; cbn [crossings]; [exists 0, x; split_and!; [done..|lia]|].
    destruct (crosser_update_spec c1 c2 H1 H2 Hmax x fuel Hx Hf) as (calls & x1 & -> & Hx1 & E1).
    destruct (IH x1 Hx1) as (total & x2 & E & Hx2 & E2). cbn [obind]. rewrite E. cbn [obind].
    eexists _, _. split; [done|]. split; [done|]. lia. }
  destruct (H n (mkCrosser c1 c2 0 0)) as (total & x & E & [_ _ _ Hb] & Ht).
  { split; cbn; [done|exists 0; lia|exists 0; lia|lia]. }
  exists x. rewrite E. do 2 f_equal. cbn in Ht. apply Z.div_unique_pos with (r := Z.of_nat n * c1 + c2 - 1 - total * c2); lia.
Qed.
