(* ===== verification/McAddress.v ===== *)
(** * MCsim: the address mapping

    The fields a mapping cuts an address into, put together again, are the low
    bits of the address. *)

From S2P Require Export McAnswers.

Local Open Scope list_scope.
Open Scope Z_scope.
Import MC.

(** A field of a request, by level. *)
Definition field (level : nat) (r : Request) : Z :=
  match level with
  | 0%nat => rank r | 1%nat => bankGroup r | 2%nat => bank r | 3%nat => subArray r | 4%nat => row r | _ => col r
  end.

(** The levels, lowest bits first, and the number they spell. *)
Fixpoint recompose (dec : list (nat * Z)) (r : Request) : Z :=
  match dec with [] => 0 | (level, bits) :: dec' => field level r + 2 ^ bits * recompose dec' r end.
Fixpoint total_bits (dec : list (nat * Z)) : Z := match dec with [] => 0 | (_, bits) :: dec' => bits + total_bits dec' end.

Record mapping_ok (dec : AddressMapping) : Prop := mk_mapping_ok {
  mo_levels : NoDup (fst <$> dec);
  mo_known : Forall (fun lv => (lv <= 5)%nat) (fst <$> dec);
  mo_bits : Forall (fun b => 0 <= b < 32) (snd <$> dec) }.

Lemma total_bits_nonneg dec : Forall (fun b => 0 <= b < 32) (snd <$> dec) -> 0 <= total_bits dec.
Proof. induction dec as [|[lv b] dec IH]; cbn; [lia|]. intros [Hb H]%Forall_cons. specialize (IH H). lia. Qed.

Lemma clear_low_bits t b : 0 <= b -> Z.lxor (Z.shiftl (Z.shiftr t b) b) t = t mod 2 ^ b.
Proof.
  intros Hb. apply Z.bits_inj'. intros i Hi. rewrite Z.lxor_spec, Z.shiftl_spec by done.
  destruct (Z.lt_ge_cases i b).
  - rewrite Z.mod_pow2_bits_low, (Z.testbit_neg_r _ (i - b)) by lia. by destruct (Z.testbit t i).
  - rewrite Z.mod_pow2_bits_high, Z.shiftr_spec by lia. replace (i - b + b) with i by lia. by destruct (Z.testbit t i).
Qed.

Lemma take_bits_spec t b : 0 <= t < 2 ^ 32 -> 0 <= b < 32 -> take_bits t b = Ok (t mod 2 ^ b, t / 2 ^ b).
Proof.
  intros Ht Hb. unfold take_bits. destruct (Z.leb_spec 32 b); [lia|].
  assert (Hs : Z.shiftl (Z.shiftr t b) b = t / 2 ^ b * 2 ^ b) by (by rewrite Z.shiftl_mul_pow2, Z.shiftr_div_pow2 by lia).
  assert (Hp : 0 < 2 ^ b) by (apply Z.pow_pos_nonneg; lia).
  assert (Hw : w32 (Z.shiftl (Z.shiftr t b) b) = Z.shiftl (Z.shiftr t b) b).
  { unfold w32. apply wrap_small. rewrite Hs. pose proof (Z.mul_div_le t (2 ^ b) Hp). pose proof (Z.div_pos t (2 ^ b)). nia. }
  rewrite Hw, clear_low_bits by lia. do 2 f_equal. by rewrite Hs, Z.shiftr_div_pow2, Z.div_mul by lia.
Qed.

Lemma assign_field_same lv v r : (lv <= 5)%nat -> field lv (assign_field lv v r) = v.
Proof. intros H. do 6 (destruct lv as [|lv]; [done|]). lia. Qed.
Lemma assign_field_other lv lv' v r : lv <> lv' -> (lv <= 5)%nat -> (lv' <= 5)%nat -> field lv' (assign_field lv v r) = field lv' r.
Proof. intros Hne H H'. do 6 (destruct lv as [|lv]; [do 6 (destruct lv' as [|lv']; [done|]); lia|]). lia. Qed.

Lemma recompose_ext dec r r' : (forall lv, lv ∈ fst <$> dec -> field lv r' = field lv r) -> recompose dec r' = recompose dec r.
Proof. induction dec as [|[lv b] dec IH]; intros H; cbn; [done|]. rewrite (H lv), IH; [done| |by left]. intros l Hl. apply H. by right. Qed.

Lemma mod_mod_pow t a b : 0 <= a -> 0 <= b -> t mod 2 ^ a + 2 ^ a * ((t / 2 ^ a) mod 2 ^ b) = t mod 2 ^ (a + b).
Proof. intros. rewrite Z.pow_add_r by done. rewrite (Z.rem_mul_r t) by (apply Z.pow_nonzero || apply Z.pow_pos_nonneg; lia). lia. Qed.

Lemma decode_fields_spec dec : forall t r, mapping_ok dec -> 0 <= t < 2 ^ 32 -> exists r', decode_fields dec t r = Ok r' /\
  recompose dec r' = t mod 2 ^ total_bits dec /\ Forall (fun p => 0 <= field (fst p) r' < 2 ^ snd p) dec /\
  (forall lv, (lv <= 5)%nat -> lv ∉ fst <$> dec -> field lv r' = field lv r).
Proof.
  induction dec as [|[lv b] dec IH]; intros t r [Hn Hk Hb] Ht; cbn [decode_fields].
  - exists r. split_and!; [done|cbn; by rewrite Z.mod_1_r|done|done].
  - rewrite !fmap_cons in *. apply NoDup_cons in Hn as [Hl Hn]. apply Forall_cons in Hk as [Hlv Hk]. apply Forall_cons in Hb as [Hb0 Hb]. cbn in Hl, Hlv, Hb0.
    rewrite take_bits_spec by done. cbn [obind]. assert (Hp : 0 < 2 ^ b) by (apply Z.pow_pos_nonneg; lia).
    assert (Ht' : 0 <= t / 2 ^ b < 2 ^ 32) by (split; [apply Z.div_pos; lia|apply Z.div_lt_upper_bound; nia]).
    destruct (IH (t / 2 ^ b) (assign_field lv (t mod 2 ^ b) r)) as (r' & E & Hr & Hf & Ho); [by split|done|].
    assert (El : field lv r' = t mod 2 ^ b) by (rewrite Ho by done; by apply assign_field_same).
    exists r'. split_and!; [done| | |].
    + cbn [recompose total_bits]. rewrite El, Hr. apply mod_mod_pow; [lia|]. by apply total_bits_nonneg.
    + apply Forall_cons. split; [|done]. cbn. rewrite El. apply Z.mod_pos_bound. lia.
    + intros l Hl5 Hl'. rewrite Ho; [|done|intros ?; apply Hl'; by right]. apply assign_field_other; [|done..]. intros ->. apply Hl'. by left.
Qed.

(** C33: the address mapping loses nothing.  A mapping with distinct levels
    gives every request its fields, each within its width, and the fields, put
    together in the order of the format, spell the address above the transaction
    offset, as far as the mapping's bits reach. *)
Theorem address_mapping_roundtrip dec r : mapping_ok dec -> exists r', addressMapping dec r = Ok r' /\
  Forall (fun p => 0 <= field (fst p) r' < 2 ^ snd p) dec /\
  recompose (rev dec) r' = w32 (Z.shiftr (address r) TX_SIZE_BITS) mod 2 ^ total_bits (rev dec).
Proof.
  intros [Hn Hk Hb]. assert (Hok : mapping_ok (rev dec)).
  { assert (Hp : rev dec ≡ₚ dec) by (symmetry; apply Permutation_rev). split; by rewrite Hp. }
  destruct (decode_fields_spec (rev dec) (w32 (Z.shiftr (address r) TX_SIZE_BITS)) r Hok) as (r' & E & Hr & Hf & _);
    [apply wrap_range; lia|].
  unfold addressMapping. rewrite E. cbn [obind]. eexists. split; [done|]. split.
  - apply Forall_rev in Hf. rewrite rev_involutive in Hf. eapply Forall_impl; [exact Hf|]. intros [lv b]. cbn. by do 6 (destruct lv as [|lv]; [done|]).
  - rewrite <- Hr. apply recompose_ext. intros lv _. by do 6 (destruct lv as [|lv]; [done|]).
Qed.
