(* ===== verification/McTotal.v ===== *)
(** * MCsim: the configured controller never aborts

    In the configuration [MCsimInterface] uses, no request and no update meets
    an [abort()] or an index out of range. *)

From S2P Require Export McAddress.

Local Open Scope list_scope.
Open Scope Z_scope.
Import MC.

(** ** Paths in the device *)

(** An address has a node at every level of the tree. *)
Fixpoint path (fuel : nat) (addr : list Z) (n : DRAM) : bool :=
  (length (children n) =? 0)%nat ||
  match fuel with
  | O => false
  | S f =>
      (0 <=? addr_at (S (level n)) addr) &&
      match children n !! Z.to_nat (addr_at (S (level n)) addr) with Some c => path f addr c | None => false end
  end.

Lemma path_skeleton f addr : forall n, path f addr (skeleton n) = path f addr n.
Proof.
  induction f as [|f IH]; intros n; cbn [path]; rewrite skeleton_children, length_fmap; [done|].
  rewrite level_skeleton, list_lookup_fmap. destruct (children n !! _) as [c|]; cbn; [by rewrite IH|done].
Qed.

Lemma path_timing spec cmd a clk f addr : forall n, path f addr (update_timing spec cmd a clk n) = path f addr n.
Proof.
  induction f as [|f IH]; intros [lv id st rows cc nx pv ch]; cbn; destruct (negb _); cbn [path children level]; try done;
    change (List.map ?g ch) with (g <$> ch); rewrite length_fmap; [done|].
  rewrite list_lookup_fmap. destruct (ch !! _) as [c|]; cbn; [by rewrite IH|done].
Qed.

Lemma check_total spec cmd addr clk : forall f n, path f addr n = true -> exists b, check spec cmd addr clk n = Ok b.
Proof.
  induction f as [|f IH]; intros [lv id st rows cc nx pv ch]; cbn [check path children level]; intros Hp; (destruct (negb _ && _); [by eexists|]).
  - rewrite orb_false_r in Hp. rewrite Hp, !orb_true_r. by eexists.
  - destruct (length ch =? 0)%nat; [rewrite orb_true_r; by eexists|]. cbn [orb] in Hp. apply andb_prop in Hp as [H0 Hc].
    destruct ((addr_at (S lv) addr <? 0) || _ || _); [by eexists|]. rewrite on_child_lookup. destruct (ch !! _) as [c|]; [by apply IH|done].
Qed.

Lemma update_state_total spec cmd addr : forall f n, path f addr n = true -> exists n', update_state spec f cmd addr n = Ok n'.
Proof.
  induction f as [|f IH]; intros n Hp; cbn [update_state];
    set (m := lambda_at spec cmd (addr_at (S (level n)) addr) n);
    assert (Hm : skeleton m = skeleton n) by apply skeleton_lambda;
    rewrite <- path_skeleton, <- Hm, path_skeleton in Hp; cbn [path] in Hp.
  - rewrite orb_false_r in Hp. rewrite Hp, orb_true_r. by eexists.
  - destruct ((level m =? scope spec cmd)%nat || _) eqn:E; [by eexists|]. apply orb_false_iff in E as [_ E]. rewrite E in Hp. cbn [orb] in Hp.
    apply andb_prop in Hp as [H0 Hc].
    assert (El : level m = level n) by (by rewrite <- level_skeleton, Hm, level_skeleton). rewrite El in *.
    destruct (Z.ltb_spec (addr_at (S (level n)) addr) 0); [lia|]. destruct (children m !! _) as [c|]; [|done].
    destruct (IH c Hc) as [c' ->]. cbn. by eexists.
Qed.

(** A device whose [nb] banks exist, whatever is written on it. *)
Definition banked (nb : Z) (d : MemoryDevice) : Prop :=
  forall b rw cl, 0 <= b < nb -> path (lv_row (device_spec d)) (repeat 0 (dm_bank (dv_model d)) ++ [b; rw; cl]) (dv_channel d) = true.

Definition row_types : list Pkt.BusPacketType := [Pkt.RD; Pkt.WR; Pkt.ACT; Pkt.PRE].
Definition bank_command (nb : Z) (p : BusPacket) : Prop := 0 <= p_bank p < nb /\ busPacketType p ∈ row_types.

Lemma row_types_convert t : t ∈ row_types -> exists cmd, convert_cmd t = Ok cmd.
Proof. unfold row_types. rewrite !elem_of_cons, elem_of_nil. intros [-> | [-> | [-> | [-> | []]]]]; by eexists. Qed.

Lemma banked_path nb d p : nb <= 2 ^ 31 -> banked nb d -> 0 <= p_bank p < nb ->
  path (lv_row (device_spec d)) (convert_addr (dv_model d) p) (dv_channel d) = true.
Proof.
  intros Hnb Hd Hp. unfold convert_addr. apply Hd. replace (to_signed 32 (p_bank p)) with (p_bank p); [done|].
  unfold to_signed. rewrite wrap_small by lia. destruct (Z.ltb_spec (p_bank p) (2 ^ (32 - 1))); [done|lia].
Qed.

Lemma command_check_total nb d p : nb <= 2 ^ 31 -> banked nb d -> bank_command nb p -> plain p -> exists b, command_check p d = Ok b.
Proof.
  intros Hnb Hd [Hb Ht] Hp. unfold command_check. rewrite Hp. destruct (row_types_convert _ Ht) as [cmd ->]. cbn [obind].
  eapply check_total, banked_path; [exact Hnb|done..].
Qed.

Lemma receive_total nb d p : nb <= 2 ^ 31 -> banked nb d -> bank_command nb p -> plain p ->
  exists d', receiveFromBus p d = Ok d' /\ banked nb d'.
Proof.
  intros Hnb Hd [Hb Ht] Hp. unfold receiveFromBus. rewrite Hp. rewrite bool_decide_false
    by (intros E; rewrite E in Ht; unfold row_types in Ht; rewrite !elem_of_cons, elem_of_nil in Ht; destruct Ht as [?|[?|[?|[?|[]]]]]; discriminate).
  destruct (row_types_convert _ Ht) as [cmd ->]. cbn [obind]. unfold Dram.update.
  destruct (update_state_total (dm_standard (dv_model d)) cmd (convert_addr (dv_model d) p) (lv_row (device_spec d))
    (set_clk (dv_clockCycle d) (dv_channel d))) as [n' Hn].
  { pose proof (banked_path nb d p Hnb Hd Hb) as Hpath. rewrite <- path_skeleton in Hpath |- *. by destruct (dv_channel d). }
  unfold device_spec in Hn. rewrite Hn. cbn [obind]. eexists. split; [done|].
  apply skeleton_update_state in Hn. intros b rw cl Hbr.
  unfold generateData; destruct (busPacketType p); cbn; rewrite path_timing, <- path_skeleton, Hn;
    (replace (skeleton (set_clk (dv_clockCycle d) (dv_channel d))) with (skeleton (dv_channel d)) by by destruct (dv_channel d));
    rewrite path_skeleton; by apply Hd.
Qed.

(** ** Requests become commands *)

Section Ready.
Variable nb : Z.
Hypothesis Hnb : 0 < nb <= 8.

Definition bank_request (r : Request) : Prop := 0 <= bank r < nb.

(** An open-page generator, and commands to existing banks. *)
Record gen_ready (g : CommandGenerator) : Prop := mk_gen_ready {
  gr_kind : g_kind g = GEN_OPEN;
  gr_width : dataBusSize g <> 0;
  gr_first : length (first g) = 8%nat;
  gr_buffer : Forall (bank_command nb) (commandBuffer g) }.

Lemma generate_total r open g : gen_ready g -> bank_request r -> exists g', commandGenerate r open g = Ok g' /\ gen_ready g'.
Proof.
  intros [Hk Hw Hf Hb] Hr. unfold commandGenerate, generate_open. rewrite Hk. destruct (Z.eqb_spec (dataBusSize g) 0); [done|].
  set (cas := (fun x => _) <$> seqZ 0 _).
  assert (Hcas : Forall (bank_command nb) cas).
  { apply Forall_fmap, Forall_true. intros x. split; [done|]. cbn. destruct (requestType r); unfold row_types; rewrite !elem_of_cons; auto. }
  assert (Hrow : forall t, t ∈ row_types -> Forall (bank_command nb) [command_for g r t (col r) (bank r)]) by (intros t Ht; by apply Forall_singleton).
  assert (Hact : Pkt.ACT ∈ row_types /\ Pkt.PRE ∈ row_types) by (unfold row_types; rewrite !elem_of_cons; auto 10).
  destruct open.
  - eexists. split; [done|]. split; [done..|]. by apply Forall_app.
  - unfold bank_request in Hr. destruct (lookup_lt_is_Some_2 (first g) (Z.to_nat (bank r))) as [b Eb]; [lia|]. rewrite Eb.
    assert (Hpa : Forall (bank_command nb) [command_for g r Pkt.PRE (col r) (bank r); command_for g r Pkt.ACT (col r) (bank r)]).
    { apply Forall_cons. split; [|by apply Hrow, Hact]. by apply (proj1 (Forall_singleton _ _)), Hrow, Hact. }
    destruct b; eexists; (split; [done|]); split; cbn [push_commands g_kind dataBusSize first commandBuffer];
      rewrite ?length_insert; try done; rewrite !Forall_app; split_and!; try done; by apply Hrow, Hact.
Qed.

Definition sched_ready (q : RequestQueue) (s : RequestScheduler) : Prop :=
  gen_ready (rs_generator s) /\ rs_kind s = RS_FRFCFS /\ Forall bank_request (generalBuffer q).

Lemma dispatch_total rk bk i r q s flags : sched_ready q s -> generalBuffer q !! i = Some r -> exists q' s' flags',
  dispatch rk bk r (set_scheduled (false, (0, i)) q, s, flags) = Ok (q', s', flags') /\ sched_ready q' s'.
Proof.
  intros (Hg & Hk & Hq) Hi. unfold dispatch, isSchedulable.
  destruct (generate_total r (isRowHit r s) (rs_generator s) Hg) as (g & -> & Hg'); [by apply (Forall_lookup_1 _ _ _ _ Hq Hi)|].
  cbn [obind]. unfold removeRequest. cbn [set_scheduled rq_set scheduledRequest generalBuffer].
  destruct (Nat.ltb_spec i (length (generalBuffer q))); [|apply lookup_lt_Some in Hi; lia].
  cbn. eexists _, _, _. split; [done|]. split; [done|]. split; [done|]. cbn. by apply Forall_delete.
Qed.

Lemma frfcfs_pass_total hits : forall fuel i q s flags, sched_ready q s -> exists q' s' flags',
  frfcfs_pass hits fuel i (q, s, flags) = Ok (q', s', flags') /\ sched_ready q' s'.
Proof.
  induction fuel as [|f IH]; intros i q s flags Hr; cbn [frfcfs_pass]; [by eexists _, _, _|].
  destruct (Nat.ltb_spec i (length (generalBuffer q))) as [Hi|]; [|by eexists _, _, _].
  destruct (lookup_lt_is_Some_2 (generalBuffer q) i Hi) as [r Er]. unfold getRequestCheck, getRequest.
  destruct (generalBuffer q) as [|r0 l] eqn:El; [cbn in Hi; lia|]. rewrite Er. cbn [obind].
  destruct (bank_free _ _ && _); cbn [obind]; [|by apply IH].
  destruct (dispatch_total (rank r) (bank r) i r q s flags Hr) as (q1 & s1 & f1 & -> & H1); [by rewrite El|]. cbn [obind]. by apply IH.
Qed.

Lemma schedule_queue_total qi stale q s flags : sched_ready q s -> exists q' s' flags',
  schedule_queue qi stale (q, s, flags) = Ok (q', s', flags') /\ sched_ready q' s'.
Proof.
  intros Hr. unfold schedule_queue. rewrite (proj1 (proj2 Hr)). destruct (Nat.eqb qi 0); [|by eexists _, _, _].
  unfold frfcfs_schedule. cbn [fst]. destruct (frfcfs_pass_total true (length (generalBuffer q)) O q s flags Hr) as (q1 & s1 & f1 & -> & H1).
  cbn [obind fst]. by apply frfcfs_pass_total.
Qed.

Lemma schedule_queues_total : forall qs qi stale s flags, (forall q, q ∈ qs -> Forall bank_request (generalBuffer q)) ->
  gen_ready (rs_generator s) -> rs_kind s = RS_FRFCFS -> exists qs' s',
  schedule_queues qi stale qs s flags = Ok (qs', s') /\ gen_ready (rs_generator s') /\ rs_kind s' = RS_FRFCFS /\ length qs' = length qs.
Proof.
  induction qs as [|q qs IH]; intros qi stale s flags Hq Hg Hk; cbn [schedule_queues]; [by eexists _, _|].
  destruct (schedule_queue_total qi stale q s flags) as (q1 & s1 & f1 & -> & Hg1 & Hk1 & _); [split_and!; [done..|apply Hq; by left]|].
  cbn [obind]. destruct (IH (S qi) (stale || leaves_candidate q) s1 f1) as (qs2 & s2 & -> & Hg2 & Hk2 & Hl); [|done..|].
  - intros q' Hin. apply Hq. by right.
  - cbn [obind]. eexists _, _. split_and!; [done..|]. cbn. by rewrite Hl.
Qed.

(** ** Commands reach their queues *)

Lemma decode_bank mt map b sa : first_one map = Some 2%nat -> mt !! 2%nat = Some nb -> 0 <= b < nb ->
  decodeQueue mt [0; 0; b; sa] map = Ok b.
Proof.
  intros Hm Ht Hb. unfold decodeQueue. rewrite Hm. change ([0; 0; b; sa] !! 2%nat) with (Some b). rewrite Ht.
  change (foldl _ 0 (take 2 [0; 0; b; sa])) with 0. f_equal. unfold w32. rewrite wrap_small; lia.
Qed.

Definition general (q : CommandQueue) : Prop := cq_perRequestor q = false.

Lemma enqueue_total mt cr map clk : first_one map = Some 2%nat -> mt !! 2%nat = Some nb -> forall ps qs,
  Forall (bank_command nb) ps -> nb <= Z.of_nat (length qs) -> Forall general qs ->
  exists qs', ofold (enqueueCommand mt cr map clk) ps qs = Ok qs' /\ Forall general qs'.
Proof.
  intros Hm Ht. induction ps as [|p ps IH]; intros qs Hps Hl Hq; cbn [ofold]; [by eexists|].
  apply Forall_cons in Hps as [[Hb Hty] Hps]. unfold enqueueCommand at 1. rewrite (decode_bank mt map) by done. cbn [obind].
  destruct (lookup_lt_is_Some_2 qs (Z.to_nat (p_bank p))) as [q Eq]; [lia|]. rewrite Eq. cbn [obind]. apply IH; [done|by rewrite length_insert|].
  apply Forall_insert; [done|]. pose proof (Forall_lookup_1 _ _ _ _ Hq Eq) as Hg. unfold general, insertCommand in *. by rewrite Hg.
Qed.

(** ** A cycle of the command scheduler *)

Record channel_ready (c : Channel) : Prop := mk_channel_ready {
  cd_ok : channel_ok c;
  cd_kind : cs_kind (ch_scheduler c) = CS_FRFCFS;
  cd_general : Forall general (ch_queues c);
  cd_count : nb <= Z.of_nat (length (ch_queues c));
  cd_commands : Forall (bank_command nb) (concat (all_commands <$> ch_queues c));
  cd_banked : banked nb (ch_device c) }.

Lemma nb_small : nb <= 2 ^ 31.
Proof. lia. Qed.

Lemma looked_general c c' : looked c c' -> Forall general (ch_queues c) -> Forall general (ch_queues c').
Proof. intros [Hq _ _] Hg. induction Hq as [|q q' l l' [b ->] _ IH]; [done|]. apply Forall_cons in Hg as [??]. constructor; auto. Qed.

Lemma looked_channel_ready c c' : looked c c' -> channel_ready c -> channel_ready c'.
Proof.
  intros Hl [H1 H2 H3 H4 H5 H6]. pose proof (Forall2_length _ _ _ (lk_queues _ _ Hl)) as Hlen. split.
  - apply (looked_channel_ok c); [done..|]. intros E. rewrite E in Hlen. cbn in Hlen. lia.
  - pose proof (lk_scheduler _ _ Hl) as Hs. injection Hs as Hk _ _ _ _. congruence.
  - by eapply looked_general.
  - lia.
  - by rewrite (looked_all _ _ Hl).
  - by rewrite (lk_device _ _ Hl).
Qed.

Lemma head_command c qi q p : channel_ready c -> ch_queues c !! qi = Some q -> p ∈ all_commands q -> bank_command nb p /\ plain p.
Proof.
  intros Hc Hq Hp. assert (Hin : p ∈ concat (all_commands <$> ch_queues c)).
  { apply list_elem_of_In, in_concat. exists (all_commands q). split; [|by apply list_elem_of_In].
    apply list_elem_of_In, list_elem_of_fmap. exists q. split; [done|]. by eapply list_elem_of_lookup_2. }
  split; [by apply (proj1 (Forall_forall _ _) (cd_commands _ Hc))|by apply (proj1 (Forall_forall _ _) (hk_plain _ (cd_ok _ Hc)))].
Qed.

Lemma isIssuable_total c p : channel_ready c -> bank_command nb p -> plain p -> exists b, isIssuable p c = Ok b.
Proof.
  intros Hc Hb Hp. unfold isIssuable. destruct (busyBank _ _); [by eexists|].
  apply (command_check_total nb); [apply nb_small|apply Hc|done..].
Qed.

Lemma ready_head_total qi q c : channel_ready c -> ch_queues c !! qi = Some q -> exists p c', ready_head qi q c = Ok (p, c').
Proof.
  intros Hc Hq. unfold ready_head, cq_getSize, getCommand. destruct (hrtBuffer q) as [|p l] eqn:Eh; cbn [length Nat.eqb]; [by eexists _, _|].
  cbn [obind]. destruct (isReady _ _ _ _); [|by eexists _, _].
  destruct (head_command c qi q p Hc Hq) as [Hb Hp]; [unfold all_commands; rewrite Eh; by left|].
  rewrite <- Eh. fold (mark true q).
  destruct (isIssuable_total (set_queue qi (mark true q) c) p) as [b ->]; [|done..|by eexists _, _].
  by eapply looked_channel_ready; [apply looked_set_queue|].
Qed.

Lemma issue_total c p qi : channel_ready c -> candidate c p qi -> exists c', issue p qi c = Ok (Some p, c').
Proof.
  intros Hc (q & Hq & Ht & Hr & Hi). unfold issue, sendCommand. cbn [note_scheduled ch_queues ch_scheduler ch_device]. rewrite Hq.
  pose proof (Forall_lookup_1 _ _ _ _ (cd_general _ Hc) Hq) as Hg. unfold general in Hg. unfold takes in Ht. rewrite Hg in *.
  destruct Ht as [Hs Hh]. unfold removeCommand. rewrite Hs. destruct (hrtBuffer q) as [|p0 l] eqn:Eh; [done|]. injection Hh as ->. cbn [obind].
  destruct (head_command c qi q p Hc Hq) as [Hb Hp]; [unfold all_commands; rewrite Eh; by left|].
  destruct (receive_total nb (ch_device c) p nb_small (cd_banked _ Hc) Hb Hp) as (d & -> & _). cbn [obind]. by eexists.
Qed.

Lemma frfcfs_commands_total : forall fuel qi best c, channel_ready c -> held c best ->
  exists r c', frfcfs_commands fuel qi best c = Ok (r, c').
Proof.
  induction fuel as [|f IH]; intros qi best c Hc Hb; cbn [frfcfs_commands]; [by eexists _, _|].
  destruct (ch_queues c !! qi) as [q|] eqn:Hq; [|by eexists _, _].
  pose proof (Forall_lookup_1 _ _ _ _ (cd_general _ Hc) Hq) as Hg. unfold general in Hg. rewrite Hg.
  assert (Hwq : cq_wf q) by (by eapply (Forall_lookup_1 _ _ _ _ (hk_queues _ (cd_ok _ Hc)))).
  destruct (ready_head_total qi q c Hc Hq) as (p & c1 & E). rewrite E. cbn [obind].
  destruct (ready_head_spec _ _ _ _ _ Hq Hwq E) as (Hl & Hk & _ & H1). set (best' := match p with Some _ => _ | None => best end).
  assert (Hb' : held c1 best').
  { unfold best'. destruct p as [p|], best as [[b i]|]; cbn; auto. by destruct (prefer p b); cbn; auto. }
  assert (Hc1 : channel_ready c1) by by eapply looked_channel_ready.
  clearbody best'. destruct f as [|f'], best' as [[p' i]|]; try by apply IH.
  destruct (issue_total c1 p' i Hc1 Hb') as [c2 ->]. by eexists _, _.
Qed.

(** A candidate leaves a ready channel behind. *)
Lemma send_ready c p qi c' : channel_ready c -> candidate c p qi -> sendCommand p qi false c = Ok c' ->
  Forall general (ch_queues c') /\ banked nb (ch_device c').
Proof.
  intros Hc Hcand Hs. pose proof Hcand as (q & Hq & Ht & _).
  destruct (sendCommand_spec _ _ _ _ (hk_queues _ (cd_ok _ Hc)) Hcand Hs) as (Hrec & _ & Ha & _).
  assert (Hp : bank_command nb p /\ plain p).
  { pose proof (cd_commands _ Hc) as H1. pose proof (hk_plain _ (cd_ok _ Hc)) as H2. rewrite Ha in H1, H2.
    by apply Forall_cons in H1 as [? _], H2 as [? _]. }
  destruct (receive_total nb (ch_device c) p nb_small (cd_banked _ Hc)) as (d & Hd & Hbd); [apply Hp..|]. rewrite Hrec in Hd. injection Hd as <-.
  split; [|done]. unfold sendCommand in Hs. rewrite Hq in Hs. apply obind_Ok in Hs as ([q' s'] & H1 & (d' & _ & [= <-])%obind_Ok).
  apply Forall_insert; [apply Hc|]. pose proof (Forall_lookup_1 _ _ _ _ (cd_general _ Hc) Hq) as Hg. unfold general in *. rewrite Hg in H1.
  apply obind_Ok in H1 as (q1 & Hr & [= <- <-]). unfold removeCommand in Hr. destruct (if scheduledQueue q then _ else _); [done|]. by injection Hr as <-.
Qed.

Lemma commandSchedule_total c : channel_ready c -> exists r c', commandSchedule c = Ok (r, c') /\ channel_ready c'.
Proof.
  intros Hc. unfold commandSchedule. rewrite (cd_kind _ Hc).
  assert (Hf : channel_ready (forget_scheduled c)) by (by eapply looked_channel_ready; [apply looked_forget|]).
  destruct (frfcfs_commands_total (length (ch_queues c)) O None (forget_scheduled c) Hf I) as (r & c' & E). rewrite E.
  exists r, c'. split; [done|]. apply frfcfs_commands_cycle in E; [|apply Hf|done|done].
  destruct E as [c' Hl _|c1 p qi c' Hl Hcand Hs]; [by eapply looked_channel_ready|].
  assert (Hc1 : channel_ready c1) by by eapply looked_channel_ready.
  destruct (send_ready _ _ _ _ Hc1 Hcand Hs) as [Hg Hd].
  destruct (sendCommand_spec _ _ _ _ (hk_queues _ (cd_ok _ Hc1)) Hcand Hs) as (Hrec & Hw & Ha & Hrf & Hk & Hlen).
  pose proof (hk_plain _ (cd_ok _ Hc1)) as Hpl. pose proof (cd_commands _ Hc1) as Hcm. rewrite Ha in Hpl, Hcm.
  apply Forall_cons in Hpl as [_ Hpl], Hcm as [_ Hcm]. split; [|by rewrite Hk; apply Hc1|done|rewrite Hlen; apply Hc1|done|done].
  split; [done| |done|rewrite Hrf; apply Hc1]. intros E. exfalso. pose proof (cd_count _ Hc1) as Hn. rewrite <- Hlen, E in Hn. cbn in Hn. lia.
Qed.
End Ready.

(** ** The controller *)

(** A mapping whose bank field names existing banks. *)
Definition maps_banks (nb : Z) (dec : AddressMapping) : Prop :=
  mapping_ok dec /\ exists bits, (Mem.Bank, bits) ∈ dec /\ 2 ^ bits <= nb.

Record controller_ready (nb : Z) (c : MemoryController) : Prop := mk_controller_ready {
  cy_banks : 0 < nb <= 8;
  cy_reqMap : first_one (reqMap (mc_config c)) = None;
  cy_cmdMap : first_one (cmdMap (mc_config c)) = Some 2%nat;
  cy_table : memTable c !! 2%nat = Some nb;
  cy_mapping : maps_banks nb (mc_mapping c);
  cy_queue : requestQueue c <> [];
  cy_kind : rs_kind (mc_scheduler c) = RS_FRFCFS;
  cy_generator : gen_ready nb (generator c);
  cy_requests : Forall (bank_request nb) (waiting_requests c);
  cy_channel : channel_ready nb (mc_channel c) }.

Lemma general_requests nb c q : Forall (bank_request nb) (waiting_requests c) -> q ∈ requestQueue c -> Forall (bank_request nb) (generalBuffer q).
Proof.
  intros H Hq. apply Forall_forall. intros r Hr. eapply (proj1 (Forall_forall _ _) H). apply list_elem_of_In, in_concat.
  exists (all_requests q). split; [apply list_elem_of_In, list_elem_of_fmap; by exists q|].
  apply list_elem_of_In. unfold all_requests. rewrite !elem_of_app. auto.
Qed.

Lemma mc_schedule_total es nb c : controller_ok es c -> controller_ready nb c -> exists c', mc_schedule c = Ok c' /\ controller_ready nb c'.
Proof.
  intros Hc [Hn Hrm Hcm Ht Hmap Hq Hk Hg Hr Hch]. unfold mc_schedule, requestSchedule.
  destruct (schedule_queues_total nb Hn (requestQueue c) O false (mc_scheduler c) (bank_flags (ch_queues (mc_channel c))))
    as (rqs & s & E & Hg' & Hk' & Hl); [intros q; by apply general_requests|done..|]. rewrite E. cbn [obind].
  assert (Hr' : Forall (bank_request nb) (concat (all_requests <$> rqs))).
  { apply (requestSchedule_inv (fun l _ => Forall (bank_request nb) l)) in E; [done|by intros l l' _ ->|done| |done].
    intros rk bk r l q t flags q' t' flags' Hrem (g & open & _ & _ & Hrm')%dispatch_spec HI.
    apply (removeRequest_all _ _ _ Hrem) in Hrm'. rewrite Hrm', <- (Permutation_middle l) in HI. by apply Forall_cons in HI as [_ ?]. }
  destruct (enqueue_total nb Hn (memTable c) (requestorCriticalTable c) (cmdMap (mc_config c)) (mc_clockCycle c) Hcm Ht
    (commandBuffer (rs_generator s)) (ch_queues (mc_channel c))) as (qs & E2 & Hgen); [apply Hg'|apply Hch..|]. rewrite E2. cbn [obind].
  eexists. split; [done|]. assert (E1 : mc_schedule c = Ok (mc_set rqs
    (rs_set (bankTable s) (requestorIndex s) (mkGenerator (g_kind (rs_generator s)) (dataBusSize (rs_generator s))
      (first (rs_generator s)) (lookupTable (rs_generator s)) []) s)
    (mkChannel qs (ch_scheduler (mc_channel c)) (ch_device (mc_channel c))) (pendingReadRequest c) (pendingWriteRequest c) (sendDataBuffer c) c)).
  { unfold mc_schedule, requestSchedule. rewrite E. cbn [obind]. by rewrite E2. }
  destruct (mc_schedule_ok _ _ _ Hc E1) as [[_ Hok _ _] _]. apply enqueue_all in E2 as (Ha & _ & Hlen).
  split; try done.
  - cbn [mc_set requestQueue]. intros ->. cbn in Hl. destruct (requestQueue c); [done|discriminate Hl].
  - destruct Hg' as [H1 H2 H3 H4]. by split.
  - split; [exact Hok|apply Hch|exact Hgen|cbn [mc_channel mc_set ch_queues]; rewrite Hlen; apply Hch| |apply Hch].
    cbn [mc_channel mc_set ch_queues]. rewrite Ha. apply Forall_app. split; [|apply Hch].
    apply Forall_fmap. eapply Forall_impl; [apply Hg'|]. by intros p.
Qed.

Lemma mc_command_total es nb c : controller_ok es c -> controller_ready nb c ->
  exists r c', mc_command c = Ok (r, c') /\ controller_ready nb c'.
Proof.
  intros Hc [Hn Hrm Hcm Ht Hmap Hq Hk Hg Hr Hch]. unfold mc_command.
  assert (H : exists ch1, cs_refresh (mc_channel c) = Ok ch1 /\ channel_ready nb ch1).
  { destruct Hch as [H1 H2 H3 H4 H5 H6]. unfold cs_refresh. destruct (isInterval _); [|by eexists].
    destruct (rf_refresh_none _ (hk_refresh _ H1)) as [-> Hf]. eexists. split; [done|]. split; try done. by destruct H1. }
  destruct H as (ch1 & -> & H1). cbn [obind]. destruct (commandSchedule_total nb Hn ch1 H1) as (r & ch2 & -> & H2). cbn [obind].
  eexists _, _. split; [done|]. by split.
Qed.

Lemma mc_send_total es nb c : controller_ok es c -> controller_ready nb c ->
  exists evs c', mc_send c = Ok (evs, c') /\ controller_ready nb c'.
Proof.
  intros Hc Hy. unfold mc_send.
  assert (H : exists evs c1, (match sendDataBuffer c with
     | (0, p) :: rest => let! (evs, c) := sendData p c in
         Ok (evs, mc_set (requestQueue c) (mc_scheduler c) (mc_channel c) (pendingReadRequest c) (pendingWriteRequest c) rest c)
     | _ => Ok ([], c) end) = Ok (evs, c1) /\ controller_ready nb c1).
  { pose proof (ck_send _ _ Hc) as Hs. destruct (sendDataBuffer c) as [|[[|?|?] p] rest]; try (by eexists _, _).
    apply Forall_cons in Hs as [[Hp Ht] _]. cbn [snd] in Hp, Ht. unfold plain in Hp. unfold sendData, receiveFromBus, generateData. rewrite Hp, Ht.
    rewrite bool_decide_true by done. cbn [obind]. destruct (settle _ _ _) as [x writes]. cbn [obind].
    eexists _, _. split; [done|]. destruct Hy as [? ? ? ? ? ? ? ? ? [[? ? ? ?] ? ? ? ? ?]]. split; done. }
  destruct H as (evs & c1 & -> & [? ? ? ? ? ? ? ? ? ?]). cbn [obind]. eexists _, _. split; [done|]. by split.
Qed.

Lemma cs_tick_ready nb c : channel_ready nb c -> channel_ready nb (cs_tick c).
Proof. intros [H1 H2 H3 H4 H5 H6]. split; try done. by apply cs_tick_ok. Qed.

Lemma mc_update_total es nb c : controller_ok es c -> controller_ready nb c ->
  exists evs c', mc_update c = Ok (evs, c') /\ controller_ready nb c'.
Proof.
  intros Hc Hy. unfold mc_update. destruct (mc_schedule_total _ _ _ Hc Hy) as (c1 & E1 & Hy1). rewrite E1. cbn [obind].
  destruct (mc_schedule_ok _ _ _ Hc E1) as [Hc1 _]. destruct (mc_command_total _ _ _ Hc1 Hy1) as (r & c2 & E2 & Hy2). rewrite E2. cbn [obind].
  destruct (mc_command_ok _ _ _ _ Hc1 E2) as [Hc2 _]. destruct (mc_send_total _ _ _ Hc2 Hy2) as (evs & c3 & E3 & [? ? ? ? ? ? ? ? ? ?]). rewrite E3. cbn [obind].
  eexists _, _. split; [done|]. split; try done. by apply cs_tick_ready.
Qed.

Definition system_ready (nb : Z) (m : MemorySystem) : Prop := controller_ready nb (sys_controller m).

Lemma with_device_ready nb d c : controller_ready nb c -> channel_ok (mkChannel (ch_queues (mc_channel c)) (ch_scheduler (mc_channel c)) d) ->
  banked nb d -> controller_ready nb (with_device d c).
Proof. intros [? ? ? ? ? ? ? ? ? [? ? ? ? ? ?]] Hok Hd. by split. Qed.

Lemma sys_update_total es nb m : system_ok es m -> system_ready nb m -> exists evs m', sys_update m = Ok (evs, m') /\ system_ready nb m'.
Proof.
  intros Hc Hy. unfold sys_update. destruct (mc_update_total _ _ _ Hc Hy) as (evs & c1 & E1 & Hy1). rewrite E1. cbn [obind].
  destruct (mc_update_ok _ _ _ _ Hc E1) as [Hc1 _].
  assert (H : exists data d, dv_update (ch_device (mc_channel c1)) = Ok (data, d) /\ banked nb d).
  { pose proof (dk_post _ _ (ck_device _ _ Hc1)) as Hp. pose proof (cd_banked _ _ (cy_channel _ _ Hy1)) as Hb. unfold dv_update.
    set (d0 := ch_device (mc_channel c1)) in *. destruct (dv_data d0) as [data d1] eqn:E. unfold dv_data in E.
    assert (H : postBuffer d1 = [] /\ dv_model d1 = dv_model d0 /\ dv_channel d1 = dv_channel d0).
    { destruct (pendingReadData d0) as [|p l]; [by injection E as <- <-|].
      destruct (count_down (dataCycles d0)) as [|[|?|?] ?]; by injection E as <- <-. }
    destruct H as (H1 & H2 & H3). unfold dv_post. rewrite H1. cbn [obind]. eexists _, _. split; [done|].
    intros b rw cl Hbr. specialize (Hb b rw cl Hbr). unfold device_spec in *. cbn. by rewrite H2, H3. }
  destruct H as (data & d & -> & Hd). cbn [obind].
  assert (Hch : forall c2, mc_channel c2 = mc_channel c1 -> channel_ok (mkChannel (ch_queues (mc_channel c2)) (ch_scheduler (mc_channel c2)) d)).
  { intros c2 ->. destruct (cd_ok _ _ (cy_channel _ _ Hy1)). by split. }
  destruct data as [p|].
  - unfold receiveData. destruct (settle _ _ _) as [x reads]. eexists _, _. split; [done|].
    apply with_device_ready; [|by apply Hch|done]. destruct Hy1. by split.
  - eexists _, _. split; [done|]. apply with_device_ready; [done|by apply Hch|done].
Qed.

Lemma sys_addRequest_total es nb m junk id addr R_W size : system_ok es m -> system_ready nb m ->
  exists m', sys_addRequest junk id addr R_W size m = Ok m' /\ system_ready nb m'.
Proof.
  intros Hc Hy. pose proof Hy as [Hn Hrm Hcm Ht [Hmap (bits & Hin & Hbits)] Hq Hk Hg Hr Hch]. set (c := sys_controller m) in *.
  unfold sys_addRequest, mc_addRequest, incoming. fold c. set (r0 := mkRequest _ _ _ _ _ _ _ _ _ _ _ _ _).
  assert (H : exists r1, addressMapping (mc_mapping c) r0 = Ok r1 /\ bank_request nb r1).
  { assert (Hok : mapping_ok (rev (mc_mapping c))).
    { assert (Hp : rev (mc_mapping c) ≡ₚ mc_mapping c) by (symmetry; apply Permutation_rev). destruct Hmap. split; by rewrite Hp. }
    destruct (decode_fields_spec (rev (mc_mapping c)) (w32 (Z.shiftr (address r0) TX_SIZE_BITS)) r0 Hok) as (r1 & E & _ & Hf & _); [apply wrap_range; lia|].
    unfold addressMapping. rewrite E. cbn [obind]. eexists. split; [done|]. unfold bank_request; cbn.
    pose proof (proj1 (Forall_forall _ _) Hf (Mem.Bank, bits)) as Hb. cbn in Hb. rewrite list_elem_of_In, <- in_rev, <- list_elem_of_In in Hb.
    specialize (Hb Hin). lia. }
  destruct H as (r1 & -> & Hb). cbn [obind]. unfold decodeQueue. rewrite Hrm. cbn [obind]. unfold admit_request.
  change (Z.to_nat 0) with O. destruct (requestQueue c) as [|q qs] eqn:Eq; [done|]. cbn [lookup list_lookup obind].
  eexists. split; [done|]. unfold system_ready; cbn [sys_controller]. split; try done; [by split; eauto|].
  unfold waiting_requests in Hr. rewrite Eq in Hr. change (Forall (bank_request nb) (all_requests q ++ concat (all_requests <$> qs))) in Hr.
  change (Forall (bank_request nb) (all_requests (insertRequest r1 q) ++ concat (all_requests <$> qs))).
  rewrite insertRequest_all. by apply Forall_cons.
Qed.

Lemma drive_total nb ops : forall es m, system_ok es m -> system_ready nb m -> exists r, drive ops m = Ok r.
Proof.
  induction ops as [|[junk id addr R_W size|] ops IH]; intros es m Hc Hy; cbn [drive]; [by eexists| |].
  - destruct (sys_addRequest_total es nb m junk id addr R_W size Hc Hy) as (m1 & E & Hy1). rewrite E. cbn [obind].
    eapply IH; [|done]. by eapply sys_addRequest_ok.
  - destruct (sys_update_total es nb m Hc Hy) as (evs & m1 & E & Hy1). rewrite E. cbn [obind].
    destruct (sys_update_ok _ _ _ _ Hc E) as [Hc1 _]. destruct (IH _ _ Hc1 Hy1) as [[[es2 evs2] m2] ->]. by eexists.
Qed.

(** ** The configuration of [MCsimInterface] *)

Definition default_config : MCConfig :=
  match readConfigFile (Some FRFCFS_ini) (noConfig false) with Ok c => c | _ => noConfig false end.
Definition default_device : MemoryDevice :=
  match DDR4.select "DDR4_8Gb_x8" "DDR4_2400U" with Ok (o, s) => newDevice (DDR4_model 1 o s) 1 | _ => newDevice (DDR4_model 1 DDR4.noOrg DDR4.noSpeed) 1 end.
Definition default_mapping : AddressMapping :=
  [(Mem.Row, 16); (Mem.Rank, 0); (Mem.BankGroup, 2); (Mem.Bank, 2); (Mem.SubArray, 0); (Mem.Column, 7)].

Lemma default_config_read b : readConfigFile (Some FRFCFS_ini) (noConfig b) = Ok default_config.
Proof. by destruct b; vm_compute. Qed.

Lemma default_device_banked : banked 4 default_device.
Proof.
  intros b rw cl Hb. assert (H : b = 0 \/ b = 1 \/ b = 2 \/ b = 3) by lia.
  destruct H as [-> | [-> | [-> | ->]]]; vm_compute; reflexivity.
Qed.

Lemma default_mapping_banks : maps_banks 4 default_mapping.
Proof.
  split; [split|].
  - cbn. repeat (apply NoDup_cons; split; [rewrite ?elem_of_cons, elem_of_nil; intuition discriminate|]). apply NoDup_nil_2.
  - repeat (apply Forall_cons; split; [cbn; unfold Mem.Row, Mem.Rank, Mem.BankGroup, Mem.Bank, Mem.SubArray, Mem.Column; lia|]). done.
  - repeat (apply Forall_cons; split; [cbn; lia|]). done.
  - exists 2. split; [|lia]. unfold default_mapping. rewrite !elem_of_cons. auto 10.
Qed.

Lemma default_connect n junk : exists c, connectMemoryDevice default_config n junk default_device = Ok c /\
  ch_device (mc_channel c) = default_device /\ (forall k, pending k c = []) /\ (channel_ok (mc_channel c) -> controller_ready 4 c).
Proof.
  unfold connectMemoryDevice. cbv zeta.
  replace (queueNumber _ (reqMap default_config)) with (Ok 1 : outcome Z) by (vm_compute; reflexivity).
  replace (queueNumber _ (cmdMap default_config)) with (Ok 16 : outcome Z) by (vm_compute; reflexivity). cbn [obind].
  replace (newAddressMapping _ _) with (Ok default_mapping : outcome AddressMapping) by (vm_compute; reflexivity).
  replace (getRequestScheduler _) with (Ok RS_FRFCFS : outcome RequestSchedulerKind) by (vm_compute; reflexivity).
  replace (getCommandGenerator _) with (Ok GEN_OPEN : outcome GeneratorKind) by (vm_compute; reflexivity).
  replace (getCommandScheduler _) with (Ok CS_FRFCFS : outcome CommandSchedulerKind) by (vm_compute; reflexivity). cbn [obind].
  eexists. split; [reflexivity|]. split; [done|]. split; [by intros []|]. intros Hok. change (Z.to_nat 1) with 1%nat in *. change (Z.to_nat 16) with 16%nat in *.
  split; try done; try (vm_compute; reflexivity); [apply default_mapping_banks|].
  split; [exact Hok|done| |cbn; lia|done|apply default_device_banked].
  cbn [mc_channel ch_queues]. change (requestorCmdQ default_config) with false. apply Forall_forall.
  intros q Hq%list_elem_of_In%repeat_spec. by rewrite Hq.
Qed.

(** The channel [MCsimInterface] has MCsim build. *)
Definition default_system (n : nat) (junk : Z) : outcome MemorySystem :=
  newMemorySystem n (Some FRFCFS_ini) "DDR4" "2400U" "8Gb_x8" 1 junk.

Lemma default_system_ready n junk : exists m, default_system n junk = Ok m /\ system_ok [] m /\ system_ready 4 m /\
  sys_device m = default_device /\ forall k, pending_addresses k (sys_controller m) = [].
Proof.
  destruct (default_connect n junk) as (c & Hc & Hd & Hp & Hr).
  assert (E : default_system n junk = Ok (mkSystem c 0)).
  { unfold default_system, newMemorySystem. rewrite default_config_read. cbn [obind].
    replace (if String.eqb "DDR4" "DDR3" then _ else _) with (Ok default_device : outcome MemoryDevice); [cbn [obind]; by rewrite Hc|].
    unfold default_device. cbn [String.eqb Ascii.eqb Bool.eqb]. change (String.append "DDR4" (String.append "_" "8Gb_x8")) with "DDR4_8Gb_x8"%string.
    change (String.append "DDR4" (String.append "_" "2400U")) with "DDR4_2400U"%string.
    by destruct (DDR4.select "DDR4_8Gb_x8" "DDR4_2400U") as [[o s]| |] eqn:Es; [|vm_compute in Es; discriminate Es..]. }
  exists (mkSystem c 0). destruct (newMemorySystem_ok n (Some FRFCFS_ini) "DDR4" "2400U" "8Gb_x8" 1 junk (mkSystem c 0) Z.lt_0_1 E) as [Hok _]. split_and!; [done..|by apply Hr, Hok|done|].
  intros k. unfold pending_addresses. cbn [sys_controller]. by rewrite Hp.
Qed.

(** ** Both clocks *)

(** Calls from the cache side: requests, and updates at the clock of the
    cores; [fuel] bounds the loop of the crosser. *)
Fixpoint multi_drive (fuel : nat) (ops : list Op) (m : MultiChannel) : outcome (list Event * MultiChannel) :=
  match ops with
  | [] => Ok ([], m)
  | Add junk id addr R_W size :: ops' => let! m' := multi_addRequest junk id addr R_W size m in multi_drive fuel ops' m'
  | Tick :: ops' =>
      let! (evs, m') := multi_update fuel m in
      let! (evs', m'') := multi_drive fuel ops' m' in
      Ok (evs ++ evs', m'')
  end.
(** The addresses of the requests of a kind. *)
Definition submitted (k : RequestType) (ops : list Op) : list Z :=
  omap (fun op => match op with
    | Add _ _ addr R_W _ => if decide ((if R_W then DATA_READ else DATA_WRITE) = k) then Some addr else None
    | Tick => None
    end) ops.

Lemma multi_drive_answers k fuel ops : forall m evs m', multi_drive fuel ops m = Ok (evs, m') ->
  omap (answer k) evs ++ multi_outstanding k m' ≡ₚ submitted k ops ++ multi_outstanding k m.
Proof.
  induction ops as [|[junk id addr R_W size|] ops IH]; intros m evs m'; cbn [multi_drive]; [by intros [= <- <-]| |].
  - intros (m1 & H1%(multi_addRequest_outstanding k) & H2%IH)%obind_Ok. rewrite H2, H1. unfold submitted; cbn. case_decide; cbn; solve_perm.
  - intros ([e1 m1] & H1%(multi_update_answers k) & ([e2 m2] & H2%IH & [= <- <-])%obind_Ok)%obind_Ok.
    change (submitted k (Tick :: ops)) with (submitted k ops). rewrite omap_app, <- app_assoc, H2, <- H1. solve_perm.
Qed.

Record multi_ready (c1 c2 : Z) (m : MultiChannel) : Prop := mk_multi_ready {
  mr_channel : exists ch es, channels m = [ch] /\ system_ok es ch /\ system_ready 4 ch;
  mr_crosser : crosser_inv c1 c2 (clockDomainCrosser m) }.

Lemma run_updates_total : forall n m, (exists ch es, channels m = [ch] /\ system_ok es ch /\ system_ready 4 ch) -> exists evs m',
  run_updates n m = Ok (evs, m') /\ exists ch es, channels m' = [ch] /\ system_ok es ch /\ system_ready 4 ch.
Proof.
  induction n as [|n IH]; intros m (ch & es & E & Hc & Hy); cbn [run_updates]; [by eexists _, m; split; [|exists ch, es]|].
  unfold actual_update. rewrite E. cbn [update_channels].
  destruct (sys_update_total es 4 ch Hc Hy) as (evs & ch' & E1 & Hy1). rewrite E1. cbn [obind].
  destruct (sys_update_ok _ _ _ _ Hc E1) as [Hc1 _].
  destruct (IH (mkMulti [ch'] (multi_tCK m) (clockDomainCrosser m) (w64 (multi_clockCycle m + 1)))) as (evs2 & m2 & -> & H2); [by eexists _, _|].
  cbn [obind]. eexists _, _. by split.
Qed.

Lemma multi_drive_total c1 c2 fuel ops : 0 < c1 -> 0 < c2 -> c1 * c2 + c2 < 2 ^ 64 -> (turns c1 c2 <= fuel)%nat ->
  forall m, multi_ready c1 c2 m -> exists r, multi_drive fuel ops m = Ok r.
Proof.
  intros H1 H2 Hmax Hf. induction ops as [|[junk id addr R_W size|] ops IH]; intros m [(ch & es & E & Hc & Hy) Hx]; cbn [multi_drive]; [by eexists| |].
  - unfold multi_addRequest, findChannelNumber. rewrite E. cbn [length lookup list_lookup].
    destruct (sys_addRequest_total es 4 ch junk id addr R_W size Hc Hy) as (ch' & Ea & Hy'). rewrite Ea. cbn [obind].
    destruct (sys_addRequest_ok _ _ _ _ _ _ _ _ Hc Ea) as [Hc' _]. apply IH. split; [|done]. by exists ch', es.
  - unfold multi_update. destruct (crosser_update_spec c1 c2 H1 H2 Hmax _ fuel Hx Hf) as (calls & x & -> & Hx' & _). cbn [obind].
    destruct (run_updates_total calls m) as (evs & m1 & -> & Hm1); [by eexists _, _|]. cbn [obind].
    destruct (IH (mkMulti (channels m1) (multi_tCK m1) x (multi_clockCycle m1))) as [[evs2 m2] ->]; [by split|]. cbn [obind]. by eexists.
Qed.

(** The clock of DDR4-2400U, as [setCPUClockSpeed] rounds it. *)
Definition mcsim_clock : Z := 1200000028.

Lemma default_instance n junk : exists m, getMemorySystemInstance n (Some FRFCFS_ini) junk = Ok m /\
  multi_ready mcsim_clock 2400000000 m /\ forall k, multi_outstanding k m = [].
Proof.
  destruct (default_system_ready n junk) as (ch & E & Hc & Hy & Hd & Hp).
  unfold getMemorySystemInstance, newMultiChannel. cbn [new_channels]. unfold default_system in E. rewrite E. cbn [obind].
  eexists. split; [reflexivity|]. rewrite Hd. split.
  - split; [by exists ch, []|]. split; [split; vm_compute; reflexivity| | |]; cbn; [exists 0; lia|exists 0; lia|lia].
  - intros k. unfold multi_outstanding. cbn. by rewrite Hp.
Qed.

(** C4: the memory controller never aborts.  MCsim as [MCsimInterface] builds
    it, at the clock of the cores, accepts every request and completes every
    update, for any number of cores and any sequence of calls; the clock crosser
    needs one turn; and the callbacks it has made, with the requests it still
    holds, are the requests it was given. *)
Theorem mcsim_never_aborts n junk ops : exists m0 evs m,
  getMemorySystemInstance n (Some FRFCFS_ini) junk = Ok m0 /\ multi_drive 1 ops m0 = Ok (evs, m) /\
  forall k, omap (answer k) evs ++ multi_outstanding k m ≡ₚ submitted k ops.
Proof.
  destruct (default_instance n junk) as (m0 & E & Hm & Ho).
  destruct (multi_drive_total mcsim_clock 2400000000 1 ops) with (m := m0) as [[evs m] Hr]; [by vm_compute..| |done|].
  { apply Nat.leb_le. vm_compute. reflexivity. }
  exists m0, evs, m. split_and!; [done..|]. intros k. rewrite (multi_drive_answers k _ _ _ _ _ Hr), Ho. by rewrite app_nil_r.
Qed.
