(* ===== verification/McDemo.v ===== *)
(** * MCsim on concrete requests

    The properties of MCsim at concrete systems and request sequences: the
    default configuration of [FRFCFS.ini], one request and then two. *)

From S2P Require Export McTotal.

Local Open Scope list_scope.
Open Scope Z_scope.
Import MC.

Definition demo_system : outcome MemorySystem := newMemorySystem 4 (Some FRFCFS_ini) "DDR4" "2400U" "8Gb_x8" 1 77.

(** A read and a write of different rows of one bank, then time. *)
Definition demo_ops (ticks : nat) : list Op := Add 77 0 4096 true 64 :: Add 77 1 67108864 false 64 :: repeat Tick ticks.

(** A run with the system it started from. *)
Definition demo_run (ticks : nat) : outcome (MemorySystem * (list Issue * list Event * MemorySystem)) :=
  let! m0 := demo_system in let! r := drive (demo_ops ticks) m0 in Ok (m0, r).

Lemma observe {A B} (f : A -> B) (x : outcome A) v :
  match x with Ok a => Some (f a) | _ => None end = Some v -> exists a, x = Ok a /\ f a = v.
Proof. destruct x as [a| |]; [intros [= <-]; by exists a|discriminate..]. Qed.

Lemma demo_run_inv ticks m0 r : demo_run ticks = Ok (m0, r) -> demo_system = Ok m0 /\ drive (demo_ops ticks) m0 = Ok r.
Proof. unfold demo_run. by intros (m1 & -> & (r1 & Hr & [= <- <-])%obind_Ok)%obind_Ok. Qed.


(** Halfway, the read has been answered and the write is owed; at the end
    nothing is. *)
Lemma mcsim_conserves_witness : exists m0 es evs m, demo_system = Ok m0 /\ drive (demo_ops 60) m0 = Ok (es, evs, m) /\
  evs = [ReturnReadData 4096 40] /\ address <$> pending DATA_WRITE (sys_controller m) = [67108864] /\
  owed 64 DATA_WRITE (pending DATA_WRITE (sys_controller m)) ≡ₚ [(1, 67108864)].
Proof.
  destruct (observe (fun x => (bus_width (fst x), page_policy (fst x), snd (fst (snd x)),
      address <$> pending DATA_WRITE (sys_controller (snd (snd x))),
      owed 64 DATA_WRITE (waiting_requests (sys_controller (snd (snd x)))) ++
      accesses DATA_WRITE (waiting_commands (sys_controller (snd (snd x)))) ++ in_transit DATA_WRITE (sys_controller (snd (snd x)))))
    (demo_run 60) (64, GEN_OPEN, [ReturnReadData 4096 40], [67108864], [(1, 67108864)]))
    as ([m0 [[es evs] m]] & E & Hv); [vm_compute; reflexivity|].
  apply demo_run_inv in E as [E0 Hr]. cbn [fst snd] in Hv. injection Hv as Hw Hpol He Hp Ho.
  exists m0, es, evs, m. do 4 (split; [assumption|]). rewrite <- Ho, <- Hw.
  refine (proj1 (mcsim_conserves 4 (Some FRFCFS_ini) "DDR4" "2400U" "8Gb_x8" 1 77 m0 _ es evs m DATA_WRITE _ E0 _ Hr)); [lia|].
  unfold demo_ops, op_whole. rewrite Hw, Hpol. apply Forall_cons; split; [split; [lia|by exists 1]|].
  apply Forall_cons; split; [split; [lia|by exists 1]|]. by apply Forall_forall; intros op ->%list_elem_of_In%repeat_spec.
Defined.

(** Ten cycles of the cores at 2.4 GHz are six updates of the memory at 1.2 GHz. *)
Lemma crosser_exact_witness : exists x, crossings 1 10 (mkCrosser 1200000028 2400000000 0 0) = Ok (6, x).
Proof. apply (crosser_exact 1200000028 2400000000 1 10); [lia..|]. apply Nat.leb_le. vm_compute. reflexivity. Defined.

(** The mapping of the default configuration at address 67108864 + 4096. *)
Definition demo_request : Request := newRequest 77 0 DATA_READ 64 67112960.
Lemma address_mapping_roundtrip_witness : exists r', addressMapping default_mapping demo_request = Ok r' /\
  Forall (fun p => 0 <= field (fst p) r' < 2 ^ snd p) default_mapping /\ recompose (rev default_mapping) r' = 67112960 / 64.
Proof.
  destruct (address_mapping_roundtrip default_mapping demo_request) as (r' & E & Hf & Hr); [exact (proj1 default_mapping_banks)|].
  exists r'. split_and!; [exact E|exact Hf|]. rewrite Hr. vm_compute. reflexivity.
Defined.

(** ** What the tables and the mapping give away *)

(** The scope table of DDR4 reads [Rank] for an activation: a second one of the
    same bank passes the check of the device [nRRDS] cycles later, though the
    timing of the bank asks for [nRC]; only the timers of the command queue keep
    them apart. *)
Definition demo_activation (rw : Z) : BusPacket := newCommand Pkt.ACT 0 0 0 rw 0 0 0 0 0 64.
Lemma activation_unchecked_in_bank : exists d, receiveFromBus (demo_activation 1) default_device = Ok d /\
  command_check (demo_activation 2) (Nat.iter 10 dv_tick d) = Ok true /\
  In (mkTiming Ram.ACT 1 57 false) (timing (dm_standard (dv_model d)) DDR4.Bank Ram.ACT).
Proof.
  destruct (observe (fun d => (command_check (demo_activation 2) (Nat.iter 10 dv_tick d),
    timing (dm_standard (dv_model d)) DDR4.Bank Ram.ACT)) (receiveFromBus (demo_activation 1) default_device)
    (Ok true, timing (dm_standard (dv_model default_device)) DDR4.Bank Ram.ACT)) as (d & E & [= H1 H2]); [vm_compute; reflexivity|].
  exists d. split_and!; [done|done|]. rewrite H2. vm_compute. tauto.
Qed.

(** Two addresses that differ in their bank group only share bank, row and
    column: the device sees one place. *)
Lemma bank_groups_collapse : exists r1 r2,
  addressMapping default_mapping (newRequest 77 0 DATA_READ 64 0) = Ok r1 /\
  addressMapping default_mapping (newRequest 77 0 DATA_READ 64 32768) = Ok r2 /\
  bankGroup r1 <> bankGroup r2 /\ (rank r1, bank r1, row r1, col r1) = (rank r2, bank r2, row r2, col r2).
Proof.
  destruct (observe (fun x => (bankGroup (fst x), bankGroup (snd x), bool_decide ((rank (fst x), bank (fst x), row (fst x), col (fst x)) =
      (rank (snd x), bank (snd x), row (snd x), col (snd x)))))
    (let! r1 := addressMapping default_mapping (newRequest 77 0 DATA_READ 64 0) in
     let! r2 := addressMapping default_mapping (newRequest 77 0 DATA_READ 64 32768) in Ok (r1, r2)) (0, 1, true))
    as ([r1 r2] & (r1' & H1 & (r2' & H2 & [= <- <-])%obind_Ok)%obind_Ok & [= Hg1 Hg2 He%bool_decide_eq_true]);
    [vm_compute; reflexivity|].
  exists r1', r2'. split_and!; [done|done| |exact He]. by rewrite Hg1, Hg2.
Qed.

(** A write of a requestor beyond the number the controller was built for goes
    to the buffer no scheduler serves, while the row table already takes its row
    for open: a read of that row by a core is the first command on the bus, with
    no activation before it, and the write is never done. *)
Definition foreign_run (ticks : nat) : outcome (list Ram.Command * list Event * list Z) :=
  let! m0 := demo_system in
  let! (es, evs, m) := drive (Add 77 4 4096 false 64 :: Tick :: Add 77 0 4096 true 64 :: repeat Tick ticks) m0 in
  Ok (is_cmd <$> es, evs, address <$> pending DATA_WRITE (sys_controller m)).
Lemma foreign_write_starves : foreign_run 300 = Ok ([Ram.RD], [ReturnReadData 4096 23], [4096]).
Proof. vm_compute. reflexivity. Qed.
