(* ===== verification/Config.v ===== *)
(** * Configuration

    [src/Configurable.cpp]: the rows of a configuration file, the parameters
    they make, the files they extend, the overrides of the command line and the
    parameters handed to a component.  [src/CLParser.cpp] splits the command
    line.  The C library's [sscanf] is modelled conversion by conversion: a
    conversion that fails leaves its variable as it was, and a text longer than
    its buffer, or a read of a variable nothing has written, is a [Crash].
    Printing the configuration is left out. *)

From S2P Require Export TaskFile.

Local Open Scope string_scope.
Open Scope Z_scope.

(** ** Conversions of [sscanf] *)

(** [%[^...]]: the characters before the first [stop]. *)
Fixpoint span (stop : ascii -> bool) (s : string) : string * string :=
  match s with
  | "" => ("", "")
  | String a s' => if stop a then ("", s) else let '(l, r) := span stop s' in (String a l, r)
  end.
(** It matches at least one character. *)
Definition scan_set (stop : ascii -> bool) (s : string) : option (string * string) :=
  match span stop s with ("", _) => None | p => Some p end.

Definition chr_is (c a : ascii) : bool := Ascii.eqb a c.
Definition literal (c : ascii) (s : string) : option string :=
  match s with String a s' => if chr_is c a then Some s' else None | "" => None end.

(** [%*[^,],]: what follows the first comma, which is not the first character. *)
Definition after_first (c : ascii) (s : string) : option string :=
  match scan_set (chr_is c) s with Some (_, r) => literal c r | None => None end.

(** [%d]: [strtol], cut to an [int]. *)
Definition scan_d (s : string) : option Z := i32 ∘ fst <$> scan_lld s.

(** [%lf]. *)
Definition scan_lf (s : string) : option spec_float :=
  let '(sign, s1) := scan_sign (skip_space s) in
  let sg := sign <? 0 in
  if starts_with "infi" s1 && negb (starts_with "infinity" s1) then None
  else if starts_with "inf" s1 then Some (S754_infinity sg)
  else if starts_with "nan" s1 then Some S754_nan
  else if starts_with "0x" s1 then
    (fun '(m, k, r) => binary_normalize 53 1024 (cond_Zopp sg m) (exponent "p" "P" r - 4 * k) sg) <$> point_digits hex_digit 16 (drop_chars 2 s1)
  else (fun '(m, k, r) => decimal sg m (exponent "e" "E" r - k)) <$> point_digits digit 10 s1.

Definition ends_value (a : ascii) : bool := chr_is "," a || chr_is "013" a || chr_is "010" a.

(** ** Parameters *)

Definition MAX_LINE_SIZE : nat := 4096.
Definition MAX_NAME_SIZE : nat := 100.
Definition MAX_TYPE_SIZE : nat := 10.

(** [class Parameter]; the alternative of the variant is the type. *)
Inductive Value :=
| Integer (n : Z)
| Double (x : spec_float)
| Str (s : string)
| Vector_Integer (l : list Z)
| Vector_Double (l : list spec_float)
| Vector_String (l : list string).
Record Param := mkParameter { p_name : string; p_value : Value }.

Notation ParametersMap := (gmap string Param).
Notation SubordinateMap := (gmap string ParametersMap).

(** The two maps of a [Configurable]. *)
Record Configurable := mkConfigurable { parameters : ParametersMap; subordinate_param : SubordinateMap }.
Definition noParameters : Configurable := mkConfigurable ∅ ∅.

(** ** Rows *)

Definition overflow : string := "write past the end of a buffer".
Definition uninitialised : string := "read of an uninitialised buffer".

(** A text written to a buffer of [n] characters, its terminator included. *)
Definition fits (n : nat) (s : string) : outcome string := if (String.length s <? n)%nat then Ok s else Crash overflow.

(** A comment or a blank line. *)
Fixpoint skip (drop : ascii -> bool) (s : string) : string :=
  match s with String a s' => if drop a then skip drop s' else s | "" => "" end.
Definition checkComment (line : string) : bool :=
  match skip (fun a => ends_value a || chr_is " " a) (skip (chr_is " ") line) with String a _ => chr_is "#" a | "" => true end.

(** [parseVector]: [conv] converts the text after a comma; [fuel]: the length of
    the line. *)
Fixpoint parseVector {T} (conv : string -> option T) (fuel : nat) (sline : string) : list T :=
  match fuel with
  | O => []
  | S f =>
      match break_at "," sline with
      | None => []
      | Some (_, rest) =>
          if checkComment (String "," rest) then [] else
          match conv rest with Some v => [v] | None => [] end ++
          match rest with "" => [] | _ => parseVector conv f rest end
      end
  end%list.
Definition vector_of {T} (conv : string -> option T) (line : string) : list T := parseVector conv (S (String.length line)) line.

Definition scan_text (s : string) : option string := fst <$> scan_set ends_value s.

Definition parseLine (line : string) : outcome Param :=
  let! name := fits MAX_NAME_SIZE (fst (span (chr_is "(") line)) in
  let! indicator := fits MAX_TYPE_SIZE (default "" (rest ← after_first "(" line; fst <$> scan_set (chr_is ")") rest)) in
  let value := after_first "," line in
  if String.eqb indicator "i" then Ok (mkParameter name (Integer (default 0 (value ≫= scan_d))))
  else if String.eqb indicator "d" then Ok (mkParameter name (Double (default (S754_zero false) (value ≫= scan_lf))))
  else if String.eqb indicator "s" then Ok (mkParameter name (Str (default "" (value ≫= scan_text))))
  else if String.eqb indicator "vi" then Ok (mkParameter name (Vector_Integer (vector_of scan_d line)))
  else if String.eqb indicator "vd" then Ok (mkParameter name (Vector_Double (vector_of scan_lf line)))
  else if String.eqb indicator "vs" then Ok (mkParameter name (Vector_String (vector_of scan_text line)))
  else Exit "Wrong Parameter type".

(** [parseCLparam]: the first [=] of an override stands for the comma. *)
Fixpoint equals_to_comma (s : string) : string :=
  match s with String a s' => if chr_is "=" a then String "," s' else String a (equals_to_comma s') | "" => "" end.
Definition parseCLparam (line : string) : outcome Param :=
  if (MAX_LINE_SIZE <=? String.length line)%nat then Exit "Configurable: command-line parameter too long"
  else parseLine (equals_to_comma line).

(** [addParameter2Map]: a name with a dot belongs to a subordinate. *)
Definition add_to (p : Param) (m : ParametersMap) : ParametersMap := <[p_name p := p]> m.
Definition addParameter2Map (p : Param) (c : Configurable) : Configurable :=
  match break_at "." (p_name p) with
  | None => mkConfigurable (add_to p (parameters c)) (subordinate_param c)
  | Some (sub_name, param_name) =>
      mkConfigurable (parameters c)
        (<[sub_name := add_to (mkParameter param_name (p_value p)) (default ∅ (subordinate_param c !! sub_name))]> (subordinate_param c))
  end.

(** ** Files *)

(** [fscanf(file, "%[^\n]\n", line)]: a line, then all the white space after it;
    the rest of the file. *)
Definition read_line (text : string) : outcome (option (string * string)) :=
  match span (chr_is "010") text with
  | ("", "") => Ok None
  | ("", _) => Crash uninitialised
  | (l, r) => let! l := fits MAX_LINE_SIZE l in Ok (Some (l, skip_space r))
  end.

(** The file a first line extends. *)
Definition checkKeywords (line : string) : outcome (option string) :=
  match scan_set (chr_is ",") line with
  | None => Crash uninitialised
  | Some (keyword, _) =>
      let! keyword := fits MAX_NAME_SIZE keyword in
      if String.eqb keyword "Extends" then
        match rest ← after_first "," line; scan_text (skip_space rest) with
        | Some path => Ok (Some path)
        | None => Crash uninitialised
        end
      else Ok None
  end.

Definition parse_row (line : string) (c : Configurable) : outcome Configurable :=
  if checkComment line then Ok c else let! p := parseLine line in Ok (addParameter2Map p c).

(** The loop over the lines; [fuel]: the length of the file. *)
Fixpoint parse_rows (fuel : nat) (line text : string) (c : Configurable) : outcome Configurable :=
  match fuel with
  | O => Crash "out of fuel"
  | S f =>
      let! c := parse_row line c in
      let! next := read_line text in
      match next with
      | None => Ok c
      | Some (line, text) => parse_rows f line text c
      end
  end.

(** [parseFile]; [files] reads a file, [depth] bounds the chain of files that
    extend one another: the stack. *)
Section Files.
Variable files : string -> option string.

Definition config_file (config_path name : string) : string := config_path +:+ "/" +:+ name +:+ ".csv".

Fixpoint parseFile (depth : nat) (config_path name : string) (c : Configurable) : outcome Configurable :=
  match depth with
  | O => Crash "stack overflow"
  | S d =>
      match files (config_file config_path name) with
      | None => Exit "Failed to open configuration file"
      | Some text =>
          let! first := read_line text in
          match first with
          | None => Crash uninitialised
          | Some (line, text) =>
              let! extension := checkKeywords line in
              match extension with
              | None => parse_rows (S (String.length text)) line text c
              | Some path =>
                  let! c := parseFile d config_path path c in
                  let! next := read_line text in
                  match next with
                  | None => Ok c
                  | Some (line, text) => parse_rows (S (String.length text)) line text c
                  end
              end
          end
      end
  end.

(** ** Constructors *)

(** A component: its file, then what the system sets. *)
Definition newConfigurable (depth : nat) (m : ParametersMap) (config_path name : string) : outcome Configurable :=
  let! c := parseFile depth config_path name noParameters in
  Ok (foldr addParameter2Map c (snd <$> map_to_list m)).
End Files.

(** ** Lookups *)

Definition no_entry : string := "map::at".
Definition bad_variant : string := "bad_variant_access".

Definition at_ (key : string) (m : ParametersMap) : outcome Value :=
  match m !! key with Some p => Ok (p_value p) | None => Crash no_entry end.
Definition get_int (key : string) (m : ParametersMap) : outcome Z :=
  let! v := at_ key m in match v with Integer n => Ok n | _ => Crash bad_variant end.
Definition get_string (key : string) (m : ParametersMap) : outcome string :=
  let! v := at_ key m in match v with Str s => Ok s | _ => Crash bad_variant end.
Definition get_ints (key : string) (m : ParametersMap) : outcome (list Z) :=
  let! v := at_ key m in match v with Vector_Integer l => Ok l | _ => Crash bad_variant end.
Definition get_strings (key : string) (m : ParametersMap) : outcome (list string) :=
  let! v := at_ key m in match v with Vector_String l => Ok l | _ => Crash bad_variant end.
Definition count (key : string) (m : ParametersMap) : bool := bool_decide (is_Some (m !! key)).
(** [if (parameters.count(key)) x = get(key)]. *)
Definition get_opt {T} (get : string -> ParametersMap -> outcome T) (key : string) (m : ParametersMap) : outcome (option T) :=
  if count key m then let! v := get key m in Ok (Some v) else Ok None.

(** [std::to_string]. *)
Definition digit_of (d : Z) : ascii := ascii_of_nat (Z.to_nat (d + 48)).
Fixpoint decimal_digits (fuel : nat) (n : Z) (rest : string) : string :=
  match fuel with
  | O => rest
  | S f => if n <? 10 then String (digit_of n) rest else decimal_digits f (n / 10) (String (digit_of (n mod 10)) rest)
  end.
Definition to_string (n : Z) : string :=
  let text m := decimal_digits (S (Z.to_nat (Z.log2 m))) m "" in if n <? 0 then String "-" (text (- n)) else text n.

(** [getSubMap]: the parameters of an instance, those of the wild card where it
    has none. *)
Definition indexed (comp_name index : string) : string := comp_name +:+ "[" +:+ index +:+ "]".
Definition getSubMap (c : Configurable) (comp_name : string) (instance_number : Z) : ParametersMap :=
  let name := if instance_number =? -1 then comp_name else indexed comp_name (to_string instance_number) in
  let wild_name := indexed comp_name "*" in
  match subordinate_param c !! name with
  | Some m => match subordinate_param c !! wild_name with Some w => m ∪ w | None => m end
  | None => default ∅ (subordinate_param c !! wild_name)
  end.

(** ** Paths *)

(** The parts of a path between its separators. *)
Definition path_parts (p : string) : list string := fields (Some p) "/".
Definition is_absolute (p : string) : bool := match p with String a _ => chr_is "/" a | "" => false end.
Fixpoint ends_with (c : ascii) (p : string) : bool :=
  match p with String a "" => chr_is c a | String _ p' => ends_with c p' | "" => false end.

(** [lexically_normal]: the names that remain, last first, and whether a
    separator ends the path. *)
Definition normal_step (rooted : bool) (st : list string * bool) (part : string) : list string * bool :=
  let '(names, dir) := st in
  if String.eqb part "" || String.eqb part "." then (names, true)
  else if String.eqb part ".." then
    match names with
    | n :: names' => if String.eqb n ".." then (".." :: names, false) else (names', true)
    | [] => if rooted then ([], true) else ([".."], false)
    end
  else (part :: names, false).
Fixpoint join_path (names : list string) : string :=
  match names with [] => "" | [n] => n | n :: names' => n +:+ String "/" (join_path names') end.
Definition lexically_normal (p : string) : string :=
  match p with
  | "" => ""
  | _ =>
      let rooted := is_absolute p in
      let '(names, dir) := foldl (normal_step rooted) ([], false) (path_parts p) in
      let dir := (dir || ends_with "/" p) && match names with n :: _ => negb (String.eqb n "..") | [] => false end in
      let body := join_path (rev names) +:+ (if dir then "/" else "") in
      if rooted then String "/" body else match body with "" => "." | _ => body end
  end.
(** [operator/] with a relative path on its right. *)
Definition path_append (base p : string) : string :=
  match base with "" => p | _ => if ends_with "/" base then base +:+ p else base +:+ String "/" p end.

(** A system: its file, the overrides, and a workload path that is absolute or
    relative to where it was written. *)
Definition newSystemConfig (files : string -> option string) (depth : nat) (current_path CONFIGURATION_PATH : string)
    (cl_params : list string) (config_path name : string) : outcome Configurable :=
  let! c := parseFile files depth config_path name noParameters in
  let! (c, explicit) := ofold (fun '(c, explicit) line =>
    let! p := parseCLparam line in
    Ok (addParameter2Map p c, explicit || String.eqb (p_name p) "workload_path")) cl_params (c, false) in
  if count "workload_path" (parameters c) then
    let! path := get_string "workload_path" (parameters c) in
    let path :=
      if is_absolute path then path else
      path_append (if explicit then current_path else lexically_normal (path_append CONFIGURATION_PATH "..")) path in
    Ok (addParameter2Map (mkParameter "workload_path" (Str (lexically_normal path))) c)
  else Ok c.

(** ** [CLParser] *)

Definition starts_option (a : string) : bool :=
  ((String.length a =? 2)%nat && match a with String c _ => chr_is "-" c | "" => false end) || String.eqb a "--config".
(** The arguments without the program's name; an option takes its value along. *)
Fixpoint cl_lines (args : list string) : list string :=
  match args with
  | a :: ((v :: args') as rest) =>
      if starts_option a then ((if String.eqb a "-c" then "--config" else a) +:+ " " +:+ v) :: cl_lines args' else a :: cl_lines rest
  | [a] => [a]
  | [] => []
  end.
Definition newCLParser (argv : list string) : list string := match argv with [] => [] | _ :: args => cl_lines args end.

(** The last character stays, even when it is a space. *)
Fixpoint trim_tail (s : string) : string :=
  match s with
  | "" => ""
  | String a s' => match trim_tail s' with "" => if chr_is " " a then "" else String a "" | t => String a t end
  end.
Definition trim_end_but_first (s : string) : string :=
  match s with "" => "" | String a s' => String a (trim_tail s') end.
Definition getParam (lines : list string) (identifier : string) : list string :=
  omap (fun line =>
    if String.prefix identifier line &&
       match drop_chars (String.length identifier) line with String a _ => chr_is " " a | "" => true end
    then Some (trim_end_but_first (skip (chr_is " ") (drop_chars (String.length identifier) line))) else None) lines.
