(* ===== verification/ConfigText.v ===== *)
(** * Configuration rows, printed

    A printer for the parameters of a configuration file and what each
    conversion of [sscanf] makes of a printed value with more text behind it. *)

From S2P Require Export Config TaskTheory.

Local Open Scope string_scope.
Open Scope Z_scope.

(** ** Text without certain characters *)

Fixpoint free (bad : ascii -> bool) (s : string) : bool :=
  match s with "" => true | String a s' => negb (bad a) && free bad s' end.

Lemma append_assoc (a b c : string) : (a +:+ b) +:+ c = a +:+ (b +:+ c).
Proof. induction a as [|x a IH]; [done|]. rewrite !append_cons. by rewrite IH. Qed.
Lemma append_nil_l (a : string) : "" +:+ a = a.
Proof. done. Qed.
Lemma append_nil_r (a : string) : a +:+ "" = a.
Proof. induction a as [|x a IH]; [done|]. rewrite append_cons. by rewrite IH. Qed.

Lemma free_append bad a b : free bad (a +:+ b) = free bad a && free bad b.
Proof. induction a as [|x a IH]; [done|]. rewrite append_cons. cbn. by rewrite IH, andb_assoc. Qed.

Lemma free_impl (bad bad' : ascii -> bool) s : (forall a, bad' a = true -> bad a = true) -> free bad s = true -> free bad' s = true.
Proof.
  intros H. induction s as [|a s IH]; [done|]. cbn. intros [Ha Hs]%andb_true_iff. rewrite IH, andb_true_r by done.
  apply negb_true_iff in Ha. apply negb_true_iff. destruct (bad' a) eqn:E; [by rewrite H in Ha|done].
Qed.

Lemma span_free stop w c s : free stop w = true -> stop c = true -> span stop (w +:+ String c s) = (w, String c s).
Proof.
  intros Hw Hc. induction w as [|a w IH]; [rewrite append_nil_l; cbn; by rewrite Hc|]. rewrite append_cons. cbn in *.
  apply andb_true_iff in Hw as [Ha Hw]. apply negb_true_iff in Ha. by rewrite Ha, IH.
Qed.
Lemma span_all stop w : free stop w = true -> span stop w = (w, "").
Proof.
  induction w as [|a w IH]; [done|]. cbn. intros [Ha Hw]%andb_true_iff. apply negb_true_iff in Ha. by rewrite Ha, IH.
Qed.

Lemma scan_set_free stop w c s : w <> "" -> free stop w = true -> stop c = true -> scan_set stop (w +:+ String c s) = Some (w, String c s).
Proof. intros Hne Hw Hc. unfold scan_set. rewrite span_free by done. by destruct w. Qed.
Lemma scan_set_all stop w : w <> "" -> free stop w = true -> scan_set stop w = Some (w, "").
Proof. intros Hne Hw. unfold scan_set. rewrite span_all by done. by destruct w. Qed.

Lemma after_first_free c w s : w <> "" -> free (chr_is c) w = true -> after_first c (w +:+ String c s) = Some s.
Proof.
  intros Hne Hw. unfold after_first. rewrite scan_set_free; [|done..|unfold chr_is; apply Ascii.eqb_refl]. cbn [literal]. unfold chr_is. by rewrite Ascii.eqb_refl.
Qed.

Lemma break_free c w s : free (chr_is c) w = true -> break_at c (w +:+ String c s) = Some (w, s).
Proof.
  induction w as [|a w IH]; [rewrite append_nil_l; cbn; by rewrite Ascii.eqb_refl|]. rewrite append_cons. cbn. intros [Ha Hw]%andb_true_iff.
  apply negb_true_iff in Ha. unfold chr_is in Ha. by rewrite Ha, IH.
Qed.
Lemma break_free_none c w : free (chr_is c) w = true -> break_at c w = None.
Proof.
  induction w as [|a w IH]; [done|]. cbn. intros [Ha Hw]%andb_true_iff.
  apply negb_true_iff in Ha. unfold chr_is in Ha. by rewrite Ha, IH.
Qed.

Lemma skip_append drop s a t r : skip drop s = String a t -> skip drop (s +:+ r) = String a (t +:+ r).
Proof. induction s as [|b s IH]; [done|]. rewrite append_cons. cbn [skip]. destruct (drop b); [done|]. by intros [= -> ->]. Qed.

(** ** Printing *)

Definition indicator_of (v : Value) : string :=
  match v with
  | Integer _ => "i" | Double _ => "d" | Str _ => "s"
  | Vector_Integer _ => "vi" | Vector_Double _ => "vd" | Vector_String _ => "vs"
  end.
Definition cells_of (v : Value) : list string :=
  match v with
  | Integer n => [show_int n] | Double x => [show_double x] | Str s => [s]
  | Vector_Integer l => show_int <$> l | Vector_Double l => show_double <$> l | Vector_String l => l
  end.
Definition show_head (p : Param) : string := p_name p +:+ "(" +:+ indicator_of (p_value p) +:+ ")".
(** A row of a file, and an override of the command line. *)
Definition show_param (p : Param) : string := show_head p +:+ "," +:+ join (cells_of (p_value p)).
Definition show_override (p : Param) : string := show_head p +:+ "=" +:+ join (cells_of (p_value p)).

(** ** What can be printed *)

(** Characters that end a column or a row. *)
Definition breaks (a : ascii) : bool := ends_value a.
(** A column that does not begin a comment. *)
Definition visible (w : string) : bool :=
  match skip (fun a => ends_value a || chr_is " " a) w with String a _ => negb (chr_is "#" a) | "" => false end.

Definition int (n : Z) : Prop := - 2 ^ 31 <= n < 2 ^ 31.
Definition value_ok (v : Value) : Prop :=
  match v with
  | Integer n => int n
  | Double x => valid_binary 53 1024 x = true
  | Str s => free breaks s = true
  | Vector_Integer l => Forall int l
  | Vector_Double l => Forall (fun x => valid_binary 53 1024 x = true) l
  | Vector_String l => Forall (fun s => free breaks s = true /\ visible s = true) l
  end.

Definition name_char (a : ascii) : bool := breaks a || chr_is "(" a || chr_is "=" a.
(** The first character of a row. *)
Definition starts_row (s : string) : bool := match s with String a _ => negb (isspace a || chr_is "#" a) | "" => false end.
Record param_ok (p : Param) : Prop := mk_param_ok {
  po_name : free name_char (p_name p) = true;
  po_start : starts_row (p_name p) = true;
  po_short : (String.length (show_head p) < MAX_NAME_SIZE)%nat;
  po_line : (String.length (show_param p) < MAX_LINE_SIZE)%nat;
  po_value : value_ok (p_value p) }.

(** ** Digits *)

(** Characters a printed number does not have. *)
Definition odd_char (a : ascii) : bool := ends_value a || isspace a || chr_is "#" a || chr_is "." a.

Lemma digit_plain d : 0 <= d < 16 -> odd_char (digit_char d) = false.
Proof. apply (small_cases (fun d => odd_char (digit_char d) = false) 16). intros k Hk. do 16 (destruct k as [|k]; [done|]). lia. Qed.

Lemma show_digits_free b : 2 <= b <= 16 -> forall fuel n rest, 0 <= n -> free odd_char rest = true -> free odd_char (show_digits fuel b n rest) = true.
Proof.
  intros Hb. induction fuel as [|f IH]; intros n rest Hn Hr; cbn [show_digits]; [done|]. destruct (Z.ltb_spec n b).
  - cbn [free]. by rewrite digit_plain by lia.
  - apply IH; [apply Z.div_pos; lia|]. pose proof (Z.mod_pos_bound n b). cbn [free]. by rewrite digit_plain by lia.
Qed.
Lemma show_int_free n : free odd_char (show_int n) = true.
Proof. unfold show_int, show_dec, show. destruct (Z.ltb_spec n 0); cbn [free]; [rewrite andb_true_l|]; apply show_digits_free; done || lia. Qed.
Lemma show_double_free x : free odd_char (show_double x) = true.
Proof.
  destruct x as [[]|[]| |sg m e]; try done.
  assert (H : free odd_char (show 16 (Zpos m) (String "p" (show_int e))) = true).
  { apply show_digits_free; [lia..|]. cbn [free]. rewrite show_int_free. done. }
  unfold show_double. generalize dependent (show 16 (Zpos m) (String "p" (show_int e))). intros t Ht. by destruct sg.
Qed.

Lemma odd_free_visible w : w <> "" -> free odd_char w = true -> visible w = true.
Proof.
  destruct w as [|a w]; [done|]. intros _. cbn [free]. intros [Ha _]%andb_true_iff. apply negb_true_iff in Ha.
  unfold odd_char in Ha. apply orb_false_iff in Ha as [[[He Hs]%orb_false_iff Hh]%orb_false_iff _]. unfold visible. cbn [skip]. rewrite He.
  assert (chr_is " " a = false) as -> by (unfold isspace, is_space in Hs; by rewrite !orb_false_iff in Hs; destruct_and?). cbn. by rewrite Hh.
Qed.

Lemma odd_free_breaks w : free odd_char w = true -> free breaks w = true.
Proof. apply free_impl. unfold odd_char, breaks. intros a ->. done. Qed.

(** ** Conversions, with more text behind *)

(** The text behind a column. *)
Definition behind (rest : string) : Prop := rest = "" \/ exists s, rest = String "," s.

Lemma show_digits_append b : forall fuel n rest t, show_digits fuel b n rest +:+ t = show_digits fuel b n (rest +:+ t).
Proof. induction fuel as [|f IH]; intros n rest t; cbn [show_digits]; [done|]. destruct (n <? b); [done|]. by rewrite IH. Qed.
Lemma show_append b n rest t : show b n rest +:+ t = show b n (rest +:+ t).
Proof. apply show_digits_append. Qed.

Lemma show_dec_lead n rest : 0 <= n ->
  let s := show 10 n rest in skip_space s = s /\ scan_sign s = (1, s) /\ scan_digits digit 10 s None = scan_digits digit 10 rest (Some n).
Proof.
  intros Hn. cbv zeta. rewrite show_scan by (apply digit_reads || lia). destruct (decide (n = 0)) as [->|]; [done|].
  destruct (show_lead 10 n rest) as (d & r & E & Hd); [lia..|]. pose proof (lead_digit d r Hd) as (H1 & H2 & _). by rewrite <- E in *.
Qed.

Lemma stops_behind dig rest : dig ","%char = None -> behind rest -> stops dig rest.
Proof. by intros H [-> | [s ->]]. Qed.

Lemma scan_d_show n rest : int n -> behind rest -> scan_d (show_int n +:+ rest) = Some n.
Proof.
  intros Hn Hr. unfold int in Hn. unfold scan_d, scan_lld, show_int, show_dec. destruct (Z.ltb_spec n 0).
  - rewrite append_cons, show_append, append_nil_l.
    change (scan_sign (skip_space (String "-" (show 10 (- n) rest)))) with (-1, show 10 (- n) rest). cbv beta iota.
    destruct (show_dec_lead (- n) rest) as (_ & _ & ->); [lia|]. rewrite scan_stops by by apply stops_behind.
    cbv [fmap option_fmap option_map compose fst]. f_equal. rewrite Z.min_r, Z.max_r by lia. rewrite i32_small by lia. lia.
  - rewrite show_append, append_nil_l. destruct (show_dec_lead n rest) as (-> & -> & ->); [lia|]. rewrite scan_stops by by apply stops_behind.
    cbv [fmap option_fmap option_map compose fst]. f_equal. rewrite Z.min_r, Z.max_r by lia. rewrite i32_small by lia. lia.
Qed.

Lemma scan_text_cell w rest : w <> "" -> free breaks w = true -> behind rest -> scan_text (w +:+ rest) = Some w.
Proof.
  intros Hne Hw [-> | [s ->]]; unfold scan_text; [rewrite append_nil_r, scan_set_all by done|rewrite scan_set_free by done]; done.
Qed.

Lemma exponent_behind e rest : behind rest -> exponent "p" "P" (String "p" (show_int e +:+ rest)) = e.
Proof.
  intros Hr. unfold exponent. change (Ascii.eqb "p" "p" || Ascii.eqb "p" "P") with true. cbv beta iota. unfold show_int, show_dec.
  destruct (Z.ltb_spec e 0).
  - rewrite append_cons, show_append, append_nil_l.
    change (scan_sign (String "-" (show 10 (- e) rest))) with (-1, show 10 (- e) rest). cbv beta iota.
    destruct (show_dec_lead (- e) rest) as (_ & _ & ->); [lia|]. rewrite scan_stops by by apply stops_behind. cbn. lia.
  - rewrite show_append, append_nil_l. destruct (show_dec_lead e rest) as (_ & -> & ->); [lia|]. cbv beta iota.
    rewrite scan_stops by by apply stops_behind. cbn. lia.
Qed.

Lemma hex_point_behind m s : 0 <= m -> stops hex_digit s -> s <> "" -> (forall t, s <> String "." t) ->
  point_digits hex_digit 16 (show 16 m s) = Some (m, 0, s).
Proof.
  intros Hm Hs Hne Hp. unfold point_digits. rewrite show_scan by (apply hex_digit_reads || lia). rewrite scan_stops by done.
  cbn [from_option]. unfold id. cbv beta iota.
  pose proof (show_digits_length 16 ltac:(lia) (S (Z.to_nat (Z.log2 m))) m s ltac:(lia)) as Hl. fold (show 16 m s) in Hl.
  replace (match s with String "." f => _ | _ => (m, 0, s) end) with (m, 0, s).
  - destruct (Z.eqb_spec (Z.of_nat (String.length (show 16 m s) - String.length s) + 0) 0); [lia|done].
  - destruct s as [|a s]; [done|]. destruct a as [[] [] [] [] [] [] [] []]; try done. by destruct (Hp s).
Qed.

Lemma zero_point rest : behind rest -> point_digits digit 10 (String "0" rest) = Some (0, 0, rest).
Proof.
  intros Hr. unfold point_digits. change (scan_digits digit 10 (String "0" rest) None) with (scan_digits digit 10 rest (Some 0)).
  rewrite scan_stops by by apply stops_behind. cbn [from_option]. unfold id. cbv beta iota. cbn [String.length].
  replace (Z.of_nat (S (String.length rest) - String.length rest)) with 1 by lia. by destruct Hr as [-> | [s ->]].
Qed.

Lemma scan_lf_zero sg rest : behind rest -> scan_lf (show_double (S754_zero sg) +:+ rest) = Some (S754_zero sg).
Proof.
  intros Hr. transitivity ((fun '(m, k, r) => decimal sg m (exponent "e" "E" r - k)) <$> point_digits digit 10 (String "0" rest)).
  - destruct Hr as [-> | [s ->]]; destruct sg; done.
  - by rewrite zero_point.
Qed.

Lemma scan_lf_show x rest : valid_binary 53 1024 x = true -> behind rest -> scan_lf (show_double x +:+ rest) = Some x.
Proof.
  destruct x as [sg|[]| |sg m e]; [intros _; apply scan_lf_zero|intros _ [-> | [s ->]]; done..|]. cbn [valid_binary]. intros Hv Hr.
  set (t := show 16 (Zpos m) (String "p" (show_int e +:+ rest))).
  assert (E : show_double (S754_finite sg m e) +:+ rest = if sg then String "-" (String "0" (String "x" t)) else String "0" (String "x" t)).
  { unfold show_double, t. destruct sg; rewrite !append_cons, show_append, append_cons; done. }
  rewrite E. unfold scan_lf.
  assert (Ha : scan_sign (skip_space (if sg then String "-" (String "0" (String "x" t)) else String "0" (String "x" t))) =
    (if sg then -1 else 1, String "0" (String "x" t))) by by destruct sg.
  rewrite Ha. assert (Hsg : ((if sg then -1 else 1) <? 0) = sg) by by destruct sg. rewrite Hsg.
  change (starts_with "infi" (String "0" (String "x" t))) with false. change (starts_with "inf" (String "0" (String "x" t))) with false.
  change (starts_with "nan" (String "0" (String "x" t))) with false. change (starts_with "0x" (String "0" (String "x" t))) with true.
  cbn [drop_chars andb]. unfold t. rewrite hex_point_behind; [|lia|done..].
  cbv [fmap option_fmap option_map]. rewrite exponent_behind by done. change (4 * 0) with 0. rewrite Z.sub_0_r.
  unfold binary_normalize. f_equal. destruct sg; cbn [cond_Zopp Z.opp]; by apply binary_round_valid.
Qed.
