(* ===== verification/ConfigTheory.v ===== *)
(** * Configuration: what is written is what a component gets

    Rows and files are read back, every chain of files that extend one another
    ends, the last definition of a parameter wins, and an override of the
    command line reaches exactly the instance it names. *)

From S2P Require Export ConfigText.

Local Open Scope string_scope.
Open Scope Z_scope.

(** ** A row is read back *)

Lemma show_int_ne n : show_int n <> "".
Proof. apply show_int_clean. Qed.
Lemma show_double_ne x : show_double x <> "".
Proof. apply show_double_clean. Qed.

(** Columns that can be read in a row of several: they cannot be taken for a comment or the end. *)
Definition cell_ok (w : string) : Prop := free breaks w = true /\ visible w = true.

Lemma number_cell w : w <> "" -> free odd_char w = true -> cell_ok w.
Proof. split; [by apply odd_free_breaks|by apply odd_free_visible]. Qed.

Lemma visible_ne w : visible w = true -> w <> "".
Proof. by intros H ->. Qed.

Lemma cell_comma w : cell_ok w -> free (chr_is ",") w = true.
Proof. intros [H _]. revert H. apply free_impl. unfold breaks, ends_value. by intros a ->. Qed.

Lemma visible_no_comment w rest : visible w = true -> checkComment (String "," (w +:+ rest)) = false.
Proof.
  unfold visible, checkComment. cbn [skip]. change (chr_is " " ",") with false. cbv beta iota. cbn [skip].
  change (ends_value "," || chr_is " " ",") with true. cbv beta iota.
  destruct (skip (fun a => ends_value a || chr_is " " a) w) as [|a t] eqn:E; [done|]. rewrite (skip_append _ _ _ _ _ E). intros H. by apply negb_true_iff in H.
Qed.

Lemma join_cons w cells : exists rest, join (w :: cells) = w +:+ rest /\ behind rest /\
  (cells = [] -> rest = "") /\ (cells <> [] -> rest = String "," (join cells)).
Proof.
  destruct cells as [|w' cells]; [exists ""; rewrite append_nil_r; split_and!; [done|by left|done..]|].
  exists (String "," (join (w' :: cells))). split_and!; [done|by right; eexists|done..].
Qed.

Lemma join_length w cells : (String.length (join (w :: cells)) >= length cells)%nat.
Proof.
  revert w. induction cells as [|w' cells IH]; intros w; [cbn; lia|]. change (join (w :: w' :: cells)) with (w +:+ String "," (join (w' :: cells))).
  rewrite length_append. cbn [String.length length]. pose proof (IH w'). lia.
Qed.

Section Vector.
Context {T : Type} (conv : string -> option T) (show : T -> string).

(** A value whose column can be read back, whatever comes behind. *)
Definition reads_cell (x : T) : Prop := cell_ok (show x) /\ forall rest, behind rest -> conv (show x +:+ rest) = Some x.

Lemma parseVector_shown l : forall fuel pre, Forall reads_cell l -> (length l < fuel)%nat -> free (chr_is ",") pre = true ->
  parseVector conv fuel (pre +:+ String "," (join (show <$> l))) = l.
Proof.
  induction l as [|x l IH]; intros [|fuel] pre Hl Hf Hp; cbn [length] in Hf; try lia.
  - cbn [parseVector fmap list_fmap join]. rewrite break_free by done. done.
  - apply Forall_cons in Hl as [[Hx Hconv] Hl]. cbn [parseVector]. rewrite break_free by done.
    destruct (join_cons (show x) (show <$> l)) as (rest & E & Hr & Hn & Hc). cbn [fmap list_fmap]. rewrite E.
    rewrite visible_no_comment by apply Hx. rewrite Hconv by done.
    assert (Hgo : parseVector conv fuel (show x +:+ rest) = l).
    { destruct l as [|y l].
      - rewrite Hn by done. rewrite append_nil_r. destruct fuel; [done|]. cbn [parseVector]. rewrite break_free_none by by apply cell_comma. done.
      - rewrite Hc by done. apply IH; [done|cbn [length] in *; lia|by apply cell_comma]. }
    rewrite Hgo. destruct (show x +:+ rest) as [|a t] eqn:E'; [|done].
    exfalso. destruct Hx as [_ Hv]. destruct (show x); [done|]. by rewrite append_cons in E'.
Qed.

Lemma vector_of_shown l pre : Forall reads_cell l -> free (chr_is ",") pre = true ->
  vector_of conv (pre +:+ String "," (join (show <$> l))) = l.
Proof.
  intros Hl Hp. apply parseVector_shown; [done| |done]. rewrite length_append. cbn [String.length].
  destruct l as [|x l]; [cbn; lia|]. pose proof (join_length (show x) (show <$> l)) as H. rewrite length_fmap in H. cbn [fmap list_fmap length] in *. lia.
Qed.
End Vector.

(** The parts of a printed row. *)
Lemma name_free p c : param_ok p -> (forall a, chr_is c a = true -> name_char a = true) -> free (chr_is c) (p_name p) = true.
Proof. intros Hp Hc. eapply free_impl; [exact Hc|apply Hp]. Qed.

Lemma chr_is_eq c a : chr_is c a = true <-> a = c.
Proof. unfold chr_is. apply Ascii.eqb_eq. Qed.

Lemma head_free p c : param_ok p -> name_char c = true -> c <> "("%char -> c <> ")"%char -> free (chr_is c) (show_head p) = true.
Proof.
  intros Hp Hc H1 H2. unfold show_head. rewrite !free_append. rewrite name_free; [|done|by intros a ->%chr_is_eq].
  destruct c as [[] [] [] [] [] [] [] []]; try done; by destruct (p_value p).
Qed.

Lemma name_ne p : param_ok p -> p_name p <> "".
Proof. intros [_ H _ _ _] E. by rewrite E in H. Qed.
Lemma head_ne p : param_ok p -> show_head p <> "".
Proof. intros Hp. unfold show_head. pose proof (name_ne p Hp). destruct (p_name p); [done|]. by rewrite append_cons. Qed.

Lemma show_param_split p : show_param p =
  p_name p +:+ String "(" (indicator_of (p_value p) +:+ String ")" (String "," (join (cells_of (p_value p))))).
Proof. unfold show_param, show_head. by rewrite !append_assoc. Qed.

Lemma scanned_name p : param_ok p -> span (chr_is "(") (show_param p) =
  (p_name p, String "(" (indicator_of (p_value p) +:+ String ")" (String "," (join (cells_of (p_value p)))))).
Proof. intros Hp. rewrite show_param_split. apply span_free; [|done]. apply name_free; [done|]. by intros a ->%chr_is_eq. Qed.

Lemma scanned_indicator p : param_ok p ->
  (rest ← after_first "(" (show_param p); fst <$> scan_set (chr_is ")") rest) = Some (indicator_of (p_value p)).
Proof.
  intros Hp. rewrite show_param_split, after_first_free; [|by apply name_ne|apply name_free; [done|by intros a ->%chr_is_eq]]. cbn [mbind option_bind].
  rewrite scan_set_free; [done|by destruct (p_value p)..|done].
Qed.

Lemma scanned_value p : param_ok p -> after_first "," (show_param p) = Some (join (cells_of (p_value p))).
Proof. intros Hp. unfold show_param. apply after_first_free; [by apply head_ne|by apply head_free]. Qed.

Lemma fits_ok n s : (String.length s < n)%nat -> fits n s = Ok s.
Proof. intros H. unfold fits. by rewrite (proj2 (Nat.ltb_lt _ _) H). Qed.

Lemma head_length p : String.length (show_head p) = (String.length (p_name p) + (String.length (indicator_of (p_value p)) + 2))%nat.
Proof. unfold show_head. rewrite !length_append. cbn [String.length]. lia. Qed.

Lemma parseLine_show p : param_ok p -> parseLine (show_param p) = Ok p.
Proof.
  intros Hp. unfold parseLine. rewrite scanned_name by done. cbn [fst].
  rewrite fits_ok by (destruct Hp as [_ _ H _ _]; rewrite head_length in H; lia). cbn [obind].
  rewrite scanned_indicator by done. cbn [default]. unfold from_option, id.
  rewrite fits_ok by by destruct (p_value p); cbn; unfold MAX_TYPE_SIZE; lia. cbn [obind]. rewrite scanned_value by done.
  pose proof (po_value _ Hp) as Hv. pose proof (head_free p "," Hp eq_refl ltac:(done) ltac:(done)) as Hh.
  assert (E : show_param p = show_head p +:+ String "," (join (cells_of (p_value p)))) by done.
  destruct p as [name v]. cbn [p_name p_value] in *.
  destruct v as [n|x|s|l|l|l]; cbn [value_ok indicator_of cells_of join String.eqb Ascii.eqb Bool.eqb mbind option_bind] in *.
  - rewrite <- (append_nil_r (show_int n)), scan_d_show by (done || by left). done.
  - rewrite <- (append_nil_r (show_double x)), scan_lf_show by (done || by left). done.
  - destruct (decide (s = "")) as [->|Hne]; [done|]. rewrite <- (append_nil_r s), scan_text_cell by (done || by left). by rewrite append_nil_r.
  - do 2 f_equal. rewrite E. f_equal. apply vector_of_shown; [|done]. eapply Forall_impl; [exact Hv|]. intros n Hn.
    split; [apply number_cell; [apply show_int_ne|apply show_int_free]|intros; by apply scan_d_show].
  - do 2 f_equal. rewrite E. f_equal. apply vector_of_shown; [|done]. eapply Forall_impl; [exact Hv|]. intros x Hx.
    split; [apply number_cell; [apply show_double_ne|apply show_double_free]|intros; by apply scan_lf_show].
  - do 2 f_equal. rewrite E. f_equal. replace (join l) with (join (id <$> l)) by by rewrite list_fmap_id.
    transitivity (id <$> l); [|by rewrite list_fmap_id]. rewrite list_fmap_id at 2. apply vector_of_shown; [|done]. eapply Forall_impl; [exact Hv|].
    intros w [Hw Hs]. split; [done|]. intros rest Hr. by apply scan_text_cell; [apply visible_ne|..].
Qed.

(** An override is the row with a [=]. *)
Lemma equals_free w s : free (chr_is "=") w = true -> equals_to_comma (w +:+ String "=" s) = w +:+ String "," s.
Proof.
  induction w as [|a w IH]; [done|]. rewrite !append_cons. cbn [free equals_to_comma]. intros [Ha Hw]%andb_true_iff.
  apply negb_true_iff in Ha. by rewrite Ha, IH.
Qed.

Lemma parseCLparam_show p : param_ok p -> parseCLparam (show_override p) = Ok p.
Proof.
  intros Hp. unfold parseCLparam, show_override.
  assert (El : String.length (show_head p +:+ "=" +:+ join (cells_of (p_value p))) = String.length (show_param p)).
  { unfold show_param. rewrite !length_append. done. }
  rewrite El. pose proof (po_line _ Hp). rewrite (proj2 (Nat.leb_gt _ _)) by done.
  change ("=" +:+ join (cells_of (p_value p))) with (String "=" (join (cells_of (p_value p)))).
  rewrite equals_free by by apply head_free. by apply parseLine_show.
Qed.

(** ** A file is read back *)

Definition newline : string := String "010" "".
Fixpoint show_rows (ps : list Param) : string :=
  match ps with [] => "" | p :: ps' => show_param p +:+ String "010" (show_rows ps') end.
(** A file, with the file it extends. *)
Definition show_file (base : option string) (ps : list Param) : string :=
  match base with Some b => ("Extends," +:+ b) +:+ String "010" (show_rows ps) | None => show_rows ps end.

Record base_ok (b : string) : Prop := mk_base_ok {
  bo_free : free breaks b = true;
  bo_start : match b with String a _ => isspace a = false | "" => False end;
  bo_line : (String.length b + 8 < MAX_LINE_SIZE)%nat }.

(** Adding rows in the order of the file. *)
Definition add_all (ps : list Param) (c : Configurable) : Configurable := foldl (fun c p => addParameter2Map p c) c ps.

Lemma cells_free v c : value_ok v -> (forall a, chr_is c a = true -> breaks a = true) -> c <> ","%char -> free (chr_is c) (join (cells_of v)) = true.
Proof.
  intros Hv Hc Hne.
  assert (Hj : forall l, Forall (fun w => free breaks w = true) l -> free (chr_is c) (join l) = true).
  { induction l as [|w l IH]; [done|]. intros [Hw Hl]%Forall_cons. pose proof (free_impl _ _ w Hc Hw) as Hw'. destruct l as [|w' l]; [done|].
    change (join (w :: w' :: l)) with (w +:+ String "," (join (w' :: l))). rewrite free_append, Hw'. cbn [free].
    rewrite (IH Hl). destruct (chr_is c ",") eqn:E; [|done]. by apply chr_is_eq in E. }
  apply Hj. destruct v as [n|x|s|l|l|l]; cbn [cells_of value_ok] in *.
  - constructor; [|done]. apply odd_free_breaks, show_int_free.
  - constructor; [|done]. apply odd_free_breaks, show_double_free.
  - by constructor.
  - apply Forall_fmap, Forall_true. intros n. apply odd_free_breaks, show_int_free.
  - apply Forall_fmap, Forall_true. intros n. apply odd_free_breaks, show_double_free.
  - eapply Forall_impl; [exact Hv|]. by intros w [? _].
Qed.

Lemma row_free p : param_ok p -> free (chr_is "010") (show_param p) = true.
Proof.
  intros Hp. unfold show_param. rewrite !free_append, head_free by done.
  rewrite cells_free; [done|apply Hp|by intros a ->%chr_is_eq|done].
Qed.

Lemma row_start p : param_ok p -> exists a t, show_param p = String a t /\ isspace a = false /\ chr_is "#" a = false /\ breaks a = false.
Proof.
  intros [Hn Hs _ _ _]. unfold show_param, show_head. destruct (p_name p) as [|a t]; [done|]. rewrite !append_cons. exists a. eexists. split; [done|].
  cbn [starts_row free] in *. apply negb_true_iff, orb_false_iff in Hs as [? ?]. apply andb_true_iff in Hn as [Hn _]. apply negb_true_iff in Hn.
  unfold name_char in Hn. by rewrite !orb_false_iff in Hn; destruct_and?.
Qed.

(** What the white space after a line leaves of the rows that follow. *)
Lemma skip_rows ps : Forall param_ok ps -> skip_space (String "010" (show_rows ps)) = show_rows ps.
Proof.
  intros Hps. cbn [skip_space]. change (isspace "010") with true. cbv beta iota. destruct Hps as [|p ps Hp _]; [done|]. cbn [show_rows].
  destruct (row_start p Hp) as (a & t & -> & Ha & _). rewrite append_cons. cbn [skip_space]. by rewrite Ha.
Qed.

Lemma read_line_row line ps : line <> "" -> free (chr_is "010") line = true -> (String.length line < MAX_LINE_SIZE)%nat -> Forall param_ok ps ->
  read_line (line +:+ String "010" (show_rows ps)) = Ok (Some (line, show_rows ps)).
Proof.
  intros Hne Hf Hl Hps. unfold read_line. rewrite span_free by done. destruct line as [|a t] eqn:E; [done|]. rewrite <- E in *.
  rewrite fits_ok by done. cbn [obind]. by rewrite skip_rows.
Qed.

Lemma row_no_comment p : param_ok p -> checkComment (show_param p) = false.
Proof.
  intros Hp. destruct (row_start p Hp) as (a & t & -> & Hs & Hh & Hb). unfold checkComment.
  assert (Hsp : chr_is " " a = false) by (unfold isspace, is_space in Hs; by rewrite !orb_false_iff in Hs; destruct_and?).
  cbn [skip]. rewrite Hsp. cbn [skip]. unfold breaks in Hb. by rewrite Hb, Hsp.
Qed.

Lemma parse_row_show p c : param_ok p -> parse_row (show_param p) c = Ok (addParameter2Map p c).
Proof. intros Hp. unfold parse_row. by rewrite row_no_comment, parseLine_show. Qed.

Lemma row_ne p : param_ok p -> show_param p <> "".
Proof. intros Hp E. destruct (row_start p Hp) as (a & t & E' & _). by rewrite E in E'. Qed.

Lemma rows_length ps : (length ps <= String.length (show_rows ps))%nat.
Proof. induction ps as [|p ps IH]; [done|]. cbn [show_rows length]. rewrite length_append. cbn. lia. Qed.

Lemma parse_rows_show ps : forall fuel p c, Forall param_ok (p :: ps) -> (length ps < fuel)%nat ->
  parse_rows fuel (show_param p) (show_rows ps) c = Ok (add_all (p :: ps) c).
Proof.
  induction ps as [|q ps IH]; intros [|fuel] p c [Hp Hps]%Forall_cons Hf; try (cbn in Hf; lia); cbn [parse_rows]; rewrite parse_row_show by done; cbn [obind]; [done|].
  pose proof Hps as [Hq Hps']%Forall_cons. cbn [show_rows]. rewrite read_line_row; [|by apply row_ne|by apply row_free|apply Hq|done]. cbn [obind].
  rewrite IH; [done|done|cbn in Hf; lia].
Qed.

(** The rows of a file, once its first line is read. *)
Lemma rest_of_file p ps c : Forall param_ok (p :: ps) ->
  parse_rows (S (String.length (show_rows ps))) (show_param p) (show_rows ps) c = Ok (add_all (p :: ps) c).
Proof. intros H. apply parse_rows_show; [done|]. pose proof (rows_length ps). lia. Qed.

Lemma keyword_row p : param_ok p -> checkKeywords (show_param p) = Ok None.
Proof.
  intros Hp. unfold checkKeywords, show_param. change ("," +:+ join (cells_of (p_value p))) with (String "," (join (cells_of (p_value p)))).
  rewrite scan_set_free; [|by apply head_ne|by apply head_free|done]. rewrite fits_ok by apply Hp. cbn [obind].
  destruct (String.eqb_spec (show_head p) "Extends") as [E|_]; [|done]. exfalso.
  assert (H : free (chr_is "(") (show_head p) = false); [|by rewrite E in H].
  unfold show_head. rewrite !free_append. change (free (chr_is "(") "(") with false. cbn [andb]. by rewrite andb_false_r.
Qed.

Lemma keyword_base b : base_ok b -> checkKeywords ("Extends," +:+ b) = Ok (Some b).
Proof.
  intros [Hf Hs _]. change ("Extends," +:+ b) with ("Extends" +:+ String "," b). unfold checkKeywords.
  rewrite scan_set_free by done. rewrite fits_ok by (unfold MAX_NAME_SIZE; cbn; lia). cbn [obind]. rewrite after_first_free by done.
  change (String.eqb "Extends" "Extends") with true. cbv beta iota. cbn [mbind option_bind].
  assert (Hsk : skip_space b = b) by (destruct b as [|a t]; [done|]; cbn; by rewrite Hs). rewrite Hsk.
  rewrite <- (append_nil_r b), scan_text_cell; [by rewrite append_nil_r|by intros ->|done|by left].
Qed.

(** C18: configuration files are read back.  Parameters of every type printed as
    the rows of a file, behind the line that names the file it extends, are read
    as themselves and in order, on top of whatever the extended file says: names
    and texts are free of the characters the format reserves, integers in range,
    doubles any, and rows as long as the line buffer allows. *)
Theorem config_file_roundtrip files d config_path name base ps c :
  files (config_file config_path name) = Some (show_file base ps) ->
  Forall param_ok ps -> match base with Some b => base_ok b | None => ps <> [] end ->
  parseFile files (S d) config_path name c =
    let! c := match base with Some b => parseFile files d config_path b c | None => Ok c end in Ok (add_all ps c).
Proof.
  intros Hf Hps Hb. cbn [parseFile]. rewrite Hf. destruct base as [b|]; cbn [show_file].
  - rewrite read_line_row; [|done|rewrite free_append; eapply andb_true_iff; split; [done|]|rewrite length_append; pose proof (bo_line _ Hb); cbn [String.length]; lia|done].
    + cbn [obind]. rewrite keyword_base by done. cbn [obind]. destruct (parseFile files d config_path b c) as [c'|s|s]; cbn [obind]; [|done..].
      destruct ps as [|p ps]; [done|]. pose proof Hps as [Hp Hps']%Forall_cons. cbn [show_rows].
      rewrite read_line_row; [|by apply row_ne|by apply row_free|apply Hp|done]. cbn [obind]. by apply rest_of_file.
    + eapply free_impl; [|apply Hb]. by intros a ->%chr_is_eq.
  - destruct ps as [|p ps]; [done|]. pose proof Hps as [Hp Hps']%Forall_cons. cbn [show_rows].
    rewrite read_line_row; [|by apply row_ne|by apply row_free|apply Hp|done]. cbn [obind]. rewrite keyword_row by done. cbn [obind].
    by apply rest_of_file.
Qed.

(** ** What a component looks up *)

(** The value a dotted or plain name has. *)
Definition setting (c : Configurable) (key : string) : option Value :=
  p_value <$> match break_at "." key with
              | None => parameters c !! key
              | Some (sub, k) => subordinate_param c !! sub ≫= fun m => m !! k
              end.

Lemma setting_add p c key : setting (addParameter2Map p c) key = if String.eqb (p_name p) key then Some (p_value p) else setting c key.
Proof.
  unfold setting, addParameter2Map, add_to. destruct (break_at "." (p_name p)) as [[sub k]|] eqn:E; cbn [parameters subordinate_param p_name p_value].
  - destruct (String.eqb_spec (p_name p) key) as [<-|Hne].
    + by rewrite E, lookup_insert_eq; cbn [mbind option_bind]; rewrite lookup_insert_eq.
    + destruct (break_at "." key) as [[sub' k']|] eqn:E'; [|done]. destruct (decide (sub' = sub)) as [->|]; [|by rewrite lookup_insert_ne].
      rewrite lookup_insert_eq. cbn [mbind option_bind]. rewrite lookup_insert_ne; [by destruct (subordinate_param c !! sub)|].
      intros ->. apply Hne. apply break_at_spec in E as ->. by apply break_at_spec in E' as ->.
  - destruct (String.eqb_spec (p_name p) key) as [<-|Hne]; [by rewrite E, lookup_insert_eq|].
    destruct (break_at "." key) as [[sub' k']|] eqn:E'; [done|]. by rewrite lookup_insert_ne.
Qed.

(** The last of the rows that define a name. *)
Definition last_definition (ps : list Param) (key : string) : option Value :=
  p_value <$> last (filter (fun p => p_name p = key) ps).

Lemma setting_add_all ps : forall c key, setting (add_all ps c) key =
  match last_definition ps key with Some v => Some v | None => setting c key end.
Proof.
  induction ps as [|p ps IH] using rev_ind; intros c key; [done|]. unfold add_all, last_definition in *. rewrite foldl_app, filter_app. cbn [foldl].
  rewrite setting_add, IH, last_app, filter_cons, filter_nil. destruct (String.eqb_spec (p_name p) key) as [E|E].
  - by rewrite decide_True.
  - by rewrite decide_False.
Qed.

(** ** Instances *)

(** The sub map of an instance is looked up by name. *)
Definition instance_name (comp_name : string) (i : Z) : string :=
  if i =? -1 then comp_name else indexed comp_name (to_string i).

Lemma getSubMap_lookup c comp i k : getSubMap c comp i !! k =
  match subordinate_param c !! instance_name comp i ≫= lookup k with
  | Some p => Some p
  | None => subordinate_param c !! indexed comp "*" ≫= lookup k
  end.
Proof.
  unfold getSubMap. fold (instance_name comp i).
  destruct (subordinate_param c !! instance_name comp i) as [m|]; destruct (subordinate_param c !! indexed comp "*") as [w|]; cbn [mbind option_bind default from_option].
  - rewrite lookup_union. destruct (m !! k); destruct (w !! k); done.
  - by destruct (m !! k).
  - done.
  - by rewrite lookup_empty.
Qed.

(** Two numbers have two texts. *)
Lemma digit_of_char d : 0 <= d < 10 -> digit_of d = digit_char d.
Proof. intros Hd. unfold digit_of, digit_char. by rewrite (proj2 (Z.ltb_lt d 10)) by lia. Qed.
Lemma decimal_show : forall fuel n rest, 0 <= n -> decimal_digits fuel n rest = show_digits fuel 10 n rest.
Proof.
  induction fuel as [|f IH]; intros n rest Hn; cbn [decimal_digits show_digits]; [done|]. destruct (Z.ltb_spec n 10).
  - by rewrite digit_of_char by lia.
  - rewrite digit_of_char by (apply Z.mod_pos_bound; lia). apply IH. by apply Z.div_pos.
Qed.
Lemma to_string_show n : to_string n = show_int n.
Proof. unfold to_string, show_int, show_dec, show. destruct (Z.ltb_spec n 0); by rewrite decimal_show by lia. Qed.
Lemma to_string_inj n m : int n -> int m -> to_string n = to_string m -> n = m.
Proof.
  rewrite !to_string_show. intros Hn Hm E. pose proof (scan_d_show n "" Hn (or_introl eq_refl)) as H. rewrite E, scan_d_show in H by (done || by left). congruence.
Qed.

Lemma to_string_free n : free odd_char (to_string n) = true.
Proof. rewrite to_string_show. apply show_int_free. Qed.

Lemma append_inj_l a b c : a +:+ b = a +:+ c -> b = c.
Proof. induction a as [|x a IH]; [done|]. rewrite !append_cons. intros [= H]. by apply IH. Qed.
Lemma append_inj_r a b c : a +:+ c = b +:+ c -> a = b.
Proof.
  revert b. induction a as [|x a IH]; intros [|y b]; rewrite ?append_cons, ?append_nil_l; [done|..].
  - intros E. apply (f_equal String.length) in E. cbn [String.length] in E. rewrite length_append in E. lia.
  - intros E. apply (f_equal String.length) in E. cbn [String.length] in E. rewrite length_append in E. lia.
  - intros [= <- E]. by rewrite (IH b).
Qed.

(** Names of components have no bracket and no dot. *)
Definition plain_name (s : string) : bool := free (fun a => chr_is "[" a || chr_is "." a) s.

Lemma plain_bracket comp : plain_name comp = true -> free (chr_is "[") comp = true.
Proof. apply free_impl. by intros a ->. Qed.

Lemma indexed_inj comp comp' x y : plain_name comp = true -> plain_name comp' = true -> indexed comp x = indexed comp' y -> comp = comp' /\ x = y.
Proof.
  intros H H' E. unfold indexed in E.
  assert (Hb : break_at "[" (comp +:+ String "[" (x +:+ "]")) = break_at "[" (comp' +:+ String "[" (y +:+ "]"))) by (f_equal; exact E).
  rewrite !break_free in Hb by by apply plain_bracket. injection Hb as -> Hb. split; [done|]. by apply append_inj_r in Hb.
Qed.

Lemma indexed_plain comp comp' x : plain_name comp = true -> indexed comp' x <> comp.
Proof.
  intros H%plain_bracket <-. unfold indexed in H. rewrite free_append, andb_true_iff in H. destruct H as [_ H]. done.
Qed.

Lemma instance_name_inj comp comp' i j : plain_name comp = true -> plain_name comp' = true -> int i -> int j ->
  instance_name comp i = instance_name comp' j -> comp = comp' /\ i = j.
Proof.
  intros H H' Hi Hj. unfold instance_name. destruct (Z.eqb_spec i (-1)) as [->|]; destruct (Z.eqb_spec j (-1)) as [->|]; intros E.
  - done.
  - exfalso. by eapply (indexed_plain comp).
  - exfalso. by eapply (indexed_plain comp').
  - apply indexed_inj in E as [-> E]; [|done..]. by apply to_string_inj in E.
Qed.

(** No number is the wild card. *)
Lemma instance_not_wild comp comp' i : plain_name comp = true -> plain_name comp' = true -> instance_name comp i <> indexed comp' "*".
Proof.
  intros H H'. unfold instance_name. destruct (Z.eqb_spec i (-1)) as [->|]; [by intros E; eapply (indexed_plain comp)|].
  intros [_ E]%indexed_inj; [|done..]. rewrite to_string_show in E. unfold show_int in E. destruct (Z.ltb_spec i 0); [done|].
  destruct (show_dec_lead i "") as (_ & _ & Hs); [lia|]. unfold show_dec in E. rewrite E in Hs. done.
Qed.

(** The target of an override: an instance, or every instance that has nothing
    of its own. *)
Definition target_name (comp_name : string) (target : option Z) : string :=
  match target with Some i => instance_name comp_name i | None => indexed comp_name "*" end.

Lemma plain_dot comp : plain_name comp = true -> free (chr_is ".") comp = true.
Proof. apply free_impl. intros a ->. by rewrite orb_true_r. Qed.

Lemma target_dot comp target : plain_name comp = true -> free (chr_is ".") (target_name comp target) = true.
Proof.
  intros H%plain_dot. assert (Hi : forall x, free (chr_is ".") x = true -> free (chr_is ".") (indexed comp x) = true).
  { intros x Hx. unfold indexed. by rewrite !free_append, H, Hx. }
  destruct target as [i|]; cbn [target_name]; [|by apply Hi]. unfold instance_name. destruct (i =? -1); [done|]. apply Hi.
  eapply free_impl; [|apply to_string_free]. intros a Ha. unfold odd_char. by rewrite Ha, orb_true_r.
Qed.

(** What an override of [comp]'s parameter [k] adds to the sub maps. *)
Lemma add_override c comp target k v : plain_name comp = true ->
  let c' := addParameter2Map (mkParameter (target_name comp target +:+ "." +:+ k) v) c in
  forall name k', subordinate_param c' !! name ≫= lookup k' =
    if bool_decide (name = target_name comp target /\ k' = k) then Some (mkParameter k v) else subordinate_param c !! name ≫= lookup k'.
Proof.
  intros Hp c' name k'. unfold c', addParameter2Map. cbn [p_name p_value].
  change ("." +:+ k) with (String "." k). rewrite break_free by by apply target_dot. cbn [subordinate_param]. unfold add_to. cbn [p_name].
  destruct (decide (name = target_name comp target)) as [->|Hn].
  - rewrite lookup_insert_eq. cbn [mbind option_bind]. destruct (decide (k' = k)) as [->|Hk].
    + by rewrite bool_decide_true, lookup_insert_eq.
    + rewrite bool_decide_false by tauto. rewrite lookup_insert_ne by done. by destruct (subordinate_param c !! target_name comp target).
  - rewrite bool_decide_false by tauto. by rewrite lookup_insert_ne.
Qed.

(** An instance's own definition of a parameter. *)
Definition own (c : Configurable) (comp : string) (i : Z) (k : string) : option Param := subordinate_param c !! instance_name comp i ≫= lookup k.

(** C19: an override reaches its target.  A parameter of component [comp], for
    its instance [i] or for all instances, written as an option of the command
    line is parsed as itself, and put on top of any configuration it changes what
    exactly that component is handed, under that name: the instance is handed the
    new value, an instance with a definition of its own keeps it against a wild
    card, and every other component and parameter is handed what it was. *)
Theorem override_reaches_target c comp target k v :
  let p := mkParameter (target_name comp target +:+ "." +:+ k) v in
  let c' := addParameter2Map p c in
  param_ok p -> plain_name comp = true -> (match target with Some i => int i | None => True end) ->
  parseCLparam (show_override p) = Ok p /\
  forall comp' j k', plain_name comp' = true -> int j ->
    getSubMap c' comp' j !! k' =
      if bool_decide (comp' = comp /\ k' = k) then
        match target with
        | Some i => if j =? i then Some (mkParameter k v) else getSubMap c comp' j !! k'
        | None => match own c comp' j k' with Some q => Some q | None => Some (mkParameter k v) end
        end
      else getSubMap c comp' j !! k'.
Proof.
  intros p c' Hok Hp Ht. split; [by apply parseCLparam_show|]. intros comp' j k' Hp' Hj.
  rewrite !getSubMap_lookup. unfold c', p. rewrite !add_override by done. unfold own.
  destruct (decide (comp' = comp /\ k' = k)) as [[-> ->]|H3];
    [rewrite (bool_decide_true (comp = comp /\ _)) by done|rewrite (bool_decide_false (comp' = comp /\ _)) by done].
  - destruct target as [i|]; cbn [target_name].
    + rewrite (bool_decide_false (indexed comp "*" = _ /\ _)) by (intros [E _]; by eapply (instance_not_wild comp comp i)).
      destruct (Z.eqb_spec j i) as [->|Hne]; [by rewrite bool_decide_true|]. rewrite bool_decide_false; [done|].
      intros [E _]. by apply instance_name_inj in E as [_ ?].
    + rewrite bool_decide_false by (intros [E _]; by eapply (instance_not_wild comp comp j)). by rewrite bool_decide_true.
  - rewrite (bool_decide_false (instance_name comp' j = _ /\ _)); [rewrite (bool_decide_false (indexed comp' "*" = _ /\ _)); [done|]|].
    + intros [E ->]. apply H3. split; [|done]. destruct target as [i|]; cbn [target_name] in E; [by symmetry in E; eapply instance_not_wild in E|].
      by apply indexed_inj in E as [-> _].
    + intros [E ->]. apply H3. split; [|done]. destruct target as [i|]; cbn [target_name] in E; [by apply instance_name_inj in E as [-> _]|].
      by eapply instance_not_wild in E.
Qed.

(** ** Every file without a cycle is read to its end *)

Lemma span_length stop s : (String.length (snd (span stop s)) + String.length (fst (span stop s)) = String.length s)%nat.
Proof. induction s as [|a s IH]; [done|]. cbn [span]. destruct (stop a); [cbn; lia|]. destruct (span stop s) as [l r]. cbn in *. lia. Qed.

Lemma skip_space_length s : (String.length (skip_space s) <= String.length s)%nat.
Proof. induction s as [|a s IH]; [done|]. cbn [skip_space]. destruct (isspace a); cbn [String.length]; lia. Qed.

Lemma read_line_shorter text line rest : read_line text = Ok (Some (line, rest)) -> (String.length rest < String.length text)%nat.
Proof.
  unfold read_line. pose proof (span_length (chr_is "010") text) as H. destruct (span (chr_is "010") text) as [[|a l] r]; [by destruct r|].
  unfold fits. destruct (_ <? _)%nat; [|done]. intros [= <- <-]. pose proof (skip_space_length r). cbn in H. lia.
Qed.

(** The ways a file can fail: a buffer overrun, a buffer read before it is
    written, a refused row. *)
Definition reads_on {A} (m : outcome A) : Prop := match m with Crash why => why = overflow \/ why = uninitialised | _ => True end.

Lemma reads_on_bind {A B} (m : outcome A) (f : A -> outcome B) : reads_on m -> (forall a, m = Ok a -> reads_on (f a)) -> reads_on (obind m f).
Proof. destruct m; cbn; [|done..]. intros _ H. by apply H. Qed.

Lemma fits_reads_on n s : reads_on (fits n s).
Proof. unfold fits. destruct (_ <? _)%nat; cbn; by auto. Qed.

Lemma read_line_reads_on text : reads_on (read_line text).
Proof.
  unfold read_line. destruct (span (chr_is "010") text) as [[|a l] r]; [destruct r; cbn; by auto|].
  apply reads_on_bind; [apply fits_reads_on|done].
Qed.

Lemma parseLine_reads_on line : reads_on (parseLine line).
Proof. unfold parseLine. do 2 (apply reads_on_bind; [apply fits_reads_on|intros ? _]). cbv zeta. by repeat case_match. Qed.

Lemma parse_row_reads_on line c : reads_on (parse_row line c).
Proof. unfold parse_row. destruct (checkComment line); [done|]. by apply reads_on_bind; [apply parseLine_reads_on|]. Qed.

Lemma checkKeywords_reads_on line : reads_on (checkKeywords line).
Proof.
  unfold checkKeywords. destruct (scan_set _ line) as [[k r]|]; [|cbn; by auto]. apply reads_on_bind; [apply fits_reads_on|].
  intros ? _. destruct (String.eqb _ _); [|done]. destruct (_ ≫= _); cbn; auto.
Qed.

Lemma parse_rows_reads_on : forall fuel line text c, (String.length text < fuel)%nat -> reads_on (parse_rows fuel line text c).
Proof.
  induction fuel as [|f IH]; intros line text c Hf; [lia|]. cbn [parse_rows].
  apply reads_on_bind; [apply parse_row_reads_on|]. intros c' _. apply reads_on_bind; [apply read_line_reads_on|].
  intros [[line' text']|] E; [|done]. apply IH. apply read_line_shorter in E. lia.
Qed.

(** The file the first line of a text names. *)
Definition extends (text : string) : option string :=
  match read_line text with
  | Ok (Some (line, _)) => match checkKeywords line with Ok extension => extension | _ => None end
  | _ => None
  end.

(** C20: reading a configuration ends.  Where files extend one another without a
    cycle (each lowers a rank), a read that is allowed a depth above the file's
    rank never runs out of it or of the bound on its lines: it ends with the
    configuration, with the code's own refusal or at one of the two places where
    the code leaves its buffers, and a greater depth changes nothing. *)
Theorem parseFile_ends files config_path rank :
  (forall name text base, files (config_file config_path name) = Some text -> extends text = Some base -> (rank base < rank name)%nat) ->
  forall d name c, (rank name < d)%nat ->
    reads_on (parseFile files d config_path name c) /\
    parseFile files d config_path name c = parseFile files (S (rank name)) config_path name c.
Proof.
  intros Hrank.
  assert (H : forall r d d' name c, (rank name < r)%nat -> (rank name < d)%nat -> (rank name < d')%nat ->
    reads_on (parseFile files d config_path name c) /\ parseFile files d config_path name c = parseFile files d' config_path name c);
    [|intros d name c Hd; apply (H (S (rank name))); lia].
  induction r as [|r IH]; intros d d' name c Hr Hd Hd'; [lia|]. destruct d as [|d], d' as [|d']; [lia..|]. cbn [parseFile].
  destruct (files (config_file config_path name)) as [text|] eqn:Ef; [|done]. specialize (Hrank name text). unfold extends in Hrank.
  destruct (read_line text) as [[[line rest]|]|s|s] eqn:El; cbn [obind]; [|cbn; by auto|done|].
  - pose proof (checkKeywords_reads_on line) as Hk. destruct (checkKeywords line) as [[base|]|s|s] eqn:Ek; cbn [obind]; [| |done..].
    + pose proof (Hrank base Ef eq_refl) as Hb. destruct (IH d d' base c) as [H1 H2]; [lia..|]. rewrite <- H2. split; [|done].
      apply reads_on_bind; [done|]. intros c' _. apply reads_on_bind; [apply read_line_reads_on|]. intros [[line' rest']|] _; [|done].
      apply parse_rows_reads_on. lia.
    + split; [|done]. apply parse_rows_reads_on. lia.
  - split; [|done]. pose proof (read_line_reads_on text) as H. by rewrite El in H.
Qed.

(** ** Concrete files *)

Definition demo_rows : list Param :=
  [mkParameter "m_ways_count" (Integer 4); mkParameter "bus[0].ratio" (Double (double_of (-3) (-2)));
   mkParameter "protocol_type" (Str "MSI"); mkParameter "ids" (Vector_Integer [0; -7; 2147483647]);
   mkParameter "rates" (Vector_Double [double_of 1 0; S754_infinity true]); mkParameter "names" (Vector_String ["a"; "b c"]);
   mkParameter "m_ways_count" (Integer (-8)); mkParameter "empty" (Str "")].
Definition demo_base : list Param := [mkParameter "m_ways_count" (Integer 2); mkParameter "m_block_size" (Integer 64)].
Definition demo_files (path : string) : option string :=
  if String.eqb path "cfg/Cache.csv" then Some (show_file (Some "Base") demo_rows)
  else if String.eqb path "cfg/Base.csv" then Some (show_file None demo_base) else None.

Ltac row_ok := split; [by vm_compute|by vm_compute|apply Nat.ltb_lt; by vm_compute|apply Nat.ltb_lt; by vm_compute|].
Ltac rows_ok := repeat (apply Forall_cons; split; [row_ok|]); try apply Forall_nil.
Lemma demo_rows_ok : Forall param_ok demo_rows.
Proof. rows_ok; try done; cbn [p_value value_ok]; unfold int; repeat constructor; lia. Qed.
Lemma demo_base_ok : Forall param_ok demo_base.
Proof. rows_ok; try done; cbn [p_value value_ok]; unfold int; lia. Qed.

Lemma config_file_roundtrip_witness :
  String.prefix ("Extends,Base" +:+ newline +:+ "m_ways_count(i),4" +:+ newline +:+ "bus[0].ratio(d),-0x18") (show_file (Some "Base") demo_rows) = true /\
  parseFile demo_files 2 "cfg" "Cache" noParameters = Ok (add_all demo_rows (add_all demo_base noParameters)).
Proof.
  split; [by vm_compute|].
  rewrite (config_file_roundtrip demo_files 1 "cfg" "Cache" (Some "Base") demo_rows noParameters eq_refl demo_rows_ok).
  - rewrite (config_file_roundtrip demo_files 0 "cfg" "Base" None demo_base noParameters eq_refl); [done|exact demo_base_ok|done].
  - split; [done..|apply Nat.ltb_lt; by vm_compute].
Defined.

Definition demo_config : Configurable := add_all [mkParameter "cpu[*].window" (Integer 8); mkParameter "cpu[2].rate" (Integer 1)] noParameters.
Lemma override_reaches_target_witness :
  let p := mkParameter "cpu[1].window" (Integer 3) in
  show_override p = "cpu[1].window(i)=3" /\ parseCLparam "cpu[1].window(i)=3" = Ok p /\
  getSubMap (addParameter2Map p demo_config) "cpu" 1 !! "window" = Some (mkParameter "window" (Integer 3)) /\
  getSubMap (addParameter2Map p demo_config) "cpu" 2 !! "window" = Some (mkParameter "window" (Integer 8)).
Proof.
  pose proof (override_reaches_target demo_config "cpu" (Some 1) "window" (Integer 3)) as H. cbv zeta in H.
  destruct H as [H1 H2]; [row_ok; cbn; unfold int; lia|done|unfold int; lia|]. split; [done|]. split; [exact H1|].
  split; [|transitivity (getSubMap demo_config "cpu" 2 !! "window"); [|done]]; etrans; [apply (H2 "cpu" 1 "window"); unfold int; (done || lia)|done| |done].
  apply (H2 "cpu" 2 "window"); unfold int; (done || lia).
Defined.

Lemma parseFile_ends_witness :
  parseFile demo_files 1000 "cfg" "Cache" noParameters = parseFile demo_files 2 "cfg" "Cache" noParameters.
Proof.
  apply (parseFile_ends demo_files "cfg" (fun name => if String.eqb name "Cache" then 1%nat else 0%nat)); [|cbn; lia].
  intros name text base. unfold demo_files, config_file.
  destruct (String.eqb_spec ("cfg" +:+ "/" +:+ name +:+ ".csv") "cfg/Cache.csv") as [E|_].
  - change "cfg/Cache.csv" with ("cfg" +:+ "/" +:+ "Cache" +:+ ".csv") in E. do 2 apply append_inj_l in E. apply append_inj_r in E as ->. intros Ht%(inj Some). subst text.
    clear. assert (E : extends (show_file (Some "Base") demo_rows) = Some "Base") by by vm_compute.
    intros H. rewrite E in H. injection H as <-. cbn. lia.
  - destruct (String.eqb _ _); [|done]. intros Ht%(inj Some) H. subst text.
    assert (E : extends (show_file None demo_base) = None) by by vm_compute. by rewrite E in H.
Defined.
