(* ===== verification/ConfigFiles.v ===== *)
(** * The shipped configuration

    The files of [configuration/] that the components and the system presets
    load, as text.  [quoted] puts back the quotation marks of a line. *)

From S2P Require Export Config FsmTables.

Local Open Scope string_scope.

(** A text with back quotes for its quotation marks. *)
Definition quote_mark : ascii := "034".
Fixpoint quoted (s : string) : string :=
  match s with
  | "" => ""
  | String a s' => String (if Ascii.eqb a "`" then quote_mark else a) (quoted s')
  end.

Definition CPU_config : string := crlf "m_clk_period(i),100
m_number_of_OoO_requests(i),8".

Definition ExternalCPU_config : string := "Extends,CPU
#The adaptor for an external core model (gem5). Same clock as the trace CPU; the request rate comes from the core.
log_requests(i),0,,#1: report this core's requests to the Logger (LatencyReport_C<core>.csv, Summary.csv under <workload_path>/newLogger) while logging is on; the gem5 bridge turns it on at a stats reset and writes the reports at the next stats dump
".

Definition CacheDataHandler_config : string := quoted "cache_size(i),16384,,,#Cache size in bytes
m_block_size(i),64,,,#Block size in bytes
m_ways_count(i),1,,,#Number of ways. If the number is 1 this will make the cache a direct-mapped cache
m_data_access_latency(i),0,,,#The latency of reading or writing data. This latency does not apply on reading or writing cache lines bits
replacement_policy_name(s),LRU,,,#Choose out of LRU or RANDOM
way_partition(s),,,#Per-core way reservation `cores:ways;...` with a-b ranges (e.g. 0:0;1-3:1). Empty = no partitioning. Unlisted cores share the unclaimed ways
m_data_array_pipelined(i),0,,,#0: occupancy model (one access per latency window, latency not charged). 1: pipelined (ports accesses admitted per cycle, each completes latency cycles later)
m_data_array_ports(i),1,,,#Pipelined model only: accesses admitted per cycle
".

Definition CacheDataHandler_COTS_config : string := "Extends,CacheDataHandler
pwb_size(i),8,,#Write-back buffer depth (pending write-backs). -1 = unbounded".

Definition DebugPrint_config : string := crlf "m_clk_period(i),100,,,,
target(s),,,#Write file path or leave it empty to print on the console,,
enable(i),0,,#0 or 1,,
print_preamble(i),1,,#0 or 1,,
,,,,,
print_name(i),1,,#0 or 1,,
print_clk(i),0,,#0 or 1,,
print_msg_id(i),1,,#0 or 1,,
print_addr(i),0,,#0 or 1,,
print_from(i),1,,#0 or 1,,
print_to(i),1,,#0 or 1,,
print_owner(i),1,,#0 or 1,,
,,,,,
addr_filter(s),,,#filter in hexdecimal,,
cond_addr(vs),,,#Acceptable Addresses,,
cond_msg_id(vi),,,#Acceptable Ids,,
cond_from(vi),,,#Acceptable Senders,,
cond_owner(vi),,,#Acceptable Owners,,".

Definition MainMemoryController_config : string := "m_clk_period(i),100,,
m_id(i),100,,
m_llc_id(i),10,,
m_memory_latency(i),250,,#Latency in cycles
processing_queue_size(i),32,,#Request buffer depth. -1 = unbounded (legacy behavior)".

Definition BaseController_config : string := "m_id(i),-1,,
m_shared_memory_id(i),-1,,
m_clk_period(i),100,,#Clock period in nano seconds
processing_queue_size(i),64,,#If size is -1 the queue will grow indefinitely
protocol_type(s),SNOOP_MSI,,#Type should be written similar to the names in ProtocolType enum in Protocols/Protocols.h
fsm_filename(s),MSI_splitBus_snooping,,#Name should match the name of the file in Protocols_FSM directory
perfect_llc(i),0,,#1 = this controller never issues to memory above it (every access hits, no DRAM). Set only on llc_controller.".

Definition CacheController_config : string := quoted "Extends,BaseController,,,
arbiter_type(s),NULL,,`#Arbiters are Null, RR, FCFS, and TDM`,
arbiter_candidates_ids(vi),0,1,2,3
num_mshr(i),16,,#Max concurrent outstanding misses (MSHR depth). -1 = unbounded
line_interlock(i),0,,#1: a line with a data-array access waiting or in flight holds every queued message to it in place (needed once the array has a latency and real data flows, e.g. the gem5 preset). 0: off
".

Definition CacheControllerDirectory_config : string := "Extends,CacheController,,
processing_queue_size(i),32,,#Diectory based protocols require larger sizes than snooping. A good practice is to set it to num_cores*max_mem_req".

Definition CacheControllerExclusive_config : string := "Extends,CacheController".

Definition CacheController_End2End_config : string := "Extends,CacheController".

Definition Bus_config : string := crlf "m_lower_level_ids(vi),0,1,2,3,,
upper_level_cache_ids(vi),10,,,,,
controller_type(s),Unified,,,,,
buffers_max_size(i),16,,,,,
m_clk_period(i),50,,,,,#Clk period in nano seconds".

Definition BusController_config : string := crlf "m_request_latency(i),2,,
m_response_latency(i),5,,
arbiter_type(s),RRArbiter,,#Type should match the name of the arbiter class".

Definition DirectInterconnect_config : string := crlf "buffers_max_size(i),16,,,,,
m_clk_period(i),50,,,,,#Clk period in nano seconds".

Definition Mesh_config : string := crlf "component_ids(vi),0,1,2,3,10,
buffers_max_size(i),16,,,,,
m_clk_period(i),50,,,,,#Clk period in nano seconds
connection_matrix[0](vi),0,1,2,3,10,#first entry is the node id and the other entries are what the node is connected to
connection_matrix[1](vi),1,0,2,3,10,#first entry is the node id and the other entries are what the node is connected to
connection_matrix[2](vi),2,0,1,3,10,#first entry is the node id and the other entries are what the node is connected to
connection_matrix[3](vi),3,0,1,2,10,#first entry is the node id and the other entries are what the node is connected to
connection_matrix[4](vi),10,0,1,2,3,#first entry is the node id and the other entries are what the node is connected to".

Definition MeshController_config : string := crlf "m_request_latency(i),2,,
m_data_latency(i),5,,
arbiter_type(s),FCFSArbiter,,#Type should match the name of the arbiter class".

Definition NoC_config : string := crlf "Extends,Mesh,,,,,
switch_ids(vi),200,,,,,#Ids of the switches in the network
connection_matrix[0](vi),0,200,10,,,#first entry is the node id and the other entries are what the node is connected to
connection_matrix[1](vi),1,200,10,,,#first entry is the node id and the other entries are what the node is connected to
connection_matrix[2](vi),2,200,10,,,#first entry is the node id and the other entries are what the node is connected to
connection_matrix[3](vi),3,200,10,,,#first entry is the node id and the other entries are what the node is connected to
connection_matrix[4](vi),10,0,1,2,3,#first entry is the node id and the other entries are what the node is connected to
connection_matrix[5](vi),200,0,1,2,3,#first entry is the node id and the other entries are what the node is connected to".

Definition NoCController_config : string := "Extends,MeshController".

Definition Point2PointController_config : string := crlf "Extends,BusController
candidates_id(vi),".

Definition SplitBusController_config : string := "Extends,BusController,,
arbiter_type(s),TDMArbiter,,#Type should match the name of the arbiter class
response_reserve(i),0,,#Response-buffer slots reserved for in-flight responses; request bus stalls when free space falls to this. 0 = stall at full.".

Definition TripleBus_config : string := crlf "Extends,Bus
controller_type(s),Triple".

Definition TripleBusController_config : string := "Extends,SplitBusController".

Definition UnifiedBusController_config : string := "Extends,BusController".

Definition MultiCoreSystem_config : string := "workload_path(s),BMs/TestBM/,,,#Absolute path is recommended,,
num_cores(i),4,,,,,
bus_type(vs),TripleBus,Bus,,#Bus[0] (L1<->LLC) is TripleBus: carries the LLC back-invalidation on its service channel. Bus[1] is LLC<->memory,,
bus[0].controller_type(s),Split,,,#snoop broadcast bus,,
bus[0].interconnect_controller.arbiter_type(s),FCFSArbiter,,,#Shared L1-LLC bus arbitration,,
bus[0].m_lower_level_ids(vi),0,1,2,3,,
bus[0].upper_level_cache_ids(vi),10,,,#LLC ID,,
bus[0].interconnect_controller.wrr_weight(i),4,,,,,
cache_controller_type(s),CacheControllerExclusive,,,#L1 private caches: basic snoop controller,,
llc_controller_type(s),CacheController_End2End,,,#LLC: End2End controller drives TripleBus service channel for back-invalidation on eviction,,
,,,,,,
bus[*].buffers_max_size(i),256,,,#Response/request buffer depth: usable + in-flight reserve (sized to MSHR bound),,
bus[0].response_reserve(i),128,,,#Snoop bus in-flight response reserve: request bus stalls when response buffer free space falls to this (bounds response-bus back-pressure without overflow or controller gating),,
bus[1].m_lower_level_ids(vi),10,,,#LLC ID,,
bus[1].upper_level_cache_ids(vi),100,,,#Main memory ID,,
bus[1].controller_type(s),Point2Point,,,,,
bus[1].interconnect_controller.candidates_id(vi),0,1,2,3,10,#Candidates are the l1 ids and llc id
,,,,,,
cache_controller[*].m_shared_memory_id(i),10,,,,,
cache_controller[*].protocol_type(s),SNOOP_MESI,,,,,
cache_controller[*].fsm_filename(s),MESI_splitBus_snooping,,,,,
cache_controller[*].num_mshr(i),16,,#L1 MSHR depth (max concurrent outstanding misses). -1 = unbounded,,,
cache_controller[*].m_data_handler.pwb_size(i),8,,#L1 write-back buffer depth. -1 = unbounded,,,
cache_controller[*].processing_queue_size(i),16,,#L1 processing-queue depth (bounds demand admission). -1 = unbounded,,,
cache_controller[0].m_id(i),0,,,,,
cache_controller[1].m_id(i),1,,,,,
cache_controller[2].m_id(i),2,,,,,
cache_controller[3].m_id(i),3,,,,,
,,,,,,
llc_controller.m_id(i),10,,,#LLC,,
llc_controller.m_shared_memory_id(i),100,,,#Id of the main memory,,
llc_controller.protocol_type(s),SNOOP_LLC_MESI,,,,,
llc_controller.fsm_filename(s),MESI_LLC,,,,,
llc_controller.m_data_handler.cache_size(i),32768,,,,,
llc_controller.m_data_handler.m_ways_count(i),2,,,,,
llc_controller.m_data_handler.m_data_access_latency(i),10,,,,,
llc_controller.num_mshr(i),64,,#LLC MSHR depth: larger than L1 (fans in all cores). -1 = unbounded,,,
llc_controller.m_data_handler.pwb_size(i),32,,#LLC write-back buffer depth: larger than L1. -1 = unbounded,,,
llc_controller.processing_queue_size(i),64,,#LLC processing-queue depth: larger than L1 (holds cache-to-cache forwarding concurrency). -1 = unbounded,,,
llc_controller.arbiter_type(s),FCFSArbiter,,,,,
llc_controller.arbiter_candidates_ids(vi),0,1,2,3,,#Candidates are the l1 ids
,,,,,,
m_main_memory.m_llc_id(i),10,,,,,
m_main_memory.m_id(i),100,,,,,
,,,,,,
cache_controller[*].dprint.enable(i),0,,,,,
llc_controller.dprint.enable(i),0,,,,,
cache_controller[*].dprint.target(s),BMs/testDPrint/dprint.csv,,,,,
llc_controller.dprint.target(s),BMs/testDPrint/dprint.csv,,,,,
cache_controller[*].dprint.addr_filter(s),,,,,,#filter in hexdecimal
llc_controller.dprint.addr_filter(s),,,,,,#filter in hexdecimal
cache_controller[*].dprint.cond_addr(vs),,,,,,#Acceptable Addresses
llc_controller.dprint.cond_addr(vs),,,,,,#Acceptable Addresses
".

Definition MultiCoreSystem_Snoop_config : string := "workload_path(s),BMs/TestBM/,,,#Absolute path is recommended,,
num_cores(i),4,,,,,
bus_type(vs),TripleBus,Bus,,#Bus[0] (L1<->LLC) is TripleBus: carries the LLC back-invalidation on its service channel. Bus[1] is LLC<->memory,,
bus[0].controller_type(s),Split,,,#snoop broadcast bus
bus[0].interconnect_controller.arbiter_type(s),FCFSArbiter,,,#Shared L1-LLC bus arbitration,,
bus[0].m_lower_level_ids(vi),0,1,2,3,,
bus[0].upper_level_cache_ids(vi),10,,,#LLC ID
cache_controller_type(s),CacheController,,,#L1 private caches: basic snoop controller,,
llc_controller_type(s),CacheController_End2End,,,#LLC: End2End controller drives TripleBus service channel for back-invalidation on eviction,,
,,,,,,
bus[*].buffers_max_size(i),256,,,#Response/request buffer depth: usable + in-flight reserve (sized to MSHR bound),,
bus[0].response_reserve(i),128,,,#Snoop bus in-flight response reserve: request bus stalls when response buffer free space falls to this (bounds response-bus back-pressure without overflow or controller gating),,
bus[1].m_lower_level_ids(vi),10,,,#LLC ID,,
bus[1].upper_level_cache_ids(vi),100,,,#Main memory ID,,
bus[1].controller_type(s),Point2Point,,,,,
bus[1].interconnect_controller.candidates_id(vi),0,1,2,3,10,#Candidates are the l1 ids and llc id
,,,,,,
cache_controller[*].m_shared_memory_id(i),10,,,,,
cache_controller[*].protocol_type(s),SNOOP_MSI,,,,,
cache_controller[*].fsm_filename(s),MSI_splitBus_snooping,,,,,
cache_controller[*].num_mshr(i),16,,#L1 MSHR depth (max concurrent outstanding misses). -1 = unbounded,,
cache_controller[*].m_data_handler.pwb_size(i),8,,#L1 write-back buffer depth. -1 = unbounded,,
cache_controller[*].processing_queue_size(i),16,,#L1 processing-queue depth (bounds demand admission). -1 = unbounded,,
cache_controller[0].m_id(i),0,,,,,
cache_controller[1].m_id(i),1,,,,,
cache_controller[2].m_id(i),2,,,,,
cache_controller[3].m_id(i),3,,,,,
,,,,,,
llc_controller.m_id(i),10,,,#LLC,,
llc_controller.m_shared_memory_id(i),100,,,#Id of the main memory,,
llc_controller.protocol_type(s),SNOOP_LLC_MSI,,,,,
llc_controller.fsm_filename(s),MSI_LLC,,,,,
llc_controller.m_data_handler.cache_size(i),32768,,,,,
llc_controller.m_data_handler.m_ways_count(i),2,,,,,
llc_controller.m_data_handler.m_data_access_latency(i),10,,,,,
llc_controller.num_mshr(i),64,,#LLC MSHR depth: larger than L1 (fans in all cores). -1 = unbounded,,
llc_controller.m_data_handler.pwb_size(i),32,,#LLC write-back buffer depth: larger than L1. -1 = unbounded,,
llc_controller.processing_queue_size(i),64,,#LLC processing-queue depth: larger than L1 (holds cache-to-cache forwarding concurrency). -1 = unbounded,,
llc_controller.arbiter_type(s),FCFSArbiter,,,,,
llc_controller.arbiter_candidates_ids(vi),0,1,2,3,,#Candidates are the l1 ids
,,,,,,
m_main_memory.m_llc_id(i),10,,,,,
m_main_memory.m_id(i),100,,,,,
,,,,,,
cache_controller[*].dprint.enable(i),0,,,,,
llc_controller.dprint.enable(i),0,,,,,
cache_controller[*].dprint.target(s),BMs/testDPrint/dprint.csv,,,,,
llc_controller.dprint.target(s),BMs/testDPrint/dprint.csv,,,,,
cache_controller[*].dprint.addr_filter(s),,,,,,#filter in hexdecimal
llc_controller.dprint.addr_filter(s),,,,,,#filter in hexdecimal
cache_controller[*].dprint.cond_addr(vs),,,,,,#Acceptable Addresses
llc_controller.dprint.cond_addr(vs),,,,,,#Acceptable Addresses".

Definition MultiCoreSystem_Directory_config : string := "workload_path(s),BMs/TestBM/,,,#Absolute path is recommended,,
num_cores(i),4,,,,,
bus_type(vs),TripleBus,Bus,,#Bus[0] is the interconnect between private caches and LLC and Bus[1] is between LLC and main memory,,
cache_controller_type(s),CacheControllerDirectory,,,#Type should match the name of the class,,
,,,,,,
bus[*].buffers_max_size(i),32,,,,,
bus[1].m_lower_level_ids(vi),10,,,#LLC ID,,
bus[1].upper_level_cache_ids(vi),100,,,#Main memory ID,,
bus[1].controller_type(s),Point2Point,,,,,
bus[1].interconnect_controller.candidates_id(vi),0,1,2,3,10,#Candidates are the l1 ids and llc id
bus[0].interconnect_controller.arbiter_type(s),FCFSArbiter,,,#Pinned: every directory validation was done under FCFS. The shared SplitBusController default is TDM (for snoop) and directory+TDM starves one core on aifirf01/cacheb01 -- an open bug rather than a config choice,,
,,,,,,
cache_controller[*].m_shared_memory_id(i),10,,,,,
cache_controller[*].protocol_type(s),DIRECTORY_MSI,,,,,
cache_controller[*].fsm_filename(s),MSI_directory,,,,,
cache_controller[*].num_mshr(i),16,,#L1 MSHR depth (max concurrent outstanding misses). -1 = unbounded,,
cache_controller[*].m_data_handler.pwb_size(i),8,,#L1 write-back buffer depth. -1 = unbounded,,
cache_controller[*].processing_queue_size(i),16,,#L1 processing-queue depth (bounds demand admission). -1 = unbounded,,
cache_controller[0].m_id(i),0,,,,,
cache_controller[1].m_id(i),1,,,,,
cache_controller[2].m_id(i),2,,,,,
cache_controller[3].m_id(i),3,,,,,
,,,,,,
llc_controller.m_id(i),10,,,#LLC,,
llc_controller.m_shared_memory_id(i),100,,,#Id of the main memory,,
llc_controller.protocol_type(s),DIRECTORY_LLC_MSI,,,,,
llc_controller.fsm_filename(s),MSI_LLC_directory,,,,,
llc_controller.m_data_handler.cache_size(i),32768,,,,,
llc_controller.m_data_handler.m_ways_count(i),2,,,,,
llc_controller.m_data_handler.m_data_access_latency(i),10,,,,,
llc_controller.num_mshr(i),64,,#LLC MSHR depth: larger than L1 (fans in all cores). -1 = unbounded,,
llc_controller.m_data_handler.pwb_size(i),32,,#LLC write-back buffer depth: larger than L1. -1 = unbounded,,
llc_controller.processing_queue_size(i),32,,#LLC processing-queue depth: larger than L1. -1 = unbounded,,
llc_controller.arbiter_type(s),FCFSArbiter,,,,,
llc_controller.arbiter_candidates_ids(vi),0,1,2,3,,#Candidates are the l1 ids
,,,,,,
m_main_memory.m_llc_id(i),10,,,,,
m_main_memory.m_id(i),100,,,,,
,,,,,,
cache_controller[*].dprint.enable(i),0,,,,,
llc_controller.dprint.enable(i),0,,,,,
cache_controller[*].dprint.target(s),BMs/testDPrint/dprint.csv,,,,,
llc_controller.dprint.target(s),BMs/testDPrint/dprint.csv,,,,,
cache_controller[*].dprint.addr_filter(s),,,,,,#filter in hexdecimal
llc_controller.dprint.addr_filter(s),,,,,,#filter in hexdecimal
cache_controller[*].dprint.cond_addr(vs),,,,,,#Acceptable Addresses
llc_controller.dprint.cond_addr(vs),,,,,,#Acceptable Addresses".

Definition MultiCoreSystem_Mesh_config : string := "workload_path(s),BMs/TestBM/,,,#Absolute path is recommended,,
num_cores(i),4,,,,,
cache_controller_type(s),CacheControllerDirectory,,,#Type should match the name of the class,,
,,,,,,
interconnect_type(s),NoC,,,,,
interconnect.buffers_max_size(i),32,,,,,
bus.buffers_max_size(i),32,,,,,
bus.m_lower_level_ids(vi),10,,,#LLC ID,,
bus.upper_level_cache_ids(vi),100,,,#Main memory ID,,
bus.controller_type(s),Point2Point,,,,,
bus.interconnect_controller.candidates_id(vi),0,1,2,3,10,#Candidates are the l1 ids and llc id
,,,,,,
cache_controller[*].m_shared_memory_id(i),10,,,,,
cache_controller[*].protocol_type(s),DIRECTORY_MSI,,,,,
cache_controller[*].fsm_filename(s),MSI_directory,,,,,
cache_controller[*].processing_queue_size(i),16,,#L1 processing-queue depth (bounds demand admission). -1 = unbounded,,,
cache_controller[0].m_id(i),0,,,,,
cache_controller[1].m_id(i),1,,,,,
cache_controller[2].m_id(i),2,,,,,
cache_controller[3].m_id(i),3,,,,,
,,,,,,
llc_controller.m_id(i),10,,,#LLC,,
llc_controller.m_shared_memory_id(i),100,,,#Id of the main memory,,
llc_controller.protocol_type(s),DIRECTORY_LLC_MSI,,,,,
llc_controller.fsm_filename(s),MSI_LLC_directory,,,,,
llc_controller.num_mshr(i),64,,#LLC MSHR depth: larger than L1 (fans in all cores). -1 = unbounded,,,
llc_controller.m_data_handler.pwb_size(i),32,,#LLC write-back buffer depth: larger than L1. -1 = unbounded,,,
llc_controller.processing_queue_size(i),32,,#LLC processing-queue depth: larger than L1. -1 = unbounded,,,
llc_controller.m_data_handler.cache_size(i),32768,,,,,
llc_controller.m_data_handler.m_ways_count(i),2,,,,,
llc_controller.m_data_handler.m_data_access_latency(i),10,,,,,
llc_controller.arbiter_type(s),FCFSArbiter,,,,,
llc_controller.arbiter_candidates_ids(vi),0,1,2,3,,#Candidates are the l1 ids
,,,,,,
m_main_memory.m_llc_id(i),10,,,,,
m_main_memory.m_id(i),100,,,,,
,,,,,,
cache_controller[2].dprint.enable(i),0,,,,,
llc_controller.dprint.enable(i),0,,,,,
cache_controller[*].dprint.target(s),,,,,,
llc_controller.dprint.target(s),BMs/testDPrint/dprint.csv,,,,,
cache_controller[*].dprint.addr_filter(s),0xFFFFFFFFFFFFFFC0,,,,,#filter in hexdecimal
llc_controller.dprint.addr_filter(s),0xFFFFFFFFFFFFFFC0,,,,,#filter in hexdecimal
cache_controller[*].dprint.cond_addr(vs),,,,,,#Acceptable Addresses
llc_controller.dprint.cond_addr(vs),,,,,,#Acceptable Addresses
cache_controller[2].dprint.cond_msg_id(vi),245788,,,,,
".

Definition MultiCoreSystem_gem5_config : string := "workload_path(s),log/,,,#Overridden by the gem5 bridge with its output directory (Logger report path),,
num_cores(i),8,,,#gem5 L1 bridges: instruction caches are ids 0-3 and data caches 4-7 (octopus_cache_hierarchy.py),,
cpu_type(s),ExternalCPU,,,#Requests are injected by the gem5 bridge,,
bus_type(vs),TripleBus,Bus,,#Bus[0] (L1<->LLC) is TripleBus: carries the LLC back-invalidation on its service channel. Bus[1] is LLC<->memory,,
bus[0].controller_type(s),Split,,,#snoop broadcast bus
bus[0].m_lower_level_ids(vi),0,1,2,3,4,5,6,7
bus[0].upper_level_cache_ids(vi),10,,,#LLC ID
bus[0].interconnect_controller.arbiter_type(s),FCFSArbiter,,,#Pinned: the SplitBusController default is TDM on this branch; the gem5 integration was calibrated and validated with FCFS (RR is the mitigation experiment),,
cache_controller_type(s),CacheController,,,#L1 private caches: basic snoop controller,,
llc_controller_type(s),CacheController_End2End,,,#LLC: End2End controller drives TripleBus service channel for back-invalidation on eviction,,
,,,,,,
bus[*].buffers_max_size(i),128,,,#Response FIFOs never stall a controller (a full one aborts): must hold every response that can be outstanding = 8 L1s x num_mshr 16,,
bus[*].m_clk_period(i),50,,,#Half of the core period: the bus model works on edges,,
bus[1].m_lower_level_ids(vi),10,,,#LLC ID,,
bus[1].upper_level_cache_ids(vi),100,,,#Main memory ID,,
bus[1].controller_type(s),Point2Point,,,,,
bus[1].interconnect_controller.candidates_id(vi),0,1,2,3,4,5,6,7,10
,,,,,,
cpu_interconnect[*].buffers_max_size(i),64,,,#= processing_queue_size: the bridge admits at most that many outstanding requests per core so neither direction of this link can overflow,,
cpu_interconnect[*].m_clk_period(i),50,,,,,
cpu[*].m_clk_period(i),100,,,#One gem5 core cycle = 100 Octopus ns (Octopus.py octopus_cycle_ns),,
,,,,,,
cache_controller[*].m_shared_memory_id(i),10,,,,,
cache_controller[*].protocol_type(s),SNOOP_MSI,,,,,
cache_controller[*].fsm_filename(s),MSI_splitBus_snooping,,,,,
cache_controller[*].m_clk_period(i),100,,,,,
cache_controller[*].m_data_handler.cache_size(i),524288,,,#From the ARM challenge XML: 512 KiB 4-way L1,,
cache_controller[*].m_data_handler.m_block_size(i),64,,,,,
cache_controller[*].m_data_handler.m_ways_count(i),4,,,,,
cache_controller[*].m_data_handler.m_data_access_latency(i),0,,,#Structural hops make up the L1 hit latency,,
cache_controller[*].m_data_handler.replacement_policy_name(s),RANDOM,,,,,
cache_controller[*].num_mshr(i),16,,#L1 MSHR depth (max concurrent outstanding misses). -1 = unbounded,,
cache_controller[*].m_data_handler.pwb_size(i),8,,#L1 write-back buffer depth. -1 = unbounded,,
cache_controller[*].processing_queue_size(i),64,,#Total requests an O3 core may have outstanding at its L1 (hits and waiting followers included): LQ 32 + SQ 32. Younger loads/stores behind a miss to the same line wait here as per-line followers (hardware parks them in the LQ or as MSHR targets); O3 issues each request once and cannot take them back. The bridge blocks its port at this count; misses are bounded separately by num_mshr,,
cache_controller[*].line_interlock(i),1,,#Real data flows through gem5: a line with a data-array access in flight holds every message to it (see CacheController.csv),,
cache_controller[0].m_id(i),0,,,,,
cache_controller[1].m_id(i),1,,,,,
cache_controller[2].m_id(i),2,,,,,
cache_controller[3].m_id(i),3,,,,,
cache_controller[4].m_id(i),4,,,,,
cache_controller[5].m_id(i),5,,,,,
cache_controller[6].m_id(i),6,,,,,
cache_controller[7].m_id(i),7,,,,,
,,,,,,
llc_controller.m_id(i),10,,,#LLC,,
llc_controller.m_shared_memory_id(i),100,,,#Id of the main memory,,
llc_controller.protocol_type(s),SNOOP_LLC_MSI,,,,,
llc_controller.fsm_filename(s),MSI_LLC,,,,,
llc_controller.m_clk_period(i),100,,,,,
llc_controller.m_data_handler.cache_size(i),8388608,,,#From the ARM challenge XML: 8 MiB 8-way LLC,,
llc_controller.m_data_handler.m_block_size(i),64,,,,,
llc_controller.m_data_handler.m_ways_count(i),8,,,,,
llc_controller.m_data_handler.m_data_access_latency(i),10,,,,,
llc_controller.m_data_handler.m_data_array_pipelined(i),1,,,#Pipelined array: every access pays the 10 cycles and one is admitted per cycle (classic L2 semantics). 0 = occupancy model (one access per 10 cycles none charged),,
llc_controller.m_data_handler.m_data_array_ports(i),1,,,,,
llc_controller.m_data_handler.replacement_policy_name(s),LRU,,,,,
llc_controller.num_mshr(i),64,,#LLC MSHR depth: larger than L1 (fans in all cores). -1 = unbounded,,
llc_controller.m_data_handler.pwb_size(i),32,,#LLC write-back buffer depth: larger than L1. -1 = unbounded,,
llc_controller.processing_queue_size(i),64,,#LLC processing-queue depth: larger than L1 (holds cache-to-cache forwarding concurrency). -1 = unbounded,,
llc_controller.line_interlock(i),1,,#Required with the pipelined LLC array: state and data must not be seen apart,,
llc_controller.arbiter_type(s),FCFSArbiter,,,,,
llc_controller.arbiter_candidates_ids(vi),0,1,2,3,4,5,6,7
,,,,,,
main_memory_type(s),MCsim,,,#DDR4-2400 model (MCsimInterface),,
m_main_memory.m_llc_id(i),10,,,,,
m_main_memory.m_id(i),100,,,,,
,,,,,,
cache_controller[*].dprint.enable(i),0,,,,,
llc_controller.dprint.enable(i),0,,,,,
cache_controller[*].dprint.target(s),BMs/testDPrint/dprint.csv,,,,,
llc_controller.dprint.target(s),BMs/testDPrint/dprint.csv,,,,,
cache_controller[*].dprint.addr_filter(s),,,,,,#filter in hexdecimal
llc_controller.dprint.addr_filter(s),,,,,,#filter in hexdecimal
cache_controller[*].dprint.cond_addr(vs),,,,,,#Acceptable Addresses
llc_controller.dprint.cond_addr(vs),,,,,,#Acceptable Addresses
".

(** The files under their paths. *)
Definition shipped_files (root : string) : list (string * string) :=
  [(root +:+ "CPU.csv", CPU_config);
   (root +:+ "ExternalCPU.csv", ExternalCPU_config);
   (root +:+ "CacheDataHandler.csv", CacheDataHandler_config);
   (root +:+ "CacheDataHandler_COTS.csv", CacheDataHandler_COTS_config);
   (root +:+ "DebugPrint.csv", DebugPrint_config);
   (root +:+ "MainMemoryController.csv", MainMemoryController_config);
   (root +:+ "CacheControllers/BaseController.csv", BaseController_config);
   (root +:+ "CacheControllers/CacheController.csv", CacheController_config);
   (root +:+ "CacheControllers/CacheControllerDirectory.csv", CacheControllerDirectory_config);
   (root +:+ "CacheControllers/CacheControllerExclusive.csv", CacheControllerExclusive_config);
   (root +:+ "CacheControllers/CacheController_End2End.csv", CacheController_End2End_config);
   (root +:+ "Interconnect/Bus.csv", Bus_config);
   (root +:+ "Interconnect/BusController.csv", BusController_config);
   (root +:+ "Interconnect/DirectInterconnect.csv", DirectInterconnect_config);
   (root +:+ "Interconnect/Mesh.csv", Mesh_config);
   (root +:+ "Interconnect/MeshController.csv", MeshController_config);
   (root +:+ "Interconnect/NoC.csv", NoC_config);
   (root +:+ "Interconnect/NoCController.csv", NoCController_config);
   (root +:+ "Interconnect/Point2PointController.csv", Point2PointController_config);
   (root +:+ "Interconnect/SplitBusController.csv", SplitBusController_config);
   (root +:+ "Interconnect/TripleBus.csv", TripleBus_config);
   (root +:+ "Interconnect/TripleBusController.csv", TripleBusController_config);
   (root +:+ "Interconnect/UnifiedBusController.csv", UnifiedBusController_config);
   (root +:+ "SystemConfigurations/MultiCoreSystem.csv", MultiCoreSystem_config);
   (root +:+ "SystemConfigurations/MultiCoreSystem_Snoop.csv", MultiCoreSystem_Snoop_config);
   (root +:+ "SystemConfigurations/MultiCoreSystem_Directory.csv", MultiCoreSystem_Directory_config);
   (root +:+ "SystemConfigurations/MultiCoreSystem_Mesh.csv", MultiCoreSystem_Mesh_config);
   (root +:+ "SystemConfigurations/MultiCoreSystem_gem5.csv", MultiCoreSystem_gem5_config)].
Definition shipped (root path : string) : option string :=
  snd <$> List.find (fun f => String.eqb (fst f) path) (shipped_files root).
