(* ===== verification/Protocols.v ===== *)
(** * The protocol of a cache

    [Protocols::getNewProtocol] ([header/Protocols/Protocols.h]): a cache holds
    one of the four families of protocols, or a null pointer when the name is
    unknown. *)

From S2P Require Export SnoopL1 SnoopLLC DirL1 DirLLC.

Local Open Scope string_scope.
Open Scope Z_scope.

Inductive AnyProtocol :=
| SnoopPrivate (p : L1Protocol)
| SnoopShared (p : LLCProtocol)
| DirectoryPrivate (p : L1Directory)
| DirectoryShared (p : LLCDirectory)
| NullProtocol.

Definition null_pointer : string := "null pointer".

Definition any_proto_state (p : AnyProtocol) : ProtocolState :=
  match p with
  | SnoopPrivate p => proto_state p
  | SnoopShared p => proto_state p
  | DirectoryPrivate p => proto_state p
  | DirectoryShared p => proto_state p
  | NullProtocol => mkProtocol 0 0 (mkFSMReader ∅ ∅ ∅ [])
  end.

Definition any_processRequest (p : AnyProtocol) (ct : DirCounters) (s : COTS) (m : Message) : outcome (Message * list ControllerAction) :=
  match p with
  | SnoopPrivate p => processRequest p ct s m
  | SnoopShared p => processRequest p ct s m
  | DirectoryPrivate p => processRequest p ct s m
  | DirectoryShared p => processRequest p ct s m
  | NullProtocol => Crash null_pointer
  end.

Definition any_getRequestState (p : AnyProtocol) (ct : DirCounters) (s : COTS) (m : Message) (st : FRFCFS_State)
    : outcome (FRFCFS_State * Message) :=
  match p with
  | SnoopPrivate p => getRequestState p ct s m st
  | SnoopShared p => getRequestState p ct s m st
  | DirectoryPrivate p => getRequestState p ct s m st
  | DirectoryShared p => getRequestState p ct s m st
  | NullProtocol => Crash null_pointer
  end.

Definition any_createDefaultCacheLine (p : AnyProtocol) (s : COTS) (l : GenericCacheLine) : GenericCacheLine :=
  match p with
  | SnoopPrivate p => createDefaultCacheLine p s l
  | SnoopShared p => createDefaultCacheLine p s l
  | DirectoryPrivate p => createDefaultCacheLine p s l
  | DirectoryShared p => createDefaultCacheLine p s l
  | NullProtocol => l
  end.

Definition any_isReadableState (p : AnyProtocol) (st : Z) : outcome bool :=
  match p with
  | SnoopPrivate p => isReadableState p st
  | SnoopShared p => isReadableState p st
  | DirectoryPrivate p => isReadableState p st
  | DirectoryShared p => isReadableState p st
  | NullProtocol => Crash null_pointer
  end.

Definition any_needsDataArray (p : AnyProtocol) (ct : DirCounters) (s : COTS) (m : Message) : outcome bool :=
  match p with
  | SnoopPrivate p => needsDataArray p ct s m
  | SnoopShared p => needsDataArray p ct s m
  | DirectoryPrivate p => needsDataArray p ct s m
  | DirectoryShared p => needsDataArray p ct s m
  | NullProtocol => Crash null_pointer
  end.

#[export] Instance any_protocol : CoherenceProtocol AnyProtocol := {|
  proto_state := any_proto_state;
  processRequest := any_processRequest;
  getRequestState := any_getRequestState;
  createDefaultCacheLine := any_createDefaultCacheLine;
  isReadableState := any_isReadableState;
  needsDataArray := any_needsDataArray |}.

(** The class a name stands for. *)
Inductive ProtocolClass :=
| ClassL1 (c : L1Class) | ClassLLC (c : LLCClass) | ClassDirL1 (c : L1DirClass) | ClassDirLLC (c : LLCDirClass).

Definition protocol_class (type : string) : option ProtocolClass :=
  let named := existsb (String.eqb type) in
  if named ["SNOOP_MSI"] then Some (ClassL1 MSIProtocol)
  else if named ["SNOOP_LLC_MSI"; "SNOOP_LLC_PMSI_ASTERISK"] then Some (ClassLLC LLCMSIProtocol)
  else if named ["SNOOP_MESI"] then Some (ClassL1 MESIProtocol)
  else if named ["SNOOP_MOESI"] then Some (ClassL1 MOESIProtocol)
  else if named ["SNOOP_LLC_MESI"; "SNOOP_LLC_MOESI"; "SNOOP_LLC_PMESI_ASTERISK"] then Some (ClassLLC LLCMESIProtocol)
  else if named ["SNOOP_PMSI"] then Some (ClassL1 PMSIProtocol)
  else if named ["SNOOP_LLC_PMSI"] then Some (ClassLLC LLCPMSIProtocol)
  else if named ["SNOOP_PMESI"] then Some (ClassL1 PMESIProtocol)
  else if named ["SNOOP_LLC_PMESI"] then Some (ClassLLC LLCPMESIProtocol)
  else if named ["SNOOP_PMSI_ASTERISK"] then Some (ClassL1 PMSIAsteriskProtocol)
  else if named ["SNOOP_PMESI_ASTERISK"] then Some (ClassL1 PMESIAsteriskProtocol)
  else if named ["DIRECTORY_MSI"] then Some (ClassDirL1 MSIDirectory)
  else if named ["DIRECTORY_LLC_MSI"] then Some (ClassDirLLC LLCMSIDirectory)
  else if named ["DIRECTORY_MESI"] then Some (ClassDirL1 MESIDirectory)
  else if named ["DIRECTORY_LLC_MESI"] then Some (ClassDirLLC LLCMESIDirectory)
  else if named ["DIRECTORY_MOESI"] then Some (ClassDirL1 MOESIDirectory)
  else if named ["DIRECTORY_LLC_MOESI"] then Some (ClassDirLLC LLCMOESIDirectory)
  else None.

(** [getNewProtocol]: the table is read by [CoherenceProtocolHandler]'s
    constructor; an unknown name reads nothing. *)
Definition getNewProtocol (type : string) (fsm_file : option string) (cache_id shared_mem_id : Z) : outcome AnyProtocol :=
  match protocol_class type with
  | None => Ok NullProtocol
  | Some c =>
      let! r := newFSMReader fsm_file in
      let q := mkProtocol cache_id shared_mem_id r in
      Ok (match c with
          | ClassL1 c => SnoopPrivate (c, q)
          | ClassLLC c => SnoopShared (c, q)
          | ClassDirL1 c => DirectoryPrivate (c, q)
          | ClassDirLLC c => DirectoryShared (c, q)
          end)
  end.
