(* ===== verification/Ports.v ===== *)
(** * The interconnect a component is plugged into

    A [CommunicationInterface *] of the system assembly points at an interface
    of a bus, a triple bus, a mesh or a network on chip: [Port] is that sum, and
    [Net] an interconnect with the interfaces it owns.  A component works on its
    port through the pointer, so its cycle takes the port out of its net and
    puts it back. *)

From S2P Require Export Topology Mesh.

Local Open Scope string_scope.
Open Scope Z_scope.

Inductive Port :=
| BusPortOf (b : BusInterface)
| TriplePortOf (t : TripleBusInterface)
| MeshPortOf (m : MeshInterface)
| NoCPortOf (n : NoCInterface).

(** One operation on whichever interface it is. *)
Definition port_op {A} (f : forall I, CommInterface I -> I -> A * I) (p : Port) : A * Port :=
  match p with
  | BusPortOf b => let '(a, b) := f _ _ b in (a, BusPortOf b)
  | TriplePortOf t => let '(a, t) := f _ _ t in (a, TriplePortOf t)
  | MeshPortOf m => let '(a, m) := f _ _ m in (a, MeshPortOf m)
  | NoCPortOf n => let '(a, n) := f _ _ n in (a, NoCPortOf n)
  end.
Definition port_get {A} (f : forall I, CommInterface I -> I -> A) (p : Port) : A :=
  match p with
  | BusPortOf b => f _ _ b
  | TriplePortOf t => f _ _ t
  | MeshPortOf m => f _ _ m
  | NoCPortOf n => f _ _ n
  end.
Definition port_push (p : Port) (m : Message) (c : Z) (t : MessageType) : outcome (bool * Port) :=
  match p with
  | BusPortOf b => let! (ok, b) := pushMessage b m c t in Ok (ok, BusPortOf b)
  | TriplePortOf b => let! (ok, b) := pushMessage b m c t in Ok (ok, TriplePortOf b)
  | MeshPortOf b => let! (ok, b) := pushMessage b m c t in Ok (ok, MeshPortOf b)
  | NoCPortOf b => let! (ok, b) := pushMessage b m c t in Ok (ok, NoCPortOf b)
  end.

#[export] Instance Port_interface : CommInterface Port := {|
  ci_id := port_get (fun _ _ => ci_id);
  peekMessage := port_op (fun _ _ => peekMessage);
  popFrontMessage p := snd (port_op (fun _ _ i => (tt, popFrontMessage i)) p);
  pushMessage := port_push;
  pushMessage2RX q p m t :=
    let '((ok, q), p) := port_op (fun _ _ i => let '(ok, i, q) := pushMessage2RX q i m t in ((ok, q), i)) p in (ok, p, q);
  canAcceptRX p t := port_get (fun _ _ i => canAcceptRX i t) p;
  txResponseFreeSlots := port_get (fun _ _ => txResponseFreeSlots);
  rollback p a k := port_op (fun _ _ i => rollback i a k) p |}.

(** ** Interconnects *)

Inductive Net :=
| BusNet (c : BusController) (e : Edges) (ifs : list BusInterface)
| TripleNet (c : BusController) (e : Edges) (ifs : list TripleBusInterface)
| MeshNet (m : Mesh) (ifs : list MeshInterface)
| NoCNet (m : Mesh) (ifs : list NoCInterface).

Definition net_ports (n : Net) : list Port :=
  match n with
  | BusNet _ _ ifs => BusPortOf <$> ifs
  | TripleNet _ _ ifs => TriplePortOf <$> ifs
  | MeshNet _ ifs => MeshPortOf <$> ifs
  | NoCNet _ ifs => NoCPortOf <$> ifs
  end.
(** [getInterfaceFor]: the index of the first interface with the id; [None] is
    the null pointer. *)
Definition net_getInterfaceFor (n : Net) (id : Z) : option nat := fst <$> list_find (fun p => ci_id p = id) (net_ports n).

(** A port goes back where it came from. *)
Definition put_port (k : nat) (p : Port) (n : Net) : Net :=
  match n, p with
  | BusNet c e ifs, BusPortOf b => BusNet c e (<[k := b]> ifs)
  | TripleNet c e ifs, TriplePortOf t => TripleNet c e (<[k := t]> ifs)
  | MeshNet m ifs, MeshPortOf i => MeshNet m (<[k := i]> ifs)
  | NoCNet m ifs, NoCPortOf i => NoCNet m (<[k := i]> ifs)
  | _, _ => n
  end.

(** The clock cycle of an interconnect; [q] is the delivery counter. *)
Definition net_cycleProcess (n : Net) (q : Z) : outcome (Net * Z) :=
  match n with
  | BusNet c e ifs => let! (e, (c, ifs, q)) := bus_cycleProcess e (c, ifs, q) in Ok (BusNet c e ifs, q)
  | TripleNet c e ifs => let! (e, (c, ifs, q)) := bus_cycleProcess e (c, ifs, q) in Ok (TripleNet c e ifs, q)
  | MeshNet m ifs => let! (m, (ifs, q)) := mesh_cycleProcess m (ifs, q) in Ok (MeshNet m ifs, q)
  | NoCNet m ifs => let! (m, (ifs, q)) := noc_cycleProcess m (ifs, q) in Ok (NoCNet m ifs, q)
  end.
