(* ===== verification/Assembly.v ===== *)
(** * Components, configured

    The constructors of the clocked components read their parameters from their
    configuration file, from the file it extends and from what the system hands
    down ([Config]), and register with the clock manager.  Each [new_...] is one
    constructor from the configuration to the component's state; [Assembly] is
    the clock manager with the objects registered so far, an object's number
    being its place in that list.  Printing and logging are left out, but for
    the clock object every [DebugPrint] is. *)

From S2P Require Export Config Protocols Ports ClockManager CacheController External MainMemory McAnswers.

Local Open Scope string_scope.
Open Scope Z_scope.

(** ** Clocked objects *)

Inductive Object :=
| NetObj (k : nat)        (* an interconnect of the system *)
| LinkObj (i : nat)       (* the connection of core [i] with its cache *)
| CoreObj (i : nat)
| CacheObj (i : nat)
| LLCObj
| MemoryObj
| DebugObj.

(** The objects with their clock periods. *)
Record Assembly := mkAssembly { as_clock : ClockManager; as_objects : list (Object * Z) }.
Definition noAssembly : Assembly := mkAssembly newClockManager [].

(** [ClockedObj(0)]; the constructor then sets the period. *)
Definition register (o : Object) (period : Z) (a : Assembly) : Assembly :=
  mkAssembly (registerCLKObj 0 (Z.of_nat (length (as_objects a))) (as_clock a)) (as_objects a ++ [(o, w64 period)]).
(** [MCsimInterface] gives its period to the base class. *)
Definition register_at (o : Object) (period : Z) (a : Assembly) : Assembly :=
  mkAssembly (registerCLKObj (w64 period) (Z.of_nat (length (as_objects a))) (as_clock a)) (as_objects a ++ [(o, w64 period)]).
(** [deregisterCLKObj(this)] and [registerCLKTrigger(this)] of the newest object. *)
Definition newest (a : Assembly) : Z := Z.of_nat (length (as_objects a)) - 1.
Definition deregister_newest (a : Assembly) : Assembly := mkAssembly (deregisterCLKObj (newest a) (as_clock a)) (as_objects a).
Definition trigger_newest (a : Assembly) : Assembly := mkAssembly (registerCLKTrigger (newest a) (as_clock a)) (as_objects a).

Section Assembly.
(** The file system, the depth of the stack, the paths fixed when the program is
    built, what [rand()] returns to the data handler registered as a given
    object, the order in which the compiler evaluates two arguments, and what
    uninitialised memory holds. *)
Context (files : string -> option string) (depth : nat) (CONFIGURATION_PATH FSM_PATH MCSIM_PATH : string).
Context (rand : Z -> nat -> Z) (addr_first : bool) (junk : Z) (junk_flag : bool) (junk_bytes : bytes).

Definition CACHECONTROLLERS : string := "CacheControllers".
Definition INTERCONNECT : string := "Interconnect".

Definition configure (m : ParametersMap) (dir name : string) : outcome Configurable :=
  newConfigurable files depth m (CONFIGURATION_PATH +:+ dir) name.

Fixpoint get_each {T} (get : string -> ParametersMap -> outcome T) (keys : list string) (m : ParametersMap) : outcome unit :=
  match keys with [] => Ok tt | k :: keys' => let! _ := get k m in get_each get keys' m end.

(** [DebugPrint]: a disabled one leaves the clock. *)
Definition new_dprint (m : ParametersMap) (a : Assembly) : outcome Assembly :=
  let! c := configure m "" "DebugPrint" in
  let p := parameters c in
  let! period := get_int "m_clk_period" p in
  let! _ := get_string "target" p in
  let! enable := get_int "enable" p in
  let! _ := get_each get_int ["print_preamble"; "print_name"; "print_clk"; "print_msg_id"; "print_addr"; "print_from"; "print_to"; "print_owner"] p in
  let! _ := get_string "addr_filter" p in
  let! _ := get_strings "cond_addr" p in
  let! _ := get_each get_ints ["cond_msg_id"; "cond_from"; "cond_owner"] p in
  let a := register DebugObj period a in
  Ok (if enable =? 0 then deregister_newest a else a).

Definition dprint_of (c : Configurable) (a : Assembly) : outcome Assembly := new_dprint (getSubMap c "dprint" (-1)) a.

(** ** Interconnects *)

(** The controller of a bus, by [controller_type]. *)
Definition bus_controller_name (controller_type : string) : option string :=
  if String.eqb controller_type "Point2Point" then Some "Point2PointController"
  else if String.eqb controller_type "Split" then Some "SplitBusController"
  else if String.eqb controller_type "Unified" then Some "UnifiedBusController"
  else None.

(** [BusController] and the class derived from it: their parameters put into the
    bus's. *)
Definition controller_params (name : string) (m : ParametersMap) (b : BusParams) (a : Assembly) : outcome (BusParams * Assembly) :=
  let! c := configure m INTERCONNECT name in
  let p := parameters c in
  let! request := get_int "m_request_latency" p in
  let! response := get_int "m_response_latency" p in
  let! a := dprint_of c a in
  let! candidates := (if String.eqb name "Point2PointController" then get_ints "candidates_id" p else Ok []) in
  let! arbiter := get_string "arbiter_type" p in
  let! _ := BusControllers.arbiter_kind arbiter in
  let! reserve := (if String.eqb name "SplitBusController" || String.eqb name "TripleBusController"
                   then get_opt get_int "response_reserve" p else Ok None) in
  Ok (mkBusParams (p_lower_level_ids b) (p_upper_level_cache_ids b) (p_controller_type b) (p_buffers_max_size b)
        arbiter request response reserve candidates (p_clk_upper b) (p_avail_upper b), a).

Definition new_bus (triple : bool) (o : Object) (m : ParametersMap) (a : Assembly) : outcome (Net * Assembly) :=
  let! c := configure m INTERCONNECT (if triple then "TripleBus" else "Bus") in
  let p := parameters c in
  let! lower := get_ints "m_lower_level_ids" p in
  let! upper := get_ints "upper_level_cache_ids" p in
  let! type := get_string "controller_type" p in
  let! buffers := get_int "buffers_max_size" p in
  let! period := get_int "m_clk_period" p in
  let! a := dprint_of c (register o period a) in
  let b := mkBusParams lower upper type buffers "" 0 0 None [] junk junk_flag in
  let sub := getSubMap c "interconnect_controller" (-1) in
  let! (b, a) := (match bus_controller_name type with Some name => controller_params name sub b a | None => Ok (b, a) end) in
  if triple then
    let! (t, a) := controller_params "TripleBusController" sub b a in
    let! (ctl, e, ifs) := newTripleBus b t in Ok (TripleNet ctl e ifs, a)
  else let! (ctl, e, ifs) := newBus b in Ok (BusNet ctl e ifs, a).

Definition new_direct (o : Object) (m : ParametersMap) (upper_id lower_id : Z) (a : Assembly)
    : outcome (Edges * list BusInterface * Assembly) :=
  let! c := configure m INTERCONNECT "DirectInterconnect" in
  let p := parameters c in
  let! buffers := get_int "buffers_max_size" p in
  let! period := get_int "m_clk_period" p in
  let! a := dprint_of c (register o period a) in
  Ok (newDirectInterconnect upper_id lower_id buffers, a).

(** The rows of the connection matrix, one parameter each. *)
Definition matrix_rows (n : nat) (p : ParametersMap) : outcome (list (list Z)) :=
  ofold (fun rows i => let! row := get_ints (indexed "connection_matrix" (to_string (Z.of_nat i))) p in Ok (rows ++ [row])%list) (seq 0 n) [].

Definition mesh_params (name : string) (m : ParametersMap) (a : Assembly) : outcome (string * Z * Z * Assembly) :=
  let! c := configure m INTERCONNECT name in
  let p := parameters c in
  let! request := get_int "m_request_latency" p in
  let! data := get_int "m_data_latency" p in
  let! arbiter := get_string "arbiter_type" p in
  let! a := dprint_of c a in
  Ok (arbiter, request, data, a).

(** [Mesh] and [NoC]. *)
Definition new_mesh (noc : bool) (o : Object) (m : ParametersMap) (a : Assembly) : outcome (Net * Assembly) :=
  let! c := configure m INTERCONNECT (if noc then "NoC" else "Mesh") in
  let p := parameters c in
  let! components := get_ints "component_ids" p in
  let! buffers := get_int "buffers_max_size" p in
  let! period := get_int "m_clk_period" p in
  let! matrix := matrix_rows (length components) p in
  let! a := dprint_of c (register o period a) in
  let sub := getSubMap c "interconnect_controller" (-1) in
  if noc then
    let! switches := get_ints "switch_ids" p in
    let! matrix := matrix_rows (length components + length switches) p in
    let! (arbiter, request, data, a) := mesh_params "NoCController" sub a in
    let! (n, ifs) := newNoC components switches matrix buffers arbiter request data in
    Ok (NoCNet n ifs, a)
  else
    let! (arbiter, request, data, a) := mesh_params "MeshController" sub a in
    let! (n, ifs) := newMesh components matrix buffers arbiter request data in
    Ok (MeshNet n ifs, a).

(** ** Caches *)

(** [CacheDataHandler] ([cots] false) and [CacheDataHandler_COTS]: their
    parameters; the cell array is built by [newCacheDataHandler]. *)
Definition new_handler (cots : bool) (m : ParametersMap) (a : Assembly) : outcome (HandlerParams * Assembly) :=
  let! c := configure m "" (if cots then "CacheDataHandler_COTS" else "CacheDataHandler") in
  let p := parameters c in
  let! size := get_int "cache_size" p in
  let! block := get_int "m_block_size" p in
  let! ways := get_int "m_ways_count" p in
  let! latency := get_int "m_data_access_latency" p in
  let! pipelined := get_opt get_int "m_data_array_pipelined" p in
  let! ports := get_opt get_int "m_data_array_ports" p in
  let! policy := get_string "replacement_policy_name" p in
  let! partition := get_opt get_string "way_partition" p in
  let! a := dprint_of c a in
  let! pwb := (if cots then get_opt get_int "pwb_size" p else Ok None) in
  Ok (mkHandlerParams size block ways latency pipelined ports policy partition pwb, a).

Definition class_name (cl : ControllerClass) : string :=
  match cl with
  | CacheController => "CacheController" | CacheControllerExclusive => "CacheControllerExclusive"
  | CacheController_End2End => "CacheController_End2End" | CacheControllerDirectory => "CacheControllerDirectory"
  end.

Definition is_directory (p : AnyProtocol) : bool := match p with DirectoryPrivate _ | DirectoryShared _ => true | _ => false end.

(** A directory protocol holds pointers to the maps of a directory controller,
    and only that controller sets them.  Where the two do not fit the code casts
    or dereferences a pointer it must not; the model stops there, at the
    construction. *)
Definition counters_fit (cl : ControllerClass) (p : AnyProtocol) : outcome unit :=
  match cl, is_directory p with
  | CacheControllerDirectory, true => Ok tt
  | CacheControllerDirectory, false => Crash "not a DirectoryProtocol"
  | _, true => Crash "no protocol counters"
  | _, false => Ok tt
  end.

(** A cache controller, base class first: the base class builds a data handler
    and a protocol that the derived class replaces.  The clock period comes
    along. *)
Definition new_controller {IU IL} (cl : ControllerClass) (o : Object) (m : ParametersMap) (cpu_port : bool) (u : IU) (l : IL)
    (sh : Shared) (q : Z) (a : Assembly) : outcome (@Controller AnyProtocol IU IL * Z * Assembly) :=
  let! c := configure m CACHECONTROLLERS (class_name cl) in
  let p := parameters c in
  let! id := get_int "m_id" p in
  let! shared_memory := get_int "m_shared_memory_id" p in
  let! perfect := get_opt get_int "perfect_llc" p in
  let! period := get_int "m_clk_period" p in
  let! queue := get_int "processing_queue_size" p in
  let! type := get_string "protocol_type" p in
  let! fsm := get_string "fsm_filename" p in
  let a := register o period a in
  let sub := getSubMap c "m_data_handler" (-1) in
  let! (base, a) := new_handler false sub a in
  let! _ := newCacheDataHandler base (rand (newest a)) in
  let! _ := getNewProtocol type (files (FSM_PATH +:+ fsm +:+ ".csv")) id shared_memory in
  let! a := dprint_of c a in
  let! arbiter := get_string "arbiter_type" p in
  let! interlock := get_opt get_int "line_interlock" p in
  let! mshr := get_opt get_int "num_mshr" p in
  let! candidates := (if String.eqb arbiter "NULL" then Ok [] else get_ints "arbiter_candidates_ids" p) in
  let! (h, a) := new_handler true sub a in
  let! proto := getNewProtocol type (files (FSM_PATH +:+ fsm +:+ ".csv")) id shared_memory in
  let! _ := counters_fit cl proto in
  let! ctl := newController (mkParams cl id shared_memory perfect queue interlock mshr arbiter candidates h cpu_port)
                proto u l (rand (newest a)) (reqId sh) q in
  Ok (ctl, w64 period, a).

(** ** Cores *)

Inductive Core := TraceCore (c : CPU BusInterface) | ExternalCore (x : ExternalCPU BusInterface).

(** The lines of a file. *)
Definition file_lines (path : string) : option (list string) := (fun text => fields (Some text) "010") <$> files path.

(** [CPU]; the name of the workload tells a task from a trace. *)
Definition workload_of (path : string) : Workload :=
  let n := String.length path in
  if (9 <? n)%nat && String.eqb (drop_chars (n - 9) path) ".task.csv" then WTask (file_lines path)
  else match path with "" => WIdle | _ => WTrace (file_lines path) end.

Definition new_cpu (o : Object) (m : ParametersMap) (id : Z) (upper : BusInterface) (path : string) (sh : Shared) (a : Assembly)
    : outcome (Core * Shared * Assembly) :=
  let! c := configure m "" "CPU" in
  let p := parameters c in
  let! period := get_int "m_clk_period" p in
  let! window := get_int "m_number_of_OoO_requests" p in
  let! a := dprint_of c (trigger_newest (register o period a)) in
  let! (core, sh) := newCPU id window addr_first (workload_of path) upper sh in
  Ok (TraceCore core, sh, a).

Definition new_external (o : Object) (m : ParametersMap) (id : Z) (upper : BusInterface) (a : Assembly) : outcome (Core * Assembly) :=
  let! c := configure m "" "ExternalCPU" in
  let p := parameters c in
  let! period := get_int "m_clk_period" p in
  let! _ := get_opt get_int "log_requests" p in
  Ok (ExternalCore (newExternalCPU id upper), register o period a).

(** ** Memory *)

Inductive MemoryObject := BasicMemory (m : @MainMemory Port) | MCsimMemory (i : MCsimInterface Port MCsim).

Definition new_memory (o : Object) (m : ParametersMap) (lower : Port) (a : Assembly) : outcome (MemoryObject * Assembly) :=
  let! c := configure m "" "MainMemoryController" in
  let p := parameters c in
  let! period := get_int "m_clk_period" p in
  let! id := get_int "m_id" p in
  let! llc := get_int "m_llc_id" p in
  let! latency := get_int "m_memory_latency" p in
  let! queue := get_opt get_int "processing_queue_size" p in
  let! a := dprint_of c (register o period a) in
  Ok (BasicMemory (newMainMemory id llc latency queue lower), a).

(** [MCsimInterface], with the settings of its [ini] file. *)
Definition new_mcsim (o : Object) (lower : Port) (dram_id llc_id num_cores block_size period : Z) (mem_system : string) (fuel : nat) (a : Assembly)
    : outcome (MemoryObject * Assembly) :=
  if period =? 0 then Exit "MCsimInterface: clock period must be non-zero" else
  let! sim := getMemorySystemInstance (Z.to_nat num_cores)
                (file_lines (MCSIM_PATH +:+ "system/" +:+ mem_system +:+ "/" +:+ mem_system +:+ ".ini")) junk in
  let! i := newMCsimInterface lower dram_id llc_id block_size period (mkMCsimSim sim true junk fuel) junk_bytes in
  Ok (MCsimMemory i, register_at o period a).
End Assembly.
