(* ===== verification/System.v ===== *)
(** * The assembled system

    [MultiCoreSystem] and [MultiCoreSystem_Mesh] ([src/SystemConfigurations/]),
    [CacheSim] ([src/CacheSim.cpp]): the constructors build the components of
    [Assembly] and plug them into one another, and the clock manager of
    [ClockManager] runs them.  A component's cycle is the cycle its own file
    models, on the interfaces it is plugged into and the counters every
    component shares. *)

From S2P Require Export Assembly.

Local Open Scope string_scope.
Open Scope Z_scope.

(** ** State *)

(** A core, its cache and the connection between them.  The three [option nat]
    are the interfaces the core and the cache were given, [None] a null pointer. *)
Record CoreNode := mkNode {
  n_edges : Edges;
  n_link : list BusInterface;
  n_core : Core;
  n_core_port : option nat;                 (* in [n_link] *)
  n_cache : @Controller AnyProtocol Port BusInterface;
  n_lower : option nat;                     (* in [n_link] *)
  n_upper : option nat }.                   (* in the first interconnect *)

(** The shared cache, between the first interconnect and the second. *)
Record SharedCache := mkSharedCache {
  sc_cache : @Controller AnyProtocol Port Port;
  sc_lower : option nat;
  sc_upper : option nat }.

Record System {E Mem : Type} := mkSystem {
  nets : list Net;
  nodes : list CoreNode;
  shared_cache : SharedCache;
  memory : MemoryObject;
  memory_port : option nat;                 (* in the second interconnect *)
  shared : Shared;
  delivery_seq : Z;                         (* BusInterface::s_rx_delivery_seq *)
  embedder : E;
  memory_component : option Mem }.
Arguments System : clear implicits.
Arguments mkSystem {E Mem}.

Definition at_port {A} (l : list A) (k : option nat) : outcome (nat * A) :=
  match k with
  | None => Crash null_pointer
  | Some k => match l !! k with Some a => Ok (k, a) | None => Crash null_pointer end
  end.

Section System.
Context {E Mem : Type} `{!Embedder E, !Initializable Mem}.
Implicit Types s : System E Mem.

Definition set_nets (l : list Net) s : System E Mem :=
  mkSystem l (nodes s) (shared_cache s) (memory s) (memory_port s) (shared s) (delivery_seq s) (embedder s) (memory_component s).
Definition set_nodes (l : list CoreNode) s : System E Mem :=
  mkSystem (nets s) l (shared_cache s) (memory s) (memory_port s) (shared s) (delivery_seq s) (embedder s) (memory_component s).
Definition set_shared_cache (c : SharedCache) s : System E Mem :=
  mkSystem (nets s) (nodes s) c (memory s) (memory_port s) (shared s) (delivery_seq s) (embedder s) (memory_component s).
Definition set_memory (m : MemoryObject) s : System E Mem :=
  mkSystem (nets s) (nodes s) (shared_cache s) m (memory_port s) (shared s) (delivery_seq s) (embedder s) (memory_component s).
Definition set_counters (sh : Shared) (q : Z) s : System E Mem :=
  mkSystem (nets s) (nodes s) (shared_cache s) (memory s) (memory_port s) sh q (embedder s) (memory_component s).
Definition set_outside (e : E) (m : option Mem) s : System E Mem :=
  mkSystem (nets s) (nodes s) (shared_cache s) (memory s) (memory_port s) (shared s) (delivery_seq s) e m.

(** ** Cycles *)

(** The port [k] of interconnect [n]. *)
Definition port_at (n : nat) (k : option nat) s : outcome (nat * Port) :=
  match nets s !! n with Some net => at_port (net_ports net) k | None => Crash null_pointer end.
Definition put_at (n k : nat) (p : Port) s : System E Mem := set_nets (alter (put_port k p) n (nets s)) s.

Definition net_step (n : nat) s : outcome (System E Mem) :=
  match nets s !! n with
  | None => Crash null_pointer
  | Some net =>
      let! (net, q) := net_cycleProcess net (delivery_seq s) in
      Ok (set_counters (shared s) q (set_nets (<[n := net]> (nets s)) s))
  end.

Definition with_link (e : Edges) (l : list BusInterface) (n : CoreNode) : CoreNode :=
  mkNode e l (n_core n) (n_core_port n) (n_cache n) (n_lower n) (n_upper n).
Definition with_core (c : Core) (n : CoreNode) : CoreNode :=
  mkNode (n_edges n) (n_link n) c (n_core_port n) (n_cache n) (n_lower n) (n_upper n).
Definition with_cache (c : @Controller AnyProtocol Port BusInterface) (n : CoreNode) : CoreNode :=
  mkNode (n_edges n) (n_link n) (n_core n) (n_core_port n) c (n_lower n) (n_upper n).

Definition link_step (i : nat) (n : CoreNode) s : outcome (System E Mem) :=
  let! (e, (l, q)) := direct_cycleProcess (n_edges n) (n_link n, delivery_seq s) in
  Ok (set_counters (shared s) q (set_nodes (<[i := with_link e l n]> (nodes s)) s)).

(** What a controller is handed at its cycle: its two interfaces and the two
    counters. *)
Definition plug {P IU IL} (u : IU) (l : IL) (sh : Shared) (q : Z) (c : @Controller P IU IL) : @Controller P IU IL :=
  set_rx_seq q (set_next_req_id (reqId sh) (set_upper u (set_lower l c))).
Definition counters_of {P IU IL} (sh : Shared) (c : @Controller P IU IL) : Shared := mkShared (next_req_id c) (s_finite_cores_running sh).

Definition cache_step (fuel i : nat) (n : CoreNode) s : outcome (System E Mem) :=
  let! (ku, u) := port_at 0 (n_upper n) s in
  let! (kl, l) := at_port (n_link n) (n_lower n) in
  let! c := cycleProcess fuel (plug u l (shared s) (delivery_seq s) (n_cache n)) in
  let n := with_cache c (with_link (n_edges n) (<[kl := ControllerState.lower c]> (n_link n)) n) in
  Ok (put_at 0 ku (ControllerState.upper c) (set_counters (counters_of (shared s) c) (rx_seq c) (set_nodes (<[i := n]> (nodes s)) s))).

Definition llc_step (fuel : nat) s : outcome (System E Mem) :=
  let sc := shared_cache s in
  let! (ku, u) := port_at 1 (sc_upper sc) s in
  let! (kl, l) := port_at 0 (sc_lower sc) s in
  let! c := cycleProcess fuel (plug u l (shared s) (delivery_seq s) (sc_cache sc)) in
  Ok (put_at 1 ku (ControllerState.upper c) (put_at 0 kl (ControllerState.lower c)
        (set_counters (counters_of (shared s) c) (rx_seq c) (set_shared_cache (mkSharedCache c (sc_lower sc) (sc_upper sc)) s)))).

Definition memory_step s : outcome (System E Mem) :=
  let! (k, l) := port_at 1 (memory_port s) s in
  match memory s with
  | BasicMemory m =>
      let! m := mm_cycleProcess (mm_set (m_clk_cycle m) (m_read_count m) (m_write_count m) l (mm_queue m) m) in
      Ok (put_at 1 k (mm_lower m) (set_memory (BasicMemory m) s))
  | MCsimMemory i =>
      let! i := mi_cycleProcess (mi_set (mi_pending i) (m_output_buffer i) l (mi_queue i) (m_mcsim i) i) in
      Ok (put_at 1 k (mi_lower i) (set_memory (MCsimMemory i) s))
  end.

(** A core; the boolean asks the clock manager to stop its clock. *)
Definition core_step (fuel i : nat) (n : CoreNode) s : outcome (bool * System E Mem) :=
  let! (k, p) := at_port (n_link n) (n_core_port n) in
  let back (c : Core) (p : BusInterface) s : System E Mem :=
    set_nodes (<[i := with_core c (with_link (n_edges n) (<[k := p]> (n_link n)) n)]> (nodes s)) s in
  match n_core n with
  | TraceCore c =>
      let! (stop, c, sh) := cpu_cycleProcess (set_cpu_upper p c) (shared s) in
      Ok (stop, back (TraceCore c) (cpu_upper c) (set_counters sh (delivery_seq s) s))
  | ExternalCore x =>
      let! (x, o) := ext_cycleProcess fuel (ext_set (m_link_full_holds x) p (ext_queue x) x) (embedder s, memory_component s, shared s) in
      let '(e, m, sh) := o in
      Ok (false, back (ExternalCore x) (ext_upper x) (set_outside e m (set_counters sh (delivery_seq s) s)))
  end.

Definition node_at {A} (i : nat) (f : CoreNode -> outcome A) s : outcome A :=
  match nodes s !! i with Some n => f n | None => Crash null_pointer end.

(** [cycleProcess()] of a clocked object. *)
Definition object_step (fuel : nat) (o : Object) s : outcome (bool * System E Mem) :=
  let quiet (r : outcome (System E Mem)) := let! s := r in Ok (false, s) in
  match o with
  | NetObj k => quiet (net_step k s)
  | LinkObj i => quiet (node_at i (fun n => link_step i n s) s)
  | CoreObj i => node_at i (fun n => core_step fuel i n s) s
  | CacheObj i => quiet (node_at i (fun n => cache_step fuel i n s) s)
  | LLCObj => quiet (llc_step fuel s)
  | MemoryObj => quiet (memory_step s)
  | DebugObj => Ok (false, s)
  end.

(** [init()] of a clocked object. *)
Definition init_cache {IU IL} (c : @Controller AnyProtocol IU IL) : outcome (@Controller AnyProtocol IU IL) :=
  match protocol c with NullProtocol => Crash null_pointer | _ => Ok (init c) end.
Definition init_node (i : nat) (n : CoreNode) s : outcome (System E Mem) :=
  let! c := init_cache (n_cache n) in Ok (set_nodes (<[i := with_cache c n]> (nodes s)) s).
Definition init_core (i : nat) (n : CoreNode) s : outcome (System E Mem) :=
  match n_core n with
  | TraceCore c =>
      let! (c, sh) := cpu_init c (shared s) in
      Ok (set_counters sh (delivery_seq s) (set_nodes (<[i := with_core (TraceCore c) n]> (nodes s)) s))
  | ExternalCore _ => Ok s
  end.
Definition object_init (o : Object) s : outcome (System E Mem) :=
  match o with
  | CoreObj i => node_at i (fun n => init_core i n s) s
  | CacheObj i => node_at i (fun n => init_node i n s) s
  | LLCObj =>
      let sc := shared_cache s in
      let! c := init_cache (sc_cache sc) in Ok (set_shared_cache (mkSharedCache c (sc_lower sc) (sc_upper sc)) s)
  | _ => Ok s
  end.

(** ** The clock *)

Section Clocked.
(** The objects the constructors registered, with their periods. *)
Context (objects : list (Object * Z)) (fuel : nat).

Definition object_at (obj : Z) : Object * Z := nth (Z.to_nat obj) objects (DebugObj, 0).
Definition period_of (obj : Z) : Z := snd (object_at obj).
Definition object_cycle (obj : Z) s : outcome (System E Mem * list Z) :=
  let! (stop, s) := object_step fuel (fst (object_at obj)) s in Ok (s, if stop : bool then [obj] else []).

(** [ClockManager::init]. *)
Definition system_init (m : ClockManager) s : outcome (ClockManager * System E Mem) :=
  let! s := ofold (fun s e => object_init (fst (object_at (clocked_obj e))) s) (events m) s in
  let! m := init_periods period_of m in Ok (m, s).

(** [CacheSim::step] and [CacheSim::run]. *)
Definition system_step (m : ClockManager) s : outcome (ClockManager * System E Mem) :=
  clkStep period_of object_cycle (S (length (events m))) m s.
Definition system_run (n : nat) (m : ClockManager) s : outcome (ClockManager * System E Mem) :=
  run period_of object_cycle n m s.
End Clocked.
End System.

(** ** Construction *)

Section Construction.
Context {E Mem : Type} `{!Embedder E, !Initializable Mem}.
Context (files : string -> option string) (depth : nat) (CONFIGURATION_PATH FSM_PATH MCSIM_PATH current_path : string).
Context (rand : Z -> nat -> Z) (addr_first : bool) (junk : Z) (junk_flag : bool) (junk_bytes : bytes) (mcsim_turns : nat).

(** The files and paths are those of this section. *)
Abbreviation new_bus := (new_bus files depth CONFIGURATION_PATH junk junk_flag).
Abbreviation new_mesh := (new_mesh files depth CONFIGURATION_PATH).
Abbreviation new_direct := (new_direct files depth CONFIGURATION_PATH).
Abbreviation new_cpu := (new_cpu files depth CONFIGURATION_PATH addr_first).
Abbreviation new_external := (new_external files depth CONFIGURATION_PATH).
Abbreviation new_memory := (new_memory files depth CONFIGURATION_PATH).
Abbreviation new_mcsim := (new_mcsim files MCSIM_PATH junk junk_bytes).

(** [createController].  A plain [BaseController] is not modelled as an object
    of its own. *)
Definition createController {IU IL} (type : string) (o : Object) (m : ParametersMap) (cpu_port : bool) (u : IU) (l : IL)
    (sh : Shared) (q : Z) (a : Assembly) : outcome (@Controller AnyProtocol IU IL * Z * Assembly) :=
  let make cl := new_controller files depth CONFIGURATION_PATH FSM_PATH rand cl o m cpu_port u l sh q a in
  if String.eqb type "BaseController" then Crash "BaseController alone"
  else if String.eqb type "CacheController" then make CacheController
  else if String.eqb type "CacheControllerExclusive" then make CacheControllerExclusive
  else if String.eqb type "CacheController_End2End" then make CacheController_End2End
  else if String.eqb type "CacheControllerDirectory" then make CacheControllerDirectory
  else Exit "Error: wrong cache controller type.".

(** [std::ifstream(path).good()] *)
Definition good (path : string) : bool := match files path with Some _ => true | None => false end.

(** The workload of core [i]: a task program, else a trace, else none. *)
Definition workload_path (workload_dir : string) (i : Z) : string :=
  let task := workload_dir +:+ "/task_C" +:+ to_string i +:+ ".task.csv" in
  let trace := workload_dir +:+ "/trace_C" +:+ to_string i +:+ ".trc.shared" in
  if good task then task else if good trace then trace else "".
(** [MultiCoreSystem_Mesh] names the trace without looking for it. *)
Definition trace_path (workload_dir : string) (i : Z) : string := workload_dir +:+ "/trace_C" +:+ to_string i +:+ ".trc.shared".

(** What stands where a pointer is null; no cycle gets to it. *)
Definition unplugged : BusInterface := newBusInterface 0 0.
Definition bus_port (l : list BusInterface) (k : option nat) : BusInterface := default unplugged (j ← k; l !! j).
Definition net_port (n : Net) (k : option nat) : Port := default (BusPortOf unplugged) (j ← k; net_ports n !! j).

(** Core [i] with its cache, plugged into [net]. *)
Definition new_node (c : Configurable) (external : bool) (controller_type path : string) (net : Net) (i : nat) (st : Shared * Assembly)
    : outcome (CoreNode * (Shared * Assembly)) :=
  let '(sh, a) := st in
  let sub name := getSubMap c name (Z.of_nat i) in
  let! cache_id := get_int "m_id" (sub "cache_controller") in
  let! (e, link, a) := new_direct (LinkObj i) (sub "cpu_interconnect") cache_id (-1) a in
  let kc := bus_getInterfaceFor link (-1) in
  let! (core, sh, a) :=
    (if external then let! (core, a) := new_external (CoreObj i) (sub "cpu") cache_id (bus_port link kc) a in Ok (core, sh, a)
     else new_cpu (CoreObj i) (sub "cpu") cache_id (bus_port link kc) path sh a) in
  let ku := net_getInterfaceFor net cache_id in
  let kl := bus_getInterfaceFor link cache_id in
  let! (cache, _, a) := createController controller_type (CacheObj i) (sub "cache_controller") external
                          (net_port net ku) (bus_port link kl) sh 0 a in
  Ok (mkNode e link core kc cache kl ku, (sh, a)).

Fixpoint new_nodes (c : Configurable) (external : bool) (controller_type : string) (path : Z -> string) (net : Net) (idx : list nat)
    (st : Shared * Assembly) : outcome (list CoreNode * (Shared * Assembly)) :=
  match idx with
  | [] => Ok ([], st)
  | i :: idx' =>
      let! (n, st) := new_node c external controller_type (path (Z.of_nat i)) net i st in
      let! (l, st) := new_nodes c external controller_type path net idx' st in
      Ok (n :: l, st)
  end.

Definition new_shared_cache (c : Configurable) (controller_type : string) (lower upper : Net) (st : Shared * Assembly)
    : outcome (SharedCache * Z * Z * (Shared * Assembly)) :=
  let '(sh, a) := st in
  let m := getSubMap c "llc_controller" (-1) in
  let! id := get_int "m_id" m in
  let ku := net_getInterfaceFor upper id in
  let kl := net_getInterfaceFor lower id in
  let! (cache, period, a) := createController controller_type LLCObj m false (net_port upper ku) (net_port lower kl) sh 0 a in
  Ok (mkSharedCache cache kl ku, id, period, (sh, a)).

(** The buses of [MultiCoreSystem]. *)
Definition new_system_bus (c : Configurable) (k : nat) (type : string) (a : Assembly) : outcome (Net * Assembly) :=
  let m := getSubMap c "bus" (Z.of_nat k) in
  if String.eqb type "TripleBus" then new_bus true (NetObj k) m a
  else if String.eqb type "Bus" then new_bus false (NetObj k) m a
  else Exit "Error unsupported bus type".
Fixpoint new_system_buses (c : Configurable) (k : nat) (types : list string) (a : Assembly) : outcome (list Net * Assembly) :=
  match types with
  | [] => Ok ([], a)
  | t :: types' =>
      let! (n, a) := new_system_bus c k t a in
      let! (l, a) := new_system_buses c (S k) types' a in Ok (n :: l, a)
  end.

(** [IdGenerator] starts at 1. *)
Definition startShared : Shared := mkShared 1 0.

(** The parts that both systems share, once the interconnect, and after the
    cores the bus to the memory, are there. *)
Definition finish_system (c : Configurable) (controller_type : string) (mcsim : option string) (num_cores : Z)
    (interconnect bus : Net) (others : list Net) (ns : list CoreNode) (e : E) (st : Shared * Assembly)
    : outcome (list (Object * Z) * ClockManager * System E Mem) :=
  let! (sc, llc_id, period, (sh, a)) := new_shared_cache c controller_type interconnect bus st in
  let! memory_id := get_int "m_id" (getSubMap c "m_main_memory" (-1)) in
  let km := net_getInterfaceFor bus memory_id in
  let! (mem, a) :=
    match mcsim with
    | Some mem_system => new_mcsim MemoryObj (net_port bus km) memory_id llc_id num_cores 64 period mem_system mcsim_turns a
    | None => new_memory MemoryObj (getSubMap c "MainMemoryController" (-1)) (net_port bus km) a
    end in
  Ok (as_objects a, as_clock a, mkSystem (interconnect :: bus :: others) ns sc mem km sh 0 e None).

Definition newMultiCoreSystem (cl_params : list string) (config_name config_path : string) (e : E)
    : outcome (list (Object * Z) * ClockManager * System E Mem) :=
  let! c := newSystemConfig files depth current_path CONFIGURATION_PATH cl_params config_path config_name in
  let p := parameters c in
  let! workload := get_string "workload_path" p in
  let! num_cores := get_int "num_cores" p in
  let! bus_type := get_strings "bus_type" p in
  let! controller_type := get_string "cache_controller_type" p in
  let! llc_type := get_opt get_string "llc_controller_type" p in
  let! cpu_type := get_opt get_string "cpu_type" p in
  let! (buses, a) := new_system_buses c 0 bus_type noAssembly in
  match buses with
  | [] => Crash "array index out of range"
  | bus0 :: more =>
      let external := match cpu_type with Some t => String.eqb t "ExternalCPU" | None => false end in
      let! (ns, st) := new_nodes c external controller_type (workload_path workload) bus0 (seq 0 (Z.to_nat num_cores)) (startShared, a) in
      match more with
      | [] => Crash "array index out of range"
      | bus1 :: others =>
          let! memory_type := get_opt get_string "main_memory_type" p in
          let! scheduler := get_opt get_string "mcsim_scheduler" p in
          let mcsim := if String.eqb (default "MainMemoryController" memory_type) "MCsim" then Some (default "FRFCFS" scheduler) else None in
          finish_system c (default controller_type llc_type) mcsim num_cores bus0 bus1 others ns e st
      end
  end.

Definition newMultiCoreSystem_Mesh (cl_params : list string) (config_path config_name : string) (e : E)
    : outcome (list (Object * Z) * ClockManager * System E Mem) :=
  let! c := newSystemConfig files depth current_path CONFIGURATION_PATH cl_params config_path config_name in
  let p := parameters c in
  let! workload := get_string "workload_path" p in
  let! num_cores := get_int "num_cores" p in
  let! controller_type := get_string "cache_controller_type" p in
  let! interconnect_type := get_string "interconnect_type" p in
  let m := getSubMap c "interconnect" (-1) in
  let! (net, a) :=
    (if String.eqb interconnect_type "Mesh" then new_mesh false (NetObj 0) m noAssembly
     else if String.eqb interconnect_type "NoC" then new_mesh true (NetObj 0) m noAssembly
     else Crash "uninitialised pointer") in
  let! (ns, (sh, a)) := new_nodes c false controller_type (trace_path workload) net (seq 0 (Z.to_nat num_cores)) (startShared, a) in
  let! (bus, a) := new_bus false (NetObj 1) (getSubMap c "bus" (-1)) a in
  finish_system c controller_type None num_cores net bus [] ns e (sh, a).
End Construction.
