(* ===== verification/Simulator.v ===== *)
(** * The simulator

    [CacheSim] ([src/CacheSim.cpp]) finds the system's configuration file, builds
    the system and prepares its clock; [main]
    ([Octopus_Simulator.cpp]) reads the command line and runs it.  The log files
    are left out, but for the simulator's refusal to go on without them. *)

From S2P Require Export System.

Local Open Scope string_scope.
Open Scope Z_scope.

(** ** Paths *)

(** The text before and after the last [c]. *)
Fixpoint split_last (c : ascii) (s : string) : option (string * string) :=
  match s with
  | "" => None
  | String a s' =>
      match split_last c s' with
      | Some (l, r) => Some (String a l, r)
      | None => if chr_is c a then Some ("", s') else None
      end
  end.

Definition has_parent_path (p : string) : bool := match split_last "/" p with Some _ => true | None => false end.
(** Of a path without doubled separators. *)
Definition parent_path (p : string) : string :=
  match split_last "/" p with Some ("", _) => "/" | Some (l, _) => l | None => "" end.
Definition filename (p : string) : string := match split_last "/" p with Some (_, r) => r | None => p end.

(** A name that is all stem: a single leading dot starts no extension. *)
Definition name_split (name : string) : string * string :=
  if String.eqb name ".." then (name, "") else
  match split_last "." name with
  | None | Some ("", _) => (name, "")
  | Some (l, r) => (l, String "." r)
  end.
Definition stem (p : string) : string := fst (name_split (filename p)).
Definition extension (p : string) : string := snd (name_split (filename p)).

Definition absolute (current_path p : string) : string := if is_absolute p then p else path_append current_path p.

Definition SYSTEM_CONFIGURATIONS : string := "SystemConfigurations".

Section Simulator.
Context {E Mem : Type} `{!Embedder E, !Initializable Mem}.
Context (files : string -> option string) (depth : nat) (CONFIGURATION_PATH FSM_PATH MCSIM_PATH current_path : string).
Context (rand : Z -> nat -> Z) (addr_first : bool) (junk : Z) (junk_flag : bool) (junk_bytes : bytes) (mcsim_turns : nat).
(** What the file system says to a directory, and to a file to be written. *)
Context (create_directories open_for_writing : string -> bool).

(** ** [CacheSim] *)

(** The file of the system's configuration. *)
Definition system_file (system_name config : string) : string :=
  let config := match config with "" => system_name | _ => config end in
  let file := if has_parent_path config then config
              else path_append (path_append CONFIGURATION_PATH SYSTEM_CONFIGURATIONS) config in
  let file := if String.eqb (extension file) ".csv" then file else file +:+ ".csv" in
  lexically_normal (absolute current_path file).

(** The run directory and the configuration log in it. *)
Definition open_logs (print_config : bool) (output_dir : string) : outcome unit :=
  match output_dir with
  | "" => Ok tt
  | _ =>
      if negb (create_directories output_dir) then Exit "Cannot create logger output directory"
      else if print_config && negb (open_for_writing (path_append output_dir "config.log")) then Exit "Cannot write configuration log"
      else Ok tt
  end.

(** The constructor: the clocked objects, the clock manager and the system. *)
Definition newCacheSim (system_name : string) (cl_params : list string) (print_config : bool) (config output_dir : string) (e : E)
    : outcome (list (Object * Z) * ClockManager * System E Mem) :=
  let! _ := open_logs print_config output_dir in
  let config_file := system_file system_name config in
  if negb (good files config_file) then Exit "Cannot read system configuration" else
  let config_dir := parent_path config_file in
  let config_name := stem config_file in
  let! (objects, m, s) :=
    if String.eqb system_name "MultiCoreSystem" then
      newMultiCoreSystem files depth CONFIGURATION_PATH FSM_PATH MCSIM_PATH current_path rand addr_first junk junk_flag junk_bytes mcsim_turns
        cl_params config_name config_dir e
    else if String.eqb system_name "MultiCoreSystem_Mesh" then
      newMultiCoreSystem_Mesh files depth CONFIGURATION_PATH FSM_PATH MCSIM_PATH current_path rand addr_first junk junk_flag junk_bytes mcsim_turns
        cl_params config_dir config_name e
    else Exit "Error wrong system configuration." in
  let! (m, s) := system_init objects m s in
  Ok (objects, m, s).

(** ** [main] *)

Definition takes_value (a : string) : bool := String.eqb a "-o" || String.eqb a "-c" || String.eqb a "--config".
(** An option at the end, or before nothing or another option. *)
Fixpoint missing_value (args : list string) : bool :=
  match args with
  | [] => false
  | a :: args' =>
      (takes_value a && match args' with String c _ :: _ => chr_is "-" c | _ => true end) || missing_value args'
  end.

(** [getParam(...).back()], [absent] where there is none. *)
Definition last_param (absent : string) (lines : list string) (identifier : string) : string :=
  default absent (last (getParam lines identifier)).

(** The run: [turns] bounds the steps of simulated time, [fuel] a cache's
    service loop. *)
Definition octopus_main (fuel turns : nat) (argv : list string) (e : E)
    : outcome (list (Object * Z) * ClockManager * System E Mem) :=
  if missing_value (tail argv) then Exit "Missing value" else
  let lines := newCLParser argv in
  match last (getParam lines "-s") with
  | None => Exit "Usage"
  | Some system_name =>
      let print_config := match getParam lines "--PrintConfig" with [] => false | _ => true end in
      let! (objects, m, s) := newCacheSim system_name (getParam lines "-p") print_config
                                (last_param "" lines "--config") (last_param "" lines "-o") e in
      let! (m, s) := system_run objects fuel turns m s in
      Ok (objects, m, s)
  end.
End Simulator.
