(* ===== verification/CoreTheory.v ===== *)
(** * When a core is finished

    A core that is done has nothing outstanding and has played its workload to
    the end, and it stays as it is; what never changes in a core. *)

From S2P Require Export CpuTheory.

Local Open Scope list_scope.
Open Scope Z_scope.

Section Finished.
Context {IU : Type} `{!CommInterface IU}.
Implicit Types c : CPU IU.

(** What the constructor fixes. *)
Definition setup c : Z * bool * bool * Task := (m_number_of_OoO_requests c, m_periodic c, m_idle c, task c).

(** Nothing outstanding; a trace is played to its last line, a finite task has
    run all its jobs. *)
Record at_rest c : Prop := mk_at_rest {
  ar_sent : m_sent_requests c = 0;
  ar_trace : m_periodic c = false -> m_idle c = false ->
    m_sample_in_progess c = None /\ exists lines, m_workload_file c = Some lines /\ (length lines <= 1)%nat;
  ar_task : m_periodic c = true -> 0 <= m_jobs_total (task c) -> m_jobs_total (task c) <= i64 (m_job_index (job c)) }.

Definition rests_when_done c : Prop := m_simulation_done c = true -> at_rest c.

Lemma issue_keeps base s c b c' : issue base s c = Ok (b, c') -> setup c' = setup c /\ m_simulation_done c' = m_simulation_done c.
Proof.
  unfold issue. destruct (negb _); [by intros [= _ <-]|]. destruct (negb _); [by intros [= _ <-]|].
  intros ([[] i] & _ & H)%obind_Ok; by injection H as _ <-.
Qed.

Lemma expandJob_keeps c sh c' sh' : expandJob c sh = (c', sh') -> setup c' = setup c /\ m_simulation_done c' = m_simulation_done c.
Proof. unfold expandJob. destruct (foldl _ _ _) as [[[? ?] ?] ?]. by intros [= <- _]. Qed.

Lemma finishJob_rests f c sh c' sh' : finishJob f c sh = (c', sh') -> m_periodic c = true -> m_simulation_done c = false ->
  m_sent_requests c = 0 -> setup c' = setup c /\ rests_when_done c'.
Proof.
  intros E Hp Hd Hs. unfold finishJob in E. destruct (Z.ltb_spec (m_jobs_total (task c)) 0).
  - destruct (_ =? 0).
    + injection E as <- _. split; [done|]. intros _. split; cbn; [done|congruence|intros; lia].
    + apply expandJob_keeps in E as [-> E]. split; [done|]. intros Hd'. rewrite E in Hd'. cbn in Hd'. congruence.
  - destruct (skip_periods _ _ _ _ _) as [n k]. destruct (Z.leb_spec (m_jobs_total (task c)) (i64 (w64 (m_job_index (job c) + (1 + n))))).
    + injection E as <- _. split; [done|]. intros _. by split; cbn; [|congruence|].
    + apply expandJob_keeps in E as [-> E]. split; [done|]. intros Hd'. rewrite E in Hd'. cbn in Hd'. congruence.
Qed.

(** A logic step that leaves the core running keeps the promise. *)
Lemma still_running c c' : setup c' = setup c /\ m_simulation_done c' = m_simulation_done c -> m_simulation_done c = false ->
  setup c' = setup c /\ rests_when_done c'.
Proof. intros [E1 E2] Hd. split; [done|]. intros Hd'. congruence. Qed.

Lemma processLogic_rests c sh c' sh' : m_periodic c = false -> m_simulation_done c = false -> processLogic c sh = Ok (c', sh') ->
  setup c' = setup c /\ rests_when_done c'.
Proof.
  intros Hp Hd. unfold processLogic. destruct (m_sample_in_progess c) as [s|] eqn:Es.
  - intros ([b c1] & Hi%issue_keeps & [= <- _])%obind_Ok. by apply still_running.
  - intros ([r sh1] & Hr & H)%obind_Ok. destruct r as [[s file]|].
    + apply obind_Ok in H as ([b c1] & Hi%issue_keeps & [= <- _]). by apply still_running in Hi.
    + destruct (Z.eqb_spec (m_sent_requests c) 0); injection H as <- _; [|by apply still_running].
      split; [done|]. intros _. split; cbn; [done| |congruence]. intros _ _. split; [done|]. unfold readSampleFromWorkload in Hr.
      destruct (m_workload_file c) as [[|l1 [|l2 l]]|]; [by eexists; split; [reflexivity|cbn; lia]..| |done].
      by destruct (read_message _ _ _ _).
Qed.

Lemma periodicLogic_rests c sh c' sh' : m_periodic c = true -> m_simulation_done c = false -> periodicLogic c sh = Ok (c', sh') ->
  setup c' = setup c /\ rests_when_done c'.
Proof.
  intros Hp Hd. unfold periodicLogic. destruct (_ <? _); [by intros [= <- _]; apply still_running|].
  assert (Hi : forall s c0 sh0, setup c0 = setup c /\ m_simulation_done c0 = m_simulation_done c -> periodic_issue s c0 sh0 = Ok (c', sh') ->
    setup c' = setup c /\ rests_when_done c').
  { intros s c0 sh0 [E1 E2]. unfold periodic_issue. intros ([b c1] & [E3 E4]%issue_keeps & [= <- _])%obind_Ok.
    apply still_running; [|done]. rewrite <- E1, <- E2, <- E3, <- E4. by destruct b. }
  destruct (m_sample_in_progess c) as [s|]; [by apply Hi|].
  destruct (m_job_samples (job c) !! m_job_next (job c)) as [s|]; [by apply Hi|].
  destruct (Z.eqb_spec (m_sent_requests c) 0) as [Hs|]; [|by intros [= <- _]; apply still_running].
  destruct (_ <? _); [by intros [= <- _]; apply still_running|]. intros [= E]. by eapply finishJob_rests.
Qed.

Lemma checkReceiveBuffer_keeps c c' : checkReceiveBuffer c = Ok c' -> setup c' = setup c /\ m_simulation_done c' = m_simulation_done c.
Proof.
  unfold checkReceiveBuffer. destruct (peekMessage (cpu_upper c)) as [[m|] i]; [|by intros [= <-]].
  destruct (i32 _ <? 0); [done|]. intros [= <-]. cbn. destruct (m_periodic c); [unfold account|done]. cbn. by destruct (m_issue_cycle c !! msg_id m).
Qed.

(** One cycle: a finished core stays as it is and asks for its clock to stop;
    another keeps its setup, and is at rest if this cycle finished it. *)
Lemma cpu_cycle_rests c sh stop c' sh' : rests_when_done c -> cpu_cycleProcess c sh = Ok (stop, c', sh') ->
  setup c' = setup c /\ rests_when_done c' /\ (stop = true -> m_simulation_done c' = true) /\
  (m_simulation_done c = true -> m_simulation_done c' = true).
Proof.
  intros Hr. unfold cpu_cycleProcess. destruct (m_simulation_done c) eqn:Hd; [by intros [= <- <- _]|].
  intros (c1 & [E1 E2]%checkReceiveBuffer_keeps & ([c2 sh2] & Hl & [= <- <- _])%obind_Ok)%obind_Ok. rewrite Hd in E2.
  assert (H : setup c2 = setup c1 /\ rests_when_done c2).
  { destruct (m_periodic c1) eqn:Hp; [by eapply periodicLogic_rests|by eapply processLogic_rests]. }
  destruct H as [E3 H]. rewrite <- E1, <- E3. split_and!; [done| |done..]. intros Hd'. by destruct (H Hd').
Qed.

(** A core that has not run a cycle yet: only an idle one can be done. *)
Definition unstarted c : Prop :=
  m_sent_requests c = 0 /\ (m_simulation_done c = true -> m_idle c = true) /\ (m_idle c = true -> m_periodic c = false).

Lemma unstarted_rests c : unstarted c -> rests_when_done c.
Proof. intros (Hs & Hd & Hi) H. pose proof (Hd H). specialize (Hi (Hd H)). split; [done|congruence..]. Qed.

Lemma newCPU_unstarted id ooo af w u sh c sh' : newCPU id ooo af w u sh = Ok (c, sh') -> unstarted c.
Proof.
  unfold newCPU. destruct w as [|file|file]; [by intros [= <- _]..|].
  destruct (loadTask file) as [[t o]|]; [|done]. by intros [= <- _].
Qed.

Lemma cpu_init_unstarted c sh c' sh' : unstarted c -> cpu_init c sh = Ok (c', sh') -> unstarted c'.
Proof.
  intros (Hs & Hd & Hi). unfold cpu_init. destruct (m_idle c) eqn:Ei; [intros [= <- _]; unfold unstarted; cbn; auto|].
  destruct (m_periodic c).
  - unfold expandJob. destruct (foldl _ _ _) as [[[? ?] ?] ?]. intros [= <- _]. unfold unstarted. cbn. by rewrite Ei.
  - destruct (m_workload_file c) as [[|line l]|]; [intros [= <- _]; unfold unstarted; cbn; by rewrite Ei| |done].
    destruct (read_message _ _ _ _) as [m sh1]. intros [= <- _]. unfold unstarted; cbn; by rewrite Ei.
Qed.
End Finished.
