(* ===== verification/SystemTheory.v ===== *)
(** * Properties of a running system

    What an object's cycle may do to the system ([object_step_evolves]), and
    the invariants of components carried to whole runs: at every moment of a
    run of an assembled system the caches keep the address interlock and the
    cores their windows, and a run ends exactly when every core is at rest. *)

From S2P Require Export System CoreTheory DirTheory.

Local Open Scope list_scope.
Open Scope Z_scope.

#[export] Instance any_laws : ProtocolLaws AnyProtocol.
Proof. split. intros [p|p|p|p|] ct s m st st' m'; cbn -[getRequestState]; [apply (pl_addr p)..|done]. Qed.

(** ** One object at a time *)

(** What happens to a cache: nothing, or a cycle on interfaces and counters it
    is handed. *)
Definition cache_evolves {IU IL} `{!CommInterface IU, !CommInterface IL} (c c' : @Controller AnyProtocol IU IL) : Prop :=
  c' = c \/ exists fuel u l sh q, cycleProcess fuel (plug u l sh q c) = Ok c'.

(** What happens to a core. *)
Inductive core_evolves : Core -> Core -> Prop :=
| core_stays k : core_evolves k k
| core_cycle c p sh stop c' sh' : cpu_cycleProcess (set_cpu_upper p c) sh = Ok (stop, c', sh') -> core_evolves (TraceCore c) (TraceCore c')
| core_external x x' : core_evolves (ExternalCore x) (ExternalCore x').

Definition node_evolves (n n' : CoreNode) : Prop :=
  cache_evolves (n_cache n) (n_cache n') /\ core_evolves (n_core n) (n_core n').

Lemma node_stays n : node_evolves n n.
Proof. split; [by left|constructor]. Qed.

Lemma nodes_stay ns : Forall2 node_evolves ns ns.
Proof. apply Forall_Forall2_diag, Forall_true. intros n. apply node_stays. Qed.

Lemma node_evolves_at ns i n n' : ns !! i = Some n -> node_evolves n n' -> Forall2 node_evolves ns (<[i := n']> ns).
Proof.
  intros Hi Hn. apply Forall2_same_length_lookup_2; [by rewrite length_insert|]. intros j x y Hx Hy.
  destruct (decide (j = i)) as [->|Hne].
  - rewrite list_lookup_insert_eq in Hy by by eapply lookup_lt_Some. congruence.
  - rewrite list_lookup_insert_ne in Hy by done. rewrite Hx in Hy. injection Hy as <-. apply node_stays.
Qed.

Section Steps.
Context {E Mem : Type} `{!Embedder E, !Initializable Mem}.
Implicit Types s : System E Mem.

Definition system_evolves s s' : Prop :=
  Forall2 node_evolves (nodes s) (nodes s') /\ cache_evolves (sc_cache (shared_cache s)) (sc_cache (shared_cache s')).

(** A trace core that is done. *)
Definition core_done (i : nat) s : Prop :=
  exists n c, nodes s !! i = Some n /\ n_core n = TraceCore c /\ m_simulation_done c = true.

Lemma same_nodes s s' : nodes s' = nodes s -> shared_cache s' = shared_cache s -> system_evolves s s'.
Proof. intros E1 E2. split; [rewrite E1; apply nodes_stay|rewrite E2; by left]. Qed.

Lemma one_node s s' i n n' : nodes s !! i = Some n -> nodes s' = <[i := n']> (nodes s) -> shared_cache s' = shared_cache s ->
  node_evolves n n' -> system_evolves s s'.
Proof. intros Hi E1 E2 Hn. split; [rewrite E1; by eapply node_evolves_at|rewrite E2; by left]. Qed.

Lemma cpu_stop_done (c : CPU BusInterface) p sh c' sh' : cpu_cycleProcess (set_cpu_upper p c) sh = Ok (true, c', sh') -> m_simulation_done c' = true.
Proof.
  unfold cpu_cycleProcess. cbn [m_simulation_done set_cpu_upper]. destruct (m_simulation_done c) eqn:Hd; [by intros [= <- _]|].
  by intros (c1 & _ & ([c2 sh2] & _ & [= _ _])%obind_Ok)%obind_Ok.
Qed.

Lemma core_step_evolves fuel i n s stop s' : nodes s !! i = Some n -> core_step fuel i n s = Ok (stop, s') ->
  system_evolves s s' /\ (stop = true -> core_done i s').
Proof.
  intros Hi. unfold core_step. intros ([k p] & _ & H)%obind_Ok. destruct (n_core n) as [c|x] eqn:Ec.
  - apply obind_Ok in H as ([[b c'] sh'] & Hc & [= <- <-]). split.
    + eapply one_node; [exact Hi|done|done|]. split; [by left|]. cbn. rewrite Ec. by econstructor.
    + intros ->. eexists _, c'. cbn. split; [apply list_lookup_insert_eq; by eapply lookup_lt_Some|]. split; [done|]. by eapply cpu_stop_done.
  - apply obind_Ok in H as ([x' [[e m] sh']] & _ & [= <- <-]). split; [|done].
    eapply one_node; [exact Hi|done|done|]. split; [by left|]. cbn. rewrite Ec. constructor.
Qed.

(** Any object's cycle. *)
Lemma object_step_evolves fuel o s stop s' : object_step fuel o s = Ok (stop, s') ->
  system_evolves s s' /\ (stop = true -> exists i, o = CoreObj i /\ core_done i s').
Proof.
  unfold object_step, node_at. cbv zeta. destruct o as [k|i|i|i| | |]; try intros (s1 & H & [= <- <-])%obind_Ok.
  - unfold net_step in H; split_ok H. split; [by apply same_nodes|done].
  - destruct (nodes s !! i) as [n|] eqn:Hi; [|done]. unfold link_step in H; split_ok H. split; [|done]. eapply one_node; [eassumption|done|done|]. split; [by left|constructor].
  - destruct (nodes s !! i) as [n|] eqn:Hi; [|done]. intros [H1 H2]%core_step_evolves; [|done]. split; [done|]. intros Hs. exists i. auto.
  - destruct (nodes s !! i) as [n|] eqn:Hi; [|done]. unfold cache_step in H; split_ok H. split; [|done]. eapply one_node; [eassumption|done|done|].
    split; [|constructor]. right. by repeat eexists.
  - unfold llc_step in H; split_ok H. split; [|done]. split; [apply nodes_stay|]. right. by repeat eexists.
  - unfold memory_step in H; split_ok H; (split; [by apply same_nodes|done]).
  - intros [= <- <-]. split; [by apply same_nodes|done].
Qed.

Lemma evolves_done i s s' : system_evolves s s' -> core_done i s -> core_done i s'.
Proof.
  intros [Hn _] (n & c & Hi & Ec & Hd). destruct (Forall2_lookup_l _ _ _ _ _ Hn Hi) as (n' & Hi' & _ & Hk). rewrite Ec in Hk.
  inversion Hk as [k E1 E2|c0 p sh stop c' sh' Hc E1 E2|]; subst.
  - by exists n', c.
  - exists n', c'. split_and!; [done..|]. unfold cpu_cycleProcess in Hc. cbn [m_simulation_done set_cpu_upper] in Hc. rewrite Hd in Hc. by injection Hc as _ <- _.
Qed.
End Steps.

(** ** The clock *)

(** An invariant of the triggers and of the world, kept by every object, is one
    of a whole run. *)
Section ClockInvariant.
Context {W : Type} (getClkPeriod : Z -> Z) (cycle : Z -> W -> outcome (W * list Z)).
Context (J : bool -> list Z -> W -> Prop).
Definition on_clock (m : ClockManager) (w : W) : Prop := J (clk_run m) (clock_triggers m) w.
Hypothesis J_cycle : forall obj m w w' stops, on_clock m w -> cycle obj w = Ok (w', stops) -> on_clock (foldl stopClock m stops) w'.

Lemma clkStep_inv : forall fuel m w m' w', on_clock m w -> clkStep getClkPeriod cycle fuel m w = Ok (m', w') -> on_clock m' w'.
Proof.
  induction fuel as [|f IH]; intros m w m' w' H; cbn [clkStep]; (destruct (events m) as [|e rest]; [done|]);
    (destruct (_ <? _); [by intros [= <- <-]|]); (destruct (_ <? _); [done|]); [done|].
  unfold fire. intros ([m1 w1] & ([w2 stops] & Hc & [= <- <-])%obind_Ok & Hs)%obind_Ok. eapply IH; [|exact Hs].
  by apply (J_cycle _ _ _ _ _ H Hc).
Qed.

Lemma run_loop_inv : forall n m w m' w', on_clock m w -> run_loop getClkPeriod cycle n m w = Ok (m', w') -> on_clock m' w' /\ clk_run m' = false.
Proof.
  induction n as [|n IH]; intros m w m' w' H; cbn [run_loop]; destruct (clk_run m) eqn:Hr; [done|by intros [= <- <-]| |by intros [= <- <-]].
  intros ([m1 w1] & Hs & Hl)%obind_Ok. eapply IH; [|exact Hl]. by eapply clkStep_inv.
Qed.
End ClockInvariant.

(** ** Invariants of the components *)

(** The window of a core, when it is a size the counter can hold. *)
Definition within_window (c : CPU BusInterface) : Prop :=
  0 <= m_number_of_OoO_requests c < 2 ^ 31 -> 0 <= m_sent_requests c <= m_number_of_OoO_requests c.

(** How a core [k] stands to what it was at the start. *)
Inductive core_kept : Core -> Core -> Prop :=
| kept_trace c0 c : setup c = setup c0 -> rests_when_done c -> within_window c -> core_kept (TraceCore c0) (TraceCore c)
| kept_external x0 x : core_kept (ExternalCore x0) (ExternalCore x).

Definition cache_kept {IU IL} (c0 c : @Controller AnyProtocol IU IL) : Prop := m_line_interlock (cfg c0) = true -> interlocked c.

Definition node_kept (n0 n : CoreNode) : Prop := cache_kept (n_cache n0) (n_cache n) /\ core_kept (n_core n0) (n_core n).

Lemma cache_kept_evolves {IU IL} `{!CommInterface IU, !CommInterface IL} (c0 c c' : @Controller AnyProtocol IU IL) :
  cache_kept c0 c -> cache_evolves c c' -> cache_kept c0 c'.
Proof.
  intros H [-> | (fuel & u & l & sh & q & Hc)] Hl; [by apply H|]. eapply cycle_interlocked; [|exact Hc]. by apply H.
Qed.

Lemma rests_upper (c : CPU BusInterface) p : rests_when_done c -> rests_when_done (set_cpu_upper p c).
Proof. intros H Hd. destruct (H Hd) as [H1 H2 H3]. by split. Qed.

Lemma core_kept_evolves k0 k k' : core_kept k0 k -> core_evolves k k' -> core_kept k0 k'.
Proof.
  intros H Hk. inversion Hk as [k1 E1 E2|c p sh stop c' sh' Hc E1 E2|x x' E1 E2]; subst; [done| |inversion H; constructor].
  inversion H as [c0 c1 Hset Hr Hw E1 E2|]; subst.
  pose proof Hc as Hc'. eapply cpu_cycle_rests in Hc' as (E & Hr' & _); [|by apply rests_upper]. constructor; [by rewrite E|done|].
  intros Hn. injection E as En _ _ _. cbn in En. rewrite En in Hn. destruct (cpu_window (set_cpu_upper p c) _ _ _ _ (Hw Hn) (proj2 Hn) Hc) as [H1 _]. done.
Qed.

Section Runs.
Context {E Mem : Type} `{!Embedder E, !Initializable Mem}.
Implicit Types s : System E Mem.

Definition system_kept s0 s : Prop :=
  Forall2 node_kept (nodes s0) (nodes s) /\ cache_kept (sc_cache (shared_cache s0)) (sc_cache (shared_cache s)).

Lemma system_kept_evolves s0 s s' : system_kept s0 s -> system_evolves s s' -> system_kept s0 s'.
Proof.
  intros [Hn Hc] [Hn' Hc']. split; [|by eapply cache_kept_evolves].
  eapply Forall2_trans; [|exact Hn|exact Hn']. intros n0 n n' [H1 H2] [H3 H4].
  split; [by eapply cache_kept_evolves|by eapply core_kept_evolves].
Qed.

Context (objects : list (Object * Z)) (fuel : nat) (triggers0 : list Z).

(** Until a core that was a trigger is done it still is one; without triggers
    the clock stands. *)
Definition clocked s0 (run : bool) (triggers : list Z) s : Prop :=
  system_kept s0 s /\ (run = true \/ triggers = []) /\
  forall o i, o ∈ triggers0 -> fst (object_at objects o) = CoreObj i -> o ∈ triggers \/ core_done i s.

Lemma erase_keeps o obj l : o ∈ l -> o <> obj -> o ∈ erase_trigger obj l.
Proof.
  intros Ho Hne. induction l as [|x l IH]; [done|]. cbn. destruct (Z.eqb_spec x obj) as [->|].
  - by apply elem_of_cons in Ho as [->|].
  - apply elem_of_cons in Ho as [->|]; [by left|right; auto].
Qed.

Lemma clocked_stop s0 m s obj : clocked s0 (clk_run m) (clock_triggers m) s ->
  (forall i, fst (object_at objects obj) = CoreObj i -> core_done i s) ->
  clocked s0 (clk_run (stopClock m obj)) (clock_triggers (stopClock m obj)) s.
Proof.
  intros (Hk & Hr & Ht) Hd. unfold stopClock. cbn [clk_run clock_triggers]. split; [done|]. split.
  - destruct (erase_trigger obj (clock_triggers m)) as [|x l] eqn:El; [by right|]. destruct Hr as [Hr|Hr]; [by left|]. by rewrite Hr in El.
  - intros o i Ho Hi. destruct (decide (o = obj)) as [->|Hne]; [right; by apply Hd|].
    destruct (Ht o i Ho Hi) as [H|H]; [left; by apply erase_keeps|by right].
Qed.

Lemma clocked_cycle s0 obj m s s' stops : on_clock (clocked s0) m s -> object_cycle objects fuel obj s = Ok (s', stops) ->
  on_clock (clocked s0) (foldl stopClock m stops) s'.
Proof.
  unfold on_clock, object_cycle. intros (Hk & Hr & Ht) ([stop s1] & [He Hs]%object_step_evolves & H)%obind_Ok.
  assert (H1 : clocked s0 (clk_run m) (clock_triggers m) s1).
  { split; [by eapply system_kept_evolves|]. split; [done|]. intros o i Ho Hi.
    destruct (Ht o i Ho Hi) as [?|Hd]; [by left|right; by eapply evolves_done]. }
  destruct stop; injection H as <- <-; [|done]. cbn [foldl]. apply clocked_stop; [done|].
  intros i Hi. destruct (Hs eq_refl) as (j & Hj & Hd). rewrite Hi in Hj. by injection Hj as ->.
Qed.

(** Steps of simulated time, one after the other. *)
Inductive steps : ClockManager -> System E Mem -> ClockManager -> System E Mem -> Prop :=
| no_step m s : steps m s m s
| next_step m s m1 s1 m' s' : system_step objects fuel m s = Ok (m1, s1) -> steps m1 s1 m' s' -> steps m s m' s'.

Lemma steps_kept s0 m s m' s' : system_kept s0 s -> steps m s m' s' -> system_kept s0 s'.
Proof.
  intros H Hs. induction Hs as [|m s m1 s1 m' s' Hstep _ IH]; [done|]. apply IH.
  refine (clkStep_inv _ _ (fun _ _ => system_kept s0) _ _ m s m1 s1 H Hstep). intros obj m2 s2 s3 stops Hk.
  unfold object_cycle. intros ([stop s4] & [He _]%object_step_evolves & [= <- _])%obind_Ok. by eapply system_kept_evolves.
Qed.

Lemma run_clocked s0 n m s m' s' : system_kept s0 s -> triggers0 = clock_triggers m -> system_run objects fuel n m s = Ok (m', s') ->
  on_clock (clocked s0) m' s' /\ clk_run m' = false.
Proof.
  intros Hk Et. apply run_loop_inv; [intros; by eapply clocked_cycle|]. split; [done|]. split; [by left|]. intros o i Ho _. left. by rewrite <- Et.
Qed.
End Runs.
