(* ===== verification/AssemblyTheory.v ===== *)
(** * What the constructors build

    Every core of an assembled system is registered with the clock and, if it
    plays a trace or a task, is a trigger of it; every component starts out as
    the invariants of [SystemTheory] want it. *)

From S2P Require Export SystemTheory.

Local Open Scope string_scope.
Local Open Scope list_scope.
Open Scope Z_scope.

(** ** Registration *)

(** Objects are added behind, triggers are never removed. *)
Definition grows (a a' : Assembly) : Prop :=
  as_objects a `prefix_of` as_objects a' /\ clock_triggers (as_clock a) ⊆ clock_triggers (as_clock a').

#[export] Instance grows_preorder : PreOrder grows.
Proof.
  split; [intros a; split; done|]. intros a b c [H1 H2] [H3 H4]. split; [by etrans|set_solver].
Qed.

Lemma register_grows o p a : grows a (register o p a).
Proof. split; cbn; [by apply prefix_app_r|done]. Qed.
Lemma register_at_grows o p a : grows a (register_at o p a).
Proof. split; cbn; [by apply prefix_app_r|done]. Qed.
Lemma deregister_grows a : grows a (deregister_newest a).
Proof. by split. Qed.
Lemma trigger_grows a : grows a (trigger_newest a).
Proof. split; cbn; [done|set_solver]. Qed.

(** Core [i] is one of the objects, and a trigger. *)
Definition registered (a : Assembly) (i : nat) : Prop :=
  exists o p, as_objects a !! o = Some (CoreObj i, p) /\ Z.of_nat o ∈ clock_triggers (as_clock a).

Lemma registered_grows a a' i : grows a a' -> registered a i -> registered a' i.
Proof. intros [H1 H2] (o & p & Ho & Ht). exists o, p. split; [by eapply prefix_lookup_Some|set_solver]. Qed.

Lemma register_trigger i p a : registered (trigger_newest (register (CoreObj i) p a)) i.
Proof.
  exists (length (as_objects a)), (w64 p). cbn. split; [by apply list_lookup_middle|]. apply elem_of_app. right. apply list_elem_of_singleton.
  unfold newest. cbn. rewrite length_app. cbn. lia.
Qed.

Ltac grown :=
  repeat match goal with
  | |- grows ?a ?a => reflexivity
  | H : grows ?b ?c |- grows ?a ?c => etrans; [|exact H]; clear H
  | |- grows _ (register _ _ _) => etrans; [|apply register_grows]
  | |- grows _ (register_at _ _ _) => etrans; [|apply register_at_grows]
  | |- grows _ (deregister_newest _) => etrans; [|apply deregister_grows]
  | |- grows _ (trigger_newest _) => etrans; [|apply trigger_grows]
  end.

Section Grows.
Context (files : string -> option string) (depth : nat) (CONFIGURATION_PATH FSM_PATH MCSIM_PATH : string).
Context (rand : Z -> nat -> Z) (addr_first : bool) (junk : Z) (junk_flag : bool) (junk_bytes : bytes).

Lemma new_dprint_grows m a a' : new_dprint files depth CONFIGURATION_PATH m a = Ok a' -> grows a a'.
Proof. unfold new_dprint. intros H; split_ok H; grown. Qed.

Lemma dprint_of_grows c a a' : dprint_of files depth CONFIGURATION_PATH c a = Ok a' -> grows a a'.
Proof. apply new_dprint_grows. Qed.

Lemma controller_params_grows name m b a b' a' :
  controller_params files depth CONFIGURATION_PATH name m b a = Ok (b', a') -> grows a a'.
Proof. unfold controller_params. intros H; split_ok H; by eapply dprint_of_grows. Qed.

Lemma new_direct_grows o m u l a e ifs a' :
  new_direct files depth CONFIGURATION_PATH o m u l a = Ok (e, ifs, a') -> grows a a'.
Proof. unfold new_direct. intros H; split_ok H. apply dprint_of_grows in E2. grown. Qed.

Lemma new_handler_grows cots m a p a' : new_handler files depth CONFIGURATION_PATH cots m a = Ok (p, a') -> grows a a'.
Proof. unfold new_handler. intros H. split_ok H; by eapply dprint_of_grows. Qed.

(** ** Components at the start *)

Lemma new_controller_spec {IU IL} cl o m port (u : IU) (l : IL) sh q a c period a' :
  new_controller files depth CONFIGURATION_PATH FSM_PATH rand cl o m port u l sh q a = Ok (c, period, a') ->
  grows a a' /\ m_array_ops c = [].
Proof.
  unfold new_controller. intros H. split_ok H;
    repeat match goal with E : new_handler _ _ _ _ _ _ = Ok _ |- _ => apply new_handler_grows in E end;
    repeat match goal with E : dprint_of _ _ _ _ _ = Ok _ |- _ => apply dprint_of_grows in E end;
    (split; [grown|]);
    match goal with E : newController _ _ _ _ _ _ _ = Ok _ |- _ =>
      unfold newController in E; apply obind_Ok in E as (? & _ & E); apply obind_Ok in E as (? & _ & E); by injection E as <- end.
Qed.

Lemma new_cpu_spec i m id u path sh a k sh' a' :
  new_cpu files depth CONFIGURATION_PATH addr_first (CoreObj i) m id u path sh a = Ok (k, sh', a') ->
  grows a a' /\ registered a' i /\ exists c, k = TraceCore c /\ unstarted c.
Proof.
  unfold new_cpu. intros H. split_ok H. apply dprint_of_grows in E2. split; [grown|]. split.
  - eapply registered_grows; [exact E2|]. apply register_trigger.
  - eexists. split; [done|]. by eapply newCPU_unstarted.
Qed.

Lemma new_external_spec o m id u a k a' : new_external files depth CONFIGURATION_PATH o m id u a = Ok (k, a') ->
  grows a a' /\ exists x, k = ExternalCore x.
Proof. unfold new_external. intros H. split_ok H; (split; [grown|by eexists]). Qed.

Lemma new_bus_grows triple o m a n a' :
  new_bus files depth CONFIGURATION_PATH junk junk_flag triple o m a = Ok (n, a') -> grows a a'.
Proof.
  unfold new_bus. intros H. do 6 apply obind_Ok in H as (? & _ & H). apply obind_Ok in H as (a1 & E1 & H).
  apply obind_Ok in H as ([b a2] & E2 & H).
  assert (Hg : grows a a2).
  { apply dprint_of_grows in E1. etrans; [etrans; [apply register_grows|exact E1]|].
    destruct (bus_controller_name _); [by eapply controller_params_grows|by injection E2 as _ <-]. }
  etrans; [exact Hg|]. destruct triple.
  - apply obind_Ok in H as ([t a3] & E3%controller_params_grows & H). apply obind_Ok in H as ([[ctl e] ifs] & _ & [= _ <-]). done.
  - apply obind_Ok in H as ([[ctl e] ifs] & _ & [= _ <-]). done.
Qed.

Lemma new_memory_grows o m l a k a' : new_memory files depth CONFIGURATION_PATH o m l a = Ok (k, a') -> grows a a'.
Proof. unfold new_memory. intros H. split_ok H; (apply dprint_of_grows in E4 || apply dprint_of_grows in E5); grown. Qed.

Lemma new_mcsim_grows o l id llc n b period sys fuel a k a' :
  new_mcsim files MCSIM_PATH junk junk_bytes o l id llc n b period sys fuel a = Ok (k, a') -> grows a a'.
Proof. unfold new_mcsim. intros H. split_ok H; grown. Qed.
End Grows.

(** ** Systems at the start *)

Definition is_trace_core (k : Core) : bool := match k with TraceCore _ => true | ExternalCore _ => false end.
Definition core_fresh (k : Core) : Prop := match k with TraceCore c => unstarted c | ExternalCore _ => True end.
Definition cache_blank {IU IL} (c : @Controller AnyProtocol IU IL) : Prop := m_array_ops c = [].
Definition node_fresh (n : CoreNode) : Prop := cache_blank (n_cache n) /\ core_fresh (n_core n).

Section Systems.
Context {E Mem : Type}.
Context (files : string -> option string) (depth : nat) (CONFIGURATION_PATH FSM_PATH MCSIM_PATH current_path : string).
Context (rand : Z -> nat -> Z) (addr_first : bool) (junk : Z) (junk_flag : bool) (junk_bytes : bytes) (mcsim_turns : nat).
Implicit Types s : System E Mem.

Lemma createController_spec {IU IL} type o m port (u : IU) (l : IL) sh q a c period a' :
  createController files depth CONFIGURATION_PATH FSM_PATH rand type o m port u l sh q a = Ok (c, period, a') ->
  grows a a' /\ cache_blank c.
Proof.
  unfold createController. repeat (case_match; [try done; by apply new_controller_spec|]). done.
Qed.

Lemma new_node_spec c ext type path net i sh a n sh' a' :
  new_node files depth CONFIGURATION_PATH FSM_PATH rand addr_first c ext type path net i (sh, a) = Ok (n, (sh', a')) ->
  grows a a' /\ node_fresh n /\ (is_trace_core (n_core n) = true -> registered a' i).
Proof.
  unfold new_node. intros H. apply obind_Ok in H as (id & _ & H). apply obind_Ok in H as ([[e link] a1] & E1%new_direct_grows & H).
  apply obind_Ok in H as ([[k sh2] a2] & E2 & H). apply obind_Ok in H as ([[cache p] a3] & [E3 Hb]%createController_spec & [= <- _ <-]).
  destruct ext.
  - apply obind_Ok in E2 as ([k' a4] & [E4 (x & ->)]%new_external_spec & [= <- _ <-]). split; [grown|]. by split.
  - apply new_cpu_spec in E2 as (E2 & Hr & c0 & -> & Hc). split; [grown|]. split; [by split|]. intros _. by eapply registered_grows.
Qed.

Lemma new_nodes_spec c ext type path net : forall idx sh a ns sh' a',
  new_nodes files depth CONFIGURATION_PATH FSM_PATH rand addr_first c ext type path net idx (sh, a) = Ok (ns, (sh', a')) ->
  grows a a' /\ Forall2 (fun i n => node_fresh n /\ (is_trace_core (n_core n) = true -> registered a' i)) idx ns.
Proof.
  induction idx as [|i idx IH]; intros sh a ns sh' a'; cbn [new_nodes]; [intros [= <- _ <-]; by split|].
  intros H. apply obind_Ok in H as ([n [sh1 a1]] & (E1 & Hn & Hr)%new_node_spec & H).
  apply obind_Ok in H as ([l [sh2 a2]] & [E2 Hl]%IH & [= <- _ <-]). split; [by etrans|]. constructor; [|done].
  split; [done|]. intros Ht. eapply registered_grows; [exact E2|by apply Hr].
Qed.

(** What every constructor of a system makes sure of: [objects] are the clocked
    objects, [m] the clock manager. *)
Record well_started (objects : list (Object * Z)) (m : ClockManager) s : Prop := mk_well_started {
  ws_nodes : Forall node_fresh (nodes s);
  ws_shared : cache_blank (sc_cache (shared_cache s));
  ws_registered : forall i n, nodes s !! i = Some n -> is_trace_core (n_core n) = true ->
    exists o, o ∈ clock_triggers m /\ fst (object_at objects o) = CoreObj i }.

Lemma registered_object a i : registered a i -> exists o, o ∈ clock_triggers (as_clock a) /\ fst (object_at (as_objects a) o) = CoreObj i.
Proof. intros (o & p & Ho & Ht). exists (Z.of_nat o). split; [done|]. unfold object_at. by rewrite Nat2Z.id, (nth_lookup_Some _ _ _ _ Ho). Qed.

Lemma new_shared_cache_spec c type lower upper sh a sc id period sh' a' :
  new_shared_cache files depth CONFIGURATION_PATH FSM_PATH rand c type lower upper (sh, a) = Ok (sc, id, period, (sh', a')) ->
  grows a a' /\ cache_blank (sc_cache sc).
Proof.
  unfold new_shared_cache. intros (id' & _ & ([[cache p] a1] & Hc%createController_spec & [= <- _ _ _ <-])%obind_Ok)%obind_Ok. done.
Qed.

Lemma finish_system_spec k c type mcsim num net bus others ns e sh a objects m s :
  Forall2 (fun i n => node_fresh n /\ (is_trace_core (n_core n) = true -> registered a i)) (seq 0 k) ns ->
  finish_system files depth CONFIGURATION_PATH FSM_PATH MCSIM_PATH rand junk junk_bytes mcsim_turns
    c type mcsim num net bus others ns e (sh, a) = Ok (objects, m, s) -> well_started objects m s.
Proof.
  intros Hns. unfold finish_system. intros H. apply obind_Ok in H as ([[[sc id] period] [sh1 a1]] & [E1 Hb]%new_shared_cache_spec & H).
  apply obind_Ok in H as (mid & _ & H). apply obind_Ok in H as ([mem a2] & E2 & [= <- <- <-]).
  assert (Hg : grows a a2). { destruct mcsim; [apply new_mcsim_grows in E2|apply new_memory_grows in E2]; by etrans. }
  split; cbn; [|done|].
  - eapply Forall2_Forall_r; [exact Hns|]. apply Forall_true. intros i n [H _]. done.
  - intros i n Hi Ht. destruct (Forall2_lookup_r _ _ _ _ _ Hns Hi) as (j & Hj & _ & Hr). apply lookup_seq in Hj as [-> _].
    apply registered_object. eapply registered_grows; [exact Hg|by apply Hr].
Qed.

(** Both constructors. *)
Context `{!Embedder E, !Initializable Mem}.

Lemma newMultiCoreSystem_starts cl name path e objects m s :
  newMultiCoreSystem files depth CONFIGURATION_PATH FSM_PATH MCSIM_PATH current_path rand addr_first junk junk_flag junk_bytes mcsim_turns
    cl name path e = Ok (objects, m, s) -> well_started objects m s.
Proof.
  unfold newMultiCoreSystem. intros H. repeat apply obind_Ok in H as (? & _ & H).
  destruct x6 as [[|bus0 more] a]; [done|]. apply obind_Ok in H as ([ns [sh a1]] & [_ Hn]%new_nodes_spec & H).
  destruct more as [|bus1 others]; [done|].
  apply obind_Ok in H as (? & _ & H). apply obind_Ok in H as (? & _ & H). by eapply finish_system_spec.
Qed.

Lemma newMultiCoreSystem_Mesh_starts cl path name e objects m s :
  newMultiCoreSystem_Mesh files depth CONFIGURATION_PATH FSM_PATH MCSIM_PATH current_path rand addr_first junk junk_flag junk_bytes mcsim_turns
    cl path name e = Ok (objects, m, s) -> well_started objects m s.
Proof.
  unfold newMultiCoreSystem_Mesh. intros H. do 6 apply obind_Ok in H as (? & _ & H). destruct x4 as [net a].
  apply obind_Ok in H as ([ns [sh a1]] & [_ Hn]%new_nodes_spec & H). apply obind_Ok in H as ([bus a2] & Eb%new_bus_grows & H).
  eapply finish_system_spec; [|exact H]. eapply Forall2_impl; [exact Hn|]. intros i n [Hf Hr]. split; [done|].
  intros Ht. eapply registered_grows; [exact Eb|by apply Hr].
Qed.
End Systems.
