(* ===== verification/SystemRuns.v ===== *)
(** * Runs of an assembled system

    From the configuration to the end of the simulation: what the constructors
    of [System] built and [init()] prepared satisfies the invariants of
    [SystemTheory] at every step of simulated time, and a run that returns has
    brought every core to rest. *)

From S2P Require Export AssemblyTheory Simulator.

Local Open Scope list_scope.
Open Scope Z_scope.

(** ** Initialisation *)

Lemma init_cache_blank {IU IL} (c c' : @Controller AnyProtocol IU IL) : cache_blank c -> init_cache c = Ok c' -> cache_blank c'.
Proof. unfold init_cache. intros H. by destruct (protocol c); [intros [= <-]..|]. Qed.

Section Init.
Context {E Mem : Type} `{!Embedder E, !Initializable Mem}.
Context (objects : list (Object * Z)).
Implicit Types s : System E Mem.

(** A node that is replaced by one as fresh, of the same kind. *)
Lemma replace_node m s i n n' : well_started objects m s -> nodes s !! i = Some n -> node_fresh n' ->
  is_trace_core (n_core n') = is_trace_core (n_core n) -> well_started objects m (set_nodes (<[i := n']> (nodes s)) s).
Proof.
  intros [Hn Hs Hr] Hi Hf Hk. split; cbn; [by apply Forall_insert|done|]. intros j x Hx Ht. destruct (decide (j = i)) as [->|Hne].
  - rewrite list_lookup_insert_eq in Hx by by eapply lookup_lt_Some. injection Hx as <-. eapply Hr; [exact Hi|by rewrite <- Hk].
  - rewrite list_lookup_insert_ne in Hx by done. by eapply Hr.
Qed.

Lemma object_init_starts m o s s' : well_started objects m s -> object_init o s = Ok s' -> well_started objects m s'.
Proof.
  intros W. unfold object_init, node_at. destruct o as [k|i|i|i| | |]; try by intros [= <-].
  - destruct (nodes s !! i) as [n|] eqn:Hi; [|done]. destruct (Forall_lookup_1 _ _ _ _ (ws_nodes _ _ _ W) Hi) as [Hb Hf].
    unfold init_core. destruct (n_core n) as [c|x] eqn:Ec; [|by intros [= <-]]. intros ([c' sh] & Hc & [= <-])%obind_Ok.
    pose proof (replace_node m s i n (with_core (TraceCore c') n) W Hi) as [W1 W2 W3]; [|by rewrite Ec|by split].
    split; [done|]. by eapply cpu_init_unstarted.
  - destruct (nodes s !! i) as [n|] eqn:Hi; [|done]. destruct (Forall_lookup_1 _ _ _ _ (ws_nodes _ _ _ W) Hi) as [Hb Hf].
    unfold init_node. intros (c' & Hc & [= <-])%obind_Ok. eapply replace_node; [done..| |done]. split; [by eapply init_cache_blank|done].
  - intros (c' & Hc & [= <-])%obind_Ok. destruct W as [W1 W2 W3]. split; [done|by eapply init_cache_blank|done].
Qed.

Lemma system_init_starts m s m' s' : well_started objects m s -> system_init objects m s = Ok (m', s') -> m' = m /\ well_started objects m' s'.
Proof.
  unfold system_init. intros W (s1 & Hs & (m1 & Hm & [= <- <-])%obind_Ok)%obind_Ok.
  assert (m1 = m) as ->. { unfold init_periods in Hm. destruct (existsb _ _); [done|by injection Hm]. } split; [done|].
  generalize (events m) W Hs. intros l. clear. revert s. induction l as [|e l IH]; cbn; intros s W; [by intros [= <-]|].
  intros (s2 & H2 & H)%obind_Ok. eapply IH; [|exact H]. by eapply object_init_starts.
Qed.

Lemma core_fresh_kept k : core_fresh k -> core_kept k k.
Proof.
  destruct k as [c|x]; cbn; [|constructor]. intros H. constructor; [done|by apply unstarted_rests|].
  intros Hn. destruct H as [-> _]. lia.
Qed.

Lemma cache_blank_kept {IU IL} (c : @Controller AnyProtocol IU IL) : cache_blank c -> cache_kept c c.
Proof. intros H Hl. split; [|done]. unfold one_per_line. rewrite H. constructor. Qed.

Lemma started_kept m s : well_started objects m s -> system_kept s s.
Proof.
  intros [Hn Hs _]. split; [|by apply cache_blank_kept]. apply Forall_Forall2_diag. eapply Forall_impl; [exact Hn|].
  intros n [Hb Hf]. split; [by apply cache_blank_kept|by apply core_fresh_kept].
Qed.
End Init.

(** ** Runs *)

(** [n] steps. *)
Fixpoint after {E Mem} `{!Embedder E, !Initializable Mem} objects (fuel n : nat) (m : ClockManager) (s : System E Mem)
    : outcome (ClockManager * System E Mem) :=
  match n with O => Ok (m, s) | S n' => let! (m, s) := system_step objects fuel m s in after objects fuel n' m s end.

Lemma after_steps {E Mem} `{!Embedder E, !Initializable Mem} objects fuel : forall n m (s : System E Mem) m' s',
  after objects fuel n m s = Ok (m', s') -> steps objects fuel m s m' s'.
Proof.
  induction n as [|n IH]; intros m s m' s'; cbn [after]; [intros [= <- <-]; constructor|].
  intros ([m1 s1] & H1 & H)%obind_Ok. econstructor; [exact H1|by apply IH].
Qed.

Section Simulations.
Context {E Mem : Type} `{!Embedder E, !Initializable Mem}.
Context (files : string -> option string) (depth : nat) (CONFIGURATION_PATH FSM_PATH MCSIM_PATH current_path : string).
Context (rand : Z -> nat -> Z) (addr_first : bool) (junk : Z) (junk_flag : bool) (junk_bytes : bytes) (mcsim_turns : nat).
Context (create_directories open_for_writing : string -> bool).
Implicit Types s : System E Mem.

Abbreviation newCacheSim := (newCacheSim files depth CONFIGURATION_PATH FSM_PATH MCSIM_PATH current_path rand addr_first junk junk_flag
  junk_bytes mcsim_turns create_directories open_for_writing).
Abbreviation octopus_main := (octopus_main files depth CONFIGURATION_PATH FSM_PATH MCSIM_PATH current_path rand addr_first junk junk_flag
  junk_bytes mcsim_turns create_directories open_for_writing).

Lemma newCacheSim_starts name cl log config out e objects m s :
  newCacheSim name cl log config out e = Ok (objects, m, s) -> well_started objects m s.
Proof.
  unfold newCacheSim. intros (? & _ & H)%obind_Ok. destruct (negb _); [done|].
  apply obind_Ok in H as ([[o m0] s0] & H0 & ([m1 s1] & Hi & [= <- <- <-])%obind_Ok). eapply system_init_starts; [|exact Hi].
  destruct (String.eqb _ _); [by eapply newMultiCoreSystem_starts|]. destruct (String.eqb _ _); [by eapply newMultiCoreSystem_Mesh_starts|done].
Qed.

(** A finished run, from any start the constructors make. *)
Lemma run_rests objects fuel n m s m' s' : well_started objects m s -> system_run objects fuel n m s = Ok (m', s') ->
  clk_run m' = false /\ forall i x c, nodes s' !! i = Some x -> n_core x = TraceCore c -> m_simulation_done c = true /\ at_rest c.
Proof.
  intros W Hr. pose proof (started_kept _ _ _ W) as Hk. destruct (run_clocked objects fuel _ s n m s m' s' Hk eq_refl Hr) as [(Hk' & Hrun & Ht) Hc].
  split; [done|]. rewrite Hc in Hrun. destruct Hrun as [|Hnil]; [done|]. rewrite Hnil in Ht. intros i x c Hi Ec.
  destruct Hk' as [Hk' _]. destruct (Forall2_lookup_r _ _ _ _ _ Hk' Hi) as (x0 & Hi0 & _ & Hx).
  rewrite Ec in Hx. inversion Hx as [c0 c1 _ Hrest _ E0 E1|]; subst.
  destruct (ws_registered _ _ _ W i x0 Hi0) as (o & Ho & Hobj); [by rewrite <- E0|].
  destruct (Ht o i Ho Hobj) as [Hin|(x1 & c1 & Hi1 & Ec1 & Hd)]; [by apply elem_of_nil in Hin|].
  rewrite Hi in Hi1. injection Hi1 as <-. rewrite Ec in Ec1. injection Ec1 as <-. auto.
Qed.

(** C2: a simulation that ends has done its work.  Whatever the command line,
    the configuration and the workloads, if the simulator builds the system and
    its run returns, then the clock has stopped and every core that plays a
    workload is done: it waits for no answer, its trace is played to the last
    line, and a task with a number of jobs has run them all. *)
Theorem simulation_ends_at_rest fuel turns argv e objects m s :
  octopus_main fuel turns argv e = Ok (objects, m, s) ->
  clk_run m = false /\
  forall i x c, nodes s !! i = Some x -> n_core x = TraceCore c -> m_simulation_done c = true /\ at_rest c.
Proof.
  unfold octopus_main. destruct (missing_value _); [done|]. destruct (last _) as [name|]; [|done].
  intros ([[o m0] s0] & W%newCacheSim_starts & ([m1 s1] & Hr & [= <- <- <-])%obind_Ok)%obind_Ok. by eapply run_rests.
Qed.

(** C7: what holds at every moment of every simulation, between two steps of
    simulated time: a cache with the line interlock holds back at most one
    message per line for its data array, the shared cache included; a core has
    no more requests on their way than its window allows, and one that is done
    has none. *)
Theorem simulation_invariants name cl log config out e objects m s fuel m' s' :
  newCacheSim name cl log config out e = Ok (objects, m, s) -> steps objects fuel m s m' s' ->
  (m_line_interlock (cfg (sc_cache (shared_cache s))) = true -> one_per_line (sc_cache (shared_cache s'))) /\
  forall i x x', nodes s !! i = Some x -> nodes s' !! i = Some x' ->
    (m_line_interlock (cfg (n_cache x)) = true -> one_per_line (n_cache x')) /\
    forall c', n_core x' = TraceCore c' -> exists c, n_core x = TraceCore c /\ setup c' = setup c /\
      (0 <= m_number_of_OoO_requests c < 2 ^ 31 -> 0 <= m_sent_requests c' <= m_number_of_OoO_requests c) /\
      (m_simulation_done c' = true -> at_rest c').
Proof.
  intros W%newCacheSim_starts Hs. pose proof (steps_kept _ _ _ _ _ _ _ (started_kept _ _ _ W) Hs) as [Hn Hc].
  split; [intros Hl; by destruct (Hc Hl)|]. intros i x x' Hi Hi'. destruct (Forall2_lookup_lr _ _ _ _ _ _ Hn Hi Hi') as [Hx Hk].
  split; [intros Hl; by destruct (Hx Hl)|]. intros c' Ec. rewrite Ec in Hk. inversion Hk as [c c1 Hset Hr Hw E0 E1|]; subst.
  exists c. split_and!; [done..| |done]. unfold within_window in Hw. injection Hset as En _ _ _. by rewrite En in Hw.
Qed.
End Simulations.
