(* ===== verification/SystemDemo.v ===== *)
(** * The shipped systems

    The presets of [configuration/SystemConfigurations/], with the component
    files, the protocol tables and the memory settings that ship with them,
    built by the constructors of [System] and run: inputs at which the theorems
    of [ConfigTheory] and [SystemRuns] hold. *)

From S2P Require Export SystemRuns ConfigFiles ConfigTheory McDemo ExternalTheory.

Local Open Scope string_scope.
Open Scope Z_scope.

(** ** An installation *)

Definition root : string := "/octopus/configuration/".
Definition newline : string := String "010" "".
Definition text_of (lines : list string) : string := foldr (fun l s => l +:+ newline +:+ s) "" lines.

(** A write and a read per core, two cores to the same line. *)
Definition demo_trace (i : Z) : string :=
  let line := to_string (4096 * i) in
  text_of ["1000 0 W 5"; line +:+ " 0 R 9"].

(** The files below [/octopus]; the workload has a trace for each of [cores]
    cores. *)
Definition installation (cores : nat) (path : string) : option string :=
  let p := lexically_normal path in
  let among (l : list (string * string)) := snd <$> List.find (fun f => String.eqb (fst f) p) l in
  match shipped root p with
  | Some t => Some t
  | None =>
      among (((fun f => ("/octopus/Protocols_FSM/" +:+ fst f +:+ ".csv", snd f)) <$> shipped_tables) ++
             [("/octopus/src/MCsim/system/FRFCFS/FRFCFS.ini", text_of FRFCFS_ini)] ++
             ((fun i => ("/octopus/BMs/TestBM/trace_C" +:+ to_string (Z.of_nat i) +:+ ".trc.shared", demo_trace (Z.of_nat i))) <$> seq 0 cores))%list
  end.

(** Nobody drives the external cores; the memory component keeps nothing. *)
#[local] Instance nobody : Embedder unit := {| on_complete e _ := (e, []); on_issued e _ _ _ := e |}.

Section Install.
Context (rand : Z -> nat -> Z) (junk : Z) (junk_flag : bool).
Definition demo_CacheSim (cores : nat) (system_name config : string) (cl_params : list string) :=
  newCacheSim (Mem := unit) (installation cores) 4 root "/octopus/Protocols_FSM/" "/octopus/src/MCsim/" "/octopus" rand true junk junk_flag [] 4
    (fun _ => true) (fun _ => true) system_name cl_params false config "" tt.
End Install.

(** Every component has the port it was to be plugged into, and every link and
    interconnect holds it. *)
Definition plugged {A} (l : list A) (k : option nat) : bool := match k with Some k => (k <? length l)%nat | None => false end.
Definition wired {E Mem} (s : System E Mem) : bool :=
  match nets s with
  | n0 :: n1 :: _ =>
      forallb (fun n => plugged (n_link n) (n_core_port n) && plugged (n_link n) (n_lower n) && plugged (net_ports n0) (n_upper n)) (nodes s) &&
      plugged (net_ports n0) (sc_lower (shared_cache s)) && plugged (net_ports n1) (sc_upper (shared_cache s)) && plugged (net_ports n1) (memory_port s)
  | _ => false
  end.

(** The presets, each with the class that loads it and its number of cores. *)
Definition presets : list (string * string * nat) :=
  [("MultiCoreSystem", "MultiCoreSystem", 4%nat); ("MultiCoreSystem", "MultiCoreSystem_Snoop", 4%nat);
   ("MultiCoreSystem", "MultiCoreSystem_Directory", 4%nat); ("MultiCoreSystem", "MultiCoreSystem_gem5", 8%nat);
   ("MultiCoreSystem_Mesh", "MultiCoreSystem_Mesh", 4%nat)].

(** What [preset_assembles] asks of a system, computed. *)
Definition assembled {E Mem} (n : nat) (r : list (Object * Z) * ClockManager * System E Mem) : bool :=
  let '(objects, m, s) := r in
  wired s && (length (nodes s) =? n)%nat && forallb (fun o => 0 <? snd o) objects &&
  forallb (fun e => (Z.to_nat (clocked_obj e) <? length objects)%nat) (events m).
Definition preset_assembles rand junk junk_flag (p : string * string * nat) : bool :=
  let '(name, config, n) := p in
  match demo_CacheSim rand junk junk_flag 4 name config [] with Ok r => assembled n r | _ => false end.


(** ** Runs *)

Definition no_rand : Z -> nat -> Z := fun _ _ => 0.
Abbreviation demo_main := (octopus_main (Mem := unit) (installation 4) 4 root "/octopus/Protocols_FSM/" "/octopus/src/MCsim/" "/octopus"
  no_rand true 0 false [] 4 (fun _ => true) (fun _ => true) 1000 5000 ["octopus"; "-s"; "MultiCoreSystem"; "-p"; "workload_path(s)=BMs/TestBM"] tt).

(** To the end: thirty microseconds, every trace played. *)
Definition finished (r : list (Object * Z) * ClockManager * System unit unit) : bool * Z * list bool :=
  let '(_, m, s) := r in
  (clk_run m, current_time m, (fun x => match n_core x with TraceCore c => m_simulation_done c | ExternalCore _ => false end) <$> nodes s).

Lemma simulation_ends_at_rest_witness : exists objects m s,
  demo_main = Ok (objects, m, s) /\ current_time m = 30650 /\ length (nodes s) = 4%nat /\
  clk_run m = false /\ forall i x c, nodes s !! i = Some x -> n_core x = TraceCore c -> m_simulation_done c = true /\ at_rest c.
Proof.
  destruct (observe finished (demo_main) (false, 30650, repeat true 4)) as ([[objects m] s] & E & Hf); [vm_compute; reflexivity|].
  exists objects, m, s. split; [exact E|]. injection Hf as _ Ht Hl.
  split; [exact Ht|]. split; [by rewrite <- (length_fmap (fun x => match n_core x with TraceCore c => m_simulation_done c | ExternalCore _ => false end)), Hl|].
  exact (simulation_ends_at_rest _ _ _ _ _ _ _ _ _ _ _ _ _ _ _ _ _ _ _ _ _ E).
Defined.

(** Sixty steps into a run of the snooping system with the line interlock set
    from the command line: every core has its two requests on their way. *)
Definition interlock_on : list string := ["cache_controller[*].line_interlock(i)=1"; "llc_controller.line_interlock(i)=1"].
Abbreviation demo_started := (newCacheSim (Mem := unit) (installation 4) 4 root "/octopus/Protocols_FSM/" "/octopus/src/MCsim/" "/octopus"
  no_rand true 0 false [] 4 (fun _ => true) (fun _ => true) "MultiCoreSystem" interlock_on false "MultiCoreSystem_Snoop" "" tt).
Abbreviation demo_under_way :=
  (let! (objects, m, s) := demo_started in
   let! (m', s') := after objects 1000 60 m s in Ok (objects, m, s, m', s')).
Definition under_way (r : list (Object * Z) * ClockManager * System unit unit * ClockManager * System unit unit) : list bool * list Z :=
  let '(_, _, s, _, s') := r in
  (m_line_interlock (cfg (sc_cache (shared_cache s))) :: ((fun x => m_line_interlock (cfg (n_cache x))) <$> nodes s),
   (fun x => match n_core x with TraceCore c => m_sent_requests c | ExternalCore _ => 0 end) <$> nodes s').

Lemma simulation_invariants_witness : exists objects m s m' s',
  demo_started = Ok (objects, m, s) /\ steps objects 1000 m s m' s' /\
  under_way (objects, m, s, m', s') = (repeat true 5, repeat 2 4) /\
  one_per_line (sc_cache (shared_cache s')) /\ forall i x x', nodes s !! i = Some x -> nodes s' !! i = Some x' ->
    m_line_interlock (cfg (n_cache x)) = true -> one_per_line (n_cache x').
Proof.
  destruct (observe under_way demo_under_way (repeat true 5, repeat 2 4)) as ([[[[objects m] s] m'] s'] & E & Hf); [vm_compute; reflexivity|].
  apply obind_Ok in E as ([[o1 m1] s1] & E1 & ([m2 s2] & E2%after_steps & [= -> -> -> -> ->])%obind_Ok).
  exists objects, m, s, m', s'. pose proof (simulation_invariants _ _ _ _ _ _ _ _ _ _ _ _ _ _ _ _ _ _ _ _ _ _ _ _ _ _ E1 E2) as [Hc Hn].
  split_and!; [exact E1|exact E2|exact Hf|apply Hc; by injection Hf as Hl _|]. intros i x x' Hx Hx'. exact (proj1 (Hn i x x' Hx Hx')).
Defined.

(** ** What the presets say and the system does not hear *)

Definition seen {A} (f : System unit unit -> A) (r : outcome (list (Object * Z) * ClockManager * System unit unit)) : outcome A :=
  let! (_, _, s) := r in Ok (f s).
Abbreviation demo_preset := (demo_CacheSim no_rand 0 false).

(** The presets reserve 128 slots of the snooping bus for responses under the
    name of the bus; only its controller reads a reserve, under its own. *)
Definition reserve_of (n : Net) : option Z :=
  match n with BusNet (Split b) _ _ | TripleNet (Triple b) _ _ => Some (m_response_reserve b) | _ => None end.
Lemma response_reserve_unheard :
  seen (fun s => reserve_of <$> nets s) (demo_preset 4 "MultiCoreSystem" "MultiCoreSystem" ["bus[0].response_reserve(i)=128"]) = Ok [Some 0; None] /\
  seen (fun s => reserve_of <$> nets s) (demo_preset 4 "MultiCoreSystem" "MultiCoreSystem" ["bus[0].interconnect_controller.response_reserve(i)=128"]) = Ok [Some 128; None].
Proof. split; vm_compute; reflexivity. Qed.

(** The memory takes its id from [m_main_memory] and nothing else. *)
Definition latency_of (m : MemoryObject) : option Z := match m with BasicMemory m => Some (m_memory_latency m) | MCsimMemory _ => None end.
Lemma memory_latency_unheard :
  seen (fun s => latency_of (memory s)) (demo_preset 4 "MultiCoreSystem" "MultiCoreSystem" ["m_main_memory.m_memory_latency(i)=7"]) =
  seen (fun s => latency_of (memory s)) (demo_preset 4 "MultiCoreSystem" "MultiCoreSystem" []) /\
  seen (fun s => latency_of (memory s)) (demo_preset 4 "MultiCoreSystem" "MultiCoreSystem" ["MainMemoryController.m_memory_latency(i)=7"]) = Ok (Some 7).
Proof. split; vm_compute; reflexivity. Qed.

(** A core without a workload is idle in one system and ends the other. *)
Lemma missing_trace :
  seen (fun s => length (nodes s)) (demo_preset 3 "MultiCoreSystem" "MultiCoreSystem" []) = Ok 4%nat /\
  seen (fun s => length (nodes s)) (demo_preset 3 "MultiCoreSystem_Mesh" "MultiCoreSystem_Mesh" []) = Exit "CPU: Error workload file is not opened!".
Proof. split; vm_compute; reflexivity. Qed.
