(* ===== verification/Logger.v ===== *)
(** * The logger

    [src/Logger.cpp]: the timeline of every request, event by event, and what
    becomes of it when the core takes the answer: a row of the latency report,
    the worst cases of the core, the latency as the oldest request.  [Logger]
    holds the per-request and per-core maps, [Output] the files; a file is the
    list of its lines, by path, and a line the values written.  Nothing of the
    simulation reads any of it.  The binary trace is [LogTrace]'s. *)

From S2P Require Export Config Messages.

Local Open Scope string_scope.
Open Scope Z_scope.

(** ** Events *)

Module Role.
Inductive Role := CPU | L1 | REQ_BUS | RESP_BUS | LLC | MEM_BUS | DRAM | UNKNOWN | SVC_BUS | ARRAY | LLC_QUEUE | FSM.
#[global] Instance Role_eq_dec : EqDecision Role.
Proof. solve_decision. Defined.
End Role.
Notation Role := Role.Role.

Module Phase.
Inductive Phase := ENTER | SERVICE | EXIT.
#[global] Instance Phase_eq_dec : EqDecision Phase.
Proof. solve_decision. Defined.
End Phase.
Notation Phase := Phase.Phase.

Inductive Annot := LLC_STATE | LLC_GATE | ARRAY_AHEAD | ARRAY_AHEAD_WRITES | LLC_STALL_STATE.

Record LogEvent := mkLogEvent { ev_comp : Z; ev_role : Role; ev_phase : Phase; ev_cycle : Z }.

Record EventMeta := mkEventMeta {
  em_req_id : Z; em_addr : Z; em_trace : Z;
  em_llc_state : Z; em_llc_gate : Z; em_llc_stall_state : Z;
  em_array_ahead : Z; em_array_ahead_writes : Z }.

Record GrantRec := mkGrantRec { gr_issue : Z; gr_emit : Z; gr_grant : Z; gr_miss : bool }.

(** ** The report *)

(** The eight differences of a row that make up its total. *)
Record Stages := mkStages {
  l1_stall : Z; req_bus : Z; l2_stall : Z; l2_access : Z; resp_bus : Z; l2_dram_bus : Z; dram_latency : Z; l1_access : Z }.

(** The maps of worst cases and sums, for one core. *)
Record CoreStats := mkCoreStats {
  worst_stages : Stages;
  worst_case_latency : Z;
  max_effective_latency : Z;
  worst_case_oldest_latency : Z;
  average_latency : Z;                      (* the sum *)
  num_request : Z;
  last_checkpoint : Z }.
Definition noStages : Stages := mkStages 0 0 0 0 0 0 0 0.
Definition noStats : CoreStats := mkCoreStats noStages 0 0 0 0 0 0.

Record Row := mkRow {
  row_id : Z; row_addr : Z; row_ready : Z; row_cpu : Z; row_stages : Stages;
  row_total : Z; row_effective : Z; row_oldest : Z;
  row_llc_state : Z; row_llc_gate : Z; row_resp_ahead : Z; row_resp_ahead_refills : Z;
  row_array_ahead : Z; row_array_ahead_writes : Z; row_llc_stall_state : Z }.

Record JobRow := mkJobRow {
  jr_job : Z; jr_release : Z; jr_finish : Z; jr_deadline : Z; jr_miss : bool;
  jr_accesses : Z; jr_skipped : Z; jr_mean : Z; jr_max : Z }.

(** A line of a file.  The average is written as the quotient of two counts. *)
Inductive Line :=
| ReportHeading
| RequestLine (r : Row)
| BlankLine
| WorstHeading
| WorstLine (w : CoreStats)
| JobHeading
| JobLine (j : JobRow)
| SummaryHeading
| SummaryLine (core : Z) (w : CoreStats)
| MetricHeading (cores : list Z)
| MetricLine (metric : nat) (values : list CoreStats).

Record Output := mkOutput {
  disk : gmap string (list Line);
  report_file_path : string;
  report_files : gmap Z string;             (* the open files, by path *)
  job_files : gmap Z string;
  summary_file : option string;
  summary_values : list (Z * CoreStats) }.

Record Tally := mkTally { g_evt_ok : Z; g_evt_fail : Z; g_evt_noresp : Z }.

Record Logger := mkLogger {
  grant_hist : gmap Z (list GrantRec);
  event_log : gmap Z (list LogEvent);
  event_core : gmap Z Z;
  event_meta : gmap Z EventMeta;
  core_stats : gmap Z CoreStats;
  issue_order : gmap Z (list (Z * bool));
  oldest_start : gmap Z Z;
  core_clk_count : gmap Z Z;
  output : Output;
  tally : Tally }.

Definition noOutput : Output := mkOutput ∅ "" ∅ ∅ None [].
Definition newLogger : Logger := mkLogger ∅ ∅ ∅ ∅ ∅ ∅ ∅ ∅ noOutput (mkTally 0 0 0).

Definition set_requests (log : gmap Z (list LogEvent)) (core : gmap Z Z) (meta : gmap Z EventMeta) (l : Logger) : Logger :=
  mkLogger (grant_hist l) log core meta (core_stats l) (issue_order l) (oldest_start l) (core_clk_count l) (output l) (tally l).
Definition set_queue (q : gmap Z (list (Z * bool))) (start : gmap Z Z) (l : Logger) : Logger :=
  mkLogger (grant_hist l) (event_log l) (event_core l) (event_meta l) (core_stats l) q start (core_clk_count l) (output l) (tally l).
Definition set_stats (g : gmap Z (list GrantRec)) (s : gmap Z CoreStats) (l : Logger) : Logger :=
  mkLogger g (event_log l) (event_core l) (event_meta l) s (issue_order l) (oldest_start l) (core_clk_count l) (output l) (tally l).
Definition set_clocks (k : gmap Z Z) (l : Logger) : Logger :=
  mkLogger (grant_hist l) (event_log l) (event_core l) (event_meta l) (core_stats l) (issue_order l) (oldest_start l) k (output l) (tally l).
Definition set_output (o : Output) (t : Tally) (l : Logger) : Logger :=
  mkLogger (grant_hist l) (event_log l) (event_core l) (event_meta l) (core_stats l) (issue_order l) (oldest_start l) (core_clk_count l) o t.

(** [map::operator[]] *)
Definition at_or {A} (d : A) (k : Z) (m : gmap Z A) : A := default d (m !! k).

(** ** Files *)

Definition open_file (path : string) (d : gmap string (list Line)) : gmap string (list Line) := <[path := []]> d.
Definition write_to (path : string) (ls : list Line) (d : gmap string (list Line)) : gmap string (list Line) :=
  <[path := (default [] (d !! path) ++ ls)%list]> d.

Definition set_disk (d : gmap string (list Line)) (o : Output) : Output :=
  mkOutput d (report_file_path o) (report_files o) (job_files o) (summary_file o) (summary_values o).
Definition set_reports (d : gmap string (list Line)) (r : gmap Z string) (o : Output) : Output :=
  mkOutput d (report_file_path o) r (job_files o) (summary_file o) (summary_values o).
Definition set_jobs (d : gmap string (list Line)) (j : gmap Z string) (o : Output) : Output :=
  mkOutput d (report_file_path o) (report_files o) j (summary_file o) (summary_values o).
Definition set_summary (d : gmap string (list Line)) (f : option string) (v : list (Z * CoreStats)) (o : Output) : Output :=
  mkOutput d (report_file_path o) (report_files o) (job_files o) f v.

Definition registerReportPath (file_path : string) (l : Logger) : Logger :=
  let o := output l in
  set_output (mkOutput (disk o) file_path (report_files o) (job_files o) (summary_file o) (summary_values o)) (tally l) l.

Definition prepareReportFile (core_id : Z) (o : Output) : Output :=
  match report_files o !! core_id with
  | Some _ => o
  | None =>
      let path := report_file_path o +:+ "/LatencyReport_C" +:+ to_string core_id +:+ ".csv" in
      set_reports (write_to path [ReportHeading] (open_file path (disk o))) (<[core_id := path]> (report_files o)) o
  end.

(** A map that is written out, in the order of its keys. *)
Fixpoint put {A} (k : Z) (v : A) (l : list (Z * A)) : list (Z * A) :=
  match l with
  | [] => [(k, v)]
  | (k', v') :: l' => if k <? k' then (k, v) :: l else if k =? k' then (k, v) :: l' else (k', v') :: put k v l'
  end.

(** A closed file takes nothing. *)
Definition to_report (core_id : Z) (ls : list Line) (o : Output) : Output :=
  match report_files o !! core_id with Some path => set_disk (write_to path ls (disk o)) o | None => o end.

Definition jobReport (core_id : Z) (j : JobRow) (l : Logger) : Logger :=
  let o := output l in
  let o :=
    match job_files o !! core_id with
    | Some _ => o
    | None =>
        let path := report_file_path o +:+ "/JobReport_C" +:+ to_string core_id +:+ ".csv" in
        set_jobs (write_to path [JobHeading] (open_file path (disk o))) (<[core_id := path]> (job_files o)) o
    end in
  let path := default "" (job_files o !! core_id) in
  set_output (set_disk (write_to path [JobLine j] (disk o)) o) (tally l) l.

(** ** Requests *)

Definition initializeStats (core_id : Z) (l : Logger) : Logger :=
  match core_stats l !! core_id with
  | Some _ => l
  | None => set_stats (grant_hist l) (<[core_id := noStats]> (core_stats l)) l
  end.

Definition setClkCount (core_id clk : Z) (l : Logger) : Logger := set_clocks (<[core_id := clk]> (core_clk_count l)) l.

Definition addRequest (g_no_log : bool) (cpu_id : Z) (m : Message) (l : Logger) : Logger :=
  if g_no_log then initializeStats cpu_id l else
  let l := set_requests (event_log l) (<[msg_id m := cpu_id]> (event_core l))
             (<[msg_id m := mkEventMeta (msg_id m) (msg_addr m) (msg_cycle m) (-2) 0 (-2) 0 0]> (event_meta l)) l in
  let l := initializeStats cpu_id l in
  let q := (at_or [] cpu_id (issue_order l) ++ [(msg_id m, false)])%list in
  set_queue (<[cpu_id := q]> (issue_order l))
    (if (length q =? 1)%nat then <[cpu_id := at_or 0 cpu_id (core_clk_count l)]> (oldest_start l) else oldest_start l) l.

Definition annotate (g_no_log : bool) (id : Z) (key : Annot) (value : Z) (l : Logger) : Logger :=
  if g_no_log then l else
  match event_meta l !! id with
  | None => l
  | Some e =>
      let e :=
        match key with
        | LLC_STATE => mkEventMeta (em_req_id e) (em_addr e) (em_trace e) (i32 value) (em_llc_gate e) (em_llc_stall_state e) (em_array_ahead e) (em_array_ahead_writes e)
        | LLC_GATE => mkEventMeta (em_req_id e) (em_addr e) (em_trace e) (em_llc_state e) (i32 value) (em_llc_stall_state e) (em_array_ahead e) (em_array_ahead_writes e)
        | ARRAY_AHEAD => mkEventMeta (em_req_id e) (em_addr e) (em_trace e) (em_llc_state e) (em_llc_gate e) (em_llc_stall_state e) (w32 value) (em_array_ahead_writes e)
        | ARRAY_AHEAD_WRITES => mkEventMeta (em_req_id e) (em_addr e) (em_trace e) (em_llc_state e) (em_llc_gate e) (em_llc_stall_state e) (em_array_ahead e) (w32 value)
        | LLC_STALL_STATE => mkEventMeta (em_req_id e) (em_addr e) (em_trace e) (em_llc_state e) (em_llc_gate e)
            (if em_llc_stall_state e =? -2 then i32 value else em_llc_stall_state e) (em_array_ahead e) (em_array_ahead_writes e)
        end in
      set_requests (event_log l) (event_core l) (<[id := e]> (event_meta l)) l
  end.

(** [resetReports]: the clocks and the job files stay. *)
Definition resetReports (l : Logger) : Logger :=
  let o := output l in
  mkLogger ∅ ∅ ∅ ∅ ∅ ∅ ∅ (core_clk_count l) (mkOutput (disk o) (report_file_path o) ∅ (job_files o) None []) (tally l).

(** ** The timeline of a request *)

Definition is_stamp (r : Role) (p : Phase) (e : LogEvent) : bool := bool_decide (ev_role e = r /\ ev_phase e = p).
Definition ll (e : LogEvent) : Z := i64 (ev_cycle e).
(** [find(r, p, last)] and [nth(r, p, idx)]; -1 where there is none. *)
Definition find_first (ev : list LogEvent) (r : Role) (p : Phase) : Z := default (-1) (ll <$> head (List.filter (is_stamp r p) ev)).
Definition find_last (ev : list LogEvent) (r : Role) (p : Phase) : Z := default (-1) (ll <$> last (List.filter (is_stamp r p) ev)).
Definition find_nth (ev : list LogEvent) (r : Role) (p : Phase) (idx : nat) : Z := default (-1) (ll <$> List.filter (is_stamp r p) ev !! idx).

Record Milestones := mkMilestones {
  m_issue : Z; m_l1a : Z; m_reqb : Z; m_llca : Z; m_memout : Z; m_dre : Z; m_drx : Z; m_memin : Z;
  m_llcs : Z; m_llce : Z; m_respb : Z; m_rx : Z }.

(** Another core's L1 may have answered: its last stamps before the grant. *)
Definition owner_stamps (respb : Z) (ev : list LogEvent) (st : Z * Z) : Z * Z :=
  foldl (fun '(llcs, llce) e =>
    if bool_decide (ev_role e = Role.L1) && (ll e <? respb) then
      match ev_phase e with Phase.SERVICE => (ll e, llce) | Phase.EXIT => (llcs, ll e) | Phase.ENTER => (llcs, llce) end
    else (llcs, llce)) st ev.

Definition milestones (ev : list LogEvent) : Milestones :=
  let llca := find_first ev Role.LLC Phase.ENTER in
  let llcs := find_first ev Role.LLC Phase.SERVICE in
  let llce := find_last ev Role.LLC Phase.EXIT in
  let respb := find_last ev Role.RESP_BUS Phase.EXIT in
  let '(llca, llcs, llce) :=
    if (llce <? 0) && (0 <=? respb) then
      let '(llcs, llce) := owner_stamps respb ev (llcs, llce) in (if 0 <=? llcs then llcs else llca, llcs, llce)
    else (llca, llcs, llce) in
  mkMilestones (find_first ev Role.CPU Phase.ENTER) (find_first ev Role.L1 Phase.ENTER) (find_first ev Role.REQ_BUS Phase.EXIT) llca
    (find_nth ev Role.MEM_BUS Phase.EXIT 0) (find_first ev Role.DRAM Phase.ENTER) (find_last ev Role.DRAM Phase.EXIT)
    (find_nth ev Role.MEM_BUS Phase.EXIT 1) llcs llce respb (find_last ev Role.CPU Phase.EXIT).

(** [mil]: the milestones that are there, in canonical order. *)
Definition mil (m : Milestones) : list Z :=
  m_issue m :: List.filter (Z.leb 0) [m_l1a m; m_reqb m; m_llca m; m_memout m; m_dre m; m_drx m; m_memin m; m_llcs m; m_llce m; m_respb m] ++ [m_rx m].
(** The sum of the steps, and whether none goes back. *)
Fixpoint walk (a : Z) (l : list Z) : Z * bool :=
  match l with
  | [] => (0, true)
  | b :: l' => let '(sum, monotone) := walk b l' in (b - a + sum, (0 <=? b - a) && monotone)
  end.
Definition is_tiled (m : Milestones) : bool :=
  let '(sum, monotone) := match mil m with [] => (0, true) | a :: l => walk a l end in monotone && (sum =? m_rx m - m_issue m).

(** A difference of two milestones, 0 when one is missing or it is negative. *)
Definition cd (a b : Z) : Z := if (0 <=? a) && (0 <=? b) && (b <? a) then a - b else 0.

(** The columns, and whether nobody was seen to answer. *)
Definition stages (m : Milestones) : Stages * bool :=
  let miss := 0 <=? m_memout m in
  let dram := (0 <=? m_dre m) && (0 <=? m_drx m) in
  let l2d := if miss then (if dram then cd (m_dre m) (m_llca m) + cd (m_memin m) (m_drx m) else cd (m_memout m) (m_llca m)) else 0 in
  let drm := if miss then (if dram then cd (m_drx m) (m_dre m) else cd (m_memin m) (m_memout m)) else 0 in
  let l2a := if miss then cd (m_llcs m) (m_memin m) else cd (m_llcs m) (m_llca m) in
  let noresp := (m_llce m <? 0) && (0 <=? m_llca m) && (0 <=? m_respb m) in
  (mkStages (cd (m_l1a m) (m_issue m)) (cd (m_reqb m) (m_l1a m)) (cd (m_llca m) (m_reqb m))
     (if noresp then cd (m_respb m) (m_llca m) else l2a) (if noresp then 0 else cd (m_respb m) (m_llce m))
     (w64 l2d) drm (cd (m_rx m) (Z.max (m_l1a m) (m_respb m))), noresp).

(** ** The oldest request *)

(** Requests that retired while they were not oldest leave with it. *)
Fixpoint drop_retired (q : list (Z * bool)) : list (Z * bool) :=
  match q with (id, true) :: q' => drop_retired q' | _ => q end.
Fixpoint mark_retired (id : Z) (q : list (Z * bool)) : list (Z * bool) :=
  match q with
  | [] => []
  | (i, b) :: q' => if i =? id then (i, true) :: q' else (i, b) :: mark_retired id q'
  end.
(** The head-of-queue latency, the queue and the start of the next oldest. *)
Definition retire (id rx start : Z) (q : list (Z * bool)) : Z * list (Z * bool) * Z :=
  match q with
  | (i, _) :: q' =>
      if i =? id then let q' := drop_retired q' in (w64 (rx - i64 start), q', match q' with [] => start | _ => w64 rx end)
      else (0, mark_retired id q, start)
  | [] => (0, [], start)
  end.

(** ** A finished request *)

Definition logMax (latency max_latency : Z) : Z := Z.max latency max_latency.
Definition max_stages (a b : Stages) : Stages :=
  mkStages (logMax (l1_stall a) (l1_stall b)) (logMax (req_bus a) (req_bus b)) (logMax (l2_stall a) (l2_stall b))
    (logMax (l2_access a) (l2_access b)) (logMax (resp_bus a) (resp_bus b)) (logMax (l2_dram_bus a) (l2_dram_bus b))
    (logMax (dram_latency a) (dram_latency b)) (logMax (l1_access a) (l1_access b)).

(** Younger answers granted between this one's emit and its grant, and how many
    of them came from memory. *)
Definition resp_ahead (m : Milestones) (gh : list GrantRec) : Z * Z :=
  let ahead := if (0 <=? m_respb m) && (0 <=? m_llce m)
    then List.filter (fun g => (w64 (m_issue m) <? gr_issue g) && (w64 (m_llce m) <? gr_grant g) && (gr_grant g <? w64 (m_respb m))) gh else [] in
  (w32 (Z.of_nat (length ahead)), w32 (Z.of_nat (length (List.filter gr_miss ahead)))).
Definition grant (m : Milestones) (gh : list GrantRec) : list GrantRec :=
  if 0 <=? m_respb m then
    let gh := (gh ++ [mkGrantRec (w64 (m_issue m)) (w64 (if 0 <=? m_llce m then m_llce m else m_respb m)) (w64 (m_respb m)) (0 <=? m_memout m)])%list in
    if (512 <? length gh)%nat then tail gh else gh
  else gh.

Definition count_tile (ok noresp : bool) (t : Tally) : Tally :=
  mkTally (w64 (g_evt_ok t + if ok then 1 else 0)) (w64 (g_evt_fail t + if ok then 0 else 1)) (w64 (g_evt_noresp t + if noresp then 1 else 0)).

(** The row, and the statistics with it. *)
Definition report_row (m : Milestones) (e : EventMeta) (c : CoreStats) (oldest : Z) (gh : list GrantRec) : Row :=
  let '(ahead, refills) := resp_ahead m gh in
  mkRow (em_req_id e) (em_addr e) (em_trace e) (cd (m_issue m) (i64 (em_trace e))) (fst (stages m))
    (w64 (m_rx m - m_issue m)) (w64 (m_rx m - Z.max (i64 (last_checkpoint c)) (m_issue m))) oldest
    (em_llc_state e) (em_llc_gate e) ahead refills (em_array_ahead e) (em_array_ahead_writes e) (em_llc_stall_state e).
Definition account_row (r : Row) (rx : Z) (c : CoreStats) : CoreStats :=
  mkCoreStats (max_stages (row_stages r) (worst_stages c)) (logMax (row_total r) (worst_case_latency c))
    (logMax (row_effective r) (max_effective_latency c)) (logMax (row_oldest r) (worst_case_oldest_latency c))
    (w64 (average_latency c + row_effective r)) (w64 (num_request c + 1)) (w64 rx).

Definition finalizeEvents (id : Z) (l : Logger) : Logger :=
  match event_log l !! id with
  | None | Some [] => l
  | Some ev =>
      let m := milestones ev in
      if (m_issue m <? 0) || (m_rx m <? 0) then l else
      let counted b := count_tile (is_tiled m) b (tally l) in
      match event_meta l !! id with
      | None => set_output (output l) (counted false) l
      | Some e =>
          let core := at_or 0 id (event_core l) in
          let '(oldest, q, start) := retire id (m_rx m) (at_or 0 core (oldest_start l)) (at_or [] core (issue_order l)) in
          let c := at_or noStats core (core_stats l) in
          let gh := at_or [] core (grant_hist l) in
          let r := report_row m e c oldest gh in
          let o := to_report core [RequestLine r] (prepareReportFile core (output l)) in
          let l := set_queue (<[core := q]> (issue_order l)) (<[core := start]> (oldest_start l)) l in
          let l := set_stats (<[core := grant m gh]> (grant_hist l)) (<[core := account_row r (m_rx m) c]> (core_stats l)) l in
          set_output o (counted (snd (stages m))) l
      end
  end.

Definition event (g_no_log : bool) (id : Z) (role : Role) (comp : Z) (phase : Phase) (l : Logger) : Logger :=
  if g_no_log then l else
  match event_core l !! id with
  | None => l
  | Some core =>
      let e := mkLogEvent comp role phase (at_or 0 core (core_clk_count l)) in
      let l := set_requests (<[id := (at_or [] id (event_log l) ++ [e])%list]> (event_log l)) (event_core l) (event_meta l) l in
      if bool_decide (role = Role.CPU /\ phase = Phase.EXIT) then
        let l := finalizeEvents id l in
        set_requests (delete id (event_log l)) (delete id (event_core l)) (delete id (event_meta l)) l
      else l
  end.

(** ** The end of a core *)

(** The metrics of a summary: the eight stages, the total, the effective
    latency, the average, the finish cycle and the oldest latency. *)
Definition metrics : nat := 13.

Definition writeTransposedSummary (o : Output) : Output :=
  let path := report_file_path o +:+ "/Summary_transposed.csv" in
  let values := summary_values o in
  let lines := (MetricHeading (fst <$> values) :: ((fun i => MetricLine i (snd <$> values)) <$> seq 0 metrics))%list in
  set_disk (write_to path lines (open_file path (disk o))) o.

Definition traceEnd (core_id : Z) (l : Logger) : Logger :=
  let c := at_or noStats core_id (core_stats l) in
  let o := to_report core_id [BlankLine; BlankLine; BlankLine; WorstHeading] (output l) in
  let o :=
    match summary_file o with
    | Some _ => o
    | None =>
        let path := report_file_path o +:+ "/Summary.csv" in
        set_summary (write_to path [SummaryHeading] (open_file path (disk o))) (Some path) (summary_values o) o
    end in
  let o := to_report core_id [WorstLine c] o in
  let o := set_reports (disk o) (delete core_id (report_files o)) o in
  let o := set_summary (write_to (default "" (summary_file o)) [SummaryLine core_id c] (disk o)) (summary_file o) (put core_id c (summary_values o)) o in
  let o := writeTransposedSummary o in
  let ended := mkCoreStats (worst_stages c) (worst_case_latency c) (max_effective_latency c) (worst_case_oldest_latency c)
                 (average_latency c) (num_request c) 0 in
  let l := set_stats (grant_hist l) (<[core_id := ended]> (core_stats l)) l in
  set_output (if decide (report_files o = ∅) then set_summary (disk o) None (summary_values o) o else o) (tally l) l.
