(* ===== verification/LoggerTheory.v ===== *)
(** * Properties of the logger

    The columns of a row of the latency report add up to its total, and the
    latencies as the oldest request add up to the time a core waits. *)

From S2P Require Export ConfigTheory Logger.

Local Open Scope list_scope.
Open Scope Z_scope.

(** ** The columns of a row *)

Lemma walk_telescopes l : forall a, fst (walk a l) = List.last l a - a.
Proof.
  induction l as [|b l IH]; intros a; cbn [walk]; [cbn; lia|]. specialize (IH b). destruct (walk b l) as [s mo]. cbn [fst] in *. rewrite IH.
  destruct l as [|x l]; [cbn; lia|]. change (List.last (b :: x :: l) a) with (List.last (x :: l) a).
  assert (E : List.last (x :: l) b = List.last (x :: l) a) by (clear; revert x; induction l as [|y l IH]; intros x; [done|apply IH]). lia.
Qed.

(** The check of the timeline compares a sum with itself: it fails for
    milestones out of order only. *)
Lemma tiled_iff_ordered m : is_tiled m = match mil m with [] => true | a :: l => snd (walk a l) end.
Proof.
  unfold is_tiled, mil. match goal with |- context [walk ?a ?l] => pose proof (walk_telescopes l a) as H end.
  rewrite List.last_last in H. destruct (walk _ _) as [sum mo]. cbn in H |- *. subst sum. by rewrite Z.eqb_refl, andb_true_r.
Qed.

Definition columns (s : Stages) : Z :=
  l1_stall s + req_bus s + l2_stall s + l2_access s + resp_bus s + l2_dram_bus s + dram_latency s + l1_access s.

(** A request that was served by its L1 on its way, or travelled over the bus:
    to the shared cache or an owner, and to memory and back if it was not there. *)
Inductive travelled (m : Milestones) : Prop :=
| served_by_l1 : m_reqb m < 0 -> m_llca m < 0 -> m_memout m < 0 -> m_llcs m < 0 -> m_llce m < 0 -> m_respb m < 0 -> travelled m
| served_over_bus : 0 <= m_reqb m -> 0 <= m_llca m -> m_memout m < 0 -> (0 <= m_llcs m <-> 0 <= m_llce m) -> 0 <= m_respb m -> travelled m
| served_from_memory : 0 <= m_reqb m -> 0 <= m_llca m -> 0 <= m_memout m -> 0 <= m_memin m -> 0 <= m_llcs m -> 0 <= m_llce m -> 0 <= m_respb m ->
    travelled m.

(** What the columns leave out: the time between the access and the emission. *)
Definition unaccounted (m : Milestones) : Z := if 0 <=? m_llce m then m_llce m - m_llcs m else 0.

Lemma cd_eq a b : 0 <= b <= a -> cd a b = a - b.
Proof. intros H. unfold cd. destruct (Z.leb_spec 0 a), (Z.leb_spec 0 b), (Z.ltb_spec b a); cbn; lia. Qed.
Lemma cd_absent a b : a < 0 -> cd a b = 0.
Proof. intros H. unfold cd. by rewrite (proj2 (Z.leb_gt 0 a)). Qed.

Lemma walk_ordered a b l : snd (walk a (b :: l)) = true -> a <= b /\ snd (walk b l) = true.
Proof. cbn [walk]. destruct (walk b l) as [s mo]. cbn. intros [H1 H2]%andb_true_iff. apply Z.leb_le in H1. split; [lia|done]. Qed.

Ltac ordered H :=
  repeat (let H1 := fresh "Hle" in apply walk_ordered in H as [H1 H]).

Lemma stages_sum m : travelled m -> is_tiled m = true -> 0 <= m_issue m -> 0 <= m_l1a m -> 0 <= m_rx m < 2 ^ 63 ->
  columns (fst (stages m)) + unaccounted m = m_rx m - m_issue m.
Proof.
  intros T. rewrite tiled_iff_ordered. unfold mil, columns, stages, unaccounted. cbv zeta.
  cbn [fst l1_stall req_bus l2_stall l2_access resp_bus l2_dram_bus dram_latency l1_access List.filter].
  destruct m as [issue l1a reqb llca memout dre drx memin llcs llce respb rx]. cbn in *. intros Ht Hi Hl Hr. revert Ht.
  destruct T as [H1 H2 H3 H4 H5 H6|H1 H2 H3 H4 H5|H1 H2 H3 H4 H5 H6 H7]; cbn in *.
  all: repeat match goal with |- context [0 <=? ?x] => destruct (Z.leb_spec 0 x); [|try lia]; try lia end.
  all: repeat match goal with |- context [?x <? 0] => destruct (Z.ltb_spec x 0); [try lia|]; try lia end.
  all: cbn [app andb]; intros Ht; ordered Ht; clear Ht;
    repeat match goal with |- context [cd ?a ?b] => (rewrite (cd_eq a b) by lia) || (rewrite (cd_absent a b) by lia) end.
  all: rewrite ?w64_small by lia; lia.
Qed.

(** ** The report of a core *)

Definition report (core : Z) (o : Output) : list Line :=
  match report_files o !! core with Some path => default [] (disk o !! path) | None => [] end.
Definition report_path (dir : string) (core : Z) : string := (dir +:+ "/LatencyReport_C" +:+ to_string core +:+ ".csv")%string.

(** The open files are where their cores' reports belong. *)
Record files_ok (o : Output) : Prop := mk_files_ok {
  fo_path : forall c p, report_files o !! c = Some p -> int c /\ p = report_path (report_file_path o) c }.

Lemma report_path_inj dir c c' : int c -> int c' -> report_path dir c = report_path dir c' -> c = c'.
Proof.
  intros Hc Hc' E. unfold report_path in E. do 2 apply append_inj_l in E. apply append_inj_r in E. by apply to_string_inj.
Qed.

(** The rows written so far; the first line is the heading. *)
Definition rows (o : Output) (core : Z) : list Row := omap (fun ln => match ln with RequestLine r => Some r | _ => None end) (report core o).

Lemma prepare_ok o core : files_ok o -> int core -> let o' := prepareReportFile core o in
  files_ok o' /\ is_Some (report_files o' !! core) /\ (forall c, rows o' c = rows o c) /\ report_file_path o' = report_file_path o.
Proof.
  intros [Hf] Hc. unfold prepareReportFile. change (report_file_path o +:+ _)%string with (report_path (report_file_path o) core).
  destruct (report_files o !! core) as [p|] eqn:Ep; [by eauto using mk_files_ok|]. unfold set_reports, rows, report. cbn.
  rewrite lookup_insert_eq. split_and!; [|by eauto| |done].
  - split. intros c p. cbn. destruct (decide (c = core)) as [->|Hne]; [rewrite lookup_insert_eq; by intros [= <-]|]. rewrite lookup_insert_ne by done. apply Hf.
  - intros c. destruct (decide (c = core)) as [->|Hne].
    + rewrite lookup_insert_eq, Ep. unfold write_to. rewrite lookup_insert_eq. unfold open_file. by rewrite lookup_insert_eq.
    + rewrite lookup_insert_ne by done. destruct (report_files o !! c) as [q|] eqn:Eq; [|done]. destruct (Hf _ _ Eq) as [Hi ->].
      unfold write_to, open_file. rewrite !lookup_insert_ne; [done|..]; intros E; by apply report_path_inj in E.
Qed.

Lemma to_report_ok o core r : files_ok o -> is_Some (report_files o !! core) -> let o' := to_report core [RequestLine r] o in
  files_ok o' /\ rows o' core = rows o core ++ [r] /\ (forall c, c <> core -> rows o' c = rows o c) /\ report_file_path o' = report_file_path o.
Proof.
  intros [Hf] [p Ep]. unfold to_report. rewrite Ep. unfold set_disk, rows, report. cbn. rewrite Ep. destruct (Hf _ _ Ep) as [Hc ->].
  split; [by split|]. split; [unfold write_to; rewrite lookup_insert_eq; cbn; by rewrite omap_app|]. split; [|done].
  intros c Hne. destruct (report_files o !! c) as [q|] eqn:Eq; [|done]. destruct (Hf _ _ Eq) as [Hi ->].
  unfold write_to. rewrite lookup_insert_ne; [done|]. intros E. by apply report_path_inj in E.
Qed.

Lemma write_row o core r : files_ok o -> int core -> let o' := to_report core [RequestLine r] (prepareReportFile core o) in
  files_ok o' /\ rows o' core = rows o core ++ [r] /\ (forall c, c <> core -> rows o' c = rows o c) /\ report_file_path o' = report_file_path o.
Proof.
  intros Hf Hc. destruct (prepare_ok o core Hf Hc) as (H1 & H2 & H3 & H4). destruct (to_report_ok _ core r H1 H2) as (H5 & H6 & H7 & H8).
  cbv zeta. split_and!; [done|by rewrite H6, H3|intros c Hne; by rewrite H7, H3|congruence].
Qed.

(** ** A request that retires *)

(** The first stamp of a tracked request is its issue. *)
Definition issued (ev : list LogEvent) (t : Z) : Prop := exists k rest, ev = mkLogEvent k Role.CPU Phase.ENTER t :: rest.

Lemma milestones_issue ev k t : issued ev t -> 0 <= t < 2 ^ 63 -> 0 <= k < 2 ^ 63 -> forall comp,
  m_issue (milestones (ev ++ [mkLogEvent comp Role.CPU Phase.EXIT k])) = t /\ m_rx (milestones (ev ++ [mkLogEvent comp Role.CPU Phase.EXIT k])) = k.
Proof.
  intros (i & rest & ->) Ht Hk comp. unfold milestones. destruct (if _ : bool then _ else _) as [[? ?] ?]. cbn [m_issue m_rx].
  split; [by cbn; apply i64_small; lia|]. unfold find_last. rewrite List.filter_app.
  change (List.filter _ [mkLogEvent comp Role.CPU Phase.EXIT k]) with [mkLogEvent comp Role.CPU Phase.EXIT k]. rewrite last_snoc. cbn. apply i64_small. lia.
Qed.

Lemma event_retires l id comp core ev t e :
  event_core l !! id = Some core -> event_log l !! id = Some ev -> issued ev t -> event_meta l !! id = Some e ->
  let now := at_or 0 core (core_clk_count l) in
  0 <= t < 2 ^ 63 -> 0 <= now < 2 ^ 63 ->
  let l' := event false id Role.CPU comp Phase.EXIT l in
  let m := milestones (ev ++ [mkLogEvent comp Role.CPU Phase.EXIT now]) in
  let '(oldest, q, start) := retire id now (at_or 0 core (oldest_start l)) (at_or [] core (issue_order l)) in
  let r := report_row m e (at_or noStats core (core_stats l)) oldest (at_or [] core (grant_hist l)) in
  l' = mkLogger (<[core := grant m (at_or [] core (grant_hist l))]> (grant_hist l)) (delete id (event_log l)) (delete id (event_core l)) (delete id (event_meta l))
         (<[core := account_row r now (at_or noStats core (core_stats l))]> (core_stats l)) (<[core := q]> (issue_order l)) (<[core := start]> (oldest_start l))
         (core_clk_count l) (to_report core [RequestLine r] (prepareReportFile core (output l))) (count_tile (is_tiled m) (snd (stages m)) (tally l)).
Proof.
  intros Hc Hl Hev He now Ht Hnow l' m. destruct (milestones_issue ev now t Hev Ht Hnow comp) as [Hi Hr]. fold m in Hi, Hr.
  assert (Em : milestones (ev ++ [mkLogEvent comp Role.CPU Phase.EXIT now]) = m) by done. clearbody m. subst l'. unfold event. rewrite Hc. cbv zeta. rewrite bool_decide_true by done. fold now.
  assert (E1 : at_or [] id (event_log l) = ev) by (unfold at_or; by rewrite Hl). assert (E2 : at_or 0 id (event_core l) = core) by (unfold at_or; by rewrite Hc).
  rewrite E1.
  unfold finalizeEvents. cbn [event_log set_requests]. rewrite lookup_insert_eq.
  destruct (ev ++ [_]) as [|x y] eqn:Ex; [by destruct ev|]. rewrite <- Ex in Em |- *. cbv zeta. rewrite Em, Hi, Hr.
  rewrite (proj2 (Z.ltb_ge t 0)), (proj2 (Z.ltb_ge now 0)) by lia. cbn [orb event_meta set_requests]. rewrite He.
  cbn [event_core set_requests oldest_start issue_order core_stats grant_hist output tally]. rewrite E2.
  destruct (retire _ _ _ _) as [[oldest q] start]. cbn. by rewrite delete_insert_eq.
Qed.


(** ** Oldest requests *)

(** What the simulator tells the logger: a core's clock, a request it issued, a
    stamp, an annotation, the answer it took. *)
Inductive LogOp :=
| Clock (core t : Z)
| Issue (core comp : Z) (m : Message)
| Stamp (id : Z) (role : Role) (comp : Z) (phase : Phase)
| Note (id : Z) (key : Annot) (value : Z)
| Retire (id comp : Z).

Definition log_op (l : Logger) (op : LogOp) : Logger :=
  match op with
  | Clock core t => setClkCount core t l
  | Issue core comp m => event false (msg_id m) Role.CPU comp Phase.ENTER (addRequest false core m l)
  | Stamp id role comp phase => event false id role comp phase l
  | Note id key value => annotate false id key value l
  | Retire id comp => event false id Role.CPU comp Phase.EXIT l
  end.

(** A bystander of one core: its clock, the requests it waits for, and for how
    long it has been waiting for any. *)
Record Watch := mkWatch { w_now : Z; w_out : list Z; w_busy : Z }.
Definition watch (core : Z) (w : Watch) (op : LogOp) : Watch :=
  match op with
  | Clock c t => if c =? core then mkWatch t (w_out w) (w_busy w + match w_out w with [] => 0 | _ => t - w_now w end) else w
  | Issue c _ m => if c =? core then mkWatch (w_now w) (w_out w ++ [msg_id m]) (w_busy w) else w
  | Retire id _ => mkWatch (w_now w) (List.filter (fun i => negb (i =? id)) (w_out w)) (w_busy w)
  | _ => w
  end.
Definition watch_all (core : Z) (ops : list LogOp) : Watch := foldl (watch core) (mkWatch 0 [] 0) ops.

(** Clocks go forward and stay within 63 bits, identifiers are new, stamps other
    than the last are not the answer to the core. *)
Definition issued_ids (ops : list LogOp) : list Z := omap (fun op => match op with Issue _ _ m => Some (msg_id m) | _ => None end) ops.
Definition legal_op (before : list LogOp) (op : LogOp) : Prop :=
  match op with
  | Clock core t => int core /\ w_now (watch_all core before) <= t < 2 ^ 63
  | Issue core _ m => int core /\ msg_id m ∉ issued_ids before
  | Stamp _ role _ phase => ~ (role = Role.CPU /\ phase = Phase.EXIT)
  | _ => True
  end.
Fixpoint legal (before ops : list LogOp) : Prop :=
  match ops with [] => True | op :: ops' => legal_op before op /\ legal (before ++ [op]) ops' end.

Definition log_all (l : Logger) (ops : list LogOp) : Logger := foldl log_op l ops.
Definition oldest_sum (l : list Row) : Z := foldr (fun r n => row_oldest r + n) 0 l.
(** How long the oldest request of a core has been that. *)
Definition oldest_so_far (core : Z) (l : Logger) : Z :=
  match at_or [] core (issue_order l) with [] => 0 | _ => at_or 0 core (core_clk_count l) - at_or 0 core (oldest_start l) end.

(** What the logger knows of a core, against the bystander. *)
Definition waiting (q : list (Z * bool)) : list Z := omap (fun '(id, gone) => if gone : bool then None else Some id) q.
Record tracks (l : Logger) (used : list Z) (core : Z) (w : Watch) : Prop := mk_tracks {
  tr_now : at_or 0 core (core_clk_count l) = w_now w;
  tr_time : 0 <= w_now w < 2 ^ 63;
  tr_queue : waiting (at_or [] core (issue_order l)) = w_out w;
  tr_front : match at_or [] core (issue_order l) with (_, true) :: _ => False | _ => True end;
  tr_ids : NoDup ((at_or [] core (issue_order l)).*1) /\ forall id, id ∈ (at_or [] core (issue_order l)).*1 -> id ∈ used;
  tr_core : forall id, event_core l !! id = Some core <-> id ∈ w_out w;
  tr_start : at_or [] core (issue_order l) <> [] -> 0 <= at_or 0 core (oldest_start l) <= w_now w;
  tr_sum : oldest_sum (rows (output l) core) + oldest_so_far core l = w_busy w }.
(** And of its requests. *)
Record known (l : Logger) (used : list Z) : Prop := mk_known {
  kn_request : forall id core, event_core l !! id = Some core -> int core /\ id ∈ used /\ is_Some (event_meta l !! id) /\
    exists ev t, event_log l !! id = Some ev /\ issued ev t /\ 0 <= t < 2 ^ 63;
  kn_log : forall id, is_Some (event_log l !! id) -> is_Some (event_core l !! id);
  kn_files : files_ok (output l) }.

(** *** Queues *)

Definition gone_front (q : list (Z * bool)) : Prop := match q with (_, true) :: _ => False | _ => True end.

Lemma waiting_app q q' : waiting (q ++ q') = waiting q ++ waiting q'.
Proof. apply omap_app. Qed.

Lemma waiting_cons i b q : waiting ((i, b) :: q) = if b : bool then waiting q else i :: waiting q.
Proof. by destruct b. Qed.

Lemma waiting_nil q : gone_front q -> waiting q = [] -> q = [].
Proof. destruct q as [|[i [|]] q]; [done..|]. done. Qed.

Lemma waiting_ids q id : id ∈ waiting q -> id ∈ q.*1.
Proof.
  unfold waiting. intros ([i b] & Hin & Hs)%list_elem_of_omap. destruct b; [done|]. injection Hs as ->. apply list_elem_of_fmap. by exists (id, false).
Qed.

Lemma filter_absent id l : id ∉ l -> List.filter (fun i => negb (i =? id)) l = l.
Proof.
  induction l as [|x l IH]; [done|]. rewrite not_elem_of_cons. intros [Hne Hl]. cbn. destruct (Z.eqb_spec x id) as [->|]; [done|]. cbn. by rewrite IH.
Qed.

Lemma waiting_drop q : waiting (drop_retired q) = waiting q /\ gone_front (drop_retired q).
Proof. induction q as [|[i [|]] q IH]; [done|exact IH|done]. Qed.

Lemma drop_ids q : (drop_retired q).*1 `sublist_of` q.*1.
Proof. induction q as [|[i [|]] q IH]; [done|by apply sublist_cons|done]. Qed.

Lemma mark_spec id q : NoDup q.*1 -> waiting (mark_retired id q) = List.filter (fun i => negb (i =? id)) (waiting q) /\
  (mark_retired id q).*1 = q.*1 /\ length (mark_retired id q) = length q.
Proof.
  induction q as [|[i b] q IH]; [done|]. intros [Hi Hq]%NoDup_cons. cbn [mark_retired]. destruct (Z.eqb_spec i id) as [->|Hne].
  - split; [|done]. assert (Hf : id ∉ waiting q) by (intros H; by apply Hi, waiting_ids).
    rewrite !waiting_cons. destruct b; cbn [List.filter]; rewrite ?Z.eqb_refl; cbn [negb]; by rewrite filter_absent.
  - destruct (IH Hq) as (E1 & E2 & E3). split_and!; [|cbn; by rewrite E2|cbn; by rewrite E3].
    rewrite !waiting_cons, E1. destruct b; [done|]. cbn [List.filter]. by rewrite (proj2 (Z.eqb_neq i id)).
Qed.

(** The front of the queue is the oldest request; the time it has been that
    goes to its row, and nobody else's. *)
Lemma retire_spec id now start q : NoDup q.*1 -> gone_front q -> id ∈ waiting q -> 0 <= start <= now -> now < 2 ^ 63 ->
  let '(oldest, q', start') := retire id now start q in
  waiting q' = List.filter (fun i => negb (i =? id)) (waiting q) /\ gone_front q' /\ q'.*1 `sublist_of` q.*1 /\ 0 <= start' <= now /\
  oldest + (match q' with [] => 0 | _ => now - start' end) = now - start.
Proof.
  intros Hnd Hf Hin Hs Hn. destruct q as [|[i b] q]; [by apply elem_of_nil in Hin|]. destruct b; [done|]. cbn [retire]. pose proof Hnd as [Hi Hq]%NoDup_cons.
  pose proof (waiting_cons i false q) as Ew. cbv iota in Ew. destruct (Z.eqb_spec i id) as [->|Hne].
  - destruct (waiting_drop q) as [E1 E2]. rewrite i64_small by lia. rewrite (w64_small (now - start)) by lia. rewrite (w64_small now) by lia.
    split; [|split; [exact E2|split; [by apply sublist_cons, drop_ids|destruct (drop_retired q); lia]]].
    rewrite E1, Ew. cbn [List.filter]. rewrite Z.eqb_refl. cbn [negb]. symmetry. apply filter_absent. intros H. by apply Hi, waiting_ids.
  - destruct (mark_spec id ((i, false) :: q) Hnd) as (E1 & E2 & E3). cbn [mark_retired] in *. rewrite (proj2 (Z.eqb_neq i id)) in * by done.
    split; [exact E1|split; [done|split; [by rewrite E2|lia]]].
Qed.

(** *** Every step *)

Lemma at_or_eq {A} (d v : A) k m : at_or d k (<[k := v]> m) = v.
Proof. unfold at_or. by rewrite lookup_insert_eq. Qed.
Lemma at_or_ne {A} (d v : A) k k' m : k' <> k -> at_or d k (<[k' := v]> m) = at_or d k m.
Proof. intros H. unfold at_or. by rewrite lookup_insert_ne. Qed.

(** All of the logger that one core's accounts depend on. *)
Definition about (core : Z) (l : Logger) : Z * list (Z * bool) * Z * list Row :=
  (at_or 0 core (core_clk_count l), at_or [] core (issue_order l), at_or 0 core (oldest_start l), rows (output l) core).

Lemma tracks_same l l' used used' core w : about core l' = about core l -> (forall id, event_core l' !! id = Some core <-> event_core l !! id = Some core) ->
  (forall id, id ∈ used -> id ∈ used') -> tracks l used core w -> tracks l' used' core w.
Proof.
  intros [= E1 E2 E3 E4] Hc Hu [H1 H2 H3 H4 [H5 H6] H7 H8 H9]. unfold oldest_so_far in H9.
  split; unfold oldest_so_far; rewrite ?E1, ?E2, ?E3, ?E4; auto. intros id. by rewrite Hc.
Qed.

Definition sound (ops : list LogOp) (l : Logger) : Prop := known l (issued_ids ops) /\ forall core, tracks l (issued_ids ops) core (watch_all core ops).

Lemma watch_snoc core ops op : watch_all core (ops ++ [op]) = watch core (watch_all core ops) op.
Proof. unfold watch_all. by rewrite foldl_snoc. Qed.

Lemma sound_start : sound [] newLogger.
Proof.
  split.
  - split; cbn; [by intros id core; rewrite lookup_empty|intros id; rewrite lookup_empty; by intros []|]. split. intros c p. cbn. by rewrite lookup_empty.
  - intros core. assert (E : forall A (d : A), at_or d core ∅ = d) by (intros; unfold at_or; by rewrite lookup_empty).
    split; cbn; unfold oldest_so_far, rows, report; cbn; rewrite ?E, ?lookup_empty; try done.
    + split; [constructor|by intros id ?%elem_of_nil].
    + intros id. cbn. rewrite lookup_empty. split; [done|by intros ?%elem_of_nil].
Qed.

Lemma sound_clock ops l core t : sound ops l -> legal_op ops (Clock core t) -> sound (ops ++ [Clock core t]) (log_op l (Clock core t)).
Proof.
  intros [Hk Hw] [Hi Ht]. assert (Eu : issued_ids (ops ++ [Clock core t]) = issued_ids ops) by (unfold issued_ids; by rewrite omap_app, app_nil_r).
  split; rewrite Eu; [by destruct Hk|]. intros c. rewrite watch_snoc. specialize (Hw c). cbn [watch log_op]. unfold setClkCount.
  destruct (Z.eqb_spec core c) as [->|Hne].
  - destruct Hw as [H1 H2 H3 H4 H5 H6 H7 H8]. split; unfold oldest_so_far in *; cbn; rewrite ?at_or_eq; try done; [lia|intros Hq; specialize (H7 Hq); lia|].
    rewrite <- H8, <- H3. destruct (at_or [] c (issue_order l)) as [|[i [|]] q]; [cbn; lia|done|]. rewrite waiting_cons. lia.
  - apply (tracks_same l _ (issued_ids ops)); [|done|done|exact Hw]. unfold about. cbn. by rewrite at_or_ne.
Qed.

(** Stamps and annotations change nothing of this. *)
Lemma event_stamp l id role comp phase core : ~ (role = Role.CPU /\ phase = Phase.EXIT) -> event_core l !! id = Some core ->
  event false id role comp phase l =
    set_requests (<[id := at_or [] id (event_log l) ++ [mkLogEvent comp role phase (at_or 0 core (core_clk_count l))]]> (event_log l)) (event_core l) (event_meta l) l.
Proof. intros Hp Hc. unfold event. rewrite Hc. by rewrite bool_decide_false. Qed.

Lemma known_stamp l used id e : is_Some (event_core l !! id) -> known l used ->
  known (set_requests (<[id := at_or [] id (event_log l) ++ [e]]> (event_log l)) (event_core l) (event_meta l) l) used.
Proof.
  intros Hid [H1 H2 H3]. split; cbn; [|intros i|done].
  - intros i core Hi. destruct (H1 i core Hi) as (A & B & C & ev & t & D & F & G). split_and!; [done..|].
    destruct (decide (i = id)) as [->|Hne]; [|rewrite lookup_insert_ne by done; by exists ev, t].
    rewrite lookup_insert_eq. exists (ev ++ [e]), t. unfold at_or. rewrite D. split_and!; [done| |lia..]. destruct F as (k & rest & ->). by exists k, (rest ++ [e]).
  - destruct (decide (i = id)) as [->|Hne]; [done|]. rewrite lookup_insert_ne by done. apply H2.
Qed.

Lemma sound_stamp ops l id role comp phase : sound ops l -> legal_op ops (Stamp id role comp phase) ->
  sound (ops ++ [Stamp id role comp phase]) (log_op l (Stamp id role comp phase)).
Proof.
  intros [Hk Hw] Hp. unfold sound. assert (Eu : issued_ids (ops ++ [Stamp id role comp phase]) = issued_ids ops) by (unfold issued_ids; by rewrite omap_app, app_nil_r).
  rewrite Eu. cbn [log_op]. destruct (event_core l !! id) as [core|] eqn:Hc.
  - rewrite (event_stamp _ _ _ _ _ _ Hp Hc). split; [by apply known_stamp; eauto|]. intros c. rewrite watch_snoc. by eapply (tracks_same l); [..|apply Hw].
  - unfold event. rewrite Hc. split; [done|]. intros c. rewrite watch_snoc. apply Hw.
Qed.

Lemma sound_note ops l id key v : sound ops l -> sound (ops ++ [Note id key v]) (log_op l (Note id key v)).
Proof.
  intros [Hk Hw]. unfold sound. assert (Eu : issued_ids (ops ++ [Note id key v]) = issued_ids ops) by (unfold issued_ids; by rewrite omap_app, app_nil_r).
  rewrite Eu. cbn [log_op]. unfold annotate. destruct (event_meta l !! id) as [e|] eqn:He.
  - split; [|intros c; rewrite watch_snoc; by eapply (tracks_same l); [..|apply Hw]]. destruct Hk as [H1 H2 H3]. split; cbn; [|done..].
    intros i core Hi. destruct (H1 i core Hi) as (A & B & C & D). split_and!; [done..| |done].
    destruct (decide (i = id)) as [->|Hne]; [rewrite lookup_insert_eq; by eauto|by rewrite lookup_insert_ne].
  - split; [done|]. intros c. rewrite watch_snoc. apply Hw.
Qed.

(** A request is issued. *)
Lemma addRequest_fields core m l :
  let l' := addRequest false core m l in
  event_core l' = <[msg_id m := core]> (event_core l) /\ event_log l' = event_log l /\ is_Some (event_meta l' !! msg_id m) /\
  (forall i, i <> msg_id m -> event_meta l' !! i = event_meta l !! i) /\ core_clk_count l' = core_clk_count l /\ output l' = output l /\
  issue_order l' = <[core := at_or [] core (issue_order l) ++ [(msg_id m, false)]]> (issue_order l) /\
  oldest_start l' = (match at_or [] core (issue_order l) with [] => <[core := at_or 0 core (core_clk_count l)]> (oldest_start l) | _ => oldest_start l end).
Proof.
  unfold addRequest, initializeStats. cbn [core_stats set_requests]. destruct (core_stats l !! core); cbn;
    (split_and!; [done|done|by rewrite lookup_insert_eq|intros i Hi; by rewrite lookup_insert_ne by done|done|done|done|]);
    destruct (at_or [] core (issue_order l)) as [|x q]; cbn; rewrite ?length_app; try done; destruct q; done.
Qed.

Lemma sound_issue ops l core comp m : sound ops l -> legal_op ops (Issue core comp m) -> sound (ops ++ [Issue core comp m]) (log_op l (Issue core comp m)).
Proof.
  intros [Hk Hw] [Hi Hnew]. set (id := msg_id m) in *.
  assert (Eu : issued_ids (ops ++ [Issue core comp m]) = issued_ids ops ++ [id]) by (unfold issued_ids; by rewrite omap_app).
  assert (Hc0 : event_core l !! id = None).
  { destruct (event_core l !! id) as [c|] eqn:Hc; [|done]. by destruct (kn_request _ _ Hk id c Hc) as (_ & ? & _). }
  assert (Hl0 : event_log l !! id = None).
  { destruct (event_log l !! id) eqn:E; [|done]. destruct (kn_log _ _ Hk id) as [c Hc]; [by eauto|]. by rewrite Hc0 in Hc. }
  pose proof (addRequest_fields core m l) as F. cbn [log_op]. cbv zeta in F. fold id in F |- *. set (l1 := addRequest false core m l) in *.
  assert (Eid : msg_id m = id) by done. clearbody l1 id. destruct F as (F1 & F2 & F3 & F4 & F5 & F6 & F7 & F8).
  rewrite (event_stamp l1 id Role.CPU comp Phase.ENTER core) by (rewrite ?F1, ?lookup_insert_eq; first [done|by intros [_ ?]]).
  rewrite F2. unfold at_or at 1. rewrite Hl0. cbn [default app]. unfold sound. rewrite Eu.
  assert (Hnow : 0 <= at_or 0 core (core_clk_count l) < 2 ^ 63) by (rewrite (tr_now _ _ _ _ (Hw core)); apply (tr_time _ _ _ _ (Hw core))).
  split.
  - destruct Hk as [H1 H2 H3]. split; cbn; rewrite ?F1, ?F6; [|intros i|done].
    + intros i c. destruct (decide (i = id)) as [->|Hne].
      * rewrite !lookup_insert_eq. intros [= <-]. split_and!; [done..|set_solver|done|]. eexists _, _. split; [done|]. rewrite F5. split; [by eexists _, _|done].
      * rewrite !lookup_insert_ne by done. intros Hc. destruct (H1 i c Hc) as (A & B & C & ev & t & D & G). split_and!; [done..|set_solver|by rewrite F4|]. by exists ev, t.
    + destruct (decide (i = id)) as [->|Hne]; [rewrite !lookup_insert_eq; by eauto|]. rewrite !lookup_insert_ne by done. apply H2.
  - intros c. rewrite watch_snoc. specialize (Hw c). cbn [watch]. rewrite ?Eid. destruct (Z.eqb_spec core c) as [->|Hne].
    + destruct Hw as [H1 H2 H3 H4 [H5 H6] H7 H8 H9]. unfold oldest_so_far in H9. split; unfold oldest_so_far; cbn; rewrite ?F1, ?F5, ?F6, ?F7, ?F8, ?at_or_eq; [done..| | | | | |].
      * by rewrite waiting_app, H3.
      * by destruct (at_or [] c (issue_order l)) as [|[i [|]] q].
      * rewrite fmap_app. split; [|intros i; rewrite !elem_of_app; intros [?|Hi']; [left; auto|right; set_solver]]. apply NoDup_app. split; [done|]. split; [|apply NoDup_singleton].
        intros i Hin ->%list_elem_of_singleton. by apply Hnew, H6.
      * intros i. rewrite elem_of_app, list_elem_of_singleton. destruct (decide (i = id)) as [->|Hne]; [rewrite lookup_insert_eq; by split; [right|]|].
        rewrite lookup_insert_ne by done. rewrite H7. split; [by left|by intros [?| ?]].
      * intros _. destruct (at_or [] c (issue_order l)) as [|x q]; [rewrite at_or_eq; lia|by apply H8].
      * rewrite <- H9. destruct (at_or [] c (issue_order l)) as [|x q]; cbn; [rewrite at_or_eq|]; lia.
    + apply (tracks_same l _ (issued_ids ops)); [| |set_solver|done].
      * unfold about. cbn. rewrite F5, F6, F7, F8, at_or_ne by done. destruct (at_or [] core (issue_order l)); [by rewrite at_or_ne|done].
      * intros i. cbn. rewrite F1. destruct (decide (i = id)) as [->|Hn]; [rewrite lookup_insert_eq, Hc0; split; congruence|by rewrite lookup_insert_ne].
Qed.

(** A request retires. *)
Lemma sound_retire ops l id comp : sound ops l -> sound (ops ++ [Retire id comp]) (log_op l (Retire id comp)).
Proof.
  intros [Hk Hw]. unfold sound. assert (Eu : issued_ids (ops ++ [Retire id comp]) = issued_ids ops) by (unfold issued_ids; by rewrite omap_app, app_nil_r).
  rewrite Eu. cbn [log_op]. destruct (event_core l !! id) as [core|] eqn:Hc.
  2: { split; [by unfold event; rewrite Hc|]. intros c. rewrite watch_snoc. cbn [watch]. unfold event. rewrite Hc.
       rewrite filter_absent; [destruct (Hw c); by split|]. intros Hin%(tr_core _ _ _ _ (Hw c)). congruence. }
  destruct (kn_request _ _ Hk id core Hc) as (Hint & _ & [e He] & ev & t & Hev & Hiss & Ht).
  pose proof (event_retires l id comp core ev t e Hc Hev Hiss He Ht) as H. cbv zeta in H.
  pose proof (Hw core) as [T1 T2 T3 T4 [T5 T6] T7 T8 T9]. rewrite T1 in H. specialize (H T2).
  assert (Hin : id ∈ waiting (at_or [] core (issue_order l))) by (rewrite T3; by apply T7).
  assert (Hq : at_or [] core (issue_order l) <> []) by (intros Hq; rewrite Hq in Hin; by apply elem_of_nil in Hin). specialize (T8 Hq).
  pose proof (retire_spec id (w_now (watch_all core ops)) (at_or 0 core (oldest_start l)) _ T5 T4 Hin T8 (proj2 T2)) as R.
  destruct (retire _ _ _ _) as [[oldest q] start]. rewrite H. clear H. destruct R as (R1 & R2 & R3 & R4 & R5).
  set (r := report_row _ _ _ _ _). destruct (write_row (output l) core r (kn_files _ _ Hk) Hint) as (W1 & W2 & W3 & W4).
  split.
  - destruct Hk as [H1 H2 H3]. split; cbn; [|intros i|done].
    + intros i c [Hne Hi]%lookup_delete_Some. destruct (H1 i c Hi) as (A & B & C & D). by rewrite !lookup_delete_ne by done.
    + intros [x [Hne Hx]%lookup_delete_Some]. rewrite lookup_delete_ne by done. apply H2. by eauto.
  - intros c. rewrite watch_snoc. cbn [watch]. destruct (decide (c = core)) as [->|Hne].
    + split; unfold oldest_so_far; cbn [core_clk_count issue_order oldest_start event_core output w_now w_out w_busy]; rewrite ?at_or_eq; [done|done|by rewrite R1, T3|done| | |intros _; lia|].
      * split; [by eapply sublist_NoDup|]. intros i Hi. apply T6. by eapply sublist_subseteq.
      * intros i. rewrite lookup_delete_Some, T7, !list_elem_of_In, filter_In, negb_true_iff, Z.eqb_neq. split; intros [A B]; split; auto.
      * rewrite W2. rewrite <- T9. unfold oldest_so_far. rewrite T1. assert (Er : row_oldest r = oldest) by (unfold r, report_row; by destruct (resp_ahead _ _)). clearbody r.
        assert (Es : oldest_sum (rows (output l) core ++ [r]) = oldest_sum (rows (output l) core) + oldest).
        { unfold oldest_sum. rewrite foldr_app. cbn. rewrite Er. generalize (rows (output l) core). clear. induction l as [|x l IH]; cbn; lia. }
        rewrite Es. destruct (at_or [] core (issue_order l)) as [|x y]; [done|]. destruct q; lia.
    + rewrite filter_absent.
      * destruct (watch_all c ops) as [n o b] eqn:Ew. cbn [w_now w_out w_busy]. rewrite <- Ew. apply (tracks_same l _ (issued_ids ops)); [| |done|apply Hw].
        -- unfold about. cbn [core_clk_count issue_order oldest_start output]. by rewrite !at_or_ne, W3 by done.
        -- intros i. cbn. rewrite lookup_delete_Some. split; [by intros [? ?]|]. intros Hi. split; [|done]. intros ->. congruence.
      * intros Hi%(tr_core _ _ _ _ (Hw c)). congruence.
Qed.

Lemma sound_all ops : forall before l, sound before l -> legal before ops -> sound (before ++ ops) (log_all l ops).
Proof.
  induction ops as [|op ops IH]; intros before l H; cbn [legal log_all foldl]; [by rewrite app_nil_r|]. intros [Hop Hl].
  replace (before ++ op :: ops) with ((before ++ [op]) ++ ops) by (by rewrite <- app_assoc). apply IH; [|done].
  destruct op; [by apply sound_clock|by apply sound_issue|by apply sound_stamp|by apply sound_note|by apply sound_retire].
Qed.

(** C24: the latencies as the oldest request tell how long a core waits.  After
    any history of clocks, issues, stamps, annotations and answers, in any order
    of answers, the column of a core's report adds up to the cycles the core has
    spent with a request on its way, but for those the present oldest request
    has been that; with nothing on its way it is all of them. *)
Theorem oldest_latencies_cover ops core : legal [] ops ->
  let l := log_all newLogger ops in let w := watch_all core ops in
  oldest_sum (rows (output l) core) + oldest_so_far core l = w_busy w /\
  (w_out w = [] -> oldest_sum (rows (output l) core) = w_busy w).
Proof.
  intros Hl. destruct (sound_all ops [] newLogger sound_start Hl) as [_ Hw]. destruct (Hw core) as [_ _ H3 H4 _ _ _ H8]. cbn [app] in *.
  split; [exact H8|]. intros Hn. rewrite Hn in H3. apply waiting_nil in H3; [|exact H4]. unfold oldest_so_far in H8. rewrite H3 in H8. cbv zeta. lia.
Qed.

(** ** Concrete histories *)

(** Two requests of core 0: the second comes back first and waits behind the
    first, which goes to memory and back. *)
Definition demo_message (id : Z) : Message := newMessage id 4096 8 0 0.
Definition demo_miss : list LogOp :=
  [Clock 0 10; Issue 0 0 (demo_message 1); Clock 0 11; Stamp 1 Role.L1 0 Phase.ENTER; Clock 0 12; Issue 0 0 (demo_message 2);
   Clock 0 15; Stamp 1 Role.REQ_BUS 0 Phase.EXIT; Clock 0 18; Stamp 1 Role.LLC 10 Phase.ENTER; Clock 0 20; Retire 2 0;
   Stamp 1 Role.MEM_BUS 1 Phase.EXIT; Clock 0 22; Stamp 1 Role.DRAM 100 Phase.ENTER; Note 1 LLC_STATE 3; Clock 0 70; Stamp 1 Role.DRAM 100 Phase.EXIT;
   Clock 0 72; Stamp 1 Role.MEM_BUS 1 Phase.EXIT; Clock 0 75; Stamp 1 Role.LLC 10 Phase.SERVICE; Stamp 1 Role.LLC 10 Phase.EXIT;
   Clock 0 80; Stamp 1 Role.RESP_BUS 0 Phase.EXIT; Clock 0 83].
Definition demo_log : Logger := log_all newLogger demo_miss.

Lemma demo_legal : legal [] (demo_miss ++ [Retire 1 0]).
Proof.
  cbn [demo_miss app legal legal_op]. unfold int. repeat split; try apply Z.leb_le; try apply Z.ltb_lt; try (vm_compute; reflexivity);
    try (by rewrite list_elem_of_In; cbn; lia); by intros [? ?].
Qed.
Lemma legal_app ops : forall before ops', legal before (ops ++ ops') -> legal before ops.
Proof. induction ops as [|op ops IH]; intros before ops'; [done|]. intros [H1 H2]. split; [done|by eapply IH]. Qed.
Lemma demo_files_ok : files_ok (output demo_log).
Proof. destruct (sound_all demo_miss [] newLogger sound_start (legal_app _ _ _ demo_legal)) as [Hk _]. apply (kn_files _ _ Hk). Qed.

Lemma oldest_latencies_cover_witness :
  oldest_sum (rows (output (log_all newLogger (demo_miss ++ [Retire 1 0]))) 0) = 73 /\
  (row_oldest <$> rows (output (log_all newLogger (demo_miss ++ [Retire 1 0]))) 0) = [0; 73].
Proof.
  split; [|vm_compute; reflexivity]. destruct (oldest_latencies_cover (demo_miss ++ [Retire 1 0]) 0 demo_legal) as [_ H].
  rewrite H; vm_compute; reflexivity.
Defined.


(** The check of a timeline says nothing of the columns: with an access and an
    emission at different times it passes, and the row falls short. *)
Lemma tiled_not_columns : exists m, travelled m /\ is_tiled m = true /\ columns (fst (stages m)) < m_rx m - m_issue m.
Proof.
  exists (mkMilestones 0 1 2 3 (-1) (-1) (-1) (-1) 4 9 10 11). split; [by apply served_over_bus; cbn|]. split; [done|]. vm_compute. reflexivity.
Qed.
