(* ===== verification/LogTrace.v ===== *)
(** * The event trace

    The binary trace of [src/Logger.cpp] ([traceOpen] to [traceFsm]) and its
    reader [tools/octoviz/tracefile.py]: records of 32 bytes, written in chunks,
    an index of the chunks and a trailer.  A file is the list of its bytes. *)

From S2P Require Export Logger FsmReader.

Local Open Scope list_scope.
Open Scope Z_scope.

(** ** Bytes *)

(** [n] bytes of a number, the lowest first. *)
Fixpoint lo_bytes (n : nat) (z : Z) : bytes :=
  match n with O => [] | S n' => z mod 256 :: lo_bytes n' (z / 256) end.
Fixpoint of_le (b : bytes) : Z := match b with [] => 0 | x :: b' => x + 256 * of_le b' end.

Record TraceRec := mkTraceRec {
  tr_cycle : Z; tr_msg_id : Z; tr_addr : Z; tr_resource : Z; tr_phase : Z; tr_kind : Z; tr_owner : Z; tr_comp : Z; tr_flags : Z }.
Record TraceChunk := mkTraceChunk { tc_offset : Z; tc_count : Z; tc_cmin : Z; tc_cmax : Z; tc_imin : Z; tc_imax : Z }.

Definition rec_bytes (r : TraceRec) : bytes :=
  lo_bytes 8 (tr_cycle r) ++ lo_bytes 8 (tr_msg_id r) ++ lo_bytes 8 (tr_addr r) ++ lo_bytes 1 (tr_resource r) ++ lo_bytes 1 (tr_phase r) ++ lo_bytes 1 (tr_kind r) ++ lo_bytes 1 (tr_owner r) ++
  lo_bytes 2 (tr_comp r) ++ lo_bytes 2 (tr_flags r).
Definition chunk_bytes (c : TraceChunk) : bytes :=
  lo_bytes 8 (tc_offset c) ++ lo_bytes 8 (tc_count c) ++ lo_bytes 8 (tc_cmin c) ++ lo_bytes 8 (tc_cmax c) ++ lo_bytes 8 (tc_imin c) ++ lo_bytes 8 (tc_imax c).
(** "OCTV2", padded. *)
Definition TRACE_MAGIC : bytes := [79; 67; 84; 86; 50; 0; 0; 0].

(** ** The writer *)

Definition MAX_U64 : Z := 2 ^ 64 - 1.
Definition Names : Type := list string * list string.

Record Tracer := mkTracer {
  m_trace : option bytes;                   (* the open file *)
  m_trace_checked : bool;
  m_trace_path : string;
  m_trace_t0 : Z; m_trace_t1 : Z;
  m_trace_buf : list TraceRec;
  m_trace_index : list TraceChunk;
  m_trace_names : list (Z * Names);
  trace_files : gmap string bytes;          (* the files closed *)
  names_files : gmap string (list (Z * Names)) }.
Definition newTracer : Tracer := mkTracer None false "" 0 MAX_U64 [] [] [] ∅ ∅.

Definition set_trace (f : option bytes) (b : list TraceRec) (i : list TraceChunk) (t : Tracer) : Tracer :=
  mkTracer f (m_trace_checked t) (m_trace_path t) (m_trace_t0 t) (m_trace_t1 t) b i (m_trace_names t) (trace_files t) (names_files t).
Definition set_names (n : list (Z * Names)) (t : Tracer) : Tracer :=
  mkTracer (m_trace t) (m_trace_checked t) (m_trace_path t) (m_trace_t0 t) (m_trace_t1 t) (m_trace_buf t) (m_trace_index t) n (trace_files t) (names_files t).

Section Writer.
(** The environment: [OCTOPUS_TRACE], the two numbers of
    [OCTOPUS_TRACE_WINDOW], and whether a file can be opened. *)
Context (OCTOPUS_TRACE : option string) (window : option (Z * Z)) (writable : string -> bool).

Definition traceOpen (t : Tracer) : Tracer :=
  let checked p f t0 t1 :=
    mkTracer f true p t0 t1 (m_trace_buf t) (m_trace_index t) (m_trace_names t) (trace_files t) (names_files t) in
  match m_trace t with
  | Some f => checked (m_trace_path t) (Some f) (m_trace_t0 t) (m_trace_t1 t)
  | None =>
      let path := match OCTOPUS_TRACE with Some p => match p with "" => m_trace_path t | _ => p end | None => m_trace_path t end in
      if String.eqb path "" || negb (writable path) then checked path None (m_trace_t0 t) (m_trace_t1 t)
      else
        let '(t0, t1) := match window with Some (a, b) => if a <? b then (a, b) else (m_trace_t0 t, m_trace_t1 t) | None => (m_trace_t0 t, m_trace_t1 t) end in
        checked path (Some TRACE_MAGIC) t0 t1
  end.

(** The bounds of a chunk. *)
Definition chunk_of (offset : Z) (buf : list TraceRec) : TraceChunk :=
  foldl (fun c r => mkTraceChunk (tc_offset c) (tc_count c)
    (if tr_cycle r <? tc_cmin c then tr_cycle r else tc_cmin c) (if tc_cmax c <? tr_cycle r then tr_cycle r else tc_cmax c)
    (if tr_msg_id r <? tc_imin c then tr_msg_id r else tc_imin c) (if tc_imax c <? tr_msg_id r then tr_msg_id r else tc_imax c))
    (mkTraceChunk offset (w64 (Z.of_nat (length buf))) MAX_U64 0 MAX_U64 0) buf.

Definition traceFlush (t : Tracer) : Tracer :=
  match m_trace t, m_trace_buf t with
  | Some f, (_ :: _) as buf =>
      set_trace (Some (f ++ concat (rec_bytes <$> buf))) [] (m_trace_index t ++ [chunk_of (w64 (Z.of_nat (length f))) buf]) t
  | _, _ => t
  end.

Definition traceClose (t : Tracer) : Tracer :=
  match m_trace t with
  | None => t
  | Some _ =>
      let t := traceFlush t in
      let f := default [] (m_trace t) in
      let f := f ++ concat (chunk_bytes <$> m_trace_index t) ++ lo_bytes 8 (Z.of_nat (length f)) ++ lo_bytes 8 (Z.of_nat (length (m_trace_index t))) ++ TRACE_MAGIC in
      mkTracer None (m_trace_checked t) (m_trace_path t) (m_trace_t0 t) (m_trace_t1 t) (m_trace_buf t) (m_trace_index t) (m_trace_names t)
        (<[m_trace_path t := f]> (trace_files t))
        (match m_trace_names t with [] => names_files t | l => <[(m_trace_path t +:+ ".names")%string := l]> (names_files t) end)
  end.

Definition push_rec (r : TraceRec) (t : Tracer) : Tracer :=
  let buf := m_trace_buf t ++ [r] in
  let t := set_trace (m_trace t) buf (m_trace_index t) t in
  if 65536 <=? Z.of_nat (length buf) then traceFlush t else t.

Definition role_number (r : Role) : Z :=
  match r with
  | Role.CPU => 0 | Role.L1 => 1 | Role.REQ_BUS => 2 | Role.RESP_BUS => 3 | Role.LLC => 4 | Role.MEM_BUS => 5 | Role.DRAM => 6
  | Role.UNKNOWN => 7 | Role.SVC_BUS => 8 | Role.ARRAY => 9 | Role.LLC_QUEUE => 10 | Role.FSM => 11
  end.
Definition phase_number (p : Phase) : Z := match p with Phase.ENTER => 0 | Phase.SERVICE => 1 | Phase.EXIT => 2 end.
Definition kind_number (k : Kind) : Z :=
  match k with
  | K_UNKNOWN => 0 | K_DEMAND => 1 | K_GETS => 2 | K_GETM => 3 | K_PUTM => 4 | K_INV => 5 | K_MEM_READ => 6 | K_EVICT => 7
  | K_WB_DATA => 8 | K_WB_INV => 9 | K_SUPPLY => 10 | K_SUPPLY_DEFERRED => 11 | K_RESP => 12 | K_FILL => 13
  | K_FILL_ROLLBACK => 14 | K_MEM_WRITE => 15 | K_PUTS => 16 | K_FWD => 17 | K_ACK => 18
  end.

(** The core cycle: the clock's time over the core's period of 100. *)
Definition core_cycle (current_time : Z) : Z := w64 (current_time / 100 + 1).
Definition record_of (current_time : Z) (m : Message) (resource phase comp flags : Z) : TraceRec :=
  mkTraceRec (core_cycle current_time) (msg_id m) (msg_addr m) (wrap 8 resource) (wrap 8 phase) (kind_number (msg_kind m)) (wrap 8 (msg_owner m))
    (w16 comp) (w16 flags).

Definition in_window (t : Tracer) (r : TraceRec) : bool := (m_trace_t0 t <=? tr_cycle r) && (tr_cycle r <=? m_trace_t1 t).
Definition put_record (r : TraceRec) (t : Tracer) : Tracer :=
  match m_trace t with Some _ => if in_window t r then push_rec r t else t | None => t end.

Definition trace (current_time : Z) (m : Message) (role : Role) (comp : Z) (phase : Phase) (flags : Z) (t : Tracer) : Tracer :=
  let t := if m_trace_checked t then t else traceOpen t in
  put_record (record_of current_time m (role_number role) (phase_number phase) comp flags) t.

(** [getStateName]: the first name, in the order of the names, with the number;
    the number itself where there is none. *)
Definition name_of (ids : list (string * Z)) (i : Z) : string := default (to_string i) (fst <$> List.find (fun kv => snd kv =? i) ids).
Fixpoint harvest (ids : list (string * Z)) (n : nat) (i : Z) : list string :=
  match n with
  | O => []
  | S n' => let s := name_of ids i in if String.eqb s (to_string i) then [] else s :: harvest ids n' (i + 1)
  end.

(** A transition; [fsm] gives the names of the states and of the events. *)
Definition traceFsm (current_time : Z) (m : Message) (comp old_state new_state event_id : Z) (fsm : option (list (string * Z) * list (string * Z)))
    (t : Tracer) : Tracer :=
  let t := if m_trace_checked t then t else traceOpen t in
  match m_trace t with
  | None => t
  | Some _ =>
      let t :=
        match fsm with
        | Some (states, events) =>
            if existsb (fun n => fst n =? w32 comp) (m_trace_names t) then t
            else set_names (put (w32 comp) (harvest states 256 0, harvest events 256 0) (m_trace_names t)) t
        | None => t
        end in
      put_record (record_of current_time m 11 event_id comp (Z.lor (Z.shiftl (Z.land old_state 255) 8) (Z.land new_state 255))) t
  end.

(** [enableTrace]: a trace that cannot be opened ends the simulator. *)
Definition enableTrace (report_file_path : string) (create_directories : string -> bool) (t : Tracer) : outcome Tracer :=
  let path := match OCTOPUS_TRACE with Some (String a p) => String a p | _ => (report_file_path +:+ "/trace.bin")%string end in
  if negb (create_directories report_file_path) then Exit "Cannot create logger output directory" else
  let t := traceOpen (mkTracer (m_trace t) (m_trace_checked t) path (m_trace_t0 t) (m_trace_t1 t) (m_trace_buf t) (m_trace_index t) (m_trace_names t)
                        (trace_files t) (names_files t)) in
  match m_trace t with None => Exit "cannot open trace file" | Some _ => Ok t end.
End Writer.

(** ** The reader *)

Definition at_bytes (offset n : Z) (f : bytes) : bytes := take (Z.to_nat n) (drop (Z.to_nat offset) f).
Definition within (t0 t1 : Z) (r : TraceRec) : bool := (t0 <=? tr_cycle r) && (tr_cycle r <=? t1).

Section Reader.
(** numpy: [frombuffer] with the type of the index, and [fromfile] with [REC]
    and a count, from where the file stands. *)
Context (frombuffer : bytes -> list TraceChunk) (fromfile : Z -> bytes -> list TraceRec).

(** [read_index]; [None]: the file has no trailer. *)
Definition read_index (f : bytes) : outcome (option (list TraceChunk)) :=
  let size := Z.of_nat (length f) in
  if negb (bool_decide (take 8 f = TRACE_MAGIC)) then Crash "not an Octopus v2 trace"
  else if size <? 24 then Crash "seek before the start"
  else if negb (bool_decide (at_bytes (size - 8) 8 f = TRACE_MAGIC)) then Ok None
  else
    let idx_off := of_le (at_bytes (size - 24) 8 f) in
    let n := of_le (at_bytes (size - 16) 8 f) in
    Ok (Some (frombuffer (at_bytes idx_off (48 * n) f))).

(** [f.seek(c.offset); np.fromfile(f, REC, c.count)] *)
Definition read_records (f : bytes) (c : TraceChunk) : list TraceRec := fromfile (tc_count c) (drop (Z.to_nat (tc_offset c)) f).

Definition read_all (f : bytes) : outcome (list TraceRec) :=
  let! idx := read_index f in
  match idx with
  | None => Ok (fromfile ((Z.of_nat (length f) - 8) / 32) (drop 8 f))
  | Some idx => Ok (concat (read_records f <$> idx))
  end.

Definition read_window (t0 t1 : Z) (f : bytes) : outcome (list TraceRec) :=
  let! idx := read_index f in
  match idx with
  | None => let! a := read_all f in Ok (List.filter (within t0 t1) a)
  | Some idx =>
      let sel := List.filter (fun c => (t0 <=? tc_cmax c) && (tc_cmin c <=? t1)) idx in
      Ok (concat ((fun c => List.filter (within t0 t1) (read_records f c)) <$> sel))
  end.
End Reader.
