(* ===== verification/LogTraceTheory.v ===== *)
(** * The event trace is read back

    A file the logger has written and closed holds the records of its window,
    in order, and the reader finds them: all of them, or those of a window of
    cycles by the chunks whose bounds meet it. *)

From S2P Require Export ConfigTheory LogTrace.

Local Open Scope list_scope.
Open Scope Z_scope.

(** ** Bytes *)

Lemma le_length n : forall z, length (lo_bytes n z) = n.
Proof. induction n as [|n IH]; intros z; cbn; [done|]. by rewrite IH. Qed.

Lemma of_le_le n : forall z, 0 <= z < 256 ^ Z.of_nat n -> of_le (lo_bytes n z) = z.
Proof.
  induction n as [|n IH]; intros z Hz; [cbn in *; lia|]. cbn [lo_bytes of_le]. rewrite Nat2Z.inj_succ, Z.pow_succ_r in Hz by lia.
  rewrite IH by (split; [apply Z.div_pos; lia|apply Z.div_lt_upper_bound; lia]). pose proof (Z.div_mod z 256). lia.
Qed.
Lemma of_le_u64 z : 0 <= z < 2 ^ 64 -> of_le (lo_bytes 8 z) = z.
Proof. intros H. by apply of_le_le. Qed.

Lemma rec_bytes_length r : length (rec_bytes r) = 32%nat.
Proof. unfold rec_bytes. by rewrite !length_app, !le_length. Qed.
Lemma chunk_bytes_length c : length (chunk_bytes c) = 48%nat.
Proof. unfold chunk_bytes. by rewrite !length_app, !le_length. Qed.
Lemma concat_length {A} (f : A -> bytes) k l : (forall x, length (f x) = k) -> length (concat (f <$> l)) = (length l * k)%nat.
Proof. intros H. induction l as [|x l IH]; cbn; [done|]. rewrite length_app, H, IH. lia. Qed.

(** A part of a file, found by what precedes it. *)
Lemma at_bytes_mid (a b c : bytes) (off n : Z) : off = Z.of_nat (length a) -> n = Z.of_nat (length b) -> at_bytes off n (a ++ b ++ c) = b.
Proof. intros -> ->. unfold at_bytes. rewrite !Nat2Z.id, drop_app_length. apply take_app_length. Qed.

(** ** Records and chunks within their widths *)

Definition u64 (z : Z) : Prop := 0 <= z < 2 ^ 64.
Record wide (r : TraceRec) : Prop := {
  wd_cycle : u64 (tr_cycle r); wd_id : u64 (tr_msg_id r); wd_addr : u64 (tr_addr r);
  wd_resource : 0 <= tr_resource r < 256; wd_phase : 0 <= tr_phase r < 256; wd_kind : 0 <= tr_kind r < 256; wd_owner : 0 <= tr_owner r < 256;
  wd_comp : 0 <= tr_comp r < 65536; wd_flags : 0 <= tr_flags r < 65536 }.
Record wide_chunk (c : TraceChunk) : Prop := {
  wc_offset : u64 (tc_offset c); wc_count : u64 (tc_count c); wc_cmin : u64 (tc_cmin c); wc_cmax : u64 (tc_cmax c);
  wc_imin : u64 (tc_imin c); wc_imax : u64 (tc_imax c) }.

(** The bounds of a chunk hold for its records. *)
Lemma chunk_bounds off buf : let c := chunk_of off buf in
  tc_offset c = off /\ tc_count c = w64 (Z.of_nat (length buf)) /\
  (forall r, r ∈ buf -> tc_cmin c <= tr_cycle r <= tc_cmax c) /\
  (Forall wide buf -> u64 (tc_cmin c) /\ u64 (tc_cmax c) /\ u64 (tc_imin c) /\ u64 (tc_imax c)).
Proof.
  unfold chunk_of. cbv zeta. generalize (w64 (Z.of_nat (length buf))). intros n. induction buf as [|r buf IH] using rev_ind.
  { split_and!; try done. by intros r ?%elem_of_nil. }
  rewrite foldl_snoc. destruct (foldl _ _ _) as [o k cmin cmax imin imax]. cbn [tc_offset tc_count tc_cmin tc_cmax tc_imin tc_imax] in *.
  destruct IH as (-> & -> & H1 & H2). split_and!; [done..| |].
  - intros x [Hx| ->%list_elem_of_singleton]%elem_of_app; [specialize (H1 x Hx)|]; destruct (Z.ltb_spec (tr_cycle r) cmin), (Z.ltb_spec cmax (tr_cycle r)); lia.
  - intros [Hb Hr]%Forall_app. apply Forall_inv in Hr. specialize (H2 Hb). pose proof (wd_cycle _ Hr) as Hc. pose proof (wd_id _ Hr) as Hi.
    destruct (tr_cycle r <? cmin), (cmax <? tr_cycle r), (tr_msg_id r <? imin), (imax <? tr_msg_id r); tauto.
Qed.

(** ** The writer *)

(** A call of the tracer. *)
Inductive TraceOp :=
| Resource (current_time : Z) (m : Message) (role : Role) (comp : Z) (phase : Phase) (flags : Z)
| Transition (current_time : Z) (m : Message) (comp old_state new_state event_id : Z) (fsm : option (list (string * Z) * list (string * Z))).

Definition op_record (op : TraceOp) : TraceRec :=
  match op with
  | Resource time m role comp phase flags => record_of time m (role_number role) (phase_number phase) comp flags
  | Transition time m comp old new ev _ => record_of time m 11 ev comp (Z.lor (Z.shiftl (Z.land old 255) 8) (Z.land new 255))
  end.
Definition op_wide (op : TraceOp) : Prop :=
  match op with Resource _ m _ _ _ _ | Transition _ m _ _ _ _ _ => u64 (msg_id m) /\ u64 (msg_addr m) end.

Lemma record_wide time m resource phase comp flags : u64 (msg_id m) -> u64 (msg_addr m) -> wide (record_of time m resource phase comp flags).
Proof.
  intros H1 H2. unfold record_of, core_cycle. split; cbn [tr_cycle tr_msg_id tr_addr tr_resource tr_phase tr_kind tr_owner tr_comp tr_flags]; try done;
    try (unfold u64; apply wrap_range; lia); try (apply (wrap_range 8); lia); try (apply (wrap_range 16); lia). by destruct (msg_kind m).
Qed.
Lemma op_record_wide op : op_wide op -> wide (op_record op).
Proof. destruct op; intros [? ?]; by apply record_wide. Qed.

(** The chunks of groups of records laid one after the other. *)
Fixpoint layout (off : Z) (groups : list (list TraceRec)) : list TraceChunk :=
  match groups with [] => [] | g :: gs => chunk_of off g :: layout (off + 32 * Z.of_nat (length g)) gs end.
Definition body (groups : list (list TraceRec)) : bytes := concat (rec_bytes <$> concat groups).

Lemma body_length groups : length (body groups) = (length (concat groups) * 32)%nat.
Proof. apply concat_length, rec_bytes_length. Qed.
Lemma layout_snoc groups g : forall off, layout off (groups ++ [g]) = layout off groups ++ [chunk_of (off + 32 * Z.of_nat (length (concat groups))) g].
Proof.
  induction groups as [|h groups IH]; intros off; cbn [layout app concat]; [f_equal; f_equal; cbn; lia|]. rewrite IH, length_app. do 4 f_equal. lia.
Qed.

(** An open file whose written records, with the buffered ones, are [kept]. *)
Record writing (t : Tracer) (path : string) (t0 t1 : Z) (kept : list TraceRec) : Prop := {
  wr_checked : m_trace_checked t = true;
  wr_path : m_trace_path t = path;
  wr_window : m_trace_t0 t = t0 /\ m_trace_t1 t = t1;
  wr_groups : exists groups, m_trace t = Some (TRACE_MAGIC ++ body groups) /\ m_trace_index t = layout 8 groups /\
    concat groups ++ m_trace_buf t = kept /\ Forall (fun g => g <> []) groups }.

(** What is left in the buffer is written. *)
Lemma flush_writing t path t0 t1 kept : Z.of_nat (length kept) < 2 ^ 56 -> writing t path t0 t1 kept ->
  writing (traceFlush t) path t0 t1 kept /\ m_trace_buf (traceFlush t) = [].
Proof.
  intros Hn [H1 H2 H3 (groups & Hf & Hi & Hk & Hg)]. unfold traceFlush. rewrite Hf. destruct (m_trace_buf t) as [|r buf] eqn:Eb.
  { split; [|done]. split; try done. exists groups. by rewrite Eb. }
  split; [|done]. split; try done. exists (groups ++ [r :: buf]). cbn [set_trace m_trace m_trace_index m_trace_buf].
  split_and!.
  - f_equal. unfold body. by rewrite concat_app, fmap_app, concat_app, <- app_assoc; cbn [concat]; rewrite app_nil_r.
  - rewrite Hi, layout_snoc. do 3 f_equal. rewrite length_app, body_length. change (length TRACE_MAGIC) with 8%nat.
    assert (length (concat groups) <= length kept)%nat by (rewrite <- Hk, length_app; lia). rewrite w64_small by lia. lia.
  - rewrite concat_app. cbn [concat]. by rewrite !app_nil_r.
  - apply Forall_app. split; [done|]. by repeat constructor.
Qed.

Lemma put_writing t path t0 t1 kept r : Z.of_nat (length kept) + 1 < 2 ^ 56 -> writing t path t0 t1 kept ->
  writing (put_record r t) path t0 t1 (kept ++ List.filter (within t0 t1) [r]).
Proof.
  intros Hn Hw. pose proof Hw as [H1 H2 [H3 H3'] (groups & Hf & Hi & Hk & Hg)]. unfold put_record. rewrite Hf.
  assert (Ew : in_window t r = within t0 t1 r) by (unfold in_window, within; by rewrite H3, H3'). rewrite Ew. cbn [List.filter].
  destruct (within t0 t1 r); [|by rewrite app_nil_r].
  assert (Hp : writing (set_trace (m_trace t) (m_trace_buf t ++ [r]) (m_trace_index t) t) path t0 t1 (kept ++ [r])).
  { split; try done. exists groups. cbn. split_and!; [done..| |done]. by rewrite app_assoc, Hk. }
  unfold push_rec. destruct (_ <=? _); [|done]. apply flush_writing; [|done]. rewrite length_app. cbn. lia.
Qed.

Section Tracing.
Context (OCTOPUS_TRACE : option string) (window : option (Z * Z)) (writable : string -> bool).

Definition trace_op (t : Tracer) (op : TraceOp) : Tracer :=
  match op with
  | Resource time m role comp phase flags => trace OCTOPUS_TRACE window writable time m role comp phase flags t
  | Transition time m comp old new ev fsm => traceFsm OCTOPUS_TRACE window writable time m comp old new ev fsm t
  end.
Definition trace_all (t : Tracer) (ops : list TraceOp) : Tracer := foldl trace_op t ops.
(** The window of cycles that is kept. *)
Definition bounds : Z * Z := match window with Some (a, b) => if a <? b then (a, b) else (0, MAX_U64) | None => (0, MAX_U64) end.
Definition kept (ops : list TraceOp) : list TraceRec := List.filter (within (fst bounds) (snd bounds)) (op_record <$> ops).

Lemma kept_length ops : (length (kept ops) <= length ops)%nat.
Proof. unfold kept. rewrite List.filter_length_le. by rewrite length_fmap. Qed.
Lemma kept_snoc ops op : kept (ops ++ [op]) = kept ops ++ List.filter (within (fst bounds) (snd bounds)) [op_record op].
Proof. unfold kept. by rewrite fmap_app, List.filter_app. Qed.

(** The names of a controller are beside the records. *)
Lemma names_writing t path t0 t1 k n : writing t path t0 t1 k -> writing (set_names n t) path t0 t1 k.
Proof. intros [H1 H2 H3 H4]. by split. Qed.

Lemma step_writing t path t0 t1 k op : Z.of_nat (length k) + 1 < 2 ^ 56 -> writing t path t0 t1 k ->
  writing (trace_op t op) path t0 t1 (k ++ List.filter (within t0 t1) [op_record op]).
Proof.
  intros Hn H. destruct H as [H1 H2 H3 (groups & Hf & H4)] eqn:E. clear E.
  destruct op as [time m role comp phase flags|time m comp old new ev fsm]; cbn [trace_op op_record].
  - unfold trace. rewrite H1. by apply put_writing.
  - unfold traceFsm. rewrite H1, Hf. apply put_writing; [done|]. destruct fsm as [[states events]|]; [|done].
    destruct (existsb _ _); [done|by apply names_writing].
Qed.

(** The first call opens the file. *)
Lemma open_writing path : OCTOPUS_TRACE = Some path -> path <> "" -> writable path = true ->
  writing (traceOpen OCTOPUS_TRACE window writable newTracer) path (fst bounds) (snd bounds) [].
Proof.
  intros -> Hp Hw. unfold traceOpen, bounds. cbn [m_trace newTracer m_trace_path m_trace_t0 m_trace_t1].
  assert (E : match path with "" => "" | _ => path end = path) by (by destruct path). rewrite E, Hw. destruct (String.eqb_spec path ""); [done|]. cbn [orb negb].
  assert (W : forall t0 t1, writing (mkTracer (Some TRACE_MAGIC) true path t0 t1 [] [] [] ∅ ∅) path t0 t1 []) by (by split; [..|exists []]).
  destruct window as [[a b]|]; [destruct (a <? b)|]; apply W.
Qed.
Lemma first_writing op : m_trace (traceOpen OCTOPUS_TRACE window writable newTracer) <> None ->
  trace_op newTracer op = trace_op (traceOpen OCTOPUS_TRACE window writable newTracer) op.
Proof.
  intros Ho. assert (Hc : m_trace_checked (traceOpen OCTOPUS_TRACE window writable newTracer) = true).
  { unfold traceOpen. cbn [m_trace newTracer m_trace_path]. repeat case_match; done. }
  destruct op; cbn [trace_op]; unfold trace, traceFsm; by rewrite Hc.
Qed.

Lemma steps_writing path ops : forall k t, Z.of_nat (length k + length ops) < 2 ^ 56 -> writing t path (fst bounds) (snd bounds) k ->
  writing (trace_all t ops) path (fst bounds) (snd bounds) (k ++ kept ops).
Proof.
  induction ops as [|op ops IH]; intros k t Hn H; [by rewrite app_nil_r|]. cbn [length] in Hn.
  change (op :: ops) with ([op] ++ ops) at 2. unfold kept. rewrite fmap_app, List.filter_app, app_assoc. apply IH; [|apply step_writing; [lia|done]].
  rewrite length_app. pose proof (List.filter_length_le (within (fst bounds) (snd bounds)) [op_record op]). cbn in *. lia.
Qed.

(** The file of a closed trace. *)
Definition file_of (groups : list (list TraceRec)) : bytes :=
  (TRACE_MAGIC ++ body groups) ++ concat (chunk_bytes <$> layout 8 groups) ++
  lo_bytes 8 (8 + 32 * Z.of_nat (length (concat groups))) ++ lo_bytes 8 (Z.of_nat (length groups)) ++ TRACE_MAGIC.

Lemma layout_length groups : forall off, length (layout off groups) = length groups.
Proof. induction groups as [|g groups IH]; intros off; cbn; [done|by rewrite IH]. Qed.

Lemma close_file t path t0 t1 k : Z.of_nat (length k) < 2 ^ 56 -> writing t path t0 t1 k ->
  exists groups, concat groups = k /\ Forall (fun g => g <> []) groups /\ trace_files (traceClose t) !! path = Some (file_of groups).
Proof.
  intros Hn H. pose proof H as [_ _ _ (g0 & Hf0 & _)]. destruct (flush_writing t path t0 t1 k Hn H) as [[_ H2 _ (groups & Hf & Hi & Hk & Hg)] Hb].
  rewrite Hb, app_nil_r in Hk. exists groups. do 2 (split; [done|]). unfold traceClose. rewrite Hf0. cbv zeta. rewrite Hf, Hi, H2. cbn [default trace_files].
  rewrite lookup_insert_eq. unfold file_of. rewrite layout_length.
  assert (El : Z.of_nat (length (TRACE_MAGIC ++ body groups)) = 8 + 32 * Z.of_nat (length (concat groups))).
  { rewrite length_app, body_length. change (length TRACE_MAGIC) with 8%nat. lia. }
  by rewrite <- El.
Qed.

Lemma trace_file path ops : OCTOPUS_TRACE = Some path -> path <> "" -> writable path = true -> ops <> [] -> Z.of_nat (length ops) < 2 ^ 56 ->
  exists groups, concat groups = kept ops /\ Forall (fun g => g <> []) groups /\ trace_files (traceClose (trace_all newTracer ops)) !! path = Some (file_of groups).
Proof.
  intros H1 H2 H3 Hops Hn. destruct ops as [|op ops]; [done|]. pose proof (open_writing path H1 H2 H3) as Ho.
  eapply close_file with (t0 := fst bounds) (t1 := snd bounds); [pose proof (kept_length (op :: ops)); lia|].
  unfold trace_all. cbn [foldl]. rewrite first_writing by (destruct Ho as [_ _ _ (g & -> & _)]; done).
  apply (steps_writing path (op :: ops) []); [cbn in *; lia|done].
Qed.
End Tracing.

(** ** The reader *)

Section Reading.
Context (frombuffer : bytes -> list TraceChunk) (fromfile : Z -> bytes -> list TraceRec).
(** What the reader relies on: items of a type are read back from their bytes. *)
Definition reads_chunks : Prop := forall cs, cs <> [] -> Forall wide_chunk cs -> frombuffer (concat (chunk_bytes <$> cs)) = cs.
Definition reads_records : Prop := forall rs rest, Forall wide rs -> fromfile (Z.of_nat (length rs)) (concat (rec_bytes <$> rs) ++ rest) = rs.
Context (Hchunks : reads_chunks) (Hrecords : reads_records).

Lemma layout_wide groups : forall off, 0 <= off -> off + 32 * Z.of_nat (length (concat groups)) < 2 ^ 64 -> Forall (Forall wide) groups ->
  Forall wide_chunk (layout off groups).
Proof.
  induction groups as [|g groups IH]; intros off Ho Hn Hw; cbn [layout]; constructor; cbn [concat] in Hn; rewrite length_app in Hn.
  - destruct (chunk_bounds off g) as (H1 & H2 & _ & H4). apply Forall_inv in Hw. specialize (H4 Hw) as (A & B & C & D). split; try done.
    + rewrite H1. unfold u64. lia.
    + rewrite H2. apply wrap_range. lia.
  - apply IH; [lia|lia|by eapply Forall_inv_tail].
Qed.

Lemma index_read groups : groups <> [] -> Forall (Forall wide) groups -> Z.of_nat (length (concat groups)) + Z.of_nat (length groups) < 2 ^ 57 ->
  read_index frombuffer (file_of groups) = Ok (Some (layout 8 groups)).
Proof.
  intros Hne Hw Hn. unfold read_index, file_of. set (n := Z.of_nat (length groups)) in *. set (recs := Z.of_nat (length (concat groups))) in *.
  set (front := TRACE_MAGIC ++ body groups). set (index := concat (chunk_bytes <$> layout 8 groups)).
  assert (Hf : Z.of_nat (length front) = 8 + 32 * recs).
  { unfold front. rewrite length_app, body_length. change (length TRACE_MAGIC) with 8%nat. lia. }
  assert (Hi : Z.of_nat (length index) = 48 * n) by (unfold index; rewrite (concat_length _ 48) by apply chunk_bytes_length; rewrite layout_length; lia).
  set (off := lo_bytes 8 (8 + 32 * recs)). set (cnt := lo_bytes 8 n).
  assert (Eo : length off = 8%nat) by apply le_length. assert (Ec : length cnt = 8%nat) by apply le_length.
  assert (Es : Z.of_nat (length (front ++ index ++ off ++ cnt ++ TRACE_MAGIC)) = 8 + 32 * recs + 48 * n + 24).
  { rewrite !length_app, Eo, Ec. change (length TRACE_MAGIC) with 8%nat. lia. }
  rewrite Es. assert (Et : take 8 (front ++ index ++ off ++ cnt ++ TRACE_MAGIC) = TRACE_MAGIC) by done. rewrite Et, bool_decide_true by done. cbn [negb].
  destruct (Z.ltb_spec (8 + 32 * recs + 48 * n + 24) 24); [lia|].
  replace (at_bytes (8 + 32 * recs + 48 * n + 24 - 8) 8 _) with TRACE_MAGIC.
  2: { symmetry. rewrite <- (app_nil_r TRACE_MAGIC), !app_assoc, <- app_assoc. apply at_bytes_mid; [|done]. rewrite !length_app, Eo, Ec. lia. }
  rewrite bool_decide_true by done. cbn [negb].
  replace (at_bytes (8 + 32 * recs + 48 * n + 24 - 24) 8 _) with off.
  2: { symmetry. rewrite app_assoc. apply at_bytes_mid; [|by rewrite Eo]. rewrite length_app. lia. }
  replace (at_bytes (8 + 32 * recs + 48 * n + 24 - 16) 8 _) with cnt.
  2: { symmetry. rewrite !app_assoc, <- (app_assoc _ cnt). apply at_bytes_mid; [|by rewrite Ec]. rewrite !length_app, Eo. lia. }
  unfold off, cnt. rewrite !of_le_u64 by lia. rewrite at_bytes_mid by lia. do 2 f_equal. unfold index. apply Hchunks.
  - by destruct groups.
  - apply layout_wide; [lia|fold recs; lia|done].
Qed.

(** Each chunk's records are where the index says. *)
Lemma chunks_read groups : forall pre rest, Forall (Forall wide) groups -> Z.of_nat (length pre) + 32 * Z.of_nat (length (concat groups)) < 2 ^ 64 ->
  Forall2 (fun g c => read_records fromfile (pre ++ body groups ++ rest) c = g /\ forall r, r ∈ g -> tc_cmin c <= tr_cycle r <= tc_cmax c)
    groups (layout (Z.of_nat (length pre)) groups).
Proof.
  induction groups as [|g groups IH]; intros pre rest Hw Hn; cbn [layout]; constructor; cbn [concat] in Hn; rewrite length_app in Hn.
  - destruct (chunk_bounds (Z.of_nat (length pre)) g) as (H1 & H2 & H3 & _). split; [|done].
    unfold read_records. rewrite H1, H2, Nat2Z.id, drop_app_length, w64_small by lia. unfold body. cbn [concat].
    rewrite fmap_app, concat_app, <- app_assoc. apply Hrecords. by eapply Forall_inv.
  - unfold body. cbn [concat]. rewrite fmap_app, concat_app. set (mine := concat (rec_bytes <$> g)).
    assert (El : Z.of_nat (length pre) + 32 * Z.of_nat (length g) = Z.of_nat (length (pre ++ mine))).
    { unfold mine. rewrite length_app, (concat_length _ 32) by apply rec_bytes_length. lia. }
    rewrite El. specialize (IH (pre ++ mine) rest (Forall_inv_tail Hw) ltac:(lia)). by rewrite <- !app_assoc in *.
Qed.

Lemma all_read (f : bytes) groups chunks : Forall2 (fun g c => read_records fromfile f c = g /\ forall r, r ∈ g -> tc_cmin c <= tr_cycle r <= tc_cmax c) groups chunks ->
  concat (read_records fromfile f <$> chunks) = concat groups /\
  forall a b, concat ((fun c => List.filter (within a b) (read_records fromfile f c)) <$>
                List.filter (fun c => (a <=? tc_cmax c) && (tc_cmin c <=? b)) chunks) = List.filter (within a b) (concat groups).
Proof.
  induction 1 as [|g c groups chunks [Hg Hb] H [IH1 IH2]]; [done|]. split; [by cbn; rewrite Hg, IH1|].
  intros a b. cbn [concat List.filter]. rewrite List.filter_app, <- IH2. destruct ((a <=? tc_cmax c) && (tc_cmin c <=? b)) eqn:E; [by cbn; rewrite Hg|].
  assert (En : List.filter (within a b) g = []); [|by rewrite En].
  apply andb_false_iff in E. rewrite !Z.leb_gt in E. clear -Hb E. induction g as [|r g IH]; [done|]. cbn.
  pose proof (Hb r (list_elem_of_here _ _)). unfold within at 1. destruct (Z.leb_spec a (tr_cycle r)), (Z.leb_spec (tr_cycle r) b); cbn; try lia; apply IH;
    intros x Hx; apply Hb; by right.
Qed.

Lemma file_read groups : groups <> [] -> Forall (Forall wide) groups -> Z.of_nat (length (concat groups)) + Z.of_nat (length groups) < 2 ^ 57 ->
  read_all frombuffer fromfile (file_of groups) = Ok (concat groups) /\
  forall a b, read_window frombuffer fromfile a b (file_of groups) = Ok (List.filter (within a b) (concat groups)).
Proof.
  intros Hne Hw Hn. pose proof (index_read groups Hne Hw Hn) as Hi. unfold read_all, read_window. rewrite Hi. cbn.
  pose proof (chunks_read groups TRACE_MAGIC (drop (length (TRACE_MAGIC ++ body groups)) (file_of groups)) Hw) as H.
  change (Z.of_nat (length TRACE_MAGIC)) with 8 in H. specialize (H ltac:(lia)).
  assert (Ef : TRACE_MAGIC ++ body groups ++ drop (length (TRACE_MAGIC ++ body groups)) (file_of groups) = file_of groups).
  { unfold file_of. by rewrite drop_app_length, <- !app_assoc. }
  rewrite Ef in H. destruct (all_read _ _ _ H) as [H1 H2]. split; [by f_equal|]. intros a b. by f_equal.
Qed.
End Reading.

Lemma wide_groups groups : Forall wide (concat groups) -> Forall (Forall wide) groups.
Proof. induction groups as [|g groups IH]; constructor; cbn in *; apply Forall_app in H as [? ?]; auto. Qed.
Lemma groups_length {A} (groups : list (list A)) : Forall (fun g => g <> []) groups -> (length groups <= length (concat groups))%nat.
Proof. induction 1 as [|g groups Hg _ IH]; cbn; [done|]. rewrite length_app. destruct g; cbn; [done|lia]. Qed.

(** C23: a trace is read back.  Whatever calls are traced, with message ids and
    addresses of 64 bits, in any order of cycles and with any window, the file
    closed holds the records of the window: the reader finds exactly these, in
    order, and for a window of its own exactly those of them that lie in it,
    although it opens only the chunks whose bounds meet it. *)
Theorem trace_file_roundtrip path window writable ops frombuffer fromfile :
  path <> "" -> writable path = true -> Forall op_wide ops -> Z.of_nat (length ops) < 2 ^ 56 -> kept window ops <> [] ->
  reads_chunks frombuffer -> reads_records fromfile ->
  exists f, trace_files (traceClose (trace_all (Some path) window writable newTracer ops)) !! path = Some f /\
    read_all frombuffer fromfile f = Ok (kept window ops) /\
    forall a b, read_window frombuffer fromfile a b f = Ok (List.filter (within a b) (kept window ops)).
Proof.
  intros Hp Hw Hops Hn Hk Hc Hr. assert (Hne : ops <> []) by (by intros ->).
  destruct (trace_file (Some path) window writable path ops eq_refl Hp Hw Hne Hn) as (groups & Ek & Hg & Hf).
  assert (Hwide : Forall wide (concat groups)).
  { rewrite Ek. apply List.Forall_forall. intros r Hin%filter_In. destruct Hin as [Hin _].
    apply in_map_iff in Hin as (op & <- & Hin). apply op_record_wide. revert op Hin. by apply List.Forall_forall. }
  rewrite <- Ek in *. exists (file_of groups). split; [done|]. apply file_read; [done|done| |by apply wide_groups|].
  - by intros ->.
  - pose proof (groups_length _ Hg). pose proof (kept_length window ops). rewrite <- Ek in *. lia.
Qed.

(** ** A reader and a trace *)

Definition field (i n : nat) (b : bytes) : Z := of_le (take n (drop i b)).
Definition read_rec (b : bytes) : TraceRec :=
  mkTraceRec (field 0 8 b) (field 8 8 b) (field 16 8 b) (field 24 1 b) (field 25 1 b) (field 26 1 b) (field 27 1 b) (field 28 2 b) (field 30 2 b).
Definition read_chunk (b : bytes) : TraceChunk :=
  mkTraceChunk (field 0 8 b) (field 8 8 b) (field 16 8 b) (field 24 8 b) (field 32 8 b) (field 40 8 b).
(** Whole items, [n] at most. *)
Fixpoint items {A} (read : bytes -> A) (size n : nat) (b : bytes) : list A :=
  match n with
  | O => []
  | S n' => if (size <=? length b)%nat then read (take size b) :: items read size n' (drop size b) else []
  end.
Definition demo_frombuffer (b : bytes) : list TraceChunk := items read_chunk 48 (length b / 48) b.
Definition demo_fromfile (count : Z) (b : bytes) : list TraceRec := items read_rec 32 (Z.to_nat count) b.

Lemma field_start n z rest : 0 <= z < 256 ^ Z.of_nat n -> field 0 n (lo_bytes n z ++ rest) = z.
Proof. intros Hz. unfold field. rewrite drop_0, take_app_length' by (symmetry; apply le_length). by apply of_le_le. Qed.
Lemma field_end n z : 0 <= z < 256 ^ Z.of_nat n -> field 0 n (lo_bytes n z) = z.
Proof. intros Hz. rewrite <- (app_nil_r (lo_bytes n z)). by apply field_start. Qed.
Lemma field_skip (k i n : nat) z b : field (k + i) n (lo_bytes k z ++ b) = field i n b.
Proof. unfold field. rewrite Nat.add_comm, <- skipn_skipn. rewrite drop_app_length' by (symmetry; apply le_length). done. Qed.

Ltac read_field :=
  repeat match goal with
  | |- field 0 _ _ = _ => apply field_start || apply field_end
  | |- field ?i _ (lo_bytes ?k _ ++ _) = _ => change i with (k + (i - k))%nat; rewrite field_skip; cbn [Nat.sub]
  end.

Lemma read_rec_bytes r : wide r -> read_rec (rec_bytes r) = r.
Proof.
  intros [H1 H2 H3 H4 H5 H6 H7 H8 H9]. destruct r as [cy id ad re ph ki ow co fl]. unfold read_rec, rec_bytes. cbn [tr_cycle tr_msg_id tr_addr tr_resource tr_phase tr_kind tr_owner tr_comp tr_flags].
  f_equal; read_field; done.
Qed.
Lemma read_chunk_bytes c : wide_chunk c -> read_chunk (chunk_bytes c) = c.
Proof.
  intros [H1 H2 H3 H4 H5 H6]. destruct c as [o n a b c d]. unfold read_chunk, chunk_bytes. cbn [tc_offset tc_count tc_cmin tc_cmax tc_imin tc_imax].
  f_equal; read_field; done.
Qed.

Lemma items_read {A} (read : bytes -> A) (write : A -> bytes) (ok : A -> Prop) size : (forall x, length (write x) = size) -> (forall x, ok x -> read (write x) = x) ->
  forall xs rest, Forall ok xs -> items read size (length xs) (concat (write <$> xs) ++ rest) = xs.
Proof.
  intros Hl Hr. induction xs as [|x xs IH]; intros rest H; [done|]. cbn [length items]. cbn [fmap list_fmap concat]. rewrite <- app_assoc.
  rewrite take_app_length', drop_app_length' by (symmetry; apply Hl || apply Hl). rewrite length_app, Hl.
  rewrite (proj2 (Nat.leb_le _ _)) by lia. rewrite Hr by (by eapply Forall_inv). f_equal. apply IH. by eapply Forall_inv_tail.
Qed.

Lemma demo_reads : reads_chunks demo_frombuffer /\ reads_records demo_fromfile.
Proof.
  split.
  - intros cs _ Hw. unfold demo_frombuffer. rewrite (concat_length _ 48), Nat.div_mul by (done || apply chunk_bytes_length).
    rewrite <- (app_nil_r (concat _)). by apply (items_read _ chunk_bytes wide_chunk); [apply chunk_bytes_length|apply read_chunk_bytes|].
  - intros rs rest Hw. unfold demo_fromfile. rewrite Nat2Z.id. by apply (items_read _ rec_bytes wide); [apply rec_bytes_length|apply read_rec_bytes|].
Qed.

(** Two requests of core 1 around a transition; the window leaves out the last. *)
Definition demo_traced : list TraceOp :=
  [Resource 250 (newMessage 7 4096 3 0 1) Role.CPU 1 Phase.ENTER 0; Transition 300 (newMessage 7 4096 3 0 1) 300 2 5 9 None;
   Resource 100 (newMessage 8 64 2 0 1) Role.LLC 10 Phase.SERVICE 3; Resource 990 (newMessage 9 64 9 0 1) Role.CPU 1 Phase.EXIT 0].

Lemma trace_file_roundtrip_witness : exists f rs,
  trace_files (traceClose (trace_all (Some "t.bin") (Some (1, 9)) (fun _ => true) newTracer demo_traced)) !! "t.bin" = Some f /\
  length f = 176%nat /\ read_all demo_frombuffer demo_fromfile f = Ok rs /\ map tr_cycle rs = [3; 4; 2] /\
  read_window demo_frombuffer demo_fromfile 4 8 f = Ok [mkTraceRec 4 7 4096 11 9 0 1 300 517].
Proof.
  destruct demo_reads as [Hc Hr].
  destruct (trace_file_roundtrip "t.bin" (Some (1, 9)) (fun _ => true) demo_traced demo_frombuffer demo_fromfile) as (f & H1 & H2 & H3).
  - done.
  - done.
  - unfold demo_traced. repeat constructor; cbn; done.
  - done.
  - by vm_compute.
  - exact Hc.
  - exact Hr.
  - exists f, (kept (Some (1, 9)) demo_traced). split_and!; [exact H1| |exact H2|by vm_compute|rewrite H3; by vm_compute].
    vm_compute in H1. injection H1 as <-. by vm_compute.
Defined.
