(* ===== verification/Gem5.v ===== *)
(** * The gem5 bridge

    [class Octopus] of [gem5/octopus.cc] and [octopus.hh]: the gem5 object in
    front of one private cache.  It hands the packets of a core to the port of
    the cache simulator, does the data operation of each when the cache commits
    it, and answers when the cache completes it.  gem5 (packets, the memory, the
    core behind a port) and the simulator it is linked with are the classes
    [Packet], [Memory], [CoreSide] and [Engine]; the calls the bridge makes to gem5
    are listed as they are made. *)

From stdpp Require Export sorting.
From S2P Require Export Prelude.

Local Open Scope list_scope.
Open Scope Z_scope.

(** ** gem5 *)

(** [Request]: [hasPaddr], [getPaddr] and [isUncacheable]. *)
Record ReqInfo := mkReq { paddr : option Z; uncacheable : bool }.

(** [Packet]; [pkt_req] is [None] for a null request. *)
Class Packet (P : Type) := {
  isRead : P -> bool; isWrite : P -> bool; isResponse : P -> bool; isInvalidate : P -> bool; isClean : P -> bool;
  isLLSC : P -> bool; isAtomicOp : P -> bool;
  pkt_addr : P -> Z; pkt_size : P -> Z; pkt_req : P -> option ReqInfo;
  makeResponse : P -> P;
  trySatisfyFunctional : P -> P -> bool * P }.

(** The memory below the bridge: the packet as the call leaves it. *)
Class Memory (M P : Type) := {
  sendAtomic : M -> P -> P * M;
  sendFunctional : M -> P -> P * M;
  isMemAddr : M -> Z -> bool }.

(** What is behind the ports: [core_retry], the packets it offers, in order and
    until one is refused, when a port of a bridge lets it retry; [core_answer],
    what it makes of an answer to an offer; [core_snoop], of an invalidation. *)
Class CoreSide (C P : Type) := {
  core_retry : C -> Z -> nat -> list P * C;
  core_answer : C -> Z -> nat -> P -> bool -> C;
  core_snoop : C -> Z -> nat -> Z -> C }.

(** The simulator: [ExternalCPU::addRequest] of a port, with an address, a type
    and a size, and [isBlocked] with the number of outstanding requests. *)
Class Engine (E : Type) := {
  eng_addRequest : E -> Z -> Z -> Z -> Z -> outcome (Z * E);
  eng_isBlocked : E -> Z -> Z -> bool }.

(** ** The bridge *)

Record PendingTxn {P : Type} := mkTxn {
  txn_pkt : P;
  txn_connection_id : Z;
  txn_port_id : nat;
  committed : bool;
  txn_seq : Z;
  dataDone : bool;
  completionArrived : bool;
  issueTick : Z }.
Arguments PendingTxn : clear implicits.

Record CPUSidePort := mkSidePort { port_connection : Z; port_needRetry : bool; isSnooping : bool }.

(** A call made to gem5, and the request it is made for, if it is one of the
    table: a packet is taken, goes to memory, or is answered; a snoop. *)
Inductive Call {P : Type} :=
| Accepted (id : Z) (p : P)
| Accessed (id : option Z) (before after : P)
| Answered (id : option Z) (port : nat) (p : P)
| Snooped (port : nat) (address : Z).
Arguments Call : clear implicits.

Record Octopus {P : Type} := mkOctopus {
  cache_id : Z;                             (* the port of the simulator *)
  oct_blockSize : Z;
  octopusCycleNs : Z;
  clockPeriod : Z;
  pending_requests : gmap Z (PendingTxn P);
  nextSeq : Z;
  heldBackOps : Z;
  portBlocks : Z;
  snoopsSent : Z;
  llscLoads : Z; llscStores : Z; atomicOps : Z;
  readReqs : Z; writeReqs : Z; responses : Z; latencyCycles : Z;
  cpuPorts : list CPUSidePort;
  calls : list (Call P) }.
Arguments Octopus : clear implicits.

(** What bridges share: the simulator, the cores, the memory, gem5's clock and
    the static counter. *)
Record World {E C M : Type} := mkWorld { engine : E; cores : C; memory : M; curTick : Z; num_pending_req : Z }.
Arguments World : clear implicits.

Section Bridge.
Context {P M C E : Type} `{!Packet P, !Memory M P, !CoreSide C P, !Engine E}.
Implicit Types (o : Octopus P) (w : World E C M) (p : P) (t : PendingTxn P).

Definition St : Type := Octopus P * World E C M.
Implicit Type st : St.

Definition oct_set (pending : gmap Z (PendingTxn P)) (seq : Z) (ports : list CPUSidePort) (cs : list (Call P)) o : Octopus P :=
  mkOctopus _ (cache_id o) (oct_blockSize o) (octopusCycleNs o) (clockPeriod o) pending seq (heldBackOps o) (portBlocks o) (snoopsSent o)
    (llscLoads o) (llscStores o) (atomicOps o) (readReqs o) (writeReqs o) (responses o) (latencyCycles o) ports cs.
Definition set_pending (pending : gmap Z (PendingTxn P)) o : Octopus P := oct_set pending (nextSeq o) (cpuPorts o) (calls o) o.
Definition note (c : Call P) o : Octopus P := oct_set (pending_requests o) (nextSeq o) (cpuPorts o) (calls o ++ [c]) o.
Definition set_needRetry (port : nat) (b : bool) o : Octopus P :=
  oct_set (pending_requests o) (nextSeq o)
    (alter (fun x => mkSidePort (port_connection x) b (isSnooping x)) port (cpuPorts o)) (calls o) o.
Definition oct_stats (held blocks snoops loads stores atomics reads writes resp latency : Z) o : Octopus P :=
  mkOctopus _ (cache_id o) (oct_blockSize o) (octopusCycleNs o) (clockPeriod o) (pending_requests o) (nextSeq o) held blocks snoops
    loads stores atomics reads writes resp latency (cpuPorts o) (calls o).

Definition set_engine (e : E) w : World E C M := mkWorld _ _ _ e (cores w) (memory w) (curTick w) (num_pending_req w).
Definition set_cores (c : C) w : World E C M := mkWorld _ _ _ (engine w) c (memory w) (curTick w) (num_pending_req w).
Definition set_mem (m : M) w : World E C M := mkWorld _ _ _ (engine w) (cores w) m (curTick w) (num_pending_req w).
Definition set_num_pending (n : Z) w : World E C M := mkWorld _ _ _ (engine w) (cores w) (memory w) (curTick w) n.

Definition getAddr p : Z := match pkt_req p with Some (mkReq (Some a) _) => a | _ => pkt_addr p end.

(** [CPUSidePort::sendPacket]. *)
Definition sendPacket (id : option Z) (port : nat) p o : outcome (Octopus P) :=
  match cpuPorts o !! port with Some _ => Ok (note (Answered id port p) o) | None => Crash "cpuPorts out of range" end.

(** *** Taking a packet *)

Definition READ_ : Z := 0.
Definition WRITE_ : Z := 1.

Definition submit p (type connection_id : Z) (port_id : nat) st : outcome St :=
  let '(o, w) := st in
  let! (id, e) := eng_addRequest (engine w) (cache_id o) (getAddr p) type (i32 (pkt_size p)) in
  match pending_requests o !! id with
  | Some _ => Crash "msg_id issued twice"
  | None =>
      let o := oct_set (<[id := mkTxn _ p connection_id port_id false (nextSeq o) false false (curTick w)]> (pending_requests o))
                 (w64 (nextSeq o + 1)) (cpuPorts o) (calls o ++ [Accepted id p]) o in
      let wr := type =? WRITE_ in
      Ok (oct_stats (heldBackOps o) (portBlocks o) (snoopsSent o) (llscLoads o) (llscStores o) (atomicOps o)
            (readReqs o + if wr then 0 else 1) (writeReqs o + if wr then 1 else 0) (responses o) (latencyCycles o) o, set_engine e w)
  end.

Definition portBlocked st : bool :=
  let '(o, w) := st in eng_isBlocked (engine w) (cache_id o) (i32 (Z.of_nat (size (pending_requests o)))).

Definition bypass p (port_id : nat) st : outcome St :=
  let '(o, w) := st in
  let '(p', m) := sendAtomic (memory w) p in
  let o := note (Accessed None p p') o in
  if isResponse p' then let! o := sendPacket None port_id p' o in Ok (o, set_mem m w) else Ok (o, set_mem m w).

(** Whether a packet is for the caches; a null request is dereferenced. *)
Definition is_cacheable p (m : M) : outcome bool :=
  if isRead p || isWrite p then
    match pkt_req p with
    | None => Crash "null request"
    | Some r => Ok (negb (uncacheable r) && isMemAddr m (getAddr p))
    end
  else Ok false.

(** [accessTiming]: whether the packet was taken. *)
Definition accessTiming p (connection_id : Z) (port_id : nat) st : outcome (bool * St) :=
  let '(o, w) := st in
  if isInvalidate p || isClean p then let! o := sendPacket None port_id (makeResponse p) o in Ok (true, (o, w)) else
  let! cacheable := is_cacheable p (memory w) in
  if negb cacheable then let! st := bypass p port_id st in Ok (true, st) else
  if portBlocked st then
    match cpuPorts o !! port_id with
    | None => Crash "cpuPorts out of range"
    | Some _ =>
        let o := set_needRetry port_id true o in
        Ok (false, (oct_stats (heldBackOps o) (w64 (portBlocks o + 1)) (snoopsSent o) (llscLoads o) (llscStores o) (atomicOps o)
                      (readReqs o) (writeReqs o) (responses o) (latencyCycles o) o, w))
    end
  else
    let wr := isWrite p in
    let o := oct_stats (heldBackOps o) (portBlocks o) (snoopsSent o)
               (w64 (llscLoads o + if isLLSC p && negb wr then 1 else 0)) (w64 (llscStores o + if isLLSC p && wr then 1 else 0))
               (w64 (atomicOps o + if negb (isLLSC p) && isAtomicOp p then 1 else 0)) (readReqs o) (writeReqs o) (responses o) (latencyCycles o) o in
    let! (o, w) := submit p (if wr then WRITE_ else READ_) connection_id port_id (o, w) in
    Ok (true, (o, set_num_pending (w64 (num_pending_req w + 1)) w)).

(** *** Retries *)

(** The packets the sender offers, until one is refused. *)
Fixpoint offer_all (port : nat) (l : list P) st : outcome St :=
  match l with
  | [] => Ok st
  | p :: l' =>
      let connection := match cpuPorts (fst st) !! port with Some x => port_connection x | None => 0 end in
      let! (ok, (o, w)) := accessTiming p connection port st in
      let st := (o, set_cores (core_answer (cores w) (cache_id o) port p ok) w) in
      if ok : bool then offer_all port l' st else Ok st
  end.

Definition needs_retry (o : Octopus P) : option nat := fst <$> list_find (fun x => port_needRetry x = true) (cpuPorts o).

(** One retry, to the first port that waits for one. *)
Definition retryBlockedPorts st : outcome St :=
  if portBlocked st then Ok st else
  let '(o, w) := st in
  match needs_retry o with
  | None => Ok st
  | Some port =>
      let '(l, c) := core_retry (cores w) (cache_id o) port in
      offer_all port l (set_needRetry port false o, set_cores c w)
  end.

(** *** Commit and completion *)

(** Whether two packets touch a byte in common. *)
Definition overlap (p q : P) : bool := (getAddr q <? w64 (getAddr p + pkt_size p)) && (getAddr p <? w64 (getAddr q + pkt_size q)).

Definition blocks (t u : PendingTxn P) : bool :=
  (txn_seq u <? txn_seq t) && negb (dataDone u) && isWrite (txn_pkt u) && overlap (txn_pkt t) (txn_pkt u).
Definition blockedByOlderWrite t o : bool := existsb (fun e => blocks t (snd e)) (map_to_list (pending_requests o)).

Definition respond (id : Z) st : outcome St :=
  let '(o, w) := st in
  match pending_requests o !! id with
  | None => Crash "end of pending_requests"
  | Some t =>
      let o := set_pending (delete id (pending_requests o)) o in
      let w := set_num_pending (w64 (num_pending_req w - 1)) w in
      if negb (isResponse (txn_pkt t)) then Crash "assert isResponse" else
      if clockPeriod o =? 0 then Crash "division by zero" else
      let o := oct_stats (heldBackOps o) (portBlocks o) (snoopsSent o) (llscLoads o) (llscStores o) (atomicOps o) (readReqs o) (writeReqs o)
                 (responses o + 1) (latencyCycles o + w64 (curTick w - issueTick t) / clockPeriod o) o in
      let! o := sendPacket (Some id) (txn_port_id t) (txn_pkt t) o in
      retryBlockedPorts (o, w)
  end.

(** The requests that are committed and not done, oldest first. *)
Definition older (a b : Z * Z) : Prop := fst a < fst b \/ (fst a = fst b /\ snd a <= snd b).
#[global] Instance older_dec a b : Decision (older a b).
Proof. unfold older. apply _. Defined.
Definition is_held t : bool := committed t && negb (dataDone t).
Definition held_back o : list (Z * Z) :=
  merge_sort older ((fun e => (txn_seq (snd e), fst e)) <$> List.filter (fun e => is_held (snd e)) (map_to_list (pending_requests o))).

(** [releaseHeldBack], given [performData]. *)
Definition release_one (perform : Z -> St -> outcome St) st (h : Z * Z) : outcome St :=
  match pending_requests (fst st) !! snd h with
  | None => Ok st
  | Some t => if dataDone t then Ok st else if blockedByOlderWrite t (fst st) then Ok st else perform (snd h) st
  end.
Definition releaseHeldBack (perform : Z -> St -> outcome St) st : outcome St := ofold (release_one perform) (held_back (fst st)) st.

Definition done (p : P) t : PendingTxn P :=
  mkTxn _ p (txn_connection_id t) (txn_port_id t) (committed t) (txn_seq t) true (completionArrived t) (issueTick t).

Fixpoint performData (fuel : nat) (id : Z) st : outcome St :=
  match fuel with
  | O => Crash "out of fuel"
  | S f =>
      let '(o, w) := st in
      match pending_requests o !! id with
      | None => Crash "map::at"
      | Some t =>
          let is_write := isWrite (txn_pkt t) in
          let '(p, m) := sendAtomic (memory w) (txn_pkt t) in
          if negb (isResponse p) then Crash "assert isResponse" else
          let o := note (Accessed (Some id) (txn_pkt t) p) (set_pending (<[id := done p t]> (pending_requests o)) o) in
          let w := set_mem m w in
          let! st := (if completionArrived t then respond id (o, w) else Ok (o, w)) in
          if is_write then releaseHeldBack (performData f) st else Ok st
      end
  end.

Definition set_committed t : PendingTxn P :=
  mkTxn _ (txn_pkt t) (txn_connection_id t) (txn_port_id t) true (txn_seq t) (dataDone t) (completionArrived t) (issueTick t).
Definition set_arrived t : PendingTxn P :=
  mkTxn _ (txn_pkt t) (txn_connection_id t) (txn_port_id t) (committed t) (txn_seq t) (dataDone t) true (issueTick t).

Definition onCommit (id address : Z) st : outcome St :=
  let '(o, w) := st in
  match pending_requests o !! id with
  | None => Crash "commit for unknown msg_id"
  | Some t =>
      if committed t then Crash "committed twice" else
      if negb (getAddr (txn_pkt t) =? address) then Crash "committed with another address" else
      let o := set_pending (<[id := set_committed t]> (pending_requests o)) o in
      if blockedByOlderWrite (set_committed t) o then
        Ok (oct_stats (w64 (heldBackOps o + 1)) (portBlocks o) (snoopsSent o) (llscLoads o) (llscStores o) (atomicOps o) (readReqs o) (writeReqs o)
              (responses o) (latencyCycles o) o, w)
      else performData (size (pending_requests o)) id (o, w)
  end.

Definition cacheSimCallback (id : Z) st : outcome St :=
  let '(o, w) := st in
  match pending_requests o !! id with
  | None => Crash "completion for unknown msg_id"
  | Some t =>
      if negb (committed t) then Crash "completed without a commit" else
      if negb (dataDone t) then Ok (set_pending (<[id := set_arrived t]> (pending_requests o)) o, w)
      else respond id (o, w)
  end.

(** *** The rest of the ports *)

(** [handleFunctional]; [iterate] is the order of the hash table. *)
Fixpoint satisfied (l : list (Z * PendingTxn P)) p : bool * P :=
  match l with
  | [] => (false, p)
  | (_, t) :: l' =>
      if negb (committed t) && isWrite (txn_pkt t) then
        let '(ok, p) := trySatisfyFunctional p (txn_pkt t) in if ok : bool then (true, p) else satisfied l' p
      else satisfied l' p
  end.
Definition handleFunctional (iterate : gmap Z (PendingTxn P) -> list (Z * PendingTxn P)) p st : P * St :=
  let '(o, w) := st in
  let '(ok, p) := satisfied (iterate (pending_requests o)) p in
  if ok : bool then (p, st) else let '(p, m) := sendFunctional (memory w) p in (p, (o, set_mem m w)).

Definition handleAtomic p st : P * St :=
  let '(o, w) := st in let '(p', m) := sendAtomic (memory w) p in (p', (note (Accessed None p p') o, set_mem m w)).

(** [deliverInvalidate]: to the ports that snoop. *)
Fixpoint snoop_ports (blk_addr : Z) (port : nat) (l : list CPUSidePort) st : St :=
  match l with
  | [] => st
  | x :: l' =>
      let '(o, w) := st in
      snoop_ports blk_addr (S port) l'
        (if isSnooping x then
           let o := note (Snooped port blk_addr) o in
           (oct_stats (heldBackOps o) (portBlocks o) (w64 (snoopsSent o + 1)) (llscLoads o) (llscStores o) (atomicOps o) (readReqs o) (writeReqs o)
              (responses o) (latencyCycles o) o, set_cores (core_snoop (cores w) (cache_id o) port blk_addr) w)
         else st)
  end.
Definition onInvalidate (address : Z) st : St :=
  let o := fst st in
  snoop_ports (Z.land address (2 ^ 64 - 1 - w64 (oct_blockSize o - 1))) O (cpuPorts o) st.

(** *** The clock *)

Definition anyPortNeedsRetry (instances : list (Octopus P)) : bool := existsb (fun o => existsb port_needRetry (cpuPorts o)) instances.

(** Every bridge gets to retry. *)
Fixpoint retry_all (instances : list (Octopus P)) w : outcome (list (Octopus P) * World E C M) :=
  match instances with
  | [] => Ok ([], w)
  | o :: l =>
      let! (o, w) := retryBlockedPorts (o, w) in
      let! (l, w) := retry_all l w in Ok (o :: l, w)
  end.

(** [cache_sim]: its clock, and a step, which calls the bridges. *)
Context (now : World E C M -> Z) (step : list (Octopus P) * World E C M -> outcome (list (Octopus P) * World E C M)).

Fixpoint advance (guard : nat) (target : Z) (s : list (Octopus P) * World E C M) : outcome (list (Octopus P) * World E C M) :=
  if now (snd s) <? target then
    let! s := step s in match guard with O => Crash "advanced too little in 1024 steps" | S g => advance g target s end
  else Ok s.

Definition tick (cycle_ns : Z) (s : list (Octopus P) * World E C M) : outcome (list (Octopus P) * World E C M) :=
  if negb (num_pending_req (snd s) =? 0) || anyPortNeedsRetry (fst s) then
    let! (l, w) := advance 1024 (w64 (now (snd s) + cycle_ns)) s in retry_all l w
  else Ok s.
End Bridge.

(** [kOctopusPortVersion] *)
Definition kOctopusPortVersion : Z := 5.

(** The constructor: the port version of the library, the ids of its external
    cores, and the ports gem5 connects, each with whether it snoops. *)
Definition newOctopus {P} (portVersion : Z) (ext_CPUs : list Z) (cache_id blockSize cycle_ns period : Z) (snooping : list bool)
    : outcome (Octopus P) :=
  if negb (portVersion =? kOctopusPortVersion) then Exit "Octopus port version mismatch" else
  if negb (existsb (Z.eqb cache_id) ext_CPUs) then Exit "Octopus has no ExternalCPU with this id" else
  Ok (mkOctopus _ cache_id blockSize cycle_ns period ∅ 0 0 0 0 0 0 0 0 0 0 0 (mkSidePort cache_id false <$> snooping) []).
