(* ===== verification/Gem5Theory.v ===== *)
(** * Properties of the gem5 bridge

    Against any memory, cores and simulator that keep their word, the bridge
    never panics, does the data operation of every packet it takes once, never
    before that of an older write to a byte in common, and answers every request
    the simulator commits and completes. *)

From S2P Require Export Gem5.

Local Open Scope list_scope.
Open Scope Z_scope.

(** ** What the other sides promise *)

(** The ports of the simulator number the requests they take upwards; [eng_room]
    is how many numbers are left. *)
Class EngineLaws (E : Type) `{!Engine E} := {
  eng_port : E -> Z -> Prop;
  eng_next : E -> Z;
  eng_room : E -> Z;
  eng_room_small : forall e, eng_room e < 2 ^ 62;
  eng_issues : forall e c a ty sz, eng_port e c -> 0 < eng_room e -> ty = READ_ \/ ty = WRITE_ ->
    exists e', eng_addRequest e c a ty sz = Ok (eng_next e, e') /\ eng_next e < eng_next e' /\ eng_room e' = eng_room e - 1 /\
      forall c', eng_port e c' -> eng_port e' c' }.

(** Packets a core sends have a request, the memory answers those that read or
    write, and a retry offers a bounded number of them. *)
Class Gem5Laws (P M C : Type) `{!Packet P, !Memory M P, !CoreSide C P} := {
  proper : P -> Prop;
  proper_req : forall p, proper p -> pkt_req p <> None;
  proper_answer : forall (m : M) p, proper p -> isRead p || isWrite p = true -> isResponse (fst (sendAtomic m p)) = true;
  retry_max : Z;
  retry_offers : forall c b port, Forall proper (fst (core_retry c b port)) /\ Z.of_nat (length (fst (core_retry c b port))) <= retry_max }.

(** ** What has been done *)

Section Calls.
Context {P : Type} `{!Packet P}.
Implicit Types cs : list (Call P).

Definition accepted cs : list (Z * P) := omap (fun c => match c with Accepted id p => Some (id, p) | _ => None end) cs.
Definition performed cs : list (Z * (P * P)) := omap (fun c => match c with Accessed (Some id) b a => Some (id, (b, a)) | _ => None end) cs.
Definition answered cs : list (Z * P) := omap (fun c => match c with Answered (Some id) _ p => Some (id, p) | _ => None end) cs.

(** Data operations are of packets taken, answers are what they made of them,
    and no operation is done before that of an older write it overlaps. *)
Record in_order cs : Prop := {
  io_accepted : forall id b a, (id, (b, a)) ∈ performed cs -> (id, b) ∈ accepted cs;
  io_performed : forall id p, (id, p) ∈ answered cs -> exists b, (id, (b, p)) ∈ performed cs;
  io_older : forall i j id1 p1 id2 p2, (i < j)%nat -> accepted cs !! i = Some (id1, p1) -> accepted cs !! j = Some (id2, p2) ->
    isWrite p1 = true -> overlap p2 p1 = true -> id2 ∈ (performed cs).*1 -> id1 ∈ (performed cs).*1 }.
(** At every moment. *)
Definition always_in_order cs : Prop := forall l1 l2, cs = l1 ++ l2 -> in_order l1.

Lemma always_snoc cs c : always_in_order cs -> in_order (cs ++ [c]) -> always_in_order (cs ++ [c]).
Proof.
  intros H1 H2 l1 l2 E. destruct l2 as [|x l2] using rev_ind; [by rewrite app_nil_r in E; subst|]. clear IHl2.
  rewrite app_assoc in E. apply app_inj_tail in E as [E _]. by eapply H1.
Qed.
Lemma always_now cs : always_in_order cs -> in_order cs.
Proof. intros H. apply (H cs []). by rewrite app_nil_r. Qed.

Lemma accepted_snoc cs c : accepted (cs ++ [c]) = accepted cs ++ match c with Accepted id p => [(id, p)] | _ => [] end.
Proof. unfold accepted. rewrite omap_app. by destruct c. Qed.
Lemma performed_snoc cs c : performed (cs ++ [c]) = performed cs ++ match c with Accessed (Some id) b a => [(id, (b, a))] | _ => [] end.
Proof. unfold performed. rewrite omap_app. by destruct c as [| [] | |]. Qed.
Lemma answered_snoc cs c : answered (cs ++ [c]) = answered cs ++ match c with Answered (Some id) _ p => [(id, p)] | _ => [] end.
Proof. unfold answered. rewrite omap_app. by destruct c as [| | [] |]. Qed.

Lemma performed_accepted cs id : in_order cs -> id ∈ (performed cs).*1 -> id ∈ (accepted cs).*1.
Proof.
  intros H ([i [b a]] & -> & Hin)%list_elem_of_fmap. apply list_elem_of_fmap. exists (i, b). split; [done|]. by eapply io_accepted.
Qed.
Lemma answered_performed cs id : in_order cs -> id ∈ (answered cs).*1 -> id ∈ (performed cs).*1.
Proof.
  intros H ([i p] & -> & Hin)%list_elem_of_fmap. destruct (io_performed _ H _ _ Hin) as [b Hb]. apply list_elem_of_fmap. by exists (i, (b, p)).
Qed.

(** A call that concerns no request of the table. *)
Definition aside (c : Call P) : Prop := match c with Accessed None _ _ | Answered None _ _ | Snooped _ _ => True | _ => False end.
Lemma aside_same cs c : aside c -> accepted (cs ++ [c]) = accepted cs /\ performed (cs ++ [c]) = performed cs /\ answered (cs ++ [c]) = answered cs.
Proof. intros H. rewrite accepted_snoc, performed_snoc, answered_snoc. by destruct c as [|[]|[]|]; rewrite ?app_nil_r. Qed.
Lemma in_order_eq cs cs' : accepted cs' = accepted cs -> performed cs' = performed cs -> answered cs' = answered cs -> in_order cs -> in_order cs'.
Proof. intros E1 E2 E3 [H1 H2 H3]. by split; rewrite ?E1, ?E2, ?E3. Qed.
End Calls.

(** ** The requests held back *)

Section Held.
Context {P : Type}.
Implicit Types m : gmap Z (PendingTxn P).

Definition heldn m : nat := size (filter (fun e => is_held (snd e) = true) m).

Lemma heldn_le_size m : (heldn m <= size m)%nat.
Proof. apply map_subseteq_size, map_filter_subseteq. Qed.
Lemma heldn_delete m id t : m !! id = Some t -> is_held t = false -> heldn (delete id m) = heldn m.
Proof.
  intros Hm Ht. unfold heldn. rewrite map_filter_delete, delete_id; [done|]. apply map_lookup_filter_None. right.
  intros x Hx. cbn. rewrite Hx in Hm. injection Hm as ->. by rewrite Ht.
Qed.
Lemma heldn_insert_new m id t : m !! id = None -> is_held t = false -> heldn (<[id := t]> m) = heldn m.
Proof. intros Hm Ht. unfold heldn. rewrite map_filter_insert_False by (cbn; by rewrite Ht). by rewrite delete_id. Qed.
Lemma heldn_insert m id t t' : m !! id = Some t ->
  heldn (<[id := t']> m) = ((if is_held t' then 1 else 0) + (heldn m - (if is_held t then 1 else 0)))%nat.
Proof.
  intros Hm. unfold heldn. set (f := filter _ m).
  assert (Hd : size (delete id f) = (heldn m - (if is_held t then 1 else 0))%nat).
  { rewrite map_size_delete. unfold heldn. fold f. destruct (f !! id) as [x|] eqn:Ef.
    - apply map_lookup_filter_Some in Ef as [Ex Hx]. cbn in Hx. rewrite Ex in Hm. injection Hm as ->. rewrite Hx. lia.
    - apply map_lookup_filter_None in Ef as [Ef|Ef]; [congruence|]. specialize (Ef t Hm). cbn in Ef. destruct (is_held t); [done|by rewrite Nat.sub_0_r]. }
  destruct (is_held t') eqn:Et.
  - rewrite map_filter_insert_True by done. fold f. rewrite <- insert_delete_eq, map_size_insert_None by apply lookup_delete_eq.
    rewrite Hd. unfold heldn. fold f. lia.
  - rewrite map_filter_insert_False by (cbn; by rewrite Et). rewrite map_filter_delete. fold f. rewrite Hd. unfold heldn. fold f. lia.
Qed.
Lemma heldn_pos m id t : m !! id = Some t -> is_held t = true -> (0 < heldn m)%nat.
Proof.
  intros Hm Ht. unfold heldn. apply Nat.neq_0_lt_0. intros E%map_size_empty_inv.
  assert (H : filter (fun e => is_held (snd e) = true) m !! id = Some t) by (by apply map_lookup_filter_Some). by rewrite E, lookup_empty in H.
Qed.
End Held.

(** ** The invariant *)

Section Bridge.
Context {P M C E : Type} `{!Packet P, !Memory M P, !CoreSide C P, !Engine E, !EngineLaws E, !Gem5Laws P M C}.
Implicit Types (o : Octopus P) (w : World E C M) (p : P) (t : PendingTxn P).
#[local] Abbreviation St := (St (P := P) (M := M) (C := C) (E := E)).
Implicit Type st : St.

#[local] Abbreviation pending st := (pending_requests (fst st)).
#[local] Abbreviation trace st := (calls (fst st)).
#[local] Abbreviation room st := (eng_room (engine (snd st))).

(** An entry of the table: the packet taken under its number, a response of the
    memory once its operation is done. *)
Definition txn_ok (cs : list (Call P)) (ports : nat) (id : Z) t : Prop :=
  (txn_port_id t < ports)%nat /\ 0 <= txn_seq t /\ exists p, accepted cs !! Z.to_nat (txn_seq t) = Some (id, p) /\ proper p /\
    (isRead p || isWrite p = true) /\
    (if dataDone t then committed t = true /\ isResponse (txn_pkt t) = true /\ (id, (p, txn_pkt t)) ∈ performed cs
     else txn_pkt t = p /\ id ∉ (performed cs).*1).

Record Inv st : Prop := {
  iv_period : clockPeriod (fst st) <> 0 /\ eng_port (engine (snd st)) (cache_id (fst st));
  iv_seq : nextSeq (fst st) = Z.of_nat (length (accepted (trace st))) /\ Z.of_nat (length (accepted (trace st))) + room st < 2 ^ 62;
  iv_ids : NoDup (accepted (trace st)).*1 /\ forall id, id ∈ (accepted (trace st)).*1 -> id < eng_next (engine (snd st));
  iv_once : NoDup (performed (trace st)).*1 /\ NoDup (answered (trace st)).*1;
  iv_order : always_in_order (trace st);
  iv_dom : forall id, is_Some (pending st !! id) <-> id ∈ (accepted (trace st)).*1 /\ id ∉ (answered (trace st)).*1;
  iv_txn : forall id t, pending st !! id = Some t -> txn_ok (trace st) (length (cpuPorts (fst st))) id t }.

(** Completions wait for their operation, but for one request. *)
Definition arr_but (x : option Z) st : Prop := forall id t, Some id <> x -> pending st !! id = Some t -> completionArrived t = true ->
  committed t = true /\ dataDone t = false.
(** What is held back has a reason, but for the requests of a list. *)
Definition reasons (l : list Z) st : Prop := forall id t, pending st !! id = Some t -> is_held t = true -> id ∉ l -> blockedByOlderWrite t (fst st) = true.

(** Entries stay what they are, new ones are fresh. *)
Definition evolves st st' : Prop :=
  (forall id, id ∈ (accepted (trace st)).*1 -> id ∈ (accepted (trace st')).*1) /\
  forall id t', pending st' !! id = Some t' ->
    (exists t, pending st !! id = Some t /\ committed t' = committed t /\ completionArrived t' = completionArrived t) \/
    ((id ∉ (accepted (trace st)).*1) /\ committed t' = false /\ completionArrived t' = false).

(** A step that leaves alone what is held back, and takes [n] numbers at most. *)
Record calm (n : Z) st st' : Prop := {
  cm_inv : Inv st';
  cm_evolves : evolves st st';
  cm_reasons : forall l, reasons l st -> reasons l st';
  cm_held : heldn (pending st') = heldn (pending st);
  cm_room : room st - n <= room st';
  cm_arr : forall x, arr_but x st -> arr_but x st';
  cm_ports : length (cpuPorts (fst st')) = length (cpuPorts (fst st)) }.

Lemma evolves_refl st : evolves st st.
Proof. split; [done|]. intros id t' H. left. by exists t'. Qed.
Lemma evolves_trans st1 st2 st3 : evolves st1 st2 -> evolves st2 st3 -> evolves st1 st3.
Proof.
  intros [A1 E1] [A2 E2]. split; [auto|]. intros id t' H. destruct (E2 id t' H) as [(t & Ht & -> & ->)|(Hn & Hc)]; [|right; split; auto].
  destruct (E1 id t Ht) as [(t0 & ? & -> & ->)|?]; [left; by exists t0|by right].
Qed.
Lemma calm_trans n1 n2 st1 st2 st3 : calm n1 st1 st2 -> calm n2 st2 st3 -> calm (n1 + n2) st1 st3.
Proof.
  intros [A1 A2 A3 A4 A5 A6 A7] [B1 B2 B3 B4 B5 B6 B7]. split; auto; [by eapply evolves_trans|congruence|lia|congruence].
Qed.
Lemma calm_more n n' st st' : n <= n' -> calm n st st' -> calm n' st st'.
Proof. intros H [A1 A2 A3 A4 A5 A6 A7]. split; auto. lia. Qed.

(** Statistics, retry flags and calls aside change nothing of this. *)
Record alike st st' : Prop := {
  al_period : clockPeriod (fst st') = clockPeriod (fst st) /\ cache_id (fst st') = cache_id (fst st);
  al_seq : nextSeq (fst st') = nextSeq (fst st);
  al_pending : pending st' = pending st;
  al_ports : length (cpuPorts (fst st')) = length (cpuPorts (fst st));
  al_engine : engine (snd st') = engine (snd st);
  al_calls : accepted (trace st') = accepted (trace st) /\ performed (trace st') = performed (trace st) /\ answered (trace st') = answered (trace st);
  al_order : always_in_order (trace st) -> always_in_order (trace st') }.

Lemma alike_refl st : alike st st.
Proof. by split. Qed.
Lemma alike_trans st1 st2 st3 : alike st1 st2 -> alike st2 st3 -> alike st1 st3.
Proof.
  intros [[A1 A1'] A2 A3 A4 A5 (A6 & A7 & A8) A9] [[B1 B1'] B2 B3 B4 B5 (B6 & B7 & B8) B9]. split; try congruence; auto; split_and!; congruence.
Qed.
Lemma alike_calm st st' : Inv st -> alike st st' -> calm 0 st st'.
Proof.
  intros [H1 H2 H3 H4 H5 H6 H7] [[A1 A1'] A2 A3 A4 A5 (A6 & A7 & A8) A9]. split.
  - split; rewrite ?A1, ?A1', ?A2, ?A3, ?A4, ?A5, ?A6, ?A7, ?A8; auto. intros id t Ht. specialize (H7 id t Ht).
    unfold txn_ok in *. by rewrite A6, A7.
  - split; [by rewrite A6|]. intros id t'. rewrite A3. intros H. left. by exists t'.
  - intros l Hl id t. rewrite A3. intros. unfold blockedByOlderWrite. rewrite A3. by eapply Hl.
  - by rewrite A3.
  - rewrite A5. lia.
  - intros x Hx id t. rewrite A3. apply Hx.
  - done.
Qed.

(** Calls aside. *)
Lemma note_alike c o w w' : aside c -> engine w' = engine w -> alike (o, w) (note c o, w').
Proof.
  intros Hc He. destruct (aside_same (calls o) c Hc) as (E1 & E2 & E3). split; cbn; try done.
  intros Ho. apply always_snoc; [done|]. apply (in_order_eq (calls o)); [done..|by apply always_now].
Qed.
Lemma sendPacket_aside port p o w : (port < length (cpuPorts o))%nat ->
  exists o', sendPacket None port p o = Ok o' /\ forall w', engine w' = engine w -> alike (o, w) (o', w').
Proof.
  intros H. unfold sendPacket. destruct (lookup_lt_is_Some_2 _ _ H) as [x ->]. eexists. split; [done|]. intros w' Hw. by apply note_alike.
Qed.
Lemma stats_alike a b c d e f g h i j o w w' : engine w' = engine w -> alike (o, w) (oct_stats a b c d e f g h i j o, w').
Proof. by split. Qed.
Lemma needRetry_alike port b o w w' : engine w' = engine w -> alike (o, w) (set_needRetry port b o, w').
Proof. split; try done. cbn. apply length_alter. Qed.

(** ** Taking a packet *)

Lemma in_order_accept cs id p : id ∉ (performed cs).*1 -> in_order cs -> in_order (cs ++ [Accepted id p]).
Proof.
  intros Hid [H1 H2 H3]. assert (Ec : performed (cs ++ [Accepted id p]) = performed cs /\ answered (cs ++ [Accepted id p]) = answered cs)
    by (rewrite performed_snoc, answered_snoc; by rewrite !app_nil_r).
  destruct Ec as [E1 E2]. split; rewrite ?E1, ?E2.
  - intros i b a H. rewrite accepted_snoc. apply elem_of_app. left. by eapply H1.
  - exact H2.
  - intros i j id1 p1 id2 p2 Hij. rewrite accepted_snoc. intros Hi Hj Hw Ho Hd. apply lookup_app_Some in Hj as [Hj|[Hl Hj]].
    + apply lookup_app_Some in Hi as [Hi|[Hl Hi]]; [by eapply (H3 i j)|]. apply lookup_lt_Some in Hj. lia.
    + apply list_lookup_singleton_Some in Hj as [_ [= <- <-]]. done.
Qed.

Lemma elem_of_snoc_fst (l : list (Z * P)) id p i : i ∈ (l ++ [(id, p)]).*1 <-> i ∈ l.*1 \/ i = id.
Proof. rewrite fmap_app, elem_of_app. cbn. by rewrite list_elem_of_singleton. Qed.

Lemma submit_calm p ty conn port o w : Inv (o, w) -> proper p -> isRead p || isWrite p = true -> (port < length (cpuPorts o))%nat ->
  ty = READ_ \/ ty = WRITE_ -> 0 < eng_room (engine w) ->
  exists o' w', submit p ty conn port (o, w) = Ok (o', w') /\ calm 1 (o, w) (o', w').
Proof.
  intros [[H1 H1'] [H2 H2'] [H3 H3'] [H4 H4'] H5 H6 H7] Hp Hrw Hport Hty Hroom. cbn [fst snd] in *. unfold submit.
  destruct (eng_issues (engine w) (cache_id o) (getAddr p) ty (i32 (pkt_size p)) H1' Hroom Hty) as (e & He & Hlt & Hr & Hpt). rewrite He. cbn [obind].
  set (id := eng_next (engine w)) in *.
  assert (Hfresh : id ∉ (accepted (calls o)).*1) by (intros Hin%H3'; lia).
  assert (Hnone : pending_requests o !! id = None) by (apply eq_None_not_Some; by intros [Hin _]%H6). rewrite Hnone.
  eexists _, _. split; [done|]. set (t := mkTxn P p conn port false (nextSeq o) false false (curTick w)).
  assert (Ha : accepted (calls o ++ [Accepted id p]) = accepted (calls o) ++ [(id, p)]) by (by rewrite accepted_snoc).
  assert (Hf : performed (calls o ++ [Accepted id p]) = performed (calls o)) by (rewrite performed_snoc; apply app_nil_r).
  assert (Hn : answered (calls o ++ [Accepted id p]) = answered (calls o)) by (rewrite answered_snoc; apply app_nil_r).
  assert (Hnp : id ∉ (performed (calls o)).*1).
  { intros Hin. by apply Hfresh, performed_accepted; [apply always_now|]. }
  assert (Hold : forall i u, pending_requests o !! i = Some u -> i <> id) by (intros i u Hi ->; congruence).
  split; cbn [fst snd oct_stats oct_set pending_requests calls cpuPorts nextSeq clockPeriod set_engine engine].
  - split; cbn [fst snd oct_stats oct_set pending_requests calls cpuPorts nextSeq clockPeriod set_engine engine]; rewrite ?Ha, ?Hf, ?Hn; try done.
    + split; [done|by apply Hpt].
    + rewrite length_app, H2. cbn. rewrite w64_small by (pose proof (eng_room_small e); lia). lia.
    + rewrite fmap_app. split; [apply NoDup_app; split_and!; [done| |apply NoDup_singleton]; by intros i Hi ->%list_elem_of_singleton|].
      intros i [Hi%H3'| ->%list_elem_of_singleton]%elem_of_app; [unfold id in *; lia|done].
    + apply always_snoc; [done|]. apply in_order_accept; [done|by apply always_now].
    + intros i. rewrite elem_of_snoc_fst. destruct (decide (i = id)) as [->|Hne].
      * rewrite lookup_insert_eq. split; [|by eauto]. intros _. split; [by right|]. intros Hin. by apply Hnp, answered_performed; [apply always_now|].
      * rewrite lookup_insert_ne by done. rewrite H6. split; [intros [? ?]; split; [by left|done]|intros [[?|?] ?]; done].
    + intros i u. destruct (decide (i = id)) as [->|Hne].
      * rewrite lookup_insert_eq. intros [= <-]. unfold txn_ok. rewrite Ha, Hf. cbn. rewrite H2.
        split; [done|]. split; [lia|]. exists p. rewrite Nat2Z.id. by rewrite list_lookup_middle.
      * rewrite lookup_insert_ne by done. intros Hu. destruct (H7 i u Hu) as (A1 & A2 & q & A3 & A4). unfold txn_ok. rewrite Ha, Hf.
        split; [done|]. split; [done|]. exists q. split; [by apply lookup_app_l_Some|done].
  - split; cbn [fst oct_stats oct_set calls pending_requests].
    + intros i Hi. rewrite Ha, fmap_app. apply elem_of_app. by left.
    + intros i u. destruct (decide (i = id)) as [->|Hne]; [rewrite lookup_insert_eq; intros [= <-]; by right|].
      rewrite lookup_insert_ne by done. intros Hu. left. by exists u.
  - intros l Hl i u. cbn. destruct (decide (i = id)) as [->|Hne]; [rewrite lookup_insert_eq; by intros [= <-]|].
    rewrite lookup_insert_ne by done. intros Hu Hh Hn'. specialize (Hl i u Hu Hh Hn'). unfold blockedByOlderWrite in *. cbn [fst] in Hl.
    apply existsb_exists in Hl as ([k v] & Hin & Hb). apply existsb_exists. exists (k, v). split; [|done].
    apply list_elem_of_In, elem_of_map_to_list in Hin. apply list_elem_of_In, elem_of_map_to_list. cbn.
    rewrite lookup_insert_ne; [done|]. intros ->. congruence.
  - by apply heldn_insert_new.
  - lia.
  - intros x Hx i u Hi. cbn. destruct (decide (i = id)) as [->|Hne]; [rewrite lookup_insert_eq; by intros [= <-]|].
    rewrite lookup_insert_ne by done. by apply Hx.
  - done.
Qed.

(** *** Admission *)

Lemma bypass_alike p port o w : (port < length (cpuPorts o))%nat -> exists o' w', bypass p port (o, w) = Ok (o', w') /\ alike (o, w) (o', w').
Proof.
  intros H. unfold bypass. destruct (sendAtomic (memory w) p) as [p' m]. set (o1 := note (Accessed None p p') o).
  assert (A1 : alike (o, w) (o1, w)) by (by apply note_alike). destruct (isResponse p').
  - destruct (sendPacket_aside port p' o1 w H) as (o2 & -> & A2). cbn [obind]. eexists _, _. split; [done|].
    eapply alike_trans; [exact A1|]. by apply A2.
  - eexists _, _. split; [done|]. by apply note_alike.
Qed.

Lemma accessTiming_calm p conn port o w : Inv (o, w) -> proper p -> (port < length (cpuPorts o))%nat -> 0 < eng_room (engine w) ->
  exists ok o' w', accessTiming p conn port (o, w) = Ok (ok, (o', w')) /\ calm 1 (o, w) (o', w').
Proof.
  intros Hi Hp Hport Hroom. unfold accessTiming.
  assert (Ha : forall o' w', alike (o, w) (o', w') -> calm 1 (o, w) (o', w')) by (intros ? ? A; eapply calm_more; [|by apply alike_calm]; lia).
  destruct (isInvalidate p || isClean p).
  { destruct (sendPacket_aside port (makeResponse p) o w Hport) as (o' & -> & A). eexists _, _, _. split; [done|]. apply Ha. by apply A. }
  unfold is_cacheable. destruct (isRead p || isWrite p) eqn:Hrw.
  2: { cbn [obind negb]. destruct (bypass_alike p port o w Hport) as (o' & w' & -> & A). eexists _, _, _. split; [done|]. by apply Ha. }
  pose proof (proper_req p Hp). destruct (pkt_req p) as [rq|]; [|done]. cbn [obind].
  destruct (negb (uncacheable rq) && isMemAddr (memory w) (getAddr p)); cbn [negb].
  2: { destruct (bypass_alike p port o w Hport) as (o' & w' & -> & A). eexists _, _, _. split; [done|]. by apply Ha. }
  destruct (portBlocked (o, w)).
  { destruct (lookup_lt_is_Some_2 _ _ Hport) as [x ->]. eexists _, _, _. split; [done|]. apply Ha.
    eapply alike_trans; [by apply (needRetry_alike port true o w w)|by apply stats_alike]. }
  match goal with |- context [submit _ _ _ _ (?o1, w)] => set (o1' := o1) end.
  assert (C0 : calm 0 (o, w) (o1', w)) by (apply alike_calm; [done|by apply stats_alike]).
  destruct (submit_calm p (if isWrite p then WRITE_ else READ_) conn port o1' w (cm_inv _ _ _ C0) Hp Hrw Hport) as (o2 & w2 & -> & C1);
    [destruct (isWrite p); auto|done|].
  eexists _, _, _. split; [done|]. change 1 with (0 + (1 + 0)). eapply calm_trans; [exact C0|]. eapply calm_trans; [exact C1|].
  apply alike_calm; [apply C1|]. by split.
Qed.

Lemma offer_all_calm port l : forall o w, Inv (o, w) -> Forall proper l -> (port < length (cpuPorts o))%nat -> Z.of_nat (length l) <= eng_room (engine w) ->
  exists st', offer_all port l (o, w) = Ok st' /\ calm (Z.of_nat (length l)) (o, w) st'.
Proof.
  induction l as [|p l IH]; intros o w Hi Hl Hport Hroom; cbn [offer_all].
  { exists (o, w). split; [done|]. by apply alike_calm, alike_refl. }
  cbn [length] in *. inversion Hl as [|? ? Hp Hl']; subst. cbv zeta.
  match goal with |- context [accessTiming p ?c port (o, w)] => destruct (accessTiming_calm p c port o w Hi Hp Hport ltac:(lia)) as (ok & o1 & w1 & -> & C1) end.
  cbn [obind]. set (w2 := set_cores _ w1). assert (C2 : calm 1 (o, w) (o1, w2)).
  { change 1 with (1 + 0). eapply calm_trans; [exact C1|]. apply alike_calm; [apply C1|by split]. }
  destruct ok.
  - pose proof (cm_room _ _ _ C2) as Hr. pose proof (cm_ports _ _ _ C2) as Hps. cbn [fst snd] in Hr, Hps.
    destruct (IH o1 w2 (cm_inv _ _ _ C2) Hl' ltac:(lia) ltac:(lia)) as (st' & -> & C3).
    exists st'. split; [done|]. eapply calm_more; [|eapply calm_trans; [exact C2|exact C3]]. lia.
  - exists (o1, w2). split; [done|]. eapply calm_more; [|exact C2]. lia.
Qed.

Lemma retry_max_pos (c : C) : 0 <= retry_max.
Proof. destruct (retry_offers c 0 0) as [_ H]. lia. Qed.

Lemma retry_calm o w : Inv (o, w) -> retry_max <= eng_room (engine w) ->
  exists st', retryBlockedPorts (o, w) = Ok st' /\ calm retry_max (o, w) st'.
Proof.
  intros Hi Hr. pose proof (retry_max_pos (cores w)) as H0. assert (Hsame : forall o' w', alike (o, w) (o', w') -> calm retry_max (o, w) (o', w')).
  { intros o' w' A. eapply calm_more; [exact H0|]. by apply alike_calm. }
  unfold retryBlockedPorts. destruct (portBlocked (o, w)); [eexists; split; [done|by apply Hsame, alike_refl]|].
  unfold needs_retry. destruct (list_find _ (cpuPorts o)) as [[port x]|] eqn:Ef; [|eexists; split; [done|by apply Hsame, alike_refl]].
  apply list_find_Some in Ef as (Hx & _). apply lookup_lt_Some in Hx. cbn [fmap option_fmap option_map fst].
  destruct (retry_offers (cores w) (cache_id o) port) as [Hp Hn]. destruct (core_retry (cores w) (cache_id o) port) as [l c]. cbn [fst] in *.
  assert (C0 : calm 0 (o, w) (set_needRetry port false o, set_cores c w)) by (apply alike_calm; [done|by apply needRetry_alike]).
  destruct (offer_all_calm port l _ _ (cm_inv _ _ _ C0) Hp) as (st' & -> & C1); [pose proof (cm_ports _ _ _ C0); cbn in *; lia|cbn; lia|].
  exists st'. split; [done|]. eapply calm_more; [|eapply calm_trans; [exact C0|exact C1]]. lia.
Qed.

(** ** Answers *)

Lemma in_order_answer cs id port p b : (id, (b, p)) ∈ performed cs -> in_order cs -> in_order (cs ++ [Answered (Some id) port p]).
Proof.
  intros Hin [H1 H2 H3]. assert (E1 : accepted (cs ++ [Answered (Some id) port p]) = accepted cs) by (rewrite accepted_snoc; apply app_nil_r).
  assert (E2 : performed (cs ++ [Answered (Some id) port p]) = performed cs) by (rewrite performed_snoc; apply app_nil_r).
  split; rewrite ?E1, ?E2; [done| |done]. intros i q. rewrite answered_snoc. intros [?|Hq%list_elem_of_singleton]%elem_of_app; [by apply H2|].
  injection Hq as -> ->. by exists b.
Qed.

Lemma respond_calm id t o w : Inv (o, w) -> pending_requests o !! id = Some t -> dataDone t = true -> retry_max <= eng_room (engine w) ->
  exists st', respond id (o, w) = Ok st' /\ calm retry_max (o, w) st' /\ pending st' !! id = None.
Proof.
  intros Hi Ht Hd Hr. pose proof Hi as [H1 H2 H3 [H4 H4'] H5 H6 H7]. cbn [fst snd] in *.
  destruct (H7 id t Ht) as (Hport & Hs & p & Ha & Hp & Hrw & Hdone). rewrite Hd in Hdone. destruct Hdone as (Hc & Hresp & Hperf).
  unfold respond. rewrite Ht, Hresp. cbn [negb].
  change (clockPeriod (set_pending (delete id (pending_requests o)) o)) with (clockPeriod o). rewrite (proj2 (Z.eqb_neq _ _) (proj1 H1)).
  unfold sendPacket. destruct (lookup_lt_is_Some_2 _ _ Hport) as [x Hx]. cbn [cpuPorts oct_stats set_pending oct_set]. rewrite Hx. cbn [obind].
  match goal with |- context [retryBlockedPorts (?o1, ?w1)] => set (o1' := o1); set (w1' := w1) end.
  set (c := Answered (Some id) (txn_port_id t) (txn_pkt t)).
  destruct (proj1 (H6 id) (ex_intro _ t Ht)) as [Hacc Hnans].
  assert (E1 : accepted (calls o ++ [c]) = accepted (calls o)) by (rewrite accepted_snoc; apply app_nil_r).
  assert (E2 : performed (calls o ++ [c]) = performed (calls o)) by (rewrite performed_snoc; apply app_nil_r).
  assert (E3 : answered (calls o ++ [c]) = answered (calls o) ++ [(id, txn_pkt t)]) by (by rewrite answered_snoc).
  assert (Hb : forall u i, i <> id -> blockedByOlderWrite u o = true -> blockedByOlderWrite u o1' = true).
  { intros u _ _ Hu. unfold blockedByOlderWrite in *. apply existsb_exists in Hu as ([k v] & Hin & Hb). apply existsb_exists. exists (k, v).
    split; [|done]. apply list_elem_of_In, elem_of_map_to_list in Hin. apply list_elem_of_In, elem_of_map_to_list. cbn.
    rewrite lookup_delete_ne; [done|]. intros <-. rewrite Ht in Hin. injection Hin as <-. unfold blocks in Hb. cbn in Hb. by rewrite Hd, andb_false_r in Hb. }
  assert (C0 : calm 0 (o, w) (o1', w1')).
  { split; cbn [fst snd o1' w1' note oct_stats oct_set set_pending pending_requests calls cpuPorts nextSeq clockPeriod set_num_pending engine].
    - split; cbn [fst snd o1' w1' note oct_stats oct_set set_pending pending_requests calls cpuPorts nextSeq clockPeriod set_num_pending engine];
        fold c; rewrite ?E1, ?E2, ?E3; try done.
      + split; [done|]. rewrite fmap_app. apply NoDup_app. split_and!; [done| |apply NoDup_singleton]. by intros i Hi' ->%list_elem_of_singleton.
      + apply always_snoc; [done|]. eapply in_order_answer; [exact Hperf|by apply always_now].
      + intros i. rewrite elem_of_snoc_fst. destruct (decide (i = id)) as [->|Hne].
        * rewrite lookup_delete_eq. split; [by intros []|intros [_ Hn]; destruct Hn; by right].
        * rewrite lookup_delete_ne by done. rewrite H6. split; intros [? Hn]; (split; [done|]); [by intros [?|?]|by intros ?; apply Hn; left].
      + intros i u [_ Hu]%lookup_delete_Some. unfold txn_ok. rewrite E1, E2. by apply H7.
    - split; cbn [fst o1' w1' note oct_stats oct_set set_pending pending_requests calls]; fold c; rewrite ?E1; [auto|]. intros i u [_ Hu]%lookup_delete_Some. left. by exists u.
    - intros l Hl i u. cbn. intros [Hne Hu]%lookup_delete_Some Hh Hn. apply (Hb u i); [done|]. by apply (Hl i u).
    - cbn. apply heldn_delete with t; [done|]. unfold is_held. by rewrite Hd, andb_false_r.
    - lia.
    - intros y Hy i u Hi'. cbn. intros [_ Hu]%lookup_delete_Some. by apply (Hy i u).
    - done. }
  destruct (retry_calm o1' w1' (cm_inv _ _ _ C0) Hr) as (st' & Hst & C1). exists st'. split; [exact Hst|].
  split; [eapply calm_more; [|eapply calm_trans; [exact C0|exact C1]]; lia|].
  destruct (pending st' !! id) as [u|] eqn:Eu; [|done]. destruct (proj2 (cm_evolves _ _ _ C1) id u Eu) as [(v & Hv & _)|[Hn _]].
  - cbn in Hv. by rewrite lookup_delete_eq in Hv.
  - destruct Hn. cbn [fst o1' note oct_stats oct_set set_pending calls]. fold c. by rewrite E1.
Qed.

(** ** Data operations *)

Lemma same_place (l : list (Z * P)) i j id p q : NoDup l.*1 -> l !! i = Some (id, p) -> l !! j = Some (id, q) -> i = j.
Proof.
  intros Hn Hi Hj. eapply NoDup_lookup; [exact Hn| |]; rewrite list_lookup_fmap; [rewrite Hi|rewrite Hj]; done.
Qed.

(** The state after the memory has done its part. *)
Definition performed_at (id : Z) t p (m : M) (o : Octopus P) (w : World E C M) : St :=
  (note (Accessed (Some id) (txn_pkt t) p) (set_pending (<[id := done p t]> (pending_requests o)) o), set_mem m w).

Lemma in_order_access o w id t p m : Inv (o, w) -> pending_requests o !! id = Some t -> dataDone t = false -> blockedByOlderWrite t o = false ->
  in_order (calls (fst (performed_at id t p m o w))).
Proof.
  intros [_ _ [H3 _] _ H5 H6 H7] Ht Hd Hb. cbn [fst snd] in *. destruct (H7 id t Ht) as (_ & Hs & q & Ha & _ & _ & Hdone). rewrite Hd in Hdone.
  destruct Hdone as [Hq Hn]. pose proof (always_now _ H5) as [O1 O2 O3]. cbn [performed_at fst note set_pending oct_set calls].
  set (c := Accessed (Some id) (txn_pkt t) p).
  assert (E1 : accepted (calls o ++ [c]) = accepted (calls o)) by (rewrite accepted_snoc; apply app_nil_r).
  assert (E2 : performed (calls o ++ [c]) = performed (calls o) ++ [(id, (txn_pkt t, p))]) by (by rewrite performed_snoc).
  assert (E3 : answered (calls o ++ [c]) = answered (calls o)) by (rewrite answered_snoc; apply app_nil_r).
  split; rewrite ?E1, ?E2, ?E3.
  - intros i b a [Hin|Hin%list_elem_of_singleton]%elem_of_app; [by eapply O1|]. injection Hin as -> -> _. rewrite Hq. by eapply list_elem_of_lookup_2.
  - intros i b Hin. destruct (O2 _ _ Hin) as [y Hy]. exists y. apply elem_of_app. by left.
  - intros i j id1 p1 id2 p2 Hij Hi Hj Hw Ho. rewrite !fmap_app, !elem_of_app. cbn. rewrite !list_elem_of_singleton. intros [Hin| ->].
    { left. by eapply O3. }
    pose proof (same_place _ _ _ _ _ _ H3 Hj Ha) as ->. rewrite Ha in Hj. injection Hj as <-.
    destruct (decide (id1 ∈ (performed (calls o)).*1)) as [Hin|Hnin]; [by left|]. exfalso.
    assert (Hacc : id1 ∈ (accepted (calls o)).*1) by (apply list_elem_of_fmap; exists (id1, p1); split; [done|by eapply list_elem_of_lookup_2]).
    destruct (proj2 (H6 id1)) as [u Hu].
    { split; [done|]. intros Hans. by apply Hnin, answered_performed; [apply always_now|]. }
    destruct (H7 id1 u Hu) as (_ & Hs1 & q1 & Ha1 & _ & _ & Hd1). pose proof (same_place _ _ _ _ _ _ H3 Hi Ha1) as Hi1.
    rewrite <- Hi1 in Ha1. rewrite Hi in Ha1. injection Ha1 as <-. destruct (dataDone u) eqn:Eu.
    { destruct Hd1 as (_ & _ & Hin). apply Hnin, list_elem_of_fmap. by eexists (_, _). }
    destruct Hd1 as [Hq1 _]. assert (Hbl : blockedByOlderWrite t o = true); [|congruence].
    unfold blockedByOlderWrite. apply existsb_exists. exists (id1, u). split; [by apply list_elem_of_In, elem_of_map_to_list|].
    unfold blocks. cbn. rewrite Eu, Hq1, Hq, Hw, Ho. rewrite !andb_true_r. apply Z.ltb_lt. lia.
Qed.

Lemma perform_step id t o w p m : Inv (o, w) -> pending_requests o !! id = Some t -> is_held t = true -> blockedByOlderWrite t o = false ->
  sendAtomic (memory w) (txn_pkt t) = (p, m) -> let st1 := performed_at id t p m o w in
  isResponse p = true /\ Inv st1 /\ evolves (o, w) st1 /\ S (heldn (pending st1)) = heldn (pending_requests o) /\
  (arr_but None (o, w) -> arr_but (Some id) st1) /\ (isWrite (txn_pkt t) = false -> forall l, reasons (id :: l) (o, w) -> reasons l st1).
Proof.
  intros Hi Ht Hh Hb Hm st1. pose proof Hh as [Hc Hd]%andb_true_iff. apply negb_true_iff in Hd.
  assert (Hord : in_order (calls (fst st1))) by (by apply in_order_access).
  pose proof Hi as [H1 H2 H3 [H4 H4'] H5 H6 H7]. cbn [fst snd] in *.
  destruct (H7 id t Ht) as (Hport & Hs & q & Ha & Hp & Hrw & Hdone). rewrite Hd in Hdone. destruct Hdone as [Hq Hn].
  assert (Hresp : isResponse p = true).
  { pose proof (proper_answer (memory w) q Hp Hrw) as Hr. rewrite <- Hq, Hm in Hr. exact Hr. }
  set (c := Accessed (Some id) (txn_pkt t) p) in *.
  assert (E1 : accepted (calls o ++ [c]) = accepted (calls o)) by (rewrite accepted_snoc; apply app_nil_r).
  assert (E2 : performed (calls o ++ [c]) = performed (calls o) ++ [(id, (txn_pkt t, p))]) by (by rewrite performed_snoc).
  assert (E3 : answered (calls o ++ [c]) = answered (calls o)) by (rewrite answered_snoc; apply app_nil_r).
  assert (E4 : (performed (calls o ++ [c])).*1 = (performed (calls o)).*1 ++ [id]) by (by rewrite E2, fmap_app).
  cbn [st1 performed_at fst note set_pending oct_set calls] in Hord. fold c in Hord.
  split; [done|]. split; [|split; [|split; [|split]]].
  - split; cbn [st1 performed_at fst snd note oct_set set_pending pending_requests calls cpuPorts nextSeq clockPeriod set_mem engine];
      fold c; rewrite ?E1, ?E3; try done.
    + rewrite E4. split; [|done]. apply NoDup_app. split_and!; [done| |apply NoDup_singleton]. by intros i Hi' ->%list_elem_of_singleton.
    + by apply always_snoc.
    + intros i. rewrite <- H6. destruct (decide (i = id)) as [->|Hne]; [rewrite lookup_insert_eq; by split; [rewrite Ht; eauto|eauto]|by rewrite lookup_insert_ne].
    + intros i u. destruct (decide (i = id)) as [->|Hne].
      * rewrite lookup_insert_eq. intros [= <-]. unfold txn_ok. rewrite E1, E2. split; [done|]. split; [done|]. exists q. cbn.
        split_and!; try done. apply elem_of_app. right. rewrite Hq. by apply list_elem_of_singleton.
      * rewrite lookup_insert_ne by done. intros Hu. destruct (H7 i u Hu) as (A1 & A2 & r & A3 & A4 & A5 & A6). unfold txn_ok. rewrite E1.
        split; [done|]. split; [done|]. exists r. split_and!; try done. destruct (dataDone u).
        -- destruct A6 as (? & ? & ?). split_and!; try done. rewrite E2. apply elem_of_app. by left.
        -- destruct A6 as [? A6]. split; [done|]. rewrite E4. intros [?|?%list_elem_of_singleton]%elem_of_app; done.
  - split; cbn [st1 performed_at fst note oct_set set_pending pending_requests calls]; fold c; rewrite ?E1; [auto|]. intros i u.
    destruct (decide (i = id)) as [->|Hne]; [rewrite lookup_insert_eq; intros [= <-]; left; by exists t|].
    rewrite lookup_insert_ne by done. intros Hu. left. by exists u.
  - cbn [st1 performed_at fst note oct_set set_pending pending_requests]. rewrite (heldn_insert _ _ _ _ Ht), Hh.
    pose proof (heldn_pos _ _ _ Ht Hh). unfold is_held at 1. cbn. rewrite andb_false_r. lia.
  - intros Harr i u Hne. cbn [st1 performed_at fst note oct_set set_pending pending_requests]. rewrite lookup_insert_ne by congruence. by apply Harr.
  - intros Hr l Hl i u. cbn [st1 performed_at fst note oct_set set_pending pending_requests]. destruct (decide (i = id)) as [->|Hne].
    { rewrite lookup_insert_eq. intros [= <-]. unfold is_held. cbn. by rewrite andb_false_r. }
    rewrite lookup_insert_ne by done. intros Hu Hhu Hnl. specialize (Hl i u Hu Hhu ltac:(set_solver)). unfold blockedByOlderWrite in *.
    apply existsb_exists in Hl as ([k v] & Hin & Hbl). apply existsb_exists. exists (k, v). split; [|done].
    apply list_elem_of_In, elem_of_map_to_list in Hin. apply list_elem_of_In, elem_of_map_to_list. cbn in *.
    rewrite lookup_insert_ne; [done|]. intros <-. rewrite Ht in Hin. injection Hin as <-. unfold blocks in Hbl. by rewrite Hr, andb_false_r in Hbl.
Qed.

(** What a chain of data operations leaves: fewer requests held back, and for
    each done at most one retry. *)
Record progress st st' : Prop := {
  pg_inv : Inv st';
  pg_evolves : evolves st st';
  pg_arr : arr_but None st';
  pg_held : (heldn (pending st') <= heldn (pending st))%nat;
  pg_room : room st - retry_max * (Z.of_nat (heldn (pending st)) - Z.of_nat (heldn (pending st'))) <= room st' }.

Lemma progress_refl st : Inv st -> arr_but None st -> progress st st.
Proof. intros H1 H2. split; [done|apply evolves_refl|done|done|lia]. Qed.
Lemma progress_trans st1 st2 st3 : progress st1 st2 -> progress st2 st3 -> progress st1 st3.
Proof. intros [A1 A2 A3 A4 A5] [B1 B2 B3 B4 B5]. split; [done|by eapply evolves_trans|done|lia|lia]. Qed.

Definition enough st : Prop := retry_max * Z.of_nat (heldn (pending st)) <= room st.
Lemma progress_enough st st' : progress st st' -> enough st -> enough st'.
Proof. intros [_ _ _ H4 H5] H. unfold enough in *. lia. Qed.

(** The requests of the sorted list are those held back. *)
Lemma held_back_spec o id : id ∈ (held_back o).*2 <-> exists t, pending_requests o !! id = Some t /\ is_held t = true.
Proof.
  unfold held_back. rewrite list_elem_of_fmap. setoid_rewrite merge_sort_Permutation. split.
  - intros ([s i] & -> & ([k t] & [= -> ->] & Hin)%list_elem_of_fmap). apply list_elem_of_In, filter_In in Hin as [Hin Hh].
    exists t. by apply list_elem_of_In, elem_of_map_to_list in Hin.
  - intros (t & Ht & Hh). exists (txn_seq t, id). split; [done|]. apply list_elem_of_fmap. exists (id, t). split; [done|].
    apply list_elem_of_In, filter_In. split; [by apply list_elem_of_In, elem_of_map_to_list|done].
Qed.

(** What the loop knows of a request it has yet to look at. *)
Definition known_committed st (id : Z) : Prop := id ∈ (accepted (trace st)).*1 /\ forall t, pending st !! id = Some t -> committed t = true.
Lemma known_evolves st st' id : evolves st st' -> known_committed st id -> known_committed st' id.
Proof.
  intros [He1 He2] [H1 H2]. split; [auto|]. intros t Ht. destruct (He2 id t Ht) as [(u & Hu & -> & _)|[Hn _]]; [by apply H2|done].
Qed.

(** [performData] does its work: [left] is what is still to be looked at. *)
Definition performs (perform : Z -> St -> outcome St) (n : nat) : Prop := forall id t st left,
  (heldn (pending st) <= n)%nat -> Inv st -> arr_but None st -> enough st ->
  pending st !! id = Some t -> is_held t = true -> blockedByOlderWrite t (fst st) = false -> reasons (id :: left) st ->
  exists st', perform id st = Ok st' /\ progress st st' /\ (heldn (pending st') < heldn (pending st))%nat /\
    reasons (if isWrite (txn_pkt t) then [] else left) st'.

Lemma release_loop perform n : performs perform n -> forall hs st, (heldn (pending st) <= n)%nat -> Inv st -> arr_but None st -> enough st ->
  reasons hs.*2 st -> Forall (known_committed st) hs.*2 ->
  exists st', ofold (release_one perform) hs st = Ok st' /\ progress st st' /\ reasons [] st'.
Proof.
  intros Hp. induction hs as [|[s id] hs IH]; intros st Hn Hi Harr He Hr Hk; cbn [ofold].
  { exists st. split; [done|]. split; [by apply progress_refl|done]. }
  cbn [fmap list_fmap snd] in Hr, Hk. inversion Hk as [|? ? [Hacc Hcom] Hk']; subst.
  assert (Hskip : (forall t, pending st !! id = Some t -> is_held t = true -> blockedByOlderWrite t (fst st) = true) -> reasons hs.*2 st).
  { intros Hs i u Hu Hh Hn'. destruct (decide (i = id)) as [->|Hne]; [by apply Hs|]. apply (Hr i u Hu Hh). set_solver. }
  unfold release_one at 1. cbn [snd]. destruct (pending st !! id) as [t|] eqn:Ht.
  2: { cbn [obind]. apply IH; try done. apply Hskip. intros t Ht'. congruence. }
  destruct (dataDone t) eqn:Hd.
  { cbn [obind]. apply IH; try done. apply Hskip. intros u [= <-] Hh. unfold is_held in Hh. by rewrite Hd, andb_false_r in Hh. }
  destruct (blockedByOlderWrite t (fst st)) eqn:Hb.
  { cbn [obind]. apply IH; try done. apply Hskip. by intros u [= <-]. }
  assert (Hh : is_held t = true) by (unfold is_held; by rewrite Hd, (Hcom t eq_refl)).
  destruct (Hp id t st hs.*2 Hn Hi Harr He Ht Hh Hb Hr) as (st1 & -> & Hpg & Hlt & Hr1). cbn [obind].
  destruct (IH st1) as (st2 & -> & Hpg2 & Hr2); [lia|apply Hpg|apply Hpg|by eapply progress_enough| | |].
  - destruct (isWrite (txn_pkt t)); [|done]. intros i u Hu Hhu _. by apply (Hr1 i u Hu Hhu), not_elem_of_nil.
  - eapply Forall_impl; [exact Hk'|]. intros i Hki. eapply known_evolves; [apply Hpg|done].
  - exists st2. split; [done|]. split; [by eapply progress_trans|done].
Qed.

(** After the memory, the answer if the completion waits for it. *)
Lemma answer_step id t p st1 : Inv st1 -> pending st1 !! id = Some (done p t) -> arr_but (Some id) st1 -> retry_max <= room st1 ->
  exists st2, (if completionArrived t then respond id st1 else Ok st1) = Ok st2 /\ calm retry_max st1 st2 /\ arr_but None st2.
Proof.
  intros Hi Ht Harr Hroom. destruct st1 as [o w]. cbn [fst snd] in *. destruct (completionArrived t) eqn:Ha.
  - destruct (respond_calm id (done p t) o w Hi Ht eq_refl Hroom) as (st2 & -> & Hc & Hnone). exists st2. split; [done|]. split; [done|].
    intros i u _ Hu. apply (cm_arr _ _ _ Hc _ Harr i u); [|done]. intros [= ->]. congruence.
  - exists (o, w). split; [done|]. split.
    + eapply calm_more; [|by apply alike_calm, alike_refl]. apply (retry_max_pos (cores w)).
    + intros i u _ Hu Hau. destruct (decide (i = id)) as [->|Hne]; [|apply (Harr i u); [by intros [= ->]|done..]].
      cbn [fst] in Hu. rewrite Ht in Hu. injection Hu as <-. cbn in Hau. congruence.
Qed.

Lemma performData_performs n : performs (performData n) n.
Proof.
  induction n as [|f IH]; intros id t st left Hn Hi Harr He Ht Hh Hb Hr.
  { pose proof (heldn_pos _ _ _ Ht Hh). lia. }
  destruct st as [o w]. cbn [fst snd performData] in *. rewrite Ht. destruct (sendAtomic (memory w) (txn_pkt t)) as [p m] eqn:Hm.
  destruct (perform_step id t o w p m Hi Ht Hh Hb Hm) as (Hresp & Hi1 & He1 & Hn1 & Ha1 & Hq1). rewrite Hresp. cbn [negb].
  change (note (Accessed (Some id) (txn_pkt t) p) (set_pending (<[id := done p t]> (pending_requests o)) o), set_mem m w) with (performed_at id t p m o w).
  set (st1 := performed_at id t p m o w) in *.
  assert (Ht1 : pending st1 !! id = Some (done p t)) by apply lookup_insert_eq.
  assert (Hroom1 : room st1 = eng_room (engine w)) by done.
  assert (He' : retry_max * Z.of_nat (S (heldn (pending st1))) <= room st1).
  { rewrite Hn1, Hroom1. exact He. }
  pose proof (retry_max_pos (cores w)) as Hpos. clearbody st1.
  destruct (answer_step id t p st1 Hi1 Ht1 (Ha1 Harr)) as (st2 & Hs2 & Hcm & Ha2); [lia|].
  match goal with |- context [obind ?x _] => replace x with (Ok st2) by (symmetry; exact Hs2) end. cbn [obind].
  assert (Hpg : progress (o, w) st2).
  { pose proof (cm_held _ _ _ Hcm). pose proof (cm_room _ _ _ Hcm). split; [apply Hcm|eapply evolves_trans; [exact He1|apply Hcm]|done|cbn [fst]; lia|].
    cbn [fst snd]. lia. }
  assert (Hlt : (heldn (pending st2) < heldn (pending_requests o))%nat) by (rewrite (cm_held _ _ _ Hcm); lia).
  destruct (isWrite (txn_pkt t)) eqn:Hw.
  2: { exists st2. split; [done|]. split; [done|]. split; [done|]. apply (cm_reasons _ _ _ Hcm). by apply Hq1. }
  unfold releaseHeldBack. destruct (release_loop (performData f) f IH (held_back (fst st2)) st2) as (st3 & Hst3 & Hpg3 & Hr3).
  - lia.
  - apply Hpg.
  - apply Hpg.
  - eapply progress_enough; [exact Hpg|exact He].
  - intros i u Hu Hhu Hnin. destruct Hnin. apply held_back_spec. by exists u.
  - apply Forall_forall. intros i (u & Hu & Hhu)%held_back_spec. split.
    + apply (iv_dom _ (pg_inv _ _ Hpg)). by exists u.
    + intros v Hv. rewrite Hu in Hv. injection Hv as <-. by apply andb_true_iff in Hhu as [? _].
  - exists st3. split; [done|]. split; [by eapply progress_trans|]. split; [|done]. pose proof (pg_held _ _ Hpg3). lia.
Qed.

(** ** Histories *)

(** What happens to a bridge: a core offers a packet, the simulator commits or
    completes a request or takes a line away, the clock lets a port retry, other
    accesses pass through, and the rest of the world moves on. *)
Inductive Op :=
| Offer (p : P) (port : nat)
| Commit (id address : Z)
| Complete (id : Z)
| Invalidate (address : Z)
| Retry
| FunctionalAccess (p : P)
| AtomicAccess (p : P)
| Elsewhere (w : World E C M).

Context (iterate : gmap Z (PendingTxn P) -> list (Z * PendingTxn P)).

Definition op_step st (op : Op) : outcome St :=
  match op with
  | Offer p port => offer_all port [p] st
  | Commit id address => onCommit id address st
  | Complete id => cacheSimCallback id st
  | Invalidate address => Ok (onInvalidate address st)
  | Retry => retryBlockedPorts st
  | FunctionalAccess p => Ok (snd (handleFunctional iterate p st))
  | AtomicAccess p => Ok (snd (handleAtomic p st))
  | Elsewhere w => Ok (fst st, w)
  end.
Definition run_ops st (ops : list Op) : outcome St := ofold op_step ops st.

(** What the simulator keeps to: it commits a request once, with its address,
    then completes it once, and does not run_ops out of numbers. *)
Definition legal st (op : Op) : Prop :=
  retry_max * (Z.of_nat (size (pending st)) + 1) + 1 <= room st /\
  match op with
  | Offer p port => proper p /\ (port < length (cpuPorts (fst st)))%nat
  | Commit id address => exists t, pending st !! id = Some t /\ committed t = false /\ address = getAddr (txn_pkt t)
  | Complete id => exists t, pending st !! id = Some t /\ committed t = true /\ completionArrived t = false
  | Elsewhere w => eng_next (engine (snd st)) <= eng_next (engine w) /\ eng_room (engine w) <= room st /\
      forall c, eng_port (engine (snd st)) c -> eng_port (engine w) c
  | _ => True
  end.
Fixpoint legal_from st (ops : list Op) : Prop :=
  match ops with [] => True | op :: ops' => legal st op /\ forall st', op_step st op = Ok st' -> legal_from st' ops' end.

(** The table knows what has been committed and completed. *)
Record known_ops (ops : list Op) st : Prop := {
  hs_known : forall id, (exists a, Commit id a ∈ ops) \/ Complete id ∈ ops -> id ∈ (accepted (trace st)).*1;
  hs_commit : forall id t a, pending st !! id = Some t -> Commit id a ∈ ops -> committed t = true;
  hs_complete : forall id t, pending st !! id = Some t -> Complete id ∈ ops -> completionArrived t = true }.
Record quiet (ops : list Op) st : Prop := {
  qt_inv : Inv st; qt_arr : arr_but None st; qt_reasons : reasons [] st; qt_history : known_ops ops st }.

Lemma history_evolves ops st st' : known_ops ops st -> evolves st st' -> known_ops ops st'.
Proof.
  intros [H1 H2 H3] [A B]. split; [by intros id Hid; apply A, H1| |].
  - intros id t a Ht Hin. destruct (B id t Ht) as [(u & Hu & -> & _)|[Hn _]]; [by eapply H2|]. destruct Hn. apply H1. left. by exists a.
  - intros id t Ht Hin. destruct (B id t Ht) as [(u & Hu & _ & ->)|[Hn _]]; [by eapply H3|]. destruct Hn. apply H1. by right.
Qed.
(** An operation that names no request adds nothing. *)
Lemma history_snoc ops op st : (forall id a, op <> Commit id a) -> (forall id, op <> Complete id) -> known_ops ops st -> known_ops (ops ++ [op]) st.
Proof.
  intros N1 N2 [H1 H2 H3]. assert (Hc : forall id a, Commit id a ∈ ops ++ [op] -> Commit id a ∈ ops).
  { intros id a [?|Hx%list_elem_of_singleton]%elem_of_app; [done|]. by destruct (N1 id a). }
  assert (Hd : forall id, Complete id ∈ ops ++ [op] -> Complete id ∈ ops).
  { intros id [?|Hx%list_elem_of_singleton]%elem_of_app; [done|]. by destruct (N2 id). }
  split; [|by eauto..]. intros id [[a Ha]|Ha]; apply H1; [left; by eauto|right; by auto].
Qed.
Lemma quiet_calm n ops op st st' : (forall id a, op <> Commit id a) -> (forall id, op <> Complete id) -> quiet ops st -> calm n st st' -> quiet (ops ++ [op]) st'.
Proof.
  intros N1 N2 [H1 H2 H3 H4] Hc. split; [apply Hc|by apply (cm_arr _ _ _ Hc)|by apply (cm_reasons _ _ _ Hc)|].
  apply history_snoc; [done..|]. eapply history_evolves; [exact H4|apply Hc].
Qed.

(** An entry with other flags. *)
Lemma flag_inv o w id t t' : Inv (o, w) -> pending_requests o !! id = Some t ->
  txn_pkt t' = txn_pkt t -> txn_seq t' = txn_seq t -> txn_port_id t' = txn_port_id t -> dataDone t' = dataDone t -> (committed t = true -> committed t' = true) ->
  Inv (set_pending (<[id := t']> (pending_requests o)) o, w).
Proof.
  intros [H1 H2 H3 H4 H5 H6 H7] Ht E1 E2 E3 E4 E5. split; cbn [fst snd set_pending oct_set pending_requests calls cpuPorts nextSeq clockPeriod] in *; try done.
  - intros i. rewrite <- H6. destruct (decide (i = id)) as [->|Hne]; [rewrite lookup_insert_eq, Ht; by split; eauto|by rewrite lookup_insert_ne].
  - intros i u. destruct (decide (i = id)) as [->|Hne]; [|rewrite lookup_insert_ne by done; apply H7].
    rewrite lookup_insert_eq. intros [= <-]. destruct (H7 id t Ht) as (A1 & A2 & p & A3 & A4 & A5 & A6).
    unfold txn_ok. rewrite E1, E2, E3, E4. split; [done|]. split; [done|]. exists p. split_and!; try done.
    destruct (dataDone t); [|done]. destruct A6 as (? & ? & ?). split_and!; auto.
Qed.
Lemma flag_blocked o id t t' u : pending_requests o !! id = Some t -> txn_pkt t' = txn_pkt t -> txn_seq t' = txn_seq t -> dataDone t' = dataDone t ->
  blockedByOlderWrite u o = true -> blockedByOlderWrite u (set_pending (<[id := t']> (pending_requests o)) o) = true.
Proof.
  intros Ht E1 E2 E3. unfold blockedByOlderWrite. rewrite !existsb_exists. intros ([k v] & Hin & Hb).
  apply list_elem_of_In, elem_of_map_to_list in Hin. cbn in Hin. destruct (decide (k = id)) as [->|Hne].
  - exists (id, t'). rewrite Ht in Hin. injection Hin as <-. split; [apply list_elem_of_In, elem_of_map_to_list; apply lookup_insert_eq|].
    unfold blocks in *. cbn in *. by rewrite E1, E2, E3.
  - exists (k, v). split; [|done]. apply list_elem_of_In, elem_of_map_to_list. cbn. by rewrite lookup_insert_ne.
Qed.

(** A commit or a completion is known of its request. *)
Lemma history_commit ops o w id a t : Inv (o, w) -> known_ops ops (o, w) -> pending_requests o !! id = Some t ->
  known_ops (ops ++ [Commit id a]) (set_pending (<[id := set_committed t]> (pending_requests o)) o, w).
Proof.
  intros Hi [H1 H2 H3] Ht. assert (Hd : forall i, Complete i ∈ ops ++ [Commit id a] -> Complete i ∈ ops).
  { by intros i [?|[=]%list_elem_of_singleton]%elem_of_app. }
  split; cbn [fst set_pending oct_set pending_requests calls].
  - intros i [[b [Hb|[= -> _]%list_elem_of_singleton]%elem_of_app]|Hb]; [apply H1; left; by exists b|apply (iv_dom _ Hi); by exists t|apply H1; right; by apply Hd].
  - intros i u b. destruct (decide (i = id)) as [->|Hne]; [rewrite lookup_insert_eq; by intros [= <-]|]. rewrite lookup_insert_ne by done.
    intros Hu [Hb|[= -> _]%list_elem_of_singleton]%elem_of_app; [by eapply H2|done].
  - intros i u. destruct (decide (i = id)) as [->|Hne]; [rewrite lookup_insert_eq; intros [= <-] Hin; by apply (H3 id t), Hd|].
    rewrite lookup_insert_ne by done. intros Hu Hin. by apply (H3 i u), Hd.
Qed.
Lemma history_complete ops st st' id : known_ops ops st -> evolves st st' -> id ∈ (accepted (trace st)).*1 ->
  (forall t, pending st' !! id = Some t -> completionArrived t = true) -> known_ops (ops ++ [Complete id]) st'.
Proof.
  intros H He Hacc Hid. destruct (history_evolves _ _ _ H He) as [H1 H2 H3].
  assert (Hc : forall i a, Commit i a ∈ ops ++ [Complete id] -> Commit i a ∈ ops) by (by intros i a [?|[=]%list_elem_of_singleton]%elem_of_app).
  split.
  - intros i [[b Hb]|[Hb|[= ->]%list_elem_of_singleton]%elem_of_app]; [apply H1; left; exists b; by apply Hc|apply H1; by right|by apply He].
  - intros i u b Hu Hb. eapply H2; [exact Hu|by apply Hc].
  - intros i u Hu [Hb|[= ->]%list_elem_of_singleton]%elem_of_app; [by eapply H3|by apply Hid].
Qed.

Lemma commit_quiet ops st id a : quiet ops st -> legal st (Commit id a) -> exists st', op_step st (Commit id a) = Ok st' /\ quiet (ops ++ [Commit id a]) st'.
Proof.
  intros [Hi Harr Hr Hh] (Hroom & t & Ht & Hc & ->). destruct st as [o w]. cbn [fst snd op_step] in *. unfold onCommit. rewrite Ht, Hc, Z.eqb_refl. cbn [negb].
  assert (Hd : dataDone t = false).
  { destruct (dataDone t) eqn:E1; [|done]. destruct (iv_txn _ Hi id t Ht) as (_ & _ & p & _ & _ & _ & H). rewrite E1 in H. destruct H as [H _]. congruence. }
  set (t' := set_committed t). set (o1 := set_pending (<[id := t']> (pending_requests o)) o).
  assert (Hi1 : Inv (o1, w)) by (apply (flag_inv o w id t t'); done).
  assert (Hh1 : known_ops (ops ++ [Commit id (getAddr (txn_pkt t))]) (o1, w)) by (by apply history_commit).
  assert (Harr1 : arr_but None (o1, w)).
  { intros i u Hne. cbn. destruct (decide (i = id)) as [->|Hn]; [rewrite lookup_insert_eq; intros [= <-] _; by split|].
    rewrite lookup_insert_ne by done. by apply Harr. }
  assert (Hr1 : reasons [id] (o1, w)).
  { intros i u. cbn [fst o1 set_pending oct_set pending_requests]. destruct (decide (i = id)) as [->|Hn]; [intros _ _ Hn; destruct Hn; by apply list_elem_of_singleton|].
    rewrite lookup_insert_ne by done. intros Hu Hhu _. apply (flag_blocked o id t t'); try done. apply (Hr i u Hu Hhu). apply not_elem_of_nil. }
  assert (Ht1 : pending_requests o1 !! id = Some t') by apply lookup_insert_eq.
  destruct (blockedByOlderWrite t' o1) eqn:Hb.
  - assert (Hr0 : reasons [] (o1, w)).
    { intros i u Hu Hhu _. destruct (decide (i = id)) as [->|Hn]; [cbn [fst] in Hu; rewrite Ht1 in Hu; by injection Hu as <-|].
      apply (Hr1 i u Hu Hhu). by rewrite list_elem_of_singleton. }
    eexists. split; [done|]. match goal with |- quiet _ ?s2 => assert (Hcm : calm 0 (o1, w) s2) by (apply alike_calm; [done|by apply stats_alike]) end.
    split; [apply Hcm|by apply (cm_arr _ _ _ Hcm)|by apply (cm_reasons _ _ _ Hcm)|]. eapply history_evolves; [exact Hh1|apply Hcm].
  - assert (Hsz : size (pending_requests o1) = size (pending_requests o)) by (cbn; apply map_size_insert_Some; by exists t).
    pose proof (heldn_le_size (pending_requests o1)) as Hle. pose proof (retry_max_pos (cores w)) as Hpos.
    destruct (performData_performs (size (pending_requests o1)) id t' (o1, w) []) as (st' & Hst & Hpg & _ & Hq); try done.
    + unfold enough. cbn [fst snd]. rewrite Hsz in Hle. assert (Z.of_nat (heldn (pending_requests o1)) <= Z.of_nat (size (pending_requests o))) by lia. nia.
    + unfold is_held. cbn. by rewrite Hd.
    + exists st'. split; [exact Hst|]. split; [apply Hpg|apply Hpg|by destruct (isWrite (txn_pkt t'))|]. eapply history_evolves; [exact Hh1|apply Hpg].
Qed.

Lemma complete_quiet ops st id : quiet ops st -> legal st (Complete id) -> exists st', op_step st (Complete id) = Ok st' /\ quiet (ops ++ [Complete id]) st'.
Proof.
  intros [Hi Harr Hr Hh] (Hroom & t & Ht & Hc & Ha). destruct st as [o w]. cbn [fst snd op_step] in *. unfold cacheSimCallback. rewrite Ht, Hc. cbn [negb].
  assert (Hacc : id ∈ (accepted (calls o)).*1) by (apply (iv_dom _ Hi); by exists t).
  destruct (dataDone t) eqn:Hd; cbn [negb].
  - pose proof (retry_max_pos (cores w)) as Hpos. destruct (respond_calm id t o w Hi Ht Hd) as (st' & -> & Hcm & Hnone); [nia|]. exists st'. split; [done|].
    split; [apply Hcm|by apply (cm_arr _ _ _ Hcm)|by apply (cm_reasons _ _ _ Hcm)|].
    eapply history_complete; [exact Hh|apply Hcm|exact Hacc|]. intros u Hu. congruence.
  - eexists. split; [done|]. set (t' := set_arrived t). set (o1 := set_pending (<[id := t']> (pending_requests o)) o).
    assert (Ht1 : pending_requests o1 !! id = Some t') by apply lookup_insert_eq. split.
    + by apply (flag_inv o w id t t').
    + intros i u Hne. cbn. destruct (decide (i = id)) as [->|Hn]; [rewrite lookup_insert_eq; intros [= <-] _; by split|]. rewrite lookup_insert_ne by done. by apply Harr.
    + intros i u Hu Hhu _. cbn [fst o1 set_pending oct_set pending_requests] in Hu. destruct (decide (i = id)) as [->|Hn].
      * rewrite lookup_insert_eq in Hu. injection Hu as <-. apply (flag_blocked o id t t'); try done. apply (Hr id t Ht); [exact Hhu|apply not_elem_of_nil].
      * rewrite lookup_insert_ne in Hu by done. apply (flag_blocked o id t t'); try done. apply (Hr i u Hu Hhu). apply not_elem_of_nil.
    + destruct Hh as [H1 H2 H3]. split; cbn [fst o1 set_pending oct_set pending_requests calls].
      * intros i [[b [Hb|[=]%list_elem_of_singleton]%elem_of_app]|[Hb|[= ->]%list_elem_of_singleton]%elem_of_app]; [apply H1; left; by exists b|apply H1; by right|done].
      * intros i u b Hu [Hb|[=]%list_elem_of_singleton]%elem_of_app. destruct (decide (i = id)) as [->|Hn].
        -- rewrite lookup_insert_eq in Hu. injection Hu as <-. done.
        -- rewrite lookup_insert_ne in Hu by done. by eapply H2.
      * intros i u Hu [Hb|[= ->]%list_elem_of_singleton]%elem_of_app; [|rewrite lookup_insert_eq in Hu; by injection Hu as <-].
        destruct (decide (i = id)) as [->|Hn]; [rewrite lookup_insert_eq in Hu; by injection Hu as <-|]. rewrite lookup_insert_ne in Hu by done. by eapply H3.
Qed.

Lemma snoop_alike blk l : forall port st, alike st (snoop_ports blk port l st).
Proof.
  induction l as [|x l IH]; intros port st; cbn [snoop_ports]; [apply alike_refl|]. destruct st as [o w].
  eapply alike_trans; [|apply IH]. destruct (isSnooping x); [|apply alike_refl].
  eapply alike_trans; [by apply (note_alike (Snooped port blk) o w w)|by apply stats_alike].
Qed.

Lemma op_quiet ops st op : quiet ops st -> legal st op -> exists st', op_step st op = Ok st' /\ quiet (ops ++ [op]) st'.
Proof.
  intros Hq Hl. pose proof (qt_inv _ _ Hq) as Hi. destruct op as [p port|id a|id|a| |p|p|w'].
  - destruct Hl as (Hroom & Hp & Hport). destruct st as [o w]. cbn [fst snd op_step] in *. pose proof (retry_max_pos (cores w)).
    destruct (offer_all_calm port [p] o w Hi) as (st' & -> & Hc); [by constructor|done|cbn; nia|]. exists st'. split; [done|]. by eapply quiet_calm.
  - by apply commit_quiet.
  - by apply complete_quiet.
  - eexists. split; [done|]. apply (quiet_calm 0 _ _ st); [done..|]. by apply alike_calm, snoop_alike.
  - destruct Hl as [Hroom _]. destruct st as [o w]. cbn [fst snd op_step] in *. pose proof (retry_max_pos (cores w)).
    destruct (retry_calm o w Hi) as (st' & -> & Hc); [nia|]. exists st'. split; [done|]. by eapply quiet_calm.
  - eexists. split; [done|]. apply (quiet_calm 0 _ _ st); [done..|]. apply alike_calm; [done|]. destruct st as [o w]. unfold handleFunctional.
    destruct (satisfied _ _) as [[] q]; cbn; [apply alike_refl|]. destruct (sendFunctional (memory w) q). by split.
  - eexists. split; [done|]. apply (quiet_calm 0 _ _ st); [done..|]. apply alike_calm; [done|]. destruct st as [o w]. unfold handleAtomic.
    destruct (sendAtomic (memory w) p). by apply note_alike.
  - destruct Hl as (_ & Hn & Hrm & Hpt). eexists. split; [done|]. destruct st as [o w]. cbn [fst snd] in *. destruct Hq as [[[H1 H1'] [H2 H2'] [H3 H3'] H4 H5 H6 H7] Harr Hr Hh].
    cbn [fst snd] in *. split; [split; cbn [fst snd]; try done| | |].
    + split; [done|by apply Hpt].
    + split; [done|lia].
    + split; [done|]. intros id Hid%H3'. lia.
    + exact Harr.
    + exact Hr.
    + apply history_snoc; [done..|]. by destruct Hh.
Qed.

Lemma run_quiet ops : forall before st, quiet before st -> legal_from st ops -> exists st', run_ops st ops = Ok st' /\ quiet (before ++ ops) st'.
Proof.
  induction ops as [|op ops IH]; intros before st Hq; cbn [legal_from]; [intros _; exists st; by rewrite app_nil_r|].
  intros [Hl Hn]. destruct (op_quiet before st op Hq Hl) as (st1 & E1 & Hq1). unfold run_ops. cbn [ofold]. rewrite E1. cbn [obind].
  destruct (IH _ st1 Hq1 (Hn st1 E1)) as (st2 & E2 & Hq2). exists st2. split; [done|]. by rewrite <- app_assoc in Hq2.
Qed.

Lemma new_quiet v ext id bs ns period snooping o w : newOctopus v ext id bs ns period snooping = Ok o -> period <> 0 ->
  Forall (eng_port (engine w)) ext -> quiet [] (o, w).
Proof.
  unfold newOctopus. destruct (negb _); [done|]. destruct (existsb _ ext) eqn:Hx; [|done]. cbn [negb]. intros [= <-] Hp Hext. split.
  - split; cbn; try done.
    + split; [done|]. apply existsb_exists in Hx as (c & Hc & ->%Z.eqb_eq). by eapply Forall_forall in Hext; [|by apply list_elem_of_In].
    + split; [done|]. apply eng_room_small.
    + split; [apply NoDup_nil_2|]. by intros i ?%elem_of_nil.
    + split; apply NoDup_nil_2.
    + intros l1 l2 Hl. destruct l1; [|done]. split; cbn; [by intros ??? ?%elem_of_nil|by intros ?? ?%elem_of_nil|]. intros i j id1 p1 id2 p2 _ Hi. by rewrite lookup_nil in Hi.
    + intros i. rewrite lookup_empty. split; [by intros []|]. by intros [?%elem_of_nil _].
  - intros i t _. cbn. by rewrite lookup_empty.
  - intros i t. cbn. by rewrite lookup_empty.
  - split; cbn; [|intros i t a; by rewrite lookup_empty|intros i t; by rewrite lookup_empty]. by intros i [[a ?%elem_of_nil]|?%elem_of_nil].
Qed.

(** ** What a bridge does *)

(** Nothing is left, when everything has been committed and completed. *)
Lemma settled_empty ops st : quiet ops st ->
  (forall id, id ∈ (accepted (trace st)).*1 -> (exists a, Commit id a ∈ ops) /\ Complete id ∈ ops) -> pending st = ∅.
Proof.
  intros [Hi Harr Hr [_ Hc Ha]] Hall. assert (Hno : forall n id t, pending st !! id = Some t -> txn_seq t < Z.of_nat n -> False).
  { induction n as [|n IH]; intros id t Ht Hlt; [destruct (iv_txn _ Hi id t Ht); lia|].
    destruct (proj1 (iv_dom _ Hi id) (ex_intro _ t Ht)) as [Hacc _]. destruct (Hall id Hacc) as [[a Hca] Hco].
    destruct (Harr id t ltac:(done) Ht (Ha id t Ht Hco)) as [Hcom Hd]. assert (Hh : is_held t = true) by (unfold is_held; by rewrite Hcom, Hd).
    pose proof (Hr id t Ht Hh (not_elem_of_nil _)) as Hb. apply existsb_exists in Hb as ([k u] & Hin & Hb).
    apply list_elem_of_In, elem_of_map_to_list in Hin. cbn in Hb. unfold blocks in Hb.
    repeat (apply andb_true_iff in Hb as [Hb _]). apply Z.ltb_lt in Hb. apply (IH k u Hin). lia. }
  apply map_empty. intros id. destruct (pending st !! id) as [t|] eqn:Ht; [|done]. exfalso.
  apply (Hno (Z.to_nat (txn_seq t + 1)) id t Ht). destruct (iv_txn _ Hi id t Ht) as (_ & Hs & _). lia.
Qed.

Lemma settled_answers st : Inv st -> pending st = ∅ ->
  (answered (trace st)).*1 ≡ₚ (accepted (trace st)).*1 /\ (performed (trace st)).*1 ≡ₚ (accepted (trace st)).*1.
Proof.
  intros Hi He. pose proof (always_now _ (iv_order _ Hi)) as Ho. destruct (iv_once _ Hi) as [Hn1 Hn2]. destruct (iv_ids _ Hi) as [Hn3 _].
  assert (Hx : forall id, id ∈ (accepted (trace st)).*1 -> id ∈ (answered (trace st)).*1).
  { intros id Hin. destruct (decide (id ∈ (answered (trace st)).*1)) as [?|Hno]; [done|]. exfalso.
    destruct (proj2 (iv_dom _ Hi id) (conj Hin Hno)) as [t Ht]. by rewrite He, lookup_empty in Ht. }
  split; apply NoDup_Permutation; try done; intros id; split; intros Hin; [|by apply Hx|by apply performed_accepted|].
  - by apply performed_accepted, answered_performed.
  - by apply answered_performed, Hx.
Qed.


(** C10: When the simulator has committed and completed every request the bridge
    took, in whatever order and with whatever is held back in between, the data
    operation of each is done, each is answered, and nothing is left. *)
Theorem bridge_answers_all v ext id bs ns period snooping o w ops :
  newOctopus v ext id bs ns period snooping = Ok o -> period <> 0 -> Forall (eng_port (engine w)) ext -> legal_from (o, w) ops ->
  exists st', run_ops (o, w) ops = Ok st' /\
    ((forall i, i ∈ (accepted (trace st')).*1 -> (exists a, Commit i a ∈ ops) /\ Complete i ∈ ops) ->
     pending st' = ∅ /\ (answered (trace st')).*1 ≡ₚ (accepted (trace st')).*1 /\ (performed (trace st')).*1 ≡ₚ (accepted (trace st')).*1).
Proof.
  intros Ho Hp Hext Hl. destruct (run_quiet ops [] (o, w)) as (st' & Hr & Hq); [by eapply new_quiet|done|].
  exists st'. split; [done|]. intros Hall. assert (He : pending st' = ∅) by (by eapply settled_empty). split; [done|].
  apply settled_answers; [apply Hq|done].
Qed.
End Bridge.
