(* ===== verification/Gem5Ports.v ===== *)
(** * The gem5 bridge and the ports of the simulator

    [ExternalCPU] as the bridge reaches it, [ExternalCPU::getExtCPUs()] with the
    cache behind each port, is an engine that keeps its word for the first
    2^31 - 1 requests; the theorems of the bridge on concrete runs. *)

From S2P Require Export External BusInterfaces Gem5Theory.

Local Open Scope list_scope.
Open Scope Z_scope.

(** ** The ports *)

Section ExtPorts.
Context {IU IL Proto X Mem : Type} `{!CommInterface IU, !Embedder X, !Initializable Mem}.

(** The table of ports, each with the cache it is plugged into. *)
Record ExtPorts := mkExtPorts {
  getExtCPUs : gmap Z (ExternalCPU IU * option (@Controller Proto IU IL));
  ext_outside : Outside (E := X) (Mem := Mem) }.

Definition port_addRequest (s : ExtPorts) (id address type size : Z) : outcome (Z * ExtPorts) :=
  match getExtCPUs s !! id with
  | None => Crash "map::at"
  | Some (x, cache) =>
      let! (n, _, x', o') := addRequest (mkRequest address type None size) x (ext_outside s) in
      Ok (n, mkExtPorts (<[id := (x', cache)]> (getExtCPUs s)) o')
  end.
Definition port_isBlocked (s : ExtPorts) (id outstanding : Z) : bool :=
  match getExtCPUs s !! id with None => false | Some (_, cache) => isBlocked cache outstanding end.

#[export] Instance ports_engine : Engine ExtPorts := {| eng_addRequest := port_addRequest; eng_isBlocked := port_isBlocked |}.

Definition next_id (s : ExtPorts) : Z := reqId (snd (ext_outside s)).

(** A request of the bridge takes the next number and leaves every port. *)
Lemma port_addRequest_spec (s : ExtPorts) id a ty sz : is_Some (getExtCPUs s !! id) -> 0 <= next_id s < 2 ^ 31 - 1 -> ty = READ_ \/ ty = WRITE_ ->
  exists s', port_addRequest s id a ty sz = Ok (next_id s, s') /\ next_id s' = next_id s + 1 /\
    forall id', is_Some (getExtCPUs s !! id') -> is_Some (getExtCPUs s' !! id').
Proof.
  intros [[x cache] Hx] Hn Hty. unfold next_id in *. unfold port_addRequest. rewrite Hx. destruct s as [ports [[e mem] sh]]. cbn [getExtCPUs ext_outside snd] in *.
  unfold addRequest, request_of. cbn [rq_type rq_data rq_address rq_size].
  rewrite (proj2 (Z.eqb_neq ty SETUP_WRITE)), (proj2 (Z.eqb_neq ty SETUP_READ)) by (destruct Hty; subst; done).
  cbn [nextReqId]. unfold nextReqId. cbn. eexists. split; [by rewrite w64_small by lia|]. cbn. split.
  - rewrite i32_small; lia.
  - intros id' [y Hy]. destruct (decide (id' = id)) as [->|Hne]; [rewrite lookup_insert_eq; by eauto|rewrite lookup_insert_ne by done; by eauto].
Qed.

#[export] Instance ports_laws : EngineLaws ExtPorts.
Proof.
  refine {| eng_port s id := is_Some (getExtCPUs s !! id); eng_next := next_id;
            eng_room s := if (0 <=? next_id s) && (next_id s <? 2 ^ 31 - 1) then 2 ^ 31 - 1 - next_id s else 0 |}.
  - intros s. case_match eqn:H; [apply andb_true_iff in H as [?%Z.leb_le _]|]; lia.
  - intros s id a ty sz Hp Hr Hty. assert (H : 0 <= next_id s < 2 ^ 31 - 1).
    { case_match eqn:H; [apply andb_true_iff in H as [?%Z.leb_le ?%Z.ltb_lt]|]; lia. }
    destruct (port_addRequest_spec s id a ty sz Hp H Hty) as (s' & Hs & Hn & Hk). exists s'. split; [exact Hs|]. rewrite Hn. split; [lia|].
    split; [|exact Hk]. clear Hr.
    rewrite (proj2 (Z.leb_le 0 (next_id s))), (proj2 (Z.leb_le 0 (next_id s + 1))), (proj2 (Z.ltb_lt (next_id s) _)) by lia. cbn [andb].
    case_match eqn:H'; [apply Z.ltb_lt in H'|apply Z.ltb_ge in H']; lia.
Defined.
End ExtPorts.
Arguments ExtPorts : clear implicits.

(** ** Histories that are checked by evaluation *)

Section Checked.
Context {P M C E : Type} `{!Packet P, !Memory M P, !CoreSide C P, !Engine E, !EngineLaws E, !Gem5Laws P M C}.
Context (iterate : gmap Z (PendingTxn P) -> list (Z * PendingTxn P)) (all_proper : forall p : P, proper p).
#[local] Abbreviation St := (St (P := P) (M := M) (C := C) (E := E)).

Definition legalb (st : St) (op : @Op P M C E) : bool :=
  (retry_max * (Z.of_nat (size (pending_requests (fst st))) + 1) + 1 <=? eng_room (engine (snd st))) &&
  match op with
  | Offer p port => (port <? length (cpuPorts (fst st)))%nat
  | Commit id a => match pending_requests (fst st) !! id with Some t => negb (committed t) && (a =? getAddr (txn_pkt t)) | None => false end
  | Complete id => match pending_requests (fst st) !! id with Some t => committed t && negb (completionArrived t) | None => false end
  | Elsewhere _ => false
  | _ => true
  end.
Fixpoint all_legalb (st : St) (ops : list (@Op P M C E)) : bool :=
  match ops with
  | [] => true
  | op :: ops' => legalb st op && match op_step iterate st op with Ok st' => all_legalb st' ops' | _ => false end
  end.

Lemma all_legalb_sound ops : forall st, all_legalb st ops = true -> legal_from iterate st ops.
Proof.
  induction ops as [|op ops IH]; intros st; cbn [all_legalb legal_from]; [done|]. intros [Hl Hs]%andb_true_iff. split.
  - unfold legalb in Hl. apply andb_true_iff in Hl as [Hr Hl]. split; [by apply Z.leb_le|]. destruct op as [p port|id a|id|a| |p|p|w']; try done.
    + split; [apply all_proper|by apply Nat.ltb_lt].
    + destruct (pending_requests (fst st) !! id) as [t|] eqn:Ht; [|done]. apply andb_true_iff in Hl as [Hc Ha]. eexists. split; [done|]. split; [by apply negb_true_iff|by apply Z.eqb_eq].
    + destruct (pending_requests (fst st) !! id) as [t|] eqn:Ht; [|done]. apply andb_true_iff in Hl as [Hc Ha]. eexists. split; [done|]. split; [done|by apply negb_true_iff].
  - intros st' E'. rewrite E' in Hs. by apply IH.
Qed.
End Checked.

(** ** Witnesses *)

(** A load or store of a word, its value, and whether it has been answered. *)
Record Word := mkWord { w_store : bool; w_addr : Z; w_value : Z; w_response : bool }.
#[export] Instance word_packet : Packet Word := {|
  isRead p := negb (w_store p); isWrite := w_store; isResponse := w_response; isInvalidate _ := false; isClean _ := false;
  isLLSC _ := false; isAtomicOp _ := false; pkt_addr := w_addr; pkt_size _ := 8; pkt_req p := Some (mkReq (Some (w_addr p)) false);
  makeResponse p := mkWord (w_store p) (w_addr p) (w_value p) true;
  trySatisfyFunctional p q :=
    if w_addr p =? w_addr q then (true, mkWord (w_store p) (w_addr p) (w_value q) (w_response p)) else (false, p) |}.
#[export] Instance word_memory : Memory (gmap Z Z) Word :=
  let access (m : gmap Z Z) p :=
    if w_store p then (mkWord true (w_addr p) (w_value p) true, <[w_addr p := w_value p]> m)
    else (mkWord false (w_addr p) (default 0 (m !! w_addr p)) true, m) in
  {| sendAtomic := access; sendFunctional := access; isMemAddr _ a := a <? 0x10000 |}.
(** A core keeps the packets that were refused and offers one when it may. *)
#[export] Instance word_core : CoreSide (list Word) Word := {|
  core_retry c b port := (take 1 c, drop 1 c);
  core_answer c b port p ok := if ok : bool then c else c ++ [p];
  core_snoop c b port a := c |}.
#[export] Instance word_laws : Gem5Laws Word (gmap Z Z) (list Word).
Proof.
  refine {| proper _ := True; retry_max := 1 |}; [done| |].
  - intros m p _ _. cbn. by destruct (w_store p).
  - intros c b port. cbn. split; [by apply Forall_forall|]. destruct c as [|? []]; cbn; lia.
Defined.

(** A simulator of two outstanding requests. *)
#[export] Instance two_engine : Engine Z := {|
  eng_addRequest n c a ty sz := Ok (n, n + 1); eng_isBlocked n c outstanding := 2 <=? outstanding |}.
#[export] Instance two_laws : EngineLaws Z.
Proof.
  refine {| eng_port _ _ := True; eng_next n := n; eng_room n := if 0 <=? n then 2 ^ 61 - n else 0 |}.
  - intros n. case_match eqn:H; [apply Z.leb_le in H|]; lia.
  - intros n c a ty sz _ Hr _. exists (n + 1). split; [done|]. case_match eqn:H; [apply Z.leb_le in H|lia]. split; [lia|]. split; [|done].
    rewrite (proj2 (Z.leb_le 0 (n + 1))); lia.
Defined.

Definition demo_store (a v : Z) : Word := mkWord true a v false.
Definition demo_load (a : Z) : Word := mkWord false a 0 false.
Definition demo_bridge : Octopus Word := mkOctopus _ 3 64 2 500 ∅ 0 0 0 0 0 0 0 0 0 0 0 [mkSidePort 3 false true] [].

(** A store and a load of the same word: the simulator commits and completes the
    load first. *)
Definition demo_ops {E} : list (@Op Word (gmap Z Z) (list Word) E) :=
  [Offer (demo_store 0x100 7) 0; Offer (demo_load 0x100) 0; FunctionalAccess (demo_load 0x100); Commit 6 0x100; Complete 6; Invalidate 0x123;
   Retry; Commit 5 0x100; Complete 5].

(** The port of core 3, which nothing else uses. *)
#[local] Instance quiet_core : Embedder unit := {| on_complete e c := (e, []); on_issued e r id b := e |}.
#[local] Instance no_setup : Initializable unit := {| initialize u _ _ _ := Ok u; initialize_child u _ _ _ := Ok u; read u _ := Ok (None, u) |}.
Definition demo_ports : ExtPorts BusInterface BusInterface unit unit unit :=
  mkExtPorts {[3 := (newExternalCPU 3 (newBusInterface 3 8), None)]} (tt, None, mkShared 5 1).
#[local] Abbreviation start e := (demo_bridge, mkWorld _ _ _ e [] ∅ 1000 0).


(** Three packets, the last refused until the first is answered. *)
Definition full_ops : list (@Op Word (gmap Z Z) (list Word) Z) :=
  [Offer (demo_store 0x200 1) 0; Offer (demo_load 0x200) 0; Offer (demo_store 0x204 2) 0; Commit 1 0x200; Complete 1; Commit 0 0x200;
   Commit 2 0x204; Complete 0; Complete 2].

Lemma bridge_answers_all_witness :
  let st := start (0 : Z) in
  (exists st', run_ops map_to_list st full_ops = Ok st' /\ portBlocks (fst st') = 1 /\ (accepted (calls (fst st'))).*1 = [0; 1; 2] /\
     (performed (calls (fst st'))).*1 = [0; 1; 2] /\ (answered (calls (fst st'))).*1 = [1; 0; 2]) /\
  exists st', run_ops map_to_list st full_ops = Ok st' /\ pending_requests (fst st') = ∅ /\
    (answered (calls (fst st'))).*1 ≡ₚ (accepted (calls (fst st'))).*1 /\ (performed (calls (fst st'))).*1 ≡ₚ (accepted (calls (fst st'))).*1.
Proof.
  intros st. split; [by eexists; split; [vm_compute; reflexivity|]|].
  destruct (bridge_answers_all map_to_list 5 [3] 3 64 2 500 [true] demo_bridge (mkWorld _ _ _ (0 : Z) [] ∅ 1000 0) full_ops) as (st' & Hr & Hall).
  - reflexivity.
  - done.
  - repeat constructor.
  - apply all_legalb_sound; [done|]. by vm_compute.
  - exists st'. split; [exact Hr|]. apply Hall. assert (Hids : (accepted (calls (fst st'))).*1 = [0; 1; 2]).
    { revert Hr. vm_compute. by intros [= <-]. }
    rewrite Hids. clear. intros i Hi. rewrite !elem_of_cons, elem_of_nil in Hi. destruct Hi as [->|[->|[->|[]]]].
    + split; [eexists; by apply (list_elem_of_lookup_2 _ 5)|by apply (list_elem_of_lookup_2 _ 7)].
    + split; [eexists; by apply (list_elem_of_lookup_2 _ 3)|by apply (list_elem_of_lookup_2 _ 4)].
    + split; [eexists; by apply (list_elem_of_lookup_2 _ 6)|by apply (list_elem_of_lookup_2 _ 8)].
Defined.

(** ** A functional read and a write that is held back

    A write that is committed and waits for an older one is in its packet only,
    like one that is not committed; a functional read does not look there. *)

Definition held_ops : list (@Op Word (gmap Z Z) (list Word) Z) :=
  [Offer (demo_store 0x100 1) 0; Offer (demo_store 0x104 2) 0; Commit 1 0x104].

Lemma functional_misses_held_back : exists st,
  run_ops map_to_list (start (0 : Z)) held_ops = Ok st /\
  is_held <$> pending_requests (fst st) !! 1 = Some true /\
  fst (handleFunctional map_to_list (demo_load 0x104) st) = mkWord false 0x104 0 true /\
  (forall st1, onCommit 0 0x100 st = Ok st1 -> fst (handleFunctional map_to_list (demo_load 0x104) st1) = mkWord false 0x104 2 true).
Proof.
  eexists. split; [vm_compute; reflexivity|]. split; [by vm_compute|]. split; [by vm_compute|].
  intros st1. vm_compute. by intros [= <-].
Qed.
